(* ===== verification/_CoqProject ===== *)
-Q . S2P
Prelude.v
Cipher.v
Arc4.v
SecTypes.v
Crc32.v
Wep.v
WfList.v
WdnTypes.v
IdPool.v
Wdn.v
Mic.v
Tkip.v
Sec.v
Ies.v
Rsn.v
Wlan.v
Ie.v
Timer.v
Reorder.v
Rx.v
Msg.v
Typed.v
Io.v
Mgmt.v
Request.v
Action.v
Scan.v
Auth.v
ApMsg.v
AuthAp.v
Assoc.v
Mlme.v
MlmeNet.v
MlmeConn.v
MlmeReach.v
TxTypes.v
TxFrame.v
TxDesc.v
TxQueue.v
RxPath.v
RxAgg.v
RxSkb.v
NetList.v
Air.v
