(* ===== verification/Prelude.v ===== *)
(** * SmartChip S9188 Wi-Fi driver: verification library

    The driver of the S9188 USB/SDIO Wi-Fi chip has a portable core in
    [src/trunk_driver/nic/] and a port per operating system in
    [src/trunk_driver/os/].  This library verifies the core, in the
    configuration of the default build: Linux, little endian,
    [CONFIG_RICHV200], access point, ad-hoc and monitor mode on, [CONFIG_LPS],
    [CONFIG_MP_MODE] and software aggregation off, [RX_REORDER_THREAD_EN] 0.

    ** The program

    Receiving.  A frame from the chip carries a receive descriptor.  [rx.c]
    checks its length against the descriptor, parses the header, finds the node
    of the sender in the table of [wdn.c], refuses frames that are not for this
    device and retries it has seen, has [sec.c] decrypt the frame ([sec_wep.c],
    [sec_tkip.c] over [sec_arc4.c]) and, under a block acknowledgment, holds
    it until the frames before it have come.

    Managing.  Management frames carry information elements, which
    [wf_80211.c] finds and parses and [ie.c] stores in the node.  Frames and
    requests become messages, from the pools of [wf_msg.c] and [ap.c], for
    threads written as protothreads ([wf_pt.h]): [scan.c] looks for networks,
    [auth.c] and [assoc.c] join one, [mlme.c] runs them and keeps the
    connection, and [auth.c] answers a station as an access point.  [action.c]
    agrees on block acknowledgments.

    Sending.  A packet of the operating system gets a frame of the pool in
    [tx.c] and waits; a task of the port takes a buffer, has the packet
    classified, framed, protected and described, and gives it to the bus, whose
    completion returns the buffer.  Management frames have buffers of their own.

    The components are linked by intrusive lists and queues
    ([utility/wf_list.h], [wf_que.c]), timers ([wf_timer.h]) and messages.

    ** How the code is modelled

    - Integers are [Z]; every conversion to a narrower type is written out with
      [u8], [u16], [u32], [u64], [s8], [s32].  Buffers are lists of bytes.
    - A function that reads or writes memory returns an outcome of type [C]:
      [Ret] with its result, [Fault] for an access outside the object, [Stuck]
      for a loop out of fuel or one that never ends.  "Returns" in a theorem
      always means [Ret].
    - Code that calls the chip, the operating system or a component modelled
      elsewhere is a tree of calls ([Io.io]); [runs] relates it to the calls
      made with their answers, and [wp] states what holds for every answer.
    - A protothread is a function from its state, at each point where it waits,
      to a block that runs up to the next such point; a thread's run is a
      sequence of blocks.
    - Structures are records with the fields the modelled code uses; state is
      passed explicitly.  Pointers to nodes, frames and messages are addresses
      or indexes; the links of lists are a heap of [next] and [prev] pointers in
      [WfList], and sequences in the components above it, which
      [WfList.que_refines] justifies.
    - Worlds of a step relation carry, beside the state of the code, what is
      outside it: messages and buffers others hold, packets handed over.
    - The transmit buffer is the bytes from its aligned start on; a descriptor
      is its five words.
    - The clock, the tick conversions, the allocator's results and values of
      indeterminate locals are arguments.  Locks and log output are left out:
      each call is one atomic step, and interleavings are sequences of calls.

    ** Files

    - [Prelude]: integers, outcomes, buffers, little-endian words, bit fields,
      the hint database [wf] and tactics.
    - [Cipher] (interface), [Arc4]: class [StreamCipher] states what WEP and
      TKIP need of a stream cipher, [Arc4.arc4_cipher] is the instance for
      [sec_arc4.c].
    - [SecTypes]: [sec_info_st], the security part of [struct xmit_frame] and
      of a received packet.  [Crc32], [Wep]: [sec_wep.c].  [Mic]: Michael in
      [sec.c].  [Tkip]: [sec_tkip.c] and the packet number macros of [tx.h] and
      [sec.h].  [Sec]: [wf_sec_encrypt], [wf_sec_decryptor].
    - [WfList]: [wf_list.h], [wf_que.h], [wf_que.c].
    - [WdnTypes]: [wdn_net_info_st] and the structures in it, [hw_info_st].
      [IdPool]: class [IdPool] of node identifiers and its instance, the bit
      map of [wdn.c].  [Wdn]: the node table of [wdn.c] over any [IdPool].
    - [Ies]: searching and writing elements.  [Rsn]: RSN, WPA and WMM parsers
      and surveys.  [Wlan]: channels, SNAP, BSSID, WPS.  [Ie]: the updates of
      [ie.c] and [wf_wdn_data_update].
    - [Timer]: [wf_timer.h].  [Reorder]: the reordering of [rx.c].  [Rx]:
      descriptor, header, acceptance and signal levels of [rx.c].  [Msg]:
      [wf_msg.h], [wf_msg.c].
    - [Io]: trees of calls, protothreads.  [Typed]: queues of typed messages.  [Mgmt]:
      headers of management frames.  [Request]: the queues that drive the
      station's authentication and association.
    - [Action]: block acknowledgment frames of [action.c].  [Scan]: [scan.c].
      [Auth]: the station's side of [auth.c].  [ApMsg]: messages of [ap.c].
      [AuthAp]: the access point's side of [auth.c].  [Assoc]: the station's
      side of [assoc.c].
    - [Mlme]: the blocks of the management thread of [mlme.c].  [MlmeNet]: the
      network it stores.  [NetList]: the table of networks of [wlan_mgmt.c]
      and the loop of its readers in [wlan_mgmt.h].
      [MlmeConn]: what each block keeps of the protocol of a
      connection.  [MlmeReach]: its runs.
    - [TxTypes]: [struct xmit_frame].  [TxFrame]: classifying and framing
      packets.  [TxDesc]: descriptors, rates and queues of the chip.
      [TxQueue]: pools, queues, the sending task of [os/linux/tx_linux.c] and
      the handler of packets of [os/linux/netdev/ndev_linux.c].
    - [RxPath]: the receive path of [rx.c] and [os/linux/rx_linux.c].  [RxAgg]:
      aggregates, A-MSDUs and fragments on it.  [RxSkb]: the buffers of the
      operating system on it.  [Air]: the transmit side of one driver and the
      receive side of another.

    ** Theorems

    - Management thread: over all its runs in infrastructure operation with
      names that fit, scans, authentications and associations follow one another
      as the protocol has them, a silent peer is left with the frame that says so,
      and the network stored is the one heard.
    - Joining: what the scan sends, stores and cleans up; the verdicts of
      authentication and association against the frames received; the frames
      sent; a shared-key handshake between station and access point; which
      challenge is accepted; that each request gets its answer and its message
      goes back to the pool.
    - Networks heard: every node of the table stays in one of its queues, the
      networks are sorted by strength with no BSSID twice, and the lock follows the
      readers; an accepted frame is recorded; the parser stays in its arrays except
      for security elements of 63 and 64 bytes and the mesh test of a p2p device; a
      network that is gone is kept for up to 5 * 2 ^ 24 scans unless a reader
      comes by, and after one for the lower byte of what was left; throwing all away never
      returns.
    - Sending: a packet becomes the frame of the standard; framing stays inside
      the buffer; descriptors hold exactly the fields of frame and node; frames,
      buffers and packets are conserved over all runs; a bus that accepts empties
      the queue in order, each frame written before its packet is freed, one that
      refuses keeps the task running.
    - Both sides: a packet sent, encrypted and received comes out as it was.
    - Receiving: a buffer of the bus with several frames is the frames one after
      the other; an A-MSDU is its packets in order; every buffer allocated is
      given away exactly once, and besides only indeterminate pointers of packets
      that are not frames; a packet in two fragments is lost.
    - Reordering: under any sequence of frames and timeouts the code returns and
      equals a reorder buffer over unbounded sequence numbers, hands frames up in
      increasing order, accounts for every frame and keeps its 64 nodes; frames
      displaced by less than the window are all delivered in order.
    - Tables and queues: rule induction over all reachable states for the node
      table and the message queues; the pointer queue refines a sequence; what
      adding, removing, pushing and popping do.
    - Ciphers: frames encrypted by WEP and TKIP are accepted and restored, the
      verdict of decryption, distinctness of TKIP packet keys, Michael and
      CRC-32 against their specifications, the ARC4 state.
    - Elements: on well-formed sequences searches find the first element and
      parsers read back encoded elements; on arbitrary bytes the bounds that
      hold, and those that do not; the negotiated HT capability; what a node
      holds after each update.
    - Received frames: the descriptor is read back from its bit layout, accepted
      lengths are inside the buffer, which frames are accepted, header lengths,
      and that signal levels are percentages.

    ** Fuel

    Each search takes two bytes or more per step over a 16-bit length, so
    32768 steps suffice ([ies_fuel], [survey_fuel]); the upload and drain loops
    of the reordering take one node per step and have one more step than nodes;
    the padding of Michael takes at most three steps of its four.  Framing has a
    pass per byte of the packet and takes at most seven; clearing and sending
    the transmit queue take one pass per waiting frame and one more; a buffer of
    the bus is taken apart in passes of at least 64 bytes, an A-MSDU in at most
    65 subframes; the elements of a beacon take one pass each.  A call of
    a thread runs within a number of blocks that the theorems name: for a scan
    7233 and one per pending message, for the station's authentication 22 and
    one per message, for the access point's 5 and two per message, for an
    association 11 and one per message, for the management thread 19.  The
    theorems show [Ret], so the fuel is part of what is proved.

    ** Not modelled

    - Firmware download, register access and the mailbox of [mcu_cmd.c] and
      [nic_io.c], [hw_info.c] and [efuse.c], the radio tuning of [ars/] and the
      ports beyond the data path of Linux are input and output: their
      results come from the chip, and nothing in the sources specifies them.
    - [lps.c], software aggregation and the layout of the older chip are not
      built by default; [src/RT-Thread/] is a vendored system with an older copy
      of the driver.
    - Of modelled files: the threads of [ap.c] and [assoc.c] that associate and
      keep a station of an access point, [adhoc.c], [p2p/], the outer loop and
      the end of [mlme.c], the dispatch of frames and the start of [wlan_mgmt.c], the traffic statistics and the end of [tx.c], and
      [wf_rx_term].
    - Handlers that run at the same time on several processors: locks make each
      queue operation one step, but the code between them is taken as one. *)
From Stdlib Require Export ZArith Lia Bool.
From stdpp Require Export base numbers gmap sets list.

#[export] Set Default Goal Selector "!".
Open Scope Z_scope.

(** ** Machine integers

    The driver's [wf_u8], [wf_u16], [wf_u32], [wf_u64] and the signed
    [wf_s8], [wf_s32] are kept as [Z] with the conversion of an out-of-range
    value written out. *)

Definition u8 (x : Z) : Z := x mod 256.
Definition u16 (x : Z) : Z := x mod 65536.
Definition u32 (x : Z) : Z := x mod 4294967296.
Definition u64 (x : Z) : Z := x mod 18446744073709551616.
Definition s8 (x : Z) : Z := (x + 128) mod 256 - 128.
Definition s32 (x : Z) : Z := (x + 2147483648) mod 4294967296 - 2147483648.

(** [BIT(n)] / [WF_BIT(n)] of the sources. *)
Definition BIT (n : Z) : Z := Z.shiftl 1 n.

(** A C condition: an integer is true when it is not zero. *)
Definition nz (x : Z) : bool := negb (x =? 0).

Definition is_u8 (x : Z) : Prop := 0 <= x < 256.
Definition is_u16 (x : Z) : Prop := 0 <= x < 65536.
Definition is_u32 (x : Z) : Prop := 0 <= x < 4294967296.

(** A buffer of bytes. *)
Definition bytes_ok (l : list Z) : Prop := Forall is_u8 l.

(** ** Outcomes of C code

    [Ret a] is a normal return.  [Fault] is an access outside the object the
    pointer points into.  [Stuck] is a loop that has used up the fuel the
    model gives it: a theorem that says a function returns shows that its
    outcome is a [Ret], so neither a fault nor an endless loop satisfies it. *)

Inductive C (A : Type) : Type :=
  | Ret (a : A)
  | Fault
  | Stuck.
Arguments Ret {A} a.
Arguments Fault {A}.
Arguments Stuck {A}.

Definition cbind {A B} (m : C A) (k : A -> C B) : C B :=
  match m with
  | Ret a => k a
  | Fault => Fault
  | Stuck => Stuck
  end.

Declare Scope c_scope.
Delimit Scope c_scope with c.
Notation "'letc' p := e 'in' k" := (cbind e (fun p => k))
  (at level 10, p pattern, e at level 200, k at level 200,
   format "'[' 'letc'  p  :=  e  'in' ']' '//' k") : c_scope.
Open Scope c_scope.

Definition of_option {A} (o : option A) : C A :=
  match o with
  | Some a => Ret a
  | None => Fault
  end.

(** [buf[i]], a fault outside the buffer. *)
Definition rd (buf : list Z) (i : Z) : C Z :=
  if i <? 0 then Fault else of_option (buf !! Z.to_nat i).

(** [buf[i] = v], a fault outside the buffer. *)
Definition wr (buf : list Z) (i v : Z) : C (list Z) :=
  if (0 <=? i) && (i <? Z.of_nat (length buf))
  then Ret (<[Z.to_nat i := v]> buf) else Fault.

(** The [n] bytes at offset [i], a fault when they are not all in the buffer. *)
Definition slice (buf : list Z) (i n : Z) : C (list Z) :=
  if (0 <=? i) && (0 <=? n) && (i + n <=? Z.of_nat (length buf))
  then Ret (take (Z.to_nat n) (drop (Z.to_nat i) buf)) else Fault.

(** [memcpy(buf + i, src, length src)]. *)
Definition blit (buf : list Z) (i : Z) (src : list Z) : C (list Z) :=
  if (0 <=? i) && (i + Z.of_nat (length src) <=? Z.of_nat (length buf))
  then Ret (take (Z.to_nat i) buf ++ src ++
            drop (Z.to_nat i + length src)%nat buf)
  else Fault.

(** An array of fixed size read or written at an index that the code has
    already masked into the array. *)
Definition nthZ (l : list Z) (i : Z) : Z := l !!! Z.to_nat i.
Definition setZ (l : list Z) (i v : Z) : list Z := <[Z.to_nat i := v]> l.

(** ** Bytes and words *)

(** [n] little-endian bytes of [x], and back. *)
Fixpoint le_bytes (n : nat) (x : Z) : list Z :=
  match n with
  | O => []
  | S n => x mod 256 :: le_bytes n (x / 256)
  end.

Fixpoint le_word (l : list Z) : Z :=
  match l with
  | [] => 0
  | b :: l => b + 256 * le_word l
  end.

(** A big-endian word. *)
Definition be_word (l : list Z) : Z := le_word (rev l).

(** [memcmp(a, b, n) == 0] on two byte lists. *)
Definition bytes_eqb (a b : list Z) : bool := bool_decide (a = b).

(** ** Lemmas on words *)

Lemma land_255 x : Z.land x 255 = u8 x.
Proof. exact (Z.land_ones x 8 ltac:(lia)). Qed.

Lemma land_65535 x : Z.land x 65535 = u16 x.
Proof. exact (Z.land_ones x 16 ltac:(lia)). Qed.

Lemma land_4095 x : Z.land x 4095 = x mod 4096.
Proof. exact (Z.land_ones x 12 ltac:(lia)). Qed.

Lemma land_u32 x : Z.land x 4294967295 = u32 x.
Proof. exact (Z.land_ones x 32 ltac:(lia)). Qed.

Lemma u8_range x : is_u8 (u8 x).
Proof. unfold is_u8, u8. apply Z.mod_pos_bound. lia. Qed.

Lemma u16_range x : is_u16 (u16 x).
Proof. unfold is_u16, u16. apply Z.mod_pos_bound. lia. Qed.

Lemma u32_range x : is_u32 (u32 x).
Proof. unfold is_u32, u32. apply Z.mod_pos_bound. lia. Qed.

Lemma u8_id x : is_u8 x -> u8 x = x.
Proof. apply Z.mod_small. Qed.

Lemma u16_id x : is_u16 x -> u16 x = x.
Proof. apply Z.mod_small. Qed.

Lemma u32_id x : is_u32 x -> u32 x = x.
Proof. apply Z.mod_small. Qed.

(** The range of a bitwise operation on [n]-bit operands. *)
Lemma bits_lt n x : 0 <= n -> 0 <= x ->
  (forall i, n <= i -> Z.testbit x i = false) -> x < 2 ^ n.
Proof.
  intros Hn Hx Hbits. destruct (decide (x = 0)) as [-> | Hne].
  { apply Z.pow_pos_nonneg; lia. }
  apply Z.log2_lt_pow2; [lia |].
  destruct (decide (Z.log2 x < n)) as [| Hge]; [done |].
  pose proof (Z.bit_log2 x ltac:(lia)) as Ht.
  rewrite Hbits in Ht by lia. done.
Qed.

Lemma testbit_high n x i : 0 <= x < 2 ^ n -> n <= i -> Z.testbit x i = false.
Proof.
  intros Hx Hi. destruct (decide (n < 0)) as [Hneg |].
  { rewrite Z.pow_neg_r in Hx by done. lia. }
  destruct (decide (x = 0)) as [-> | Hne]; [apply Z.bits_0 |].
  apply Z.bits_above_log2; [lia |].
  apply Z.lt_le_trans with n; [| done]. apply Z.log2_lt_pow2; lia.
Qed.

Lemma lxor_range n x y : 0 <= n -> 0 <= x < 2 ^ n -> 0 <= y < 2 ^ n ->
  0 <= Z.lxor x y < 2 ^ n.
Proof.
  intros Hn Hx Hy. split; [apply Z.lxor_nonneg; lia |].
  apply bits_lt; [lia | apply Z.lxor_nonneg; lia |].
  intros i Hi. rewrite Z.lxor_spec, !(testbit_high n) by lia. done.
Qed.

Lemma lor_range n x y : 0 <= n -> 0 <= x < 2 ^ n -> 0 <= y < 2 ^ n ->
  0 <= Z.lor x y < 2 ^ n.
Proof.
  intros Hn Hx Hy. split; [apply Z.lor_nonneg; lia |].
  apply bits_lt; [lia | apply Z.lor_nonneg; lia |].
  intros i Hi. rewrite Z.lor_spec, !(testbit_high n) by lia. done.
Qed.

Lemma lxor_u8 x y : is_u8 x -> is_u8 y -> is_u8 (Z.lxor x y).
Proof. apply (lxor_range 8). lia. Qed.

Lemma lxor_u16 x y : is_u16 x -> is_u16 y -> is_u16 (Z.lxor x y).
Proof. apply (lxor_range 16). lia. Qed.

Lemma lxor_u32 x y : is_u32 x -> is_u32 y -> is_u32 (Z.lxor x y).
Proof. apply (lxor_range 32). lia. Qed.

Lemma lor_u32 x y : is_u32 x -> is_u32 y -> is_u32 (Z.lor x y).
Proof. apply (lor_range 32). lia. Qed.

(** Disjoint bits: a value below [2 ^ n] put under one shifted by [n]. *)
Lemma lor_shiftl_low h b n : 0 <= n -> 0 <= b < 2 ^ n ->
  Z.lor (Z.shiftl h n) b = h * 2 ^ n + b.
Proof.
  intros Hn Hb.
  assert (Hd : Z.land (Z.shiftl h n) b = 0).
  { apply Z.bits_inj'. intros i Hi. rewrite Z.land_spec, Z.bits_0.
    destruct (decide (i < n)).
    - by rewrite Z.shiftl_spec_low by done.
    - rewrite (testbit_high n b) by lia. apply andb_false_r. }
  rewrite <- Z.lxor_lor, <- Z.add_nocarry_lxor by done.
  by rewrite Z.shiftl_mul_pow2.
Qed.

Lemma lor_low_shiftl b h n : 0 <= n -> 0 <= b < 2 ^ n ->
  Z.lor b (Z.shiftl h n) = b + h * 2 ^ n.
Proof. intros Hn Hb. rewrite Z.lor_comm, lor_shiftl_low by done. lia. Qed.

Lemma lxor_cancel x y : Z.lxor (Z.lxor x y) y = x.
Proof. by rewrite Z.lxor_assoc, Z.lxor_nilpotent, Z.lxor_0_r. Qed.

Lemma testbit_BIT i j : 0 <= i -> Z.testbit (BIT i) j = bool_decide (i = j).
Proof.
  intros Hi. unfold BIT. rewrite Z.shiftl_mul_pow2, Z.mul_1_l by done.
  destruct (decide (i = j)) as [-> |].
  - by rewrite Z.pow2_bits_true, bool_decide_eq_true_2.
  - by rewrite Z.pow2_bits_false, bool_decide_eq_false_2.
Qed.

Lemma land_BIT b i : 0 <= i -> nz (Z.land b (BIT i)) = Z.testbit b i.
Proof.
  intros Hi. unfold nz. destruct (Z.eqb_spec (Z.land b (BIT i)) 0) as [E | E]; cbn [negb].
  - apply (f_equal (fun x => Z.testbit x i)) in E. rewrite Z.land_spec, testbit_BIT, Z.bits_0 in E by done.
    by rewrite bool_decide_eq_true_2, andb_true_r in E.
  - destruct (Z.testbit b i) eqn:T; [done |]. exfalso. apply E. apply Z.bits_inj'.
    intros j Hj. rewrite Z.land_spec, testbit_BIT, Z.bits_0 by done.
    case_bool_decide; [subst; by rewrite T | apply andb_false_r].
Qed.

Lemma testbit_u32 x j : 0 <= j < 32 -> Z.testbit (u32 x) j = Z.testbit x j.
Proof. intros. unfold u32. change 4294967296 with (2 ^ 32). apply Z.mod_pow2_bits_low. lia. Qed.

Lemma land_BIT_val b i : 0 <= i -> Z.land b (BIT i) = if Z.testbit b i then BIT i else 0.
Proof.
  intros Hi. apply Z.bits_inj'. intros j Hj. rewrite Z.land_spec, testbit_BIT by done.
  destruct (Z.testbit b i) eqn:T; rewrite ?testbit_BIT, ?Z.bits_0 by done;
    case_bool_decide; subst; rewrite ?T, ?andb_false_r; done.
Qed.

Lemma testbit_u16 x j : 0 <= j < 16 -> Z.testbit (u16 x) j = Z.testbit x j.
Proof. intros. unfold u16. change 65536 with (2 ^ 16). apply Z.mod_pow2_bits_low. lia. Qed.

(** Masks inside the low byte are not affected by the conversion to it. *)
Lemma u8_land x m : 0 <= m < 256 -> u8 (Z.land x m) = Z.land x m.
Proof.
  intros Hm. rewrite <- land_255, <- Z.land_assoc. f_equal. rewrite land_255. by apply u8_id.
Qed.

Lemma land_127 x : Z.land x 127 = x mod 128.
Proof. exact (Z.land_ones x 7 ltac:(lia)). Qed.

(** ** Lemmas on byte lists *)

Lemma length_le_bytes n x : length (le_bytes n x) = n.
Proof. revert x. induction n; simpl; auto. Qed.

Lemma le_bytes_ok n x : bytes_ok (le_bytes n x).
Proof.
  revert x. induction n; intros x; simpl; constructor; [| apply IHn].
  apply u8_range.
Qed.

Lemma le_word_bytes n x : le_word (le_bytes n x) = x mod 256 ^ Z.of_nat n.
Proof.
  revert x. induction n as [| n IH]; intros x.
  { simpl. by rewrite Z.mod_1_r. }
  cbn [le_bytes le_word]. rewrite IH, Nat2Z.inj_succ, Z.pow_succ_r by lia.
  rewrite Z.rem_mul_r; lia.
Qed.

Lemma le_bytes_word l : bytes_ok l -> le_bytes (length l) (le_word l) = l.
Proof.
  induction 1 as [| b l Hb _ IH]; [done |]. cbn [length le_bytes le_word].
  unfold is_u8 in Hb. f_equal.
  - rewrite Z.mul_comm, Z.mod_add by lia. by apply Z.mod_small.
  - rewrite Z.mul_comm, Z.div_add by lia. rewrite Z.div_small by done. apply IH.
Qed.

Lemma le_word_range l : bytes_ok l -> 0 <= le_word l < 256 ^ Z.of_nat (length l).
Proof.
  induction 1 as [| b l Hb _ IH]; [simpl; lia |].
  cbn [length le_word]. unfold is_u8 in Hb.
  rewrite Nat2Z.inj_succ, Z.pow_succ_r by lia. lia.
Qed.

Lemma le_word_snoc l b : le_word (l ++ [b]) = le_word l + 256 ^ Z.of_nat (length l) * b.
Proof.
  induction l as [| c l IH]; cbn [app le_word length]; [simpl; lia |].
  rewrite IH, Nat2Z.inj_succ, Z.pow_succ_r by lia. lia.
Qed.

Lemma le_bytes_u32 x : is_u32 x -> le_word (le_bytes 4 x) = x.
Proof. intros Hx. rewrite le_word_bytes. by apply Z.mod_small. Qed.

Lemma bytes_ok_app a b : bytes_ok (a ++ b) <-> bytes_ok a /\ bytes_ok b.
Proof. apply Forall_app. Qed.

(** Deciding [bytes_ok] on a concrete buffer. *)
Definition bytes_okb (l : list Z) : bool := forallb (fun b => (0 <=? b) && (b <? 256)) l.

Lemma bytes_okb_ok l : bytes_okb l = true -> bytes_ok l.
Proof.
  induction l as [| b l IH]; [constructor |]. cbn [bytes_okb forallb].
  intros [[H1 H2]%andb_prop H3]%andb_prop. constructor; [| by apply IH].
  apply Z.leb_le in H1. by apply Z.ltb_lt in H2.
Qed.

Lemma bytes_eqb_refl a : bytes_eqb a a = true.
Proof. by apply bool_decide_eq_true. Qed.

(** ** Lemmas on memory accesses *)

Lemma rd_Ret buf i : 0 <= i < Z.of_nat (length buf) ->
  exists v, rd buf i = Ret v /\ buf !! Z.to_nat i = Some v.
Proof.
  intros Hi. unfold rd.
  destruct (Z.ltb_spec i 0); [lia |].
  destruct (lookup_lt_is_Some_2 buf (Z.to_nat i)) as [v Hv]; [lia |].
  rewrite Hv. eauto.
Qed.

Lemma rd_nthZ buf i : 0 <= i < Z.of_nat (length buf) -> rd buf i = Ret (nthZ buf i).
Proof.
  intros Hi. unfold rd. destruct (Z.ltb_spec i 0); [lia |].
  unfold nthZ. by rewrite list_lookup_lookup_total_lt by lia.
Qed.

Lemma slice_Ret buf i n : 0 <= i -> 0 <= n -> i + n <= Z.of_nat (length buf) ->
  slice buf i n = Ret (take (Z.to_nat n) (drop (Z.to_nat i) buf)).
Proof.
  intros Hi Hn Hl. unfold slice.
  by rewrite (proj2 (Z.leb_le _ _) Hi), (proj2 (Z.leb_le _ _) Hn), (proj2 (Z.leb_le _ _) Hl).
Qed.

Lemma rd_app_mid a b c i :
  i = Z.of_nat (length a) -> rd (a ++ b :: c) i = Ret b.
Proof.
  intros ->. unfold rd. destruct (Z.ltb_spec (Z.of_nat (length a)) 0); [lia |].
  by rewrite Nat2Z.id, list_lookup_middle.
Qed.

Lemma slice_app_mid a b c i n :
  i = Z.of_nat (length a) -> n = Z.of_nat (length b) ->
  slice (a ++ b ++ c) i n = Ret b.
Proof.
  intros -> ->. unfold slice. rewrite !length_app.
  destruct (Z.leb_spec 0 (Z.of_nat (length a))); [| lia].
  destruct (Z.leb_spec 0 (Z.of_nat (length b))); [| lia].
  destruct (Z.leb_spec (Z.of_nat (length a) + Z.of_nat (length b))
              (Z.of_nat (length a + (length b + length c)))); [| lia].
  simpl. by rewrite !Nat2Z.id, drop_app_length, take_app_length.
Qed.

Lemma slice_app_l a b i n : 0 <= i -> 0 <= n -> i + n <= Z.of_nat (length a) ->
  slice (a ++ b) i n = Ret (take (Z.to_nat n) (drop (Z.to_nat i) a)).
Proof.
  intros Hi Hn Hl. rewrite slice_Ret by (rewrite ?length_app; lia).
  rewrite drop_app_le, take_app_le by (rewrite ?length_drop; lia). done.
Qed.

Lemma blit_app_mid a b c i src :
  i = Z.of_nat (length a) -> length src = length b ->
  blit (a ++ b ++ c) i src = Ret (a ++ src ++ c).
Proof.
  intros -> Hlen. unfold blit. rewrite !length_app, Hlen.
  destruct (Z.leb_spec 0 (Z.of_nat (length a))); [| lia].
  destruct (Z.leb_spec (Z.of_nat (length a) + Z.of_nat (length b))
              (Z.of_nat (length a + (length b + length c)))); [| lia].
  simpl. rewrite Nat2Z.id, take_app_length. do 3 f_equal.
  rewrite app_assoc, <- length_app. apply drop_app_length.
Qed.

Lemma wr_app_mid a b c i v : i = Z.of_nat (length a) -> wr (a ++ b :: c) i v = Ret (a ++ v :: c).
Proof.
  intros ->. unfold wr. rewrite length_app. cbn [length].
  destruct (Z.leb_spec 0 (Z.of_nat (length a))); [| lia].
  destruct (Z.ltb_spec (Z.of_nat (length a)) (Z.of_nat (length a + S (length c)))); [| lia].
  cbn [andb]. rewrite Nat2Z.id, <- (Nat.add_0_r (length a)), insert_app_r. done.
Qed.

Lemma wr_length buf i v buf' : wr buf i v = Ret buf' -> length buf' = length buf.
Proof.
  unfold wr. destruct (_ && _); [| done]. intros [= <-]. apply length_insert.
Qed.

(** ** Lemmas on fixed-size arrays *)

Lemma nthZ_lookup l i : 0 <= i < Z.of_nat (length l) ->
  l !! Z.to_nat i = Some (nthZ l i).
Proof. intros Hi. apply list_lookup_lookup_total_lt. lia. Qed.

Lemma nthZ_Forall (P : Z -> Prop) l i :
  Forall P l -> 0 <= i < Z.of_nat (length l) -> P (nthZ l i).
Proof.
  intros Hl Hi. rewrite Forall_lookup in Hl. eapply Hl. by apply nthZ_lookup.
Qed.

Lemma wr_setZ l i v : 0 <= i < Z.of_nat (length l) -> wr l i v = Ret (setZ l i v).
Proof.
  intros Hi. unfold wr, setZ. destruct (Z.leb_spec 0 i), (Z.ltb_spec i (Z.of_nat (length l))); try lia. done.
Qed.

Lemma setZ_length l i v : length (setZ l i v) = length l.
Proof. apply length_insert. Qed.

(** Exchanging two elements of an array permutes it. *)
Lemma swap_Permutation l i j :
  0 <= i < Z.of_nat (length l) -> 0 <= j < Z.of_nat (length l) ->
  Permutation (setZ (setZ l j (nthZ l i)) i (nthZ l j)) l.
Proof.
  intros Hi Hj. apply Permutation_inj. split.
  { by rewrite !setZ_length. }
  set (ni := Z.to_nat i) in *. set (nj := Z.to_nat j) in *.
  exists (fun k => if decide (k = ni) then nj else if decide (k = nj) then ni else k).
  split.
  { intros a b. repeat case_decide; lia. }
  intros k. unfold setZ. fold ni nj.
  destruct (decide (k = ni)) as [-> | Hki].
  { rewrite list_lookup_insert_eq; [symmetry; by apply nthZ_lookup |].
    rewrite length_insert. lia. }
  rewrite list_lookup_insert_ne by done.
  destruct (decide (k = nj)) as [-> | Hkj].
  { rewrite list_lookup_insert_eq; [symmetry; by apply nthZ_lookup | lia]. }
  by rewrite list_lookup_insert_ne.
Qed.

(** ** Bit fields *)

(** The [n] bits of [w] from bit [lo] on, as a C bit field reads them. *)
Definition field (w lo n : Z) : Z := Z.land (Z.shiftr w lo) (Z.ones n).

(** The word with the given fields (width and value), lowest first, and where
    the [k]-th of them starts. *)
Fixpoint pack (fs : list (Z * Z)) : Z :=
  match fs with
  | [] => 0
  | (n, f) :: fs => f + 2 ^ n * pack fs
  end.

Fixpoint field_offset (k : nat) (fs : list (Z * Z)) : Z :=
  match k, fs with
  | S k, (n, _) :: fs => n + field_offset k fs
  | _, _ => 0
  end.

Definition fits_width (f : Z * Z) : Prop := 0 <= fst f /\ 0 <= snd f < 2 ^ fst f.

Lemma field_offset_nonneg k fs : Forall fits_width fs -> 0 <= field_offset k fs.
Proof.
  revert k. induction fs as [| [n f] fs IH]; intros [| k] Hf; cbn [field_offset]; try lia.
  apply Forall_cons in Hf as [[Hn _] Hf]. cbn [fst] in Hn. specialize (IH k Hf). lia.
Qed.

Lemma field_pack fs k n f : Forall fits_width fs -> fs !! k = Some (n, f) ->
  field (pack fs) (field_offset k fs) n = f.
Proof.
  unfold field. revert k. induction fs as [| [m g] fs IH]; intros k Hf Hk; [done |].
  apply Forall_cons in Hf as [[Hm Hg] Hf]. cbn [fst snd] in Hm, Hg.
  destruct k as [| k]; cbn [pack field_offset].
  - injection Hk as -> ->. rewrite Z.shiftr_0_r, Z.land_ones by done.
    rewrite Z.mul_comm, Z.mod_add by lia. by apply Z.mod_small.
  - pose proof (field_offset_nonneg k fs Hf). rewrite Z.add_comm, <- Z.shiftr_shiftr by lia.
    rewrite (Z.shiftr_div_pow2 _ m) by done.
    rewrite (Z.mul_comm (2 ^ m)), Z.add_comm, Z.div_add by lia. rewrite Z.div_small by done.
    by apply IH.
Qed.

Lemma field_range w lo n : 0 <= n -> 0 <= field w lo n < 2 ^ n.
Proof. intros Hn. unfold field. rewrite Z.land_ones by done. apply Z.mod_pos_bound. lia. Qed.

Lemma pack_range fs : Forall fits_width fs -> 0 <= pack fs < 2 ^ field_offset (length fs) fs.
Proof.
  induction fs as [| [n f] fs IH]; intros Hf; cbn [pack length field_offset]; [lia |].
  apply Forall_cons in Hf as [[Hn Hv] Hf]. cbn [fst snd] in Hn, Hv. specialize (IH Hf).
  pose proof (field_offset_nonneg (length fs) fs Hf). rewrite Z.pow_add_r by lia. nia.
Qed.

(** ** Automation *)

Create HintDb wf discriminated.
#[export] Hint Resolve u8_range u16_range u32_range lxor_u8 lxor_u16 lxor_u32
  lor_u32 le_bytes_ok : wf.
Create Rewrite HintDb wf.
#[export] Hint Rewrite land_255 land_65535 land_u32 length_le_bytes : wf.

(** Case analysis on the boolean comparisons of the goal and hypotheses. *)
Ltac zbool :=
  repeat match goal with
  | |- context [?a <? ?b] => destruct (Z.ltb_spec a b)
  | |- context [?a <=? ?b] => destruct (Z.leb_spec a b)
  | |- context [?a =? ?b] => destruct (Z.eqb_spec a b)
  | H : context [?a <? ?b] |- _ => destruct (Z.ltb_spec a b)
  | H : context [?a <=? ?b] |- _ => destruct (Z.leb_spec a b)
  | H : context [?a =? ?b] |- _ => destruct (Z.eqb_spec a b)
  end; cbn [andb orb negb] in *.

(** Splits a hypothesis [cbind m k = Ret v] into the steps that return. *)
Ltac cinv H :=
  repeat match type of H with
  | cbind ?m _ = Ret _ => let E := fresh "E" in
      destruct m eqn:E; cbn [cbind] in H; try discriminate H
  end.

(** Drops the conversions whose argument is in range, by [lia]. *)
Ltac unwrap :=
  repeat match goal with
  | |- context [u32 ?e] => rewrite (u32_id e) by (unfold is_u32; lia)
  | |- context [u16 ?e] => rewrite (u16_id e) by (unfold is_u16; lia)
  | |- context [u8 ?e] => rewrite (u8_id e) by (unfold is_u8; lia)
  end.

(** Evaluates reads of literal arrays at literal indices. *)
Ltac nthZ_simpl :=
  unfold nthZ in *;
  repeat match goal with
  | |- context [Z.to_nat ?k] => is_ground k;
      let v := eval vm_compute in (Z.to_nat k) in change (Z.to_nat k) with v
  | H : context [Z.to_nat ?k] |- _ => is_ground k;
      let v := eval vm_compute in (Z.to_nat k) in change (Z.to_nat k) with v in H
  end;
  cbn [lookup_total list_lookup_total] in *.
