(* ===== verification/Cipher.v ===== *)
(** * The stream cipher interface

    [sec_wep.c] and [sec_tkip.c] use ARC4 only through the two functions they
    declare [extern], [arc4_init] and [arc4_encrypt].  This class states what
    those two callers rely on; [Arc4.v] discharges it for the code of
    [sec_arc4.c], and the theorems of [Wep.v] and [Tkip.v] are proved against
    the class. *)
From S2P Require Import Prelude.

Class StreamCipher : Type := {
  sc_ctx : Type;
  (** the contexts a key schedule can produce *)
  sc_ok : sc_ctx -> Prop;
  (** [arc4_init(&ctx, key, key_len)] *)
  sc_init : list Z -> Z -> C sc_ctx;
  (** [arc4_encrypt(&ctx, dest, src, len)], with [src] the [len] input bytes;
      the result pairs the context after the call with the [len] bytes
      stored in [dest] *)
  sc_crypt : sc_ctx -> list Z -> sc_ctx * list Z;

  sc_init_ret key key_len :
    bytes_ok key -> 0 < key_len <= Z.of_nat (length key) ->
    exists c, sc_init key key_len = Ret c /\ sc_ok c;
  sc_crypt_ok c src : sc_ok c -> sc_ok (sc_crypt c src).1;
  sc_crypt_length c src : length (sc_crypt c src).2 = length src;
  sc_crypt_bytes c src : sc_ok c -> bytes_ok src -> bytes_ok (sc_crypt c src).2;
  (** encrypting in two calls is encrypting in one *)
  sc_crypt_app c a b :
    sc_crypt c (a ++ b) =
      ((sc_crypt (sc_crypt c a).1 b).1,
       (sc_crypt c a).2 ++ (sc_crypt (sc_crypt c a).1 b).2);
  (** the context after a call depends on the length of the input only *)
  sc_crypt_ctx c a b : length a = length b -> (sc_crypt c a).1 = (sc_crypt c b).1;
  (** decryption is encryption with the same key stream *)
  sc_crypt_involutive c src : (sc_crypt c (sc_crypt c src).2).2 = src;
}.
