(* ===== verification/Arc4.v ===== *)
(** * ARC4 ([nic/sec_arc4.c])

    The key schedule, the key stream generator and the encryption loop, the
    invariant that the state array stays a permutation of the 256 byte values,
    and the proof that the code implements the [StreamCipher] interface. *)
From S2P Require Import Prelude Cipher.

Module Arc4.

(** [struct arc4context] *)
Record arc4context : Type := mk_arc4context {
  x : Z;
  y : Z;
  state : list Z;
}.

(** The first loop of [arc4_init]: [state[counter] = (wf_u8) counter]. *)
Definition arc4_state0 : list Z := (fun n => u8 (Z.of_nat n)) <$> seq 0 256.

(** The second loop of [arc4_init], with [n] iterations left. *)
Fixpoint arc4_schedule (n : nat) (key : list Z) (key_len counter keyindex stateindex : Z)
    (st : list Z) : C (list Z) :=
  match n with
  | O => Ret st
  | S n =>
      let t := nthZ st counter in
      letc k := rd key keyindex in
      let stateindex := Z.land (u32 (u32 (stateindex + k) + t)) 255 in
      let u := nthZ st stateindex in
      let st := setZ st stateindex (u8 t) in
      let st := setZ st counter (u8 u) in
      let keyindex := u32 (keyindex + 1) in
      let keyindex := if key_len <=? keyindex then 0 else keyindex in
      arc4_schedule n key key_len (u32 (counter + 1)) keyindex stateindex st
  end.

Definition arc4_init (key : list Z) (key_len : Z) : C arc4context :=
  letc st := arc4_schedule 256 key key_len 0 0 0 arc4_state0 in
  Ret (mk_arc4context 0 0 st).

Definition arc4_byte (c : arc4context) : arc4context * Z :=
  let x' := Z.land (u32 (x c + 1)) 255 in
  let sx := nthZ (state c) x' in
  let y' := Z.land (u32 (sx + y c)) 255 in
  let sy := nthZ (state c) y' in
  let st := setZ (state c) y' (u8 sx) in
  let st := setZ st x' (u8 sy) in
  (mk_arc4context x' y' st, nthZ st (Z.land (u32 (sx + sy)) 255)).

(** [dest[i] = src[i] ^ (unsigned char)arc4_byte(parc4ctx)] for each byte. *)
Fixpoint arc4_encrypt (c : arc4context) (src : list Z) : arc4context * list Z :=
  match src with
  | [] => (c, [])
  | b :: src =>
      let '(c1, k) := arc4_byte c in
      let d := Z.lxor b (u8 k) in
      let '(c2, dest) := arc4_encrypt c1 src in
      (c2, d :: dest)
  end.

(** ** The state invariant *)

Definition byte_values : list Z := Z.of_nat <$> seq 0 256.

(** The state array holds every byte value once, and the two indices are in
    the array. *)
Definition ctx_ok (c : arc4context) : Prop :=
  is_u8 (x c) /\ is_u8 (y c) /\ Permutation (state c) byte_values.

Lemma byte_values_ok : bytes_ok byte_values.
Proof.
  apply Forall_fmap, Forall_seq. intros n Hn. unfold is_u8. cbn. lia.
Qed.

Lemma state0_values : arc4_state0 = byte_values.
Proof. vm_compute. reflexivity. Qed.

Section Perm.
Context (st : list Z) (Hst : Permutation st byte_values).

Lemma perm_length : length st = 256%nat.
Proof using Hst. by rewrite Hst. Qed.

Lemma perm_bytes : bytes_ok st.
Proof using Hst. unfold bytes_ok. rewrite Hst. apply byte_values_ok. Qed.

Lemma perm_nth i : is_u8 i -> is_u8 (nthZ st i).
Proof using Hst.
  intros Hi. apply nthZ_Forall; [apply perm_bytes |]. rewrite perm_length.
  unfold is_u8 in Hi. lia.
Qed.

(** The exchange both loops make. *)
Lemma perm_swap i j : is_u8 i -> is_u8 j ->
  Permutation (setZ (setZ st j (u8 (nthZ st i))) i (u8 (nthZ st j))) byte_values.
Proof using Hst.
  intros Hi Hj. rewrite !u8_id by (by apply perm_nth).
  rewrite swap_Permutation; [done | rewrite perm_length; unfold is_u8 in *; lia ..].
Qed.
End Perm.

#[local] Hint Resolve u8_range : core.

Lemma schedule_ret n key key_len counter keyindex stateindex st :
  0 < key_len <= Z.of_nat (length key) -> 0 <= keyindex < key_len ->
  keyindex <= counter -> counter + Z.of_nat n <= 256 ->
  Permutation st byte_values ->
  exists st', arc4_schedule n key key_len counter keyindex stateindex st = Ret st' /\
    Permutation st' byte_values.
Proof.
  intros Hlen. revert counter keyindex stateindex st.
  induction n as [| n IH]; intros counter ki si st Hki Hc Hn Hst; [by eauto |].
  cbn [arc4_schedule]. destruct (rd_Ret key ki) as (k & -> & _); [lia |].
  cbn [cbind]. autorewrite with wf. rewrite !(u32_id (_ + 1)) by (unfold is_u32; lia).
  apply IH; [zbool; lia | zbool; lia | lia |].
  apply perm_swap; [done | unfold is_u8; lia | done].
Qed.

Lemma arc4_init_ret key key_len :
  0 < key_len <= Z.of_nat (length key) ->
  exists c, arc4_init key key_len = Ret c /\ ctx_ok c.
Proof.
  intros Hlen. unfold arc4_init.
  destruct (schedule_ret 256 key key_len 0 0 0 arc4_state0) as (st & -> & Hst);
    [lia | lia | lia | lia | by rewrite state0_values |].
  exists (mk_arc4context 0 0 st). split; [done |]. repeat split; (done || lia).
Qed.

Lemma arc4_byte_ok c : ctx_ok c -> ctx_ok (arc4_byte c).1 /\ is_u8 (arc4_byte c).2.
Proof.
  intros (Hx & Hy & Hst). unfold arc4_byte. cbn [fst snd]. autorewrite with wf.
  assert (Hp : Permutation
    (setZ (setZ (state c) (u8 (u32 (nthZ (state c) (u8 (u32 (x c + 1))) + y c)))
       (u8 (nthZ (state c) (u8 (u32 (x c + 1))))))
       (u8 (u32 (x c + 1)))
       (u8 (nthZ (state c) (u8 (u32 (nthZ (state c) (u8 (u32 (x c + 1))) + y c))))))
    byte_values) by (by apply perm_swap).
  split; [by repeat split; cbn; try apply u8_range |].
  by apply perm_nth.
Qed.

Lemma arc4_encrypt_ok c src : ctx_ok c -> ctx_ok (arc4_encrypt c src).1.
Proof.
  revert c. induction src as [| b src IH]; intros c Hc; [done |].
  cbn [arc4_encrypt]. pose proof (proj1 (arc4_byte_ok c Hc)) as H1.
  destruct (arc4_byte c) as [c1 k]. specialize (IH c1 H1).
  by destruct (arc4_encrypt c1 src).
Qed.

Lemma arc4_encrypt_length c src : length (arc4_encrypt c src).2 = length src.
Proof.
  revert c. induction src as [| b src IH]; intros c; [done |].
  cbn [arc4_encrypt]. destruct (arc4_byte c) as [c1 k]. specialize (IH c1).
  destruct (arc4_encrypt c1 src). cbn in *. by rewrite IH.
Qed.

Lemma arc4_encrypt_bytes c src : bytes_ok src -> bytes_ok (arc4_encrypt c src).2.
Proof.
  intros Hsrc. revert c. induction Hsrc as [| b src Hb _ IH]; intros c; [constructor |].
  cbn [arc4_encrypt]. destruct (arc4_byte c) as [c1 k]. specialize (IH c1).
  destruct (arc4_encrypt c1 src). constructor; [| done]. auto with wf.
Qed.

Lemma arc4_encrypt_app c a b :
  arc4_encrypt c (a ++ b) =
    ((arc4_encrypt (arc4_encrypt c a).1 b).1,
     (arc4_encrypt c a).2 ++ (arc4_encrypt (arc4_encrypt c a).1 b).2).
Proof.
  revert c. induction a as [| z a IH]; intros c; cbn [app arc4_encrypt fst snd].
  { apply surjective_pairing. }
  destruct (arc4_byte c) as [c1 k]. rewrite IH. by destruct (arc4_encrypt c1 a).
Qed.

Lemma arc4_encrypt_ctx c a b :
  length a = length b -> (arc4_encrypt c a).1 = (arc4_encrypt c b).1.
Proof.
  revert c b. induction a as [| z a IH]; intros c [| w b]; try done.
  intros [= Hlen]. cbn [arc4_encrypt]. destruct (arc4_byte c) as [c1 k].
  specialize (IH c1 b Hlen). by destruct (arc4_encrypt c1 a), (arc4_encrypt c1 b).
Qed.

Lemma arc4_encrypt_twice c src : (arc4_encrypt c (arc4_encrypt c src).2).2 = src.
Proof.
  revert c. induction src as [| b src IH]; intros c; [done |].
  cbn [arc4_encrypt]. destruct (arc4_byte c) as [c1 k] eqn:E. specialize (IH c1).
  destruct (arc4_encrypt c1 src) as [c2 d] eqn:E2. cbn [snd] in *.
  cbn [arc4_encrypt]. rewrite E. rewrite lxor_cancel.
  destruct (arc4_encrypt c1 d) as [c3 d2]. cbn in *. by rewrite IH.
Qed.

(** ** ARC4 implements the interface *)

#[export] Instance arc4_cipher : StreamCipher := {|
  sc_ctx := arc4context;
  sc_ok := ctx_ok;
  sc_init := arc4_init;
  sc_crypt := arc4_encrypt;
  sc_init_ret := fun key key_len _ => arc4_init_ret key key_len;
  sc_crypt_ok := arc4_encrypt_ok;
  sc_crypt_length := arc4_encrypt_length;
  sc_crypt_bytes := fun c src _ => arc4_encrypt_bytes c src;
  sc_crypt_app := arc4_encrypt_app;
  sc_crypt_ctx := arc4_encrypt_ctx;
  sc_crypt_involutive := arc4_encrypt_twice;
|}.

(** ** Properties *)

Lemma schedule_prefix n key1 key2 key_len counter keyindex stateindex st :
  take (Z.to_nat key_len) key1 = take (Z.to_nat key_len) key2 ->
  0 < key_len -> 0 <= keyindex < key_len ->
  arc4_schedule n key1 key_len counter keyindex stateindex st =
  arc4_schedule n key2 key_len counter keyindex stateindex st.
Proof.
  intros Hpre Hkl. revert counter keyindex stateindex st.
  induction n as [| n IH]; intros counter ki si st Hki; [done |]. cbn [arc4_schedule].
  assert (Hrd : rd key1 ki = rd key2 ki).
  { unfold rd. destruct (Z.ltb_spec ki 0); [lia |].
    rewrite <- (lookup_take_lt key1 (Z.to_nat key_len)) by lia.
    rewrite <- (lookup_take_lt key2 (Z.to_nat key_len)) by lia. by rewrite Hpre. }
  rewrite Hrd. destruct (rd key2 ki); cbn [cbind]; [| done ..].
  apply IH. pose proof (u32_range (ki + 1)) as Hr. unfold is_u32 in Hr. zbool; lia.
Qed.

(** For every key of at least one byte, [arc4_init] returns without
    reading outside the key; however many bytes are then encrypted, in however
    many calls, the state array still holds each byte value once and both
    indices stay in the array; and from any such point on, encrypting twice
    from the same context gives the input back, byte for byte. *)
Theorem arc4_stream (key : list Z) (key_len : Z) :
  0 < key_len <= Z.of_nat (length key) ->
  exists c, arc4_init key key_len = Ret c /\
    arc4_init (take (Z.to_nat key_len) key) key_len = Ret c /\
    forall chunks src,
      let c' := foldl (fun c chunk => (arc4_encrypt c chunk).1) c chunks in
      ctx_ok c' /\
      arc4_encrypt c (concat chunks ++ src) =
        ((arc4_encrypt c' src).1,
         (arc4_encrypt c (concat chunks)).2 ++ (arc4_encrypt c' src).2) /\
      length (arc4_encrypt c' src).2 = length src /\
      (arc4_encrypt c' (arc4_encrypt c' src).2).2 = src.
Proof.
  intros Hlen. destruct (arc4_init_ret key key_len Hlen) as (c & Hc & Hok).
  exists c. split; [done |]. split.
  { rewrite <- Hc. unfold arc4_init.
    rewrite (schedule_prefix _ _ key) by (try rewrite take_take, Nat.min_id; (done || lia)).
    done. }
  clear Hc. intros chunks src c'.
  assert (Hc' : c' = (arc4_encrypt c (concat chunks)).1 /\ ctx_ok c').
  { unfold c'. clear c' src. revert c Hok.
    induction chunks as [| ch chunks IH]; intros c Hok; [done |]. cbn [foldl concat].
    rewrite arc4_encrypt_app. apply IH. by apply arc4_encrypt_ok. }
  destruct Hc' as [Heq Hok']. split; [done |]. split.
  { rewrite arc4_encrypt_app. by rewrite <- Heq. }
  split; [apply arc4_encrypt_length | apply arc4_encrypt_twice].
Qed.

Lemma arc4_stream_witness :
  exists c, arc4_init [7; 9; 11] 2 = Ret c /\
    (arc4_encrypt c (arc4_encrypt c [1; 2; 3]).2).2 = [1; 2; 3].
Proof.
  destruct (arc4_stream [7; 9; 11] 2) as (c & Hc & _ & H); [simpl; lia |].
  exists c. split; [exact Hc | exact (proj2 (proj2 (proj2 (H [] [1; 2; 3]))))].
Defined.

(** The key stream of the 40-bit key 0102030405 starts with the bytes
    published for it (RFC 6229). *)
Example arc4_rfc6229 :
  (letc c := arc4_init [1; 2; 3; 4; 5] 5 in
   Ret (arc4_encrypt c (replicate 16 0)).2) =
  Ret [0xb2; 0x39; 0x63; 0x05; 0xf0; 0x3d; 0xc0; 0x27;
       0xcc; 0xc3; 0x52; 0x4a; 0x0a; 0x11; 0x18; 0xa8].
Proof. vm_compute. reflexivity. Qed.
End Arc4.
