(* ===== verification/SecTypes.v ===== *)
(** * Security state and packet descriptions ([nic/sec.h], [nic/tx.h], [nic/rx.h])

    The fields of [sec_info_st], [struct xmit_frame] and [struct rx_pkt_info]
    that the encryption and decryption code reads, the algorithm numbers, and
    the macros that pack a packet number into an IV. *)
From S2P Require Import Prelude.

Definition _NO_PRIVACY_ : Z := 0.
Definition _WEP40_ : Z := 1.
Definition _TKIP_ : Z := 2.
Definition _AES_ : Z := 4.
Definition _WEP104_ : Z := 5.
Definition _SMS4_ : Z := 6.

Definition dot11AuthAlgrthm_Open : Z := 0.
Definition dot11AuthAlgrthm_Shared : Z := 1.
Definition dot11AuthAlgrthm_8021X : Z := 2.

(** [sec_info_st]; a [union Keytype] is the list of its 16 bytes. *)
Record sec_info_st : Type := mk_sec_info {
  dot11AuthAlgrthm : Z;
  dot11PrivacyAlgrthm : Z;
  dot11DefKey : list (list Z);
  dot11DefKeylen : list Z;
  dot118021XGrpPrivacy : Z;
  dot118021XGrpKeyid : Z;
  dot118021XGrpKey : list (list Z);
  binstallGrpkey : Z;
}.

(** The arrays have the sizes the declaration gives them. *)
Definition sec_info_ok (s : sec_info_st) : Prop :=
  length (dot11DefKey s) = 4%nat /\ length (dot11DefKeylen s) = 4%nat /\
  length (dot118021XGrpKey s) = 4%nat /\
  Forall (fun k => length k = 16%nat /\ bytes_ok k) (dot11DefKey s) /\
  Forall (fun k => length k = 16%nat /\ bytes_ok k) (dot118021XGrpKey s).

(** [struct xmit_frame], the fields the encryption code reads; [addr2] is
    [pwlanhdr->addr2]. *)
Record xmit_frame : Type := mk_xmit_frame {
  xf_encrypt_algo : Z;
  xf_hdrlen : Z;
  xf_iv_len : Z;
  xf_icv_len : Z;
  xf_bmcast : bool;
  xf_UncstKey : list Z;
  xf_addr2 : list Z;
}.

(** [rx_pkt_t] and its [pkt_info], the fields the decryption code reads;
    [rxp_data] is the buffer [pdata] points into. *)
Record rx_sec_pkt : Type := mk_rx_sec_pkt {
  rxp_data : list Z;
  rxp_len : Z;
  rxp_wlan_hdr_len : Z;
  rxp_iv_len : Z;
  rxp_icv_len : Z;
  rxp_rx_addr : list Z;
  rxp_tx_addr : list Z;
  rxp_encrypt_algo : Z;
}.

Definition set_rxp_data (p : rx_sec_pkt) (d : list Z) : rx_sec_pkt :=
  mk_rx_sec_pkt d (rxp_len p) (rxp_wlan_hdr_len p) (rxp_iv_len p) (rxp_icv_len p)
    (rxp_rx_addr p) (rxp_tx_addr p) (rxp_encrypt_algo p).

(** With the default chip (s9188, [CONFIG_RICHV200]). *)
Definition TXDESC_SIZE : Z := 20.
Definition PACKET_OFFSET_SZ : Z := 0.

(** [IS_MCAST]: the group bit of the first address byte. *)
Definition IS_MCAST (mac : list Z) : bool := nz (Z.land (nthZ mac 0) 1).
