(* ===== verification/Crc32.v ===== *)
(** * The WEP/TKIP integrity checksum ([nic/sec_wep.c], lines 21-82)

    The table-driven CRC-32 with its lazily initialised global table, and the
    proof that it computes the bit-serial CRC-32 of the buffer. *)
From S2P Require Import Prelude.

Module Crc32.

Definition crc32_reverseBit (data : Z) : Z :=
  Z.lor (Z.lor (Z.lor (Z.lor (Z.lor (Z.lor (Z.lor
    (u8 (Z.land (Z.shiftl data 7) 0x80))
    (Z.land (Z.shiftl data 5) 0x40))
    (Z.land (Z.shiftl data 3) 0x20))
    (Z.land (Z.shiftl data 1) 0x10))
    (Z.land (Z.shiftr data 1) 0x08))
    (Z.land (Z.shiftr data 3) 0x04))
    (Z.land (Z.shiftr data 5) 0x02))
    (Z.land (Z.shiftr data 7) 0x01).

(** The globals [bcrc32initialized] and [crc32_table]. *)
Record crc_globals : Type := mk_crc_globals {
  bcrc32initialized : Z;
  crc32_table : list Z;
}.

(** The inner loop of [init_crc32], [j] iterations left. *)
Fixpoint crc32_shift (j : nat) (c : Z) : Z :=
  match j with
  | O => c
  | S j => crc32_shift j
      (if nz (Z.land c 0x80000000)
       then Z.lxor (u32 (Z.shiftl c 1)) 0x04c11db7
       else u32 (Z.shiftl c 1))
  end.

(** One iteration of the outer loop: the entry [crc32_table[i]], with the
    four bytes of [c] reversed and written in the opposite order. *)
Definition crc32_entry (i : Z) : Z :=
  let k := crc32_reverseBit (u8 i) in
  let c := crc32_shift 8 (u32 (Z.shiftl k 24)) in
  let p := le_bytes 4 c in
  le_word [crc32_reverseBit (nthZ p 3); crc32_reverseBit (nthZ p 2);
           crc32_reverseBit (nthZ p 1); crc32_reverseBit (nthZ p 0)].

Definition init_crc32 (g : crc_globals) : crc_globals :=
  if bcrc32initialized g =? 1 then g
  else mk_crc_globals 1 ((fun n => crc32_entry (Z.of_nat n)) <$> seq 0 256).

(** The loop of [get_crc32] over the bytes [p] of the buffer. *)
Fixpoint crc32_loop (table : list Z) (crc : Z) (p : list Z) : Z :=
  match p with
  | [] => crc
  | b :: p =>
      crc32_loop table
        (Z.lxor (nthZ table (Z.land (Z.lxor crc b) 0xff)) (Z.shiftr crc 8)) p
  end.

(** [get_crc32(&buf[ofs], len)]: a length that is not positive reads nothing. *)
Definition get_crc32 (g : crc_globals) (buf : list Z) (ofs len : Z) : C (crc_globals * Z) :=
  let g := if bcrc32initialized g =? 0 then init_crc32 g else g in
  letc p := (if 0 <? len then slice buf ofs len else Ret []) in
  Ret (g, u32 (Z.lnot (crc32_loop (crc32_table g) 0xffffffff p))).

(** The initial value of the static variables. *)
Definition crc_globals0 : crc_globals := mk_crc_globals 0 (replicate 256 0).

(** ** Reference: the bit-serial CRC-32 (reflected polynomial) *)

Definition crc_bit (c : Z) : Z :=
  if Z.odd c then Z.lxor (Z.shiftr c 1) 0xEDB88320 else Z.shiftr c 1.

Definition crc_byte (c b : Z) : Z := Nat.iter 8 crc_bit (Z.lxor c b).

Definition crc32_spec (p : list Z) : Z :=
  Z.lxor (foldl crc_byte 0xffffffff p) 0xffffffff.

(** ** The table agrees with the reference *)

Definition crc_table : list Z := (fun n => crc32_entry (Z.of_nat n)) <$> seq 0 256.

Lemma crc_table_iter n : (n < 256)%nat ->
  nthZ crc_table (Z.of_nat n) = Nat.iter 8 crc_bit (Z.of_nat n).
Proof.
  assert (H : forallb (fun n => nthZ crc_table (Z.of_nat n) =?
    Nat.iter 8 crc_bit (Z.of_nat n)) (seq 0 256) = true).
  { vm_compute. reflexivity. }
  intros Hn. rewrite forallb_forall in H. apply Z.eqb_eq, H, in_seq. lia.
Qed.

Lemma crc_bit_lxor a b : crc_bit (Z.lxor a b) = Z.lxor (crc_bit a) (crc_bit b).
Proof.
  unfold crc_bit. rewrite <- !Z.bit0_odd, Z.lxor_spec, Z.shiftr_lxor.
  destruct (Z.testbit a 0), (Z.testbit b 0); cbn [xorb];
    apply Z.bits_inj; intros i; rewrite !Z.lxor_spec;
    destruct (Z.testbit (Z.shiftr a 1) i), (Z.testbit (Z.shiftr b 1) i),
      (Z.testbit 0xEDB88320 i); reflexivity.
Qed.

Lemma crc_iter_lxor n a b :
  Nat.iter n crc_bit (Z.lxor a b) = Z.lxor (Nat.iter n crc_bit a) (Nat.iter n crc_bit b).
Proof. induction n as [| n IH]; [done |]. simpl. by rewrite IH, crc_bit_lxor. Qed.

Lemma crc_iter_shift n h : Nat.iter n crc_bit (Z.shiftl h (Z.of_nat n)) = h.
Proof.
  revert h. induction n as [| n IH]; intros h; [apply Z.shiftl_0_r |].
  rewrite Nat.iter_succ_r. unfold crc_bit at 2.
  rewrite Nat2Z.inj_succ, <- Z.bit0_odd, Z.shiftl_spec_low by lia.
  rewrite Z.shiftr_shiftl_l by lia. replace (Z.succ (Z.of_nat n) - 1) with (Z.of_nat n) by lia.
  apply IH.
Qed.

Lemma split_low8 c : c = Z.lxor (Z.land c 255) (Z.shiftl (Z.shiftr c 8) 8).
Proof.
  change 255 with (Z.ones 8).
  apply Z.bits_inj'. intros i Hi. rewrite Z.lxor_spec, Z.land_spec.
  destruct (decide (i < 8)).
  - rewrite Z.ones_spec_low, Z.shiftl_spec_low by lia. by rewrite andb_true_r, xorb_false_r.
  - rewrite Z.ones_spec_high, Z.shiftl_spec, Z.shiftr_spec by lia.
    rewrite andb_false_r. cbn [xorb]. f_equal. lia.
Qed.

(** One step of the table-driven loop is eight steps of the reference. *)
Lemma crc_step c b : is_u8 b ->
  Z.lxor (nthZ crc_table (Z.land (Z.lxor c b) 0xff)) (Z.shiftr c 8) = crc_byte c b.
Proof.
  intros Hb. unfold crc_byte. rewrite (split_low8 (Z.lxor c b)) at 2.
  rewrite crc_iter_lxor. rewrite (crc_iter_shift 8).
  rewrite Z.shiftr_lxor. replace (Z.shiftr b 8) with 0.
  2: { rewrite Z.shiftr_div_pow2 by lia. symmetry. apply Z.div_small. apply Hb. }
  rewrite Z.lxor_0_r. f_equal. rewrite land_255.
  pose proof (u8_range (Z.lxor c b)) as Hr. unfold is_u8 in Hr.
  rewrite <- (Z2Nat.id (u8 (Z.lxor c b))) by lia. apply crc_table_iter. lia.
Qed.

Lemma crc_loop_spec c p : bytes_ok p -> crc32_loop crc_table c p = foldl crc_byte c p.
Proof.
  intros Hp. revert c. induction Hp as [| b p Hb _ IH]; intros c; [done |].
  cbn [crc32_loop foldl]. rewrite crc_step by done. apply IH.
Qed.

Lemma crc_byte_range c b : is_u32 c -> is_u8 b -> is_u32 (crc_byte c b).
Proof.
  intros Hc Hb. rewrite <- crc_step by done. apply lxor_u32.
  - apply nthZ_Forall; [| autorewrite with wf; pose proof (u8_range (Z.lxor c b));
      unfold is_u8 in *; cbn; lia].
    assert (H : forallb (fun z => (0 <=? z) && (z <? 4294967296)) crc_table = true)
      by (vm_compute; reflexivity).
    apply List.Forall_forall. intros z Hz. rewrite forallb_forall in H.
    apply H, andb_prop in Hz as [H1 H2]. apply Z.leb_le in H1. apply Z.ltb_lt in H2.
    done.
  - unfold is_u32 in *. rewrite Z.shiftr_div_pow2 by lia. split.
    + apply Z.div_pos; lia.
    + apply Z.div_lt_upper_bound; lia.
Qed.

Lemma crc_fold_range c p : is_u32 c -> bytes_ok p -> is_u32 (foldl crc_byte c p).
Proof.
  intros Hc Hp. revert c Hc. induction Hp as [| b p Hb _ IH]; intros c Hc; [done |].
  cbn [foldl]. apply IH. by apply crc_byte_range.
Qed.

Lemma lnot_u32 c : is_u32 c -> u32 (Z.lnot c) = Z.lxor c 0xffffffff.
Proof.
  intros Hc. rewrite <- land_u32. change 4294967295 with (Z.ones 32).
  apply Z.bits_inj'. intros i Hi. rewrite Z.land_spec, Z.lxor_spec, Z.lnot_spec by lia.
  destruct (decide (i < 32)).
  - rewrite Z.ones_spec_low by lia. by destruct (Z.testbit c i).
  - rewrite Z.ones_spec_high, (testbit_high 32) by (unfold is_u32 in Hc; lia). done.
Qed.

Lemma crc32_spec_range p : bytes_ok p -> is_u32 (crc32_spec p).
Proof.
  intros Hp. apply lxor_u32; [| unfold is_u32; lia].
  apply crc_fold_range; [unfold is_u32; lia | done].
Qed.

(** ** The globals *)

(** What the two static variables can be: the initial state, or the state
    after the first call. *)
Definition globals_ok (g : crc_globals) : Prop :=
  bcrc32initialized g = 0 \/
  (bcrc32initialized g = 1 /\ crc32_table g = crc_table).

Lemma globals0_ok : globals_ok crc_globals0.
Proof. by left. Qed.

Lemma globals_init g : globals_ok g ->
  (if bcrc32initialized g =? 0 then init_crc32 g else g) = mk_crc_globals 1 crc_table.
Proof.
  destruct g as [i t]. unfold globals_ok, init_crc32. simpl.
  intros [-> | [-> ->]]; reflexivity.
Qed.

Lemma get_crc32_spec g buf ofs len p :
  globals_ok g -> (if 0 <? len then slice buf ofs len else Ret []) = Ret p -> bytes_ok p ->
  exists g', get_crc32 g buf ofs len = Ret (g', crc32_spec p) /\ globals_ok g'.
Proof.
  intros Hg Hp Hok. unfold get_crc32. rewrite globals_init, Hp by done.
  exists (mk_crc_globals 1 crc_table). split; [| by right].
  unfold cbind. do 2 f_equal. change (crc32_table (mk_crc_globals 1 crc_table)) with crc_table.
  rewrite crc_loop_spec by done. apply lnot_u32.
  apply crc_fold_range; [unfold is_u32; lia | done].
Qed.

(** C33: whatever the state of the lazily built table, [get_crc32] reads
    exactly the [len] bytes at [ofs] and returns their bit-serial CRC-32, and
    leaves the table built. *)
Theorem get_crc32_correct (g : crc_globals) (buf : list Z) (ofs len : Z) :
  globals_ok g -> bytes_ok buf -> 0 <= ofs -> 0 <= len ->
  ofs + len <= Z.of_nat (length buf) ->
  exists g', get_crc32 g buf ofs len =
      Ret (g', crc32_spec (take (Z.to_nat len) (drop (Z.to_nat ofs) buf))) /\
    globals_ok g' /\ bcrc32initialized g' = 1.
Proof.
  intros Hg Hb Ho Hl Hle.
  destruct (get_crc32_spec g buf ofs len (take (Z.to_nat len) (drop (Z.to_nat ofs) buf)))
    as (g' & Hr & Hg'); [done | | by apply Forall_take, Forall_drop |].
  { destruct (Z.ltb_spec 0 len); [by apply slice_Ret |].
    replace len with 0 by lia. done. }
  exists g'. split; [done |]. split; [done |].
  unfold get_crc32 in Hr. rewrite globals_init in Hr by done.
  destruct (if 0 <? len then _ else _); cbn [cbind] in Hr; [| done ..].
  by injection Hr as <- _.
Qed.

Lemma get_crc32_correct_witness :
  exists g', get_crc32 crc_globals0 [9; 49; 50; 51; 9] 1 3 =
      Ret (g', crc32_spec [49; 50; 51]) /\ globals_ok g' /\ bcrc32initialized g' = 1.
Proof.
  apply (get_crc32_correct crc_globals0 [9; 49; 50; 51; 9] 1 3);
    [left; reflexivity | by apply bytes_okb_ok | lia | lia | simpl; lia].
Defined.

(** The checksum published for the nine characters 1 to 9. *)
Example crc32_check_value :
  (letc (_, c) := get_crc32 crc_globals0 [49; 50; 51; 52; 53; 54; 55; 56; 57] 0 9 in Ret c)
  = Ret 0xCBF43926.
Proof. vm_compute. reflexivity. Qed.

End Crc32.
