(* ===== verification/Wep.v ===== *)
(** * WEP encryption ([nic/sec_wep.c], lines 83-284)

    The four routines that encrypt and decrypt an authentication frame and a
    data frame in place, over any stream cipher that satisfies the interface
    of [Cipher.v].  A frame is the list of bytes of the buffer; the result of
    a routine is its return value with the buffer it leaves behind. *)
From S2P Require Import Prelude Cipher SecTypes Crc32 Arc4.
Import Crc32.

Module Wep.
Section Wep.
Context {SC : StreamCipher}.

(** The key of a frame: the first three IV bytes, then [dot11DefKeylen] bytes
    of the default key the IV selects.  The copy into [wepkey[16]] faults when
    it does not fit. *)
Definition wep_key (s : sec_info_st) (iv : list Z) : C (list Z * Z) :=
  letc iv3 := rd iv 3 in
  let key_index := Z.land (Z.shiftr iv3 6) 3 in
  let keylength := nthZ (dot11DefKeylen s) key_index in
  letc iv012 := slice iv 0 3 in
  letc skey := slice (dot11DefKey s !!! Z.to_nat key_index) 0 keylength in
  if 3 + keylength <=? 16 then Ret (iv012 ++ skey, u32 (3 + keylength)) else Fault.

(** Offsets in [wf_80211_mgmt_t]: [auth_seq3.iv] and [auth_seq3.auth_alg]. *)
Definition auth_iv_ofs : Z := 24.
Definition auth_payload_ofs : Z := 28.
Definition auth_icv_len : Z := 4.

Definition wf_wep_encrypt_auth (g : crc_globals) (s : sec_info_st) (frame : list Z)
    (mgmt_len : Z) : C (Z * crc_globals * list Z) :=
  let payload_len := u32 (u32 (mgmt_len - auth_payload_ofs) - auth_icv_len) in
  let icv_ofs := u32 (auth_payload_ofs + payload_len) in
  letc iv := slice frame auth_iv_ofs 4 in
  letc (key, key_len) := wep_key s iv in
  letc (g, crc) := get_crc32 g frame auth_payload_ofs (s32 payload_len) in
  letc frame := blit frame icv_ofs (le_bytes 4 crc) in
  letc ctx := sc_init key key_len in
  letc text := slice frame auth_payload_ofs (u32 (payload_len + auth_icv_len)) in
  letc frame := blit frame auth_payload_ofs (sc_crypt ctx text).2 in
  Ret (0, g, frame).

Definition wf_wep_decrypt_auth (g : crc_globals) (s : sec_info_st) (frame : list Z)
    (mgmt_len : Z) : C (Z * crc_globals * list Z) :=
  let payload_len := u32 (u32 (mgmt_len - auth_payload_ofs) - auth_icv_len) in
  let icv_ofs := u32 (auth_payload_ofs + payload_len) in
  letc iv := slice frame auth_iv_ofs 4 in
  letc (key, key_len) := wep_key s iv in
  letc ctx := sc_init key key_len in
  letc text := slice frame auth_payload_ofs (u32 (payload_len + auth_icv_len)) in
  letc frame := blit frame auth_payload_ofs (sc_crypt ctx text).2 in
  letc (g, crc) := get_crc32 g frame auth_payload_ofs (s32 payload_len) in
  letc icv := slice frame icv_ofs auth_icv_len in
  Ret (if bytes_eqb (le_bytes 4 crc) icv then 0 else -1, g, frame).

(** [wep_encrypt(pxmitframe, pdata, len)]; [pframe] points into [pdata] behind
    the transmit descriptor. *)
Definition wep_encrypt (g : crc_globals) (s : sec_info_st) (xf : xmit_frame)
    (pdata : list Z) (len : Z) : C (Z * crc_globals * list Z) :=
  if negb (xf_encrypt_algo xf =? _WEP40_) && negb (xf_encrypt_algo xf =? _WEP104_)
  then Ret (-1, g, pdata)
  else
    let pframe := TXDESC_SIZE + PACKET_OFFSET_SZ in
    let frame_len := u32 (len - (TXDESC_SIZE + PACKET_OFFSET_SZ)) in
    let iv_ofs := xf_hdrlen xf in
    let payload_ofs := u32 (iv_ofs + xf_iv_len xf) in
    let payload_len := u32 (frame_len - u32 (payload_ofs + xf_icv_len xf)) in
    let icv_ofs := u32 (payload_ofs + payload_len) in
    letc iv := slice pdata (pframe + iv_ofs) 4 in
    letc (key, key_len) := wep_key s iv in
    letc (g, crc) := get_crc32 g pdata (pframe + payload_ofs) (s32 payload_len) in
    letc ctx := sc_init key key_len in
    letc text := slice pdata (pframe + payload_ofs) payload_len in
    let '(ctx, enc) := sc_crypt ctx text in
    letc pdata := blit pdata (pframe + payload_ofs) enc in
    letc icv := slice (le_bytes 4 crc) 0 (xf_icv_len xf) in
    letc pdata := blit pdata (pframe + icv_ofs) (sc_crypt ctx icv).2 in
    Ret (0, g, pdata).

Definition wep_decrypt (g : crc_globals) (s : sec_info_st) (p : rx_sec_pkt)
    : C (Z * crc_globals * list Z) :=
  let pframe := rxp_data p in
  let iv_ofs := rxp_wlan_hdr_len p in
  let payload_ofs := u32 (iv_ofs + rxp_iv_len p) in
  let payload_len := u32 (rxp_len p - u32 (payload_ofs + rxp_icv_len p)) in
  let icv_ofs := u32 (payload_ofs + payload_len) in
  letc iv := slice pframe iv_ofs 4 in
  letc (key, key_len) := wep_key s iv in
  letc ctx := sc_init key key_len in
  letc text := slice pframe payload_ofs (u32 (payload_len + rxp_icv_len p)) in
  letc pframe := blit pframe payload_ofs (sc_crypt ctx text).2 in
  letc (g, crc) := get_crc32 g pframe payload_ofs (s32 payload_len) in
  letc crc4 := slice (le_bytes 4 crc) 0 (rxp_icv_len p) in
  letc icv := slice pframe icv_ofs (rxp_icv_len p) in
  Ret (if bytes_eqb crc4 icv then 0 else -1, g, pframe).

(** ** Keys *)

(** The key the IV selects fits the copy into [wepkey]. *)
Definition key_ok (s : sec_info_st) (iv : list Z) : Prop :=
  sec_info_ok s /\ length iv = 4%nat /\ bytes_ok iv /\
  0 <= nthZ (dot11DefKeylen s) (Z.land (Z.shiftr (nthZ iv 3) 6) 3) <= 13.

Lemma wep_ctx s iv : key_ok s iv ->
  exists key key_len ctx, wep_key s iv = Ret (key, key_len) /\
    sc_init key key_len = Ret ctx /\ sc_ok ctx.
Proof.
  intros ((Hdk & Hdl & _ & Hk & _) & Hiv & Hb & Hlen).
  unfold wep_key. rewrite rd_nthZ by lia. cbn [cbind].
  set (ki := Z.land (Z.shiftr (nthZ iv 3) 6) 3) in *.
  set (kl := nthZ (dot11DefKeylen s) ki) in *.
  assert (Hki : 0 <= ki < 4).
  { unfold ki. change 3 with (Z.ones 2). rewrite Z.land_ones by lia.
    apply Z.mod_pos_bound. lia. }
  assert (Hsk : length (dot11DefKey s !!! Z.to_nat ki) = 16%nat /\
                bytes_ok (dot11DefKey s !!! Z.to_nat ki)).
  { rewrite Forall_lookup in Hk. eapply (Hk (Z.to_nat ki)).
    apply list_lookup_lookup_total_lt. lia. }
  destruct Hsk as [Hsk Hsb].
  rewrite !slice_Ret by lia. cbn [cbind].
  destruct (Z.leb_spec (3 + kl) 16); [| lia]. rewrite u32_id by (unfold is_u32; lia).
  set (key := take _ (drop _ iv) ++ _).
  destruct (sc_init_ret key (3 + kl)) as (ctx & Hctx & Hok); [| | by eauto 10].
  - apply bytes_ok_app. split; by repeat (apply Forall_take || apply Forall_drop).
  - unfold key. rewrite length_app, !length_take, !length_drop. lia.
Qed.

(** ** Encrypting and decrypting a buffer

    The shape both pairs of routines share: bytes [pre] in front of the
    payload, the payload, four checksum bytes, and [post] behind. *)

Definition icv_of (payload : list Z) : list Z := le_bytes 4 (crc32_spec payload).

Lemma icv_of_length payload : length (icv_of payload) = 4%nat.
Proof. apply length_le_bytes. Qed.

Lemma payload_crc g pre payload post :
  globals_ok g -> bytes_ok payload ->
  Z.of_nat (length payload) < 2147483648 ->
  exists g', get_crc32 g (pre ++ payload ++ post) (Z.of_nat (length pre))
      (s32 (Z.of_nat (length payload))) = Ret (g', crc32_spec payload) /\ globals_ok g'.
Proof.
  intros Hg Hp Hlen. apply get_crc32_spec; [done | | done].
  assert (Hs : s32 (Z.of_nat (length payload)) = Z.of_nat (length payload)).
  { unfold s32. rewrite Z.mod_small; lia. }
  rewrite Hs. destruct (Z.ltb_spec 0 (Z.of_nat (length payload))).
  - by apply slice_app_mid.
  - destruct payload; [done | simpl in *; lia].
Qed.

(** The four IV bytes at offset [ofs]. *)
Definition iv_at (pre : list Z) (ofs : Z) : list Z :=
  take (Z.to_nat 4) (drop (Z.to_nat ofs) pre).

(** The cipher context of a frame. *)
Definition wep_stream (s : sec_info_st) (iv : list Z) : C sc_ctx :=
  letc (key, key_len) := wep_key s iv in sc_init key key_len.

Lemma wep_stream_ret s iv : key_ok s iv -> exists ctx, wep_stream s iv = Ret ctx /\ sc_ok ctx.
Proof.
  intros Hk. destruct (wep_ctx s iv Hk) as (key & kl & ctx & H1 & H2 & H3).
  exists ctx. split; [| done]. unfold wep_stream. by rewrite H1.
Qed.

Lemma wep_stream_inv s iv ctx : wep_stream s iv = Ret ctx ->
  exists key key_len, wep_key s iv = Ret (key, key_len) /\ sc_init key key_len = Ret ctx.
Proof.
  unfold wep_stream. destruct (wep_key s iv) as [[key kl] | |]; cbn; try done. eauto.
Qed.

Lemma u32_of_nat n : Z.of_nat n < 4294967296 -> u32 (Z.of_nat n) = Z.of_nat n.
Proof. intros. apply u32_id. unfold is_u32. lia. Qed.

Section Frame.
Context (g : crc_globals) (s : sec_info_st) (ctx : sc_ctx).
Context (Hg : globals_ok g) (Hctx : sc_ok ctx).

(** The authentication frame that encryption produces. *)
Lemma encrypt_auth_frame pre payload slot post :
  length pre = 28%nat -> length slot = 4%nat -> bytes_ok payload ->
  32 + Z.of_nat (length payload) < 65536 ->
  wep_stream s (iv_at pre 24) = Ret ctx ->
  exists g', globals_ok g' /\
    wf_wep_encrypt_auth g s (pre ++ payload ++ slot ++ post)
      (32 + Z.of_nat (length payload)) =
    Ret (0, g', pre ++ (sc_crypt ctx (payload ++ icv_of payload)).2 ++ post).
Proof using Hg.
  intros Hpre Hslot Hp Hlen (key & kl & Hk & Hi)%wep_stream_inv.
  destruct (payload_crc g pre payload (slot ++ post) Hg Hp ltac:(lia)) as (g' & Hc & Hg').
  exists g'. split; [done |]. unfold wf_wep_encrypt_auth, auth_payload_ofs, auth_icv_len, auth_iv_ofs.
  unwrap. replace (32 + Z.of_nat (length payload) - 28 - 4) with (Z.of_nat (length payload)) by lia.
  rewrite slice_app_l by lia. fold (iv_at pre 24). cbn [cbind]. rewrite Hk. cbn [cbind].
  rewrite Hpre in Hc. change (Z.of_nat 28) with 28 in Hc. rewrite Hc. cbn [cbind].
  rewrite app_assoc, blit_app_mid
    by (rewrite ?length_app, ?length_le_bytes; lia).
  cbn [cbind]. rewrite Hi. cbn [cbind]. fold (icv_of payload).
  replace ((pre ++ payload) ++ icv_of payload ++ post)
    with (pre ++ (payload ++ icv_of payload) ++ post) by (by rewrite <- !app_assoc).
  rewrite slice_app_mid
    by (rewrite ?length_app, ?icv_of_length; lia).
  cbn [cbind]. rewrite blit_app_mid; [done | lia |].
  by rewrite sc_crypt_length.
Qed.

(** What decryption of an authentication frame returns and leaves in the
    buffer. *)
Lemma decrypt_auth_frame pre body post :
  length pre = 28%nat -> (4 <= length body)%nat -> bytes_ok body ->
  28 + Z.of_nat (length body) < 65536 ->
  wep_stream s (iv_at pre 24) = Ret ctx ->
  let plain := (sc_crypt ctx body).2 in
  let payload := take (length body - 4) plain in
  exists g', globals_ok g' /\
    wf_wep_decrypt_auth g s (pre ++ body ++ post) (28 + Z.of_nat (length body)) =
    Ret (if bytes_eqb (icv_of payload) (drop (length body - 4) plain) then 0 else -1,
         g', pre ++ plain ++ post).
Proof using Hg Hctx.
  intros Hpre Hbl Hb Hlen (key & kl & Hk & Hi)%wep_stream_inv plain payload.
  assert (Hpl : length plain = length body) by apply sc_crypt_length.
  assert (Hpb : bytes_ok plain) by (by apply sc_crypt_bytes).
  assert (Hsplit : plain = payload ++ drop (length body - 4) plain)
    by (unfold payload; by rewrite take_drop).
  assert (Hlp : length payload = (length body - 4)%nat)
    by (unfold payload; rewrite length_take; lia).
  destruct (payload_crc g pre payload (drop (length body - 4) plain ++ post) Hg)
    as (g' & Hc & Hg'); [by apply Forall_take | lia |].
  exists g'. split; [done |].
  unfold wf_wep_decrypt_auth, auth_payload_ofs, auth_icv_len, auth_iv_ofs.
  unwrap. replace (28 + Z.of_nat (length body) - 28 - 4) with (Z.of_nat (length payload)) by lia.
  rewrite slice_app_l by lia. fold (iv_at pre 24). cbn [cbind]. rewrite Hk. cbn [cbind].
  rewrite Hi. cbn [cbind]. rewrite slice_app_mid by lia. cbn [cbind].
  rewrite blit_app_mid by (rewrite ?sc_crypt_length; lia). cbn [cbind]. fold plain.
  replace (pre ++ plain ++ post) with
    (pre ++ payload ++ (drop (length body - 4) plain ++ post))
    by (by rewrite (app_assoc payload), <- Hsplit).
  rewrite Hpre in Hc. change (Z.of_nat 28) with 28 in Hc. rewrite Hc. cbn [cbind].
  rewrite app_assoc, slice_app_mid
    by (rewrite ?length_app, ?length_drop; lia).
  done.
Qed.

(** The part [wep_encrypt] and [tkip_encrypt] share, once the key is made:
    checksum, encryption of the payload, encryption of the checksum. *)
Lemma seal_tail key kl pre payload slot post ofs len icvofs icvlen :
  sc_init key kl = Ret ctx -> length slot = 4%nat -> bytes_ok payload ->
  ofs = Z.of_nat (length pre) -> len = Z.of_nat (length payload) -> icvofs = ofs + len ->
  icvlen = 4 -> len < 2147483648 ->
  exists g', globals_ok g' /\
    (letc (g, crc) := get_crc32 g (pre ++ payload ++ slot ++ post) ofs (s32 len) in
     letc ctx := sc_init key kl in
     letc text := slice (pre ++ payload ++ slot ++ post) ofs len in
     let '(ctx, enc) := sc_crypt ctx text in
     letc pdata := blit (pre ++ payload ++ slot ++ post) ofs enc in
     letc icv := slice (le_bytes 4 crc) 0 icvlen in
     letc pdata := blit pdata icvofs (sc_crypt ctx icv).2 in
     Ret (0, g, pdata)) =
    Ret (0, g', pre ++ (sc_crypt ctx (payload ++ icv_of payload)).2 ++ post).
Proof using Hg.
  intros Hi Hslot Hp -> -> -> -> Hlen.
  destruct (payload_crc g pre payload (slot ++ post) Hg Hp Hlen) as (g' & Hc & Hg').
  exists g'. split; [done |]. rewrite Hc. cbn [cbind]. rewrite Hi. cbn [cbind].
  rewrite slice_app_mid by lia. cbn [cbind].
  pose proof (sc_crypt_app ctx payload (icv_of payload)) as Happ.
  pose proof (sc_crypt_length ctx payload) as Hl.
  destruct (sc_crypt ctx payload) as [ctx1 enc]. cbn [fst snd] in *.
  rewrite blit_app_mid by lia. cbn [cbind]. fold (icv_of payload).
  rewrite slice_Ret by (rewrite ?icv_of_length; lia). cbn [cbind].
  rewrite take_ge by (rewrite length_drop, icv_of_length; lia).
  change (drop (Z.to_nat 0) ?l) with l.
  rewrite app_assoc, blit_app_mid.
  - cbn [cbind]. rewrite Happ. cbn [snd]. by rewrite <- !app_assoc.
  - rewrite length_app. lia.
  - rewrite sc_crypt_length, icv_of_length. done.
Qed.

(** The part [wep_decrypt] and [tkip_decrypt] share: decryption of payload and
    checksum, and the comparison; [bad] is the code for a mismatch. *)
Lemma open_tail key kl pre body ofs len len4 icvofs icvlen bad :
  sc_init key kl = Ret ctx -> (4 <= length body)%nat -> bytes_ok body ->
  ofs = Z.of_nat (length pre) -> len = Z.of_nat (length body) - 4 ->
  len4 = Z.of_nat (length body) -> icvofs = ofs + len -> icvlen = 4 ->
  len < 2147483648 ->
  let plain := (sc_crypt ctx body).2 in
  let payload := take (length body - 4) plain in
  exists g', globals_ok g' /\
    (letc ctx := sc_init key kl in
     letc text := slice (pre ++ body) ofs len4 in
     letc pframe := blit (pre ++ body) ofs (sc_crypt ctx text).2 in
     letc (g, crc) := get_crc32 g pframe ofs (s32 len) in
     letc crc4 := slice (le_bytes 4 crc) 0 icvlen in
     letc icv := slice pframe icvofs icvlen in
     Ret (if bytes_eqb crc4 icv then 0 else bad, g, pframe)) =
    Ret (if bytes_eqb (icv_of payload) (drop (length body - 4) plain) then 0 else bad,
         g', pre ++ plain).
Proof using Hg Hctx.
  intros Hi Hbl Hb -> -> -> -> -> Hlen plain payload.
  assert (Hpl : length plain = length body) by apply sc_crypt_length.
  assert (Hpb : bytes_ok plain) by (by apply sc_crypt_bytes).
  assert (Hsplit : plain = payload ++ drop (length body - 4) plain)
    by (unfold payload; by rewrite take_drop).
  assert (Hlp : length payload = (length body - 4)%nat)
    by (unfold payload; rewrite length_take; lia).
  destruct (payload_crc g pre payload (drop (length body - 4) plain) Hg)
    as (g' & Hc & Hg'); [by apply Forall_take | lia |].
  exists g'. split; [done |]. rewrite Hi. cbn [cbind].
  replace (Z.of_nat (length body) - 4) with (Z.of_nat (length payload)) by lia.
  rewrite <- (app_nil_r body) at 1. rewrite slice_app_mid by lia.
  cbn [cbind]. rewrite <- (app_nil_r body) at 1. rewrite blit_app_mid by (rewrite ?sc_crypt_length; lia).
  cbn [cbind]. fold plain. rewrite app_nil_r.
  rewrite Hsplit at 1. rewrite Hc. cbn [cbind]. fold (icv_of payload).
  rewrite slice_Ret by (rewrite ?icv_of_length; lia). cbn [cbind].
  rewrite take_ge by (rewrite length_drop, icv_of_length; lia).
  rewrite Hsplit at 1. rewrite <- (app_nil_r (drop _ plain)) at 1.
  rewrite app_assoc, slice_app_mid by (rewrite ?length_app, ?length_drop; lia). done.
Qed.

(** The data frame that [wep_encrypt] produces. *)
Lemma encrypt_data_frame xf pre payload slot post :
  xf_encrypt_algo xf = _WEP40_ \/ xf_encrypt_algo xf = _WEP104_ ->
  0 <= xf_hdrlen xf -> 4 <= xf_iv_len xf -> xf_icv_len xf = 4 ->
  Z.of_nat (length pre) = 20 + xf_hdrlen xf + xf_iv_len xf ->
  length slot = 4%nat -> bytes_ok payload ->
  Z.of_nat (length (pre ++ payload ++ slot)) < 2147483648 ->
  wep_stream s (iv_at pre (20 + xf_hdrlen xf)) = Ret ctx ->
  exists g', globals_ok g' /\
    wep_encrypt g s xf (pre ++ payload ++ slot ++ post) (Z.of_nat (length (pre ++ payload ++ slot))) =
    Ret (0, g', pre ++ (sc_crypt ctx (payload ++ icv_of payload)).2 ++ post).
Proof using Hg.
  intros Halgo Hh Hiv Hicv Hpre Hslot Hp Hlen (key & kl & Hk & Hi)%wep_stream_inv.
  unfold wep_encrypt, TXDESC_SIZE, PACKET_OFFSET_SZ.
  replace (negb _ && negb _) with false
    by (destruct Halgo as [-> | ->]; reflexivity).
  rewrite Hicv. rewrite !length_app in Hlen |- *. rewrite !Nat2Z.inj_add.
  change (20 + 0) with 20. unwrap.
  replace (_ - 20 - _) with (Z.of_nat (length payload)) by lia. unwrap.
  rewrite slice_app_l by lia. cbn [cbind].
  fold (iv_at pre (20 + xf_hdrlen xf)). rewrite Hk. cbn [cbind].
  eapply seal_tail; (done || lia).
Qed.

(** What [wep_decrypt] returns and leaves in the buffer. *)
Lemma decrypt_data_frame p pre body :
  rxp_data p = pre ++ body -> rxp_len p = Z.of_nat (length (pre ++ body)) ->
  0 <= rxp_wlan_hdr_len p -> 4 <= rxp_iv_len p -> rxp_icv_len p = 4 ->
  Z.of_nat (length pre) = rxp_wlan_hdr_len p + rxp_iv_len p ->
  (4 <= length body)%nat -> bytes_ok body ->
  Z.of_nat (length (pre ++ body)) < 2147483648 ->
  wep_stream s (iv_at pre (rxp_wlan_hdr_len p)) = Ret ctx ->
  let plain := (sc_crypt ctx body).2 in
  let payload := take (length body - 4) plain in
  exists g', globals_ok g' /\
    wep_decrypt g s p =
    Ret (if bytes_eqb (icv_of payload) (drop (length body - 4) plain) then 0 else -1,
         g', pre ++ plain).
Proof using Hg Hctx.
  intros Hd Hrl Hh Hiv Hicv Hpre Hbl Hb Hlen (key & kl & Hk & Hi)%wep_stream_inv plain payload.
  rewrite length_app in Hrl, Hlen. unfold wep_decrypt. rewrite Hd, Hrl, Hicv. unwrap.
  rewrite slice_app_l by lia. cbn [cbind].
  fold (iv_at pre (rxp_wlan_hdr_len p)). rewrite Hk. cbn [cbind].
  eapply open_tail; (done || lia).
Qed.
End Frame.

(** ** Properties *)

(** The payload and checksum a decryption leaves behind. *)
Lemma plain_split ctx payload :
  let plain := (sc_crypt ctx (sc_crypt ctx (payload ++ icv_of payload)).2).2 in
  let n := (length (sc_crypt ctx (payload ++ icv_of payload)).2 - 4)%nat in
  plain = payload ++ icv_of payload /\ take n plain = payload /\
  drop n plain = icv_of payload.
Proof.
  cbn zeta. rewrite sc_crypt_involutive, sc_crypt_length, length_app, icv_of_length.
  replace (length payload + 4 - 4)%nat with (length payload) by lia.
  by rewrite take_app_length, drop_app_length.
Qed.

(** An authentication frame that [wf_wep_encrypt_auth] encrypts is
    accepted by [wf_wep_decrypt_auth] with the same keys, which restores the
    payload and leaves its checksum behind it; the bytes in front of the
    payload and behind the checksum are untouched. *)
Theorem wep_auth_roundtrip (g : crc_globals) (s : sec_info_st) (pre payload slot post : list Z) :
  globals_ok g -> length pre = 28%nat -> length slot = 4%nat -> bytes_ok payload ->
  key_ok s (iv_at pre 24) -> 32 + Z.of_nat (length payload) < 65536 ->
  let len := 32 + Z.of_nat (length payload) in
  exists g1 g2 enc, length enc = (length payload + 4)%nat /\
    wf_wep_encrypt_auth g s (pre ++ payload ++ slot ++ post) len =
      Ret (0, g1, pre ++ enc ++ post) /\
    wf_wep_decrypt_auth g1 s (pre ++ enc ++ post) len =
      Ret (0, g2, pre ++ payload ++ icv_of payload ++ post).
Proof.
  intros Hg Hpre Hslot Hp Hk Hlen len.
  destruct (wep_stream_ret s _ Hk) as (ctx & Hctx & Hok).
  destruct (encrypt_auth_frame g s ctx Hg pre payload slot post) as (g1 & Hg1 & He); [done .. |].
  set (enc := (sc_crypt ctx (payload ++ icv_of payload)).2) in *.
  assert (Hel : length enc = (length payload + 4)%nat)
    by (unfold enc; by rewrite sc_crypt_length, length_app, icv_of_length).
  assert (Heb : bytes_ok enc).
  { apply sc_crypt_bytes; [done |]. apply bytes_ok_app. split; [done | apply le_bytes_ok]. }
  destruct (decrypt_auth_frame g1 s ctx Hg1 Hok pre enc post) as (g2 & Hg2 & Hd);
    [lia | lia | done | lia | done |].
  exists g1, g2, enc. split; [done |]. split; [done |].
  replace len with (28 + Z.of_nat (length enc)) by lia. rewrite Hd.
  destruct (plain_split ctx payload) as (H1 & H2 & H3). fold enc in H1, H2, H3.
  rewrite H2, H3, H1, bytes_eqb_refl, <- app_assoc. done.
Qed.

(** A frame encrypted in the transmit buffer, with [post] behind it, and what a
    receiver with the same key makes of the bytes on the air. *)
Lemma wep_air (g : crc_globals) (s s' : sec_info_st) (xf : xmit_frame)
    (p : rx_sec_pkt) (desc hdr payload slot post : list Z) :
  globals_ok g ->
  xf_encrypt_algo xf = _WEP40_ \/ xf_encrypt_algo xf = _WEP104_ ->
  0 <= xf_hdrlen xf -> 4 <= xf_iv_len xf -> xf_icv_len xf = 4 ->
  rxp_wlan_hdr_len p = xf_hdrlen xf -> rxp_iv_len p = xf_iv_len xf -> rxp_icv_len p = 4 ->
  Z.of_nat (length desc) = TXDESC_SIZE ->
  Z.of_nat (length hdr) = xf_hdrlen xf + xf_iv_len xf ->
  length slot = 4%nat -> bytes_ok payload -> key_ok s (iv_at hdr (xf_hdrlen xf)) ->
  wep_stream s' (iv_at hdr (xf_hdrlen xf)) = wep_stream s (iv_at hdr (xf_hdrlen xf)) ->
  rxp_len p = Z.of_nat (length (hdr ++ payload ++ slot)) ->
  Z.of_nat (length (desc ++ hdr ++ payload ++ slot)) < 2147483648 ->
  exists g1 enc, globals_ok g1 /\ length enc = (length payload + 4)%nat /\ bytes_ok enc /\
    wep_encrypt g s xf (desc ++ hdr ++ payload ++ slot ++ post)
      (Z.of_nat (length (desc ++ hdr ++ payload ++ slot))) = Ret (0, g1, desc ++ hdr ++ enc ++ post) /\
    forall gr, globals_ok gr -> exists g2, globals_ok g2 /\
      wep_decrypt gr s' (set_rxp_data p (hdr ++ enc)) = Ret (0, g2, hdr ++ payload ++ icv_of payload).
Proof.
  intros Hg Halg Hh Hiv Hicv Hrh Hri Hrc Hdesc Hhdr Hslot Hp Hk Hs' Hrl Hlen.
  unfold TXDESC_SIZE in Hdesc.
  destruct (wep_stream_ret s _ Hk) as (ctx & Hctx & Hok). rewrite Hctx in Hs'.
  assert (Hivd : iv_at (desc ++ hdr) (20 + xf_hdrlen xf) = iv_at hdr (xf_hdrlen xf)).
  { unfold iv_at. f_equal. rewrite drop_app_ge by lia. f_equal. lia. }
  destruct (encrypt_data_frame g s ctx Hg xf (desc ++ hdr) payload slot post)
    as (g1 & Hg1 & He);
    [done .. | rewrite length_app; lia | done | done | by rewrite <- app_assoc
     | by rewrite Hivd |].
  set (enc := (sc_crypt ctx (payload ++ icv_of payload)).2) in *.
  assert (Hel : length enc = (length payload + 4)%nat)
    by (unfold enc; by rewrite sc_crypt_length, length_app, icv_of_length).
  assert (Heb : bytes_ok enc).
  { apply sc_crypt_bytes; [done |]. apply bytes_ok_app. split; [done | apply le_bytes_ok]. }
  rewrite !length_app in Hlen. rewrite !length_app in Hrl.
  exists g1, enc. rewrite <- !app_assoc in He. split_and!; [done | done | done | done |]. intros gr Hgr.
  destruct (decrypt_data_frame gr s' ctx Hgr Hok (set_rxp_data p (hdr ++ enc)) hdr enc)
    as (g2 & Hg2 & Hd); cbn [set_rxp_data rxp_data rxp_len rxp_wlan_hdr_len rxp_iv_len rxp_icv_len];
    [done | rewrite length_app, Hrl; lia | lia | lia | done | lia | lia | done
     | rewrite length_app; lia | by rewrite Hrh |].
  exists g2. split; [done |].
  rewrite Hd. destruct (plain_split ctx payload) as (H1 & H2 & H3). fold enc in H1, H2, H3.
  rewrite H2, H3, H1, bytes_eqb_refl. done.
Qed.

(** A data frame encrypted by [wep_encrypt] in the transmit buffer, taken
    off the air without the transmit descriptor, is accepted by [wep_decrypt]
    with the same keys and header lengths, which restores the payload. *)
Theorem wep_data_roundtrip (g : crc_globals) (s : sec_info_st) (xf : xmit_frame)
    (p : rx_sec_pkt) (desc hdr payload slot : list Z) :
  globals_ok g ->
  xf_encrypt_algo xf = _WEP40_ \/ xf_encrypt_algo xf = _WEP104_ ->
  0 <= xf_hdrlen xf -> 4 <= xf_iv_len xf -> xf_icv_len xf = 4 ->
  rxp_wlan_hdr_len p = xf_hdrlen xf -> rxp_iv_len p = xf_iv_len xf -> rxp_icv_len p = 4 ->
  Z.of_nat (length desc) = TXDESC_SIZE ->
  Z.of_nat (length hdr) = xf_hdrlen xf + xf_iv_len xf ->
  length slot = 4%nat -> bytes_ok payload -> key_ok s (iv_at hdr (xf_hdrlen xf)) ->
  rxp_len p = Z.of_nat (length (hdr ++ payload ++ slot)) ->
  Z.of_nat (length (desc ++ hdr ++ payload ++ slot)) < 2147483648 ->
  exists g1 g2 air,
    wep_encrypt g s xf (desc ++ hdr ++ payload ++ slot)
      (Z.of_nat (length (desc ++ hdr ++ payload ++ slot))) = Ret (0, g1, desc ++ air) /\
    wep_decrypt g1 s (set_rxp_data p air) =
      Ret (0, g2, hdr ++ payload ++ icv_of payload).
Proof.
  intros Hg Halg Hh Hiv Hicv Hrh Hri Hrc Hdesc Hhdr Hslot Hp Hk Hrl Hlen.
  destruct (wep_air g s s xf p desc hdr payload slot [] Hg Halg Hh Hiv Hicv Hrh Hri Hrc Hdesc Hhdr Hslot Hp Hk
    eq_refl Hrl Hlen) as (g1 & enc & Hg1 & _ & _ & He & Hd).
  destruct (Hd g1 Hg1) as (g2 & _ & Hd2). exists g1, g2, (hdr ++ enc). rewrite !app_nil_r in He. by split.
Qed.

(** [wep_decrypt] never leaves the buffer of a frame that carries at least
    an IV and an ICV; it returns 0 exactly when the four bytes behind the
    decrypted payload are the payload's CRC-32, and -1 otherwise. *)
Theorem wep_decrypt_verdict (g : crc_globals) (s : sec_info_st) (p : rx_sec_pkt)
    (hdr body : list Z) :
  globals_ok g -> rxp_data p = hdr ++ body -> rxp_len p = Z.of_nat (length (hdr ++ body)) ->
  0 <= rxp_wlan_hdr_len p -> 4 <= rxp_iv_len p -> rxp_icv_len p = 4 ->
  Z.of_nat (length hdr) = rxp_wlan_hdr_len p + rxp_iv_len p ->
  (4 <= length body)%nat -> bytes_ok body ->
  Z.of_nat (length (hdr ++ body)) < 2147483648 ->
  key_ok s (iv_at hdr (rxp_wlan_hdr_len p)) ->
  exists r g' payload icv, length icv = 4%nat /\
    wep_decrypt g s p = Ret (r, g', hdr ++ payload ++ icv) /\
    (r = 0 <-> icv = le_bytes 4 (crc32_spec payload)) /\ (r = 0 \/ r = -1).
Proof.
  intros Hg Hd Hrl Hh Hiv Hicv Hhdr Hbl Hb Hlen Hk.
  destruct (wep_stream_ret s _ Hk) as (ctx & Hctx & Hok).
  destruct (decrypt_data_frame g s ctx Hg Hok p hdr body) as (g' & Hg' & Hdec); [done .. |].
  eexists _, g', (take (length body - 4) (sc_crypt ctx body).2),
    (drop (length body - 4) (sc_crypt ctx body).2).
  split; [rewrite length_drop, sc_crypt_length; lia |].
  split; [rewrite take_drop; exact Hdec |]. unfold bytes_eqb, icv_of. split.
  - split; case_bool_decide as Heq; (done || by rewrite Heq).
  - case_bool_decide; auto.
Qed.

End Wep.

(** ** Witnesses, with ARC4 *)

#[local] Existing Instance Arc4.arc4_cipher.

Definition wit_sec : sec_info_st :=
  mk_sec_info dot11AuthAlgrthm_Shared _WEP40_ (replicate 4 (replicate 16 7))
    [5; 13; 5; 13] 0 0 (replicate 4 (replicate 16 0)) 0.

Lemma wit_sec_ok : sec_info_ok wit_sec.
Proof.
  repeat split; apply Forall_replicate; split; [done | by apply bytes_okb_ok | done
    | by apply bytes_okb_ok].
Qed.

Definition wit_hdr : list Z := replicate 24 3 ++ [1; 2; 3; 64].
Definition wit_xf : xmit_frame := mk_xmit_frame _WEP40_ 24 4 4 false [] [].
Definition wit_rx (data : list Z) : rx_sec_pkt :=
  mk_rx_sec_pkt data 36 24 4 4 [] [] _WEP40_.

Ltac wep_wit := first [apply globals0_ok | reflexivity | by left
  | by apply bytes_okb_ok | unfold TXDESC_SIZE; cbn; lia
  | split; [apply wit_sec_ok | split; [done | split; [by apply bytes_okb_ok | vm_compute; split; discriminate]]]].

Lemma wep_auth_roundtrip_witness :
  exists g1 g2 enc, length enc = 12%nat /\
    wf_wep_encrypt_auth crc_globals0 wit_sec (wit_hdr ++ [1; 0; 3; 0; 0; 0; 16; 0] ++ replicate 4 0 ++ []) 40 =
      Ret (0, g1, wit_hdr ++ enc ++ []) /\
    wf_wep_decrypt_auth g1 wit_sec (wit_hdr ++ enc ++ []) 40 =
      Ret (0, g2, wit_hdr ++ [1; 0; 3; 0; 0; 0; 16; 0] ++ icv_of [1; 0; 3; 0; 0; 0; 16; 0] ++ []).
Proof.
  apply (wep_auth_roundtrip crc_globals0 wit_sec wit_hdr [1; 0; 3; 0; 0; 0; 16; 0]
    (replicate 4 0) []); wep_wit.
Defined.

Lemma wep_data_roundtrip_witness :
  exists g1 g2 air,
    wep_encrypt crc_globals0 wit_sec wit_xf
      (replicate 20 0 ++ wit_hdr ++ [170; 170; 3; 0] ++ replicate 4 0) 56 =
      Ret (0, g1, replicate 20 0 ++ air) /\
    wep_decrypt g1 wit_sec (set_rxp_data (wit_rx []) air) =
      Ret (0, g2, wit_hdr ++ [170; 170; 3; 0] ++ icv_of [170; 170; 3; 0]).
Proof.
  apply (wep_data_roundtrip crc_globals0 wit_sec wit_xf (wit_rx []) (replicate 20 0) wit_hdr
    [170; 170; 3; 0] (replicate 4 0)); wep_wit.
Defined.

Lemma wep_decrypt_verdict_witness :
  exists r g' payload icv, length icv = 4%nat /\
    wep_decrypt crc_globals0 wit_sec (wit_rx (wit_hdr ++ replicate 8 1)) =
      Ret (r, g', wit_hdr ++ payload ++ icv) /\
    (r = 0 <-> icv = le_bytes 4 (crc32_spec payload)) /\ (r = 0 \/ r = -1).
Proof.
  apply (wep_decrypt_verdict crc_globals0 wit_sec (wit_rx (wit_hdr ++ replicate 8 1)) wit_hdr
    (replicate 8 1)); wep_wit.
Defined.
End Wep.
