(* ===== verification/WfList.v ===== *)
(** * Intrusive lists and queues ([nic/utility/wf_list.h], [nic/utility/wf_que.h], [wf_que.c])

    A [wf_list_t] is a pair of pointers inside another structure.  The heap
    maps the address of each allocated [wf_list_t] to its two fields, one map
    per field; reading or writing a field of an address that is not allocated
    is a fault.  The operations are the stores of the source in their order.
    A ring predicate connects a heap with the sequence of addresses behind a
    list head, and every operation is proved to act on that sequence as its
    name says, leaving other rings alone. *)
From S2P Require Import Prelude.

Module WfList.

Record heap : Type := mk_heap {
  pnext : gmap Z Z;
  prev : gmap Z Z;
}.

Definition wf_list_next (h : heap) (pos : Z) : C Z := of_option (pnext h !! pos).
Definition wf_list_prev (h : heap) (pos : Z) : C Z := of_option (prev h !! pos).

(** [p->pnext = v] and [p->prev = v] *)
Definition set_next (h : heap) (p v : Z) : C heap :=
  letc _ := wf_list_next h p in Ret (mk_heap (<[p := v]> (pnext h)) (prev h)).
Definition set_prev (h : heap) (p v : Z) : C heap :=
  letc _ := wf_list_prev h p in Ret (mk_heap (pnext h) (<[p := v]> (prev h))).

Definition wf_list_is_empty (h : heap) (phead : Z) : C bool :=
  letc n := wf_list_next h phead in Ret (n =? phead).

Definition wf_list_insert (h : heap) (pnew pprev pnxt : Z) : C heap :=
  letc h := set_prev h pnxt pnew in
  letc h := set_next h pnew pnxt in
  letc h := set_prev h pnew pprev in
  set_next h pprev pnew.

Definition wf_list_insert_next (h : heap) (pnew pos : Z) : C heap :=
  letc n := wf_list_next h pos in wf_list_insert h pnew pos n.

Definition wf_list_insert_prev (h : heap) (pnew pos : Z) : C heap :=
  letc p := wf_list_prev h pos in wf_list_insert h pnew p pos.

Definition wf_list_insert_head (h : heap) (pnew phead : Z) : C heap :=
  wf_list_insert_next h pnew phead.

Definition wf_list_insert_tail (h : heap) (pnew phead : Z) : C heap :=
  wf_list_insert_prev h pnew phead.

Definition wf_list_del (h : heap) (pprev pnxt : Z) : C heap :=
  letc h := set_prev h pnxt pprev in set_next h pprev pnxt.

Definition wf_list_init (h : heap) (plist : Z) : C heap :=
  letc h := set_prev h plist plist in set_next h plist plist.

Definition wf_list_delete (h : heap) (pos : Z) : C heap :=
  letc p := wf_list_prev h pos in
  letc n := wf_list_next h pos in
  letc h := wf_list_del h p n in
  wf_list_init h pos.

(** [wf_list_for_each(pos, head)]: the addresses the loop visits. *)
Fixpoint for_each_from (fuel : nat) (h : heap) (phead pos : Z) : C (list Z) :=
  if pos =? phead then Ret []
  else match fuel with
       | O => Stuck
       | S fuel =>
           letc n := wf_list_next h pos in
           letc l := for_each_from fuel h phead n in
           Ret (pos :: l)
       end.

Definition wf_list_for_each (fuel : nat) (h : heap) (phead : Z) : C (list Z) :=
  letc n := wf_list_next h phead in for_each_from fuel h phead n.

(** ** Queues *)

(** [wf_que_t]: the address of its head and its counter.  The lock brackets
    each operation, which is therefore one step. *)
Record wf_que_t : Type := mk_que {
  head : Z;
  cnt : Z;
}.

Definition wf_que_count (q : wf_que_t) : Z := cnt q.

Definition wf_que_is_empty (h : heap) (q : wf_que_t) : C bool := wf_list_is_empty h (head q).

Definition wf_que_head (h : heap) (q : wf_que_t) : C (option Z) :=
  letc e := wf_list_is_empty h (head q) in
  if e then Ret None else letc p := wf_list_next h (head q) in Ret (Some p).

Definition wf_que_tail (h : heap) (q : wf_que_t) : C (option Z) :=
  letc e := wf_list_is_empty h (head q) in
  if e then Ret None else letc p := wf_list_prev h (head q) in Ret (Some p).

Definition wf_enque (h : heap) (pnew pos : Z) (q : wf_que_t) : C (heap * wf_que_t) :=
  letc h := wf_list_insert_next h pnew pos in Ret (h, mk_que (head q) (u32 (cnt q + 1))).

Definition wf_enque_prev (h : heap) (pnew pos : Z) (q : wf_que_t) : C (heap * wf_que_t) :=
  letc p := wf_list_prev h pos in
  letc h := wf_list_insert_next h pnew p in Ret (h, mk_que (head q) (u32 (cnt q + 1))).

Definition wf_enque_head (h : heap) (pnew : Z) (q : wf_que_t) : C (heap * wf_que_t) :=
  wf_enque h pnew (head q) q.

Definition wf_enque_tail (h : heap) (pnew : Z) (q : wf_que_t) : C (heap * wf_que_t) :=
  wf_enque_prev h pnew (head q) q.

Definition wf_deque (h : heap) (pos : Z) (q : wf_que_t) : C (heap * wf_que_t * option Z) :=
  letc e := wf_list_is_empty h (head q) in
  if e then Ret (h, q, None)
  else letc h := wf_list_delete h pos in
       Ret (h, mk_que (head q) (u32 (cnt q - 1)), Some pos).

Definition wf_deque_head (h : heap) (q : wf_que_t) : C (heap * wf_que_t * option Z) :=
  letc e := wf_list_is_empty h (head q) in
  if e then Ret (h, q, None)
  else letc p := wf_list_next h (head q) in
       letc h := wf_list_delete h p in
       Ret (h, mk_que (head q) (u32 (cnt q - 1)), Some p).

Definition wf_deque_tail (h : heap) (q : wf_que_t) : C (heap * wf_que_t * option Z) :=
  letc e := wf_list_is_empty h (head q) in
  if e then Ret (h, q, None)
  else letc p := wf_list_prev h (head q) in
       letc h := wf_list_delete h p in
       Ret (h, mk_que (head q) (u32 (cnt q - 1)), Some p).

Definition wf_que_init (h : heap) (phead : Z) : C (heap * wf_que_t) :=
  letc h := wf_list_init h phead in Ret (h, mk_que phead 0).

(** ** Chains and rings *)

Definition linked (h : heap) (a b : Z) : Prop :=
  pnext h !! a = Some b /\ prev h !! b = Some a.

(** From [a] through the addresses [l] to [b]. *)
Fixpoint chain (h : heap) (a : Z) (l : list Z) (b : Z) : Prop :=
  match l with
  | [] => linked h a b
  | c :: l => linked h a c /\ chain h c l b
  end.

Definition ring (h : heap) (phead : Z) (xs : list Z) : Prop :=
  NoDup (phead :: xs) /\ chain h phead xs phead.

(** A node that can be put in a list: allocated, in whatever state. *)
Definition node (h : heap) (p : Z) : Prop := is_Some (pnext h !! p) /\ is_Some (prev h !! p).

Lemma chain_frame h h' a l b :
  (forall x, x ∈ a :: l -> pnext h' !! x = pnext h !! x) ->
  (forall x, x ∈ l ++ [b] -> prev h' !! x = prev h !! x) ->
  chain h a l b -> chain h' a l b.
Proof.
  revert a. induction l as [| c l IH]; intros a Hn Hp; cbn [chain]; unfold linked.
  - rewrite Hn, Hp by set_solver. done.
  - intros [[H1 H2] H3]. rewrite Hn, Hp by set_solver. split; [done |].
    apply IH; [| | done]; intros; [apply Hn | apply Hp]; set_solver.
Qed.

Lemma chain_app h a l1 c l2 b :
  chain h a (l1 ++ c :: l2) b <-> chain h a l1 c /\ chain h c l2 b.
Proof.
  revert a. induction l1 as [| d l1 IH]; intros a; cbn [app chain]; [done |].
  rewrite IH. tauto.
Qed.

(** The heap after [wf_list_insert]. *)
Definition heap_insert (h : heap) (pnew p n : Z) : heap :=
  mk_heap (<[p := pnew]> (<[pnew := n]> (pnext h))) (<[pnew := p]> (<[n := pnew]> (prev h))).

Lemma list_insert_ret h pnew p n :
  is_Some (prev h !! n) -> node h pnew -> is_Some (pnext h !! p) ->
  wf_list_insert h pnew p n = Ret (heap_insert h pnew p n).
Proof.
  intros [pn Hn] [[nn Hnn] [np Hnp]] [pp Hp].
  unfold wf_list_insert, set_prev, set_next, wf_list_prev, wf_list_next.
  rewrite Hn. cbn [of_option cbind pnext prev]. rewrite Hnn. cbn [of_option cbind pnext prev].
  destruct (decide (pnew = n)) as [-> |].
  - rewrite lookup_insert_eq. cbn [of_option cbind pnext prev].
    destruct (decide (p = n)) as [-> |].
    + by rewrite lookup_insert_eq.
    + by rewrite lookup_insert_ne, Hp.
  - rewrite lookup_insert_ne, Hnp by done. cbn [of_option cbind pnext prev].
    destruct (decide (p = pnew)) as [-> |].
    + by rewrite lookup_insert_eq.
    + by rewrite lookup_insert_ne, Hp.
Qed.

Lemma last_cons_default (x a : Z) l : List.last (x :: l) a = List.last l x.
Proof.
  revert x a. induction l as [| y l IH]; intros x a; [done |].
  change (List.last (x :: y :: l) a) with (List.last (y :: l) a). by rewrite !IH.
Qed.

Lemma last_default_elem (l : list Z) x : List.last l x ∈ x :: l.
Proof.
  revert x. induction l as [| y l IH]; intros x; [set_solver |].
  rewrite last_cons_default. specialize (IH y). set_solver.
Qed.

Lemma hd_default_elem (l : list Z) b : hd b l ∈ l ++ [b].
Proof. destruct l; set_solver. Qed.

Lemma chain_insert h a l1 l2 b pnew :
  chain h a (l1 ++ l2) b -> NoDup (a :: l1 ++ l2) -> NoDup (l1 ++ l2 ++ [b]) ->
  pnew ∉ a :: l1 ++ l2 ++ [b] ->
  chain (heap_insert h pnew (List.last l1 a) (hd b l2)) a (l1 ++ pnew :: l2) b.
Proof.
  intros Hc Hn1 Hn2 Hnew. revert a Hc Hn1 Hn2 Hnew.
  induction l1 as [| x l1 IH]; intros a Hc Hn1 Hn2 Hnew.
  - cbn [app List.last] in *. cbn [chain].
    assert (Hab : a <> pnew /\ hd b l2 <> pnew).
    { destruct l2; cbn [hd app] in *; set_solver. }
    destruct Hab as [Ha Hh]. split.
    { split; cbn [heap_insert pnext prev]; by rewrite lookup_insert_eq. }
    destruct l2 as [| c l2]; cbn [hd chain app] in *.
    { split; cbn [heap_insert pnext prev];
        rewrite lookup_insert_ne, lookup_insert_eq by done; done. }
    split.
    { split; cbn [heap_insert pnext prev];
        rewrite lookup_insert_ne, lookup_insert_eq by done; done. }
    destruct Hc as [_ Hc]. apply NoDup_cons in Hn1 as [Hn1 _]. apply NoDup_cons in Hn2 as [Hn2 _].
    eapply chain_frame, Hc; intros y Hy; cbn [heap_insert pnext prev];
      rewrite !lookup_insert_ne; try done; set_solver.
  - cbn [app chain] in Hc |- *. destruct Hc as [[Hl1 Hl2] Hc].
    apply NoDup_cons in Hn1 as [Hna Hn1]. cbn [app] in Hn2. apply NoDup_cons in Hn2 as [Hnx Hn2].
    rewrite last_cons_default. pose proof (last_default_elem l1 x) as Hlast.
    pose proof (hd_default_elem l2 b) as Hhd.
    split; [| apply IH; [done | done | done | set_solver]].
    split; cbn [heap_insert pnext prev]; rewrite !lookup_insert_ne; try done; set_solver.
Qed.
(** The neighbours across any cut of a chain. *)
Lemma chain_cut h a l1 l2 b : chain h a (l1 ++ l2) b ->
  linked h (List.last l1 a) (hd b l2).
Proof.
  revert a. induction l1 as [| x l1 IH]; intros a.
  - destruct l2; cbn; [done | tauto].
  - cbn [app chain]. rewrite last_cons_default. intros [_ H]. by apply IH.
Qed.

(** The heap after [wf_list_delete]. *)
Definition heap_delete (h : heap) (pos p n : Z) : heap :=
  mk_heap (<[pos := pos]> (<[p := n]> (pnext h))) (<[pos := pos]> (<[n := p]> (prev h))).

Lemma list_delete_ret h pos p n :
  prev h !! pos = Some p -> pnext h !! pos = Some n ->
  is_Some (pnext h !! p) -> is_Some (prev h !! n) ->
  wf_list_delete h pos = Ret (heap_delete h pos p n).
Proof.
  intros Hp Hn [pp Hpp] [nn Hnn].
  unfold wf_list_delete, wf_list_del, wf_list_init, set_prev, set_next, wf_list_prev, wf_list_next.
  rewrite Hp, Hn. cbn [of_option cbind pnext prev]. rewrite Hnn. cbn [of_option cbind pnext prev].
  rewrite Hpp. cbn [of_option cbind pnext prev].
  destruct (decide (pos = n)) as [-> | Hpn].
  - rewrite lookup_insert_eq. cbn [of_option cbind pnext prev].
    destruct (decide (n = p)) as [-> |].
    + by rewrite lookup_insert_eq.
    + by rewrite lookup_insert_ne, Hn.
  - rewrite lookup_insert_ne, Hp by done. cbn [of_option cbind pnext prev].
    destruct (decide (pos = p)) as [-> |].
    + by rewrite lookup_insert_eq.
    + by rewrite lookup_insert_ne, Hn.
Qed.

Lemma chain_delete h a l1 pos l2 b :
  chain h a (l1 ++ pos :: l2) b -> NoDup (a :: l1 ++ pos :: l2) ->
  NoDup (l1 ++ pos :: l2 ++ [b]) ->
  chain (heap_delete h pos (List.last l1 a) (hd b l2)) a (l1 ++ l2) b.
Proof.
  revert a. induction l1 as [| x l1 IH]; intros a Hc Hn1 Hn2.
  - cbn [app List.last chain] in *. destruct Hc as [_ Hc].
    apply NoDup_cons in Hn1 as [Ha Hn1]. apply NoDup_cons in Hn1 as [Hp1 _].
    apply NoDup_cons in Hn2 as [Hp2 Hn2].
    assert (Hlink : linked (heap_delete h pos a (hd b l2)) a (hd b l2)).
    { pose proof (hd_default_elem l2 b).
      split; cbn [heap_delete pnext prev]; rewrite lookup_insert_ne, lookup_insert_eq; set_solver. }
    destruct l2 as [| c l2]; cbn [hd chain app] in *; [done |]. split; [done |].
    apply NoDup_cons in Hn2 as [Hc2 _]. destruct Hc as [_ Hc].
    eapply chain_frame, Hc; intros y Hy; cbn [heap_delete pnext prev];
      rewrite !lookup_insert_ne; try done; set_solver.
  - cbn [app chain] in Hc |- *. destruct Hc as [[Hl1 Hl2] Hc].
    apply NoDup_cons in Hn1 as [Hna Hn1]. cbn [app] in Hn2. apply NoDup_cons in Hn2 as [Hnx Hn2].
    rewrite last_cons_default. pose proof (last_default_elem l1 x) as Hlast.
    pose proof (hd_default_elem l2 b) as Hhd.
    split; [| by apply IH].
    split; cbn [heap_delete pnext prev]; rewrite !lookup_insert_ne; try done; set_solver.
Qed.

(** ** Rings *)

(** [h'] differs from [h] only at the addresses [s], and frees nothing. *)
Definition only (h h' : heap) (s : list Z) : Prop :=
  (forall x, node h x -> node h' x) /\
  forall x, x ∉ s -> pnext h' !! x = pnext h !! x /\ prev h' !! x = prev h !! x.

Lemma ring_only h h' s r ys : only h h' s -> (forall x, x ∈ r :: ys -> x ∉ s) ->
  ring h r ys -> ring h' r ys.
Proof.
  intros [_ Ho] Hd [Hnd Hc]. split; [done |].
  eapply chain_frame, Hc; intros x Hx; apply Ho, Hd; set_solver.
Qed.

Lemma is_Some_insert (m : gmap Z Z) i v x : is_Some (m !! x) -> is_Some (<[i := v]> m !! x).
Proof. intros H. apply lookup_insert_is_Some'. by right. Qed.

Lemma ring_nodup h phead xs : ring h phead xs -> NoDup (xs ++ [phead]).
Proof. intros [H _]. by rewrite Permutation_app_comm. Qed.

Section Ring.
Context (h : heap) (phead : Z) (l1 l2 : list Z).

Lemma insert_ring pnew :
  ring h phead (l1 ++ l2) -> node h pnew -> pnew ∉ phead :: l1 ++ l2 ->
  exists h', wf_list_insert h pnew (List.last l1 phead) (hd phead l2) = Ret h' /\
    ring h' phead (l1 ++ pnew :: l2) /\ only h h' (pnew :: phead :: l1 ++ l2).
Proof.
  intros Hr Hnode Hnew. pose proof (ring_nodup _ _ _ Hr) as Hnd'. destruct Hr as [Hnd Hc].
  destruct (chain_cut _ _ _ _ _ Hc) as [Hcn Hcp].
  eexists. split; [apply list_insert_ret; [by rewrite Hcp | done | by rewrite Hcn] |]. split.
  - split.
    + rewrite <- Permutation_middle, Permutation_swap. by constructor.
    + apply chain_insert; [done | done | by rewrite app_assoc | set_solver].
  - split.
    + intros x [Hx1 Hx2]. split; cbn [heap_insert pnext prev]; by repeat apply is_Some_insert.
    + intros x Hx. pose proof (last_default_elem l1 phead). pose proof (hd_default_elem l2 phead).
      cbn [heap_insert pnext prev]. rewrite !lookup_insert_ne; [done | set_solver ..].
Qed.

Lemma insert_next_ring pnew :
  ring h phead (l1 ++ l2) -> node h pnew -> pnew ∉ phead :: l1 ++ l2 ->
  exists h', wf_list_insert_next h pnew (List.last l1 phead) = Ret h' /\
    ring h' phead (l1 ++ pnew :: l2) /\ only h h' (pnew :: phead :: l1 ++ l2).
Proof.
  intros Hr Hnode Hnew. destruct (chain_cut _ _ _ _ _ (proj2 Hr)) as [Hcn _].
  unfold wf_list_insert_next, wf_list_next. rewrite Hcn. by apply insert_ring.
Qed.

Lemma insert_prev_ring pnew :
  ring h phead (l1 ++ l2) -> node h pnew -> pnew ∉ phead :: l1 ++ l2 ->
  exists h', wf_list_insert_prev h pnew (hd phead l2) = Ret h' /\
    ring h' phead (l1 ++ pnew :: l2) /\ only h h' (pnew :: phead :: l1 ++ l2).
Proof.
  intros Hr Hnode Hnew. destruct (chain_cut _ _ _ _ _ (proj2 Hr)) as [_ Hcp].
  unfold wf_list_insert_prev, wf_list_prev. rewrite Hcp. by apply insert_ring.
Qed.

Lemma delete_ring pos :
  ring h phead (l1 ++ pos :: l2) ->
  exists h', wf_list_delete h pos = Ret h' /\ ring h' phead (l1 ++ l2) /\ ring h' pos [] /\
    only h h' (phead :: l1 ++ pos :: l2).
Proof.
  intros Hr. pose proof (ring_nodup _ _ _ Hr) as Hnd'. destruct Hr as [Hnd Hc].
  destruct (chain_cut _ _ _ _ _ Hc) as [Hcn Hcp]. cbn [hd] in *.
  assert (Hc2 : linked h pos (hd phead l2)).
  { rewrite cons_middle, app_assoc in Hc.
    apply chain_cut in Hc. by rewrite last_last in Hc. }
  destruct Hc2 as [Hpn Hpp].
  eexists. split; [apply list_delete_ret; [done | done | by rewrite Hcn | by rewrite Hpp] |].
  split; [split |].
  - rewrite <- Permutation_middle, Permutation_swap in Hnd. by apply NoDup_cons in Hnd as [_ ?].
  - apply chain_delete; [done | done | by rewrite app_comm_cons, app_assoc].
  - split.
    + split; [repeat constructor; set_solver |].
      split; cbn [heap_delete pnext prev]; by rewrite lookup_insert_eq.
    + split.
      * intros x [Hx1 Hx2]. split; cbn [heap_delete pnext prev]; by repeat apply is_Some_insert.
      * intros x Hx. pose proof (last_default_elem l1 phead). pose proof (hd_default_elem l2 phead).
        cbn [heap_delete pnext prev]. rewrite !lookup_insert_ne; [done | set_solver ..].
Qed.
End Ring.

Lemma is_empty_ring h phead xs : ring h phead xs ->
  wf_list_is_empty h phead = Ret (bool_decide (xs = [])).
Proof.
  intros [Hnd Hc]. unfold wf_list_is_empty, wf_list_next.
  destruct xs as [| x xs]; cbn [chain] in Hc.
  - destruct Hc as [-> _]. cbn. by rewrite Z.eqb_refl.
  - destruct Hc as [[-> _] _]. cbn. apply NoDup_cons in Hnd as [Hnd _].
    destruct (Z.eqb_spec x phead); [set_solver | done].
Qed.

Lemma init_ring h p : node h p ->
  exists h', wf_list_init h p = Ret h' /\ ring h' p [] /\ only h h' [p].
Proof.
  intros [[n Hn] [q Hq]]. unfold wf_list_init, set_prev, set_next, wf_list_prev, wf_list_next.
  rewrite Hq. cbn [of_option cbind pnext prev]. rewrite Hn. cbn [of_option cbind].
  eexists. split; [done |]. split.
  - split; [repeat constructor; set_solver |]. split; cbn; by rewrite lookup_insert_eq.
  - split; [intros x [Hx1 Hx2]; split; cbn; by apply is_Some_insert |].
    intros x Hx. cbn. rewrite !lookup_insert_ne; [done | set_solver ..].
Qed.

(** The traversal visits the ring in order and ends. *)
Lemma for_each_chain h phead a xs fuel :
  chain h a xs phead -> phead ∉ xs -> (length xs <= fuel)%nat ->
  for_each_from fuel h phead (hd phead xs) = Ret xs.
Proof.
  revert a fuel. induction xs as [| x xs IH]; intros a fuel Hc Hnot Hf.
  { cbn [hd]. destruct fuel; cbn [for_each_from]; by rewrite Z.eqb_refl. }
  destruct fuel as [| fuel]; [simpl in Hf; lia |]. cbn [hd for_each_from].
  destruct (Z.eqb_spec x phead); [set_solver |]. destruct Hc as [_ Hc].
  destruct (chain_cut h x [] xs phead Hc) as [Hn _]. unfold wf_list_next.
  cbn [List.last] in Hn. rewrite Hn. cbn [of_option cbind].
  rewrite (IH x); [done | done | set_solver | simpl in Hf; lia].
Qed.

Lemma for_each_ring h phead xs fuel : ring h phead xs -> (length xs <= fuel)%nat ->
  wf_list_for_each fuel h phead = Ret xs.
Proof.
  intros [Hnd Hc] Hf. unfold wf_list_for_each, wf_list_next.
  destruct (chain_cut h phead [] xs phead Hc) as [Hn _]. cbn [List.last] in Hn. rewrite Hn.
  cbn [of_option cbind]. apply NoDup_cons in Hnd as [Hnd _]. by apply for_each_chain with phead.
Qed.

(** ** Queues refine sequences *)

(** The queue [q] holds the nodes [xs] in order. *)
Definition que_rep (h : heap) (q : wf_que_t) (xs : list Z) : Prop :=
  ring h (head q) xs /\ cnt q = u32 (Z.of_nat (length xs)).

(** The calls a client makes, by node address. *)
Inductive que_op : Type :=
  | Enque (pnew pos : Z)
  | EnquePrev (pnew pos : Z)
  | EnqueHead (pnew : Z)
  | EnqueTail (pnew : Z)
  | Deque (pos : Z)
  | DequeHead
  | DequeTail.

Definition que_step (h : heap) (q : wf_que_t) (o : que_op) : C (heap * wf_que_t * option Z) :=
  match o with
  | Enque n p => letc (h, q) := wf_enque h n p q in Ret (h, q, None)
  | EnquePrev n p => letc (h, q) := wf_enque_prev h n p q in Ret (h, q, None)
  | EnqueHead n => letc (h, q) := wf_enque_head h n q in Ret (h, q, None)
  | EnqueTail n => letc (h, q) := wf_enque_tail h n q in Ret (h, q, None)
  | Deque p => wf_deque h p q
  | DequeHead => wf_deque_head h q
  | DequeTail => wf_deque_tail h q
  end.

Fixpoint que_run (h : heap) (q : wf_que_t) (os : list que_op)
    : C (heap * wf_que_t * list (option Z)) :=
  match os with
  | [] => Ret (h, q, [])
  | o :: os =>
      letc (h, q, r) := que_step h q o in
      letc (h, q, rs) := que_run h q os in
      Ret (h, q, r :: rs)
  end.

(** The sequence a queue stands for; [None] for a call that breaks the
    contract: a node that is not allocated or already queued, a position that
    is not in the queue. *)
Definition split_at (p : Z) (xs : list Z) : option (list Z * list Z) :=
  match list_find (eq p) xs with
  | Some (i, _) => Some (take i xs, drop (S i) xs)
  | None => None
  end.

Definition fresh (nodes : list Z) (phead n : Z) (xs : list Z) : bool :=
  bool_decide (n ∈ nodes) && bool_decide (n ∉ phead :: xs).

Definition spec_step (nodes : list Z) (phead : Z) (o : que_op) (xs : list Z)
    : option (list Z * option Z) :=
  match o with
  | Enque n p =>
      if fresh nodes phead n xs then
        if p =? phead then Some (n :: xs, None)
        else '(l1, l2) ← split_at p xs; Some (l1 ++ p :: n :: l2, None)
      else None
  | EnquePrev n p =>
      if fresh nodes phead n xs then
        if p =? phead then Some (xs ++ [n], None)
        else '(l1, l2) ← split_at p xs; Some (l1 ++ n :: p :: l2, None)
      else None
  | EnqueHead n => if fresh nodes phead n xs then Some (n :: xs, None) else None
  | EnqueTail n => if fresh nodes phead n xs then Some (xs ++ [n], None) else None
  | Deque p =>
      match xs with
      | [] => Some ([], None)
      | _ => '(l1, l2) ← split_at p xs; Some (l1 ++ l2, Some p)
      end
  | DequeHead => Some (tail xs, hd_error xs)
  | DequeTail => Some (removelast xs, last xs)
  end.

Fixpoint spec_run (nodes : list Z) (phead : Z) (os : list que_op) (xs : list Z)
    : option (list Z * list (option Z)) :=
  match os with
  | [] => Some (xs, [])
  | o :: os =>
      '(xs, r) ← spec_step nodes phead o xs;
      '(xs, rs) ← spec_run nodes phead os xs;
      Some (xs, r :: rs)
  end.

Lemma split_at_Some p xs l1 l2 : split_at p xs = Some (l1, l2) -> xs = l1 ++ p :: l2.
Proof.
  unfold split_at. destruct (list_find (eq p) xs) as [[i y] |] eqn:E; [| done].
  apply list_find_Some in E as (Hi & <- & _). intros [= <- <-].
  symmetry. by apply take_drop_middle.
Qed.

Lemma fresh_true nodes phead n xs : fresh nodes phead n xs = true ->
  n ∈ nodes /\ n ∉ phead :: xs.
Proof. intros [H1 H2]%andb_prop. split; by eapply bool_decide_eq_true_1. Qed.

Lemma cnt_incr q (l1 : list Z) n l2 : cnt q = u32 (Z.of_nat (length (l1 ++ l2))) ->
  u32 (cnt q + 1) = u32 (Z.of_nat (length (l1 ++ n :: l2))).
Proof.
  intros ->. unfold u32. rewrite Zplus_mod_idemp_l. f_equal. rewrite !length_app. simpl. lia.
Qed.

Lemma cnt_decr q (l1 : list Z) n l2 : cnt q = u32 (Z.of_nat (length (l1 ++ n :: l2))) ->
  u32 (cnt q - 1) = u32 (Z.of_nat (length (l1 ++ l2))).
Proof.
  intros ->. unfold u32. rewrite Zminus_mod_idemp_l. f_equal. rewrite !length_app. simpl. lia.
Qed.

Section Que.
Context (h : heap) (q : wf_que_t).

Lemma enque_rep n l1 l2 :
  que_rep h q (l1 ++ l2) -> node h n -> n ∉ head q :: l1 ++ l2 ->
  exists h' q', wf_enque h n (List.last l1 (head q)) q = Ret (h', q') /\
    wf_enque_prev h n (hd (head q) l2) q = Ret (h', q') /\ head q' = head q /\
    que_rep h' q' (l1 ++ n :: l2) /\ only h h' (n :: head q :: l1 ++ l2).
Proof.
  intros [Hr Hc] Hn Hnot. destruct (insert_next_ring h _ _ _ n Hr Hn Hnot) as (h' & Hi & Hr' & Ho).
  exists h', (mk_que (head q) (u32 (cnt q + 1))).
  split; [unfold wf_enque; by rewrite Hi |]. split.
  { destruct (chain_cut _ _ _ _ _ (proj2 Hr)) as [_ Hp].
    unfold wf_enque_prev, wf_list_prev. rewrite Hp. cbn [of_option cbind]. by rewrite Hi. }
  split; [done |]. split; [| done]. split; [done |]. by apply cnt_incr.
Qed.

Lemma deque_rep l1 p l2 : que_rep h q (l1 ++ p :: l2) ->
  exists h', wf_deque h p q = Ret (h', mk_que (head q) (u32 (cnt q - 1)), Some p) /\
    wf_list_delete h p = Ret h' /\ ring h' p [] /\
    que_rep h' (mk_que (head q) (u32 (cnt q - 1))) (l1 ++ l2) /\ only h h' (head q :: l1 ++ p :: l2).
Proof.
  intros [Hr Hc]. destruct (delete_ring h _ _ _ p Hr) as (h' & Hd & Hr' & Hs & Ho).
  exists h'. split.
  { unfold wf_deque. rewrite (is_empty_ring _ _ _ Hr). cbn [cbind].
    rewrite bool_decide_eq_false_2 by (by destruct l1). by rewrite Hd. }
  split_and!; [done | done | split; [done | by apply cnt_decr with p] | done].
Qed.

Lemma deque_ends xs : que_rep h q xs -> xs <> [] ->
  exists a b, hd_error xs = Some a /\ last xs = Some b /\
    wf_list_is_empty h (head q) = Ret false /\
    wf_list_next h (head q) = Ret a /\ wf_list_prev h (head q) = Ret b.
Proof.
  intros [Hr _] Hne. rewrite (is_empty_ring _ _ _ Hr), bool_decide_eq_false_2 by done.
  destruct Hr as [_ Hc].
  destruct (chain_cut h (head q) [] xs (head q) Hc) as [Hn _].
  rewrite <- (app_nil_r xs) in Hc. destruct (chain_cut h (head q) xs [] (head q) Hc) as [_ Hp].
  destruct xs as [| x xs]; [done |]. unfold wf_list_next, wf_list_prev.
  exists x, (List.last xs x). cbn [List.last hd] in Hn, Hp. rewrite Hn.
  change (match xs with [] => x | _ :: _ => List.last xs (head q) end)
    with (List.last (x :: xs) (head q)) in Hp.
  rewrite last_cons_default in Hp. rewrite Hp. split_and!; try done.
  clear. revert x. induction xs as [| y xs IH]; intros x; [done |].
  rewrite last_cons_default. rewrite <- IH. by destruct xs.
Qed.
End Que.
(** One call on the heap does what the contract says on the sequence. *)
Lemma enque_in nodes h q xs n l1 l2 :
  que_rep h q xs -> (forall n, n ∈ nodes -> node h n) ->
  xs = l1 ++ l2 -> fresh nodes (head q) n xs = true ->
  exists h' q', wf_enque h n (List.last l1 (head q)) q = Ret (h', q') /\
    wf_enque_prev h n (hd (head q) l2) q = Ret (h', q') /\ head q' = head q /\
    que_rep h' q' (l1 ++ n :: l2) /\ (forall n, n ∈ nodes -> node h' n).
Proof.
  intros Hq Hnodes -> [Hn Hnot]%fresh_true.
  destruct (enque_rep h q n l1 l2 Hq (Hnodes n Hn) Hnot) as (h' & q' & H1 & H2 & H3 & H4 & Ho).
  exists h', q'. split_and!; try done. intros m Hm. apply Ho, Hnodes, Hm.
Qed.

Lemma deque_out (nodes : list Z) h q xs l1 p l2 :
  que_rep h q xs -> (forall n, n ∈ nodes -> node h n) -> xs = l1 ++ p :: l2 ->
  exists h', wf_list_delete h p = Ret h' /\
    que_rep h' (mk_que (head q) (u32 (cnt q - 1))) (l1 ++ l2) /\ (forall n, n ∈ nodes -> node h' n).
Proof.
  intros Hq Hnodes ->. destruct (deque_rep h q l1 p l2 Hq) as (h' & _ & H2 & _ & H4 & Ho).
  exists h'. split_and!; try done. intros m Hm. apply Ho, Hnodes, Hm.
Qed.

Definition inserts (o : que_op) : bool :=
  match o with Enque _ _ | EnquePrev _ _ | EnqueHead _ | EnqueTail _ => true | _ => false end.

Lemma enque_step_refines nodes h q xs o xs' r :
  inserts o = true ->
  que_rep h q xs -> (forall n, n ∈ nodes -> node h n) ->
  spec_step nodes (head q) o xs = Some (xs', r) ->
  exists h' q', que_step h q o = Ret (h', q', r) /\ head q' = head q /\ que_rep h' q' xs' /\
    (forall n, n ∈ nodes -> node h' n).
Proof.
  intros Ho Hq Hnodes. pose proof (fun n l1 l2 => enque_in nodes h q xs n l1 l2 Hq Hnodes) as Hin.
  destruct o as [n p | n p | n | n | p | |]; try discriminate Ho; cbn [spec_step que_step].
  - destruct (fresh nodes (head q) n xs) eqn:Hf; [| done].
    destruct (Z.eqb_spec p (head q)) as [-> | Hne].
    + intros [= <- <-]. destruct (Hin n [] xs eq_refl Hf) as (h' & q' & H1 & _ & H3 & H4 & H5).
      exists h', q'. cbn [List.last] in H1. by rewrite H1.
    + destruct (split_at p xs) as [[l1 l2] |] eqn:Hs; [| done]. intros [= <- <-].
      apply split_at_Some in Hs as ->.
      destruct (Hin n (l1 ++ [p]) l2) as (h' & q' & H1 & _ & H3 & H4 & H5);
        [by rewrite <- app_assoc | done |].
      exists h', q'. rewrite last_last in H1. rewrite H1. by rewrite <- app_assoc in H4.
  - destruct (fresh nodes (head q) n xs) eqn:Hf; [| done].
    destruct (Z.eqb_spec p (head q)) as [-> | Hne].
    + intros [= <- <-].
      destruct (Hin n xs []) as (h' & q' & _ & H2 & H3 & H4 & H5); [by rewrite app_nil_r | done |].
      exists h', q'. cbn [hd] in H2. by rewrite H2.
    + destruct (split_at p xs) as [[l1 l2] |] eqn:Hs; [| done]. intros [= <- <-].
      apply split_at_Some in Hs as ->.
      destruct (Hin n l1 (p :: l2) eq_refl Hf) as (h' & q' & _ & H2 & H3 & H4 & H5).
      exists h', q'. cbn [hd] in H2. by rewrite H2.
  - destruct (fresh nodes (head q) n xs) eqn:Hf; [| done]. intros [= <- <-].
    destruct (Hin n [] xs eq_refl Hf) as (h' & q' & H1 & _ & H3 & H4 & H5).
    exists h', q'. unfold wf_enque_head. cbn [List.last] in H1. by rewrite H1.
  - destruct (fresh nodes (head q) n xs) eqn:Hf; [| done]. intros [= <- <-].
    destruct (Hin n xs []) as (h' & q' & _ & H2 & H3 & H4 & H5); [by rewrite app_nil_r | done |].
    exists h', q'. unfold wf_enque_tail. cbn [hd] in H2. by rewrite H2.
Qed.

Lemma deque_step_refines nodes h q xs o xs' r :
  inserts o = false ->
  que_rep h q xs -> (forall n, n ∈ nodes -> node h n) ->
  spec_step nodes (head q) o xs = Some (xs', r) ->
  exists h' q', que_step h q o = Ret (h', q', r) /\ head q' = head q /\ que_rep h' q' xs' /\
    (forall n, n ∈ nodes -> node h' n).
Proof.
  intros Ho Hq Hnodes. pose proof (fun l1 p l2 => deque_out nodes h q xs l1 p l2 Hq Hnodes) as Hout.
  pose proof (deque_ends h q xs Hq) as Hends. pose proof (is_empty_ring _ _ _ (proj1 Hq)) as Hemp.
  destruct o as [n p | n p | n | n | p | |]; try discriminate Ho; cbn [spec_step que_step].
  - destruct xs as [| x xs].
    { intros [= <- <-]. exists h, q. unfold wf_deque. by rewrite Hemp. }
    destruct (split_at p (x :: xs)) as [[l1 l2] |] eqn:Hs; [| done]. intros [= <- <-].
    apply split_at_Some in Hs. destruct (Hout l1 p l2 Hs) as (h' & H1 & H2 & H3).
    exists h', (mk_que (head q) (u32 (cnt q - 1))). unfold wf_deque. rewrite Hemp, H1. done.
  - destruct xs as [| x xs]; intros [= <- <-].
    { exists h, q. unfold wf_deque_head. by rewrite Hemp. }
    destruct Hends as (a & b & Ha & _ & He & Hn & _); [done |]. injection Ha as <-.
    destruct (Hout [] x xs eq_refl) as (h' & H1 & H2 & H3).
    exists h', (mk_que (head q) (u32 (cnt q - 1))). unfold wf_deque_head.
    rewrite He, Hn. cbn [cbind]. by rewrite H1.
  - intros [= <- <-]. destruct (decide (xs = [])) as [-> | Hne].
    { exists h, q. unfold wf_deque_tail. by rewrite Hemp. }
    destruct (Hends Hne) as (a & b & _ & Hb & He & _ & Hp).
    assert (Hsplit : xs = removelast xs ++ [b]).
    { rewrite (app_removelast_last 0 Hne) at 1. do 2 f_equal.
      apply last_Some in Hb as [l' ->]. by rewrite last_last. }
    destruct (Hout (removelast xs) b [] Hsplit) as (h' & H1 & H2 & H3). rewrite app_nil_r in H2.
    exists h', (mk_que (head q) (u32 (cnt q - 1))). unfold wf_deque_tail.
    rewrite He, Hp, Hb. cbn [cbind]. by rewrite H1.
Qed.

Lemma que_step_refines nodes h q xs o xs' r :
  que_rep h q xs -> (forall n, n ∈ nodes -> node h n) ->
  spec_step nodes (head q) o xs = Some (xs', r) ->
  exists h' q', que_step h q o = Ret (h', q', r) /\ head q' = head q /\ que_rep h' q' xs' /\
    (forall n, n ∈ nodes -> node h' n).
Proof.
  destruct (inserts o) eqn:Ho; [by apply enque_step_refines | by apply deque_step_refines].
Qed.

(** C27: the queues of [wf_que.c] over the pointer heap refine sequences.  For
    every series of insertions and removals that keeps to the contract (only
    allocated nodes that are not queued go in, only queued nodes come out),
    the calls return without touching unallocated memory, give the results the
    sequence gives, and leave a queue whose traversal is that sequence and
    whose count is its length. *)
Theorem que_refines (nodes : list Z) (os : list que_op) (h : heap) (q : wf_que_t)
    (xs xs' : list Z) (rs : list (option Z)) :
  que_rep h q xs -> (forall n, n ∈ nodes -> node h n) ->
  spec_run nodes (head q) os xs = Some (xs', rs) ->
  exists h' q', que_run h q os = Ret (h', q', rs) /\ que_rep h' q' xs' /\
    wf_list_for_each (length xs') h' (head q') = Ret xs' /\
    wf_que_count q' = u32 (Z.of_nat (length xs')).
Proof.
  revert h q xs rs. induction os as [| o os IH]; intros h q xs rs Hq Hn Hs; cbn [spec_run que_run] in *.
  - injection Hs as <- <-. exists h, q. split_and!; [done | done | | apply Hq].
    apply for_each_ring; [apply Hq | lia].
  - destruct (spec_step nodes (head q) o xs) as [[xs1 r] |] eqn:Hstep; [| done].
    cbn [mbind option_bind] in Hs.
    destruct (que_step_refines _ _ _ _ _ _ _ Hq Hn Hstep) as (h1 & q1 & H1 & Hhd & Hq1 & Hn1).
    destruct (spec_run nodes (head q) os xs1) as [[xs2 rs'] |] eqn:Hrun; [| done].
    injection Hs as <- <-. rewrite <- Hhd in Hrun.
    destruct (IH h1 q1 xs1 rs' Hq1 Hn1 Hrun) as (h' & q' & H2 & H3).
    exists h', q'. rewrite H1. cbn [cbind]. rewrite H2. done.
Qed.

(** A heap of the three nodes 10, 20, 30 and the empty queue headed at 1. *)
Definition wit_heap : heap :=
  let m := list_to_map [(1, 1); (10, 0); (20, 0); (30, 0)] in mk_heap m m.

Lemma que_refines_witness :
  exists h' q', que_run wit_heap (mk_que 1 0)
      [EnqueTail 10; EnqueHead 20; EnquePrev 30 10; DequeHead; DequeTail] =
      Ret (h', q', [None; None; None; Some 20; Some 10]) /\ que_rep h' q' [30] /\
    wf_list_for_each 1 h' (head q') = Ret [30] /\ wf_que_count q' = 1.
Proof.
  apply (que_refines [10; 20; 30] _ wit_heap (mk_que 1 0) [] [30]).
  - split; [| reflexivity]. split; [repeat constructor; set_solver |].
    split; vm_compute; reflexivity.
  - intros n Hn. repeat (apply elem_of_cons in Hn as [-> | Hn]; [split; vm_compute; eauto |]).
    by apply elem_of_nil in Hn.
  - vm_compute. reflexivity.
Defined.
End WfList.
