(* ===== verification/WdnTypes.v ===== *)
(** * The device node structure ([nic/wdn.h]) and the hardware description ([nic/hw_info.h])

    One module per C structure, with the fields the modelled code reads or
    writes and a setter for each; a [union Keytype] is the list of its 16
    bytes, a [union pn48] its 64-bit value, a [que_t] the sequence of its
    entries. *)
From S2P Require Import Prelude.

(** [wf_80211_mgmt_ht_cap_t]: the two first fields and the MCS set. *)
Module HtCap.
Record wf_80211_mgmt_ht_cap_t : Type := mk_ht_cap {
  cap_info : Z;
  ampdu_params_info : Z;
  supp_mcs_set : list Z;
}.

Definition set_cap_info (v : Z) (r : wf_80211_mgmt_ht_cap_t) : wf_80211_mgmt_ht_cap_t :=
  mk_ht_cap v (ampdu_params_info r) (supp_mcs_set r).
Definition set_ampdu_params_info (v : Z) (r : wf_80211_mgmt_ht_cap_t) : wf_80211_mgmt_ht_cap_t :=
  mk_ht_cap (cap_info r) v (supp_mcs_set r).
Definition set_supp_mcs_set (v : list Z) (r : wf_80211_mgmt_ht_cap_t) : wf_80211_mgmt_ht_cap_t :=
  mk_ht_cap (cap_info r) (ampdu_params_info r) v.

(** All bytes zero. *)
Definition zero : wf_80211_mgmt_ht_cap_t :=
  mk_ht_cap 0 0 (replicate 16 0).
End HtCap.

(** [struct wf_ht_priv] *)
Module HtPriv.
Record wf_ht_priv : Type := mk_ht_priv {
  ht_option : Z;
  ampdu_enable : Z;
  rx_ampdu_maxlen : Z;
  rx_ampdu_min_spacing : Z;
  ldpc : Z;
  both_20m_40m : Z;
  sgi_20m : Z;
  sgi_40m : Z;
  dssck_40m : Z;
  smps : Z;
  sm_ps_mode : Z;
  rx_stbc : Z;
  tx_stbc : Z;
  agg_enable_bitmap : Z;
  candidate_tid_bitmap : Z;
  tx_amsdu_enable : Z;
}.

Definition set_ht_option (v : Z) (r : wf_ht_priv) : wf_ht_priv :=
  mk_ht_priv v (ampdu_enable r) (rx_ampdu_maxlen r) (rx_ampdu_min_spacing r) (ldpc r)
    (both_20m_40m r) (sgi_20m r) (sgi_40m r) (dssck_40m r) (smps r) (sm_ps_mode r) (rx_stbc r)
    (tx_stbc r) (agg_enable_bitmap r) (candidate_tid_bitmap r) (tx_amsdu_enable r).
Definition set_ampdu_enable (v : Z) (r : wf_ht_priv) : wf_ht_priv :=
  mk_ht_priv (ht_option r) v (rx_ampdu_maxlen r) (rx_ampdu_min_spacing r) (ldpc r) (both_20m_40m
    r) (sgi_20m r) (sgi_40m r) (dssck_40m r) (smps r) (sm_ps_mode r) (rx_stbc r) (tx_stbc r)
    (agg_enable_bitmap r) (candidate_tid_bitmap r) (tx_amsdu_enable r).
Definition set_rx_ampdu_maxlen (v : Z) (r : wf_ht_priv) : wf_ht_priv :=
  mk_ht_priv (ht_option r) (ampdu_enable r) v (rx_ampdu_min_spacing r) (ldpc r) (both_20m_40m r)
    (sgi_20m r) (sgi_40m r) (dssck_40m r) (smps r) (sm_ps_mode r) (rx_stbc r) (tx_stbc r)
    (agg_enable_bitmap r) (candidate_tid_bitmap r) (tx_amsdu_enable r).
Definition set_rx_ampdu_min_spacing (v : Z) (r : wf_ht_priv) : wf_ht_priv :=
  mk_ht_priv (ht_option r) (ampdu_enable r) (rx_ampdu_maxlen r) v (ldpc r) (both_20m_40m r)
    (sgi_20m r) (sgi_40m r) (dssck_40m r) (smps r) (sm_ps_mode r) (rx_stbc r) (tx_stbc r)
    (agg_enable_bitmap r) (candidate_tid_bitmap r) (tx_amsdu_enable r).
Definition set_ldpc (v : Z) (r : wf_ht_priv) : wf_ht_priv :=
  mk_ht_priv (ht_option r) (ampdu_enable r) (rx_ampdu_maxlen r) (rx_ampdu_min_spacing r) v
    (both_20m_40m r) (sgi_20m r) (sgi_40m r) (dssck_40m r) (smps r) (sm_ps_mode r) (rx_stbc r)
    (tx_stbc r) (agg_enable_bitmap r) (candidate_tid_bitmap r) (tx_amsdu_enable r).
Definition set_both_20m_40m (v : Z) (r : wf_ht_priv) : wf_ht_priv :=
  mk_ht_priv (ht_option r) (ampdu_enable r) (rx_ampdu_maxlen r) (rx_ampdu_min_spacing r) (ldpc
    r) v (sgi_20m r) (sgi_40m r) (dssck_40m r) (smps r) (sm_ps_mode r) (rx_stbc r) (tx_stbc r)
    (agg_enable_bitmap r) (candidate_tid_bitmap r) (tx_amsdu_enable r).
Definition set_sgi_20m (v : Z) (r : wf_ht_priv) : wf_ht_priv :=
  mk_ht_priv (ht_option r) (ampdu_enable r) (rx_ampdu_maxlen r) (rx_ampdu_min_spacing r) (ldpc
    r) (both_20m_40m r) v (sgi_40m r) (dssck_40m r) (smps r) (sm_ps_mode r) (rx_stbc r) (tx_stbc
    r) (agg_enable_bitmap r) (candidate_tid_bitmap r) (tx_amsdu_enable r).
Definition set_sgi_40m (v : Z) (r : wf_ht_priv) : wf_ht_priv :=
  mk_ht_priv (ht_option r) (ampdu_enable r) (rx_ampdu_maxlen r) (rx_ampdu_min_spacing r) (ldpc
    r) (both_20m_40m r) (sgi_20m r) v (dssck_40m r) (smps r) (sm_ps_mode r) (rx_stbc r) (tx_stbc
    r) (agg_enable_bitmap r) (candidate_tid_bitmap r) (tx_amsdu_enable r).
Definition set_dssck_40m (v : Z) (r : wf_ht_priv) : wf_ht_priv :=
  mk_ht_priv (ht_option r) (ampdu_enable r) (rx_ampdu_maxlen r) (rx_ampdu_min_spacing r) (ldpc
    r) (both_20m_40m r) (sgi_20m r) (sgi_40m r) v (smps r) (sm_ps_mode r) (rx_stbc r) (tx_stbc
    r) (agg_enable_bitmap r) (candidate_tid_bitmap r) (tx_amsdu_enable r).
Definition set_smps (v : Z) (r : wf_ht_priv) : wf_ht_priv :=
  mk_ht_priv (ht_option r) (ampdu_enable r) (rx_ampdu_maxlen r) (rx_ampdu_min_spacing r) (ldpc
    r) (both_20m_40m r) (sgi_20m r) (sgi_40m r) (dssck_40m r) v (sm_ps_mode r) (rx_stbc r)
    (tx_stbc r) (agg_enable_bitmap r) (candidate_tid_bitmap r) (tx_amsdu_enable r).
Definition set_sm_ps_mode (v : Z) (r : wf_ht_priv) : wf_ht_priv :=
  mk_ht_priv (ht_option r) (ampdu_enable r) (rx_ampdu_maxlen r) (rx_ampdu_min_spacing r) (ldpc
    r) (both_20m_40m r) (sgi_20m r) (sgi_40m r) (dssck_40m r) (smps r) v (rx_stbc r) (tx_stbc r)
    (agg_enable_bitmap r) (candidate_tid_bitmap r) (tx_amsdu_enable r).
Definition set_rx_stbc (v : Z) (r : wf_ht_priv) : wf_ht_priv :=
  mk_ht_priv (ht_option r) (ampdu_enable r) (rx_ampdu_maxlen r) (rx_ampdu_min_spacing r) (ldpc
    r) (both_20m_40m r) (sgi_20m r) (sgi_40m r) (dssck_40m r) (smps r) (sm_ps_mode r) v (tx_stbc
    r) (agg_enable_bitmap r) (candidate_tid_bitmap r) (tx_amsdu_enable r).
Definition set_tx_stbc (v : Z) (r : wf_ht_priv) : wf_ht_priv :=
  mk_ht_priv (ht_option r) (ampdu_enable r) (rx_ampdu_maxlen r) (rx_ampdu_min_spacing r) (ldpc
    r) (both_20m_40m r) (sgi_20m r) (sgi_40m r) (dssck_40m r) (smps r) (sm_ps_mode r) (rx_stbc
    r) v (agg_enable_bitmap r) (candidate_tid_bitmap r) (tx_amsdu_enable r).
Definition set_agg_enable_bitmap (v : Z) (r : wf_ht_priv) : wf_ht_priv :=
  mk_ht_priv (ht_option r) (ampdu_enable r) (rx_ampdu_maxlen r) (rx_ampdu_min_spacing r) (ldpc
    r) (both_20m_40m r) (sgi_20m r) (sgi_40m r) (dssck_40m r) (smps r) (sm_ps_mode r) (rx_stbc
    r) (tx_stbc r) v (candidate_tid_bitmap r) (tx_amsdu_enable r).
Definition set_candidate_tid_bitmap (v : Z) (r : wf_ht_priv) : wf_ht_priv :=
  mk_ht_priv (ht_option r) (ampdu_enable r) (rx_ampdu_maxlen r) (rx_ampdu_min_spacing r) (ldpc
    r) (both_20m_40m r) (sgi_20m r) (sgi_40m r) (dssck_40m r) (smps r) (sm_ps_mode r) (rx_stbc
    r) (tx_stbc r) (agg_enable_bitmap r) v (tx_amsdu_enable r).
Definition set_tx_amsdu_enable (v : Z) (r : wf_ht_priv) : wf_ht_priv :=
  mk_ht_priv (ht_option r) (ampdu_enable r) (rx_ampdu_maxlen r) (rx_ampdu_min_spacing r) (ldpc
    r) (both_20m_40m r) (sgi_20m r) (sgi_40m r) (dssck_40m r) (smps r) (sm_ps_mode r) (rx_stbc
    r) (tx_stbc r) (agg_enable_bitmap r) (candidate_tid_bitmap r) v.

(** All bytes zero. *)
Definition zero : wf_ht_priv :=
  mk_ht_priv 0 0 0 0 0 0 0 0 0 0 0 0 0 0 0 0.
End HtPriv.

(** [struct wdninfo_stats], the receive counters and their last values *)
Module Stats.
Record wdninfo_stats : Type := mk_stats {
  rx_mgnt_pkts : Z;
  rx_beacon_pkts : Z;
  rx_probereq_pkts : Z;
  rx_probersp_pkts : Z;
  rx_probersp_bm_pkts : Z;
  rx_probersp_uo_pkts : Z;
  rx_ctrl_pkts : Z;
  rx_data_pkts : Z;
  last_rx_mgnt_pkts : Z;
  last_rx_beacon_pkts : Z;
  last_rx_probereq_pkts : Z;
  last_rx_probersp_pkts : Z;
  last_rx_probersp_bm_pkts : Z;
  last_rx_probersp_uo_pkts : Z;
  last_rx_ctrl_pkts : Z;
  last_rx_data_pkts : Z;
}.

Definition set_rx_mgnt_pkts (v : Z) (r : wdninfo_stats) : wdninfo_stats :=
  mk_stats v (rx_beacon_pkts r) (rx_probereq_pkts r) (rx_probersp_pkts r) (rx_probersp_bm_pkts
    r) (rx_probersp_uo_pkts r) (rx_ctrl_pkts r) (rx_data_pkts r) (last_rx_mgnt_pkts r)
    (last_rx_beacon_pkts r) (last_rx_probereq_pkts r) (last_rx_probersp_pkts r)
    (last_rx_probersp_bm_pkts r) (last_rx_probersp_uo_pkts r) (last_rx_ctrl_pkts r)
    (last_rx_data_pkts r).
Definition set_rx_beacon_pkts (v : Z) (r : wdninfo_stats) : wdninfo_stats :=
  mk_stats (rx_mgnt_pkts r) v (rx_probereq_pkts r) (rx_probersp_pkts r) (rx_probersp_bm_pkts r)
    (rx_probersp_uo_pkts r) (rx_ctrl_pkts r) (rx_data_pkts r) (last_rx_mgnt_pkts r)
    (last_rx_beacon_pkts r) (last_rx_probereq_pkts r) (last_rx_probersp_pkts r)
    (last_rx_probersp_bm_pkts r) (last_rx_probersp_uo_pkts r) (last_rx_ctrl_pkts r)
    (last_rx_data_pkts r).
Definition set_rx_probereq_pkts (v : Z) (r : wdninfo_stats) : wdninfo_stats :=
  mk_stats (rx_mgnt_pkts r) (rx_beacon_pkts r) v (rx_probersp_pkts r) (rx_probersp_bm_pkts r)
    (rx_probersp_uo_pkts r) (rx_ctrl_pkts r) (rx_data_pkts r) (last_rx_mgnt_pkts r)
    (last_rx_beacon_pkts r) (last_rx_probereq_pkts r) (last_rx_probersp_pkts r)
    (last_rx_probersp_bm_pkts r) (last_rx_probersp_uo_pkts r) (last_rx_ctrl_pkts r)
    (last_rx_data_pkts r).
Definition set_rx_probersp_pkts (v : Z) (r : wdninfo_stats) : wdninfo_stats :=
  mk_stats (rx_mgnt_pkts r) (rx_beacon_pkts r) (rx_probereq_pkts r) v (rx_probersp_bm_pkts r)
    (rx_probersp_uo_pkts r) (rx_ctrl_pkts r) (rx_data_pkts r) (last_rx_mgnt_pkts r)
    (last_rx_beacon_pkts r) (last_rx_probereq_pkts r) (last_rx_probersp_pkts r)
    (last_rx_probersp_bm_pkts r) (last_rx_probersp_uo_pkts r) (last_rx_ctrl_pkts r)
    (last_rx_data_pkts r).
Definition set_rx_probersp_bm_pkts (v : Z) (r : wdninfo_stats) : wdninfo_stats :=
  mk_stats (rx_mgnt_pkts r) (rx_beacon_pkts r) (rx_probereq_pkts r) (rx_probersp_pkts r) v
    (rx_probersp_uo_pkts r) (rx_ctrl_pkts r) (rx_data_pkts r) (last_rx_mgnt_pkts r)
    (last_rx_beacon_pkts r) (last_rx_probereq_pkts r) (last_rx_probersp_pkts r)
    (last_rx_probersp_bm_pkts r) (last_rx_probersp_uo_pkts r) (last_rx_ctrl_pkts r)
    (last_rx_data_pkts r).
Definition set_rx_probersp_uo_pkts (v : Z) (r : wdninfo_stats) : wdninfo_stats :=
  mk_stats (rx_mgnt_pkts r) (rx_beacon_pkts r) (rx_probereq_pkts r) (rx_probersp_pkts r)
    (rx_probersp_bm_pkts r) v (rx_ctrl_pkts r) (rx_data_pkts r) (last_rx_mgnt_pkts r)
    (last_rx_beacon_pkts r) (last_rx_probereq_pkts r) (last_rx_probersp_pkts r)
    (last_rx_probersp_bm_pkts r) (last_rx_probersp_uo_pkts r) (last_rx_ctrl_pkts r)
    (last_rx_data_pkts r).
Definition set_rx_ctrl_pkts (v : Z) (r : wdninfo_stats) : wdninfo_stats :=
  mk_stats (rx_mgnt_pkts r) (rx_beacon_pkts r) (rx_probereq_pkts r) (rx_probersp_pkts r)
    (rx_probersp_bm_pkts r) (rx_probersp_uo_pkts r) v (rx_data_pkts r) (last_rx_mgnt_pkts r)
    (last_rx_beacon_pkts r) (last_rx_probereq_pkts r) (last_rx_probersp_pkts r)
    (last_rx_probersp_bm_pkts r) (last_rx_probersp_uo_pkts r) (last_rx_ctrl_pkts r)
    (last_rx_data_pkts r).
Definition set_rx_data_pkts (v : Z) (r : wdninfo_stats) : wdninfo_stats :=
  mk_stats (rx_mgnt_pkts r) (rx_beacon_pkts r) (rx_probereq_pkts r) (rx_probersp_pkts r)
    (rx_probersp_bm_pkts r) (rx_probersp_uo_pkts r) (rx_ctrl_pkts r) v (last_rx_mgnt_pkts r)
    (last_rx_beacon_pkts r) (last_rx_probereq_pkts r) (last_rx_probersp_pkts r)
    (last_rx_probersp_bm_pkts r) (last_rx_probersp_uo_pkts r) (last_rx_ctrl_pkts r)
    (last_rx_data_pkts r).
Definition set_last_rx_mgnt_pkts (v : Z) (r : wdninfo_stats) : wdninfo_stats :=
  mk_stats (rx_mgnt_pkts r) (rx_beacon_pkts r) (rx_probereq_pkts r) (rx_probersp_pkts r)
    (rx_probersp_bm_pkts r) (rx_probersp_uo_pkts r) (rx_ctrl_pkts r) (rx_data_pkts r) v
    (last_rx_beacon_pkts r) (last_rx_probereq_pkts r) (last_rx_probersp_pkts r)
    (last_rx_probersp_bm_pkts r) (last_rx_probersp_uo_pkts r) (last_rx_ctrl_pkts r)
    (last_rx_data_pkts r).
Definition set_last_rx_beacon_pkts (v : Z) (r : wdninfo_stats) : wdninfo_stats :=
  mk_stats (rx_mgnt_pkts r) (rx_beacon_pkts r) (rx_probereq_pkts r) (rx_probersp_pkts r)
    (rx_probersp_bm_pkts r) (rx_probersp_uo_pkts r) (rx_ctrl_pkts r) (rx_data_pkts r)
    (last_rx_mgnt_pkts r) v (last_rx_probereq_pkts r) (last_rx_probersp_pkts r)
    (last_rx_probersp_bm_pkts r) (last_rx_probersp_uo_pkts r) (last_rx_ctrl_pkts r)
    (last_rx_data_pkts r).
Definition set_last_rx_probereq_pkts (v : Z) (r : wdninfo_stats) : wdninfo_stats :=
  mk_stats (rx_mgnt_pkts r) (rx_beacon_pkts r) (rx_probereq_pkts r) (rx_probersp_pkts r)
    (rx_probersp_bm_pkts r) (rx_probersp_uo_pkts r) (rx_ctrl_pkts r) (rx_data_pkts r)
    (last_rx_mgnt_pkts r) (last_rx_beacon_pkts r) v (last_rx_probersp_pkts r)
    (last_rx_probersp_bm_pkts r) (last_rx_probersp_uo_pkts r) (last_rx_ctrl_pkts r)
    (last_rx_data_pkts r).
Definition set_last_rx_probersp_pkts (v : Z) (r : wdninfo_stats) : wdninfo_stats :=
  mk_stats (rx_mgnt_pkts r) (rx_beacon_pkts r) (rx_probereq_pkts r) (rx_probersp_pkts r)
    (rx_probersp_bm_pkts r) (rx_probersp_uo_pkts r) (rx_ctrl_pkts r) (rx_data_pkts r)
    (last_rx_mgnt_pkts r) (last_rx_beacon_pkts r) (last_rx_probereq_pkts r) v
    (last_rx_probersp_bm_pkts r) (last_rx_probersp_uo_pkts r) (last_rx_ctrl_pkts r)
    (last_rx_data_pkts r).
Definition set_last_rx_probersp_bm_pkts (v : Z) (r : wdninfo_stats) : wdninfo_stats :=
  mk_stats (rx_mgnt_pkts r) (rx_beacon_pkts r) (rx_probereq_pkts r) (rx_probersp_pkts r)
    (rx_probersp_bm_pkts r) (rx_probersp_uo_pkts r) (rx_ctrl_pkts r) (rx_data_pkts r)
    (last_rx_mgnt_pkts r) (last_rx_beacon_pkts r) (last_rx_probereq_pkts r)
    (last_rx_probersp_pkts r) v (last_rx_probersp_uo_pkts r) (last_rx_ctrl_pkts r)
    (last_rx_data_pkts r).
Definition set_last_rx_probersp_uo_pkts (v : Z) (r : wdninfo_stats) : wdninfo_stats :=
  mk_stats (rx_mgnt_pkts r) (rx_beacon_pkts r) (rx_probereq_pkts r) (rx_probersp_pkts r)
    (rx_probersp_bm_pkts r) (rx_probersp_uo_pkts r) (rx_ctrl_pkts r) (rx_data_pkts r)
    (last_rx_mgnt_pkts r) (last_rx_beacon_pkts r) (last_rx_probereq_pkts r)
    (last_rx_probersp_pkts r) (last_rx_probersp_bm_pkts r) v (last_rx_ctrl_pkts r)
    (last_rx_data_pkts r).
Definition set_last_rx_ctrl_pkts (v : Z) (r : wdninfo_stats) : wdninfo_stats :=
  mk_stats (rx_mgnt_pkts r) (rx_beacon_pkts r) (rx_probereq_pkts r) (rx_probersp_pkts r)
    (rx_probersp_bm_pkts r) (rx_probersp_uo_pkts r) (rx_ctrl_pkts r) (rx_data_pkts r)
    (last_rx_mgnt_pkts r) (last_rx_beacon_pkts r) (last_rx_probereq_pkts r)
    (last_rx_probersp_pkts r) (last_rx_probersp_bm_pkts r) (last_rx_probersp_uo_pkts r) v
    (last_rx_data_pkts r).
Definition set_last_rx_data_pkts (v : Z) (r : wdninfo_stats) : wdninfo_stats :=
  mk_stats (rx_mgnt_pkts r) (rx_beacon_pkts r) (rx_probereq_pkts r) (rx_probersp_pkts r)
    (rx_probersp_bm_pkts r) (rx_probersp_uo_pkts r) (rx_ctrl_pkts r) (rx_data_pkts r)
    (last_rx_mgnt_pkts r) (last_rx_beacon_pkts r) (last_rx_probereq_pkts r)
    (last_rx_probersp_pkts r) (last_rx_probersp_bm_pkts r) (last_rx_probersp_uo_pkts r)
    (last_rx_ctrl_pkts r) v.

(** All bytes zero. *)
Definition zero : wdninfo_stats :=
  mk_stats 0 0 0 0 0 0 0 0 0 0 0 0 0 0 0 0.
End Stats.

(** [wdn_net_info_st] *)
Module Wi.
Record wdn_net_info_st : Type := mk_wdn_info {
  mac : list Z;
  wdn_id : Z;
  mode : Z;
  bssid : list Z;
  ssid : list Z;
  ssid_len : Z;
  tsf : Z;
  cap_info : Z;
  ess_net : Z;
  ibss_net : Z;
  privacy : Z;
  short_preamble : Z;
  short_slot : Z;
  radio_measure : Z;
  bcn_interval : Z;
  listen_interval : Z;
  datarate : list Z;
  datarate_len : Z;
  ext_datarate : list Z;
  ext_datarate_len : Z;
  ht_enable : Z;
  ht_cap : HtCap.wf_80211_mgmt_ht_cap_t;
  htpriv : HtPriv.wf_ht_priv;
  HT_protection : Z;
  channel : Z;
  bw_mode : Z;
  channle_offset : Z;
  wmm_enable : Z;
  wmm_info : list Z;
  wpa_enable : Z;
  rsn_enable : Z;
  erp_enable : Z;
  erp_flag : Z;
  auth_algo : Z;
  qos_option : Z;
  ieee8021x_blocked : Z;
  dot118021XPrivacy : Z;
  dot11tkiptxmickey : list Z;
  dot11tkiprxmickey : list Z;
  dot118021x_UncstKey : list Z;
  dot11txpn : Z;
  dot11rxpn : Z;
  network_type : Z;
  raid : Z;
  tx_rate : Z;
  cts2self : Z;
  rtsen : Z;
  ldpc : Z;
  stbc : Z;
  wdn_stats : Stats.wdninfo_stats;
  seq_ctrl_recorder : list Z;
  defrag_q : list Z;
  defrag_flag : Z;
  defrag_cnt : Z;
  auth_seq : Z;
  iv : Z;
  key_index : Z;
  chlg_txt : list Z;
  aid : Z;
  dialogToken : list Z;
  ba_enable_flag : list Z;
  ba_started_flag : list Z;
  ba_starting_seqctrl : list Z;
  txseq_tid : list Z;
}.

Definition set_mac (v : list Z) (r : wdn_net_info_st) : wdn_net_info_st :=
  mk_wdn_info v (wdn_id r) (mode r) (bssid r) (ssid r) (ssid_len r) (tsf r) (cap_info r)
    (ess_net r) (ibss_net r) (privacy r) (short_preamble r) (short_slot r) (radio_measure r)
    (bcn_interval r) (listen_interval r) (datarate r) (datarate_len r) (ext_datarate r)
    (ext_datarate_len r) (ht_enable r) (ht_cap r) (htpriv r) (HT_protection r) (channel r)
    (bw_mode r) (channle_offset r) (wmm_enable r) (wmm_info r) (wpa_enable r) (rsn_enable r)
    (erp_enable r) (erp_flag r) (auth_algo r) (qos_option r) (ieee8021x_blocked r)
    (dot118021XPrivacy r) (dot11tkiptxmickey r) (dot11tkiprxmickey r) (dot118021x_UncstKey r)
    (dot11txpn r) (dot11rxpn r) (network_type r) (raid r) (tx_rate r) (cts2self r) (rtsen r)
    (ldpc r) (stbc r) (wdn_stats r) (seq_ctrl_recorder r) (defrag_q r) (defrag_flag r)
    (defrag_cnt r) (auth_seq r) (iv r) (key_index r) (chlg_txt r) (aid r) (dialogToken r)
    (ba_enable_flag r) (ba_started_flag r) (ba_starting_seqctrl r) (txseq_tid r).
Definition set_wdn_id (v : Z) (r : wdn_net_info_st) : wdn_net_info_st :=
  mk_wdn_info (mac r) v (mode r) (bssid r) (ssid r) (ssid_len r) (tsf r) (cap_info r) (ess_net
    r) (ibss_net r) (privacy r) (short_preamble r) (short_slot r) (radio_measure r)
    (bcn_interval r) (listen_interval r) (datarate r) (datarate_len r) (ext_datarate r)
    (ext_datarate_len r) (ht_enable r) (ht_cap r) (htpriv r) (HT_protection r) (channel r)
    (bw_mode r) (channle_offset r) (wmm_enable r) (wmm_info r) (wpa_enable r) (rsn_enable r)
    (erp_enable r) (erp_flag r) (auth_algo r) (qos_option r) (ieee8021x_blocked r)
    (dot118021XPrivacy r) (dot11tkiptxmickey r) (dot11tkiprxmickey r) (dot118021x_UncstKey r)
    (dot11txpn r) (dot11rxpn r) (network_type r) (raid r) (tx_rate r) (cts2self r) (rtsen r)
    (ldpc r) (stbc r) (wdn_stats r) (seq_ctrl_recorder r) (defrag_q r) (defrag_flag r)
    (defrag_cnt r) (auth_seq r) (iv r) (key_index r) (chlg_txt r) (aid r) (dialogToken r)
    (ba_enable_flag r) (ba_started_flag r) (ba_starting_seqctrl r) (txseq_tid r).
Definition set_mode (v : Z) (r : wdn_net_info_st) : wdn_net_info_st :=
  mk_wdn_info (mac r) (wdn_id r) v (bssid r) (ssid r) (ssid_len r) (tsf r) (cap_info r) (ess_net
    r) (ibss_net r) (privacy r) (short_preamble r) (short_slot r) (radio_measure r)
    (bcn_interval r) (listen_interval r) (datarate r) (datarate_len r) (ext_datarate r)
    (ext_datarate_len r) (ht_enable r) (ht_cap r) (htpriv r) (HT_protection r) (channel r)
    (bw_mode r) (channle_offset r) (wmm_enable r) (wmm_info r) (wpa_enable r) (rsn_enable r)
    (erp_enable r) (erp_flag r) (auth_algo r) (qos_option r) (ieee8021x_blocked r)
    (dot118021XPrivacy r) (dot11tkiptxmickey r) (dot11tkiprxmickey r) (dot118021x_UncstKey r)
    (dot11txpn r) (dot11rxpn r) (network_type r) (raid r) (tx_rate r) (cts2self r) (rtsen r)
    (ldpc r) (stbc r) (wdn_stats r) (seq_ctrl_recorder r) (defrag_q r) (defrag_flag r)
    (defrag_cnt r) (auth_seq r) (iv r) (key_index r) (chlg_txt r) (aid r) (dialogToken r)
    (ba_enable_flag r) (ba_started_flag r) (ba_starting_seqctrl r) (txseq_tid r).
Definition set_bssid (v : list Z) (r : wdn_net_info_st) : wdn_net_info_st :=
  mk_wdn_info (mac r) (wdn_id r) (mode r) v (ssid r) (ssid_len r) (tsf r) (cap_info r) (ess_net
    r) (ibss_net r) (privacy r) (short_preamble r) (short_slot r) (radio_measure r)
    (bcn_interval r) (listen_interval r) (datarate r) (datarate_len r) (ext_datarate r)
    (ext_datarate_len r) (ht_enable r) (ht_cap r) (htpriv r) (HT_protection r) (channel r)
    (bw_mode r) (channle_offset r) (wmm_enable r) (wmm_info r) (wpa_enable r) (rsn_enable r)
    (erp_enable r) (erp_flag r) (auth_algo r) (qos_option r) (ieee8021x_blocked r)
    (dot118021XPrivacy r) (dot11tkiptxmickey r) (dot11tkiprxmickey r) (dot118021x_UncstKey r)
    (dot11txpn r) (dot11rxpn r) (network_type r) (raid r) (tx_rate r) (cts2self r) (rtsen r)
    (ldpc r) (stbc r) (wdn_stats r) (seq_ctrl_recorder r) (defrag_q r) (defrag_flag r)
    (defrag_cnt r) (auth_seq r) (iv r) (key_index r) (chlg_txt r) (aid r) (dialogToken r)
    (ba_enable_flag r) (ba_started_flag r) (ba_starting_seqctrl r) (txseq_tid r).
Definition set_ssid (v : list Z) (r : wdn_net_info_st) : wdn_net_info_st :=
  mk_wdn_info (mac r) (wdn_id r) (mode r) (bssid r) v (ssid_len r) (tsf r) (cap_info r) (ess_net
    r) (ibss_net r) (privacy r) (short_preamble r) (short_slot r) (radio_measure r)
    (bcn_interval r) (listen_interval r) (datarate r) (datarate_len r) (ext_datarate r)
    (ext_datarate_len r) (ht_enable r) (ht_cap r) (htpriv r) (HT_protection r) (channel r)
    (bw_mode r) (channle_offset r) (wmm_enable r) (wmm_info r) (wpa_enable r) (rsn_enable r)
    (erp_enable r) (erp_flag r) (auth_algo r) (qos_option r) (ieee8021x_blocked r)
    (dot118021XPrivacy r) (dot11tkiptxmickey r) (dot11tkiprxmickey r) (dot118021x_UncstKey r)
    (dot11txpn r) (dot11rxpn r) (network_type r) (raid r) (tx_rate r) (cts2self r) (rtsen r)
    (ldpc r) (stbc r) (wdn_stats r) (seq_ctrl_recorder r) (defrag_q r) (defrag_flag r)
    (defrag_cnt r) (auth_seq r) (iv r) (key_index r) (chlg_txt r) (aid r) (dialogToken r)
    (ba_enable_flag r) (ba_started_flag r) (ba_starting_seqctrl r) (txseq_tid r).
Definition set_ssid_len (v : Z) (r : wdn_net_info_st) : wdn_net_info_st :=
  mk_wdn_info (mac r) (wdn_id r) (mode r) (bssid r) (ssid r) v (tsf r) (cap_info r) (ess_net r)
    (ibss_net r) (privacy r) (short_preamble r) (short_slot r) (radio_measure r) (bcn_interval
    r) (listen_interval r) (datarate r) (datarate_len r) (ext_datarate r) (ext_datarate_len r)
    (ht_enable r) (ht_cap r) (htpriv r) (HT_protection r) (channel r) (bw_mode r)
    (channle_offset r) (wmm_enable r) (wmm_info r) (wpa_enable r) (rsn_enable r) (erp_enable r)
    (erp_flag r) (auth_algo r) (qos_option r) (ieee8021x_blocked r) (dot118021XPrivacy r)
    (dot11tkiptxmickey r) (dot11tkiprxmickey r) (dot118021x_UncstKey r) (dot11txpn r) (dot11rxpn
    r) (network_type r) (raid r) (tx_rate r) (cts2self r) (rtsen r) (ldpc r) (stbc r) (wdn_stats
    r) (seq_ctrl_recorder r) (defrag_q r) (defrag_flag r) (defrag_cnt r) (auth_seq r) (iv r)
    (key_index r) (chlg_txt r) (aid r) (dialogToken r) (ba_enable_flag r) (ba_started_flag r)
    (ba_starting_seqctrl r) (txseq_tid r).
Definition set_tsf (v : Z) (r : wdn_net_info_st) : wdn_net_info_st :=
  mk_wdn_info (mac r) (wdn_id r) (mode r) (bssid r) (ssid r) (ssid_len r) v (cap_info r)
    (ess_net r) (ibss_net r) (privacy r) (short_preamble r) (short_slot r) (radio_measure r)
    (bcn_interval r) (listen_interval r) (datarate r) (datarate_len r) (ext_datarate r)
    (ext_datarate_len r) (ht_enable r) (ht_cap r) (htpriv r) (HT_protection r) (channel r)
    (bw_mode r) (channle_offset r) (wmm_enable r) (wmm_info r) (wpa_enable r) (rsn_enable r)
    (erp_enable r) (erp_flag r) (auth_algo r) (qos_option r) (ieee8021x_blocked r)
    (dot118021XPrivacy r) (dot11tkiptxmickey r) (dot11tkiprxmickey r) (dot118021x_UncstKey r)
    (dot11txpn r) (dot11rxpn r) (network_type r) (raid r) (tx_rate r) (cts2self r) (rtsen r)
    (ldpc r) (stbc r) (wdn_stats r) (seq_ctrl_recorder r) (defrag_q r) (defrag_flag r)
    (defrag_cnt r) (auth_seq r) (iv r) (key_index r) (chlg_txt r) (aid r) (dialogToken r)
    (ba_enable_flag r) (ba_started_flag r) (ba_starting_seqctrl r) (txseq_tid r).
Definition set_cap_info (v : Z) (r : wdn_net_info_st) : wdn_net_info_st :=
  mk_wdn_info (mac r) (wdn_id r) (mode r) (bssid r) (ssid r) (ssid_len r) (tsf r) v (ess_net r)
    (ibss_net r) (privacy r) (short_preamble r) (short_slot r) (radio_measure r) (bcn_interval
    r) (listen_interval r) (datarate r) (datarate_len r) (ext_datarate r) (ext_datarate_len r)
    (ht_enable r) (ht_cap r) (htpriv r) (HT_protection r) (channel r) (bw_mode r)
    (channle_offset r) (wmm_enable r) (wmm_info r) (wpa_enable r) (rsn_enable r) (erp_enable r)
    (erp_flag r) (auth_algo r) (qos_option r) (ieee8021x_blocked r) (dot118021XPrivacy r)
    (dot11tkiptxmickey r) (dot11tkiprxmickey r) (dot118021x_UncstKey r) (dot11txpn r) (dot11rxpn
    r) (network_type r) (raid r) (tx_rate r) (cts2self r) (rtsen r) (ldpc r) (stbc r) (wdn_stats
    r) (seq_ctrl_recorder r) (defrag_q r) (defrag_flag r) (defrag_cnt r) (auth_seq r) (iv r)
    (key_index r) (chlg_txt r) (aid r) (dialogToken r) (ba_enable_flag r) (ba_started_flag r)
    (ba_starting_seqctrl r) (txseq_tid r).
Definition set_ess_net (v : Z) (r : wdn_net_info_st) : wdn_net_info_st :=
  mk_wdn_info (mac r) (wdn_id r) (mode r) (bssid r) (ssid r) (ssid_len r) (tsf r) (cap_info r) v
    (ibss_net r) (privacy r) (short_preamble r) (short_slot r) (radio_measure r) (bcn_interval
    r) (listen_interval r) (datarate r) (datarate_len r) (ext_datarate r) (ext_datarate_len r)
    (ht_enable r) (ht_cap r) (htpriv r) (HT_protection r) (channel r) (bw_mode r)
    (channle_offset r) (wmm_enable r) (wmm_info r) (wpa_enable r) (rsn_enable r) (erp_enable r)
    (erp_flag r) (auth_algo r) (qos_option r) (ieee8021x_blocked r) (dot118021XPrivacy r)
    (dot11tkiptxmickey r) (dot11tkiprxmickey r) (dot118021x_UncstKey r) (dot11txpn r) (dot11rxpn
    r) (network_type r) (raid r) (tx_rate r) (cts2self r) (rtsen r) (ldpc r) (stbc r) (wdn_stats
    r) (seq_ctrl_recorder r) (defrag_q r) (defrag_flag r) (defrag_cnt r) (auth_seq r) (iv r)
    (key_index r) (chlg_txt r) (aid r) (dialogToken r) (ba_enable_flag r) (ba_started_flag r)
    (ba_starting_seqctrl r) (txseq_tid r).
Definition set_ibss_net (v : Z) (r : wdn_net_info_st) : wdn_net_info_st :=
  mk_wdn_info (mac r) (wdn_id r) (mode r) (bssid r) (ssid r) (ssid_len r) (tsf r) (cap_info r)
    (ess_net r) v (privacy r) (short_preamble r) (short_slot r) (radio_measure r) (bcn_interval
    r) (listen_interval r) (datarate r) (datarate_len r) (ext_datarate r) (ext_datarate_len r)
    (ht_enable r) (ht_cap r) (htpriv r) (HT_protection r) (channel r) (bw_mode r)
    (channle_offset r) (wmm_enable r) (wmm_info r) (wpa_enable r) (rsn_enable r) (erp_enable r)
    (erp_flag r) (auth_algo r) (qos_option r) (ieee8021x_blocked r) (dot118021XPrivacy r)
    (dot11tkiptxmickey r) (dot11tkiprxmickey r) (dot118021x_UncstKey r) (dot11txpn r) (dot11rxpn
    r) (network_type r) (raid r) (tx_rate r) (cts2self r) (rtsen r) (ldpc r) (stbc r) (wdn_stats
    r) (seq_ctrl_recorder r) (defrag_q r) (defrag_flag r) (defrag_cnt r) (auth_seq r) (iv r)
    (key_index r) (chlg_txt r) (aid r) (dialogToken r) (ba_enable_flag r) (ba_started_flag r)
    (ba_starting_seqctrl r) (txseq_tid r).
Definition set_privacy (v : Z) (r : wdn_net_info_st) : wdn_net_info_st :=
  mk_wdn_info (mac r) (wdn_id r) (mode r) (bssid r) (ssid r) (ssid_len r) (tsf r) (cap_info r)
    (ess_net r) (ibss_net r) v (short_preamble r) (short_slot r) (radio_measure r) (bcn_interval
    r) (listen_interval r) (datarate r) (datarate_len r) (ext_datarate r) (ext_datarate_len r)
    (ht_enable r) (ht_cap r) (htpriv r) (HT_protection r) (channel r) (bw_mode r)
    (channle_offset r) (wmm_enable r) (wmm_info r) (wpa_enable r) (rsn_enable r) (erp_enable r)
    (erp_flag r) (auth_algo r) (qos_option r) (ieee8021x_blocked r) (dot118021XPrivacy r)
    (dot11tkiptxmickey r) (dot11tkiprxmickey r) (dot118021x_UncstKey r) (dot11txpn r) (dot11rxpn
    r) (network_type r) (raid r) (tx_rate r) (cts2self r) (rtsen r) (ldpc r) (stbc r) (wdn_stats
    r) (seq_ctrl_recorder r) (defrag_q r) (defrag_flag r) (defrag_cnt r) (auth_seq r) (iv r)
    (key_index r) (chlg_txt r) (aid r) (dialogToken r) (ba_enable_flag r) (ba_started_flag r)
    (ba_starting_seqctrl r) (txseq_tid r).
Definition set_short_preamble (v : Z) (r : wdn_net_info_st) : wdn_net_info_st :=
  mk_wdn_info (mac r) (wdn_id r) (mode r) (bssid r) (ssid r) (ssid_len r) (tsf r) (cap_info r)
    (ess_net r) (ibss_net r) (privacy r) v (short_slot r) (radio_measure r) (bcn_interval r)
    (listen_interval r) (datarate r) (datarate_len r) (ext_datarate r) (ext_datarate_len r)
    (ht_enable r) (ht_cap r) (htpriv r) (HT_protection r) (channel r) (bw_mode r)
    (channle_offset r) (wmm_enable r) (wmm_info r) (wpa_enable r) (rsn_enable r) (erp_enable r)
    (erp_flag r) (auth_algo r) (qos_option r) (ieee8021x_blocked r) (dot118021XPrivacy r)
    (dot11tkiptxmickey r) (dot11tkiprxmickey r) (dot118021x_UncstKey r) (dot11txpn r) (dot11rxpn
    r) (network_type r) (raid r) (tx_rate r) (cts2self r) (rtsen r) (ldpc r) (stbc r) (wdn_stats
    r) (seq_ctrl_recorder r) (defrag_q r) (defrag_flag r) (defrag_cnt r) (auth_seq r) (iv r)
    (key_index r) (chlg_txt r) (aid r) (dialogToken r) (ba_enable_flag r) (ba_started_flag r)
    (ba_starting_seqctrl r) (txseq_tid r).
Definition set_short_slot (v : Z) (r : wdn_net_info_st) : wdn_net_info_st :=
  mk_wdn_info (mac r) (wdn_id r) (mode r) (bssid r) (ssid r) (ssid_len r) (tsf r) (cap_info r)
    (ess_net r) (ibss_net r) (privacy r) (short_preamble r) v (radio_measure r) (bcn_interval r)
    (listen_interval r) (datarate r) (datarate_len r) (ext_datarate r) (ext_datarate_len r)
    (ht_enable r) (ht_cap r) (htpriv r) (HT_protection r) (channel r) (bw_mode r)
    (channle_offset r) (wmm_enable r) (wmm_info r) (wpa_enable r) (rsn_enable r) (erp_enable r)
    (erp_flag r) (auth_algo r) (qos_option r) (ieee8021x_blocked r) (dot118021XPrivacy r)
    (dot11tkiptxmickey r) (dot11tkiprxmickey r) (dot118021x_UncstKey r) (dot11txpn r) (dot11rxpn
    r) (network_type r) (raid r) (tx_rate r) (cts2self r) (rtsen r) (ldpc r) (stbc r) (wdn_stats
    r) (seq_ctrl_recorder r) (defrag_q r) (defrag_flag r) (defrag_cnt r) (auth_seq r) (iv r)
    (key_index r) (chlg_txt r) (aid r) (dialogToken r) (ba_enable_flag r) (ba_started_flag r)
    (ba_starting_seqctrl r) (txseq_tid r).
Definition set_radio_measure (v : Z) (r : wdn_net_info_st) : wdn_net_info_st :=
  mk_wdn_info (mac r) (wdn_id r) (mode r) (bssid r) (ssid r) (ssid_len r) (tsf r) (cap_info r)
    (ess_net r) (ibss_net r) (privacy r) (short_preamble r) (short_slot r) v (bcn_interval r)
    (listen_interval r) (datarate r) (datarate_len r) (ext_datarate r) (ext_datarate_len r)
    (ht_enable r) (ht_cap r) (htpriv r) (HT_protection r) (channel r) (bw_mode r)
    (channle_offset r) (wmm_enable r) (wmm_info r) (wpa_enable r) (rsn_enable r) (erp_enable r)
    (erp_flag r) (auth_algo r) (qos_option r) (ieee8021x_blocked r) (dot118021XPrivacy r)
    (dot11tkiptxmickey r) (dot11tkiprxmickey r) (dot118021x_UncstKey r) (dot11txpn r) (dot11rxpn
    r) (network_type r) (raid r) (tx_rate r) (cts2self r) (rtsen r) (ldpc r) (stbc r) (wdn_stats
    r) (seq_ctrl_recorder r) (defrag_q r) (defrag_flag r) (defrag_cnt r) (auth_seq r) (iv r)
    (key_index r) (chlg_txt r) (aid r) (dialogToken r) (ba_enable_flag r) (ba_started_flag r)
    (ba_starting_seqctrl r) (txseq_tid r).
Definition set_bcn_interval (v : Z) (r : wdn_net_info_st) : wdn_net_info_st :=
  mk_wdn_info (mac r) (wdn_id r) (mode r) (bssid r) (ssid r) (ssid_len r) (tsf r) (cap_info r)
    (ess_net r) (ibss_net r) (privacy r) (short_preamble r) (short_slot r) (radio_measure r) v
    (listen_interval r) (datarate r) (datarate_len r) (ext_datarate r) (ext_datarate_len r)
    (ht_enable r) (ht_cap r) (htpriv r) (HT_protection r) (channel r) (bw_mode r)
    (channle_offset r) (wmm_enable r) (wmm_info r) (wpa_enable r) (rsn_enable r) (erp_enable r)
    (erp_flag r) (auth_algo r) (qos_option r) (ieee8021x_blocked r) (dot118021XPrivacy r)
    (dot11tkiptxmickey r) (dot11tkiprxmickey r) (dot118021x_UncstKey r) (dot11txpn r) (dot11rxpn
    r) (network_type r) (raid r) (tx_rate r) (cts2self r) (rtsen r) (ldpc r) (stbc r) (wdn_stats
    r) (seq_ctrl_recorder r) (defrag_q r) (defrag_flag r) (defrag_cnt r) (auth_seq r) (iv r)
    (key_index r) (chlg_txt r) (aid r) (dialogToken r) (ba_enable_flag r) (ba_started_flag r)
    (ba_starting_seqctrl r) (txseq_tid r).
Definition set_listen_interval (v : Z) (r : wdn_net_info_st) : wdn_net_info_st :=
  mk_wdn_info (mac r) (wdn_id r) (mode r) (bssid r) (ssid r) (ssid_len r) (tsf r) (cap_info r)
    (ess_net r) (ibss_net r) (privacy r) (short_preamble r) (short_slot r) (radio_measure r)
    (bcn_interval r) v (datarate r) (datarate_len r) (ext_datarate r) (ext_datarate_len r)
    (ht_enable r) (ht_cap r) (htpriv r) (HT_protection r) (channel r) (bw_mode r)
    (channle_offset r) (wmm_enable r) (wmm_info r) (wpa_enable r) (rsn_enable r) (erp_enable r)
    (erp_flag r) (auth_algo r) (qos_option r) (ieee8021x_blocked r) (dot118021XPrivacy r)
    (dot11tkiptxmickey r) (dot11tkiprxmickey r) (dot118021x_UncstKey r) (dot11txpn r) (dot11rxpn
    r) (network_type r) (raid r) (tx_rate r) (cts2self r) (rtsen r) (ldpc r) (stbc r) (wdn_stats
    r) (seq_ctrl_recorder r) (defrag_q r) (defrag_flag r) (defrag_cnt r) (auth_seq r) (iv r)
    (key_index r) (chlg_txt r) (aid r) (dialogToken r) (ba_enable_flag r) (ba_started_flag r)
    (ba_starting_seqctrl r) (txseq_tid r).
Definition set_datarate (v : list Z) (r : wdn_net_info_st) : wdn_net_info_st :=
  mk_wdn_info (mac r) (wdn_id r) (mode r) (bssid r) (ssid r) (ssid_len r) (tsf r) (cap_info r)
    (ess_net r) (ibss_net r) (privacy r) (short_preamble r) (short_slot r) (radio_measure r)
    (bcn_interval r) (listen_interval r) v (datarate_len r) (ext_datarate r) (ext_datarate_len
    r) (ht_enable r) (ht_cap r) (htpriv r) (HT_protection r) (channel r) (bw_mode r)
    (channle_offset r) (wmm_enable r) (wmm_info r) (wpa_enable r) (rsn_enable r) (erp_enable r)
    (erp_flag r) (auth_algo r) (qos_option r) (ieee8021x_blocked r) (dot118021XPrivacy r)
    (dot11tkiptxmickey r) (dot11tkiprxmickey r) (dot118021x_UncstKey r) (dot11txpn r) (dot11rxpn
    r) (network_type r) (raid r) (tx_rate r) (cts2self r) (rtsen r) (ldpc r) (stbc r) (wdn_stats
    r) (seq_ctrl_recorder r) (defrag_q r) (defrag_flag r) (defrag_cnt r) (auth_seq r) (iv r)
    (key_index r) (chlg_txt r) (aid r) (dialogToken r) (ba_enable_flag r) (ba_started_flag r)
    (ba_starting_seqctrl r) (txseq_tid r).
Definition set_datarate_len (v : Z) (r : wdn_net_info_st) : wdn_net_info_st :=
  mk_wdn_info (mac r) (wdn_id r) (mode r) (bssid r) (ssid r) (ssid_len r) (tsf r) (cap_info r)
    (ess_net r) (ibss_net r) (privacy r) (short_preamble r) (short_slot r) (radio_measure r)
    (bcn_interval r) (listen_interval r) (datarate r) v (ext_datarate r) (ext_datarate_len r)
    (ht_enable r) (ht_cap r) (htpriv r) (HT_protection r) (channel r) (bw_mode r)
    (channle_offset r) (wmm_enable r) (wmm_info r) (wpa_enable r) (rsn_enable r) (erp_enable r)
    (erp_flag r) (auth_algo r) (qos_option r) (ieee8021x_blocked r) (dot118021XPrivacy r)
    (dot11tkiptxmickey r) (dot11tkiprxmickey r) (dot118021x_UncstKey r) (dot11txpn r) (dot11rxpn
    r) (network_type r) (raid r) (tx_rate r) (cts2self r) (rtsen r) (ldpc r) (stbc r) (wdn_stats
    r) (seq_ctrl_recorder r) (defrag_q r) (defrag_flag r) (defrag_cnt r) (auth_seq r) (iv r)
    (key_index r) (chlg_txt r) (aid r) (dialogToken r) (ba_enable_flag r) (ba_started_flag r)
    (ba_starting_seqctrl r) (txseq_tid r).
Definition set_ext_datarate (v : list Z) (r : wdn_net_info_st) : wdn_net_info_st :=
  mk_wdn_info (mac r) (wdn_id r) (mode r) (bssid r) (ssid r) (ssid_len r) (tsf r) (cap_info r)
    (ess_net r) (ibss_net r) (privacy r) (short_preamble r) (short_slot r) (radio_measure r)
    (bcn_interval r) (listen_interval r) (datarate r) (datarate_len r) v (ext_datarate_len r)
    (ht_enable r) (ht_cap r) (htpriv r) (HT_protection r) (channel r) (bw_mode r)
    (channle_offset r) (wmm_enable r) (wmm_info r) (wpa_enable r) (rsn_enable r) (erp_enable r)
    (erp_flag r) (auth_algo r) (qos_option r) (ieee8021x_blocked r) (dot118021XPrivacy r)
    (dot11tkiptxmickey r) (dot11tkiprxmickey r) (dot118021x_UncstKey r) (dot11txpn r) (dot11rxpn
    r) (network_type r) (raid r) (tx_rate r) (cts2self r) (rtsen r) (ldpc r) (stbc r) (wdn_stats
    r) (seq_ctrl_recorder r) (defrag_q r) (defrag_flag r) (defrag_cnt r) (auth_seq r) (iv r)
    (key_index r) (chlg_txt r) (aid r) (dialogToken r) (ba_enable_flag r) (ba_started_flag r)
    (ba_starting_seqctrl r) (txseq_tid r).
Definition set_ext_datarate_len (v : Z) (r : wdn_net_info_st) : wdn_net_info_st :=
  mk_wdn_info (mac r) (wdn_id r) (mode r) (bssid r) (ssid r) (ssid_len r) (tsf r) (cap_info r)
    (ess_net r) (ibss_net r) (privacy r) (short_preamble r) (short_slot r) (radio_measure r)
    (bcn_interval r) (listen_interval r) (datarate r) (datarate_len r) (ext_datarate r) v
    (ht_enable r) (ht_cap r) (htpriv r) (HT_protection r) (channel r) (bw_mode r)
    (channle_offset r) (wmm_enable r) (wmm_info r) (wpa_enable r) (rsn_enable r) (erp_enable r)
    (erp_flag r) (auth_algo r) (qos_option r) (ieee8021x_blocked r) (dot118021XPrivacy r)
    (dot11tkiptxmickey r) (dot11tkiprxmickey r) (dot118021x_UncstKey r) (dot11txpn r) (dot11rxpn
    r) (network_type r) (raid r) (tx_rate r) (cts2self r) (rtsen r) (ldpc r) (stbc r) (wdn_stats
    r) (seq_ctrl_recorder r) (defrag_q r) (defrag_flag r) (defrag_cnt r) (auth_seq r) (iv r)
    (key_index r) (chlg_txt r) (aid r) (dialogToken r) (ba_enable_flag r) (ba_started_flag r)
    (ba_starting_seqctrl r) (txseq_tid r).
Definition set_ht_enable (v : Z) (r : wdn_net_info_st) : wdn_net_info_st :=
  mk_wdn_info (mac r) (wdn_id r) (mode r) (bssid r) (ssid r) (ssid_len r) (tsf r) (cap_info r)
    (ess_net r) (ibss_net r) (privacy r) (short_preamble r) (short_slot r) (radio_measure r)
    (bcn_interval r) (listen_interval r) (datarate r) (datarate_len r) (ext_datarate r)
    (ext_datarate_len r) v (ht_cap r) (htpriv r) (HT_protection r) (channel r) (bw_mode r)
    (channle_offset r) (wmm_enable r) (wmm_info r) (wpa_enable r) (rsn_enable r) (erp_enable r)
    (erp_flag r) (auth_algo r) (qos_option r) (ieee8021x_blocked r) (dot118021XPrivacy r)
    (dot11tkiptxmickey r) (dot11tkiprxmickey r) (dot118021x_UncstKey r) (dot11txpn r) (dot11rxpn
    r) (network_type r) (raid r) (tx_rate r) (cts2self r) (rtsen r) (ldpc r) (stbc r) (wdn_stats
    r) (seq_ctrl_recorder r) (defrag_q r) (defrag_flag r) (defrag_cnt r) (auth_seq r) (iv r)
    (key_index r) (chlg_txt r) (aid r) (dialogToken r) (ba_enable_flag r) (ba_started_flag r)
    (ba_starting_seqctrl r) (txseq_tid r).
Definition set_ht_cap (v : HtCap.wf_80211_mgmt_ht_cap_t) (r : wdn_net_info_st) : wdn_net_info_st :=
  mk_wdn_info (mac r) (wdn_id r) (mode r) (bssid r) (ssid r) (ssid_len r) (tsf r) (cap_info r)
    (ess_net r) (ibss_net r) (privacy r) (short_preamble r) (short_slot r) (radio_measure r)
    (bcn_interval r) (listen_interval r) (datarate r) (datarate_len r) (ext_datarate r)
    (ext_datarate_len r) (ht_enable r) v (htpriv r) (HT_protection r) (channel r) (bw_mode r)
    (channle_offset r) (wmm_enable r) (wmm_info r) (wpa_enable r) (rsn_enable r) (erp_enable r)
    (erp_flag r) (auth_algo r) (qos_option r) (ieee8021x_blocked r) (dot118021XPrivacy r)
    (dot11tkiptxmickey r) (dot11tkiprxmickey r) (dot118021x_UncstKey r) (dot11txpn r) (dot11rxpn
    r) (network_type r) (raid r) (tx_rate r) (cts2self r) (rtsen r) (ldpc r) (stbc r) (wdn_stats
    r) (seq_ctrl_recorder r) (defrag_q r) (defrag_flag r) (defrag_cnt r) (auth_seq r) (iv r)
    (key_index r) (chlg_txt r) (aid r) (dialogToken r) (ba_enable_flag r) (ba_started_flag r)
    (ba_starting_seqctrl r) (txseq_tid r).
Definition set_htpriv (v : HtPriv.wf_ht_priv) (r : wdn_net_info_st) : wdn_net_info_st :=
  mk_wdn_info (mac r) (wdn_id r) (mode r) (bssid r) (ssid r) (ssid_len r) (tsf r) (cap_info r)
    (ess_net r) (ibss_net r) (privacy r) (short_preamble r) (short_slot r) (radio_measure r)
    (bcn_interval r) (listen_interval r) (datarate r) (datarate_len r) (ext_datarate r)
    (ext_datarate_len r) (ht_enable r) (ht_cap r) v (HT_protection r) (channel r) (bw_mode r)
    (channle_offset r) (wmm_enable r) (wmm_info r) (wpa_enable r) (rsn_enable r) (erp_enable r)
    (erp_flag r) (auth_algo r) (qos_option r) (ieee8021x_blocked r) (dot118021XPrivacy r)
    (dot11tkiptxmickey r) (dot11tkiprxmickey r) (dot118021x_UncstKey r) (dot11txpn r) (dot11rxpn
    r) (network_type r) (raid r) (tx_rate r) (cts2self r) (rtsen r) (ldpc r) (stbc r) (wdn_stats
    r) (seq_ctrl_recorder r) (defrag_q r) (defrag_flag r) (defrag_cnt r) (auth_seq r) (iv r)
    (key_index r) (chlg_txt r) (aid r) (dialogToken r) (ba_enable_flag r) (ba_started_flag r)
    (ba_starting_seqctrl r) (txseq_tid r).
Definition set_HT_protection (v : Z) (r : wdn_net_info_st) : wdn_net_info_st :=
  mk_wdn_info (mac r) (wdn_id r) (mode r) (bssid r) (ssid r) (ssid_len r) (tsf r) (cap_info r)
    (ess_net r) (ibss_net r) (privacy r) (short_preamble r) (short_slot r) (radio_measure r)
    (bcn_interval r) (listen_interval r) (datarate r) (datarate_len r) (ext_datarate r)
    (ext_datarate_len r) (ht_enable r) (ht_cap r) (htpriv r) v (channel r) (bw_mode r)
    (channle_offset r) (wmm_enable r) (wmm_info r) (wpa_enable r) (rsn_enable r) (erp_enable r)
    (erp_flag r) (auth_algo r) (qos_option r) (ieee8021x_blocked r) (dot118021XPrivacy r)
    (dot11tkiptxmickey r) (dot11tkiprxmickey r) (dot118021x_UncstKey r) (dot11txpn r) (dot11rxpn
    r) (network_type r) (raid r) (tx_rate r) (cts2self r) (rtsen r) (ldpc r) (stbc r) (wdn_stats
    r) (seq_ctrl_recorder r) (defrag_q r) (defrag_flag r) (defrag_cnt r) (auth_seq r) (iv r)
    (key_index r) (chlg_txt r) (aid r) (dialogToken r) (ba_enable_flag r) (ba_started_flag r)
    (ba_starting_seqctrl r) (txseq_tid r).
Definition set_channel (v : Z) (r : wdn_net_info_st) : wdn_net_info_st :=
  mk_wdn_info (mac r) (wdn_id r) (mode r) (bssid r) (ssid r) (ssid_len r) (tsf r) (cap_info r)
    (ess_net r) (ibss_net r) (privacy r) (short_preamble r) (short_slot r) (radio_measure r)
    (bcn_interval r) (listen_interval r) (datarate r) (datarate_len r) (ext_datarate r)
    (ext_datarate_len r) (ht_enable r) (ht_cap r) (htpriv r) (HT_protection r) v (bw_mode r)
    (channle_offset r) (wmm_enable r) (wmm_info r) (wpa_enable r) (rsn_enable r) (erp_enable r)
    (erp_flag r) (auth_algo r) (qos_option r) (ieee8021x_blocked r) (dot118021XPrivacy r)
    (dot11tkiptxmickey r) (dot11tkiprxmickey r) (dot118021x_UncstKey r) (dot11txpn r) (dot11rxpn
    r) (network_type r) (raid r) (tx_rate r) (cts2self r) (rtsen r) (ldpc r) (stbc r) (wdn_stats
    r) (seq_ctrl_recorder r) (defrag_q r) (defrag_flag r) (defrag_cnt r) (auth_seq r) (iv r)
    (key_index r) (chlg_txt r) (aid r) (dialogToken r) (ba_enable_flag r) (ba_started_flag r)
    (ba_starting_seqctrl r) (txseq_tid r).
Definition set_bw_mode (v : Z) (r : wdn_net_info_st) : wdn_net_info_st :=
  mk_wdn_info (mac r) (wdn_id r) (mode r) (bssid r) (ssid r) (ssid_len r) (tsf r) (cap_info r)
    (ess_net r) (ibss_net r) (privacy r) (short_preamble r) (short_slot r) (radio_measure r)
    (bcn_interval r) (listen_interval r) (datarate r) (datarate_len r) (ext_datarate r)
    (ext_datarate_len r) (ht_enable r) (ht_cap r) (htpriv r) (HT_protection r) (channel r) v
    (channle_offset r) (wmm_enable r) (wmm_info r) (wpa_enable r) (rsn_enable r) (erp_enable r)
    (erp_flag r) (auth_algo r) (qos_option r) (ieee8021x_blocked r) (dot118021XPrivacy r)
    (dot11tkiptxmickey r) (dot11tkiprxmickey r) (dot118021x_UncstKey r) (dot11txpn r) (dot11rxpn
    r) (network_type r) (raid r) (tx_rate r) (cts2self r) (rtsen r) (ldpc r) (stbc r) (wdn_stats
    r) (seq_ctrl_recorder r) (defrag_q r) (defrag_flag r) (defrag_cnt r) (auth_seq r) (iv r)
    (key_index r) (chlg_txt r) (aid r) (dialogToken r) (ba_enable_flag r) (ba_started_flag r)
    (ba_starting_seqctrl r) (txseq_tid r).
Definition set_channle_offset (v : Z) (r : wdn_net_info_st) : wdn_net_info_st :=
  mk_wdn_info (mac r) (wdn_id r) (mode r) (bssid r) (ssid r) (ssid_len r) (tsf r) (cap_info r)
    (ess_net r) (ibss_net r) (privacy r) (short_preamble r) (short_slot r) (radio_measure r)
    (bcn_interval r) (listen_interval r) (datarate r) (datarate_len r) (ext_datarate r)
    (ext_datarate_len r) (ht_enable r) (ht_cap r) (htpriv r) (HT_protection r) (channel r)
    (bw_mode r) v (wmm_enable r) (wmm_info r) (wpa_enable r) (rsn_enable r) (erp_enable r)
    (erp_flag r) (auth_algo r) (qos_option r) (ieee8021x_blocked r) (dot118021XPrivacy r)
    (dot11tkiptxmickey r) (dot11tkiprxmickey r) (dot118021x_UncstKey r) (dot11txpn r) (dot11rxpn
    r) (network_type r) (raid r) (tx_rate r) (cts2self r) (rtsen r) (ldpc r) (stbc r) (wdn_stats
    r) (seq_ctrl_recorder r) (defrag_q r) (defrag_flag r) (defrag_cnt r) (auth_seq r) (iv r)
    (key_index r) (chlg_txt r) (aid r) (dialogToken r) (ba_enable_flag r) (ba_started_flag r)
    (ba_starting_seqctrl r) (txseq_tid r).
Definition set_wmm_enable (v : Z) (r : wdn_net_info_st) : wdn_net_info_st :=
  mk_wdn_info (mac r) (wdn_id r) (mode r) (bssid r) (ssid r) (ssid_len r) (tsf r) (cap_info r)
    (ess_net r) (ibss_net r) (privacy r) (short_preamble r) (short_slot r) (radio_measure r)
    (bcn_interval r) (listen_interval r) (datarate r) (datarate_len r) (ext_datarate r)
    (ext_datarate_len r) (ht_enable r) (ht_cap r) (htpriv r) (HT_protection r) (channel r)
    (bw_mode r) (channle_offset r) v (wmm_info r) (wpa_enable r) (rsn_enable r) (erp_enable r)
    (erp_flag r) (auth_algo r) (qos_option r) (ieee8021x_blocked r) (dot118021XPrivacy r)
    (dot11tkiptxmickey r) (dot11tkiprxmickey r) (dot118021x_UncstKey r) (dot11txpn r) (dot11rxpn
    r) (network_type r) (raid r) (tx_rate r) (cts2self r) (rtsen r) (ldpc r) (stbc r) (wdn_stats
    r) (seq_ctrl_recorder r) (defrag_q r) (defrag_flag r) (defrag_cnt r) (auth_seq r) (iv r)
    (key_index r) (chlg_txt r) (aid r) (dialogToken r) (ba_enable_flag r) (ba_started_flag r)
    (ba_starting_seqctrl r) (txseq_tid r).
Definition set_wmm_info (v : list Z) (r : wdn_net_info_st) : wdn_net_info_st :=
  mk_wdn_info (mac r) (wdn_id r) (mode r) (bssid r) (ssid r) (ssid_len r) (tsf r) (cap_info r)
    (ess_net r) (ibss_net r) (privacy r) (short_preamble r) (short_slot r) (radio_measure r)
    (bcn_interval r) (listen_interval r) (datarate r) (datarate_len r) (ext_datarate r)
    (ext_datarate_len r) (ht_enable r) (ht_cap r) (htpriv r) (HT_protection r) (channel r)
    (bw_mode r) (channle_offset r) (wmm_enable r) v (wpa_enable r) (rsn_enable r) (erp_enable r)
    (erp_flag r) (auth_algo r) (qos_option r) (ieee8021x_blocked r) (dot118021XPrivacy r)
    (dot11tkiptxmickey r) (dot11tkiprxmickey r) (dot118021x_UncstKey r) (dot11txpn r) (dot11rxpn
    r) (network_type r) (raid r) (tx_rate r) (cts2self r) (rtsen r) (ldpc r) (stbc r) (wdn_stats
    r) (seq_ctrl_recorder r) (defrag_q r) (defrag_flag r) (defrag_cnt r) (auth_seq r) (iv r)
    (key_index r) (chlg_txt r) (aid r) (dialogToken r) (ba_enable_flag r) (ba_started_flag r)
    (ba_starting_seqctrl r) (txseq_tid r).
Definition set_wpa_enable (v : Z) (r : wdn_net_info_st) : wdn_net_info_st :=
  mk_wdn_info (mac r) (wdn_id r) (mode r) (bssid r) (ssid r) (ssid_len r) (tsf r) (cap_info r)
    (ess_net r) (ibss_net r) (privacy r) (short_preamble r) (short_slot r) (radio_measure r)
    (bcn_interval r) (listen_interval r) (datarate r) (datarate_len r) (ext_datarate r)
    (ext_datarate_len r) (ht_enable r) (ht_cap r) (htpriv r) (HT_protection r) (channel r)
    (bw_mode r) (channle_offset r) (wmm_enable r) (wmm_info r) v (rsn_enable r) (erp_enable r)
    (erp_flag r) (auth_algo r) (qos_option r) (ieee8021x_blocked r) (dot118021XPrivacy r)
    (dot11tkiptxmickey r) (dot11tkiprxmickey r) (dot118021x_UncstKey r) (dot11txpn r) (dot11rxpn
    r) (network_type r) (raid r) (tx_rate r) (cts2self r) (rtsen r) (ldpc r) (stbc r) (wdn_stats
    r) (seq_ctrl_recorder r) (defrag_q r) (defrag_flag r) (defrag_cnt r) (auth_seq r) (iv r)
    (key_index r) (chlg_txt r) (aid r) (dialogToken r) (ba_enable_flag r) (ba_started_flag r)
    (ba_starting_seqctrl r) (txseq_tid r).
Definition set_rsn_enable (v : Z) (r : wdn_net_info_st) : wdn_net_info_st :=
  mk_wdn_info (mac r) (wdn_id r) (mode r) (bssid r) (ssid r) (ssid_len r) (tsf r) (cap_info r)
    (ess_net r) (ibss_net r) (privacy r) (short_preamble r) (short_slot r) (radio_measure r)
    (bcn_interval r) (listen_interval r) (datarate r) (datarate_len r) (ext_datarate r)
    (ext_datarate_len r) (ht_enable r) (ht_cap r) (htpriv r) (HT_protection r) (channel r)
    (bw_mode r) (channle_offset r) (wmm_enable r) (wmm_info r) (wpa_enable r) v (erp_enable r)
    (erp_flag r) (auth_algo r) (qos_option r) (ieee8021x_blocked r) (dot118021XPrivacy r)
    (dot11tkiptxmickey r) (dot11tkiprxmickey r) (dot118021x_UncstKey r) (dot11txpn r) (dot11rxpn
    r) (network_type r) (raid r) (tx_rate r) (cts2self r) (rtsen r) (ldpc r) (stbc r) (wdn_stats
    r) (seq_ctrl_recorder r) (defrag_q r) (defrag_flag r) (defrag_cnt r) (auth_seq r) (iv r)
    (key_index r) (chlg_txt r) (aid r) (dialogToken r) (ba_enable_flag r) (ba_started_flag r)
    (ba_starting_seqctrl r) (txseq_tid r).
Definition set_erp_enable (v : Z) (r : wdn_net_info_st) : wdn_net_info_st :=
  mk_wdn_info (mac r) (wdn_id r) (mode r) (bssid r) (ssid r) (ssid_len r) (tsf r) (cap_info r)
    (ess_net r) (ibss_net r) (privacy r) (short_preamble r) (short_slot r) (radio_measure r)
    (bcn_interval r) (listen_interval r) (datarate r) (datarate_len r) (ext_datarate r)
    (ext_datarate_len r) (ht_enable r) (ht_cap r) (htpriv r) (HT_protection r) (channel r)
    (bw_mode r) (channle_offset r) (wmm_enable r) (wmm_info r) (wpa_enable r) (rsn_enable r) v
    (erp_flag r) (auth_algo r) (qos_option r) (ieee8021x_blocked r) (dot118021XPrivacy r)
    (dot11tkiptxmickey r) (dot11tkiprxmickey r) (dot118021x_UncstKey r) (dot11txpn r) (dot11rxpn
    r) (network_type r) (raid r) (tx_rate r) (cts2self r) (rtsen r) (ldpc r) (stbc r) (wdn_stats
    r) (seq_ctrl_recorder r) (defrag_q r) (defrag_flag r) (defrag_cnt r) (auth_seq r) (iv r)
    (key_index r) (chlg_txt r) (aid r) (dialogToken r) (ba_enable_flag r) (ba_started_flag r)
    (ba_starting_seqctrl r) (txseq_tid r).
Definition set_erp_flag (v : Z) (r : wdn_net_info_st) : wdn_net_info_st :=
  mk_wdn_info (mac r) (wdn_id r) (mode r) (bssid r) (ssid r) (ssid_len r) (tsf r) (cap_info r)
    (ess_net r) (ibss_net r) (privacy r) (short_preamble r) (short_slot r) (radio_measure r)
    (bcn_interval r) (listen_interval r) (datarate r) (datarate_len r) (ext_datarate r)
    (ext_datarate_len r) (ht_enable r) (ht_cap r) (htpriv r) (HT_protection r) (channel r)
    (bw_mode r) (channle_offset r) (wmm_enable r) (wmm_info r) (wpa_enable r) (rsn_enable r)
    (erp_enable r) v (auth_algo r) (qos_option r) (ieee8021x_blocked r) (dot118021XPrivacy r)
    (dot11tkiptxmickey r) (dot11tkiprxmickey r) (dot118021x_UncstKey r) (dot11txpn r) (dot11rxpn
    r) (network_type r) (raid r) (tx_rate r) (cts2self r) (rtsen r) (ldpc r) (stbc r) (wdn_stats
    r) (seq_ctrl_recorder r) (defrag_q r) (defrag_flag r) (defrag_cnt r) (auth_seq r) (iv r)
    (key_index r) (chlg_txt r) (aid r) (dialogToken r) (ba_enable_flag r) (ba_started_flag r)
    (ba_starting_seqctrl r) (txseq_tid r).
Definition set_auth_algo (v : Z) (r : wdn_net_info_st) : wdn_net_info_st :=
  mk_wdn_info (mac r) (wdn_id r) (mode r) (bssid r) (ssid r) (ssid_len r) (tsf r) (cap_info r)
    (ess_net r) (ibss_net r) (privacy r) (short_preamble r) (short_slot r) (radio_measure r)
    (bcn_interval r) (listen_interval r) (datarate r) (datarate_len r) (ext_datarate r)
    (ext_datarate_len r) (ht_enable r) (ht_cap r) (htpriv r) (HT_protection r) (channel r)
    (bw_mode r) (channle_offset r) (wmm_enable r) (wmm_info r) (wpa_enable r) (rsn_enable r)
    (erp_enable r) (erp_flag r) v (qos_option r) (ieee8021x_blocked r) (dot118021XPrivacy r)
    (dot11tkiptxmickey r) (dot11tkiprxmickey r) (dot118021x_UncstKey r) (dot11txpn r) (dot11rxpn
    r) (network_type r) (raid r) (tx_rate r) (cts2self r) (rtsen r) (ldpc r) (stbc r) (wdn_stats
    r) (seq_ctrl_recorder r) (defrag_q r) (defrag_flag r) (defrag_cnt r) (auth_seq r) (iv r)
    (key_index r) (chlg_txt r) (aid r) (dialogToken r) (ba_enable_flag r) (ba_started_flag r)
    (ba_starting_seqctrl r) (txseq_tid r).
Definition set_qos_option (v : Z) (r : wdn_net_info_st) : wdn_net_info_st :=
  mk_wdn_info (mac r) (wdn_id r) (mode r) (bssid r) (ssid r) (ssid_len r) (tsf r) (cap_info r)
    (ess_net r) (ibss_net r) (privacy r) (short_preamble r) (short_slot r) (radio_measure r)
    (bcn_interval r) (listen_interval r) (datarate r) (datarate_len r) (ext_datarate r)
    (ext_datarate_len r) (ht_enable r) (ht_cap r) (htpriv r) (HT_protection r) (channel r)
    (bw_mode r) (channle_offset r) (wmm_enable r) (wmm_info r) (wpa_enable r) (rsn_enable r)
    (erp_enable r) (erp_flag r) (auth_algo r) v (ieee8021x_blocked r) (dot118021XPrivacy r)
    (dot11tkiptxmickey r) (dot11tkiprxmickey r) (dot118021x_UncstKey r) (dot11txpn r) (dot11rxpn
    r) (network_type r) (raid r) (tx_rate r) (cts2self r) (rtsen r) (ldpc r) (stbc r) (wdn_stats
    r) (seq_ctrl_recorder r) (defrag_q r) (defrag_flag r) (defrag_cnt r) (auth_seq r) (iv r)
    (key_index r) (chlg_txt r) (aid r) (dialogToken r) (ba_enable_flag r) (ba_started_flag r)
    (ba_starting_seqctrl r) (txseq_tid r).
Definition set_ieee8021x_blocked (v : Z) (r : wdn_net_info_st) : wdn_net_info_st :=
  mk_wdn_info (mac r) (wdn_id r) (mode r) (bssid r) (ssid r) (ssid_len r) (tsf r) (cap_info r)
    (ess_net r) (ibss_net r) (privacy r) (short_preamble r) (short_slot r) (radio_measure r)
    (bcn_interval r) (listen_interval r) (datarate r) (datarate_len r) (ext_datarate r)
    (ext_datarate_len r) (ht_enable r) (ht_cap r) (htpriv r) (HT_protection r) (channel r)
    (bw_mode r) (channle_offset r) (wmm_enable r) (wmm_info r) (wpa_enable r) (rsn_enable r)
    (erp_enable r) (erp_flag r) (auth_algo r) (qos_option r) v (dot118021XPrivacy r)
    (dot11tkiptxmickey r) (dot11tkiprxmickey r) (dot118021x_UncstKey r) (dot11txpn r) (dot11rxpn
    r) (network_type r) (raid r) (tx_rate r) (cts2self r) (rtsen r) (ldpc r) (stbc r) (wdn_stats
    r) (seq_ctrl_recorder r) (defrag_q r) (defrag_flag r) (defrag_cnt r) (auth_seq r) (iv r)
    (key_index r) (chlg_txt r) (aid r) (dialogToken r) (ba_enable_flag r) (ba_started_flag r)
    (ba_starting_seqctrl r) (txseq_tid r).
Definition set_dot118021XPrivacy (v : Z) (r : wdn_net_info_st) : wdn_net_info_st :=
  mk_wdn_info (mac r) (wdn_id r) (mode r) (bssid r) (ssid r) (ssid_len r) (tsf r) (cap_info r)
    (ess_net r) (ibss_net r) (privacy r) (short_preamble r) (short_slot r) (radio_measure r)
    (bcn_interval r) (listen_interval r) (datarate r) (datarate_len r) (ext_datarate r)
    (ext_datarate_len r) (ht_enable r) (ht_cap r) (htpriv r) (HT_protection r) (channel r)
    (bw_mode r) (channle_offset r) (wmm_enable r) (wmm_info r) (wpa_enable r) (rsn_enable r)
    (erp_enable r) (erp_flag r) (auth_algo r) (qos_option r) (ieee8021x_blocked r) v
    (dot11tkiptxmickey r) (dot11tkiprxmickey r) (dot118021x_UncstKey r) (dot11txpn r) (dot11rxpn
    r) (network_type r) (raid r) (tx_rate r) (cts2self r) (rtsen r) (ldpc r) (stbc r) (wdn_stats
    r) (seq_ctrl_recorder r) (defrag_q r) (defrag_flag r) (defrag_cnt r) (auth_seq r) (iv r)
    (key_index r) (chlg_txt r) (aid r) (dialogToken r) (ba_enable_flag r) (ba_started_flag r)
    (ba_starting_seqctrl r) (txseq_tid r).
Definition set_dot11tkiptxmickey (v : list Z) (r : wdn_net_info_st) : wdn_net_info_st :=
  mk_wdn_info (mac r) (wdn_id r) (mode r) (bssid r) (ssid r) (ssid_len r) (tsf r) (cap_info r)
    (ess_net r) (ibss_net r) (privacy r) (short_preamble r) (short_slot r) (radio_measure r)
    (bcn_interval r) (listen_interval r) (datarate r) (datarate_len r) (ext_datarate r)
    (ext_datarate_len r) (ht_enable r) (ht_cap r) (htpriv r) (HT_protection r) (channel r)
    (bw_mode r) (channle_offset r) (wmm_enable r) (wmm_info r) (wpa_enable r) (rsn_enable r)
    (erp_enable r) (erp_flag r) (auth_algo r) (qos_option r) (ieee8021x_blocked r)
    (dot118021XPrivacy r) v (dot11tkiprxmickey r) (dot118021x_UncstKey r) (dot11txpn r)
    (dot11rxpn r) (network_type r) (raid r) (tx_rate r) (cts2self r) (rtsen r) (ldpc r) (stbc r)
    (wdn_stats r) (seq_ctrl_recorder r) (defrag_q r) (defrag_flag r) (defrag_cnt r) (auth_seq r)
    (iv r) (key_index r) (chlg_txt r) (aid r) (dialogToken r) (ba_enable_flag r)
    (ba_started_flag r) (ba_starting_seqctrl r) (txseq_tid r).
Definition set_dot11tkiprxmickey (v : list Z) (r : wdn_net_info_st) : wdn_net_info_st :=
  mk_wdn_info (mac r) (wdn_id r) (mode r) (bssid r) (ssid r) (ssid_len r) (tsf r) (cap_info r)
    (ess_net r) (ibss_net r) (privacy r) (short_preamble r) (short_slot r) (radio_measure r)
    (bcn_interval r) (listen_interval r) (datarate r) (datarate_len r) (ext_datarate r)
    (ext_datarate_len r) (ht_enable r) (ht_cap r) (htpriv r) (HT_protection r) (channel r)
    (bw_mode r) (channle_offset r) (wmm_enable r) (wmm_info r) (wpa_enable r) (rsn_enable r)
    (erp_enable r) (erp_flag r) (auth_algo r) (qos_option r) (ieee8021x_blocked r)
    (dot118021XPrivacy r) (dot11tkiptxmickey r) v (dot118021x_UncstKey r) (dot11txpn r)
    (dot11rxpn r) (network_type r) (raid r) (tx_rate r) (cts2self r) (rtsen r) (ldpc r) (stbc r)
    (wdn_stats r) (seq_ctrl_recorder r) (defrag_q r) (defrag_flag r) (defrag_cnt r) (auth_seq r)
    (iv r) (key_index r) (chlg_txt r) (aid r) (dialogToken r) (ba_enable_flag r)
    (ba_started_flag r) (ba_starting_seqctrl r) (txseq_tid r).
Definition set_dot118021x_UncstKey (v : list Z) (r : wdn_net_info_st) : wdn_net_info_st :=
  mk_wdn_info (mac r) (wdn_id r) (mode r) (bssid r) (ssid r) (ssid_len r) (tsf r) (cap_info r)
    (ess_net r) (ibss_net r) (privacy r) (short_preamble r) (short_slot r) (radio_measure r)
    (bcn_interval r) (listen_interval r) (datarate r) (datarate_len r) (ext_datarate r)
    (ext_datarate_len r) (ht_enable r) (ht_cap r) (htpriv r) (HT_protection r) (channel r)
    (bw_mode r) (channle_offset r) (wmm_enable r) (wmm_info r) (wpa_enable r) (rsn_enable r)
    (erp_enable r) (erp_flag r) (auth_algo r) (qos_option r) (ieee8021x_blocked r)
    (dot118021XPrivacy r) (dot11tkiptxmickey r) (dot11tkiprxmickey r) v (dot11txpn r) (dot11rxpn
    r) (network_type r) (raid r) (tx_rate r) (cts2self r) (rtsen r) (ldpc r) (stbc r) (wdn_stats
    r) (seq_ctrl_recorder r) (defrag_q r) (defrag_flag r) (defrag_cnt r) (auth_seq r) (iv r)
    (key_index r) (chlg_txt r) (aid r) (dialogToken r) (ba_enable_flag r) (ba_started_flag r)
    (ba_starting_seqctrl r) (txseq_tid r).
Definition set_dot11txpn (v : Z) (r : wdn_net_info_st) : wdn_net_info_st :=
  mk_wdn_info (mac r) (wdn_id r) (mode r) (bssid r) (ssid r) (ssid_len r) (tsf r) (cap_info r)
    (ess_net r) (ibss_net r) (privacy r) (short_preamble r) (short_slot r) (radio_measure r)
    (bcn_interval r) (listen_interval r) (datarate r) (datarate_len r) (ext_datarate r)
    (ext_datarate_len r) (ht_enable r) (ht_cap r) (htpriv r) (HT_protection r) (channel r)
    (bw_mode r) (channle_offset r) (wmm_enable r) (wmm_info r) (wpa_enable r) (rsn_enable r)
    (erp_enable r) (erp_flag r) (auth_algo r) (qos_option r) (ieee8021x_blocked r)
    (dot118021XPrivacy r) (dot11tkiptxmickey r) (dot11tkiprxmickey r) (dot118021x_UncstKey r) v
    (dot11rxpn r) (network_type r) (raid r) (tx_rate r) (cts2self r) (rtsen r) (ldpc r) (stbc r)
    (wdn_stats r) (seq_ctrl_recorder r) (defrag_q r) (defrag_flag r) (defrag_cnt r) (auth_seq r)
    (iv r) (key_index r) (chlg_txt r) (aid r) (dialogToken r) (ba_enable_flag r)
    (ba_started_flag r) (ba_starting_seqctrl r) (txseq_tid r).
Definition set_dot11rxpn (v : Z) (r : wdn_net_info_st) : wdn_net_info_st :=
  mk_wdn_info (mac r) (wdn_id r) (mode r) (bssid r) (ssid r) (ssid_len r) (tsf r) (cap_info r)
    (ess_net r) (ibss_net r) (privacy r) (short_preamble r) (short_slot r) (radio_measure r)
    (bcn_interval r) (listen_interval r) (datarate r) (datarate_len r) (ext_datarate r)
    (ext_datarate_len r) (ht_enable r) (ht_cap r) (htpriv r) (HT_protection r) (channel r)
    (bw_mode r) (channle_offset r) (wmm_enable r) (wmm_info r) (wpa_enable r) (rsn_enable r)
    (erp_enable r) (erp_flag r) (auth_algo r) (qos_option r) (ieee8021x_blocked r)
    (dot118021XPrivacy r) (dot11tkiptxmickey r) (dot11tkiprxmickey r) (dot118021x_UncstKey r)
    (dot11txpn r) v (network_type r) (raid r) (tx_rate r) (cts2self r) (rtsen r) (ldpc r) (stbc
    r) (wdn_stats r) (seq_ctrl_recorder r) (defrag_q r) (defrag_flag r) (defrag_cnt r) (auth_seq
    r) (iv r) (key_index r) (chlg_txt r) (aid r) (dialogToken r) (ba_enable_flag r)
    (ba_started_flag r) (ba_starting_seqctrl r) (txseq_tid r).
Definition set_network_type (v : Z) (r : wdn_net_info_st) : wdn_net_info_st :=
  mk_wdn_info (mac r) (wdn_id r) (mode r) (bssid r) (ssid r) (ssid_len r) (tsf r) (cap_info r)
    (ess_net r) (ibss_net r) (privacy r) (short_preamble r) (short_slot r) (radio_measure r)
    (bcn_interval r) (listen_interval r) (datarate r) (datarate_len r) (ext_datarate r)
    (ext_datarate_len r) (ht_enable r) (ht_cap r) (htpriv r) (HT_protection r) (channel r)
    (bw_mode r) (channle_offset r) (wmm_enable r) (wmm_info r) (wpa_enable r) (rsn_enable r)
    (erp_enable r) (erp_flag r) (auth_algo r) (qos_option r) (ieee8021x_blocked r)
    (dot118021XPrivacy r) (dot11tkiptxmickey r) (dot11tkiprxmickey r) (dot118021x_UncstKey r)
    (dot11txpn r) (dot11rxpn r) v (raid r) (tx_rate r) (cts2self r) (rtsen r) (ldpc r) (stbc r)
    (wdn_stats r) (seq_ctrl_recorder r) (defrag_q r) (defrag_flag r) (defrag_cnt r) (auth_seq r)
    (iv r) (key_index r) (chlg_txt r) (aid r) (dialogToken r) (ba_enable_flag r)
    (ba_started_flag r) (ba_starting_seqctrl r) (txseq_tid r).
Definition set_raid (v : Z) (r : wdn_net_info_st) : wdn_net_info_st :=
  mk_wdn_info (mac r) (wdn_id r) (mode r) (bssid r) (ssid r) (ssid_len r) (tsf r) (cap_info r)
    (ess_net r) (ibss_net r) (privacy r) (short_preamble r) (short_slot r) (radio_measure r)
    (bcn_interval r) (listen_interval r) (datarate r) (datarate_len r) (ext_datarate r)
    (ext_datarate_len r) (ht_enable r) (ht_cap r) (htpriv r) (HT_protection r) (channel r)
    (bw_mode r) (channle_offset r) (wmm_enable r) (wmm_info r) (wpa_enable r) (rsn_enable r)
    (erp_enable r) (erp_flag r) (auth_algo r) (qos_option r) (ieee8021x_blocked r)
    (dot118021XPrivacy r) (dot11tkiptxmickey r) (dot11tkiprxmickey r) (dot118021x_UncstKey r)
    (dot11txpn r) (dot11rxpn r) (network_type r) v (tx_rate r) (cts2self r) (rtsen r) (ldpc r)
    (stbc r) (wdn_stats r) (seq_ctrl_recorder r) (defrag_q r) (defrag_flag r) (defrag_cnt r)
    (auth_seq r) (iv r) (key_index r) (chlg_txt r) (aid r) (dialogToken r) (ba_enable_flag r)
    (ba_started_flag r) (ba_starting_seqctrl r) (txseq_tid r).
Definition set_tx_rate (v : Z) (r : wdn_net_info_st) : wdn_net_info_st :=
  mk_wdn_info (mac r) (wdn_id r) (mode r) (bssid r) (ssid r) (ssid_len r) (tsf r) (cap_info r)
    (ess_net r) (ibss_net r) (privacy r) (short_preamble r) (short_slot r) (radio_measure r)
    (bcn_interval r) (listen_interval r) (datarate r) (datarate_len r) (ext_datarate r)
    (ext_datarate_len r) (ht_enable r) (ht_cap r) (htpriv r) (HT_protection r) (channel r)
    (bw_mode r) (channle_offset r) (wmm_enable r) (wmm_info r) (wpa_enable r) (rsn_enable r)
    (erp_enable r) (erp_flag r) (auth_algo r) (qos_option r) (ieee8021x_blocked r)
    (dot118021XPrivacy r) (dot11tkiptxmickey r) (dot11tkiprxmickey r) (dot118021x_UncstKey r)
    (dot11txpn r) (dot11rxpn r) (network_type r) (raid r) v (cts2self r) (rtsen r) (ldpc r)
    (stbc r) (wdn_stats r) (seq_ctrl_recorder r) (defrag_q r) (defrag_flag r) (defrag_cnt r)
    (auth_seq r) (iv r) (key_index r) (chlg_txt r) (aid r) (dialogToken r) (ba_enable_flag r)
    (ba_started_flag r) (ba_starting_seqctrl r) (txseq_tid r).
Definition set_cts2self (v : Z) (r : wdn_net_info_st) : wdn_net_info_st :=
  mk_wdn_info (mac r) (wdn_id r) (mode r) (bssid r) (ssid r) (ssid_len r) (tsf r) (cap_info r)
    (ess_net r) (ibss_net r) (privacy r) (short_preamble r) (short_slot r) (radio_measure r)
    (bcn_interval r) (listen_interval r) (datarate r) (datarate_len r) (ext_datarate r)
    (ext_datarate_len r) (ht_enable r) (ht_cap r) (htpriv r) (HT_protection r) (channel r)
    (bw_mode r) (channle_offset r) (wmm_enable r) (wmm_info r) (wpa_enable r) (rsn_enable r)
    (erp_enable r) (erp_flag r) (auth_algo r) (qos_option r) (ieee8021x_blocked r)
    (dot118021XPrivacy r) (dot11tkiptxmickey r) (dot11tkiprxmickey r) (dot118021x_UncstKey r)
    (dot11txpn r) (dot11rxpn r) (network_type r) (raid r) (tx_rate r) v (rtsen r) (ldpc r) (stbc
    r) (wdn_stats r) (seq_ctrl_recorder r) (defrag_q r) (defrag_flag r) (defrag_cnt r) (auth_seq
    r) (iv r) (key_index r) (chlg_txt r) (aid r) (dialogToken r) (ba_enable_flag r)
    (ba_started_flag r) (ba_starting_seqctrl r) (txseq_tid r).
Definition set_rtsen (v : Z) (r : wdn_net_info_st) : wdn_net_info_st :=
  mk_wdn_info (mac r) (wdn_id r) (mode r) (bssid r) (ssid r) (ssid_len r) (tsf r) (cap_info r)
    (ess_net r) (ibss_net r) (privacy r) (short_preamble r) (short_slot r) (radio_measure r)
    (bcn_interval r) (listen_interval r) (datarate r) (datarate_len r) (ext_datarate r)
    (ext_datarate_len r) (ht_enable r) (ht_cap r) (htpriv r) (HT_protection r) (channel r)
    (bw_mode r) (channle_offset r) (wmm_enable r) (wmm_info r) (wpa_enable r) (rsn_enable r)
    (erp_enable r) (erp_flag r) (auth_algo r) (qos_option r) (ieee8021x_blocked r)
    (dot118021XPrivacy r) (dot11tkiptxmickey r) (dot11tkiprxmickey r) (dot118021x_UncstKey r)
    (dot11txpn r) (dot11rxpn r) (network_type r) (raid r) (tx_rate r) (cts2self r) v (ldpc r)
    (stbc r) (wdn_stats r) (seq_ctrl_recorder r) (defrag_q r) (defrag_flag r) (defrag_cnt r)
    (auth_seq r) (iv r) (key_index r) (chlg_txt r) (aid r) (dialogToken r) (ba_enable_flag r)
    (ba_started_flag r) (ba_starting_seqctrl r) (txseq_tid r).
Definition set_ldpc (v : Z) (r : wdn_net_info_st) : wdn_net_info_st :=
  mk_wdn_info (mac r) (wdn_id r) (mode r) (bssid r) (ssid r) (ssid_len r) (tsf r) (cap_info r)
    (ess_net r) (ibss_net r) (privacy r) (short_preamble r) (short_slot r) (radio_measure r)
    (bcn_interval r) (listen_interval r) (datarate r) (datarate_len r) (ext_datarate r)
    (ext_datarate_len r) (ht_enable r) (ht_cap r) (htpriv r) (HT_protection r) (channel r)
    (bw_mode r) (channle_offset r) (wmm_enable r) (wmm_info r) (wpa_enable r) (rsn_enable r)
    (erp_enable r) (erp_flag r) (auth_algo r) (qos_option r) (ieee8021x_blocked r)
    (dot118021XPrivacy r) (dot11tkiptxmickey r) (dot11tkiprxmickey r) (dot118021x_UncstKey r)
    (dot11txpn r) (dot11rxpn r) (network_type r) (raid r) (tx_rate r) (cts2self r) (rtsen r) v
    (stbc r) (wdn_stats r) (seq_ctrl_recorder r) (defrag_q r) (defrag_flag r) (defrag_cnt r)
    (auth_seq r) (iv r) (key_index r) (chlg_txt r) (aid r) (dialogToken r) (ba_enable_flag r)
    (ba_started_flag r) (ba_starting_seqctrl r) (txseq_tid r).
Definition set_stbc (v : Z) (r : wdn_net_info_st) : wdn_net_info_st :=
  mk_wdn_info (mac r) (wdn_id r) (mode r) (bssid r) (ssid r) (ssid_len r) (tsf r) (cap_info r)
    (ess_net r) (ibss_net r) (privacy r) (short_preamble r) (short_slot r) (radio_measure r)
    (bcn_interval r) (listen_interval r) (datarate r) (datarate_len r) (ext_datarate r)
    (ext_datarate_len r) (ht_enable r) (ht_cap r) (htpriv r) (HT_protection r) (channel r)
    (bw_mode r) (channle_offset r) (wmm_enable r) (wmm_info r) (wpa_enable r) (rsn_enable r)
    (erp_enable r) (erp_flag r) (auth_algo r) (qos_option r) (ieee8021x_blocked r)
    (dot118021XPrivacy r) (dot11tkiptxmickey r) (dot11tkiprxmickey r) (dot118021x_UncstKey r)
    (dot11txpn r) (dot11rxpn r) (network_type r) (raid r) (tx_rate r) (cts2self r) (rtsen r)
    (ldpc r) v (wdn_stats r) (seq_ctrl_recorder r) (defrag_q r) (defrag_flag r) (defrag_cnt r)
    (auth_seq r) (iv r) (key_index r) (chlg_txt r) (aid r) (dialogToken r) (ba_enable_flag r)
    (ba_started_flag r) (ba_starting_seqctrl r) (txseq_tid r).
Definition set_wdn_stats (v : Stats.wdninfo_stats) (r : wdn_net_info_st) : wdn_net_info_st :=
  mk_wdn_info (mac r) (wdn_id r) (mode r) (bssid r) (ssid r) (ssid_len r) (tsf r) (cap_info r)
    (ess_net r) (ibss_net r) (privacy r) (short_preamble r) (short_slot r) (radio_measure r)
    (bcn_interval r) (listen_interval r) (datarate r) (datarate_len r) (ext_datarate r)
    (ext_datarate_len r) (ht_enable r) (ht_cap r) (htpriv r) (HT_protection r) (channel r)
    (bw_mode r) (channle_offset r) (wmm_enable r) (wmm_info r) (wpa_enable r) (rsn_enable r)
    (erp_enable r) (erp_flag r) (auth_algo r) (qos_option r) (ieee8021x_blocked r)
    (dot118021XPrivacy r) (dot11tkiptxmickey r) (dot11tkiprxmickey r) (dot118021x_UncstKey r)
    (dot11txpn r) (dot11rxpn r) (network_type r) (raid r) (tx_rate r) (cts2self r) (rtsen r)
    (ldpc r) (stbc r) v (seq_ctrl_recorder r) (defrag_q r) (defrag_flag r) (defrag_cnt r)
    (auth_seq r) (iv r) (key_index r) (chlg_txt r) (aid r) (dialogToken r) (ba_enable_flag r)
    (ba_started_flag r) (ba_starting_seqctrl r) (txseq_tid r).
Definition set_seq_ctrl_recorder (v : list Z) (r : wdn_net_info_st) : wdn_net_info_st :=
  mk_wdn_info (mac r) (wdn_id r) (mode r) (bssid r) (ssid r) (ssid_len r) (tsf r) (cap_info r)
    (ess_net r) (ibss_net r) (privacy r) (short_preamble r) (short_slot r) (radio_measure r)
    (bcn_interval r) (listen_interval r) (datarate r) (datarate_len r) (ext_datarate r)
    (ext_datarate_len r) (ht_enable r) (ht_cap r) (htpriv r) (HT_protection r) (channel r)
    (bw_mode r) (channle_offset r) (wmm_enable r) (wmm_info r) (wpa_enable r) (rsn_enable r)
    (erp_enable r) (erp_flag r) (auth_algo r) (qos_option r) (ieee8021x_blocked r)
    (dot118021XPrivacy r) (dot11tkiptxmickey r) (dot11tkiprxmickey r) (dot118021x_UncstKey r)
    (dot11txpn r) (dot11rxpn r) (network_type r) (raid r) (tx_rate r) (cts2self r) (rtsen r)
    (ldpc r) (stbc r) (wdn_stats r) v (defrag_q r) (defrag_flag r) (defrag_cnt r) (auth_seq r)
    (iv r) (key_index r) (chlg_txt r) (aid r) (dialogToken r) (ba_enable_flag r)
    (ba_started_flag r) (ba_starting_seqctrl r) (txseq_tid r).
Definition set_defrag_q (v : list Z) (r : wdn_net_info_st) : wdn_net_info_st :=
  mk_wdn_info (mac r) (wdn_id r) (mode r) (bssid r) (ssid r) (ssid_len r) (tsf r) (cap_info r)
    (ess_net r) (ibss_net r) (privacy r) (short_preamble r) (short_slot r) (radio_measure r)
    (bcn_interval r) (listen_interval r) (datarate r) (datarate_len r) (ext_datarate r)
    (ext_datarate_len r) (ht_enable r) (ht_cap r) (htpriv r) (HT_protection r) (channel r)
    (bw_mode r) (channle_offset r) (wmm_enable r) (wmm_info r) (wpa_enable r) (rsn_enable r)
    (erp_enable r) (erp_flag r) (auth_algo r) (qos_option r) (ieee8021x_blocked r)
    (dot118021XPrivacy r) (dot11tkiptxmickey r) (dot11tkiprxmickey r) (dot118021x_UncstKey r)
    (dot11txpn r) (dot11rxpn r) (network_type r) (raid r) (tx_rate r) (cts2self r) (rtsen r)
    (ldpc r) (stbc r) (wdn_stats r) (seq_ctrl_recorder r) v (defrag_flag r) (defrag_cnt r)
    (auth_seq r) (iv r) (key_index r) (chlg_txt r) (aid r) (dialogToken r) (ba_enable_flag r)
    (ba_started_flag r) (ba_starting_seqctrl r) (txseq_tid r).
Definition set_defrag_flag (v : Z) (r : wdn_net_info_st) : wdn_net_info_st :=
  mk_wdn_info (mac r) (wdn_id r) (mode r) (bssid r) (ssid r) (ssid_len r) (tsf r) (cap_info r)
    (ess_net r) (ibss_net r) (privacy r) (short_preamble r) (short_slot r) (radio_measure r)
    (bcn_interval r) (listen_interval r) (datarate r) (datarate_len r) (ext_datarate r)
    (ext_datarate_len r) (ht_enable r) (ht_cap r) (htpriv r) (HT_protection r) (channel r)
    (bw_mode r) (channle_offset r) (wmm_enable r) (wmm_info r) (wpa_enable r) (rsn_enable r)
    (erp_enable r) (erp_flag r) (auth_algo r) (qos_option r) (ieee8021x_blocked r)
    (dot118021XPrivacy r) (dot11tkiptxmickey r) (dot11tkiprxmickey r) (dot118021x_UncstKey r)
    (dot11txpn r) (dot11rxpn r) (network_type r) (raid r) (tx_rate r) (cts2self r) (rtsen r)
    (ldpc r) (stbc r) (wdn_stats r) (seq_ctrl_recorder r) (defrag_q r) v (defrag_cnt r)
    (auth_seq r) (iv r) (key_index r) (chlg_txt r) (aid r) (dialogToken r) (ba_enable_flag r)
    (ba_started_flag r) (ba_starting_seqctrl r) (txseq_tid r).
Definition set_defrag_cnt (v : Z) (r : wdn_net_info_st) : wdn_net_info_st :=
  mk_wdn_info (mac r) (wdn_id r) (mode r) (bssid r) (ssid r) (ssid_len r) (tsf r) (cap_info r)
    (ess_net r) (ibss_net r) (privacy r) (short_preamble r) (short_slot r) (radio_measure r)
    (bcn_interval r) (listen_interval r) (datarate r) (datarate_len r) (ext_datarate r)
    (ext_datarate_len r) (ht_enable r) (ht_cap r) (htpriv r) (HT_protection r) (channel r)
    (bw_mode r) (channle_offset r) (wmm_enable r) (wmm_info r) (wpa_enable r) (rsn_enable r)
    (erp_enable r) (erp_flag r) (auth_algo r) (qos_option r) (ieee8021x_blocked r)
    (dot118021XPrivacy r) (dot11tkiptxmickey r) (dot11tkiprxmickey r) (dot118021x_UncstKey r)
    (dot11txpn r) (dot11rxpn r) (network_type r) (raid r) (tx_rate r) (cts2self r) (rtsen r)
    (ldpc r) (stbc r) (wdn_stats r) (seq_ctrl_recorder r) (defrag_q r) (defrag_flag r) v
    (auth_seq r) (iv r) (key_index r) (chlg_txt r) (aid r) (dialogToken r) (ba_enable_flag r)
    (ba_started_flag r) (ba_starting_seqctrl r) (txseq_tid r).
Definition set_auth_seq (v : Z) (r : wdn_net_info_st) : wdn_net_info_st :=
  mk_wdn_info (mac r) (wdn_id r) (mode r) (bssid r) (ssid r) (ssid_len r) (tsf r) (cap_info r)
    (ess_net r) (ibss_net r) (privacy r) (short_preamble r) (short_slot r) (radio_measure r)
    (bcn_interval r) (listen_interval r) (datarate r) (datarate_len r) (ext_datarate r)
    (ext_datarate_len r) (ht_enable r) (ht_cap r) (htpriv r) (HT_protection r) (channel r)
    (bw_mode r) (channle_offset r) (wmm_enable r) (wmm_info r) (wpa_enable r) (rsn_enable r)
    (erp_enable r) (erp_flag r) (auth_algo r) (qos_option r) (ieee8021x_blocked r)
    (dot118021XPrivacy r) (dot11tkiptxmickey r) (dot11tkiprxmickey r) (dot118021x_UncstKey r)
    (dot11txpn r) (dot11rxpn r) (network_type r) (raid r) (tx_rate r) (cts2self r) (rtsen r)
    (ldpc r) (stbc r) (wdn_stats r) (seq_ctrl_recorder r) (defrag_q r) (defrag_flag r)
    (defrag_cnt r) v (iv r) (key_index r) (chlg_txt r) (aid r) (dialogToken r) (ba_enable_flag
    r) (ba_started_flag r) (ba_starting_seqctrl r) (txseq_tid r).
Definition set_iv (v : Z) (r : wdn_net_info_st) : wdn_net_info_st :=
  mk_wdn_info (mac r) (wdn_id r) (mode r) (bssid r) (ssid r) (ssid_len r) (tsf r) (cap_info r)
    (ess_net r) (ibss_net r) (privacy r) (short_preamble r) (short_slot r) (radio_measure r)
    (bcn_interval r) (listen_interval r) (datarate r) (datarate_len r) (ext_datarate r)
    (ext_datarate_len r) (ht_enable r) (ht_cap r) (htpriv r) (HT_protection r) (channel r)
    (bw_mode r) (channle_offset r) (wmm_enable r) (wmm_info r) (wpa_enable r) (rsn_enable r)
    (erp_enable r) (erp_flag r) (auth_algo r) (qos_option r) (ieee8021x_blocked r)
    (dot118021XPrivacy r) (dot11tkiptxmickey r) (dot11tkiprxmickey r) (dot118021x_UncstKey r)
    (dot11txpn r) (dot11rxpn r) (network_type r) (raid r) (tx_rate r) (cts2self r) (rtsen r)
    (ldpc r) (stbc r) (wdn_stats r) (seq_ctrl_recorder r) (defrag_q r) (defrag_flag r)
    (defrag_cnt r) (auth_seq r) v (key_index r) (chlg_txt r) (aid r) (dialogToken r)
    (ba_enable_flag r) (ba_started_flag r) (ba_starting_seqctrl r) (txseq_tid r).
Definition set_key_index (v : Z) (r : wdn_net_info_st) : wdn_net_info_st :=
  mk_wdn_info (mac r) (wdn_id r) (mode r) (bssid r) (ssid r) (ssid_len r) (tsf r) (cap_info r)
    (ess_net r) (ibss_net r) (privacy r) (short_preamble r) (short_slot r) (radio_measure r)
    (bcn_interval r) (listen_interval r) (datarate r) (datarate_len r) (ext_datarate r)
    (ext_datarate_len r) (ht_enable r) (ht_cap r) (htpriv r) (HT_protection r) (channel r)
    (bw_mode r) (channle_offset r) (wmm_enable r) (wmm_info r) (wpa_enable r) (rsn_enable r)
    (erp_enable r) (erp_flag r) (auth_algo r) (qos_option r) (ieee8021x_blocked r)
    (dot118021XPrivacy r) (dot11tkiptxmickey r) (dot11tkiprxmickey r) (dot118021x_UncstKey r)
    (dot11txpn r) (dot11rxpn r) (network_type r) (raid r) (tx_rate r) (cts2self r) (rtsen r)
    (ldpc r) (stbc r) (wdn_stats r) (seq_ctrl_recorder r) (defrag_q r) (defrag_flag r)
    (defrag_cnt r) (auth_seq r) (iv r) v (chlg_txt r) (aid r) (dialogToken r) (ba_enable_flag r)
    (ba_started_flag r) (ba_starting_seqctrl r) (txseq_tid r).
Definition set_chlg_txt (v : list Z) (r : wdn_net_info_st) : wdn_net_info_st :=
  mk_wdn_info (mac r) (wdn_id r) (mode r) (bssid r) (ssid r) (ssid_len r) (tsf r) (cap_info r)
    (ess_net r) (ibss_net r) (privacy r) (short_preamble r) (short_slot r) (radio_measure r)
    (bcn_interval r) (listen_interval r) (datarate r) (datarate_len r) (ext_datarate r)
    (ext_datarate_len r) (ht_enable r) (ht_cap r) (htpriv r) (HT_protection r) (channel r)
    (bw_mode r) (channle_offset r) (wmm_enable r) (wmm_info r) (wpa_enable r) (rsn_enable r)
    (erp_enable r) (erp_flag r) (auth_algo r) (qos_option r) (ieee8021x_blocked r)
    (dot118021XPrivacy r) (dot11tkiptxmickey r) (dot11tkiprxmickey r) (dot118021x_UncstKey r)
    (dot11txpn r) (dot11rxpn r) (network_type r) (raid r) (tx_rate r) (cts2self r) (rtsen r)
    (ldpc r) (stbc r) (wdn_stats r) (seq_ctrl_recorder r) (defrag_q r) (defrag_flag r)
    (defrag_cnt r) (auth_seq r) (iv r) (key_index r) v (aid r) (dialogToken r) (ba_enable_flag
    r) (ba_started_flag r) (ba_starting_seqctrl r) (txseq_tid r).
Definition set_aid (v : Z) (r : wdn_net_info_st) : wdn_net_info_st :=
  mk_wdn_info (mac r) (wdn_id r) (mode r) (bssid r) (ssid r) (ssid_len r) (tsf r) (cap_info r)
    (ess_net r) (ibss_net r) (privacy r) (short_preamble r) (short_slot r) (radio_measure r)
    (bcn_interval r) (listen_interval r) (datarate r) (datarate_len r) (ext_datarate r)
    (ext_datarate_len r) (ht_enable r) (ht_cap r) (htpriv r) (HT_protection r) (channel r)
    (bw_mode r) (channle_offset r) (wmm_enable r) (wmm_info r) (wpa_enable r) (rsn_enable r)
    (erp_enable r) (erp_flag r) (auth_algo r) (qos_option r) (ieee8021x_blocked r)
    (dot118021XPrivacy r) (dot11tkiptxmickey r) (dot11tkiprxmickey r) (dot118021x_UncstKey r)
    (dot11txpn r) (dot11rxpn r) (network_type r) (raid r) (tx_rate r) (cts2self r) (rtsen r)
    (ldpc r) (stbc r) (wdn_stats r) (seq_ctrl_recorder r) (defrag_q r) (defrag_flag r)
    (defrag_cnt r) (auth_seq r) (iv r) (key_index r) (chlg_txt r) v (dialogToken r)
    (ba_enable_flag r) (ba_started_flag r) (ba_starting_seqctrl r) (txseq_tid r).
Definition set_dialogToken (v : list Z) (r : wdn_net_info_st) : wdn_net_info_st :=
  mk_wdn_info (mac r) (wdn_id r) (mode r) (bssid r) (ssid r) (ssid_len r) (tsf r) (cap_info r)
    (ess_net r) (ibss_net r) (privacy r) (short_preamble r) (short_slot r) (radio_measure r)
    (bcn_interval r) (listen_interval r) (datarate r) (datarate_len r) (ext_datarate r)
    (ext_datarate_len r) (ht_enable r) (ht_cap r) (htpriv r) (HT_protection r) (channel r)
    (bw_mode r) (channle_offset r) (wmm_enable r) (wmm_info r) (wpa_enable r) (rsn_enable r)
    (erp_enable r) (erp_flag r) (auth_algo r) (qos_option r) (ieee8021x_blocked r)
    (dot118021XPrivacy r) (dot11tkiptxmickey r) (dot11tkiprxmickey r) (dot118021x_UncstKey r)
    (dot11txpn r) (dot11rxpn r) (network_type r) (raid r) (tx_rate r) (cts2self r) (rtsen r)
    (ldpc r) (stbc r) (wdn_stats r) (seq_ctrl_recorder r) (defrag_q r) (defrag_flag r)
    (defrag_cnt r) (auth_seq r) (iv r) (key_index r) (chlg_txt r) (aid r) v (ba_enable_flag r)
    (ba_started_flag r) (ba_starting_seqctrl r) (txseq_tid r).
Definition set_ba_enable_flag (v : list Z) (r : wdn_net_info_st) : wdn_net_info_st :=
  mk_wdn_info (mac r) (wdn_id r) (mode r) (bssid r) (ssid r) (ssid_len r) (tsf r) (cap_info r)
    (ess_net r) (ibss_net r) (privacy r) (short_preamble r) (short_slot r) (radio_measure r)
    (bcn_interval r) (listen_interval r) (datarate r) (datarate_len r) (ext_datarate r)
    (ext_datarate_len r) (ht_enable r) (ht_cap r) (htpriv r) (HT_protection r) (channel r)
    (bw_mode r) (channle_offset r) (wmm_enable r) (wmm_info r) (wpa_enable r) (rsn_enable r)
    (erp_enable r) (erp_flag r) (auth_algo r) (qos_option r) (ieee8021x_blocked r)
    (dot118021XPrivacy r) (dot11tkiptxmickey r) (dot11tkiprxmickey r) (dot118021x_UncstKey r)
    (dot11txpn r) (dot11rxpn r) (network_type r) (raid r) (tx_rate r) (cts2self r) (rtsen r)
    (ldpc r) (stbc r) (wdn_stats r) (seq_ctrl_recorder r) (defrag_q r) (defrag_flag r)
    (defrag_cnt r) (auth_seq r) (iv r) (key_index r) (chlg_txt r) (aid r) (dialogToken r) v
    (ba_started_flag r) (ba_starting_seqctrl r) (txseq_tid r).
Definition set_ba_started_flag (v : list Z) (r : wdn_net_info_st) : wdn_net_info_st :=
  mk_wdn_info (mac r) (wdn_id r) (mode r) (bssid r) (ssid r) (ssid_len r) (tsf r) (cap_info r)
    (ess_net r) (ibss_net r) (privacy r) (short_preamble r) (short_slot r) (radio_measure r)
    (bcn_interval r) (listen_interval r) (datarate r) (datarate_len r) (ext_datarate r)
    (ext_datarate_len r) (ht_enable r) (ht_cap r) (htpriv r) (HT_protection r) (channel r)
    (bw_mode r) (channle_offset r) (wmm_enable r) (wmm_info r) (wpa_enable r) (rsn_enable r)
    (erp_enable r) (erp_flag r) (auth_algo r) (qos_option r) (ieee8021x_blocked r)
    (dot118021XPrivacy r) (dot11tkiptxmickey r) (dot11tkiprxmickey r) (dot118021x_UncstKey r)
    (dot11txpn r) (dot11rxpn r) (network_type r) (raid r) (tx_rate r) (cts2self r) (rtsen r)
    (ldpc r) (stbc r) (wdn_stats r) (seq_ctrl_recorder r) (defrag_q r) (defrag_flag r)
    (defrag_cnt r) (auth_seq r) (iv r) (key_index r) (chlg_txt r) (aid r) (dialogToken r)
    (ba_enable_flag r) v (ba_starting_seqctrl r) (txseq_tid r).
Definition set_ba_starting_seqctrl (v : list Z) (r : wdn_net_info_st) : wdn_net_info_st :=
  mk_wdn_info (mac r) (wdn_id r) (mode r) (bssid r) (ssid r) (ssid_len r) (tsf r) (cap_info r)
    (ess_net r) (ibss_net r) (privacy r) (short_preamble r) (short_slot r) (radio_measure r)
    (bcn_interval r) (listen_interval r) (datarate r) (datarate_len r) (ext_datarate r)
    (ext_datarate_len r) (ht_enable r) (ht_cap r) (htpriv r) (HT_protection r) (channel r)
    (bw_mode r) (channle_offset r) (wmm_enable r) (wmm_info r) (wpa_enable r) (rsn_enable r)
    (erp_enable r) (erp_flag r) (auth_algo r) (qos_option r) (ieee8021x_blocked r)
    (dot118021XPrivacy r) (dot11tkiptxmickey r) (dot11tkiprxmickey r) (dot118021x_UncstKey r)
    (dot11txpn r) (dot11rxpn r) (network_type r) (raid r) (tx_rate r) (cts2self r) (rtsen r)
    (ldpc r) (stbc r) (wdn_stats r) (seq_ctrl_recorder r) (defrag_q r) (defrag_flag r)
    (defrag_cnt r) (auth_seq r) (iv r) (key_index r) (chlg_txt r) (aid r) (dialogToken r)
    (ba_enable_flag r) (ba_started_flag r) v (txseq_tid r).
Definition set_txseq_tid (v : list Z) (r : wdn_net_info_st) : wdn_net_info_st :=
  mk_wdn_info (mac r) (wdn_id r) (mode r) (bssid r) (ssid r) (ssid_len r) (tsf r) (cap_info r)
    (ess_net r) (ibss_net r) (privacy r) (short_preamble r) (short_slot r) (radio_measure r)
    (bcn_interval r) (listen_interval r) (datarate r) (datarate_len r) (ext_datarate r)
    (ext_datarate_len r) (ht_enable r) (ht_cap r) (htpriv r) (HT_protection r) (channel r)
    (bw_mode r) (channle_offset r) (wmm_enable r) (wmm_info r) (wpa_enable r) (rsn_enable r)
    (erp_enable r) (erp_flag r) (auth_algo r) (qos_option r) (ieee8021x_blocked r)
    (dot118021XPrivacy r) (dot11tkiptxmickey r) (dot11tkiprxmickey r) (dot118021x_UncstKey r)
    (dot11txpn r) (dot11rxpn r) (network_type r) (raid r) (tx_rate r) (cts2self r) (rtsen r)
    (ldpc r) (stbc r) (wdn_stats r) (seq_ctrl_recorder r) (defrag_q r) (defrag_flag r)
    (defrag_cnt r) (auth_seq r) (iv r) (key_index r) (chlg_txt r) (aid r) (dialogToken r)
    (ba_enable_flag r) (ba_started_flag r) (ba_starting_seqctrl r) v.

(** [memset(pwdn_info, 0, sizeof(wdn_net_info_st))] *)
Definition zero : wdn_net_info_st :=
  mk_wdn_info (replicate 6 0) 0 0 (replicate 6 0) (replicate 32 0) 0 0 0 0 0 0 0 0 0 0 0
    (replicate 8 0) 0 (replicate 4 0) 0 0 HtCap.zero HtPriv.zero 0 0 0 0 0 (replicate 24 0) 0 0
    0 0 0 0 0 0 (replicate 16 0) (replicate 16 0) (replicate 16 0) 0 0 0 0 0 0 0 0 0 Stats.zero
    (replicate 16 0) [] 0 0 0 0 0 (replicate 128 0) 0 (replicate 16 0) (replicate 16 0)
    (replicate 16 0) (replicate 16 0) (replicate 16 0).
End Wi.

(** [wf_wlan_network_t], the fields [wf_wdn_data_update] reads *)
Module Net.
Record wf_wlan_network_t : Type := mk_network {
  bssid : list Z;
  ssid_length : Z;
  channel : Z;
  bw : Z;
  bcn_interval : Z;
  timestamp : Z;
  cap_info : Z;
  ies : list Z;
  ies_length : Z;
}.

End Net.

(** [hw_info_st], the fields [ie.c] and [wdn.c] read *)
Module Hw.
Record hw_info_st : Type := mk_hw_info {
  datarate : list Z;
  dot80211n_support : Z;
  ldpc_support : Z;
  tx_stbc_support : Z;
  rx_stbc_support : Z;
  rx_stbc_num : Z;
  max_recvbuf_sz : Z;
  rx_packet_offset : Z;
  sm_ps_support : Z;
  cbw40_support : Z;
  max_rx_ampdu_factor : Z;
  best_ampdu_density : Z;
  default_supported_mcs_set : list Z;
}.

End Hw.
