(* ===== verification/IdPool.v ===== *)
(** * Device node identifiers ([nic/wdn.c], lines 36-64)

    The interface the node table relies on, and the 32-bit map shared by all
    network devices of an adapter that implements it. *)
From S2P Require Import Prelude.

(** What a pool of identifiers promises. *)
Class IdPool : Type := {
  pool : Type;
  held : pool -> Z -> Prop;
  id_empty : pool;
  (** [new_wdn_id]: the identifier taken, or a failure *)
  id_new : pool -> option (Z * pool);
  (** [free_wdn_id] *)
  id_free : pool -> Z -> pool;

  held_empty i : ~ held id_empty i;
  held_range p i : held p i -> 0 <= i < 32;
  id_new_Some p i p' : id_new p = Some (i, p') ->
    0 <= i < 32 /\ ~ held p i /\ forall j, held p' j <-> j = i \/ held p j;
  id_new_None p : id_new p = None -> forall i, 0 <= i < 32 -> held p i;
  id_free_held p i : 0 <= i < 32 -> forall j, held (id_free p i) j <-> j <> i /\ held p j;
}.

Module IdBitmap.

(** The loop of [new_wdn_id] from bit [i] on, [n] bits left. *)
Fixpoint new_wdn_id_from (n : nat) (i : Z) (bitmap : Z) : option (Z * Z) :=
  match n with
  | O => None
  | S n =>
      let bit_mask := BIT i in
      if negb (nz (Z.land bitmap bit_mask))
      then Some (i, u32 (Z.lor bitmap bit_mask))
      else new_wdn_id_from n (i + 1) bitmap
  end.

(** [None] is the return value -1; [Some (id, bitmap)] is 0 with [*pwdn_id]
    and the shared map written. *)
Definition new_wdn_id (bitmap : Z) : option (Z * Z) := new_wdn_id_from 32 0 bitmap.

Definition free_wdn_id (bitmap id : Z) : Z * Z :=
  if 32 <=? id then (-1, bitmap) else (0, u32 (Z.land bitmap (Z.lnot (BIT id)))).

(** ** The bitmap is a pool *)

Definition bit_held (b : Z) (i : Z) : Prop := 0 <= i < 32 /\ Z.testbit b i = true.

Lemma new_from_Some n i b k b' :
  0 <= i -> i + Z.of_nat n <= 32 -> new_wdn_id_from n i b = Some (k, b') ->
  i <= k < i + Z.of_nat n /\ Z.testbit b k = false /\ b' = u32 (Z.lor b (BIT k)).
Proof.
  revert i. induction n as [| n IH]; intros i Hi Hn; cbn [new_wdn_id_from]; [done |].
  rewrite land_BIT by done. destruct (Z.testbit b i) eqn:T; cbn [negb].
  - intros H. apply IH in H; [| lia | lia]. split; [lia | apply H].
  - intros [= <- <-]. split; [lia | done].
Qed.

Lemma new_from_None n i b :
  0 <= i -> new_wdn_id_from n i b = None ->
  forall k, i <= k < i + Z.of_nat n -> Z.testbit b k = true.
Proof.
  revert i. induction n as [| n IH]; intros i Hi; cbn [new_wdn_id_from]; [lia |].
  rewrite land_BIT by done. destruct (Z.testbit b i) eqn:T; cbn [negb]; [| done].
  intros H k Hk. destruct (decide (k = i)) as [-> |]; [done |].
  apply (IH (i + 1)); [lia | done | lia].
Qed.

Lemma bitmap_new_Some b i b' : new_wdn_id b = Some (i, b') ->
  0 <= i < 32 /\ ~ bit_held b i /\ forall j, bit_held b' j <-> j = i \/ bit_held b j.
Proof.
  intros H. apply new_from_Some in H as (Hi & Ht & ->); [| lia | lia].
  split; [lia |]. split; [intros [_ Hc]; congruence |].
  intros j. unfold bit_held. split.
  - intros [Hj Hb]. rewrite testbit_u32, Z.lor_spec, testbit_BIT in Hb by lia.
    case_bool_decide; [by left | right]. by rewrite orb_false_r in Hb.
  - intros [-> | [Hj Hb]]; (split; [lia |]); rewrite testbit_u32, Z.lor_spec, testbit_BIT by lia.
    + by rewrite bool_decide_eq_true_2, orb_true_r.
    + by rewrite Hb.
Qed.

Lemma bitmap_free_held b i : 0 <= i < 32 ->
  forall j, bit_held (free_wdn_id b i).2 j <-> j <> i /\ bit_held b j.
Proof.
  intros Hi j. unfold free_wdn_id, bit_held. destruct (Z.leb_spec 32 i); [lia |]. cbn [snd].
  split.
  - intros [Hj Hb]. rewrite testbit_u32, Z.land_spec, Z.lnot_spec, testbit_BIT in Hb by lia.
    apply andb_prop in Hb as [Hb Hn]. case_bool_decide; [done |]. by split.
  - intros [Hne [Hj Hb]]. split; [done |].
    rewrite testbit_u32, Z.land_spec, Z.lnot_spec, testbit_BIT by lia.
    by rewrite Hb, bool_decide_eq_false_2.
Qed.

#[export] Program Instance bitmap_pool : IdPool := {|
  pool := Z;
  held := bit_held;
  id_empty := 0;
  id_new := new_wdn_id;
  id_free := fun b i => (free_wdn_id b i).2;
  id_new_Some := bitmap_new_Some;
  id_free_held := bitmap_free_held;
|}.
Next Obligation. intros i [_ H]. by rewrite Z.bits_0 in H. Qed.
Next Obligation. intros p i [H _]. done. Qed.
Next Obligation.
  intros p H i Hi. split; [done |]. eapply (new_from_None 32 0); [lia | exact H | lia].
Qed.
End IdBitmap.
