(* ===== verification/Wdn.v ===== *)
(** * The wireless device node table ([nic/wdn.c])

    A network device keeps a table of at most five nodes: a list of the nodes
    in use ([head]) and a list of spare ones ([free]).  The lists are the
    sequences that the rings of [WfList.v] represent; a node is its address
    with the information stored in it.  Node identifiers come from a pool that
    all devices of an adapter share. *)
From S2P Require Import Prelude WdnTypes IdPool.

Module Wdn.

Definition WDN_NUM_MAX : nat := 5.

(** [wdn_node_st] *)
Record wdn_node_st : Type := mk_node {
  addr : Z;
  info : Wi.wdn_net_info_st;
}.

(** [wdn_list]; its own [id_bitmap] is never used. *)
Record wdn_list : Type := mk_wdn_list {
  head : list wdn_node_st;
  free : list wdn_node_st;
  cnt : Z;
}.

Definition has_mac (pmac : list Z) (n : wdn_node_st) : bool := bytes_eqb (Wi.mac (info n)) pmac.

(** [wf_wdn_find_info]; [None] for [pmac] is a null pointer. *)
Definition wf_wdn_find_info (w : wdn_list) (pmac : option (list Z)) : option wdn_node_st :=
  match pmac with
  | None => None
  | Some pmac => snd <$> list_find (has_mac pmac) (head w)
  end.

Definition wf_wdn_find_info_by_id (w : wdn_list) (wdn_id : Z) : option wdn_node_st :=
  snd <$> list_find (fun n => Wi.wdn_id (info n) =? wdn_id) (head w).

(** [wf_list_delete] of one node. *)
Definition unlink (n : wdn_node_st) (l : list wdn_node_st) : list wdn_node_st :=
  List.filter (fun m => negb (addr m =? addr n)) l.

Section Table.
Context {IP : IdPool}.

Definition wf_wdn_add (p : pool) (w : wdn_list) (pmac : option (list Z))
    : C (pool * wdn_list * option wdn_node_st) :=
  match wf_wdn_find_info w pmac with
  | Some n => Ret (p, w, Some n)
  | None =>
      match free w with
      | [] => Ret (p, w, None)
      | n :: free' =>
          match id_new p with
          | None => Ret (p, w, None)
          | Some (id, p') =>
              letc mac := of_option pmac in
              let n' := mk_node (addr n) (Wi.set_wdn_id id (Wi.set_mac mac Wi.zero)) in
              Ret (p', mk_wdn_list (head w ++ [n']) free' (u8 (cnt w + 1)), Some n')
          end
      end
  end.

Definition wf_wdn_remove (p : pool) (w : wdn_list) (pmac : option (list Z))
    : Z * pool * wdn_list :=
  match wf_wdn_find_info w pmac with
  | None => (-1, p, w)
  | Some n =>
      (0, id_free p (Wi.wdn_id (info n)),
       mk_wdn_list (unlink n (head w)) (free w ++ [n]) (u8 (cnt w - 1)))
  end.
End Table.

(** The loop of [wf_wdn_init]: [allocs] are the results of [wf_kzalloc]. *)
Fixpoint init_nodes (allocs : list (option Z)) (l : list wdn_node_st) : Z * list wdn_node_st :=
  match allocs with
  | [] => (0, l)
  | None :: _ => (-2, l)
  | Some a :: allocs => init_nodes allocs (l ++ [mk_node a Wi.zero])
  end.

(** [wf_wdn_init]: the result and [pnic_info->wdn] afterwards.  [table] tells
    whether the table itself could be allocated, [allocs] are the results of
    the five node allocations. *)
Definition wf_wdn_init (wdn : option wdn_list) (table : bool) (allocs : list (option Z))
    : Z * option wdn_list :=
  if table then
    let '(r, l) := init_nodes (take WDN_NUM_MAX allocs) [] in (r, Some (mk_wdn_list [] l 0))
  else (-1, wdn).

(** [wf_wdn_term]: the result and the node addresses passed to [wf_kfree], in
    order; the table itself is freed last. *)
Definition wf_wdn_term (wdn : option wdn_list) : Z * list Z :=
  match wdn with
  | None => (-1, [])
  | Some w => (0, (addr <$> head w) ++ (addr <$> free w))
  end.

Definition wf_wdn_get_cnt (nic : option (option wdn_list)) : Z :=
  match nic with
  | None | Some None => 0
  | Some (Some w) => cnt w
  end.

(** ** Rates and activity *)

(** [BIT(k)] for the rates, in the order of the [case] labels. *)
Definition brate_bit (brate : Z) : option Z :=
  if brate =? 0x02 then Some 0 else if brate =? 0x04 then Some 1
  else if brate =? 0x0B then Some 2 else if brate =? 0x16 then Some 3
  else if brate =? 0x0C then Some 4 else if brate =? 0x12 then Some 5
  else if brate =? 0x18 then Some 6 else if brate =? 0x24 then Some 7
  else if brate =? 0x30 then Some 8 else if brate =? 0x48 then Some 9
  else if brate =? 0x60 then Some 10 else if brate =? 0x6C then Some 11
  else None.

(** [rates] are the [dataRate_len] bytes at [pdataRate]. *)
Fixpoint get_bratecfg_by_support_dates (rates : list Z) (cfg : Z) : Z :=
  match rates with
  | [] => cfg
  | r :: rates =>
      let is_brate := u8 (Z.land r 0x80) in
      let brate := u8 (Z.land r 0x7f) in
      let cfg :=
        if nz is_brate then
          match brate_bit brate with
          | Some k => u16 (Z.lor cfg (BIT k))
          | None => cfg
          end
        else cfg in
      get_bratecfg_by_support_dates rates cfg
  end.

Definition WIRELESS_11B : Z := 1.
Definition WIRELESS_11G : Z := 2.
Definition WIRELESS_11_24N : Z := 8.
Definition WIRELESS_11BG : Z := 3.
Definition WIRELESS_11G_24N : Z := 10.
Definition WIRELESS_11B_24N : Z := 9.
Definition WIRELESS_11BG_24N : Z := 11.
Definition RATEID_IDX_BGN_40M_1SS : Z := 1.
Definition RATEID_IDX_BGN_20M_1SS_BN : Z := 3.
Definition RATEID_IDX_GN_N1SS : Z := 5.
Definition RATEID_IDX_BG : Z := 6.
Definition RATEID_IDX_G : Z := 7.
Definition RATEID_IDX_B : Z := 8.
Definition MGN_1M : Z := 0x02.
Definition MGN_MCS0 : Z := 0x80.
Definition CHANNEL_WIDTH_20 : Z := 0.
Definition CHANNEL_WIDTH_40 : Z := 1.

Definition wf_wdn_get_raid_by_network_type (w : Wi.wdn_net_info_st) : Z * Wi.wdn_net_info_st :=
  let nt := Wi.network_type w in
  if nt =? WIRELESS_11B then (RATEID_IDX_B, Wi.set_tx_rate MGN_1M w)
  else if nt =? WIRELESS_11G then (RATEID_IDX_G, Wi.set_tx_rate MGN_1M w)
  else if nt =? WIRELESS_11BG then (RATEID_IDX_BG, Wi.set_tx_rate MGN_1M w)
  else if nt =? WIRELESS_11_24N then (RATEID_IDX_GN_N1SS, Wi.set_tx_rate MGN_MCS0 w)
  else if nt =? WIRELESS_11G_24N then (RATEID_IDX_GN_N1SS, Wi.set_tx_rate MGN_1M w)
  else if nt =? WIRELESS_11B_24N then (RATEID_IDX_GN_N1SS, Wi.set_tx_rate MGN_1M w)
  else if nt =? WIRELESS_11BG_24N then
    (if Wi.bw_mode w =? CHANNEL_WIDTH_20 then RATEID_IDX_BGN_20M_1SS_BN
     else RATEID_IDX_BGN_40M_1SS, Wi.set_tx_rate MGN_1M w)
  else (RATEID_IDX_BGN_40M_1SS, w).

(** [wdn_update_last_rx_pkts] *)
Definition wdn_update_last_rx_pkts (s : Stats.wdninfo_stats) : Stats.wdninfo_stats :=
  Stats.set_last_rx_data_pkts (Stats.rx_data_pkts s)
  (Stats.set_last_rx_ctrl_pkts (Stats.rx_ctrl_pkts s)
  (Stats.set_last_rx_probersp_uo_pkts (Stats.rx_probersp_uo_pkts s)
  (Stats.set_last_rx_probersp_bm_pkts (Stats.rx_probersp_bm_pkts s)
  (Stats.set_last_rx_probersp_pkts (Stats.rx_probersp_pkts s)
  (Stats.set_last_rx_probereq_pkts (Stats.rx_probereq_pkts s)
  (Stats.set_last_rx_beacon_pkts (Stats.rx_beacon_pkts s)
  (Stats.set_last_rx_mgnt_pkts (Stats.rx_mgnt_pkts s) s))))))).

Definition wf_wdn_is_alive (w : Wi.wdn_net_info_st) (update_tag : Z)
    : bool * Wi.wdn_net_info_st :=
  let s := Wi.wdn_stats w in
  if u64 (Stats.last_rx_data_pkts s + Stats.last_rx_ctrl_pkts s) =?
     u64 (Stats.rx_data_pkts s + Stats.rx_ctrl_pkts s)
  then (false, w)
  else (true, if nz update_tag then Wi.set_wdn_stats (wdn_update_last_rx_pkts s) w else w).

(** ** One table *)

Definition ids (w : wdn_list) : list Z := (fun n => Wi.wdn_id (info n)) <$> head w.
Definition macs (w : wdn_list) : list (list Z) := (fun n => Wi.mac (info n)) <$> head w.

(** The nodes are five distinct objects, the counter counts those in use, and
    no station has two of them. *)
Definition wdn_ok (w : wdn_list) : Prop :=
  NoDup (addr <$> (head w ++ free w)) /\ (length (head w) + length (free w) = WDN_NUM_MAX)%nat /\
  cnt w = Z.of_nat (length (head w)) /\ NoDup (macs w).

Lemma find_info_Some w mac n : wf_wdn_find_info w (Some mac) = Some n ->
  exists l1 l2, head w = l1 ++ n :: l2 /\ Wi.mac (info n) = mac.
Proof.
  unfold wf_wdn_find_info. destruct (list_find _ _) as [[i m] |] eqn:E; [| done].
  intros [= <-]. apply list_find_Some in E as (Hi & Hm & _).
  exists (take i (head w)), (drop (S i) (head w)). split; [symmetry; by apply take_drop_middle |].
  unfold has_mac, bytes_eqb in Hm. apply Is_true_true in Hm. by apply bool_decide_eq_true in Hm.
Qed.

Lemma find_info_None w mac : wf_wdn_find_info w (Some mac) = None <-> mac ∉ macs w.
Proof.
  unfold wf_wdn_find_info. rewrite fmap_None, list_find_None, Forall_forall.
  unfold macs. rewrite list_elem_of_fmap. unfold has_mac, bytes_eqb. split.
  - intros H (n & -> & Hn). apply (H n Hn), Is_true_true. by apply bool_decide_eq_true.
  - intros H n Hn Hm. apply H. exists n. split; [| done]. symmetry.
    apply Is_true_true in Hm. by apply bool_decide_eq_true in Hm.
Qed.

(** With distinct addresses each station is found at its one node. *)
Lemma find_info_unique w l1 n l2 : NoDup (macs w) -> head w = l1 ++ n :: l2 ->
  wf_wdn_find_info w (Some (Wi.mac (info n))) = Some n.
Proof.
  intros Hnd Hh. unfold macs in Hnd. rewrite Hh, fmap_app, fmap_cons in Hnd.
  unfold wf_wdn_find_info. rewrite Hh.
  rewrite (proj2 (list_find_Some _ _ (length l1) n)); [done |].
  rewrite list_lookup_middle by done. split; [done |]. unfold has_mac, bytes_eqb. split.
  - apply Is_true_true. by apply bool_decide_eq_true.
  - intros j m Hj Hlt Hm. apply Is_true_true, bool_decide_eq_true in Hm.
    rewrite lookup_app_l in Hj by done. apply NoDup_app in Hnd as (_ & Hd & _).
    apply (Hd (Wi.mac (info m))); [| rewrite Hm; left].
    apply list_elem_of_fmap. exists m. split; [done |]. by eapply list_elem_of_lookup_2.
Qed.

Lemma unlink_split l1 n l2 : NoDup (addr <$> (l1 ++ n :: l2)) -> unlink n (l1 ++ n :: l2) = l1 ++ l2.
Proof.
  rewrite fmap_app, fmap_cons. intros (_ & Hd & Hc)%NoDup_app. apply NoDup_cons in Hc as [Hc _].
  assert (Hid : forall l, addr n ∉ addr <$> l -> unlink n l = l).
  { clear. intros l. induction l as [| m l IH]; [done |]. rewrite fmap_cons. intros Hn.
    cbn [unlink List.filter]. destruct (Z.eqb_spec (addr m) (addr n)); [set_solver |].
    cbn [negb]. f_equal. apply IH. set_solver. }
  unfold unlink. rewrite List.filter_app. cbn [List.filter]. rewrite Z.eqb_refl. cbn [negb].
  fold (unlink n l1) (unlink n l2). rewrite !Hid; [done | done |].
  intros Hin. apply (Hd _ Hin). left.
Qed.

(** ** All devices of an adapter *)

Section World.
Context {IP : IdPool}.

Record world : Type := mk_world {
  w_pool : pool;
  w_nics : list wdn_list;
}.

Definition all_ids (W : world) : list Z := concat (ids <$> w_nics W).

Definition world_ok (W : world) : Prop :=
  Forall wdn_ok (w_nics W) /\ NoDup (all_ids W) /\ forall i, held (w_pool W) i <-> i ∈ all_ids W.

(** Additions and removals on any device, and any change of a node's other
    fields by the rest of the driver. *)
Inductive wdn_step : world -> world -> Prop :=
  | step_add W k w mac p' w' r :
      w_nics W !! k = Some w -> wf_wdn_add (w_pool W) w (Some mac) = Ret (p', w', r) ->
      wdn_step W (mk_world p' (<[k := w']> (w_nics W)))
  | step_remove W k w mac p' w' r :
      w_nics W !! k = Some w -> wf_wdn_remove (w_pool W) w (Some mac) = (r, p', w') ->
      wdn_step W (mk_world p' (<[k := w']> (w_nics W)))
  | step_info W k w l1 n l2 i :
      w_nics W !! k = Some w -> head w = l1 ++ n :: l2 ->
      Wi.mac i = Wi.mac (info n) -> Wi.wdn_id i = Wi.wdn_id (info n) ->
      wdn_step W (mk_world (w_pool W)
        (<[k := mk_wdn_list (l1 ++ mk_node (addr n) i :: l2) (free w) (cnt w)]> (w_nics W))).

(** Devices whose initialisation succeeded, with no node in use. *)
Definition world_init (nics : list (list Z)) : world :=
  mk_world id_empty
    ((fun a => mk_wdn_list [] ((fun x => mk_node x Wi.zero) <$> a) 0) <$> nics).

Lemma nics_split nics k w : nics !! k = Some w ->
  exists R, concat (ids <$> nics) ≡ₚ ids w ++ R /\
    forall w', concat (ids <$> <[k := w']> nics) ≡ₚ ids w' ++ R.
Proof.
  intros Hk. exists (concat (ids <$> take k nics) ++ concat (ids <$> drop (S k) nics)).
  assert (Hsp : forall v, concat (ids <$> (take k nics ++ v :: drop (S k) nics)) ≡ₚ
    ids v ++ concat (ids <$> take k nics) ++ concat (ids <$> drop (S k) nics)).
  { intros v. rewrite fmap_app, fmap_cons, concat_app. cbn [concat].
    apply Permutation_app_swap_app. }
  split.
  - rewrite <- (take_drop_middle nics k w Hk) at 1. apply Hsp.
  - intros w'. rewrite insert_take_drop by (by eapply lookup_lt_Some). apply Hsp.
Qed.

Lemma world_update W k w p' w' R :
  world_ok W -> w_nics W !! k = Some w -> wdn_ok w' ->
  concat (ids <$> <[k := w']> (w_nics W)) ≡ₚ ids w' ++ R ->
  NoDup (ids w' ++ R) -> (forall i, held p' i <-> i ∈ ids w' ++ R) ->
  world_ok (mk_world p' (<[k := w']> (w_nics W))).
Proof.
  intros (Hall & _ & _) Hk Hw' HR Hnd Hh. unfold world_ok, all_ids. cbn [w_pool w_nics].
  split; [by apply Forall_insert |]. rewrite HR. split; [done |]. intros i. by rewrite HR, Hh.
Qed.

Lemma add_ok p w mac p' w' r : wdn_ok w -> wf_wdn_add p w (Some mac) = Ret (p', w', r) ->
  (p' = p /\ w' = w) \/
  (exists id, id_new p = Some (id, p') /\ wdn_ok w' /\ ids w' = ids w ++ [id] /\
     macs w' = macs w ++ [mac]).
Proof.
  intros (Ha & Hl & Hc & Hm). unfold wf_wdn_add.
  destruct (wf_wdn_find_info w (Some mac)) as [n |] eqn:Hf; [intros [= <- <- <-]; by left |].
  destruct (free w) as [| n fr] eqn:Hfr; [intros [= <- <- <-]; by left |].
  destruct (id_new p) as [[id q] |] eqn:Hid; [| intros [= <- <- <-]; by left].
  cbn [of_option cbind]. intros [= <- <- <-]. right. exists id. split; [done |].
  unfold ids, macs. cbn [head]. rewrite !fmap_app. split; [| done].
  apply find_info_None in Hf. unfold wdn_ok, macs. cbn [head free cnt].
  cbn [length] in Hl. unfold WDN_NUM_MAX in *. split_and!.
  - rewrite <- app_assoc, !fmap_app. rewrite fmap_app in Ha. exact Ha.
  - rewrite length_app. cbn [length]. lia.
  - rewrite length_app. cbn [length]. rewrite Hc. rewrite u8_id; [lia | unfold is_u8; lia].
  - rewrite fmap_app. apply NoDup_app. split; [done |]. split; [set_solver |].
    repeat constructor. set_solver.
Qed.

Lemma remove_ok p w mac p' w' r : wdn_ok w -> wf_wdn_remove p w (Some mac) = (r, p', w') ->
  (r = -1 /\ (mac ∉ macs w) /\ p' = p /\ w' = w) \/
  (exists n, r = 0 /\ Wi.mac (info n) = mac /\ p' = id_free p (Wi.wdn_id (info n)) /\ wdn_ok w' /\
     ids w ≡ₚ (Wi.wdn_id (info n) :: ids w') /\ macs w ≡ₚ (mac :: macs w')).
Proof.
  intros (Ha & Hl & Hc & Hm). unfold wf_wdn_remove.
  destruct (wf_wdn_find_info w (Some mac)) as [n |] eqn:Hf.
  2: { intros [= <- <- <-]. left. by apply find_info_None in Hf. }
  intros [= <- <- <-]. right. exists n. apply find_info_Some in Hf as (l1 & l2 & Hh & Hmac).
  assert (Hul : unlink n (head w) = l1 ++ l2).
  { rewrite Hh. apply unlink_split. rewrite Hh, fmap_app in Ha. by apply NoDup_app in Ha as [? _]. }
  rewrite Hul. unfold wdn_ok, ids, macs in *. cbn [head free cnt]. rewrite Hh in *.
  rewrite !length_app in *. cbn [length] in *. unfold WDN_NUM_MAX in *.
  assert (Hp : forall A (f : wdn_node_st -> A), f <$> (l1 ++ n :: l2) ≡ₚ (f n :: (f <$> (l1 ++ l2)))).
  { intros A f. rewrite !fmap_app, fmap_cons. by rewrite Permutation_middle. }
  split_and!; try done.
  - assert (HP : ((l1 ++ l2) ++ free w ++ [n]) ≡ₚ (l1 ++ n :: l2) ++ free w).
    { rewrite <- (Permutation_middle l1 l2 n), (app_assoc _ (free w)).
      by rewrite <- Permutation_cons_append. }
    by rewrite HP.
  - lia.
  - rewrite Hc, u8_id; [lia | unfold is_u8; lia].
  - rewrite Hp in Hm. by apply NoDup_cons in Hm as [_ ?].
  - rewrite <- Hmac. apply Hp.
Qed.
Lemma step_preserves W W' : world_ok W -> wdn_step W W' -> world_ok W'.
Proof.
  intros HW Hstep. pose proof HW as (Hall & Hnd & Hh). unfold all_ids in Hnd, Hh.
  destruct Hstep as [W k w mac p' w' r Hk Hadd | W k w mac p' w' r Hk Hrem
                    | W k w l1 n l2 i Hk Hhd Hmac Hid];
    destruct (nics_split _ _ _ Hk) as (R & HR & HR');
    pose proof (Forall_lookup_1 _ _ _ _ Hall Hk) as Hw; rewrite HR in Hnd;
    assert (Hh' : forall i, held (w_pool W) i <-> i ∈ ids w ++ R)
      by (intros j; by rewrite <- HR); clear Hh.
  - destruct (add_ok _ _ _ _ _ _ Hw Hadd) as [[-> ->] | (id & Hnew & Hw' & Hids & _)].
    { apply (world_update W k w (w_pool W) w R); auto. }
    apply id_new_Some in Hnew as (_ & Hfree & Hheld).
    apply (world_update W k w p' w' R); auto; rewrite Hids.
    + rewrite <- app_assoc. cbn [app]. rewrite <- Permutation_middle. constructor; [by rewrite <- Hh' | done].
    + intros j. rewrite Hheld, Hh'. set_solver.
  - destruct (remove_ok _ _ _ _ _ _ Hw Hrem) as [(_ & _ & -> & ->) | (n & _ & _ & -> & Hw' & Hids & _)].
    { apply (world_update W k w (w_pool W) w R); auto. }
    assert (Hin : held (w_pool W) (Wi.wdn_id (info n))) by (rewrite Hh', Hids; set_solver).
    assert (Hnd2 : NoDup (Wi.wdn_id (info n) :: (ids w' ++ R))).
    { rewrite Hids in Hnd. exact Hnd. }
    apply NoDup_cons in Hnd2 as [Hni Hnd2].
    apply (world_update W k w _ w' R); auto.
    intros j. rewrite (id_free_held _ _ (held_range _ _ Hin)), Hh', Hids. set_solver.
  - set (w' := mk_wdn_list _ _ _).
    assert (Hids : ids w' = ids w).
    { unfold ids. cbn [w' head]. rewrite Hhd, !fmap_app, !fmap_cons. cbn [info]. by rewrite Hid. }
    apply (world_update W k w (w_pool W) w' R); auto; rewrite ?Hids; auto.
    destruct Hw as (Ha & Hl & Hc & Hm). unfold wdn_ok, macs in *. cbn [w' head free cnt].
    rewrite Hhd in *. rewrite !length_app in *. cbn [length] in *.
    rewrite !fmap_app, !fmap_cons in *. cbn [info addr] in *. rewrite Hmac. done.
Qed.

Lemma world_init_ok nics :
  Forall (fun a => NoDup a /\ length a = WDN_NUM_MAX) nics -> world_ok (world_init nics).
Proof.
  intros Hn. unfold world_ok, all_ids, world_init. cbn [w_nics w_pool].
  assert (Hids : concat (ids <$> ((fun a => mk_wdn_list [] ((fun x => mk_node x Wi.zero) <$> a) 0)
    <$> nics)) = []).
  { clear. induction nics as [| a nics IH]; [done |]. rewrite !fmap_cons. cbn [concat]. by rewrite IH. }
  rewrite Hids. split.
  - apply Forall_fmap. eapply Forall_impl; [exact Hn |]. intros a [Hnd Hl]. cbn.
    unfold wdn_ok, macs. cbn [head free cnt]. cbn [app length]. rewrite length_fmap.
    rewrite <- list_fmap_compose. split_and!; [| done | done | constructor].
    replace (addr ∘ _ <$> a) with a; [done |]. clear. induction a; [done |].
    rewrite fmap_cons. by f_equal.
  - split; [constructor |]. intros i. split; [intros H; by apply held_empty in H | set_solver].
Qed.

(** ** Properties *)

(** C26: from any adapter whose devices were just initialised, and through any
    sequence of additions and removals on its devices interleaved with other
    updates of the nodes: every table keeps its five nodes and an exact count,
    holds no station twice, and the identifiers in use are pairwise different
    over all devices and are exactly those marked in the shared pool. *)
Theorem wdn_reachable_ok (nics : list (list Z)) (W : world) :
  Forall (fun a => NoDup a /\ length a = WDN_NUM_MAX) nics ->
  rtc wdn_step (world_init nics) W -> world_ok W.
Proof.
  intros Hn Hsteps. pose proof (world_init_ok nics Hn) as Hok.
  induction Hsteps as [| W1 W2 W3 H1 _ IH]; [done |]. apply IH. by eapply step_preserves.
Qed.

(** On a well-formed table, [wf_wdn_add] of a known station returns its
    node and changes nothing; of a new one it fails exactly when the five
    nodes or the identifiers are used up, and otherwise the station is found
    afterwards at the returned node, with a cleared entry, and every other
    station is found where it was.  [wf_wdn_remove] then makes the station
    unknown again, returns the identifier and leaves the others in place. *)
Theorem wdn_add_remove (p : pool) (w : wdn_list) (mac : list Z) :
  wdn_ok w ->
  (forall n, wf_wdn_find_info w (Some mac) = Some n ->
     wf_wdn_add p w (Some mac) = Ret (p, w, Some n)) /\
  (wf_wdn_find_info w (Some mac) = None ->
     (length (head w) = WDN_NUM_MAX \/ id_new p = None ->
        wf_wdn_add p w (Some mac) = Ret (p, w, None)) /\
     ((length (head w) < WDN_NUM_MAX)%nat -> forall id p', id_new p = Some (id, p') ->
        exists w' n, wf_wdn_add p w (Some mac) = Ret (p', w', Some n) /\
          cnt w' = cnt w + 1 /\
          wf_wdn_find_info w' (Some mac) = Some n /\
          info n = Wi.set_wdn_id id (Wi.set_mac mac Wi.zero) /\
          (forall m, m <> mac -> wf_wdn_find_info w' (Some m) = wf_wdn_find_info w (Some m)) /\
          exists w'', wf_wdn_remove p' w' (Some mac) = (0, id_free p' id, w'') /\
            head w'' = head w /\ cnt w'' = cnt w /\
            wf_wdn_remove (id_free p' id) w'' (Some mac) = (-1, id_free p' id, w''))).
Proof.
  intros Hw. pose proof Hw as (Ha & Hl & Hc & Hm). unfold WDN_NUM_MAX in *.
  split; [intros n Hf; unfold wf_wdn_add; by rewrite Hf |]. intros Hf. split.
  { intros Hfull. unfold wf_wdn_add. rewrite Hf. destruct (free w) as [| n fr] eqn:Hfr; [done |].
    destruct Hfull as [Hfull | ->]; [cbn [length] in Hl; lia | done]. }
  intros Hroom id p' Hid. destruct (free w) as [| n0 fr] eqn:Hfr; [cbn [length] in Hl; lia |].
  set (n := mk_node (addr n0) (Wi.set_wdn_id id (Wi.set_mac mac Wi.zero))).
  set (w' := mk_wdn_list (head w ++ [n]) fr (u8 (cnt w + 1))).
  assert (Hadd : wf_wdn_add p w (Some mac) = Ret (p', w', Some n)).
  { unfold wf_wdn_add. by rewrite Hf, Hfr, Hid. }
  destruct (add_ok _ _ _ _ _ _ Hw Hadd) as [[_ Heq] | (id' & Hid' & Hw' & Hids & Hmacs)].
  { apply (f_equal (length ∘ head)) in Heq. cbn in Heq. rewrite length_app in Heq. cbn in Heq. lia. }
  assert (Hfound : wf_wdn_find_info w' (Some mac) = Some n)
    by (apply (find_info_unique w' (head w) n []); [apply Hw' | done]).
  exists w', n. split; [done |]. split.
  { cbn [w' cnt]. rewrite u8_id; [done |]. unfold is_u8. lia. }
  split; [done |]. split; [done |]. split.
  { intros m Hm'. unfold wf_wdn_find_info. cbn [w' head]. 
    destruct (list_find (has_mac m) (head w)) as [[i y] |] eqn:E;
      [by rewrite (list_find_app_l _ _ _ i y) |]. rewrite list_find_app_r by done.
    assert (Hno : has_mac m n = false) by (unfold has_mac, bytes_eqb; by apply bool_decide_eq_false_2).
    cbn [list_find]. by rewrite decide_False by (rewrite Hno; auto). }
  assert (Hul : unlink n (head w ++ [n]) = head w).
  { rewrite unlink_split; [apply app_nil_r |]. rewrite !fmap_app in Ha |- *.
    apply NoDup_app in Ha as (H1 & H2 & H3). apply NoDup_app. split; [done |].
    split; [| repeat constructor; set_solver]. intros x Hx Hin. apply (H2 x Hx). set_solver. }
  set (w'' := mk_wdn_list (head w) (fr ++ [n]) (u8 (cnt w' - 1))).
  assert (Hrem : wf_wdn_remove p' w' (Some mac) = (0, id_free p' id, w'')).
  { unfold wf_wdn_remove. rewrite Hfound. cbn [w' head free cnt]. by rewrite Hul. }
  exists w''. split; [done |]. split; [done |]. split.
  { cbn [w'' w' cnt]. rewrite !u8_id; unfold is_u8; rewrite ?u8_id; unfold is_u8; lia. }
  unfold wf_wdn_remove.
  assert (Hnone : wf_wdn_find_info w'' (Some mac) = None) by exact Hf. by rewrite Hnone.
Qed.
End World.

(** ** Witnesses, with the shared bitmap *)

#[local] Existing Instance IdBitmap.bitmap_pool.

Definition wit_nics : list (list Z) := [[1; 2; 3; 4; 5]; [6; 7; 8; 9; 10]].
Definition wit_mac (b : Z) : list Z := [0; 1; 2; 3; 4; b].

Lemma wdn_reachable_ok_witness :
  exists W : world, rtc wdn_step (world_init wit_nics) W /\ world_ok W /\ all_ids W = [0; 1].
Proof.
  eexists. split; [| split].
  - eapply rtc_l; [eapply (step_add _ 0 _ (wit_mac 7)); [reflexivity | vm_compute; reflexivity] |].
    eapply rtc_l; [eapply (step_add _ 1 _ (wit_mac 7)); [reflexivity | vm_compute; reflexivity] |].
    apply rtc_refl.
  - apply (wdn_reachable_ok wit_nics).
    + repeat (apply Forall_cons_2; [split; [repeat constructor; set_solver | done] |]). constructor.
    + eapply rtc_l; [eapply (step_add _ 0 _ (wit_mac 7)); [reflexivity | vm_compute; reflexivity] |].
      eapply rtc_l; [eapply (step_add _ 1 _ (wit_mac 7)); [reflexivity | vm_compute; reflexivity] |].
      apply rtc_refl.
  - vm_compute. reflexivity.
Defined.

Definition wit_table : wdn_list :=
  mk_wdn_list [mk_node 1 (Wi.set_mac (wit_mac 1) Wi.zero)]
    ((fun a => mk_node a Wi.zero) <$> [2; 3; 4; 5]) 1.

Lemma wit_table_ok : wdn_ok wit_table.
Proof. split_and!; [repeat constructor; set_solver | done | done | repeat constructor; set_solver]. Qed.

Lemma wdn_add_remove_witness :
  exists w' n, wf_wdn_add (IP := IdBitmap.bitmap_pool) 1 wit_table (Some (wit_mac 9)) =
      Ret (3, w', Some n) /\ wf_wdn_find_info w' (Some (wit_mac 9)) = Some n.
Proof.
  destruct (proj2 (proj2 (wdn_add_remove (IP := IdBitmap.bitmap_pool) 1 wit_table (wit_mac 9)
    wit_table_ok) eq_refl) ltac:(vm_compute; lia) 1 3 eq_refl) as (w' & n & H1 & _ & H2 & _).
  exists w', n. split; [exact H1 | exact H2].
Defined.

(** ** Rates and activity *)

(** A bit of the basic rate configuration is set exactly when it was set
    before or one of the rates carries the basic rate flag and is the rate of
    that bit. *)
Theorem bratecfg_spec (rates : list Z) (cfg k : Z) : 0 <= k < 16 ->
  Z.testbit (get_bratecfg_by_support_dates rates cfg) k =
    Z.testbit cfg k ||
    existsb (fun r => Z.testbit r 7 && bool_decide (brate_bit (r mod 128) = Some k)) rates.
Proof.
  intros Hk. revert cfg. induction rates as [| r rates IH]; intros cfg.
  { by rewrite orb_false_r. }
  cbn [get_bratecfg_by_support_dates existsb]. rewrite IH, orb_assoc. f_equal.
  rewrite !u8_land, land_127 by lia. change 128 with (BIT 7) at 1. rewrite land_BIT by lia.
  destruct (Z.testbit r 7); cbn [andb]; [| by rewrite orb_false_r].
  assert (Hbit : forall b, brate_bit (r mod 128) = Some b -> 0 <= b).
  { intros b. unfold brate_bit. repeat case_match; intros [= <-]; lia. }
  destruct (brate_bit (r mod 128)) as [b |].
  - rewrite testbit_u16, Z.lor_spec, testbit_BIT by (lia || by apply Hbit). f_equal.
    apply bool_decide_ext. split; congruence.
  - by rewrite bool_decide_eq_false_2, orb_false_r.
Qed.

Lemma bratecfg_spec_witness :
  Z.testbit (get_bratecfg_by_support_dates [0x82; 0x0b; 0x96] 0) 3 = true.
Proof. rewrite (bratecfg_spec [0x82; 0x0b; 0x96] 0 3); [reflexivity | lia]. Defined.

Lemma is_alive_after_update w :
  (wf_wdn_is_alive (wf_wdn_is_alive w 1).2 1).1 = false.
Proof.
  unfold wf_wdn_is_alive at 2.
  destruct (Z.eqb_spec (u64 (Stats.last_rx_data_pkts (Wi.wdn_stats w) +
    Stats.last_rx_ctrl_pkts (Wi.wdn_stats w))) (u64 (Stats.rx_data_pkts (Wi.wdn_stats w) +
    Stats.rx_ctrl_pkts (Wi.wdn_stats w)))) as [E | E]; cbn [snd].
  - unfold wf_wdn_is_alive. rewrite E, Z.eqb_refl. done.
  - unfold wf_wdn_is_alive. cbn. by rewrite Z.eqb_refl.
Qed.

(** A failed allocation leaves a shorter free list behind a negative result;
    a successful initialisation gives five spare nodes. *)
Lemma wdn_init_ok wdn addrs :
  length addrs = WDN_NUM_MAX -> NoDup addrs ->
  exists w, wf_wdn_init wdn true (Some <$> addrs) = (0, Some w) /\ wdn_ok w /\ head w = [] /\
    wf_wdn_term (Some w) = (0, addrs).
Proof.
  intros Hl Hnd.
  assert (Hin : forall l acc, init_nodes (Some <$> l) acc = (0, acc ++ ((fun a => mk_node a Wi.zero) <$> l))).
  { clear. induction l as [| a l IH]; intros acc; [by rewrite app_nil_r |].
    rewrite !fmap_cons. cbn [init_nodes]. by rewrite IH, <- app_assoc. }
  unfold wf_wdn_init. rewrite take_ge by (rewrite length_fmap; lia). rewrite Hin.
  assert (Ha : addr <$> ((fun a => mk_node a Wi.zero) <$> addrs) = addrs).
  { clear. induction addrs as [| a l IH]; [done |]. rewrite !fmap_cons. by f_equal. }
  eexists. split; [reflexivity |]. unfold wdn_ok, macs. cbn [head free cnt app].
  rewrite Ha, length_fmap. split; [by split_and!; try constructor |]. split; [done |].
  unfold wf_wdn_term. cbn [head free]. by rewrite Ha.
Qed.
End Wdn.
