(* ===== verification/Mic.v ===== *)
(** * The Michael message integrity code ([nic/sec.c], lines 32-116)

    The streaming implementation on [struct mic_data], and the proof that it
    computes Michael of the concatenation of the chunks it is given, with the
    padding IEEE 802.11 prescribes. *)
From S2P Require Import Prelude.

Module Mic.

(** [struct mic_data] *)
Record mic_data : Type := mk_mic_data {
  K0 : Z;
  K1 : Z;
  L : Z;
  R : Z;
  M : Z;
  nBytesInM : Z;
}.

(** [ROL32(A, n)], [ROR32(A, n)], as [wf_u32] values. *)
Definition ROL32 (A n : Z) : Z :=
  Z.lor (u32 (Z.shiftl A n)) (Z.land (Z.shiftr A (32 - n)) (Z.shiftl 1 n - 1)).
Definition ROR32 (A n : Z) : Z := ROL32 A (32 - n).

(** The loop of [get_usecmic], at byte [i]. *)
Fixpoint get_usecmic (p : list Z) (i res : Z) : Z :=
  match p with
  | [] => res
  | b :: p => get_usecmic p (i + 1) (Z.lor res (u32 (Z.shiftl b (8 * i))))
  end.

(** [put_usecmic]: the [n] bytes stored, low byte first. *)
Fixpoint put_usecmic (n : nat) (val : Z) : list Z :=
  match n with
  | O => []
  | S n => u8 (Z.land val 0xff) :: put_usecmic n (Z.shiftr val 8)
  end.

Definition clr_secmic (d : mic_data) : mic_data :=
  mk_mic_data (K0 d) (K1 d) (K0 d) (K1 d) 0 0.

Definition wf_sec_mic_set_key (key : list Z) : C mic_data :=
  letc k0 := slice key 0 4 in
  letc k1 := slice key 4 4 in
  Ret (clr_secmic (mk_mic_data (get_usecmic k0 0 0) (get_usecmic k1 0 0) 0 0 0 0)).

Definition mic_append_byte (d : mic_data) (b : Z) : mic_data :=
  let M' := u32 (Z.lor (M d) (u64 (Z.shiftl b (8 * nBytesInM d)))) in
  let n' := u32 (nBytesInM d + 1) in
  if 4 <=? n' then
    let l := Z.lxor (L d) M' in
    let r := Z.lxor (R d) (ROL32 l 17) in
    let l := u32 (l + r) in
    let r := Z.lxor r (Z.lor (Z.shiftr (Z.land l 0xff00ff00) 8)
                             (u32 (Z.shiftl (Z.land l 0x00ff00ff) 8))) in
    let l := u32 (l + r) in
    let r := Z.lxor r (ROL32 l 3) in
    let l := u32 (l + r) in
    let r := Z.lxor r (ROR32 l 2) in
    let l := u32 (l + r) in
    mk_mic_data (K0 d) (K1 d) l r 0 0
  else mk_mic_data (K0 d) (K1 d) (L d) (R d) M' n'.

(** [wf_sec_mic_append(d, src, nbytes)], with [src] the [nbytes] bytes. *)
Definition wf_sec_mic_append (d : mic_data) (src : list Z) : mic_data :=
  foldl mic_append_byte d src.

(** [while (nBytesInM != 0) mic_append_byte(d, 0)] *)
Fixpoint mic_pad (fuel : nat) (d : mic_data) : C mic_data :=
  if nz (nBytesInM d) then
    match fuel with
    | O => Stuck
    | S fuel => mic_pad fuel (mic_append_byte d 0)
    end
  else Ret d.

(** [wf_sec_get_mic]: the eight bytes stored in [dst].  The counter is below
    four, so four iterations are enough. *)
Definition wf_sec_get_mic (d : mic_data) : C (mic_data * list Z) :=
  let d := mic_append_byte d 0x5a in
  let d := mic_append_byte d 0 in
  let d := mic_append_byte d 0 in
  let d := mic_append_byte d 0 in
  let d := mic_append_byte d 0 in
  letc d := mic_pad 4 d in
  Ret (clr_secmic d, put_usecmic 4 (L d) ++ put_usecmic 4 (R d)).

(** ** Reference *)

Definition rotl32 (n x : Z) : Z := (x * 2 ^ n) mod 2 ^ 32 + x / 2 ^ (32 - n).

(** Exchange of the bytes of each half word. *)
Definition xswap (x : Z) : Z :=
  let p := le_bytes 4 x in
  le_word [nthZ p 1; nthZ p 0; nthZ p 3; nthZ p 2].

(** The block function on the two state words. *)
Definition michael_block (lr : Z * Z) : Z * Z :=
  let '(l, r) := lr in
  let r := Z.lxor r (rotl32 17 l) in let l := (l + r) mod 2 ^ 32 in
  let r := Z.lxor r (xswap l) in let l := (l + r) mod 2 ^ 32 in
  let r := Z.lxor r (rotl32 3 l) in let l := (l + r) mod 2 ^ 32 in
  let r := Z.lxor r (rotl32 30 l) in let l := (l + r) mod 2 ^ 32 in
  (l, r).

(** Consumes whole words; the second component is what is left. *)
Fixpoint michael_blocks (lr : Z * Z) (msg : list Z) : (Z * Z) * list Z :=
  match msg with
  | b0 :: b1 :: b2 :: b3 :: rest =>
      michael_blocks (michael_block (Z.lxor (fst lr) (le_word [b0; b1; b2; b3]), snd lr)) rest
  | rest => (lr, rest)
  end.

(** The message, the byte 0x5a, and at least four zero bytes up to a multiple
    of four. *)
Definition michael_pad (msg : list Z) : list Z :=
  msg ++ 0x5a :: replicate (4 + (3 - length msg mod 4)) 0.

Definition michael (key msg : list Z) : list Z :=
  let lr := (le_word (take 4 key), le_word (take 4 (drop 4 key))) in
  let '((l, r), _) := michael_blocks lr (michael_pad msg) in
  le_bytes 4 l ++ le_bytes 4 r.

(** ** The word operations agree with the reference *)

Lemma ROL32_rotl A n : is_u32 A -> 0 < n < 32 -> ROL32 A n = rotl32 n A.
Proof.
  intros HA Hn. unfold ROL32, rotl32, is_u32 in *.
  rewrite (Z.shiftl_mul_pow2 1), Z.mul_1_l, Z.sub_1_r, <- Z.ones_equiv by lia.
  rewrite Z.land_ones, Z.shiftr_div_pow2 by lia.
  assert (Hp : 2 ^ 32 = 2 ^ (32 - n) * 2 ^ n) by (rewrite <- Z.pow_add_r by lia; f_equal; lia).
  rewrite (Z.mod_small (A / _)).
  2: { split; [apply Z.div_pos; lia |]. apply Z.div_lt_upper_bound; lia. }
  unfold u32. change 4294967296 with (2 ^ 32). rewrite Z.shiftl_mul_pow2 by lia.
  rewrite Hp at 1 2. rewrite Z.mul_mod_distr_r by lia.
  rewrite <- Z.shiftl_mul_pow2 by lia. rewrite lor_shiftl_low; [by rewrite Z.shiftl_mul_pow2 by lia | lia |].
  split; [apply Z.div_pos; lia | apply Z.div_lt_upper_bound; lia].
Qed.

(** A bit of a little-endian word is a bit of one of its bytes. *)
Lemma testbit_le_bytes n x k i :
  0 <= i < 8 -> (k < n)%nat ->
  Z.testbit (nthZ (le_bytes n x) (Z.of_nat k)) i = Z.testbit x (8 * Z.of_nat k + i).
Proof.
  intros Hi. unfold nthZ. rewrite Nat2Z.id. revert n x.
  induction k as [| k IH]; intros [| n] x Hk; [lia | | lia |]; cbn [le_bytes].
  - change (Z.testbit (x mod 2 ^ 8) i = Z.testbit x (0 + i)).
    by rewrite Z.mod_pow2_bits_low by lia.
  - change ((x mod 256 :: le_bytes n (x / 256)) !!! S k) with (le_bytes n (x / 256) !!! k).
    rewrite IH by lia. change 256 with (2 ^ 8). rewrite Z.div_pow2_bits by lia. f_equal. lia.
Qed.

Lemma testbit_cons b w i : is_u8 b ->
  Z.testbit (b + 256 * w) i = if i <? 8 then Z.testbit b i else Z.testbit w (i - 8).
Proof.
  intros Hb. destruct (decide (i < 0)).
  { rewrite !Z.testbit_neg_r by lia. destruct (Z.ltb_spec i 8); [done | lia]. } replace (b + 256 * w) with (Z.lor b (Z.shiftl w 8))
    by (rewrite lor_low_shiftl by (exact Hb || lia); lia).
  rewrite Z.lor_spec. destruct (Z.ltb_spec i 8).
  - by rewrite Z.shiftl_spec_low, orb_false_r by lia.
  - rewrite Z.shiftl_spec by lia. by rewrite (testbit_high 8 b) by (exact Hb || lia).
Qed.

(** Evaluates the bits of the masks at a closed position. *)
Ltac closed_bits l :=
  rewrite Z.shiftl_spec, ?Z.land_spec by lia;
  cbn [Z.of_nat Pos.of_succ_nat Pos.succ];
  repeat match goal with |- context [?a <? 8] =>
    let v := eval vm_compute in (a <? 8) in change (a <? 8) with v end;
  cbv iota;
  repeat match goal with |- context [Z.testbit (Zpos ?m) ?i] =>
    let v := eval vm_compute in (Z.testbit (Zpos m) i) in
    change (Z.testbit (Zpos m) i) with v end;
  rewrite ?andb_true_r, ?andb_false_r, ?orb_false_r, ?orb_false_l;
  first [rewrite (testbit_le_bytes 4 l 0) by lia | rewrite (testbit_le_bytes 4 l 1) by lia
        | rewrite (testbit_le_bytes 4 l 2) by lia | rewrite (testbit_le_bytes 4 l 3) by lia];
  reflexivity.

Lemma swap_halves l : is_u32 l ->
  Z.lor (Z.shiftr (Z.land l 0xff00ff00) 8) (u32 (Z.shiftl (Z.land l 0x00ff00ff) 8)) = xswap l.
Proof.
  intros Hl. unfold xswap. cbn [le_word]. rewrite <- land_u32.
  assert (Hb : forall k, (k < 4)%nat -> is_u8 (nthZ (le_bytes 4 l) (Z.of_nat k))).
  { intros k Hk. apply nthZ_Forall; [apply le_bytes_ok | rewrite length_le_bytes; lia]. }
  pose proof (Hb 0%nat ltac:(lia)) as B0. pose proof (Hb 1%nat ltac:(lia)) as B1.
  pose proof (Hb 2%nat ltac:(lia)) as B2. pose proof (Hb 3%nat ltac:(lia)) as B3.
  cbn [Z.of_nat Pos.of_succ_nat Pos.succ] in B0, B1, B2, B3.
  apply Z.bits_inj'. intros i Hi.
  rewrite !testbit_cons by done. rewrite Z.lor_spec, Z.shiftr_spec by lia.
  rewrite !Z.land_spec. change 4294967295 with (Z.ones 32).
  destruct (decide (i < 32)) as [H32 |].
  2: { rewrite Z.ones_spec_high by lia. rewrite (testbit_high 32 l) by (exact Hl || lia).
       do 4 (match goal with |- context [?a <? 8] => destruct (Z.ltb_spec a 8) end; [lia |]). rewrite Z.bits_0, andb_false_r. done. }
  rewrite Z.ones_spec_low, andb_true_r by lia.
  assert (Hc : exists k, i = Z.of_nat k /\ In k (seq 0 32)).
  { exists (Z.to_nat i). split; [lia | apply in_seq; lia]. }
  destruct Hc as (k & -> & Hin). clear Hi H32. cbn [seq] in Hin.
  repeat (destruct Hin as [<- | Hin]; [closed_bits l |]).
  destruct Hin.
Qed.
Lemma get_usecmic_word p i res :
  bytes_ok p -> 0 <= i -> i + Z.of_nat (length p) <= 4 -> 0 <= res < 2 ^ (8 * i) ->
  get_usecmic p i res = res + 2 ^ (8 * i) * le_word p.
Proof.
  intros Hp. revert i res. induction Hp as [| b p Hb _ IH]; intros i res Hi Hle Hres.
  { cbn. lia. }
  cbn [length] in Hle. cbn [get_usecmic le_word]. unfold is_u8 in Hb.
  assert (Hpow : 2 ^ (8 * (i + 1)) = 256 * 2 ^ (8 * i)).
  { replace (8 * (i + 1)) with (8 + 8 * i) by lia. by rewrite Z.pow_add_r by lia. }
  assert (H24 : 2 ^ (8 * i) <= 2 ^ 24) by (apply Z.pow_le_mono_r; lia).
  assert (Hpos : 0 < 2 ^ (8 * i)) by (apply Z.pow_pos_nonneg; lia).
  rewrite (u32_id (Z.shiftl b (8 * i))).
  2: { rewrite Z.shiftl_mul_pow2 by lia. unfold is_u32. nia. }
  rewrite lor_low_shiftl by lia. rewrite IH; [rewrite Hpow; lia | lia | lia |].
  rewrite Hpow. nia.
Qed.

Lemma put_usecmic_bytes n x : put_usecmic n x = le_bytes n x.
Proof.
  revert x. induction n as [| n IH]; intros x; [done |]. cbn [put_usecmic le_bytes].
  rewrite IH, land_255, Z.shiftr_div_pow2 by lia. f_equal. apply u8_id, u8_range.
Qed.

(** ** Words in range *)

Definition pair_ok (lr : Z * Z) : Prop := is_u32 lr.1 /\ is_u32 lr.2.

Lemma rotl32_range n x : is_u32 x -> 0 < n < 32 -> is_u32 (rotl32 n x).
Proof.
  intros Hx Hn. rewrite <- ROL32_rotl by done. unfold ROL32. apply lor_u32; [auto with wf |].
  rewrite (Z.shiftl_mul_pow2 1), Z.mul_1_l, Z.sub_1_r, <- Z.ones_equiv by lia.
  rewrite Z.land_ones by lia. unfold is_u32.
  pose proof (Z.mod_pos_bound (Z.shiftr x (32 - n)) (2 ^ n) ltac:(lia)).
  assert (2 ^ n <= 2 ^ 32) by (apply Z.pow_le_mono_r; lia). lia.
Qed.

Lemma xswap_range x : is_u32 (xswap x).
Proof.
  assert (Hb : forall k, 0 <= k < 4 -> is_u8 (nthZ (le_bytes 4 x) k)).
  { intros k Hk. apply nthZ_Forall; [apply le_bytes_ok | rewrite length_le_bytes; lia]. }
  apply (le_word_range [_; _; _; _]). repeat constructor; apply Hb; lia.
Qed.

Lemma michael_block_ok lr : pair_ok lr -> pair_ok (michael_block lr).
Proof.
  destruct lr as [l r]. intros [Hl Hr]. unfold michael_block, pair_ok. cbn [fst snd] in *.
  split; [apply u32_range |].
  apply lxor_u32; [| apply rotl32_range; [apply u32_range | lia]].
  apply lxor_u32; [| apply rotl32_range; [apply u32_range | lia]].
  apply lxor_u32; [| apply xswap_range].
  apply lxor_u32; [done | by apply rotl32_range; [| lia]].
Qed.

Lemma word_range b0 b1 b2 b3 : bytes_ok [b0; b1; b2; b3] -> is_u32 (le_word [b0; b1; b2; b3]).
Proof. apply le_word_range. Qed.

(** Induction on a message four bytes at a time. *)
Lemma blocks_ind (P : list Z -> Prop) :
  (forall l, (length l < 4)%nat -> P l) ->
  (forall b0 b1 b2 b3 l, P l -> P (b0 :: b1 :: b2 :: b3 :: l)) -> forall l, P l.
Proof.
  intros H0 H4 l. remember (length l) as n eqn:Hn. revert l Hn.
  induction (lt_wf n) as [n _ IH]. intros l ->.
  destruct l as [| b0 [| b1 [| b2 [| b3 l]]]]; try (apply H0; simpl; lia).
  apply H4. eapply IH; [| reflexivity]. simpl. lia.
Qed.

Lemma michael_blocks_short lr l : (length l < 4)%nat -> michael_blocks lr l = (lr, l).
Proof. destruct l as [| ? [| ? [| ? [| ? ?]]]]; simpl; (done || lia). Qed.

Lemma michael_blocks_app lr a b :
  michael_blocks lr (a ++ b) =
    michael_blocks (michael_blocks lr a).1 ((michael_blocks lr a).2 ++ b).
Proof.
  revert lr. induction a as [a Ha | b0 b1 b2 b3 a IH] using blocks_ind; intros lr.
  - by rewrite (michael_blocks_short lr a).
  - cbn [app michael_blocks]. apply IH.
Qed.

Lemma michael_blocks_ok lr a : pair_ok lr -> bytes_ok a ->
  pair_ok (michael_blocks lr a).1 /\ bytes_ok (michael_blocks lr a).2 /\
  length (michael_blocks lr a).2 = (length a mod 4)%nat.
Proof.
  revert lr. induction a as [a Ha | b0 b1 b2 b3 a IH] using blocks_ind; intros lr Hlr Hb.
  - rewrite michael_blocks_short by done. by rewrite Nat.mod_small.
  - cbn [michael_blocks]. apply (bytes_ok_app [b0; b1; b2; b3]) in Hb as [H4 Ha].
    replace (length (b0 :: b1 :: b2 :: b3 :: a) mod 4)%nat with (length a mod 4)%nat.
    2: { cbn [length]. replace (S (S (S (S (length a))))) with (length a + 1 * 4)%nat by lia.
         by rewrite Nat.Div0.mod_add. }
    apply IH; [| done]. apply michael_block_ok. split; cbn [fst snd]; [| apply Hlr].
    apply lxor_u32; [apply Hlr | by apply word_range].
Qed.

(** ** The streaming state refines the reference *)

(** The state has consumed whole words into [lr] and holds the bytes [rem]. *)
Definition rep (d : mic_data) (lr : Z * Z) (rem : list Z) : Prop :=
  pair_ok lr /\ (L d, R d) = lr /\ bytes_ok rem /\ (length rem < 4)%nat /\
  M d = le_word rem /\ nBytesInM d = Z.of_nat (length rem).

Lemma append_word d lr rem b : rep d lr rem -> is_u8 b ->
  u32 (Z.lor (M d) (u64 (Z.shiftl b (8 * nBytesInM d)))) = le_word (rem ++ [b]).
Proof.
  intros (_ & _ & Hrem & Hlen & -> & ->) Hb. rewrite le_word_snoc.
  pose proof (le_word_range rem Hrem) as Hw. unfold is_u8 in Hb.
  change 256 with (2 ^ 8) in Hw |- *. rewrite <- Z.pow_mul_r in Hw |- * by lia.
  assert (H24 : 2 ^ (8 * Z.of_nat (length rem)) <= 2 ^ 24) by (apply Z.pow_le_mono_r; lia).
  assert (Hpos : 0 < 2 ^ (8 * Z.of_nat (length rem))) by (apply Z.pow_pos_nonneg; lia).
  unfold u64. rewrite (Z.mod_small (Z.shiftl _ _)).
  2: { rewrite Z.shiftl_mul_pow2 by lia. nia. }
  rewrite lor_low_shiftl by lia. rewrite u32_id; [lia |]. unfold is_u32. nia.
Qed.

Lemma append_byte_rep d lr rem b : rep d lr rem -> is_u8 b ->
  rep (mic_append_byte d b) (michael_blocks lr (rem ++ [b])).1
    (michael_blocks lr (rem ++ [b])).2 /\
  (K0 (mic_append_byte d b), K1 (mic_append_byte d b)) = (K0 d, K1 d).
Proof.
  intros Hd Hb. pose proof (append_word d lr rem b Hd Hb) as HM.
  destruct Hd as (Hlr & Heq & Hrem & Hlen & _ & Hn).
  assert (Hrb : bytes_ok (rem ++ [b])) by (apply bytes_ok_app; split; [done | by constructor]).
  unfold mic_append_byte. rewrite HM, Hn. unwrap.
  destruct (Z.leb_spec 4 (Z.of_nat (length rem) + 1)).
  - destruct rem as [| r0 [| r1 [| r2 [| r3 rem]]]]; simpl in Hlen; try (simpl in *; lia).
    cbn [app michael_blocks fst snd]. destruct lr as [l r]. injection Heq as <- <-.
    destruct Hlr as [Hl Hr]. cbn [fst snd] in *.
    pose proof (word_range _ _ _ _ Hrb) as Hw. cbn [app] in Hrb.
    set (l1 := Z.lxor (L d) (le_word [r0; r1; r2; b])).
    assert (Hl1 : is_u32 l1) by (by apply lxor_u32).
    pose proof (michael_block_ok (l1, R d) (conj Hl1 Hr)) as Hok.
    rewrite !swap_halves by auto with wf. unfold ROR32.
    rewrite !ROL32_rotl by (auto with wf; lia).
    split; [| done]. unfold rep. cbn [L R M nBytesInM].
    split_and!; [exact Hok | done | constructor | simpl; lia | done | done].
  - rewrite michael_blocks_short by (rewrite length_app; simpl; lia). cbn [fst snd].
    split; [| done]. unfold rep. cbn [L R M nBytesInM]. rewrite length_app. cbn [length].
    split_and!; (done || lia).
Qed.

Lemma append_rep d lr rem msg : rep d lr rem -> bytes_ok msg ->
  rep (wf_sec_mic_append d msg) (michael_blocks lr (rem ++ msg)).1
    (michael_blocks lr (rem ++ msg)).2 /\
  (K0 (wf_sec_mic_append d msg), K1 (wf_sec_mic_append d msg)) = (K0 d, K1 d).
Proof.
  intros Hd Hmsg. revert d lr rem Hd. induction Hmsg as [| b msg Hb _ IH]; intros d lr rem Hd.
  - rewrite app_nil_r, michael_blocks_short by apply Hd. done.
  - destruct (append_byte_rep d lr rem b Hd Hb) as [H1 HK].
    destruct (IH _ _ _ H1) as [H2 HK2]. rewrite <- HK, <- HK2.
    rewrite <- michael_blocks_app, <- app_assoc in H2. done.
Qed.

Lemma mic_pad_rep d lr rem : rep d lr rem ->
  let n := ((4 - length rem) mod 4)%nat in
  mic_pad 4 d = Ret (wf_sec_mic_append d (replicate n 0)) /\ nBytesInM d = Z.of_nat (length rem).
Proof.
  intros Hd. split; [| apply Hd]. assert (H0 : is_u8 0) by (unfold is_u8; lia).
  destruct Hd as (Hlr & Heq & Hrem & Hlen & HM & Hn).
  assert (Hstep : forall fuel d, nBytesInM d = 0 -> mic_pad fuel d = Ret d).
  { intros [| fuel] e He; cbn [mic_pad]; by rewrite He. }
  assert (Hgo : forall k fuel e, (0 < k < 4)%nat -> (k <= fuel)%nat ->
    nBytesInM e = 4 - Z.of_nat k -> mic_pad fuel e = Ret (wf_sec_mic_append e (replicate k 0))).
  { clear -Hstep. intros k. induction k as [| k IH]; intros fuel e Hk Hf He; [lia |].
    destruct fuel as [| fuel]; [lia |]. cbn [mic_pad replicate wf_sec_mic_append foldl].
    replace (nz (nBytesInM e)) with true
      by (rewrite He; unfold nz; destruct (Z.eqb_spec (4 - Z.of_nat (S k)) 0); [lia | done]).
    assert (Hn : nBytesInM (mic_append_byte e 0) = if decide (k = 0%nat) then 0 else 4 - Z.of_nat k).
    { unfold mic_append_byte. rewrite He. unwrap.
      destruct (Z.leb_spec 4 (4 - Z.of_nat (S k) + 1)); case_decide; cbn; lia. }
    case_decide as Hk0.
    - subst k. by apply Hstep.
    - apply IH; lia. }
  destruct (decide (length rem = 0%nat)) as [Hz | Hne].
  - rewrite Hz in Hn |- *. by apply (Hstep 4%nat d).
  - rewrite Nat.mod_small by lia. apply Hgo; lia.
Qed.
Lemma set_key_rep key : bytes_ok key -> (8 <= length key)%nat ->
  let lr := (le_word (take 4 key), le_word (take 4 (drop 4 key))) in
  exists d, wf_sec_mic_set_key key = Ret d /\ rep d lr [] /\ (K0 d, K1 d) = lr.
Proof.
  intros Hk Hlen lr. unfold wf_sec_mic_set_key. rewrite !slice_Ret by lia. cbn [cbind].
  assert (H1 : bytes_ok (take 4 key)) by (by apply Forall_take).
  assert (H2 : bytes_ok (take 4 (drop 4 key))) by (by apply Forall_take, Forall_drop).
  pose proof (le_word_range _ H1) as R1. pose proof (le_word_range _ H2) as R2.
  rewrite length_take in R1, R2. rewrite length_drop in R2.
  rewrite Nat.min_l in R1, R2 by lia.
  eexists. split; [reflexivity |].
  change (Z.to_nat 4) with 4%nat. change (Z.to_nat 0) with 0%nat. rewrite drop_0.
  rewrite !get_usecmic_word by (try done; try rewrite length_take; lia).
  rewrite !Z.add_0_l. change (2 ^ (8 * 0)) with 1. rewrite !Z.mul_1_l.
  split; [| done]. unfold rep, clr_secmic. cbn [L R M K0 K1 nBytesInM].
  split_and!; [done | done | constructor | simpl; lia | done | done].
Qed.

(** The number of zero bytes the loop of [wf_sec_get_mic] adds completes the
    padding of the reference. *)
Lemma pad_count n : (1 + 4 + (4 - (n + 5) mod 4) mod 4 = 1 + (4 + (3 - n mod 4)))%nat.
Proof.
  rewrite <- (Nat.Div0.add_mod_idemp_l n 5 4).
  pose proof (Nat.mod_upper_bound n 4 ltac:(lia)).
  destruct (n mod 4)%nat as [| [| [| [| m]]]]; cbn; lia.
Qed.

Lemma append_concat d chunks :
  foldl wf_sec_mic_append d chunks = wf_sec_mic_append d (concat chunks).
Proof.
  revert d. induction chunks as [| c cs IH]; intros d; [done |].
  cbn [foldl concat]. rewrite IH. unfold wf_sec_mic_append. by rewrite foldl_app.
Qed.

Lemma bytes_ok_concat chunks : Forall bytes_ok chunks -> bytes_ok (concat chunks).
Proof. induction 1; [constructor | by apply bytes_ok_app]. Qed.

Lemma michael_pad_ok msg : bytes_ok msg -> bytes_ok (michael_pad msg).
Proof.
  intros Hmsg. apply bytes_ok_app. split; [done |]. constructor; [unfold is_u8; lia |].
  apply Forall_replicate. unfold is_u8. lia.
Qed.

(** [wf_sec_get_mic] pads the message as the reference does. *)
Lemma get_mic_pad d lr msg : rep d lr [] -> bytes_ok msg ->
  wf_sec_get_mic (wf_sec_mic_append d msg) =
    (let d' := wf_sec_mic_append d (michael_pad msg) in
     Ret (clr_secmic d', put_usecmic 4 (L d') ++ put_usecmic 4 (R d'))).
Proof.
  intros Hrep Hmsg. set (d5 := wf_sec_mic_append d (msg ++ [0x5a; 0; 0; 0; 0])).
  assert (H5 : bytes_ok (msg ++ [0x5a; 0; 0; 0; 0]))
    by (apply bytes_ok_app; split; [done | by apply bytes_okb_ok]).
  destruct (append_rep d lr [] _ Hrep H5) as [Hrep5 _]. fold d5 in Hrep5.
  rewrite app_nil_l in Hrep5. destruct (mic_pad_rep _ _ _ Hrep5) as [Hpad _].
  destruct (michael_blocks_ok lr _ (proj1 Hrep) H5) as (_ & _ & Hrl).
  rewrite Hrl, length_app in Hpad. cbn [length] in Hpad.
  set (n := ((4 - (length msg + 5) mod 4) mod 4)%nat) in *.
  assert (Happ : wf_sec_mic_append d5 (replicate n 0) = wf_sec_mic_append d (michael_pad msg)).
  { unfold d5, wf_sec_mic_append. rewrite <- foldl_app, <- app_assoc. f_equal.
    unfold michael_pad. f_equal. pose proof (pad_count (length msg)) as Hcnt. cbn [app]. f_equal.
    change (0 :: 0 :: 0 :: 0 :: replicate n 0) with (replicate (4 + n) 0). f_equal. fold n in Hcnt. lia. }
  unfold wf_sec_get_mic.
  replace (mic_append_byte (mic_append_byte (mic_append_byte (mic_append_byte
    (mic_append_byte (wf_sec_mic_append d msg) 90) 0) 0) 0) 0) with d5
    by (unfold d5, wf_sec_mic_append; by rewrite foldl_app).
  by rewrite Hpad, Happ.
Qed.

(** ** Properties *)

Lemma stream_michael (key : list Z) (chunks : list (list Z)) :
  bytes_ok key -> (8 <= length key)%nat -> Forall bytes_ok chunks ->
  exists d, wf_sec_mic_set_key key = Ret d /\
    wf_sec_get_mic (foldl wf_sec_mic_append d chunks) =
      Ret (d, michael key (concat chunks)).
Proof.
  intros Hk Hlen Hc. destruct (set_key_rep key Hk Hlen) as (d & Hd & Hrep & HK).
  exists d. split; [done |]. rewrite append_concat.
  pose proof (bytes_ok_concat chunks Hc) as Hmsg. set (msg := concat chunks) in *.
  rewrite (get_mic_pad _ _ _ Hrep Hmsg). cbv zeta.
  set (lr := (le_word (take 4 key), le_word (take 4 (drop 4 key)))) in *.
  destruct (append_rep d lr [] _ Hrep (michael_pad_ok msg Hmsg)) as [Hfin HKf].
  rewrite app_nil_l in Hfin. destruct Hfin as (_ & Heq & _).
  unfold michael. fold lr. destruct (michael_blocks lr (michael_pad msg)) as [[l r] rem].
  cbn [fst snd] in Heq. injection Heq as -> ->. rewrite !put_usecmic_bytes. do 2 f_equal.
  destruct Hrep as (_ & HLR & _ & _ & HM & Hn). unfold clr_secmic. injection HKf as -> ->.
  destruct d as [k0 k1 l0 r0 m n0]. cbn in *. subst m n0. rewrite <- HLR in HK.
  by injection HK as -> ->.
Qed.

(** C31: for every key of at least eight bytes and every way of splitting a
    message into chunks, [wf_sec_mic_set_key], the calls of
    [wf_sec_mic_append] and [wf_sec_get_mic] return, and the eight bytes
    stored are Michael of the key and the whole message; the state is left as
    after [wf_sec_mic_set_key], ready for the next message. *)
Theorem mic_stream (key : list Z) (chunks : list (list Z)) :
  bytes_ok key -> (8 <= length key)%nat -> Forall bytes_ok chunks ->
  exists d, wf_sec_mic_set_key key = Ret d /\
    wf_sec_get_mic (foldl wf_sec_mic_append d chunks) =
      Ret (d, michael key (concat chunks)).
Proof. apply stream_michael. Qed.

Lemma mic_stream_witness :
  exists d, wf_sec_mic_set_key [0x82; 0x92; 0x5c; 0x1c; 0xa1; 0xd1; 0x30; 0xb8] = Ret d /\
    wf_sec_get_mic (foldl wf_sec_mic_append d [[77; 105]; []; [99]]) =
      Ret (d, michael [0x82; 0x92; 0x5c; 0x1c; 0xa1; 0xd1; 0x30; 0xb8] [77; 105; 99]).
Proof.
  apply (mic_stream [0x82; 0x92; 0x5c; 0x1c; 0xa1; 0xd1; 0x30; 0xb8] [[77; 105]; []; [99]]);
    [by apply bytes_okb_ok | simpl; lia | 
     repeat (apply List.Forall_cons; [by apply bytes_okb_ok |]); constructor].
Defined.

(** The first three test vectors of IEEE 802.11, annex J. *)
Example michael_vectors :
  michael (replicate 8 0) [] = [0x82; 0x92; 0x5c; 0x1c; 0xa1; 0xd1; 0x30; 0xb8] /\
  michael [0x82; 0x92; 0x5c; 0x1c; 0xa1; 0xd1; 0x30; 0xb8] [77] =
    [0x43; 0x47; 0x21; 0xca; 0x40; 0x63; 0x9b; 0x3f] /\
  michael [0x43; 0x47; 0x21; 0xca; 0x40; 0x63; 0x9b; 0x3f] [77; 105] =
    [0xe8; 0xf9; 0xbe; 0xca; 0xe9; 0x7e; 0x5d; 0x29].
Proof. vm_compute. done. Qed.
End Mic.
