(* ===== verification/Tkip.v ===== *)
(** * TKIP key mixing and encapsulation ([nic/sec_tkip.c])

    The two mixing phases, the packet number carried in the IV ([TKIP_IV] of
    [nic/tx.h], [GET_TKIP_PN] of [nic/sec.h]), and the routines that encrypt
    and decrypt a data frame in place over any stream cipher. *)
From S2P Require Import Prelude Cipher SecTypes Crc32 Arc4 Wep WdnTypes Wdn.
Import Crc32.

Module Tkip.

(** [Sbox1] *)
Definition Sbox1_0 : list Z :=
  [0xC6A5; 0xF884; 0xEE99; 0xF68D; 0xFF0D; 0xD6BD; 0xDEB1; 0x9154;
   0x6050; 0x0203; 0xCEA9; 0x567D; 0xE719; 0xB562; 0x4DE6; 0xEC9A;
   0x8F45; 0x1F9D; 0x8940; 0xFA87; 0xEF15; 0xB2EB; 0x8EC9; 0xFB0B;
   0x41EC; 0xB367; 0x5FFD; 0x45EA; 0x23BF; 0x53F7; 0xE496; 0x9B5B;
   0x75C2; 0xE11C; 0x3DAE; 0x4C6A; 0x6C5A; 0x7E41; 0xF502; 0x834F;
   0x685C; 0x51F4; 0xD134; 0xF908; 0xE293; 0xAB73; 0x6253; 0x2A3F;
   0x080C; 0x9552; 0x4665; 0x9D5E; 0x3028; 0x37A1; 0x0A0F; 0x2FB5;
   0x0E09; 0x2436; 0x1B9B; 0xDF3D; 0xCD26; 0x4E69; 0x7FCD; 0xEA9F;
   0x121B; 0x1D9E; 0x5874; 0x342E; 0x362D; 0xDCB2; 0xB4EE; 0x5BFB;
   0xA4F6; 0x764D; 0xB761; 0x7DCE; 0x527B; 0xDD3E; 0x5E71; 0x1397;
   0xA6F5; 0xB968; 0x0000; 0xC12C; 0x4060; 0xE31F; 0x79C8; 0xB6ED;
   0xD4BE; 0x8D46; 0x67D9; 0x724B; 0x94DE; 0x98D4; 0xB0E8; 0x854A;
   0xBB6B; 0xC52A; 0x4FE5; 0xED16; 0x86C5; 0x9AD7; 0x6655; 0x1194;
   0x8ACF; 0xE910; 0x0406; 0xFE81; 0xA0F0; 0x7844; 0x25BA; 0x4BE3;
   0xA2F3; 0x5DFE; 0x80C0; 0x058A; 0x3FAD; 0x21BC; 0x7048; 0xF104;
   0x63DF; 0x77C1; 0xAF75; 0x4263; 0x2030; 0xE51A; 0xFD0E; 0xBF6D;
   0x814C; 0x1814; 0x2635; 0xC32F; 0xBEE1; 0x35A2; 0x88CC; 0x2E39;
   0x9357; 0x55F2; 0xFC82; 0x7A47; 0xC8AC; 0xBAE7; 0x322B; 0xE695;
   0xC0A0; 0x1998; 0x9ED1; 0xA37F; 0x4466; 0x547E; 0x3BAB; 0x0B83;
   0x8CCA; 0xC729; 0x6BD3; 0x283C; 0xA779; 0xBCE2; 0x161D; 0xAD76;
   0xDB3B; 0x6456; 0x744E; 0x141E; 0x92DB; 0x0C0A; 0x486C; 0xB8E4;
   0x9F5D; 0xBD6E; 0x43EF; 0xC4A6; 0x39A8; 0x31A4; 0xD337; 0xF28B;
   0xD532; 0x8B43; 0x6E59; 0xDAB7; 0x018C; 0xB164; 0x9CD2; 0x49E0;
   0xD8B4; 0xACFA; 0xF307; 0xCF25; 0xCAAF; 0xF48E; 0x47E9; 0x1018;
   0x6FD5; 0xF088; 0x4A6F; 0x5C72; 0x3824; 0x57F1; 0x73C7; 0x9751;
   0xCB23; 0xA17C; 0xE89C; 0x3E21; 0x96DD; 0x61DC; 0x0D86; 0x0F85;
   0xE090; 0x7C42; 0x71C4; 0xCCAA; 0x90D8; 0x0605; 0xF701; 0x1C12;
   0xC2A3; 0x6A5F; 0xAEF9; 0x69D0; 0x1791; 0x9958; 0x3A27; 0x27B9;
   0xD938; 0xEB13; 0x2BB3; 0x2233; 0xD2BB; 0xA970; 0x0789; 0x33A7;
   0x2DB6; 0x3C22; 0x1592; 0xC920; 0x8749; 0xAAFF; 0x5078; 0xA57A;
   0x038F; 0x59F8; 0x0980; 0x1A17; 0x65DA; 0xD731; 0x84C6; 0xD0B8;
   0x82C3; 0x29B0; 0x5A77; 0x1E11; 0x7BCB; 0xA8FC; 0x6DD6; 0x2C3A].

Definition Sbox1_1 : list Z :=
  [0xA5C6; 0x84F8; 0x99EE; 0x8DF6; 0x0DFF; 0xBDD6; 0xB1DE; 0x5491;
   0x5060; 0x0302; 0xA9CE; 0x7D56; 0x19E7; 0x62B5; 0xE64D; 0x9AEC;
   0x458F; 0x9D1F; 0x4089; 0x87FA; 0x15EF; 0xEBB2; 0xC98E; 0x0BFB;
   0xEC41; 0x67B3; 0xFD5F; 0xEA45; 0xBF23; 0xF753; 0x96E4; 0x5B9B;
   0xC275; 0x1CE1; 0xAE3D; 0x6A4C; 0x5A6C; 0x417E; 0x02F5; 0x4F83;
   0x5C68; 0xF451; 0x34D1; 0x08F9; 0x93E2; 0x73AB; 0x5362; 0x3F2A;
   0x0C08; 0x5295; 0x6546; 0x5E9D; 0x2830; 0xA137; 0x0F0A; 0xB52F;
   0x090E; 0x3624; 0x9B1B; 0x3DDF; 0x26CD; 0x694E; 0xCD7F; 0x9FEA;
   0x1B12; 0x9E1D; 0x7458; 0x2E34; 0x2D36; 0xB2DC; 0xEEB4; 0xFB5B;
   0xF6A4; 0x4D76; 0x61B7; 0xCE7D; 0x7B52; 0x3EDD; 0x715E; 0x9713;
   0xF5A6; 0x68B9; 0x0000; 0x2CC1; 0x6040; 0x1FE3; 0xC879; 0xEDB6;
   0xBED4; 0x468D; 0xD967; 0x4B72; 0xDE94; 0xD498; 0xE8B0; 0x4A85;
   0x6BBB; 0x2AC5; 0xE54F; 0x16ED; 0xC586; 0xD79A; 0x5566; 0x9411;
   0xCF8A; 0x10E9; 0x0604; 0x81FE; 0xF0A0; 0x4478; 0xBA25; 0xE34B;
   0xF3A2; 0xFE5D; 0xC080; 0x8A05; 0xAD3F; 0xBC21; 0x4870; 0x04F1;
   0xDF63; 0xC177; 0x75AF; 0x6342; 0x3020; 0x1AE5; 0x0EFD; 0x6DBF;
   0x4C81; 0x1418; 0x3526; 0x2FC3; 0xE1BE; 0xA235; 0xCC88; 0x392E;
   0x5793; 0xF255; 0x82FC; 0x477A; 0xACC8; 0xE7BA; 0x2B32; 0x95E6;
   0xA0C0; 0x9819; 0xD19E; 0x7FA3; 0x6644; 0x7E54; 0xAB3B; 0x830B;
   0xCA8C; 0x29C7; 0xD36B; 0x3C28; 0x79A7; 0xE2BC; 0x1D16; 0x76AD;
   0x3BDB; 0x5664; 0x4E74; 0x1E14; 0xDB92; 0x0A0C; 0x6C48; 0xE4B8;
   0x5D9F; 0x6EBD; 0xEF43; 0xA6C4; 0xA839; 0xA431; 0x37D3; 0x8BF2;
   0x32D5; 0x438B; 0x596E; 0xB7DA; 0x8C01; 0x64B1; 0xD29C; 0xE049;
   0xB4D8; 0xFAAC; 0x07F3; 0x25CF; 0xAFCA; 0x8EF4; 0xE947; 0x1810;
   0xD56F; 0x88F0; 0x6F4A; 0x725C; 0x2438; 0xF157; 0xC773; 0x5197;
   0x23CB; 0x7CA1; 0x9CE8; 0x213E; 0xDD96; 0xDC61; 0x860D; 0x850F;
   0x90E0; 0x427C; 0xC471; 0xAACC; 0xD890; 0x0506; 0x01F7; 0x121C;
   0xA3C2; 0x5F6A; 0xF9AE; 0xD069; 0x9117; 0x5899; 0x273A; 0xB927;
   0x38D9; 0x13EB; 0xB32B; 0x3322; 0xBBD2; 0x70A9; 0x8907; 0xA733;
   0xB62D; 0x223C; 0x9215; 0x20C9; 0x4987; 0xFFAA; 0x7850; 0x7AA5;
   0x8F03; 0xF859; 0x8009; 0x171A; 0xDA65; 0x31D7; 0xC684; 0xB8D0;
   0xC382; 0xB029; 0x775A; 0x111E; 0xCB7B; 0xFCA8; 0xD66D; 0x3A2C].

Definition RotR1 (v16 : Z) : Z :=
  Z.lxor (Z.land (Z.shiftr v16 1) 0x7FFF) (Z.shiftl (Z.land v16 1) 15).
Definition Lo8 (v16 : Z) : Z := u8 (Z.land v16 0x00FF).
Definition Hi8 (v16 : Z) : Z := u8 (Z.land (Z.shiftr v16 8) 0x00FF).
Definition Lo16 (v32 : Z) : Z := u16 (Z.land v32 0xFFFF).
Definition Hi16 (v32 : Z) : Z := u16 (Z.land (Z.shiftr v32 16) 0xFFFF).
Definition Mk16 (hi lo : Z) : Z := Z.lxor lo (Z.shiftl (u16 hi) 8).

(** [TK16(N)], the [N]th 16-bit word of the temporal key. *)
Definition TK16 (tk : list Z) (N : Z) : Z := Mk16 (nthZ tk (2 * N + 1)) (nthZ tk (2 * N)).

(** [_S_(v16)] *)
Definition S_ (v16 : Z) : Z := Z.lxor (nthZ Sbox1_0 (Lo8 v16)) (nthZ Sbox1_1 (Hi8 v16)).

(** [p1k[5]] *)
Record p1k_t : Type := mk_p1k { p0 : Z; p1 : Z; p2 : Z; p3 : Z; p4 : Z }.

(** One iteration of the loop of [phase1]. *)
Definition phase1_round (tk : list Z) (p : p1k_t) (i : Z) : p1k_t :=
  let b := Z.land i 1 in
  let q0 := u16 (p0 p + S_ (Z.lxor (p4 p) (TK16 tk (b + 0)))) in
  let q1 := u16 (p1 p + S_ (Z.lxor q0 (TK16 tk (b + 2)))) in
  let q2 := u16 (p2 p + S_ (Z.lxor q1 (TK16 tk (b + 4)))) in
  let q3 := u16 (p3 p + S_ (Z.lxor q2 (TK16 tk (b + 6)))) in
  let q4 := u16 (p4 p + S_ (Z.lxor q3 (TK16 tk (b + 0)))) in
  mk_p1k q0 q1 q2 q3 (u16 (q4 + u16 i)).

Definition phase1 (tk ta : list Z) (iv32 : Z) : p1k_t :=
  foldl (phase1_round tk)
    (mk_p1k (Lo16 iv32) (Hi16 iv32) (u16 (Mk16 (nthZ ta 1) (nthZ ta 0)))
       (u16 (Mk16 (nthZ ta 3) (nthZ ta 2))) (u16 (Mk16 (nthZ ta 5) (nthZ ta 4))))
    [0; 1; 2; 3; 4; 5; 6; 7].

(** [PPK[6]] after the two sweeps of [phase2]. *)
Definition phase2_ppk (tk : list Z) (p : p1k_t) (iv16 : Z) : list Z :=
  let k0 := p0 p in let k1 := p1 p in let k2 := p2 p in let k3 := p3 p in let k4 := p4 p in
  let k5 := u16 (p4 p + iv16) in
  let k0 := u16 (k0 + S_ (Z.lxor k5 (TK16 tk 0))) in
  let k1 := u16 (k1 + S_ (Z.lxor k0 (TK16 tk 1))) in
  let k2 := u16 (k2 + S_ (Z.lxor k1 (TK16 tk 2))) in
  let k3 := u16 (k3 + S_ (Z.lxor k2 (TK16 tk 3))) in
  let k4 := u16 (k4 + S_ (Z.lxor k3 (TK16 tk 4))) in
  let k5 := u16 (k5 + S_ (Z.lxor k4 (TK16 tk 5))) in
  let k0 := u16 (k0 + RotR1 (Z.lxor k5 (TK16 tk 6))) in
  let k1 := u16 (k1 + RotR1 (Z.lxor k0 (TK16 tk 7))) in
  let k2 := u16 (k2 + RotR1 k1) in
  let k3 := u16 (k3 + RotR1 k2) in
  let k4 := u16 (k4 + RotR1 k3) in
  let k5 := u16 (k5 + RotR1 k4) in
  [k0; k1; k2; k3; k4; k5].

(** [phase2]: the 16 bytes of [rc4key]. *)
Definition phase2 (tk : list Z) (p : p1k_t) (iv16 : Z) : list Z :=
  let PPK := phase2_ppk tk p iv16 in
  [Hi8 iv16; u8 (Z.land (Z.lor (Hi8 iv16) 0x20) 0x7F); Lo8 iv16;
   Lo8 (Z.shiftr (Z.lxor (nthZ PPK 5) (TK16 tk 0)) 1);
   Lo8 (nthZ PPK 0); Hi8 (nthZ PPK 0); Lo8 (nthZ PPK 1); Hi8 (nthZ PPK 1);
   Lo8 (nthZ PPK 2); Hi8 (nthZ PPK 2); Lo8 (nthZ PPK 3); Hi8 (nthZ PPK 3);
   Lo8 (nthZ PPK 4); Hi8 (nthZ PPK 4); Lo8 (nthZ PPK 5); Hi8 (nthZ PPK 5)].

(** ** The packet number *)

(** [TKIP_IV(iv, dot11txpn, keyidx)]: the eight bytes of [iv] and the number
    of the next packet.  [val] is the 64-bit view of [union pn48], the [TSC]
    bytes its little-endian bytes. *)
Definition TKIP_IV (val keyidx : Z) : list Z * Z :=
  let TSC := fun i => nthZ (le_bytes 8 val) i in
  ([TSC 1; u8 (Z.land (Z.lor (TSC 1) 0x20) 0x7f); TSC 0;
    u8 (Z.lor (BIT 5) (Z.shiftl (Z.land keyidx 0x3) 6));
    TSC 2; TSC 3; TSC 4; TSC 5],
   if val =? 0xffffffffffff then 0 else u64 (val + 1)).

(** [WEP_IV] *)
Definition WEP_IV (val keyidx : Z) : list Z * Z :=
  let TSC := fun i => nthZ (le_bytes 8 val) i in
  ([TSC 0; TSC 1; TSC 2; u8 (Z.shiftl (Z.land keyidx 0x3) 6)],
   if val =? 0xffffff then 0 else u64 (val + 1)).

(** [AES_IV] *)
Definition AES_IV (val keyidx : Z) : list Z * Z :=
  let TSC := fun i => nthZ (le_bytes 8 val) i in
  ([TSC 0; TSC 1; 0; u8 (Z.lor (BIT 5) (Z.shiftl (Z.land keyidx 0x3) 6));
    TSC 2; TSC 3; TSC 4; TSC 5],
   if val =? 0xffffffffffff then 0 else u64 (val + 1)).

(** [GET_TKIP_PN(iv, dot11txpn)], the six bytes it stores; the two top bytes
    of the union, which it leaves alone, do not reach [pnl] and [pnh]. *)
Definition GET_TKIP_PN (iv : list Z) : Z :=
  le_word [nthZ iv 2; nthZ iv 0; nthZ iv 4; nthZ iv 5; nthZ iv 6; nthZ iv 7].

Section Tkip.
Context {SC : StreamCipher}.

(** The key of a packet: both routines mix the temporal key with the
    transmitter address and the packet number of the IV. *)
Definition tkip_rc4key (tk ta iv : list Z) : list Z :=
  let pn := GET_TKIP_PN iv in
  let pnl := u16 pn in
  let pnh := u32 (Z.shiftr pn 16) in
  phase2 tk (phase1 tk ta pnh) pnl.

Definition tkip_encrypt (g : crc_globals) (s : sec_info_st) (xf : xmit_frame)
    (pdata : list Z) (len : Z) : C (Z * crc_globals * list Z) :=
  let pframe := TXDESC_SIZE + PACKET_OFFSET_SZ in
  let frame_len := u32 (len - TXDESC_SIZE + PACKET_OFFSET_SZ) in
  let iv_ofs := xf_hdrlen xf in
  let payload_ofs := u32 (iv_ofs + xf_iv_len xf) in
  let payload_len := u32 (frame_len - u32 (payload_ofs + xf_icv_len xf)) in
  let icv_ofs := u32 (payload_ofs + payload_len) in
  letc prwskey := (if xf_bmcast xf
                   then of_option (dot118021XGrpKey s !! Z.to_nat (dot118021XGrpKeyid s))
                   else Ret (xf_UncstKey xf)) in
  letc iv := slice pdata (pframe + iv_ofs) 8 in
  let rc4key := tkip_rc4key prwskey (xf_addr2 xf) iv in
  letc (g, crc) := get_crc32 g pdata (pframe + payload_ofs) (s32 payload_len) in
  letc ctx := sc_init rc4key 16 in
  letc text := slice pdata (pframe + payload_ofs) payload_len in
  let '(ctx, enc) := sc_crypt ctx text in
  letc pdata := blit pdata (pframe + payload_ofs) enc in
  letc icv := slice (le_bytes 4 crc) 0 (xf_icv_len xf) in
  letc pdata := blit pdata (pframe + icv_ofs) (sc_crypt ctx icv).2 in
  Ret (0, g, pdata).

Definition tkip_decrypt (g : crc_globals) (s : sec_info_st) (w : Wdn.wdn_list) (p : rx_sec_pkt)
    : C (Z * crc_globals * list Z) :=
  let pframe := rxp_data p in
  let iv_ofs := rxp_wlan_hdr_len p in
  let payload_ofs := u32 (iv_ofs + rxp_iv_len p) in
  let payload_len := u32 (rxp_len p - u32 (payload_ofs + rxp_icv_len p)) in
  let icv_ofs := u32 (payload_ofs + payload_len) in
  letc key := (if IS_MCAST (rxp_rx_addr p) then
                 if negb (nz (binstallGrpkey s)) then Ret (inl (-1))
                 else letc iv3 := rd pframe (iv_ofs + 3) in
                      let key_id := Z.land (Z.shiftr iv3 6) 0x3 in
                      letc k := of_option (dot118021XGrpKey s !! Z.to_nat key_id) in Ret (inr k)
               else match Wdn.wf_wdn_find_info w (Some (rxp_tx_addr p)) with
                    | None => Ret (inl (-2))
                    | Some n => Ret (inr (Wi.dot118021x_UncstKey (Wdn.info n)))
                    end) in
  match key with
  | inl r => Ret (r, g, pframe)
  | inr prwskey =>
      letc iv := slice pframe iv_ofs 8 in
      let rc4key := tkip_rc4key prwskey (rxp_tx_addr p) iv in
      letc ctx := sc_init rc4key 16 in
      letc text := slice pframe payload_ofs (u32 (payload_len + rxp_icv_len p)) in
      letc pframe := blit pframe payload_ofs (sc_crypt ctx text).2 in
      letc (g, crc) := get_crc32 g pframe payload_ofs (s32 payload_len) in
      letc crc4 := slice (le_bytes 4 crc) 0 (rxp_icv_len p) in
      letc icv := slice pframe icv_ofs (rxp_icv_len p) in
      Ret (if bytes_eqb crc4 icv then 0 else -3, g, pframe)
  end.
End Tkip.

(** The first test vector of IEEE 802.11, annex J, for the two phases. *)
Example tkip_vector :
  let tk := [0; 1; 2; 3; 4; 5; 6; 7; 8; 9; 10; 11; 12; 13; 14; 15] in
  let ta := [0x10; 0x22; 0x33; 0x44; 0x55; 0x66] in
  phase1 tk ta 0 = mk_p1k 0x3DD2 0x016E 0x76F4 0x8697 0xB2E8 /\
  phase2 tk (phase1 tk ta 0) 0 =
    [0x00; 0x20; 0x00; 0x33; 0xEA; 0x8D; 0x2F; 0x60;
     0xCA; 0x6D; 0x13; 0x74; 0x23; 0x4A; 0x66; 0x0B].
Proof. vm_compute. done. Qed.

(** ** The mixing is injective *)

Lemma u16_add_inj a b f : is_u16 a -> is_u16 b -> u16 (a + f) = u16 (b + f) -> a = b.
Proof.
  unfold is_u16, u16. intros Ha Hb H.
  assert (H' : (a + f - f) mod 65536 = (b + f - f) mod 65536).
  { by rewrite <- (Zminus_mod_idemp_l (a + f)), H, Zminus_mod_idemp_l. }
  rewrite !Z.add_simpl_r, !Z.mod_small in H' by done. done.
Qed.

Definition p1k_ok (p : p1k_t) : Prop :=
  is_u16 (p0 p) /\ is_u16 (p1 p) /\ is_u16 (p2 p) /\ is_u16 (p3 p) /\ is_u16 (p4 p).

Lemma round_ok tk p i : p1k_ok (phase1_round tk p i).
Proof. unfold phase1_round, p1k_ok. cbn [p0 p1 p2 p3 p4]. auto 10 with wf. Qed.

Lemma round_inj tk p q i : p1k_ok p -> p1k_ok q ->
  phase1_round tk p i = phase1_round tk q i -> p = q.
Proof.
  destruct p as [a0 a1 a2 a3 a4], q as [b0 b1 b2 b3 b4].
  intros (A0 & A1 & A2 & A3 & A4) (B0 & B1 & B2 & B3 & B4). cbn [p0 p1 p2 p3 p4] in *.
  unfold phase1_round. cbn [p0 p1 p2 p3 p4]. intros [= H0 H1 H2 H3 H4].
  apply u16_add_inj in H4; [| apply u16_range ..].
  rewrite H3 in H4. apply u16_add_inj in H4; [| done ..]. subst b4.
  rewrite H2 in H3. apply u16_add_inj in H3; [| done ..]. subst b3.
  rewrite H1 in H2. apply u16_add_inj in H2; [| done ..]. subst b2.
  rewrite H0 in H1. apply u16_add_inj in H1; [| done ..]. subst b1.
  apply u16_add_inj in H0; [| done ..]. by subst b0.
Qed.

Lemma rounds_inj tk l p q : p1k_ok p -> p1k_ok q ->
  foldl (phase1_round tk) p l = foldl (phase1_round tk) q l -> p = q.
Proof.
  revert p q. induction l as [| i l IH]; intros p q Hp Hq; [done |]. cbn [foldl]. intros H.
  apply IH in H; [| apply round_ok ..]. by eapply round_inj.
Qed.

Lemma rounds_ok tk l p : p1k_ok p -> p1k_ok (foldl (phase1_round tk) p l).
Proof.
  revert p. induction l as [| i l IH]; intros p Hp; [done |]. apply IH, round_ok.
Qed.

Lemma Mk16_word hi lo : is_u8 hi -> is_u8 lo -> Mk16 hi lo = lo + 256 * hi.
Proof.
  unfold is_u8. intros Hh Hl. unfold Mk16. rewrite u16_id by (unfold is_u16; lia).
  assert (Hd : Z.land lo (Z.shiftl hi 8) = 0).
  { apply Z.bits_inj'. intros i Hi. rewrite Z.land_spec, Z.bits_0.
    destruct (decide (i < 8)).
    - by rewrite Z.shiftl_spec_low, andb_false_r by done.
    - by rewrite (testbit_high 8 lo) by lia. }
  rewrite <- Z.add_nocarry_lxor, Z.shiftl_mul_pow2 by (done || lia). lia.
Qed.

Lemma u16_Mk16 hi lo : is_u8 hi -> is_u8 lo -> u16 (Mk16 hi lo) = lo + 256 * hi.
Proof.
  intros Hh Hl. rewrite Mk16_word by done. apply u16_id. unfold is_u8, is_u16 in *. lia.
Qed.

Lemma Lo16_Hi16 v : is_u32 v -> Lo16 v + 65536 * Hi16 v = v.
Proof.
  intros Hv. unfold Lo16, Hi16. rewrite !land_65535, Z.shiftr_div_pow2 by lia.
  change (2 ^ 16) with 65536. unfold is_u32 in Hv. unfold u16.
  rewrite !(Z.mod_mod _ 65536) by lia.
  rewrite (Z.mod_small (v / 65536)); [pose proof (Z.div_mod v 65536); lia |].
  split; [apply Z.div_pos; lia | apply Z.div_lt_upper_bound; lia].
Qed.

Lemma Lo8_Hi8 v : is_u16 v -> Lo8 v + 256 * Hi8 v = v.
Proof.
  intros Hv. unfold Lo8, Hi8. rewrite !land_255, Z.shiftr_div_pow2 by lia.
  change (2 ^ 8) with 256. unfold is_u16 in Hv. unfold u8.
  rewrite !(Z.mod_mod _ 256) by lia.
  rewrite (Z.mod_small (v / 256)); [pose proof (Z.div_mod v 256); lia |].
  split; [apply Z.div_pos; lia | apply Z.div_lt_upper_bound; lia].
Qed.

(** A transmitter address. *)
Definition addr_ok (ta : list Z) : Prop := length ta = 6%nat /\ bytes_ok ta.

Lemma phase1_ok tk ta iv32 : p1k_ok (phase1 tk ta iv32).
Proof. apply rounds_ok. unfold p1k_ok, Lo16, Hi16. cbn [p0 p1 p2 p3 p4]. auto 10 with wf. Qed.

(** The address is determined by its three words. *)
Lemma addr_words_inj ta ta' : addr_ok ta -> addr_ok ta' ->
  u16 (Mk16 (nthZ ta 1) (nthZ ta 0)) = u16 (Mk16 (nthZ ta' 1) (nthZ ta' 0)) ->
  u16 (Mk16 (nthZ ta 3) (nthZ ta 2)) = u16 (Mk16 (nthZ ta' 3) (nthZ ta' 2)) ->
  u16 (Mk16 (nthZ ta 5) (nthZ ta 4)) = u16 (Mk16 (nthZ ta' 5) (nthZ ta' 4)) -> ta = ta'.
Proof.
  intros [Hl Hb] [Hl' Hb'].
  destruct ta as [| a0 [| a1 [| a2 [| a3 [| a4 [| a5 [|]]]]]]]; try done.
  destruct ta' as [| b0 [| b1 [| b2 [| b3 [| b4 [| b5 [|]]]]]]]; try done.
  unfold bytes_ok in *.
  repeat match goal with H : Forall is_u8 (_ :: _) |- _ => apply Forall_cons in H as [? ?] end.
  unfold nthZ. cbn [Z.to_nat Pos.to_nat Pos.iter_op Init.Nat.add].
  change (u16 (Mk16 a1 a0) = u16 (Mk16 b1 b0) -> u16 (Mk16 a3 a2) = u16 (Mk16 b3 b2) ->
    u16 (Mk16 a5 a4) = u16 (Mk16 b5 b4) ->
    [a0; a1; a2; a3; a4; a5] = [b0; b1; b2; b3; b4; b5]).
  rewrite !u16_Mk16 by done. unfold is_u8 in *. intros H0' H1' H2'.
  assert (a0 = b0 /\ a1 = b1) as [-> ->] by lia. assert (a2 = b2 /\ a3 = b3) as [-> ->] by lia.
  assert (a4 = b4 /\ a5 = b5) as [-> ->] by lia. done.
Qed.

(** The state before the first round. *)
Definition phase1_start (ta : list Z) (iv32 : Z) : p1k_t :=
  mk_p1k (Lo16 iv32) (Hi16 iv32) (u16 (Mk16 (nthZ ta 1) (nthZ ta 0)))
    (u16 (Mk16 (nthZ ta 3) (nthZ ta 2))) (u16 (Mk16 (nthZ ta 5) (nthZ ta 4))).

Lemma phase1_start_ok ta v : p1k_ok (phase1_start ta v).
Proof. unfold p1k_ok, phase1_start, Lo16, Hi16. cbn [p0 p1 p2 p3 p4]. auto 10 with wf. Qed.

Lemma phase1_eq tk ta v :
  phase1 tk ta v = foldl (phase1_round tk) (phase1_start ta v) [0; 1; 2; 3; 4; 5; 6; 7].
Proof. reflexivity. Qed.

Lemma phase1_inj tk ta ta' v v' : addr_ok ta -> addr_ok ta' -> is_u32 v -> is_u32 v' ->
  phase1 tk ta v = phase1 tk ta' v' -> ta = ta' /\ v = v'.
Proof.
  intros Ha Ha' Hv Hv' H. rewrite !phase1_eq in H.
  apply rounds_inj in H; [| apply phase1_start_ok ..]. unfold phase1_start in H.
  injection H as H0 H1 H2 H3 H4. split; [by apply addr_words_inj |].
  rewrite <- (Lo16_Hi16 v), <- (Lo16_Hi16 v') by done. congruence.
Qed.

Lemma ppk_ok tk p v : Forall is_u16 (phase2_ppk tk p v).
Proof. unfold phase2_ppk. repeat constructor; apply u16_range. Qed.

Lemma ppk_inj tk p q v w : p1k_ok p -> p1k_ok q -> is_u16 v -> is_u16 w ->
  phase2_ppk tk p v = phase2_ppk tk q w -> p = q /\ v = w.
Proof.
  destruct p as [a0 a1 a2 a3 a4], q as [b0 b1 b2 b3 b4].
  intros (A0 & A1 & A2 & A3 & A4) (B0 & B1 & B2 & B3 & B4) Hv Hw. cbn [p0 p1 p2 p3 p4] in *.
  unfold phase2_ppk. cbn [p0 p1 p2 p3 p4]. intros [= H0 H1 H2 H3 H4 H5].
  rewrite H4 in H5. apply u16_add_inj in H5; [| apply u16_range ..].
  rewrite H3 in H4. apply u16_add_inj in H4; [| apply u16_range ..].
  rewrite H2 in H3. apply u16_add_inj in H3; [| apply u16_range ..].
  rewrite H1 in H2. apply u16_add_inj in H2; [| apply u16_range ..].
  rewrite H0 in H1. apply u16_add_inj in H1; [| apply u16_range ..].
  rewrite H5 in H0. apply u16_add_inj in H0; [| apply u16_range ..].
  rewrite H4 in H5. apply u16_add_inj in H5; [| apply u16_range ..].
  rewrite H3 in H4. apply u16_add_inj in H4; [| done ..]. subst b4.
  rewrite H2 in H3. apply u16_add_inj in H3; [| done ..]. subst b3.
  rewrite H1 in H2. apply u16_add_inj in H2; [| done ..]. subst b2.
  rewrite H0 in H1. apply u16_add_inj in H1; [| done ..]. subst b1.
  rewrite H5 in H0. apply u16_add_inj in H0; [| done ..]. subst b0.
  rewrite !(Z.add_comm a4) in H5. apply u16_add_inj in H5; [| done ..]. by subst w.
Qed.

Lemma phase2_ppk_inj tk p q v w : phase2 tk p v = phase2 tk q w ->
  phase2_ppk tk p v = phase2_ppk tk q w.
Proof.
  pose proof (ppk_ok tk p v) as Hp. pose proof (ppk_ok tk q w) as Hq. unfold phase2.
  assert (Hl : length (phase2_ppk tk p v) = 6%nat /\ length (phase2_ppk tk q w) = 6%nat) by done.
  destruct Hl as [Hl1 Hl2].
  destruct (phase2_ppk tk p v) as [| a0 [| a1 [| a2 [| a3 [| a4 [| a5 [|]]]]]]]; try done.
  destruct (phase2_ppk tk q w) as [| b0 [| b1 [| b2 [| b3 [| b4 [| b5 [|]]]]]]]; try done.
  repeat match goal with H : Forall is_u16 (_ :: _) |- _ => apply Forall_cons in H as [? ?] end.
  nthZ_simpl. intros [= _ _ _ _ L0 U0 L1 U1 L2 U2 L3 U3 L4 U4 L5 U5].
  rewrite <- (Lo8_Hi8 a0), <- (Lo8_Hi8 a1), <- (Lo8_Hi8 a2), <- (Lo8_Hi8 a3), <- (Lo8_Hi8 a4),
    <- (Lo8_Hi8 a5), <- (Lo8_Hi8 b0), <- (Lo8_Hi8 b1), <- (Lo8_Hi8 b2), <- (Lo8_Hi8 b3),
    <- (Lo8_Hi8 b4), <- (Lo8_Hi8 b5) by done. congruence.
Qed.

(** ** Packet numbers *)

Lemma tkip_iv_pn val keyidx : 0 <= val < 2 ^ 48 -> GET_TKIP_PN (TKIP_IV val keyidx).1 = val.
Proof.
  intros Hv. unfold TKIP_IV, GET_TKIP_PN. cbn [fst].
  transitivity (le_word (le_bytes 6 val)); [reflexivity |].
  rewrite le_word_bytes. by apply Z.mod_small.
Qed.

(** The number of the [n]th packet. *)
Definition txpn (keyidx : Z) (n : nat) : Z := Nat.iter n (fun v => (TKIP_IV v keyidx).2) 0.

Lemma txpn_count keyidx n : Z.of_nat n < 2 ^ 48 -> txpn keyidx n = Z.of_nat n.
Proof.
  unfold txpn. induction n as [| n IH]; intros Hn; [done |]. cbn [Nat.iter nat_rect].
  change (nat_rect _ 0 _ n) with (Nat.iter n (fun v => (TKIP_IV v keyidx).2) 0).
  rewrite IH by lia. unfold TKIP_IV. cbn [snd].
  destruct (Z.eqb_spec (Z.of_nat n) 0xffffffffffff); [lia |].
  unfold u64. rewrite Z.mod_small; lia.
Qed.

Lemma pn_split v : 0 <= v < 2 ^ 48 ->
  is_u32 (Z.shiftr v 16) /\ v = u16 v + 65536 * Z.shiftr v 16.
Proof.
  intros Hv. rewrite Z.shiftr_div_pow2 by lia. change (2 ^ 16) with 65536.
  unfold is_u32, u16. split; [| pose proof (Z.div_mod v 65536); lia].
  split; [apply Z.div_pos; lia | apply Z.div_lt_upper_bound; lia].
Qed.

(** C30: under one temporal key, the RC4 keys of two packets are equal only if
    the packets come from the same transmitter and carry the same packet
    number; so a transmitter never uses an RC4 key twice within the first
    [2 ^ 48] packets after the key was installed, whatever key index is put
    in the IV. *)
Theorem tkip_keys_distinct (tk ta ta' : list Z) (keyidx keyidx' : Z) (m n : nat) :
  addr_ok ta -> addr_ok ta' -> Z.of_nat m < 2 ^ 48 -> Z.of_nat n < 2 ^ 48 ->
  tkip_rc4key tk ta (TKIP_IV (txpn keyidx m) keyidx).1 =
    tkip_rc4key tk ta' (TKIP_IV (txpn keyidx' n) keyidx').1 ->
  ta = ta' /\ m = n.
Proof.
  intros Ha Ha' Hm Hn. unfold tkip_rc4key. rewrite !txpn_count, !tkip_iv_pn by lia.
  destruct (pn_split (Z.of_nat m)) as [Hm1 Hm2]; [lia |].
  destruct (pn_split (Z.of_nat n)) as [Hn1 Hn2]; [lia |].
  rewrite !(u32_id (Z.shiftr _ _)) by done. intros H. apply phase2_ppk_inj in H.
  apply ppk_inj in H as [H1 H2]; [| apply phase1_ok || apply u16_range ..].
  apply phase1_inj in H1 as [-> H1]; [| done ..]. split; [done |].
  rewrite H1, H2 in Hm2. lia.
Qed.

Lemma tkip_keys_distinct_witness :
  tkip_rc4key (replicate 16 5) [1; 2; 3; 4; 5; 6] (TKIP_IV (txpn 0 3) 0).1 <>
  tkip_rc4key (replicate 16 5) [1; 2; 3; 4; 5; 6] (TKIP_IV (txpn 0 4) 0).1.
Proof.
  intros H.
  assert (Ha : addr_ok [1; 2; 3; 4; 5; 6]) by (split; [done | by apply bytes_okb_ok]).
  destruct (tkip_keys_distinct (replicate 16 5) [1; 2; 3; 4; 5; 6] [1; 2; 3; 4; 5; 6] 0 0 3 4
    Ha Ha ltac:(lia) ltac:(lia) H) as [_ H']. discriminate H'.
Defined.

(** ** Encryption and decryption *)

Section Frames.
Context {SC : StreamCipher}.

Lemma rc4key_ok tk ta iv : bytes_ok (tkip_rc4key tk ta iv) /\ length (tkip_rc4key tk ta iv) = 16%nat.
Proof.
  split; [| done]. unfold tkip_rc4key, phase2, Lo8, Hi8.
  repeat constructor; apply u8_range.
Qed.

Lemma tkip_ctx tk ta iv : exists ctx, sc_init (tkip_rc4key tk ta iv) 16 = Ret ctx /\ sc_ok ctx.
Proof. destruct (rc4key_ok tk ta iv) as [Hb Hl]. apply sc_init_ret; [done | lia]. Qed.

(** The key the transmitter and the receiver agree on: the group key of the
    index in the IV, or the pairwise key of the transmitting station. *)
Definition keys_agree (s : sec_info_st) (w : Wdn.wdn_list) (xf : xmit_frame) (p : rx_sec_pkt)
    (hdr tk : list Z) : Prop :=
  rxp_tx_addr p = xf_addr2 xf /\
  if xf_bmcast xf then
    IS_MCAST (rxp_rx_addr p) = true /\ binstallGrpkey s <> 0 /\
    dot118021XGrpKey s !! Z.to_nat (dot118021XGrpKeyid s) = Some tk /\
    Z.land (Z.shiftr (nthZ hdr (xf_hdrlen xf + 3)) 6) 3 = dot118021XGrpKeyid s
  else
    IS_MCAST (rxp_rx_addr p) = false /\ xf_UncstKey xf = tk /\
    exists n, Wdn.wf_wdn_find_info w (Some (rxp_tx_addr p)) = Some n /\
      Wi.dot118021x_UncstKey (Wdn.info n) = tk.

(** The same for a sender [s] and a receiver [s'] with states of their own. *)
Definition keys_match (s s' : sec_info_st) (w : Wdn.wdn_list) (xf : xmit_frame) (p : rx_sec_pkt)
    (hdr tk : list Z) : Prop :=
  rxp_tx_addr p = xf_addr2 xf /\
  if xf_bmcast xf then
    IS_MCAST (rxp_rx_addr p) = true /\ binstallGrpkey s' <> 0 /\
    dot118021XGrpKey s !! Z.to_nat (dot118021XGrpKeyid s) = Some tk /\
    dot118021XGrpKey s' !! Z.to_nat (Z.land (Z.shiftr (nthZ hdr (xf_hdrlen xf + 3)) 6) 3) = Some tk
  else
    IS_MCAST (rxp_rx_addr p) = false /\ xf_UncstKey xf = tk /\
    exists n, Wdn.wf_wdn_find_info w (Some (rxp_tx_addr p)) = Some n /\
      Wi.dot118021x_UncstKey (Wdn.info n) = tk.

(** A frame encrypted in the transmit buffer, with [post] behind it, and what a
    receiver with the same key makes of the bytes on the air. *)
Lemma tkip_air (g : crc_globals) (s s' : sec_info_st) (w : Wdn.wdn_list)
    (xf : xmit_frame) (p : rx_sec_pkt) (desc hdr payload slot post tk : list Z) :
  globals_ok g -> 0 <= xf_hdrlen xf -> 8 <= xf_iv_len xf -> xf_icv_len xf = 4 ->
  rxp_wlan_hdr_len p = xf_hdrlen xf -> rxp_iv_len p = xf_iv_len xf -> rxp_icv_len p = 4 ->
  Z.of_nat (length desc) = TXDESC_SIZE ->
  Z.of_nat (length hdr) = xf_hdrlen xf + xf_iv_len xf ->
  length slot = 4%nat -> bytes_ok payload -> keys_match s s' w xf p hdr tk ->
  rxp_len p = Z.of_nat (length (hdr ++ payload ++ slot)) ->
  Z.of_nat (length (desc ++ hdr ++ payload ++ slot)) < 2147483648 ->
  exists g1 enc, globals_ok g1 /\ length enc = (length payload + 4)%nat /\ bytes_ok enc /\
    tkip_encrypt g s xf (desc ++ hdr ++ payload ++ slot ++ post)
      (Z.of_nat (length (desc ++ hdr ++ payload ++ slot))) = Ret (0, g1, desc ++ hdr ++ enc ++ post) /\
    forall gr, globals_ok gr -> exists g2, globals_ok g2 /\
      tkip_decrypt gr s' w (set_rxp_data p (hdr ++ enc)) = Ret (0, g2, hdr ++ payload ++ Wep.icv_of payload).
Proof.
  intros Hg Hh Hiv Hicv Hrh Hri Hrc Hdesc Hhdr Hslot Hp [Hta Hkey] Hrl Hlen.
  unfold TXDESC_SIZE in Hdesc. rewrite !length_app in Hlen. rewrite !length_app in Hrl.
  set (iv8 := take 8 (drop (Z.to_nat (xf_hdrlen xf)) hdr)).
  destruct (tkip_ctx tk (xf_addr2 xf) iv8) as (ctx & Hctx & Hok).
  destruct (Wep.seal_tail g ctx Hg (tkip_rc4key tk (xf_addr2 xf) iv8) 16 (desc ++ hdr) payload slot post
    (20 + (xf_hdrlen xf + xf_iv_len xf)) (Z.of_nat (length payload))
    (20 + (xf_hdrlen xf + xf_iv_len xf + Z.of_nat (length payload))) 4)
    as (g1 & Hg1 & He); [done | done | done | rewrite length_app; lia | done | lia | done | lia |].
  set (enc := (sc_crypt ctx (payload ++ Wep.icv_of payload)).2) in *.
  assert (Hel : length enc = (length payload + 4)%nat)
    by (unfold enc; by rewrite sc_crypt_length, length_app, Wep.icv_of_length).
  assert (Heb : bytes_ok enc).
  { apply sc_crypt_bytes; [done |]. apply bytes_ok_app. split; [done | apply le_bytes_ok]. }
  exists g1, enc. split_and!; [done | done | done | |].
  - unfold tkip_encrypt, TXDESC_SIZE, PACKET_OFFSET_SZ.
    assert (Hk : (if xf_bmcast xf
      then of_option (dot118021XGrpKey s !! Z.to_nat (dot118021XGrpKeyid s))
      else Ret (xf_UncstKey xf)) = Ret tk).
    { destruct (xf_bmcast xf); [by destruct Hkey as (_ & _ & -> & _) | by destruct Hkey as (_ & -> & _)]. }
    rewrite Hk. cbn [cbind]. rewrite Hicv, !length_app, !Nat2Z.inj_add. change (20 + 0) with 20.
    unwrap. replace (_ - 20 + 0 - _) with (Z.of_nat (length payload)) by lia. unwrap.
    rewrite app_assoc. rewrite slice_app_l by (rewrite ?length_app; lia). cbn [cbind].
    replace (take (Z.to_nat 8) _) with iv8.
    2: { unfold iv8. rewrite drop_app_ge by lia. do 2 f_equal. lia. }
    rewrite He. by rewrite <- app_assoc.
  - intros gr Hgr.
    destruct (Wep.open_tail gr ctx Hgr Hok (tkip_rc4key tk (xf_addr2 xf) iv8) 16 hdr enc
      (xf_hdrlen xf + xf_iv_len xf) (Z.of_nat (length payload)) (Z.of_nat (length payload) + 4)
      (xf_hdrlen xf + xf_iv_len xf + Z.of_nat (length payload)) 4 (-3))
      as (g2 & Hg2 & Hd); [done | lia | done | lia | lia | lia | lia | done | lia |].
    destruct (Wep.plain_split ctx payload) as (H1 & H2 & H3). fold enc in H1, H2, H3.
    rewrite H2, H3, H1, bytes_eqb_refl in Hd. exists g2. split; [done |].
    unfold tkip_decrypt. cbn [set_rxp_data rxp_data rxp_len rxp_wlan_hdr_len rxp_iv_len
      rxp_icv_len rxp_rx_addr rxp_tx_addr].
    rewrite Hrh, Hri, Hrc, Hrl. unwrap.
    replace (_ - (xf_hdrlen xf + xf_iv_len xf + 4)) with (Z.of_nat (length payload)) by lia. unwrap.
    rewrite slice_app_l by lia. rewrite rd_nthZ by (rewrite length_app; lia).
    replace (nthZ (hdr ++ enc) _) with (nthZ hdr (xf_hdrlen xf + 3))
      by (unfold nthZ; by rewrite lookup_total_app_l by lia).
    rewrite Hta in *. destruct (xf_bmcast xf).
    + destruct Hkey as (-> & Hbi & _ & Hgk). unfold nz at 1.
      destruct (Z.eqb_spec (binstallGrpkey s') 0); [done |]. cbn [negb cbind]. rewrite Hgk.
      cbn [of_option cbind]. exact Hd.
    + destruct Hkey as (-> & _ & n & -> & ->). cbn [cbind]. exact Hd.
Qed.

(** A data frame that [tkip_encrypt] encrypts in the transmit buffer is
    accepted by [tkip_decrypt] of a receiver that holds the same key, group
    or pairwise, for the transmitter, and its payload is restored. *)
Theorem tkip_data_roundtrip (g : crc_globals) (s : sec_info_st) (w : Wdn.wdn_list)
    (xf : xmit_frame) (p : rx_sec_pkt) (desc hdr payload slot tk : list Z) :
  globals_ok g -> 0 <= xf_hdrlen xf -> 8 <= xf_iv_len xf -> xf_icv_len xf = 4 ->
  rxp_wlan_hdr_len p = xf_hdrlen xf -> rxp_iv_len p = xf_iv_len xf -> rxp_icv_len p = 4 ->
  Z.of_nat (length desc) = TXDESC_SIZE ->
  Z.of_nat (length hdr) = xf_hdrlen xf + xf_iv_len xf ->
  length slot = 4%nat -> bytes_ok payload -> keys_agree s w xf p hdr tk ->
  rxp_len p = Z.of_nat (length (hdr ++ payload ++ slot)) ->
  Z.of_nat (length (desc ++ hdr ++ payload ++ slot)) < 2147483648 ->
  exists g1 g2 air,
    tkip_encrypt g s xf (desc ++ hdr ++ payload ++ slot)
      (Z.of_nat (length (desc ++ hdr ++ payload ++ slot))) = Ret (0, g1, desc ++ air) /\
    tkip_decrypt g1 s w (set_rxp_data p air) =
      Ret (0, g2, hdr ++ payload ++ Wep.icv_of payload).
Proof.
  intros Hg Hh Hiv Hicv Hrh Hri Hrc Hdesc Hhdr Hslot Hp Hkey Hrl Hlen.
  assert (Hm : keys_match s s w xf p hdr tk).
  { destruct Hkey as [Ha Hk]. split; [done |]. destruct (xf_bmcast xf); [| done]. destruct Hk as (? & ? & ? & ->). done. }
  destruct (tkip_air g s s w xf p desc hdr payload slot [] tk Hg Hh Hiv Hicv Hrh Hri Hrc Hdesc Hhdr Hslot Hp Hm
    Hrl Hlen) as (g1 & enc & Hg1 & _ & _ & He & Hd).
  destruct (Hd g1 Hg1) as (g2 & _ & Hd2). exists g1, g2, (hdr ++ enc). rewrite !app_nil_r in He. by split.
Qed.
End Frames.

(** ** Witness, with ARC4 *)

#[local] Existing Instance Arc4.arc4_cipher.

Definition wit_ta : list Z := [2; 0; 0; 0; 0; 1].
Definition wit_info : Wi.wdn_net_info_st :=
  Wi.set_dot118021x_UncstKey (replicate 16 5) (Wi.set_mac wit_ta Wi.zero).
Definition wit_wdn : Wdn.wdn_list := Wdn.mk_wdn_list [Wdn.mk_node 1 wit_info] [] 1.
Definition wit_hdr : list Z := replicate 24 0 ++ (TKIP_IV 77 0).1.
Definition wit_xf : xmit_frame := mk_xmit_frame _TKIP_ 24 8 4 false (replicate 16 5) wit_ta.
Definition wit_rx : rx_sec_pkt :=
  mk_rx_sec_pkt [] 40 24 8 4 [2; 0; 0; 0; 0; 2] wit_ta _TKIP_.

Lemma tkip_data_roundtrip_witness :
  exists g1 g2 air,
    tkip_encrypt crc_globals0 Wep.wit_sec wit_xf
      (replicate 20 0 ++ wit_hdr ++ [170; 170; 3; 0] ++ replicate 4 0) 60 =
      Ret (0, g1, replicate 20 0 ++ air) /\
    tkip_decrypt g1 Wep.wit_sec wit_wdn (set_rxp_data wit_rx air) =
      Ret (0, g2, wit_hdr ++ [170; 170; 3; 0] ++ Wep.icv_of [170; 170; 3; 0]).
Proof.
  apply (tkip_data_roundtrip crc_globals0 Wep.wit_sec wit_wdn wit_xf wit_rx (replicate 20 0)
    wit_hdr [170; 170; 3; 0] (replicate 4 0) (replicate 16 5));
    first [apply globals0_ok | reflexivity | by apply bytes_okb_ok | cbn; lia
          | split; [reflexivity |]; split; [reflexivity |]; split; [reflexivity |];
            exists (Wdn.mk_node 1 wit_info); split; reflexivity].
Defined.
End Tkip.
