(* ===== verification/Sec.v ===== *)
(** * Security dispatch ([nic/sec.c], lines 119-218)

    [wf_sec_encrypt] and [wf_sec_decryptor] select the cipher of a frame; the
    security state of a device is allocated and released here. *)
From S2P Require Import Prelude Cipher SecTypes Crc32 Arc4 Wep WdnTypes Wdn Tkip.
Import Crc32.

Module Sec.

(** [PROTECTED], the bit of the frame control word that marks an encrypted
    frame, and the test of a little-endian frame control word for it. *)
Definition PROTECTED : Z := BIT 14.
Definition GET_HDR_Protected (pbuf : list Z) : C Z :=
  letc fc := slice pbuf 0 2 in Ret (Z.land (le_word fc) PROTECTED).

Section Sec.
Context {SC : StreamCipher}.

(** [None] stands for a null [xmitframe] or [pdata]. *)
Definition wf_sec_encrypt (g : crc_globals) (s : sec_info_st) (xmitframe : option xmit_frame)
    (pdata : option (list Z)) (len : Z) : C (Z * crc_globals * option (list Z)) :=
  match xmitframe, pdata with
  | Some xf, Some d =>
      if len =? 0 then Ret (-1, g, pdata)
      else if xf_encrypt_algo xf =? _TKIP_ then
        letc (r, g, d) := Tkip.tkip_encrypt g s xf d len in Ret (r, g, Some d)
      else if (xf_encrypt_algo xf =? _WEP40_) || (xf_encrypt_algo xf =? _WEP104_) then
        letc (r, g, d) := Wep.wep_encrypt g s xf d len in Ret (r, g, Some d)
      else Ret (0, g, pdata)
  | _, _ => Ret (-1, g, pdata)
  end.

(** [wf_sec_decryptor]: the result, the globals of the checksum, the buffer
    and [bdecrypted]. *)
Definition wf_sec_decryptor (g : crc_globals) (s : sec_info_st) (w : Wdn.wdn_list)
    (p : rx_sec_pkt) : C (Z * crc_globals * list Z * bool) :=
  letc prot := GET_HDR_Protected (rxp_data p) in
  letc (r, g, d) :=
    (if nz prot then
       if (rxp_encrypt_algo p =? _WEP40_) || (rxp_encrypt_algo p =? _WEP104_)
       then Wep.wep_decrypt g s p
       else if rxp_encrypt_algo p =? _TKIP_ then Tkip.tkip_decrypt g s w p
       else Ret (0, g, rxp_data p)
     else Ret (0, g, rxp_data p)) in
  Ret (r, g, d, true).
End Sec.

(** [wf_sec_info_init] and [wf_sec_info_term] on [nic_info->sec_info];
    [alloc] is the result of [wf_kzalloc], the freed pointer the second
    component of the result of the other. *)
Definition wf_sec_info_init {A} (alloc : option A) : Z * option A :=
  match alloc with
  | None => (-1, None)
  | Some a => (0, Some a)
  end.

Definition wf_sec_info_term {A} (sec_info : option A) : Z * option A * option A :=
  match sec_info with
  | None => (0, None, None)
  | Some a => (0, Some a, None)
  end.

(** ** Properties *)

Section Props.
Context {SC : StreamCipher}.

(** A frame that is not marked protected passes [wf_sec_decryptor]
    unchanged with result 0, whatever the cipher of the link; so does a
    protected one whose cipher the driver leaves to the hardware.  A protected
    TKIP frame is rejected, and left as it was, when it is a group frame
    before a group key was installed (-1) or comes from an unknown station
    (-2). *)
Theorem sec_decryptor_pass (g : crc_globals) (s : sec_info_st) (w : Wdn.wdn_list)
    (p : rx_sec_pkt) (b0 b1 : Z) (rest : list Z) :
  rxp_data p = b0 :: b1 :: rest -> is_u8 b0 -> is_u8 b1 ->
  (Z.testbit b1 6 = false -> wf_sec_decryptor g s w p = Ret (0, g, rxp_data p, true)) /\
  (rxp_encrypt_algo p <> _WEP40_ -> rxp_encrypt_algo p <> _WEP104_ ->
   rxp_encrypt_algo p <> _TKIP_ -> wf_sec_decryptor g s w p = Ret (0, g, rxp_data p, true)) /\
  (Z.testbit b1 6 = true -> rxp_encrypt_algo p = _TKIP_ ->
     (IS_MCAST (rxp_rx_addr p) = true -> binstallGrpkey s = 0 ->
        wf_sec_decryptor g s w p = Ret (-1, g, rxp_data p, true)) /\
     (IS_MCAST (rxp_rx_addr p) = false ->
        (forall n, n ∈ Wdn.head w -> Wi.mac (Wdn.info n) <> rxp_tx_addr p) ->
        wf_sec_decryptor g s w p = Ret (-2, g, rxp_data p, true))).
Proof.
  intros Hd H0 H1.
  assert (Hp : GET_HDR_Protected (rxp_data p) = Ret (Z.land (b0 + 256 * b1) PROTECTED)).
  { unfold GET_HDR_Protected. rewrite Hd. rewrite slice_Ret by (cbn [length]; lia).
    cbn [cbind]. do 2 f_equal.
    change (b0 + 256 * (b1 + 256 * 0) = b0 + 256 * b1). lia. }
  assert (Hbit : nz (Z.land (b0 + 256 * b1) PROTECTED) = Z.testbit b1 6).
  { unfold PROTECTED. rewrite land_BIT by lia. unfold is_u8 in H0.
    replace (b0 + 256 * b1) with (Z.lor b0 (Z.shiftl b1 8)).
    2: { rewrite lor_low_shiftl by lia. lia. }
    rewrite Z.lor_spec, (testbit_high 8 b0), Z.shiftl_spec by lia. done. }
  unfold wf_sec_decryptor. rewrite Hp. cbn [cbind]. rewrite Hbit. split_and!.
  - intros ->. done.
  - intros Hw4 Hw1 Ht. destruct (Z.testbit b1 6); [| done].
    apply Z.eqb_neq in Hw4 as ->, Hw1 as ->, Ht as ->. done.
  - intros -> Ht. rewrite Ht. cbn [Z.eqb orb _TKIP_ _WEP40_ _WEP104_]. split.
    + intros Hm Hb. unfold Tkip.tkip_decrypt. rewrite Hm, Hb. done.
    + intros Hm Hno. unfold Tkip.tkip_decrypt. rewrite Hm.
      assert (Hf : Wdn.wf_wdn_find_info w (Some (rxp_tx_addr p)) = None).
      { apply Wdn.find_info_None. unfold Wdn.macs. intros (n & Hn & Hin)%list_elem_of_fmap.
        by apply (Hno n). }
      by rewrite Hf.
Qed.
End Props.

Definition wit_pkt : rx_sec_pkt :=
  mk_rx_sec_pkt ([0x08; 0x40] ++ replicate 38 0) 40 24 8 4 [2; 0; 0; 0; 0; 2] [2; 0; 0; 0; 0; 1] _TKIP_.

Lemma sec_decryptor_pass_witness :
  wf_sec_decryptor (SC := Arc4.arc4_cipher) crc_globals0 Wep.wit_sec
    (Wdn.mk_wdn_list [] [] 0) wit_pkt = Ret (-2, crc_globals0, rxp_data wit_pkt, true).
Proof.
  destruct (sec_decryptor_pass (SC := Arc4.arc4_cipher) crc_globals0 Wep.wit_sec
    (Wdn.mk_wdn_list [] [] 0) wit_pkt 0x08 0x40 (replicate 38 0)) as (_ & _ & H);
    [reflexivity | unfold is_u8; lia | unfold is_u8; lia |].
  apply H; [reflexivity | reflexivity | reflexivity |]. intros n Hn. by apply not_elem_of_nil in Hn.
Defined.
End Sec.
