(* ===== verification/Ies.v ===== *)
(** * Information elements ([nic/wf_80211.c], lines 34-105 and 627-657; [nic/ie.c], lines 22-40)

    The searches over a sequence of information elements and the functions
    that append one.  An element is an identifier byte, a length byte and that
    many bytes of data; the functions walk a buffer by these lengths. *)
From S2P Require Import Prelude.

Module Ies.

Definition WF_RETURN_OK : Z := 0.
Definition WF_RETURN_FAIL : Z := -1.

(** The loop of [wf_80211_mgmt_ies_search] from [offset] on.  [Some o] is
    [WF_RETURN_OK] with [*pout] at offset [o]; [None] is [WF_RETURN_FAIL]. *)
Fixpoint ies_search_from (fuel : nat) (buf : list Z) (var_len cmp_id offset : Z) : C (option Z) :=
  match fuel with
  | O => Stuck
  | S fuel =>
      letc element_id := rd buf offset in
      if element_id =? cmp_id then Ret (Some offset)
      else
        letc len := rd buf (offset + 1) in
        let offset := u16 (offset + (2 + len)) in
        if var_len <=? offset then Ret None
        else ies_search_from fuel buf var_len cmp_id offset
  end.

(** Each iteration advances by at least two bytes, so this many are enough
    for every length that leaves room for one more element below [2 ^ 16]. *)
Definition ies_fuel : nat := Z.to_nat 32768.

(** [None] for the buffer is a null pointer. *)
Definition wf_80211_mgmt_ies_search (pvar : option (list Z)) (var_len cmp_id : Z) : C (option Z) :=
  match pvar with
  | None => Ret None
  | Some buf => ies_search_from ies_fuel buf var_len cmp_id 0
  end.

Fixpoint ies_search_oui_from (fuel : nat) (buf : list Z) (ies_len cmp_id : Z) (oui : list Z)
    (offset : Z) : C (option Z) :=
  match fuel with
  | O => Stuck
  | S fuel =>
      letc element_id := rd buf offset in
      letc found := (if element_id =? cmp_id
                     then letc d := slice buf (offset + 2) 4 in Ret (bytes_eqb d oui)
                     else Ret false) in
      if (found : bool) then Ret (Some offset)
      else
        letc len := rd buf (offset + 1) in
        let offset := u16 (offset + (2 + len)) in
        if ies_len <=? offset then Ret None
        else ies_search_oui_from fuel buf ies_len cmp_id oui offset
  end.

Definition wf_80211_mgmt_ies_search_with_oui (pies : option (list Z)) (ies_len cmp_id : Z)
    (oui : list Z) : C (option Z) :=
  match pies with
  | None => Ret None
  | Some buf => ies_search_oui_from ies_fuel buf ies_len cmp_id oui 0
  end.

(** [wf_wlan_get_ie]: the offset of the element and [*len]. *)
Fixpoint get_ie_from (fuel : nat) (buf : list Z) (index limit i : Z) : C (option (Z * Z)) :=
  match fuel with
  | O => Stuck
  | S fuel =>
      letc id := rd buf i in
      if id =? index then letc len := rd buf (i + 1) in Ret (Some (i, len))
      else
        letc tmp := rd buf (i + 1) in
        let i := i + (tmp + 2) in
        if limit <=? i then Ret None else get_ie_from fuel buf index limit i
  end.

Definition wf_wlan_get_ie (buf : list Z) (index limit : Z) : C (option (Z * Z)) :=
  if limit <? 1 then Ret None
  else get_ie_from (Z.to_nat (limit / 2 + 1)) buf index limit 0.

(** [set_ie(pbuf + pos, index, len, source, &frlen)]: the buffer, the position
    the returned pointer is at, and [frlen]. *)
Definition set_ie (buf : list Z) (pos index len : Z) (source : list Z) (frlen : Z)
    : C (list Z * Z * Z) :=
  letc buf := wr buf pos index in
  letc buf := wr buf (pos + 1) len in
  letc buf := (if 0 <? len then letc s := slice source 0 len in blit buf (pos + 2) s
               else Ret buf) in
  Ret (buf, pos + len + 2, u32 (frlen + (len + 2))).

(** [wf_80211_set_fixed_ie] and [set_fixed_ie] *)
Definition wf_80211_set_fixed_ie (buf : list Z) (pos len : Z) (source : list Z) (frlen : Z)
    : C (list Z * Z * Z) :=
  letc s := slice source 0 len in
  letc buf := blit buf pos s in
  Ret (buf, pos + len, u16 (frlen + len)).

(** ** Reference: sequences of elements *)

Definition ie : Type := Z * list Z.

Definition ie_ok (e : ie) : Prop := is_u8 (fst e) /\ (length (snd e) < 256)%nat /\ bytes_ok (snd e).

Definition enc_ie (e : ie) : list Z := fst e :: Z.of_nat (length (snd e)) :: snd e.

Definition enc (ies : list ie) : list Z := concat (enc_ie <$> ies).

(** The first element that satisfies [f], with its offset from [o]. *)
Fixpoint find_ie (f : ie -> bool) (ies : list ie) (o : Z) : option (Z * ie) :=
  match ies with
  | [] => None
  | e :: ies => if f e then Some (o, e) else find_ie f ies (o + 2 + Z.of_nat (length (snd e)))
  end.

Lemma length_enc_ie e : length (enc_ie e) = (2 + length (snd e))%nat.
Proof. done. Qed.

Lemma enc_cons e ies : enc (e :: ies) = enc_ie e ++ enc ies.
Proof. done. Qed.

Lemma enc_app a b : enc (a ++ b) = enc a ++ enc b.
Proof. unfold enc. by rewrite fmap_app, concat_app. Qed.

Lemma length_enc_ge ies : (2 * length ies <= length (enc ies))%nat.
Proof. induction ies as [| e ies IH]; [done |]. rewrite enc_cons, length_app, length_enc_ie. simpl. lia. Qed.

(** Where the search finds an element, the element is. *)
Lemma find_ie_at f ies o p e : find_ie f ies o = Some (p, e) ->
  exists a b, ies = a ++ e :: b /\ p = o + Z.of_nat (length (enc a)) /\ f e = true.
Proof.
  revert o. induction ies as [| x ies IH]; intros o; cbn [find_ie]; [done |].
  destruct (f x) eqn:Hf.
  - intros [= <- <-]. exists [], ies. split; [done |]. split; [cbn; lia | done].
  - intros H. apply IH in H as (a & b & -> & -> & He). exists (x :: a), b. split; [done |].
    split; [| done]. rewrite enc_cons, length_app, length_enc_ie. lia.
Qed.

(** Reading the header of the element at the front of the rest. *)
Lemma rd_header pre e rest o : o = Z.of_nat (length pre) ->
  rd (pre ++ enc_ie e ++ rest) o = Ret (fst e) /\
  rd (pre ++ enc_ie e ++ rest) (o + 1) = Ret (Z.of_nat (length (snd e))).
Proof.
  intros ->. split.
  - by apply rd_app_mid.
  - change (pre ++ enc_ie e ++ rest) with
      (pre ++ [fst e] ++ Z.of_nat (length (snd e)) :: snd e ++ rest).
    rewrite app_assoc. apply rd_app_mid. rewrite length_app. cbn. lia.
Qed.

Lemma rd_data pre e rest o n : o = Z.of_nat (length pre) -> 0 <= n <= Z.of_nat (length (snd e)) ->
  slice (pre ++ enc_ie e ++ rest) (o + 2) n = Ret (take (Z.to_nat n) (snd e)).
Proof.
  intros -> Hn.
  replace (pre ++ enc_ie e ++ rest) with
    ((pre ++ [fst e; Z.of_nat (length (snd e))]) ++ snd e ++ rest) by (by rewrite <- app_assoc).
  rewrite slice_Ret by (rewrite ?length_app; cbn [length]; lia).
  rewrite drop_app_ge by (rewrite length_app; cbn [length]; lia).
  replace (Z.to_nat (Z.of_nat (length pre) + 2) - length (pre ++ [fst e; Z.of_nat (length (snd e))]))%nat
    with 0%nat by (rewrite length_app; cbn [length]; lia).
  rewrite drop_0. rewrite take_app_le by lia. done.
Qed.

(** Skipping an element keeps the walk aligned. *)
Section Walk.
Context (post : list Z) (ies : list ie) (total : Z).
Context (Htot : total = Z.of_nat (length (enc ies))) (Hmax : total < 65536).

Lemma walk_next a e b : ies = a ++ e :: b ->
  u16 (Z.of_nat (length (enc a)) + (2 + Z.of_nat (length (snd e)))) =
    Z.of_nat (length (enc (a ++ [e]))) /\
  (total <=? Z.of_nat (length (enc (a ++ [e])))) = bool_decide (b = []).
Proof using Htot Hmax.
  intros Hies. pose proof Htot as Ht. rewrite Hies, enc_app, enc_cons, !length_app, length_enc_ie in Ht.
  rewrite !enc_app, !length_app. change (enc [e]) with (enc_ie e ++ []). rewrite app_nil_r, length_enc_ie.
  pose proof (length_enc_ge b) as Hge. split.
  - rewrite u16_id; [lia |]. unfold is_u16. lia.
  - destruct b as [| x b].
    + rewrite bool_decide_eq_true_2 by done. apply Z.leb_le. change (length (enc [])) with 0%nat in Ht. lia.
    + rewrite bool_decide_eq_false_2 by done. apply Z.leb_gt. cbn [length] in Hge. lia.
Qed.

Lemma search_walk f fuel cmp_id a b :
  (forall e, f e = (fst e =? cmp_id)) ->
  ies = a ++ b -> b <> [] -> (length b <= fuel)%nat ->
  ies_search_from fuel (enc ies ++ post) total cmp_id (Z.of_nat (length (enc a))) =
    Ret (fst <$> find_ie f b (Z.of_nat (length (enc a)))).
Proof using Htot Hmax.
  intros Hf. revert fuel a. induction b as [| e b IH]; intros fuel a Hies Hne Hfuel; [done |].
  destruct fuel as [| fuel]; [simpl in Hfuel; lia |].
  destruct (walk_next a e b Hies) as [Hoff Hend].
  assert (Hbuf : enc ies ++ post = enc a ++ enc_ie e ++ enc b ++ post).
  { by rewrite Hies, enc_app, enc_cons, <- !app_assoc. }
  destruct (rd_header (enc a) e (enc b ++ post) _ eq_refl) as [Hid Hlen].
  cbn [ies_search_from find_ie]. rewrite Hbuf, Hid. cbn [cbind]. rewrite Hf.
  destruct (Z.eqb_spec (fst e) cmp_id); [done |]. rewrite Hlen. cbn [cbind]. rewrite Hoff, Hend.
  destruct (decide (b = [])) as [-> | Hb]; [by rewrite bool_decide_eq_true_2 |].
  rewrite bool_decide_eq_false_2 by done. rewrite <- Hbuf.
  rewrite (IH fuel (a ++ [e])); [| by rewrite <- app_assoc | done | simpl in Hfuel; lia].
  do 3 f_equal. rewrite enc_app, length_app. change (enc [e]) with (enc_ie e ++ []).
  rewrite app_nil_r, length_enc_ie. lia.
Qed.

Lemma search_oui_walk oui fuel cmp_id (a b : list ie) :
  length oui = 4%nat ->
  Forall (fun e : ie => fst e = cmp_id -> (4 <= length (snd e))%nat) b ->
  ies = a ++ b -> b <> [] -> (length b <= fuel)%nat ->
  ies_search_oui_from fuel (enc ies ++ post) total cmp_id oui (Z.of_nat (length (enc a))) =
    Ret (fst <$> find_ie (fun e : ie => (fst e =? cmp_id) && bytes_eqb (take 4 (snd e)) oui) b
           (Z.of_nat (length (enc a)))).
Proof using Htot Hmax.
  intros Ho. revert fuel a. induction b as [| e b IH]; intros fuel a Hall Hies Hne Hfuel; [done |].
  destruct fuel as [| fuel]; [simpl in Hfuel; lia |]. apply Forall_cons in Hall as [H4 Hall].
  destruct (walk_next a e b Hies) as [Hoff Hend].
  assert (Hbuf : enc ies ++ post = enc a ++ enc_ie e ++ enc b ++ post).
  { by rewrite Hies, enc_app, enc_cons, <- !app_assoc. }
  destruct (rd_header (enc a) e (enc b ++ post) _ eq_refl) as [Hid Hlen].
  cbn [ies_search_oui_from find_ie]. rewrite Hbuf, Hid. cbn [cbind].
  assert (Hfound : (if fst e =? cmp_id
      then letc d := slice (enc a ++ enc_ie e ++ enc b ++ post) (Z.of_nat (length (enc a)) + 2) 4 in
           Ret (bytes_eqb d oui)
      else Ret false) = Ret ((fst e =? cmp_id) && bytes_eqb (take 4 (snd e)) oui)).
  { destruct (Z.eqb_spec (fst e) cmp_id) as [Heq |]; [| done].
    rewrite (rd_data (enc a) e _ _ 4); [done | done | specialize (H4 Heq); lia]. }
  rewrite Hfound. cbn [cbind].
  destruct ((fst e =? cmp_id) && bytes_eqb (take 4 (snd e)) oui); [done |].
  rewrite Hlen. cbn [cbind]. rewrite Hoff, Hend.
  destruct (decide (b = [])) as [-> | Hb]; [by rewrite bool_decide_eq_true_2 |].
  rewrite bool_decide_eq_false_2 by done. rewrite <- Hbuf.
  rewrite (IH fuel (a ++ [e])); [| done | by rewrite <- app_assoc | done | simpl in Hfuel; lia].
  do 3 f_equal. rewrite enc_app, length_app. change (enc [e]) with (enc_ie e ++ []).
  rewrite app_nil_r, length_enc_ie. lia.
Qed.

Lemma get_ie_walk fuel index (a b : list ie) :
  ies = a ++ b -> b <> [] -> (length b <= fuel)%nat ->
  get_ie_from fuel (enc ies ++ post) index total (Z.of_nat (length (enc a))) =
    Ret ((fun r : Z * ie => (fst r, Z.of_nat (length (snd (snd r))))) <$>
         find_ie (fun e => fst e =? index) b (Z.of_nat (length (enc a)))).
Proof using Htot Hmax.
  revert fuel a. induction b as [| e b IH]; intros fuel a Hies Hne Hfuel; [done |].
  destruct fuel as [| fuel]; [simpl in Hfuel; lia |].
  destruct (walk_next a e b Hies) as [_ Hend].
  assert (Hbuf : enc ies ++ post = enc a ++ enc_ie e ++ enc b ++ post).
  { by rewrite Hies, enc_app, enc_cons, <- !app_assoc. }
  assert (Hoff : Z.of_nat (length (enc a)) + (Z.of_nat (length (snd e)) + 2) =
    Z.of_nat (length (enc (a ++ [e])))).
  { rewrite enc_app, length_app. change (enc [e]) with (enc_ie e ++ []).
    rewrite app_nil_r, length_enc_ie. lia. }
  destruct (rd_header (enc a) e (enc b ++ post) _ eq_refl) as [Hid Hlen].
  cbn [get_ie_from find_ie]. rewrite Hbuf, Hid. cbn [cbind].
  destruct (Z.eqb_spec (fst e) index); [by rewrite Hlen |].
  rewrite Hlen. cbn [cbind]. rewrite Hoff, Hend.
  destruct (decide (b = [])) as [-> | Hb]; [by rewrite bool_decide_eq_true_2 |].
  rewrite bool_decide_eq_false_2 by done. rewrite <- Hbuf.
  rewrite (IH fuel (a ++ [e])); [| by rewrite <- app_assoc | done | simpl in Hfuel; lia].
  do 3 f_equal. lia.
Qed.
End Walk.

(** The searches of a buffer that starts with an encoding. *)
Lemma search_enc (ies : list ie) post cmp_id :
  ies <> [] -> Z.of_nat (length (enc ies)) < 65536 ->
  wf_80211_mgmt_ies_search (Some (enc ies ++ post)) (Z.of_nat (length (enc ies))) cmp_id =
    Ret (fst <$> find_ie (fun e : ie => fst e =? cmp_id) ies 0).
Proof.
  intros Hne Hmax. pose proof (length_enc_ge ies) as Hge.
  apply (search_walk post ies _ eq_refl Hmax _ _ _ [] ies); try done. unfold ies_fuel. lia.
Qed.

Lemma search_oui_enc (ies : list ie) post oui cmp_id :
  ies <> [] -> Z.of_nat (length (enc ies)) < 65536 -> length oui = 4%nat ->
  Forall (fun e : ie => fst e = cmp_id -> (4 <= length (snd e))%nat) ies ->
  wf_80211_mgmt_ies_search_with_oui (Some (enc ies ++ post)) (Z.of_nat (length (enc ies))) cmp_id oui =
    Ret (fst <$> find_ie (fun e : ie => (fst e =? cmp_id) && bytes_eqb (take 4 (snd e)) oui) ies 0).
Proof.
  intros Hne Hmax Ho H4. pose proof (length_enc_ge ies) as Hge.
  apply (search_oui_walk post ies _ eq_refl Hmax _ _ _ [] ies); try done. unfold ies_fuel. lia.
Qed.

(** ** Properties *)

(** On a buffer that starts with a non-empty sequence of well-formed
    elements of less than [2 ^ 16] bytes, each search returns the offset of
    the first element with the identifier (and vendor OUI) asked for, or a
    failure when there is none; the element's header and data are at that
    offset.  [wf_wlan_get_ie] agrees with [wf_80211_mgmt_ies_search]. *)
Theorem ies_search_first (ies : list ie) (post oui : list Z) (cmp_id : Z) :
  ies <> [] -> Z.of_nat (length (enc ies)) < 65536 -> length oui = 4%nat ->
  Forall (fun e => fst e = cmp_id -> (4 <= length (snd e))%nat) ies ->
  let buf := enc ies ++ post in
  let total := Z.of_nat (length (enc ies)) in
  let hit := find_ie (fun e => fst e =? cmp_id) ies 0 in
  let hit_oui := find_ie (fun e => (fst e =? cmp_id) && bytes_eqb (take 4 (snd e)) oui) ies 0 in
  wf_80211_mgmt_ies_search (Some buf) total cmp_id = Ret (fst <$> hit) /\
  wf_80211_mgmt_ies_search_with_oui (Some buf) total cmp_id oui = Ret (fst <$> hit_oui) /\
  wf_wlan_get_ie buf cmp_id total =
    Ret ((fun r : Z * ie => (fst r, Z.of_nat (length (snd (snd r))))) <$> hit) /\
  (forall o e, hit = Some (o, e) \/ hit_oui = Some (o, e) ->
     rd buf o = Ret cmp_id /\ rd buf (o + 1) = Ret (Z.of_nat (length (snd e))) /\
     slice buf (o + 2) (Z.of_nat (length (snd e))) = Ret (snd e)).
Proof.
  intros Hne Hmax Ho H4 buf total hit hit_oui.
  pose proof (length_enc_ge ies) as Hge.
  assert (Hpos : (1 <= length ies)%nat) by (destruct ies; [done | simpl; lia]).
  split; [| split; [| split]].
  - by apply search_enc.
  - by apply search_oui_enc.
  - unfold wf_wlan_get_ie. destruct (Z.ltb_spec total 1); [lia |].
    apply (get_ie_walk post ies total eq_refl Hmax _ _ [] ies); try done.
    pose proof (Z.div_le_lower_bound total 2 (Z.of_nat (length ies)) ltac:(lia) ltac:(lia)). lia.
  - assert (Hat : forall f o e, (forall e, f e = true -> fst e = cmp_id) ->
      find_ie f ies 0 = Some (o, e) ->
      rd buf o = Ret cmp_id /\ rd buf (o + 1) = Ret (Z.of_nat (length (snd e))) /\
      slice buf (o + 2) (Z.of_nat (length (snd e))) = Ret (snd e)).
    { intros f o e Hf H. apply find_ie_at in H as (a & b & Hies & -> & He). rewrite Z.add_0_l.
      unfold buf. rewrite Hies, enc_app, enc_cons, <- !app_assoc.
      destruct (rd_header (enc a) e (enc b ++ post) _ eq_refl) as [-> ->].
      rewrite rd_data by lia. rewrite Nat2Z.id, firstn_all. by rewrite Hf. }
    intros o e [H | H]; eapply Hat; try exact H.
    + intros x Hx. by apply Z.eqb_eq.
    + intros x [Hx _]%andb_prop. by apply Z.eqb_eq.
Qed.

Definition wit_ies : list ie := [(0, [97; 98]); (221, [0; 80; 242; 2; 1]); (48, [1; 0; 0; 15])].

Lemma ies_search_first_witness :
  wf_80211_mgmt_ies_search (Some (enc wit_ies ++ [9])) 17 48 = Ret (Some 11) /\
  wf_80211_mgmt_ies_search_with_oui (Some (enc wit_ies ++ [9])) 17 48 [0; 80; 242; 2] = Ret None.
Proof.
  destruct (ies_search_first wit_ies [9] [0; 80; 242; 2] 48) as (H1 & H2 & _);
    [done | cbn; lia | done | apply list.Forall_forall; intros e He; repeat (apply elem_of_cons in He as [-> | He]; [cbn; lia |]); by apply not_elem_of_nil in He |].
  split; [exact H1 | exact H2].
Defined.

(** On arbitrary bytes the walk reads at most one byte behind the [var_len]
    bytes, and ends. *)
Lemma search_from_safe fuel buf var_len cmp_id offset :
  bytes_ok buf -> 0 <= offset -> (offset = 0 \/ offset < var_len) -> 0 <= var_len <= 65278 ->
  Z.max 2 (var_len + 1) <= Z.of_nat (length buf) ->
  var_len - offset < 2 * Z.of_nat fuel -> (0 < fuel)%nat ->
  exists r, ies_search_from fuel buf var_len cmp_id offset = Ret r /\
    forall o, r = Some o -> rd buf o = Ret cmp_id /\ 0 <= o < Z.max 1 var_len.
Proof.
  intros Hb. revert offset. induction fuel as [| fuel IH]; intros o Ho Hlt Hv Hlen Hf Hpos; [lia |].
  cbn [ies_search_from]. destruct (rd_Ret buf o) as (id & Hid & _); [lia |]. rewrite Hid. cbn [cbind].
  destruct (Z.eqb_spec id cmp_id) as [-> |].
  { exists (Some o). split; [done |]. intros o' [= <-]. split; [done | lia]. }
  destruct (rd_Ret buf (o + 1)) as (len & Hl & Hlk); [lia |]. rewrite Hl. cbn [cbind].
  assert (Hlb : is_u8 len) by (unfold bytes_ok in Hb; rewrite Forall_lookup in Hb; by eapply Hb).
  unfold is_u8 in Hlb. rewrite u16_id by (unfold is_u16; lia).
  destruct (Z.leb_spec var_len (o + (2 + len))); [by exists None |].
  apply IH; lia.
Qed.

(** On arbitrary bytes, for every length up to 65278 (frames are shorter),
    the element search ends and never reads further than one byte behind the
    [var_len] bytes it is given (two bytes when that is empty); the offset it
    reports holds the identifier and lies inside.  The extra byte is really
    read: an empty area, and an area that ends in a lone identifier byte, are
    read past their end. *)
Theorem ies_search_bounds (buf : list Z) (var_len cmp_id : Z) :
  (bytes_ok buf -> 0 <= var_len <= 65278 -> Z.max 2 (var_len + 1) <= Z.of_nat (length buf) ->
   exists r, wf_80211_mgmt_ies_search (Some buf) var_len cmp_id = Ret r /\
     forall o, r = Some o -> rd buf o = Ret cmp_id /\ 0 <= o < Z.max 1 var_len) /\
  wf_80211_mgmt_ies_search (Some []) 0 cmp_id = Fault /\
  (forall b, b <> cmp_id -> wf_80211_mgmt_ies_search (Some [b]) 1 cmp_id = Fault).
Proof.
  split; [| split].
  - intros Hb Hv Hlen. apply search_from_safe; try done; unfold ies_fuel; lia.
  - unfold wf_80211_mgmt_ies_search. destruct ies_fuel eqn:E; [unfold ies_fuel in E; lia | done].
  - intros b Hne. unfold wf_80211_mgmt_ies_search.
    destruct ies_fuel eqn:E; [unfold ies_fuel in E; lia |]. cbn [ies_search_from].
    change (rd [b] 0) with (Ret b). cbn [cbind]. by destruct (Z.eqb_spec b cmp_id).
Qed.

Lemma ies_search_bounds_witness :
  exists r, wf_80211_mgmt_ies_search (Some [5; 200; 7; 7]) 3 9 = Ret r.
Proof.
  destruct (proj1 (ies_search_bounds [5; 200; 7; 7] 3 9)) as (r & H & _);
    [by apply bytes_okb_ok | lia | cbn; lia |].
  exists r. exact H.
Defined.

(** Appending one element. *)
Lemma set_ie_append a e pos frlen rest :
  ie_ok e -> pos = Z.of_nat (length a) -> (2 + length (snd e) <= length rest)%nat ->
  0 <= frlen -> frlen + 257 < 4294967296 ->
  set_ie (a ++ rest) pos (fst e) (Z.of_nat (length (snd e))) (snd e) frlen =
    Ret (a ++ enc_ie e ++ drop (2 + length (snd e)) rest,
         pos + Z.of_nat (length (enc_ie e)), frlen + Z.of_nat (length (enc_ie e))).
Proof.
  intros (Hid & Hl & _) -> Hr Hf Hf2. destruct e as [id d]. cbn [fst snd] in *.
  destruct rest as [| x [| y rest]]; cbn [length] in Hr; try lia.
  unfold set_ie. rewrite wr_app_mid by done. cbn [cbind].
  change (a ++ id :: y :: rest) with (a ++ [id] ++ y :: rest). rewrite app_assoc.
  rewrite wr_app_mid by (rewrite length_app; cbn [length]; lia). cbn [cbind].
  assert (Hbl : (if 0 <? Z.of_nat (length d)
      then letc s := slice d 0 (Z.of_nat (length d)) in
           blit ((a ++ [id]) ++ Z.of_nat (length d) :: rest) (Z.of_nat (length a) + 2) s
      else Ret ((a ++ [id]) ++ Z.of_nat (length d) :: rest)) =
    Ret (a ++ enc_ie (id, d) ++ drop (length d) rest)).
  { replace ((a ++ [id]) ++ Z.of_nat (length d) :: rest) with
      ((a ++ [id; Z.of_nat (length d)]) ++ take (length d) rest ++ drop (length d) rest)
      by (rewrite take_drop, <- !app_assoc; done).
    destruct (Z.ltb_spec 0 (Z.of_nat (length d))).
    - rewrite slice_Ret by lia. cbn [cbind]. rewrite Nat2Z.id. change (drop (Z.to_nat 0) d) with d.
      rewrite firstn_all. rewrite blit_app_mid.
      + by rewrite <- app_assoc.
      + rewrite length_app. cbn [length]. lia.
      + rewrite length_take. lia.
    - destruct d; [| simpl in *; lia]. cbn [length take drop app]. by rewrite <- app_assoc. }
  rewrite Hbl. cbn [cbind]. rewrite u32_id by (unfold is_u32; lia). do 3 f_equal.
  - rewrite length_enc_ie. cbn [snd]. lia.
  - rewrite length_enc_ie. cbn [snd]. lia.
Qed.

(** A series of [set_ie] calls, each at the position the last one returned. *)
Fixpoint set_ies (buf : list Z) (pos frlen : Z) (ies : list ie) : C (list Z * Z * Z) :=
  match ies with
  | [] => Ret (buf, pos, frlen)
  | e :: ies =>
      letc (buf, pos, frlen) := set_ie buf pos (fst e) (Z.of_nat (length (snd e))) (snd e) frlen in
      set_ies buf pos frlen ies
  end.

(** Writing elements one after the other with [set_ie] lays out exactly
    their encoding, counts its length in [frlen], leaves the rest of the
    buffer alone, and never writes outside a buffer that has room for it. *)
Theorem set_ies_layout (ies : list ie) (a rest : list Z) (frlen : Z) :
  Forall ie_ok ies -> (length (enc ies) <= length rest)%nat ->
  0 <= frlen -> frlen + Z.of_nat (length (enc ies)) + 257 < 4294967296 ->
  set_ies (a ++ rest) (Z.of_nat (length a)) frlen ies =
    Ret (a ++ enc ies ++ drop (length (enc ies)) rest,
         Z.of_nat (length a) + Z.of_nat (length (enc ies)),
         frlen + Z.of_nat (length (enc ies))).
Proof.
  intros Hok. revert a rest frlen. induction Hok as [| e ies He _ IH]; intros a rest frlen Hr Hf Hm.
  { cbn [set_ies enc length fmap list_fmap concat app drop]. rewrite !Z.add_0_r. done. }
  rewrite enc_cons, length_app, length_enc_ie in Hr. rewrite enc_cons, length_app, length_enc_ie in Hm.
  rewrite enc_cons, length_app, length_enc_ie. cbn [set_ies].
  rewrite set_ie_append by (done || lia). cbn [cbind]. rewrite length_enc_ie.
  rewrite app_assoc.
  replace (Z.of_nat (length a) + Z.of_nat (2 + length (snd e)))
    with (Z.of_nat (length (a ++ enc_ie e))) by (rewrite length_app, length_enc_ie; lia).
  rewrite IH; [| rewrite length_drop; lia | lia | lia].
  rewrite length_app, length_enc_ie, drop_drop, <- !app_assoc. 
  apply f_equal, (f_equal2 pair); [apply (f_equal2 pair); [done | lia] | lia].
Qed.

Lemma set_ies_layout_witness :
  set_ies (replicate 20 0) 0 0 wit_ies = Ret (enc wit_ies ++ [0; 0; 0], 17, 17).
Proof.
  apply (set_ies_layout wit_ies [] (replicate 20 0) 0);
    [repeat (apply Forall_cons_2; [split; [unfold is_u8; cbn; lia | split; [cbn; lia | by apply bytes_okb_ok]] |]);
     constructor | cbn; lia | lia | cbn; lia].
Defined.
End Ies.
