(* ===== verification/Rsn.v ===== *)
(** * RSN, WPA and WMM elements ([nic/wf_80211.c], lines 142-534)

    The parsers of the security elements and the surveys that look for one in
    a sequence of elements.  [left] is an 8-bit variable in the source and is
    kept so. *)
From S2P Require Import Prelude Ies.

Module Rsn.

Definition WF_80211_MGMT_EID_RSN : Z := 48.
Definition WF_80211_MGMT_EID_VENDOR_SPECIFIC : Z := 221.
Definition WF_80211_OUI_MICROSOFT : Z := 0x0050f2.
Definition WF_80211_OUI_TYPE_MICROSOFT_WPA : Z := 1.
Definition WF_80211_OUI_TYPE_MICROSOFT_WMM : Z := 2.
Definition CIPHER_SUITE_NONE : Z := 1.
Definition CIPHER_SUITE_WEP40 : Z := 2.
Definition CIPHER_SUITE_WEP104 : Z := 4.
Definition CIPHER_SUITE_TKIP : Z := 8.
Definition CIPHER_SUITE_CCMP : Z := 16.

Definition rsne_cipher_suite_parse (cipher_suite : Z) : Z :=
  if cipher_suite =? 0x000FAC00 then CIPHER_SUITE_NONE
  else if cipher_suite =? 0x000FAC01 then CIPHER_SUITE_WEP40
  else if cipher_suite =? 0x000FAC05 then CIPHER_SUITE_WEP104
  else if cipher_suite =? 0x000FAC02 then CIPHER_SUITE_TKIP
  else if cipher_suite =? 0x000FAC04 then CIPHER_SUITE_CCMP
  else 0.

Definition get_wpa_cipher_suite (cipher_suite : Z) : Z :=
  let oui := Z.shiftr cipher_suite 8 in
  if negb (oui =? WF_80211_OUI_MICROSOFT) then 0
  else
    let type := u8 cipher_suite in
    if type =? 0 then CIPHER_SUITE_NONE
    else if type =? 1 then CIPHER_SUITE_WEP40
    else if type =? 2 then CIPHER_SUITE_TKIP
    else if type =? 4 then CIPHER_SUITE_CCMP
    else if type =? 5 then CIPHER_SUITE_WEP104
    else 0.

(** The little-endian half word and the big-endian word at [pos]. *)
Definition rd_le16 (buf : list Z) (pos : Z) : C Z := letc b := slice buf pos 2 in Ret (le_word b).
Definition rd_be32 (buf : list Z) (pos : Z) : C Z := letc b := slice buf pos 4 in Ret (be_word b).

(** The loop over the pairwise suites, [cnt] of them left. *)
Fixpoint suite_loop (suite : Z -> Z) (buf : list Z) (pos : Z) (cnt : nat) (acc : Z) : C Z :=
  match cnt with
  | O => Ret acc
  | S cnt =>
      letc s := rd_be32 buf pos in
      suite_loop suite buf (pos + 4) cnt (Z.lor acc (suite s))
  end.

(** The result of a parser: its return value, and what it stores through the
    two cipher pointers ([None] for nothing). *)
Definition parsed : Type := Z * option Z * option Z.

(** The part the RSN and the WPA parser have in common: version, group suite,
    pairwise count and pairwise suites.  [wg] and [wp] tell whether the cipher
    pointers are given. *)
Definition parse_suites (suite : Z -> Z) (wg wp : bool) (buf : list Z) (pos left : Z) : C parsed :=
  if left <? 2 then Ret (-3, None, None)
  else
    letc version := rd_le16 buf pos in
    if negb (version =? 1) then Ret (-4, None, None)
    else
      let left := u8 (left - 2) in
      let pos := pos + 2 in
      if left =? 0 then Ret (0, None, None)
      else if left <? 4 then Ret (-5, None, None)
      else
        letc g := (if wg then letc s := rd_be32 buf pos in Ret (Some (suite s)) else Ret None) in
        let left := u8 (left - 4) in
        let pos := pos + 4 in
        if left =? 0 then Ret (0, g, None)
        else if left <? 2 then Ret (-6, g, None)
        else
          letc cnt := rd_le16 buf pos in
          let left := u8 (left - 2) in
          let pos := pos + 2 in
          if (cnt =? 0) || (left <? cnt * 4) then Ret (-7, g, None)
          else
            letc p := (if wp then letc p := suite_loop suite buf pos (Z.to_nat cnt) 0 in Ret (Some p)
                       else Ret None) in
            Ret (0, g, p).

(** [wf_80211_mgmt_rsn_parse]; the buffer starts where [prsn] points. *)
Definition wf_80211_mgmt_rsn_parse (prsn : option (list Z)) (len : Z) (wg wp : bool) : C parsed :=
  match prsn with
  | None => Ret (-1, None, None)
  | Some buf =>
      if len =? 0 then Ret (-1, None, None)
      else
        letc element_id := rd buf 0 in
        letc ok := (if element_id =? WF_80211_MGMT_EID_RSN
                    then letc ie_len := rd buf 1 in Ret (2 + ie_len <=? len)
                    else Ret false) in
        if negb ok then Ret (-2, None, None)
        else parse_suites rsne_cipher_suite_parse wg wp buf 2 (u8 (len - 2))
  end.

Definition wf_80211_mgmt_wpa_parse (pwpa : option (list Z)) (len : Z) (wg wp : bool) : C parsed :=
  match pwpa with
  | None => Ret (-1, None, None)
  | Some buf =>
      if len =? 0 then Ret (-1, None, None)
      else
        letc element_id := rd buf 0 in
        letc ok := (if element_id =? WF_80211_MGMT_EID_VENDOR_SPECIFIC
                    then letc ie_len := rd buf 1 in Ret (2 + ie_len <=? len)
                    else Ret false) in
        if negb ok then Ret (-2, None, None)
        else
          let left := u8 (len - 2) in
          if left <? 4 then Ret (-3, None, None)
          else
            letc oui_type := rd_be32 buf 2 in
            if negb (oui_type =? Z.lor (Z.shiftl WF_80211_OUI_MICROSOFT 8)
                                       WF_80211_OUI_TYPE_MICROSOFT_WPA)
            then Ret (-4, None, None)
            else parse_suites get_wpa_cipher_suite wg wp buf 6 (u8 (left - 4))
  end.

(** The loop of both surveys: [parse] on the rest of the elements until it
    accepts.  The result is the parser's, with the offset of the accepted
    element and the value stored in [*prsn_ie_len]. *)
Fixpoint survey_from (fuel : nat) (parse : option (list Z) -> Z -> bool -> bool -> C parsed)
    (data : list Z) (wg wp : bool) (offset ie_len : Z) (g0 p0 : option Z)
    : C (parsed * option (Z * Z)) :=
  match fuel with
  | O => Stuck
  | S fuel =>
      letc (ret, g, p) := parse (Some (drop (Z.to_nat offset) data)) ie_len wg wp in
      (* what an earlier call stored stays when this one stores nothing *)
      let g := match g with Some _ => g | None => g0 end in
      let p := match p with Some _ => p | None => p0 end in
      if ret =? 0 then Ret (0, g, p, Some (offset, ie_len))
      else
        letc len := rd data (offset + 1) in
        let ie_len := u16 (ie_len - (2 + len)) in
        if ie_len <=? 2 then Ret (ret, g, p, None)
        else survey_from fuel parse data wg wp (offset + 2 + len) ie_len g p
  end.

Definition survey_fuel : nat := Z.to_nat 32768.

Definition wf_80211_mgmt_rsn_survey (data : list Z) (data_len : Z) (wg wp : bool)
    : C (parsed * option (Z * Z)) :=
  survey_from survey_fuel wf_80211_mgmt_rsn_parse data wg wp 0 data_len None None.

Definition wf_80211_mgmt_wpa_survey (data : list Z) (data_len : Z) (wg wp : bool)
    : C (parsed * option (Z * Z)) :=
  survey_from survey_fuel wf_80211_mgmt_wpa_parse data wg wp 0 data_len None None.

Definition wf_80211_mgmt_wmm_parse (pwmm : option (list Z)) (len : Z) : C Z :=
  match pwmm with
  | None => Ret (-1)
  | Some buf =>
      if len =? 0 then Ret (-1)
      else
        letc element_id := rd buf 0 in
        letc ok := (if element_id =? WF_80211_MGMT_EID_VENDOR_SPECIFIC
                    then letc ie_len := rd buf 1 in Ret (2 + ie_len <=? len)
                    else Ret false) in
        if negb ok then Ret (-2)
        else
          letc o0 := rd buf 2 in letc o1 := rd buf 3 in letc o2 := rd buf 4 in
          letc oui_type := rd buf 5 in
          let oui := Z.lor (Z.lor (Z.shiftl o0 16) (Z.shiftl o1 8)) (Z.shiftl o2 0) in
          if negb ((oui =? WF_80211_OUI_MICROSOFT) && (oui_type =? WF_80211_OUI_TYPE_MICROSOFT_WMM))
          then Ret (-3)
          else
            letc oui_subtype := rd buf 6 in
            letc version := rd buf 7 in
            if negb ((oui_subtype =? 0) && (version =? 1)) then Ret (-4) else Ret 0
  end.

(** ** Reading stays in the given length *)

Lemma rd_le16_Ret buf pos : 0 <= pos -> pos + 2 <= Z.of_nat (length buf) ->
  exists v, rd_le16 buf pos = Ret v.
Proof. intros Hp Hl. unfold rd_le16. rewrite slice_Ret by lia. cbn [cbind]. eauto. Qed.

Lemma rd_be32_Ret buf pos : 0 <= pos -> pos + 4 <= Z.of_nat (length buf) ->
  exists v, rd_be32 buf pos = Ret v.
Proof. intros Hp Hl. unfold rd_be32. rewrite slice_Ret by lia. cbn [cbind]. eauto. Qed.

Lemma suite_loop_Ret suite buf pos cnt acc :
  0 <= pos -> pos + 4 * Z.of_nat cnt <= Z.of_nat (length buf) ->
  exists v, suite_loop suite buf pos cnt acc = Ret v.
Proof.
  revert pos acc. induction cnt as [| cnt IH]; intros pos acc Hp Hl; cbn [suite_loop]; [eauto |].
  destruct (rd_be32_Ret buf pos) as [v ->]; [lia | lia |]. cbn [cbind]. apply IH; lia.
Qed.

Lemma parse_suites_Ret suite wg wp buf pos left :
  0 <= pos -> 0 <= left < 256 -> pos + left <= Z.of_nat (length buf) ->
  exists r, parse_suites suite wg wp buf pos left = Ret r.
Proof.
  intros Hp Hleft Hl. unfold parse_suites.
  destruct (Z.ltb_spec left 2); [eauto |].
  destruct (rd_le16_Ret buf pos) as [v ->]; [lia | lia |]. cbn [cbind].
  destruct (negb (v =? 1)); [eauto |]. rewrite (u8_id (left - 2)) by (unfold is_u8; lia).
  destruct (Z.eqb_spec (left - 2) 0); [eauto |]. destruct (Z.ltb_spec (left - 2) 4); [eauto |].
  assert (Hg : exists g, (if wg then letc s := rd_be32 buf (pos + 2) in Ret (Some (suite s))
                          else Ret None) = Ret g).
  { destruct wg; [| eauto]. destruct (rd_be32_Ret buf (pos + 2)) as [s ->]; [lia | lia |].
    cbn [cbind]. eauto. }
  destruct Hg as [g ->]. cbn [cbind]. rewrite (u8_id (left - 2 - 4)) by (unfold is_u8; lia).
  destruct (Z.eqb_spec (left - 2 - 4) 0); [eauto |].
  destruct (Z.ltb_spec (left - 2 - 4) 2); [eauto |].
  destruct (rd_le16_Ret buf (pos + 2 + 4)) as [cnt ->]; [lia | lia |]. cbn [cbind].
  rewrite (u8_id (left - 2 - 4 - 2)) by (unfold is_u8; lia).
  destruct (Z.eqb_spec cnt 0); cbn [orb]; [eauto |].
  destruct (Z.ltb_spec (left - 2 - 4 - 2) (cnt * 4)); [eauto |].
  destruct wp; cbn [cbind]; [| eauto].
  destruct (suite_loop_Ret suite buf (pos + 2 + 4 + 2) (Z.to_nat cnt) 0) as [p ->]; [lia | lia |].
  cbn [cbind]. eauto.
Qed.

Lemma u8_le x : 0 <= x -> 0 <= u8 x <= x.
Proof. intros Hx. unfold u8. split; [apply Z.mod_pos_bound; lia | apply Z.mod_le; lia]. Qed.

(** ** Encoded elements *)

Definition be4 (x : Z) : list Z := rev (le_bytes 4 x).

(** Version 1, the group suite, the count and the pairwise suites, and the
    fields behind them that the parsers skip. *)
Definition suites_body (g : Z) (ps extra : list Z) : list Z :=
  [1; 0] ++ be4 g ++ le_bytes 2 (Z.of_nat (length ps)) ++ concat (be4 <$> ps) ++ extra.

Definition all_suites (suite : Z -> Z) (ps : list Z) : Z :=
  foldl (fun acc s => Z.lor acc (suite s)) 0 ps.

Lemma length_be4 x : length (be4 x) = 4%nat.
Proof. unfold be4. by rewrite length_rev, length_le_bytes. Qed.

Lemma be_word_be4 x : is_u32 x -> be_word (be4 x) = x.
Proof. intros Hx. unfold be_word, be4. rewrite rev_involutive. by apply le_bytes_u32. Qed.

Lemma rd_be32_enc a x b pos : is_u32 x -> pos = Z.of_nat (length a) ->
  rd_be32 (a ++ be4 x ++ b) pos = Ret x.
Proof.
  intros Hx ->. unfold rd_be32. rewrite slice_app_mid by (rewrite ?length_be4; done).
  cbn [cbind]. by rewrite be_word_be4.
Qed.

Lemma rd_le16_enc a x b pos : 0 <= x < 65536 -> pos = Z.of_nat (length a) ->
  rd_le16 (a ++ le_bytes 2 x ++ b) pos = Ret x.
Proof.
  intros Hx ->. unfold rd_le16. rewrite slice_app_mid by (rewrite ?length_le_bytes; done).
  cbn [cbind]. rewrite le_word_bytes. by rewrite Z.mod_small.
Qed.

Lemma length_suites ps : length (concat (be4 <$> ps)) = (4 * length ps)%nat.
Proof.
  induction ps as [| x ps IH]; [done |]. rewrite fmap_cons. cbn [concat].
  rewrite length_app, length_be4, IH. simpl. lia.
Qed.

Lemma suite_loop_enc suite a ps b pos acc : Forall is_u32 ps -> pos = Z.of_nat (length a) ->
  suite_loop suite (a ++ concat (be4 <$> ps) ++ b) pos (length ps) acc =
    Ret (foldl (fun acc s => Z.lor acc (suite s)) acc ps).
Proof.
  intros Hps. revert a pos acc. induction Hps as [| x ps Hx _ IH]; intros a pos acc ->; [done |].
  rewrite fmap_cons. cbn [concat suite_loop length foldl]. rewrite <- app_assoc.
  rewrite rd_be32_enc by done. cbn [cbind]. rewrite app_assoc. apply IH.
  rewrite length_app, length_be4. lia.
Qed.

Lemma parse_suites_enc suite a g ps extra b pos left :
  is_u32 g -> Forall is_u32 ps -> ps <> [] -> pos = Z.of_nat (length a) ->
  left = Z.of_nat (length (suites_body g ps extra)) -> left < 256 ->
  parse_suites suite true true (a ++ suites_body g ps extra ++ b) pos left =
    Ret (0, Some (suite g), Some (all_suites suite ps)).
Proof.
  intros Hg Hps Hne -> Hleft Hmax. unfold suites_body in *.
  rewrite !length_app, length_be4, length_le_bytes, length_suites in Hleft. cbn [length] in Hleft.
  assert (Hn : (1 <= length ps)%nat) by (destruct ps; [done | simpl; lia]).
  unfold parse_suites. destruct (Z.ltb_spec left 2); [lia |].
  change ([1; 0] ++ ?l) with (le_bytes 2 1 ++ l) at 1. rewrite <- !app_assoc.
  rewrite rd_le16_enc by (done || lia). cbn [cbind Z.eqb Pos.eqb negb].
  rewrite (u8_id (left - 2)) by (unfold is_u8; lia).
  destruct (Z.eqb_spec (left - 2) 0); [lia |]. destruct (Z.ltb_spec (left - 2) 4); [lia |].
  rewrite (app_assoc a). rewrite rd_be32_enc by (try done; rewrite length_app; cbn [length]; lia).
  cbn [cbind]. rewrite (u8_id (left - 2 - 4)) by (unfold is_u8; lia).
  destruct (Z.eqb_spec (left - 2 - 4) 0); [lia |]. destruct (Z.ltb_spec (left - 2 - 4) 2); [lia |].
  rewrite (app_assoc _ (be4 g)).
  rewrite rd_le16_enc by (try lia; rewrite !length_app, length_be4; cbn [length]; lia).
  cbn [cbind]. rewrite (u8_id (left - 2 - 4 - 2)) by (unfold is_u8; lia).
  destruct (Z.eqb_spec (Z.of_nat (length ps)) 0); [lia |].
  destruct (Z.ltb_spec (left - 2 - 4 - 2) (Z.of_nat (length ps) * 4)); [lia |]. cbn [orb].
  rewrite (app_assoc _ (le_bytes 2 _)). rewrite Nat2Z.id.
  rewrite suite_loop_enc; [done | done |].
  rewrite !length_app, length_be4, length_le_bytes. cbn [length]. lia.
Qed.

(** ** Properties *)

(** Whatever the bytes, the RSN and the WPA parser return without reading
    outside the [len] bytes they are given (two bytes when [len] is one). *)
Theorem sec_parse_safe (buf : list Z) (len : Z) (wg wp : bool) :
  0 <= len < 65536 -> Z.max 2 len <= Z.of_nat (length buf) -> bytes_ok buf ->
  (exists r, wf_80211_mgmt_rsn_parse (Some buf) len wg wp = Ret r) /\
  (exists r, wf_80211_mgmt_wpa_parse (Some buf) len wg wp = Ret r).
Proof.
  intros Hlen Hl Hb. unfold wf_80211_mgmt_rsn_parse, wf_80211_mgmt_wpa_parse.
  destruct (Z.eqb_spec len 0); [eauto |].
  destruct (rd_Ret buf 0) as (id & -> & _); [lia |].
  destruct (rd_Ret buf 1) as (ielen & -> & Hie); [lia |]. cbn [cbind].
  assert (Hie8 : is_u8 ielen) by (unfold bytes_ok in Hb; rewrite Forall_lookup in Hb; by eapply Hb).
  unfold is_u8 in Hie8. split.
  - destruct (id =? WF_80211_MGMT_EID_RSN); cbn [cbind negb]; [| eauto].
    destruct (Z.leb_spec (2 + ielen) len); cbn [negb]; [| eauto].
    pose proof (u8_le (len - 2) ltac:(lia)). pose proof (u8_range (len - 2)) as Hr.
    unfold is_u8 in Hr. apply parse_suites_Ret; lia.
  - destruct (id =? WF_80211_MGMT_EID_VENDOR_SPECIFIC); cbn [cbind negb]; [| eauto].
    destruct (Z.leb_spec (2 + ielen) len); cbn [negb]; [| eauto].
    pose proof (u8_le (len - 2) ltac:(lia)). pose proof (u8_range (len - 2)) as Hr.
    unfold is_u8 in Hr. destruct (Z.ltb_spec (u8 (len - 2)) 4); [eauto |].
    destruct (rd_be32_Ret buf 2) as [o ->]; [lia | lia |]. cbn [cbind].
    destruct (negb _); [eauto |]. rewrite (u8_id (u8 (len - 2) - 4)) by (unfold is_u8; lia).
    apply parse_suites_Ret; lia.
Qed.

Lemma sec_parse_safe_witness :
  exists r, wf_80211_mgmt_rsn_parse (Some [48; 4; 1; 0; 0; 15]) 6 true true = Ret r.
Proof.
  apply (sec_parse_safe [48; 4; 1; 0; 0; 15] 6 true true);
    [lia | cbn; lia | by apply bytes_okb_ok].
Defined.

(** An RSN element, and a WPA element, that lists a group suite and at
    least one pairwise suite is accepted when its own length is passed, and
    the group cipher and the union of the pairwise ciphers are stored. *)
Theorem sec_parse_encoded (g : Z) (ps extra post : list Z) :
  is_u32 g -> Forall is_u32 ps -> ps <> [] ->
  (length (suites_body g ps extra) < 252)%nat ->
  let rsn := suites_body g ps extra in
  let wpa := [0; 0x50; 0xf2; 1] ++ suites_body g ps extra in
  wf_80211_mgmt_rsn_parse (Some (Ies.enc_ie (48, rsn) ++ post)) (2 + Z.of_nat (length rsn)) true true =
    Ret (0, Some (rsne_cipher_suite_parse g), Some (all_suites rsne_cipher_suite_parse ps)) /\
  wf_80211_mgmt_wpa_parse (Some (Ies.enc_ie (221, wpa) ++ post)) (2 + Z.of_nat (length wpa)) true true =
    Ret (0, Some (get_wpa_cipher_suite g), Some (all_suites get_wpa_cipher_suite ps)).
Proof.
  intros Hg Hps Hne Hl rsn wpa.
  assert (Hrd : forall id d, rd (Ies.enc_ie (id, d) ++ post) 0 = Ret id /\
    rd (Ies.enc_ie (id, d) ++ post) 1 = Ret (Z.of_nat (length d))).
  { intros id d. by destruct (Ies.rd_header [] (id, d) post 0 eq_refl). }
  split.
  - unfold wf_80211_mgmt_rsn_parse. destruct (Z.eqb_spec (2 + Z.of_nat (length rsn)) 0); [lia |].
    destruct (Hrd 48 rsn) as [-> ->]. cbn [cbind Z.eqb Pos.eqb WF_80211_MGMT_EID_RSN].
    rewrite Z.leb_refl. cbn [negb]. rewrite Z.add_simpl_l, u8_id by (unfold is_u8, rsn; lia).
    change (Ies.enc_ie (48, rsn) ++ post) with ([48; Z.of_nat (length rsn)] ++ rsn ++ post).
    apply parse_suites_enc; (done || unfold rsn; lia).
  - assert (Hwl : length wpa = (4 + length rsn)%nat) by done.
    unfold wf_80211_mgmt_wpa_parse. destruct (Z.eqb_spec (2 + Z.of_nat (length wpa)) 0); [lia |].
    destruct (Hrd 221 wpa) as [-> ->]. cbn [cbind Z.eqb Pos.eqb WF_80211_MGMT_EID_VENDOR_SPECIFIC].
    rewrite Z.leb_refl. cbn [negb].
    rewrite Z.add_simpl_l, (u8_id (Z.of_nat (length wpa))) by (unfold is_u8; rewrite Hwl; unfold rsn; lia).
    destruct (Z.ltb_spec (Z.of_nat (length wpa)) 4); [lia |].
    change (Ies.enc_ie (221, wpa) ++ post) with
      ([221; Z.of_nat (length wpa)] ++ be4 0x0050f201 ++ rsn ++ post).
    rewrite rd_be32_enc by (done || unfold is_u32; lia). cbn [cbind].
    change (negb _) with false. cbv iota. rewrite app_assoc.
    rewrite u8_id by (unfold is_u8; rewrite Hwl; unfold rsn; lia).
    apply parse_suites_enc; try done; rewrite Hwl; unfold rsn; lia.
Qed.

Lemma sec_parse_encoded_witness :
  wf_80211_mgmt_rsn_parse
    (Some (Ies.enc_ie (48, suites_body 0x000FAC02 [0x000FAC04; 0x000FAC02] [1; 0; 0; 15; 172; 2; 0; 0]) ++ [9]))
    26 true true = Ret (0, Some CIPHER_SUITE_TKIP, Some (Z.lor CIPHER_SUITE_CCMP CIPHER_SUITE_TKIP)).
Proof.
  apply (sec_parse_encoded 0x000FAC02 [0x000FAC04; 0x000FAC02] [1; 0; 0; 15; 172; 2; 0; 0] [9]);
    [unfold is_u32; lia | repeat constructor; unfold is_u32; lia | done | cbn; lia].
Defined.

Lemma suites_body_app g ps extra more :
  suites_body g ps extra ++ more = suites_body g ps (extra ++ more).
Proof. unfold suites_body. by rewrite <- !app_assoc. Qed.

(** The RSN parser on an element followed by others. *)
Lemma rsn_parse_rest g ps extra more post :
  is_u32 g -> Forall is_u32 ps -> ps <> [] ->
  let rsn := suites_body g ps extra in
  Z.of_nat (length (rsn ++ more)) < 256 ->
  wf_80211_mgmt_rsn_parse (Some (Ies.enc_ie (48, rsn) ++ more ++ post))
    (2 + Z.of_nat (length (rsn ++ more))) true true =
  Ret (0, Some (rsne_cipher_suite_parse g), Some (all_suites rsne_cipher_suite_parse ps)).
Proof.
  intros Hg Hps Hne rsn Hl. unfold wf_80211_mgmt_rsn_parse.
  destruct (Z.eqb_spec (2 + Z.of_nat (length (rsn ++ more))) 0); [lia |].
  destruct (Ies.rd_header [] (48, rsn) (more ++ post) 0 eq_refl) as [H0 H1].
  rewrite app_nil_l in H0, H1. rewrite H0. change 1 with (0 + 1) at 1. rewrite H1.
  cbn [cbind Z.eqb Pos.eqb WF_80211_MGMT_EID_RSN fst snd].
  destruct (Z.leb_spec (2 + Z.of_nat (length rsn)) (2 + Z.of_nat (length (rsn ++ more))));
    [| rewrite length_app in *; lia].
  cbn [negb]. rewrite Z.add_simpl_l, u8_id by (unfold is_u8; lia).
  change (Ies.enc_ie (48, rsn) ++ more ++ post) with
    ([48; Z.of_nat (length rsn)] ++ rsn ++ more ++ post).
  rewrite (app_assoc rsn). unfold rsn in *. rewrite suites_body_app in *.
  by apply parse_suites_enc.
Qed.

(** An element with another identifier is refused. *)
Lemma rsn_parse_other e rest len : fst e <> 48 -> 0 < len ->
  wf_80211_mgmt_rsn_parse (Some (Ies.enc_ie e ++ rest)) len true true = Ret (-2, None, None).
Proof.
  intros Hid Hlen. unfold wf_80211_mgmt_rsn_parse. destruct (Z.eqb_spec len 0); [lia |].
  destruct (Ies.rd_header [] e rest 0 eq_refl) as [H0 _]. rewrite app_nil_l in H0. rewrite H0.
  cbn [cbind]. unfold WF_80211_MGMT_EID_RSN. by destruct (Z.eqb_spec (fst e) 48).
Qed.

Lemma survey_skip fuel a0 a e b post total :
  Forall (fun x : Ies.ie => fst x <> 48) a -> (1 <= length (snd e))%nat ->
  total = Z.of_nat (length (Ies.enc (a0 ++ a ++ e :: b))) -> total < 65536 ->
  let data := Ies.enc (a0 ++ a ++ e :: b) ++ post in
  survey_from (length a + fuel) wf_80211_mgmt_rsn_parse data true true
    (Z.of_nat (length (Ies.enc a0))) (total - Z.of_nat (length (Ies.enc a0))) None None =
  survey_from fuel wf_80211_mgmt_rsn_parse data true true
    (Z.of_nat (length (Ies.enc (a0 ++ a)))) (total - Z.of_nat (length (Ies.enc (a0 ++ a)))) None None.
Proof.
  intros Ha He. revert a0. induction Ha as [| x a Hx _ IH]; intros a0 Htot Hmax data.
  { cbn [length Nat.add]. by rewrite app_nil_r. }
  cbn [length Nat.add survey_from].
  assert (Hdata : data = Ies.enc a0 ++ Ies.enc_ie x ++ Ies.enc (a ++ e :: b) ++ post).
  { unfold data. rewrite Ies.enc_app. change ((x :: a) ++ e :: b) with (x :: (a ++ e :: b)).
    by rewrite Ies.enc_cons, <- !app_assoc. }
  pose proof (Ies.length_enc_ie x) as Hlx.
  assert (Hlen : (length (Ies.enc a0) + (length (Ies.enc_ie x) + length (Ies.enc (a ++ e :: b))) =
    Z.to_nat total)%nat).
  { rewrite Htot, (Ies.enc_app a0). change ((x :: a) ++ e :: b) with (x :: (a ++ e :: b)).
    rewrite (Ies.enc_cons x), !(length_app (Ies.enc a0)), (length_app (Ies.enc_ie x)). lia. }
  assert (Hrest : (3 <= length (Ies.enc (a ++ e :: b)))%nat).
  { rewrite Ies.enc_app, Ies.enc_cons, !length_app, Ies.length_enc_ie. lia. }
  rewrite Hdata at 1. rewrite Nat2Z.id, drop_app_length.
  rewrite rsn_parse_other by (done || lia). cbn [cbind Z.eqb Pos.eqb].
  destruct (Ies.rd_header (Ies.enc a0) x (Ies.enc (a ++ e :: b) ++ post) _ eq_refl) as [_ Hl].
  rewrite Hdata at 1. rewrite Hl. cbn [cbind].
  assert (Hsnoc : Z.of_nat (length (Ies.enc a0)) + 2 + Z.of_nat (length (snd x)) =
    Z.of_nat (length (Ies.enc (a0 ++ [x])))).
  { rewrite Ies.enc_app, length_app. change (Ies.enc [x]) with (Ies.enc_ie x ++ []).
    rewrite app_nil_r. lia. }
  rewrite u16_id by (unfold is_u16; lia).
  destruct (Z.leb_spec (total - Z.of_nat (length (Ies.enc a0)) - (2 + Z.of_nat (length (snd x)))) 2);
    [lia |].
  replace (total - _ - (2 + _)) with (total - Z.of_nat (length (Ies.enc (a0 ++ [x])))) by lia.
  rewrite Hsnoc. specialize (IH (a0 ++ [x])). rewrite <- !app_assoc in IH. cbn [app] in IH.
  apply IH; done.
Qed.

(** In a sequence of well-formed elements, the RSN survey stops at the
    first RSN element and stores its ciphers and its position, provided at
    most 257 bytes remain from it on.  Without that limit it does not: [left]
    is an 8-bit variable computed from all that remains, so when 258 or 259
    bytes remain the parser refuses the element whatever it says. *)
Theorem rsn_survey_first (a b : list Ies.ie) (g : Z) (ps extra post : list Z) :
  is_u32 g -> Forall is_u32 ps -> ps <> [] ->
  Forall (fun x : Ies.ie => fst x <> 48) a ->
  let e := (48, suites_body g ps extra) in
  let data := Ies.enc (a ++ e :: b) ++ post in
  let total := Z.of_nat (length (Ies.enc (a ++ e :: b))) in
  let rest := Z.of_nat (length (Ies.enc (e :: b))) in
  total < 65536 ->
  (rest <= 257 ->
     wf_80211_mgmt_rsn_survey data total true true =
       Ret (0, Some (rsne_cipher_suite_parse g), Some (all_suites rsne_cipher_suite_parse ps),
            Some (Z.of_nat (length (Ies.enc a)), rest))) /\
  (rest = 258 \/ rest = 259 ->
     wf_80211_mgmt_rsn_parse (Some (Ies.enc (e :: b) ++ post)) rest true true =
       Ret (-3, None, None)).
Proof.
  intros Hg Hps Hne Ha e data total rest Hmax.
  assert (Hrest : rest = 2 + Z.of_nat (length (suites_body g ps extra ++ Ies.enc b))).
  { unfold rest. rewrite Ies.enc_cons, !length_app, Ies.length_enc_ie. cbn [snd e]. lia. }
  split.
  - intros Hr. unfold wf_80211_mgmt_rsn_survey.
    pose proof (Ies.length_enc_ge (a ++ e :: b)) as Hge. rewrite length_app in Hge. cbn [length] in Hge.
    assert (Hf : exists f, survey_fuel = (length a + S f)%nat).
    { exists (survey_fuel - length a - 1)%nat. unfold survey_fuel, total in *. lia. }
    destruct Hf as [f ->].
    assert (Hbody : (1 <= length (snd e))%nat) by (cbn [snd e]; unfold suites_body; simpl; lia).
    pose proof (survey_skip (S f) [] a e b post total Ha Hbody eq_refl Hmax) as Hs.
    cbn [app] in Hs. change (Z.of_nat (length (Ies.enc []))) with 0 in Hs. rewrite Z.sub_0_r in Hs.
    unfold data. rewrite Hs. cbn [survey_from].
    assert (Htot : total - Z.of_nat (length (Ies.enc a)) = rest).
    { unfold total, rest. rewrite Ies.enc_app, length_app. lia. }
    rewrite Htot, Nat2Z.id.
    rewrite Ies.enc_app, <- app_assoc, drop_app_length, Ies.enc_cons, <- app_assoc, Hrest.
    unfold e. rewrite (rsn_parse_rest g ps extra (Ies.enc b) post) by (done || lia). done.
  - intros Hr. unfold wf_80211_mgmt_rsn_parse. destruct (Z.eqb_spec rest 0); [lia |].
    rewrite Ies.enc_cons, <- app_assoc.
    destruct (Ies.rd_header [] e (Ies.enc b ++ post) 0 eq_refl) as [H0 H1].
    rewrite app_nil_l in H0, H1. rewrite H0. change 1 with (0 + 1) at 1. rewrite H1.
    cbn [cbind Z.eqb Pos.eqb WF_80211_MGMT_EID_RSN fst snd e].
    rewrite length_app in Hrest.
    destruct (Z.leb_spec (2 + Z.of_nat (length (suites_body g ps extra))) rest); [| lia].
    cbn [negb]. unfold parse_suites.
    replace (u8 (rest - 2)) with (rest - 258).
    2: { destruct Hr as [-> | ->]; reflexivity. }
    by destruct (Z.ltb_spec (rest - 258) 2); [| lia].
Qed.

Definition wit_rsn : Ies.ie := (48, suites_body 0x000FAC04 [0x000FAC04] []).

Lemma rsn_survey_first_witness :
  wf_80211_mgmt_rsn_survey (Ies.enc [(0, [97]); wit_rsn; (3, [6])] ++ []) 20 true true =
    Ret (0, Some CIPHER_SUITE_CCMP, Some CIPHER_SUITE_CCMP, Some (3, 17)) /\
  wf_80211_mgmt_rsn_parse (Some (Ies.enc [wit_rsn; (221, replicate 242 0)] ++ [])) 258 true true =
    Ret (-3, None, None).
Proof.
  split.
  - apply (rsn_survey_first [(0, [97])] [(3, [6])] 0x000FAC04 [0x000FAC04] [] []);
      [unfold is_u32; lia | repeat constructor; unfold is_u32; lia | done
       | repeat constructor; cbn; lia | cbn; lia | cbn; lia].
  - apply (rsn_survey_first [] [(221, replicate 242 0)] 0x000FAC04 [0x000FAC04] [] []);
      [unfold is_u32; lia | repeat constructor; unfold is_u32; lia | done
       | constructor | vm_compute; done | left; vm_compute; reflexivity].
Defined.
End Rsn.
