(* ===== verification/Wlan.v ===== *)
(** * Addresses, channels and WPS elements ([nic/wf_80211.c], lines 107-140 and 609-819)

    The classification of SNAP headers and of the BSSID field, the mapping
    between channels and frequencies, and the access to WPS elements and their
    attributes. *)
From S2P Require Import Prelude Ies.

Module Wlan.

Definition SNAP_ETH_TYPE_IPX : list Z := [0x81; 0x37].
Definition SNAP_ETH_TYPE_APPLETALK_AARP : list Z := [0x80; 0xf3].
Definition wl_rfc1042_header : list Z := [0xaa; 0xaa; 0x03; 0x00; 0x00; 0x00].
Definition wl_bridge_tunnel_header : list Z := [0xaa; 0xaa; 0x03; 0x00; 0x00; 0xf8].
Definition SNAP_HDR_SIZE : Z := 6.

(** [memcmp]: zero, or the difference of the first bytes that differ. *)
Fixpoint memcmp (a b : list Z) : Z :=
  match a, b with
  | x :: a, y :: b => if x =? y then memcmp a b else x - y
  | _, _ => 0
  end.

Definition array_equal (a b : list Z) : bool := memcmp a b =? 0.

Definition is_snap_hdr (phdr : list Z) : C bool :=
  letc psnap := slice phdr 0 SNAP_HDR_SIZE in
  if array_equal psnap wl_rfc1042_header then
    letc psnap_type := slice phdr SNAP_HDR_SIZE 2 in
    Ret ((negb (array_equal psnap_type SNAP_ETH_TYPE_IPX) &&
          negb (array_equal psnap_type SNAP_ETH_TYPE_APPLETALK_AARP))
         || array_equal psnap wl_bridge_tunnel_header)
  else Ret (array_equal psnap wl_bridge_tunnel_header).

(** [get_bssid]: the offset of the field the returned pointer is at. *)
Definition get_bssid (pbuf : list Z) : C (option Z) :=
  letc fc := slice pbuf 0 2 in
  let ds := Z.shiftr (Z.land (le_word fc) (Z.lor (BIT 8) (BIT 9))) 8 in
  Ret (if ds =? 0 then Some 16 else if ds =? 1 then Some 4 else if ds =? 2 then Some 10 else None).

Definition wf_ch_2_freq (ch : Z) : Z :=
  if (1 <=? ch) && (ch <=? 13) then 2407 + ch * 5
  else if ch =? 14 then 2484
  else if (36 <=? ch) && (ch <=? 177) then 5000 + ch * 5
  else 0.

Definition freq_2_ch (freq : Z) : Z :=
  if freq <? 2484 then Z.quot (freq - 2407) 5
  else if freq =? 2484 then 14
  else if (4910 <=? freq) && (freq <=? 4980) then Z.quot (freq - 4000) 5
  else if freq <=? 45000 then Z.quot (freq - 5000) 5
  else if (58320 <=? freq) && (freq <=? 64800) then Z.quot (freq - 56160) 2160
  else 0.

(** ** WPS *)

Definition wps_oui : list Z := [0x00; 0x50; 0xf2; 0x04].
Definition _WPA_IE_ID_ : Z := 0xdd.

(** [wf_wlan_check_is_wps_ie]: the result and the value stored in
    [*wps_ielen]. *)
Definition wf_wlan_check_is_wps_ie (ie_ptr : option (list Z)) : C (bool * option Z) :=
  match ie_ptr with
  | None => Ret (false, None)
  | Some p =>
      letc eid := rd p 0 in
      if eid =? _WPA_IE_ID_ then
        letc d := slice p 2 4 in
        if memcmp d wps_oui =? 0 then letc l := rd p 1 in Ret (true, Some (l + 2))
        else Ret (false, None)
      else Ret (false, None)
  end.

(** The loop of [wf_wlan_get_wps_ie]: the offset of the element, the bytes it
    copies to [wps_ie] when that is given, and [*ie_len]. *)
Fixpoint wps_ie_from (fuel : nat) (temp_ie : list Z) (temp_len : Z) (want : bool) (count : Z)
    : C (option (Z * option (list Z) * Z)) :=
  if count + 1 + 4 <? temp_len then
    match fuel with
    | O => Stuck
    | S fuel =>
        letc eid := rd temp_ie count in
        letc found := (if eid =? 221 then letc d := slice temp_ie (count + 2) 4 in
                                          Ret (memcmp d wps_oui =? 0)
                       else Ret false) in
        if (found : bool) then
          letc copied := (if want then
                            letc n := rd temp_ie (count + 1 + 2) in
                            letc c := slice temp_ie count n in Ret (Some c)
                          else Ret None) in
          letc l := rd temp_ie (count + 1) in
          Ret (Some (count, copied, l + 2))
        else
          letc l := rd temp_ie (count + 1) in
          wps_ie_from fuel temp_ie temp_len want (u32 (count + (l + 2)))
    end
  else Ret None.

Definition wf_wlan_get_wps_ie (temp_ie : option (list Z)) (temp_len : Z) (want : bool)
    : C (option (Z * option (list Z) * Z)) :=
  match temp_ie with
  | None => Ret None
  | Some p => if temp_len =? 0 then Ret None
              else wps_ie_from (Z.to_nat (temp_len / 2)) p temp_len want 0
  end.

(** [WF_GET_BE16] *)
Definition get_be16 (buf : list Z) (i : Z) : C Z :=
  letc h := rd buf i in letc l := rd buf (i + 1) in Ret (u16 (Z.lor (Z.shiftl h 8) l)).

(** The loop of [wf_wlan_get_wps_attr]: offset and length of the attribute. *)
Fixpoint wps_attr_from (fuel : nat) (wps_ie : list Z) (wps_ielen target_attr_id attr : Z)
    : C (option (Z * Z)) :=
  if attr <? wps_ielen then
    match fuel with
    | O => Stuck
    | S fuel =>
        letc attr_id := get_be16 wps_ie attr in
        letc attr_data_len := get_be16 wps_ie (attr + 2) in
        let attr_len := u16 (attr_data_len + 4) in
        if attr_id =? target_attr_id then Ret (Some (attr, attr_len))
        else wps_attr_from fuel wps_ie wps_ielen target_attr_id (attr + attr_len)
    end
  else Ret None.

Definition wf_true : Z := 1.

Definition wf_wlan_get_wps_attr (wps_ie : list Z) (wps_ielen target_attr_id : Z)
    : C (option (Z * Z)) :=
  letc eid := rd wps_ie 0 in
  if negb (eid =? 221) then Ret None
  else
    letc d := slice wps_ie 2 4 in
    if negb (memcmp d wps_oui =? wf_true) then Ret None
    else wps_attr_from (Z.to_nat wps_ielen) wps_ie wps_ielen target_attr_id 6.

(** [wf_wlan_get_wps_attr_content]: offset and bytes of the content. *)
Definition wf_wlan_get_wps_attr_content (wps_ie : list Z) (wps_ielen target_attr_id : Z)
    : C (option (Z * list Z)) :=
  letc r := wf_wlan_get_wps_attr wps_ie wps_ielen target_attr_id in
  match r with
  | Some (attr, attr_len) =>
      if nz attr_len then
        letc c := slice wps_ie (attr + 4) (attr_len - 4) in Ret (Some (attr + 4, c))
      else Ret None
  | None => Ret None
  end.

(** ** Properties *)

(** The frequency of every channel the driver supports (1 to 14, 36 to
    177) is mapped back to that channel; every other number has no
    frequency. *)
Theorem ch_freq_roundtrip (ch : Z) :
  (1 <= ch <= 14 \/ 36 <= ch <= 177 -> freq_2_ch (wf_ch_2_freq ch) = ch) /\
  (wf_ch_2_freq ch <> 0 <-> 1 <= ch <= 14 \/ 36 <= ch <= 177).
Proof.
  unfold wf_ch_2_freq. split.
  - intros Hch. destruct (Z.leb_spec 1 ch); cbn [andb].
    2: { lia. }
    destruct (Z.leb_spec ch 13).
    { unfold freq_2_ch. destruct (Z.ltb_spec (2407 + ch * 5) 2484); [| lia].
      rewrite Z.add_simpl_l. apply Z.quot_mul. lia. }
    destruct (Z.eqb_spec ch 14) as [-> |]; [done |].
    destruct (Z.leb_spec 36 ch); [| lia]. destruct (Z.leb_spec ch 177); [| lia]. cbn [andb].
    unfold freq_2_ch. destruct (Z.ltb_spec (5000 + ch * 5) 2484); [lia |].
    destruct (Z.eqb_spec (5000 + ch * 5) 2484); [lia |].
    destruct (Z.leb_spec (5000 + ch * 5) 4980); [lia |]. rewrite andb_false_r.
    destruct (Z.leb_spec (5000 + ch * 5) 45000); [| lia].
    rewrite Z.add_simpl_l. apply Z.quot_mul. lia.
  - destruct (Z.leb_spec 1 ch), (Z.leb_spec ch 13), (Z.eqb_spec ch 14), (Z.leb_spec 36 ch),
      (Z.leb_spec ch 177); cbn [andb]; lia.
Qed.

Lemma ch_freq_roundtrip_witness : freq_2_ch (wf_ch_2_freq 36) = 36.
Proof. apply (proj1 (ch_freq_roundtrip 36)). lia. Defined.

Lemma memcmp_refl a : memcmp a a = 0.
Proof. induction a as [| x a IH]; [done |]. cbn [memcmp]. by rewrite Z.eqb_refl. Qed.

(** [wf_wlan_get_wps_attr] never finds an attribute of a WPS element: it
    compares the result of [memcmp] with 1 where equality gives 0, so for an
    element that [wf_wlan_check_is_wps_ie] accepts it returns a null pointer,
    whatever attributes the element has, and so does the function that
    fetches an attribute's content. *)
Theorem wps_attr_never_found (body post : list Z) (wps_ielen id : Z) :
  (length body <= 251)%nat ->
  let elem := Ies.enc_ie (221, wps_oui ++ body) ++ post in
  wf_wlan_check_is_wps_ie (Some elem) = Ret (true, Some (Z.of_nat (6 + length body))) /\
  wf_wlan_get_wps_attr elem wps_ielen id = Ret None /\
  wf_wlan_get_wps_attr_content elem wps_ielen id = Ret None.
Proof.
  intros Hl elem. set (e := (221, wps_oui ++ body) : Ies.ie).
  destruct (Ies.rd_header [] e post 0 eq_refl) as [H0 H1].
  assert (H2 : slice elem 2 4 = Ret wps_oui).
  { pose proof (Ies.rd_data [] e post 0 4 eq_refl) as H. apply H. cbn [snd e].
    rewrite length_app. cbn [length wps_oui]. lia. }
  assert (Ha : wf_wlan_get_wps_attr elem wps_ielen id = Ret None).
  { unfold wf_wlan_get_wps_attr.
    change (rd elem 0) with (Ret 221). cbn [cbind Z.eqb Pos.eqb negb].
    rewrite H2. cbn [cbind]. by rewrite memcmp_refl. }
  split_and!; [| done | unfold wf_wlan_get_wps_attr_content; by rewrite Ha].
  unfold wf_wlan_check_is_wps_ie. change (rd elem 0) with (Ret 221). cbn [cbind].
  rewrite H2. change (221 =? _WPA_IE_ID_) with true. cbv iota. cbn [cbind].
  rewrite memcmp_refl. cbn [Z.eqb].
  change (rd elem 1) with (rd ([] ++ Ies.enc_ie e ++ post) (0 + 1)). rewrite H1. cbn [cbind snd e].
  rewrite length_app. do 3 f_equal. cbn [length wps_oui]. lia.
Qed.

Lemma wps_attr_never_found_witness :
  wf_wlan_get_wps_attr (Ies.enc_ie (221, wps_oui ++ [0x10; 0x41; 0; 1; 1]) ++ []) 11 0x1041 = Ret None.
Proof.
  destruct (wps_attr_never_found [0x10; 0x41; 0; 1; 1] [] 11 0x1041) as (_ & H & _);
    [cbn; lia | exact H].
Defined.
End Wlan.
