(* ===== verification/Ie.v ===== *)
(** * Applying a peer's elements to its node ([nic/ie.c], lines 46-600; [nic/wdn.c], lines 356-547)

    Each update reads one information element of the peer and stores what it
    says in the node.  [data] are the bytes [pie_data] points at, [len] the
    element's length byte.  A copy into a structure is a fault when it does
    not fit. *)
From S2P Require Import Prelude SecTypes WdnTypes Wdn Ies.
Import Wdn.

Module Ie.

Definition wf_true : Z := 1.
Definition wf_false : Z := 0.
Definition OK : Z := 0.
Definition FAIL : Z := -1.

(** A flag of a word, as [wf_true] or [wf_false]. *)
Definition flag (x mask : Z) : Z := if nz (Z.land x mask) then wf_true else wf_false.

Definition CAPAB_ESS : Z := 0x0001.
Definition CAPAB_IBSS : Z := 0x0002.
Definition CAPAB_PRIVACY : Z := 0x0010.
Definition CAPAB_SHORT_PREAMBLE : Z := 0x0020.
Definition CAPAB_SHORT_SLOT_TIME : Z := 0x0400.
Definition CAPAB_RADIO_MEASURE : Z := 0x1000.

(** [x |= mask] when the flag is set. *)
Definition add_flag (f mask x : Z) : Z := if nz f then Z.lor x mask else x.

Definition wf_ie_cap_info_update (w : Wi.wdn_net_info_st) (cap_info : Z) : Z * Wi.wdn_net_info_st :=
  let w := Wi.set_ess_net (flag cap_info CAPAB_ESS) w in
  let w := Wi.set_ibss_net (flag cap_info CAPAB_IBSS) w in
  let w := Wi.set_privacy (flag cap_info CAPAB_PRIVACY) w in
  let w := Wi.set_short_preamble (flag cap_info CAPAB_SHORT_PREAMBLE) w in
  let w := Wi.set_short_slot (flag cap_info CAPAB_SHORT_SLOT_TIME) w in
  let w := Wi.set_radio_measure (flag cap_info CAPAB_RADIO_MEASURE) w in
  let c := add_flag (Wi.ess_net w) CAPAB_ESS 0 in
  let c := add_flag (Wi.ibss_net w) CAPAB_IBSS c in
  let c := add_flag (Wi.privacy w) CAPAB_PRIVACY c in
  let w := Wi.set_auth_algo (if nz (Wi.privacy w) then dot11AuthAlgrthm_Shared
                             else dot11AuthAlgrthm_Open) w in
  let c := add_flag (Wi.short_preamble w) CAPAB_SHORT_PREAMBLE c in
  let c := add_flag (Wi.short_slot w) CAPAB_SHORT_SLOT_TIME c in
  (OK, Wi.set_cap_info c w).

Definition wf_ie_ssid_update (w : Wi.wdn_net_info_st) (data : list Z) (len : Z)
    : C (Z * Wi.wdn_net_info_st) :=
  if (32 <=? len) || (len =? 0) then Ret (FAIL, w)
  else
    letc s := blit (Wi.ssid w) 0 (replicate (Z.to_nat (len + 1)) 0) in
    letc d := slice data 0 len in
    letc s := blit s 0 d in
    Ret (OK, Wi.set_ssid_len len (Wi.set_ssid s w)).

(** [(rate & (~IEEE80211_BASIC_RATE_MASK))] *)
Definition rate_of (r : Z) : Z := Z.land r (Z.lnot 0x80).

Definition is_cck (r : Z) : bool :=
  let v := Z.land r 0x7f in (v =? 2) || (v =? 4) || (v =? 11) || (v =? 22).

(** The loops over the first [ratelen] bytes. *)
Definition have_cckrates (rates : list Z) (ratelen : Z) : Z :=
  if existsb is_cck (take (Z.to_nat ratelen) rates) then 1 else -1.
Definition only_cckrates (rates : list Z) (ratelen : Z) : Z :=
  if forallb is_cck (take (Z.to_nat ratelen) rates) then 1 else -1.

(** The tail both rate updates share: the network type from the rates. *)
Definition rates_network_type (w : Wi.wdn_net_info_st) : Wi.wdn_net_info_st :=
  let t :=
    if only_cckrates (Wi.datarate w) (Wi.datarate_len w) =? 1 then WIRELESS_11B
    else if have_cckrates (Wi.datarate w) (Wi.datarate_len w) =? 1 then WIRELESS_11BG
    else WIRELESS_11G in
  Wi.set_network_type (Z.lor (Wi.network_type w) t) w.

(** The loop over the element's rates: [rates] are the bytes left. *)
Fixpoint supported_loop (hw : Hw.hw_info_st) (rates arr : list Z) (n : Z) : C (list Z * Z) :=
  match rates with
  | [] => Ret (arr, n)
  | r :: rates =>
      if r =? 0 then supported_loop hw rates arr n
      else if existsb (fun h => rate_of r =? rate_of h) (Hw.datarate hw)
      then letc arr := wr arr n r in supported_loop hw rates arr (u8 (n + 1))
      else supported_loop hw rates arr n
  end.

Definition wf_ie_supported_rates_update (hw : Hw.hw_info_st) (w : Wi.wdn_net_info_st)
    (data : list Z) (len : Z) : C (Z * Wi.wdn_net_info_st) :=
  if (len =? 0) || (8 <? len) then Ret (FAIL, w)
  else
    letc rates := slice data 0 len in
    letc (arr, n) := supported_loop hw rates (Wi.datarate w) 0 in
    Ret (OK, rates_network_type (Wi.set_datarate_len n (Wi.set_datarate arr w))).

(** The extended rates are stored as the hardware writes them. *)
Fixpoint ext_supported_loop (hw : Hw.hw_info_st) (rates arr : list Z) (n : Z) : C (list Z * Z) :=
  match rates with
  | [] => Ret (arr, n)
  | r :: rates =>
      if r =? 0 then ext_supported_loop hw rates arr n
      else match List.find (fun h => rate_of r =? rate_of h) (Hw.datarate hw) with
           | Some h => letc arr := wr arr n h in ext_supported_loop hw rates arr (u8 (n + 1))
           | None => ext_supported_loop hw rates arr n
           end
  end.

Definition wf_ie_extend_supported_rates_update (hw : Hw.hw_info_st) (w : Wi.wdn_net_info_st)
    (data : list Z) (len : Z) : C (Z * Wi.wdn_net_info_st) :=
  if len =? 0 then Ret (FAIL, w)
  else
    letc rates := slice data 0 len in
    letc (arr, n) := ext_supported_loop hw rates (Wi.ext_datarate w) 0 in
    Ret (OK, rates_network_type (Wi.set_ext_datarate_len n (Wi.set_ext_datarate arr w))).

Definition wf_ie_wmm_update (w : Wi.wdn_net_info_st) (data : list Z) (len : Z)
    : C (Z * Wi.wdn_net_info_st) :=
  if len =? 0 then Ret (FAIL, w)
  else
    letc d := slice data 0 len in
    letc m := blit (Wi.wmm_info w) 0 d in
    Ret (OK, Wi.set_wmm_info m (Wi.set_wmm_enable wf_true w)).

Definition wf_ie_wpa_update (w : Wi.wdn_net_info_st) (len : Z) : Z * Wi.wdn_net_info_st :=
  if len =? 0 then (FAIL, w)
  else (OK, Wi.set_auth_algo dot11AuthAlgrthm_Open (Wi.set_wpa_enable wf_true w)).

Definition wf_ie_rsn_update (w : Wi.wdn_net_info_st) (len : Z) : Z * Wi.wdn_net_info_st :=
  if len =? 0 then (FAIL, w)
  else (OK, Wi.set_auth_algo dot11AuthAlgrthm_Open (Wi.set_rsn_enable wf_true w)).

Definition HT_CAP_LDPC_CODING : Z := 0x0001.
Definition HT_CAP_SUP_WIDTH_20_40 : Z := 0x0002.
Definition HT_CAP_SM_PS : Z := 0x000C.
Definition HT_CAP_SGI_20 : Z := 0x0020.
Definition HT_CAP_SGI_40 : Z := 0x0040.
Definition HT_CAP_TX_STBC : Z := 0x0080.
Definition HT_CAP_RX_STBC : Z := 0x0300.
Definition HT_CAP_MAX_AMSDU : Z := 0x0800.
Definition HT_CAP_DSSSCCK40 : Z := 0x1000.
Definition HT_AMPDU_PARM_FACTOR : Z := 0x03.
Definition HT_AMPDU_PARM_DENSITY : Z := 0x1C.
Definition MCS_RATE_1R : Z := 0x000000ff.

Definition do_set_mcs_by_flag (mcs_set : list Z) (mask : Z) : C (list Z) :=
  letc a := rd mcs_set 0 in
  letc m := wr mcs_set 0 (Z.land a (u8 (Z.land mask 0xff))) in
  letc a := rd m 1 in
  letc m := wr m 1 (Z.land a (u8 (Z.land (Z.shiftr mask 8) 0xff))) in
  letc a := rd m 2 in
  letc m := wr m 2 (Z.land a (u8 (Z.land (Z.shiftr mask 16) 0xff))) in
  letc a := rd m 3 in
  wr m 3 (Z.land a (u8 (Z.land (Z.shiftr mask 24) 0xff))).

(** The first half of [wf_ie_ht_capability_update]: what the peer's element
    says goes to [htpriv]. *)
Definition ht_cap_parse (cap_info ampdu_params_info : Z) (h : HtPriv.wf_ht_priv)
    : HtPriv.wf_ht_priv :=
  let h := HtPriv.set_ldpc (flag cap_info HT_CAP_LDPC_CODING) h in
  let h := HtPriv.set_both_20m_40m (flag cap_info HT_CAP_SUP_WIDTH_20_40) h in
  let sm := u8 (Z.shiftr (Z.land cap_info HT_CAP_SM_PS) 2) in
  let h := HtPriv.set_sm_ps_mode sm h in
  let h := HtPriv.set_smps (if sm =? 3 then wf_false else wf_true) h in
  let h := HtPriv.set_sgi_20m (flag cap_info HT_CAP_SGI_20) h in
  let h := HtPriv.set_sgi_40m (flag cap_info HT_CAP_SGI_40) h in
  let h := HtPriv.set_dssck_40m (flag cap_info HT_CAP_DSSSCCK40) h in
  let h := HtPriv.set_rx_stbc (flag cap_info HT_CAP_RX_STBC) h in
  let h := HtPriv.set_tx_stbc (flag cap_info HT_CAP_TX_STBC) h in
  let h := HtPriv.set_ampdu_enable wf_true h in
  let h := HtPriv.set_rx_ampdu_maxlen
             (u32 (Z.shiftl 1 (Z.land ampdu_params_info HT_AMPDU_PARM_FACTOR + 3))) h in
  HtPriv.set_rx_ampdu_min_spacing
    (u8 (Z.shiftr (Z.land ampdu_params_info HT_AMPDU_PARM_DENSITY) 2)) h.

(** The second half: the capability word offered to the peer. *)
Definition ht_cap_word (hw : Hw.hw_info_st) (h : HtPriv.wf_ht_priv) (bw_mode : Z) : Z :=
  let c := 0 in
  let c := if HtPriv.sgi_20m h =? wf_true then Z.lor c HT_CAP_SGI_20 else c in
  let c := if HtPriv.sgi_40m h =? wf_true then Z.lor c HT_CAP_SGI_40 else c in
  let c := if HtPriv.dssck_40m h =? wf_true then Z.lor c HT_CAP_DSSSCCK40 else c in
  let c := if HtPriv.ampdu_enable h =? wf_true then Z.lor c HT_CAP_MAX_AMSDU else c in
  let c := if (HtPriv.ldpc h =? wf_true) && nz (Hw.ldpc_support hw)
           then Z.lor c HT_CAP_LDPC_CODING else c in
  let c := if nz (Hw.tx_stbc_support hw) then Z.lor c HT_CAP_TX_STBC else c in
  let c := if nz (Hw.rx_stbc_support hw) && (Hw.rx_stbc_num hw =? 1)
           then Z.lor c (Z.land HT_CAP_RX_STBC 0x100) else c in
  let c := if 8191 - 256 <=? u32 (Hw.max_recvbuf_sz hw - Hw.rx_packet_offset hw)
           then Z.lor c HT_CAP_MAX_AMSDU else c in
  let c := if HtPriv.smps h =? wf_false then Z.lor c HT_CAP_SM_PS
           else if Hw.sm_ps_support hw =? wf_true
                then u16 (Z.lor c (Z.shiftl (HtPriv.sm_ps_mode h) 2))
                else Z.lor c HT_CAP_SM_PS in
  if (HtPriv.both_20m_40m h =? wf_true) &&
     ((Hw.cbw40_support hw =? wf_true) && (bw_mode =? CHANNEL_WIDTH_40))
  then Z.lor c HT_CAP_SUP_WIDTH_20_40 else c.

(** [tmp] are the 26 indeterminate bytes of the local [ht_cap_temp]. *)
Definition wf_ie_ht_capability_update (hw : Hw.hw_info_st) (w : Wi.wdn_net_info_st)
    (tmp data : list Z) (len : Z) : C (Z * Wi.wdn_net_info_st) :=
  if len =? 0 then Ret (FAIL, w)
  else
    letc d := slice data 0 len in
    letc tmp := blit tmp 0 d in
    letc cap := slice tmp 0 2 in
    letc ampdu := rd tmp 2 in
    let w := Wi.set_ht_enable wf_true w in
    let w := Wi.set_network_type (Z.lor (Wi.network_type w) WIRELESS_11_24N) w in
    let h := ht_cap_parse (le_word cap) ampdu (Wi.htpriv w) in
    let w := Wi.set_htpriv h w in
    let w := Wi.set_qos_option wf_true w in
    let c := ht_cap_word hw h (Wi.bw_mode w) in
    let w := Wi.set_ldpc (if (HtPriv.ldpc h =? wf_true) && nz (Hw.ldpc_support hw) then 1 else 0) w in
    let w := if nz (Hw.rx_stbc_support hw) && (Hw.rx_stbc_num hw =? 1)
             then Wi.set_stbc (Hw.rx_stbc_num hw) w else w in
    let a := Z.land (Hw.max_rx_ampdu_factor hw) 0x03 in
    let a := if nz (Wi.wpa_enable w)
             then Z.lor a (Z.land HT_AMPDU_PARM_DENSITY (Z.shiftl (Hw.best_ampdu_density hw) 2))
             else Z.lor a (Z.land HT_AMPDU_PARM_DENSITY 0x00) in
    letc mcs := do_set_mcs_by_flag (Hw.default_supported_mcs_set hw) MCS_RATE_1R in
    Ret (OK, Wi.set_ht_cap (HtCap.mk_ht_cap c a mcs) w).

Definition HAL_PRIME_CHNL_OFFSET_DONT_CARE : Z := 0.
Definition HAL_PRIME_CHNL_OFFSET_LOWER : Z := 1.
Definition HAL_PRIME_CHNL_OFFSET_UPPER : Z := 2.

(** [tmp] are the 22 indeterminate bytes of the local [ht_oper_temp]. *)
Definition wf_ie_ht_operation_info_update (hw : Hw.hw_info_st) (w : Wi.wdn_net_info_st)
    (tmp data : list Z) (len : Z) : C (Z * Wi.wdn_net_info_st) :=
  if len =? 0 then Ret (FAIL, w)
  else
    let w := Wi.set_htpriv (HtPriv.set_ht_option wf_true (Wi.htpriv w)) w in
    letc d := slice data 0 len in
    letc tmp := blit tmp 0 d in
    letc ht_param := rd tmp 1 in
    letc om := slice tmp 2 2 in
    let w :=
      if Hw.cbw40_support hw =? wf_true then
        if nz (Z.land ht_param (BIT 2)) then
          let w := Wi.set_bw_mode CHANNEL_WIDTH_40 w in
          if Z.land ht_param 0x3 =? 3 then Wi.set_channle_offset HAL_PRIME_CHNL_OFFSET_UPPER w
          else if Z.land ht_param 0x3 =? 1 then Wi.set_channle_offset HAL_PRIME_CHNL_OFFSET_LOWER w
          else Wi.set_channle_offset HAL_PRIME_CHNL_OFFSET_DONT_CARE w
        else Wi.set_channle_offset HAL_PRIME_CHNL_OFFSET_DONT_CARE
               (Wi.set_bw_mode CHANNEL_WIDTH_20 w)
      else Wi.set_channle_offset HAL_PRIME_CHNL_OFFSET_DONT_CARE
             (Wi.set_bw_mode CHANNEL_WIDTH_20 w) in
    Ret (OK, Wi.set_HT_protection (Z.land (le_word om) 0x3) w).

Definition wf_ie_erp_update (w : Wi.wdn_net_info_st) (data : list Z) (len : Z)
    : C (Z * Wi.wdn_net_info_st) :=
  if len =? 0 then Ret (FAIL, w)
  else
    letc f := rd data 0 in
    let w := Wi.set_erp_flag f (Wi.set_erp_enable wf_true w) in
    let w := Wi.set_cts2self 0 w in
    Ret (OK, Wi.set_rtsen (if nz (Z.land f (BIT 1)) then 1 else 0) w).

(** ** Updating a node from the network it joins ([wf_wdn_data_update]) *)

Definition EID_SSID : Z := 0.
Definition EID_SUPP_RATES : Z := 1.
Definition EID_ERP_INFO : Z := 42.
Definition EID_HT_CAPABILITY : Z := 45.
Definition EID_RSN : Z := 48.
Definition EID_EXT_SUPP_RATES : Z := 50.
Definition EID_HT_OPERATION : Z := 61.
Definition EID_VENDOR_SPECIFIC : Z := 221.
Definition WMM_OUI : list Z := [0x00; 0x50; 0xf2; 0x02].
Definition WPA_OUI : list Z := [0x00; 0x50; 0xf2; 0x01].

(** A search for an element followed, when it succeeds and [c] holds, by an
    update whose result is ignored. *)
Definition on_element (ies : list Z) (search : C (option Z)) (c : bool)
    (f : list Z -> Z -> C (Z * Wi.wdn_net_info_st)) (w : Wi.wdn_net_info_st)
    : C (bool * Wi.wdn_net_info_st) :=
  letc r := search in
  match r with
  | Some o =>
      if c then
        letc len := rd ies (o + 1) in
        letc (_, w) := f (drop (Z.to_nat (o + 2)) ies) len in
        Ret (true, w)
      else Ret (true, w)
  | None => Ret (false, w)
  end.

(** [mode] is the result of [wf_local_cfg_get_work_mode]; [tmp1] and [tmp2]
    the indeterminate locals of the two HT updates.  The third component tells
    whether the preamble command was sent to the chip. *)
Definition wf_wdn_data_update (hw : Hw.hw_info_st) (net : Net.wf_wlan_network_t) (mode : Z)
    (tmp1 tmp2 : list Z) (w : Wi.wdn_net_info_st) : C (Z * Wi.wdn_net_info_st * bool) :=
  let w := Wi.set_defrag_q [] w in
  let w := Wi.set_mode mode w in
  let ies := Net.ies net in
  let n := u16 (Net.ies_length net) in
  let search id := Ies.wf_80211_mgmt_ies_search (Some ies) n id in
  let search_oui oui := Ies.wf_80211_mgmt_ies_search_with_oui (Some ies) n EID_VENDOR_SPECIFIC oui in
  let w := Wi.set_bssid (Net.bssid net) w in
  let w := Wi.set_ssid_len (u8 (Net.ssid_length net)) w in
  let w := Wi.set_channel (Net.channel net) w in
  let w := Wi.set_bw_mode (Net.bw net) w in
  let w := Wi.set_bcn_interval (Net.bcn_interval net) w in
  let base := Net.bcn_interval net * 1024 in
  letc rem := (if base =? 0 then Fault else Ret (Net.timestamp net mod base)) in
  let w := Wi.set_tsf (u64 (Net.timestamp net - rem - 1024)) w in
  let w := Wi.set_listen_interval 3 w in
  let '(_, w) := wf_ie_cap_info_update w (Net.cap_info net) in
  letc (ok, w) := on_element ies (search EID_SSID) true (wf_ie_ssid_update w) w in
  if negb ok then Ret (FAIL, w, false) else
  letc (ok, w) := on_element ies (search EID_SUPP_RATES) true
                    (wf_ie_supported_rates_update hw w) w in
  if negb ok then Ret (FAIL, w, false) else
  letc (_, w) := on_element ies (search EID_EXT_SUPP_RATES) true
                   (wf_ie_extend_supported_rates_update hw w) w in
  letc (_, w) := on_element ies (search EID_HT_OPERATION) (nz (Hw.dot80211n_support hw))
                   (wf_ie_ht_operation_info_update hw w tmp1) w in
  letc (_, w) := on_element ies (search EID_HT_CAPABILITY) (nz (Hw.dot80211n_support hw))
                   (wf_ie_ht_capability_update hw w tmp2) w in
  letc (_, w) := on_element ies (search EID_ERP_INFO) true (wf_ie_erp_update w) w in
  letc (_, w) := on_element ies (search_oui WMM_OUI) true (wf_ie_wmm_update w) w in
  letc (_, w) := on_element ies (search_oui WPA_OUI) true
                   (fun _ len => Ret (wf_ie_wpa_update w len)) w in
  letc (_, w) := on_element ies (search EID_RSN) true
                   (fun _ len => Ret (wf_ie_rsn_update w len)) w in
  let '(raid, w) := wf_wdn_get_raid_by_network_type w in
  let w := Wi.set_raid raid w in
  let w := Wi.set_ieee8021x_blocked wf_true w in
  Ret (OK, w, true).

(** ** Capability word *)

Lemma add_flag_land x i c : 0 <= i ->
  add_flag (flag x (BIT i)) (BIT i) c = Z.lor c (Z.land x (BIT i)).
Proof.
  intros Hi. unfold add_flag, flag. rewrite land_BIT, land_BIT_val by done.
  destruct (Z.testbit x i); cbn; [done | by rewrite Z.lor_0_r].
Qed.

(** Of the peer's capability word the node keeps exactly the ESS, IBSS,
    privacy, short preamble and short slot bits, the flags say which of them
    and of radio measurement are set, and shared key authentication is chosen
    exactly when privacy is required. *)
Theorem cap_info_kept (w : Wi.wdn_net_info_st) (cap : Z) :
  let '(r, w') := wf_ie_cap_info_update w cap in
  r = OK /\ Wi.cap_info w' = Z.land cap 0x0433 /\
  Wi.ess_net w' = flag cap CAPAB_ESS /\ Wi.ibss_net w' = flag cap CAPAB_IBSS /\
  Wi.privacy w' = flag cap CAPAB_PRIVACY /\
  Wi.short_preamble w' = flag cap CAPAB_SHORT_PREAMBLE /\
  Wi.short_slot w' = flag cap CAPAB_SHORT_SLOT_TIME /\
  Wi.radio_measure w' = flag cap CAPAB_RADIO_MEASURE /\
  (Wi.auth_algo w' = dot11AuthAlgrthm_Shared <-> Z.testbit cap 4 = true) /\
  Wi.mac w' = Wi.mac w /\ Wi.wdn_id w' = Wi.wdn_id w.
Proof.
  unfold wf_ie_cap_info_update. cbn -[flag add_flag CAPAB_ESS CAPAB_IBSS CAPAB_PRIVACY
    CAPAB_SHORT_PREAMBLE CAPAB_SHORT_SLOT_TIME CAPAB_RADIO_MEASURE Z.land Z.testbit nz].
  split; [done |]. split.
  - change CAPAB_ESS with (BIT 0). change CAPAB_IBSS with (BIT 1). change CAPAB_PRIVACY with (BIT 4).
    change CAPAB_SHORT_PREAMBLE with (BIT 5). change CAPAB_SHORT_SLOT_TIME with (BIT 10).
    rewrite !add_flag_land by lia. rewrite Z.lor_0_l, <- !Z.land_lor_distr_r. reflexivity.
  - split_and!; try done. unfold flag. change CAPAB_PRIVACY with (BIT 4). rewrite land_BIT by lia.
    destruct (Z.testbit cap 4); unfold nz, wf_true, wf_false; cbn [Z.eqb negb];
      unfold dot11AuthAlgrthm_Shared, dot11AuthAlgrthm_Open; split; (discriminate || done).
Qed.

(** ** Rates *)

(** The rates of an element that the hardware supports. *)
Definition supported (hw : Hw.hw_info_st) (r : Z) : bool :=
  negb (r =? 0) && existsb (fun h => rate_of r =? rate_of h) (Hw.datarate hw).

Lemma supported_loop_spec hw rates pre suf n :
  n = Z.of_nat (length pre) ->
  (length (List.filter (supported hw) rates) <= length suf)%nat ->
  (length pre + length suf < 256)%nat ->
  supported_loop hw rates (pre ++ suf) n =
    Ret (pre ++ List.filter (supported hw) rates ++
           drop (length (List.filter (supported hw) rates)) suf,
         n + Z.of_nat (length (List.filter (supported hw) rates))).
Proof.
  revert pre suf n. induction rates as [| r rates IH]; intros pre suf n Hn Hl Hmax;
    cbn [supported_loop List.filter] in *.
  { cbn [length app drop]. by rewrite Z.add_0_r. }
  unfold supported in *. destruct (r =? 0); cbn [negb andb] in *; [by apply IH |].
  destruct (existsb _ (Hw.datarate hw)); [| by apply IH].
  destruct suf as [| x suf]; cbn [length] in Hl; [lia |]. cbn [length] in Hmax.
  rewrite wr_app_mid by done. cbn [cbind].
  change (pre ++ r :: suf) with (pre ++ [r] ++ suf). rewrite app_assoc.
  rewrite u8_id by (unfold is_u8; lia).
  rewrite IH; [| rewrite length_app; cbn [length]; lia | lia | rewrite length_app; cbn [length]; lia].
  rewrite <- app_assoc. cbn [length app drop]. do 2 f_equal. lia.
Qed.

Lemma filter_length_le {A} (f : A -> bool) l : (length (List.filter f l) <= length l)%nat.
Proof. induction l as [| x l IH]; cbn; [lia |]. destruct (f x); cbn; lia. Qed.

(** The supported rates element never overflows the node's eight rates: a
    length of 0 or above 8 is refused; otherwise the node ends up with exactly
    the element's non-zero rates that the hardware supports, in order, and the
    network type gains 11b when all of them are CCK rates, 11b and 11g when
    some are, and 11g otherwise. *)
Theorem supported_rates_kept (hw : Hw.hw_info_st) (w : Wi.wdn_net_info_st) (data : list Z) (len : Z) :
  length (Wi.datarate w) = 8%nat -> 0 <= len <= Z.of_nat (length data) ->
  let sel := List.filter (supported hw) (take (Z.to_nat len) data) in
  if (len =? 0) || (8 <? len) then wf_ie_supported_rates_update hw w data len = Ret (FAIL, w)
  else exists w', wf_ie_supported_rates_update hw w data len = Ret (OK, w') /\
    Wi.datarate w' = sel ++ drop (length sel) (Wi.datarate w) /\
    Wi.datarate_len w' = Z.of_nat (length sel) /\
    Wi.network_type w' = Z.lor (Wi.network_type w)
      (if forallb is_cck sel then WIRELESS_11B
       else if existsb is_cck sel then WIRELESS_11BG else WIRELESS_11G).
Proof.
  intros H8 Hlen sel. unfold wf_ie_supported_rates_update.
  destruct ((len =? 0) || (8 <? len)) eqn:E; [done |].
  apply orb_false_elim in E as [E0 E8]. apply Z.eqb_neq in E0. apply Z.ltb_ge in E8.
  rewrite slice_Ret by lia. cbn [cbind]. change (drop (Z.to_nat 0) data) with data.
  assert (Hsel : (length sel <= 8)%nat).
  { etransitivity; [apply filter_length_le |]. rewrite length_take. lia. }
  pose proof (supported_loop_spec hw (take (Z.to_nat len) data) [] (Wi.datarate w) 0 eq_refl) as Hs.
  cbn [app length] in Hs. fold sel in Hs. rewrite Hs by lia. cbn [cbind]. rewrite Z.add_0_l.
  eexists. split; [reflexivity |]. unfold rates_network_type, only_cckrates, have_cckrates.
  cbn [Wi.datarate Wi.datarate_len Wi.network_type Wi.set_network_type Wi.set_datarate_len Wi.set_datarate].
  split; [done |]. split; [done |]. rewrite Nat2Z.id, take_app_length. f_equal.
  destruct (forallb is_cck sel); [done |]. by destruct (existsb is_cck sel).
Qed.

Definition wit_hw : Hw.hw_info_st :=
  Hw.mk_hw_info [2; 4; 11; 22; 12; 18; 24; 36; 48; 72; 96; 108; 0] 1 0 0 0 0 32768 24 0 1 3 0
    (replicate 16 255).

Lemma supported_rates_kept_witness :
  exists w', wf_ie_supported_rates_update wit_hw Wi.zero [0x82; 0x84; 0x8b; 0x96; 0x0c; 0x99] 6 = Ret (OK, w') /\
    Wi.datarate w' = [0x82; 0x84; 0x8b; 0x96; 0x0c; 0; 0; 0] /\
    Wi.datarate_len w' = 5 /\ Wi.network_type w' = WIRELESS_11BG.
Proof.
  apply (supported_rates_kept wit_hw Wi.zero [0x82; 0x84; 0x8b; 0x96; 0x0c; 0x99] 6);
    [done | cbn; lia].
Defined.

(** ** Copies of element data *)

(** A copy into a buffer of [n] bytes returns exactly when it fits. *)
Lemma blit_front buf src :
  blit buf 0 src =
    if Z.of_nat (length src) <=? Z.of_nat (length buf)
    then Ret (src ++ drop (length src) buf) else Fault.
Proof. done. Qed.

Lemma length_slice (data : list Z) len : 0 <= len <= Z.of_nat (length data) ->
  Z.of_nat (length (take (Z.to_nat len) (drop (Z.to_nat 0) data))) = len.
Proof. intros Hl. change (drop (Z.to_nat 0) data) with data. rewrite length_take. lia. Qed.

Lemma ext_loop_spec hw rates pre suf n :
  n = Z.of_nat (length pre) -> (length pre + length suf < 256)%nat ->
  let k := length (List.filter (supported hw) rates) in
  if (k <=? length suf)%nat
  then exists arr, ext_supported_loop hw rates (pre ++ suf) n = Ret (arr, n + Z.of_nat k) /\
         length arr = (length pre + length suf)%nat
  else ext_supported_loop hw rates (pre ++ suf) n = Fault.
Proof.
  revert pre suf n. induction rates as [| r rates IH]; intros pre suf n Hn Hmax;
    cbn [ext_supported_loop List.filter].
  { cbn [length Nat.leb]. exists (pre ++ suf). by rewrite Z.add_0_r, length_app. }
  assert (Hs : supported hw r = negb (r =? 0) && existsb (fun h => rate_of r =? rate_of h) (Hw.datarate hw))
    by done.
  destruct (r =? 0); cbn [negb andb] in Hs; [rewrite Hs; by apply IH |].
  destruct (List.find (fun h => rate_of r =? rate_of h) (Hw.datarate hw)) as [h |] eqn:Hf.
  2: { assert (Hs0 : supported hw r = false).
       { rewrite Hs. apply not_true_is_false. intros (h & Hin & Hh)%existsb_exists.
         by rewrite (List.find_none _ _ Hf h Hin) in Hh. }
       rewrite Hs0. by apply IH. }
  apply List.find_some in Hf as [Hin Hh].
  rewrite (proj2 (existsb_exists _ _) (ex_intro _ h (conj Hin Hh))) in Hs. rewrite Hs. cbn [length].
  destruct suf as [| x suf].
  { cbn [Nat.leb length]. rewrite app_nil_r. unfold wr.
    destruct (Z.leb_spec 0 n); [| lia]. destruct (Z.ltb_spec n (Z.of_nat (length pre))); [lia | done]. }
  cbn [length] in *. rewrite wr_app_mid by done. cbn [cbind].
  change (pre ++ h :: suf) with (pre ++ [h] ++ suf). rewrite app_assoc.
  rewrite u8_id by (unfold is_u8; lia).
  specialize (IH (pre ++ [h]) suf (n + 1)). rewrite !length_app in IH. cbn [length] in IH.
  specialize (IH ltac:(lia) ltac:(lia)). cbn [Nat.leb].
  destruct (_ <=? length suf)%nat; [| exact IH]. destruct IH as (arr & -> & Hl).
  exists arr. split; [do 2 f_equal; lia | lia].
Qed.

(** The node's arrays have the sizes of their declarations. *)
Definition shape (w : Wi.wdn_net_info_st) : Prop :=
  length (Wi.ssid w) = 32%nat /\ length (Wi.datarate w) = 8%nat /\
  length (Wi.ext_datarate w) = 4%nat /\ length (Wi.wmm_info w) = 24%nat.

Lemma do_set_mcs_1R a b c d m :
  do_set_mcs_by_flag (a :: b :: c :: d :: m) MCS_RATE_1R = Ret (Z.land a 255 :: 0 :: 0 :: 0 :: m).
Proof.
  unfold do_set_mcs_by_flag, MCS_RATE_1R.
  change (u8 (Z.land 255 255)) with 255. change (u8 (Z.land (Z.shiftr 255 8) 255)) with 0.
  change (u8 (Z.land (Z.shiftr 255 16) 255)) with 0. change (u8 (Z.land (Z.shiftr 255 24) 255)) with 0.
  change (rd (a :: b :: c :: d :: m) 0) with (Ret a). cbn [cbind].
  change (wr (a :: b :: c :: d :: m) 0) with (wr ([] ++ a :: b :: c :: d :: m) 0).
  rewrite wr_app_mid by done. cbn [cbind app].
  change (rd (Z.land a 255 :: b :: c :: d :: m) 1) with (Ret b). cbn [cbind].
  change (wr (Z.land a 255 :: b :: c :: d :: m) 1) with (wr ([Z.land a 255] ++ b :: c :: d :: m) 1).
  rewrite wr_app_mid by done. cbn [cbind app]. rewrite Z.land_0_r.
  change (rd (Z.land a 255 :: 0 :: c :: d :: m) 2) with (Ret c). cbn [cbind].
  change (wr (Z.land a 255 :: 0 :: c :: d :: m) 2) with (wr ([Z.land a 255; 0] ++ c :: d :: m) 2).
  rewrite wr_app_mid by done. cbn [cbind app]. rewrite Z.land_0_r.
  change (rd (Z.land a 255 :: 0 :: 0 :: d :: m) 3) with (Ret d). cbn [cbind].
  change (wr (Z.land a 255 :: 0 :: 0 :: d :: m) 3) with (wr ([Z.land a 255; 0; 0] ++ d :: m) 3).
  rewrite wr_app_mid by done. cbn [cbind app]. by rewrite Z.land_0_r.
Qed.

(** What no element changes: the identity of the node and the parameters
    taken from the beacon's fixed part. *)
Definition frame (w w' : Wi.wdn_net_info_st) : Prop :=
  Wi.mac w' = Wi.mac w /\ Wi.wdn_id w' = Wi.wdn_id w /\ Wi.mode w' = Wi.mode w /\
  Wi.bssid w' = Wi.bssid w /\ Wi.channel w' = Wi.channel w /\ Wi.tsf w' = Wi.tsf w /\
  Wi.bcn_interval w' = Wi.bcn_interval w.

Definition keeps (w w' : Wi.wdn_net_info_st) : Prop := shape w' /\ frame w w'.

Lemma keeps_trans w1 w2 w3 : keeps w1 w2 -> keeps w2 w3 -> keeps w1 w3.
Proof. unfold keeps, frame. intuition congruence. Qed.

(** An update that returns exactly when [b] holds. *)
Definition returns_iff (b : bool) (w : Wi.wdn_net_info_st) (r : C (Z * Wi.wdn_net_info_st)) : Prop :=
  if b then exists w', r = Ret (OK, w') /\ keeps w w' else r = Fault.

Section Copies.
Context (hw : Hw.hw_info_st) (w : Wi.wdn_net_info_st) (data : list Z) (len : Z).
Context (Hsh : shape w) (Hlen : 0 < len <= Z.of_nat (length data)).

Lemma ext_rates_copy :
  returns_iff (length (List.filter (supported hw) (take (Z.to_nat len) data)) <=? 4)%nat w
    (wf_ie_extend_supported_rates_update hw w data len).
Proof using Hsh Hlen.
  destruct Hsh as (Hs & Hd & He & Hw). unfold wf_ie_extend_supported_rates_update, returns_iff.
  destruct (Z.eqb_spec len 0); [lia |]. rewrite slice_Ret by lia. cbn [cbind].
  change (drop (Z.to_nat 0) data) with data.
  pose proof (ext_loop_spec hw (take (Z.to_nat len) data) [] (Wi.ext_datarate w) 0 eq_refl) as Hx.
  cbn [length app] in Hx. rewrite He in Hx. specialize (Hx ltac:(lia)). cbv zeta in Hx.
  destruct (_ <=? 4)%nat; [| by rewrite Hx].
  destruct Hx as (arr & -> & Ha). cbn [cbind]. eexists. split; [done |]. split; by split_and!.
Qed.

Lemma wmm_copy : returns_iff (len <=? 24) w (wf_ie_wmm_update w data len).
Proof using Hsh Hlen.
  pose proof Hsh as (Hs & Hd & He & Hw). unfold wf_ie_wmm_update, returns_iff.
  destruct (Z.eqb_spec len 0); [lia |]. rewrite slice_Ret by lia. cbn [cbind].
  rewrite blit_front, length_slice, Hw by lia. change (Z.of_nat 24) with 24.
  destruct (Z.leb_spec len 24); [| done]. cbn [cbind]. eexists. split; [done |].
  split; [| by split_and!]. split_and!; try done. cbn [Wi.wmm_info Wi.set_wmm_info].
  pose proof (length_slice data len). rewrite length_app, length_drop. lia.
Qed.

Lemma ht_capability_copy tmp :
  length tmp = 26%nat -> length (Hw.default_supported_mcs_set hw) = 16%nat ->
  returns_iff (len <=? 26) w (wf_ie_ht_capability_update hw w tmp data len).
Proof using Hsh Hlen.
  intros Ht Hm. unfold wf_ie_ht_capability_update, returns_iff.
  destruct (Z.eqb_spec len 0); [lia |]. rewrite slice_Ret by lia. cbn [cbind].
  pose proof (length_slice data len ltac:(lia)) as Hl. rewrite blit_front, Hl, Ht.
  change (Z.of_nat 26) with 26. destruct (Z.leb_spec len 26); [| done]. cbn [cbind].
  rewrite slice_Ret, rd_nthZ by (rewrite ?length_app, ?length_drop; lia). cbn [cbind].
  destruct (Hw.default_supported_mcs_set hw) as [| a [| b [| c [| e m]]]]; try discriminate Hm.
  rewrite do_set_mcs_1R. cbn [cbind]. eexists. split; [done |].
  destruct (nz (Hw.rx_stbc_support hw) && (Hw.rx_stbc_num hw =? 1)); split; done || by split_and!.
Qed.

Lemma ht_operation_copy tmp : length tmp = 22%nat ->
  returns_iff (len <=? 22) w (wf_ie_ht_operation_info_update hw w tmp data len).
Proof using Hsh Hlen.
  intros Ht. unfold wf_ie_ht_operation_info_update, returns_iff.
  destruct (Z.eqb_spec len 0); [lia |]. rewrite slice_Ret by lia. cbn [cbind].
  pose proof (length_slice data len ltac:(lia)) as Hl. rewrite blit_front, Hl, Ht.
  change (Z.of_nat 22) with 22. destruct (Z.leb_spec len 22); [| done]. cbn [cbind].
  rewrite rd_nthZ, slice_Ret by (rewrite ?length_app, ?length_drop; lia). cbn [cbind].
  eexists. split; [done |]. repeat case_match; split; done || by split_and!.
Qed.
End Copies.

(** The four updates that copy element data of any length into a fixed
    area return exactly when it fits: at most 4 supported extended rates, 24
    bytes of WMM, 26 bytes of HT capability and 22 bytes of HT operation; with
    more they write outside it.  When they return, the node's identity and
    array sizes are kept. *)
Theorem element_copy_bounds (hw : Hw.hw_info_st) (w : Wi.wdn_net_info_st) (tmp1 tmp2 data : list Z)
    (len : Z) :
  shape w -> length tmp1 = 22%nat -> length tmp2 = 26%nat ->
  length (Hw.default_supported_mcs_set hw) = 16%nat ->
  0 < len <= Z.of_nat (length data) ->
  returns_iff (length (List.filter (supported hw) (take (Z.to_nat len) data)) <=? 4)%nat w
    (wf_ie_extend_supported_rates_update hw w data len) /\
  returns_iff (len <=? 24) w (wf_ie_wmm_update w data len) /\
  returns_iff (len <=? 26) w (wf_ie_ht_capability_update hw w tmp2 data len) /\
  returns_iff (len <=? 22) w (wf_ie_ht_operation_info_update hw w tmp1 data len).
Proof.
  intros Hsh H1 H2 Hm Hlen. split_and!.
  - by apply ext_rates_copy.
  - by apply wmm_copy.
  - by apply ht_capability_copy.
  - by apply ht_operation_copy.
Qed.

Lemma element_copy_bounds_witness :
  wf_ie_wmm_update Wi.zero (replicate 30 7) 25 = Fault /\
  wf_ie_ht_capability_update wit_hw Wi.zero (replicate 26 0) (replicate 30 7) 27 = Fault /\
  wf_ie_ht_operation_info_update wit_hw Wi.zero (replicate 22 0) (replicate 30 7) 23 = Fault.
Proof.
  assert (Hs : shape Wi.zero) by (by split_and!).
  assert (E := fun l => element_copy_bounds wit_hw Wi.zero (replicate 22 0) (replicate 26 0)
    (replicate 30 7) l Hs eq_refl eq_refl eq_refl).
  split; [| split].
  - exact (proj1 (proj2 (E 25 ltac:(cbn; lia)))).
  - exact (proj1 (proj2 (proj2 (E 27 ltac:(cbn; lia))))).
  - exact (proj2 (proj2 (proj2 (E 23 ltac:(cbn; lia))))).
Defined.

(** ** Negotiation of the HT capabilities *)

(** The bits of the capability word offered to a peer whose element carries
    [cap]: what both sides support, except that the two STBC bits depend on
    the hardware alone and the A-MSDU bit is always set. *)
Definition ht_offered (hw : Hw.hw_info_st) (cap bw_mode i : Z) : bool :=
  match i with
  | 0 => Z.testbit cap 0 && nz (Hw.ldpc_support hw)
  | 1 => Z.testbit cap 1 && (Hw.cbw40_support hw =? 1) && (bw_mode =? CHANNEL_WIDTH_40)
  | 2 => Z.testbit cap 2 || negb (Hw.sm_ps_support hw =? 1)
  | 3 => Z.testbit cap 3 || negb (Hw.sm_ps_support hw =? 1)
  | 5 => Z.testbit cap 5
  | 6 => Z.testbit cap 6
  | 7 => nz (Hw.tx_stbc_support hw)
  | 8 => nz (Hw.rx_stbc_support hw) && (Hw.rx_stbc_num hw =? 1)
  | 11 => true
  | 12 => Z.testbit cap 12
  | _ => false
  end.

Lemma lor_if (b : bool) c m : (if b then Z.lor c m else c) = Z.lor c (if b then m else 0).
Proof. destruct b; [done | by rewrite Z.lor_0_r]. Qed.

Lemma testbit_if (b : bool) m i : Z.testbit (if b then m else 0) i = b && Z.testbit m i.
Proof. destruct b; [done | apply Z.bits_0]. Qed.

Lemma flag_BIT x i : 0 <= i -> flag x (BIT i) = if Z.testbit x i then wf_true else wf_false.
Proof. intros Hi. unfold flag. by rewrite land_BIT. Qed.

Lemma flag_is_true (b : bool) : ((if b then wf_true else wf_false) =? wf_true) = b.
Proof. by destruct b. Qed.

(** The power save field, as its two bits. *)
Lemma sm_field cap :
  u8 (Z.shiftr (Z.land cap HT_CAP_SM_PS) 2) =
    (if Z.testbit cap 2 then 1 else 0) + (if Z.testbit cap 3 then 2 else 0).
Proof.
  assert (E : Z.shiftr (Z.land cap HT_CAP_SM_PS) 2 =
    Z.lor (if Z.testbit cap 2 then 1 else 0) (if Z.testbit cap 3 then 2 else 0)).
  { apply Z.bits_inj'. intros i Hi. rewrite Z.shiftr_spec, Z.land_spec, Z.lor_spec, !testbit_if by done.
    change HT_CAP_SM_PS with (Z.lor (BIT 2) (BIT 3)). change 1 with (BIT 0). change 2 with (BIT 1) at 5.
    rewrite Z.lor_spec, !testbit_BIT by lia.
    repeat case_bool_decide; subst; try lia; rewrite ?andb_true_r, ?andb_false_r, ?orb_false_r; done. }
  rewrite E. by destruct (Z.testbit cap 2), (Z.testbit cap 3).
Qed.


(** The power save bits of the word, whatever [c] holds already. *)
Lemma sm_part (b2 b3 sup : bool) c i : 0 <= i < 16 ->
  let sm := (if b2 then 1 else 0) + (if b3 then 2 else 0) in
  Z.testbit (if (if sm =? 3 then wf_false else wf_true) =? wf_false then Z.lor c HT_CAP_SM_PS
             else if sup then u16 (Z.lor c (Z.shiftl sm 2)) else Z.lor c HT_CAP_SM_PS) i =
  Z.testbit c i || Z.testbit (Z.lor (if b2 || negb sup then 4 else 0) (if b3 || negb sup then 8 else 0)) i.
Proof.
  assert (Hl : forall x, Z.testbit (Z.lor c x) i = Z.testbit c i || Z.testbit x i)
    by (intros; apply Z.lor_spec).
  intros Hi. destruct b2, b3, sup; cbn [orb negb]; rewrite <- Hl;
    match goal with |- context [if ?b then _ else _] =>
      let v := eval vm_compute in b in change b with v end;
    cbv beta iota; rewrite ?testbit_u16 by done; done.
Qed.

Lemma ht_cap_word_bits hw cap ampdu h bw i :
  0 <= i < 16 ->
  Z.testbit (ht_cap_word hw (ht_cap_parse cap ampdu h) bw) i = ht_offered hw cap bw i.
Proof.
  intros Hi. unfold ht_cap_word, ht_cap_parse.
  cbn [HtPriv.sgi_20m HtPriv.sgi_40m HtPriv.dssck_40m HtPriv.ampdu_enable HtPriv.ldpc HtPriv.smps
    HtPriv.sm_ps_mode HtPriv.both_20m_40m HtPriv.set_ldpc HtPriv.set_both_20m_40m HtPriv.set_sm_ps_mode
    HtPriv.set_smps HtPriv.set_sgi_20m HtPriv.set_sgi_40m HtPriv.set_dssck_40m HtPriv.set_rx_stbc
    HtPriv.set_tx_stbc HtPriv.set_ampdu_enable HtPriv.set_rx_ampdu_maxlen
    HtPriv.set_rx_ampdu_min_spacing].
  change HT_CAP_LDPC_CODING with (BIT 0). change HT_CAP_SUP_WIDTH_20_40 with (BIT 1).
  change HT_CAP_SGI_20 with (BIT 5). change HT_CAP_SGI_40 with (BIT 6).
  change HT_CAP_DSSSCCK40 with (BIT 12).
  rewrite !flag_BIT, !flag_is_true by lia. rewrite sm_field.
  rewrite lor_if, Z.lor_spec, testbit_if, sm_part by done. rewrite !lor_if, !Z.lor_spec, !testbit_if.
  change (wf_true =? wf_true) with true. unfold ht_offered.
  assert (Hc : In i [0; 1; 2; 3; 4; 5; 6; 7; 8; 9; 10; 11; 12; 13; 14; 15]) by (cbn [In]; lia).
  change (Z.land HT_CAP_RX_STBC 256) with 256.
  cbn [In] in Hc.
  repeat (destruct Hc as [<- | Hc];
    [cbn -[nz Z.testbit]; rewrite ?andb_false_r, ?andb_true_r, ?orb_false_r, ?Z.bits_0, <- ?andb_assoc; done |]).
  done.
Qed.

Lemma ampdu_limits cap ampdu h : is_u8 ampdu ->
  HtPriv.rx_ampdu_maxlen (ht_cap_parse cap ampdu h) = 2 ^ (3 + ampdu mod 4) /\
  HtPriv.rx_ampdu_min_spacing (ht_cap_parse cap ampdu h) = ampdu / 4 mod 8.
Proof.
  intros Ha. unfold is_u8 in Ha. unfold ht_cap_parse. cbn [HtPriv.rx_ampdu_maxlen HtPriv.set_rx_ampdu_maxlen
    HtPriv.set_rx_ampdu_min_spacing HtPriv.rx_ampdu_min_spacing]. split.
  - change HT_AMPDU_PARM_FACTOR with (Z.ones 2). rewrite Z.land_ones by lia. change (2 ^ 2) with 4.
    pose proof (Z.mod_pos_bound ampdu 4 ltac:(lia)). rewrite Z.shiftl_mul_pow2, Z.mul_1_l, Z.add_comm by lia.
    apply u32_id. split; [apply Z.pow_nonneg; lia |].
    apply Z.le_lt_trans with (2 ^ 6); [apply Z.pow_le_mono_r; lia | done].
  - rewrite Z.shiftr_land. change (Z.shiftr HT_AMPDU_PARM_DENSITY 2) with (Z.ones 3).
    rewrite Z.land_ones, Z.shiftr_div_pow2 by lia. change (2 ^ 2) with 4. change (2 ^ 3) with 8.
    apply u8_id. unfold is_u8. pose proof (Z.mod_pos_bound (ampdu / 4) 8 ltac:(lia)). lia.
Qed.

(** A full HT capability element (26 bytes) enables HT and QoS on the
    node, and the node offers in return exactly the capability bits of
    [ht_offered], the peer's A-MPDU limit and spacing, and the hardware's
    rates restricted to one spatial stream. *)
Theorem ht_capability_negotiated (hw : Hw.hw_info_st) (w : Wi.wdn_net_info_st) (tmp data : list Z)
    (b0 b1 ampdu m0 m1 m2 m3 : Z) (rest ms : list Z) :
  length tmp = 26%nat -> data = b0 :: b1 :: ampdu :: rest -> (23 <= length rest)%nat ->
  is_u8 ampdu -> is_u8 m0 -> Hw.default_supported_mcs_set hw = m0 :: m1 :: m2 :: m3 :: ms ->
  exists w', wf_ie_ht_capability_update hw w tmp data 26 = Ret (OK, w') /\
    Wi.ht_enable w' = wf_true /\ Wi.qos_option w' = wf_true /\
    Wi.network_type w' = Z.lor (Wi.network_type w) WIRELESS_11_24N /\
    (forall i, 0 <= i < 16 ->
       Z.testbit (HtCap.cap_info (Wi.ht_cap w')) i = ht_offered hw (b0 + 256 * b1) (Wi.bw_mode w) i) /\
    HtPriv.rx_ampdu_maxlen (Wi.htpriv w') = 2 ^ (3 + ampdu mod 4) /\
    HtPriv.rx_ampdu_min_spacing (Wi.htpriv w') = ampdu / 4 mod 8 /\
    HtCap.supp_mcs_set (Wi.ht_cap w') = m0 :: 0 :: 0 :: 0 :: ms.
Proof.
  intros Ht -> Hr Ha Hm0 Hm. unfold wf_ie_ht_capability_update.
  change (26 =? 0) with false. cbv iota. rewrite slice_Ret by (cbn [length]; lia). cbn [cbind].
  change (drop (Z.to_nat 0) ?l) with l. change (Z.to_nat 26) with 26%nat.
  rewrite blit_front, length_take, Ht, Nat.min_l by (cbn [length]; lia).
  change (26 <=? 26) with true. cbn [cbind]. rewrite drop_ge, app_nil_r by lia.
  change (Z.of_nat 26 <=? Z.of_nat 26) with true. cbv iota. cbn [take cbind].
  set (tl := take 23 rest).
  change (b0 :: b1 :: ampdu :: tl) with ([] ++ [b0; b1] ++ ampdu :: tl) at 1.
  rewrite slice_app_mid by done. cbn [cbind].
  change (rd (b0 :: b1 :: ampdu :: tl) 2) with (Ret ampdu). cbn [cbind].
  rewrite Hm, do_set_mcs_1R. cbn [cbind]. eexists. split; [reflexivity |].
  rewrite land_255, u8_id by done.
  set (w1 := Wi.set_htpriv _ _). change (le_word [b0; b1]) with (b0 + 256 * (b1 + 256 * 0)) in *.
  rewrite Z.mul_0_r, Z.add_0_r in *.
  destruct (nz (Hw.rx_stbc_support hw) && (Hw.rx_stbc_num hw =? 1)); cbn [Wi.set_ht_cap Wi.ht_cap
    Wi.ht_enable Wi.qos_option Wi.network_type HtCap.cap_info HtCap.supp_mcs_set Wi.set_stbc Wi.set_ldpc
    Wi.set_qos_option Wi.htpriv].
  all: split; [reflexivity |]; split; [reflexivity |]; split; [reflexivity |];
    split; [intros i Hi; refine (ht_cap_word_bits hw _ _ _ _ i Hi) |]; subst w1;
    cbn [Wi.htpriv Wi.set_htpriv]; rewrite Z.mul_0_r, Z.add_0_r;
    split; [exact (proj1 (ampdu_limits _ _ _ Ha)) |];
    split; [exact (proj2 (ampdu_limits _ _ _ Ha)) | reflexivity].
Qed.

Lemma ht_capability_negotiated_witness :
  exists w', wf_ie_ht_capability_update wit_hw Wi.zero (replicate 26 9)
      ([0x6f; 0x10; 0x17] ++ replicate 23 255) 26 = Ret (OK, w') /\
    HtPriv.rx_ampdu_maxlen (Wi.htpriv w') = 64 /\
    HtCap.supp_mcs_set (Wi.ht_cap w') = 255 :: 0 :: 0 :: 0 :: replicate 12 255.
Proof.
  destruct (ht_capability_negotiated wit_hw Wi.zero (replicate 26 9) _ 0x6f 0x10 0x17 255 255 255 255
    (replicate 23 255) (replicate 12 255) eq_refl eq_refl) as (w' & H & _ & _ & _ & _ & Ha & _ & Hm);
    [cbn; lia | unfold is_u8; lia | unfold is_u8; lia | done |].
  exists w'. split; [exact H |]. split; [exact Ha | exact Hm].
Defined.

(** ** Updating a node from a scanned network *)

(** An update that returns and keeps the node's identity. *)
Definition steps (w : Wi.wdn_net_info_st) (r : C (Z * Wi.wdn_net_info_st)) : Prop :=
  exists x w', r = Ret (x, w') /\ keeps w w'.

Lemma keeps_refl w : shape w -> keeps w w.
Proof. intros H. split; [done |]. by split_and!. Qed.

(** A copying update, with its failure on an empty element. *)
Lemma copy_steps b w r len : 0 <= len -> shape w ->
  (len = 0 -> r = Ret (FAIL, w)) -> (0 < len -> returns_iff b w r) -> (0 < len -> b = true) -> steps w r.
Proof.
  intros Hl Hs H0 H1 Hb. destruct (decide (len = 0)) as [E |].
  - exists FAIL, w. split; [by apply H0 | by apply keeps_refl].
  - specialize (H1 ltac:(lia)). rewrite Hb in H1 by lia. destruct H1 as (w' & -> & Hk). by exists OK, w'.
Qed.

(** The elements that fit where their updates copy them. *)
Definition fits (e : Ies.ie) : Prop :=
  (length (snd e) < 256)%nat /\
  (fst e = EID_EXT_SUPP_RATES -> (length (snd e) <= 4)%nat) /\
  (fst e = EID_HT_OPERATION -> (length (snd e) <= 22)%nat) /\
  (fst e = EID_HT_CAPABILITY -> (length (snd e) <= 26)%nat) /\
  (fst e = EID_VENDOR_SPECIFIC -> (4 <= length (snd e))%nat) /\
  (fst e = EID_VENDOR_SPECIFIC -> take 4 (snd e) = WMM_OUI -> (length (snd e) <= 24)%nat).

Section Steps.
Context (hw : Hw.hw_info_st) (w : Wi.wdn_net_info_st) (Hsh : shape w).
Context (d rest : list Z).
Abbreviation data := (d ++ rest).
Abbreviation len := (Z.of_nat (length d)).

Lemma data_len : len <= Z.of_nat (length data).
Proof. rewrite length_app. lia. Qed.

Lemma ssid_steps : steps w (wf_ie_ssid_update w data len).
Proof using Hsh.
  unfold wf_ie_ssid_update. pose proof data_len. pose proof Hsh as (Hs & _).
  destruct ((32 <=? len) || (len =? 0)) eqn:E; [by exists FAIL, w; split; [| apply keeps_refl] |].
  apply orb_false_elim in E as [E1 E2]. apply Z.leb_gt in E1. apply Z.eqb_neq in E2.
  rewrite blit_front, length_replicate, Hs. destruct (Z.leb_spec (Z.of_nat (Z.to_nat (len + 1))) (Z.of_nat 32)); [| lia].
  cbn [cbind]. rewrite slice_Ret by lia. cbn [cbind]. rewrite blit_front, length_slice by lia.
  rewrite length_app, length_replicate, length_drop, Hs.
  match goal with |- context [?a <=? ?b] => destruct (Z.leb_spec a b); [| lia] end.
  cbn [cbind]. do 2 eexists. split; [done |]. split; [| by split_and!]. destruct Hsh as (_ & Hr).
  split; [| exact Hr]. cbn [Wi.ssid Wi.set_ssid Wi.set_ssid_len].
  rewrite !length_app, !length_drop, length_app, length_replicate, length_drop, Hs.
  pose proof (length_slice data len). lia.
Qed.

Lemma supported_rates_steps : steps w (wf_ie_supported_rates_update hw w data len).
Proof using Hsh.
  unfold wf_ie_supported_rates_update. pose proof data_len. pose proof Hsh as (_ & Hd & _).
  destruct ((len =? 0) || (8 <? len)) eqn:E; [by exists FAIL, w; split; [| apply keeps_refl] |].
  apply orb_false_elim in E as [E1 E2]. apply Z.eqb_neq in E1. apply Z.ltb_ge in E2.
  rewrite slice_Ret by lia. cbn [cbind]. change (drop (Z.to_nat 0) data) with data.
  set (rates := take _ _).
  assert (Hk : (length (List.filter (supported hw) rates) <= 8)%nat).
  { etransitivity; [apply filter_length_le |]. unfold rates. rewrite length_take. lia. }
  pose proof (supported_loop_spec hw rates [] (Wi.datarate w) 0 eq_refl) as Hx.
  cbn [app length] in Hx. rewrite Hx by lia. cbn [cbind]. do 2 eexists. split; [done |].
  split; [| by split_and!]. destruct Hsh as (Hs & _ & Hr). split; [exact Hs |]. split; [| exact Hr].
  cbn [Wi.datarate rates_network_type Wi.set_network_type Wi.set_datarate Wi.set_datarate_len].
  rewrite length_app, length_drop. lia.
Qed.

Lemma ext_rates_steps : (length d <= 4)%nat ->
  steps w (wf_ie_extend_supported_rates_update hw w data len).
Proof using Hsh.
  intros Hd. pose proof data_len. eapply copy_steps with (len := len); [lia | done | | |].
  - intros E. unfold wf_ie_extend_supported_rates_update. by rewrite E.
  - intros Hl. apply ext_rates_copy; [done | lia].
  - intros Hl. apply Nat.leb_le. etransitivity; [apply filter_length_le |]. rewrite length_take. lia.
Qed.

Lemma wmm_steps : (length d <= 24)%nat -> steps w (wf_ie_wmm_update w data len).
Proof using Hsh.
  intros Hd. pose proof data_len. eapply copy_steps with (len := len); [lia | done | | |].
  - intros E. unfold wf_ie_wmm_update. by rewrite E.
  - intros Hl. apply wmm_copy; [done | lia].
  - intros Hl. apply Z.leb_le. lia.
Qed.

Lemma ht_capability_steps tmp : length tmp = 26%nat ->
  length (Hw.default_supported_mcs_set hw) = 16%nat -> (length d <= 26)%nat ->
  steps w (wf_ie_ht_capability_update hw w tmp data len).
Proof using Hsh.
  intros Ht Hm Hd. pose proof data_len. eapply copy_steps with (len := len); [lia | done | | |].
  - intros E. unfold wf_ie_ht_capability_update. by rewrite E.
  - intros Hl. apply ht_capability_copy; done || lia.
  - intros Hl. apply Z.leb_le. lia.
Qed.

Lemma ht_operation_steps tmp : length tmp = 22%nat -> (length d <= 22)%nat ->
  steps w (wf_ie_ht_operation_info_update hw w tmp data len).
Proof using Hsh.
  intros Ht Hd. pose proof data_len. eapply copy_steps with (len := len); [lia | done | | |].
  - intros E. unfold wf_ie_ht_operation_info_update. by rewrite E.
  - intros Hl. apply ht_operation_copy; done || lia.
  - intros Hl. apply Z.leb_le. lia.
Qed.

Lemma erp_steps : steps w (wf_ie_erp_update w data len).
Proof using Hsh.
  unfold wf_ie_erp_update. pose proof data_len.
  destruct (Z.eqb_spec len 0); [by exists FAIL, w; split; [| apply keeps_refl] |].
  rewrite rd_nthZ by lia. cbn [cbind]. do 2 eexists. split; [done |]. split; [exact Hsh | by split_and!].
Qed.

Lemma flag_steps (f : Wi.wdn_net_info_st -> Z -> Z * Wi.wdn_net_info_st) :
  f = wf_ie_wpa_update \/ f = wf_ie_rsn_update -> steps w (Ret (f w len)).
Proof using Hsh.
  intros [-> | ->]; unfold wf_ie_wpa_update, wf_ie_rsn_update; destruct (len =? 0);
    do 2 eexists; (split; [reflexivity |]); split; try exact Hsh; by split_and!.
Qed.
End Steps.

(** A search followed by an update keeps the node when every element it may
    hit is one the update can take. *)
Lemma on_element_steps (p : Ies.ie -> bool) (ies : list Ies.ie) post search c f w :
  search = Ret (fst <$> Ies.find_ie p ies 0) -> shape w ->
  (forall e rest, p e = true -> e ∈ ies -> steps w (f (snd e ++ rest) (Z.of_nat (length (snd e))))) ->
  exists w', on_element (Ies.enc ies ++ post) search c f w = Ret (existsb p ies, w') /\ keeps w w'.
Proof.
  intros -> Hsh Hf. unfold on_element. cbn [cbind].
  destruct (Ies.find_ie p ies 0) as [[o e] |] eqn:Hfind; cbn [fmap option_fmap option_map fst].
  - apply Ies.find_ie_at in Hfind as (a & b & -> & -> & Hp).
    rewrite existsb_app. cbn [existsb]. rewrite Hp. cbn [orb]. rewrite orb_true_r.
    destruct c; [| exists w; split; [done | by apply keeps_refl]].
    rewrite Z.add_0_l, Ies.enc_app, Ies.enc_cons, <- !app_assoc.
    destruct (Ies.rd_header (Ies.enc a) e (Ies.enc b ++ post) _ eq_refl) as [_ ->]. cbn [cbind].
    assert (Hd : drop (Z.to_nat (Z.of_nat (length (Ies.enc a)) + 2))
      (Ies.enc a ++ Ies.enc_ie e ++ Ies.enc b ++ post) = snd e ++ Ies.enc b ++ post).
    { rewrite drop_app_ge by lia.
      by replace (Z.to_nat (Z.of_nat (length (Ies.enc a)) + 2) - length (Ies.enc a))%nat with 2%nat by lia. }
    rewrite Hd.
    destruct (Hf e (Ies.enc b ++ post) Hp) as (x & w' & -> & Hk);
      [apply elem_of_app; right; by left |]. cbn [cbind]. by exists w'.
  - exists w. split; [| by apply keeps_refl]. do 2 f_equal. symmetry. apply not_true_is_false.
    intros (e & Hin & Hp)%existsb_exists. clear Hf. revert Hfind Hin. generalize 0.
    induction ies as [| e' ies IH]; intros o; cbn [Ies.find_ie In]; [done |].
    destruct (p e') eqn:E; [done |]. intros Hn [-> | Hin]; [congruence | by eapply IH].
Qed.

Definition has (id : Z) (ies : list Ies.ie) : bool := existsb (fun e => fst e =? id) ies.

Lemma timestamp_floor ts base : base <> 0 ->
  ts - ts mod base - 1024 = base * (ts / base) - 1024.
Proof. intros Hb. pose proof (Z.div_mod ts base Hb). lia. Qed.

Lemma cap_info_keeps w cap : shape w -> keeps w (snd (wf_ie_cap_info_update w cap)).
Proof. intros Hs. split; [exact Hs | by split_and!]. Qed.

Lemma raid_keeps w r w' : shape w -> wf_wdn_get_raid_by_network_type w = (r, w') -> keeps w w'.
Proof.
  intros Hs. unfold wf_wdn_get_raid_by_network_type. intros E.
  assert (w' = w \/ exists rate, w' = Wi.set_tx_rate rate w) as [-> | [rate ->]].
  { revert E. repeat case_match; intros E; apply (f_equal snd) in E; cbn [snd] in E; eauto. }
  - by apply keeps_refl.
  - split; [exact Hs | by split_and!].
Qed.

(** Reads the result off the facts a [keeps] carries. *)
Ltac frame_close :=
  match goal with
  | K : keeps _ _ |- _ =>
      destruct K as (Ks & K1 & K2 & K3 & K4 & K5 & K6 & K7);
      split; [reflexivity |]; split; [exact Ks |]; split; [exact K1 |]; split; [exact K2 |];
      split; [exact K4 |]; split; [exact K5 |]; split; [exact K7 |]; split; [exact K6 | done]
  end.

(** One search and update of [wf_wdn_data_update]. *)
Ltac element_step tac :=
  match goal with
  | K : keeps _ ?w |- context [on_element (_ ++ ?post) (Ret (_ <$> Ies.find_ie ?p ?ies _)) ?c ?f ?w] =>
      let w' := fresh "w" in let E := fresh "E" in let K' := fresh "K" in
      destruct (on_element_steps p ies post _ c f w eq_refl (proj1 K)) as (w' & E & K');
      [tac K | rewrite E; clear E; cbn [cbind]; apply (keeps_trans _ _ _ K) in K'; clear K]
  end.

(** C34: given a network whose elements are well formed and fit, the update of
    a node always returns; it succeeds exactly when the network announces an
    SSID and supported rates.  The node keeps its identity and array sizes,
    takes over the network's BSSID, channel and beacon interval, and its TSF
    is the last beacon time less 1024.  A network with beacon interval 0 makes
    it divide by zero. *)
Theorem wdn_data_update_ok (hw : Hw.hw_info_st) (net : Net.wf_wlan_network_t) (mode : Z)
    (tmp1 tmp2 post : list Z) (ies : list Ies.ie) (w : Wi.wdn_net_info_st) :
  shape w -> length tmp1 = 22%nat -> length tmp2 = 26%nat ->
  length (Hw.default_supported_mcs_set hw) = 16%nat ->
  ies <> [] -> Forall fits ies -> Z.of_nat (length (Ies.enc ies)) < 65536 ->
  Net.ies net = Ies.enc ies ++ post -> Net.ies_length net = Z.of_nat (length (Ies.enc ies)) ->
  0 <= Net.bcn_interval net ->
  if Net.bcn_interval net =? 0 then wf_wdn_data_update hw net mode tmp1 tmp2 w = Fault
  else
    let ok := has EID_SSID ies && has EID_SUPP_RATES ies in
    exists w', wf_wdn_data_update hw net mode tmp1 tmp2 w = Ret (if ok then OK else FAIL, w', ok) /\
      shape w' /\ Wi.mac w' = Wi.mac w /\ Wi.wdn_id w' = Wi.wdn_id w /\
      Wi.bssid w' = Net.bssid net /\ Wi.channel w' = Net.channel net /\
      Wi.bcn_interval w' = Net.bcn_interval net /\
      (let base := Net.bcn_interval net * 1024 in
       Wi.tsf w' = u64 (base * (Net.timestamp net / base) - 1024)) /\
      (ok = true -> Wi.ieee8021x_blocked w' = wf_true).
Proof.
  intros Hsh H1 H2 Hm Hne Hfit Hmax Hies Hil Hbi. unfold wf_wdn_data_update.
  rewrite Hies, Hil, (u16_id (Z.of_nat _)) by (unfold is_u16; lia).
  destruct (Z.eqb_spec (Net.bcn_interval net) 0) as [-> | Hb]; [done |].
  destruct (Z.eqb_spec (Net.bcn_interval net * 1024) 0); [lia |]. cbn [cbind].
  rewrite <- timestamp_floor by lia.
  match goal with |- context [wf_ie_cap_info_update ?w _] => set (w0 := w) end.
  destruct (wf_ie_cap_info_update w0 (Net.cap_info net)) as [r1 w1] eqn:E1.
  pose proof (cap_info_keeps w0 (Net.cap_info net) Hsh) as K1. rewrite E1 in K1. cbn [snd] in K1. clear E1.
  assert (H4 : Forall (fun e : Ies.ie => fst e = EID_VENDOR_SPECIFIC -> (4 <= length (snd e))%nat) ies)
    by (eapply Forall_impl; [exact Hfit |]; intros e He; apply He).
  rewrite !Ies.search_enc, !Ies.search_oui_enc by done.
  rewrite list.Forall_forall in Hfit.
  set (ok := has EID_SSID ies && has EID_SUPP_RATES ies). cbv zeta.
  element_step ltac:(fun K => intros e rest _ _; apply ssid_steps, K).
  change (existsb _ ies) with (has EID_SSID ies).
  subst ok. destruct (has EID_SSID ies); cbn [negb andb]; [| exists w2; frame_close].
  element_step ltac:(fun K => intros e rest _ _; apply supported_rates_steps, K).
  change (existsb _ ies) with (has EID_SUPP_RATES ies).
  destruct (has EID_SUPP_RATES ies); cbn [negb]; [| exists w3; frame_close].
  element_step ltac:(fun K => intros e rest Hp%Z.eqb_eq He; apply ext_rates_steps; [apply K | by apply (Hfit e He)]).
  element_step ltac:(fun K => intros e rest Hp%Z.eqb_eq He; apply ht_operation_steps; [apply K | done | by apply (Hfit e He)]).
  element_step ltac:(fun K => intros e rest Hp%Z.eqb_eq He; apply ht_capability_steps; [apply K | done | done | by apply (Hfit e He)]).
  element_step ltac:(fun K => intros e rest _ _; apply erp_steps, K).
  element_step ltac:(fun K => intros e rest [Hp%Z.eqb_eq Ho%bool_decide_eq_true]%andb_prop He;
    apply wmm_steps; [apply K | by apply (Hfit e He)]).
  element_step ltac:(fun K => intros e rest _ _; apply flag_steps; [apply K | by left]).
  element_step ltac:(fun K => intros e rest _ _; apply flag_steps; [apply K | by right]).
  destruct (wf_wdn_get_raid_by_network_type _) as [raid w'] eqn:E.
  apply raid_keeps in E; [| by apply K]. apply (keeps_trans _ _ _ K) in E. clear K. rename E into K.
  eexists; frame_close.
Qed.


Definition wit_elements : list Ies.ie :=
  [(EID_SSID, [97; 98]); (EID_SUPP_RATES, [0x82; 0x84; 0x8b; 0x96]); (EID_HT_CAPABILITY, replicate 26 1);
   (EID_VENDOR_SPECIFIC, WMM_OUI ++ replicate 20 0)].

Definition wit_net : Net.wf_wlan_network_t :=
  Net.mk_network [2; 0; 0; 0; 0; 1] 2 6 0 100 1000000 0x431 (Ies.enc wit_elements ++ replicate 10 0) 64.

Lemma wdn_data_update_ok_witness :
  exists w', wf_wdn_data_update wit_hw wit_net 1 (replicate 22 0) (replicate 26 0) Wi.zero = Ret (OK, w', true) /\
    Wi.bssid w' = [2; 0; 0; 0; 0; 1] /\ Wi.tsf w' = 920576.
Proof.
  destruct (wdn_data_update_ok wit_hw wit_net 1 (replicate 22 0) (replicate 26 0) (replicate 10 0)
    wit_elements Wi.zero) as (w' & H & _ & _ & _ & Hb & _ & _ & Ht & _); try done.
  - repeat (apply Forall_cons_2; [split; [cbn; lia |]; split_and!; cbn; intros; (discriminate || lia) |]).
    constructor.
  - exists w'. split; [exact H |]. split; [exact Hb |]. rewrite Ht. reflexivity.
Defined.

End Ie.
