(* ===== verification/Timer.v ===== *)
(** * Time stamps and interval timers ([nic/utility/wf_timer.h])

    A timer keeps 32-bit time stamps.  The operating system's clock is the
    argument [now] of the operations that read it, any integer (it is 64 bits
    wide and truncated where the code truncates it); the conversions between
    milliseconds and clock ticks are the operating system's and are the
    section's parameters. *)
From S2P Require Import Prelude.

Module Timer.

Record wf_timer_t : Type := mk_timer {
  start : Z;
  expire : Z;
  interval : Z;
}.

Section Ops.
(** [wf_os_api_msecs_to_timestamp] and [wf_os_api_timestamp_to_msecs] *)
Context (msecs_to_timestamp timestamp_to_msecs : Z -> Z).

Definition wf_timer_set (now intv_ms : Z) (t : wf_timer_t) : wf_timer_t :=
  let s := u32 now in
  let i := msecs_to_timestamp intv_ms in
  mk_timer s (u32 (s + i)) i.

Definition wf_timer_reset (t : wf_timer_t) : wf_timer_t :=
  let s := expire t in
  mk_timer s (u32 (s + interval t)) (interval t).

Definition wf_timer_restart (now : Z) (t : wf_timer_t) : wf_timer_t :=
  let s := u32 now in
  mk_timer s (u32 (s + interval t)) (interval t).

Definition wf_timer_mod (intv_ms : Z) (t : wf_timer_t) : wf_timer_t :=
  let i := msecs_to_timestamp intv_ms in
  mk_timer (start t) (u32 (start t + i)) i.

Definition wf_timer_expired (now : Z) (t : wf_timer_t) : bool := s32 (expire t - now) <? 0.

Definition wf_timer_remaining (now : Z) (t : wf_timer_t) : Z := s32 (expire t - now).

Definition wf_timer_elapsed (now : Z) (t : wf_timer_t) : Z :=
  timestamp_to_msecs (u32 (u32 now - start t)).

(** ** Exactness across wrap-around *)

(** The timer [t] was started at the true time [t0]. *)
Definition runs_from (t0 : Z) (t : wf_timer_t) : Prop :=
  start t = u32 t0 /\ expire t = u32 (t0 + interval t).

Lemma u32_add x y : u32 (u32 x + y) = u32 (x + y).
Proof. unfold u32. by rewrite Z.add_mod_idemp_l. Qed.

Lemma runs_from_start t0 i : runs_from t0 (mk_timer (u32 t0) (u32 (u32 t0 + i)) i).
Proof. split; [done |]. apply u32_add. Qed.

Lemma s32_sub_u32 x now : -2147483648 <= x - now < 2147483648 -> s32 (u32 x - now) = x - now.
Proof.
  intros Hr. unfold s32, u32.
  replace (x mod 4294967296 - now + 2147483648) with (x mod 4294967296 + (2147483648 - now)) by lia.
  rewrite Z.add_mod_idemp_l by lia. rewrite Z.mod_small; lia.
Qed.

Lemma expired_spec t0 t d : runs_from t0 t ->
  interval t - 2147483648 < d <= interval t + 2147483648 ->
  wf_timer_remaining (t0 + d) t = interval t - d /\ wf_timer_expired (t0 + d) t = (interval t <? d).
Proof.
  intros [_ He] Hd. unfold wf_timer_remaining, wf_timer_expired.
  rewrite He, s32_sub_u32 by lia. replace (t0 + interval t - (t0 + d)) with (interval t - d) by lia.
  split; [done |]. destruct (Z.ltb_spec (interval t - d) 0), (Z.ltb_spec (interval t) d); lia.
Qed.

Fixpoint resets (n : nat) (t : wf_timer_t) : wf_timer_t :=
  match n with
  | O => t
  | S n => wf_timer_reset (resets n t)
  end.

Lemma resets_run n t0 t : runs_from t0 t ->
  interval (resets n t) = interval t /\ runs_from (t0 + Z.of_nat n * interval t) (resets n t).
Proof.
  intros Hr. induction n as [| n [IHi [_ IHe]]]; cbn [resets].
  { split; [done |]. rewrite Z.mul_0_l, Z.add_0_r. exact Hr. }
  split; [exact IHi |]. unfold wf_timer_reset, runs_from. cbn [start expire interval].
  rewrite IHe, IHi, u32_add. split; f_equal; lia.
Qed.

(** A timer set, restarted or modified keeps exact time across the wrap of
    its 32-bit clock.  Started at time [t0], it reports [interval - d] ticks
    left after [d] ticks and has expired exactly when [d] is larger than the
    interval, as long as [d] is within [2 ^ 31] of it; the time elapsed is
    [d] for [d] below [2 ^ 32]; and [n] resets later it is the timer started
    at [t0 + n * interval], so a periodic timer does not drift. *)
Theorem timer_exact (t : wf_timer_t) (t0 ms d : Z) (n : nat) :
  let set := wf_timer_set t0 ms t in
  let i := msecs_to_timestamp ms in
  wf_timer_restart t0 set = set /\
  (start t = u32 t0 -> wf_timer_mod ms t = set) /\
  interval set = i /\
  (i - 2147483648 < d <= i + 2147483648 ->
     wf_timer_remaining (t0 + Z.of_nat n * i + d) (resets n set) = i - d /\
     wf_timer_expired (t0 + Z.of_nat n * i + d) (resets n set) = (i <? d)) /\
  (0 <= d < 4294967296 ->
     wf_timer_elapsed (t0 + Z.of_nat n * i + d) (resets n set) = timestamp_to_msecs d).
Proof.
  intros set i.
  assert (Hr : runs_from t0 set) by apply runs_from_start.
  destruct (resets_run n t0 set Hr) as [Hi Hn]. change (interval set) with i in *.
  split; [done |]. split; [by intros Hs; unfold wf_timer_mod; rewrite Hs |]. split; [done |]. split.
  - intros Hd. destruct (expired_spec _ _ d Hn) as [H1 H2]; rewrite Hi in *; [lia |]. done.
  - intros Hd. unfold wf_timer_elapsed. destruct Hn as [Hs _]. rewrite Hs. f_equal. unfold u32.
    rewrite <- Zminus_mod. rewrite Z.add_simpl_l. by apply Z.mod_small.
Qed.
End Ops.

(** The clock wraps during the interval: set 10 ticks before the wrap. *)
Lemma timer_exact_witness :
  let t := wf_timer_set (fun ms => ms) 4294967286 100 (mk_timer 0 0 0) in
  wf_timer_expired (4294967286 + 0 * 100 + 100) t = false /\
  wf_timer_expired (4294967286 + 0 * 100 + 101) t = true.
Proof.
  split.
  - apply (timer_exact (fun ms => ms) (fun x => x) (mk_timer 0 0 0) 4294967286 100 100 0). cbn. lia.
  - apply (timer_exact (fun ms => ms) (fun x => x) (mk_timer 0 0 0) 4294967286 100 101 0). cbn. lia.
Defined.
End Timer.
