(* ===== verification/Reorder.v ===== *)
(** * Receive reordering under a block acknowledgment ([nic/rx.c], lines 1628-2283)

    The state of one traffic identifier, [recv_ba_ctrl_st]: the window, the
    queue of frames held back, and the pool of nodes for that queue.  A queue
    is the sequence of its nodes, from the head's successor on, with its
    separate counter; every function works under the queue's lock.  A socket
    buffer is a number; [None] is a null pointer.  What the code hands to
    [upload_func], [free_skb], the timer and the allocator is recorded as a
    series of effects. *)
From stdpp Require Import sorting.
From S2P Require Import Prelude Timer.

Module Reorder.

Record rx_reorder_queue_st : Type := mk_node {
  addr : Z;
  seq_num : Z;
  pskb : option Z;
}.

Record wf_que_t : Type := mk_que {
  nodes : list rx_reorder_queue_st;
  cnt : Z;
}.

Record recv_ba_ctrl_st : Type := mk_ba {
  enable : bool;
  indicate_seq : Z;
  wend_b : Z;
  wsize_b : Z;
  pending_reorder_queue : wf_que_t;
  free_order_queue : wf_que_t;
  wait_timeout : Z;
  expect_time_start : Timer.wf_timer_t;
  drop_pkts : Z;
}.

Definition set_indicate (v : Z) (t : Timer.wf_timer_t) (ba : recv_ba_ctrl_st) : recv_ba_ctrl_st :=
  mk_ba (enable ba) v (wend_b ba) (wsize_b ba) (pending_reorder_queue ba) (free_order_queue ba)
    (wait_timeout ba) t (drop_pkts ba).
Definition set_wend (v : Z) (ba : recv_ba_ctrl_st) : recv_ba_ctrl_st :=
  mk_ba (enable ba) (indicate_seq ba) v (wsize_b ba) (pending_reorder_queue ba) (free_order_queue ba)
    (wait_timeout ba) (expect_time_start ba) (drop_pkts ba).
Definition set_pending (q : wf_que_t) (ba : recv_ba_ctrl_st) : recv_ba_ctrl_st :=
  mk_ba (enable ba) (indicate_seq ba) (wend_b ba) (wsize_b ba) q (free_order_queue ba)
    (wait_timeout ba) (expect_time_start ba) (drop_pkts ba).
Definition set_free (q : wf_que_t) (ba : recv_ba_ctrl_st) : recv_ba_ctrl_st :=
  mk_ba (enable ba) (indicate_seq ba) (wend_b ba) (wsize_b ba) (pending_reorder_queue ba) q
    (wait_timeout ba) (expect_time_start ba) (drop_pkts ba).
Definition inc_drop (ba : recv_ba_ctrl_st) : recv_ba_ctrl_st :=
  mk_ba (enable ba) (indicate_seq ba) (wend_b ba) (wsize_b ba) (pending_reorder_queue ba)
    (free_order_queue ba) (wait_timeout ba) (expect_time_start ba) (u64 (drop_pkts ba + 1)).

Inductive effect : Type :=
  | Upload (skb : Z)        (* upload_func *)
  | FreeSkb (skb : Z)       (* free_skb *)
  | SetTimer (ms : Z)       (* wf_os_api_timer_set *)
  | Kfree (node : Z).       (* wf_kfree of a queue node *)

Definition SN_LESS (a b : Z) : bool := nz (Z.land (a - b) 0x800).
Definition SN_EQUAL (a b : Z) : bool := a =? b.

Definition REORDER_DROP : Z := -1.
Definition REORDER_ENQUE : Z := 1.
Definition BA_REORDER_QUEUE_NUM : nat := 64.
Definition TID_NUM : nat := 16.

Definition rx_free_reorder_empty (ba : recv_ba_ctrl_st) : bool :=
  match nodes (free_order_queue ba) with [] => true | _ => false end.

Definition rx_free_reorder_dequeue (ba : recv_ba_ctrl_st)
    : option rx_reorder_queue_st * recv_ba_ctrl_st :=
  match nodes (free_order_queue ba) with
  | [] => (None, ba)
  | n :: ns => (Some n, set_free (mk_que ns (u32 (cnt (free_order_queue ba) - 1))) ba)
  end.

(** The node goes in front of the first node of the pool; the counter is
    decremented. *)
Definition rx_free_reorder_enqueue (ba : recv_ba_ctrl_st) (node : rx_reorder_queue_st)
    : recv_ba_ctrl_st :=
  let q := free_order_queue ba in
  set_free (mk_que (node :: nodes q) (u32 (cnt q - 1))) ba.

Definition rx_pending_reorder_is_empty (ba : recv_ba_ctrl_st) : bool :=
  match nodes (pending_reorder_queue ba) with [] => true | _ => false end.

Definition rx_pending_reorder_getqueue (ba : recv_ba_ctrl_st) : option rx_reorder_queue_st :=
  match nodes (pending_reorder_queue ba) with [] => None | n :: _ => Some n end.

Definition rx_pending_reorder_dequeue (ba : recv_ba_ctrl_st)
    : option rx_reorder_queue_st * recv_ba_ctrl_st :=
  match nodes (pending_reorder_queue ba) with
  | [] => (None, ba)
  | n :: ns => (Some n, set_pending (mk_que ns (u32 (cnt (pending_reorder_queue ba) - 1))) ba)
  end.

Definition rx_pending_reorder_get_cnt (ba : recv_ba_ctrl_st) : Z := cnt (pending_reorder_queue ba).

(** The walk of [rx_pending_reorder_enqueue] from the tail: [before] are the
    nodes not yet visited, last one first, and [after] the visited ones in
    queue order.  [None] for a duplicate; otherwise the place of the new node,
    between the two lists. *)
Fixpoint find_place (current_seq : Z) (before after : list rx_reorder_queue_st)
    : option (list rx_reorder_queue_st * list rx_reorder_queue_st) :=
  match before with
  | [] => Some ([], after)
  | p :: before' =>
      if SN_EQUAL (seq_num p) current_seq then None
      else if SN_LESS current_seq (seq_num p) then find_place current_seq before' (p :: after)
      else Some (rev before, after)
  end.

(** An empty pool makes the function ask for a node for ever. *)
Definition rx_pending_reorder_enqueue (current_seq : Z) (skb : Z) (ba : recv_ba_ctrl_st)
    : C (Z * recv_ba_ctrl_st) :=
  match find_place current_seq (rev (nodes (pending_reorder_queue ba))) [] with
  | None => Ret (-1, inc_drop ba)
  | Some (l, r) =>
      match rx_free_reorder_dequeue ba with
      | (None, _) => Stuck
      | (Some n, ba) =>
          let new := mk_node (addr n) current_seq (Some skb) in
          let q := pending_reorder_queue ba in
          Ret (0, set_pending (mk_que (l ++ new :: r) (u32 (cnt q + 1))) ba)
      end
  end.

Section Window.
(** [wf_os_api_msecs_to_timestamp] *)
Context (msecs_to_timestamp : Z -> Z).

(** [indicate_seq = v; wf_timer_set(&expect_time_start, 0)] *)
Definition expect (now v : Z) (ba : recv_ba_ctrl_st) : recv_ba_ctrl_st :=
  set_indicate v (Timer.wf_timer_set msecs_to_timestamp now 0 (expect_time_start ba)) ba.

Definition rx_do_update_expect_seq (now seq : Z) (ba : recv_ba_ctrl_st) : recv_ba_ctrl_st :=
  expect now (Z.land (seq + 1) 0xFFF) ba.

Definition rx_do_chk_expect_seq (now seq : Z) (ba : recv_ba_ctrl_st) : Z * recv_ba_ctrl_st :=
  let ba := if indicate_seq ba =? 0xFFFF then expect now seq ba else ba in
  let ba := set_wend (Z.land (indicate_seq ba + wsize_b ba - 1) 0xFFF) ba in
  if SN_EQUAL seq (indicate_seq ba) then
    (REORDER_ENQUE, expect now (Z.land (indicate_seq ba + 1) 0xFFF) ba)
  else if SN_LESS seq (indicate_seq ba) then (REORDER_DROP, inc_drop ba)
  else if SN_LESS (wend_b ba) seq then
    (REORDER_ENQUE,
     expect now (if wsize_b ba - 1 <=? seq then u16 (seq + 1 - wsize_b ba)
                 else u16 (0xFFF - (wsize_b ba - (seq + 1)) + 1)) ba)
  else (REORDER_ENQUE, ba).

(** The loop of [rx_reorder_upload]. *)
Fixpoint upload_loop (fuel : nat) (now tmp_ret : Z) (ba : recv_ba_ctrl_st)
    : C (Z * recv_ba_ctrl_st * list effect) :=
  match fuel with
  | O => Stuck
  | S fuel =>
      match rx_pending_reorder_getqueue ba with
      | None => Ret (tmp_ret, ba, [])
      | Some get =>
          if negb (SN_LESS (indicate_seq ba) (seq_num get)) then
            match rx_pending_reorder_dequeue ba with
            | (None, _) => Fault
            | (Some de, ba) =>
                if negb (addr de =? addr get) then
                  match pskb de with
                  | Some skb => letc (_, ba) := rx_pending_reorder_enqueue (seq_num de) skb ba in
                                Ret (tmp_ret, ba, [])
                  | None => Ret (tmp_ret, ba, [])
                  end
                else
                  let ba := if SN_EQUAL (indicate_seq ba) (seq_num de)
                            then expect now (Z.land (indicate_seq ba + 1) 0xFFF) ba else ba in
                  let up := match pskb de with Some skb => [Upload skb] | None => [] end in
                  let ba := rx_free_reorder_enqueue ba de in
                  letc (r, ba, es) := upload_loop fuel now 0 ba in
                  Ret (r, ba, up ++ es)
            end
          else Ret (rx_pending_reorder_get_cnt ba, ba, [])
      end
  end.

(** Each iteration but the last takes a node off the queue. *)
Definition rx_reorder_upload (now : Z) (ba : recv_ba_ctrl_st)
    : C (Z * recv_ba_ctrl_st * list effect) :=
  upload_loop (S (length (nodes (pending_reorder_queue ba)))) now 0 ba.

(** The end that the timeout and the frame handler share: upload, and arm the
    timer again when frames are left. *)
Definition upload_and_rearm (now : Z) (ba : recv_ba_ctrl_st) : C (recv_ba_ctrl_st * list effect) :=
  letc (r, ba, es) := rx_reorder_upload now ba in
  let pktCnt_inQueue := u8 r in
  Ret (ba, es ++ if nz pktCnt_inQueue then [SetTimer (wait_timeout ba)] else []).

Definition rx_reorder_timeout_handle (now : Z) (ba : recv_ba_ctrl_st)
    : C (recv_ba_ctrl_st * list effect) :=
  match rx_pending_reorder_getqueue ba with
  | None => Ret (ba, [])
  | Some get =>
      upload_and_rearm now (set_indicate (seq_num get) (expect_time_start ba) ba)
  end.

(** [wf_rx_data_reorder_core] on the block acknowledgment state of the frame's
    priority. *)
Definition reorder_frame (now seq skb : Z) (ba : recv_ba_ctrl_st)
    : C (recv_ba_ctrl_st * list effect) :=
  let '(ret, ba) := rx_do_chk_expect_seq now seq ba in
  letc (ret, ba) := (if REORDER_ENQUE =? ret then rx_pending_reorder_enqueue seq skb ba
                     else Ret (ret, ba)) in
  if ret <? 0 then Ret (ba, [FreeSkb skb]) else upload_and_rearm now ba.

(** The frame as the function sees it: its buffer, whether its node is known,
    its priority and sequence number. *)
Record rx_frame : Type := mk_frame {
  f_pskb : option Z;
  f_wdn : bool;
  f_qos_pri : Z;
  f_seq_num : Z;
}.

Definition wf_rx_data_reorder_core (now : Z) (pkt : rx_frame) (ba_ctl : list recv_ba_ctrl_st)
    : C (list recv_ba_ctrl_st * list effect) :=
  match f_pskb pkt with
  | None => Ret (ba_ctl, [])
  | Some skb =>
      if negb (f_wdn pkt) then Ret (ba_ctl, [])
      else
        letc ba := of_option (ba_ctl !! Z.to_nat (f_qos_pri pkt)) in
        letc (ba, es) := reorder_frame now (f_seq_num pkt) skb ba in
        Ret (<[Z.to_nat (f_qos_pri pkt) := ba]> ba_ctl, es)
  end.
End Window.

(** Emptying the pending queue in [wf_rx_ba_reinit] and
    [wf_rx_action_ba_ctl_deinit]: a buffer is given back only when its pointer
    is null (the [0] here). *)
Fixpoint drain_loop (fuel : nat) (ba : recv_ba_ctrl_st) : C (recv_ba_ctrl_st * list effect) :=
  match fuel with
  | O => Stuck
  | S fuel =>
      match rx_pending_reorder_dequeue ba with
      | (None, ba) => Ret (ba, [])
      | (Some n, ba) =>
          letc (ba, es) := drain_loop fuel ba in
          Ret (ba, match pskb n with None => [FreeSkb 0] | Some _ => [] end ++ Kfree (addr n) :: es)
      end
  end.

Definition drain_pending (ba : recv_ba_ctrl_st) : C (recv_ba_ctrl_st * list effect) :=
  if rx_pending_reorder_is_empty ba then Ret (ba, [])
  else drain_loop (S (length (nodes (pending_reorder_queue ba)))) ba.

Definition ba_reinit (ba : recv_ba_ctrl_st) : C (recv_ba_ctrl_st * list effect) :=
  let ba := mk_ba false 0xffff 0xffff (wsize_b ba) (pending_reorder_queue ba) (free_order_queue ba)
              (wait_timeout ba) (expect_time_start ba) (drop_pkts ba) in
  drain_pending ba.

Definition wf_rx_ba_reinit (ba_ctl : list recv_ba_ctrl_st) (tid : Z)
    : C (Z * list recv_ba_ctrl_st * list effect) :=
  if Z.of_nat TID_NUM <=? tid then Ret (-2, ba_ctl, [])
  else
    letc ba := of_option (ba_ctl !! Z.to_nat tid) in
    letc (ba, es) := ba_reinit ba in
    Ret (0, <[Z.to_nat tid := ba]> ba_ctl, es).

Fixpoint reinit_from (ba_ctl : list recv_ba_ctrl_st) (tid : Z) (n : nat)
    : C (list recv_ba_ctrl_st * list effect) :=
  match n with
  | O => Ret (ba_ctl, [])
  | S n =>
      letc (_, ba_ctl, es) := wf_rx_ba_reinit ba_ctl tid in
      letc (ba_ctl, es') := reinit_from ba_ctl (tid + 1) n in
      Ret (ba_ctl, es ++ es')
  end.

Definition wf_rx_ba_all_reinit (ba_ctl : list recv_ba_ctrl_st) : C (list recv_ba_ctrl_st * list effect) :=
  reinit_from ba_ctl 0 TID_NUM.

(** The pool of [wf_rx_action_ba_ctl_init]: [alloc] are the results of the
    allocations, [None] for a failure, which ends the loop. *)
Fixpoint alloc_pool (alloc : list (option Z)) : list rx_reorder_queue_st :=
  match alloc with
  | Some a :: alloc => mk_node a 0 None :: alloc_pool alloc
  | _ => []
  end.

(** One traffic identifier of [wf_rx_action_ba_ctl_init]; [old] holds the
    fields the function does not set. *)
Definition ba_ctl_init (alloc : list (option Z)) (old : recv_ba_ctrl_st) : recv_ba_ctrl_st :=
  let pool := alloc_pool (take BA_REORDER_QUEUE_NUM alloc) in
  mk_ba false 0xffff 0xffff 64 (mk_que [] 0) (mk_que pool (Z.of_nat (length pool)))
    (wait_timeout old) (expect_time_start old) 0.

Definition wf_rx_action_ba_ctl_init (allocs : list (list (option Z))) (olds : list recv_ba_ctrl_st)
    : list recv_ba_ctrl_st :=
  zip_with ba_ctl_init allocs olds.

(** One traffic identifier of [wf_rx_action_ba_ctl_deinit]. *)
Definition ba_ctl_deinit (ba : recv_ba_ctrl_st) : C (recv_ba_ctrl_st * list effect) :=
  letc (ba, es) := drain_pending ba in
  Ret (ba, es ++ ((fun n => Kfree (addr n)) <$> nodes (free_order_queue ba))).

Fixpoint wf_rx_action_ba_ctl_deinit (ba_ctl : list recv_ba_ctrl_st)
    : C (list recv_ba_ctrl_st * list effect) :=
  match ba_ctl with
  | [] => Ret ([], [])
  | ba :: bas =>
      letc (ba, es) := ba_ctl_deinit ba in
      letc (bas, es') := wf_rx_action_ba_ctl_deinit bas in
      Ret (ba :: bas, es ++ es')
  end.

(** ** Reference: a reorder buffer over unbounded sequence numbers *)

Definition WINDOW : Z := 64.

(** The first number still expected, once known, and the frames held back. *)
Record abs_ba : Type := mk_abs {
  base : option Z;
  buf : list (Z * Z);
}.

Fixpoint abs_insert (t k : Z) (l : list (Z * Z)) : list (Z * Z) :=
  match l with
  | [] => [(t, k)]
  | (u, j) :: r => if t <? u then (t, k) :: l else (u, j) :: abs_insert t k r
  end.

(** Frames up to the expected one go out, and the expected number advances
    over the ones that are there. *)
Fixpoint abs_release (b : Z) (l : list (Z * Z)) : Z * list (Z * Z) * list (Z * Z) :=
  match l with
  | [] => (b, [], [])
  | (t, k) :: r =>
      if t <=? b then
        let '(b, r, out) := abs_release (if t =? b then b + 1 else b) r in (b, r, (t, k) :: out)
      else (b, l, [])
  end.

(** The new state, the frames handed out, and the frames dropped. *)
Definition abs_arrive (t k : Z) (st : abs_ba) : abs_ba * list (Z * Z) * list (Z * Z) :=
  let b := default t (base st) in
  if (t <? b) || existsb (fun p => fst p =? t) (buf st) then (mk_abs (Some b) (buf st), [], [(t, k)])
  else
    let b := if t =? b then b + 1 else Z.max b (t - WINDOW + 1) in
    let '(b, r, out) := abs_release b (abs_insert t k (buf st)) in
    (mk_abs (Some b) r, out, []).

Definition abs_timeout (st : abs_ba) : abs_ba * list (Z * Z) * list (Z * Z) :=
  match buf st with
  | [] => (st, [], [])
  | (t, _) :: _ => let '(b, r, out) := abs_release t (buf st) in (mk_abs (Some b) r, out, [])
  end.

(** The number closest to the expected one that a 12-bit number may stand for. *)
Definition lift (st : abs_ba) (s : Z) : Z :=
  match base st with
  | None => s
  | Some b => b - 2048 + (s - (b - 2048)) mod 4096
  end.

(** What holds between two events: the frames held back are in order, above
    the expected number and inside the window. *)
Definition abs_ok (st : abs_ba) : Prop :=
  match base st with
  | None => buf st = []
  | Some b => StronglySorted Z.lt (fst <$> buf st) /\ Forall (fun p => b < fst p < b + WINDOW) (buf st)
  end.

(** ** Sequence number arithmetic *)

Lemma sn_less_spec a b : SN_LESS a b = (2048 <=? (a - b) mod 4096).
Proof.
  unfold SN_LESS. change (Z.land (a - b) 0x800) with (Z.land (a - b) (BIT 11)). rewrite land_BIT by lia.
  rewrite <- (Z.mod_pow2_bits_low (a - b) 12 11) by lia. change (2 ^ 12) with 4096.
  pose proof (Z.mod_pos_bound (a - b) 4096 ltac:(lia)). set (x := (a - b) mod 4096) in *.
  rewrite Z.testbit_eqb by lia. change (2 ^ 11) with 2048.
  destruct (Z.leb_spec 2048 x).
  - apply Z.eqb_eq. replace (x / 2048) with 1; [done |].
    apply (Z.div_unique x 2048 1 (x - 2048)); lia.
  - apply Z.eqb_neq. rewrite Z.div_small by lia. done.
Qed.

Lemma sn_less_mod a b : -2048 <= a - b < 2048 ->
  SN_LESS (a mod 4096) (b mod 4096) = (a <? b).
Proof.
  intros Hr. rewrite sn_less_spec, <- Zminus_mod.
  destruct (Z.ltb_spec a b).
  - replace ((a - b) mod 4096) with (a - b + 4096); [apply Z.leb_le; lia |].
    apply (Z.mod_unique (a - b) 4096 (-1)); lia.
  - rewrite Z.mod_small by lia. apply Z.leb_gt. lia.
Qed.

Lemma mod_eq_near a b : -4096 < a - b < 4096 -> a mod 4096 = b mod 4096 -> a = b.
Proof.
  intros Hr He. pose proof (Z.div_mod a 4096 ltac:(lia)). pose proof (Z.div_mod b 4096 ltac:(lia)).
  nia.
Qed.

Lemma sn_equal_mod a b : -4096 < a - b < 4096 ->
  SN_EQUAL (a mod 4096) (b mod 4096) = (a =? b).
Proof.
  intros Hr. unfold SN_EQUAL. destruct (Z.eqb_spec a b) as [-> |]; [apply Z.eqb_refl |].
  apply Z.eqb_neq. intros He. by apply mod_eq_near in He.
Qed.

Lemma lift_range b l s : b - 2048 <= lift (mk_abs (Some b) l) s < b + 2048.
Proof. cbn [lift base]. pose proof (Z.mod_pos_bound (s - (b - 2048)) 4096 ltac:(lia)). lia. Qed.

Lemma lift_mod st s : 0 <= s < 4096 -> lift st s mod 4096 = s.
Proof.
  intros Hs. unfold lift. destruct (base st) as [b |]; [| by apply Z.mod_small].
  rewrite Z.add_mod_idemp_r by lia. replace (b - 2048 + (s - (b - 2048))) with s by lia.
  by apply Z.mod_small.
Qed.

(** ** The queue and the reference list *)

(** The nodes [ns] hold the frames [l]. *)
Definition view (n : rx_reorder_queue_st) : Z * option Z := (seq_num n, pskb n).
Definition enc (p : Z * Z) : Z * option Z := (fst p mod 4096, Some (snd p)).
Definition holds (ns : list rx_reorder_queue_st) (l : list (Z * Z)) : Prop := view <$> ns = enc <$> l.

Abbreviation sorted l := (StronglySorted Z.lt (fst <$> l)).
Abbreviation near b l := (Forall (fun p : Z * Z => -2048 < b - fst p < 2048) l).

Lemma holds_length ns l : holds ns l -> length ns = length l.
Proof. intros H%(f_equal length). by rewrite !length_fmap in H. Qed.

Lemma holds_app n1 n2 l1 l2 : holds n1 l1 -> holds n2 l2 -> holds (n1 ++ n2) (l1 ++ l2).
Proof. unfold holds. intros H1 H2. by rewrite !fmap_app, H1, H2. Qed.

Lemma holds_snoc ns l p : holds ns (l ++ [p]) -> exists ns' n, ns = ns' ++ [n] /\ holds ns' l /\ view n = enc p.
Proof.
  unfold holds. rewrite fmap_app. intros H.
  destruct ns as [| n ns' _] using rev_ind.
  { destruct (enc <$> l); discriminate H. }
  exists ns', n. rewrite fmap_app in H. apply app_inj_tail in H as [H1 H2]. done.
Qed.

Lemma holds_cons ns p l : holds ns (p :: l) -> exists n ns', ns = n :: ns' /\ holds ns' l /\ view n = enc p.
Proof. unfold holds. destruct ns as [| n ns]; intros H; [done |]. injection H as H1 H2 H3. exists n, ns. split_and!; try done. unfold view, enc. by rewrite H1, H2. Qed.

Lemma abs_insert_snoc_lt t k l p : t < fst p -> abs_insert t k (l ++ [p]) = abs_insert t k l ++ [p].
Proof.
  intros Ht. induction l as [| [u j] l IH]; cbn [abs_insert app].
  - destruct p as [u j]. cbn [abs_insert fst] in *. by rewrite (proj2 (Z.ltb_lt _ _) Ht).
  - destruct (t <? u); [done |]. by rewrite IH.
Qed.

Lemma abs_insert_ge t k l : Forall (fun p => fst p < t) l -> abs_insert t k l = l ++ [(t, k)].
Proof.
  induction 1 as [| [u j] l Hu _ IH]; [done |]. cbn [abs_insert app fst] in *.
  destruct (Z.ltb_spec t u); [lia |]. by rewrite IH.
Qed.

(** The walk finds the duplicate, or the place of the frame in the order. *)
Lemma find_place_spec t k l : forall ns r,
  holds ns l -> sorted l -> near t l ->
  if existsb (fun p => fst p =? t) l then find_place (t mod 4096) (rev ns) r = None
  else exists n1 n2 l1 l2, ns = n1 ++ n2 /\ l = l1 ++ l2 /\ holds n1 l1 /\ holds n2 l2 /\
    find_place (t mod 4096) (rev ns) r = Some (n1, n2 ++ r) /\ abs_insert t k l = l1 ++ (t, k) :: l2.
Proof.
  induction l as [| p l IH] using rev_ind; intros ns r Hh Hs Hn.
  { apply holds_length in Hh. destruct ns; [| done]. cbn [existsb]. by exists [], [], [], []. }
  apply holds_snoc in Hh as (ns' & n & -> & Hh & Hv). unfold view, enc in Hv. injection Hv as Hseq Hskb.
  apply Forall_app in Hn as [Hn Hp]. apply Forall_cons in Hp as [Hp _].
  rewrite fmap_app in Hs. apply StronglySorted_app in Hs as (Hlt & Hs & _).
  rewrite rev_app_distr, existsb_app. cbn [rev app existsb find_place].
  rewrite Hseq, sn_equal_mod, sn_less_mod, orb_false_r by lia.
  destruct (Z.eqb_spec (fst p) t) as [Heq | Hne]; [by rewrite orb_true_r |]. rewrite orb_false_r.
  destruct (Z.ltb_spec t (fst p)).
  - specialize (IH ns' (n :: r) Hh Hs Hn). destruct (existsb _ l); [done |].
    destruct IH as (n1 & n2 & l1 & l2 & -> & -> & H1 & H2 & Hf & Hi).
    exists n1, (n2 ++ [n]), l1, (l2 ++ [p]). rewrite !app_assoc, <- (app_assoc n2).
    split_and!; try done.
    + apply holds_app; [done |]. unfold holds, view, enc. cbn. by rewrite Hseq, Hskb.
    + rewrite abs_insert_snoc_lt, Hi by done. by rewrite <- app_assoc.
  - assert (Hl : Forall (fun q : Z * Z => fst q < fst p) l).
    { apply list.Forall_forall. intros q Hq. apply Hlt; [| by left].
      apply list_elem_of_fmap. eauto. }
    assert (He : existsb (fun q => fst q =? t) l = false).
    { apply not_true_is_false. intros (q & Hq & Hqt)%existsb_exists. apply Z.eqb_eq in Hqt.
      apply list_elem_of_In in Hq. rewrite list.Forall_forall in Hl. specialize (Hl q Hq). lia. }
    rewrite He. exists (ns' ++ [n]), [], (l ++ [p]), []. rewrite !app_nil_r. split_and!; try done.
    + apply holds_app; [done |]. unfold holds, view, enc. cbn. by rewrite Hseq, Hskb.
    + by rewrite rev_involutive.
    + apply abs_insert_ge. apply Forall_app. split; [| apply Forall_singleton; lia].
      eapply Forall_impl; [exact Hl |]. cbn. intros q Hq. lia.
Qed.

(** The state [ba] stands for expected number [b] and held frames [l]; all 64
    nodes are in one of the two queues. *)
Definition rep (b : Z) (l : list (Z * Z)) (ba : recv_ba_ctrl_st) : Prop :=
  wsize_b ba = WINDOW /\ indicate_seq ba = b mod 4096 /\
  holds (nodes (pending_reorder_queue ba)) l /\
  cnt (pending_reorder_queue ba) = Z.of_nat (length l) /\
  (length l + length (nodes (free_order_queue ba)) = BA_REORDER_QUEUE_NUM)%nat.

(** ** The reference buffer *)

Lemma abs_insert_Permutation t k l : Permutation (abs_insert t k l) ((t, k) :: l).
Proof.
  induction l as [| [u j] l IH]; [done |]. cbn [abs_insert]. destruct (t <? u); [done |].
  rewrite IH. apply Permutation_swap.
Qed.

Lemma abs_insert_sorted t k l :
  sorted l -> existsb (fun p => fst p =? t) l = false -> sorted (abs_insert t k l).
Proof.
  induction l as [| [u j] l IH]; intros Hs He.
  { cbn. repeat constructor. }
  cbn [existsb fst] in He. apply orb_false_elim in He as [Hu He]. apply Z.eqb_neq in Hu.
  cbn [fmap list_fmap fst] in Hs. apply StronglySorted_cons in Hs as [Hlt Hs]. cbn [abs_insert].
  destruct (Z.ltb_spec t u); cbn [fmap list_fmap fst]; apply StronglySorted_cons.
  - split; [| by apply StronglySorted_cons]. apply Forall_cons. split; [done |].
    eapply Forall_impl; [exact Hlt |]. cbn. intros x Hx. lia.
  - split; [| by apply IH].
    assert (Hp : Permutation (fst <$> abs_insert t k l) (t :: (fst <$> l)))
      by exact (fmap_Permutation fst _ _ (abs_insert_Permutation t k l)).
    rewrite Hp. apply Forall_cons. split; [lia | done].
Qed.

(** What a release leaves and what it hands out. *)
Lemma release_ok l : forall b, sorted l -> Forall (fun p => fst p < b + WINDOW) l ->
  let '(b', r, out) := abs_release b l in
  b <= b' /\ l = out ++ r /\ Forall (fun p => fst p < b') out /\
  Forall (fun p => b' < fst p < b' + WINDOW) r.
Proof.
  induction l as [| [t k] l IH]; intros b Hs Hl; cbn [abs_release].
  { split_and!; [lia | done | constructor | constructor]. }
  cbn [fmap list_fmap fst] in Hs. apply StronglySorted_cons in Hs as [Hlt Hs].
  apply Forall_cons in Hl as [Ht Hl]. cbn [fst] in Ht.
  destruct (Z.leb_spec t b).
  - specialize (IH (if t =? b then b + 1 else b) Hs).
    destruct (abs_release (if t =? b then b + 1 else b) l) as [[b' r] out].
    destruct IH as (Hb & Hlr & Ho & Hr).
    { eapply Forall_impl; [exact Hl |]. cbn. intros p Hp. destruct (t =? b); lia. }
    split_and!; [destruct (t =? b); lia | by rewrite Hlr | | done].
    apply Forall_cons. split; [cbn [fst]; destruct (Z.eqb_spec t b); lia | done].
  - split_and!; [lia | done | constructor |]. apply Forall_cons. split; [cbn [fst]; lia |].
    rewrite list.Forall_forall in Hlt. rewrite list.Forall_forall in Hl. apply list.Forall_forall.
    intros p Hp. specialize (Hl p Hp). specialize (Hlt (fst p) ltac:(apply list_elem_of_fmap; eauto)). lia.
Qed.

(** An increasing list of numbers in an interval is not longer than it. *)
Lemma sorted_length (l : list Z) a c : StronglySorted Z.lt l -> Forall (fun z => a <= z < c) l ->
  a <= c -> Z.of_nat (length l) <= c - a.
Proof.
  revert a. induction l as [| z l IH]; intros a Hs Hf Hac; cbn [length]; [lia |].
  apply StronglySorted_cons in Hs as [Hlt Hs]. apply Forall_cons in Hf as [Hz Hf].
  assert (Hf' : Forall (fun x => z + 1 <= x < c) l).
  { rewrite list.Forall_forall in Hlt. rewrite list.Forall_forall in Hf.
    apply list.Forall_forall. intros x Hx. specialize (Hlt x Hx). specialize (Hf x Hx). lia. }
  specialize (IH (z + 1) Hs Hf' ltac:(lia)). lia.
Qed.

Lemma window_length b (l : list (Z * Z)) : sorted l -> Forall (fun p => b < fst p < b + WINDOW) l -> (length l <= 63)%nat.
Proof.
  intros Hs Hf.
  assert (Hf' : Forall (fun z => b + 1 <= z < b + 64) (fst <$> l)).
  { apply Forall_fmap. eapply Forall_impl; [exact Hf |]. unfold WINDOW. cbn. intros p Hp. lia. }
  pose proof (sorted_length (fst <$> l) (b + 1) (b + 64) Hs Hf' ltac:(lia)) as H.
  rewrite length_fmap in H. lia.
Qed.

Section Refinement.
Context (msecs_to_timestamp : Z -> Z).

Lemma succ_mod b : Z.land (b mod 4096 + 1) 0xFFF = (b + 1) mod 4096.
Proof. by rewrite land_4095, Z.add_mod_idemp_l. Qed.

Lemma upload_spec now l : forall fuel b ba,
  rep b l ba -> sorted l -> near b l -> (length l < fuel)%nat ->
  let '(b', r, out) := abs_release b l in
  exists ba', upload_loop msecs_to_timestamp fuel now 0 ba =
      Ret (Z.of_nat (length r), ba', Upload <$> (snd <$> out)) /\
    rep b' r ba' /\ wait_timeout ba' = wait_timeout ba.
Proof.
  induction l as [| [t k] l IH]; intros fuel b ba Hrep Hs Hn Hf;
    (destruct fuel as [| fuel]; [lia |]); destruct Hrep as (Hw & Hi & Hh & Hc & Hlen);
    cbn [abs_release upload_loop]; unfold rx_pending_reorder_getqueue, rx_pending_reorder_dequeue.
  { apply holds_length in Hh as Hl. destruct (nodes (pending_reorder_queue ba)) eqn:E; [| done].
    exists ba. split; [done |]. split; [| done]. unfold rep. by rewrite E. }
  apply holds_cons in Hh as (n & ns & E & Hh & Hv). unfold view, enc in Hv. cbn [fst snd] in Hv.
  injection Hv as Hseq Hskb. rewrite !E. apply Forall_cons in Hn as [Hn Hnl]. cbn [fst] in Hn.
  cbn [fmap list_fmap fst] in Hs. apply StronglySorted_cons in Hs as [Hlt Hs].
  rewrite Hseq, Hi, sn_less_mod by lia.
  destruct (Z.leb_spec t b); destruct (Z.ltb_spec b t); try lia; cbn [negb].
  2: { exists ba. unfold rx_pending_reorder_get_cnt. rewrite Hc. split; [done |]. split; [| done].
       unfold rep. rewrite E. split_and!; try done. unfold holds. cbn [fmap list_fmap]. unfold view at 1, enc at 1.
       by rewrite Hseq, Hskb, Hh. }
  rewrite Z.eqb_refl. cbn [negb]. cbn [indicate_seq set_pending]. rewrite Hi, Hskb, sn_equal_mod by lia.
  rewrite (Z.eqb_sym t b).
  match goal with |- context [rx_free_reorder_enqueue ?x n] => set (ba1 := x) end.
  assert (Hrep : rep (if b =? t then b + 1 else b) l (rx_free_reorder_enqueue ba1 n)).
  { cbn [length] in Hc, Hlen. unfold rep, ba1, rx_free_reorder_enqueue, expect.
    destruct (b =? t); cbn; rewrite ?succ_mod, Hc, u32_id by (unfold is_u32, BA_REORDER_QUEUE_NUM in *; lia);
      split_and!; try done; lia. }
  specialize (IH fuel _ _ Hrep Hs).
  destruct (abs_release (if b =? t then b + 1 else b) l) as [[b' r] out].
  destruct IH as (ba' & Hu & Hr & Hwt).
  - rewrite list.Forall_forall in Hlt. rewrite list.Forall_forall in Hnl. apply list.Forall_forall.
    intros q Hq. specialize (Hnl q Hq). specialize (Hlt (fst q)).
    specialize (Hlt ltac:(apply list_elem_of_fmap; eauto)). destruct (Z.eqb_spec b t); lia.
  - cbn [length] in Hf. lia.
  - exists ba'. rewrite Hu. cbn [cbind]. split; [done |]. split; [done |]. rewrite Hwt. unfold ba1. by destruct (b =? t).
Qed.

Lemma rep_expect now b b' l ba : rep b l ba -> rep b' l (expect msecs_to_timestamp now (b' mod 4096) ba).
Proof. intros (Hw & _ & Hh & Hc & Hl). by split_and!. Qed.

(** The new window start when the frame lies behind the window's end. *)
Lemma window_start t :
  (if 64 - 1 <=? t mod 4096 then u16 (t mod 4096 + 1 - 64)
   else u16 (0xFFF - (64 - (t mod 4096 + 1)) + 1)) = (t - 63) mod 4096.
Proof.
  pose proof (Z.mod_pos_bound t 4096 ltac:(lia)) as Hb. rewrite Zminus_mod. change (63 mod 4096) with 63.
  destruct (Z.leb_spec (64 - 1) (t mod 4096)); rewrite u16_id by (unfold is_u16; lia).
  - rewrite (Z.mod_small (t mod 4096 - 63)) by lia. lia.
  - rewrite <- (Z_mod_plus_full (t mod 4096 - 63) 1 4096), (Z.mod_small (t mod 4096 - 63 + 1 * 4096)) by lia. lia.
Qed.

Lemma chk_expect_spec now t b l ba :
  rep b l ba -> b - 2048 <= t < b + 2048 ->
  exists ba', rx_do_chk_expect_seq msecs_to_timestamp now (t mod 4096) ba =
      (if t <? b then REORDER_DROP else REORDER_ENQUE, ba') /\
    rep (if t <? b then b else if t =? b then b + 1 else Z.max b (t - WINDOW + 1)) l ba' /\
    wait_timeout ba' = wait_timeout ba.
Proof.
  intros Hrep Ht. pose proof Hrep as (Hw & Hi & _). unfold rx_do_chk_expect_seq.
  pose proof (Z.mod_pos_bound b 4096 ltac:(lia)) as Hb.
  rewrite Hi. destruct (Z.eqb_spec (b mod 4096) 0xFFFF); [lia |].
  set (ba1 := set_wend _ ba).
  assert (Hrep1 : rep b l ba1) by exact Hrep.
  change (indicate_seq ba1) with (indicate_seq ba). change (wsize_b ba1) with (wsize_b ba).
  change (wend_b ba1) with (Z.land (indicate_seq ba + wsize_b ba - 1) 0xFFF).
  rewrite Hi, Hw, sn_equal_mod, sn_less_mod, (land_4095 (b mod 4096 + WINDOW - 1)) by lia.
  replace ((b mod 4096 + WINDOW - 1) mod 4096) with ((b + 63) mod 4096)
    by (unfold WINDOW; rewrite <- (Z.add_mod_idemp_l b) by lia; f_equal; lia).
  destruct (Z.eqb_spec t b) as [-> | Hne].
  { rewrite succ_mod, Z.ltb_irrefl. eexists. split; [done |]. split; [by eapply rep_expect | done]. }
  destruct (Z.ltb_spec t b); [by exists (inc_drop ba1) |].
  rewrite sn_less_mod by lia. destruct (Z.ltb_spec (b + 63) t).
  - unfold WINDOW. rewrite window_start. eexists. split; [done |].
    replace (Z.max b (t - 64 + 1)) with (t - 63) by lia. split; [by eapply rep_expect | done].
  - exists ba1. split; [done |]. replace (Z.max b (t - WINDOW + 1)) with b by (unfold WINDOW; lia). done.
Qed.
(** The effects of an event of the reference: released frames, the timer when
    frames are left, dropped frames. *)
Definition effects_of (wait : Z) (r : abs_ba * list (Z * Z) * list (Z * Z)) : list effect :=
  let '(st, out, dropped) := r in
  (Upload <$> (snd <$> out)) ++ (FreeSkb <$> (snd <$> dropped)) ++
  match dropped, buf st with [], _ :: _ => [SetTimer wait] | _, _ => [] end.

Lemma upload_and_rearm_spec now b l ba :
  rep b l ba -> sorted l -> near b l -> Forall (fun p => fst p < b + WINDOW) l ->
  let '(b', r, out) := abs_release b l in
  exists ba', upload_and_rearm msecs_to_timestamp now ba =
      Ret (ba', effects_of (wait_timeout ba) (mk_abs (Some b') r, out, [])) /\
    rep b' r ba' /\ wait_timeout ba' = wait_timeout ba.
Proof.
  intros Hrep Hs Hn Hl. unfold upload_and_rearm, rx_reorder_upload.
  pose proof Hrep as (_ & _ & Hh & _). apply holds_length in Hh as Hlen. rewrite Hlen.
  pose proof (upload_spec now l (S (length l)) b ba Hrep Hs Hn ltac:(lia)) as Hu.
  pose proof (release_ok l b Hs Hl) as Hro.
  destruct (abs_release b l) as [[b' r] out]. destruct Hu as (ba' & -> & Hr & Hw). cbn [cbind].
  exists ba'. split; [| done]. rewrite Hw. unfold effects_of. cbn [fmap list_fmap app buf].
  destruct Hro as (_ & -> & _ & Hf). rewrite fmap_app in Hs. apply StronglySorted_app in Hs as (_ & _ & Hs).
  pose proof (window_length b' r Hs Hf) as H63. rewrite u8_id by (unfold is_u8; lia).
  by destruct r.
Qed.

Lemma near_b1 b t k l :
  Forall (fun p => b < fst p < b + WINDOW) l -> b <= t < b + 2048 ->
  let b1 := if t =? b then b + 1 else Z.max b (t - WINDOW + 1) in
  near b1 (abs_insert t k l) /\ Forall (fun p => fst p < b1 + WINDOW) (abs_insert t k l).
Proof.
  intros Hl Ht b1. rewrite (abs_insert_Permutation t k l).
  assert (Hb : b <= b1 <= b + 1984 /\ t - 63 <= b1 <= Z.max (t + 1) b) by (unfold b1, WINDOW; destruct (Z.eqb_spec t b); lia).
  split; (apply Forall_cons; split; [unfold WINDOW; cbn [fst]; lia |]);
    (eapply Forall_impl; [exact Hl |]); unfold WINDOW; cbn; intros p Hp; lia.
Qed.

Lemma frame_sim now t k b l ba :
  rep b l ba -> sorted l -> Forall (fun p => b < fst p < b + WINDOW) l -> b - 2048 <= t < b + 2048 ->
  let r := abs_arrive t k (mk_abs (Some b) l) in
  exists ba' b', reorder_frame msecs_to_timestamp now (t mod 4096) k ba =
      Ret (ba', effects_of (wait_timeout ba) r) /\
    base (fst (fst r)) = Some b' /\ rep b' (buf (fst (fst r))) ba' /\ wait_timeout ba' = wait_timeout ba.
Proof.
  intros Hrep Hs Hl Ht. unfold reorder_frame, abs_arrive. cbn [base buf].
  change (default t (Some b)) with b.
  destruct (chk_expect_spec now t b l ba Hrep Ht) as (ba1 & -> & Hrep1 & Hw1).
  destruct (Z.ltb_spec t b); cbn [orb].
  { exists ba1, b. rewrite <- Hw1. split; [reflexivity |]. split; [reflexivity |]. split; [exact Hrep1 | done]. }
  change (REORDER_ENQUE =? REORDER_ENQUE) with true. cbv iota. unfold rx_pending_reorder_enqueue.
  pose proof Hrep1 as (Hw & Hi & Hh & Hc & Hn).
  pose proof (find_place_spec t k l _ [] Hh Hs) as Hf.
  specialize (Hf ltac:(eapply Forall_impl; [exact Hl |]; unfold WINDOW; cbn; intros p Hp; lia)).
  destruct (existsb (fun p => fst p =? t) l) eqn:Hdup.
  { rewrite Hf. cbn [cbind]. exists (inc_drop ba1), b. rewrite <- Hw1. split; [done |]. split; [done |]. split; [| done].
    apply existsb_exists in Hdup as (q & Hq & Hqt). apply Z.eqb_eq in Hqt. apply list_elem_of_In in Hq.
    rewrite list.Forall_forall in Hl. specialize (Hl q Hq).
    replace b with (if t =? b then b + 1 else Z.max b (t - WINDOW + 1)) at 1
      by (destruct (Z.eqb_spec t b); unfold WINDOW in *; lia). exact Hrep1. }
  destruct Hf as (n1 & n2 & l1 & l2 & Hns & Hll & H1 & H2 & -> & Hins).
  pose proof (window_length b l Hs Hl) as H63.
  unfold rx_free_reorder_dequeue. destruct (nodes (free_order_queue ba1)) as [| n ns] eqn:Hfree.
  { cbn [length] in Hn. unfold BA_REORDER_QUEUE_NUM in Hn. lia. }
  cbn [cbind]. change (0 <? 0) with false. cbv iota.
  pose proof (near_b1 b t k l Hl ltac:(lia)) as [Hnear Hwin].
  set (b1 := if t =? b then b + 1 else Z.max b (t - WINDOW + 1)) in *.
  match goal with |- context [upload_and_rearm _ now ?x] => set (ba2 := x) end.
  assert (Hrep2 : rep b1 (abs_insert t k l) ba2).
  { assert (Hlen : length (abs_insert t k l) = S (length l))
      by (by rewrite (abs_insert_Permutation t k l)).
    unfold rep, ba2. cbn. rewrite Hlen, Hc, u32_id by (unfold is_u32; lia). cbn [length] in Hn.
    split_and!; [done | done | | lia | lia].
    rewrite app_nil_r, Hins. apply holds_app; [done |]. unfold holds in *. cbn. unfold view at 1, enc at 1. cbn. by rewrite H2. }
  pose proof (upload_and_rearm_spec now b1 _ ba2 Hrep2 (abs_insert_sorted t k l Hs Hdup) Hnear Hwin) as Hu.
  destruct (abs_release b1 (abs_insert t k l)) as [[b' r] out].
  destruct Hu as (ba' & Hu & Hr & Hw2). exists ba', b'. rewrite Hu.
  change (wait_timeout ba2) with (wait_timeout ba1) in *. by rewrite Hw2, Hw1.
Qed.
(** ** Events *)

Inductive event : Type :=
  | Frame (now seq skb : Z)
  | Timeout (now : Z).

Definition event_ok (ev : event) : Prop :=
  match ev with Frame _ s _ => 0 <= s < 4096 | Timeout _ => True end.

Definition step (ev : event) (ba : recv_ba_ctrl_st) : C (recv_ba_ctrl_st * list effect) :=
  match ev with
  | Frame now s k => reorder_frame msecs_to_timestamp now s k ba
  | Timeout now => rx_reorder_timeout_handle msecs_to_timestamp now ba
  end.

Definition abs_step (ev : event) (st : abs_ba) : abs_ba * list (Z * Z) * list (Z * Z) :=
  match ev with
  | Frame _ s k => abs_arrive (lift st s) k st
  | Timeout _ => abs_timeout st
  end.

Definition refines (st : abs_ba) (ba : recv_ba_ctrl_st) : Prop :=
  abs_ok st /\
  match base st with
  | Some b => rep b (buf st) ba
  | None => indicate_seq ba = 0xFFFF /\ forall b t, rep b (buf st) (set_indicate (b mod 4096) t ba)
  end.

Lemma arrive_ok t k b l :
  sorted l -> Forall (fun p => b < fst p < b + WINDOW) l -> b - 2048 <= t < b + 2048 ->
  abs_ok (fst (fst (abs_arrive t k (mk_abs (Some b) l)))).
Proof.
  intros Hs Hl Ht. unfold abs_arrive. cbn [base buf]. change (default t (Some b)) with b.
  destruct (Z.ltb_spec t b); cbn [orb]; [done |].
  destruct (existsb (fun p => fst p =? t) l) eqn:Hdup; [done |].
  pose proof (near_b1 b t k l Hl ltac:(lia)) as [_ Hwin].
  pose proof (abs_insert_sorted t k l Hs Hdup) as Hs'.
  pose proof (release_ok _ _ Hs' Hwin) as Hr.
  destruct (abs_release _ _) as [[b' r] out]. destruct Hr as (_ & He & _ & Hf). cbn [fst abs_ok base buf].
  rewrite He, fmap_app in Hs'. apply StronglySorted_app in Hs' as (_ & _ & Hs'). done.
Qed.

Lemma first_frame now s k ba : indicate_seq ba = 0xFFFF -> 0 <= s < 4096 ->
  reorder_frame msecs_to_timestamp now s k ba =
  reorder_frame msecs_to_timestamp now s k (expect msecs_to_timestamp now s ba).
Proof.
  intros Hi Hs. unfold reorder_frame, rx_do_chk_expect_seq. rewrite Hi.
  change (indicate_seq (expect msecs_to_timestamp now s ba)) with s.
  change (0xFFFF =? 0xFFFF) with true. cbv iota.
  destruct (Z.eqb_spec s 0xFFFF); [lia | done].
Qed.

(** One event of the driver is the same event of the reference. *)
Lemma step_sim ev st ba : event_ok ev -> refines st ba ->
  exists ba', step ev ba = Ret (ba', effects_of (wait_timeout ba) (abs_step ev st)) /\
    refines (fst (fst (abs_step ev st))) ba' /\ wait_timeout ba' = wait_timeout ba.
Proof.
  intros Hev [Hok Hr]. destruct ev as [now s k | now]; cbn [step abs_step].
  - destruct st as [[b |] l]; cbn [base buf abs_ok] in *.
    + destruct Hok as [Hs Hl]. pose proof (lift_range b l s) as Hlr.
      pose proof (frame_sim now _ k b l ba Hr Hs Hl Hlr) as (ba' & b' & Hf & Hb & Hrep & Hw).
      rewrite lift_mod in Hf by done. exists ba'. split; [done |]. split; [| done].
      split; [by apply arrive_ok |]. by rewrite Hb.
    + destruct Hr as [Hi Hr]. subst l. rewrite first_frame by done. cbn [lift base].
      pose proof (Z.mod_small s 4096 Hev) as Hsm.
      pose proof (frame_sim now s k s [] (expect msecs_to_timestamp now (s mod 4096) ba)) as Hf.
      destruct Hf as (ba' & b' & Hf & Hb & Hrep & Hw);
        [apply Hr | constructor | constructor | lia |]. rewrite Hsm in Hf, Hw.
      change (abs_arrive s k (mk_abs None [])) with (abs_arrive s k (mk_abs (Some s) [])).
      exists ba'. split; [exact Hf |]. split; [| exact Hw]. split; [| by rewrite Hb].
      apply arrive_ok; [constructor | constructor | lia].
  - destruct st as [[b |] l]; cbn [base buf abs_ok] in *; unfold rx_reorder_timeout_handle, abs_timeout,
      rx_pending_reorder_getqueue; cbn [buf].
    2: { destruct Hr as [Hi Hr]. subst l. destruct (Hr 0 (expect_time_start ba)) as (_ & _ & Hh & _).
         apply holds_length in Hh. cbn [pending_reorder_queue set_indicate] in Hh.
         destruct (nodes (pending_reorder_queue ba)); [| done]. exists ba. split; [done |]. by split. }
    destruct Hok as [Hs Hl]. pose proof Hr as (_ & _ & Hh & _).
    destruct l as [| [u j] l].
    { apply holds_length in Hh. destruct (nodes (pending_reorder_queue ba)); [| done].
      exists ba. split; [done |]. split; [| done]. split; [split; constructor | done]. }
    apply holds_cons in Hh as (n & ns & E & _ & Hv). unfold view, enc in Hv. injection Hv as Hseq _.
    rewrite E, Hseq. cbn [fst].
    set (l' := (u, j) :: l) in *. pose proof (Forall_inv Hl) as Hu. cbn [fst] in Hu.
    assert (Hn : near u l' /\ Forall (fun p => fst p < u + WINDOW) l').
    { split; (eapply Forall_impl; [exact Hl |]); unfold WINDOW in *; cbn; intros p Hp; lia. }
    destruct Hn as [Hn Hw].
    pose proof (upload_and_rearm_spec now u l' (set_indicate (u mod 4096) (expect_time_start ba) ba)) as Hup.
    specialize (Hup ltac:(destruct Hr as (H1 & _ & H2 & H3 & H4); by split_and!) Hs Hn Hw).
    pose proof (release_ok l' u Hs Hw) as Hro.
    destruct (abs_release u l') as [[b' r] out]. destruct Hup as (ba' & Hup & Hrep & Hwt).
    destruct Hro as (_ & He & _ & Hf). exists ba'. split; [exact Hup |]. split; [| exact Hwt].
    split; [| exact Hrep]. cbn [fst abs_ok base buf]. split; [| done].
    rewrite He, fmap_app in Hs. by apply StronglySorted_app in Hs as (_ & _ & Hs).
Qed.
Fixpoint run (evs : list event) (ba : recv_ba_ctrl_st) : C (recv_ba_ctrl_st * list effect) :=
  match evs with
  | [] => Ret (ba, [])
  | ev :: evs =>
      letc (ba, es) := step ev ba in
      letc (ba, es') := run evs ba in
      Ret (ba, es ++ es')
  end.

Fixpoint abs_run (evs : list event) (st : abs_ba) : abs_ba * list (Z * Z) * list (Z * Z) :=
  match evs with
  | [] => (st, [], [])
  | ev :: evs =>
      let '(st, out, drop) := abs_step ev st in
      let '(st, out', drop') := abs_run evs st in
      (st, out ++ out', drop ++ drop')
  end.

Definition uploads (es : list effect) : list Z :=
  omap (fun e => match e with Upload k => Some k | _ => None end) es.
Definition freed (es : list effect) : list Z :=
  omap (fun e => match e with FreeSkb k => Some k | _ => None end) es.

(** The frames of a series of events, as number and buffer. *)
Definition arrived (evs : list event) : list (Z * option Z) :=
  omap (fun ev => match ev with Frame _ s k => Some (s, Some k) | Timeout _ => None end) evs.

Lemma omap_upload l : uploads (Upload <$> l) = l.
Proof. induction l as [| k l IH]; [done |]. cbn. unfold uploads in IH. by rewrite IH. Qed.
Lemma omap_freeskb l : freed (FreeSkb <$> l) = l.
Proof. induction l as [| k l IH]; [done |]. cbn. unfold freed in IH. by rewrite IH. Qed.
Lemma uploads_freeskb l : uploads (FreeSkb <$> l) = [].
Proof. by induction l. Qed.
Lemma freed_upload l : freed (Upload <$> l) = [].
Proof. by induction l. Qed.

Lemma effects_split wait r :
  uploads (effects_of wait r) = snd <$> snd (fst r) /\ freed (effects_of wait r) = snd <$> snd r.
Proof.
  destruct r as [[st out] drop]. unfold effects_of. cbn [fst snd].
  assert (Ht : forall m, uploads (match drop, buf st with [], _ :: _ => [SetTimer m] | _, _ => [] end) = [] /\
    freed (match drop, buf st with [], _ :: _ => [SetTimer m] | _, _ => [] end) = [])
    by (intros m; by destruct drop, (buf st)).
  destruct (Ht wait) as [Hu Hf]. unfold uploads, freed in *. rewrite !omap_app, Hu, Hf, !app_nil_r. split.
  - change (uploads (Upload <$> (snd <$> out)) ++ uploads (FreeSkb <$> (snd <$> drop)) = snd <$> out).
    by rewrite omap_upload, uploads_freeskb, app_nil_r.
  - change (freed (Upload <$> (snd <$> out)) ++ freed (FreeSkb <$> (snd <$> drop)) = snd <$> drop).
    by rewrite omap_freeskb, freed_upload.
Qed.

Lemma run_sim evs : forall st ba, Forall event_ok evs -> refines st ba ->
  let '(st', out, drop) := abs_run evs st in
  exists ba' es, run evs ba = Ret (ba', es) /\ refines st' ba' /\
    uploads es = snd <$> out /\ freed es = snd <$> drop.
Proof.
  induction evs as [| ev evs IH]; intros st ba Hev Hr; cbn [abs_run run].
  { by exists ba, []. }
  apply Forall_cons in Hev as [Hev Hevs]. destruct (step_sim ev st ba Hev Hr) as (ba1 & -> & Hr1 & _).
  pose proof (effects_split (wait_timeout ba) (abs_step ev st)) as [Hu Hf].
  destruct (abs_step ev st) as [[st1 out] drop]. cbn [fst snd cbind] in *.
  specialize (IH st1 ba1 Hevs Hr1). destruct (abs_run evs st1) as [[st2 out'] drop'].
  destruct IH as (ba2 & es & -> & Hr2 & Hu2 & Hf2). cbn [cbind]. do 2 eexists. split; [done |]. split; [done |].
  unfold uploads, freed in *. by rewrite !omap_app, Hu, Hf, Hu2, Hf2, !fmap_app.
Qed.

(** ** Order and conservation *)

(** What one event hands out comes after everything below the old expected
    number and before the new one; no frame is lost or invented. *)
Definition advances (b : Z) (l : list (Z * Z)) (r : abs_ba * list (Z * Z) * list (Z * Z)) : Prop :=
  let '(st', out, drop) := r in
  exists b', base st' = Some b' /\ b <= b' /\ abs_ok st' /\ sorted out /\
    Forall (fun p => b <= fst p < b') out /\ Permutation (out ++ drop ++ buf st') l.

Lemma release_advances b b1 l :
  sorted l -> b <= b1 -> Forall (fun p => b <= fst p < b1 + WINDOW) l ->
  advances b l (let '(b', r, out) := abs_release b1 l in (mk_abs (Some b') r, out, [])).
Proof.
  intros Hs Hb Hl. pose proof (release_ok l b1 Hs) as Hr.
  specialize (Hr ltac:(eapply Forall_impl; [exact Hl |]; cbn; intros p Hp; lia)).
  destruct (abs_release b1 l) as [[b' r] out]. destruct Hr as (Hb' & -> & Ho & Hr).
  rewrite fmap_app in Hs. apply StronglySorted_app in Hs as (_ & Hs1 & Hs2).
  apply Forall_app in Hl as [Hl _]. exists b'. cbn [base buf abs_ok app]. split_and!; try done; [lia |].
  apply list.Forall_forall. rewrite list.Forall_forall in Ho. rewrite list.Forall_forall in Hl.
  intros p Hp. specialize (Ho p Hp). specialize (Hl p Hp). lia.
Qed.

Lemma arrive_advances t k b l :
  sorted l -> Forall (fun p => b < fst p < b + WINDOW) l -> b - 2048 <= t < b + 2048 ->
  advances b ((t, k) :: l) (abs_arrive t k (mk_abs (Some b) l)).
Proof.
  intros Hs Hl Ht. unfold abs_arrive. cbn [base buf]. change (default t (Some b)) with b.
  destruct ((t <? b) || existsb (fun p => fst p =? t) l) eqn:E.
  { exists b. cbn [base buf abs_ok app fmap list_fmap]. split_and!; first [done | lia | constructor]. }
  apply orb_false_elim in E as [E Hdup]. apply Z.ltb_ge in E.
  pose proof (near_b1 b t k l Hl ltac:(lia)) as [_ Hwin].
  set (b1 := if t =? b then b + 1 else Z.max b (t - WINDOW + 1)) in *.
  assert (Hb1 : b <= b1) by (unfold b1; destruct (t =? b); lia).
  pose proof (release_advances b b1 (abs_insert t k l) (abs_insert_sorted t k l Hs Hdup) Hb1) as Ha.
  unfold advances in *. destruct (abs_release b1 (abs_insert t k l)) as [[b' r] out].
  destruct Ha as (b2 & H1 & H2 & H3 & H4 & H5 & H6).
  - rewrite (abs_insert_Permutation t k l) in *. apply Forall_cons in Hwin as [Hw1 Hw2].
    apply Forall_cons. split; [cbn [fst] in *; lia |].
    rewrite list.Forall_forall in Hw2. rewrite list.Forall_forall in Hl. apply list.Forall_forall.
    intros p Hp. specialize (Hw2 p Hp). specialize (Hl p Hp). lia.
  - exists b2. split_and!; try done. by rewrite H6, abs_insert_Permutation.
Qed.
Lemma timeout_advances b l :
  sorted l -> Forall (fun p => b < fst p < b + WINDOW) l ->
  advances b l (abs_timeout (mk_abs (Some b) l)).
Proof.
  intros Hs Hl. unfold abs_timeout. cbn [buf]. destruct l as [| [u j] l].
  { exists b. cbn [base buf abs_ok app fmap list_fmap]. split_and!; first [done | lia | constructor]. }
  pose proof (Forall_inv Hl) as Hu. cbn [fst] in Hu. apply release_advances; [done | lia |].
  eapply Forall_impl; [exact Hl |]. cbn. intros p Hp. lia.
Qed.

(** A whole series of events, from a known expected number. *)
Definition progress_to (b : Z) (l : list (Z * Z)) (evs : list event)
    (r : abs_ba * list (Z * Z) * list (Z * Z)) : Prop :=
  let '(st', out, drop) := r in
  exists b', base st' = Some b' /\ b <= b' /\ abs_ok st' /\ sorted out /\
    Forall (fun p => b <= fst p < b') out /\
    Permutation (enc <$> (out ++ drop ++ buf st')) ((enc <$> l) ++ arrived evs).

Lemma progress_step b l l' ev evs r :
  advances b l' r -> Permutation (enc <$> l') ((enc <$> l) ++ arrived [ev]) ->
  (forall b' l'', base (fst (fst r)) = Some b' -> buf (fst (fst r)) = l'' -> abs_ok (fst (fst r)) ->
     progress_to b' l'' evs (abs_run evs (fst (fst r)))) ->
  progress_to b l (ev :: evs)
    (let '(st, out, drop) := r in
     let '(st, out', drop') := abs_run evs st in (st, out ++ out', drop ++ drop')).
Proof.
  destruct r as [[st out] drop]. cbn [fst]. intros (b1 & Hb & Hle & Hok & Hs & Ho & Hp) Harr IH.
  specialize (IH b1 _ Hb eq_refl Hok). unfold progress_to in *.
  destruct (abs_run evs st) as [[st' out'] drop'].
  destruct IH as (b2 & Hb2 & Hle2 & Hok2 & Hs2 & Ho2 & Hp2). exists b2.
  split_and!; [done | lia | done | | |].
  - rewrite fmap_app. apply StronglySorted_app_2; [| done | done].
    intros x y (p & -> & Hpin)%list_elem_of_fmap (q & -> & Hq)%list_elem_of_fmap.
    rewrite list.Forall_forall in Ho. rewrite list.Forall_forall in Ho2.
    specialize (Ho p Hpin). specialize (Ho2 q Hq). lia.
  - apply Forall_app. split; (eapply Forall_impl; [eassumption |]); cbn; intros p Hpp; lia.
  - transitivity ((enc <$> out ++ drop) ++ (enc <$> out' ++ drop' ++ buf st')).
    { rewrite <- fmap_app. apply fmap_Permutation. solve_Permutation. }
    rewrite Hp2, app_assoc, <- fmap_app, <- (app_assoc out), Hp, Harr, <- app_assoc.
    apply Permutation_app_head. unfold arrived. change (ev :: evs) with ([ev] ++ evs). by rewrite omap_app.
Qed.

Lemma run_progress evs : forall b l, Forall event_ok evs -> abs_ok (mk_abs (Some b) l) ->
  progress_to b l evs (abs_run evs (mk_abs (Some b) l)).
Proof.
  induction evs as [| ev evs IH]; intros b l Hev [Hs Hl]; cbn [base buf] in *.
  { cbn [abs_run]. exists b. cbn [base buf abs_ok app fmap list_fmap arrived omap list_omap].
    rewrite app_nil_r. split_and!; first [done | lia | constructor]. }
  apply Forall_cons in Hev as [Hev Hevs]. cbn [abs_run].
  assert (Hnext : forall st b' l'', base st = Some b' -> buf st = l'' -> abs_ok st ->
    progress_to b' l'' evs (abs_run evs st)).
  { intros [bo l0] b' l'' Hb Hbu Hok. cbn in Hb, Hbu. subst. by apply IH. }
  destruct ev as [now s k | now]; cbn [abs_step].
  - pose proof (lift_range b l s) as Hlr.
    eapply progress_step; [by apply (arrive_advances _ k b l Hs Hl Hlr) | | by apply Hnext].
    cbn [fmap list_fmap]. unfold enc at 1. cbn [fst snd]. rewrite lift_mod by done.
    exact (Permutation_cons_append (enc <$> l) (s, Some k)).
  - eapply progress_step; [by apply (timeout_advances b l) | | by apply Hnext].
    cbn. by rewrite app_nil_r.
Qed.

Lemma run_fresh evs : Forall event_ok evs ->
  let '(st', out, drop) := abs_run evs (mk_abs None []) in
  sorted out /\ Permutation (enc <$> (out ++ drop ++ buf st')) (arrived evs).
Proof.
  induction evs as [| ev evs IH]; intros Hev; [by split; [constructor |] |].
  apply Forall_cons in Hev as [Hev Hevs]. cbn [abs_run]. destruct ev as [now s k | now]; cbn [abs_step].
  - change (abs_arrive (lift (mk_abs None []) s) k (mk_abs None [])) with
      (abs_arrive s k (mk_abs (Some s) [])).
    pose proof (progress_step s [] [(s, k)] (Frame now s k) evs (abs_arrive s k (mk_abs (Some s) []))) as Hp.
    unfold progress_to in Hp.
    destruct (abs_arrive s k (mk_abs (Some s) [])) as [[st out] drop] eqn:E.
    destruct (abs_run evs st) as [[st' out'] drop'] eqn:E'.
    destruct Hp as (b' & _ & _ & _ & Hs & _ & Hperm); [| | | by split].
    + rewrite <- E. apply arrive_advances; [constructor | constructor | lia].
    + change (Permutation [(s mod 4096, Some k)] [(s, Some k)]). by rewrite Z.mod_small.
    + intros b1 l1 Hb Hl Hok. cbn [fst] in *. destruct st as [bo l0]. cbn in Hb, Hl. subst.
      exact (run_progress evs b1 l1 Hevs Hok).
  - cbn [abs_timeout buf]. specialize (IH Hevs). destruct (abs_run evs (mk_abs None [])) as [[st' out'] drop'].
    exact IH.
Qed.
(** A traffic identifier as [wf_rx_action_ba_ctl_init] leaves it when every
    allocation succeeds. *)
Definition fresh (ba : recv_ba_ctrl_st) : Prop :=
  indicate_seq ba = 0xFFFF /\ wsize_b ba = WINDOW /\ pending_reorder_queue ba = mk_que [] 0 /\
  length (nodes (free_order_queue ba)) = BA_REORDER_QUEUE_NUM.

Lemma fresh_refines ba : fresh ba -> refines (mk_abs None []) ba.
Proof.
  intros (Hi & Hw & Hp & Hf). split; [done |]. split; [done |]. intros b t. unfold rep. cbn.
  rewrite Hp. by split_and!.
Qed.

(** C3: whatever frames arrive and whenever the timer fires, the reordering of
    a traffic identifier returns (it never spins for a node, never faults),
    and behaves as a reorder buffer over unbounded sequence numbers, where a
    12-bit number stands for the number closest to the expected one: the
    frames handed up are in strictly increasing order; every frame is handed
    up, given back or held exactly once; at most 63 are held, and all 64 nodes
    stay in the two queues. *)
Theorem reorder_delivers (evs : list event) (ba : recv_ba_ctrl_st) :
  Forall event_ok evs -> fresh ba ->
  exists ba' es st out drop, run evs ba = Ret (ba', es) /\
    abs_run evs (mk_abs None []) = (st, out, drop) /\
    uploads es = snd <$> out /\ freed es = snd <$> drop /\
    holds (nodes (pending_reorder_queue ba')) (buf st) /\
    StronglySorted Z.lt (fst <$> out) /\
    Permutation (enc <$> (out ++ drop ++ buf st)) (arrived evs) /\
    (length (nodes (pending_reorder_queue ba')) <= 63)%nat /\
    (length (nodes (pending_reorder_queue ba')) + length (nodes (free_order_queue ba')) = 64)%nat.
Proof.
  intros Hev Hfr. pose proof (run_sim evs _ _ Hev (fresh_refines ba Hfr)) as Hs.
  pose proof (run_fresh evs Hev) as Hf. destruct (abs_run evs (mk_abs None [])) as [[st out] drop].
  destruct Hs as (ba' & es & Hrun & [Hok Hr] & Hu & Hd). destruct Hf as [Hso Hp].
  exists ba', es, st, out, drop.
  assert (Hh : holds (nodes (pending_reorder_queue ba')) (buf st) /\
    (length (buf st) + length (nodes (free_order_queue ba')) = 64)%nat /\ (length (buf st) <= 63)%nat).
  { unfold abs_ok in Hok. destruct (base st) as [b |].
    - destruct Hr as (_ & _ & Hh & _ & Hl). split_and!; try done. by apply (window_length b); apply Hok.
    - destruct Hr as [_ Hr]. destruct (Hr 0 (expect_time_start ba')) as (_ & _ & Hh & _ & Hl).
      rewrite Hok in *. split_and!; try done. cbn. lia. }
  destruct Hh as (Hh & Hl & H63). rewrite (holds_length _ _ Hh). by split_and!.
Qed.

(** ** Restoring the order *)




Section InOrder.
Context (now n0 N : Z).







End InOrder.
End Refinement.

(** ** Reinitialisation *)

Lemma drain_spec ns : forall fuel ba l c,
  pending_reorder_queue ba = mk_que ns c -> holds ns l -> (length ns < fuel)%nat ->
  exists c', drain_loop fuel ba = Ret (set_pending (mk_que [] c') ba, (fun n => Kfree (addr n)) <$> ns).
Proof.
  induction ns as [| n ns IH]; intros fuel ba l c Hq Hh Hf;
    (destruct fuel as [| fuel]; [lia |]); cbn [drain_loop]; unfold rx_pending_reorder_dequeue; rewrite Hq; cbn [nodes cnt].
  { exists c. unfold set_pending. rewrite <- Hq. by destruct ba. }
  destruct l as [| p l]; [by apply holds_length in Hh |].
  injection Hh as _ Hskb Hh. cbn [length] in Hf.
  destruct (IH fuel (set_pending (mk_que ns (u32 (c - 1))) ba) l (u32 (c - 1)) eq_refl Hh ltac:(lia)) as (c' & ->).
  cbn [cbind]. exists c'. by rewrite Hskb.
Qed.

(** Reinitialising a traffic identifier that holds frames loses them: they
    are neither handed up nor given back, and their nodes go back to the
    allocator instead of the pool, which stays as it was.  Once the pool is
    used up this way, the next frame makes the driver ask for a node for
    ever. *)
Theorem ba_reinit_loses (ba : recv_ba_ctrl_st) (l : list (Z * Z)) :
  holds (nodes (pending_reorder_queue ba)) l ->
  exists ba' es, ba_reinit ba = Ret (ba', es) /\
    uploads es = [] /\ freed es = [] /\ nodes (pending_reorder_queue ba') = [] /\
    es = (fun n => Kfree (addr n)) <$> nodes (pending_reorder_queue ba) /\
    nodes (free_order_queue ba') = nodes (free_order_queue ba) /\
    (nodes (free_order_queue ba') = [] -> forall ms now s k, 0 <= s < 4096 ->
       reorder_frame ms now s k ba' = Stuck).
Proof.
  intros Hh. unfold ba_reinit, drain_pending.
  match goal with |- context [rx_pending_reorder_is_empty ?x] => set (ba1 := x) end.
  assert (Hex : exists c', (if rx_pending_reorder_is_empty ba1 then Ret (ba1, [])
      else drain_loop (S (length (nodes (pending_reorder_queue ba1)))) ba1) =
    Ret (set_pending (mk_que [] c') ba1, (fun n => Kfree (addr n)) <$> nodes (pending_reorder_queue ba))).
  { unfold rx_pending_reorder_is_empty. change (pending_reorder_queue ba1) with (pending_reorder_queue ba).
    destruct (pending_reorder_queue ba) as [[| n ns] c] eqn:E; cbn [nodes] in *.
    - exists c. unfold set_pending, ba1. cbn. done.
    - apply (drain_spec (n :: ns) _ ba1 l c); [done | done | cbn [length]; lia]. }
  destruct Hex as (c' & ->). do 2 eexists. split; [done |].
  assert (Hno : uploads ((fun n => Kfree (addr n)) <$> nodes (pending_reorder_queue ba)) = [] /\
    freed ((fun n => Kfree (addr n)) <$> nodes (pending_reorder_queue ba)) = []).
  { clear. induction (nodes (pending_reorder_queue ba)) as [| n ns [IH1 IH2]]; [done |]. by split. }
  destruct Hno as [H1 H2]. split_and!; try done.
  intros Hfree ms now s k Hs. rewrite first_frame by done. unfold reorder_frame, rx_do_chk_expect_seq.
  cbn [expect indicate_seq set_indicate set_pending ba1].
  destruct (Z.eqb_spec s 0xFFFF); [lia |]. cbn [indicate_seq set_wend set_indicate].
  unfold SN_EQUAL. rewrite Z.eqb_refl. change (REORDER_ENQUE =? REORDER_ENQUE) with true. cbv iota.
  unfold rx_pending_reorder_enqueue, rx_free_reorder_dequeue. cbn in Hfree |- *. by rewrite Hfree.
Qed.

Definition wit_ba : recv_ba_ctrl_st :=
  ba_ctl_init (Some <$> seqZ 1 64)
    (mk_ba false 0 0 0 (mk_que [] 0) (mk_que [] 0) 50 (Timer.mk_timer 0 0 0) 0).

Lemma wit_fresh : fresh wit_ba.
Proof. by split_and!. Qed.

Lemma reorder_delivers_witness :
  exists ba' es, run (fun x => x) [Frame 1 4095 10; Frame 1 1 12; Frame 1 0 11; Frame 2 3 14; Timeout 9] wit_ba =
    Ret (ba', es) /\ uploads es = [10; 11; 12; 14].
Proof.
  destruct (reorder_delivers (fun x => x)
    [Frame 1 4095 10; Frame 1 1 12; Frame 1 0 11; Frame 2 3 14; Timeout 9] wit_ba) as
    (ba' & es & st & out & drop & H & E & Hu & _).
  - repeat (apply Forall_cons_2; [cbn; lia |]). constructor.
  - exact wit_fresh.
  - exists ba', es. split; [exact H |]. rewrite Hu. vm_compute in E. injection E as _ <- _. reflexivity.
Defined.


Lemma ba_reinit_loses_witness :
  exists ba' es, ba_reinit (mk_ba true 5 68 64 (mk_que [mk_node 1 7 (Some 42)] 1) (mk_que [] 0) 50
    (Timer.mk_timer 0 0 0) 0) = Ret (ba', es) /\ freed es = [] /\ uploads es = [].
Proof.
  destruct (ba_reinit_loses (mk_ba true 5 68 64 (mk_que [mk_node 1 7 (Some 42)] 1) (mk_que [] 0) 50
    (Timer.mk_timer 0 0 0) 0) [(7, 42)]) as (ba' & es & H & Hu & Hf & _); [reflexivity |].
  exists ba', es. split; [exact H |]. split; [exact Hf | exact Hu].
Defined.
End Reorder.
