(* ===== verification/Rx.v ===== *)
(** * Received frames ([nic/rx.c], lines 102-186, 373-700, 1203-1626 and 2286-2440)

    The receive descriptor of the chip, the length checks on it, the header of
    the frame, the acceptance of data and management frames and the signal
    levels.  The configuration is that of the default build
    ([CONFIG_RICHV200], little endian, ad-hoc and access point modes on). *)
From S2P Require Import Prelude SecTypes WdnTypes.

(** [rx_pkt_info_t], the fields the modelled code uses *)
Module Info.
Record rx_pkt_info : Type := mk_pkt_info {
  seq_num : Z;
  pkt_len : Z;
  hif_hdr_len : Z;
  wlan_hdr_len : Z;
  qos_flag : Z;
  qos_pri : Z;
  rx_rate : Z;
  amsdu : Z;
  more_data : Z;
  more_frag : Z;
  frag_num : Z;
  encrypt_algo : Z;
  iv_len : Z;
  icv_len : Z;
  phy_status : Z;
  usb_agg_pktnum : Z;
  dst_addr : list Z;
  src_addr : list Z;
  tx_addr : list Z;
  rx_addr : list Z;
  bssid : list Z;
  ack_policy : Z;
}.

Definition set_seq_num (v : Z) (r : rx_pkt_info) : rx_pkt_info :=
  mk_pkt_info v (pkt_len r) (hif_hdr_len r) (wlan_hdr_len r) (qos_flag r) (qos_pri r) (rx_rate
    r) (amsdu r) (more_data r) (more_frag r) (frag_num r) (encrypt_algo r) (iv_len r) (icv_len
    r) (phy_status r) (usb_agg_pktnum r) (dst_addr r) (src_addr r) (tx_addr r) (rx_addr r)
    (bssid r) (ack_policy r).
Definition set_pkt_len (v : Z) (r : rx_pkt_info) : rx_pkt_info :=
  mk_pkt_info (seq_num r) v (hif_hdr_len r) (wlan_hdr_len r) (qos_flag r) (qos_pri r) (rx_rate
    r) (amsdu r) (more_data r) (more_frag r) (frag_num r) (encrypt_algo r) (iv_len r) (icv_len
    r) (phy_status r) (usb_agg_pktnum r) (dst_addr r) (src_addr r) (tx_addr r) (rx_addr r)
    (bssid r) (ack_policy r).
Definition set_hif_hdr_len (v : Z) (r : rx_pkt_info) : rx_pkt_info :=
  mk_pkt_info (seq_num r) (pkt_len r) v (wlan_hdr_len r) (qos_flag r) (qos_pri r) (rx_rate r)
    (amsdu r) (more_data r) (more_frag r) (frag_num r) (encrypt_algo r) (iv_len r) (icv_len r)
    (phy_status r) (usb_agg_pktnum r) (dst_addr r) (src_addr r) (tx_addr r) (rx_addr r) (bssid
    r) (ack_policy r).
Definition set_wlan_hdr_len (v : Z) (r : rx_pkt_info) : rx_pkt_info :=
  mk_pkt_info (seq_num r) (pkt_len r) (hif_hdr_len r) v (qos_flag r) (qos_pri r) (rx_rate r)
    (amsdu r) (more_data r) (more_frag r) (frag_num r) (encrypt_algo r) (iv_len r) (icv_len r)
    (phy_status r) (usb_agg_pktnum r) (dst_addr r) (src_addr r) (tx_addr r) (rx_addr r) (bssid
    r) (ack_policy r).
Definition set_qos_flag (v : Z) (r : rx_pkt_info) : rx_pkt_info :=
  mk_pkt_info (seq_num r) (pkt_len r) (hif_hdr_len r) (wlan_hdr_len r) v (qos_pri r) (rx_rate r)
    (amsdu r) (more_data r) (more_frag r) (frag_num r) (encrypt_algo r) (iv_len r) (icv_len r)
    (phy_status r) (usb_agg_pktnum r) (dst_addr r) (src_addr r) (tx_addr r) (rx_addr r) (bssid
    r) (ack_policy r).
Definition set_qos_pri (v : Z) (r : rx_pkt_info) : rx_pkt_info :=
  mk_pkt_info (seq_num r) (pkt_len r) (hif_hdr_len r) (wlan_hdr_len r) (qos_flag r) v (rx_rate
    r) (amsdu r) (more_data r) (more_frag r) (frag_num r) (encrypt_algo r) (iv_len r) (icv_len
    r) (phy_status r) (usb_agg_pktnum r) (dst_addr r) (src_addr r) (tx_addr r) (rx_addr r)
    (bssid r) (ack_policy r).
Definition set_rx_rate (v : Z) (r : rx_pkt_info) : rx_pkt_info :=
  mk_pkt_info (seq_num r) (pkt_len r) (hif_hdr_len r) (wlan_hdr_len r) (qos_flag r) (qos_pri r)
    v (amsdu r) (more_data r) (more_frag r) (frag_num r) (encrypt_algo r) (iv_len r) (icv_len r)
    (phy_status r) (usb_agg_pktnum r) (dst_addr r) (src_addr r) (tx_addr r) (rx_addr r) (bssid
    r) (ack_policy r).
Definition set_amsdu (v : Z) (r : rx_pkt_info) : rx_pkt_info :=
  mk_pkt_info (seq_num r) (pkt_len r) (hif_hdr_len r) (wlan_hdr_len r) (qos_flag r) (qos_pri r)
    (rx_rate r) v (more_data r) (more_frag r) (frag_num r) (encrypt_algo r) (iv_len r) (icv_len
    r) (phy_status r) (usb_agg_pktnum r) (dst_addr r) (src_addr r) (tx_addr r) (rx_addr r)
    (bssid r) (ack_policy r).
Definition set_more_data (v : Z) (r : rx_pkt_info) : rx_pkt_info :=
  mk_pkt_info (seq_num r) (pkt_len r) (hif_hdr_len r) (wlan_hdr_len r) (qos_flag r) (qos_pri r)
    (rx_rate r) (amsdu r) v (more_frag r) (frag_num r) (encrypt_algo r) (iv_len r) (icv_len r)
    (phy_status r) (usb_agg_pktnum r) (dst_addr r) (src_addr r) (tx_addr r) (rx_addr r) (bssid
    r) (ack_policy r).
Definition set_more_frag (v : Z) (r : rx_pkt_info) : rx_pkt_info :=
  mk_pkt_info (seq_num r) (pkt_len r) (hif_hdr_len r) (wlan_hdr_len r) (qos_flag r) (qos_pri r)
    (rx_rate r) (amsdu r) (more_data r) v (frag_num r) (encrypt_algo r) (iv_len r) (icv_len r)
    (phy_status r) (usb_agg_pktnum r) (dst_addr r) (src_addr r) (tx_addr r) (rx_addr r) (bssid
    r) (ack_policy r).
Definition set_frag_num (v : Z) (r : rx_pkt_info) : rx_pkt_info :=
  mk_pkt_info (seq_num r) (pkt_len r) (hif_hdr_len r) (wlan_hdr_len r) (qos_flag r) (qos_pri r)
    (rx_rate r) (amsdu r) (more_data r) (more_frag r) v (encrypt_algo r) (iv_len r) (icv_len r)
    (phy_status r) (usb_agg_pktnum r) (dst_addr r) (src_addr r) (tx_addr r) (rx_addr r) (bssid
    r) (ack_policy r).
Definition set_encrypt_algo (v : Z) (r : rx_pkt_info) : rx_pkt_info :=
  mk_pkt_info (seq_num r) (pkt_len r) (hif_hdr_len r) (wlan_hdr_len r) (qos_flag r) (qos_pri r)
    (rx_rate r) (amsdu r) (more_data r) (more_frag r) (frag_num r) v (iv_len r) (icv_len r)
    (phy_status r) (usb_agg_pktnum r) (dst_addr r) (src_addr r) (tx_addr r) (rx_addr r) (bssid
    r) (ack_policy r).
Definition set_iv_len (v : Z) (r : rx_pkt_info) : rx_pkt_info :=
  mk_pkt_info (seq_num r) (pkt_len r) (hif_hdr_len r) (wlan_hdr_len r) (qos_flag r) (qos_pri r)
    (rx_rate r) (amsdu r) (more_data r) (more_frag r) (frag_num r) (encrypt_algo r) v (icv_len
    r) (phy_status r) (usb_agg_pktnum r) (dst_addr r) (src_addr r) (tx_addr r) (rx_addr r)
    (bssid r) (ack_policy r).
Definition set_icv_len (v : Z) (r : rx_pkt_info) : rx_pkt_info :=
  mk_pkt_info (seq_num r) (pkt_len r) (hif_hdr_len r) (wlan_hdr_len r) (qos_flag r) (qos_pri r)
    (rx_rate r) (amsdu r) (more_data r) (more_frag r) (frag_num r) (encrypt_algo r) (iv_len r) v
    (phy_status r) (usb_agg_pktnum r) (dst_addr r) (src_addr r) (tx_addr r) (rx_addr r) (bssid
    r) (ack_policy r).
Definition set_phy_status (v : Z) (r : rx_pkt_info) : rx_pkt_info :=
  mk_pkt_info (seq_num r) (pkt_len r) (hif_hdr_len r) (wlan_hdr_len r) (qos_flag r) (qos_pri r)
    (rx_rate r) (amsdu r) (more_data r) (more_frag r) (frag_num r) (encrypt_algo r) (iv_len r)
    (icv_len r) v (usb_agg_pktnum r) (dst_addr r) (src_addr r) (tx_addr r) (rx_addr r) (bssid r)
    (ack_policy r).
Definition set_usb_agg_pktnum (v : Z) (r : rx_pkt_info) : rx_pkt_info :=
  mk_pkt_info (seq_num r) (pkt_len r) (hif_hdr_len r) (wlan_hdr_len r) (qos_flag r) (qos_pri r)
    (rx_rate r) (amsdu r) (more_data r) (more_frag r) (frag_num r) (encrypt_algo r) (iv_len r)
    (icv_len r) (phy_status r) v (dst_addr r) (src_addr r) (tx_addr r) (rx_addr r) (bssid r)
    (ack_policy r).
Definition set_dst_addr (v : list Z) (r : rx_pkt_info) : rx_pkt_info :=
  mk_pkt_info (seq_num r) (pkt_len r) (hif_hdr_len r) (wlan_hdr_len r) (qos_flag r) (qos_pri r)
    (rx_rate r) (amsdu r) (more_data r) (more_frag r) (frag_num r) (encrypt_algo r) (iv_len r)
    (icv_len r) (phy_status r) (usb_agg_pktnum r) v (src_addr r) (tx_addr r) (rx_addr r) (bssid
    r) (ack_policy r).
Definition set_src_addr (v : list Z) (r : rx_pkt_info) : rx_pkt_info :=
  mk_pkt_info (seq_num r) (pkt_len r) (hif_hdr_len r) (wlan_hdr_len r) (qos_flag r) (qos_pri r)
    (rx_rate r) (amsdu r) (more_data r) (more_frag r) (frag_num r) (encrypt_algo r) (iv_len r)
    (icv_len r) (phy_status r) (usb_agg_pktnum r) (dst_addr r) v (tx_addr r) (rx_addr r) (bssid
    r) (ack_policy r).
Definition set_tx_addr (v : list Z) (r : rx_pkt_info) : rx_pkt_info :=
  mk_pkt_info (seq_num r) (pkt_len r) (hif_hdr_len r) (wlan_hdr_len r) (qos_flag r) (qos_pri r)
    (rx_rate r) (amsdu r) (more_data r) (more_frag r) (frag_num r) (encrypt_algo r) (iv_len r)
    (icv_len r) (phy_status r) (usb_agg_pktnum r) (dst_addr r) (src_addr r) v (rx_addr r) (bssid
    r) (ack_policy r).
Definition set_rx_addr (v : list Z) (r : rx_pkt_info) : rx_pkt_info :=
  mk_pkt_info (seq_num r) (pkt_len r) (hif_hdr_len r) (wlan_hdr_len r) (qos_flag r) (qos_pri r)
    (rx_rate r) (amsdu r) (more_data r) (more_frag r) (frag_num r) (encrypt_algo r) (iv_len r)
    (icv_len r) (phy_status r) (usb_agg_pktnum r) (dst_addr r) (src_addr r) (tx_addr r) v (bssid
    r) (ack_policy r).
Definition set_bssid (v : list Z) (r : rx_pkt_info) : rx_pkt_info :=
  mk_pkt_info (seq_num r) (pkt_len r) (hif_hdr_len r) (wlan_hdr_len r) (qos_flag r) (qos_pri r)
    (rx_rate r) (amsdu r) (more_data r) (more_frag r) (frag_num r) (encrypt_algo r) (iv_len r)
    (icv_len r) (phy_status r) (usb_agg_pktnum r) (dst_addr r) (src_addr r) (tx_addr r) (rx_addr
    r) v (ack_policy r).
Definition set_ack_policy (v : Z) (r : rx_pkt_info) : rx_pkt_info :=
  mk_pkt_info (seq_num r) (pkt_len r) (hif_hdr_len r) (wlan_hdr_len r) (qos_flag r) (qos_pri r)
    (rx_rate r) (amsdu r) (more_data r) (more_frag r) (frag_num r) (encrypt_algo r) (iv_len r)
    (icv_len r) (phy_status r) (usb_agg_pktnum r) (dst_addr r) (src_addr r) (tx_addr r) (rx_addr
    r) (bssid r) v.

(** All bytes zero. *)
Definition zero : rx_pkt_info :=
  mk_pkt_info 0 0 0 0 0 0 0 0 0 0 0 0 0 0 0 0 (replicate 6 0) (replicate 6 0) (replicate 6 0)
    (replicate 6 0) (replicate 6 0) 0.
End Info.

Module Rx.

(** ** The receive descriptor *)

(** [struct rxd_detail_new] *)
Record rxd_detail_new : Type := mk_rxd {
  data_type : Z;
  cmd_index : Z;
  drvinfo_size : Z;
  phy_status : Z;
  crc32 : Z;
  pkt_len : Z;
  swdec : Z;
  encrypt_algo : Z;
  qos : Z;
  tid : Z;
  rx_rate : Z;
  notice : Z;
  rpt_sel : Z;
  amsdu : Z;
  more_data : Z;
  more_frag : Z;
  frag : Z;
  usb_agg_pktnum : Z;
  mac_id : Z;
  seq : Z;
}.

Definition RXDESC_SIZE : Z := 24.
Definition RXD_SIZE : Z := 24.
Definition WF_PKT_TYPE_FRAME : Z := 3.

(** The [i]-th 32-bit word of a buffer. *)
Definition dword (pbuf : list Z) (i : Z) : C Z := letc b := slice pbuf (4 * i) 4 in Ret (le_word b).

(** [( struct rxd_detail_new * )pbuf]: the bit fields of the five words. *)
Definition rxd_of (pbuf : list Z) : C rxd_detail_new :=
  letc d0 := dword pbuf 0 in
  letc d1 := dword pbuf 1 in
  letc d2 := dword pbuf 2 in
  letc d3 := dword pbuf 3 in
  letc d4 := dword pbuf 4 in
  Ret (mk_rxd (field d0 0 2) (field d0 2 8) (field d0 14 4) (field d0 18 1) (field d0 19 1)
         (field d1 0 14) (field d1 23 1) (field d1 24 3) (field d1 27 1) (field d1 28 4)
         (field d2 0 7) (field d2 15 1) (field d2 16 1) (field d2 17 1) (field d2 18 1)
         (field d2 19 1) (field d2 20 4) (field d2 24 8) (field d3 0 5) (field d4 0 12)).

Definition wf_rx_cmd_check (pbuf : list Z) (skb_len : Z) : C Z :=
  letc prxd := rxd_of pbuf in
  let len := u16 (RXDESC_SIZE + drvinfo_size prxd * 8 + pkt_len prxd - 8) in
  Ret (if negb (len =? skb_len) then -1 else 0).

Definition wf_rx_data_type (pbuf : list Z) : C Z := letc b := rd pbuf 0 in Ret (Z.land b 0x03).

(** The header of a notice from the chip: identifier, sequence number, length
    and content. *)
Definition rx_c2h_pkt_hdr_parse (buf : list Z) (len : Z) : C (option (Z * Z * Z * list Z)) :=
  if (256 <? len) || (len <? 3) then Ret None
  else
    letc id := rd buf 0 in
    letc sq := rd buf 1 in
    Ret (Some (id, sq, u8 (len - 2), drop 2 buf)).

Definition notice_key : list Z := [0xe6; 0xb4; 0x04; 0x0b; 0x13; 0x08; 0xdf; 0x3e].

(** The loop that unscrambles the notice. *)
Fixpoint unscramble (i : nat) (bytes : list Z) : list Z :=
  match bytes with
  | [] => []
  | b :: bytes => Z.lxor b (nthZ notice_key (Z.of_nat i mod 8)) :: unscramble (S i) bytes
  end.

(** [wf_rx_notice_process]: its result and the notice it reads (it only logs
    it). *)
Definition wf_rx_notice_process (pbuf : list Z) (skb_len : Z)
    : C (Z * option (Z * Z * Z * list Z)) :=
  let c2h_len := skb_len - RXDESC_SIZE in
  if (256 <? c2h_len) || (c2h_len <? 3) then Ret (-1, None)
  else
    letc bytes := slice pbuf RXDESC_SIZE c2h_len in
    letc n := rx_c2h_pkt_hdr_parse (unscramble 0 bytes) c2h_len in
    Ret (0, n).

(** [wf_rx_data_len_check]; [crcerr] is [rx_info->rx_crcerr_pkt]. *)
Definition wf_rx_data_len_check (crcerr : Z) (pbuf : list Z) (skb_len : Z) : C (Z * Z) :=
  letc prxd := rxd_of pbuf in
  if crc32 prxd =? 1 then Ret (-1, u64 (crcerr + 1))
  else if notice prxd =? 1 then
    let len := u16 (RXDESC_SIZE + pkt_len prxd) in
    letc _ := (if len =? skb_len then wf_rx_notice_process pbuf skb_len else Ret (0, None)) in
    Ret (-1, crcerr)
  else
    let len := u16 (RXDESC_SIZE + drvinfo_size prxd * 8 + pkt_len prxd) in
    letc type := wf_rx_data_type pbuf in
    let len := if negb (type =? WF_PKT_TYPE_FRAME) then u16 (len - 8) else len in
    if skb_len <? len then Ret (-1, crcerr) else Ret (len, crcerr).

(** [wf_rx_get_pkt_len_and_check_valid]: the length, [*valid] and what is
    stored in [*notice], if anything. *)
Definition wf_rx_get_pkt_len_and_check_valid (buf : list Z) (remain : Z)
    : C (Z * bool * option bool) :=
  letc prxd := rxd_of buf in
  let len := u16 (RXDESC_SIZE + drvinfo_size prxd * 8 + pkt_len prxd) in
  if (pkt_len prxd =? 0) || negb (drvinfo_size prxd =? 4) || negb (cmd_index prxd =? 0) ||
     (crc32 prxd =? 1) || (remain <? len)
  then Ret (len, false, None)
  else if notice prxd =? 1 then Ret (len, false, Some true)
  else Ret (len, true, Some true).

Definition calc_rx_rate (r : Z) : Z :=
  if r <? 0x14 then r
  else if (0x14 <=? r) && (r <=? 0x1B) then u8 (r - 0x08)
  else if (0x1C <=? r) && (r <=? 0x23) then u8 (r - 0x10)
  else if (0x24 <=? r) && (r <=? 0x2B) then u8 (r - 0x18)
  else 0.

Definition wf_rx_rxd_prase (pbuf : list Z) (i : Info.rx_pkt_info) : C Info.rx_pkt_info :=
  letc prxd := rxd_of pbuf in
  let i := Info.set_seq_num (seq prxd) i in
  let i := Info.set_pkt_len (pkt_len prxd) i in
  let i := Info.set_amsdu (amsdu prxd) i in
  let i := Info.set_qos_flag (qos prxd) i in
  let i := Info.set_more_data (more_data prxd) i in
  let i := Info.set_frag_num (frag prxd) i in
  let i := Info.set_more_frag (more_frag prxd) i in
  let i := Info.set_encrypt_algo (encrypt_algo prxd) i in
  let i := Info.set_usb_agg_pktnum (usb_agg_pktnum prxd) i in
  let i := Info.set_phy_status (phy_status prxd) i in
  let i := Info.set_hif_hdr_len (u8 (RXD_SIZE + drvinfo_size prxd * 8)) i in
  let i := Info.set_qos_pri (tid prxd) i in
  Ret (Info.set_rx_rate (calc_rx_rate (rx_rate prxd)) i).

(** ** The header of the frame *)

Definition TO_DS : Z := BIT 8.
Definition FROM_DS : Z := BIT 9.
Definition RETRY : Z := BIT 11.
Definition PRIVACY : Z := BIT 14.
Definition ORDER : Z := BIT 15.

(** [wf_le16_to_cpu( *(unsigned short * )(pbuf))] *)
Definition hdr (pbuf : list Z) (i : Z) : C Z := letc b := slice pbuf i 2 in Ret (le_word b).
Definition GET_HDR_To_From_DS (pbuf : list Z) : C Z :=
  letc h := hdr pbuf 0 in Ret (Z.land h (Z.lor TO_DS FROM_DS)).
Definition GET_HDR_SubTpye (pbuf : list Z) : C Z := letc h := hdr pbuf 0 in Ret (Z.land h 0xF0).
Definition GET_HDR_Retry (pbuf : list Z) : C Z := letc h := hdr pbuf 0 in Ret (Z.land h RETRY).
Definition GET_HDR_Order (pbuf : list Z) : C Z := letc h := hdr pbuf 0 in Ret (Z.land h ORDER).
Definition GetPrivacy (pbuf : list Z) : C bool := letc h := hdr pbuf 0 in Ret (nz (Z.land h PRIVACY)).
Definition GetAddr1Ptr (pbuf : list Z) : C (list Z) := slice pbuf 4 6.
Definition GetAddr2Ptr (pbuf : list Z) : C (list Z) := slice pbuf 10 6.
Definition GetAddr3Ptr (pbuf : list Z) : C (list Z) := slice pbuf 16 6.
Definition MAC_FRAME_TYPE_QOS_DATA : Z := 0x88.

Definition rx_parse_qos_ctrl_field (pdata : list Z) (i : Info.rx_pkt_info) : C Info.rx_pkt_info :=
  letc ds := GET_HDR_To_From_DS pdata in
  let to_from_ds_n8 := u8 (Z.shiftr ds 8) in
  letc st := GET_HDR_SubTpye pdata in
  let i := if Z.land st MAC_FRAME_TYPE_QOS_DATA =? MAC_FRAME_TYPE_QOS_DATA
           then Info.set_qos_flag 1 i else i in
  let i := Info.set_wlan_hdr_len 24 i in
  let qos_ctrl_offset := 24 in
  let '(i, qos_ctrl_offset) :=
    if to_from_ds_n8 =? 3 then (Info.set_wlan_hdr_len (u8 (Info.wlan_hdr_len i + 6)) i, qos_ctrl_offset + 6)
    else (i, qos_ctrl_offset) in
  if nz (Info.qos_flag i) then
    letc q := hdr pdata qos_ctrl_offset in
    let i := Info.set_qos_pri (Z.land q 0x0F) i in
    let i := Info.set_ack_policy (Z.land (Z.shiftr q 5) 0x03) i in
    let i := Info.set_amsdu (Z.land (Z.shiftr q 7) 0x01) i in
    Ret (Info.set_wlan_hdr_len (u8 (Info.wlan_hdr_len i + 2)) i)
  else
    Ret (Info.set_amsdu 0 (Info.set_ack_policy 0 (Info.set_qos_pri 0 i))).

Definition rx_parse_ht_ctrl_field (pdata : list Z) (i : Info.rx_pkt_info) : C Info.rx_pkt_info :=
  letc o := GET_HDR_Order pdata in
  Ret (if nz o then Info.set_wlan_hdr_len (u8 (Info.wlan_hdr_len i + 4)) i else i).

(** [set_encrypt_algo_num]; the node is read only under 802.1X. *)
Definition set_encrypt_algo_num (s : sec_info_st) (w : option Wi.wdn_net_info_st) (pdata : list Z)
    (i : Info.rx_pkt_info) : C Info.rx_pkt_info :=
  let bmcast := IS_MCAST (Info.rx_addr i) in
  letc priv := GetPrivacy pdata in
  if negb priv then Ret (Info.set_encrypt_algo _NO_PRIVACY_ i)
  else if dot11AuthAlgrthm s =? dot11AuthAlgrthm_8021X then
    if bmcast then Ret (Info.set_encrypt_algo (u8 (dot118021XGrpPrivacy s)) i)
    else letc w := of_option w in Ret (Info.set_encrypt_algo (u8 (Wi.dot118021XPrivacy w)) i)
  else Ret (Info.set_encrypt_algo (u8 (dot11PrivacyAlgrthm s)) i).

Definition set_iv_icv_len (i : Info.rx_pkt_info) : Info.rx_pkt_info :=
  let a := Info.encrypt_algo i in
  let '(iv, icv) :=
    if a =? _NO_PRIVACY_ then (0, 0)
    else if (a =? _WEP40_) || (a =? _WEP104_) then (4, 4)
    else if a =? _TKIP_ then (8, 4)
    else if a =? _AES_ then (8, 0)
    else if a =? _SMS4_ then (18, 16)
    else (0, 0) in
  Info.set_icv_len icv (Info.set_iv_len iv i).

(** ** Acceptance *)

Definition WF_ADHOC_MODE : Z := 1.
Definition WF_INFRA_MODE : Z := 2.
Definition WF_MASTER_MODE : Z := 3.

Definition mac_addr_equal (a b : list Z) : bool := bytes_eqb a b.
Definition is_bcast_addr (a : list Z) : bool :=
  Z.land (Z.land (Z.land (Z.land (Z.land (nthZ a 0) (nthZ a 1)) (nthZ a 2)) (nthZ a 3)) (nthZ a 4)) (nthZ a 5)
    =? 0xff.

(** The copy of the five addresses at the end of each direction's check. *)
Definition copy_addrs (da sa bss ra ta : list Z) (i : Info.rx_pkt_info) : Info.rx_pkt_info :=
  Info.set_tx_addr ta (Info.set_rx_addr ra (Info.set_bssid bss (Info.set_src_addr sa (Info.set_dst_addr da i)))).

(** A frame whose destination is not the broadcast address must come from the
    node's BSSID and be addressed to [local]. *)
Definition unicast_ok (da bss local : list Z) (w : Wi.wdn_net_info_st) : bool :=
  is_bcast_addr da || (mac_addr_equal bss (Wi.bssid w) && mac_addr_equal da local).

Definition rx_data_pkt_sta2sta (mode : Z) (local pdata : list Z) (w : Wi.wdn_net_info_st)
    (i : Info.rx_pkt_info) : C (Z * Info.rx_pkt_info) :=
  letc a1 := GetAddr1Ptr pdata in letc a2 := GetAddr2Ptr pdata in letc a3 := GetAddr3Ptr pdata in
  if negb (mode =? WF_ADHOC_MODE) then Ret (-1, i)
  else if negb (unicast_ok a1 a3 local w) then Ret (-1, i)
  else Ret (0, copy_addrs a1 a2 a3 a1 a2 i).

Definition rx_data_pkt_ap2sta (mode : Z) (local pdata : list Z) (w : Wi.wdn_net_info_st)
    (i : Info.rx_pkt_info) : C (Z * Info.rx_pkt_info) :=
  letc a1 := GetAddr1Ptr pdata in letc a2 := GetAddr2Ptr pdata in letc a3 := GetAddr3Ptr pdata in
  if negb (mode =? WF_INFRA_MODE) then Ret (-1, i)
  else if negb (unicast_ok a1 a2 local w) then Ret (-1, i)
  else Ret (0, copy_addrs a1 a3 a2 a1 a2 i).

Definition rx_data_pkt_sta2ap (mode : Z) (local pdata : list Z) (i : Info.rx_pkt_info)
    : C (Z * Info.rx_pkt_info) :=
  letc a1 := GetAddr1Ptr pdata in letc a2 := GetAddr2Ptr pdata in letc a3 := GetAddr3Ptr pdata in
  if negb (mode =? WF_MASTER_MODE) then Ret (-1, i)
  else if negb (mac_addr_equal a1 local) then Ret (-1, i)
  else Ret (0, copy_addrs a3 a2 a1 a1 a2 i).

(** [frag | seq << 4], the sequence control field. *)
Definition seq_ctrl_of (i : Info.rx_pkt_info) : Z :=
  u16 (Z.lor (Z.land (Info.frag_num i) 0xf) (Z.shiftl (Z.land (Info.seq_num i) 0xffff) 4)).

Definition rx_check_seq_ctrl (pdata : list Z) (w : Wi.wdn_net_info_st) (i : Info.rx_pkt_info)
    : C (Z * Wi.wdn_net_info_st) :=
  let tid := Info.qos_pri i in
  if 15 <? tid then Ret (-1, w)
  else
    letc last := rd (Wi.seq_ctrl_recorder w) tid in
    letc retry := GET_HDR_Retry pdata in
    if (last =? seq_ctrl_of i) && nz retry then Ret (-1, w)
    else
      letc r := wr (Wi.seq_ctrl_recorder w) tid (seq_ctrl_of i) in
      Ret (0, Wi.set_seq_ctrl_recorder r w).

(** [None] for the node is an unknown sender. *)
Definition rx_check_data_frame_valid (mode : Z) (local pdata : list Z)
    (w : option Wi.wdn_net_info_st) (i : Info.rx_pkt_info)
    : C (Z * option Wi.wdn_net_info_st * Info.rx_pkt_info) :=
  match w with
  | None => Ret (-1, None, i)
  | Some w =>
      letc (ret, i) :=
        (if mode =? WF_INFRA_MODE then
           letc ds := GET_HDR_To_From_DS pdata in
           if negb (ds =? FROM_DS) then Ret (-1, i) else rx_data_pkt_ap2sta mode local pdata w i
         else if mode =? WF_MASTER_MODE then
           letc ds := GET_HDR_To_From_DS pdata in
           if negb (ds =? TO_DS) then Ret (-1, i) else rx_data_pkt_sta2ap mode local pdata i
         else if mode =? WF_ADHOC_MODE then rx_data_pkt_sta2sta mode local pdata w i
         else Ret (0, i)) in
      if negb (ret =? 0) then Ret (-1, Some w, i)
      else
        letc (ret, w) := rx_check_seq_ctrl pdata w i in
        if negb (ret =? 0) then Ret (ret, Some w, i) else Ret (0, Some w, i)
  end.

Definition MMPDU_SIZE : Z := 2304.
Definition MAX_MGNT_HDR_LEN : Z := 28.

Definition rx_check_mngt_frame_valid (mode : Z) (local pdata : list Z) (i : Info.rx_pkt_info)
    : C (Z * Info.rx_pkt_info) :=
  if (mode =? WF_INFRA_MODE) || (mode =? WF_ADHOC_MODE) then
    if MMPDU_SIZE + MAX_MGNT_HDR_LEN <? Info.pkt_len i then Ret (-1, i)
    else
      letc pra := GetAddr1Ptr pdata in
      if negb (is_bcast_addr pra) && negb (mac_addr_equal pra local) then Ret (-1, i)
      else letc a2 := GetAddr2Ptr pdata in Ret (0, Info.set_src_addr a2 i)
  else Ret (0, i).

(** ** Signal levels *)

Definition cal_ant_cck_rssi_pwr (lna_idx vga_idx : Z) : Z :=
  if lna_idx =? 7 then if vga_idx <=? 27 then s8 (-100 + 2 * (27 - vga_idx)) else -100
  else if lna_idx =? 5 then s8 (-74 + 2 * (21 - vga_idx))
  else if lna_idx =? 3 then s8 (-60 + 2 * (20 - vga_idx))
  else if lna_idx =? 1 then s8 (-44 + 2 * (19 - vga_idx))
  else 0.

Definition query_rxpwr_percentage (AntPower : Z) : Z :=
  if (AntPower <=? -100) || (20 <=? AntPower) then 0
  else if 0 <=? AntPower then 100
  else u8 (100 + AntPower).

Definition cal_evm2percentage (Value : Z) : Z :=
  let r := s8 (Z.quot Value 2) in
  let r := if 0 <=? r then 0 else r in
  let r := if r <=? -33 then -33 else r in
  let r := s8 (0 - r) in
  let r := s8 (r * 3) in
  let r := if r =? 99 then 100 else r in
  u8 r.

(** [wf_rx_calc_str_and_qual] on the chip's status bytes: signal strength and
    quality. *)
Definition wf_rx_calc_str_and_qual (rate : Z) (rps : list Z) : C (Z * Z) :=
  letc agc0 := rd rps 0 in
  letc sigq := rd rps 4 in
  letc agc_rpt := rd rps 5 in
  letc evm := rd rps 13 in
  if rate <=? 0x03 then
    let lna_index := Z.shiftr (Z.land agc_rpt 0xE0) 5 in
    let vga_index := Z.land agc_rpt 0x1F in
    let rx_pwr := cal_ant_cck_rssi_pwr lna_index vga_index in
    let pwdb_all := query_rxpwr_percentage rx_pwr in
    let qual :=
      if 40 <? pwdb_all then 100
      else if 64 <? sigq then 0
      else if sigq <? 20 then 100
      else u8 (Z.quot ((64 - sigq) * 100) 44) in
    Ret (pwdb_all, qual)
  else
    let gain := Z.land agc0 0x7F in
    let tmp_rx_pwr := s8 (Z.land gain 0x3F * 2 - 110) in
    let rssi := query_rxpwr_percentage tmp_rx_pwr in
    let evm := cal_evm2percentage (s8 evm) in
    Ret (rssi, Z.land evm 0xFF).

(** ** The descriptor *)

(** The five words of a descriptor, each as its fields from the lowest bit on;
    the [v]s are the reserved fields. *)
Definition rxd_words (r : rxd_detail_new) (v0 v1 v2 v3 v4 v5 : Z) : list (list (Z * Z)) :=
  [[(2, data_type r); (8, cmd_index r); (4, v0); (4, drvinfo_size r); (1, phy_status r); (1, crc32 r); (12, v1)];
   [(14, pkt_len r); (9, v2); (1, swdec r); (3, encrypt_algo r); (1, qos r); (4, tid r)];
   [(7, rx_rate r); (8, v3); (1, notice r); (1, rpt_sel r); (1, amsdu r); (1, more_data r); (1, more_frag r);
    (4, frag r); (8, usb_agg_pktnum r)];
   [(5, mac_id r); (27, v4)];
   [(12, seq r); (20, v5)]].

Definition rxd_bytes (ws : list (list (Z * Z))) : list Z := concat ((fun fs => le_bytes 4 (pack fs)) <$> ws).

Lemma dword_mid pre fs rest i : Forall fits_width fs -> field_offset (length fs) fs = 32 ->
  4 * i = Z.of_nat (length pre) ->
  dword (pre ++ le_bytes 4 (pack fs) ++ rest) i = Ret (pack fs).
Proof.
  intros Hf Ho Hi. unfold dword. rewrite slice_app_mid by (rewrite ?length_le_bytes; done). cbn [cbind].
  pose proof (pack_range fs Hf) as Hr. rewrite Ho in Hr. by rewrite le_bytes_u32.
Qed.

(** Reading a descriptor back gives every field that was written to it,
    each at its place in the five words, whatever the reserved bits are. *)
Theorem rxd_roundtrip (r : rxd_detail_new) (v0 v1 v2 v3 v4 v5 : Z) (rest : list Z) :
  Forall (Forall fits_width) (rxd_words r v0 v1 v2 v3 v4 v5) ->
  rxd_of (rxd_bytes (rxd_words r v0 v1 v2 v3 v4 v5) ++ rest) = Ret r.
Proof.
  intros Hf. set (ws := rxd_words r v0 v1 v2 v3 v4 v5) in *.
  apply Forall_cons in Hf as [H0 Hf]. apply Forall_cons in Hf as [H1 Hf]. apply Forall_cons in Hf as [H2 Hf].
  apply Forall_cons in Hf as [H3 Hf]. apply Forall_cons in Hf as [H4 _].
  unfold rxd_bytes. cbn [fmap list_fmap concat ws rxd_words]. rewrite app_nil_r, <- !app_assoc.
  match goal with |- rxd_of (le_bytes 4 (pack ?a) ++ le_bytes 4 (pack ?b) ++ le_bytes 4 (pack ?c) ++
    le_bytes 4 (pack ?d) ++ le_bytes 4 (pack ?e) ++ rest) = _ =>
    set (f0 := a) in *; set (f1 := b) in *; set (f2 := c) in *; set (f3 := d) in *; set (f4 := e) in * end.
  set (l0 := le_bytes 4 (pack f0)). set (l1 := le_bytes 4 (pack f1)). set (l2 := le_bytes 4 (pack f2)).
  set (l3 := le_bytes 4 (pack f3)). set (l4 := le_bytes 4 (pack f4)).
  assert (E0 : dword (l0 ++ l1 ++ l2 ++ l3 ++ l4 ++ rest) 0 = Ret (pack f0)) by (by apply (dword_mid [] f0)).
  assert (E1 : dword (l0 ++ l1 ++ l2 ++ l3 ++ l4 ++ rest) 1 = Ret (pack f1)) by (by apply (dword_mid l0 f1)).
  assert (E2 : dword (l0 ++ l1 ++ l2 ++ l3 ++ l4 ++ rest) 2 = Ret (pack f2))
    by (rewrite (app_assoc l0); by apply (dword_mid (l0 ++ l1) f2)).
  assert (E3 : dword (l0 ++ l1 ++ l2 ++ l3 ++ l4 ++ rest) 3 = Ret (pack f3))
    by (rewrite (app_assoc l0), (app_assoc (l0 ++ l1)); by apply (dword_mid ((l0 ++ l1) ++ l2) f3)).
  assert (E4 : dword (l0 ++ l1 ++ l2 ++ l3 ++ l4 ++ rest) 4 = Ret (pack f4))
    by (rewrite (app_assoc l0), (app_assoc (l0 ++ l1)), (app_assoc ((l0 ++ l1) ++ l2));
        by apply (dword_mid (((l0 ++ l1) ++ l2) ++ l3) f4)).
  unfold rxd_of. rewrite E0, E1, E2, E3, E4. cbn [cbind].
  destruct r; f_equal; f_equal.
  - exact (field_pack f0 0 2 _ H0 eq_refl).
  - exact (field_pack f0 1 8 _ H0 eq_refl).
  - exact (field_pack f0 3 4 _ H0 eq_refl).
  - exact (field_pack f0 4 1 _ H0 eq_refl).
  - exact (field_pack f0 5 1 _ H0 eq_refl).
  - exact (field_pack f1 0 14 _ H1 eq_refl).
  - exact (field_pack f1 2 1 _ H1 eq_refl).
  - exact (field_pack f1 3 3 _ H1 eq_refl).
  - exact (field_pack f1 4 1 _ H1 eq_refl).
  - exact (field_pack f1 5 4 _ H1 eq_refl).
  - exact (field_pack f2 0 7 _ H2 eq_refl).
  - exact (field_pack f2 2 1 _ H2 eq_refl).
  - exact (field_pack f2 3 1 _ H2 eq_refl).
  - exact (field_pack f2 4 1 _ H2 eq_refl).
  - exact (field_pack f2 5 1 _ H2 eq_refl).
  - exact (field_pack f2 6 1 _ H2 eq_refl).
  - exact (field_pack f2 7 4 _ H2 eq_refl).
  - exact (field_pack f2 8 8 _ H2 eq_refl).
  - exact (field_pack f3 0 5 _ H3 eq_refl).
  - exact (field_pack f4 0 12 _ H4 eq_refl).
Qed.

Definition wit_rxd : rxd_detail_new := mk_rxd 3 0 4 1 0 1500 0 4 1 5 12 0 0 0 0 0 0 1 2 4095.

Lemma rxd_roundtrip_witness :
  rxd_of (rxd_bytes (rxd_words wit_rxd 9 100 5 3 77 1) ++ [1; 2; 3; 4]) = Ret wit_rxd.
Proof.
  apply rxd_roundtrip. repeat apply Forall_cons_2; try apply Forall_nil_2; (split; cbn; lia).
Defined.

(** ** Length checks *)

Lemma dword_Ret pbuf i : 0 <= i <= 4 -> 24 <= Z.of_nat (length pbuf) -> exists d, dword pbuf i = Ret d.
Proof. intros Hi Hl. unfold dword. rewrite slice_Ret by lia. cbn [cbind]. eauto. Qed.

(** The ranges of the fields the checks use. *)
Definition rxd_ok (r : rxd_detail_new) : Prop :=
  0 <= drvinfo_size r < 16 /\ 0 <= pkt_len r < 16384 /\ (crc32 r = 0 \/ crc32 r = 1) /\
  (notice r = 0 \/ notice r = 1).

Lemma rxd_of_Ret pbuf : 24 <= Z.of_nat (length pbuf) -> exists r, rxd_of pbuf = Ret r /\ rxd_ok r.
Proof.
  intros Hl. unfold rxd_of.
  destruct (dword_Ret pbuf 0) as [d0 ->]; [lia | done |]. destruct (dword_Ret pbuf 1) as [d1 ->]; [lia | done |].
  destruct (dword_Ret pbuf 2) as [d2 ->]; [lia | done |]. destruct (dword_Ret pbuf 3) as [d3 ->]; [lia | done |].
  destruct (dword_Ret pbuf 4) as [d4 ->]; [lia | done |]. cbn [cbind]. eexists. split; [done |].
  unfold rxd_ok. cbn [drvinfo_size pkt_len crc32 notice].
  pose proof (field_range d0 14 4 ltac:(lia)). pose proof (field_range d1 0 14 ltac:(lia)).
  pose proof (field_range d0 19 1 ltac:(lia)). pose proof (field_range d2 15 1 ltac:(lia)). lia.
Qed.

Lemma notice_process_Ret pbuf skb_len : skb_len <= Z.of_nat (length pbuf) ->
  exists r, wf_rx_notice_process pbuf skb_len = Ret r.
Proof.
  intros Hl. unfold wf_rx_notice_process.
  destruct ((256 <? skb_len - RXDESC_SIZE) || (skb_len - RXDESC_SIZE <? 3)) eqn:E; [eauto |].
  apply orb_false_elim in E as [E1 E2]. apply Z.ltb_ge in E1. apply Z.ltb_ge in E2. unfold RXDESC_SIZE in *.
  rewrite slice_Ret by lia. cbn [cbind]. unfold rx_c2h_pkt_hdr_parse.
  destruct ((256 <? skb_len - 24) || (skb_len - 24 <? 3)) eqn:E; [cbn [cbind]; eauto |].
  set (bs := take _ _).
  assert (Hb : (2 <= length bs)%nat) by (unfold bs; rewrite length_take, length_drop; lia).
  destruct bs as [| x [| y bs]]; cbn [length] in Hb; try lia. cbn. eauto.
Qed.

(** C36: the length check of a received buffer always returns and never reads
    outside the buffer.  The length it accepts is that of the descriptor, the
    driver information and the frame, with the 8 bytes less of a packet that
    is not a frame, and lies within the buffer; nothing with a checksum error
    or a notice is accepted.  An aggregated packet is valid only when its
    descriptor announces a non-empty frame with 32 bytes of driver
    information that fits in what remains. *)
Theorem rx_len_check_sound (crcerr : Z) (pbuf : list Z) (skb_len : Z) :
  bytes_ok pbuf -> 24 <= skb_len < 65536 -> skb_len <= Z.of_nat (length pbuf) ->
  exists rxd, rxd_of pbuf = Ret rxd /\
    (exists len c, wf_rx_data_len_check crcerr pbuf skb_len = Ret (len, c) /\
       (len = -1 \/
        c = crcerr /\ crc32 rxd = 0 /\ notice rxd = 0 /\ 0 <= len <= skb_len /\
        len = 24 + drvinfo_size rxd * 8 + pkt_len rxd - (if nthZ pbuf 0 mod 4 =? 3 then 0 else 8))) /\
    (exists len v n, wf_rx_get_pkt_len_and_check_valid pbuf skb_len = Ret (len, v, n) /\
       (v = true -> len = 24 + 32 + pkt_len rxd /\ len <= skb_len /\ 0 < pkt_len rxd /\
          crc32 rxd = 0 /\ notice rxd = 0 /\ cmd_index rxd = 0)).
Proof.
  intros Hb Hs Hl. destruct (rxd_of_Ret pbuf ltac:(lia)) as (r & Hr & Hd & Hp & Hc & Hn).
  exists r. split; [done |]. split.
  - unfold wf_rx_data_len_check. rewrite Hr. cbn [cbind].
    destruct (Z.eqb_spec (crc32 r) 1); [eauto 10 |]. destruct (Z.eqb_spec (notice r) 1).
    { destruct (u16 (RXDESC_SIZE + pkt_len r) =? skb_len); cbn [cbind]; [| eauto 10].
      destruct (notice_process_Ret pbuf skb_len Hl) as [x ->]. cbn [cbind]. eauto 10. }
    unfold wf_rx_data_type. rewrite rd_nthZ by lia. cbn [cbind].
    replace (Z.land (nthZ pbuf 0) 3) with (nthZ pbuf 0 mod 4) by (symmetry; apply (Z.land_ones _ 2); lia).
    unfold RXDESC_SIZE, WF_PKT_TYPE_FRAME. rewrite (u16_id (24 + _ + _)) by (unfold is_u16; lia).
    destruct (Z.eqb_spec (nthZ pbuf 0 mod 4) 3); cbn [negb];
      [| rewrite (u16_id (24 + _ + _ - 8)) by (unfold is_u16; lia)];
      (match goal with |- context [skb_len <? ?x] => destruct (Z.ltb_spec skb_len x) end; [eauto 10 |]);
      do 2 eexists; (split; [reflexivity |]); right; split_and!; lia.
  - unfold wf_rx_get_pkt_len_and_check_valid. rewrite Hr. cbn [cbind]. unfold RXDESC_SIZE.
    rewrite (u16_id (24 + _ + _)) by (unfold is_u16; lia).
    destruct (Z.eqb_spec (pkt_len r) 0); cbn [orb]; [do 3 eexists; split; [reflexivity | done] |].
    destruct (Z.eqb_spec (drvinfo_size r) 4) as [Hdv |]; cbn [orb negb]; [| do 3 eexists; split; [reflexivity | done]].
    destruct (Z.eqb_spec (cmd_index r) 0); cbn [orb negb]; [| do 3 eexists; split; [reflexivity | done]].
    destruct (Z.eqb_spec (crc32 r) 1); cbn [orb]; [do 3 eexists; split; [reflexivity | done] |].
    match goal with |- context [skb_len <? ?x] => destruct (Z.ltb_spec skb_len x) end;
      [do 3 eexists; split; [reflexivity | done] |].
    destruct (Z.eqb_spec (notice r) 1); do 3 eexists; (split; [reflexivity |]); intros Hv; [done |].
    rewrite Hdv in *. lia.
Qed.

Lemma rx_len_check_sound_witness :
  exists len c, wf_rx_data_len_check 0 (rxd_bytes (rxd_words wit_rxd 0 0 0 0 0 0) ++ replicate 2000 7) 1600 =
    Ret (len, c).
Proof.
  destruct (rx_len_check_sound 0 (rxd_bytes (rxd_words wit_rxd 0 0 0 0 0 0) ++ replicate 2000 7) 1600)
    as (r & _ & (len & c & H & _) & _);
    [apply bytes_okb_ok; vm_compute; reflexivity | lia | vm_compute; discriminate |].
  exists len, c. exact H.
Defined.

(** ** Headers *)

Section Header.
(** A frame: frame control, duration, three addresses and the rest. *)
Context (b0 b1 d0 d1 : Z) (a1 a2 a3 rest : list Z).
Context (Ha1 : length a1 = 6%nat) (Ha2 : length a2 = 6%nat) (Ha3 : length a3 = 6%nat).
Definition frame_bytes : list Z := [b0; b1; d0; d1] ++ a1 ++ a2 ++ a3 ++ rest.
Definition frame_control : Z := b0 + 256 * b1.

Lemma hdr_frame : hdr frame_bytes 0 = Ret frame_control.
Proof.
  unfold hdr, frame_bytes. change ([b0; b1; d0; d1] ++ ?l) with ([] ++ [b0; b1] ++ d0 :: d1 :: l).
  rewrite slice_app_mid by done. cbn [cbind le_word]. unfold frame_control. do 2 f_equal. lia.
Qed.

Lemma addr1_frame : GetAddr1Ptr frame_bytes = Ret a1.
Proof using Ha1. unfold GetAddr1Ptr, frame_bytes. apply slice_app_mid; [done | by rewrite Ha1]. Qed.

Lemma addr2_frame : GetAddr2Ptr frame_bytes = Ret a2.
Proof using Ha1 Ha2.
  unfold GetAddr2Ptr, frame_bytes. rewrite app_assoc.
  apply slice_app_mid; [by rewrite length_app, Ha1 | by rewrite Ha2].
Qed.

Lemma addr3_frame : GetAddr3Ptr frame_bytes = Ret a3.
Proof using Ha1 Ha2 Ha3.
  unfold GetAddr3Ptr, frame_bytes. rewrite app_assoc, (app_assoc _ a2).
  apply slice_app_mid; [by rewrite !length_app, Ha1, Ha2 | by rewrite Ha3].
Qed.

Lemma ds_frame : GET_HDR_To_From_DS frame_bytes = Ret (Z.land frame_control (Z.lor TO_DS FROM_DS)).
Proof. unfold GET_HDR_To_From_DS. by rewrite hdr_frame. Qed.

Lemma retry_frame : GET_HDR_Retry frame_bytes = Ret (Z.land frame_control RETRY).
Proof. unfold GET_HDR_Retry. by rewrite hdr_frame. Qed.

(** The two direction bits, one by one. *)
Lemma ds_is b c : (b = 0 \/ b = 1) -> (c = 0 \/ c = 1) ->
  (Z.land frame_control (Z.lor TO_DS FROM_DS) =? Z.lor (b * TO_DS) (c * FROM_DS)) =
    (Bool.eqb (Z.testbit frame_control 8) (b =? 1) && Bool.eqb (Z.testbit frame_control 9) (c =? 1)).
Proof.
  intros Hb Hc. rewrite Z.land_lor_distr_r. unfold TO_DS, FROM_DS. rewrite !land_BIT_val by lia.
  destruct Hb as [-> | ->], Hc as [-> | ->], (Z.testbit frame_control 8), (Z.testbit frame_control 9); done.
Qed.

(** The direction and the addresses a mode accepts, and where it takes
    destination, source and BSSID from. *)
Definition accepts (mode : Z) (local bss : list Z) : bool :=
  if mode =? WF_INFRA_MODE then
    negb (Z.testbit frame_control 8) && Z.testbit frame_control 9 &&
    (is_bcast_addr a1 || (bytes_eqb a2 bss && bytes_eqb a1 local))
  else if mode =? WF_MASTER_MODE then
    Z.testbit frame_control 8 && negb (Z.testbit frame_control 9) && bytes_eqb a1 local
  else if mode =? WF_ADHOC_MODE then is_bcast_addr a1 || (bytes_eqb a3 bss && bytes_eqb a1 local)
  else true.

Definition addressed (mode : Z) (i : Info.rx_pkt_info) : Info.rx_pkt_info :=
  if mode =? WF_INFRA_MODE then copy_addrs a1 a3 a2 a1 a2 i
  else if mode =? WF_MASTER_MODE then copy_addrs a3 a2 a1 a1 a2 i
  else if mode =? WF_ADHOC_MODE then copy_addrs a1 a2 a3 a1 a2 i
  else i.

Definition is_retry_of (w : Wi.wdn_net_info_st) (i : Info.rx_pkt_info) : bool :=
  (nthZ (Wi.seq_ctrl_recorder w) (Info.qos_pri i) =? seq_ctrl_of i) && Z.testbit frame_control 11.

(** The cases of the check of a data frame from a known station. *)
Lemma data_frame_cases (mode : Z) (local : list Z) (w : Wi.wdn_net_info_st) (i : Info.rx_pkt_info) :
  length (Wi.seq_ctrl_recorder w) = 16%nat -> 0 <= Info.qos_pri i <= 15 ->
  exists r w' i', rx_check_data_frame_valid mode local frame_bytes (Some w) i = Ret (r, Some w', i') /\
    (r = 0 <-> accepts mode local (Wi.bssid w) = true /\ is_retry_of w i = false) /\
    (r <> 0 -> r = -1 /\ w' = w) /\
    (r = 0 -> i' = addressed mode i /\
       w' = Wi.set_seq_ctrl_recorder
              (setZ (Wi.seq_ctrl_recorder w) (Info.qos_pri i) (seq_ctrl_of i)) w) /\
    (mode = WF_INFRA_MODE -> IS_MCAST a1 = true -> is_bcast_addr a1 = false ->
       IS_MCAST local = false -> r = -1).
Proof using Ha1 Ha2 Ha3.
  intros Hrec Htid. unfold rx_check_data_frame_valid.
  assert (Hdir : exists i',
    (if mode =? WF_INFRA_MODE then
       letc ds := GET_HDR_To_From_DS frame_bytes in
       if negb (ds =? FROM_DS) then Ret (-1, i) else rx_data_pkt_ap2sta mode local frame_bytes w i
     else if mode =? WF_MASTER_MODE then
       letc ds := GET_HDR_To_From_DS frame_bytes in
       if negb (ds =? TO_DS) then Ret (-1, i) else rx_data_pkt_sta2ap mode local frame_bytes i
     else if mode =? WF_ADHOC_MODE then rx_data_pkt_sta2sta mode local frame_bytes w i
     else Ret (0, i)) = Ret (if accepts mode local (Wi.bssid w) then 0 else -1, i') /\
    (accepts mode local (Wi.bssid w) = true -> i' = addressed mode i)).
  { unfold accepts, addressed, rx_data_pkt_ap2sta, rx_data_pkt_sta2ap, rx_data_pkt_sta2sta, unicast_ok, mac_addr_equal.
    rewrite !ds_frame, !addr1_frame, !addr2_frame, !addr3_frame. cbn [cbind].
    destruct (Z.eqb_spec mode WF_INFRA_MODE) as [-> |]; [| destruct (Z.eqb_spec mode WF_MASTER_MODE) as [-> |];
      [| destruct (Z.eqb_spec mode WF_ADHOC_MODE) as [-> |]; [| by exists i]]].
    - pose proof (ds_is 0 1 ltac:(lia) ltac:(lia)) as Hds. change (Z.lor (0 * TO_DS) (1 * FROM_DS)) with FROM_DS in Hds.
      rewrite Hds. cbn [Z.eqb Pos.eqb]. destruct (Z.testbit frame_control 8), (Z.testbit frame_control 9);
        cbn [Bool.eqb negb andb]; try (by exists i).
      destruct (is_bcast_addr a1 || (bytes_eqb a2 (Wi.bssid w) && bytes_eqb a1 local)); cbn [negb]; eauto.
      exists i. by split.
    - pose proof (ds_is 1 0 ltac:(lia) ltac:(lia)) as Hds. change (Z.lor (1 * TO_DS) (0 * FROM_DS)) with TO_DS in Hds.
      rewrite Hds. cbn [Z.eqb Pos.eqb]. destruct (Z.testbit frame_control 8), (Z.testbit frame_control 9);
        cbn [Bool.eqb negb andb]; try (by exists i).
      destruct (bytes_eqb a1 local); cbn [negb]; eauto. exists i. by split.
    - destruct (is_bcast_addr a1 || (bytes_eqb a3 (Wi.bssid w) && bytes_eqb a1 local)); cbn [negb]; eauto.
      exists i. by split. }
  assert (Hm : accepts mode local (Wi.bssid w) = true -> mode = WF_INFRA_MODE -> IS_MCAST a1 = true ->
    is_bcast_addr a1 = false -> IS_MCAST local = false -> False).
  { intros Ha -> Hg Hbc Hl. unfold accepts in Ha. cbn [Z.eqb Pos.eqb WF_INFRA_MODE] in Ha. rewrite Hbc in Ha.
    apply andb_prop in Ha as [_ Ha]. cbn [orb] in Ha. apply andb_prop in Ha as [_ Ha].
    apply bool_decide_eq_true in Ha. subst. congruence. }
  destruct Hdir as (i' & -> & Hi). cbn [cbind].
  destruct (accepts mode local (Wi.bssid w)); cbn [Z.eqb negb].
  2: { exists (-1), w, i'. split; [done |]. split_and!; try done; naive_solver lia. }
  specialize (Hi eq_refl). specialize (Hm eq_refl). subst i'.
  assert (Hq : Info.qos_pri (addressed mode i) = Info.qos_pri i /\ seq_ctrl_of (addressed mode i) = seq_ctrl_of i)
    by (unfold addressed; repeat case_match; done).
  destruct Hq as [Hq1 Hq2]. unfold rx_check_seq_ctrl. rewrite Hq1, Hq2.
  destruct (Z.ltb_spec 15 (Info.qos_pri i)); [lia |].
  rewrite rd_nthZ, retry_frame by lia. cbn [cbind]. unfold RETRY. rewrite land_BIT by lia.
  fold (is_retry_of w i). destruct (is_retry_of w i).
  { cbn [cbind Z.eqb negb]. do 3 eexists. split; [reflexivity |]. split_and!; try done; naive_solver lia. }
  unfold wr. destruct (Z.leb_spec 0 (Info.qos_pri i)); [| lia].
  destruct (Z.ltb_spec (Info.qos_pri i) (Z.of_nat (length (Wi.seq_ctrl_recorder w)))); [| lia].
  cbn [andb cbind Z.eqb negb]. do 3 eexists. split; [reflexivity |]. split_and!; try done.
  intros Hmode Hg Hbc Hl. by destruct (Hm Hmode Hg Hbc Hl).
Qed.

(** C35: a data frame of a known station is accepted exactly when its direction
    and addresses are those of the work mode and it is not the retransmission
    of the last frame of its priority.  An accepted frame has its destination,
    source and BSSID taken from the address fields of its direction and is
    recorded as the last one; a refused frame leaves the node as it was.  In
    station mode group addresses other than broadcast are refused. *)
Theorem data_frame_valid (mode : Z) (local : list Z) (w : Wi.wdn_net_info_st) (i : Info.rx_pkt_info) :
  length (Wi.seq_ctrl_recorder w) = 16%nat -> 0 <= Info.qos_pri i <= 15 ->
  exists r w' i', rx_check_data_frame_valid mode local frame_bytes (Some w) i = Ret (r, Some w', i') /\
    (r = 0 <-> accepts mode local (Wi.bssid w) = true /\ is_retry_of w i = false) /\
    (r <> 0 -> r = -1 /\ w' = w) /\
    (r = 0 -> i' = addressed mode i /\
       w' = Wi.set_seq_ctrl_recorder
              (setZ (Wi.seq_ctrl_recorder w) (Info.qos_pri i) (seq_ctrl_of i)) w) /\
    (mode = WF_INFRA_MODE -> IS_MCAST a1 = true -> is_bcast_addr a1 = false ->
       IS_MCAST local = false -> r = -1).
Proof using Ha1 Ha2 Ha3. apply data_frame_cases. Qed.

(** The test of the subtype never succeeds. *)
Lemma subtype_qos :
  (Z.land (Z.land frame_control 0xF0) MAC_FRAME_TYPE_QOS_DATA =? MAC_FRAME_TYPE_QOS_DATA) = false.
Proof using Type.
  apply Z.eqb_neq. intros E. apply (f_equal (fun x => Z.testbit x 3)) in E.
  rewrite !Z.land_spec in E. cbn in E. by rewrite andb_false_r in E.
Qed.

(** Four addresses when both direction bits are set. *)
Lemma ds_four : (u8 (Z.shiftr (Z.land frame_control (Z.lor TO_DS FROM_DS)) 8) =? 3) =
  Z.testbit frame_control 8 && Z.testbit frame_control 9.
Proof using Type.
  clear Ha1 Ha2 Ha3.
  rewrite Z.land_lor_distr_r. unfold TO_DS, FROM_DS. rewrite !land_BIT_val by lia.
  by destruct (Z.testbit frame_control 8), (Z.testbit frame_control 9).
Qed.

(** The header length the driver computes for a data frame is 24 bytes, 6
    more with four addresses, 2 more when the descriptor says QoS, and 4 more
    when the order bit is set; priority, acknowledgment policy and A-MSDU flag
    are the fields of the QoS control word, or 0.  Whether it is QoS data is
    decided by the descriptor alone: the test of the frame's subtype never
    succeeds. *)
Theorem header_parsed (i : Info.rx_pkt_info) (s0 s1 q0 q1 : Z) (addr4 body : list Z) :
  let four := Z.testbit frame_control 8 && Z.testbit frame_control 9 in
  let q := q0 + 256 * q1 in
  rest = (s0 :: s1 :: addr4) ++ q0 :: q1 :: body -> length addr4 = (if four then 6 else 0)%nat ->
  exists i1 i2, rx_parse_qos_ctrl_field frame_bytes i = Ret i1 /\
    rx_parse_ht_ctrl_field frame_bytes i1 = Ret i2 /\
    Info.qos_flag i2 = Info.qos_flag i /\
    Info.wlan_hdr_len i2 = 24 + (if four then 6 else 0) + (if nz (Info.qos_flag i) then 2 else 0) +
                             (if Z.testbit frame_control 15 then 4 else 0) /\
    Info.qos_pri i2 = (if nz (Info.qos_flag i) then Z.land q 15 else 0) /\
    Info.ack_policy i2 = (if nz (Info.qos_flag i) then Z.land (Z.shiftr q 5) 3 else 0) /\
    Info.amsdu i2 = (if nz (Info.qos_flag i) then Z.land (Z.shiftr q 7) 1 else 0).
Proof using Ha1 Ha2 Ha3.
  intros four q Hrest Ha4. unfold rx_parse_qos_ctrl_field, GET_HDR_SubTpye. rewrite ds_frame, hdr_frame. cbn [cbind].
  rewrite subtype_qos, ds_four. fold four.
  assert (Hq : hdr frame_bytes (if four then 30 else 24) = Ret q).
  { unfold hdr, frame_bytes. rewrite Hrest, !app_assoc.
    match goal with |- context [slice (?p ++ q0 :: q1 :: body)] =>
      change (p ++ q0 :: q1 :: body) with (p ++ [q0; q1] ++ body) end.
    rewrite slice_app_mid; [| rewrite !length_app; cbn [length]; rewrite Ha1, Ha2, Ha3, Ha4; by destruct four | done].
    cbn [cbind le_word]. unfold q. do 2 f_equal. lia. }
  assert (Hht : forall j, rx_parse_ht_ctrl_field frame_bytes j =
    Ret (if Z.testbit frame_control 15 then Info.set_wlan_hdr_len (u8 (Info.wlan_hdr_len j + 4)) j else j)).
  { intros j. unfold rx_parse_ht_ctrl_field, GET_HDR_Order. rewrite hdr_frame. cbn [cbind].
    unfold ORDER. by rewrite land_BIT. }
  destruct four; cbn [Info.qos_flag Info.set_wlan_hdr_len Info.wlan_hdr_len].
  all: destruct (nz (Info.qos_flag i)) eqn:Hqf;
    [match goal with |- context [hdr frame_bytes ?o] => replace (hdr frame_bytes o) with (Ret q) by done end |].
  all: cbn [cbind]; do 2 eexists; (split; [reflexivity |]); rewrite Hht; (split; [reflexivity |]);
    destruct (Z.testbit frame_control 15); split_and!; reflexivity.
Qed.
End Header.

Definition wit_w : Wi.wdn_net_info_st := Wi.set_bssid [2; 0; 0; 0; 0; 1] Wi.zero.
Definition wit_i : Info.rx_pkt_info := Info.set_seq_num 77 (Info.set_qos_flag 1 Info.zero).

Lemma data_frame_valid_witness :
  exists r w' i', rx_check_data_frame_valid WF_INFRA_MODE [2; 0; 0; 0; 0; 9]
      (frame_bytes 0x08 0x02 0 0 [1; 0; 94; 0; 0; 1] [2; 0; 0; 0; 0; 1] [2; 0; 0; 0; 0; 7] [0; 0])
      (Some wit_w) wit_i = Ret (r, Some w', i') /\ r = -1.
Proof.
  destruct (data_frame_valid 0x08 0x02 0 0 [1; 0; 94; 0; 0; 1] [2; 0; 0; 0; 0; 1] [2; 0; 0; 0; 0; 7] [0; 0]
    eq_refl eq_refl eq_refl WF_INFRA_MODE [2; 0; 0; 0; 0; 9] wit_w wit_i) as (r & w' & i' & H & _ & _ & _ & Hm);
    [reflexivity | cbn; lia |].
  exists r, w', i'. split; [exact H |]. apply Hm; reflexivity.
Defined.

Lemma header_parsed_witness :
  exists i1 i2, rx_parse_qos_ctrl_field
      (frame_bytes 0x88 0x02 0 0 (replicate 6 1) (replicate 6 2) (replicate 6 3) [0; 0; 5; 0; 9; 9]) wit_i = Ret i1 /\
    rx_parse_ht_ctrl_field
      (frame_bytes 0x88 0x02 0 0 (replicate 6 1) (replicate 6 2) (replicate 6 3) [0; 0; 5; 0; 9; 9]) i1 = Ret i2 /\
    Info.wlan_hdr_len i2 = 26 /\ Info.qos_pri i2 = 5.
Proof.
  destruct (header_parsed 0x88 0x02 0 0 (replicate 6 1) (replicate 6 2) (replicate 6 3) [0; 0; 5; 0; 9; 9]
    eq_refl eq_refl eq_refl wit_i 0 0 5 0 [] [9; 9] eq_refl eq_refl) as (i1 & i2 & H1 & H2 & _ & Hl & Hp & _).
  exists i1, i2. split; [exact H1 |]. split; [exact H2 |]. split; [exact Hl | exact Hp].
Defined.

(** ** Signal levels *)

Lemma s8_id x : -128 <= x < 128 -> s8 x = x.
Proof. intros Hx. unfold s8. rewrite Z.mod_small; lia. Qed.

Lemma percentage_range p : -128 <= p < 128 -> 0 <= query_rxpwr_percentage p <= 100.
Proof.
  intros Hp. unfold query_rxpwr_percentage.
  destruct (Z.leb_spec p (-100)), (Z.leb_spec 20 p); cbn [orb]; try lia.
  destruct (Z.leb_spec 0 p); [lia |]. rewrite u8_id by (unfold is_u8; lia). lia.
Qed.

Lemma s8_range x : -128 <= s8 x < 128.
Proof. unfold s8. pose proof (Z.mod_pos_bound (x + 128) 256 ltac:(lia)). lia. Qed.

Lemma evm_range v : -128 <= v < 128 -> 0 <= cal_evm2percentage v <= 100.
Proof.
  intros Hv. unfold cal_evm2percentage.
  assert (Hq : -64 <= Z.quot v 2 <= 63).
  { pose proof (Z.quot_le_mono (-128) v 2 ltac:(lia) ltac:(lia)) as H1.
    pose proof (Z.quot_le_mono v 127 2 ltac:(lia) ltac:(lia)) as H2.
    change (Z.quot (-128) 2) with (-64) in H1. change (Z.quot 127 2) with 63 in H2. lia. }
  rewrite (s8_id (Z.quot v 2)) by lia. set (q := Z.quot v 2) in *. clearbody q.
  destruct (Z.leb_spec 0 q); [by vm_compute |]. destruct (Z.leb_spec q (-33)); [by vm_compute |].
  rewrite (s8_id (0 - q)), s8_id by lia. destruct (Z.eqb_spec ((0 - q) * 3) 99); rewrite u8_id by (unfold is_u8; lia); lia.
Qed.

Lemma cck_power_range a v : -128 <= cal_ant_cck_rssi_pwr a v < 128.
Proof. unfold cal_ant_cck_rssi_pwr. repeat case_match; (lia || apply s8_range). Qed.

(** For every status block of the chip and every rate the signal strength
    and the signal quality are percentages. *)
Theorem signal_percent (rate : Z) (rps : list Z) :
  bytes_ok rps -> 14 <= Z.of_nat (length rps) ->
  exists strength qual, wf_rx_calc_str_and_qual rate rps = Ret (strength, qual) /\
    0 <= strength <= 100 /\ 0 <= qual <= 100.
Proof.
  intros Hb Hl. unfold wf_rx_calc_str_and_qual. rewrite !rd_nthZ by lia. cbn [cbind].
  pose proof (nthZ_Forall is_u8 rps 4 Hb ltac:(lia)) as Hq. unfold is_u8 in Hq.
  destruct (rate <=? 3).
  - do 2 eexists. split; [reflexivity |]. split; [apply percentage_range, cck_power_range |].
    destruct (40 <? _); [lia |]. destruct (Z.ltb_spec 64 (nthZ rps 4)); [lia |].
    destruct (Z.ltb_spec (nthZ rps 4) 20); [lia |].
    assert (Hd : 0 <= Z.quot ((64 - nthZ rps 4) * 100) 44 <= 100).
    { rewrite Z.quot_div_nonneg by lia. split; [apply Z.div_pos; lia | apply Z.div_le_upper_bound; lia]. }
    rewrite u8_id by (unfold is_u8; lia). lia.
  - do 2 eexists. split; [reflexivity |]. split; [apply percentage_range, s8_range |].
    pose proof (evm_range (s8 (nthZ rps 13)) (s8_range _)) as He.
    rewrite land_255, u8_id by (unfold is_u8; lia). lia.
Qed.

Lemma signal_percent_witness :
  exists s q, wf_rx_calc_str_and_qual 12 [60; 0; 0; 0; 150; 0; 0; 0; 0; 0; 0; 0; 0; 200] = Ret (s, q) /\
    0 <= s <= 100 /\ 0 <= q <= 100.
Proof. apply signal_percent; [by apply bytes_okb_ok | cbn; lia]. Defined.
End Rx.
