(* ===== verification/Msg.v ===== *)
(** * Message queues ([nic/utility/wf_msg.c], [wf_msg.h])

    A message queue has a pool of free messages and a list of pending ones,
    ordered by the domain and priority fields of their tags.  The two queues
    are the sequences of their messages (the pointer structure and the counter
    of a [wf_que_t] are verified in [WfList]); [store] holds the messages
    themselves, by address. *)
From stdpp Require Import sorting.
From S2P Require Import Prelude.

Module Msg.

Definition WF_MSG_TAG_ID_MSK : Z := 0x7F.
Definition WF_MSG_TAG_SET (dom pri id : Z) : Z :=
  Z.lor (Z.lor (Z.shiftl (Z.land dom 0xF) 12) (Z.shiftl (Z.land pri 0x1F) 7)) (Z.shiftl (Z.land id 0x7F) 0).
Definition WF_MSG_TAG_DOM (tag : Z) : Z := u8 (Z.land (Z.shiftr tag 12) 0xF).
Definition WF_MSG_TAG_PRI (tag : Z) : Z := u8 (Z.land (Z.shiftr tag 7) 0x1F).
Definition WF_MSG_TAG_ID (tag : Z) : Z := u8 (Z.land (Z.shiftr tag 0) 0x7F).

(** The queue a message is in, its [pque]. *)
Inductive qid : Type := Pend | Free.
#[export] Instance qid_eq_dec : EqDecision qid.
Proof. solve_decision. Defined.

(** [V] is what the users of a queue keep in [value]. *)
Record wf_msg_t {V : Type} : Type := mk_msg {
  pque : option qid;
  alloc_value_size : Z;
  tag : Z;
  len : Z;
  value : V;
}.
Arguments wf_msg_t : clear implicits.
Arguments mk_msg {V}.

Record wf_msg_que_t {V : Type} : Type := mk_msg_que {
  pend : list Z;
  free : list Z;
  store : gmap Z (wf_msg_t V);
}.
Arguments wf_msg_que_t : clear implicits.
Arguments mk_msg_que {V}.

Section Queue.
Context {V : Type}.
#[local] Abbreviation wf_msg_t := (wf_msg_t V).
#[local] Abbreviation wf_msg_que_t := (wf_msg_que_t V).
Implicit Types s : wf_msg_que_t.

Definition queue (q : qid) (s : wf_msg_que_t) : list Z :=
  match q with Pend => pend s | Free => free s end.
Definition set_queue (q : qid) (l : list Z) (s : wf_msg_que_t) : wf_msg_que_t :=
  match q with
  | Pend => mk_msg_que l (free s) (store s)
  | Free => mk_msg_que (pend s) l (store s)
  end.
Definition set_pque (m : Z) (q : option qid) (s : wf_msg_que_t) : wf_msg_que_t :=
  mk_msg_que (pend s) (free s)
    (alter (fun x => mk_msg q (alloc_value_size x) (tag x) (len x) (value x)) m (store s)).

(** A message read through its pointer. *)
Definition msg_at (s : wf_msg_que_t) (m : Z) : C wf_msg_t := of_option (store s !! m).
Definition tag_of (s : wf_msg_que_t) (m : Z) : Z := default 0 (tag <$> store s !! m).

(** [wf_deque(&pmsg->list, pque)] and [wf_enque(&pmsg->list, pos, pque)] on a
    sequence; [None] for [pos] is the head.  The list operations need [m] and
    [pos] to be where the code believes them. *)
Definition deque (m : Z) (l : list Z) : C (option (list Z)) :=
  match l with
  | [] => Ret None
  | _ => if decide (m ∈ l) then Ret (Some (List.filter (fun x => negb (x =? m)) l)) else Fault
  end.

Fixpoint enque_after (m p : Z) (l : list Z) : C (list Z) :=
  match l with
  | [] => Fault
  | x :: l => if x =? p then Ret (x :: m :: l) else letc l := enque_after m p l in Ret (x :: l)
  end.

Definition enque (m : Z) (pos : option Z) (l : list Z) : C (list Z) :=
  match pos with
  | None => Ret (m :: l)
  | Some p => enque_after m p l
  end.

Definition _msg_pop (m : Z) (s : wf_msg_que_t) : C (Z * wf_msg_que_t) :=
  letc x := msg_at s m in
  match pque x with
  | None => Ret (0, s)
  | Some q =>
      letc r := deque m (queue q s) in
      match r with
      | None => Ret (-1, s)
      | Some l => Ret (0, set_pque m None (set_queue q l s))
      end
  end.

Definition _msg_push (q : qid) (pos : option Z) (m : Z) (s : wf_msg_que_t) : C (Z * wf_msg_que_t) :=
  letc (_, s) := _msg_pop m s in
  let s := set_pque m (Some q) s in
  letc l := enque m pos (queue q s) in
  Ret (0, set_queue q l s).

(** [wf_msg_new]: the result and [*pnew_msg]. *)
Definition wf_msg_new (s : wf_msg_que_t) (t : Z) : C (Z * option Z * wf_msg_que_t) :=
  match free s with
  | [] => Ret (-2, None, s)
  | _ =>
      match List.find (fun m => tag_of s m =? t) (free s) with
      | Some m =>
          letc (rst, s) := _msg_pop m s in
          Ret (rst, if rst =? 0 then Some m else None, s)
      | None => Ret (-3, None, s)
      end
  end.

(** Domain and priority of a tag, as the number the queue is ordered by. *)
Definition key (t : Z) : Z := Z.lor t WF_MSG_TAG_ID_MSK.

(** The last pending message, from the tail, with a key up to that of [m]. *)
Definition push_pos (s : wf_msg_que_t) (m : Z) : option Z :=
  List.find (fun p => key (tag_of s p) <=? key (tag_of s m)) (rev (pend s)).

Definition wf_msg_push (s : wf_msg_que_t) (m : Z) : C (Z * wf_msg_que_t) :=
  _msg_push Pend (push_pos s m) m s.

(** The message in front of the first one of the same or a higher domain. *)
Fixpoint push_head_pos (dom : Z -> Z) (d : Z) (prev : option Z) (l : list Z) : option Z :=
  match l with
  | [] => prev
  | p :: l => if d <=? dom p then prev else push_head_pos dom d (Some p) l
  end.

Definition dom_of (s : wf_msg_que_t) (m : Z) : Z := WF_MSG_TAG_DOM (tag_of s m).

Definition wf_msg_push_head (s : wf_msg_que_t) (m : Z) : C (Z * wf_msg_que_t) :=
  _msg_push Pend (push_head_pos (dom_of s) (dom_of s m) None (pend s)) m s.

Definition msg_get (s : wf_msg_que_t) (bpop btail : bool) : C (Z * option Z * wf_msg_que_t) :=
  match (if btail then rev (pend s) else pend s) with
  | [] => Ret (-2, None, s)
  | m :: _ =>
      letc (rst, s) := (if bpop then _msg_pop m s else Ret (0, s)) in
      Ret (rst, if rst =? 0 then Some m else None, s)
  end.

Definition wf_msg_get (s : wf_msg_que_t) := msg_get s false false.
Definition wf_msg_pop (s : wf_msg_que_t) := msg_get s true false.
Definition wf_msg_pop_tail (s : wf_msg_que_t) := msg_get s true true.

Definition msg_get_dom (s : wf_msg_que_t) (dom : Z) (bpop btail : bool)
    : C (Z * option Z * wf_msg_que_t) :=
  match List.find (fun m => dom_of s m =? dom) (if btail then rev (pend s) else pend s) with
  | Some m =>
      letc (rst, s) := (if bpop then _msg_pop m s else Ret (0, s)) in
      Ret (rst, if rst =? 0 then Some m else None, s)
  | None => Ret (-1, None, s)
  end.

Definition wf_msg_del (s : wf_msg_que_t) (m : Z) : C (Z * wf_msg_que_t) :=
  _msg_push Free (last (free s)) m s.

(** [wf_msg_alloc]: the results of the allocations, [None] for a failure; [zero]
    is the zeroed value of a new message. *)
Fixpoint wf_msg_alloc (s : wf_msg_que_t) (t size : Z) (zero : V) (allocs : list (option Z))
    : C (Z * wf_msg_que_t) :=
  match allocs with
  | [] => Ret (0, s)
  | None :: _ => Ret (-1, s)
  | Some m :: allocs =>
      let s := mk_msg_que (pend s) (free s) (<[m := mk_msg None size t 0 zero]> (store s)) in
      letc (_, s) := wf_msg_del s m in
      wf_msg_alloc s t size zero allocs
  end.

(** [wf_msg_free]: the messages given back to the allocator. *)
Definition wf_msg_free (s : wf_msg_que_t) : list Z := pend s ++ free s.

Definition wf_msg_count (s : wf_msg_que_t) : Z := Z.of_nat (length (pend s)).
Definition wf_msg_is_empty (s : wf_msg_que_t) : bool := bool_decide (pend s = []).
Definition wf_msg_init : wf_msg_que_t := mk_msg_que [] [] ∅.

(** The user of a message it holds writes [len] and [value]. *)
Definition msg_write (m l : Z) (v : V) (s : wf_msg_que_t) : wf_msg_que_t :=
  mk_msg_que (pend s) (free s)
    (alter (fun x => mk_msg (pque x) (alloc_value_size x) (tag x) l v) m (store s)).
End Queue.

(** ** Tags *)

Lemma land_low_id (x n m : Z) : 0 <= n -> Z.ones n = m -> 0 <= x < 2 ^ n -> Z.land x m = x.
Proof. intros Hn <- Hx. rewrite Z.land_ones by done. by apply Z.mod_small. Qed.

(** A tag built from a domain below 16, a priority below 32 and an
    identifier below 128 fits 16 bits and gives the three back; the key that
    orders the pending messages is that of domain and priority alone. *)
Theorem tag_roundtrip (d p i d' p' i' : Z) :
  0 <= d < 16 -> 0 <= p < 32 -> 0 <= i < 128 -> 0 <= d' < 16 -> 0 <= p' < 32 -> 0 <= i' < 128 ->
  let t := WF_MSG_TAG_SET d p i in
  is_u16 t /\ WF_MSG_TAG_DOM t = d /\ WF_MSG_TAG_PRI t = p /\ WF_MSG_TAG_ID t = i /\
  (key t <= key (WF_MSG_TAG_SET d' p' i') <-> d < d' \/ (d = d' /\ p <= p')).
Proof.
  assert (Hset : forall d p i, 0 <= d < 16 -> 0 <= p < 32 -> 0 <= i < 128 ->
    WF_MSG_TAG_SET d p i = pack [(7, i); (5, p); (4, d)] /\
    key (WF_MSG_TAG_SET d p i) = pack [(7, 127); (5, p); (4, d)]).
  { clear. intros d p i Hd Hp Hi. unfold key, WF_MSG_TAG_SET, WF_MSG_TAG_ID_MSK.
    rewrite (land_low_id d 4), (land_low_id p 5), (land_low_id i 7), Z.shiftl_0_r by (lia || done).
    assert (Hh : Z.lor (Z.shiftl d 12) (Z.shiftl p 7) = Z.shiftl (32 * d + p) 7).
    { replace (Z.shiftl d 12) with (Z.shiftl (Z.shiftl d 5) 7) by (rewrite Z.shiftl_shiftl; done || lia).
      rewrite <- Z.shiftl_lor. f_equal. rewrite lor_shiftl_low by lia. lia. }
    rewrite Hh, <- Z.lor_assoc, !lor_shiftl_low by (try apply lor_range; cbn; lia).
    cbn [pack]. split; [lia |].
    replace (Z.lor i 127) with 127; [cbn [pack]; lia |].
    symmetry. change 127 with (Z.ones 7). rewrite Z.lor_ones_low; [done | lia |]. destruct (decide (i = 0)) as [-> |]; [done |].
    apply Z.log2_lt_pow2; lia. }
  intros Hd Hp Hi Hd' Hp' Hi' t. destruct (Hset d p i Hd Hp Hi) as [Ht Hk].
  destruct (Hset d' p' i' Hd' Hp' Hi') as [_ Hk']. unfold t. rewrite Hk, Hk', Ht.
  assert (Hf : Forall fits_width [(7, i); (5, p); (4, d)]) by (repeat constructor; cbn; lia).
  unfold WF_MSG_TAG_DOM, WF_MSG_TAG_PRI, WF_MSG_TAG_ID.
  split; [cbn; unfold is_u16; lia |].
  pose proof (field_pack _ 2 4 d Hf eq_refl) as E2. pose proof (field_pack _ 1 5 p Hf eq_refl) as E1.
  pose proof (field_pack _ 0 7 i Hf eq_refl) as E0. unfold field in E0, E1, E2.
  cbn [field_offset] in E0, E1, E2. change (7 + (5 + 0)) with 12 in E2. change (7 + 0) with 7 in E1.
  change (Z.ones 4) with 0xF in E2. change (Z.ones 5) with 0x1F in E1. change (Z.ones 7) with 0x7F in E0.
  rewrite E0, E1, E2, !u8_id by (unfold is_u8; lia). split_and!; try done. cbn [pack]. lia.
Qed.

Lemma tag_roundtrip_witness :
  WF_MSG_TAG_DOM (WF_MSG_TAG_SET 3 9 77) = 3 /\ WF_MSG_TAG_PRI (WF_MSG_TAG_SET 3 9 77) = 9 /\
  WF_MSG_TAG_ID (WF_MSG_TAG_SET 3 9 77) = 77.
Proof.
  destruct (tag_roundtrip 3 9 77 0 0 0) as (_ & H1 & H2 & H3 & _); [lia.. |].
  split; [exact H1 |]. split; [exact H2 | exact H3].
Defined.

Section Invariant.
Context {V : Type}.
#[local] Abbreviation wf_msg_t := (wf_msg_t V).
#[local] Abbreviation wf_msg_que_t := (wf_msg_que_t V).
Implicit Types s : wf_msg_que_t.

(** ** Invariant

    The two queues share no message, [pque] tells which queue a message is in,
    and the pending messages are in the order of their domains. *)
Definition key_of (s : wf_msg_que_t) (m : Z) : Z := key (tag_of s m).

Record msg_ok (s : wf_msg_que_t) : Prop := {
  ok_nodup : NoDup (pend s ++ free s);
  ok_pque : forall q m, m ∈ queue q s <-> pque <$> store s !! m = Some (Some q);
  ok_sorted : StronglySorted (fun a b => dom_of s a <= dom_of s b) (pend s);
}.

(** A message the caller holds: it is in no queue. *)
Definition held (s : wf_msg_que_t) (m : Z) : Prop := pque <$> store s !! m = Some None.

Definition without (m : Z) (l : list Z) : list Z := List.filter (fun x => negb (x =? m)) l.
Definition taken (m : Z) (s : wf_msg_que_t) : wf_msg_que_t :=
  set_pque m None (mk_msg_que (without m (pend s)) (without m (free s)) (store s)).

Lemma without_id m l : m ∉ l -> without m l = l.
Proof.
  induction l as [| x l IH]; [done |]. intros Hm. apply not_elem_of_cons in Hm as [Hx Hl]. cbn.
  destruct (Z.eqb_spec x m); [done |]. cbn. f_equal. by apply IH.
Qed.

Lemma elem_of_without m x l : x ∈ without m l <-> x ∈ l /\ x <> m.
Proof.
  unfold without. rewrite !list_elem_of_In, filter_In.
  destruct (Z.eqb_spec x m); cbn; intuition congruence.
Qed.

Lemma without_sublist m l : without m l `sublist_of` l.
Proof. induction l as [| x l IH]; [done |]. cbn. destruct (x =? m); cbn; by constructor. Qed.

Lemma StronglySorted_sub (R R' : relation Z) (l k : list Z) :
  l `sublist_of` k -> (forall x y, R x y -> R' x y) -> StronglySorted R k -> StronglySorted R' l.
Proof.
  intros Hs HR. induction Hs as [| x l k Hs IH | x l k Hs IH]; intros Hk; [constructor | |].
  - apply StronglySorted_inv in Hk as [Hk Hx]. constructor; [by apply IH |].
    rewrite list.Forall_forall in Hx |- *. intros y Hy. apply HR, Hx. by eapply elem_of_sublist.
  - apply StronglySorted_inv in Hk as [Hk _]. by apply IH.
Qed.

Lemma StronglySorted_middle (R : relation Z) a m b :
  StronglySorted R (a ++ b) -> (forall y, y ∈ a -> R y m) -> (forall y, y ∈ b -> R m y) ->
  StronglySorted R (a ++ m :: b).
Proof.
  intros Hs Ha Hb. apply StronglySorted_app in Hs as (Hab & Hsa & Hsb).
  apply StronglySorted_app_2; [| done |].
  - intros x1 x2 H1 [-> | H2]%elem_of_cons; [by apply Ha | by apply Hab].
  - constructor; [done |]. apply list.Forall_forall. exact Hb.
Qed.

(** What depends on the tags only is the same in states with the same tags. *)
Lemma tag_of_set_pque m q s x : tag_of (set_pque m q s) x = tag_of s x.
Proof.
  unfold tag_of. cbn. destruct (decide (x = m)) as [-> |].
  - rewrite lookup_alter_eq. by destruct (store s !! m).
  - by rewrite lookup_alter_ne.
Qed.

Lemma pque_set_pque m q s x y :
  store s !! m = Some y ->
  pque <$> store (set_pque m q s) !! x = if decide (x = m) then Some q else pque <$> store s !! x.
Proof.
  intros Hm. cbn. case_decide as E.
  - subst x. by rewrite lookup_alter_eq, Hm.
  - by rewrite lookup_alter_ne.
Qed.

Lemma _msg_pop_taken s m x :
  msg_ok s -> store s !! m = Some x -> _msg_pop m s = Ret (0, taken m s).
Proof.
  intros [Hn Hq _] Hx. unfold _msg_pop, msg_at. rewrite Hx. cbn [of_option cbind].
  assert (Hin : forall q, m ∈ queue q s <-> pque x = Some q).
  { intros q. rewrite Hq, Hx. cbn. split; [by intros [= ->] | by intros ->]. }
  apply NoDup_app in Hn as (_ & Hd & _). pose proof (Hin Pend) as HP. pose proof (Hin Free) as HF.
  destruct (pque x) as [[] |] eqn:E; cbn [queue] in *.
  - assert (Hp : m ∈ pend s) by by apply HP. unfold deque.
    destruct (pend s) as [| y l] eqn:El; [by apply elem_of_nil in Hp |].
    rewrite decide_True by done. cbn [cbind]. rewrite <- El. unfold taken.
    rewrite (without_id m (free s)) by (intros H; by apply HF in H). done.
  - assert (Hp : m ∈ free s) by by apply HF. unfold deque.
    destruct (free s) as [| y l] eqn:El; [by apply elem_of_nil in Hp |].
    rewrite decide_True by done. cbn [cbind]. rewrite <- El. unfold taken.
    rewrite (without_id m (pend s)) by (intros H; by apply HP in H). done.
  - unfold taken. rewrite !without_id by (intros H; (apply HP in H || apply HF in H); done).
    unfold set_pque. cbn. rewrite alter_id; [by destruct s |].
    intros y. rewrite Hx. intros [= <-]. rewrite <- E. by destruct x.
Qed.

Lemma taken_ok s m x : msg_ok s -> store s !! m = Some x -> msg_ok (taken m s).
Proof.
  intros [Hn Hq Hs] Hx. split.
  - cbn. eapply sublist_NoDup; [exact Hn |]. apply sublist_app; apply without_sublist.
  - intros q y. unfold taken. rewrite (pque_set_pque m None (mk_msg_que _ _ _) y x) by exact Hx.
    assert (E : y ∈ queue q (taken m s) <-> y ∈ queue q s /\ y <> m)
      by (destruct q; apply elem_of_without).
    unfold taken in E. rewrite E, Hq. cbn [store]. case_decide; intuition congruence.
  - cbn. eapply StronglySorted_sub; [apply without_sublist | | exact Hs].
    intros a b. unfold dom_of, taken. by rewrite !tag_of_set_pque.
Qed.

(** Putting a held message into a queue. *)
Definition put (m : Z) (q : qid) (l : list Z) (s : wf_msg_que_t) : wf_msg_que_t :=
  set_queue q l (set_pque m (Some q) s).

Lemma tag_of_put m q l s x : tag_of (put m q l s) x = tag_of s x.
Proof. rewrite <- (tag_of_set_pque m (Some q) s x). by destruct q. Qed.

Lemma dom_of_put_le m q l s u v :
  dom_of (put m q l s) u <= dom_of (put m q l s) v <-> dom_of s u <= dom_of s v.
Proof. unfold dom_of. by rewrite !tag_of_put. Qed.

Lemma put_ok s m q a b :
  msg_ok s -> held s m -> queue q s = a ++ b ->
  (q = Pend -> (forall y, y ∈ a -> dom_of s y <= dom_of s m) /\ (forall y, y ∈ b -> dom_of s m <= dom_of s y)) ->
  msg_ok (put m q (a ++ m :: b) s).
Proof.
  intros [Hn Hq Hs] Hm Hab Hd. unfold held in Hm.
  destruct (store s !! m) as [x |] eqn:Hx; [| done].
  assert (Hno : forall q, m ∉ queue q s) by (intros q' H; apply Hq in H; rewrite Hx in H; cbn in *; congruence).
  split.
  - destruct q; cbn in *; pose proof (Hno Pend) as HP; pose proof (Hno Free) as HF; cbn in HP, HF.
    + rewrite Hab in Hn, HP. rewrite <- app_assoc in Hn |- *. cbn.
      rewrite <- Permutation_middle. apply NoDup_cons. set_solver.
    + rewrite Hab in Hn, HF. rewrite app_assoc, <- Permutation_middle, <- app_assoc.
      apply NoDup_cons. set_solver.
  - intros q' y. unfold put.
    assert (E : store (set_queue q (a ++ m :: b) (set_pque m (Some q) s)) = store (set_pque m (Some q) s))
      by by destruct q.
    rewrite E, (pque_set_pque m (Some q) s y x Hx). pose proof (Hno q') as Hno'. specialize (Hq q' y).
    case_decide as Ey; [subst y |]; destruct q, q'; cbn in *; rewrite ?Hab in *; set_solver.
  - destruct q; cbn in *.
    + destruct Hd as [Ha Hb]; [done |]. rewrite Hab in Hs.
      eapply (StronglySorted_sub (fun a b => dom_of s a <= dom_of s b)); [reflexivity | |].
      * intros u v. exact (proj2 (dom_of_put_le m Pend (a ++ m :: b) s u v)).
      * by apply StronglySorted_middle.
    + eapply StronglySorted_sub; [reflexivity | | exact Hs].
      intros u v. exact (proj2 (dom_of_put_le m Free (a ++ m :: b) s u v)).
Qed.

Lemma enque_after_last m p a b :
  NoDup (a ++ p :: b) -> enque_after m p (a ++ p :: b) = Ret (a ++ p :: m :: b).
Proof.
  induction a as [| x a IH]; cbn; intros Hn; [by rewrite Z.eqb_refl |].
  apply NoDup_cons in Hn as [Hx Hn]. destruct (Z.eqb_spec x p) as [-> |]; [set_solver |].
  by rewrite IH.
Qed.

Lemma enque_last m a b : NoDup (a ++ b) -> enque m (last a) (a ++ b) = Ret (a ++ m :: b).
Proof.
  destruct a as [| p a _] using rev_ind; [done |]. rewrite last_snoc. cbn.
  rewrite <- !app_assoc. cbn. apply enque_after_last.
Qed.

Lemma taken_held s m : msg_ok s -> held s m -> taken m s = s.
Proof.
  intros Hok Hm. unfold held in Hm. destruct (store s !! m) as [x |] eqn:Hx; [| done].
  pose proof (_msg_pop_taken s m x Hok Hx) as E. unfold _msg_pop, msg_at in E. rewrite Hx in E.
  cbn [of_option cbind] in E. cbn in Hm. injection Hm as Hm. rewrite Hm in E. congruence.
Qed.

Lemma held_taken s m x : store s !! m = Some x -> held (taken m s) m.
Proof. intros Hx. unfold held, taken. rewrite (pque_set_pque m None (mk_msg_que _ _ _) m x) by exact Hx. by rewrite decide_True. Qed.

Lemma _msg_push_put s m x q a b :
  msg_ok s -> store s !! m = Some x -> queue q (taken m s) = a ++ b ->
  _msg_push q (last a) m s = Ret (0, put m q (a ++ m :: b) (taken m s)).
Proof.
  intros Hok Hx Hab. unfold _msg_push. rewrite (_msg_pop_taken s m x) by done. cbn [cbind].
  assert (E : queue q (set_pque m (Some q) (taken m s)) = a ++ b) by by destruct q.
  rewrite E, enque_last; [done |]. rewrite <- Hab. destruct (taken_ok s m x Hok Hx) as [Hn _ _].
  apply NoDup_app in Hn as (H1 & _ & H2). by destruct q.
Qed.

Lemma find_rev_split (f : Z -> bool) (l : list Z) :
  exists a b, l = a ++ b /\ List.find f (rev l) = last a /\ (forall y, y ∈ b -> f y = false) /\
  (forall y, last a = Some y -> f y = true).
Proof.
  induction l as [| x l (a & b & -> & Hf & Hb & Ha)] using rev_ind.
  { exists [], []. set_solver. }
  rewrite rev_app_distr. cbn [rev app List.find]. destruct (f x) eqn:Ex.
  - exists (a ++ b ++ [x]), []. rewrite app_nil_r, app_assoc, last_snoc. split_and!; [done | done | set_solver |].
    by intros y [= <-].
  - exists a, (b ++ [x]). rewrite app_assoc. split_and!; [done | done | | done].
    intros y Hy. apply elem_of_app in Hy as [Hy | ->%list_elem_of_singleton]; [by apply Hb | done].
Qed.

Lemma push_head_split (dom : Z -> Z) d c l :
  exists a b, l = a ++ b /\ push_head_pos dom d (last c) l = last (c ++ a) /\
  (forall y, y ∈ a -> dom y < d) /\ (forall y, head b = Some y -> d <= dom y).
Proof.
  revert c. induction l as [| x l IH]; intros c; cbn [push_head_pos].
  { exists [], []. rewrite !app_nil_r. split_and!; [done | done | set_solver | intros y Hy; discriminate Hy]. }
  destruct (Z.leb_spec d (dom x)).
  - exists [], (x :: l). rewrite app_nil_r. split_and!; [done | done | set_solver |]. by intros y [= <-].
  - destruct (IH (c ++ [x])) as (a & b & -> & Hp & Ha & Hb). exists (x :: a), b.
    rewrite last_snoc, <- app_assoc in Hp. split_and!; [done | exact Hp | | done].
    intros y [-> | Hy]%elem_of_cons; [done | by apply Ha].
Qed.

(** [dom] is monotone in [key]. *)
Lemma dom_key t t' : is_u16 t -> is_u16 t' -> key t <= key t' -> WF_MSG_TAG_DOM t <= WF_MSG_TAG_DOM t'.
Proof.
  intros Ht Ht' H. unfold WF_MSG_TAG_DOM, key, WF_MSG_TAG_ID_MSK in *.
  assert (E : forall t, is_u16 t -> u8 (Z.land (Z.shiftr t 12) 15) = Z.shiftr (Z.lor t 127) 12).
  { clear. intros t Ht. unfold is_u16 in Ht.
    assert (0 <= Z.shiftr t 12 < 16) by (rewrite Z.shiftr_div_pow2 by lia; change (2 ^ 12) with 4096; Z.to_euclidean_division_equations; lia).
    rewrite (land_low_id _ 4) by (lia || done). rewrite u8_id by (unfold is_u8; lia).
    rewrite Z.shiftr_lor. change (Z.shiftr 127 12) with 0. by rewrite Z.lor_0_r. }
  rewrite !E by done. rewrite !Z.shiftr_div_pow2 by lia. by apply Z.div_le_mono.
Qed.

(** ** Operations *)

Definition tags_u16 (s : wf_msg_que_t) : Prop := forall m, is_u16 (tag_of s m).

Lemma push_spec s m :
  msg_ok s -> tags_u16 s -> held s m ->
  exists a b, pend s = a ++ b /\ wf_msg_push s m = Ret (0, put m Pend (a ++ m :: b) s) /\
    msg_ok (put m Pend (a ++ m :: b) s) /\
    (forall y, y ∈ b -> key_of s m < key_of s y) /\ (forall y, last a = Some y -> key_of s y <= key_of s m).
Proof.
  intros Hok Ht Hm. pose proof (taken_held s m Hok Hm) as Etk. pose proof Hm as Hm'. unfold held in Hm'.
  destruct (store s !! m) as [x |] eqn:Hx; [| done].
  destruct (find_rev_split (fun p => key (tag_of s p) <=? key (tag_of s m)) (pend s))
    as (a & b & Hab & Hf & Hb & Ha).
  exists a, b. split; [done |]. split.
  { unfold wf_msg_push, push_pos. rewrite Hf, (_msg_push_put s m x Pend a b) by (rewrite ?Etk; done).
    by rewrite Etk. }
  assert (Hb' : forall y, y ∈ b -> key_of s m < key_of s y) by (intros y Hy; apply Z.leb_gt, Hb, Hy).
  assert (Ha' : forall y, last a = Some y -> key_of s y <= key_of s m) by (intros y Hy; apply Z.leb_le, Ha, Hy).
  split; [| done]. apply put_ok; [done | done | exact Hab |]. intros _. split; intros y Hy.
  - destruct a as [| z a _] using rev_ind; [by apply elem_of_nil in Hy |].
    assert (dom_of s z <= dom_of s m) by (apply dom_key; try apply Ht; apply Ha'; apply last_snoc).
    apply elem_of_app in Hy as [Hy | ->%list_elem_of_singleton]; [| done].
    pose proof (ok_sorted s Hok) as Hs. rewrite Hab, <- app_assoc in Hs.
    apply StronglySorted_app in Hs as (Hs & _). specialize (Hs y z Hy). cbn in Hs.
    etransitivity; [| eassumption]. apply Hs. set_solver.
  - apply dom_key; try apply Ht. apply Z.lt_le_incl. by apply Hb'.
Qed.

Lemma push_head_spec s m :
  msg_ok s -> held s m ->
  exists a b, pend s = a ++ b /\ wf_msg_push_head s m = Ret (0, put m Pend (a ++ m :: b) s) /\
    msg_ok (put m Pend (a ++ m :: b) s) /\
    (forall y, y ∈ a -> dom_of s y < dom_of s m) /\ (forall y, y ∈ b -> dom_of s m <= dom_of s y).
Proof.
  intros Hok Hm. pose proof (taken_held s m Hok Hm) as Etk. pose proof Hm as Hm'. unfold held in Hm'.
  destruct (store s !! m) as [x |] eqn:Hx; [| done].
  destruct (push_head_split (dom_of s) (dom_of s m) [] (pend s)) as (a & b & Hab & Hf & Ha & Hb).
  exists a, b. split; [done |]. split.
  { unfold wf_msg_push_head. cbn [last app] in Hf. rewrite Hf, (_msg_push_put s m x Pend a b) by (rewrite ?Etk; done).
    by rewrite Etk. }
  assert (Hb' : forall y, y ∈ b -> dom_of s m <= dom_of s y).
  { intros y Hy. destruct b as [| z b]; [by apply elem_of_nil in Hy |]. specialize (Hb z eq_refl).
    pose proof (ok_sorted s Hok) as Hs. rewrite Hab in Hs. apply StronglySorted_app_1_r in Hs.
    apply StronglySorted_inv in Hs as [_ Hs]. rewrite list.Forall_forall in Hs.
    apply elem_of_cons in Hy as [-> | Hy]; [done |]. specialize (Hs y Hy). cbn in Hs. lia. }
  split; [| done]. apply put_ok; [done | done | exact Hab |]. intros _. split; [| done].
  intros y Hy. apply Z.lt_le_incl. by apply Ha.
Qed.

Lemma pend_stored s m : msg_ok s -> m ∈ pend s -> exists x, store s !! m = Some x /\ pque x = Some Pend.
Proof.
  intros Hok Hm. apply (ok_pque s Hok Pend) in Hm. destruct (store s !! m) as [x |]; [| done].
  exists x. cbn in Hm. split; [done | congruence].
Qed.

Lemma del_spec s m x :
  msg_ok s -> store s !! m = Some x -> m ∉ free s ->
  wf_msg_del s m = Ret (0, put m Free (free s ++ [m]) (taken m s)) /\
  msg_ok (put m Free (free s ++ [m]) (taken m s)).
Proof.
  intros Hok Hx Hm. assert (E : queue Free (taken m s) = free s ++ []) by (cbn; by rewrite without_id, app_nil_r).
  split; [by apply (_msg_push_put s m x Free (free s) []) |].
  apply put_ok; [by eapply taken_ok | by eapply held_taken | exact E | done].
Qed.

(** Every message and its tag are kept. *)
Definition keeps (s s' : wf_msg_que_t) : Prop :=
  forall m, is_Some (store s !! m) -> is_Some (store s' !! m) /\ tag_of s' m = tag_of s m.

#[export] Instance keeps_preorder : PreOrder keeps.
Proof.
  split; [by intros s m Hm |]. intros s1 s2 s3 H12 H23 m Hm.
  destruct (H12 m Hm) as [H2 E2]. destruct (H23 m H2) as [H3 E3]. split; [done | congruence].
Qed.

Lemma keeps_set_pque m q s : keeps s (set_pque m q s).
Proof.
  intros y Hy. rewrite tag_of_set_pque. split; [| done]. cbn. by apply lookup_alter_is_Some.
Qed.

Lemma keeps_taken m s : keeps s (taken m s).
Proof. exact (keeps_set_pque m None (mk_msg_que (without m (pend s)) (without m (free s)) (store s))). Qed.

Lemma keeps_put m q l s : keeps s (put m q l s).
Proof. destruct q; exact (keeps_set_pque m _ s). Qed.

Lemma tags_set_pque m q s : tags_u16 s -> tags_u16 (set_pque m q s).
Proof. intros H y. rewrite tag_of_set_pque. apply H. Qed.

Lemma tags_taken m s : tags_u16 s -> tags_u16 (taken m s).
Proof. exact (tags_set_pque m None (mk_msg_que (without m (pend s)) (without m (free s)) (store s))). Qed.

Lemma tags_put m q l s : tags_u16 s -> tags_u16 (put m q l s).
Proof. intros H y. rewrite tag_of_put. apply H. Qed.

(** The calls on a message queue. *)
Inductive msg_op : Type :=
  | ONew (t : Z)
  | OPush (m : Z)
  | OPushHead (m : Z)
  | OGet (bpop btail : bool)
  | OGetDom (dom : Z) (bpop btail : bool)
  | ODel (m : Z)
  | OAlloc (t size : Z) (zero : V) (allocs : list (option Z))
  | OWrite (m l : Z) (v : V).

(** Result, message handed out and state. *)
Definition run_op (op : msg_op) (s : wf_msg_que_t) : C (Z * option Z * wf_msg_que_t) :=
  match op with
  | ONew t => wf_msg_new s t
  | OPush m => letc (r, s) := wf_msg_push s m in Ret (r, None, s)
  | OPushHead m => letc (r, s) := wf_msg_push_head s m in Ret (r, None, s)
  | OGet bpop btail => msg_get s bpop btail
  | OGetDom dom bpop btail => msg_get_dom s dom bpop btail
  | ODel m => letc (r, s) := wf_msg_del s m in Ret (r, None, s)
  | OAlloc t size zero allocs => letc (r, s) := wf_msg_alloc s t size zero allocs in Ret (r, None, s)
  | OWrite m l v => Ret (0, None, msg_write m l v s)
  end.

(** What a caller must observe: it pushes only messages it holds, deletes no
    message twice, and the allocator returns fresh memory. *)
Definition op_pre (op : msg_op) (s : wf_msg_que_t) : Prop :=
  match op with
  | OPush m | OPushHead m | OWrite m _ _ => held s m
  | ODel m => is_Some (store s !! m) /\ m ∉ free s
  | OAlloc t size _ allocs => is_u16 t /\ NoDup (omap id allocs) /\ (forall m, Some m ∈ allocs -> store s !! m = None)
  | _ => True
  end.

Inductive reachable : wf_msg_que_t -> Prop :=
  | reach_init : reachable wf_msg_init
  | reach_op op s r o s' :
      reachable s -> op_pre op s -> run_op op s = Ret (r, o, s') -> reachable s'.

Lemma tag_of_write m l v s x : tag_of (msg_write m l v s) x = tag_of s x.
Proof.
  unfold tag_of. cbn. destruct (decide (x = m)) as [-> |].
  - rewrite lookup_alter_eq. by destruct (store s !! m).
  - by rewrite lookup_alter_ne.
Qed.

Lemma pque_write m l v s x : pque <$> store (msg_write m l v s) !! x = pque <$> store s !! x.
Proof.
  cbn. destruct (decide (x = m)) as [-> |].
  - rewrite lookup_alter_eq. by destruct (store s !! m).
  - by rewrite lookup_alter_ne.
Qed.

Lemma write_ok m l v s : msg_ok s -> msg_ok (msg_write m l v s).
Proof.
  intros [Hn Hq Hs]. split; [exact Hn | |].
  - intros q x. rewrite pque_write. transitivity (x ∈ queue q s); [by destruct q | apply Hq].
  - eapply StronglySorted_sub; [reflexivity | | exact Hs]. intros x y. unfold dom_of.
    by rewrite !tag_of_write.
Qed.

Lemma keeps_write m l v s : keeps s (msg_write m l v s).
Proof.
  intros x Hx. split; [| apply tag_of_write]. cbn. by apply lookup_alter_is_Some.
Qed.

(** The common end of [wf_msg_new], [msg_get] and [msg_get_dom]: a message of
    the queues is handed out, in place or taken out of its queue. *)
Lemma hand_out s m (b : bool) :
  msg_ok s -> tags_u16 s -> is_Some (store s !! m) ->
  (letc (rst, s) := (if b then _msg_pop m s else Ret (0, s)) in Ret (rst, if rst =? 0 then Some m else None, s))
    = Ret (0, Some m, if b then taken m s else s) /\
  (b = true -> held (taken m s) m) /\
  msg_ok (if b then taken m s else s) /\ tags_u16 (if b then taken m s else s) /\
  keeps s (if b then taken m s else s).
Proof.
  intros Hok Ht [x Hx]. destruct b.
  - rewrite (_msg_pop_taken s m x) by done. split_and!; try done.
    + intros _. by eapply held_taken.
    + by eapply taken_ok.
    + by apply tags_taken.
    + apply keeps_taken.
  - split_and!; done.
Qed.

(** A fresh message in no queue. *)
Definition fresh_msg (m t size : Z) (zero : V) (s : wf_msg_que_t) : wf_msg_que_t :=
  mk_msg_que (pend s) (free s) (<[m := mk_msg None size t 0 zero]> (store s)).

Lemma StronglySorted_on (R R' : relation Z) (l : list Z) :
  (forall x y, x ∈ l -> y ∈ l -> R x y -> R' x y) -> StronglySorted R l -> StronglySorted R' l.
Proof.
  induction l as [| y l IHl]; intros Hl Hs; [constructor |].
  apply StronglySorted_inv in Hs as [Hs Hy]. constructor; [apply IHl; [set_solver | done] |].
  rewrite list.Forall_forall in Hy |- *. intros z Hz. apply Hl; [set_solver.. | by apply Hy].
Qed.

Lemma fresh_ok s m t size zero :
  msg_ok s -> tags_u16 s -> is_u16 t -> store s !! m = None ->
  msg_ok (fresh_msg m t size zero s) /\ tags_u16 (fresh_msg m t size zero s) /\ keeps s (fresh_msg m t size zero s) /\
  m ∉ free s.
Proof.
  intros Hok Ht Hu Hfm.
  assert (Hne : forall y, is_Some (store s !! y) -> y <> m) by (intros y [z Hz] ->; congruence).
  assert (Htag : forall y, y <> m -> tag_of (fresh_msg m t size zero s) y = tag_of s y)
    by (intros y Hy; unfold tag_of; cbn; by rewrite lookup_insert_ne).
  assert (Hin : forall q y, y ∈ queue q s -> y <> m).
  { intros q y Hy. apply Hne. apply (ok_pque s Hok) in Hy. by destruct (store s !! y). }
  split_and!.
  - split; [exact (ok_nodup s Hok) | |].
    + intros q y. transitivity (y ∈ queue q s); [by destruct q |]. cbn. destruct (decide (y = m)) as [-> | Hy].
      * rewrite lookup_insert_eq. cbn. split; [| done]. intros Hq. by destruct (Hin q m Hq).
      * rewrite lookup_insert_ne by done. apply (ok_pque s Hok).
    + refine (StronglySorted_on _ _ _ _ (ok_sorted s Hok)). intros x y Hx Hy. unfold dom_of.
      by rewrite !Htag by (by apply (Hin Pend)).
  - intros y. destruct (decide (y = m)) as [-> | Hy]; [| rewrite Htag by done; apply Ht].
    unfold tag_of. cbn. by rewrite lookup_insert_eq.
  - intros y Hy. split; [| apply Htag, Hne, Hy]. cbn.
    rewrite lookup_insert_ne by (apply not_eq_sym, Hne, Hy). exact Hy.
  - intros Hy. by destruct (Hin Free m Hy).
Qed.

Lemma alloc_spec t size zero allocs : forall s,
  msg_ok s -> tags_u16 s -> op_pre (OAlloc t size zero allocs) s ->
  exists r s', wf_msg_alloc s t size zero allocs = Ret (r, s') /\ msg_ok s' /\ tags_u16 s' /\ keeps s s'.
Proof.
  induction allocs as [| [m |] allocs IH]; intros s Hok Ht (Hu & Hn & Hf); cbn [wf_msg_alloc];
    [by exists 0, s | | by exists (-1), s].
  cbn in Hn. apply NoDup_cons in Hn as [Hm Hn]. fold (fresh_msg m t size zero s). set (s1 := fresh_msg m t size zero s).
  destruct (fresh_ok s m t size zero Hok Ht Hu) as (Hok1 & Ht1 & Hk1 & Hfree); [apply Hf; constructor |].
  destruct (del_spec s1 m (mk_msg None size t 0 zero)) as [E Hok2]; [done | apply lookup_insert_eq | done |].
  rewrite E. cbn [cbind].
  destruct (IH (put m Free (free s1 ++ [m]) (taken m s1))) as (r & s' & -> & H1 & H2 & H3); [done | | |].
  - by apply tags_put, tags_taken.
  - split_and!; [done | done |]. intros y Hy.
    assert (Hym : y <> m) by (intros ->; apply Hm; apply list_elem_of_omap; by exists (Some m)).
    cbn. rewrite !lookup_alter_ne, lookup_insert_ne by done. apply Hf. by constructor.
  - exists r, s'. split_and!; [done | done | done |]. etransitivity; [exact Hk1 |].
    etransitivity; [| exact H3]. etransitivity; [apply keeps_taken | apply keeps_put].
Qed.

Lemma stored_in s q m : msg_ok s -> m ∈ queue q s -> is_Some (store s !! m).
Proof. intros Hok Hm. apply (ok_pque s Hok) in Hm. by destruct (store s !! m). Qed.

Lemma op_ok op s :
  msg_ok s -> tags_u16 s -> op_pre op s ->
  exists r o s', run_op op s = Ret (r, o, s') /\ msg_ok s' /\ tags_u16 s' /\ keeps s s'.
Proof.
  intros Hok Ht Hpre. destruct op as [t | m | m | bpop btail | d bpop btail | m | t size zero allocs | m l v]; cbn [run_op].
  - unfold wf_msg_new. destruct (free s) as [| z l] eqn:Ef; [by exists (-2), None, s |]. rewrite <- Ef.
    destruct (List.find _ (free s)) as [m |] eqn:E; [| by exists (-3), None, s].
    apply find_some in E as [Hm%list_elem_of_In _].
    destruct (hand_out s m true Hok Ht (stored_in s Free m Hok Hm)) as (-> & _ & H). by eexists _, _, _.
  - destruct (push_spec s m Hok Ht Hpre) as (a & b & _ & -> & H & _). eexists _, _, _. split; [done |].
    split_and!; [done | by apply tags_put | apply keeps_put].
  - destruct (push_head_spec s m Hok Hpre) as (a & b & _ & -> & H & _). eexists _, _, _. split; [done |].
    split_and!; [done | by apply tags_put | apply keeps_put].
  - unfold msg_get. destruct (if btail then _ else _) as [| m l] eqn:E; [by exists (-2), None, s |].
    assert (Hm : m ∈ pend s).
    { destruct btail; [| rewrite E; constructor]. apply list_elem_of_In, in_rev. rewrite E. by left. }
    destruct (hand_out s m bpop Hok Ht (stored_in s Pend m Hok Hm)) as (-> & _ & H). by eexists _, _, _.
  - unfold msg_get_dom. destruct (List.find _ _) as [m |] eqn:E; [| by exists (-1), None, s].
    apply find_some in E as [Hm _]. assert (Hm' : m ∈ pend s).
    { apply list_elem_of_In. destruct btail; [by apply in_rev | done]. }
    destruct (hand_out s m bpop Hok Ht (stored_in s Pend m Hok Hm')) as (-> & _ & H). by eexists _, _, _.
  - destruct Hpre as [[x Hx] Hm]. destruct (del_spec s m x Hok Hx Hm) as [-> H]. eexists _, _, _. split; [done |].
    split_and!; [done | by apply tags_put, tags_taken |]. etransitivity; [apply keeps_taken | apply keeps_put].
  - destruct (alloc_spec t size zero allocs s Hok Ht Hpre) as (r & s' & -> & H). by exists r, None, s'.
  - eexists _, _, _. split; [done |]. split_and!; [by apply write_ok | | apply keeps_write].
    intros x. rewrite tag_of_write. apply Ht.
Qed.

Lemma init_ok : msg_ok wf_msg_init /\ tags_u16 wf_msg_init.
Proof.
  split; [split; [constructor | | constructor] |].
  - intros q m. cbn. rewrite lookup_empty. destruct q; cbn; rewrite elem_of_nil; done.
  - intros m. unfold tag_of. cbn. rewrite lookup_empty. unfold is_u16. cbn. lia.
Qed.

Lemma reachable_inv s : reachable s -> msg_ok s /\ tags_u16 s.
Proof.
  induction 1 as [| op s r o s' _ [Hok Ht] Hpre E]; [apply init_ok |].
  destruct (op_ok op s Hok Ht Hpre) as (r1 & o1 & s1 & E1 & H1 & H2 & _). rewrite E1 in E.
  injection E as <- <- <-. done.
Qed.

(** ** What a user of a queue relies on

    [qinv s hs]: the queue is in order and [hs] are the messages taken out of it. *)
Record qinv (s : wf_msg_que_t) (hs : list Z) : Prop := {
  qi_ok : msg_ok s;
  qi_tags : tags_u16 s;
  qi_held : forall m, held s m <-> m ∈ hs;
}.

(** Messages, tags and contents are the same. *)
Definition data (x : wf_msg_t) := (alloc_value_size x, tag x, len x, value x).
Definition same_data (s s' : wf_msg_que_t) : Prop := forall m, data <$> store s' !! m = data <$> store s !! m.

#[export] Instance same_data_equiv : Equivalence same_data.
Proof.
  split; [done | by intros s s' H m; rewrite H | by intros s1 s2 s3 H1 H2 m; rewrite H2, H1].
Qed.

Lemma same_data_set_pque m q s : same_data s (set_pque m q s).
Proof.
  intros x. cbn. destruct (decide (x = m)) as [-> |]; [rewrite lookup_alter_eq | by rewrite lookup_alter_ne].
  by destruct (store s !! m).
Qed.

Lemma same_data_taken m s : same_data s (taken m s).
Proof. exact (same_data_set_pque m None (mk_msg_que (without m (pend s)) (without m (free s)) (store s))). Qed.

Lemma same_data_put m q l s : same_data s (put m q l s).
Proof. destruct q; exact (same_data_set_pque m _ s). Qed.

Lemma same_data_tag s s' m : same_data s s' -> tag_of s' m = tag_of s m.
Proof.
  intros H. specialize (H m). unfold tag_of.
  destruct (store s !! m) as [x |], (store s' !! m) as [y |]; cbn in *; try done. by injection H.
Qed.

Lemma held_put s m q l x : store s !! m = Some x -> forall y, held (put m q l s) y <-> y <> m /\ held s y.
Proof.
  intros Hx y. unfold held, put.
  assert (E : store (set_queue q l (set_pque m (Some q) s)) = store (set_pque m (Some q) s)) by by destruct q.
  rewrite E, (pque_set_pque m (Some q) s y x Hx). case_decide; intuition congruence.
Qed.

Lemma held_taken_iff s m x : store s !! m = Some x -> forall y, held (taken m s) y <-> y = m \/ held s y.
Proof.
  intros Hx y. unfold held, taken. rewrite (pque_set_pque m None (mk_msg_que _ _ _) y x) by exact Hx.
  cbn [store]. case_decide; intuition congruence.
Qed.

Lemma held_stored s m : held s m -> exists x, store s !! m = Some x.
Proof. unfold held. destruct (store s !! m) as [x |]; [by exists x | done]. Qed.

Lemma qinv_take s hs m q : qinv s hs -> m ∈ queue q s -> qinv (taken m s) (m :: hs) /\ m ∉ hs.
Proof.
  intros [Hok Ht Hh] Hm. destruct (stored_in s q m Hok Hm) as [x Hx]. split.
  - split; [by eapply taken_ok | by apply tags_taken |].
    intros y. rewrite (held_taken_iff s m x Hx y), Hh, elem_of_cons. done.
  - intros Hin. apply Hh in Hin. unfold held in Hin. apply (ok_pque s Hok) in Hm. congruence.
Qed.

(** [wf_msg_pop] for a user. *)
Lemma use_pop s hs : qinv s hs ->
  (pend s = [] /\ wf_msg_pop s = Ret (-2, None, s)) \/
  (exists m l, pend s = m :: l /\ wf_msg_pop s = Ret (0, Some m, taken m s) /\
     qinv (taken m s) (m :: hs) /\ (m ∉ hs) /\ pend (taken m s) = l /\ free (taken m s) = free s).
Proof.
  intros Hq. destruct (pend s) as [| m l] eqn:El.
  { left. unfold wf_msg_pop, msg_get. by rewrite El. }
  right. exists m, l. destruct Hq as [Hok Ht Hh].
  assert (Hm : m ∈ queue Pend s) by (cbn; rewrite El; constructor).
  destruct (hand_out s m true Hok Ht (stored_in s Pend m Hok Hm)) as (E & _).
  destruct (qinv_take s hs m Pend (Build_qinv _ _ Hok Ht Hh) Hm) as [Hq' Hn].
  pose proof (ok_nodup s Hok) as Hnd. rewrite El in Hnd. cbn in Hnd. apply NoDup_cons in Hnd as [Hml _].
  rewrite not_elem_of_app in Hml. destruct Hml as [Hml Hmf].
  split_and!; [done | | done | done | |].
  - unfold wf_msg_pop, msg_get. rewrite El. exact E.
  - cbn. rewrite El. cbn. rewrite Z.eqb_refl. cbn. by apply without_id.
  - cbn. by apply without_id.
Qed.

(** [wf_msg_del] of a message the user holds. *)
Lemma use_del s hs m : qinv s hs -> m ∈ hs ->
  exists s', wf_msg_del s m = Ret (0, s') /\ qinv s' (without m hs) /\ same_data s s' /\
    pend s' = pend s /\ free s' = free s ++ [m].
Proof.
  intros [Hok Ht Hh] Hm. apply Hh in Hm. destruct (held_stored s m Hm) as [x Hx].
  assert (Hmf : m ∉ free s).
  { intros Hf. apply (ok_pque s Hok Free) in Hf. unfold held in Hm. congruence. }
  destruct (del_spec s m x Hok Hx Hmf) as [E Hok']. rewrite (taken_held s m Hok Hm) in E, Hok'.
  exists (put m Free (free s ++ [m]) s). split_and!; [done | | apply same_data_put | done | done].
  split; [done | by apply tags_put |]. intros y. rewrite (held_put s m Free _ x Hx y), elem_of_without, Hh. tauto.
Qed.

(** [wf_msg_new] for a user. *)
Lemma use_new s hs t : qinv s hs ->
  (exists r, r <> 0 /\ wf_msg_new s t = Ret (r, None, s) /\ forall m, m ∈ free s -> tag_of s m <> t) \/
  (exists m, wf_msg_new s t = Ret (0, Some m, taken m s) /\ qinv (taken m s) (m :: hs) /\ (m ∉ hs) /\
     tag_of s m = t /\ m ∈ free s /\ pend (taken m s) = pend s /\ free (taken m s) = without m (free s)).
Proof.
  intros Hq. unfold wf_msg_new. destruct (free s) as [| z l] eqn:Ef.
  { left. exists (-2). split_and!; [done | done |]. intros m Hm. by apply elem_of_nil in Hm. }
  rewrite <- Ef. destruct (List.find _ (free s)) as [m |] eqn:E.
  - right. exists m. apply find_some in E as [Hm%list_elem_of_In Et%Z.eqb_eq]. destruct Hq as [Hok Ht Hh].
    destruct (hand_out s m true Hok Ht (stored_in s Free m Hok Hm)) as (Eo & _).
    destruct (qinv_take s hs m Free (Build_qinv _ _ Hok Ht Hh) Hm) as [Hq' Hn].
    split_and!; [exact Eo | done | done | done | done | | done].
    cbn. apply without_id. intros Hp. pose proof (ok_nodup s Hok) as Hnd.
    apply NoDup_app in Hnd as (_ & Hnd & _). by apply (Hnd m Hp).
  - left. exists (-3). split_and!; [done | done |]. intros m Hm Et.
    pose proof (find_none _ _ E m) as Hnone. rewrite <- list_elem_of_In in Hnone.
    specialize (Hnone Hm). cbn in Hnone. rewrite Et, Z.eqb_refl in Hnone. done.
Qed.

(** [wf_msg_push] of a message the user holds. *)
Lemma use_push s hs m : qinv s hs -> m ∈ hs ->
  exists a b s', wf_msg_push s m = Ret (0, s') /\ qinv s' (without m hs) /\ same_data s s' /\
    pend s = a ++ b /\ pend s' = a ++ m :: b /\ free s' = free s.
Proof.
  intros [Hok Ht Hh] Hm. apply Hh in Hm. destruct (held_stored s m Hm) as [x Hx].
  destruct (push_spec s m Hok Ht Hm) as (a & b & Hab & E & Hok' & _).
  exists a, b, (put m Pend (a ++ m :: b) s). split_and!; [done | | apply same_data_put | done | done | done].
  split; [done | by apply tags_put |]. intros y. rewrite (held_put s m Pend _ x Hx y), elem_of_without, Hh. tauto.
Qed.

Lemma qinv_write s hs m l v : qinv s hs -> qinv (msg_write m l v s) hs.
Proof.
  intros [Hok Ht Hh]. split; [by apply write_ok | | ].
  - intros x. rewrite tag_of_write. apply Ht.
  - intros x. unfold held. rewrite pque_write. apply Hh.
Qed.

Lemma same_data_lookup s s' m x : same_data s s' -> store s !! m = Some x ->
  exists x', store s' !! m = Some x' /\ tag x' = tag x /\ value x' = value x /\ len x' = len x.
Proof.
  intros H Hx. specialize (H m). rewrite Hx in H. destruct (store s' !! m) as [x' |]; [| done].
  exists x'. injection H as _ Ht Hl Hv. done.
Qed.

Lemma without_head m l : m ∉ l -> without m (m :: l) = l.
Proof.
  intros Hm. unfold without. cbn [List.filter]. rewrite Z.eqb_refl. cbn [negb].
  fold (without m l). by apply without_id.
Qed.

(** Taking a message out of the queue and putting it back to the free ones. *)
Lemma use_pop_del s hs : qinv s hs ->
  (pend s = [] /\ wf_msg_pop s = Ret (-2, None, s)) \/
  exists m que que', wf_msg_pop s = Ret (0, Some m, que) /\ wf_msg_del que m = Ret (0, que') /\
    same_data s que /\ same_data s que' /\ qinv que (m :: hs) /\ (m ∉ hs) /\ qinv que' hs /\
    pend s = m :: pend que /\ pend que' = pend que /\ free que' = free s ++ [m].
Proof.
  intros Hq. destruct (use_pop _ _ Hq) as [[? ?] | (m & l & Hl & Hp & Hq1 & Hm & Hl1 & Hf1)]; [by left | right].
  destruct (use_del _ _ m Hq1 ltac:(constructor)) as (que' & Hd & Hq2 & Hs2 & Hp2 & Hf2).
  pose proof (same_data_taken m s) as Hs1.
  exists m, (taken m s), que'. split_and!; try done.
  - by etransitivity.
  - by rewrite without_head in Hq2.
  - by rewrite Hl1.
  - by rewrite Hf2, Hf1.
Qed.

Lemma qinv_init : qinv wf_msg_init [].
Proof.
  destruct init_ok as [H1 H2]. split; [done | done |]. intros m. unfold held. cbn. rewrite lookup_empty, elem_of_nil. done.
Qed.

(** [wf_msg_alloc] of one message. *)
Lemma use_alloc s hs m t size zero : qinv s hs -> is_u16 t -> store s !! m = None ->
  exists s', wf_msg_alloc s t size zero [Some m] = Ret (0, s') /\ qinv s' hs /\ pend s' = pend s /\ free s' = free s ++ [m] /\
    forall y, data <$> store s' !! y = if decide (y = m) then Some (size, t, 0, zero) else data <$> store s !! y.
Proof.
  intros [Hok Ht Hh] Hu Hm. cbn [wf_msg_alloc]. fold (fresh_msg m t size zero s). set (s1 := fresh_msg m t size zero s).
  destruct (fresh_ok s m t size zero Hok Ht Hu Hm) as (Hok1 & Ht1 & _ & Hfree). fold s1 in Hok1, Ht1.
  assert (Hx : store s1 !! m = Some (mk_msg None size t 0 zero)) by apply lookup_insert_eq.
  assert (Hheld : held s1 m) by (unfold held; by rewrite Hx).
  destruct (del_spec s1 m _ Hok1 Hx Hfree) as [E Hok2]. rewrite (taken_held s1 m Hok1 Hheld) in E, Hok2.
  rewrite E. cbn [cbind]. eexists. split; [done |]. split.
  - split; [done | by apply tags_put |]. intros y. rewrite (held_put s1 m Free _ _ Hx y), <- Hh. unfold held, s1. cbn.
    destruct (decide (y = m)) as [-> | Hy]; [rewrite Hm; cbn; intuition congruence | rewrite lookup_insert_ne by done; tauto].
  - split; [done |]. split; [done |]. intros y. rewrite (same_data_put m Free (free s1 ++ [m]) s1 y). unfold s1. cbn.
    destruct (decide (y = m)) as [-> | Hy]; [by rewrite lookup_insert_eq | by rewrite lookup_insert_ne].
Qed.

End Invariant.

(** C28: in every state the message calls can reach, no message is in both
    queues or twice in one, a message is in the queue its [pque] names and in no
    other, and the pending messages are in the order of their domains.  Every
    call made with a message its caller holds returns, neither faulting nor
    looping, and loses no message and no tag. *)
Theorem msg_reachable_ok {V : Type} (s : wf_msg_que_t V) :
  reachable s ->
  msg_ok s /\
  (forall op : @msg_op V, op_pre op s ->
    exists r o s', run_op op s = Ret (r, o, s') /\ msg_ok s' /\ keeps s s').
Proof.
  intros Hr. destruct (reachable_inv s Hr) as [Hok Ht]. split; [done |]. intros op Hpre.
  destruct (op_ok op s Hok Ht Hpre) as (r & o & s' & E & H & _ & Hk). by exists r, o, s'.
Qed.

(** Three messages, two of them pushed, the one of the lower domain last. *)
Definition demo : wf_msg_que_t unit :=
  let ops : list (@msg_op unit) := [OAlloc (WF_MSG_TAG_SET 1 0 0) 8 tt [Some 100]; OAlloc (WF_MSG_TAG_SET 0 3 1) 8 tt [Some 200; Some 300];
              ONew (WF_MSG_TAG_SET 1 0 0); OPush 100; ONew (WF_MSG_TAG_SET 0 3 1); OPush 200] in
  fold_left (fun s op => match run_op op s with Ret (_, _, s) => s | _ => s end) ops wf_msg_init.

Lemma demo_reachable : reachable demo.
Proof.
  assert (Hstep : forall (op : @msg_op unit) (s : wf_msg_que_t unit), reachable s -> op_pre op s -> (exists p, run_op op s = Ret p) ->
    reachable (match run_op op s with Ret (_, _, s) => s | _ => s end)).
  { intros op s Hr Hp [[[r o] s'] E]. rewrite E. by eapply reach_op. }
  unfold demo. cbn [fold_left].
  repeat (apply Hstep; [| | eexists; vm_compute; reflexivity]); [constructor | ..].
  all: cbn [op_pre]; try (vm_compute; done).
  - split_and!; [vm_compute; split; congruence | repeat constructor; set_solver |]. intros m _. apply lookup_empty.
  - split_and!; [vm_compute; split; congruence | repeat constructor; set_solver |].
    intros m Hm. apply list_elem_of_In in Hm. cbn [In] in Hm.
    destruct Hm as [[= <-] | [[= <-] | []]]; vm_compute; reflexivity.
Qed.

Lemma msg_reachable_ok_witness :
  exists r o s', run_op (OGet true false) demo = Ret (r, o, s') /\ msg_ok s' /\ keeps demo s'.
Proof. apply (proj2 (msg_reachable_ok demo demo_reachable) (OGet true false)). exact I. Defined.

(** C32: [wf_msg_push] puts a held message behind the last pending one whose
    domain and priority do not exceed its own, so that messages of equal rank
    stay in the order they were pushed and a queue sorted by rank stays sorted;
    [wf_msg_push_head] puts it in front of everything of its domain; and
    [wf_msg_pop] takes the first pending message and hands it to the caller. *)
Theorem msg_queue_order {V : Type} (s : wf_msg_que_t V) (m : Z) :
  reachable s -> held s m ->
  (exists a b s', wf_msg_push s m = Ret (0, s') /\ pend s = a ++ b /\ pend s' = a ++ m :: b /\
    (forall y, y ∈ b -> key_of s m < key_of s y) /\
    (StronglySorted (fun x y => key_of s x <= key_of s y) (pend s) ->
     (forall y, y ∈ a -> key_of s y <= key_of s m) /\
     StronglySorted (fun x y => key_of s' x <= key_of s' y) (pend s'))) /\
  (exists a b s', wf_msg_push_head s m = Ret (0, s') /\ pend s = a ++ b /\ pend s' = a ++ m :: b /\
    (forall y, y ∈ a -> dom_of s y < dom_of s m) /\ (forall y, y ∈ b -> dom_of s m <= dom_of s y)) /\
  (forall x l, pend s = x :: l -> exists s', wf_msg_pop s = Ret (0, Some x, s') /\ pend s' = l /\ held s' x) /\
  (pend s = [] -> wf_msg_pop s = Ret (-2, None, s)).
Proof.
  intros Hr Hm. destruct (reachable_inv s Hr) as [Hok Ht]. split_and!.
  - destruct (push_spec s m Hok Ht Hm) as (a & b & Hab & E & _ & Hb & Ha).
    exists a, b, (put m Pend (a ++ m :: b) s). split_and!; [done.. |]. intros Hs. rewrite Hab in Hs.
    assert (Ha' : forall y, y ∈ a -> key_of s y <= key_of s m).
    { intros y Hy. destruct a as [| z a _] using rev_ind; [by apply elem_of_nil in Hy |].
      specialize (Ha z (last_snoc _ _)). apply elem_of_app in Hy as [Hy | ->%list_elem_of_singleton]; [| done].
      apply StronglySorted_app_1_l in Hs. apply StronglySorted_app in Hs as (Hs & _).
      specialize (Hs y z Hy). cbn in Hs. etransitivity; [apply Hs; set_solver | done]. }
    split; [done |]. apply (StronglySorted_on (fun x y => key_of s x <= key_of s y)).
    + intros x y _ _. unfold key_of. by rewrite !tag_of_put.
    + apply StronglySorted_middle; [done | done |]. intros y Hy. apply Z.lt_le_incl. by apply Hb.
  - destruct (push_head_spec s m Hok Hm) as (a & b & Hab & E & _ & Ha & Hb).
    by exists a, b, (put m Pend (a ++ m :: b) s).
  - intros x l El. assert (Hx : x ∈ pend s) by (rewrite El; constructor).
    destruct (hand_out s x true Hok Ht (stored_in s Pend x Hok Hx)) as (E & Hh & _).
    exists (taken x s). split_and!; [| | by apply Hh].
    + unfold wf_msg_pop, msg_get. rewrite El. exact E.
    + cbn. pose proof (ok_nodup s Hok) as Hn. apply NoDup_app in Hn as (Hn & _). rewrite El in Hn |- *.
      apply NoDup_cons in Hn as [Hn _]. cbn. rewrite Z.eqb_refl. cbn. by apply without_id.
  - intros El. unfold wf_msg_pop, msg_get. by rewrite El.
Qed.

(** The third message is taken from the pool; it is pushed behind the one of
    equal rank, and a pop returns the first of the two. *)
Definition demo3 : wf_msg_que_t unit :=
  match run_op (ONew (WF_MSG_TAG_SET 0 3 1)) demo with Ret (_, _, s) => s | _ => demo end.

Lemma demo3_reachable : reachable demo3.
Proof.
  apply (reach_op (ONew (WF_MSG_TAG_SET 0 3 1)) demo 0 (Some 300) demo3 demo_reachable I).
  vm_compute. reflexivity.
Qed.

Lemma msg_queue_order_witness :
  (exists s', wf_msg_pop demo3 = Ret (0, Some 200, s') /\ pend s' = [100] /\ held s' 200) /\
  (exists a b s', wf_msg_push demo3 300 = Ret (0, s') /\ pend demo3 = a ++ b /\ pend s' = a ++ 300 :: b).
Proof.
  destruct (msg_queue_order demo3 300 demo3_reachable) as ((a & b & s' & H1 & H2 & H3 & _) & _ & H & _);
    [vm_compute; reflexivity |].
  split; [apply H; vm_compute; reflexivity |]. exists a, b, s'. split; [exact H1 |]. split; [exact H2 | exact H3].
Defined.

End Msg.
