(* ===== verification/Typed.v ===== *)
(** * Queues whose messages carry values of known kinds

    The messages of a queue are allocated per tag, each with room for the value
    of that tag.  [kind] is what holds of every message, [ready] what the one
    that queued a message promises of its contents: it holds of all messages
    except the free ones.  The lemmas say how the calls of [Msg] keep this. *)
From S2P Require Import Prelude Msg.

Module Typed.
Section Typed.
Context {V : Type}.

Abbreviation que := (Msg.wf_msg_que_t V).
Abbreviation msg := (Msg.wf_msg_t V).

Class Kinds : Type := {
  kind : msg -> Prop;
  ready : msg -> Prop;
  kind_data x y : Msg.data x = Msg.data y -> kind x -> kind y;
  ready_data x y : Msg.data x = Msg.data y -> ready x -> ready y;
}.

Context {K : Kinds}.

Definition que_ok (q : que) : Prop :=
  forall m x, Msg.store q !! m = Some x -> kind x /\ (m ∉ Msg.free q -> ready x).

#[local] Existing Instance Msg.same_data_equiv.

Lemma data_at (q q' : que) m x : Msg.same_data q q' -> Msg.store q' !! m = Some x ->
  exists y, Msg.store q !! m = Some y /\ Msg.data y = Msg.data x.
Proof.
  intros Hd Hx. specialize (Hd m). rewrite Hx in Hd. destruct (Msg.store q !! m) as [y |]; [| done].
  exists y. by apply (inj Some) in Hd.
Qed.

Lemma typed_tag (q : que) m x : Msg.store q !! m = Some x -> Msg.tag_of q m = Msg.tag x.
Proof. intros H. unfold Msg.tag_of. by rewrite H. Qed.

Lemma typed_same q q' : Msg.same_data q q' -> (forall m, m ∈ Msg.free q -> m ∈ Msg.free q') -> que_ok q -> que_ok q'.
Proof.
  intros Hd Hf Hq m x Hx. destruct (data_at _ _ _ _ Hd Hx) as (y & Hy & E). destruct (Hq m y Hy) as [H1 H2].
  split; [by eapply kind_data |]. intros Hm. eapply ready_data, H2; [done |]. intros Hin. by apply Hm, Hf.
Qed.

Lemma not_free (q : que) hs m : Msg.qinv q hs -> m ∈ hs \/ m ∈ Msg.pend q -> m ∉ Msg.free q.
Proof.
  intros Hi Hm Hf. pose proof (Msg.ok_pque _ (Msg.qi_ok _ _ Hi)) as Ho. apply (Ho Msg.Free) in Hf. destruct Hm as [Hm | Hm].
  - apply (Msg.qi_held _ _ Hi) in Hm. unfold Msg.held in Hm. congruence.
  - apply (Ho Msg.Pend) in Hm. congruence.
Qed.

(** What a message held or pending contains. *)
Lemma ready_at q hs m : que_ok q -> Msg.qinv q hs -> m ∈ hs \/ m ∈ Msg.pend q ->
  exists x, Msg.store q !! m = Some x /\ kind x /\ ready x /\ Msg.tag_of q m = Msg.tag x.
Proof.
  intros Hq Hi Hm. assert (Hx : exists x, Msg.store q !! m = Some x).
  { destruct Hm as [Hm | Hm]; [by apply Msg.held_stored, (Msg.qi_held _ _ Hi) |].
    destruct (Msg.pend_stored q m (Msg.qi_ok _ _ Hi) Hm) as (x & Hx & _). by exists x. }
  destruct Hx as [x Hx]. exists x. destruct (Hq m x Hx) as [H1 H2]. split_and!; [done | done | | by apply typed_tag].
  by apply H2, (not_free q hs).
Qed.

(** [wf_msg_pop] *)
Lemma pop_ok q hs : que_ok q -> Msg.qinv q hs ->
  (Msg.pend q = [] /\ Msg.wf_msg_pop q = Ret (-2, None, q)) \/
  exists m q', Msg.wf_msg_pop q = Ret (0, Some m, q') /\ que_ok q' /\ Msg.qinv q' (m :: hs) /\ (m ∉ hs) /\ Msg.same_data q q' /\
    Msg.pend q = m :: Msg.pend q' /\ Msg.free q' = Msg.free q.
Proof.
  intros Hq Hi. destruct (Msg.use_pop _ _ Hi) as [H | (m & l & Hl & Hp & Hi' & Hn & Hl' & Hf)]; [by left | right].
  exists m, (Msg.taken m q). split_and!; try done.
  - eapply typed_same; [apply Msg.same_data_taken | by rewrite Hf | done].
  - apply Msg.same_data_taken.
  - by rewrite Hl', Hl.
Qed.

(** [wf_msg_get] *)
Lemma get_ok (q : que) :
  (Msg.pend q = [] /\ Msg.wf_msg_get q = Ret (-2, None, q)) \/
  exists m l, Msg.pend q = m :: l /\ Msg.wf_msg_get q = Ret (0, Some m, q).
Proof.
  unfold Msg.wf_msg_get, Msg.msg_get. destruct (Msg.pend q) as [| m l]; [by left | right]. by exists m, l.
Qed.

(** [wf_msg_del] of a message that is held or pending. *)
Lemma del_ok q hs m : que_ok q -> Msg.qinv q hs -> m ∈ hs \/ m ∈ Msg.pend q ->
  exists q', Msg.wf_msg_del q m = Ret (0, q') /\ que_ok q' /\ Msg.qinv q' (Msg.without m hs) /\ Msg.same_data q q' /\
    Msg.pend q' = Msg.without m (Msg.pend q) /\ Msg.free q' = Msg.free q ++ [m].
Proof.
  intros Hq Hi Hm. pose proof (not_free q hs m Hi Hm) as Hf. destruct (ready_at q hs m Hq Hi Hm) as (x & Hx & _).
  destruct Hi as [Hok Ht Hh]. destruct (Msg.del_spec q m x Hok Hx Hf) as [E Hok'].
  set (q' := Msg.put m Msg.Free (Msg.free q ++ [m]) (Msg.taken m q)) in *. exists q'.
  assert (Hd : Msg.same_data q q') by (etransitivity; [apply Msg.same_data_taken | apply Msg.same_data_put]).
  assert (Hx' : is_Some (Msg.store (Msg.taken m q) !! m)).
  { specialize (Msg.same_data_taken m q m) as E'. rewrite Hx in E'. by destruct (Msg.store (Msg.taken m q) !! m). }
  destruct Hx' as [x' Hx']. split_and!; [done | | | done | done | done].
  - eapply typed_same; [exact Hd | | done]. intros y Hy. cbn. apply elem_of_app. by left.
  - split; [done | by apply Msg.tags_put, Msg.tags_taken |]. intros y. unfold q'.
    rewrite (Msg.held_put _ m Msg.Free _ x' Hx' y), (Msg.held_taken_iff q m x Hx y), Msg.elem_of_without, Hh. tauto.
Qed.

(** Writing what is there. *)
Lemma write_same (q : que) m x : Msg.msg_at q m = Ret x -> Msg.msg_write m (Msg.len x) (Msg.value x) q = q.
Proof.
  unfold Msg.msg_at. destruct (Msg.store q !! m) as [y |] eqn:E; [intros [= ->] | done]. destruct q as [p f st]. unfold Msg.msg_write. cbn in *.
  f_equal. apply map_eq. intros z. destruct (decide (z = m)) as [-> | Hz]; [rewrite lookup_alter_eq, E | by rewrite lookup_alter_ne]. by destruct x.
Qed.

(** A message of the tag [t] is taken, written and queued. *)
Lemma new_ok q hs t : que_ok q -> Msg.qinv q hs ->
  (exists r, Msg.wf_msg_new q t = Ret (r, None, q) /\ forall m, m ∈ Msg.free q -> Msg.tag_of q m <> t) \/
  exists m q1 x, Msg.wf_msg_new q t = Ret (0, Some m, q1) /\ Msg.msg_at q1 m = Ret x /\ kind x /\ Msg.tag x = t /\ m ∈ Msg.free q /\
    forall l v, let y := Msg.mk_msg (Msg.pque x) (Msg.alloc_value_size x) t l v in
      exists q2 a b, Msg.wf_msg_push (Msg.msg_write m l v q1) m = Ret (0, q2) /\ (kind y -> ready y -> que_ok q2) /\ Msg.qinv q2 hs /\
        Msg.pend q = a ++ b /\ Msg.pend q2 = a ++ m :: b /\ Msg.free q2 = Msg.without m (Msg.free q) /\
        (forall z, z <> m -> Msg.data <$> Msg.store q2 !! z = Msg.data <$> Msg.store q !! z) /\
        Msg.data <$> Msg.store q2 !! m = Some (Msg.data y).
Proof.
  intros Hq Hi. destruct (Msg.use_new _ _ t Hi) as [(r & _ & E & Hf) | (m & E & Hi1 & Hn & Ht & Hf & Hp & Hf1)].
  { left. by exists r. }
  right. pose proof (Msg.same_data_taken m q) as Hd. set (q1 := Msg.taken m q) in *.
  destruct (Msg.held_stored q1 m) as [x Hx]; [apply (Msg.qi_held _ _ Hi1); constructor |].
  destruct (data_at _ _ _ _ Hd Hx) as (x0 & Hx0 & Ed). assert (Htx : Msg.tag x = t).
  { rewrite (typed_tag _ _ _ Hx0) in Ht. injection Ed as _ Et _ _. congruence. }
  exists m, q1, x. split_and!; [done | unfold Msg.msg_at; by rewrite Hx | | done | done |].
  { eapply kind_data, (Hq m x0 Hx0). done. }
  intros l v y. set (qw := Msg.msg_write m l v q1). assert (Hiw : Msg.qinv qw (m :: hs)) by by apply Msg.qinv_write.
  destruct (Msg.use_push _ _ m Hiw ltac:(constructor)) as (a & b & q2 & Hpush & Hi2 & Hd2 & Hab & Hab' & Hf2).
  rewrite Msg.without_head in Hi2 by done.
  assert (Hm2 : Msg.data <$> Msg.store q2 !! m = Some (Msg.data y)).
  { rewrite (Hd2 m). unfold qw, Msg.msg_write. cbn [Msg.store]. rewrite lookup_alter_eq, Hx. cbn. by rewrite Htx. }
  assert (Ho : forall z, z <> m -> Msg.data <$> Msg.store q2 !! z = Msg.data <$> Msg.store q !! z).
  { intros z Hz. rewrite (Hd2 z). unfold qw, Msg.msg_write. cbn [Msg.store]. rewrite lookup_alter_ne by done. apply (Hd z). }
  exists q2, a, b. split_and!; [done | | done | by rewrite <- Hp | done | by rewrite Hf2 | done | done].
  intros Hk Hr z w Hz. destruct (decide (z = m)) as [-> | Hne].
  - rewrite Hz in Hm2. apply (inj Some) in Hm2. split; [by eapply kind_data | intros _; by eapply ready_data].
  - specialize (Ho z Hne). rewrite Hz in Ho. destruct (Msg.store q !! z) as [w0 |] eqn:Ew; [| done]. apply (inj Some) in Ho.
    destruct (Hq z w0 Ew) as [H1 H2]. split; [by eapply kind_data |]. intros Hzf. eapply ready_data, H2; [done |].
    intros Hin. apply Hzf. rewrite Hf2. change (Msg.free qw) with (Msg.free q1). rewrite Hf1, Msg.elem_of_without. done.
Qed.

(** ** Allocation *)

(** The queue while its messages [ms] are allocated. *)
Record filling (q : que) (ms : list Z) : Prop := {
  fi_inv : Msg.qinv q [];
  fi_ok : que_ok q;
  fi_pend : Msg.pend q = [];
  fi_dom : forall m, is_Some (Msg.store q !! m) -> m ∈ ms;
}.

Lemma fresh_filling : filling Msg.wf_msg_init [].
Proof.
  split; [apply Msg.qinv_init | | done |].
  - intros m x Hx. cbn in Hx. by rewrite lookup_empty in Hx.
  - intros m [x Hx]. cbn in Hx. by rewrite lookup_empty in Hx.
Qed.

Lemma alloc_ok t size zero ids : is_u16 t -> kind (Msg.mk_msg None size t 0 zero) -> forall q ms,
  filling q ms -> NoDup (ids ++ ms) ->
  exists q', Msg.wf_msg_alloc q t size zero (map Some ids) = Ret (0, q') /\ filling q' (ids ++ ms).
Proof.
  intros Hu Hk. induction ids as [| m ids IH]; intros q ms Hfl Hnd; [by exists q |].
  cbn [app] in Hnd. apply NoDup_cons in Hnd as [Hm Hnd]. destruct Hfl as [Hi Hq Hp Hd].
  assert (Hnone : Msg.store q !! m = None).
  { apply eq_None_not_Some. intros Hs. apply Hm, elem_of_app. right. by apply Hd. }
  destruct (Msg.use_alloc q [] m t size zero Hi Hu Hnone) as (q1 & E & Hi1 & Hp1 & Hf1 & Hdata).
  cbn [map Msg.wf_msg_alloc] in E |- *. destruct (Msg.wf_msg_del _ m) as [[r q0] | |]; cbn [cbind] in E |- *; try done.
  injection E as ->. assert (Hcase : forall y x, Msg.store q1 !! y = Some x -> y = m /\ Msg.data x = (size, t, 0, zero) \/
            y <> m /\ exists x0, Msg.store q !! y = Some x0 /\ Msg.data x0 = Msg.data x).
  { intros y x Hx. specialize (Hdata y). rewrite Hx in Hdata. cbn [fmap option_fmap option_map] in Hdata.
    destruct (decide (y = m)) as [-> | Hy].
    - left. apply (inj Some) in Hdata. done.
    - right. split; [done |]. destruct (Msg.store q !! y) as [x0 |]; [| done]. exists x0. by apply (inj Some) in Hdata. }
  assert (Hfl1 : filling q1 (m :: ms)).
  { split; [done | | by rewrite Hp1 |].
    - intros y x Hx. destruct (Hcase y x Hx) as [(-> & Ex) | (Hy & x0 & Hx0 & E0)].
      + split; [by eapply kind_data, Hk; symmetry |]. intros Hf. exfalso. apply Hf. rewrite Hf1. apply elem_of_app. right. constructor.
      + destruct (Hq y x0 Hx0) as [H1 H2]. split; [by eapply kind_data |]. intros Hf. eapply ready_data, H2; [done |].
        intros Hin. apply Hf. rewrite Hf1. apply elem_of_app. by left.
    - intros y [x Hx]. apply elem_of_cons. destruct (Hcase y x Hx) as [(-> & _) | (_ & x0 & Hx0 & _)]; [by left |].
      right. apply Hd. by exists x0. }
  destruct (IH q1 (m :: ms) Hfl1) as (q' & E' & Hfl').
  - by rewrite <- Permutation_middle, NoDup_cons.
  - exists q'. split; [done |]. destruct Hfl' as [A1 A2 A3 A4]. split; try done. intros y Hy. specialize (A4 y Hy).
    rewrite <- Permutation_middle in A4. done.
Qed.
End Typed.
Arguments Kinds : clear implicits.
Arguments filling {V K} q ms.
End Typed.
