(* ===== verification/Io.v ===== *)
(** * Code that calls the chip and the operating system; protothreads

    The management threads of [nic/] are protothreads ([utility/wf_pt.h]): C
    functions that return at a wait point and resume there when they are called
    again, with their local variables lost.  Between wait points they call the
    chip, the transmit path and the clock.  A piece of such code is an [io]: a
    tree of calls, one branch per possible answer, so that a statement about
    every run of it is a statement about every behaviour of what it calls. *)
From S2P Require Import Prelude.

Module Io.

Inductive io {E : Type} (A : Type) : Type :=
  | iret (a : A)
  | icall (e : E) (k : Z -> io A)
  | ifault.
Arguments iret {E A} a.
Arguments icall {E A} e k.
Arguments ifault {E A}.
Arguments io : clear implicits.

Section Monad.
Context {E : Type}.

Fixpoint ibind {A B} (m : io E A) (k : A -> io E B) : io E B :=
  match m with
  | iret a => k a
  | icall e f => icall e (fun r => ibind (f r) k)
  | ifault => ifault
  end.

Definition call (e : E) : io E Z := icall e iret.

(** Code that makes no calls. *)
Definition lift {A} (m : C A) : io E A :=
  match m with
  | Ret a => iret a
  | _ => ifault
  end.
End Monad.

Declare Scope io_scope.
Delimit Scope io_scope with io.
Notation "'let!' p := e 'in' k" := (ibind e (fun p => k))
  (at level 10, p pattern, e at level 200, k at level 200,
   format "'[' 'let!'  p  :=  e  'in' ']' '//' k") : io_scope.
Notation "'do!' e 'in' k" := (ibind e (fun _ => k))
  (at level 10, e at level 200, k at level 200,
   format "'[' 'do!'  e  'in' ']' '//' k") : io_scope.
Open Scope io_scope.

Section Reason.
Context {E : Type}.

(** A run: the calls with their answers, and the result. *)
Fixpoint runs {A} (m : io E A) (tr : list (E * Z)) (a : A) : Prop :=
  match m, tr with
  | iret b, [] => b = a
  | icall e k, (e', r) :: tr => e' = e /\ runs (k r) tr a
  | _, _ => False
  end.

(** Every run returns and satisfies [Q]. *)
Fixpoint wp {A} (m : io E A) (Q : list (E * Z) -> A -> Prop) : Prop :=
  match m with
  | iret a => Q [] a
  | icall e k => forall r, wp (k r) (fun tr => Q ((e, r) :: tr))
  | ifault => False
  end.

(** The run on given answers, zero when they are used up. *)
Fixpoint exec {A} (m : io E A) (ans : list Z) : option (list (E * Z) * A) :=
  match m with
  | iret a => Some ([], a)
  | icall e k =>
      '(tr, a) ← exec (k (hd 0 ans)) (tail ans);
      Some ((e, hd 0 ans) :: tr, a)
  | ifault => None
  end.

Lemma wp_mono {A} (m : io E A) (P Q : list (E * Z) -> A -> Prop) :
  (forall tr a, P tr a -> Q tr a) -> wp m P -> wp m Q.
Proof.
  revert P Q. induction m as [a | e k IH |]; intros P Q HPQ; [apply HPQ | | done].
  intros H r. exact (IH r _ _ (fun tr a => HPQ ((e, r) :: tr) a) (H r)).
Qed.

Lemma wp_bind {A B} (m : io E A) (k : A -> io E B) Q :
  wp m (fun tr a => wp (k a) (fun tr' => Q (tr ++ tr'))) -> wp (ibind m k) Q.
Proof.
  revert Q. induction m as [a | e f IH |]; intros Q; [done | | done].
  intros H r. apply IH. exact (H r).
Qed.

Lemma wp_runs {A} (m : io E A) Q tr a : wp m Q -> runs m tr a -> Q tr a.
Proof.
  revert Q tr. induction m as [b | e k IH |]; intros Q tr Hw Hr; [| | done].
  - destruct tr; [by rewrite <- Hr | done].
  - destruct tr as [| [e' r] tr]; [done |]. destruct Hr as [-> Hr]. exact (IH r _ _ (Hw r) Hr).
Qed.

Lemma exec_runs {A} (m : io E A) ans tr a : exec m ans = Some (tr, a) -> runs m tr a.
Proof.
  revert ans tr. induction m as [b | e k IH |]; intros ans tr; cbn [exec]; [by intros [= <- <-] | | done].
  destruct (exec (k (hd 0 ans)) (tail ans)) as [[tr' a'] |] eqn:Ex; [| done]. cbn. intros [= <- <-].
  split; [done |]. by apply IH in Ex.
Qed.

(** A run can always be completed. *)
Lemma wp_exec {A} (m : io E A) Q ans : wp m Q ->
  exists tr a, exec m ans = Some (tr, a) /\ runs m tr a /\ Q tr a.
Proof.
  revert Q ans. induction m as [b | e k IH |]; intros Q ans Hw; [by exists [], b | | done].
  destruct (IH (hd 0 ans) _ (tail ans) (Hw (hd 0 ans))) as (tr & a & Hx & Hr & HQ).
  exists ((e, hd 0 ans) :: tr), a. cbn. by rewrite Hx.
Qed.
End Reason.

(** ** Protothreads *)

Inductive pt_ret : Type := PT_WAITING | PT_YIELDED | PT_EXITED | PT_ENDED.

(** Where a block of a protothread goes on: at a label of the same call, or at
    the label the next call resumes from.  [PT_EXIT] and [PT_END] also set the
    thread back to its beginning. *)
Inductive next {L : Type} : Type :=
  | Goto (l : L)
  | Return (r : pt_ret) (l : L).
Arguments next : clear implicits.

Definition done_with (r : pt_ret) : bool := match r with PT_EXITED | PT_ENDED => true | _ => false end.

(** A protothread is a block per label, on the local variables [L] and the state
    [St].  [out] is what a call leaves of its local variables for its caller. *)
Section Protothread.
Context {E B L St Out : Type}.
Context (block : B -> L -> St -> io E (next B * L * St)) (out : L -> Out).

(** A call: what it returns and the label of the next call. *)
Fixpoint blocks (fuel : nat) (b : B) (l : L) (s : St) : io E (pt_ret * B * Out * St) :=
  match fuel with
  | O => ifault
  | S fuel =>
      let! (n, l, s) := block b l s in
      match n with
      | Goto b => blocks fuel b l s
      | Return r b => iret (r, b, out l, s)
      end
  end.

(** A proof about a thread: [after] follows the calls in a ghost state, [inv] is
    the invariant at each label, [fin] what holds when the thread is done.  A
    block that goes on makes [measure] smaller; one that waits stays at its
    label, for a reason [blocked]; the next call starts with the locals [l0]. *)
Context {G : Type} (track : G -> E * Z -> G).
Context (inv : B -> L -> St -> G -> Prop) (measure : B -> St -> Z) (l0 : L).
Context (fin : pt_ret -> B -> Out -> St -> G -> Prop) (blocked : B -> St -> St -> list (E * Z) -> Prop).

Definition after (tr : list (E * Z)) (g : G) : G := fold_left track tr g.

Definition post (b : B) (s : St) (g : G) (tr : list (E * Z)) (st : next B * L * St) : Prop :=
  let '(n, l', s') := st in
  let g' := after tr g in
  match n with
  | Goto b' => inv b' l' s' g' /\ measure b' s' < measure b s
  | Return r b' =>
      if done_with r then fin r b' (out l') s' g'
      else b' = b /\ inv b l0 s' g' /\ measure b s' <= measure b s /\ blocked b s s' tr
  end.

Definition called (b : B) (s : St) (g : G) (tr : list (E * Z)) (res : pt_ret * B * Out * St) : Prop :=
  let '(r, b', p, s') := res in
  let g' := after tr g in
  if done_with r then fin r b' p s' g'
  else inv b' l0 s' g' /\ (exists s0 tr0, blocked b' s0 s' tr0) /\
       (measure b' s' < measure b s \/ b' = b /\ measure b' s' <= measure b s /\ blocked b s s' tr).

Hypothesis measure_pos : forall b l s g, inv b l s g -> 0 <= measure b s.
Hypothesis block_post : forall b l s g, inv b l s g -> wp (block b l s) (post b s g).

Lemma blocks_called fuel : forall b l s g, inv b l s g -> measure b s < Z.of_nat fuel ->
  wp (blocks fuel b l s) (called b s g).
Proof.
  induction fuel as [| fuel IH]; intros b l s g Hi Hm.
  { pose proof (measure_pos b l s g Hi). lia. }
  cbn [blocks]. apply wp_bind. eapply wp_mono, (block_post b l s g Hi).
  intros tr [[n l'] s'] Hp. cbn [post] in Hp. destruct n as [b' | r b'].
  - destruct Hp as [Hi' Hlt]. eapply wp_mono, (IH b' l' s' (after tr g) Hi'); [| lia].
    intros tr' [[[r b''] p] s''] Hq. unfold called in *. unfold after in *. rewrite fold_left_app.
    destruct (done_with r); [done |]. destruct Hq as (Hi'' & Hb & [? | (_ & ? & _)]); (split; [done | split; [done | left; lia]]).
  - cbn [wp]. rewrite app_nil_r. unfold called. destruct (done_with r); [done |].
    destruct Hp as (-> & ? & ? & ?). split; [done |]. split; [by exists s, tr | by right].
Qed.
End Protothread.

(** The same for a thread that may wait at another label than the one a block
    began at: [ends] is what holds when a call returns. *)
Section Calls.
Context {E B L St Out G : Type}.
Context (block : B -> L -> St -> io E (next B * L * St)) (out : L -> Out) (track : G -> E * Z -> G).
Context (inv : B -> L -> St -> G -> Prop) (measure : B -> St -> Z) (ends : pt_ret -> B -> St -> G -> Prop).

Definition moves (b : B) (s : St) (g : G) (tr : list (E * Z)) (st : next B * L * St) : Prop :=
  let '(n, l', s') := st in
  match n with
  | Goto b' => inv b' l' s' (after track tr g) /\ measure b' s' < measure b s
  | Return r b' => ends r b' s' (after track tr g)
  end.

Hypothesis measure_pos : forall b l s g, inv b l s g -> 0 <= measure b s.
Hypothesis block_moves : forall b l s g, inv b l s g -> wp (block b l s) (moves b s g).

Lemma blocks_ends fuel : forall b l s g, inv b l s g -> measure b s < Z.of_nat fuel ->
  wp (blocks block out fuel b l s) (fun tr '(r, b', _, s') => ends r b' s' (after track tr g)).
Proof.
  induction fuel as [| fuel IH]; intros b l s g Hi Hm.
  { pose proof (measure_pos b l s g Hi). lia. }
  cbn [blocks]. apply wp_bind. eapply wp_mono, (block_moves b l s g Hi).
  intros tr [[[b' | r b'] l'] s'] Hp; cbn [moves] in Hp.
  - destruct Hp as [Hi' Hlt]. eapply wp_mono, (IH b' l' s' (after track tr g) Hi'); [| lia].
    intros tr' [[[r b''] p] s''] Hq. unfold after in *. by rewrite fold_left_app.
  - cbn [wp]. by rewrite app_nil_r.
Qed.
End Calls.

End Io.
