(* ===== verification/Mgmt.v ===== *)
(** * Management frames ([nic/wf_80211.h], lines 957-1000 and 1403-1496)

    The header of [wf_80211_mgmt_t], as a sender writes it and a receiver reads
    it, and the operations on the frame control field. *)
From S2P Require Import Prelude Ies.

Module Mgmt.

Definition WF_80211_FCTL_FTYPE : Z := 0x000C.
Definition WF_80211_FCTL_STYPE : Z := 0x00F0.
Definition WF_80211_FCTL_PROTECTED : Z := 0x4000.
Definition WF_80211_FCTL_ORDER : Z := 0x8000.

Definition WF_80211_FRM_PROBE_REQ : Z := 0x40.
Definition WF_80211_FRM_PROBE_RESP : Z := 0x50.
Definition WF_80211_FRM_AUTH : Z := 0xB0.
Definition WF_80211_FRM_DEAUTH : Z := 0xC0.
Definition WF_80211_FRM_ACTION : Z := 0xD0.
Definition WF_80211_FRM_NULLFUNC : Z := 0x48.

Definition wf_80211_get_frame_type (fc : Z) : Z :=
  Z.land fc (Z.lor WF_80211_FCTL_FTYPE WF_80211_FCTL_STYPE).
Definition wf_80211_set_frame_type (fc type : Z) : Z :=
  Z.lor (Z.land fc (Z.lnot (Z.lor WF_80211_FCTL_FTYPE WF_80211_FCTL_STYPE))) type.
Definition wf_80211_get_protected (fc : Z) : bool := nz (Z.land fc WF_80211_FCTL_PROTECTED).
Definition wf_80211_set_protected (fc : Z) : Z := Z.lor fc WF_80211_FCTL_PROTECTED.
Definition wf_80211_has_order (fc : Z) : bool := nz (Z.land fc WF_80211_FCTL_ORDER).

Definition MAC_ADDR_LEN : Z := 6.
(** [WF_OFFSETOF(wf_80211_mgmt_t, ...)] of the parts behind the header *)
Definition HDR_LEN : Z := 24.

Definition get16 (buf : list Z) (i : Z) : C Z := letc b := slice buf i 2 in Ret (le_word b).
Definition frame_control (buf : list Z) : C Z := get16 buf 0.
Definition da (buf : list Z) : C (list Z) := slice buf 4 6.
Definition sa (buf : list Z) : C (list Z) := slice buf 10 6.
Definition bssid (buf : list Z) : C (list Z) := slice buf 16 6.

(** The header a sender writes at the beginning of [buf]: the first [n] bytes
    are cleared, then the frame type and the three addresses stored. *)
Definition write_hdr (buf : list Z) (n type : Z) (da sa bssid : list Z) : C (list Z) :=
  letc buf := blit buf 0 (replicate (Z.to_nat n) 0) in
  letc fc := get16 buf 0 in
  letc buf := blit buf 0 (le_bytes 2 (wf_80211_set_frame_type fc type)) in
  letc buf := blit buf 4 da in
  letc buf := blit buf 10 sa in
  blit buf 16 bssid.

(** The header as one sequence of bytes. *)
Definition hdr (fc : Z) (da sa bssid : list Z) : list Z :=
  le_bytes 2 fc ++ [0; 0] ++ da ++ sa ++ bssid ++ [0; 0].

Definition addr_ok (a : list Z) : Prop := length a = 6%nat /\ bytes_ok a.

Lemma get16_app a b i : 0 <= i -> i + 2 <= Z.of_nat (length a) -> get16 (a ++ b) i = get16 a i.
Proof. intros Hi Hl. unfold get16. rewrite slice_app_l, slice_Ret by lia. done. Qed.

Lemma get16_Ret buf i : 0 <= i -> i + 2 <= Z.of_nat (length buf) -> exists v, get16 buf i = Ret v.
Proof. intros Hi Hl. unfold get16. rewrite slice_Ret by lia. by eexists. Qed.

(** A field of [n] bytes and what follows it. *)
Lemma split_rest {A} n (rest : list A) : (n <= length rest)%nat -> rest = take n rest ++ drop n rest /\ length (take n rest) = n.
Proof. intros H. split; [by rewrite take_drop | rewrite length_take; lia]. Qed.

Lemma slice_app_head b c n : n = Z.of_nat (length b) -> slice (b ++ c) 0 n = Ret b.
Proof. exact (slice_app_mid [] b c 0 n eq_refl). Qed.

Lemma blit_app_head b c src : length src = length b -> blit (b ++ c) 0 src = Ret (src ++ c).
Proof. exact (blit_app_mid [] b c 0 src eq_refl). Qed.

Lemma length_hdr fc d s b : addr_ok d -> addr_ok s -> addr_ok b -> length (hdr fc d s b) = 24%nat.
Proof. intros [Hd _] [Hs _] [Hb _]. unfold hdr. rewrite !length_app, length_le_bytes, Hd, Hs, Hb. done. Qed.

Lemma write_hdr_eq buf n type d s b :
  24 <= n <= Z.of_nat (length buf) -> 0 <= type < 256 -> addr_ok d -> addr_ok s -> addr_ok b ->
  write_hdr buf n type d s b =
  Ret (hdr type d s b ++ replicate (Z.to_nat n - 24) 0 ++ drop (Z.to_nat n) buf).
Proof.
  intros Hn Ht [Hd _] [Hs _] [Hb _].
  assert (E : exists k rest, n = Z.of_nat k + 24 /\ buf = rest ++ drop (Z.to_nat n) buf /\ length rest = (k + 24)%nat).
  { exists (Z.to_nat (n - 24)), (take (Z.to_nat n) buf). split; [lia |]. rewrite take_drop.
    split; [done |]. rewrite length_take. lia. }
  destruct E as (k & rest & -> & Eb & Hr). set (tl := drop _ buf) in *. rewrite Eb. unfold write_hdr.
  rewrite (blit_app_head rest tl) by (rewrite length_replicate; lia). cbn [cbind].
  replace (Z.to_nat (Z.of_nat k + 24)) with (24 + k)%nat by lia. rewrite replicate_add.
  change (replicate 24 0) with ([0; 0] ++ [0; 0] ++ replicate 6 0 ++ replicate 6 0 ++ replicate 6 0 ++ [0; 0]).
  rewrite <- !app_assoc. unfold get16. rewrite (slice_app_head [0; 0]) by done. cbn [cbind].
  rewrite (blit_app_head [0; 0]) by (by rewrite length_le_bytes). cbn [cbind].
  change (wf_80211_set_frame_type (le_word [0; 0]) type) with (Z.lor 0 type). rewrite Z.lor_0_l.
  set (f := le_bytes 2 type). assert (Hf : length f = 2%nat) by apply length_le_bytes.
  replace (24 + k - 24)%nat with k by lia. unfold hdr. fold f.
  rewrite (app_assoc f), (blit_app_mid (f ++ [0; 0]) (replicate 6 0)) by (rewrite ?length_app, ?Hf; done).
  cbn [cbind].
  rewrite (app_assoc _ d), (blit_app_mid ((f ++ [0; 0]) ++ d) (replicate 6 0)) by (rewrite ?length_app, ?Hf, ?Hd; done).
  cbn [cbind].
  rewrite (app_assoc _ s), (blit_app_mid (((f ++ [0; 0]) ++ d) ++ s) (replicate 6 0))
    by (rewrite ?length_app, ?Hf, ?Hd, ?Hs; done).
  by rewrite <- !app_assoc.
Qed.

(** Reading the header back. *)
Lemma hdr_read type d s b rest :
  0 <= type < 65536 -> addr_ok d -> addr_ok s -> addr_ok b ->
  frame_control (hdr type d s b ++ rest) = Ret type /\
  da (hdr type d s b ++ rest) = Ret d /\ sa (hdr type d s b ++ rest) = Ret s /\
  bssid (hdr type d s b ++ rest) = Ret b.
Proof.
  intros Ht [Hd _] [Hs _] [Hb _]. unfold frame_control, get16, da, sa, bssid, hdr. rewrite <- !app_assoc.
  set (f := le_bytes 2 type). assert (Hf : length f = 2%nat) by apply length_le_bytes. split_and!.
  - rewrite (slice_app_head f) by (by rewrite Hf). cbn [cbind]. unfold f.
    rewrite le_word_bytes, Z.mod_small by (cbn; lia). done.
  - rewrite (app_assoc f). apply slice_app_mid; rewrite ?length_app, ?Hf, ?Hd; done.
  - rewrite (app_assoc f), (app_assoc _ d). apply slice_app_mid; rewrite ?length_app, ?Hf, ?Hd, ?Hs; done.
  - rewrite (app_assoc f), (app_assoc _ d), (app_assoc _ s).
    apply slice_app_mid; rewrite ?length_app, ?Hf, ?Hd, ?Hs, ?Hb; done.
Qed.

(** [set_fixed_ie] at the end of what has been written. *)
Lemma set_fixed_append a src rest pos frlen :
  pos = Z.of_nat (length a) -> (length src <= length rest)%nat ->
  0 <= frlen -> frlen + Z.of_nat (length src) < 65536 ->
  Ies.wf_80211_set_fixed_ie (a ++ rest) pos (Z.of_nat (length src)) src frlen =
  Ret ((a ++ src) ++ drop (length src) rest, Z.of_nat (length (a ++ src)), frlen + Z.of_nat (length src)).
Proof.
  intros -> Hl Hf Hu. unfold Ies.wf_80211_set_fixed_ie.
  rewrite <- (app_nil_r src) at 1. rewrite (slice_app_head src) by done. cbn [cbind].
  rewrite <- (take_drop (length src) rest) at 1.
  rewrite blit_app_mid by (try done; rewrite length_take; lia). cbn [cbind].
  rewrite length_app, Nat2Z.inj_add, <- app_assoc. unfold u16. rewrite Z.mod_small by lia. done.
Qed.

End Mgmt.
