(* ===== verification/Request.v ===== *)
(** * Request queues

    The authentication and the association thread of a station are driven
    through queues of the same shape ([auth.c], [assoc.c]): two messages for
    the answers received, one that asks to start and one that asks to stop.
    This file holds the operations on such a queue and what they keep, for the
    tags and the sort of answers of either thread. *)
From S2P Require Import Prelude Msg Typed Mgmt.

Module Request.

Abbreviation que := (Msg.wf_msg_que_t (list Z)).

(** A message without a value is queued; [back] says whether it is given back
    if that fails. *)
Definition request (back : bool) (tag enew epush : Z) (q : que) : C (Z * que) :=
  letc (_, pmsg, q) := Msg.wf_msg_new q tag in
  match pmsg with
  | None => Ret (enew, q)
  | Some m =>
      letc (r, q) := Msg.wf_msg_push q m in
      if nz r then
        if back then letc (_, q) := Msg.wf_msg_del q m in Ret (epush, q) else Ret (epush, q)
      else Ret (0, q)
  end.

(** A received frame is queued. *)
Definition deliver (rsp : Z) (frame : list Z) (q : que) : C (Z * que) :=
  letc (_, pmsg, q) := Msg.wf_msg_new q rsp in
  match pmsg with
  | None => Ret (-6, q)
  | Some m =>
      letc x := Msg.msg_at q m in
      letc v := blit (Msg.value x) 0 frame in
      letc (r, q) := Msg.wf_msg_push (Msg.msg_write m (Z.of_nat (length frame)) v q) m in
      if nz r then letc (_, q) := Msg.wf_msg_del q m in Ret (-7, q) else Ret (0, q)
  end.

(** The four messages; the result is 0 when all could be allocated. *)
Definition msg_init (rsp size abort start : Z) (a : list (option Z)) (b c : option Z) : C (Z * que) :=
  let zero := replicate (Z.to_nat size) 0 in
  letc (r, q) := Msg.wf_msg_alloc Msg.wf_msg_init rsp size zero a in
  letc (r, q) := (if nz r then Ret (r, q) else Msg.wf_msg_alloc q abort 0 [] [b]) in
  letc (r, q) := (if nz r then Ret (r, q) else Msg.wf_msg_alloc q start 0 [] [c]) in
  Ret (if nz r then -1 else 0, q).
(** ** The invariant *)

(** What a thread fixes of its queue: the tags, the size of an answer's
    message, and which frames it can be given. *)
Class Reply : Type := {
  RSP : Z;
  ABORT : Z;
  START : Z;
  rsp_size : Z;
  rsp_ok : list Z -> Prop;
  tags_u16 : is_u16 RSP /\ is_u16 ABORT /\ is_u16 START;
  tags_ne : RSP <> ABORT /\ RSP <> START /\ ABORT <> START;
  rsp_bytes frame : rsp_ok frame -> bytes_ok frame;
}.

Section Invariant.
Context {R : Reply}.

(** An answer behind which an earlier one may be left over. *)
Definition answers (x : Msg.wf_msg_t (list Z)) : Prop :=
  exists frame stale, Msg.value x = frame ++ stale /\ Msg.len x = Z.of_nat (length frame) /\ rsp_ok frame.

Definition tag_ok (t : Z) : Prop := t = RSP \/ t = ABORT \/ t = START.

Definition room (x : Msg.wf_msg_t (list Z)) : Prop := length (Msg.value x) = Z.to_nat rsp_size /\ bytes_ok (Msg.value x).

(** Every message has a tag of the thread and its room, and an answer that is
    not free is one the thread can be given. *)
#[export] Program Instance reply_kinds : Typed.Kinds (list Z) := {
  kind x := tag_ok (Msg.tag x) /\ (Msg.tag x = RSP -> room x);
  ready x := Msg.tag x = RSP -> answers x;
}.
Next Obligation. intros x y [= _ E1 _ E2] H. unfold room. rewrite <- E1, <- E2. exact H. Qed.
Next Obligation. intros x y [= _ E1 E2 E3] H. unfold answers. rewrite <- E1, <- E2, <- E3. exact H. Qed.

Definition que_ok (q : que) : Prop := Typed.que_ok q.

#[local] Existing Instance Msg.same_data_equiv.

Lemma que_ok_same q q' : Msg.same_data q q' -> (forall m, m ∈ Msg.free q -> m ∈ Msg.free q') -> que_ok q -> que_ok q'.
Proof. apply Typed.typed_same. Qed.

Lemma tag_stored (q : que) m x : Msg.store q !! m = Some x -> Msg.tag_of q m = Msg.tag x.
Proof. apply Typed.typed_tag. Qed.

(** A message taken out, and put back. *)
Record popped (hs : list Z) (q : que) (m : Z) (q1 q2 : que) (x : Msg.wf_msg_t (list Z)) : Prop := {
  po_pop : Msg.wf_msg_pop q = Ret (0, Some m, q1);
  po_del : Msg.wf_msg_del q1 m = Ret (0, q2);
  po_ok1 : que_ok q1;
  po_inv1 : Msg.qinv q1 (m :: hs);
  po_ok2 : que_ok q2;
  po_inv2 : Msg.qinv q2 hs;
  po_new : m ∉ hs;
  po_at : Msg.store q1 !! m = Some x;
  po_back : exists x', Msg.store q2 !! m = Some x' /\ Msg.data x' = Msg.data x;
  po_last : last (Msg.free q2) = Some m;
  po_rsp : Msg.tag x = RSP -> room x /\ answers x;
  po_pend : Msg.pend q = m :: Msg.pend q1;
  po_pend2 : Msg.pend q2 = Msg.pend q1;
  po_same : Msg.same_data q q1;
}.

Lemma pop_facts hs q : que_ok q -> Msg.qinv q hs ->
  (Msg.pend q = [] /\ exists r, Msg.wf_msg_pop q = Ret (r, None, q)) \/ exists m q1 q2 x, popped hs q m q1 q2 x.
Proof.
  intros Hq Hi.
  destruct (Msg.use_pop_del _ _ Hi) as [[Hp Hpop] | (m & q1 & q2 & Hpop & Hdel & Hs1 & Hs2 & Hq1 & Hn & Hq2 & Hp1 & Hp2 & Hf)].
  { left. split; [done |]. by eexists. }
  right. destruct (Typed.pop_ok q hs Hq Hi) as [[_ E] | (m' & q1' & E & Hk1 & _ & _ & _ & _ & Hf1)]; rewrite Hpop in E; [done |].
  injection E as <- <-. destruct (Typed.ready_at q1 (m :: hs) m Hk1 Hq1) as (x & Hx & [_ Hroom] & Hr & _); [left; constructor |].
  exists m, q1, q2, x. split; try done.
  - eapply que_ok_same; [exact Hs2 | | exact Hq]. intros y Hy. rewrite Hf. apply elem_of_app. by left.
  - destruct (Typed.data_at q q1 m x Hs1 Hx) as (y & Hy & Ey). specialize (Hs2 m). rewrite Hy in Hs2.
    destruct (Msg.store q2 !! m) as [x' |]; [| done]. exists x'. split; [done |]. apply (inj Some) in Hs2. congruence.
  - by rewrite Hf, last_snoc.
  - intros Ht. split; [by apply Hroom | by apply Hr].
Qed.

(** ** Putting a message in *)

Lemma request_ok back hs q t e1 e2 : que_ok q -> Msg.qinv q hs -> t = ABORT \/ t = START ->
  exists r q', request back t e1 e2 q = Ret (r, q') /\ que_ok q' /\ Msg.qinv q' hs.
Proof.
  intros Hk Hi Ht. unfold request. assert (Hne : t <> RSP) by (destruct tags_ne as (? & ? & ?), Ht; congruence).
  destruct (Typed.new_ok q hs t Hk Hi) as [(r & -> & _) | (m & q1 & x & -> & Ex & Hkx & Hx & _ & Hw)]; cbn [cbind]; [by exists e1, q |].
  destruct (Hw (Msg.len x) (Msg.value x)) as (q2 & a & b & E & Hk2 & Hi2 & _). rewrite (Typed.write_same _ _ _ Ex) in E. rewrite E. cbn [cbind].
  exists 0, q2. split_and!; [done | | done]. apply Hk2; [| intros Et; cbn in Et; congruence]. destruct Hkx as [H1 _]. rewrite Hx in H1.
  split; [exact H1 |]. intros Et. cbn in Et. congruence.
Qed.

(** A free message for an answer, and the answer written into it. *)
Lemma deliver_cases hs q frame : que_ok q -> Msg.qinv q hs -> Z.of_nat (length frame) <= rsp_size ->
  deliver RSP frame q = Ret (-6, q) \/
  exists q' m x stale a b, deliver RSP frame q = Ret (0, q') /\ Msg.qinv q' hs /\ (rsp_ok frame -> que_ok q') /\
    Msg.pend q = a ++ b /\ Msg.pend q' = a ++ m :: b /\ Msg.store q' !! m = Some x /\
    Msg.tag x = RSP /\ Msg.value x = frame ++ stale /\ Msg.len x = Z.of_nat (length frame) /\ length (frame ++ stale) = Z.to_nat rsp_size.
Proof.
  intros Hk Hi Hl. unfold deliver.
  destruct (Typed.new_ok q hs RSP Hk Hi) as [(r & -> & _) | (m & q1 & x & -> & Ex & [Ht Hroom] & Hx & _ & Hw)]; cbn [cbind]; [by left | right].
  rewrite Ex. cbn [cbind]. destruct (Hroom Hx) as [Hlen Hb]. set (stale := drop (length frame) (Msg.value x)).
  assert (Hblit : blit (Msg.value x) 0 frame = Ret (frame ++ stale)).
  { rewrite <- (take_drop (length frame) (Msg.value x)) at 1. apply Mgmt.blit_app_head. rewrite length_take. lia. }
  assert (Hls : length (frame ++ stale) = Z.to_nat rsp_size) by (unfold stale; rewrite length_app, length_drop; lia).
  rewrite Hblit. cbn [cbind].
  destruct (Hw (Z.of_nat (length frame)) (frame ++ stale)) as (q2 & a & b & -> & Hk2 & Hi2 & Hab & Hab' & _ & _ & Hm). cbn [cbind].
  destruct (Msg.store q2 !! m) as [y |] eqn:Ey; [| done]. injection Hm as _ E2 E3 E4. change (nz 0) with false. cbn iota.
  exists q2, m, y, stale, a, b. split_and!; try done. intros Hf. apply Hk2.
  - split; [by left |]. intros _. split; [exact Hls |]. apply bytes_ok_app. split; [by apply rsp_bytes | by apply Forall_drop].
  - intros _. by exists frame, stale.
Qed.

Lemma deliver_ok hs q frame : que_ok q -> Msg.qinv q hs -> rsp_ok frame -> Z.of_nat (length frame) <= rsp_size ->
  exists r q', deliver RSP frame q = Ret (r, q') /\ que_ok q' /\ Msg.qinv q' hs.
Proof.
  intros Hk Hi Hr Hl. destruct (deliver_cases hs q frame Hk Hi Hl) as [-> | (q' & m & x & stale & a & b & -> & Hi' & Hk' & _)]; [by exists (-6), q |].
  exists 0, q'. split_and!; [done | by apply Hk' | done].
Qed.

(** The only pending message is the frame delivered, whatever it holds. *)
Lemma deliver_only hs q frame q' : que_ok q -> Msg.qinv q hs -> Z.of_nat (length frame) <= rsp_size -> Msg.pend q = [] ->
  deliver RSP frame q = Ret (0, q') ->
  Msg.qinv q' hs /\ exists m x stale, Msg.pend q' = [m] /\ Msg.store q' !! m = Some x /\ Msg.tag x = RSP /\
    Msg.value x = frame ++ stale /\ Msg.len x = Z.of_nat (length frame) /\ length (frame ++ stale) = Z.to_nat rsp_size.
Proof.
  intros Hk Hi Hl Hp E. destruct (deliver_cases hs q frame Hk Hi Hl) as [E' | (q2 & m & x & stale & a & b & E' & Hi' & _ & Hab & Hab' & H)];
    rewrite E' in E; [done |]. injection E as ->. split; [done |]. rewrite Hp in Hab. symmetry in Hab. apply app_eq_nil in Hab as [-> ->].
  by exists m, x, stale.
Qed.

(** ** The messages *)

Lemma class_alloc q ms t size zero ids : Typed.filling q ms -> tag_ok t -> (t = RSP -> zero = replicate (Z.to_nat rsp_size) 0) -> NoDup (ids ++ ms) ->
  exists q', Msg.wf_msg_alloc q t size zero (map Some ids) = Ret (0, q') /\ Typed.filling q' (ids ++ ms).
Proof.
  intros Hf Ht Hz Hnd. apply Typed.alloc_ok; [| | done | done].
  - destruct tags_u16 as (? & ? & ?), Ht as [-> | [-> | ->]]; done.
  - split; [done |]. intros E. cbn in E. unfold room. cbn. rewrite (Hz E), length_replicate. split; [done |]. apply Forall_replicate. unfold is_u8. lia.
Qed.

Lemma msg_init_ok a1 a2 b c : NoDup [a1; a2; b; c] ->
  exists q, msg_init RSP rsp_size ABORT START [Some a1; Some a2] (Some b) (Some c) = Ret (0, q) /\ que_ok q /\ Msg.qinv q [].
Proof.
  intros Hnd. unfold msg_init. destruct tags_ne as (Hne1 & Hne2 & _).
  assert (H3 : NoDup ([c] ++ [b] ++ [a1; a2] ++ [])) by (refine (proj1 (NoDup_Permutation_proper _ _ _) Hnd); cbn; solve_Permutation).
  pose proof (NoDup_cons_1_2 _ _ H3) as H2. pose proof (NoDup_cons_1_2 _ _ H2) as H1.
  destruct (class_alloc Msg.wf_msg_init [] RSP rsp_size (replicate (Z.to_nat rsp_size) 0) [a1; a2] Typed.fresh_filling) as (q1 & E1 & F1);
    [by left | done | done |].
  destruct (class_alloc q1 _ ABORT 0 [] [b] F1) as (q2 & E2 & F2); [right; by left | done | done |].
  destruct (class_alloc q2 _ START 0 [] [c] F2) as (q3 & E3 & [F3 F4 _ _]); [right; by right | done | done |].
  cbn [map] in E1, E2, E3. rewrite E1. cbn [cbind]. change (nz 0) with false. cbn iota. rewrite E2. cbn [cbind].
  change (nz 0) with false. cbn iota. rewrite E3. cbn [cbind]. by exists q3.
Qed.

(** A message that nobody gave back. *)
Lemma held_nowhere (q : que) hs m : Msg.qinv q (m :: hs) -> m ∉ Msg.pend q ++ Msg.free q.
Proof.
  intros Hq Hm. assert (Hh : Msg.held q m) by (apply (Msg.qi_held _ _ Hq); constructor). unfold Msg.held in Hh.
  apply elem_of_app in Hm as [Hm | Hm].
  - apply (Msg.ok_pque _ (Msg.qi_ok _ _ Hq) Msg.Pend) in Hm. congruence.
  - apply (Msg.ok_pque _ (Msg.qi_ok _ _ Hq) Msg.Free) in Hm. congruence.
Qed.
End Invariant.
End Request.
