(* ===== verification/Action.v ===== *)
(** * Block acknowledgment action frames ([nic/action.c])

    The agreement frames a node sends and what it makes of those it receives.
    Handing a response to the management thread ([wf_mlme_add_ba_rsp]) and
    sending are calls; the rest of the code works on the node and on the
    fields [barsp_parm], [bareq_parm] and [baCreating] of [mlme_info_t]. *)
From S2P Require Import Prelude WdnTypes Wdn Ies Io Mgmt.

Module Action.
Import Io.

Definition WF_INFRA_MODE : Z := 2.
Definition WF_MASTER_MODE : Z := 3.
Definition WF_WLAN_CATEGORY_BACK : Z := 3.
Definition WF_WLAN_ACTION_ADDBA_REQ : Z := 0.
Definition WF_WLAN_ACTION_ADDBA_RESP : Z := 1.
Definition WF_WLAN_ACTION_DELBA : Z := 2.
Definition IEEE80211_ADDBA_PARAM_TID_MASK : Z := 0x003C.
Definition IEEE80211_ADDBA_PARAM_BUF_SIZE_MASK : Z := 0xFFC0.
Definition IEEE80211_DELBA_PARAM_TID_MASK : Z := 0xF000.
Definition IEEE80211_DELBA_PARAM_INITIATOR_MASK : Z := 0x0800.
Definition WLANHDR_OFFSET : Z := 64.
Definition TID_NUM : nat := 16.

Record wf_add_ba_parm_st : Type := mk_parm {
  tid : Z;
  start_seq : Z;
  param : Z;
  timeout : Z;
  policy : Z;
  status : Z;
  size : Z;
  dialog : Z;
}.

(** The fields of [mlme_info_t] the block acknowledgment code uses. *)
Record mlme_ba : Type := mk_mlme_ba {
  barsp_parm : wf_add_ba_parm_st;
  bareq_parm : wf_add_ba_parm_st;
  baCreating : Z;
}.

Definition set_baCreating (v : Z) (m : mlme_ba) : mlme_ba := mk_mlme_ba (barsp_parm m) (bareq_parm m) v.
Definition set_barsp_tid (v : Z) (m : mlme_ba) : mlme_ba :=
  let p := barsp_parm m in
  mk_mlme_ba (mk_parm v (start_seq p) (param p) (timeout p) (policy p) (status p) (size p) (dialog p))
    (bareq_parm m) (baCreating m).
Definition set_bareq_tid (v : Z) (m : mlme_ba) : mlme_ba :=
  let p := bareq_parm m in
  mk_mlme_ba (barsp_parm m)
    (mk_parm v (start_seq p) (param p) (timeout p) (policy p) (status p) (size p) (dialog p)) (baCreating m).

(** Calls: the transmit buffer (zero for none), the transmission, and the
    messages to the management thread and to the access point's. *)
Inductive ev : Type :=
  | ExtbufNew
  | MgmtXmit (frame : list Z)
  | AddBaRsp (p : wf_add_ba_parm_st)
  | AddBaReq
  | ApMsgLoad
  | PublicFrame (frame : list Z)
  | P2pFrame (frame : list Z).

Definition get_rx_ampdu_size (max_rx_ampdu_factor : Z) : Z :=
  if max_rx_ampdu_factor =? 3 then 64
  else if max_rx_ampdu_factor =? 2 then 32
  else if max_rx_ampdu_factor =? 1 then 16
  else if max_rx_ampdu_factor =? 0 then 8
  else 64.

Definition set_size (v : Z) (p : wf_add_ba_parm_st) : wf_add_ba_parm_st :=
  mk_parm (tid p) (start_seq p) (param p) (timeout p) (policy p) (status p) v (dialog p).

Definition action_frame_add_ba_response (factor : Z) (p : wf_add_ba_parm_st) : io ev Z :=
  let! rst := call (AddBaRsp (set_size (get_rx_ampdu_size factor) p)) in
  iret (if nz rst then -1 else 0).

(** [WF_GET_LE16] and a byte of [frame_body], which starts behind category and
    action code. *)
Definition body16 (pkt : list Z) (i : Z) : C Z := Mgmt.get16 pkt (26 + i).
Definition body8 (pkt : list Z) (i : Z) : C Z := rd pkt (26 + i).

(** The request of a peer; its buffer size is read but replaced by the own. *)
Definition parse_addba_req (pkt : list Z) : C wf_add_ba_parm_st :=
  letc dialog_token := body8 pkt 0 in
  letc param := body16 pkt 1 in
  letc timeout := body16 pkt 3 in
  letc seqctrl := body16 pkt 5 in
  Ret (mk_parm (Z.shiftr (Z.land param 0x3c) 2) (Z.shiftr seqctrl 4) param timeout
         (u8 (Z.shiftr (Z.land param 0x2) 1)) 0
         (u8 (Z.shiftr (u8 (Z.land param (Z.lnot 0xe03f))) 6)) dialog_token).

Definition set_bitmaps (agg cand : Z) (w : Wi.wdn_net_info_st) : Wi.wdn_net_info_st :=
  Wi.set_htpriv (HtPriv.set_agg_enable_bitmap agg (HtPriv.set_candidate_tid_bitmap cand (Wi.htpriv w))) w.
Definition agg (w : Wi.wdn_net_info_st) : Z := HtPriv.agg_enable_bitmap (Wi.htpriv w).
Definition cand (w : Wi.wdn_net_info_st) : Z := HtPriv.candidate_tid_bitmap (Wi.htpriv w).

Definition parse_addba_resp (pkt : list Z) (w : Wi.wdn_net_info_st) : C Wi.wdn_net_info_st :=
  letc status := body16 pkt 1 in
  letc b3 := body8 pkt 3 in
  let tid := Z.land (Z.shiftr b3 2) 0x7 in
  if status =? 0 then
    let w := set_bitmaps (u8 (Z.lor (agg w) (Z.shiftl 1 tid))) (u8 (Z.land (cand w) (Z.lnot (BIT tid)))) w in
    Ret (if nz (Z.land b3 1) then Wi.set_htpriv (HtPriv.set_tx_amsdu_enable 1 (Wi.htpriv w)) w else w)
  else Ret (set_bitmaps (u8 (Z.land (agg w) (Z.lnot (BIT tid)))) (cand w) w).

Definition parse_delba (pkt : list Z) (w : Wi.wdn_net_info_st) : C Wi.wdn_net_info_st :=
  letc b0 := body8 pkt 0 in
  if Z.land b0 (BIT 3) =? 0 then
    let tid := Z.land (Z.shiftr b0 4) 0x0F in
    letc _ := body16 pkt 2 in
    Ret (set_bitmaps (u8 (Z.land (agg w) (Z.lnot (Z.shiftl 1 tid)))) (u8 (Z.land (cand w) (Z.lnot (Z.shiftl 1 tid)))) w)
  else Ret w.

(** [action_frame_block_ack]: the result, the node and [mlme_info]. *)
Definition action_frame_block_ack (factor mode : Z) (pkt : list Z) (pkt_len : Z)
    (w : option Wi.wdn_net_info_st) (m : mlme_ba) : io ev (Z * option Wi.wdn_net_info_st * mlme_ba) :=
  if pkt_len =? 0 then iret (-1, w, m)
  else
    let! action := lift (rd pkt 25) in
    match w with
    | None => iret (-1, None, m)
    | Some w =>
        if action =? WF_WLAN_ACTION_ADDBA_REQ then
          if mode =? WF_INFRA_MODE then
            let! p := lift (parse_addba_req pkt) in
            do! action_frame_add_ba_response factor p in
            iret (0, Some w, m)
          else if mode =? WF_MASTER_MODE then
            do! call ApMsgLoad in
            iret (0, Some w, m)
          else iret (0, Some w, m)
        else if action =? WF_WLAN_ACTION_ADDBA_RESP then
          let! w := lift (parse_addba_resp pkt w) in
          iret (0, Some w, set_baCreating 0 m)
        else if action =? WF_WLAN_ACTION_DELBA then
          let! w := lift (parse_delba pkt w) in
          iret (0, Some w, m)
        else iret (0, Some w, m)
    end.

Definition WIFI_FW_AP_STATE : Z := 3.
Definition WF_WLAN_CATEGORY_PUBLIC : Z := 4.
Definition WF_WLAN_CATEGORY_P2P : Z := 0x7f.

(** [wf_action_frame_process]: [state] and [connect] are those of [mlme_info],
    [p2p] whether the interface has a peer-to-peer component; public and
    peer-to-peer frames are handed to it. *)
Definition wf_action_frame_process (factor mode ba_enable state connect : Z) (p2p : bool) (pkt : list Z) (len : Z)
    (w : option Wi.wdn_net_info_st) (m : mlme_ba) : io ev (Z * option Wi.wdn_net_info_st * mlme_ba) :=
  let! category := lift (rd pkt 24) in
  if negb (Z.land state 0x03 =? WIFI_FW_AP_STATE) && (connect =? 0) && negb p2p then iret (0, w, m)
  else if category =? WF_WLAN_CATEGORY_BACK then
    if ba_enable =? 1 then
      let! (_, w, m) := action_frame_block_ack factor mode pkt len w m in
      iret (0, w, m)
    else iret (0, w, m)
  else if category =? WF_WLAN_CATEGORY_PUBLIC then
    do! call (PublicFrame pkt) in
    iret (0, w, m)
  else if category =? WF_WLAN_CATEGORY_P2P then
    do! call (P2pFrame pkt) in
    iret (0, w, m)
  else iret (0, w, m).

(** ** Sending *)

(** A frame under construction: buffer, position and length. *)
Definition put_fixed (f : list Z * Z * Z) (src : list Z) : C (list Z * Z * Z) :=
  let '(buf, pos, len) := f in
  Ies.wf_80211_set_fixed_ie buf pos (Z.of_nat (length src)) src len.

Definition rsp_para_set (p : wf_add_ba_parm_st) : Z :=
  let s := param p in
  let s := Z.land s (Z.lnot IEEE80211_ADDBA_PARAM_TID_MASK) in
  let s := u16 (Z.lor s (Z.land (Z.shiftl (tid p) 2) IEEE80211_ADDBA_PARAM_TID_MASK)) in
  let s := Z.land s (Z.lnot IEEE80211_ADDBA_PARAM_BUF_SIZE_MASK) in
  let s := u16 (Z.lor s (Z.land (Z.shiftl (size p) 6) IEEE80211_ADDBA_PARAM_BUF_SIZE_MASK)) in
  Z.land s (Z.lnot (BIT 0)).

Definition body_addba_resp (p : wf_add_ba_parm_st) (f : list Z * Z * Z) : C (list Z * Z * Z) :=
  letc f := put_fixed f [u8 (dialog p)] in
  letc f := put_fixed f (le_bytes 2 (status p)) in
  letc f := put_fixed f (le_bytes 2 (rsp_para_set p)) in
  put_fixed f (le_bytes 2 (timeout p)).

(** The request: the frame, the node and [mlme_info]. *)
Definition body_addba_req (m : mlme_ba) (w : Wi.wdn_net_info_st) (f : list Z * Z * Z)
    : C (list Z * Z * Z * Wi.wdn_net_info_st * mlme_ba) :=
  let m := set_baCreating 1 m in
  let t := tid (bareq_parm m) in
  letc d := rd (Wi.dialogToken w) t in
  let d := u8 (d + 1) in
  let d := if 7 <? d then 1 else d in
  letc tokens := wr (Wi.dialogToken w) t d in
  let w := Wi.set_dialogToken tokens w in
  letc f := put_fixed f [d] in
  let ba_para_set := u16 (Z.lor 0x1002 (Z.shiftl (Z.land t 0xf) 2)) in
  letc f := put_fixed f (le_bytes 2 ba_para_set) in
  letc f := put_fixed f (le_bytes 2 5000) in
  letc txseq := rd (Wi.txseq_tid w) t in
  let start_seq := u16 (Z.land txseq 0xfff + 1) in
  letc seqs := wr (Wi.ba_starting_seqctrl w) t start_seq in
  let w := Wi.set_ba_starting_seqctrl seqs w in
  letc f := put_fixed f (le_bytes 2 (u16 (Z.shiftl start_seq 4))) in
  Ret (f, w, m).

Definition body_delba (p : wf_add_ba_parm_st) (f : list Z * Z * Z) : C (list Z * Z * Z) :=
  let initiator := 0 in
  let ba_para_set := Z.lor (u16 (Z.land (Z.shiftl (tid p) 12) IEEE80211_DELBA_PARAM_TID_MASK))
                           (Z.land (Z.shiftl initiator 11) IEEE80211_DELBA_PARAM_INITIATOR_MASK) in
  letc f := put_fixed f (le_bytes 2 ba_para_set) in
  put_fixed f (le_bytes 2 (status p)).

(** [wf_action_frame_ba_to_issue] once the node is found; [buf] is what the
    transmit buffer holds behind its descriptor. *)
Definition wf_action_frame_ba_to_issue (local buf : list Z) (action : Z)
    (w : option Wi.wdn_net_info_st) (m : mlme_ba) : io ev (Z * option Wi.wdn_net_info_st * mlme_ba) :=
  match w with
  | None => iret (-1, None, m)
  | Some w =>
      let! b := call ExtbufNew in
      if negb (nz b) then iret (-1, Some w, m)
      else
        let! buf := lift (Mgmt.write_hdr buf WLANHDR_OFFSET Mgmt.WF_80211_FRM_ACTION (Wi.mac w) local (Wi.bssid w)) in
        let! f := lift (put_fixed (buf, 24, 24) [WF_WLAN_CATEGORY_BACK]) in
        let! f := lift (put_fixed f [action]) in
        let! (f, w, m) := lift
          (if action =? WF_WLAN_ACTION_ADDBA_RESP then
             letc f := body_addba_resp (barsp_parm m) f in Ret (f, w, m)
           else if action =? WF_WLAN_ACTION_ADDBA_REQ then body_addba_req m w f
           else if action =? WF_WLAN_ACTION_DELBA then
             letc f := body_delba (barsp_parm m) f in Ret (f, w, m)
           else Ret (f, w, m)) in
        let '(buf, _, pkt_len) := f in
        let! frame := lift (slice buf 0 pkt_len) in
        let! rst := call (MgmtXmit frame) in
        iret (rst, Some w, m)
  end.

(** What [wf_action_frame_add_ba_request] reads of [struct xmit_frame]. *)
Record xmit_frame : Type := mk_xmit {
  bmcast : bool;
  priority : Z;
  frame_tag : Z;
  ether_type : Z;
  dhcp_pkt : Z;
}.
Definition DATA_FRAMETAG : Z := 1.

Definition wf_action_frame_add_ba_request (xf : xmit_frame) (w : option Wi.wdn_net_info_st) (m : mlme_ba)
    : io ev (Z * option Wi.wdn_net_info_st * mlme_ba) :=
  if bmcast xf then iret (-1, w, m)
  else
    match w with
    | None => iret (-1, None, m)
    | Some w =>
        let! en := lift (rd (Wi.ba_enable_flag w) (priority xf)) in
        if en =? 1 then iret (-1, Some w, m)
        else if (HtPriv.ht_option (Wi.htpriv w) =? 1) && (HtPriv.ampdu_enable (Wi.htpriv w) =? 1) then
          let issued := Z.lor (Z.land (Z.shiftr (agg w) (priority xf)) 1) (Z.land (Z.shiftr (cand w) (priority xf)) 1) in
          if (issued =? 0) && (frame_tag xf =? DATA_FRAMETAG) && negb (ether_type xf =? 0x0806) &&
             negb (ether_type xf =? 0x888e) && negb (dhcp_pkt xf =? 1)
          then
            let w := set_bitmaps (agg w) (u8 (Z.lor (cand w) (BIT (priority xf)))) w in
            let m := set_bareq_tid (priority xf) m in
            let! flags := lift (wr (Wi.ba_enable_flag w) (priority xf) 1) in
            do! call AddBaReq in
            iret (0, Some (Wi.set_ba_enable_flag flags w), m)
          else iret (-1, Some w, m)
        else iret (-1, Some w, m)
    end.

(** The loop of [wf_action_frame_del_ba_request] over the identifiers from
    [t] on. *)
Fixpoint del_ba_from (n : nat) (t : Z) (local buf : list Z) (w : Wi.wdn_net_info_st) (m : mlme_ba)
    : io ev (Wi.wdn_net_info_st * mlme_ba) :=
  match n with
  | O => iret (w, m)
  | S n =>
      let! started := lift (rd (Wi.ba_started_flag w) t) in
      if started =? 1 then
        let m := set_barsp_tid t m in
        let! (_, _, m) := wf_action_frame_ba_to_issue local buf WF_WLAN_ACTION_DELBA (Some w) m in
        let! st := lift (wr (Wi.ba_started_flag w) t 0) in
        let! en := lift (wr (Wi.ba_enable_flag w) t 0) in
        del_ba_from n (t + 1) local buf (Wi.set_ba_enable_flag en (Wi.set_ba_started_flag st w)) m
      else del_ba_from n (t + 1) local buf w m
  end.

Definition wf_action_frame_del_ba_request (local buf : list Z) (w : option Wi.wdn_net_info_st) (m : mlme_ba)
    : io ev (Z * option Wi.wdn_net_info_st * mlme_ba) :=
  match w with
  | None => iret (0, None, m)
  | Some w =>
      let '(alive, w) := Wdn.wf_wdn_is_alive w 1 in
      if negb alive then
        let! (w, m) := del_ba_from TID_NUM 0 local buf w m in
        iret (0, Some (set_bitmaps 0 0 w), m)
      else iret (0, Some w, m)
  end.

(** ** What is sent *)

(** A buffer that holds the frame [a] so far. *)
Definition frame_at (a rest : list Z) : list Z * Z * Z := (a ++ rest, Z.of_nat (length a), Z.of_nat (length a)).

Lemma put_fixed_append a rest src :
  (length src <= length rest)%nat -> Z.of_nat (length a + length src) < 65536 ->
  put_fixed (frame_at a rest) src = Ret (frame_at (a ++ src) (drop (length src) rest)).
Proof.
  intros Hl Hu. unfold put_fixed, frame_at. rewrite Mgmt.set_fixed_append by lia.
  by rewrite !length_app, Nat2Z.inj_add.
Qed.

(** A node as the table keeps it. *)
Definition node_ok (w : Wi.wdn_net_info_st) : Prop :=
  Mgmt.addr_ok (Wi.mac w) /\ Mgmt.addr_ok (Wi.bssid w) /\
  length (Wi.dialogToken w) = 16%nat /\ length (Wi.txseq_tid w) = 16%nat /\
  length (Wi.ba_starting_seqctrl w) = 16%nat /\ is_u8 (agg w) /\ is_u8 (cand w).

Definition head_bytes (w : Wi.wdn_net_info_st) (local : list Z) (action : Z) : list Z :=
  Mgmt.hdr 0xD0 (Wi.mac w) local (Wi.bssid w) ++ [WF_WLAN_CATEGORY_BACK; action].

Section Send.
Context (local buf : list Z) (w : Wi.wdn_net_info_st) (m : mlme_ba).
Hypothesis Hl : Mgmt.addr_ok local.
Hypothesis Hb : 64 <= Z.of_nat (length buf).
Hypothesis Hw : node_ok w.

Definition tail_bytes : list Z := replicate 38 0 ++ drop 64 buf.

Lemma length_head action : length (head_bytes w local action) = 26%nat.
Proof.
  unfold head_bytes. rewrite length_app, Mgmt.length_hdr by (apply Hw || done). done.
Qed.

Lemma length_tail : (38 <= length tail_bytes)%nat.
Proof. unfold tail_bytes. rewrite length_app, length_replicate. lia. Qed.

(** The frame around a body: written by [body] behind the header and sent. *)
Lemma issue_frame action (body : list Z * Z * Z -> C (list Z * Z * Z * Wi.wdn_net_info_st * mlme_ba)) bytes w' m' :
  body (frame_at (head_bytes w local action) tail_bytes) =
    Ret (frame_at (head_bytes w local action ++ bytes) (drop (length bytes) tail_bytes), w', m') ->
  (forall f, (if action =? WF_WLAN_ACTION_ADDBA_RESP then letc f := body_addba_resp (barsp_parm m) f in Ret (f, w, m)
              else if action =? WF_WLAN_ACTION_ADDBA_REQ then body_addba_req m w f
              else if action =? WF_WLAN_ACTION_DELBA then letc f := body_delba (barsp_parm m) f in Ret (f, w, m)
              else Ret (f, w, m)) = body f) ->
  exec (wf_action_frame_ba_to_issue local buf action (Some w) m) [1] =
  Some ([(ExtbufNew, 1); (MgmtXmit (head_bytes w local action ++ bytes), 0)], (0, Some w', m')).
Proof.
  intros Hbody Hsel. unfold wf_action_frame_ba_to_issue. cbn [call ibind exec hd].
  change (negb (nz 1)) with false. cbn iota beta. destruct Hw as (Hmac & Hbss & _).
  rewrite Mgmt.write_hdr_eq by (done || (cbn; lia)). cbn [lift ibind].
  change (Z.to_nat WLANHDR_OFFSET) with 64%nat. change (64 - 24)%nat with 40%nat.
  set (h := Mgmt.hdr Mgmt.WF_80211_FRM_ACTION _ _ _).
  assert (Hh : length h = 24%nat) by (by apply Mgmt.length_hdr).
  change (replicate 40 0) with ([0; 0] ++ replicate 38 0). rewrite <- (app_assoc [0; 0]). fold tail_bytes.
  assert (E0 : (h ++ [0; 0] ++ tail_bytes, 24, 24) = frame_at h ([0; 0] ++ tail_bytes)) by (unfold frame_at; by rewrite Hh).
  rewrite E0, put_fixed_append by (cbn [length app]; rewrite ?Hh; lia). cbn [lift ibind].
  rewrite put_fixed_append by (rewrite ?length_app; cbn [length app drop]; rewrite ?Hh; lia). cbn [lift ibind].
  cbn [length app drop]. rewrite <- app_assoc. cbn [app].
  fold (head_bytes w local action). change (h ++ [WF_WLAN_CATEGORY_BACK; action]) with (head_bytes w local action).
  rewrite Hsel, drop_0, Hbody. cbn [lift ibind]. unfold frame_at. rewrite Mgmt.slice_app_head by done.
  cbn [lift ibind]. done.
Qed.

(** Writing the pieces of a body one after the other. *)
Definition puts (f : list Z * Z * Z) (srcs : list (list Z)) : C (list Z * Z * Z) :=
  foldl (fun c src => letc f := c in put_fixed f src) (Ret f) srcs.

Lemma puts_append srcs : forall a rest,
  (length (concat srcs) <= length rest)%nat -> Z.of_nat (length a + length (concat srcs)) < 65536 ->
  puts (frame_at a rest) srcs = Ret (frame_at (a ++ concat srcs) (drop (length (concat srcs)) rest)).
Proof.
  induction srcs as [| src srcs IH]; intros a rest Hlen Hu; cbn [concat] in *.
  { cbn. by rewrite app_nil_r, drop_0. }
  rewrite length_app in *. unfold puts. cbn [foldl cbind].
  rewrite put_fixed_append by lia. fold (puts (frame_at (a ++ src) (drop (length src) rest)) srcs).
  rewrite IH by (rewrite ?length_drop, ?length_app; lia). by rewrite drop_drop, app_assoc.
Qed.

Lemma puts_head action srcs :
  (length (concat srcs) <= 38)%nat ->
  puts (frame_at (head_bytes w local action) tail_bytes) srcs =
  Ret (frame_at (head_bytes w local action ++ concat srcs) (drop (length (concat srcs)) tail_bytes)).
Proof.
  intros Hn. pose proof length_tail. apply puts_append; rewrite ?length_head; lia.
Qed.
End Send.

(** A sequence of writes, however its binds are nested. *)
Ltac flat_puts := repeat (let f := fresh "f" in destruct (put_fixed _ _) as [f | |]; cbn [cbind]; [| done ..]).

(** The request for the identifier [t] of [bareq_parm]. *)
Section Request.
Context (w : Wi.wdn_net_info_st) (m : mlme_ba).
Let t := tid (bareq_parm m).

Definition next_token : Z := let d := u8 (nthZ (Wi.dialogToken w) t + 1) in if 7 <? d then 1 else d.
Definition first_seq : Z := u16 (Z.land (nthZ (Wi.txseq_tid w) t) 0xfff + 1).
Definition requested_w : Wi.wdn_net_info_st :=
  Wi.set_ba_starting_seqctrl (setZ (Wi.ba_starting_seqctrl w) t first_seq)
    (Wi.set_dialogToken (setZ (Wi.dialogToken w) t next_token) w).
Definition req_srcs : list (list Z) :=
  [[next_token]; le_bytes 2 (u16 (Z.lor 0x1002 (Z.shiftl (Z.land t 0xf) 2))); le_bytes 2 5000;
   le_bytes 2 (u16 (Z.shiftl first_seq 4))].

Lemma body_req_puts f : node_ok w -> 0 <= t < 16 ->
  body_addba_req m w f = letc f := puts f req_srcs in Ret (f, requested_w, set_baCreating 1 m).
Proof.
  intros (_ & _ & Hd & Htx & Hs & _) Ht. unfold body_addba_req, puts, req_srcs. cbn [bareq_parm set_baCreating]. fold t.
  rewrite (rd_nthZ (Wi.dialogToken w)) by lia. cbn [cbind foldl].
  rewrite (wr_setZ (Wi.dialogToken w)) by lia. cbn [cbind]. fold next_token.
  do 3 (destruct (put_fixed _ _) as [? | |]; cbn [cbind]; [| done ..]).
  change (Wi.txseq_tid (Wi.set_dialogToken _ w)) with (Wi.txseq_tid w).
  change (Wi.ba_starting_seqctrl (Wi.set_dialogToken _ w)) with (Wi.ba_starting_seqctrl w).
  rewrite (rd_nthZ (Wi.txseq_tid w)) by lia. cbn [cbind]. fold first_seq.
  rewrite (wr_setZ (Wi.ba_starting_seqctrl w)) by lia. cbn [cbind]. done.
Qed.
End Request.

(** ** What the receiver makes of it *)

Lemma body8_at h bytes i : length h = 26%nat -> 0 <= i -> body8 (h ++ bytes) i = rd bytes i.
Proof.
  intros Hh Hi. unfold body8, rd. destruct (Z.ltb_spec (26 + i) 0), (Z.ltb_spec i 0); try lia.
  rewrite lookup_app_r by lia. f_equal. f_equal. lia.
Qed.

Lemma body16_at h bytes i : length h = 26%nat -> 0 <= i -> body16 (h ++ bytes) i = Mgmt.get16 bytes i.
Proof.
  intros Hh Hi. unfold body16, Mgmt.get16, slice. rewrite length_app, Hh.
  destruct (Z.leb_spec 0 i), (Z.leb_spec 0 (26 + i)), (Z.leb_spec (i + 2) (Z.of_nat (length bytes))),
    (Z.leb_spec (26 + i + 2) (Z.of_nat (26 + length bytes))); try lia; [| done].
  change (0 <=? 2) with true. cbn [andb cbind]. do 3 f_equal.
  rewrite drop_app_ge by lia. f_equal. lia.
Qed.

(** A statement about the sixteen identifiers, checked for each. *)
Lemma forall_tid (P : Z -> bool) : forallb P (seqZ 0 16) = true -> forall t, 0 <= t < 16 -> P t = true.
Proof. intros H t Ht. rewrite forallb_forall in H. apply H, list_elem_of_In, elem_of_seqZ. lia. Qed.

Lemma req_param_read t : 0 <= t < 16 ->
  let p := u16 (Z.lor 0x1002 (Z.shiftl (Z.land t 0xf) 2)) in
  0 <= p < 65536 /\ Z.shiftr (Z.land p 0x3c) 2 = t /\ u8 (Z.shiftr (Z.land p 0x2) 1) = 1.
Proof.
  intros Ht p.
  pose proof (forall_tid (fun t => let p := u16 (Z.lor 0x1002 (Z.shiftl (Z.land t 0xf) 2)) in
    (0 <=? p) && (p <? 65536) && (Z.shiftr (Z.land p 0x3c) 2 =? t) && (u8 (Z.shiftr (Z.land p 0x2) 1) =? 1))
    eq_refl t Ht) as H. cbn beta zeta in H. fold p in H.
  rewrite !andb_true_iff, !Z.eqb_eq, Z.leb_le, Z.ltb_lt in H. tauto.
Qed.

Lemma rsp_param_read t s factor : 0 <= t < 16 -> s = get_rx_ampdu_size factor ->
  forall q, param q = u16 (Z.lor 0x1002 (Z.shiftl (Z.land t 0xf) 2)) -> tid q = t -> size q = s ->
  Z.land (Z.shiftr (u8 (rsp_para_set q)) 2) 0x7 = t mod 8 /\ Z.land (u8 (rsp_para_set q)) 1 = 0.
Proof.
  intros Ht Hs q Hp Htq Hsq.
  assert (Hs4 : s = 8 \/ s = 16 \/ s = 32 \/ s = 64)
    by (subst s; unfold get_rx_ampdu_size; repeat case_match; lia).
  pose proof (forall_tid (fun t => forallb (fun s =>
    let q := mk_parm t 0 (u16 (Z.lor 0x1002 (Z.shiftl (Z.land t 0xf) 2))) 0 0 0 s 0 in
    (Z.land (Z.shiftr (u8 (rsp_para_set q)) 2) 0x7 =? t mod 8) && (Z.land (u8 (rsp_para_set q)) 1 =? 0))
    [8; 16; 32; 64]) eq_refl t Ht) as H.
  rewrite forallb_forall in H. specialize (H s).
  assert (E : rsp_para_set q = rsp_para_set (mk_parm t 0 (u16 (Z.lor 0x1002 (Z.shiftl (Z.land t 0xf) 2))) 0 0 0 s 0))
    by (unfold rsp_para_set; cbn [param tid size]; by rewrite Hp, Htq, Hsq).
  rewrite E. cbn [In] in H. specialize (H ltac:(intuition)). cbn beta zeta in H.
  rewrite andb_true_iff, !Z.eqb_eq in H. tauto.
Qed.

Lemma first_seq_read w m :
  Z.shiftr (u16 (Z.shiftl (first_seq w m) 4)) 4 = (nthZ (Wi.txseq_tid w) (tid (bareq_parm m)) + 1) mod 4096.
Proof.
  unfold first_seq. set (x := nthZ _ _). change 0xfff with (Z.ones 12). rewrite Z.land_ones by lia.
  unfold u16. rewrite Z.shiftl_mul_pow2, Z.shiftr_div_pow2 by lia.
  change (2 ^ 12) with 4096. change (2 ^ 4) with 16.
  rewrite (Z.mod_small (x mod 4096 + 1)) by (Z.to_euclidean_division_equations; lia).
  change 65536 with (4096 * 16). rewrite Z.mul_mod_distr_r, Z.div_mul by lia.
  apply Z.add_mod_idemp_l. lia.
Qed.

Lemma u16_bytes x : 0 <= x < 65536 -> le_word (le_bytes 2 x) = x.
Proof. intros Hx. rewrite le_word_bytes. by apply Z.mod_small. Qed.

Lemma parse_req h w m :
  length h = 26%nat -> 0 <= tid (bareq_parm m) < 16 ->
  let t := tid (bareq_parm m) in
  exists p, parse_addba_req (h ++ concat (req_srcs w m)) = Ret p /\
    tid p = t /\ policy p = 1 /\ timeout p = 5000 /\ status p = 0 /\
    start_seq p = (nthZ (Wi.txseq_tid w) t + 1) mod 4096 /\ dialog p = next_token w m /\
    param p = u16 (Z.lor 0x1002 (Z.shiftl (Z.land t 0xf) 2)).
Proof.
  intros Hh Ht t. destruct (req_param_read t Ht) as (Hp & Ht' & Hpol). unfold parse_addba_req.
  unfold req_srcs. fold t. set (par := u16 (Z.lor _ _)) in *.
  set (sq := u16 (Z.shiftl (first_seq w m) 4)).
  assert (Hsq : 0 <= sq < 65536) by (unfold sq; apply u16_range).
  cbn [concat]. rewrite app_nil_r.
  rewrite body8_at, !body16_at by (done || lia). unfold Mgmt.get16.
  change (rd ([next_token w m] ++ ?l) 0) with (@Ret Z (next_token w m)). cbn [cbind].
  rewrite (slice_app_mid [next_token w m] (le_bytes 2 par)) by (by rewrite ?length_le_bytes). cbn [cbind].
  rewrite (app_assoc [next_token w m] (le_bytes 2 par)).
  rewrite (slice_app_mid _ (le_bytes 2 5000)) by (rewrite ?length_app, ?length_le_bytes; done). cbn [cbind].
  rewrite (app_assoc _ (le_bytes 2 5000)), <- (app_nil_r (le_bytes 2 sq)).
  rewrite (slice_app_mid _ (le_bytes 2 sq)) by (rewrite ?length_app, ?length_le_bytes; done). cbn [cbind]. rewrite !u16_bytes by (done || lia). eexists. split; [reflexivity |].
  cbn [tid policy timeout status start_seq dialog param]. split_and!; try done. apply first_seq_read.
Qed.

Definition rsp_srcs (p : wf_add_ba_parm_st) : list (list Z) :=
  [[u8 (dialog p)]; le_bytes 2 (status p); le_bytes 2 (rsp_para_set p); le_bytes 2 (timeout p)].

(** A frame with status zero for the identifier in bits 2-4 of its parameters. *)
Lemma parse_rsp h p t w :
  length h = 26%nat -> status p = 0 -> Z.land (Z.shiftr (u8 (rsp_para_set p)) 2) 0x7 = t ->
  Z.land (u8 (rsp_para_set p)) 1 = 0 ->
  parse_addba_resp (h ++ concat (rsp_srcs p)) w =
  Ret (set_bitmaps (u8 (Z.lor (agg w) (Z.shiftl 1 t))) (u8 (Z.land (cand w) (Z.lnot (BIT t)))) w).
Proof.
  intros Hh Hs Ht Ha. unfold parse_addba_resp. rewrite body8_at, body16_at by (done || lia).
  unfold rsp_srcs. cbn [concat]. rewrite app_nil_r. unfold Mgmt.get16.
  rewrite (slice_app_mid [u8 (dialog p)] (le_bytes 2 (status p))) by (by rewrite ?length_le_bytes).
  cbn [cbind]. rewrite Hs, u16_bytes by lia. change (0 =? 0) with true. cbn iota beta.
  change (rd ([?a] ++ le_bytes 2 0 ++ le_bytes 2 ?b ++ ?l) 3) with (@Ret Z (u8 b)). cbn [cbind].
  by rewrite Ht, Ha.
Qed.

Lemma testbit_u8 x i : 0 <= i < 8 -> Z.testbit (u8 x) i = Z.testbit x i.
Proof. intros. unfold u8. change 256 with (2 ^ 8). apply Z.mod_pow2_bits_low. lia. Qed.

Lemma set_bit x t i : 0 <= i < 8 -> 0 <= t -> Z.testbit (u8 (Z.lor x (Z.shiftl 1 t))) i = (i =? t) || Z.testbit x i.
Proof.
  intros Hi Ht. rewrite testbit_u8, Z.lor_spec by done. fold (BIT t). rewrite testbit_BIT by done.
  destruct (Z.eqb_spec i t); case_bool_decide; try lia; by rewrite ?orb_true_r, ?orb_false_r.
Qed.

Lemma clear_bit x t i : 0 <= i < 8 -> 0 <= t ->
  Z.testbit (u8 (Z.land x (Z.lnot (Z.shiftl 1 t)))) i = negb (i =? t) && Z.testbit x i.
Proof.
  intros Hi Ht. rewrite testbit_u8, Z.land_spec, Z.lnot_spec by lia. fold (BIT t). rewrite testbit_BIT by done.
  destruct (Z.eqb_spec i t); case_bool_decide; try lia; by rewrite ?andb_true_r, ?andb_false_r.
Qed.

(** ** The receiver of a frame this driver has built *)

Section Receive.
Context (factor : Z) (local : list Z) (w : Wi.wdn_net_info_st) (action : Z) (bytes : list Z).
Hypothesis Hl : Mgmt.addr_ok local.
Hypothesis Hw : node_ok w.
Let f := head_bytes w local action ++ bytes.

Lemma action_code : rd f 25 = Ret action.
Proof.
  unfold f, head_bytes. rewrite <- app_assoc. change ([?a; ?b] ++ ?l) with ([a] ++ b :: l). rewrite app_assoc.
  apply rd_app_mid. rewrite length_app, Mgmt.length_hdr by (done || apply Hw). done.
Qed.

Lemma frame_nonempty : (Z.of_nat (length f) =? 0) = false.
Proof. apply Z.eqb_neq. unfold f. rewrite length_app, length_head by done. lia. Qed.

Lemma block_ack_req p wp mp :
  action = WF_WLAN_ACTION_ADDBA_REQ -> parse_addba_req f = Ret p ->
  exec (action_frame_block_ack factor WF_INFRA_MODE f (Z.of_nat (length f)) (Some wp) mp) [] =
  Some ([(AddBaRsp (set_size (get_rx_ampdu_size factor) p), 0)], (0, Some wp, mp)).
Proof.
  intros Ha Hp. unfold action_frame_block_ack. rewrite frame_nonempty, action_code, Ha, Hp. done.
Qed.

Lemma block_ack_rsp mode wp mp wp' :
  action = WF_WLAN_ACTION_ADDBA_RESP -> parse_addba_resp f wp = Ret wp' ->
  exec (action_frame_block_ack factor mode f (Z.of_nat (length f)) (Some wp) mp) [] =
  Some ([], (0, Some wp', set_baCreating 0 mp)).
Proof.
  intros Ha Hp. unfold action_frame_block_ack. rewrite frame_nonempty, action_code, Ha.
  cbn [lift ibind]. change (WF_WLAN_ACTION_ADDBA_RESP =? WF_WLAN_ACTION_ADDBA_REQ) with false.
  change (WF_WLAN_ACTION_ADDBA_RESP =? WF_WLAN_ACTION_ADDBA_RESP) with true. cbn iota. by rewrite Hp.
Qed.

Lemma block_ack_del mode wp mp wp' :
  action = WF_WLAN_ACTION_DELBA -> parse_delba f wp = Ret wp' ->
  exec (action_frame_block_ack factor mode f (Z.of_nat (length f)) (Some wp) mp) [] =
  Some ([], (0, Some wp', mp)).
Proof.
  intros Ha Hp. unfold action_frame_block_ack. rewrite frame_nonempty, action_code, Ha.
  cbn [lift ibind]. change (WF_WLAN_ACTION_DELBA =? WF_WLAN_ACTION_ADDBA_REQ) with false.
  change (WF_WLAN_ACTION_DELBA =? WF_WLAN_ACTION_ADDBA_RESP) with false. cbn iota.
  change (WF_WLAN_ACTION_DELBA =? WF_WLAN_ACTION_DELBA) with true. cbn iota. by rewrite Hp.
Qed.
End Receive.

(** The frames sent, for a node of the table. *)
Section Issue.
Context (local buf : list Z) (w : Wi.wdn_net_info_st) (m : mlme_ba).
Hypothesis Hl : Mgmt.addr_ok local.
Hypothesis Hb : 64 <= Z.of_nat (length buf).
Hypothesis Hw : node_ok w.

Lemma issue_req : 0 <= tid (bareq_parm m) < 16 ->
  exec (wf_action_frame_ba_to_issue local buf WF_WLAN_ACTION_ADDBA_REQ (Some w) m) [1] =
  Some ([(ExtbufNew, 1); (MgmtXmit (head_bytes w local WF_WLAN_ACTION_ADDBA_REQ ++ concat (req_srcs w m)), 0)],
        (0, Some (requested_w w m), set_baCreating 1 m)).
Proof.
  intros Ht. apply (issue_frame local buf w m Hl Hb Hw _ (body_addba_req m w)); [| done].
  rewrite body_req_puts, puts_head by (done || (cbn; lia)). done.
Qed.

Lemma issue_rsp :
  exec (wf_action_frame_ba_to_issue local buf WF_WLAN_ACTION_ADDBA_RESP (Some w) m) [1] =
  Some ([(ExtbufNew, 1); (MgmtXmit (head_bytes w local WF_WLAN_ACTION_ADDBA_RESP ++ concat (rsp_srcs (barsp_parm m))), 0)],
        (0, Some w, m)).
Proof.
  apply (issue_frame local buf w m Hl Hb Hw _
           (fun f => letc f := puts f (rsp_srcs (barsp_parm m)) in Ret (f, w, m))).
  - rewrite puts_head by (done || (cbn; lia)). done.
  - intros f. unfold body_addba_resp, puts, rsp_srcs. cbn [foldl cbind]. by flat_puts.
Qed.

Definition del_srcs (p : wf_add_ba_parm_st) : list (list Z) :=
  [le_bytes 2 (u16 (Z.land (Z.shiftl (tid p) 12) IEEE80211_DELBA_PARAM_TID_MASK)); le_bytes 2 (status p)].

Lemma issue_del :
  exec (wf_action_frame_ba_to_issue local buf WF_WLAN_ACTION_DELBA (Some w) m) [1] =
  Some ([(ExtbufNew, 1); (MgmtXmit (head_bytes w local WF_WLAN_ACTION_DELBA ++ concat (del_srcs (barsp_parm m))), 0)],
        (0, Some w, m)).
Proof.
  apply (issue_frame local buf w m Hl Hb Hw _
           (fun f => letc f := puts f (del_srcs (barsp_parm m)) in Ret (f, w, m))).
  - rewrite puts_head by (done || (cbn; lia)). done.
  - intros f. unfold body_delba, puts, del_srcs. cbn [foldl cbind].
    change (Z.land (Z.shiftl 0 11) IEEE80211_DELBA_PARAM_INITIATOR_MASK) with 0. rewrite Z.lor_0_r. by flat_puts.
Qed.
End Issue.

(** C24: A block acknowledgment agreement between two devices running this
    driver in infrastructure mode.  The request for an identifier [t] (the one of [bareq_parm]) carries
    the next dialog token and the sequence number behind the last one sent; the
    peer reads from it exactly those, the policy and the timeout, answers with
    its own window size, and the requester reads from the answer that
    aggregation is agreed: of its two bitmaps exactly bit [t mod 8] changes, the
    aggregation bit is set and the candidate bit cleared, and [baCreating] is
    zero again. *)
Theorem addba_handshake factor factor' local plocal buf pbuf w wp m mp :
  Mgmt.addr_ok local -> Mgmt.addr_ok plocal -> 64 <= Z.of_nat (length buf) -> 64 <= Z.of_nat (length pbuf) ->
  node_ok w -> node_ok wp -> 0 <= tid (bareq_parm m) < 16 ->
  let t := tid (bareq_parm m) in
  exists F p F' w',
    exec (wf_action_frame_ba_to_issue local buf WF_WLAN_ACTION_ADDBA_REQ (Some w) m) [1] =
      Some ([(ExtbufNew, 1); (MgmtXmit F, 0)], (0, Some (requested_w w m), set_baCreating 1 m)) /\
    exec (action_frame_block_ack factor WF_INFRA_MODE F (Z.of_nat (length F)) (Some wp) mp) [] =
      Some ([(AddBaRsp p, 0)], (0, Some wp, mp)) /\
    (tid p = t /\ policy p = 1 /\ timeout p = 5000 /\ status p = 0 /\ size p = get_rx_ampdu_size factor /\
     start_seq p = (nthZ (Wi.txseq_tid w) t + 1) mod 4096 /\ dialog p = next_token w m) /\
    exec (wf_action_frame_ba_to_issue plocal pbuf WF_WLAN_ACTION_ADDBA_RESP (Some wp)
            (mk_mlme_ba p (bareq_parm mp) (baCreating mp))) [1] =
      Some ([(ExtbufNew, 1); (MgmtXmit F', 0)], (0, Some wp, mk_mlme_ba p (bareq_parm mp) (baCreating mp))) /\
    exec (action_frame_block_ack factor' WF_INFRA_MODE F' (Z.of_nat (length F'))
            (Some (requested_w w m)) (set_baCreating 1 m)) [] =
      Some ([], (0, Some w', set_baCreating 0 m)) /\
    forall i, 0 <= i < 8 ->
      Z.testbit (agg w') i = (i =? t mod 8) || Z.testbit (agg w) i /\
      Z.testbit (cand w') i = (negb (i =? t mod 8) && Z.testbit (cand w) i).
Proof.
  intros Hl Hpl Hb Hpb Hw Hwp Ht t.
  set (F := head_bytes w local WF_WLAN_ACTION_ADDBA_REQ ++ concat (req_srcs w m)).
  destruct (parse_req (head_bytes w local WF_WLAN_ACTION_ADDBA_REQ) w m) as (p & Hp & Hpt & Hpol & Hto & Hst & Hsq & Hdl & Hpar);
    [by apply length_head | done |].
  set (p' := set_size (get_rx_ampdu_size factor) p).
  destruct (rsp_param_read t _ factor Ht eq_refl p' Hpar Hpt eq_refl) as (Htid & Hams).
  exists F, p', (head_bytes wp plocal WF_WLAN_ACTION_ADDBA_RESP ++ concat (rsp_srcs p')).
  eexists. split; [by apply issue_req |]. split; [by apply block_ack_req |]. split; [done |].
  split; [by apply (issue_rsp plocal pbuf wp (mk_mlme_ba p' _ _)) |]. split.
  - rewrite (block_ack_rsp factor' plocal wp _ _ Hpl Hwp WF_INFRA_MODE _ _ _ eq_refl
               (parse_rsp _ p' (t mod 8) _ (length_head plocal wp Hpl Hwp _) Hst Htid Hams)). done.
  - intros i Hi. assert (0 <= t mod 8) by (apply Z.mod_pos_bound; lia).
    split; [by apply set_bit | by apply clear_bit].
Qed.

(** The end of an agreement names the wrong identifier.  Whatever
    identifier [t] the message this driver builds ends, the receiving side of
    the same driver reads identifier 0: it takes the identifier from the first
    byte of the parameter set instead of the second, and clears bit 0 of its
    bitmaps and no other. *)
Theorem delba_wrong_tid factor mode local buf w wp m mp :
  Mgmt.addr_ok local -> 64 <= Z.of_nat (length buf) -> node_ok w -> 0 <= tid (barsp_parm m) < 16 ->
  exists F w',
    exec (wf_action_frame_ba_to_issue local buf WF_WLAN_ACTION_DELBA (Some w) m) [1] =
      Some ([(ExtbufNew, 1); (MgmtXmit F, 0)], (0, Some w, m)) /\
    exec (action_frame_block_ack factor mode F (Z.of_nat (length F)) (Some wp) mp) [] =
      Some ([], (0, Some w', mp)) /\
    forall i, 0 <= i < 8 ->
      Z.testbit (agg w') i = (negb (i =? 0) && Z.testbit (agg wp) i) /\
      Z.testbit (cand w') i = (negb (i =? 0) && Z.testbit (cand wp) i).
Proof.
  intros Hl Hb Hw Ht. set (F := head_bytes w local WF_WLAN_ACTION_DELBA ++ concat (del_srcs (barsp_parm m))).
  exists F. eexists. split; [by apply issue_del |]. split.
  - apply (block_ack_del factor local w WF_WLAN_ACTION_DELBA (concat (del_srcs (barsp_parm m))) Hl Hw); [done |].
    unfold parse_delba. rewrite body8_at, body16_at by (by apply length_head || lia).
    assert (Hz : rd (concat (del_srcs (barsp_parm m))) 0 = Ret 0).
    { set (t := tid _) in *. unfold del_srcs. fold t. cbn [concat].
      change (rd (le_bytes 2 ?x ++ ?l) 0) with (@Ret Z (u8 x)). f_equal. apply Z.eqb_eq.
      exact (forall_tid (fun t => u8 (u16 (Z.land (Z.shiftl t 12) IEEE80211_DELBA_PARAM_TID_MASK)) =? 0) eq_refl t Ht). }
    rewrite Hz. cbn [cbind]. change (Z.land 0 (BIT 3) =? 0) with true. cbn iota.
    unfold Mgmt.get16, del_srcs. cbn [concat].
    rewrite (slice_app_mid _ (le_bytes 2 (status (barsp_parm m)))) by (by rewrite length_le_bytes).
    cbn [cbind]. reflexivity.
  - intros i Hi. split; by apply clear_bit.
Qed.

(** ** Examples *)

Definition ex_node : Wi.wdn_net_info_st := Wi.set_mac [2; 0; 0; 0; 0; 1] (Wi.set_bssid [2; 0; 0; 0; 0; 2] Wi.zero).
Definition ex_parm (t : Z) : wf_add_ba_parm_st := mk_parm t 0 0 0 0 0 0 0.
Definition ex_mlme (t : Z) : mlme_ba := mk_mlme_ba (ex_parm t) (ex_parm t) 0.

Ltac ex_addr := split; [done | repeat constructor; unfold is_u8; lia].

Lemma ex_node_ok : node_ok ex_node.
Proof. split_and!; first [ex_addr | unfold is_u8; cbn; lia | done]. Qed.

Lemma addba_handshake_witness :
  exists F p w',
    exec (wf_action_frame_ba_to_issue [2; 0; 0; 0; 0; 3] (replicate 64 0) WF_WLAN_ACTION_ADDBA_REQ
            (Some ex_node) (ex_mlme 5)) [1] =
      Some ([(ExtbufNew, 1); (MgmtXmit F, 0)], (0, Some (requested_w ex_node (ex_mlme 5)), set_baCreating 1 (ex_mlme 5))) /\
    tid p = 5 /\ (length F = 33)%nat /\ Z.testbit (agg w') 5 = true.
Proof.
  destruct (addba_handshake 3 3 [2; 0; 0; 0; 0; 3] [2; 0; 0; 0; 0; 4] (replicate 64 0) (replicate 64 0)
              ex_node ex_node (ex_mlme 5) (ex_mlme 0)) as (F & p & F' & w' & H1 & H2 & (Hp & _) & H3 & H4 & Hb);
    [ex_addr | ex_addr | done | done | apply ex_node_ok | apply ex_node_ok | cbn; lia |].
  exists F, p, w'. split; [done |]. split; [done |].
  destruct (Hb 5 ltac:(lia)) as [Ha _]. split; [| by rewrite Ha].
  vm_compute in H1. by injection H1 as <-.
Defined.

Lemma delba_wrong_tid_witness :
  exists F w',
    exec (wf_action_frame_ba_to_issue [2; 0; 0; 0; 0; 3] (replicate 64 0) WF_WLAN_ACTION_DELBA
            (Some ex_node) (ex_mlme 5)) [1] = Some ([(ExtbufNew, 1); (MgmtXmit F, 0)], (0, Some ex_node, ex_mlme 5)) /\
    exec (action_frame_block_ack 3 WF_INFRA_MODE F (Z.of_nat (length F))
            (Some (set_bitmaps 33 0 ex_node)) (ex_mlme 0)) [] = Some ([], (0, Some w', ex_mlme 0)) /\
    Z.testbit (agg w') 5 = true /\ Z.testbit (agg w') 0 = false.
Proof.
  destruct (delba_wrong_tid 3 WF_INFRA_MODE [2; 0; 0; 0; 0; 3] (replicate 64 0) ex_node (set_bitmaps 33 0 ex_node)
              (ex_mlme 5) (ex_mlme 0)) as (F & w' & H1 & H2 & Hb);
    [ex_addr | done | apply ex_node_ok | cbn; lia |].
  exists F, w'. split_and!; [done | done | |].
  - by rewrite (proj1 (Hb 5 ltac:(lia))).
  - by rewrite (proj1 (Hb 0 ltac:(lia))).
Defined.

End Action.
