(* ===== verification/Scan.v ===== *)
(** * Scanning ([nic/scan.c])

    [wf_scan_thrd] is a protothread: it takes the hardware lock and a start
    message, visits the channels of the request, waiting on each for answers,
    and gives everything back.  It is a function from the label a call resumes
    at; what happens between two of its calls, a start or a stop request or a
    received frame, are operations of their own on the same state. *)
From S2P Require Import Prelude Wdn Ies Timer Msg Io Mgmt.

Module Scan.
Import Io.

Definition WF_SCAN_TAG_ABORT : Z := Msg.WF_MSG_TAG_SET 0 0 0.
Definition WF_SCAN_TAG_START : Z := Msg.WF_MSG_TAG_SET 0 1 0.
Definition WF_SCAN_TAG_DONE : Z := WF_SCAN_TAG_START + 1.
Definition SCAN_TYPE_PASSIVE : Z := 0.
Definition SCAN_TYPE_ACTIVE : Z := 1.
Definition MAX_CHANNEL_NUM : nat := 14.
Definition WF_SCAN_REQ_SSID_NUM : nat := 9.
Definition WIFI_FW_NULL_STATE : Z := 0.
Definition WIFI_FW_STATION_STATE : Z := 2.
Definition CHANNEL_WIDTH_20 : Z := 0.
Definition HAL_PRIME_CHNL_OFFSET_DONT_CARE : Z := 0.
Definition WF_80211_MGMT_EID_SSID : Z := 0.
Definition WF_80211_MGMT_EID_SUPP_RATES : Z := 1.
Definition WF_80211_MGMT_EID_DS_PARAMS : Z := 3.
Definition WF_80211_MGMT_EID_EXT_SUPP_RATES : Z := 50.

Record wf_wlan_ssid_t : Type := mk_ssid {
  ssid_length : Z;
  ssid_data : list Z;
}.

Record wf_scan_req_t : Type := mk_req {
  type : Z;
  bssid : list Z;
  ssids : list wf_wlan_ssid_t;
  ssid_num : Z;
  ch_map : list Z;
  ch_num : Z;
}.

Definition zero_ssid : wf_wlan_ssid_t := mk_ssid 0 (replicate 33 0).
Definition zero_req : wf_scan_req_t :=
  mk_req 0 (replicate 6 0) (replicate WF_SCAN_REQ_SSID_NUM zero_ssid) 0 (replicate MAX_CHANNEL_NUM 0) 0.

Definition sizeof_scan_req : Z := 388.

Definition set_channels (chs : list Z) (n : Z) (q : wf_scan_req_t) : wf_scan_req_t :=
  mk_req (type q) (bssid q) (ssids q) (ssid_num q) chs n.

(** [wf_scan_info_t]; [preq] is the message whose value the request is, and the
    semaphores are calls.  [chnl_bak] is the channel number, width and offset. *)
Module Si.
Record wf_scan_info_t : Type := mk {
  ch_idx : Z;
  retry_cnt : Z;
  brun : bool;
  timer : Timer.wf_timer_t;
  pass_time : Timer.wf_timer_t;
  preq : option Z;
  msg_que : Msg.wf_msg_que_t wf_scan_req_t;
  chnl_bak : Z * Z * Z;
}.

Definition set_ch_idx (v : Z) (r : wf_scan_info_t) : wf_scan_info_t :=
  mk v (retry_cnt r) (brun r) (timer r) (pass_time r) (preq r) (msg_que r) (chnl_bak r).
Definition set_retry_cnt (v : Z) (r : wf_scan_info_t) : wf_scan_info_t :=
  mk (ch_idx r) v (brun r) (timer r) (pass_time r) (preq r) (msg_que r) (chnl_bak r).
Definition set_brun (v : bool) (r : wf_scan_info_t) : wf_scan_info_t :=
  mk (ch_idx r) (retry_cnt r) v (timer r) (pass_time r) (preq r) (msg_que r) (chnl_bak r).
Definition set_timer (v : Timer.wf_timer_t) (r : wf_scan_info_t) : wf_scan_info_t :=
  mk (ch_idx r) (retry_cnt r) (brun r) v (pass_time r) (preq r) (msg_que r) (chnl_bak r).
Definition set_pass_time (v : Timer.wf_timer_t) (r : wf_scan_info_t) : wf_scan_info_t :=
  mk (ch_idx r) (retry_cnt r) (brun r) (timer r) v (preq r) (msg_que r) (chnl_bak r).
Definition set_preq (v : option Z) (r : wf_scan_info_t) : wf_scan_info_t :=
  mk (ch_idx r) (retry_cnt r) (brun r) (timer r) (pass_time r) v (msg_que r) (chnl_bak r).
Definition set_msg_que (v : Msg.wf_msg_que_t wf_scan_req_t) (r : wf_scan_info_t) : wf_scan_info_t :=
  mk (ch_idx r) (retry_cnt r) (brun r) (timer r) (pass_time r) (preq r) v (chnl_bak r).
Definition set_chnl_bak (v : Z * Z * Z) (r : wf_scan_info_t) : wf_scan_info_t :=
  mk (ch_idx r) (retry_cnt r) (brun r) (timer r) (pass_time r) (preq r) (msg_que r) v.
End Si.


Import Si.

(** What the code calls: locks, the transmit path, the chip ([wf_mcu_...]; the
    answer is its error code), the channel ([wf_hw_info_set_channnel_bw], to
    visit a channel and to go back to the saved one), the list of networks
    found, the peer-to-peer and access point components, and the clock.
    [GetChannel] answers with the error code, [BakNumber], [BakWidth] and
    [BakOffset] are the three values it stores.  [Indeterminate] is the value of
    a local variable that has not been assigned. *)
Inductive ev : Type :=
  | HwTrylock | HwUnlock | ReqTry | ReqPost | Clock
  | TxStop | TxStart | TxEmpty
  | SetUserInfo (b : bool) | MediaStatus (state : Z) | MlmeScan (b : bool) | SetBssid (a : list Z)
  | ScanQueFind (a : list Z) | ScanQueChannel | ScanQueRefresh (chs : list Z)
  | GetChannel | BakNumber | BakWidth | BakOffset
  | SetChannel (number width offset : Z) | RestoreChannel (bak : Z * Z * Z)
  | GetConnect | MlmeState | ConnScanRsp (frame : list Z)
  | ExtbufNew | MgmtXmit (frame : list Z) | MgmtXmitAck (frame : list Z)
  | P2pValid | P2pSearching | SetCurChannel (c : Z) | P2pProbe | Indeterminate
  | BuddyAp | ResumeBcn | BuddyResumeBcn.

(** [wf_80211_is_valid_bssid] *)
Definition wf_80211_is_mcast_addr (a : list Z) : bool := negb (nthZ a 0 =? 0xFF) && nz (Z.land (nthZ a 0) 0x01).
Definition wf_80211_is_bcast_addr (a : list Z) : bool :=
  Z.land (Z.land (Z.land (Z.land (Z.land (nthZ a 0) (nthZ a 1)) (nthZ a 2)) (nthZ a 3)) (nthZ a 4)) (nthZ a 5) =? 0xFF.
Definition wf_80211_is_zero_addr (a : list Z) : bool :=
  Z.lor (Z.lor (Z.lor (Z.lor (Z.lor (nthZ a 0) (nthZ a 1)) (nthZ a 2)) (nthZ a 3)) (nthZ a 4)) (nthZ a 5) =? 0.
Definition wf_80211_is_valid_bssid (a : list Z) : bool :=
  negb (wf_80211_is_bcast_addr a) && negb (wf_80211_is_zero_addr a) && negb (wf_80211_is_mcast_addr a).

(** What the code reads of the interface's other structures: [scan_prb_times]
    and [scan_ch_to] of [local_info], the channels ([channel_set], as many as
    [max_chan_nums]) and rates of [hw_info], the own address, the addresses of
    [pwdn_info], and what a transmit buffer holds behind its descriptor;
    [msecs_to_timestamp] is the operating system's. *)
Record config : Type := mk_config {
  scan_prb_times : Z;
  scan_ch_to : Z;
  channel_set : list Z;
  datarate : list Z;
  local_addr : list Z;
  wdn_mac : list Z;
  wdn_bssid : list Z;
  pbuf : list Z;
  msecs_to_timestamp : Z -> Z;
}.

Section Scan.
Context (cfg : config).

(** The request [preq] points to; a null pointer is a fault. *)
Definition req (s : wf_scan_info_t) : C wf_scan_req_t :=
  match preq s with
  | None => Fault
  | Some m => letc x := Msg.msg_at (msg_que s) m in Ret (Msg.value x)
  end.

Definition req_write (q : wf_scan_req_t) (s : wf_scan_info_t) : wf_scan_info_t :=
  match preq s with
  | None => s
  | Some m => set_msg_que (Msg.msg_write m (default 0 (Msg.len <$> Msg.store (msg_que s) !! m)) q (msg_que s)) s
  end.

Definition timer_start (ms : Z) (s : wf_scan_info_t) : io ev wf_scan_info_t :=
  let! now := call Clock in
  iret (set_timer (Timer.wf_timer_set (msecs_to_timestamp cfg) now ms (timer s)) s).

Definition timer_expired (s : wf_scan_info_t) : io ev bool :=
  let! now := call Clock in
  iret (Timer.wf_timer_expired now (timer s)).

Definition msg_del (m : Z) (s : wf_scan_info_t) : io ev wf_scan_info_t :=
  let! (_, q) := lift (Msg.wf_msg_del (msg_que s) m) in
  iret (set_msg_que q s).

Definition msg_pop (s : wf_scan_info_t) : io ev (option Z * wf_scan_info_t) :=
  let! (_, m, q) := lift (Msg.wf_msg_pop (msg_que s)) in
  iret (m, set_msg_que q s).

Definition msg_tag (m : Z) (s : wf_scan_info_t) : Z := Msg.tag_of (msg_que s) m.

Definition null_data_frame_send : io ev Z :=
  let! b := call ExtbufNew in
  if negb (nz b) then iret (-1)
  else
    let! buf := lift (Mgmt.write_hdr (pbuf cfg) 24 Mgmt.WF_80211_FRM_NULLFUNC (wdn_mac cfg) (local_addr cfg) (wdn_bssid cfg)) in
    let! frame := lift (slice buf 0 24) in
    call (MgmtXmitAck frame).

(** The channel of a network in the list is taken if none were asked for or it
    is among them. *)
Definition fix_channel (q : wf_scan_req_t) : io ev wf_scan_req_t :=
  let! rst := call (ScanQueFind (bssid q)) in
  if rst =? 1 then
    let! ch := call ScanQueChannel in
    let! asked := lift (slice (ch_map q) 0 (ch_num q)) in
    if negb (nz (ch_num q)) || existsb (Z.eqb ch) asked then
      let! chs := lift (wr (ch_map q) 0 ch) in
      iret (set_channels chs 1 q)
    else iret q
  else iret q.

(** The channels of the hardware, when none are given. *)
Definition all_channels (q : wf_scan_req_t) : C wf_scan_req_t :=
  if ch_num q =? 0 then
    letc chs := blit (ch_map q) 0 (channel_set cfg) in
    Ret (set_channels chs (Z.of_nat (length (channel_set cfg))) q)
  else Ret q.

(** The chip's filters: an error code, and the request. *)
Definition scan_filters (q : wf_scan_req_t) : io ev (Z * wf_scan_req_t) :=
  if type q =? SCAN_TYPE_PASSIVE then
    let! r := call (MediaStatus WIFI_FW_NULL_STATE) in
    if nz r then iret (-2, q)
    else
      let! r := call (MlmeScan true) in
      iret (if nz r then -3 else 0, q)
  else if wf_80211_is_valid_bssid (bssid q) then
    let! q := fix_channel q in
    let! r := call (SetBssid (bssid q)) in
    iret (if nz r then -5 else 0, q)
  else
    let! r := call (MlmeScan true) in
    iret (if nz r then -6 else 0, q).

Definition scan_setting (s : wf_scan_info_t) : io ev (Z * wf_scan_info_t) :=
  let! q := lift (req s) in
  let! (r, q) := scan_filters q in
  let s := req_write q s in
  if nz r then iret (r, s)
  else
    let! q := lift (all_channels q) in
    let s := req_write q s in
    let! r := call GetChannel in
    let! number := call BakNumber in
    let! width := call BakWidth in
    let! offset := call BakOffset in
    let s := set_chnl_bak (number, width, offset) s in
    if negb (r =? Ies.WF_RETURN_OK) then iret (-7, s)
    else
      let! is_connected := call GetConnect in
      if nz is_connected then
        do! null_data_frame_send in
        iret (0, s)
      else iret (0, s).

Definition scan_setting_recover (s : wf_scan_info_t) : io ev Z :=
  do! call (MediaStatus WIFI_FW_STATION_STATE) in
  let! r := call (RestoreChannel (chnl_bak s)) in
  if r =? Ies.WF_RETURN_FAIL then iret (-1)
  else
    do! call (MlmeScan false) in
    let! r := call ResumeBcn in
    iret (if nz r then -2 else 0).

(** [set_ie] on a frame under construction. *)
Definition put_ie (f : list Z * Z * Z) (id len : Z) (src : list Z) : C (list Z * Z * Z) :=
  let '(buf, pos, var_len) := f in Ies.set_ie buf pos id len src var_len.

Definition wf_scan_probe_send (s : wf_scan_info_t) : io ev Z :=
  let! b := call ExtbufNew in
  if negb (nz b) then iret (-2)
  else
    let bcast := replicate 6 0xff in
    let! buf := lift (Mgmt.write_hdr (pbuf cfg) 24 Mgmt.WF_80211_FRM_PROBE_REQ bcast (local_addr cfg) bcast) in
    let! q := lift (req s) in
    let! f := lift (if nz (ssid_num q) then
                      letc ss := of_option (ssids q !! O) in
                      put_ie (buf, 24, 0) WF_80211_MGMT_EID_SSID (ssid_length ss) (ssid_data ss)
                    else put_ie (buf, 24, 0) WF_80211_MGMT_EID_SSID 0 []) in
    let! rates := lift (slice (datarate cfg) 0 8) in
    let! f := lift (put_ie f WF_80211_MGMT_EID_SUPP_RATES 8 rates) in
    let! xrates := lift (slice (datarate cfg) 8 4) in
    let! f := lift (put_ie f WF_80211_MGMT_EID_EXT_SUPP_RATES 4 xrates) in
    let '(buf, _, var_len) := f in
    let! frame := lift (slice buf 0 (24 + var_len)) in
    let! r := call (MgmtXmit frame) in
    iret (if nz r then -3 else 0).

(** ** The thread *)

(** Where a call resumes ([LBegin], [LLock], [LStart], [LTxLoop], the three
    waits and [LFree]) and the points between. *)
Inductive label : Type :=
  | LBegin | LLock | LStart | LTxLoop | LSet | LChan | LProbe | LProbeWait | LPassWait
  | LApCheck | LApWait | LApEnd | LNext | LDone | LExit | LFree.

(** The local variables that outlive a wait within one call; each call starts
    with [reason] at [WF_SCAN_TAG_DONE] and the others unassigned. *)
Record locals : Type := mk_locals {
  reason : Z;
  rst : option Z;
  prsn : option Z;
}.
Definition locals0 : locals := mk_locals WF_SCAN_TAG_DONE None None.
Definition set_reason (v : Z) (l : locals) : locals := mk_locals v (rst l) (prsn l).
Definition set_rst (v : Z) (l : locals) : locals := mk_locals (reason l) (Some v) (prsn l).
Definition set_prsn (v : Z) (l : locals) : locals := mk_locals (reason l) (rst l) (Some v).

Definition step : Type := next label * locals * wf_scan_info_t.

(** The wait of the three timed loops: a message is taken ([ABORT] ends the
    scan, others are dropped), otherwise the timer decides. *)
Definition wait_msg (here : label) (timeout : wf_scan_info_t -> step) (l : locals) (s : wf_scan_info_t) : io ev step :=
  let! (pmsg, s) := msg_pop s in
  match pmsg with
  | None =>
      let! e := timer_expired s in
      iret (if e : bool then timeout s else (Return PT_WAITING here, l, s))
  | Some m =>
      let tag := msg_tag m s in
      let! s := msg_del m s in
      iret (if tag =? WF_SCAN_TAG_ABORT then (Goto LDone, set_reason WF_SCAN_TAG_ABORT l, s) else (Goto here, l, s))
  end.

Definition at_start (l : locals) (s : wf_scan_info_t) : io ev step :=
  let! (pmsg, s) := msg_pop s in
  match pmsg with
  | None =>
      do! call HwUnlock in
      iret (Return PT_EXITED LBegin, set_prsn (-1) l, s)
  | Some m =>
      if negb (msg_tag m s =? WF_SCAN_TAG_START) then
        let! s := msg_del m s in
        iret (Return PT_YIELDED LStart, l, s)
      else
        let s := set_preq (Some m) s in
        do! call (SetUserInfo false) in
        do! call TxStop in
        let! s := timer_start 1000 s in
        iret (Goto LTxLoop, l, s)
  end.

(** Waiting for the transmit queues to drain.  [wf_msg_del] of the null pointer
    [wf_msg_pop] leaves does nothing. *)
Definition at_tx_loop (l : locals) (s : wf_scan_info_t) : io ev step :=
  let! empty := call TxEmpty in
  if nz empty then iret (Goto LSet, l, s)
  else
    let! (pmsg, s) := msg_pop s in
    let abort := match pmsg with Some m => msg_tag m s =? WF_SCAN_TAG_ABORT | None => false end in
    if abort then
      let! s := match pmsg with Some m => msg_del m s | None => iret s end in
      iret (Goto LExit, set_reason (-2) l, s)
    else
      let! e := timer_expired s in
      if e : bool then iret (Goto LExit, set_reason (-3) l, s)
      else
        let! s := match pmsg with Some m => msg_del m s | None => iret s end in
        iret (Return PT_YIELDED LTxLoop, l, s).

Definition at_set (l : locals) (s : wf_scan_info_t) : io ev step :=
  let! (r, s) := scan_setting s in
  if nz r then iret (Goto LExit, set_reason (-4) (set_rst r l), s)
  else
    let s := set_brun true s in
    let! now := call Clock in
    let s := set_pass_time (Timer.wf_timer_set (msecs_to_timestamp cfg) now 0 (pass_time s)) s in
    iret (Goto LChan, set_rst r l, set_ch_idx 0 s).

Definition at_chan (l : locals) (s : wf_scan_info_t) : io ev step :=
  let! q := lift (req s) in
  if ch_idx s <? ch_num q then
    let! c := lift (rd (ch_map q) (ch_idx s)) in
    let! r := call (SetChannel c CHANNEL_WIDTH_20 HAL_PRIME_CHNL_OFFSET_DONT_CARE) in
    let l := set_rst r l in
    if nz r then iret (Goto LExit, set_reason (-5) l, s)
    else if type q =? SCAN_TYPE_ACTIVE then iret (Goto LProbe, l, set_retry_cnt 0 s)
    else
      let! s := timer_start (scan_ch_to cfg) s in
      iret (Goto LPassWait, l, s)
  else iret (Goto LDone, set_reason WF_SCAN_TAG_DONE l, s).

(** The probe request, by the peer-to-peer component where it is in use. *)
Definition send_probe (l : locals) (s : wf_scan_info_t) : io ev Z :=
  let! valid := call P2pValid in
  if nz valid then
    let! searching := call P2pSearching in
    if nz searching then
      let! q := lift (req s) in
      let! c := lift (rd (ch_map q) (ch_idx s)) in
      do! call (SetCurChannel c) in
      call P2pProbe
    else match rst l with Some r => iret r | None => call Indeterminate end
  else wf_scan_probe_send s.

Definition at_probe (l : locals) (s : wf_scan_info_t) : io ev step :=
  if retry_cnt s <? scan_prb_times cfg then
    let! r := send_probe l s in
    let l := set_rst r l in
    if nz r then iret (Goto LExit, set_reason (-6) l, s)
    else
      let! s := timer_start (scan_ch_to cfg) s in
      iret (Goto LProbeWait, l, s)
  else iret (Goto LApCheck, l, s).

(** Giving the channel back to an access point on the other interface after
    every fifth channel. *)
Definition at_ap_check (l : locals) (s : wf_scan_info_t) : io ev step :=
  let! up := call BuddyAp in
  if nz up && ((ch_idx s + 1) mod 5 =? 0) then
    let! r := call (RestoreChannel (chnl_bak s)) in
    if r =? Ies.WF_RETURN_FAIL then iret (Goto LExit, set_reason (-7) l, s)
    else
      do! call (MlmeScan false) in
      let! r := call BuddyResumeBcn in
      if negb (nz r) then
        let! s := timer_start 500 s in
        iret (Goto LApWait, l, s)
      else iret (Goto LApEnd, l, s)
  else iret (Goto LNext, l, s).

Definition at_ap_end (l : locals) (s : wf_scan_info_t) : io ev step :=
  let! r := call (MlmeScan true) in
  iret (if nz r then (Goto LExit, set_reason (-8) l, s) else (Goto LNext, l, s)).

Definition at_done (l : locals) (s : wf_scan_info_t) : io ev step :=
  let! q := lift (req s) in
  let! chs := lift (slice (ch_map q) 0 (ch_num q)) in
  do! call (ScanQueRefresh chs) in
  iret (Goto LExit, l, s).

Definition at_exit (l : locals) (s : wf_scan_info_t) : io ev step :=
  let! s := (if brun s then do! scan_setting_recover s in iret (set_brun false s) else iret s) in
  let! is_connected := call GetConnect in
  do! (if nz is_connected then call (SetUserInfo true) else iret 0) in
  do! call TxStart in
  iret (Goto LFree, l, s).

Definition at_free (l : locals) (s : wf_scan_info_t) : io ev step :=
  let! busy := call ReqTry in
  if nz busy then iret (Return PT_WAITING LFree, l, s)
  else
    let! m := lift (of_option (preq s)) in
    let! s := msg_del m s in
    let s := set_preq None s in
    do! call ReqPost in
    do! call HwUnlock in
    iret (Return (if reason l <? 0 then PT_EXITED else PT_ENDED) LBegin, set_prsn (reason l) l, s).

Definition block (b : label) (l : locals) (s : wf_scan_info_t) : io ev step :=
  match b with
  | LBegin => iret (Goto LLock, l, s)
  | LLock =>
      let! busy := call HwTrylock in
      iret (if nz busy then Return PT_WAITING LLock else Goto LStart, l, s)
  | LStart => at_start l s
  | LTxLoop => at_tx_loop l s
  | LSet => at_set l s
  | LChan => at_chan l s
  | LProbe => at_probe l s
  | LProbeWait =>
      wait_msg LProbeWait
        (fun s => (Goto LProbe, l, set_retry_cnt (u8 (retry_cnt s + 1)) (set_timer (Timer.wf_timer_reset (timer s)) s))) l s
  | LPassWait => wait_msg LPassWait (fun s => (Goto LApCheck, l, s)) l s
  | LApCheck => at_ap_check l s
  | LApWait => wait_msg LApWait (fun s => (Goto LApEnd, l, s)) l s
  | LApEnd => at_ap_end l s
  | LNext => iret (Goto LChan, l, set_ch_idx (u8 (ch_idx s + 1)) s)
  | LDone => at_done l s
  | LExit => at_exit l s
  | LFree => at_free l s
  end.

(** A call, from the label it resumes at: what it returns, the label of the next
    call and what it stored in [*prsn]. *)
Definition wf_scan_thrd (fuel : nat) (b : label) (s : wf_scan_info_t)
    : io ev (pt_ret * label * option Z * wf_scan_info_t) := blocks block prsn fuel b locals0 s.

(** ** Requests from outside *)

(** The first [n] names, behind them zeros. *)
Definition copy_ssids (n : nat) (l : list wf_wlan_ssid_t) : C (list wf_wlan_ssid_t) :=
  if (n <=? length l)%nat then Ret (take n l ++ replicate (WF_SCAN_REQ_SSID_NUM - n) zero_ssid) else Fault.

(** [wf_scan_start] on an interface that can run ([WF_CANNOT_RUN] false) and is
    up; null pointers are [None].  Its dump of the arguments to the log is left
    out. *)
Definition wf_scan_start (can_run is_up : bool) (ty : Z) (bss : option (list Z)) (ss : option (list wf_wlan_ssid_t))
    (ss_num : Z) (chs : option (list Z)) (chn : Z) (s : wf_scan_info_t) : C (Z * wf_scan_info_t) :=
  if negb can_run then Ret (-1, s)
  else if negb is_up then Ret (-2, s)
  else
    letc (r, pmsg, q) := Msg.wf_msg_new (msg_que s) WF_SCAN_TAG_START in
    match pmsg with
    | None => Ret (-3, set_msg_que q s)
    | Some m =>
        letc x := Msg.msg_at q m in
        let old := Msg.value x in
        let b := match bss with
                 | Some a => if wf_80211_is_valid_bssid a then a else replicate 6 0
                 | None => replicate 6 0
                 end in
        let n := Z.min ss_num (Z.of_nat WF_SCAN_REQ_SSID_NUM) in
        letc names := (match ss with
                       | Some l => if nz ss_num then copy_ssids (Z.to_nat n) l else Ret (ssids old)
                       | None => Ret (ssids old)
                       end) in
        letc map := (match chs with
                     | Some l => if nz chn then letc src := slice l 0 chn in blit (ch_map old) 0 src else Ret (ch_map old)
                     | None => Ret (ch_map old)
                     end) in
        let v := mk_req ty b names n map (Z.min chn (Z.of_nat MAX_CHANNEL_NUM)) in
        letc (r, q) := Msg.wf_msg_push (Msg.msg_write m sizeof_scan_req v q) m in
        if nz r then
          letc (_, q) := Msg.wf_msg_del q m in
          Ret (-4, set_msg_que q s)
        else Ret (0, set_msg_que q s)
    end.

Definition wf_is_scanning (s : wf_scan_info_t) : bool := brun s.

Definition wf_scan_stop (can_run : bool) (s : wf_scan_info_t) : C (Z * wf_scan_info_t) :=
  if negb can_run then Ret (-1, s)
  else if negb (wf_is_scanning s) then Ret (0, s)
  else
    letc (r, pmsg, q) := Msg.wf_msg_new (msg_que s) WF_SCAN_TAG_ABORT in
    match pmsg with
    | None => Ret (-2, set_msg_que q s)
    | Some m =>
        letc (r, q) := Msg.wf_msg_push q m in
        if nz r then
          letc (_, q) := Msg.wf_msg_del q m in
          Ret (-3, set_msg_que q s)
        else Ret (0, set_msg_que q s)
    end.

(** [wf_scan_init]: the addresses of the two messages allocated, [None] when
    there is no memory. *)
Definition wf_scan_init (a b : option Z) (t : Timer.wf_timer_t) : C (Z * wf_scan_info_t) :=
  letc (r, q) := Msg.wf_msg_alloc Msg.wf_msg_init WF_SCAN_TAG_ABORT 0 zero_req [a] in
  letc (r, q) := (if nz r then Ret (r, q) else Msg.wf_msg_alloc q WF_SCAN_TAG_START sizeof_scan_req zero_req [b]) in
  let s := Si.mk 0 0 false t t None q (0, 0, 0) in
  Ret (if nz r then -3 else 0, s).

(** ** Received frames *)

Definition check_bssid (q : wf_scan_req_t) (frame : list Z) : C Z :=
  if wf_80211_is_valid_bssid (bssid q) then
    letc b := Mgmt.bssid frame in
    Ret (if bytes_eqb (bssid q) b then 0 else 1)
  else Ret 0.

(** The loop of [check_ssid] over the names asked for. *)
Fixpoint match_ssid (names : list wf_wlan_ssid_t) (len : Z) (data : list Z) : C bool :=
  match names with
  | [] => Ret false
  | n :: names =>
      if ssid_length n =? len then Ret true
      else
        letc a := slice (ssid_data n) 0 len in
        if bytes_eqb a data then Ret true else match_ssid names len data
  end.

Definition check_ssid (q : wf_scan_req_t) (pies : list Z) (ies_len : Z) : C Z :=
  if nz (ssid_num q) then
    letc o := Ies.wf_80211_mgmt_ies_search (Some pies) ies_len WF_80211_MGMT_EID_SSID in
    match o with
    | None => Ret (-1)
    | Some o =>
        letc len := rd pies (o + 1) in
        letc data := slice pies (o + 2) len in
        letc found := match_ssid (take (Z.to_nat (ssid_num q)) (ssids q)) len data in
        Ret (if found : bool then 0 else 1)
    end
  else Ret 0.

Definition check_channel (q : wf_scan_req_t) (pies : list Z) (ies_len : Z) : C Z :=
  letc o := Ies.wf_80211_mgmt_ies_search (Some pies) ies_len WF_80211_MGMT_EID_DS_PARAMS in
  match o with
  | None => Ret (-1)
  | Some o =>
      letc ch := rd pies (o + 2) in
      letc chs := slice (ch_map q) 0 (ch_num q) in
      Ret (if existsb (Z.eqb ch) chs then 0 else 1)
  end.

Definition MLME_STATE_CONN_SCAN : Z := 1.
Definition MLME_STATE_IBSS_CONN_SCAN : Z := 8.

(** The checks and the notification, with the request's lock held. *)
Definition filter_locked (frame : list Z) (mgmt_len : Z) (s : wf_scan_info_t) : io ev Z :=
  let pies := drop 36 frame in
  let ies_len := u16 (mgmt_len - 12) in
  let! q := lift (req s) in
  let! r := lift (check_bssid q frame) in
  if nz r then iret (if r <? 0 then -3 else 0)
  else
    let! r := lift (check_ssid q pies ies_len) in
    if nz r then iret (if r <? 0 then -4 else 0)
    else
      let! r := lift (check_channel q pies ies_len) in
      if nz r then iret (if r <? 0 then -5 else 0)
      else
        let! fc := lift (Mgmt.frame_control frame) in
        let! d := lift (Mgmt.da frame) in
        if (type q =? SCAN_TYPE_ACTIVE) && (Mgmt.wf_80211_get_frame_type fc =? Mgmt.WF_80211_FRM_PROBE_RESP) &&
           bytes_eqb d (local_addr cfg)
        then
          let! state := call MlmeState in
          if (state =? MLME_STATE_CONN_SCAN) || (state =? MLME_STATE_IBSS_CONN_SCAN) then
            do! call (ConnScanRsp frame) in iret 0
          else iret 0
        else iret 0.

(** [wf_scan_filter] reads [brun] first and takes the lock afterwards: the
    states at the two points are [s] and [s']. *)
Definition wf_scan_filter (can_run : bool) (frame : list Z) (mgmt_len : Z) (s s' : wf_scan_info_t) : io ev Z :=
  if mgmt_len =? 0 then iret (-1)
  else if negb can_run then iret (-2)
  else if negb (wf_is_scanning s) then iret 0
  else
    let! busy := call ReqTry in
    if nz busy then iret 0
    else
      let! r := filter_locked frame mgmt_len s' in
      do! call ReqPost in
      iret r.

(** ** What a scan leaves behind

    [env] follows the calls: which locks are held, whether the transmit path is
    stopped, whether the radio is away from its channel, and the channels
    visited with the probes sent on each.  A restore that is refused - the chip
    answers [WF_RETURN_FAIL] - leaves the radio where it is; [refused]: the last
    one was.  [p2p]: the peer-to-peer component was in use; [busy]: the request's
    lock was found taken. *)
Inductive visit : Type := Chan (c : Z) | Probe.

Record env : Type := mk_env {
  hw_locked : bool;
  tx_off : bool;
  req_locked : bool;
  away : bool;
  refused : bool;
  p2p : bool;
  busy : bool;
  visits : list visit;
}.
Definition env0 : env := mk_env false false false false false false false [].

Definition env_step (g : env) (er : ev * Z) : env :=
  let '(mk_env hw tx rq aw rf pp bs vs) := g in
  let '(e, r) := er in
  match e with
  | HwTrylock => mk_env (hw || negb (nz r)) tx rq aw rf pp bs vs
  | HwUnlock => mk_env false tx rq aw rf pp bs vs
  | TxStop => mk_env hw true rq aw rf pp bs vs
  | TxStart => mk_env hw false rq aw rf pp bs vs
  | ReqTry => mk_env hw tx (rq || negb (nz r)) aw rf pp (bs || nz r) vs
  | ReqPost => mk_env hw tx false aw rf pp bs vs
  | SetChannel c _ _ => mk_env hw tx rq true rf pp bs (if nz r then vs else vs ++ [Chan c])
  | RestoreChannel _ =>
      let rf := r =? Ies.WF_RETURN_FAIL in mk_env hw tx rq (aw && rf) rf pp bs vs
  | P2pValid => mk_env hw tx rq aw rf (pp || nz r) bs vs
  | MgmtXmit _ | P2pProbe => mk_env hw tx rq aw rf pp bs (if nz r then vs else vs ++ [Probe])
  | _ => g
  end.

Abbreviation after := (Io.after env_step).

(** What a request asks for: its channels up to the [n]-th, and on each of them
    the probes of an active scan. *)
Definition on_channel (q : wf_scan_req_t) (c : Z) : list visit :=
  Chan c :: if type q =? SCAN_TYPE_ACTIVE then replicate (Z.to_nat (scan_prb_times cfg)) Probe else [].
Definition plan (q : wf_scan_req_t) (n : Z) : list visit := concat (on_channel q <$> take (Z.to_nat n) (ch_map q)).

(** ** Invariant *)

Definition ssid_ok (n : wf_wlan_ssid_t) : Prop := 0 <= ssid_length n <= 32 /\ length (ssid_data n) = 33%nat.
Record req_ok (q : wf_scan_req_t) : Prop := {
  rq_num : 0 <= ch_num q <= 14;
  rq_map : length (ch_map q) = 14%nat;
  rq_names : length (ssids q) = 9%nat;
  rq_ssids : Forall ssid_ok (ssids q);
}.

Record store_ok (q : Msg.wf_msg_que_t wf_scan_req_t) : Prop := {
  st_tag : forall m x, Msg.store q !! m = Some x -> Msg.tag x = WF_SCAN_TAG_START \/ Msg.tag x = WF_SCAN_TAG_ABORT;
  st_req : forall m x, Msg.store q !! m = Some x -> req_ok (Msg.value x);
  st_one : forall m m' x x', Msg.store q !! m = Some x -> Msg.store q !! m' = Some x' ->
             Msg.tag x = WF_SCAN_TAG_START -> Msg.tag x' = WF_SCAN_TAG_START -> m = m';
}.

Record cfg_ok : Prop := {
  cf_times : is_u8 (scan_prb_times cfg);
  cf_chans : (length (channel_set cfg) <= 14)%nat;
  cf_rates : (12 <= length (datarate cfg))%nat;
  cf_local : Mgmt.addr_ok (local_addr cfg);
  cf_mac : Mgmt.addr_ok (wdn_mac cfg);
  cf_bssid : Mgmt.addr_ok (wdn_bssid cfg);
  cf_buf : (74 <= length (pbuf cfg))%nat;
}.

(** The request of a running scan; the thread holds its message. *)
Record running (s : wf_scan_info_t) (q : wf_scan_req_t) : Prop := {
  rn_que : exists m x, preq s = Some m /\ Msg.store (msg_que s) !! m = Some x /\ Msg.value x = q /\
             Msg.tag x = WF_SCAN_TAG_START /\ Msg.qinv (msg_que s) [m];
  rn_store : store_ok (msg_que s);
}.

(** No scan: all messages are in the queue. *)
Record idle (s : wf_scan_info_t) : Prop := {
  id_preq : preq s = None;
  id_brun : brun s = false;
  id_que : Msg.qinv (msg_que s) [];
  id_store : store_ok (msg_que s);
}.

Definition env_is (hw tx : bool) (g : env) : Prop :=
  hw_locked g = hw /\ tx_off g = tx /\ req_locked g = false /\ (away g = true -> refused g = true).

(** What has been visited, when the probes are this component's. *)
Definition seen (g : env) (v : list visit) : Prop := p2p g = false -> visits g = v.

Definition visiting (q : wf_scan_req_t) (s : wf_scan_info_t) (g : env) (v : list visit) : Prop :=
  running s q /\ brun s = true /\ hw_locked g = true /\ tx_off g = true /\ req_locked g = false /\ busy g = false /\
  0 <= ch_idx s < ch_num q /\ seen g (plan q (ch_idx s) ++ v).

Definition probed (q : wf_scan_req_t) (s : wf_scan_info_t) (n : Z) : list visit :=
  Chan (nthZ (ch_map q) (ch_idx s)) :: replicate (Z.to_nat n) Probe.

Definition inv (b : label) (l : locals) (s : wf_scan_info_t) (g : env) : Prop :=
  match b with
  | LBegin | LLock => idle s /\ g = env0 /\ l = locals0
  | LStart => idle s /\ g = mk_env true false false false false false false [] /\ l = locals0
  | LTxLoop | LSet =>
      (exists q, running s q) /\ brun s = false /\ g = mk_env true true false false false false false [] /\ l = locals0
  | LChan =>
      exists q, running s q /\ brun s = true /\ hw_locked g = true /\ tx_off g = true /\ req_locked g = false /\
        busy g = false /\ 0 <= ch_idx s <= ch_num q /\ seen g (plan q (ch_idx s))
  | LProbe =>
      exists q, visiting q s g (probed q s (retry_cnt s)) /\ type q = SCAN_TYPE_ACTIVE /\
        0 <= retry_cnt s <= scan_prb_times cfg
  | LProbeWait =>
      exists q, visiting q s g (probed q s (retry_cnt s + 1)) /\ type q = SCAN_TYPE_ACTIVE /\
        0 <= retry_cnt s < scan_prb_times cfg
  | LPassWait | LApCheck | LApWait | LApEnd | LNext =>
      exists q, visiting q s g (on_channel q (nthZ (ch_map q) (ch_idx s)))
  | LDone =>
      exists q, running s q /\ brun s = true /\ hw_locked g = true /\ tx_off g = true /\ req_locked g = false /\
        busy g = false /\ (reason l = WF_SCAN_TAG_DONE -> seen g (plan q (ch_num q)))
  | LExit =>
      exists q, running s q /\ hw_locked g = true /\ tx_off g = true /\ req_locked g = false /\ busy g = false /\
        (brun s = false -> away g = false) /\ (reason l = WF_SCAN_TAG_DONE -> seen g (plan q (ch_num q)))
  | LFree =>
      exists q, running s q /\ brun s = false /\ env_is true false g /\
        (reason l = WF_SCAN_TAG_DONE -> busy g = false -> seen g (plan q (ch_num q)))
  end.

(** ** Measure *)

Definition per_channel : Z := 2 * scan_prb_times cfg + 6.
Definition left (s : wf_scan_info_t) : Z := match req s with Ret q => ch_num q - ch_idx s | _ => 0 end.
Definition weight (b : label) (s : wf_scan_info_t) : Z :=
  let base := (left s - 1) * per_channel + 4 in
  match b with
  | LFree => 1
  | LExit => 2
  | LDone => 3
  | LChan => left s * per_channel + 4
  | LNext => base + 1
  | LApEnd => base + 2
  | LApWait => base + 3
  | LApCheck => base + 4
  | LPassWait => base + 5
  | LProbe => base + 5 + 2 * (scan_prb_times cfg - retry_cnt s)
  | LProbeWait => base + 4 + 2 * (scan_prb_times cfg - retry_cnt s)
  | LSet => 14 * per_channel + 5
  | LTxLoop => 14 * per_channel + 6
  | LStart => 14 * per_channel + 7
  | LLock => 14 * per_channel + 8
  | LBegin => 14 * per_channel + 9
  end.
Definition measure (b : label) (s : wf_scan_info_t) : Z := weight b s + Z.of_nat (length (Msg.pend (msg_que s))).

(** ** The queue, for the thread *)

#[local] Existing Instance Msg.same_data_equiv.

Lemma set_que_id s : set_msg_que (msg_que s) s = s.
Proof. by destruct s. Qed.

Lemma store_ok_same q q' : Msg.same_data q q' -> store_ok q -> store_ok q'.
Proof.
  intros H [Ht Hr Ho]. symmetry in H. split.
  - intros m x Hx. destruct (Msg.same_data_lookup _ _ _ _ H Hx) as (y & Hy & <- & _ & _). by eapply Ht.
  - intros m x Hx. destruct (Msg.same_data_lookup _ _ _ _ H Hx) as (y & Hy & _ & <- & _). by eapply Hr.
  - intros m m' x x' Hx Hx'. destruct (Msg.same_data_lookup _ _ _ _ H Hx) as (y & Hy & <- & _).
    destruct (Msg.same_data_lookup _ _ _ _ H Hx') as (y' & Hy' & <- & _). by eapply Ho.
Qed.

Lemma running_req s q : running s q -> req s = Ret q.
Proof. intros [(m & x & Hm & Hx & Hv & _) _]. unfold req, Msg.msg_at. rewrite Hm, Hx. cbn. by rewrite Hv. Qed.

Lemma running_ok s q : running s q -> req_ok q.
Proof. intros [(m & x & _ & Hx & <- & _) Hs]. by eapply st_req. Qed.

Lemma left_running s q : running s q -> left s = ch_num q - ch_idx s.
Proof. intros H. unfold left. by rewrite (running_req s q H). Qed.

(** A change of the state that leaves the request and the queue alone. *)
Lemma running_same s s' q : preq s' = preq s -> msg_que s' = msg_que s -> running s q -> running s' q.
Proof. intros Hp Hq [(m & x & H) Hs]. split; [exists m, x; by rewrite Hp, Hq | by rewrite Hq]. Qed.

Lemma running_que s q que : Msg.same_data (msg_que s) que -> (forall m, preq s = Some m -> Msg.qinv que [m]) ->
  running s q -> running (set_msg_que que s) q.
Proof.
  intros Hd Hq [(m & x & Hm & Hx & Hv & Ht & _) Hs].
  destruct (Msg.same_data_lookup _ _ _ _ Hd Hx) as (x' & Hx' & Htx & Hvx & _). split; cbn.
  - exists m, x'. split_and!; [done | done | congruence | congruence | by apply Hq].
  - by eapply store_ok_same.
Qed.

(** The timed waits of a running scan. *)
Lemma wait_ok here timeout l s q Q :
  running s q ->
  (forall now, Msg.pend (msg_que s) = [] ->
     Q [(Clock, now)] (if Timer.wf_timer_expired now (timer s) then timeout s else (Return PT_WAITING here, l, s))) ->
  (forall que, running (set_msg_que que s) q ->
     (length (Msg.pend que) < length (Msg.pend (msg_que s)))%nat ->
     Q [] (Goto LDone, set_reason WF_SCAN_TAG_ABORT l, set_msg_que que s) /\
     Q [] (Goto here, l, set_msg_que que s)) ->
  wp (wait_msg here timeout l s) Q.
Proof.
  intros Hr Hempty Hmsg. pose proof Hr as [(m & x & Hm & Hx & Hv & Ht & Hq) Hs]. unfold wait_msg, msg_pop.
  destruct (Msg.use_pop_del _ _ Hq) as [[Hp Hpop] | (m1 & que & que' & Hpop & Hdel & Hs1 & Hs2 & Hq1 & Hn & Hq2 & Hp1 & Hp2 & _)];
    rewrite Hpop; cbn [lift ibind]; rewrite ?set_que_id.
  - intros now. exact (Hempty now Hp).
  - unfold msg_del. cbn [set_msg_que msg_que]. rewrite Hdel. cbn [lift ibind].
    destruct (Hmsg que') as [Ha Hb].
    + apply running_que; [done | | done]. intros m2. rewrite Hm. intros [= <-]. exact Hq2.
    + rewrite Hp2, Hp1. cbn. lia.
    + change (set_msg_que que' (set_msg_que que s)) with (set_msg_que que' s).
      cbn [wp]. by destruct (msg_tag m1 (set_msg_que que s) =? WF_SCAN_TAG_ABORT).
Qed.

(** ** The parts of a scan *)

(** Calls that [env] does not follow. *)
Definition quiet (tr : list (ev * Z)) : Prop := forall g, after tr g = g.

Lemma quiet_nil : quiet [].
Proof. done. Qed.

Lemma quiet_cons e r tr : (forall g, env_step g (e, r) = g) -> quiet tr -> quiet ((e, r) :: tr).
Proof. intros He Ht g. unfold Io.after. cbn [fold_left]. rewrite He. apply Ht. Qed.

Lemma quiet_app tr tr' : quiet tr -> quiet tr' -> quiet (tr ++ tr').
Proof. intros H H' g. unfold Io.after. rewrite fold_left_app. fold (after tr g). rewrite H. apply H'. Qed.

Ltac quiet_tac :=
  repeat first [apply quiet_nil | assumption | apply quiet_app | apply quiet_cons; [by intros [] |]].

Lemma store_ok_write q m n v : store_ok q -> req_ok v -> store_ok (Msg.msg_write m n v q).
Proof.
  intros [Hs1 Hs2 Hs3] Hok.
  assert (E : forall m' x', Msg.store (Msg.msg_write m n v q) !! m' = Some x' ->
              exists y, Msg.store q !! m' = Some y /\ Msg.tag x' = Msg.tag y /\ (Msg.value x' = v \/ Msg.value x' = Msg.value y)).
  { intros m' x'. cbn. destruct (decide (m' = m)) as [-> |].
    - rewrite lookup_alter_eq. destruct (Msg.store q !! m) as [x |]; [| done]. cbn. intros [= <-]. exists x. auto.
    - rewrite lookup_alter_ne by done. intros H. exists x'. auto. }
  split.
  - intros m' x' Hx'. apply E in Hx' as (y & Hy & -> & _). by eapply Hs1.
  - intros m' x' Hx'. apply E in Hx' as (y & Hy & _ & [-> | ->]); [done | by eapply Hs2].
  - intros m1 m2 x1 x2 H1 H2. apply E in H1 as (y1 & Hy1 & -> & _). apply E in H2 as (y2 & Hy2 & -> & _).
    by eapply Hs3.
Qed.

Lemma req_write_ok s q q' : running s q -> req_ok q' ->
  running (req_write q' s) q' /\ brun (req_write q' s) = brun s /\
  length (Msg.pend (msg_que (req_write q' s))) = length (Msg.pend (msg_que s)).
Proof.
  intros [(m & x & Hm & Hx & Hv & Ht & Hq) Hs] Hok. unfold req_write. rewrite Hm.
  split; [| done]. split; cbn [preq msg_que set_msg_que].
  - exists m. unfold Msg.msg_write at 1. cbn. rewrite lookup_alter_eq, Hx. eexists. split_and!; try done. by apply Msg.qinv_write.
  - by apply store_ok_write.
Qed.

Lemma set_channels_ok q chs n : req_ok q -> length chs = 14%nat -> 0 <= n <= 14 -> req_ok (set_channels chs n q).
Proof. intros [H1 H2 H3 H4] Hc Hn. by split. Qed.

Lemma fix_channel_ok q : req_ok q -> wp (fix_channel q) (fun tr q' => quiet tr /\ req_ok q').
Proof.
  intros Hq. unfold fix_channel. cbn [call ibind wp]. intros r.
  destruct (r =? 1); cbn [ibind wp]; [| split; [quiet_tac | done]].
  intros ch. pose proof (rq_num q Hq). pose proof (rq_map q Hq) as Hm.
  rewrite slice_Ret by lia. cbn [lift ibind]. destruct (_ || _); cbn [wp]; [| split; [quiet_tac | done]].
  rewrite wr_setZ by lia. cbn [lift ibind wp]. split; [quiet_tac |].
  apply set_channels_ok; [done | by rewrite setZ_length | lia].
Qed.

Lemma scan_filters_ok q : req_ok q -> wp (scan_filters q) (fun tr '(_, q') => quiet tr /\ req_ok q').
Proof.
  intros Hq. unfold scan_filters. destruct (_ =? _).
  { cbn [call ibind wp]. intros r. destruct (nz r); cbn [ibind wp]; [| intros r'; cbn [wp]]; (split; [quiet_tac | done]). }
  destruct (wf_80211_is_valid_bssid _).
  - apply wp_bind. eapply wp_mono, fix_channel_ok; [| done]. intros tr q' [Ht Hq'].
    cbn [call ibind wp]. intros r. split; [quiet_tac | done].
  - cbn [call ibind wp]. intros r. split; [quiet_tac | done].
Qed.

Section Parts.
Hypothesis Hcfg : cfg_ok.

Lemma all_channels_ok q : req_ok q -> exists q', all_channels q = Ret q' /\ req_ok q'.
Proof.
  intros Hq. unfold all_channels. destruct (ch_num q =? 0); [| by exists q].
  pose proof (rq_map q Hq) as Hm. pose proof (cf_chans Hcfg).
  rewrite <- (take_drop (length (channel_set cfg)) (ch_map q)).
  rewrite Mgmt.blit_app_head by (rewrite length_take; lia). cbn [cbind]. eexists. split; [done |].
  apply set_channels_ok; [done | | lia]. rewrite length_app, length_drop. lia.
Qed.

Lemma null_data_ok : wp null_data_frame_send (fun tr _ => quiet tr).
Proof.
  unfold null_data_frame_send. cbn [call ibind wp]. intros b. destruct (negb (nz b)); cbn [wp]; [quiet_tac |].
  pose proof (cf_buf Hcfg).
  rewrite Mgmt.write_hdr_eq by (first [apply Hcfg | unfold Mgmt.WF_80211_FRM_NULLFUNC; lia]).
  cbn [lift ibind]. rewrite Mgmt.slice_app_head by (by rewrite Mgmt.length_hdr by apply Hcfg).
  cbn [lift ibind wp]. intros r. quiet_tac.
Qed.

Lemma scan_setting_ok s q : running s q ->
  wp (scan_setting s) (fun tr '(_, s') => quiet tr /\ (exists q', running s' q') /\ brun s' = brun s /\
    length (Msg.pend (msg_que s')) = length (Msg.pend (msg_que s))).
Proof.
  intros Hr. unfold scan_setting. rewrite (running_req s q Hr). cbn [lift ibind].
  apply wp_bind. eapply wp_mono, scan_filters_ok, (running_ok s q Hr).
  intros tr [r q1] [Ht Hq1]. destruct (req_write_ok s q q1 Hr Hq1) as (Hr1 & Hb1 & Hp1).
  destruct (nz r); cbn [wp]; [split_and!; [quiet_tac | by exists q1 | done | done] |].
  destruct (all_channels_ok q1 Hq1) as (q2 & -> & Hq2). cbn [call lift ibind wp].
  destruct (req_write_ok _ q1 q2 Hr1 Hq2) as (Hr2 & Hb2 & Hp2). set (s2 := req_write q2 _) in *.
  intros r1 n w o. assert (Hr3 : running (set_chnl_bak (n, w, o) s2) q2) by (by apply (running_same s2)).
  destruct (negb _); cbn [ibind wp]; [split_and!; [quiet_tac | by exists q2 | cbn; congruence | cbn; congruence] |].
  intros c. destruct (nz c); cbn [wp]; [| split_and!; [quiet_tac | by exists q2 | cbn; congruence | cbn; congruence]].
  apply wp_bind. eapply wp_mono, null_data_ok. intros tr' x Ht'. cbn [wp].
  split_and!; [quiet_tac | by exists q2 | cbn; congruence | cbn; congruence].
Qed.
End Parts.

Section Probe.
Hypothesis Hcfg : cfg_ok.

Definition add_probe (ok : bool) (g : env) : env :=
  let '(mk_env hw tx rq aw rf pp bs vs) := g in mk_env hw tx rq aw rf pp bs (if ok then vs ++ [Probe] else vs).

(** Appending an element where there is room. *)
Lemma put_ie_ok buf pos vl id len src :
  0 <= pos -> 0 <= len <= Z.of_nat (length src) -> pos + len + 2 <= Z.of_nat (length buf) -> 0 <= vl -> vl + len + 2 < 65536 ->
  exists buf', put_ie (buf, pos, vl) id len src = Ret (buf', pos + len + 2, vl + len + 2) /\ length buf' = length buf.
Proof.
  intros Hp Hl Hb Hv Hu. unfold put_ie, Ies.set_ie. rewrite wr_setZ by lia. cbn [cbind].
  rewrite wr_setZ by (rewrite setZ_length; lia). cbn [cbind]. set (b2 := setZ (setZ _ _ _) _ _).
  assert (H2 : length b2 = length buf) by (unfold b2; by rewrite !setZ_length).
  replace (u32 (vl + (len + 2))) with (vl + len + 2) by (unfold u32; rewrite Z.mod_small; lia).
  destruct (Z.ltb_spec 0 len); cbn [cbind]; [| by exists b2].
  rewrite slice_Ret by lia. cbn [cbind]. set (sr := take _ _).
  assert (Hsr : Z.of_nat (length sr) = len) by (unfold sr; rewrite length_take, length_drop; lia).
  unfold blit. rewrite Hsr. destruct (Z.leb_spec 0 (pos + 2)), (Z.leb_spec (pos + 2 + len) (Z.of_nat (length b2))); try lia.
  cbn. eexists. split; [done |]. rewrite !length_app, length_take, length_drop. lia.
Qed.

Lemma probe_ssid q buf0 : req_ok q -> (60 <= length buf0)%nat ->
  exists buf1 n, 0 <= n <= 32 /\
    (if nz (ssid_num q) then
       letc ss := of_option (ssids q !! O) in
       put_ie (buf0, 24, 0) WF_80211_MGMT_EID_SSID (ssid_length ss) (ssid_data ss)
     else put_ie (buf0, 24, 0) WF_80211_MGMT_EID_SSID 0 []) = Ret (buf1, 24 + n + 2, 0 + n + 2) /\
    length buf1 = length buf0.
Proof.
  intros Hq Hb. destruct (nz _).
  - pose proof (rq_names q Hq) as Hlen. pose proof (rq_ssids q Hq) as Hf.
    destruct (ssids q) as [| n ns]; [done |]. cbn [lookup list_lookup of_option cbind].
    apply Forall_cons in Hf as [[Hl Hd] _].
    destruct (put_ie_ok buf0 24 0 WF_80211_MGMT_EID_SSID (ssid_length n) (ssid_data n)) as (b1 & Hb1 & Hlb); try lia.
    by exists b1, (ssid_length n).
  - destruct (put_ie_ok buf0 24 0 WF_80211_MGMT_EID_SSID 0 []) as (b1 & Hb1 & Hlb); try (cbn; lia). by exists b1, 0.
Qed.

Lemma probe_ok s q : running s q ->
  wp (wf_scan_probe_send s) (fun tr r => forall g, after tr g = add_probe (r =? 0) g).
Proof.
  intros Hr. pose proof (running_ok s q Hr) as Hq. pose proof (cf_buf Hcfg). pose proof (cf_rates Hcfg).
  unfold wf_scan_probe_send. cbn [call ibind wp]. intros b.
  destruct (negb (nz b)); cbn [wp]; [by intros [] |].
  rewrite Mgmt.write_hdr_eq
    by (first [apply Hcfg | split; [done | repeat constructor; unfold is_u8; lia] | unfold Mgmt.WF_80211_FRM_PROBE_REQ; lia]).
  cbn [lift ibind]. rewrite (running_req s q Hr). cbn [lift ibind].
  set (buf0 := _ ++ _). assert (Hbuf0 : length buf0 = length (pbuf cfg)).
  { unfold buf0. rewrite !length_app, length_replicate, length_drop, Mgmt.length_hdr;
      first [apply Hcfg | split; [done | repeat constructor; unfold is_u8; lia] | idtac]. lia. }
  destruct (probe_ssid q buf0 Hq ltac:(lia)) as (buf1 & n & Hn & -> & Hl1). cbn [lift ibind]. rewrite slice_Ret by lia. cbn [lift ibind].
  destruct (put_ie_ok buf1 (24 + n + 2) (0 + n + 2) WF_80211_MGMT_EID_SUPP_RATES 8 (take 8 (drop 0 (datarate cfg))))
    as (buf2 & Hb2 & Hl2); rewrite ?length_take, ?length_drop; try lia.
  change (Z.to_nat 8) with 8%nat. change (Z.to_nat 0) with 0%nat. rewrite Hb2. cbn [lift ibind].
  rewrite slice_Ret by lia. cbn [lift ibind]. change (Z.to_nat 4) with 4%nat. change (Z.to_nat 8) with 8%nat.
  destruct (put_ie_ok buf2 (24 + n + 2 + 8 + 2) (0 + n + 2 + 8 + 2) WF_80211_MGMT_EID_EXT_SUPP_RATES 4 (take 4 (drop 8 (datarate cfg))))
    as (buf3 & -> & Hl3); rewrite ?length_take, ?length_drop; try lia.
  cbn [lift ibind]. rewrite slice_Ret by lia. cbn [lift ibind wp]. intros r [].
  unfold Io.after. cbn [fold_left env_step add_probe]. by destruct (nz r).
Qed.

(** A probe of the peer-to-peer component instead marks [p2p]. *)
Lemma send_probe_ok l s q : running s q -> 0 <= ch_idx s < ch_num q ->
  wp (send_probe l s) (fun tr r => forall g, exists pp vs,
    after tr g = mk_env (hw_locked g) (tx_off g) (req_locked g) (away g) (refused g) pp (busy g) vs /\
    (pp = false -> p2p g = false /\ (r = 0 -> vs = visits g ++ [Probe]))).
Proof.
  intros Hr Hi. unfold send_probe. cbn [call ibind wp]. intros v. destruct (nz v) eqn:Ev.
  - cbn [ibind wp]. intros sr. destruct (nz sr).
    + rewrite (running_req s q Hr). cbn [lift ibind]. pose proof (running_ok s q Hr) as Hq.
      pose proof (rq_num q Hq). pose proof (rq_map q Hq). rewrite rd_nthZ by lia. cbn [lift ibind call wp].
      intros r1 r2 []. cbn. rewrite Ev, orb_true_r. by eexists _, _.
    + destruct (rst l); cbn [call wp]; [| intros r2]; intros []; cbn; rewrite Ev, orb_true_r; by eexists _, _.
  - eapply wp_mono, probe_ok; [| done]. intros tr r H g.
    unfold Io.after. cbn [fold_left]. fold (after tr (env_step g (P2pValid, v))). rewrite H.
    destruct g as [hw tx rq aw rf pp bs vs]. cbn. rewrite Ev, orb_false_r. eexists _, _. split; [done |].
    intros ->. split; [done |]. by intros ->.
Qed.
End Probe.

(** ** Every block keeps the invariant *)

Definition verdict (r : pt_ret) (p : option Z) (s : wf_scan_info_t) (g : env) : Prop :=
  exists v, p = Some v /\ r = (if v <? 0 then PT_EXITED else PT_ENDED) /\
    (v = WF_SCAN_TAG_DONE -> busy g = false ->
     forall m x, Msg.store (msg_que s) !! m = Some x -> Msg.tag x = WF_SCAN_TAG_START ->
       seen g (plan (Msg.value x) (ch_num (Msg.value x)))).

(** What a call that returns without having come further has found. *)
Definition blocked (b : label) (s s' : wf_scan_info_t) (tr : list (ev * Z)) : Prop :=
  match b with
  | LLock => exists r, tr = [(HwTrylock, r)] /\ nz r = true
  | LFree => exists r, tr = [(ReqTry, r)] /\ nz r = true
  | LStart => (length (Msg.pend (msg_que s')) < length (Msg.pend (msg_que s)))%nat
  | LTxLoop => exists r now, tr = [(TxEmpty, r); (Clock, now)] /\ nz r = false /\ Timer.wf_timer_expired now (timer s) = false
  | LProbeWait | LPassWait | LApWait => exists now, tr = [(Clock, now)] /\ Timer.wf_timer_expired now (timer s) = false
  | _ => False
  end.

Definition fin (r : pt_ret) (b : label) (p : option Z) (s : wf_scan_info_t) (g : env) : Prop :=
  b = LBegin /\ idle s /\ env_is false false g /\ verdict r p s g.

Abbreviation keeps := (Io.post prsn env_step inv measure locals0 fin blocked).

Section Blocks.
Hypothesis Hcfg : cfg_ok.

Lemma per_channel_pos : 6 <= per_channel <= 516.
Proof. pose proof (cf_times Hcfg) as []. unfold per_channel. lia. Qed.

Lemma visiting_same q s s' g v : preq s' = preq s -> msg_que s' = msg_que s -> brun s' = brun s -> ch_idx s' = ch_idx s ->
  visiting q s g v -> visiting q s' g v.
Proof.
  intros Hp Hq Hb Hi (Hr & ?). unfold visiting. rewrite Hb, Hi. split; [by apply (running_same s) | done].
Qed.

(** The three waits. *)
Lemma wait_post here timeout l s g q v :
  visiting q s g v ->
  match here with LProbeWait | LPassWait | LApWait => True | _ => False end ->
  (forall s', visiting q s' g v -> ch_idx s' = ch_idx s -> retry_cnt s' = retry_cnt s -> inv here l s' g /\ inv here locals0 s' g) ->
  (forall now, keeps here s g [(Clock, now)] (timeout s)) ->
  wp (wait_msg here timeout l s) (keeps here s g).
Proof.
  intros Hv Hh Hinv Hto. pose proof Hv as (Hr & Hb & Hrest).
  assert (Hm : forall que, running (set_msg_que que s) q -> left (set_msg_que que s) = left s)
    by (intros que Hq; by rewrite (left_running _ q Hq), (left_running s q Hr)).
  apply (wait_ok _ _ _ _ q); [done | |].
  - intros now Hp. destruct (Timer.wf_timer_expired now (timer s)) eqn:E; [apply Hto |].
    cbn [post done_with]. split; [done |]. destruct (Hinv s) as [_ H]; [done | done | done |].
    change (after [(Clock, now)] g) with (env_step g (Clock, now)).
    replace (env_step g (Clock, now)) with g by (by destruct g). split; [done |]. split; [lia |].
    unfold blocked. destruct here; try done; by exists now.
  - intros que Hq Hp.
    assert (Hv' : visiting q (set_msg_que que s) g v) by (split; [done | exact (conj Hb Hrest)]).
    destruct (Hinv (set_msg_que que s) Hv' eq_refl eq_refl) as [Hi _].
    split; unfold Io.post, Io.after; cbn [fold_left].
    + destruct Hrest as (H1 & H2 & H3 & H4 & H5 & _). split.
      * exists q. by split_and!.
      * assert (4 <= weight here s); [| unfold measure; cbn [weight msg_que set_msg_que] in *; lia].
        pose proof per_channel_pos. unfold weight. rewrite (left_running s q Hr).
        destruct here; try done; try nia.
        destruct (Hinv s Hv eq_refl eq_refl) as [(q' & _ & _ & Hc) _]. nia.
    + split; [done |]. unfold measure, weight. rewrite (Hm que Hq). cbn [msg_que set_msg_que retry_cnt] in *. lia.
Qed.

Lemma begin_post l s g : inv LBegin l s g -> wp (block LBegin l s) (keeps LBegin s g).
Proof. intros H. cbn. split; [exact H |]. unfold measure. cbn [weight]. lia. Qed.

Lemma lock_post l s g : inv LLock l s g -> wp (block LLock l s) (keeps LLock s g).
Proof.
  intros (Hi & -> & ->). cbn [block call ibind wp]. intros r. destruct (nz r) eqn:Er; cbn; rewrite ?Er; cbn.
  - split; [done |]. split; [done |]. split; [lia |]. by exists r.
  - split; [done |]. unfold measure. cbn [weight]. lia.
Qed.

Lemma start_post l s g : inv LStart l s g -> wp (block LStart l s) (keeps LStart s g).
Proof.
  intros (Hi & -> & ->). pose proof Hi as [Hn Hb Hq Hs]. cbn [block]. unfold at_start, msg_pop.
  destruct (Msg.use_pop_del _ _ Hq) as [[Hp Hpop] | (m & que & que' & Hpop & Hdel & Hs1 & Hs2 & Hq1 & _ & Hq2 & Hp1 & Hp2 & _)];
    rewrite Hpop; cbn [lift ibind]; rewrite ?set_que_id.
  - cbn [call ibind wp]. intros r. cbn. split_and!; try done. by exists (-1).
  - destruct (negb (msg_tag m (set_msg_que que s) =? WF_SCAN_TAG_START)) eqn:Et.
    + unfold msg_del. cbn [set_msg_que msg_que]. rewrite Hdel. cbn [lift ibind wp].
      assert (Hlen : (length (Msg.pend que') < length (Msg.pend (msg_que s)))%nat) by (rewrite Hp2, Hp1; cbn; lia).
      cbn. split; [done |]. split; [| split; [unfold measure; cbn; lia | done]]. split; [| done].
      split; cbn; [done | done | exact Hq2 | by eapply store_ok_same].
    + apply negb_false_iff, Z.eqb_eq in Et. cbn [timer_start call ibind wp]. intros r1 r2 now.
      destruct (Msg.held_stored que m) as [x Hx]; [apply (Msg.qi_held _ _ Hq1); constructor |].
      unfold msg_tag, Msg.tag_of in Et. cbn in Et. rewrite Hx in Et. cbn in Et. cbn. split.
      * split; [| done]. exists (Msg.value x). split; cbn; [by exists m, x | by eapply store_ok_same].
      * unfold measure. cbn. rewrite Hp1. cbn. lia.
Qed.

(** A message of the queue of a running scan is the abort message: the only
    start message is the one the thread holds. *)
Lemma popped_abort s q m que m0 : running s q -> preq s = Some m0 -> Msg.same_data (msg_que s) que ->
  Msg.qinv que [m; m0] -> (m ∉ [m0]) -> msg_tag m (set_msg_que que s) = WF_SCAN_TAG_ABORT.
Proof.
  intros [(m' & x & Hm' & Hx & _ & Ht & _) Hs] Hm Hd Hq Hn. rewrite Hm in Hm'. injection Hm' as <-.
  pose proof (store_ok_same _ _ Hd Hs) as Hs'. destruct (Msg.same_data_lookup _ _ _ _ Hd Hx) as (x' & Hx' & Htx & _).
  destruct (Msg.held_stored que m) as [y Hy]; [apply (Msg.qi_held _ _ Hq); constructor |].
  unfold msg_tag, Msg.tag_of. cbn. rewrite Hy. cbn.
  destruct (st_tag _ Hs' m y Hy) as [Hst | Hst]; [| done]. exfalso. apply Hn.
  rewrite (st_one _ Hs' m m0 y x' Hy Hx' Hst ltac:(congruence)). constructor.
Qed.

Lemma tx_loop_post l s g : inv LTxLoop l s g -> wp (block LTxLoop l s) (keeps LTxLoop s g).
Proof.
  intros ([q Hr] & Hb & -> & ->). cbn [block]. unfold at_tx_loop. cbn [call ibind wp]. intros r.
  destruct (nz r) eqn:Er; cbn [wp].
  { cbn. split; [split; [by exists q | done] |]. unfold measure. cbn [weight]. lia. }
  pose proof Hr as [(m0 & x & Hm & Hx & Hv & Ht & Hq) Hs]. pose proof per_channel_pos. unfold msg_pop.
  destruct (Msg.use_pop_del _ _ Hq) as [[Hp Hpop] | (m & que & que' & Hpop & Hdel & Hs1 & Hs2 & Hq1 & Hn & Hq2 & Hp1 & Hp2 & _)];
    rewrite Hpop; cbn [lift ibind]; rewrite ?set_que_id.
  - unfold timer_expired. cbn [call ibind wp]. intros now.
    destruct (Timer.wf_timer_expired now (timer s)) eqn:Ex; cbn.
    + split; [by exists q |]. unfold measure. cbn [weight]. lia.
    + split; [done |]. split; [split; [by exists q | done] |]. split; [lia |]. by exists r, now.
  - rewrite (popped_abort s q m que m0) by done. change (WF_SCAN_TAG_ABORT =? WF_SCAN_TAG_ABORT) with true. cbn iota.
    unfold msg_del. cbn [set_msg_que msg_que]. rewrite Hdel. cbn [lift ibind wp]. cbn. split.
    + exists q. split_and!; try done. apply (running_que s q que'); [done | | done].
      rewrite Hm. intros m' [= <-]. exact Hq2.
    + unfold measure. cbn [weight]. cbn. rewrite Hp2, Hp1. cbn. lia.
Qed.

Lemma set_post l s g : inv LSet l s g -> wp (block LSet l s) (keeps LSet s g).
Proof.
  intros ([q Hr] & Hb & -> & ->). cbn [block]. unfold at_set. apply wp_bind.
  eapply wp_mono, scan_setting_ok; [| done | done]. intros tr [r s'] (Hq & [q' Hr'] & Hb' & Hp).
  pose proof per_channel_pos. pose proof (rq_num q' (running_ok s' q' Hr')).
  destruct (nz r); cbn [ibind wp post call]; rewrite ?app_nil_r.
  - rewrite Hq. split; [exists q'; cbn; split_and!; try done |]. unfold measure. cbn [weight]. lia.
  - intros now. unfold Io.after. rewrite fold_left_app. fold (after tr (mk_env true true false false false false false [])).
    rewrite Hq. cbn [fold_left env_step]. set (s2 := set_ch_idx 0 _).
    assert (Hr2 : running s2 q') by (by apply (running_same s')).
    split; [exists q'; cbn; split_and!; try done; lia |].
    unfold measure. cbn [weight]. rewrite (left_running s2 q' Hr2). cbn. rewrite Hp. nia.
Qed.

Lemma take_plan q n : 0 <= n < Z.of_nat (length (ch_map q)) ->
  plan q (n + 1) = plan q n ++ on_channel q (nthZ (ch_map q) n).
Proof.
  intros Hn. unfold plan. replace (Z.to_nat (n + 1)) with (S (Z.to_nat n)) by lia.
  rewrite (take_S_r _ _ (nthZ (ch_map q) n)) by (by apply nthZ_lookup).
  rewrite fmap_app, concat_app. cbn. by rewrite app_nil_r.
Qed.

Lemma chan_post l s g : inv LChan l s g -> wp (block LChan l s) (keeps LChan s g).
Proof.
  intros (q & Hr & Hb & H1 & H2 & H3 & H4 & Hi & Hseen). pose proof (running_ok s q Hr) as Hq.
  pose proof (rq_num q Hq). pose proof (rq_map q Hq) as Hmap. pose proof per_channel_pos as Hpc.
  pose proof (cf_times Hcfg) as [Hpt _].
  cbn [block]. unfold at_chan. rewrite (running_req s q Hr). cbn [lift ibind].
  destruct (Z.ltb_spec (ch_idx s) (ch_num q)) as [Hlt | Hge]; cbn [wp].
  2: { cbn. split; [exists q; split_and!; try done; intros _; by replace (ch_num q) with (ch_idx s) by lia |].
       unfold measure. cbn [weight]. rewrite (left_running s q Hr). nia. }
  rewrite rd_nthZ by lia. cbn [call lift ibind wp]. intros r. set (c := nthZ _ _).
  destruct g as [hw tx rq aw rf pp bs vs]. cbn in H1, H2, H3, H4. subst hw tx rq bs.
  destruct (nz r) eqn:Er; cbn [wp].
  - cbn. rewrite Er. split; [exists q; cbn; split_and!; try done; congruence |].
    unfold measure. cbn [weight]. rewrite (left_running s q Hr). nia.
  - assert (Hs' : seen (mk_env true true false true rf pp false (vs ++ [Chan c])) (plan q (ch_idx s) ++ [Chan c]))
      by (intros Hpp; cbn in *; by rewrite <- (Hseen Hpp)).
    destruct (Z.eqb_spec (type q) SCAN_TYPE_ACTIVE) as [Ht | Ht]; cbn [timer_start call ibind wp]; [| intros now];
      cbn; rewrite Er; unfold measure; cbn [weight];
      match goal with |- context [left ?s'] => rewrite (left_running s' q), (left_running s q Hr) by (by apply (running_same s)) end;
      (split; [| cbn; unfold per_channel in *; nia]).
    + exists q. unfold visiting. cbn. split_and!; first [done | lia | by apply (running_same s)].
    + exists q. unfold visiting. cbn. split_and!; try first [done | lia | by apply (running_same s)]. unfold on_channel. fold c.
      destruct (Z.eqb_spec (type q) SCAN_TYPE_ACTIVE); done.
Qed.

Lemma probe_post l s g : inv LProbe l s g -> wp (block LProbe l s) (keeps LProbe s g).
Proof.
  intros (q & Hv & Ht & Hc). pose proof Hv as (Hr & Hb & H1 & H2 & H3 & H4 & Hi & Hseen).
  pose proof per_channel_pos as Hpc. cbn [block]. unfold at_probe.
  destruct (Z.ltb_spec (retry_cnt s) (scan_prb_times cfg)) as [Hlt | Hge]; cbn [wp].
  2: { cbn. split; [| unfold measure; cbn [weight]; lia]. exists q. unfold on_channel. rewrite Ht. cbn.
       by replace (scan_prb_times cfg) with (retry_cnt s) by lia. }
  apply wp_bind. eapply wp_mono, (send_probe_ok Hcfg l s q Hr Hi). intros tr r H.
  destruct (H g) as (pp & vs & Hg & Hp). clear H. rewrite H1, H2, H3, H4 in Hg.
  destruct (nz r) eqn:Er; cbn [timer_start call ibind wp].
  - rewrite app_nil_r. cbn [post]. rewrite Hg. split; [exists q; split_and!; try done; cbn; congruence |].
    unfold measure. cbn [weight]. rewrite (left_running s q Hr). nia.
  - intros now. cbn [post]. unfold Io.after. rewrite fold_left_app. fold (after tr g). rewrite Hg. cbn [fold_left env_step].
    set (s2 := set_timer _ s). assert (Hr2 : running s2 q) by (by apply (running_same s)).
    split; [| unfold measure; cbn [weight]; rewrite (left_running s2 q Hr2), (left_running s q Hr); cbn; lia].
    exists q. split; [| cbn; lia]. unfold visiting. cbn. split_and!; try first [done | lia].
    intros Hpp. cbn in *. destruct (Hp Hpp) as [Hpg Hvs]. rewrite Hvs, (Hseen Hpg), <- app_assoc
      by (apply negb_false_iff in Er; by apply Z.eqb_eq).
    unfold probed. cbn. replace (Z.to_nat (retry_cnt s + 1)) with (Z.to_nat (retry_cnt s) + 1)%nat by lia.
    by rewrite replicate_add.
Qed.

Lemma probe_wait_post l s g : inv LProbeWait l s g -> wp (block LProbeWait l s) (keeps LProbeWait s g).
Proof.
  intros (q & Hv & Ht & Hc). pose proof (cf_times Hcfg) as [? ?]. cbn [block].
  apply (wait_post _ _ l s g q (probed q s (retry_cnt s + 1))); [done | done | |].
  - intros s' Hv' Hi Hrc. assert (inv LProbeWait l s' g); [| done].
    exists q. rewrite Hrc. unfold probed. rewrite Hi. done.
  - intros now. cbn [post]. replace (after [(Clock, now)] g) with g by (by destruct g).
    set (s' := set_retry_cnt _ _). pose proof Hv as (Hr & _).
    assert (Hr' : running s' q) by (by apply (running_same s)).
    assert (Hu : retry_cnt s' = retry_cnt s + 1) by (cbn; apply u8_id; unfold is_u8; lia).
    split; [exists q; rewrite Hu; split; [by apply (visiting_same q s) | split; [done | lia]] |].
    unfold measure. cbn [weight]. rewrite (left_running s' q Hr'), (left_running s q Hr), Hu. cbn. lia.
Qed.

Lemma pass_wait_post l s g : inv LPassWait l s g -> wp (block LPassWait l s) (keeps LPassWait s g).
Proof.
  intros (q & Hv). cbn [block]. eapply wait_post; [exact Hv | done | |].
  - intros s' Hv' Hi _. split; exists q; by rewrite Hi.
  - intros now. cbn. replace (env_step g (Clock, now)) with g by (by destruct g).
    split; [by exists q |]. unfold measure. cbn [weight]. lia.
Qed.

Lemma ap_wait_post l s g : inv LApWait l s g -> wp (block LApWait l s) (keeps LApWait s g).
Proof.
  intros (q & Hv). cbn [block]. eapply wait_post; [exact Hv | done | |].
  - intros s' Hv' Hi _. split; exists q; by rewrite Hi.
  - intros now. cbn. replace (env_step g (Clock, now)) with g by (by destruct g).
    split; [by exists q |]. unfold measure. cbn [weight]. lia.
Qed.

(** A step of the same channel that changes at most where the radio is. *)
Lemma visiting_away q s g v aw rf : visiting q s g v ->
  visiting q s (mk_env (hw_locked g) (tx_off g) (req_locked g) aw rf (p2p g) (busy g) (visits g)) v.
Proof. intros (? & ? & ? & ? & ? & ? & [? ?] & ?). unfold visiting. by split_and!. Qed.

(** Leaving the channel loop for the exit with an error. *)
Lemma visiting_exit q s g v l e b : visiting q s g v -> e < 0 -> 2 < weight b s ->
  inv LExit (set_reason e l) s g /\ measure LExit s < measure b s.
Proof.
  intros (Hr & Hb & H1 & H2 & H3 & H4 & _) He Hw. split; [| unfold measure; cbn [weight]; lia].
  exists q. split_and!; try done; [congruence |]. cbn. intros ->. done.
Qed.

Lemma base_pos q s : running s q -> ch_idx s < ch_num q -> 4 <= (left s - 1) * per_channel + 4.
Proof. intros Hr Hi. pose proof per_channel_pos. rewrite (left_running s q Hr). nia. Qed.

Lemma ap_check_post l s g : inv LApCheck l s g -> wp (block LApCheck l s) (keeps LApCheck s g).
Proof.
  intros (q & Hv). pose proof Hv as (Hr & Hb & H1 & H2 & H3 & H4 & Hi & Hseen).
  pose proof (base_pos q s Hr ltac:(lia)) as Hbase. cbn [block]. unfold at_ap_check. cbn [call ibind wp]. intros up.
  destruct (nz up && _); cbn [ibind wp].
  2: { cbn. replace (env_step g _) with g by (by destruct g). split; [by exists q |]. unfold measure. cbn [weight]. lia. }
  intros r. destruct (r =? Ies.WF_RETURN_FAIL) eqn:Er; cbn [ibind wp].
  - pose proof (visiting_away q s g _ (away g && (r =? Ies.WF_RETURN_FAIL)) (r =? Ies.WF_RETURN_FAIL) Hv) as Hv'. destruct g. cbn in *.
    exact (visiting_exit q s _ _ l (-7) LApCheck Hv' ltac:(lia) ltac:(cbn [weight]; lia)).
  - intros r1 r2. pose proof (visiting_away q s g _ (away g && (r =? Ies.WF_RETURN_FAIL)) (r =? Ies.WF_RETURN_FAIL) Hv) as Hv'.
    destruct (negb (nz r2)); cbn [timer_start call ibind wp].
    + intros now. destruct g. cbn in *. split; [exists q; by apply (visiting_same q s) |].
      unfold measure. cbn [weight]. rewrite (left_running (set_timer _ s) q), (left_running s q Hr)
        by (by apply (running_same s)). cbn. lia.
    + destruct g. cbn in *. split; [by exists q |]. unfold measure. cbn [weight]. lia.
Qed.

Lemma ap_end_post l s g : inv LApEnd l s g -> wp (block LApEnd l s) (keeps LApEnd s g).
Proof.
  intros (q & Hv). pose proof Hv as (Hr & _ & _ & _ & _ & _ & Hi & _).
  pose proof (base_pos q s Hr ltac:(lia)) as Hbase. cbn [block]. unfold at_ap_end. cbn [call ibind wp]. intros r.
  destruct (nz r); cbn; replace (env_step g _) with g by (by destruct g).
  - exact (visiting_exit q s g _ l (-8) LApEnd Hv ltac:(lia) ltac:(cbn [weight]; lia)).
  - split; [by exists q |]. unfold measure. cbn [weight]. lia.
Qed.

Lemma next_post l s g : inv LNext l s g -> wp (block LNext l s) (keeps LNext s g).
Proof.
  intros (q & Hv). pose proof Hv as (Hr & Hb & H1 & H2 & H3 & H4 & Hi & Hseen).
  pose proof (rq_num q (running_ok s q Hr)). pose proof (rq_map q (running_ok s q Hr)).
  cbn [block wp]. cbn [Io.post Io.after fold_left]. set (s' := set_ch_idx _ s).
  assert (Hr' : running s' q) by (by apply (running_same s)).
  assert (Hu : ch_idx s' = ch_idx s + 1) by (cbn; apply u8_id; unfold is_u8; lia).
  split.
  - exists q. rewrite Hu, take_plan by lia. split_and!; try first [done | lia].
  - unfold measure. cbn [weight]. rewrite (left_running s' q Hr'), (left_running s q Hr), Hu. cbn. lia.
Qed.

Lemma done_post l s g : inv LDone l s g -> wp (block LDone l s) (keeps LDone s g).
Proof.
  intros (q & Hr & Hb & H1 & H2 & H3 & H4 & Hd). pose proof (running_ok s q Hr) as Hq.
  pose proof (rq_num q Hq). pose proof (rq_map q Hq).
  cbn [block]. unfold at_done. rewrite (running_req s q Hr). cbn [lift ibind]. rewrite slice_Ret by lia.
  cbn [call lift ibind wp]. intros r. cbn. replace (env_step g _) with g by (by destruct g).
  split; [| unfold measure; cbn [weight]; lia]. exists q. split_and!; try done. congruence.
Qed.

Lemma exit_post l s g : inv LExit l s g -> wp (block LExit l s) (keeps LExit s g).
Proof.
  intros (q & Hr & H1 & H2 & H3 & H4 & Ha & Hd). destruct g as [hw tx rq aw rf pp bs vs]. cbn in H1, H2, H3, H4, Ha.
  subst. cbn [block]. unfold at_exit. apply wp_bind.
  assert (E : wp (if brun s then do! scan_setting_recover s in iret (set_brun false s) else iret s)
    (fun tr s' => (exists aw' rf', after tr (mk_env true true false aw rf pp false vs) = mk_env true true false aw' rf' pp false vs /\
        (aw' = true -> rf' = true)) /\ s' = set_brun false s)).
  { destruct (brun s) eqn:Eb; cbn [wp].
    2: { split; [| by destruct s; cbn in *; subst]. exists aw, rf. split; [done |]. by rewrite Ha. }
    unfold scan_setting_recover. cbn [call ibind wp]. intros r1 r2.
    assert (Hlast : forall tr, after tr (env_step (mk_env true true false aw rf pp false vs) (RestoreChannel (chnl_bak s), r2)) =
              env_step (mk_env true true false aw rf pp false vs) (RestoreChannel (chnl_bak s), r2) ->
              exists aw' rf', after ((MediaStatus WIFI_FW_STATION_STATE, r1) :: (RestoreChannel (chnl_bak s), r2) :: tr)
                (mk_env true true false aw rf pp false vs) = mk_env true true false aw' rf' pp false vs /\ (aw' = true -> rf' = true)).
    { intros tr Htr. eexists _, _. split; [exact Htr |]. by intros [_ ?]%andb_prop. }
    destruct (r2 =? _); cbn [ibind wp]; [split; [by apply Hlast | done] |].
    intros r3 r4. split; [by apply (Hlast [_; _]) | done]. }
  eapply wp_mono; [| exact E]. intros tr s' [(aw' & rf' & Hg & Har) ->]. cbn [call ibind wp]. intros c. apply wp_bind.
  assert (Hfree : forall tr', quiet tr' -> wp (do! call TxStart in iret (Goto LFree, l, set_brun false s))
    (fun tr'' => keeps LExit s (mk_env true true false aw rf pp false vs) (tr ++ (GetConnect, c) :: tr' ++ tr''))).
  { intros tr' Hq. cbn [call ibind wp]. intros r. cbn [post]. unfold Io.after.
    rewrite fold_left_app. fold (after tr (mk_env true true false aw rf pp false vs)). rewrite Hg. cbn [fold_left env_step].
    rewrite fold_left_app. fold (after tr' (mk_env true true false aw' rf' pp false vs)). rewrite Hq. cbn [fold_left env_step].
    split; [| unfold measure; cbn [weight]; cbn; lia]. exists q. split_and!; try done; [by apply (running_same s) |].
    intros Hres _. exact (Hd Hres). }
  destruct (nz c); cbn [call wp]; [intros r; apply (Hfree [(SetUserInfo true, r)]); quiet_tac | apply (Hfree []); quiet_tac].
Qed.

Lemma free_post l s g : inv LFree l s g -> wp (block LFree l s) (keeps LFree s g).
Proof.
  intros (q & Hr & Hb & (H1 & H2 & H3 & H4) & Hd). destruct g as [hw tx rq aw rf pp bs vs]. cbn in H1, H2, H3, H4. subst.
  cbn [block]. unfold at_free. cbn [call ibind wp]. intros r. destruct (nz r) eqn:Er; cbn [wp].
  { cbn. rewrite Er. split; [done |]. split; [exists q; cbn; by rewrite orb_true_r |]. split; [lia |]. by exists r. }
  pose proof Hr as [(m & x & Hm & Hx & Hv & Ht & Hq) Hs]. rewrite Hm. cbn [of_option lift ibind].
  destruct (Msg.use_del _ _ m Hq ltac:(constructor)) as (que & Hdel & Hq' & Hsd & Hpd & _).
  rewrite Msg.without_head in Hq' by apply not_elem_of_nil.
  unfold msg_del. rewrite Hdel. cbn [lift ibind call wp]. intros r1 r2. cbn. rewrite Er. cbn.
  assert (Hidle : idle (set_preq None (set_msg_que que s))) by (split; cbn; [done | done | done | by eapply store_ok_same]).
  assert (Hverd : verdict (if reason l <? 0 then PT_EXITED else PT_ENDED) (Some (reason l))
            (set_preq None (set_msg_que que s)) (mk_env false false false aw rf pp (bs || false) vs)).
  { exists (reason l). split_and!; try done. cbn. rewrite orb_false_r. intros Hres Hbs m' x' Hx' Ht'.
    symmetry in Hsd. destruct (Msg.same_data_lookup _ _ _ _ Hsd Hx') as (y & Hy & Hyt & Hyv & _).
    assert (m' = m) as -> by (eapply (st_one _ Hs); [exact Hy | exact Hx | congruence | done]).
    assert (y = x) as -> by congruence. rewrite <- Hyv, Hv. exact (Hd Hres Hbs). }
  destruct (reason l <? 0); cbn [done_with]; by split_and!.
Qed.

Lemma block_post b l s g : inv b l s g -> wp (block b l s) (keeps b s g).
Proof.
  destruct b; auto using begin_post, lock_post, start_post, tx_loop_post, set_post, chan_post, probe_post,
    probe_wait_post, pass_wait_post, ap_check_post, ap_wait_post, ap_end_post, next_post, done_post, exit_post, free_post.
Qed.
End Blocks.

(** ** Calls *)

Lemma inv_measure b l s g : cfg_ok -> inv b l s g -> 0 <= measure b s <= 7233 + Z.of_nat (length (Msg.pend (msg_que s))).
Proof.
  intros Hc Hi. pose proof (per_channel_pos Hc) as Hpc. pose proof (cf_times Hc) as [Ht _].
  assert (Hv : forall q v, visiting q s g v -> 1 <= left s <= 14).
  { intros q v (Hr & _ & _ & _ & _ & _ & Hix & _). pose proof (rq_num q (running_ok s q Hr)).
    rewrite (left_running s q Hr). lia. }
  unfold measure. assert (0 <= weight b s <= 7233); [| lia].
  destruct b; cbn [weight inv] in *; try lia.
  - destruct Hi as (q & Hr & _ & _ & _ & _ & _ & Hix & _). pose proof (rq_num q (running_ok s q Hr)).
    rewrite (left_running s q Hr). nia.
  - destruct Hi as (q & H & _ & Hrc). apply Hv in H. unfold per_channel in *. nia.
  - destruct Hi as (q & H & _ & Hrc). apply Hv in H. unfold per_channel in *. nia.
  - destruct Hi as (q & H). apply Hv in H. nia.
  - destruct Hi as (q & H). apply Hv in H. nia.
  - destruct Hi as (q & H). apply Hv in H. nia.
  - destruct Hi as (q & H). apply Hv in H. nia.
  - destruct Hi as (q & H). apply Hv in H. nia.
Qed.

Abbreviation called := (Io.called env_step inv measure locals0 fin blocked).

(** ** The requests *)

Definition holds (s : wf_scan_info_t) : list Z := match preq s with Some m => [m] | None => [] end.

Lemma stop_ok s can : Msg.qinv (msg_que s) (holds s) ->
  exists r que, wf_scan_stop can s = Ret (r, set_msg_que que s) /\ Msg.qinv que (holds s) /\ Msg.same_data (msg_que s) que.
Proof.
  intros Hq. unfold wf_scan_stop. destruct can; cbn [negb]; [| by exists (-1), (msg_que s); rewrite set_que_id].
  destruct (wf_is_scanning s); cbn [negb]; [| by exists 0, (msg_que s); rewrite set_que_id].
  destruct (Msg.use_new _ _ WF_SCAN_TAG_ABORT Hq) as [(r & Hr & -> & _) | (m & -> & Hq1 & Hm & _)]; cbn [cbind].
  { by exists (-2), (msg_que s). }
  destruct (Msg.use_push _ _ m Hq1 ltac:(constructor)) as (a & b & que & -> & Hq2 & Hs & _). cbn [cbind]. change (nz 0) with false. cbn iota.
  exists 0, que. split; [done |]. split.
  - by rewrite Msg.without_head in Hq2.
  - etransitivity; [apply Msg.same_data_taken | exact Hs].
Qed.

(** A scan is running: its start message is taken, there is no other. *)
Lemma start_running s q ty bss ss n chs cn : running s q ->
  wf_scan_start true true ty bss ss n chs cn s = Ret (-3, s).
Proof.
  intros [(m & x & Hm & Hx & Hv & Ht & Hq) Hs]. unfold wf_scan_start. cbn [negb].
  destruct (Msg.use_new _ _ WF_SCAN_TAG_START Hq) as [(r & Hr & -> & _) | (m' & _ & _ & Hn & Htm & Hf & _)]; cbn [cbind].
  { by rewrite set_que_id. }
  exfalso. destruct (Msg.stored_in _ Msg.Free m' (Msg.qi_ok _ _ Hq) Hf) as [y Hy].
  unfold Msg.tag_of in Htm. rewrite Hy in Htm. apply Hn. rewrite (st_one _ Hs m' m y x Hy Hx Htm Ht). constructor.
Qed.

(** The arguments of a request that the code relies on. *)
Record args_ok (ss : option (list wf_wlan_ssid_t)) (n : Z) (chs : option (list Z)) (cn : Z) : Prop := {
  ar_n : is_u8 n;
  ar_ss : forall l, ss = Some l -> Forall ssid_ok l /\ Z.min n 9 <= Z.of_nat (length l);
  ar_cn : 0 <= cn <= 14;
  ar_chs : forall l, chs = Some l -> cn <= Z.of_nat (length l);
}.

(** The request a start stores over the old contents of its message. *)
Definition requested (ty : Z) (bss : option (list Z)) (ss : option (list wf_wlan_ssid_t)) (n : Z) (chs : option (list Z)) (cn : Z)
    (old : wf_scan_req_t) : wf_scan_req_t :=
  mk_req ty (match bss with Some a => if wf_80211_is_valid_bssid a then a else replicate 6 0 | None => replicate 6 0 end)
    (match ss with Some l => if nz n then take (Z.to_nat (Z.min n 9)) l ++ replicate (9 - Z.to_nat (Z.min n 9)) zero_ssid else ssids old
     | None => ssids old end)
    (Z.min n 9)
    (match chs with Some l => take (Z.to_nat cn) l ++ drop (Z.to_nat cn) (ch_map old) | None => ch_map old end) cn.

Lemma requested_ok ty bss ss n chs cn old : args_ok ss n chs cn -> req_ok old -> req_ok (requested ty bss ss n chs cn old).
Proof.
  intros [[Hn1 Hn2] Hss Hcn Hchs] [H1 H2 H3 H4]. split; cbn.
  - lia.
  - destruct chs as [l |]; [| done]. specialize (Hchs l eq_refl). rewrite length_app, length_take, length_drop. lia.
  - destruct ss as [l |]; [| done]. destruct (Hss l eq_refl) as [_ Hl]. destruct (nz n); [| done].
    rewrite length_app, length_take, length_replicate. lia.
  - destruct ss as [l |]; [| done]. destruct (Hss l eq_refl) as [Hf _]. destruct (nz n); [| done].
    apply Forall_app. split; [by apply Forall_take |]. apply Forall_replicate. split; [cbn; lia | done].
Qed.

Section StartValue.
Context (ty : Z) (bss : option (list Z)) (ss : option (list wf_wlan_ssid_t)) (n : Z) (chs : option (list Z)) (cn : Z).
Context (old : wf_scan_req_t).
Hypothesis Ha : args_ok ss n chs cn.
Let v := requested ty bss ss n chs cn old.

Lemma start_names :
  (match ss with
   | Some l => if nz n then copy_ssids (Z.to_nat (Z.min n (Z.of_nat WF_SCAN_REQ_SSID_NUM))) l else Ret (ssids old)
   | None => Ret (ssids old) end) = Ret (ssids v).
Proof.
  unfold v. cbn [requested ssids]. change (Z.of_nat WF_SCAN_REQ_SSID_NUM) with 9. destruct Ha as [_ Hss _ _].
  destruct ss as [l |]; [| done]. destruct (Hss l eq_refl) as [_ Hl]. destruct (nz n); [| done].
  unfold copy_ssids. destruct (Nat.leb_spec (Z.to_nat (Z.min n 9)) (length l)); [done | lia].
Qed.

Lemma start_map : req_ok old ->
  (match chs with
   | Some l => if nz cn then letc src := slice l 0 cn in blit (ch_map old) 0 src else Ret (ch_map old)
   | None => Ret (ch_map old) end) = Ret (ch_map v).
Proof.
  intros Hold. pose proof (rq_map _ Hold) as Hmap. destruct Ha as [_ _ Hcn Hchs].
  unfold v. cbn [requested ch_map]. destruct chs as [l |]; [| done]. specialize (Hchs l eq_refl).
  destruct (nz cn) eqn:En.
  - rewrite slice_Ret by lia. cbn [cbind]. rewrite drop_0.
    rewrite <- (take_drop (Z.to_nat cn) (ch_map old)) at 1.
    by rewrite Mgmt.blit_app_head by (rewrite !length_take; lia).
  - apply negb_false_iff, Z.eqb_eq in En. by rewrite En.
Qed.

Lemma start_value :
  mk_req ty (match bss with Some a => if wf_80211_is_valid_bssid a then a else replicate 6 0 | None => replicate 6 0 end)
    (ssids v) (Z.min n (Z.of_nat WF_SCAN_REQ_SSID_NUM)) (ch_map v) (Z.min cn (Z.of_nat MAX_CHANNEL_NUM)) = v.
Proof.
  destruct Ha as [_ _ Hcn _]. unfold v, requested. cbn [ssids ch_map]. f_equal.
  change (Z.of_nat MAX_CHANNEL_NUM) with 14. lia.
Qed.
End StartValue.

Lemma start_idle s ty bss ss n chs cn : idle s -> args_ok ss n chs cn ->
  wf_scan_start true true ty bss ss n chs cn s = Ret (-3, s) \/
  exists m old que, wf_scan_start true true ty bss ss n chs cn s = Ret (0, set_msg_que que s) /\
    idle (set_msg_que que s) /\ m ∈ Msg.pend que /\
    exists x, Msg.store que !! m = Some x /\ Msg.tag x = WF_SCAN_TAG_START /\ Msg.value x = requested ty bss ss n chs cn old.
Proof.
  intros [Hp Hb Hq Hs] Ha. unfold wf_scan_start. cbn [negb].
  destruct (Msg.use_new _ _ WF_SCAN_TAG_START Hq) as [(r & Hr & -> & _) | (m & -> & Hq1 & Hm & Htag & _)]; cbn [cbind].
  { left. by rewrite set_que_id. }
  right. set (q1 := Msg.taken m (msg_que s)) in *. pose proof (Msg.same_data_taken m (msg_que s)) as Hsd1. fold q1 in Hsd1.
  pose proof (store_ok_same _ _ Hsd1 Hs) as Hs1.
  destruct (Msg.held_stored q1 m) as [x Hx]; [apply (Msg.qi_held _ _ Hq1); constructor |].
  rewrite <- (Msg.same_data_tag _ _ m Hsd1) in Htag. unfold Msg.tag_of in Htag. rewrite Hx in Htag. cbn in Htag.
  unfold Msg.msg_at. rewrite Hx. cbn [of_option cbind]. set (old := Msg.value x) in *.
  pose proof (st_req _ Hs1 m x Hx) as Hold. fold old in Hold.
  set (v := requested ty bss ss n chs cn old). pose proof (requested_ok ty bss ss n chs cn old Ha Hold) as Hv. fold v in Hv.
  rewrite (start_names ty bss ss n chs cn old Ha). cbn [cbind]. rewrite (start_map ty bss ss n chs cn old Ha Hold). cbn [cbind].
  rewrite (start_value ty bss ss n chs cn old Ha). fold v.
  pose proof (Msg.qinv_write _ _ m sizeof_scan_req v Hq1) as Hq2. set (q2 := Msg.msg_write m sizeof_scan_req v q1) in *.
  destruct (Msg.use_push _ _ m Hq2 ltac:(constructor)) as (a & b & que & -> & Hq3 & Hsd & _ & Hpend & _).
  cbn [cbind]. change (nz 0) with false. cbn iota. rewrite Msg.without_head in Hq3 by done.
  pose proof (store_ok_same _ _ Hsd (store_ok_write q1 m sizeof_scan_req v Hs1 Hv)) as Hs3.
  exists m, old, que. split; [done |]. split; [by split |]. split; [rewrite Hpend; set_solver |].
  destruct (Msg.same_data_lookup q2 que m (Msg.mk_msg (Msg.pque x) (Msg.alloc_value_size x) (Msg.tag x) sizeof_scan_req v) Hsd)
    as (x' & Hx' & Ht' & Hv' & _); [unfold q2, Msg.msg_write; cbn [Msg.store]; by rewrite lookup_alter_eq, Hx |].
  exists x'. split; [done |]. rewrite Ht', Hv'. done.
Qed.

(** The invariant does not depend on what is pending. *)
Lemma inv_que b s g que : inv b locals0 s g -> Msg.same_data (msg_que s) que -> Msg.qinv que (holds s) ->
  inv b locals0 (set_msg_que que s) g.
Proof.
  intros Hi Hd Hq.
  assert (Hr : forall q, running s q -> running (set_msg_que que s) q).
  { intros q Hr. apply running_que; [done | | done]. intros m Hm. unfold holds in Hq. by rewrite Hm in Hq. }
  assert (Hidle : idle s -> idle (set_msg_que que s)).
  { intros [Hn Hb Hq0 Hs]. unfold holds in Hq. rewrite Hn in Hq. split; cbn; [done .. | by eapply store_ok_same]. }
  assert (Hv : forall q v, visiting q s g v -> visiting q (set_msg_que que s) g v).
  { intros q v (H & Hrest). split; [by apply Hr | exact Hrest]. }
  destruct b; cbn [inv] in *; try (destruct Hi as (Hid & ?); split; [by apply Hidle | done]);
    try (destruct Hi as (q & Hi); exists q; revert Hi; first [apply Hv | intros (H1 & H2); split; [by first [apply Hr | apply Hv] | exact H2]]).
  - destruct Hi as ([q H1] & H2). split; [exists q; by apply Hr | exact H2].
  - destruct Hi as ([q H1] & H2). split; [exists q; by apply Hr | exact H2].
Qed.

(** Whether a scan is under way. *)
Definition scanning (b : label) : bool := match b with LBegin | LLock | LStart => false | _ => true end.

Lemma inv_scan b l s g : inv b l s g -> if scanning b then exists q, running s q else idle s.
Proof.
  intros Hi. destruct b; cbn [inv scanning] in *; try apply Hi; destruct Hi as (q & Hi); exists q; apply Hi.
Qed.

Lemma running_not_idle s q : running s q -> ~ idle s.
Proof. intros [(m & x & Hm & _) _] [Hn _ _ _]. congruence. Qed.

Lemma inv_qinv b l s g : inv b l s g -> Msg.qinv (msg_que s) (holds s) /\ (idle s \/ exists q, running s q).
Proof.
  intros Hi. apply inv_scan in Hi.
  assert (H : idle s \/ exists q, running s q) by (destruct (scanning b); auto).
  split; [| done]. unfold holds. destruct H as [[-> _ Hq _] | (q & (m & x & -> & _ & _ & _ & Hq) & _)]; done.
Qed.

Lemma init_idle a b t : a <> b ->
  exists s, wf_scan_init (Some a) (Some b) t = Ret (0, s) /\ idle s.
Proof.
  intros Hab. unfold wf_scan_init.
  destruct (Msg.use_alloc Msg.wf_msg_init [] a WF_SCAN_TAG_ABORT 0 zero_req Msg.qinv_init) as (q1 & -> & Hq1 & _ & _ & Hd1);
    [by vm_compute | apply lookup_empty |]. cbn [cbind]. change (nz 0) with false. cbn iota.
  destruct (Msg.use_alloc q1 [] b WF_SCAN_TAG_START sizeof_scan_req zero_req Hq1) as (q2 & -> & Hq2 & _ & _ & Hd2);
    [by vm_compute | |].
  { specialize (Hd1 b). rewrite decide_False in Hd1 by done. cbn in Hd1. rewrite lookup_empty in Hd1.
    by destruct (Msg.store q1 !! b). }
  cbn [cbind]. change (nz 0) with false. cbn iota. eexists. split; [done |].
  assert (E : forall m x, Msg.store q2 !! m = Some x -> Msg.value x = zero_req /\
            (m = b /\ Msg.tag x = WF_SCAN_TAG_START \/ m = a /\ Msg.tag x = WF_SCAN_TAG_ABORT)).
  { intros m x Hx. specialize (Hd2 m). rewrite Hx in Hd2. cbn in Hd2. destruct (decide (m = b)) as [-> | Hb].
    - injection Hd2 as _ Ht _ Hv. auto.
    - rewrite (Hd1 m) in Hd2. destruct (decide (m = a)) as [-> | Ha].
      + injection Hd2 as _ Ht _ Hv. auto.
      + cbn in Hd2. by rewrite lookup_empty in Hd2. }
  split; cbn; [done | done | done |]. split.
  - intros m x Hx. destruct (E m x Hx) as [_ [[_ ?] | [_ ?]]]; auto.
  - intros m x Hx. destruct (E m x Hx) as [-> _]. split; [cbn; lia | done | done |].
    apply Forall_replicate. split; [cbn; lia | done].
  - intros m m' x x' Hx Hx' Ht Ht'. destruct (E m x Hx) as [_ [[-> _] | [_ H]]]; [| by rewrite H in Ht].
    destruct (E m' x' Hx') as [_ [[-> _] | [_ H]]]; [done | by rewrite H in Ht'].
Qed.

(** ** The component in use

    Calls of the thread, each with any answers of what it calls, and between
    them requests to start and to stop: the label of the next call, the state,
    and what the calls of the scan under way have done. *)
Inductive reach : label -> wf_scan_info_t -> env -> Prop :=
  | reach_init a b t s :
      a <> b -> wf_scan_init (Some a) (Some b) t = Ret (0, s) -> reach LBegin s env0
  | reach_call fuel b s g tr r b' p s' :
      reach b s g -> runs (wf_scan_thrd fuel b s) tr (r, b', p, s') -> 7233 + Msg.wf_msg_count (msg_que s) < Z.of_nat fuel ->
      reach b' s' (if done_with r then env0 else after tr g)
  | reach_start b s g ty bss ss n chs cn r s' :
      reach b s g -> args_ok ss n chs cn -> wf_scan_start true true ty bss ss n chs cn s = Ret (r, s') -> reach b s' g
  | reach_stop b s g r s' :
      reach b s g -> wf_scan_stop true s = Ret (r, s') -> reach b s' g.

Lemma call_called fuel b s g : cfg_ok -> inv b locals0 s g -> 7233 + Msg.wf_msg_count (msg_que s) < Z.of_nat fuel ->
  wp (wf_scan_thrd fuel b s) (called b s g).
Proof.
  intros Hc Hi Hf. pose proof (inv_measure b locals0 s g Hc Hi). unfold Msg.wf_msg_count in Hf.
  apply (blocks_called block prsn env_step inv measure locals0 fin blocked); [| by apply block_post | done | lia].
  intros b' l' s' g' Hi'. apply (inv_measure b' l' s' g' Hc Hi').
Qed.

Lemma reach_inv b s g : cfg_ok -> reach b s g -> inv b locals0 s g.
Proof.
  intros Hc. induction 1 as [a b t s Hab E | fuel b s g tr r b' p s' _ IH Hr Hf | b s g ty bss ss n chs cn r s' _ IH Ha E | b s g r s' _ IH E].
  - destruct (init_idle a b t Hab) as (s1 & E1 & Hi). rewrite E1 in E. injection E as <-. done.
  - pose proof (wp_runs _ _ _ _ (call_called fuel b s g Hc IH Hf) Hr) as H. unfold Io.called in H.
    destruct (done_with r); [| apply H]. destruct H as (-> & Hi & _). done.
  - destruct (inv_qinv b locals0 s g IH) as [_ [Hidle | (q & Hrun)]].
    + destruct (start_idle s ty bss ss n chs cn Hidle Ha) as [E1 | (m & old & que & E1 & Hid & _)]; rewrite E1 in E;
        injection E as _ <-; [done |].
      pose proof (inv_scan b locals0 s g IH) as Hb. destruct b; cbn [inv scanning] in *;
        first [split; [done | apply IH] | by destruct Hb as [q Hq]; destruct (running_not_idle s q Hq)].
    + rewrite (start_running s q ty bss ss n chs cn Hrun) in E. by injection E as _ <-.
  - destruct (inv_qinv b locals0 s g IH) as [Hq _]. destruct (stop_ok s true Hq) as (r1 & que & E1 & Hq1 & Hs).
    rewrite E1 in E. injection E as _ <-. by apply inv_que.
Qed.

(** What the invariant says of the calls made so far. *)
Lemma inv_env b l s g : inv b l s g ->
  hw_locked g = match b with LBegin | LLock => false | _ => true end /\
  tx_off g = match b with LFree => false | _ => scanning b end /\
  req_locked g = false /\ (away g = true -> brun s = true \/ b = LFree /\ refused g = true) /\ (brun s = true -> scanning b = true) /\
  (preq s = None <-> scanning b = false).
Proof.
  intros Hi. pose proof (inv_scan b l s g Hi) as Hs.
  assert (Hp : preq s = None <-> scanning b = false).
  { destruct (scanning b); [destruct Hs as [q [(m & x & -> & _) _]]; done | destruct Hs as [-> _ _ _]; done]. }
  assert (Hv : forall q v, visiting q s g v -> hw_locked g = true /\ tx_off g = true /\ req_locked g = false /\ brun s = true)
    by (by intros q v (_ & ? & ? & ? & ? & _)).
  assert (Hcase : (hw_locked g = match b with LBegin | LLock => false | _ => true end /\
            tx_off g = match b with LFree => false | _ => scanning b end /\ req_locked g = false) /\
            ((brun s = false /\ away g = false) \/ (scanning b = true /\ (away g = true -> brun s = true \/ b = LFree /\ refused g = true)))).
  { destruct b; cbn [inv scanning] in *;
      try (destruct Hi as (? & Hi & _); apply Hv in Hi as (? & ? & ? & ?); split; [done | right; by auto]);
      try (destruct Hi as (? & Hi); apply Hv in Hi as (? & ? & ? & ?); split; [done | right; by auto]).
    - destruct Hi as (_ & -> & _). destruct Hs. by split; [| left].
    - destruct Hi as (_ & -> & _). destruct Hs. by split; [| left].
    - destruct Hi as (_ & -> & _). destruct Hs. by split; [| left].
    - destruct Hi as (_ & ? & -> & _). by split; [| left].
    - destruct Hi as (_ & ? & -> & _). by split; [| left].
    - destruct Hi as (q & _ & ? & ? & ? & ? & _). split; [done | right; by auto].
    - destruct Hi as (q & _ & ? & ? & ? & ? & _). split; [done | right; by auto].
    - destruct Hi as (q & _ & ? & ? & ? & _ & Ha & _). split; [done | right]. split; [done |].
      destruct (brun s); [by left |]. intros Haw. rewrite Ha in Haw; done.
    - destruct Hi as (q & _ & ? & (? & ? & ? & ?) & _). split; [done | right]. split; [done |]. intros Haw. right. auto. }
  destruct Hcase as ((? & ? & ?) & [[Hb Ha] | [Hsc Ha]]); split_and!; try done; congruence.
Qed.

(** C19: Every call of the scan thread returns, when the requests are such as
    [args_ok] says: names of 32 bytes at most and 14 channels at most, which
    [wf_scan_start] does not check.  Whatever it is answered, and whatever such
    requests come between its calls, it never follows a null request, never reads
    outside the channel list or a name, and passes at most 7233 blocks and one
    per pending message.  With a longer name it leaves the array of the name
    ([probe_long_name]).  A call ends the scan, or comes strictly further, or it
    has found what it waits for still missing: the hardware lock or the
    request's lock taken, the transmit queues not empty, or its timer running.
    So the thread makes at most that many calls that do not wait. *)
Theorem scan_call_returns fuel b s g :
  cfg_ok -> reach b s g -> 7233 + Msg.wf_msg_count (msg_que s) < Z.of_nat fuel ->
  0 <= measure b s <= 7233 + Msg.wf_msg_count (msg_que s) /\
  wp (wf_scan_thrd fuel b s) (fun tr '(r, b', _, s') =>
    done_with r = true \/ 0 <= measure b' s' < measure b s \/
    b' = b /\ measure b' s' <= measure b s /\ blocked b s s' tr).
Proof.
  intros Hc Hr Hf. pose proof (reach_inv b s g Hc Hr) as Hi. split; [apply (inv_measure b locals0 s g Hc Hi) |].
  eapply wp_mono, (call_called fuel b s g Hc Hi Hf). intros tr [[[r b'] p] s'] H. unfold Io.called in H.
  destruct (done_with r); [by left | right]. destruct H as (Hi' & _ & H).
  pose proof (inv_measure b' locals0 s' _ Hc Hi'). destruct H as [H | H]; [left; lia | by right].
Qed.

(** C17: A scan gives back what it took, on every path.  When the thread ends,
    with or without an error, the hardware lock and the request's lock are
    released, the transmit path runs again, no request is left, every message is in
    the queue, and the radio is back from every channel it was set to unless the
    chip refused the last request to restore it, which the thread does not repeat.
    Between its calls the thread never holds the request's lock, holds the hardware
    lock from the call that got it to the end, and has the transmit path stopped
    while it works on a request, up to the clean-up (so not at the last wait,
    [LFree], for the request's lock).  The flag other components read ([brun]) is
    set only while a request is being worked on; the radio is away from its channel
    only while that flag is set, or at [LFree] after a refused restore. *)
Theorem scan_cleanup fuel b s g :
  cfg_ok -> reach b s g -> 7233 + Msg.wf_msg_count (msg_que s) < Z.of_nat fuel ->
  wp (wf_scan_thrd fuel b s) (fun tr '(r, b', _, s') =>
    let g' := after tr g in
    req_locked g' = false /\
    if done_with r then
      b' = LBegin /\ hw_locked g' = false /\ tx_off g' = false /\ (away g' = true -> refused g' = true) /\
      preq s' = None /\ brun s' = false /\
      (forall m, is_Some (Msg.store (msg_que s') !! m) -> m ∈ Msg.pend (msg_que s') ++ Msg.free (msg_que s'))
    else
      hw_locked g' = match b' with LBegin | LLock => false | _ => true end /\
      tx_off g' = match b' with LFree => false | _ => scanning b' end /\
      (away g' = true -> brun s' = true \/ b' = LFree /\ refused g' = true) /\ (brun s' = true -> scanning b' = true) /\
      (preq s' = None <-> scanning b' = false)).
Proof.
  intros Hc Hr Hf. pose proof (reach_inv b s g Hc Hr) as Hi.
  eapply wp_mono, (call_called fuel b s g Hc Hi Hf). intros tr [[[r b'] p] s'] H. unfold Io.called in H.
  destruct (done_with r).
  - destruct H as (-> & [Hn Hb Hq _] & (H1 & H2 & H3 & H4) & _). split_and!; try done.
    intros m [x Hx]. destruct (Msg.pque x) as [q |] eqn:Ep.
    + apply elem_of_app. destruct (Msg.ok_pque _ (Msg.qi_ok _ _ Hq) q m) as [_ Hin].
      rewrite Hx in Hin. cbn in Hin. rewrite Ep in Hin. specialize (Hin eq_refl). destruct q; auto.
    + exfalso. apply (elem_of_nil (A := Z) m), (Msg.qi_held _ _ Hq). unfold Msg.held. rewrite Hx. cbn. by rewrite Ep.
  - destruct H as [Hi' _]. destruct (inv_env b' locals0 s' _ Hi') as (? & ? & ? & ? & ? & ?). done.
Qed.

(** C18: A scan that reports success has scanned.  When the thread ends with
    [WF_SCAN_TAG_DONE] without having found the request's lock taken - if it has,
    the verdict is lost, see [scan_reason_lost] - and the probes were its own, not
    those of the peer-to-peer component, the radio was set to each channel of the request in
    turn, and on each an active scan sent [scan_prb_times] probe requests: the
    calls made are exactly these.  It ends as exited exactly when the reason is
    negative. *)
Theorem scan_complete fuel b s g :
  cfg_ok -> reach b s g -> 7233 + Msg.wf_msg_count (msg_que s) < Z.of_nat fuel ->
  wp (wf_scan_thrd fuel b s) (fun tr '(r, _, p, s') =>
    let g' := after tr g in
    done_with r = true ->
    exists v, p = Some v /\ r = (if v <? 0 then PT_EXITED else PT_ENDED) /\
      (v = WF_SCAN_TAG_DONE -> busy g' = false -> p2p g' = false ->
       forall m x, Msg.store (msg_que s') !! m = Some x -> Msg.tag x = WF_SCAN_TAG_START ->
         visits g' = plan (Msg.value x) (ch_num (Msg.value x)))).
Proof.
  intros Hc Hr Hf. pose proof (reach_inv b s g Hc Hr) as Hi.
  eapply wp_mono, (call_called fuel b s g Hc Hi Hf). intros tr [[[r b'] p] s'] H. unfold Io.called in H. intros g' Hd.
  rewrite Hd in H. destruct H as (_ & _ & _ & v & Hp & Hv & Hfull). exists v. split_and!; try done.
  intros Hv' Hb Hpp m x Hx Ht. by apply (Hfull Hv' Hb m x Hx Ht).
Qed.

(** The reason of a failed scan is lost when the request's lock is busy.
    The thread waits for that lock with its verdict in a local variable; a call
    that resumes there reports [WF_SCAN_TAG_DONE] whatever had happened. *)
Theorem scan_reason_lost fuel s g :
  cfg_ok -> reach LFree s g ->
  wp (wf_scan_thrd (S fuel) LFree s) (fun _ '(r, _, p, _) =>
    if done_with r then r = PT_ENDED /\ p = Some WF_SCAN_TAG_DONE else r = PT_WAITING).
Proof.
  intros Hc Hr. destruct (reach_inv LFree s g Hc Hr) as (q & Hrun & _).
  pose proof Hrun as [(m & x & Hm & Hx & Hv & Ht & Hq) _]. unfold wf_scan_thrd. cbn [blocks block]. unfold at_free.
  cbn [call ibind wp]. intros r. destruct (nz r); cbn [ibind wp done_with]; [done |].
  rewrite Hm. cbn [of_option lift ibind]. unfold msg_del.
  destruct (Msg.use_del _ _ m Hq ltac:(constructor)) as (que & -> & _). cbn [lift ibind call wp]. done.
Qed.

(** A name longer than its array of 33 bytes is not checked on the way to the
    probe: building it reads behind the array. *)
Theorem probe_long_name (s : wf_scan_info_t) (q : wf_scan_req_t) (ss : wf_wlan_ssid_t) :
  cfg_ok -> req s = Ret q -> ssid_num q <> 0 -> ssids q !! O = Some ss -> length (ssid_data ss) = 33%nat -> 33 < ssid_length ss ->
  exec (wf_scan_probe_send s) [1] = None.
Proof.
  intros Hc Hq Hn Hs Hd Hl. unfold wf_scan_probe_send. cbn [call ibind exec hd]. change (nz 1) with true. cbn [negb].
  destruct (Mgmt.write_hdr _ _ _ _ _ _) as [buf | |]; cbn [lift ibind exec]; [| done | done].
  rewrite Hq. cbn [lift ibind exec]. unfold nz. destruct (Z.eqb_spec (ssid_num q) 0); [done |]. cbn [negb]. rewrite Hs. cbn [of_option cbind].
  unfold put_ie, Ies.set_ie. destruct (wr buf 24 _) as [b1 | |]; [| done | done]. cbn [cbind].
  destruct (wr b1 _ _) as [b2 | |]; [| done | done]. cbn [cbind]. destruct (Z.ltb_spec 0 (ssid_length ss)); [| lia].
  assert (E : slice (ssid_data ss) 0 (ssid_length ss) = Fault) by (unfold slice; destruct (_ && _) eqn:E; [lia | done]).
  by rewrite E.
Qed.

(** One scan at a time.  While a scan is under way a request to start
    another is refused with -3 and changes nothing.  When none is, it is refused
    so only if one is already waiting; otherwise the request is in the queue
    with the channels and names given, at most 14 and 9 of them. *)
Theorem scan_start_exclusive b s g ty bss ss n chs cn :
  cfg_ok -> reach b s g -> args_ok ss n chs cn ->
  if scanning b then wf_scan_start true true ty bss ss n chs cn s = Ret (-3, s)
  else wf_scan_start true true ty bss ss n chs cn s = Ret (-3, s) \/
       exists m old que x, wf_scan_start true true ty bss ss n chs cn s = Ret (0, set_msg_que que s) /\
         m ∈ Msg.pend que /\ Msg.store que !! m = Some x /\ Msg.tag x = WF_SCAN_TAG_START /\
         Msg.value x = requested ty bss ss n chs cn old.
Proof.
  intros Hc Hr Ha. pose proof (inv_scan _ _ _ _ (reach_inv b s g Hc Hr)) as Hs. destruct (scanning b).
  - destruct Hs as [q Hq]. by apply (start_running s q).
  - destruct (start_idle s ty bss ss n chs cn Hs Ha) as [H | (m & old & que & H1 & _ & H2 & x & H3)]; [by left |].
    right. exists m, old, que, x. split; [done |]. split; [done |]. exact H3.
Qed.

(** What the name filter lets through.  A received frame whose first SSID
    element is [name] passes exactly when some name of the request has the same
    length, or agrees with [name] on that many bytes: the two tests are joined
    by "or", so a network with any other name of a requested length passes. *)
Theorem scan_ssid_filter q ies rest o name :
  req_ok q -> 0 < ssid_num q <= 9 -> Z.of_nat (length (Ies.enc ies)) < 65536 -> (length name <= 32)%nat ->
  Ies.find_ie (fun e => fst e =? WF_80211_MGMT_EID_SSID) ies 0 = Some (o, (WF_80211_MGMT_EID_SSID, name)) ->
  check_ssid q (Ies.enc ies ++ rest) (Z.of_nat (length (Ies.enc ies))) =
  Ret (if existsb (fun n => (ssid_length n =? Z.of_nat (length name)) || bytes_eqb (take (length name) (ssid_data n)) name)
            (take (Z.to_nat (ssid_num q)) (ssids q)) then 0 else 1).
Proof.
  intros Hq Hn Hlen Hname Hf. unfold check_ssid.
  assert (Hnz : nz (ssid_num q) = true) by (unfold nz; destruct (Z.eqb_spec (ssid_num q) 0); [lia | done]). rewrite Hnz.
  assert (Hne : ies <> []) by (by intros ->).
  rewrite Ies.search_enc by done. rewrite Hf. cbn [fmap option_fmap option_map fst cbind].
  destruct (Ies.find_ie_at _ _ _ _ _ Hf) as (a & b & -> & -> & _).
  rewrite Ies.enc_app, Ies.enc_cons, <- !app_assoc.
  destruct (Ies.rd_header (Ies.enc a) (WF_80211_MGMT_EID_SSID, name) (Ies.enc b ++ rest) (0 + Z.of_nat (length (Ies.enc a)))) as [_ ->]; [lia |].
  cbn [cbind snd]. rewrite Ies.rd_data by (cbn; lia). cbn [cbind snd]. rewrite Nat2Z.id, (take_ge name) by lia.
  assert (Hall : Forall ssid_ok (take (Z.to_nat (ssid_num q)) (ssids q))) by (apply Forall_take, Hq).
  induction Hall as [| n ns [_ Hd] _ IH]; [done |]. cbn [match_ssid existsb].
  destruct (ssid_length n =? Z.of_nat (length name)); [done |]. cbn [orb].
  rewrite slice_Ret by lia. cbn [cbind]. rewrite drop_0, Nat2Z.id.
  by destruct (bytes_eqb (take (length name) (ssid_data n)) name).
Qed.

(** The filter races with the end of a scan.  Whenever the running flag is
    set the request exists; but the filter reads the flag before it takes the
    request's lock, and if the scan ends between the two it follows the null
    pointer the thread left, for every frame. *)
Theorem scan_filter_race b s g frame len s' :
  cfg_ok -> reach b s g -> brun s = true -> len <> 0 ->
  (exists q, req s = Ret q) /\
  (idle s' -> exec (wf_scan_filter true frame len s s') [0] = None).
Proof.
  intros Hc Hr Hb Hl. pose proof (reach_inv b s g Hc Hr) as Hi. split.
  - destruct (inv_env _ _ _ _ Hi) as (_ & _ & _ & _ & Hsc & _). pose proof (inv_scan _ _ _ _ Hi) as Hs.
    rewrite (Hsc Hb) in Hs. destruct Hs as [q Hq]. exists q. by apply running_req.
  - intros [Hn _ _ _]. unfold wf_scan_filter. destruct (Z.eqb_spec len 0); [done |]. cbn [negb].
    unfold wf_is_scanning. rewrite Hb. cbn [negb call ibind exec hd]. change (nz 0) with false. cbn iota.
    unfold filter_locked, req. rewrite Hn. done.
Qed.
End Scan.

Abbreviation after := (Io.after env_step).

(** ** Examples *)

Definition ex_cfg : config :=
  mk_config 2 50 [1; 6; 11] (replicate 12 2) [2; 0; 0; 0; 0; 1] [2; 0; 0; 0; 0; 2] [2; 0; 0; 0; 0; 2] (replicate 80 0) (fun x => x).

Lemma ex_cfg_ok : cfg_ok ex_cfg.
Proof.
  split; try (by (split; [done | repeat constructor; unfold is_u8; lia])); try (cbn; lia).
Qed.

Definition fuel : nat := Z.to_nat 7240.

(** Three steps: initialised, asked for an active scan of channel 6, called. *)
Definition ex_init : wf_scan_info_t :=
  match wf_scan_init (Some 100) (Some 200) (Timer.mk_timer 0 0 0) with
  | Ret (_, s) => s
  | _ => Si.mk 0 0 false (Timer.mk_timer 0 0 0) (Timer.mk_timer 0 0 0) None Msg.wf_msg_init (0, 0, 0)
  end.
Definition ex_asked : wf_scan_info_t :=
  match wf_scan_start true true SCAN_TYPE_ACTIVE None None 0 (Some [6]) 1 ex_init with Ret (_, s) => s | _ => ex_init end.

Definition sys : Type := label * wf_scan_info_t * env.
Definition ex_call (ans : list Z) (x : sys) : option (pt_ret * option Z * sys) :=
  let '(b, s, g) := x in
  '(tr, (r, b', p, s')) ← exec (wf_scan_thrd ex_cfg fuel b s) ans;
  Some (r, p, (b', s', if done_with r then env0 else after tr g)).

Definition ok (x : sys) : Prop := reach ex_cfg (fst (fst x)) (snd (fst x)) (snd x).

Lemma ex_call_ok ans x r p x' :
  ok x -> (Msg.wf_msg_count (msg_que (snd (fst x))) <? 5) = true -> ex_call ans x = Some (r, p, x') -> ok x'.
Proof.
  destruct x as [[b s] g]. cbn [fst snd]. unfold ok, ex_call. cbn [fst snd]. intros Hx Hc%Z.ltb_lt.
  destruct (exec (wf_scan_thrd ex_cfg fuel b s) ans) as [[tr [[[r1 b1] p1] s1]] |] eqn:E; [| done].
  cbn [mbind option_bind]. intros H. injection H as _ _ <-. cbn [fst snd].
  eapply (reach_call ex_cfg fuel b s g tr r1 b1 p1 s1); [done | by apply (exec_runs _ ans) |]. unfold fuel. lia.
Qed.

Definition ex0 : sys := (LBegin, ex_asked, env0).
Lemma ex0_ok : ok ex0.
Proof.
  eapply (reach_start ex_cfg LBegin ex_init env0 SCAN_TYPE_ACTIVE None None 0 (Some [6]) 1 0).
  - apply (reach_init ex_cfg 100 200 (Timer.mk_timer 0 0 0)); [done | by vm_compute].
  - split; [unfold is_u8; lia | done | lia |]. intros l [= <-]. cbn. lia.
  - by vm_compute.
Qed.

(** The answers of the first call: no lock is taken, the queues are empty, the
    channel is set and the first probe sent. *)
Definition ans1 : list Z := [0; 0; 0; 0; 1; 0; 0; 1; 0; 0; 0; 0; 0; 0; 1; 0; 0; 0].
Definition next_sys (ans : list Z) (x : sys) : sys := match ex_call ans x with Some (_, _, x') => x' | None => x end.
Definition ex1 : sys := Eval vm_compute in next_sys ans1 ex0.
Definition ex2 : sys := Eval vm_compute in next_sys [100; 0; 1; 0; 100; 100] ex1.

Lemma ex1_ok : ok ex1.
Proof.
  apply (ex_call_ok ans1 ex0 PT_WAITING None); [exact ex0_ok | by vm_compute | by vm_compute].
Qed.
Lemma ex2_ok : ok ex2.
Proof.
  apply (ex_call_ok [100; 0; 1; 0; 100; 100] ex1 PT_WAITING None); [exact ex1_ok | by vm_compute | by vm_compute].
Qed.

(** The channel could not be set, and the request's lock was busy. *)
Definition ex_lost : sys := Eval vm_compute in
  next_sys [0; 0; 0; 0; 1; 0; 0; 1; 0; 0; 0; 0; -1; 0; 0; 0; 0; 0; 0; 1] ex0.
Lemma ex_lost_ok : ok ex_lost.
Proof.
  apply (ex_call_ok [0; 0; 0; 0; 1; 0; 0; 1; 0; 0; 0; 0; -1; 0; 0; 0; 0; 0; 0; 1] ex0 PT_WAITING None);
    [exact ex0_ok | by vm_compute | by vm_compute].
Qed.

Definition bl (x : sys) : label := fst (fst x).
Definition st (x : sys) : wf_scan_info_t := snd (fst x).
Definition en (x : sys) : env := snd x.
Definition run_of (x : sys) (ans : list Z) : option (list (ev * Z) * (pt_ret * label * option Z * wf_scan_info_t)) :=
  exec (wf_scan_thrd ex_cfg fuel (bl x) (st x)) ans.
Definition ran (x : sys) (ans : list Z) : list (ev * Z) * (pt_ret * label * option Z * wf_scan_info_t) :=
  default ([], (PT_WAITING, LBegin, None, st x)) (run_of x ans).

Lemma ran_runs x ans : bool_decide (is_Some (run_of x ans)) = true ->
  runs (wf_scan_thrd ex_cfg fuel (bl x) (st x)) (fst (ran x ans)) (snd (ran x ans)).
Proof.
  intros H%bool_decide_eq_true. unfold ran. destruct (run_of x ans) as [[tr a] |] eqn:E; [| by destruct H].
  by apply (exec_runs _ ans).
Qed.

(** The last call of the example: the wait is over and nothing is taken. *)
Definition ans3 : list Z := [200].

Lemma scan_call_returns_witness :
  0 <= measure ex_cfg LBegin ex_asked <= 7234 /\
  exists tr r b' p s', run_of ex0 ans1 = Some (tr, (r, b', p, s')) /\ measure ex_cfg b' s' < measure ex_cfg LBegin ex_asked.
Proof.
  destruct (scan_call_returns ex_cfg fuel LBegin ex_asked env0) as [Hm Hw];
    [apply ex_cfg_ok | exact ex0_ok | by vm_compute |].
  split; [revert Hm; change (Msg.wf_msg_count (msg_que ex_asked)) with 1; lia |].
  destruct (ran ex0 ans1) as [tr [[[r b'] p] s']] eqn:E. exists tr, r, b', p, s'. split; [by vm_compute in E |- *; rewrite <- E |].
  pose proof (ran_runs ex0 ans1 eq_refl) as Hr. rewrite E in Hr. cbn [fst snd] in Hr.
  pose proof (wp_runs _ _ _ _ Hw Hr) as [H | [H | (H & _)]]; [| lia |].
  - vm_compute in E. injection E as _ <- _ _ _. done.
  - vm_compute in E. injection E as _ _ <- _ _. done.
Defined.

Lemma scan_cleanup_witness :
  exists tr r b' p s', run_of ex2 ans3 = Some (tr, (r, b', p, s')) /\ r = PT_ENDED /\
    hw_locked (after tr (en ex2)) = false /\ tx_off (after tr (en ex2)) = false /\ preq s' = None.
Proof.
  pose proof (scan_cleanup ex_cfg fuel (bl ex2) (st ex2) (en ex2) ex_cfg_ok ex2_ok ltac:(by vm_compute)) as Hw.
  pose proof (ran_runs ex2 ans3 eq_refl) as Hr.
  destruct (ran ex2 ans3) as [tr [[[r b'] p] s']] eqn:E. exists tr, r, b', p, s'.
  split; [by vm_compute in E |- *; rewrite <- E |]. cbn [fst snd] in Hr. pose proof (wp_runs _ _ _ _ Hw Hr) as (_ & H).
  assert (Er : r = PT_ENDED) by (vm_compute in E; by injection E as _ <- _ _ _). rewrite Er in H |- *. cbn [done_with] in H.
  destruct H as (_ & H1 & H2 & _ & H3 & _). done.
Defined.

Lemma scan_complete_witness :
  exists tr r b' p s', run_of ex2 ans3 = Some (tr, (r, b', p, s')) /\ p = Some WF_SCAN_TAG_DONE /\
    visits (after tr (en ex2)) = [Chan 6; Probe; Probe].
Proof.
  pose proof (scan_complete ex_cfg fuel (bl ex2) (st ex2) (en ex2) ex_cfg_ok ex2_ok ltac:(by vm_compute)) as Hw.
  pose proof (ran_runs ex2 ans3 eq_refl) as Hr. pose proof (wp_runs _ _ _ _ Hw Hr) as H.
  destruct (ran ex2 ans3) as [tr [[[r b'] p] s']] eqn:E. exists tr, r, b', p, s'.
  split; [by vm_compute in E |- *; rewrite <- E |]. cbn [fst snd] in *.
  vm_compute in E. injection E as Etr Er _ Ep Es.
  destruct (H ltac:(by rewrite <- Er)) as (v & Hv & _ & Hfull). rewrite <- Ep in Hv. injection Hv as <-.
  split; [by rewrite <- Ep |].
  rewrite (Hfull eq_refl ltac:(by rewrite <- Etr) ltac:(by rewrite <- Etr) 200
             (Msg.mk_msg (Some Msg.Free) sizeof_scan_req WF_SCAN_TAG_START sizeof_scan_req
                (mk_req SCAN_TYPE_ACTIVE (replicate 6 0) (replicate 9 zero_ssid) 0 (6 :: replicate 13 0) 1))); [done | by rewrite <- Es | done].
Defined.

Lemma scan_reason_lost_witness :
  bl ex_lost = LFree /\ visits (en ex_lost) = [] /\
  exists tr r b' p s', run_of ex_lost [0] = Some (tr, (r, b', p, s')) /\ r = PT_ENDED /\ p = Some WF_SCAN_TAG_DONE.
Proof.
  pose proof (scan_reason_lost ex_cfg (pred fuel) (st ex_lost) (en ex_lost) ex_cfg_ok ex_lost_ok) as Hw.
  split; [done |]. split; [done |].
  change (S (pred fuel)) with fuel in Hw. pose proof (ran_runs ex_lost [0] eq_refl) as Hr.
  pose proof (wp_runs _ _ _ _ Hw Hr) as H. destruct (ran ex_lost [0]) as [tr [[[r b'] p] s']] eqn:E.
  exists tr, r, b', p, s'. split; [by vm_compute in E |- *; rewrite <- E |]. cbn [fst snd] in H.
  assert (Er : r = PT_ENDED) by (vm_compute in E; by injection E as _ <- _ _ _). rewrite Er in H |- *. exact H.
Defined.

Lemma scan_start_exclusive_witness :
  wf_scan_start true true 0 None None 0 None 0 (st ex1) = Ret (-3, st ex1).
Proof.
  apply (scan_start_exclusive ex_cfg (bl ex1) (st ex1) (en ex1)); [apply ex_cfg_ok | exact ex1_ok |].
  split; [unfold is_u8; lia | done | lia | done].
Defined.

(** One name of three bytes is asked for; another of three bytes passes. *)
Definition ex_req : wf_scan_req_t :=
  mk_req 1 (replicate 6 0) (mk_ssid 3 (97 :: replicate 32 0) :: replicate 8 zero_ssid) 1 (replicate 14 0) 0.

Lemma scan_ssid_filter_witness : check_ssid ex_req (Ies.enc [(0, [120; 121; 122])] ++ []) 5 = Ret 0.
Proof.
  refine (scan_ssid_filter ex_req [(0, [120; 121; 122])] [] 0 [120; 121; 122] _ _ _ _ _); [| cbn; lia | cbn; lia | cbn; lia | done].
  split; [cbn; lia | done | done |].
  constructor; [by split; cbn; [lia |] | apply Forall_replicate; by split; cbn; [lia |]].
Defined.

Lemma ex_init_idle : idle ex_init.
Proof.
  destruct (init_idle 100 200 (Timer.mk_timer 0 0 0) ltac:(done)) as (s & E & H). unfold ex_init. by rewrite E.
Qed.

Lemma scan_filter_race_witness :
  (exists q, req (st ex1) = Ret q) /\ exec (wf_scan_filter ex_cfg true [] 100 (st ex1) ex_init) [0] = None.
Proof.
  destruct (scan_filter_race ex_cfg (bl ex1) (st ex1) (en ex1) [] 100 ex_init) as [H1 H2];
    [apply ex_cfg_ok | exact ex1_ok | done | done |].
  split; [exact H1 | exact (H2 ex_init_idle)].
Defined.

End Scan.
