(* ===== verification/Auth.v ===== *)
(** * Authentication frames and the station's thread ([nic/auth.c])

    The frames of both sides ([auth_send]) and the protothread that
    authenticates a station, on the message queue through which it is started,
    stopped and given the answers received. *)
From S2P Require Import Prelude Cipher Arc4 SecTypes Crc32 Wep WdnTypes Ies Timer Msg Io Mgmt Request.

Module Auth.
Import Io Crc32.

Definition WF_AUTH_TAG_RSP : Z := Msg.WF_MSG_TAG_SET 0 0 0.
Definition WF_AUTH_TAG_ABORT : Z := Msg.WF_MSG_TAG_SET 0 1 0.
Definition WF_AUTH_TAG_START : Z := Msg.WF_MSG_TAG_SET 0 2 0.
Definition WF_AUTH_TAG_DONE : Z := WF_AUTH_TAG_START + 1.
Definition AUTH_REQ_RESEND_TIMES : Z := 3.
Definition AUTH_RSP_TIMEOUT : Z := 50.
Definition WF_80211_AUTH_SEQ_1 : Z := 1.
Definition WF_80211_AUTH_SEQ_2 : Z := 2.
Definition WF_80211_AUTH_SEQ_3 : Z := 3.
Definition WF_80211_AUTH_SEQ_4 : Z := 4.
Definition WF_80211_STATUS_SUCCESS : Z := 0.
Definition WF_80211_STATUS_NOT_SUPPORTED_AUTH_ALG : Z := 13.
Definition WF_80211_MGMT_EID_CHALLENGE : Z := 16.
Definition WF_80211_AUTH_CHALLENGE_LEN : Z := 128.
Definition WIFI_FW_STATION_STATE : Z := 2.
Definition HT_CTRL_LEN : Z := 4.
(** [sizeof(auth_rsp_t)] *)
Definition AUTH_RSP_SIZE : Z := 180.
(** The length of a third frame: [auth_seq3] at 24 with its 144 bytes. *)
Definition AUTH_SEQ3_LEN : Z := 168.

(** Calls; [Indeterminate] is the value of a local variable that has not been
    assigned. *)
Inductive ev : Type :=
  | ExtbufNew
  | MgmtXmit (frame : list Z)
  | HwTrylock | HwUnlock | Clock
  | SetBssid | MlmeJoin | MediaStatus (state : Z) | FindWdn
  | Rand32
  | Indeterminate.

(** What is read of other structures: the own address, the keys and
    [dot11PrivacyKeyIndex] of [sec_info], and what a transmit buffer holds
    behind its descriptor. *)
Record config : Type := mk_config {
  local_addr : list Z;
  sec_info : sec_info_st;
  dot11PrivacyKeyIndex : Z;
  pbuf : list Z;
  msecs_to_timestamp : Z -> Z;
}.

Section Frames.
Context {SC : StreamCipher} (cfg : config).

(** [auth_alg], [auth_transaction] and [status_code] at [ofs]. *)
Definition put_auth (buf : list Z) (ofs alg seq status : Z) : C (list Z) :=
  letc buf := blit buf ofs (le_bytes 2 alg) in
  letc buf := blit buf (ofs + 2) (le_bytes 2 seq) in
  blit buf (ofs + 4) (le_bytes 2 status).

(** The challenge element at [ofs]. *)
Definition put_challenge (buf : list Z) (ofs : Z) (w : Wi.wdn_net_info_st) : C (list Z) :=
  letc buf := wr buf ofs WF_80211_MGMT_EID_CHALLENGE in
  letc buf := wr buf (ofs + 1) WF_80211_AUTH_CHALLENGE_LEN in
  letc text := slice (Wi.chlg_txt w) 0 WF_80211_AUTH_CHALLENGE_LEN in
  blit buf (ofs + 2) text.

(** The third frame: the protected bit, the IV, and the encrypted answer to the
    challenge. *)
Definition put_seq3 (buf : list Z) (w : Wi.wdn_net_info_st) (g : crc_globals)
    : C (list Z * Wi.wdn_net_info_st * crc_globals) :=
  letc fc := Mgmt.get16 buf 0 in
  letc buf := blit buf 0 (le_bytes 2 (Mgmt.wf_80211_set_protected fc)) in
  let w := Wi.set_key_index (dot11PrivacyKeyIndex cfg) w in
  let tmp_32 := Z.lor (Wi.iv w) (u32 (Z.shiftl (Wi.key_index w) 30)) in
  let w := Wi.set_iv (u32 (Wi.iv w + 1)) w in
  letc buf := blit buf 24 (le_bytes 4 tmp_32) in
  letc buf := put_auth buf 28 dot11AuthAlgrthm_Shared WF_80211_AUTH_SEQ_3 WF_80211_STATUS_SUCCESS in
  letc buf := put_challenge buf 34 w in
  letc (_, g, buf) := Wep.wf_wep_encrypt_auth g (sec_info cfg) buf AUTH_SEQ3_LEN in
  Ret (buf, w, g).

(** The frame [auth_send] builds in [buf], with the header in place, or its error
    code; also the access point's frames. *)
Definition auth_frame (buf : list Z) (w : Wi.wdn_net_info_st) (g : crc_globals) (status : Z)
    : C (Z + list Z * Wi.wdn_net_info_st * crc_globals) :=
  let seq := Wi.auth_seq w in
  if (seq =? WF_80211_AUTH_SEQ_1) || (seq =? WF_80211_AUTH_SEQ_4) then
    letc buf := put_auth buf 24 (Wi.auth_algo w) seq status in
    letc frame := slice buf 0 30 in
    Ret (inr (frame, w, g))
  else if seq =? WF_80211_AUTH_SEQ_2 then
    letc buf := put_auth buf 24 (Wi.auth_algo w) WF_80211_AUTH_SEQ_2 status in
    let challenge := (status =? WF_80211_STATUS_SUCCESS) && (Wi.auth_algo w =? dot11AuthAlgrthm_Shared) in
    letc buf := (if challenge then put_challenge buf 30 w else Ret buf) in
    letc frame := slice buf 0 (if challenge then 160 else 30) in
    Ret (inr (frame, w, g))
  else if seq =? WF_80211_AUTH_SEQ_3 then
    if negb (Wi.auth_algo w =? dot11AuthAlgrthm_Shared) then Ret (inl (-3))
    else
      letc (buf, w, g) := put_seq3 buf w g in
      letc frame := slice buf 0 AUTH_SEQ3_LEN in
      Ret (inr (frame, w, g))
  else Ret (inl (-4)).

(** [auth_send] to the node [w]. *)
Definition auth_send (w : Wi.wdn_net_info_st) (g : crc_globals) (status : Z)
    : io ev (Z * Wi.wdn_net_info_st * crc_globals) :=
  let! b := call ExtbufNew in
  if negb (nz b) then iret (-1, w, g)
  else
    let! buf := lift (Mgmt.write_hdr (pbuf cfg) 24 Mgmt.WF_80211_FRM_AUTH (Wi.mac w) (local_addr cfg) (Wi.bssid w)) in
    let! f := lift (auth_frame buf w g status) in
    match f with
    | inl e => iret (e, w, g)
    | inr (frame, w, g) =>
        let! r := call (MgmtXmit frame) in
        iret (r, w, g)
    end.
End Frames.

(** ** The station's thread *)

(** [auth_info_t]: whether [pwdn_info] points to a node, the node of the current
    network, and the tables of the CRC code. *)
Module Ai.
Record auth_info_t : Type := mk {
  pwdn_info : bool;
  node : Wi.wdn_net_info_st;
  retry_cnt : Z;
  timer : Timer.wf_timer_t;
  brun : bool;
  msg_que : Msg.wf_msg_que_t (list Z);
  crc : crc_globals;
}.

Definition set_pwdn_info (v : bool) (r : auth_info_t) : auth_info_t :=
  mk v (node r) (retry_cnt r) (timer r) (brun r) (msg_que r) (crc r).
Definition set_node (v : Wi.wdn_net_info_st) (r : auth_info_t) : auth_info_t :=
  mk (pwdn_info r) v (retry_cnt r) (timer r) (brun r) (msg_que r) (crc r).
Definition set_retry_cnt (v : Z) (r : auth_info_t) : auth_info_t :=
  mk (pwdn_info r) (node r) v (timer r) (brun r) (msg_que r) (crc r).
Definition set_timer (v : Timer.wf_timer_t) (r : auth_info_t) : auth_info_t :=
  mk (pwdn_info r) (node r) (retry_cnt r) v (brun r) (msg_que r) (crc r).
Definition set_brun (v : bool) (r : auth_info_t) : auth_info_t :=
  mk (pwdn_info r) (node r) (retry_cnt r) (timer r) v (msg_que r) (crc r).
Definition set_msg_que (v : Msg.wf_msg_que_t (list Z)) (r : auth_info_t) : auth_info_t :=
  mk (pwdn_info r) (node r) (retry_cnt r) (timer r) (brun r) v (crc r).
Definition set_crc (v : crc_globals) (r : auth_info_t) : auth_info_t :=
  mk (pwdn_info r) (node r) (retry_cnt r) (timer r) (brun r) (msg_que r) v.
End Ai.


Import Ai.

Inductive label : Type :=
  | ABegin | ALock | AStart | ASend1 | AWait2 | ACheck2 | ASend3 | AWait4 | ACheck4 | AExit.

Record locals : Type := mk_locals {
  reason : option Z;
  pmsg : Z;
  prsn : option Z;
}.
Definition locals0 : locals := mk_locals None 0 None.
Definition set_reason (v : Z) (l : locals) : locals := mk_locals (Some v) (pmsg l) (prsn l).
Definition set_pmsg (v : Z) (l : locals) : locals := mk_locals (reason l) v (prsn l).
Definition set_prsn (v : Z) (l : locals) : locals := mk_locals (reason l) (pmsg l) (Some v).

Definition step : Type := next label * locals * auth_info_t.

Section Thread.
Context {SC : StreamCipher} (cfg : config).

Definition msg_del (m : Z) (s : auth_info_t) : C auth_info_t :=
  letc (_, q) := Msg.wf_msg_del (msg_que s) m in
  Ret (set_msg_que q s).

Definition msg_pop (s : auth_info_t) : C (option Z * auth_info_t) :=
  letc (_, m, q) := Msg.wf_msg_pop (msg_que s) in
  Ret (m, set_msg_que q s).

Definition msg_tag (m : Z) (s : auth_info_t) : Z := Msg.tag_of (msg_que s) m.

(** Where the fields of the answer start: behind the HT control field, if the
    frame has one. *)
Definition auth_ofs (frame : list Z) : C Z :=
  letc fc := Mgmt.frame_control frame in
  Ret (24 + (if Mgmt.wf_80211_has_order fc then HT_CTRL_LEN else 0)).

(** Transaction number and status of the answer in a message. *)
Definition answer (frame : list Z) : C (Z * Z) :=
  letc ofs := auth_ofs frame in
  letc seq := Mgmt.get16 frame (ofs + 2) in
  letc status := Mgmt.get16 frame (ofs + 4) in
  Ret (seq, status).

Definition again (b : label) (l : locals) (s : auth_info_t) : step :=
  (Goto b, l, set_retry_cnt (u8 (retry_cnt s + 1)) s).

Definition at_start (l : locals) (s : auth_info_t) : io ev step :=
  let! (pmsg, s) := lift (msg_pop s) in
  match pmsg with
  | None =>
      do! call HwUnlock in
      iret (Return PT_EXITED ABegin, set_prsn (-1) l, s)
  | Some m =>
      let tag := msg_tag m s in
      let! s := lift (msg_del m s) in
      if negb (tag =? WF_AUTH_TAG_START) then iret (Return PT_YIELDED AStart, l, s)
      else
        let s := set_brun true s in
        do! call SetBssid in
        do! call MlmeJoin in
        do! call (MediaStatus WIFI_FW_STATION_STATE) in
        let! found := call FindWdn in
        let s := set_pwdn_info (nz found) s in
        if negb (nz found) then iret (Goto AExit, set_reason (-2) l, s)
        else
          let w := Wi.set_auth_algo dot11AuthAlgrthm_Open (Wi.set_auth_seq WF_80211_AUTH_SEQ_1 (node s)) in
          iret (Goto ASend1, l, set_retry_cnt 0 (set_node w s))
  end.

(** One round of a loop that sends: the frame, then the wait [next]; [failed] is
    the reason when sending fails, [out] where the loop ends. *)
Definition at_send (failed : Z) (wait out : label) (l : locals) (s : auth_info_t) : io ev step :=
  if retry_cnt s <? AUTH_REQ_RESEND_TIMES then
    let! (r, w, g) := auth_send cfg (node s) (crc s) WF_80211_STATUS_SUCCESS in
    let s := set_crc g (set_node w s) in
    if nz r then iret (Goto AExit, set_reason failed l, s)
    else
      let! now := call Clock in
      iret (Goto wait, l, set_timer (Timer.wf_timer_set (msecs_to_timestamp cfg) now AUTH_RSP_TIMEOUT (timer s)) s)
  else iret (Goto out, l, s).

(** What an answer to the first frame leads to; the message is deleted except on
    the way to the challenge. *)
Definition on_answer2 (m : Z) (l : locals) (s : auth_info_t) : C step :=
  letc x := Msg.msg_at (msg_que s) m in
  letc (seq, status) := answer (Msg.value x) in
  if seq =? WF_80211_AUTH_SEQ_2 then
    if status =? WF_80211_STATUS_NOT_SUPPORTED_AUTH_ALG then
      let algo := if Wi.auth_algo (node s) =? dot11AuthAlgrthm_Shared then dot11AuthAlgrthm_Open else dot11AuthAlgrthm_Shared in
      letc s := msg_del m (set_node (Wi.set_auth_algo algo (node s)) s) in
      Ret (again ASend1 l s)
    else if status =? WF_80211_STATUS_SUCCESS then
      if Wi.auth_algo (node s) =? dot11AuthAlgrthm_Open then
        letc s := msg_del m s in
        Ret (Goto AExit, set_reason WF_AUTH_TAG_DONE l, s)
      else Ret (Goto ACheck2, set_pmsg m l, s)
    else letc s := msg_del m s in Ret (again ASend1 l s)
  else letc s := msg_del m s in Ret (again ASend1 l s).

Definition on_answer4 (m : Z) (l : locals) (s : auth_info_t) : C step :=
  letc x := Msg.msg_at (msg_que s) m in
  letc (seq, status) := answer (Msg.value x) in
  if seq =? WF_80211_AUTH_SEQ_4 then
    if status =? WF_80211_STATUS_SUCCESS then
      letc s := msg_del m s in
      Ret (Goto ACheck4, set_reason WF_AUTH_TAG_DONE l, s)
    else letc s := msg_del m (set_retry_cnt AUTH_REQ_RESEND_TIMES s) in Ret (again ASend3 l s)
  else letc s := msg_del m s in Ret (again ASend3 l s).

(** The wait for an answer. *)
Definition at_wait (here send : label) (on_answer : Z -> locals -> auth_info_t -> C step) (l : locals) (s : auth_info_t)
    : io ev step :=
  let! (pmsg, s) := lift (msg_pop s) in
  match pmsg with
  | None =>
      let! now := call Clock in
      iret (if Timer.wf_timer_expired now (timer s) then again send l s else (Return PT_WAITING here, l, s))
  | Some m =>
      let tag := msg_tag m s in
      if tag =? WF_AUTH_TAG_ABORT then
        let! s := lift (msg_del m s) in
        iret (Goto AExit, set_reason WF_AUTH_TAG_ABORT l, s)
      else if tag =? WF_AUTH_TAG_RSP then lift (on_answer m l s)
      else
        let! s := lift (msg_del m s) in
        iret (Goto here, l, s)
  end.

(** Behind the first loop: the challenge is taken from the answer still held. *)
Definition at_check2 (l : locals) (s : auth_info_t) : C step :=
  if retry_cnt s =? AUTH_REQ_RESEND_TIMES then Ret (Goto AExit, set_reason (-4) l, s)
  else
    letc x := Msg.msg_at (msg_que s) (pmsg l) in
    letc ofs := auth_ofs (Msg.value x) in
    let var := drop (Z.to_nat (ofs + 6)) (Msg.value x) in
    let var_len := u16 (Msg.len x - (ofs + 6)) in
    letc o := Ies.wf_80211_mgmt_ies_search (Some var) var_len WF_80211_MGMT_EID_CHALLENGE in
    match o with
    | None => Ret (Goto AExit, set_reason (-5) l, s)
    | Some o =>
        letc len := rd var (o + 1) in
        if WF_80211_AUTH_CHALLENGE_LEN <? len then Ret (Goto AExit, set_reason (-5) l, s)
        else
          letc data := slice var (o + 2) len in
          letc text := blit (Wi.chlg_txt (node s)) 0 data in
          letc s := msg_del (pmsg l) (set_node (Wi.set_chlg_txt text (node s)) s) in
          let s := set_node (Wi.set_auth_seq WF_80211_AUTH_SEQ_3 (node s)) s in
          Ret (Goto ASend3, l, set_retry_cnt 0 s)
    end.

Definition at_exit (l : locals) (s : auth_info_t) : io ev step :=
  let s := set_brun false s in
  do! call HwUnlock in
  let! r := match reason l with Some r => iret r | None => call Indeterminate end in
  iret (Return (if nz r then PT_EXITED else PT_ENDED) ABegin, set_prsn r l, s).

Definition block (b : label) (l : locals) (s : auth_info_t) : io ev step :=
  match b with
  | ABegin => iret (Goto ALock, l, s)
  | ALock =>
      let! busy := call HwTrylock in
      iret (if nz busy then Return PT_WAITING ALock else Goto AStart, l, s)
  | AStart => at_start l s
  | ASend1 => at_send (-3) AWait2 ACheck2 l s
  | AWait2 => at_wait AWait2 ASend1 on_answer2 l s
  | ACheck2 => lift (at_check2 l s)
  | ASend3 => at_send (-6) AWait4 ACheck4 l s
  | AWait4 => at_wait AWait4 ASend3 on_answer4 l s
  | ACheck4 => iret (Goto AExit, if retry_cnt s =? AUTH_REQ_RESEND_TIMES then set_reason (-7) l else l, s)
  | AExit => at_exit l s
  end.

Definition wf_auth_sta_thrd (fuel : nat) (b : label) (s : auth_info_t)
    : io ev (pt_ret * label * option Z * auth_info_t) := blocks block prsn fuel b locals0 s.

(** ** Requests from outside *)

Definition request (tag enew epush : Z) (s : auth_info_t) : C (Z * auth_info_t) :=
  letc (r, q) := Request.request true tag enew epush (msg_que s) in
  Ret (r, set_msg_que q s).

Definition wf_auth_sta_start (can_run is_up : bool) (s : auth_info_t) : C (Z * auth_info_t) :=
  if negb can_run then Ret (-1, s)
  else if negb is_up then Ret (-2, s)
  else request WF_AUTH_TAG_START (-3) (-4) s.

Definition wf_auth_sta_stop (can_run : bool) (s : auth_info_t) : C (Z * auth_info_t) :=
  if negb can_run then Ret (-1, s)
  else if negb (brun s) then Ret (-2, s)
  else request WF_AUTH_TAG_ABORT (-3) (-4) s.

Definition MLME_STATE_AUTH : Z := 2.

(** [auth_sta_recv] of a frame from the node [w]; [state] is the one of the
    management thread and [cur_bssid] the current network. *)
Definition auth_sta_recv (state : Z) (cur_bssid : list Z) (w : option Wi.wdn_net_info_st) (frame : list Z) (s : auth_info_t)
    : C (Z * auth_info_t) :=
  let mgmt_len := Z.of_nat (length frame) in
  if mgmt_len =? 0 then Ret (-1, s)
  else
    match w with
    | None => Ret (-2, s)
    | Some w =>
        if negb (state =? MLME_STATE_AUTH) then Ret (-3, s)
        else
          letc d := Mgmt.da frame in
          if negb (bytes_eqb d (local_addr cfg)) || negb (bytes_eqb (Wi.bssid w) cur_bssid) then Ret (-4, s)
          else if AUTH_RSP_SIZE <? mgmt_len then Ret (-5, s)
          else
            letc (r, q) := Request.deliver WF_AUTH_TAG_RSP frame (msg_que s) in
            Ret (r, set_msg_que q s)
    end.

(** [wf_auth_init]: the four messages. *)
Definition wf_auth_init (a : list (option Z)) (b c : option Z) (w : Wi.wdn_net_info_st) (t : Timer.wf_timer_t)
    : C (Z * auth_info_t) :=
  letc (r, q) := Request.msg_init WF_AUTH_TAG_RSP AUTH_RSP_SIZE WF_AUTH_TAG_ABORT WF_AUTH_TAG_START a b c in
  Ret (if nz r then -2 else 0, Ai.mk false w 0 t false q crc_globals0).
End Thread.

(** ** The frames *)

Record cfg_ok (cfg : config) : Prop := {
  cf_local : Mgmt.addr_ok (local_addr cfg);
  cf_sec : sec_info_ok (sec_info cfg);
  cf_keylen : Forall (fun n => 0 <= n <= 13) (dot11DefKeylen (sec_info cfg));
  cf_buf : (168 <= length (pbuf cfg))%nat;
}.

Record node_ok (w : Wi.wdn_net_info_st) : Prop := {
  nd_mac : Mgmt.addr_ok (Wi.mac w);
  nd_bssid : Mgmt.addr_ok (Wi.bssid w);
  nd_len : length (Wi.chlg_txt w) = 128%nat;
  nd_txt : bytes_ok (Wi.chlg_txt w);
}.

Definition auth_fields (alg seq status : Z) : list Z := le_bytes 2 alg ++ le_bytes 2 seq ++ le_bytes 2 status.

Lemma length_fields alg seq status : length (auth_fields alg seq status) = 6%nat.
Proof. unfold auth_fields. by rewrite !length_app, !length_le_bytes. Qed.

Lemma put_auth_eq a rest alg seq status ofs : ofs = Z.of_nat (length a) -> (6 <= length rest)%nat ->
  put_auth (a ++ rest) ofs alg seq status = Ret (a ++ auth_fields alg seq status ++ drop 6 rest).
Proof.
  intros -> Hl. unfold put_auth, auth_fields.
  destruct (Mgmt.split_rest 2 rest ltac:(lia)) as [E1 L1]. rewrite E1 at 1.
  rewrite blit_app_mid by (rewrite ?length_le_bytes; lia). cbn [cbind].
  destruct (Mgmt.split_rest 2 (drop 2 rest)) as [E2 L2]; [rewrite length_drop; lia |]. rewrite E2, drop_drop, app_assoc. change (2 + 2)%nat with 4%nat.
  rewrite blit_app_mid by (rewrite ?length_app, ?length_le_bytes; lia). cbn [cbind].
  destruct (Mgmt.split_rest 2 (drop 4 rest)) as [E3 L3]; [rewrite length_drop; lia |]. rewrite E3, drop_drop, app_assoc. change (4 + 2)%nat with 6%nat.
  rewrite blit_app_mid by (rewrite ?length_app, ?length_le_bytes; lia). by rewrite <- !app_assoc.
Qed.

Lemma put_challenge_eq a rest w ofs : ofs = Z.of_nat (length a) -> (130 <= length rest)%nat -> length (Wi.chlg_txt w) = 128%nat ->
  put_challenge (a ++ rest) ofs w = Ret (a ++ Ies.enc_ie (WF_80211_MGMT_EID_CHALLENGE, Wi.chlg_txt w) ++ drop 130 rest).
Proof.
  intros -> Hl Hc. unfold put_challenge. destruct rest as [| x [| y rest]]; cbn [length] in Hl; [lia | lia |].
  rewrite wr_app_mid by done. cbn [cbind]. change (a ++ ?z :: y :: rest) with (a ++ [z] ++ y :: rest). rewrite app_assoc.
  rewrite wr_app_mid by (rewrite length_app; cbn; lia). cbn [cbind].
  rewrite slice_Ret by (unfold WF_80211_AUTH_CHALLENGE_LEN; lia). cbn [cbind]. change (Z.to_nat 0) with 0%nat.
  change (Z.to_nat WF_80211_AUTH_CHALLENGE_LEN) with 128%nat. rewrite drop_0, take_ge by lia.
  destruct (Mgmt.split_rest 128 rest ltac:(lia)) as [E L]. rewrite E at 1.
  change ((a ++ [?z]) ++ ?y :: ?k) with ((a ++ [z]) ++ [y] ++ k). rewrite app_assoc, blit_app_mid
    by (rewrite ?length_app, ?Hc; cbn [length]; lia).
  cbn [drop]. unfold Ies.enc_ie. cbn [fst snd]. rewrite Hc, <- !app_assoc. done.
Qed.

Section FrameSpecs.
Context {SC : StreamCipher} (cfg : config) (w : Wi.wdn_net_info_st) (g : crc_globals).
Hypothesis Hc : cfg_ok cfg.
Hypothesis Hw : node_ok w.
Hypothesis Hg : globals_ok g.

Definition head (fc : Z) : list Z := Mgmt.hdr fc (Wi.mac w) (local_addr cfg) (Wi.bssid w).

Lemma length_header fc : length (head fc) = 24%nat.
Proof. apply Mgmt.length_hdr; [apply Hw | apply Hc | apply Hw]. Qed.

Lemma header_written :
  Mgmt.write_hdr (pbuf cfg) 24 Mgmt.WF_80211_FRM_AUTH (Wi.mac w) (local_addr cfg) (Wi.bssid w) =
  Ret (head 0xB0 ++ drop 24 (pbuf cfg)).
Proof.
  pose proof (cf_buf cfg Hc). rewrite Mgmt.write_hdr_eq; [done | lia | unfold Mgmt.WF_80211_FRM_AUTH; lia | apply Hw | apply Hc | apply Hw].
Qed.

Let rest := drop 24 (pbuf cfg).
Lemma length_rest : (144 <= length rest)%nat.
Proof. unfold rest. rewrite length_drop. pose proof (cf_buf cfg Hc). lia. Qed.

(** The frames without a challenge: the first, the fourth, and the second of an
    open authentication or one that is refused. *)
Definition plain_frame (status : Z) : list Z := head 0xB0 ++ auth_fields (Wi.auth_algo w) (Wi.auth_seq w) status.

Lemma frame_plain status :
  Wi.auth_seq w = 1 \/ Wi.auth_seq w = 4 \/
  Wi.auth_seq w = 2 /\ (status =? 0) && (Wi.auth_algo w =? dot11AuthAlgrthm_Shared) = false ->
  auth_frame cfg (head 0xB0 ++ rest) w g status = Ret (inr (plain_frame status, w, g)).
Proof.
  intros Hseq. pose proof length_rest. unfold auth_frame, plain_frame. pose proof (length_header 0xB0) as Hh.
  assert (E : forall st, slice (head 0xB0 ++ auth_fields (Wi.auth_algo w) (Wi.auth_seq w) st ++ drop 6 rest) 0 30 =
            Ret (head 0xB0 ++ auth_fields (Wi.auth_algo w) (Wi.auth_seq w) st))
    by (intros st; rewrite app_assoc; apply Mgmt.slice_app_head; by rewrite length_app, Hh, length_fields).
  destruct Hseq as [H1 | [H1 | [H1 H2]]]; rewrite H1 in *; cbn [Z.eqb Pos.eqb orb WF_80211_AUTH_SEQ_1 WF_80211_AUTH_SEQ_4];
    rewrite put_auth_eq by (rewrite ?Hh; first [done | lia]); cbn [cbind].
  - by rewrite E.
  - by rewrite E.
  - change WF_80211_STATUS_SUCCESS with 0. rewrite H2. cbn [cbind]. change WF_80211_AUTH_SEQ_2 with 2. by rewrite E.
Qed.

(** The second frame with the challenge. *)
Definition challenge_frame : list Z :=
  head 0xB0 ++ auth_fields dot11AuthAlgrthm_Shared 2 0 ++ Ies.enc [(WF_80211_MGMT_EID_CHALLENGE, Wi.chlg_txt w)].

Lemma frame_challenge : Wi.auth_seq w = 2 -> Wi.auth_algo w = dot11AuthAlgrthm_Shared ->
  auth_frame cfg (head 0xB0 ++ rest) w g 0 = Ret (inr (challenge_frame, w, g)).
Proof.
  intros Hs Ha. pose proof length_rest. pose proof (length_header 0xB0) as Hh. pose proof (nd_len w Hw) as Hl.
  unfold auth_frame, challenge_frame. rewrite Hs, Ha. cbn zeta.
  change ((2 =? WF_80211_AUTH_SEQ_1) || (2 =? WF_80211_AUTH_SEQ_4)) with false. change (2 =? WF_80211_AUTH_SEQ_2) with true. cbn iota.
  rewrite put_auth_eq by (rewrite ?Hh; first [done | lia]). cbn [cbind].
  change ((0 =? WF_80211_STATUS_SUCCESS) && (dot11AuthAlgrthm_Shared =? dot11AuthAlgrthm_Shared)) with true. cbn zeta iota.
  rewrite app_assoc, put_challenge_eq
    by (rewrite ?length_app, ?length_fields, ?length_drop, ?Hh; first [done | lia]). cbn [cbind].
  rewrite (app_assoc _ (Ies.enc_ie _)), Mgmt.slice_app_head
    by (rewrite !length_app, length_fields, Hh, Ies.length_enc_ie; cbn [snd]; rewrite Hl; done).
  cbn [cbind]. unfold Ies.enc. cbn [fmap list_fmap concat]. by rewrite app_nil_r, <- !app_assoc.
Qed.

(** The third frame: behind the protected header and the IV the fields and the
    challenge text, encrypted with their checksum. *)
Definition seq3_iv : Z := Z.lor (Wi.iv w) (u32 (Z.shiftl (dot11PrivacyKeyIndex cfg) 30)).
Definition seq3_pre : list Z := head 0x40B0 ++ le_bytes 4 seq3_iv.
Definition seq3_payload : list Z :=
  auth_fields dot11AuthAlgrthm_Shared WF_80211_AUTH_SEQ_3 WF_80211_STATUS_SUCCESS ++ Ies.enc_ie (WF_80211_MGMT_EID_CHALLENGE, Wi.chlg_txt w).
Definition seq3_node : Wi.wdn_net_info_st :=
  Wi.set_iv (u32 (Wi.iv w + 1)) (Wi.set_key_index (dot11PrivacyKeyIndex cfg) w).

Lemma length_pre : length seq3_pre = 28%nat.
Proof. unfold seq3_pre. by rewrite length_app, length_header, length_le_bytes. Qed.

Lemma length_payload : length seq3_payload = 136%nat.
Proof. unfold seq3_payload. rewrite length_app, length_fields, Ies.length_enc_ie. cbn [snd]. by rewrite (nd_len w Hw). Qed.

Lemma payload_bytes : bytes_ok seq3_payload.
Proof.
  unfold seq3_payload, auth_fields, Ies.enc_ie. rewrite !bytes_ok_app. split_and!; try apply le_bytes_ok.
  cbn [fst snd]. rewrite (nd_len w Hw). constructor; [by vm_compute |]. constructor; [by vm_compute | apply Hw].
Qed.

Lemma iv_pre : Wep.iv_at seq3_pre 24 = le_bytes 4 seq3_iv.
Proof.
  unfold Wep.iv_at, seq3_pre. rewrite drop_app_ge by (rewrite length_header; done). rewrite length_header.
  change (Z.to_nat 24 - 24)%nat with 0%nat. rewrite drop_0, take_ge by (rewrite length_le_bytes; done). done.
Qed.

Lemma seq3_key_ok : Wep.key_ok (sec_info cfg) (Wep.iv_at seq3_pre 24).
Proof.
  rewrite iv_pre. pose proof (cf_sec cfg Hc) as Hs. split; [done |]. split; [by rewrite length_le_bytes |].
  split; [apply le_bytes_ok |]. set (i := Z.land _ 3). apply (nthZ_Forall (fun n => 0 <= n <= 13)).
  - apply Hc.
  - destruct Hs as (_ & -> & _). unfold i. change 3 with (Z.ones 2). rewrite Z.land_ones by lia.
    apply Z.mod_pos_bound. done.
Qed.

Lemma frame_seq3 : Wi.auth_seq w = 3 -> Wi.auth_algo w = dot11AuthAlgrthm_Shared ->
  exists ctx g', sc_ok ctx /\ globals_ok g' /\ Wep.wep_stream (sec_info cfg) (Wep.iv_at seq3_pre 24) = Ret ctx /\
    auth_frame cfg (head 0xB0 ++ rest) w g 0 =
    Ret (inr (seq3_pre ++ (sc_crypt ctx (seq3_payload ++ Wep.icv_of seq3_payload)).2, seq3_node, g')).
Proof.
  intros Hs Ha. pose proof length_rest as Hr.
  destruct (Wep.wep_stream_ret (sec_info cfg) _ seq3_key_ok) as (ctx & Hctx & Hok).
  pose proof (length_header 0xB0) as Hh. pose proof (length_header 0x40B0) as Hh2.
  destruct (Wep.encrypt_auth_frame g (sec_info cfg) ctx Hg seq3_pre seq3_payload (take 4 (drop 140 rest)) (drop 144 rest))
    as (g' & Hg' & He); [apply length_pre | rewrite length_take, length_drop; lia | apply payload_bytes
      | rewrite length_payload; lia | done |].
  rewrite length_payload in He. change (32 + Z.of_nat 136) with AUTH_SEQ3_LEN in He.
  exists ctx, g'. split; [done |]. split; [done |]. split; [done |].
  unfold auth_frame. rewrite Hs, Ha. cbn zeta.
  change ((3 =? WF_80211_AUTH_SEQ_1) || (3 =? WF_80211_AUTH_SEQ_4)) with false. change (3 =? WF_80211_AUTH_SEQ_2) with false.
  change (3 =? WF_80211_AUTH_SEQ_3) with true. change (negb (dot11AuthAlgrthm_Shared =? dot11AuthAlgrthm_Shared)) with false. cbn iota.
  unfold put_seq3. unfold head, Mgmt.hdr. rewrite <- !app_assoc. unfold Mgmt.get16.
  rewrite (Mgmt.slice_app_head (le_bytes 2 0xB0)) by done. cbn [cbind].
  rewrite (Mgmt.blit_app_head (le_bytes 2 0xB0)) by done. cbn [cbind].
  change (Mgmt.wf_80211_set_protected (le_word (le_bytes 2 0xB0))) with 0x40B0.
  replace (le_bytes 2 0x40B0 ++ [0; 0] ++ Wi.mac w ++ local_addr cfg ++ Wi.bssid w ++ [0; 0] ++ rest)
    with (head 0x40B0 ++ take 4 rest ++ drop 4 rest) by (unfold head, Mgmt.hdr; by rewrite take_drop, <- !app_assoc).
  rewrite blit_app_mid by (rewrite ?Hh2, ?length_le_bytes, ?length_take; lia). cbn [cbind].
  change (Wi.iv (Wi.set_key_index (dot11PrivacyKeyIndex cfg) w)) with (Wi.iv w).
  change (Wi.key_index (Wi.set_key_index (dot11PrivacyKeyIndex cfg) w)) with (dot11PrivacyKeyIndex cfg). fold seq3_iv.
  rewrite app_assoc. fold seq3_pre.
  rewrite put_auth_eq by (rewrite ?length_pre, ?length_drop; first [done | lia]). cbn [cbind].
  rewrite app_assoc, put_challenge_eq
    by (rewrite ?length_app, ?length_pre, ?length_fields, ?length_drop; first [done | lia | apply Hw]). cbn [cbind].
  change (Wi.chlg_txt (Wi.set_iv _ _)) with (Wi.chlg_txt w). rewrite !drop_drop, <- app_assoc, (app_assoc (auth_fields _ _ _)).
  fold seq3_payload. cbn [Nat.add].
  rewrite <- (take_drop 4 (drop 140 rest)), drop_drop. cbn [Nat.add].
  rewrite He. cbn [cbind]. rewrite app_assoc, Mgmt.slice_app_head
    by (rewrite length_app, length_pre, sc_crypt_length, length_app, length_payload, Wep.icv_of_length; done).
  cbn [cbind]. done.
Qed.
End FrameSpecs.

(** ** Invariant of the station's thread

    [env] follows the calls: whether the hardware lock is held, how many frames
    were handed to the transmit path and whether an unassigned variable was
    read; [lost] are the messages that were missing when the thread began. *)
Record env : Type := mk_env {
  hw_locked : bool;
  sent : Z;
  indet : bool;
  lost : list Z;
}.
Definition env0 (lost : list Z) : env := mk_env false 0 false lost.

Definition env_step (g : env) (er : ev * Z) : env :=
  let '(mk_env hw n i ls) := g in
  match fst er with
  | HwTrylock => mk_env (hw || negb (nz (snd er))) n i ls
  | HwUnlock => mk_env false n i ls
  | MgmtXmit _ => mk_env hw (n + 1) i ls
  | Indeterminate => mk_env hw n true ls
  | _ => g
  end.

(** An answer whose variable part is a sequence of elements. *)
Definition rsp_ok (frame : list Z) : Prop :=
  bytes_ok frame /\ exists ofs ies, auth_ofs frame = Ret ofs /\ ofs + 6 <= Z.of_nat (length frame) <= AUTH_RSP_SIZE /\
    drop (Z.to_nat (ofs + 6)) frame = Ies.enc ies.

#[export] Instance auth_reply : Request.Reply := {|
  Request.RSP := WF_AUTH_TAG_RSP;
  Request.ABORT := WF_AUTH_TAG_ABORT;
  Request.START := WF_AUTH_TAG_START;
  Request.rsp_size := AUTH_RSP_SIZE;
  Request.rsp_ok := rsp_ok;
  Request.tags_u16 := ltac:(split_and!; by vm_compute);
  Request.tags_ne := ltac:(split_and!; by vm_compute);
  Request.rsp_bytes frame H := proj1 H;
|}.
Abbreviation que_ok := (Request.que_ok (R := auth_reply)).

(** What holds wherever the thread is, with the messages [hs] outside the queue. *)
Record base (hs : list Z) (s : auth_info_t) : Prop := {
  ba_que : que_ok (msg_que s);
  ba_inv : Msg.qinv (msg_que s) hs;
  ba_crc : globals_ok (crc s);
  ba_node : node_ok (node s);
}.

Definition algo_ok (s : auth_info_t) : Prop :=
  Wi.auth_algo (node s) = dot11AuthAlgrthm_Open \/ Wi.auth_algo (node s) = dot11AuthAlgrthm_Shared.

(** The answer held at [ACheck2]. *)
Definition holds_answer (m : Z) (s : auth_info_t) : Prop :=
  exists x, Msg.store (msg_que s) !! m = Some x /\ Request.room x /\ Request.answers x.

(** The last message given back is the answer that ended the authentication. *)
Definition accepted (s : auth_info_t) : Prop :=
  exists m x, last (Msg.free (msg_que s)) = Some m /\ Msg.store (msg_que s) !! m = Some x /\ Msg.tag x = WF_AUTH_TAG_RSP /\
    (answer (Msg.value x) = Ret (2, 0) /\ Wi.auth_algo (node s) = dot11AuthAlgrthm_Open \/
     answer (Msg.value x) = Ret (4, 0) /\ Wi.auth_algo (node s) = dot11AuthAlgrthm_Shared /\ Wi.auth_seq (node s) = 3).

(** The last message given back is a fourth frame that reports a failure. *)
Definition rejected (s : auth_info_t) : Prop :=
  exists m x status, last (Msg.free (msg_que s)) = Some m /\ Msg.store (msg_que s) !! m = Some x /\ Msg.tag x = WF_AUTH_TAG_RSP /\
    answer (Msg.value x) = Ret (4, status) /\ status <> 0.

Definition working (s : auth_info_t) (g : env) (n : Z) : Prop :=
  brun s = true /\ pwdn_info s = true /\ hw_locked g = true /\ indet g = false /\ 0 <= sent g <= n.

Definition round1 (l : locals) (s : auth_info_t) : Prop :=
  Wi.auth_seq (node s) = 1 /\ algo_ok s /\ reason l = None.
Definition round3 (l : locals) (s : auth_info_t) : Prop :=
  Wi.auth_seq (node s) = 3 /\ Wi.auth_algo (node s) = dot11AuthAlgrthm_Shared /\ reason l = None.

Definition inv (b : label) (l : locals) (s : auth_info_t) (g : env) : Prop :=
  match b with
  | ABegin | ALock => base (lost g) s /\ brun s = false /\ g = env0 (lost g) /\ l = locals0
  | AStart => base (lost g) s /\ brun s = false /\ g = mk_env true 0 false (lost g) /\ l = locals0
  | ASend1 => base (lost g) s /\ working s g (retry_cnt s) /\ round1 l s /\ 0 <= retry_cnt s <= 3
  | AWait2 => base (lost g) s /\ working s g (retry_cnt s + 1) /\ round1 l s /\ 0 <= retry_cnt s < 3
  | ACheck2 =>
      working s g 3 /\ round1 l s /\ 0 <= retry_cnt s <= 3 /\
      (retry_cnt s = 3 /\ base (lost g) s \/
       retry_cnt s < 3 /\ base (pmsg l :: lost g) s /\ (pmsg l ∉ lost g) /\ holds_answer (pmsg l) s /\
       Wi.auth_algo (node s) = dot11AuthAlgrthm_Shared)
  | ASend3 => base (lost g) s /\ working s g (Z.min 6 (3 + retry_cnt s)) /\ round3 l s /\ 0 <= retry_cnt s <= 4 /\
      (retry_cnt s = 4 -> rejected s)
  | AWait4 => base (lost g) s /\ working s g (4 + retry_cnt s) /\ round3 l s /\ 0 <= retry_cnt s < 3
  | ACheck4 =>
      base (lost g) s /\ hw_locked g = true /\ indet g = false /\ 0 <= sent g <= 6 /\
      (reason l = None /\ (retry_cnt s = 3 \/ rejected s) \/ reason l = Some WF_AUTH_TAG_DONE /\ retry_cnt s < 3 /\ accepted s)
  | AExit =>
      hw_locked g = true /\ indet g = false /\ 0 <= sent g <= 6 /\
      (reason l = Some (-5) /\ (exists m, (m ∉ lost g) /\ base (m :: lost g) s) \/ reason l <> Some (-5) /\ base (lost g) s) /\
      (reason l = Some WF_AUTH_TAG_DONE -> accepted s) /\ (reason l = None -> rejected s)
  end.

Definition weight (b : label) (s : auth_info_t) : Z :=
  match b with
  | AExit => 1
  | ACheck4 => 2
  | AWait4 => 2 + 2 * (4 - retry_cnt s)
  | ASend3 => 3 + 2 * (4 - retry_cnt s)
  | ACheck2 => 12
  | AWait2 => 12 + 2 * (3 - retry_cnt s)
  | ASend1 => 13 + 2 * (3 - retry_cnt s)
  | AStart => 20
  | ALock => 21
  | ABegin => 22
  end.
Definition measure (b : label) (s : auth_info_t) : Z := weight b s + Z.of_nat (length (Msg.pend (msg_que s))).

Definition blocked (b : label) (s s' : auth_info_t) (tr : list (ev * Z)) : Prop :=
  match b with
  | ALock => exists r, tr = [(HwTrylock, r)] /\ nz r = true
  | AStart => (length (Msg.pend (msg_que s')) < length (Msg.pend (msg_que s)))%nat
  | AWait2 | AWait4 => exists now, tr = [(Clock, now)] /\ Timer.wf_timer_expired now (timer s) = false
  | _ => False
  end.

(** When the thread is done: the verdict, and the messages given back. *)
Definition fin (r : pt_ret) (b : label) (p : option Z) (s : auth_info_t) (g : env) : Prop :=
  b = ABegin /\ brun s = false /\ hw_locked g = false /\ 0 <= sent g <= 6 /\
  exists v, p = Some v /\ r = (if nz v then PT_EXITED else PT_ENDED) /\
    (base (lost g) s \/ v = -5 /\ indet g = false /\ exists m, (m ∉ lost g) /\ base (m :: lost g) s) /\
    (v = WF_AUTH_TAG_DONE -> indet g = false -> accepted s) /\ (indet g = true -> rejected s).

#[local] Existing Instance Msg.same_data_equiv.
Abbreviation after := (Io.after env_step).
Abbreviation keeps := (Io.post prsn env_step inv measure locals0 fin blocked).

(** ** Answers *)

Lemma auth_ofs_range frame ofs : auth_ofs frame = Ret ofs -> ofs = 24 \/ ofs = 28.
Proof.
  unfold auth_ofs. destruct (Mgmt.frame_control frame) as [fc | |]; cbn; try done. intros [= <-].
  destruct (Mgmt.wf_80211_has_order fc); auto.
Qed.

Lemma auth_ofs_app frame stale : (2 <= length frame)%nat -> auth_ofs (frame ++ stale) = auth_ofs frame.
Proof. intros H. unfold auth_ofs, Mgmt.frame_control. by rewrite Mgmt.get16_app by lia. Qed.

Lemma answer_Ret frame stale : rsp_ok frame -> exists seq status, answer (frame ++ stale) = Ret (seq, status).
Proof.
  intros (_ & ofs & ies & Ho & Hl & _). pose proof (auth_ofs_range _ _ Ho) as Hr. unfold answer.
  rewrite auth_ofs_app, Ho by lia. cbn [cbind]. rewrite !Mgmt.get16_app by lia.
  destruct (Mgmt.get16_Ret frame (ofs + 2)) as [a ->]; [lia | lia |]. cbn [cbind].
  destruct (Mgmt.get16_Ret frame (ofs + 4)) as [b ->]; [lia | lia |]. by exists a, b.
Qed.

(** The search for the challenge stays in the message, also where it reads what
    an earlier answer left behind a short one. *)
Lemma challenge_search frame stale ofs : rsp_ok frame -> auth_ofs frame = Ret ofs ->
  length (frame ++ stale) = 180%nat -> bytes_ok (frame ++ stale) ->
  let var := drop (Z.to_nat (ofs + 6)) (frame ++ stale) in
  exists r, Ies.wf_80211_mgmt_ies_search (Some var) (u16 (Z.of_nat (length frame) - (ofs + 6))) WF_80211_MGMT_EID_CHALLENGE = Ret r /\
    forall o, r = Some o -> exists n, rd var (o + 1) = Ret n /\
      (n <= 128 -> exists d, slice var (o + 2) n = Ret d /\ (length d <= 128)%nat /\ bytes_ok d).
Proof.
  intros (_ & ofs' & ies & Ho' & Hl & Hies) Ho Hlen Hb var. rewrite Ho in Ho'. injection Ho' as <-.
  pose proof (auth_ofs_range _ _ Ho) as Hr. unfold AUTH_RSP_SIZE in Hl.
  assert (Hvar : var = Ies.enc ies ++ stale) by (unfold var; rewrite drop_app_le by lia; by rewrite Hies).
  assert (Hvb : bytes_ok var) by (apply Forall_drop, Hb).
  assert (Hvl : (146 <= length var)%nat) by (unfold var; rewrite length_drop, Hlen; lia).
  assert (He : Z.of_nat (length frame) - (ofs + 6) = Z.of_nat (length (Ies.enc ies)))
    by (rewrite <- Hies, length_drop; lia).
  unfold u16. rewrite He, Z.mod_small by lia.
  destruct ies as [| e ies].
  - change (Z.of_nat (length (Ies.enc []))) with 0. unfold Ies.wf_80211_mgmt_ies_search.
    destruct Ies.ies_fuel eqn:Ef; [by unfold Ies.ies_fuel in Ef; lia |]. cbn [Ies.ies_search_from].
    rewrite !rd_nthZ by lia. cbn [cbind]. destruct (_ =? _).
    + exists (Some 0). split; [done |]. intros o [= <-]. exists (nthZ var 1). rewrite rd_nthZ by lia. split; [done |].
      pose proof (nthZ_Forall is_u8 var 1 Hvb ltac:(lia)) as [Hn _]. intros Hn'. rewrite slice_Ret by lia.
      eexists. split; [done |]. split; [rewrite length_take; lia | by apply Forall_take, Forall_drop].
    + assert (Hu : forall y, (0 <=? u16 y) = true) by (intros y; apply Z.leb_le; apply (u16_range y)).
      rewrite Hu. exists None. by split; [| intros o].
  - rewrite Hvar, Ies.search_enc by (first [done | rewrite <- Hies, length_drop; lia]). eexists. split; [done |].
    intros o Hf. destruct (Ies.find_ie _ _ 0) as [[o' e'] |] eqn:Ef; [| done]. injection Hf as <-.
    destruct (Ies.find_ie_at _ _ _ _ _ Ef) as (a & b & Hab & Ho' & _). rewrite Hab, Ies.enc_app, Ies.enc_cons, <- !app_assoc.
    rewrite Hab, Ies.enc_app, Ies.enc_cons, <- !app_assoc in Hvar.
    destruct (Ies.rd_header (Ies.enc a) e' (Ies.enc b ++ stale) o') as [_ ->]; [lia |].
    eexists. split; [done |]. intros Hn. rewrite Ies.rd_data by lia. eexists. split; [done |].
    rewrite Nat2Z.id, take_ge by lia. split; [lia |].
    rewrite Hvar in Hvb. apply bytes_ok_app in Hvb as [_ Hvb]. apply bytes_ok_app in Hvb as [Hvb _].
    unfold Ies.enc_ie in Hvb. apply Forall_cons in Hvb as [_ Hvb]. by apply Forall_cons in Hvb as [_ Hvb].
Qed.

(** ** Sending *)

Section SendSpec.
Context {SC : StreamCipher} (cfg : config).
Hypothesis Hc : cfg_ok cfg.

Lemma send_ok w g : node_ok w -> globals_ok g ->
  Wi.auth_seq w = 1 \/ Wi.auth_seq w = 3 /\ Wi.auth_algo w = dot11AuthAlgrthm_Shared ->
  wp (auth_send cfg w g WF_80211_STATUS_SUCCESS) (fun tr '(_, w', g') =>
    node_ok w' /\ globals_ok g' /\ Wi.auth_seq w' = Wi.auth_seq w /\ Wi.auth_algo w' = Wi.auth_algo w /\
    forall e, exists k, 0 <= k <= 1 /\ after tr e = mk_env (hw_locked e) (sent e + k) (indet e) (lost e)).
Proof.
  intros Hw Hg Hs. change WF_80211_STATUS_SUCCESS with 0. unfold auth_send. cbn [call ibind wp]. intros b. destruct (negb (nz b)); cbn [wp].
  { split_and!; try done. intros []. exists 0. split; [lia |]. cbn. f_equal. lia. }
  rewrite header_written by done. cbn [lift ibind].
  assert (E : exists frame w' g', auth_frame cfg (head cfg w 0xB0 ++ drop 24 (pbuf cfg)) w g 0 = Ret (inr (frame, w', g')) /\
            node_ok w' /\ globals_ok g' /\ Wi.auth_seq w' = Wi.auth_seq w /\ Wi.auth_algo w' = Wi.auth_algo w).
  { destruct Hs as [Hs | [Hs Ha]].
    - rewrite frame_plain by auto. by eexists _, _, _.
    - destruct (frame_seq3 cfg w g Hc Hw Hg Hs Ha) as (ctx & g' & _ & Hg' & _ & ->). eexists _, _, _. split; [done |].
      split; [by destruct Hw |]. done. }
  destruct E as (frame & w' & g' & -> & H1 & H2 & H3 & H4). cbn [lift ibind call wp]. intros r.
  split_and!; try done. intros []. exists 1. split; [lia | done].
Qed.
End SendSpec.

(** ** The queue *)

(** A message taken out, and put back. *)
Record popped (hs : list Z) (s : auth_info_t) (m : Z) (que que' : Msg.wf_msg_que_t (list Z)) (x : Msg.wf_msg_t (list Z)) : Prop := {
  po_pop : msg_pop s = Ret (Some m, set_msg_que que s);
  po_del : Msg.wf_msg_del que m = Ret (0, que');
  po_held : base (m :: hs) (set_msg_que que s);
  po_back : base hs (set_msg_que que' s);
  po_new : m ∉ hs;
  po_at : Msg.store que !! m = Some x;
  po_free : exists x', Msg.store que' !! m = Some x' /\ Msg.tag x' = Msg.tag x /\ Msg.value x' = Msg.value x;
  po_last : last (Msg.free que') = Some m;
  po_rsp : Msg.tag x = WF_AUTH_TAG_RSP -> holds_answer m (set_msg_que que s);
  po_len : length (Msg.pend (msg_que s)) = S (length (Msg.pend que));
  po_len' : length (Msg.pend que') = length (Msg.pend que);
  po_pend : Msg.pend (msg_que s) = m :: Msg.pend que;
  po_same : Msg.same_data (msg_que s) que;
}.

Lemma auth_pop_facts hs s : base hs s ->
  (Msg.pend (msg_que s) = [] /\ msg_pop s = Ret (None, s)) \/ exists m que que' x, popped hs s m que que' x.
Proof.
  intros [Hq Hi Hc Hw]. unfold msg_pop.
  destruct (Request.pop_facts hs (msg_que s) Hq Hi) as [[Hp [r Hpop]] | (m & q1 & q2 & x & H)].
  { left. split; [done |]. rewrite Hpop. by destruct s. }
  right. exists m, q1, q2, x. pose proof (Request.po_pend _ _ _ _ _ _ H) as Hp. pose proof (Request.po_pend2 _ _ _ _ _ _ H) as Hp2.
  destruct H as [Hpop Hdel ? ? ? ? Hn Hx (x' & Hx' & [= _ E1 _ E2]) Hl Hr _ _ Hs]. split; try done.
  - unfold msg_pop. by rewrite Hpop.
  - by exists x'.
  - intros Ht. by exists x; split; [| apply Hr].
  - by rewrite Hp.
  - by rewrite Hp2.
Qed.

Lemma msg_del_eq m s que : Msg.wf_msg_del (msg_que s) m = Ret (0, que) -> msg_del m s = Ret (set_msg_que que s).
Proof. intros H. unfold msg_del. by rewrite H. Qed.

Lemma tag_at m s x : Msg.store (msg_que s) !! m = Some x -> msg_tag m s = Msg.tag x.
Proof. intros H. unfold msg_tag, Msg.tag_of. by rewrite H. Qed.

(** Changing fields that neither the queue nor the node depends on. *)
Lemma base_same hs s s' : msg_que s' = msg_que s -> crc s' = crc s -> node_ok (node s') -> base hs s -> base hs s'.
Proof. intros H1 H2 H3 [? ? ? ?]. split; by rewrite ?H1, ?H2. Qed.

Section Blocks.
Context {SC : StreamCipher} (cfg : config).
Hypothesis Hc : cfg_ok cfg.

Lemma sta_begin_post l s g : inv ABegin l s g -> wp (block cfg ABegin l s) (keeps ABegin s g).
Proof. intros H. cbn. split; [exact H |]. unfold measure. cbn [weight]. lia. Qed.

Lemma sta_lock_post l s g : inv ALock l s g -> wp (block cfg ALock l s) (keeps ALock s g).
Proof.
  intros (Hb & Hn & Hg & ->). cbn [block call ibind wp]. intros r. rewrite Hg. destruct (nz r) eqn:Er; cbn; rewrite ?Er; cbn.
  - split; [done |]. split; [done |]. split; [lia |]. by exists r.
  - split; [done |]. unfold measure. cbn [weight]. lia.
Qed.

Lemma sta_start_post l s g : inv AStart l s g -> wp (block cfg AStart l s) (keeps AStart s g).
Proof.
  intros (Hb & Hn & Hg & ->). cbn [block]. unfold at_start.
  destruct (auth_pop_facts _ _ Hb) as [[Hp ->] | (m & que & que' & x & [Hpop Hdel Hh Hback Hnew Hx Hx' Hlast Hrsp Hl Hl'])];
    [| rewrite Hpop]; cbn [lift ibind call wp].
  - intros r. rewrite Hg. cbn. split_and!; try done. exists (-1). split_and!; try done. by left.
  - rewrite (msg_del_eq m (set_msg_que que s) que') by done. cbn [lift ibind].
    change (set_msg_que que' (set_msg_que que s)) with (set_msg_que que' s).
    destruct (negb _); cbn [call ibind wp].
    { cbn. rewrite Hg. split; [done |]. split; [split_and!; done |]. unfold measure. cbn. split; [lia |]. lia. }
    intros r1 r2 r3 r4. destruct (nz r4) eqn:E4; cbn [negb wp]; cbn; rewrite Hg; cbn.
    + split; [| unfold measure; cbn; lia]. split; [| unfold working, round1, algo_ok; cbn; split_and!; first [done | lia | by left]].
      apply (base_same _ (set_msg_que que' s)); [done | done | by destruct Hback as [_ _ _ []] | done].
    + split; [| unfold measure; cbn; lia]. split_and!; try done; try lia. right. split; [done |].
      by apply (base_same _ (set_msg_que que' s)); [| | apply Hback |].
Qed.

(** Sending, in either round. *)
Lemma send_post failed wait out l s g b n :
  base (lost g) s -> working s g n ->
  Wi.auth_seq (node s) = 1 \/ Wi.auth_seq (node s) = 3 /\ Wi.auth_algo (node s) = dot11AuthAlgrthm_Shared ->
  n + 1 <= 6 -> failed < -5 \/ -5 < failed < 0 -> 1 < weight b s -> retry_cnt s < 3 ->
  (forall s' g', base (lost g') s' -> working s' g' (n + 1) -> retry_cnt s' = retry_cnt s ->
     Wi.auth_seq (node s') = Wi.auth_seq (node s) -> Wi.auth_algo (node s') = Wi.auth_algo (node s) ->
     inv wait l s' g' /\ weight wait s' < weight b s) ->
  wp (at_send cfg failed wait out l s) (keeps b s g).
Proof.
  intros Hb Hk Hs Hn Hf Hw Hr Hwait. unfold at_send.
  destruct (Z.ltb_spec (retry_cnt s) AUTH_REQ_RESEND_TIMES) as [_ | H]; [| unfold AUTH_REQ_RESEND_TIMES in H; lia].
  apply wp_bind. eapply wp_mono, (send_ok cfg Hc); [| apply Hb | apply Hb | done].
  intros tr [[r w'] g'] (Hw' & Hg' & Hseq & Halg & Htr). destruct (Htr g) as (k & Hk01 & Ha).
  destruct Hk as (H1 & H2 & H3 & H4 & H5). set (s1 := set_crc g' (set_node w' s)).
  assert (Hb1 : base (lost g) s1) by (destruct Hb; by split).
  destruct (nz r); cbn [call ibind wp post].
  - rewrite app_nil_r, Ha. split; [| unfold measure; cbn [weight]; cbn; lia].
    split_and!; cbn; try first [done | lia].
    + right. split; [| done]. intros [= Hx]. lia.
    + intros [= Hx]. change WF_AUTH_TAG_DONE with 257 in Hx. lia.
  - intros now. unfold Io.after. rewrite fold_left_app. fold (after tr g). rewrite Ha. cbn [fold_left env_step fst].
    destruct (Hwait (set_timer (Timer.wf_timer_set (msecs_to_timestamp cfg) now AUTH_RSP_TIMEOUT (timer s1)) s1)
                (mk_env (hw_locked g) (sent g + k) (indet g) (lost g))) as [Hi Hm]; try done.
    + by apply (base_same _ s1).
    + unfold working; cbn. split_and!; first [done | lia].
    + split; [done |]. unfold measure. cbn. cbn in Hm. lia.
Qed.

Lemma send1_post l s g : inv ASend1 l s g -> wp (block cfg ASend1 l s) (keeps ASend1 s g).
Proof.
  intros (Hb & Hk & (Hs & Ha & Hl) & Hr). cbn [block].
  destruct (Z.eq_dec (retry_cnt s) 3) as [E | E].
  - unfold at_send. rewrite E. cbn. split; [| unfold measure; cbn [weight]; rewrite E; lia].
    rewrite E in Hk. split_and!; try done; [lia.. |]. by left.
  - apply (send_post _ _ _ _ _ _ _ (retry_cnt s)); try first [done | lia | by left | by right | cbn [weight]; lia].
    intros s' g' Hb' Hk' Hr' Hs' Ha'. split; [| cbn [weight]; lia]. unfold inv, round1, algo_ok. rewrite Hr', Hs', Ha'.
    split_and!; try done; lia.
Qed.

Lemma send3_post l s g : inv ASend3 l s g -> wp (block cfg ASend3 l s) (keeps ASend3 s g).
Proof.
  intros (Hb & Hk & (Hs & Ha & Hl) & Hr & Hrej). cbn [block].
  destruct (Z.le_gt_cases 3 (retry_cnt s)) as [E | E].
  - unfold at_send. destruct (Z.ltb_spec (retry_cnt s) AUTH_REQ_RESEND_TIMES); [unfold AUTH_REQ_RESEND_TIMES in *; lia |].
    destruct Hk as (? & ? & ? & ? & ?). cbn. split; [| unfold measure; cbn [weight]; lia].
    split_and!; try done; try lia. left. split; [done |]. destruct (Z.eq_dec (retry_cnt s) 3); [by left | right; apply Hrej; lia].
  - apply (send_post _ _ _ _ _ _ _ (3 + retry_cnt s)); try first [done | lia | by left | by right | cbn [weight]; lia].
    + destruct Hk as (? & ? & ? & ? & ?). split_and!; try done; lia.
    + intros s' g' Hb' Hk' Hr' Hs' Ha'. split; [| cbn [weight]; lia]. unfold inv, round3. rewrite Hr', Hs', Ha'.
      split_and!; try done; try lia. by replace (4 + retry_cnt s) with (3 + retry_cnt s + 1) by lia.
Qed.

(** What the code can do at a wait, for either round. *)
Definition wait_label (b : label) : Prop := b = AWait2 \/ b = AWait4.

Lemma wait_inv_que b l s g que : wait_label b -> base (lost g) (set_msg_que que s) -> inv b l s g -> inv b l (set_msg_que que s) g.
Proof. intros [-> | ->] Hb (_ & H); by split. Qed.

Lemma wait_facts b l s g : wait_label b -> inv b l s g ->
  base (lost g) s /\ working s g 6 /\ 0 <= retry_cnt s < 3 /\ reason l = None /\ 4 < weight b s.
Proof.
  intros [-> | ->] (Hb & (H1 & H2 & H3 & H4 & H5) & (_ & _ & Hr) & Hn); cbn [weight]; unfold working; split_and!; try done; lia.
Qed.

Lemma again_inv b send l s g : b = AWait2 /\ send = ASend1 \/ b = AWait4 /\ send = ASend3 -> inv b l s g ->
  let s' := set_retry_cnt (u8 (retry_cnt s + 1)) s in
  inv send l s' g /\ weight send s' < weight b s.
Proof.
  intros Hbs Hi s'. assert (Hr : 0 <= retry_cnt s < 3) by (destruct Hbs as [[-> _] | [-> _]]; apply Hi).
  assert (Hb' : base (lost g) s') by (destruct Hbs as [[-> _] | [-> _]]; destruct Hi as [[] _]; by split).
  assert (Hs : retry_cnt s' = retry_cnt s + 1) by (cbn; unfold u8; rewrite Z.mod_small by lia; done).
  destruct Hbs as [[-> ->] | [-> ->]]; cbn [weight]; (split; [| lia]); destruct Hi as (_ & (H1 & H2 & H3 & H4 & H5) & (H6 & H7 & H8) & _);
    split_and!; rewrite ?Hs; first [done | lia | idtac]; unfold working, round1, round3, algo_ok; cbn; split_and!; first [done | lia | idtac].
Qed.

Lemma sta_wait_post b send on_answer l s g :
  b = AWait2 /\ send = ASend1 \/ b = AWait4 /\ send = ASend3 -> inv b l s g ->
  (forall m que que' x, popped (lost g) s m que que' x -> Msg.tag x = WF_AUTH_TAG_RSP ->
     exists st, on_answer m l (set_msg_que que s) = Ret st /\ keeps b s g [] st) ->
  wp (at_wait b send on_answer l s) (keeps b s g).
Proof.
  intros Hbs Hi Hans. assert (Hlb : wait_label b) by (destruct Hbs as [[-> _] | [-> _]]; [by left | by right]).
  destruct (wait_facts _ _ _ _ Hlb Hi) as (Hb & (H1 & H2 & H3 & H4 & H5) & Hr & Hl & Hw). unfold at_wait.
  destruct (auth_pop_facts _ _ Hb) as [[Hp ->] | (m & que & que' & x & Hpo)]; [| pose proof Hpo as [Hpop Hdel Hh Hback Hnew Hx Hx' Hlast Hrsp Hln Hln']].
  - cbn [lift ibind call wp]. intros now. destruct (Timer.wf_timer_expired now (timer s)) eqn:Et; cbn [wp].
    + destruct (again_inv b send l s g Hbs Hi) as [Hi' Hw'].
      destruct g as [hw n i ls]. cbn [Io.after fold_left env_step fst post again].
      split; [done |]. unfold measure. cbn [set_retry_cnt msg_que]. lia.
    + destruct g as [hw n i ls]. cbn. split; [done |]. split; [| split; [lia |]].
      * destruct Hlb as [-> | ->]; destruct Hi as (? & ? & (? & ? & _) & ?); cbn; (split; [done |]); (split; [done |]); (split; [| done]); by split_and!.
      * destruct Hlb as [-> | ->]; by exists now.
  - rewrite Hpop. cbn [lift ibind]. rewrite (tag_at m (set_msg_que que s) x Hx).
    destruct (Msg.tag x =? WF_AUTH_TAG_ABORT) eqn:Ea; [| destruct (Z.eqb_spec (Msg.tag x) WF_AUTH_TAG_RSP) as [Er |]].
    + rewrite (msg_del_eq m (set_msg_que que s) que') by done. cbn. split; [| unfold measure; cbn; lia].
      split_and!; try first [done | lia]. by right.
    + destruct (Hans m que que' x Hpo Er) as (st & -> & Hst). done.
    + rewrite (msg_del_eq m (set_msg_que que s) que') by done. cbn. split; [exact (wait_inv_que b l s g que' Hlb Hback Hi) |].
      unfold measure. cbn. assert (weight b (set_msg_que que' (set_msg_que que s)) = weight b s) by (by destruct Hlb as [-> | ->]). lia.
Qed.

(** Sending again after an answer that does not end the round. *)
Lemma again_keeps b send l s g s1 : b = AWait2 /\ send = ASend1 \/ b = AWait4 /\ send = ASend3 ->
  inv b l s1 g -> retry_cnt s1 = retry_cnt s ->
  (length (Msg.pend (msg_que s1)) < length (Msg.pend (msg_que s)))%nat -> keeps b s g [] (again send l s1).
Proof.
  intros Hbs Hi Hr Hp. destruct (again_inv b send l s1 g Hbs Hi) as [Hi' Hw]. cbn. split; [done |]. unfold measure.
  cbn [set_retry_cnt msg_que].
  assert (weight b s1 = weight b s) by (destruct Hbs as [[-> _] | [-> _]]; cbn; by rewrite Hr). lia.
Qed.

(** The message an answer came in, while it is held. *)
Lemma popped_answer hs s m que que' x : popped hs s m que que' x -> Msg.tag x = WF_AUTH_TAG_RSP ->
  exists seq status, Msg.msg_at que m = Ret x /\ answer (Msg.value x) = Ret (seq, status).
Proof.
  intros Hp Ht. destruct (po_rsp _ _ _ _ _ _ Hp Ht) as (x' & Hx & _ & (frame & stale & Hv & _ & Hr)).
  pose proof (po_at _ _ _ _ _ _ Hp) as Hx2. cbn in Hx. rewrite Hx2 in Hx. injection Hx as <-.
  destruct (answer_Ret frame stale Hr) as (seq & status & Ha). exists seq, status. rewrite Hv. split; [| done].
  unfold Msg.msg_at. by rewrite Hx2.
Qed.

Lemma popped_accepted hs s m que que' x seq : popped hs s m que que' x -> Msg.tag x = WF_AUTH_TAG_RSP ->
  answer (Msg.value x) = Ret (seq, 0) ->
  seq = 2 /\ Wi.auth_algo (node s) = dot11AuthAlgrthm_Open \/
  seq = 4 /\ Wi.auth_algo (node s) = dot11AuthAlgrthm_Shared /\ Wi.auth_seq (node s) = 3 -> accepted (set_msg_que que' s).
Proof.
  intros [_ _ _ _ _ _ (x' & Hx' & Ht' & Hv') Hlast _ _ _] Ht Ha Hs. exists m, x'. rewrite Hv', Ht'. split_and!; try done.
  destruct Hs as [[-> Hs] | (-> & Hs)]; [by left | by right].
Qed.

Lemma answer2_post l s g m que que' x : inv AWait2 l s g -> popped (lost g) s m que que' x -> Msg.tag x = WF_AUTH_TAG_RSP ->
  exists st, on_answer2 m l (set_msg_que que s) = Ret st /\ keeps AWait2 s g [] st.
Proof.
  intros Hi Hpo Ht. destruct (popped_answer _ _ _ _ _ _ Hpo Ht) as (seq & status & Hat & Ha).
  pose proof Hpo as [Hpop Hdel Hh Hback Hnew Hx Hx' Hlast Hrsp Hln Hln']. unfold on_answer2. cbn [set_msg_que msg_que]. rewrite Hat. cbn [cbind].
  rewrite Ha. cbn [cbind].
  assert (Hdrop : exists st, (letc s := msg_del m (set_msg_que que s) in Ret (again ASend1 l s)) = Ret st /\ keeps AWait2 s g [] st).
  { rewrite (msg_del_eq m (set_msg_que que s) que') by done. eexists. split; [done |].
    apply again_keeps; [by left | | done | cbn; lia]. apply (wait_inv_que _ l s g que'); [by left | done | done]. }
  destruct (Z.eqb_spec seq WF_80211_AUTH_SEQ_2) as [-> |]; [| done].
  destruct (Z.eqb_spec status WF_80211_STATUS_NOT_SUPPORTED_AUTH_ALG).
  { set (w := Wi.set_auth_algo _ _). rewrite (msg_del_eq m _ que') by done. eexists. split; [done |].
    apply again_keeps; [by left | | done | cbn; lia]. destruct Hi as (_ & Hk & (H1 & H2 & H3) & Hr). cbn [inv]. unfold round1, algo_ok, w. cbn.
    split_and!; try first [done | lia | by destruct (_ =? _); auto].
    apply (base_same _ (set_msg_que que' s)); [done | done | by destruct Hback as [_ _ _ []] | done]. }
  destruct (Z.eqb_spec status WF_80211_STATUS_SUCCESS) as [-> |]; [| done].
  destruct Hi as (_ & (H1 & H2 & H3 & H4 & H5) & (H6 & H7 & H8) & Hr). cbn [set_msg_que node].
  destruct (Z.eqb_spec (Wi.auth_algo (node s)) dot11AuthAlgrthm_Open).
  - rewrite (msg_del_eq m (set_msg_que que s) que') by done. eexists. split; [done |]. cbn. split; [| unfold measure; cbn; lia].
    split_and!; try first [done | lia].
    + by right.
    + intros _. apply (popped_accepted _ _ _ _ _ _ 2 Hpo Ht Ha). by left.
  - eexists. split; [done |]. cbn. split; [| unfold measure; cbn; lia]. unfold working, round1. split_and!; try first [done | lia].
    right. split_and!; try first [done | lia | by apply Hrsp]. by destruct H7.
Qed.

Lemma answer4_post l s g m que que' x : inv AWait4 l s g -> popped (lost g) s m que que' x -> Msg.tag x = WF_AUTH_TAG_RSP ->
  exists st, on_answer4 m l (set_msg_que que s) = Ret st /\ keeps AWait4 s g [] st.
Proof.
  intros Hi Hpo Ht. destruct (popped_answer _ _ _ _ _ _ Hpo Ht) as (seq & status & Hat & Ha).
  pose proof Hpo as [Hpop Hdel Hh Hback Hnew Hx Hx' Hlast Hrsp Hln Hln']. unfold on_answer4. cbn [set_msg_que msg_que]. rewrite Hat. cbn [cbind].
  rewrite Ha. cbn [cbind]. destruct (Z.eqb_spec seq WF_80211_AUTH_SEQ_4) as [-> |].
  2: { rewrite (msg_del_eq m (set_msg_que que s) que') by done. eexists. split; [done |].
       apply again_keeps; [by right | | done | cbn; lia]. apply (wait_inv_que _ l s g que'); [by right | done | done]. }
  destruct Hi as (_ & (H1 & H2 & H3 & H4 & H5) & (H6 & H7 & H8) & Hr).
  destruct (Z.eqb_spec status WF_80211_STATUS_SUCCESS) as [-> |].
  - rewrite (msg_del_eq m (set_msg_que que s) que') by done. eexists. split; [done |]. cbn. split; [| unfold measure; cbn; lia].
    split_and!; try first [done | lia]. right. split_and!; try first [done | lia].
    apply (popped_accepted _ _ _ _ _ _ 4 Hpo Ht Ha). by right.
  - rewrite (msg_del_eq m _ que') by done. eexists. split; [done |]. cbn. split; [| unfold measure; cbn; change (u8 _) with 4; lia].
    change (u8 _) with 4. unfold working, round3. cbn. split_and!; try first [done | lia].
    2: { intros _. destruct Hx' as (x' & Hx' & Ht' & Hv'). exists m, x', status. cbn. by rewrite Hv', Ht'. }
    by apply (base_same _ (set_msg_que que' s)); [done | done | apply Hback | done].
Qed.

Lemma wait2_post l s g : inv AWait2 l s g -> wp (block cfg AWait2 l s) (keeps AWait2 s g).
Proof. intros Hi. apply sta_wait_post; [by left | done |]. intros. by eapply answer2_post. Qed.

Lemma wait4_post l s g : inv AWait4 l s g -> wp (block cfg AWait4 l s) (keeps AWait4 s g).
Proof. intros Hi. apply sta_wait_post; [by right | done |]. intros. by eapply answer4_post. Qed.

(** The challenge written over the old one. *)
Lemma text_written w d : node_ok w -> (length d <= 128)%nat -> bytes_ok d ->
  exists text, blit (Wi.chlg_txt w) 0 d = Ret text /\ node_ok (Wi.set_chlg_txt text w).
Proof.
  intros [H1 H2 H3 H4] Hl Hd. exists (d ++ drop (length d) (Wi.chlg_txt w)). split.
  - rewrite <- (take_drop (length d) (Wi.chlg_txt w)) at 1. apply Mgmt.blit_app_head. rewrite length_take. lia.
  - split; try done; cbn; [rewrite length_app, length_drop; lia |]. apply bytes_ok_app. split; [done | by apply Forall_drop].
Qed.

Lemma check2_post l s g : inv ACheck2 l s g -> wp (block cfg ACheck2 l s) (keeps ACheck2 s g).
Proof.
  intros ((H1 & H2 & H3 & H4 & H5) & (H6 & H7 & H8) & Hr & Hc2). cbn [block]. unfold at_check2.
  destruct Hc2 as [[E Hb] | (E & Hb & Hn & (x & Hx & [Hlen Hbv] & (frame & stale & Hv & Hln & Hrsp)) & Ha)].
  { rewrite E. cbn. split; [| unfold measure; cbn; lia]. split_and!; try first [done | lia]. by right. }
  destruct (Z.eqb_spec (retry_cnt s) AUTH_REQ_RESEND_TIMES) as [H |]; [unfold AUTH_REQ_RESEND_TIMES in H; lia |].
  unfold Msg.msg_at. rewrite Hx. cbn [cbind of_option]. rewrite Hv, Hln. rewrite Hv in Hlen, Hbv. pose proof Hrsp as (_ & ofs & ies & Ho & Hol & _).
  pose proof (auth_ofs_range _ _ Ho). rewrite auth_ofs_app, Ho by lia. cbn [cbind].
  destruct (challenge_search frame stale ofs Hrsp Ho Hlen Hbv) as (r & -> & Hfound). cbn [cbind].
  assert (Hbad : keeps ACheck2 s g [] (Goto AExit, set_reason (-5) l, s)).
  { cbn. split; [| unfold measure; cbn; lia]. split_and!; try first [done | lia]. left. split; [done | by exists (pmsg l)]. }
  destruct r as [o |]; [| done]. destruct (Hfound o eq_refl) as (k & -> & Hdata). cbn [cbind].
  destruct (Z.ltb_spec WF_80211_AUTH_CHALLENGE_LEN k) as [| Hn128]; [done |].
  destruct (Hdata Hn128) as (d & -> & Hd & Hdb). cbn [cbind].
  destruct (text_written (node s) d (ba_node _ _ Hb) Hd Hdb) as (text & -> & Hnode). cbn [cbind].
  destruct (Msg.use_del _ _ (pmsg l) (ba_inv _ _ Hb) ltac:(constructor)) as (que & Hdel & Hq & Hs & Hp & Hf).
  rewrite (msg_del_eq _ _ que) by done. cbn. split; [| unfold measure; cbn; rewrite Hp; lia].
  rewrite Msg.without_head in Hq by done. unfold working, round3. cbn. split_and!; try first [done | lia].
  split; [| done | by apply Hb | by destruct Hnode]. apply (Request.que_ok_same (msg_que s)); [done | | by apply Hb].
  intros y Hy. cbn. rewrite Hf. apply elem_of_app. by left.
Qed.

Lemma check4_post l s g : inv ACheck4 l s g -> wp (block cfg ACheck4 l s) (keeps ACheck4 s g).
Proof.
  intros (Hb & H1 & H2 & H3 & Hr). cbn. split; [| unfold measure; cbn; lia].
  destruct (Z.eqb_spec (retry_cnt s) AUTH_REQ_RESEND_TIMES) as [E |].
  - split_and!; try first [done | lia]. by right.
  - destruct Hr as [[Hr Hj] | (Hr & _ & Ha)]; rewrite Hr; split_and!; try first [done | lia | by right; split].
    intros _. destruct Hj as [? | ?]; [by unfold AUTH_REQ_RESEND_TIMES in * | done].
Qed.

Lemma sta_exit_post l s g : inv AExit l s g -> wp (block cfg AExit l s) (keeps AExit s g).
Proof.
  intros (H1 & H2 & H3 & Hm & Ha & Hj). cbn [block]. unfold at_exit. destruct g as [hw n i ls].
  assert (Hsame : forall hs, base hs s -> base hs (set_brun false s))
    by (intros hs Hb; apply (base_same _ s); [done | done | apply Hb | done]).
  cbn [call ibind wp]. intros r0. destruct (reason l) as [r |] eqn:Er; cbn [ibind call wp].
  - assert (Hd : done_with (if nz r then PT_EXITED else PT_ENDED) = true) by (by destruct (nz r)).
    unfold post. rewrite Hd. unfold fin. cbn in *. split_and!; try first [done | lia]. exists r. split_and!; try done.
    + destruct Hm as [[[= ->] (m & Hm & Hb)] | [_ Hb]]; [| left; by apply Hsame]. right. split_and!; try done. exists m. split; [done | by apply Hsame].
    + intros -> _. destruct Ha as (m & x & ?); [done |]. by exists m, x.
    + by rewrite H2.
  - intros r. assert (Hd : done_with (if nz r then PT_EXITED else PT_ENDED) = true) by (by destruct (nz r)).
    unfold post. rewrite Hd. unfold fin. cbn in *. split_and!; try first [done | lia]. exists r. split_and!; try done.
    + destruct Hm as [[? _] | [_ Hb]]; [done | left; by apply Hsame].
    + intros _. destruct Hj as (m & x & st & ?); [done |]. by exists m, x, st.
Qed.

Lemma sta_block_post b l s g : inv b l s g -> wp (block cfg b l s) (keeps b s g).
Proof.
  destruct b; [apply sta_begin_post | apply sta_lock_post | apply sta_start_post | apply send1_post | apply wait2_post | apply check2_post
    | apply send3_post | apply wait4_post | apply check4_post | apply sta_exit_post].
Qed.

Lemma sta_inv_measure b l s g : inv b l s g -> 0 <= measure b s <= 22 + Z.of_nat (length (Msg.pend (msg_que s))).
Proof.
  intros Hi. unfold measure. assert (0 <= weight b s <= 22); [| lia].
  destruct b; cbn [weight]; try lia; destruct Hi as (_ & _ & _ & Hr); lia.
Qed.

Lemma sta_call_called fuel b s g : inv b locals0 s g -> 22 + Msg.wf_msg_count (msg_que s) < Z.of_nat fuel ->
  wp (wf_auth_sta_thrd cfg fuel b s) (Io.called env_step inv measure locals0 fin blocked b s g).
Proof.
  intros Hi Hf. pose proof (sta_inv_measure b locals0 s g Hi). unfold Msg.wf_msg_count in Hf.
  apply (blocks_called (block cfg) prsn env_step inv measure locals0 fin blocked); [| by apply sta_block_post | done | lia].
  intros b' l' s' g' Hi'. apply (sta_inv_measure b' l' s' g' Hi').
Qed.

(** ** Requests and answers *)

(** Where a call can resume. *)
Definition resumes (b : label) : bool :=
  match b with ABegin | ALock | AStart | AWait2 | AWait4 => true | _ => false end.

Lemma inv_base b l s g : resumes b = true -> inv b l s g -> base (lost g) s.
Proof. by destruct b; intros Hr Hi; try done; destruct Hi as [? _]. Qed.

Lemma sta_inv_que b l s g que : resumes b = true -> inv b l s g -> base (lost g) (set_msg_que que s) -> inv b l (set_msg_que que s) g.
Proof. by destruct b; intros Hr Hi Hb; try done; destruct Hi as [_ Hi]; split. Qed.

Lemma inv_node b l s g w : resumes b = true -> inv b l s g -> node_ok w -> Wi.auth_seq w = Wi.auth_seq (node s) ->
  Wi.auth_algo w = Wi.auth_algo (node s) -> inv b l (set_node w s) g.
Proof.
  intros Hr Hi Hw H1 H2. assert (Hb : base (lost g) (set_node w s)).
  { pose proof (inv_base _ _ _ _ Hr Hi) as Hb. by apply (base_same _ s). }
  destruct b; try done; destruct Hi as (_ & Hi); (split; [done |]); try done;
    destruct Hi as (Hk & (H3 & H4 & H5) & Hc'); (split; [done |]); (split; [| done]); unfold round1, round3, algo_ok in *;
    cbn; rewrite H1, H2; by split_and!.
Qed.

Lemma auth_request_ok hs s t e1 e2 : base hs s -> t = WF_AUTH_TAG_ABORT \/ t = WF_AUTH_TAG_START ->
  exists r que, request t e1 e2 s = Ret (r, set_msg_que que s) /\ base hs (set_msg_que que s).
Proof.
  intros [Hq Hi Hc' Hw] Ht. unfold request. destruct (Request.request_ok true hs (msg_que s) t e1 e2 Hq Hi Ht) as (r & q & -> & ? & ?).
  by exists r, q.
Qed.

Lemma recv_ok hs s state bss w frame : base hs s -> rsp_ok frame ->
  exists r que, auth_sta_recv cfg state bss w frame s = Ret (r, set_msg_que que s) /\ base hs (set_msg_que que s).
Proof.
  intros Hb Hrsp. pose proof Hrsp as (_ & ofs & ies & Ho & Hol & _). pose proof (auth_ofs_range _ _ Ho).
  assert (Hsame : forall r : Z, exists (r' : Z) que, Ret (r, s) = Ret (r', set_msg_que que s) /\ base hs (set_msg_que que s))
    by (intros r; exists r, (msg_que s); by destruct s).
  unfold auth_sta_recv. destruct (Z.eqb_spec (Z.of_nat (length frame)) 0); [lia |].
  destruct w as [w |]; [| apply Hsame]. destruct (state =? MLME_STATE_AUTH); cbn [negb]; [| apply Hsame].
  unfold Mgmt.da. rewrite slice_Ret by lia. cbn [cbind]. destruct (_ || _); [apply Hsame |].
  destruct (Z.ltb_spec AUTH_RSP_SIZE (Z.of_nat (length frame))); [apply Hsame |].
  destruct Hb as [Hq Hi Hc' Hw]. destruct (Request.deliver_ok hs (msg_que s) frame Hq Hi Hrsp) as (r & q & E & ? & ?); [done |].
  change (Request.deliver WF_AUTH_TAG_RSP) with (Request.deliver Request.RSP). rewrite E. by exists r, q.
Qed.

Lemma sta_init_ok a1 a2 b c w t : NoDup [a1; a2; b; c] -> node_ok w ->
  exists s, wf_auth_init [Some a1; Some a2] (Some b) (Some c) w t = Ret (0, s) /\ base [] s /\ brun s = false.
Proof.
  intros Hnd Hw. destruct (Request.msg_init_ok a1 a2 b c Hnd) as (q & E & Hq & Hi). eexists. split; [| split].
  - unfold wf_auth_init. exact (f_equal (fun x => letc (r, q) := x in _) E).
  - split; cbn; [done.. | by left | done].
  - done.
Qed.

(** ** The component in use

    Calls of the thread with any answers of what it calls; between them requests,
    received answers (as [rsp_ok] says, sequences of elements behind the fixed
    fields) and other changes of the node.  A thread that is done starts anew,
    with the messages then held by nobody as [lost]. *)
Inductive reach : label -> auth_info_t -> env -> Prop :=
  | reach_init a1 a2 b c w t s :
      NoDup [a1; a2; b; c] -> node_ok w ->
      wf_auth_init [Some a1; Some a2] (Some b) (Some c) w t = Ret (0, s) -> reach ABegin s (env0 [])
  | reach_call fuel b s g tr r b' p s' :
      reach b s g -> runs (wf_auth_sta_thrd cfg fuel b s) tr (r, b', p, s') ->
      22 + Msg.wf_msg_count (msg_que s) < Z.of_nat fuel -> done_with r = false -> reach b' s' (after tr g)
  | reach_done fuel b s g tr r b' p s' ls :
      reach b s g -> runs (wf_auth_sta_thrd cfg fuel b s) tr (r, b', p, s') ->
      22 + Msg.wf_msg_count (msg_que s) < Z.of_nat fuel -> done_with r = true ->
      (forall m, Msg.held (msg_que s') m <-> m ∈ ls) -> reach b' s' (env0 ls)
  | reach_start b s g r s' : reach b s g -> wf_auth_sta_start true true s = Ret (r, s') -> reach b s' g
  | reach_stop b s g r s' : reach b s g -> wf_auth_sta_stop true s = Ret (r, s') -> reach b s' g
  | reach_recv b s g state bss w frame r s' :
      reach b s g -> rsp_ok frame -> auth_sta_recv cfg state bss w frame s = Ret (r, s') -> reach b s' g
  | reach_node b s g w :
      reach b s g -> node_ok w -> Wi.auth_seq w = Wi.auth_seq (node s) -> Wi.auth_algo w = Wi.auth_algo (node s) ->
      reach b (set_node w s) g.

Lemma blocked_resumes b s s' tr : blocked b s s' tr -> resumes b = true.
Proof. by destruct b. Qed.

Lemma base_held hs ls s : base hs s -> (forall m, Msg.held (msg_que s) m <-> m ∈ ls) -> base ls s.
Proof. intros [H1 [H2 H3 _] H4 H5] Hh. by split. Qed.

Lemma sta_reach_inv b s g : reach b s g -> resumes b = true /\ inv b locals0 s g.
Proof.
  assert (Hq : forall b s g que, resumes b = true /\ inv b locals0 s g -> base (lost g) (set_msg_que que s) ->
            resumes b = true /\ inv b locals0 (set_msg_que que s) g).
  { intros b0 s0 g0 que [Hr Hi] Hb. split; [done | by apply sta_inv_que]. }
  induction 1 as [a1 a2 b c w t s Hnd Hw E | fuel b s g tr r b' p s' _ [Hr IH] Hrun Hf Hd | fuel b s g tr r b' p s' ls _ [Hr IH] Hrun Hf Hd Hls
    | b s g r s' _ IH E | b s g r s' _ IH E | b s g state bss w frame r s' _ IH Hrsp E | b s g w _ [Hr IH] Hw H1 H2].
  - destruct (sta_init_ok a1 a2 b c w t Hnd Hw) as (s1 & E1 & Hb & Hn). rewrite E1 in E. injection E as <-. done.
  - pose proof (wp_runs _ _ _ _ (sta_call_called fuel b s g IH Hf) Hrun) as H. unfold Io.called in H. rewrite Hd in H.
    destruct H as (Hi & (s0 & tr0 & Hb) & _). split; [by eapply blocked_resumes | done].
  - pose proof (wp_runs _ _ _ _ (sta_call_called fuel b s g IH Hf) Hrun) as H. unfold Io.called in H. rewrite Hd in H.
    destruct H as (-> & Hn & _ & _ & v & _ & _ & Hb & _). split; [done |]. cbn. split_and!; try done.
    destruct Hb as [Hb | (_ & _ & m & _ & Hb)]; by eapply base_held.
  - destruct IH as [Hr Hi]. unfold wf_auth_sta_start in E. cbn [negb] in E.
    destruct (auth_request_ok (lost g) s WF_AUTH_TAG_START (-3) (-4)) as (r1 & que & E1 & Hb); [by eapply inv_base | by right |].
    rewrite E1 in E. injection E as _ <-. by apply Hq.
  - destruct IH as [Hr Hi]. unfold wf_auth_sta_stop in E. cbn [negb] in E. destruct (brun s); cbn [negb] in E; [| by injection E as _ <-].
    destruct (auth_request_ok (lost g) s WF_AUTH_TAG_ABORT (-3) (-4)) as (r1 & que & E1 & Hb); [by eapply inv_base | by left |].
    rewrite E1 in E. injection E as _ <-. by apply Hq.
  - destruct IH as [Hr Hi]. destruct (recv_ok (lost g) s state bss w frame) as (r1 & que & E1 & Hb); [by eapply inv_base | done |].
    rewrite E1 in E. injection E as _ <-. by apply Hq.
  - split; [done | by apply inv_node].
Qed.

(** Every call of the authentication thread returns.  Whatever it is
    answered, whatever answers and requests come between its calls, it reads and
    writes inside its buffers and passes at most 22 blocks and one per pending
    message.  A call ends the thread, or comes strictly further, or has found
    what it waits for still missing: the hardware lock taken, its timer running
    with no message pending, or a message that is not a request to start, which
    it has removed.  So the thread makes at most that many calls that do not
    wait, and every request ends in a verdict once the lock is free and time
    passes. *)
Theorem auth_call_returns fuel b s g :
  reach b s g -> 22 + Msg.wf_msg_count (msg_que s) < Z.of_nat fuel ->
  0 <= measure b s <= 22 + Msg.wf_msg_count (msg_que s) /\
  wp (wf_auth_sta_thrd cfg fuel b s) (fun tr '(r, b', _, s') =>
    done_with r = true \/ 0 <= measure b' s' < measure b s \/
    b' = b /\ measure b' s' <= measure b s /\ blocked b s s' tr).
Proof.
  intros Hr Hf. destruct (sta_reach_inv b s g Hr) as [_ Hi]. split; [apply (sta_inv_measure b locals0 s g Hi) |].
  eapply wp_mono, (sta_call_called fuel b s g Hi Hf). intros tr [[[r b'] p] s'] H. unfold Io.called in H.
  destruct (done_with r); [by left | right]. destruct H as (Hi' & _ & H).
  pose proof (sta_inv_measure b' locals0 s' _ Hi'). destruct H as [H | H]; [left; lia | by right].
Qed.

(** C20: The verdict is sound and the thread cleans up.  When the thread ends it
    has released the hardware lock, cleared its running flag and handed at most
    six frames to the transmit path; it ends as exited exactly when the reason
    it stores is not zero.  Messages are where they were, in the queue or lost
    before, unless the reason is -5.  Where the reason was assigned, it is
    [WF_AUTH_TAG_DONE] only after the access point accepted it: the message it gave
    back last is an answer with status 0 and number 2 to an open authentication, or
    number 4 to a shared-key one after the challenge.  The reason is the value of a
    variable never assigned only after the access point refused the fourth frame:
    the last message given back is an answer with number 4 and another status; this
    does happen, and the value can be [WF_AUTH_TAG_DONE]
    ([auth_rejected_undefined]). *)
Theorem auth_verdict fuel b s g :
  reach b s g -> 22 + Msg.wf_msg_count (msg_que s) < Z.of_nat fuel ->
  wp (wf_auth_sta_thrd cfg fuel b s) (fun tr '(r, b', p, s') =>
    let g' := after tr g in
    done_with r = true ->
    b' = ABegin /\ brun s' = false /\ hw_locked g' = false /\ 0 <= sent g' <= 6 /\
    exists v, p = Some v /\ r = (if nz v then PT_EXITED else PT_ENDED) /\
      (v <> -5 -> forall m, Msg.held (msg_que s') m -> m ∈ lost g') /\
      (v = WF_AUTH_TAG_DONE -> indet g' = false -> accepted s') /\
      (indet g' = true -> rejected s')).
Proof.
  intros Hr Hf. destruct (sta_reach_inv b s g Hr) as [_ Hi].
  eapply wp_mono, (sta_call_called fuel b s g Hi Hf). intros tr [[[r b'] p] s'] H. unfold Io.called in H. intros g' Hd.
  rewrite Hd in H. destruct H as (-> & Hn & Hl & Hs & v & Hp & Hv & Hm & Ha & Hj). split_and!; try first [done | apply Hs].
  exists v. split_and!; try done. intros Hv5 m Hheld. destruct Hm as [Hb | [? _]]; [| done].
  by apply (Msg.qi_held _ _ (ba_inv _ _ Hb)).
Qed.

(** The answer the next call will find. *)
Lemma first_answer b s g m rest x : reach b s g -> Msg.pend (msg_que s) = m :: rest -> Msg.store (msg_que s) !! m = Some x ->
  exists que que' x', popped (lost g) s m que que' x' /\ Msg.store que !! m = Some x' /\
    Msg.tag x' = Msg.tag x /\ Msg.value x' = Msg.value x /\ Msg.len x' = Msg.len x.
Proof.
  intros Hr Hp Hx. destruct (sta_reach_inv b s g Hr) as [Hres Hi].
  destruct (auth_pop_facts _ _ (inv_base _ _ _ _ Hres Hi)) as [[E _] | (m1 & que & que' & x' & Hpo)]; [by rewrite Hp in E |].
  pose proof (po_pend _ _ _ _ _ _ Hpo) as E. rewrite Hp in E. injection E as <- _.
  destruct (Msg.same_data_lookup _ _ _ _ (po_same _ _ _ _ _ _ Hpo) Hx) as (x1 & Hx1 & H).
  pose proof (po_at _ _ _ _ _ _ Hpo) as Hx'. rewrite Hx1 in Hx'. injection Hx' as ->. by exists que, que', x'.
Qed.

(** A second frame without a challenge loses a message.  A station that
    waits, in shared-key mode, for the second frame and finds one with status 0
    but no challenge element ends with reason -5, and the message the frame came
    in is then in neither queue: it was taken out and is not given back.  There
    are two such messages. *)
Theorem auth_challenge_leak fuel s g m rest x ofs :
  reach AWait2 s g -> Msg.pend (msg_que s) = m :: rest -> Msg.store (msg_que s) !! m = Some x ->
  Msg.tag x = WF_AUTH_TAG_RSP -> answer (Msg.value x) = Ret (WF_80211_AUTH_SEQ_2, WF_80211_STATUS_SUCCESS) ->
  Wi.auth_algo (node s) = dot11AuthAlgrthm_Shared -> auth_ofs (Msg.value x) = Ret ofs ->
  Ies.wf_80211_mgmt_ies_search (Some (drop (Z.to_nat (ofs + 6)) (Msg.value x))) (u16 (Msg.len x - (ofs + 6)))
    WF_80211_MGMT_EID_CHALLENGE = Ret None ->
  wp (wf_auth_sta_thrd cfg (S (S (S fuel))) AWait2 s) (fun _ '(r, _, p, s') =>
    r = PT_EXITED /\ p = Some (-5) /\ (m ∉ Msg.pend (msg_que s') ++ Msg.free (msg_que s'))).
Proof.
  intros Hr Hp Hx Ht Ha Halg Ho Hs. destruct (sta_reach_inv _ _ _ Hr) as [_ (_ & _ & _ & Hrc)].
  destruct (first_answer _ _ _ _ _ _ Hr Hp Hx) as (que & que' & x' & Hpo & Hx' & Et & Ev & El).
  rewrite <- Et in Ht. rewrite <- Ev in Ha, Ho, Hs. rewrite <- El in Hs.
  assert (Hat : Msg.msg_at que m = Ret x') by (unfold Msg.msg_at; by rewrite Hx').
  unfold wf_auth_sta_thrd. cbn [blocks block]. unfold at_wait. rewrite (po_pop _ _ _ _ _ _ Hpo). cbn [lift ibind].
  rewrite (tag_at m (set_msg_que que s) x' Hx'), Ht. change (WF_AUTH_TAG_RSP =? WF_AUTH_TAG_ABORT) with false.
  change (WF_AUTH_TAG_RSP =? WF_AUTH_TAG_RSP) with true. cbn iota.
  unfold on_answer2. cbn [set_msg_que msg_que node]. rewrite Hat. cbn [cbind]. rewrite Ha, Halg. cbn.
  unfold at_check2. cbn [set_msg_que msg_que retry_cnt set_pmsg pmsg].
  destruct (Z.eqb_spec (retry_cnt s) AUTH_REQ_RESEND_TIMES) as [E |]; [unfold AUTH_REQ_RESEND_TIMES in E; lia |].
  rewrite Hat. cbn [cbind]. rewrite Ho. cbn [cbind]. rewrite Hs. cbn. intros _. split; [done |]. split; [done |].
  exact (Request.held_nowhere que (lost g) m (ba_inv _ _ (po_held _ _ _ _ _ _ Hpo))).
Qed.

(** A rejected challenge ends with a reason nobody chose.  A station that
    waits for the fourth frame and finds one that reports a failure stops, but
    the loop leaves its counter at 4 where the code behind it tests for 3: the
    reason it then stores is a variable it has not assigned, whatever value that
    has, [WF_AUTH_TAG_DONE] included. *)
Theorem auth_rejected_undefined fuel s g m rest x status :
  reach AWait4 s g -> Msg.pend (msg_que s) = m :: rest -> Msg.store (msg_que s) !! m = Some x ->
  Msg.tag x = WF_AUTH_TAG_RSP -> answer (Msg.value x) = Ret (WF_80211_AUTH_SEQ_4, status) -> status <> WF_80211_STATUS_SUCCESS ->
  wp (wf_auth_sta_thrd cfg (S (S (S (S fuel)))) AWait4 s) (fun tr '(r, _, p, _) =>
    exists u v, tr = [(HwUnlock, u); (Indeterminate, v)] /\ p = Some v /\ done_with r = true).
Proof.
  intros Hr Hp Hx Ht Ha Hst.
  destruct (first_answer _ _ _ _ _ _ Hr Hp Hx) as (que & que' & x' & Hpo & Hx' & Et & Ev & El).
  rewrite <- Et in Ht. rewrite <- Ev in Ha.
  assert (Hat : Msg.msg_at que m = Ret x') by (unfold Msg.msg_at; by rewrite Hx').
  unfold wf_auth_sta_thrd. cbn [blocks block]. unfold at_wait. rewrite (po_pop _ _ _ _ _ _ Hpo). cbn [lift ibind].
  rewrite (tag_at m (set_msg_que que s) x' Hx'), Ht. change (WF_AUTH_TAG_RSP =? WF_AUTH_TAG_ABORT) with false.
  change (WF_AUTH_TAG_RSP =? WF_AUTH_TAG_RSP) with true. cbn iota.
  unfold on_answer4. cbn [set_msg_que msg_que]. rewrite Hat. cbn [cbind]. rewrite Ha. cbn [cbind].
  change (WF_80211_AUTH_SEQ_4 =? WF_80211_AUTH_SEQ_4) with true. cbn iota.
  destruct (Z.eqb_spec status WF_80211_STATUS_SUCCESS); [done |].
  rewrite (msg_del_eq m _ que') by (by apply (po_del _ _ _ _ _ _ Hpo)). cbn.
  intros u v. exists u, v. split_and!; try done. by destruct (nz v).
Qed.

End Blocks.

(** ** Examples *)

Module Examples.
#[local] Existing Instance Arc4.arc4_cipher.

Definition ex_addr : list Z := [2; 0; 0; 0; 0; 1].
Definition ex_bss : list Z := [2; 0; 0; 0; 0; 2].
Definition ex_cfg : config := mk_config ex_addr Wep.wit_sec 0 (replicate 168 0) (fun ms => ms).
Definition ex_node : Wi.wdn_net_info_st := Wi.set_mac ex_bss (Wi.set_bssid ex_bss Wi.zero).

Lemma sta_ex_cfg_ok : cfg_ok ex_cfg.
Proof.
  split; [split; [done | by apply bytes_okb_ok] | apply Wep.wit_sec_ok | | cbn; lia]. repeat constructor; lia.
Qed.
Lemma sta_ex_node_ok : node_ok ex_node.
Proof. split; first [done | by apply bytes_okb_ok | split; [done | by apply bytes_okb_ok]]. Qed.

Definition ex_init : auth_info_t :=
  match wf_auth_init [Some 100; Some 200] (Some 300) (Some 400) ex_node (Timer.mk_timer 0 0 0) with
  | Ret (_, s) => s
  | _ => Ai.mk false ex_node 0 (Timer.mk_timer 0 0 0) false Msg.wf_msg_init crc_globals0
  end.

(** A running system: the next label, the state and the calls so far. *)
Definition sys : Type := label * auth_info_t * env.
Definition bl (x : sys) : label := fst (fst x).
Definition st (x : sys) : auth_info_t := snd (fst x).
Definition en (x : sys) : env := snd x.
Definition ok (x : sys) : Prop := reach ex_cfg (bl x) (st x) (en x).
Definition fuel : nat := 30.

Definition run_of (x : sys) (ans : list Z) : option (list (ev * Z) * (pt_ret * label * option Z * auth_info_t)) :=
  exec (wf_auth_sta_thrd ex_cfg fuel (bl x) (st x)) ans.

(** A call that does not end the thread. *)
Definition go (ans : list Z) (x : sys) : option sys :=
  '(tr, (r, b', _, s')) ← run_of x ans;
  if negb (done_with r) && (Msg.wf_msg_count (msg_que (st x)) <? 5) then Some (b', s', after tr (en x)) else None.

(** A frame received; the elements behind its fixed fields are [ies]. *)
Definition ex_frame (alg seq status : Z) (ies : list (Z * list Z)) : list Z :=
  [0xB0; 0; 0; 0] ++ ex_addr ++ ex_bss ++ ex_bss ++ [0; 0] ++ auth_fields alg seq status ++ Ies.enc ies.
Definition got (alg seq status : Z) (ies : list (Z * list Z)) (x : sys) : option sys :=
  match auth_sta_recv ex_cfg MLME_STATE_AUTH ex_bss (Some ex_node) (ex_frame alg seq status ies) (st x) with
  | Ret (r, s') => Some (bl x, s', en x)
  | _ => None
  end.

Lemma go_ok ans x x' : ok x -> go ans x = Some x' -> ok x'.
Proof.
  unfold ok, go, run_of. intros Hx. destruct (exec _ ans) as [[tr [[[r b'] p] s']] |] eqn:E; [| done]. cbn [mbind option_bind].
  destruct (done_with r) eqn:Hd; [done |]. cbn [negb andb]. destruct (Z.ltb_spec (Msg.wf_msg_count (msg_que (st x))) 5); [| done].
  intros [= <-]. cbn [bl st en fst snd].
  eapply (reach_call ex_cfg fuel (bl x) (st x) (en x) tr r b' p s'); [done | by apply (exec_runs _ ans) | unfold fuel; lia | done].
Qed.

Lemma got_ok alg seq status ies x x' : ok x -> rsp_ok (ex_frame alg seq status ies) -> got alg seq status ies x = Some x' -> ok x'.
Proof.
  unfold ok, got. intros Hx Hf. destruct (auth_sta_recv _ _ _ _ _ _) as [[r s'] | |] eqn:E; [| done | done]. intros [= <-].
  by apply (reach_recv ex_cfg (bl x) (st x) (en x) MLME_STATE_AUTH ex_bss (Some ex_node) (ex_frame alg seq status ies) r).
Qed.

Lemma ex_frame_ok alg seq status ies : bytes_okb (ex_frame alg seq status ies) = true ->
  (Z.of_nat (length (Ies.enc ies)) <=? 150) = true -> rsp_ok (ex_frame alg seq status ies).
Proof.
  intros Hb Hl%Z.leb_le. split; [by apply bytes_okb_ok |]. exists 24, ies.
  assert (E : length (ex_frame alg seq status ies) = (30 + length (Ies.enc ies))%nat).
  { unfold ex_frame. rewrite !length_app, length_fields. done. }
  split; [unfold ex_frame; by rewrite auth_ofs_app by (cbn; lia) |]. split; [rewrite E; unfold AUTH_RSP_SIZE; lia |]. unfold ex_frame.
  rewrite !app_assoc, drop_app_ge; rewrite !length_app, length_fields; [done | cbn; lia].
Qed.

Definition ex_sys (o : option sys) : sys := default (ABegin, ex_init, env0 []) o.

(** Asked to start; the first frame sent; told that the algorithm is not
    supported; the first frame sent again, for a shared key. *)
Definition ex0 : sys := Eval vm_compute in
  (ABegin, match wf_auth_sta_start true true ex_init with Ret (_, s) => s | _ => ex_init end, env0 []).
Definition ex1 : sys := Eval vm_compute in ex_sys (go [0; 0; 0; 0; 1; 1; 0; 0; 0] ex0).
Definition ex2 : sys := Eval vm_compute in ex_sys (got 0 2 13 [] ex1).
Definition ex3 : sys := Eval vm_compute in ex_sys (go [1; 0; 0; 0] ex2).
(** A second frame without a challenge. *)
Definition ex_bad : sys := Eval vm_compute in ex_sys (got 1 2 0 [(1, [2])] ex3).
(** A second frame with one; the third frame sent; a rejection. *)
Definition ex4 : sys := Eval vm_compute in ex_sys (got 1 2 0 [(16, replicate 128 9)] ex3).
Definition ex5 : sys := Eval vm_compute in ex_sys (go [1; 0; 0; 0] ex4).
Definition ex_rejected : sys := Eval vm_compute in ex_sys (got 1 4 15 [] ex5).
Definition ex_accepted : sys := Eval vm_compute in ex_sys (got 1 4 0 [] ex5).

Lemma sta_ex0_ok : ok ex0.
Proof.
  eapply (reach_start ex_cfg ABegin ex_init (env0 []) 0 (st ex0)); [| by vm_compute].
  apply (reach_init ex_cfg 100 200 300 400 ex_node (Timer.mk_timer 0 0 0)); [| apply sta_ex_node_ok | by vm_compute].
  by apply (bool_decide_unpack _).
Qed.

Lemma ex3_ok : ok ex3.
Proof.
  apply (go_ok [1; 0; 0; 0] ex2); [| by vm_compute]. apply (got_ok 0 2 13 [] ex1); [| by apply ex_frame_ok | by vm_compute].
  apply (go_ok [0; 0; 0; 0; 1; 1; 0; 0; 0] ex0); [exact sta_ex0_ok | by vm_compute].
Qed.
Lemma ex5_ok : ok ex5.
Proof.
  apply (go_ok [1; 0; 0; 0] ex4); [| by vm_compute].
  apply (got_ok 1 2 0 [(16, replicate 128 9)] ex3); [exact ex3_ok | by apply ex_frame_ok | by vm_compute].
Qed.
Lemma ex_bad_ok : ok ex_bad.
Proof. apply (got_ok 1 2 0 [(1, [2])] ex3); [exact ex3_ok | by apply ex_frame_ok | by vm_compute]. Qed.
Lemma ex_rejected_ok : ok ex_rejected.
Proof. apply (got_ok 1 4 15 [] ex5); [exact ex5_ok | by apply ex_frame_ok | by vm_compute]. Qed.
Lemma ex_accepted_ok : ok ex_accepted.
Proof. apply (got_ok 1 4 0 [] ex5); [exact ex5_ok | by apply ex_frame_ok | by vm_compute]. Qed.

(** What the call does on given answers, for a property of every run. *)
Lemma on_run x ans tr r b p s (Q : list (ev * Z) -> pt_ret * label * option Z * auth_info_t -> Prop) :
  wp (wf_auth_sta_thrd ex_cfg fuel (bl x) (st x)) Q -> run_of x ans = Some (tr, (r, b, p, s)) -> Q tr (r, b, p, s).
Proof. intros Hw He. apply (wp_runs _ _ _ _ Hw). by apply (exec_runs _ ans). Qed.

Definition result (x : sys) (ans : list Z) : list (ev * Z) * (pt_ret * label * option Z * auth_info_t) :=
  default ([], (PT_WAITING, ABegin, None, st x)) (run_of x ans).

Definition ex1_run := Eval vm_compute in result ex0 [0; 0; 0; 0; 1; 1; 0; 0; 0].
Lemma auth_call_returns_witness :
  measure ABegin (st ex0) <= 23 /\ run_of ex0 [0; 0; 0; 0; 1; 1; 0; 0; 0] = Some ex1_run /\
  let '(_, (_, b', _, s')) := ex1_run in b' = AWait2 /\ measure b' s' < measure ABegin (st ex0).
Proof.
  destruct (auth_call_returns ex_cfg sta_ex_cfg_ok fuel ABegin (st ex0) (en ex0) sta_ex0_ok) as [Hm Hw]; [by vm_compute |].
  assert (E : run_of ex0 [0; 0; 0; 0; 1; 1; 0; 0; 0] = Some ex1_run) by (by vm_compute).
  split; [revert Hm; change (Msg.wf_msg_count (msg_que (st ex0))) with 1; lia |]. split; [done |].
  destruct (on_run ex0 _ _ _ _ _ _ _ Hw E) as [H | [[_ H] | (H & _)]]; [done | by split | done].
Defined.

Definition accepted_run := Eval vm_compute in result ex_accepted [].
Lemma auth_verdict_witness :
  run_of ex_accepted [] = Some accepted_run /\
  let '(tr, (r, _, p, s')) := accepted_run in
  r = PT_EXITED /\ p = Some WF_AUTH_TAG_DONE /\ hw_locked (after tr (en ex_accepted)) = false /\ accepted s'.
Proof.
  assert (E : run_of ex_accepted [] = Some accepted_run) by (by vm_compute).
  pose proof (auth_verdict ex_cfg sta_ex_cfg_ok fuel AWait4 (st ex_accepted) (en ex_accepted) ex_accepted_ok ltac:(by vm_compute)) as Hw.
  destruct (on_run ex_accepted _ _ _ _ _ _ _ Hw E eq_refl) as (_ & _ & Hl & _ & v & Hv & _ & _ & Ha). injection Hv as <-.
  split; [done |]. split; [done |]. split; [done |]. split; [exact Hl |]. by apply Ha.
Defined.

Definition bad_msg : Msg.wf_msg_t (list Z) := Eval vm_compute in
  default (Msg.mk_msg None 0 0 0 []) (Msg.store (msg_que (st ex_bad)) !! hd 0 (Msg.pend (msg_que (st ex_bad)))).
Lemma auth_challenge_leak_witness :
  exists m, Msg.pend (msg_que (st ex_bad)) = [m] /\
    let '(_, (r, _, p, s')) := result ex_bad [] in
    p = Some (-5) /\ (m ∉ Msg.pend (msg_que s') ++ Msg.free (msg_que s')).
Proof.
  exists (hd 0 (Msg.pend (msg_que (st ex_bad)))). split; [by vm_compute |].
  pose proof (auth_challenge_leak ex_cfg sta_ex_cfg_ok 27 (st ex_bad) (en ex_bad) _ [] bad_msg 24 ex_bad_ok ltac:(by vm_compute)
    ltac:(by vm_compute) eq_refl ltac:(by vm_compute) eq_refl ltac:(by vm_compute) ltac:(by vm_compute)) as Hw.
  destruct (result ex_bad []) as [tr [[[r b'] p] s']] eqn:E.
  assert (E' : run_of ex_bad [] = Some (tr, (r, b', p, s'))) by (rewrite <- E; by vm_compute).
  destruct (on_run ex_bad _ _ _ _ _ _ _ Hw E') as (_ & Hp & Hm). by split.
Defined.

Definition rejected_msg : Msg.wf_msg_t (list Z) := Eval vm_compute in
  default (Msg.mk_msg None 0 0 0 []) (Msg.store (msg_que (st ex_rejected)) !! hd 0 (Msg.pend (msg_que (st ex_rejected)))).
Lemma auth_rejected_undefined_witness :
  let '(tr, (_, _, p, _)) := result ex_rejected [0; WF_AUTH_TAG_DONE] in
  tr = [(HwUnlock, 0); (Indeterminate, WF_AUTH_TAG_DONE)] /\ p = Some WF_AUTH_TAG_DONE.
Proof.
  pose proof (auth_rejected_undefined ex_cfg sta_ex_cfg_ok 26 (st ex_rejected) (en ex_rejected) _ [] rejected_msg 15 ex_rejected_ok
    ltac:(by vm_compute) ltac:(by vm_compute) eq_refl ltac:(by vm_compute) ltac:(done)) as Hw.
  destruct (result ex_rejected [0; WF_AUTH_TAG_DONE]) as [tr [[[r b'] p] s']] eqn:E.
  assert (E' : run_of ex_rejected [0; WF_AUTH_TAG_DONE] = Some (tr, (r, b', p, s'))) by (rewrite <- E; by vm_compute).
  destruct (on_run ex_rejected _ _ _ _ _ _ _ Hw E') as (u & v & -> & -> & _).
  vm_compute in E. injection E as <- <- _ _. done.
Defined.

End Examples.
End Auth.
