(* ===== verification/ApMsg.v ===== *)
(** * The messages of the access point ([nic/ap.c], [nic/ap.h])

    Received management frames reach the thread of a station through a queue in
    its node.  The messages come from pools in the current network, one per kind
    of frame, and go back to them.  A queue is a sequence of messages (the
    pointer structure is verified in [WfList]). *)
From S2P Require Import Prelude Mgmt.

Module ApMsg.

Definition WF_AP_MSG_TAG_AUTH_FRAME : Z := 0.
Definition WF_AP_MSG_TAG_DEAUTH_FRAME : Z := 1.
Definition WF_AP_MSG_TAG_ASSOC_REQ_FRAME : Z := 2.
Definition WF_AP_MSG_TAG_DISASSOC_FRAME : Z := 3.
Definition WF_AP_MSG_TAG_BA_REQ_FRAME : Z := 4.
Definition WF_AP_MSG_TAG_BEACON_FRAME : Z := 5.
Definition WF_AP_MSG_TAG_MAX : Z := 6.

(** A message: [mgmt] are the bytes allocated for the frame. *)
Record wf_ap_msg_t : Type := mk_msg {
  tag : Z;
  len : Z;
  mgmt : list Z;
}.

(** [ap_msg_free] of the current network, a queue per tag, and the messages. *)
Record pool : Type := mk_pool {
  ap_msg_free : list (list Z);
  store : gmap Z wf_ap_msg_t;
}.

Definition msg_at (p : pool) (m : Z) : C wf_ap_msg_t := of_option (store p !! m).
Definition free_que (p : pool) (t : Z) : C (list Z) := of_option (ap_msg_free p !! Z.to_nat t).

Definition without (m : Z) (l : list Z) : list Z := List.filter (fun x => negb (x =? m)) l.

(** [wf_ap_msg_load] into the queue [que]; [pdata] may be a null pointer. *)
Definition wf_ap_msg_load (p : pool) (que : list Z) (t : Z) (pdata : option (list Z)) (l : Z)
    : C (Z * pool * list Z) :=
  letc fq := free_que p t in
  match fq with
  | [] => Ret (-1, p, que)
  | m :: fq =>
      letc x := msg_at p m in
      letc v :=
        match pdata with
        | Some d => if nz l then letc src := slice d 0 l in blit (mgmt x) 0 src else Ret (mgmt x)
        | None => Ret (mgmt x)
        end in
      Ret (0, mk_pool (<[Z.to_nat t := fq]> (ap_msg_free p)) (<[m := mk_msg t l v]> (store p)), que ++ [m])
  end.

Definition wf_ap_msg_get (que : list Z) : option Z := head que.

(** [wf_ap_msg_free]; taking a message out of a queue it is not in would corrupt
    both. *)
Definition wf_ap_msg_free (p : pool) (que : list Z) (m : Z) : C (Z * pool * list Z) :=
  match que with
  | [] => Ret (-1, p, que)
  | _ =>
      if bool_decide (m ∈ que) then
        letc x := msg_at p m in
        letc fq := free_que p (tag x) in
        Ret (0, mk_pool (<[Z.to_nat (tag x) := m :: fq]> (ap_msg_free p)) (store p), without m que)
      else Fault
  end.

Fixpoint ap_msg_que_clearup (fuel : nat) (p : pool) (que : list Z) : C (pool * list Z) :=
  match fuel with
  | O => Stuck
  | S fuel =>
      match wf_ap_msg_get que with
      | Some m =>
          letc (_, p, que) := wf_ap_msg_free p que m in
          ap_msg_que_clearup fuel p que
      | None => Ret (p, que)
      end
  end.

(** One queue of [ap_msg_que_init]: [allocs] are the results of the allocator,
    [size] the bytes for the frame; [None] when an allocation failed. *)
Fixpoint fill_que (size : Z) (allocs : list (option Z)) (q : list Z) (st : gmap Z wf_ap_msg_t)
    : bool * list Z * gmap Z wf_ap_msg_t :=
  match allocs with
  | [] => (true, q, st)
  | None :: _ => (false, q, st)
  | Some m :: allocs => fill_que size allocs (m :: q) (<[m := mk_msg 0 0 (replicate (Z.to_nat size) 0)]> st)
  end.

Definition WDN_NUM_MAX : Z := 5.
Definition TID_NUM : Z := 16.
(** Depth, bytes for the frame and error code of each queue that is filled, in the
    order of the tags; the one of the last tag stays empty. *)
Definition que_params : list (Z * Z * Z) :=
  [(WDN_NUM_MAX * 3, 180, -1); (WDN_NUM_MAX, 26, -1); (WDN_NUM_MAX, 796, -2); (WDN_NUM_MAX, 26, -1); (TID_NUM, 0, -1)].

(** The queues as [wf_ap_init] leaves them. *)
Definition wf_ap_init : pool := mk_pool (replicate (Z.to_nat WF_AP_MSG_TAG_MAX) []) ∅.

Fixpoint init_ques (t : nat) (params : list (Z * Z * Z)) (allocs : list (option Z)) (p : pool) : Z * pool :=
  match params with
  | [] => (0, p)
  | (deep, size, err) :: params =>
      let '(ok, q, st) := fill_que size (take (Z.to_nat deep) allocs) [] (store p) in
      let p := mk_pool (<[t := q]> (ap_msg_free p)) st in
      if ok then init_ques (S t) params (drop (Z.to_nat deep) allocs) p else (err, p)
  end.

Definition ap_msg_que_init (allocs : list (option Z)) : Z * pool := init_ques 0 que_params allocs wf_ap_init.

(** ** Invariant

    [qs] are the queues of the nodes. *)
Definition cap (t : Z) : nat := Z.to_nat (snd (fst (nth (Z.to_nat t) que_params (0, 0, 0)))).

Record pool_ok (p : pool) (qs : list (list Z)) : Prop := {
  pk_len : length (ap_msg_free p) = 6%nat;
  pk_nodup : NoDup (concat (ap_msg_free p) ++ concat qs);
  pk_free : forall t fq m, ap_msg_free p !! t = Some fq -> m ∈ fq ->
    exists x, store p !! m = Some x /\ length (mgmt x) = cap (Z.of_nat t);
  pk_load : forall m, m ∈ concat qs ->
    exists x, store p !! m = Some x /\ 0 <= tag x < 6 /\ length (mgmt x) = cap (tag x);
}.

Definition messages (p : pool) (qs : list (list Z)) : list Z := concat (ap_msg_free p) ++ concat qs.

Lemma concat_insert (ls : list (list Z)) i l l' : ls !! i = Some l ->
  exists a b, concat ls = a ++ l ++ b /\ concat (<[i := l']> ls) = a ++ l' ++ b.
Proof.
  intros H. exists (concat (take i ls)), (concat (drop (S i) ls)). split.
  - rewrite <- (take_drop_middle ls i l H) at 1. by rewrite concat_app.
  - rewrite insert_take_drop by (by eapply lookup_lt_Some). by rewrite concat_app.
Qed.

Lemma in_free p t fq m : ap_msg_free p !! t = Some fq -> m ∈ fq -> m ∈ concat (ap_msg_free p).
Proof.
  intros H Hm. destruct (concat_insert _ _ _ fq H) as (a & b & -> & _). set_solver.
Qed.

Lemma free_lookup p qs t : pool_ok p qs -> 0 <= t < 6 -> exists fq, ap_msg_free p !! Z.to_nat t = Some fq.
Proof. intros Hp Ht. apply lookup_lt_is_Some. rewrite (pk_len _ _ Hp). lia. Qed.

(** What a message is loaded with. *)
Definition fits (t : Z) (pdata : option (list Z)) (l : Z) : Prop :=
  0 <= l /\ match pdata with Some d => l <= Z.of_nat (length d) /\ l <= Z.of_nat (cap t) | None => True end.
Definition loaded (pdata : option (list Z)) (l : Z) (old : list Z) : list Z :=
  match pdata with Some d => take (Z.to_nat l) d ++ drop (Z.to_nat l) old | None => old end.

(** A message moves between a pool and the queue of a node. *)
Lemma move_perm (fs qs : list (list Z)) (t i : nat) fq q fq' q' :
  fs !! t = Some fq -> qs !! i = Some q -> fq' ++ q' ≡ₚ fq ++ q ->
  concat (<[t := fq']> fs) ++ concat (<[i := q']> qs) ≡ₚ concat fs ++ concat qs.
Proof.
  intros Hf Hq Hp. destruct (concat_insert fs t fq fq' Hf) as (a & b & -> & ->).
  destruct (concat_insert qs i q q' Hq) as (c & d & -> & ->).
  transitivity (a ++ b ++ c ++ d ++ (fq' ++ q')); [solve_Permutation |]. rewrite Hp. solve_Permutation.
Qed.

Lemma in_insert (ls : list (list Z)) i l l' m : ls !! i = Some l -> m ∈ concat (<[i := l']> ls) -> m ∈ l' \/ m ∈ concat ls.
Proof. intros H. destruct (concat_insert ls i l l' H) as (a & b & -> & ->). set_solver. Qed.

Lemma blit_loaded d l old n : 0 <= l <= Z.of_nat (length d) -> length old = n -> l <= Z.of_nat n ->
  (if nz l then letc src := slice d 0 l in blit old 0 src else Ret old) = Ret (loaded (Some d) l old).
Proof.
  intros Hl Ho Hn. unfold nz, loaded. destruct (Z.eqb_spec l 0) as [-> |]; [done |]. cbn [negb].
  rewrite slice_Ret by lia. cbn [cbind]. rewrite drop_0.
  rewrite <- (take_drop (Z.to_nat l) old) at 1.
  apply Mgmt.blit_app_head. rewrite !length_take. lia.
Qed.

Lemma length_loaded t d l old : fits t d l -> length old = cap t -> length (loaded d l old) = cap t.
Proof.
  intros [Hl Hd] Ho. destruct d as [d |]; [| done]. unfold loaded. rewrite length_app, length_take, length_drop. lia.
Qed.

Lemma load_ok p qs i q t d l : pool_ok p qs -> qs !! i = Some q -> 0 <= t < 6 -> fits t d l ->
  (ap_msg_free p !! Z.to_nat t = Some [] /\ wf_ap_msg_load p q t d l = Ret (-1, p, q)) \/
  exists m p' x, wf_ap_msg_load p q t d l = Ret (0, p', q ++ [m]) /\ store p !! m = Some x /\
    pool_ok p' (<[i := q ++ [m]]> qs) /\ messages p' (<[i := q ++ [m]]> qs) ≡ₚ messages p qs /\ (m ∉ concat qs) /\
    store p' = <[m := mk_msg t l (loaded d l (mgmt x))]> (store p) /\
    exists fq, ap_msg_free p !! Z.to_nat t = Some (m :: fq) /\ ap_msg_free p' = <[Z.to_nat t := fq]> (ap_msg_free p).
Proof.
  intros Hp Hq Ht Hfit. destruct (free_lookup p qs t Hp Ht) as [fq Hf]. unfold wf_ap_msg_load, free_que. rewrite Hf. cbn [of_option cbind].
  destruct fq as [| m fq]; [by left |]. right.
  destruct (pk_free _ _ Hp _ _ m Hf) as (x & Hx & Hcap); [constructor |]. rewrite Z2Nat.id in Hcap by lia.
  assert (Hm : m ∉ concat qs).
  { intros Hm. pose proof (pk_nodup _ _ Hp) as Hn. apply NoDup_app in Hn as (_ & Hd & _). apply (Hd m); [| done]. eapply in_free; [done | constructor]. }
  assert (Hmf : m ∉ concat (<[Z.to_nat t := fq]> (ap_msg_free p))).
  { destruct (concat_insert _ _ _ fq Hf) as (a & b & E & ->). pose proof (pk_nodup _ _ Hp) as Hn. rewrite E in Hn.
    apply NoDup_app in Hn as (Hn & _). cbn [app] in Hn. rewrite <- Permutation_middle in Hn.
    by apply NoDup_cons in Hn as [Hn _]. }
  exists m, (mk_pool (<[Z.to_nat t := fq]> (ap_msg_free p)) (<[m := mk_msg t l (loaded d l (mgmt x))]> (store p))), x.
  assert (Hperm : concat (<[Z.to_nat t := fq]> (ap_msg_free p)) ++ concat (<[i := q ++ [m]]> qs) ≡ₚ messages p qs)
    by (apply (move_perm _ _ _ _ (m :: fq) q); [done | done | solve_Permutation]).
  split_and!; try done.
  - unfold msg_at. rewrite Hx. cbn [of_option cbind]. destruct Hfit as [Hl Hd], d as [d |]; [| done].
    rewrite (blit_loaded d l (mgmt x) (cap t)) by (done || lia). done.
  - split; cbn.
    + rewrite length_insert. apply Hp.
    + rewrite Hperm. apply Hp.
    + intros t' fq' m' Hf' Hm'. assert (m' <> m) by (intros ->; apply Hmf; eapply (in_free (mk_pool _ (store p))); [exact Hf' | done]).
      rewrite lookup_insert_ne by done. apply list_lookup_insert_Some in Hf' as [(<- & <- & _) | [_ Hf']].
      * apply (pk_free _ _ Hp _ _ m' Hf). by constructor.
      * by apply (pk_free _ _ Hp t' fq').
    + intros m' Hm'. destruct (decide (m' = m)) as [-> | Hne].
      * rewrite lookup_insert_eq. eexists. split; [done |]. split; [done |]. cbn. by apply (length_loaded t).
      * rewrite lookup_insert_ne by done. apply (pk_load _ _ Hp). destruct (in_insert _ _ _ _ _ Hq Hm') as [H | H]; [| done].
        apply elem_of_app in H as [H | H%list_elem_of_singleton]; [| done].
        destruct (concat_insert _ _ _ q Hq) as (a & b & -> & _). set_solver.
  - by exists fq.
Qed.

Lemma without_notin m l : m ∉ l -> without m l = l.
Proof.
  induction l as [| x l IH]; [done |]. intros Hm. apply not_elem_of_cons in Hm as [Hx Hl]. cbn.
  destruct (Z.eqb_spec x m); [done |]. cbn. f_equal. by apply IH.
Qed.

Lemma without_hd m l : m ∉ l -> without m (m :: l) = l.
Proof. intros Hm. cbn. rewrite Z.eqb_refl. cbn. by apply without_notin. Qed.

Lemma without_perm m l : NoDup l -> m ∈ l -> l ≡ₚ m :: without m l.
Proof.
  induction 1 as [| x l Hx _ IH]; [by intros ?%elem_of_nil |]. intros [-> | Hm]%elem_of_cons; [by rewrite without_hd |].
  cbn. destruct (Z.eqb_spec x m) as [-> |]; [done |]. cbn. rewrite (IH Hm) at 1. constructor.
Qed.

Lemma que_nodup p qs i q : pool_ok p qs -> qs !! i = Some q -> NoDup q.
Proof.
  intros Hp Hq. pose proof (pk_nodup _ _ Hp) as Hn. apply NoDup_app in Hn as (_ & _ & Hn).
  destruct (concat_insert _ _ _ q Hq) as (a & b & E & _). rewrite E in Hn. apply NoDup_app in Hn as (_ & _ & Hn). by apply NoDup_app in Hn as (Hn & _).
Qed.

Lemma in_que (qs : list (list Z)) i q m : qs !! i = Some q -> m ∈ q -> m ∈ concat qs.
Proof. intros Hq Hm. destruct (concat_insert _ _ _ q Hq) as (a & b & -> & _). set_solver. Qed.

Lemma free_ok p qs i q m : pool_ok p qs -> qs !! i = Some q -> m ∈ q ->
  exists p', wf_ap_msg_free p q m = Ret (0, p', without m q) /\ pool_ok p' (<[i := without m q]> qs) /\
    messages p' (<[i := without m q]> qs) ≡ₚ messages p qs /\ store p' = store p.
Proof.
  intros Hp Hq Hm. pose proof (que_nodup _ _ _ _ Hp Hq) as Hnd.
  destruct (pk_load _ _ Hp m (in_que _ _ _ _ Hq Hm)) as (x & Hx & Ht & Hcap).
  destruct (free_lookup p qs (tag x) Hp Ht) as [fq Hf].
  exists (mk_pool (<[Z.to_nat (tag x) := m :: fq]> (ap_msg_free p)) (store p)).
  assert (Hperm : concat (<[Z.to_nat (tag x) := m :: fq]> (ap_msg_free p)) ++ concat (<[i := without m q]> qs) ≡ₚ messages p qs).
  { apply (move_perm _ _ _ _ fq q); [done | done |]. rewrite (without_perm m q Hnd Hm) at 2. solve_Permutation. }
  split_and!; try done.
  - unfold wf_ap_msg_free. destruct q as [| y q]; [by apply elem_of_nil in Hm |]. rewrite bool_decide_eq_true_2 by done.
    unfold msg_at. rewrite Hx. cbn [of_option cbind]. unfold free_que. by rewrite Hf.
  - split; cbn.
    + rewrite length_insert. apply Hp.
    + rewrite Hperm. apply Hp.
    + intros t' fq' m' Hf' Hm'. apply list_lookup_insert_Some in Hf' as [(<- & <- & _) | [_ Hf']].
      * rewrite Z2Nat.id by lia. apply elem_of_cons in Hm' as [-> | Hm']; [by exists x |].
        rewrite <- (Z2Nat.id (tag x)) by lia. by apply (pk_free _ _ Hp _ fq).
      * by apply (pk_free _ _ Hp t' fq').
    + intros m' Hm'. apply (pk_load _ _ Hp). destruct (in_insert _ _ _ _ _ Hq Hm') as [H | H]; [| done].
      apply list_elem_of_In, filter_In in H as [H _]. by apply (in_que _ _ _ _ Hq), list_elem_of_In.
Qed.

Lemma clearup_ok q : forall p qs i, pool_ok p qs -> qs !! i = Some q ->
  exists p', ap_msg_que_clearup (S (length q)) p q = Ret (p', []) /\ pool_ok p' (<[i := []]> qs) /\
    messages p' (<[i := []]> qs) ≡ₚ messages p qs /\ store p' = store p.
Proof.
  induction q as [| m q IH]; intros p qs i Hp Hq.
  { exists p. rewrite list_insert_id by done. done. }
  destruct (free_ok p qs i (m :: q) m Hp Hq) as (p1 & E & Hp1 & Hperm & Hst); [constructor |].
  pose proof (que_nodup _ _ _ _ Hp Hq) as Hnd. apply NoDup_cons in Hnd as [Hm _]. rewrite (without_hd m q Hm) in E, Hp1, Hperm.
  destruct (IH p1 (<[i := q]> qs) i Hp1) as (p2 & E2 & Hp2 & Hperm2 & Hst2).
  { apply list_lookup_insert_eq. by eapply lookup_lt_Some. }
  rewrite list_insert_insert_eq in Hp2, Hperm2. exists p2. split; [| split; [done | split; [by rewrite Hperm2 | congruence]]].
  cbn [length]. change (ap_msg_que_clearup (S (S (length q))) p (m :: q)) with
    (letc (_, p, que) := wf_ap_msg_free p (m :: q) m in ap_msg_que_clearup (S (length q)) p que).
  rewrite E. cbn [cbind]. exact E2.
Qed.

Definition zeros (size : Z) : wf_ap_msg_t := mk_msg 0 0 (replicate (Z.to_nat size) 0).

Lemma fill_spec size ms : forall q st, exists st', fill_que size (Some <$> ms) q st = (true, rev ms ++ q, st') /\
  (forall m, m ∈ ms -> st' !! m = Some (zeros size)) /\ (forall m, m ∉ ms -> st' !! m = st !! m).
Proof.
  induction ms as [| m ms IH]; intros q st; cbn.
  { exists st. split; [done |]. split; [by intros m ?%elem_of_nil | done]. }
  destruct (IH (m :: q) (<[m := zeros size]> st)) as (st' & E & H1 & H2). exists st'.
  split; [unfold zeros in E; rewrite E, <- app_assoc; done |]. split.
  - intros y Hy. destruct (decide (y ∈ ms)) as [H | H]; [by apply H1 |]. rewrite H2 by done.
    apply elem_of_cons in Hy as [-> | Hy]; [apply lookup_insert_eq | done].
  - intros y [Hy1 Hy2]%not_elem_of_cons. by rewrite H2, lookup_insert_ne.
Qed.

(** The first [n] pools are filled, with the messages [ms]. *)
Record partly (n : nat) (p : pool) (ms : list Z) : Prop := {
  pa_len : length (ap_msg_free p) = 6%nat;
  pa_perm : concat (ap_msg_free p) ≡ₚ ms;
  pa_free : forall t fq m, ap_msg_free p !! t = Some fq -> m ∈ fq ->
    exists x, store p !! m = Some x /\ length (mgmt x) = cap (Z.of_nat t);
  pa_rest : forall t, (n <= t < 6)%nat -> ap_msg_free p !! t = Some [];
}.

Lemma init_step n p ms new rest deep size err params : partly n p ms -> (n < 6)%nat -> (forall m, m ∈ new -> m ∉ ms) ->
  length new = Z.to_nat deep -> Z.to_nat size = cap (Z.of_nat n) ->
  exists p', init_ques n ((deep, size, err) :: params) (Some <$> (new ++ rest)) p = init_ques (S n) params (Some <$> rest) p' /\
    partly (S n) p' (ms ++ new).
Proof.
  intros [Hl Hperm Hfree Hrest] Hn Hnew Hlen Hsize. cbn [init_ques]. rewrite fmap_app, take_app_length', drop_app_length' by (by rewrite length_fmap).
  destruct (fill_spec size new [] (store p)) as (st & -> & H1 & H2). cbn iota zeta. rewrite app_nil_r.
  eexists. split; [done |]. pose proof (Hrest n ltac:(lia)) as Hq. split; cbn.
  - by rewrite length_insert.
  - destruct (concat_insert _ _ _ (rev new) Hq) as (a & b & E & ->). rewrite <- Hperm, E. rewrite <- (Permutation_rev new). solve_Permutation.
  - intros t fq m Ht Hm. apply list_lookup_insert_Some in Ht as [(<- & <- & _) | [Hne Ht]].
    + apply list_elem_of_In, in_rev, list_elem_of_In in Hm. rewrite H1 by done. eexists. split; [done |].
      unfold zeros. cbn [mgmt]. by rewrite length_replicate.
    + rewrite H2; [by apply (Hfree t fq) |]. intros Hin. apply (Hnew m Hin). rewrite <- Hperm. by eapply in_free.
  - intros t Ht. rewrite list_lookup_insert_ne by lia. apply Hrest. lia.
Qed.

Lemma pool_init ms : NoDup ms -> length ms = 46%nat ->
  exists p, ap_msg_que_init (Some <$> ms) = (0, p) /\ pool_ok p [] /\ messages p [] ≡ₚ ms.
Proof.
  intros Hnd Hlen. unfold ap_msg_que_init, que_params.
  assert (H0 : partly 0 wf_ap_init []).
  { split; [done | done | |]; cbn.
    - intros t fq m Ht. do 6 (destruct t as [| t]; [injection Ht as <-; by intros ?%elem_of_nil |]). by destruct t.
    - intros t Ht. do 6 (destruct t as [| t]; [done |]). lia. }
  assert (Hsplit : forall n (l : list Z), (n <= length l)%nat -> exists a b, l = a ++ b /\ length a = n /\ length b = (length l - n)%nat)
    by (intros n l Hn; exists (take n l), (drop n l); by rewrite take_drop, length_take, length_drop; split_and!; try lia).
  destruct (Hsplit 15%nat ms) as (a & r1 & -> & La & L1); [lia |]. rewrite length_app in Hlen.
  destruct (Hsplit 5%nat r1) as (b & r2 & -> & Lb & L2); [lia |]. rewrite length_app in *.
  destruct (Hsplit 5%nat r2) as (c & r3 & -> & Lc & L3); [lia |]. rewrite length_app in *.
  destruct (Hsplit 5%nat r3) as (d & e & -> & Ld & L4); [lia |]. rewrite length_app in *.
  assert (Le : length e = 16%nat) by (repeat rewrite length_app in *; lia).
  assert (Hdis : forall x y z : list Z, NoDup (x ++ y ++ z) -> forall m, m ∈ y -> m ∉ x).
  { intros x y z H m Hy Hx. apply NoDup_app in H as (_ & H & _). apply (H m Hx). set_solver. }
  destruct (init_step 0 _ [] a (b ++ c ++ d ++ e) (WDN_NUM_MAX * 3) 180 (-1) (tail que_params) H0) as (p1 & E1 & H1);
    [lia | by intros m _ ?%elem_of_nil | by rewrite La | done |].
  destruct (init_step 1 p1 ([] ++ a) b (c ++ d ++ e) WDN_NUM_MAX 26 (-1) (tail (tail que_params)) H1) as (p2 & E2 & H2);
    [lia | by apply (Hdis a b (c ++ d ++ e)) | by rewrite Lb | done |].
  destruct (init_step 2 p2 (([] ++ a) ++ b) c (d ++ e) WDN_NUM_MAX 796 (-2) (tail (tail (tail que_params))) H2) as (p3 & E3 & H3);
    [lia | apply (Hdis _ c (d ++ e)); by rewrite <- app_assoc | by rewrite Lc | done |].
  destruct (init_step 3 p3 ((([] ++ a) ++ b) ++ c) d e WDN_NUM_MAX 26 (-1) (tail (tail (tail (tail que_params)))) H3) as (p4 & E4 & H4);
    [lia | apply (Hdis _ d e); by rewrite <- !app_assoc | by rewrite Ld | done |].
  destruct (init_step 4 p4 (((([] ++ a) ++ b) ++ c) ++ d) e [] TID_NUM 0 (-1) [] H4) as (p5 & E5 & [N5 H5 H6 _]);
    [lia | apply (Hdis _ e []); by rewrite app_nil_r, <- !app_assoc | by rewrite Le | done |].
  unfold que_params in *. cbn [tail] in *. rewrite app_nil_r in E5. exists p5. split; [by rewrite E1, E2, E3, E4, E5 |].
  assert (Hp : concat (ap_msg_free p5) ≡ₚ a ++ b ++ c ++ d ++ e) by (by rewrite H5, <- !app_assoc).
  split; [| unfold messages; cbn; by rewrite app_nil_r]. split.
  - done.
  - cbn. by rewrite app_nil_r, Hp.
  - exact H6.
  - cbn. by intros m ?%elem_of_nil.
Qed.

(** ** The pools in use

    The receive path loads messages into the queues of the nodes, their threads
    give them back; nodes come and go.  A node is removed with whatever is in its
    queue, and a new node's queue is empty, so that these messages are in no queue
    any more: they are [lost].  [clearup] of [ap.c] clears the queue before it
    removes the node, [del_station] of [wf_cfg80211.c] loads a message into it. *)
Inductive reach (ms : list Z) : list Z -> pool -> list (list Z) -> Prop :=
  | reach_init p : NoDup ms -> length ms = 46%nat -> ap_msg_que_init (Some <$> ms) = (0, p) -> reach ms [] p []
  | reach_load lost p qs i q t d l r p' q' :
      reach ms lost p qs -> qs !! i = Some q -> 0 <= t < 6 -> fits t d l ->
      wf_ap_msg_load p q t d l = Ret (r, p', q') -> reach ms lost p' (<[i := q']> qs)
  | reach_free lost p qs i q m r p' q' :
      reach ms lost p qs -> qs !! i = Some q -> m ∈ q -> wf_ap_msg_free p q m = Ret (r, p', q') -> reach ms lost p' (<[i := q']> qs)
  | reach_clearup lost p qs i q p' q' :
      reach ms lost p qs -> qs !! i = Some q -> ap_msg_que_clearup (S (length q)) p q = Ret (p', q') -> reach ms lost p' (<[i := q']> qs)
  | reach_new lost p qs : reach ms lost p qs -> reach ms lost p (qs ++ [[]])
  | reach_remove lost p qs q qs' : reach ms lost p (qs ++ q :: qs') -> reach ms (q ++ lost) p (qs ++ qs').

Lemma pool_ok_concat p qs qs' : concat qs = concat qs' -> pool_ok p qs -> pool_ok p qs'.
Proof. intros E [H1 H2 H3 H4]. split; [done | by rewrite <- E | done | by rewrite <- E]. Qed.

(** What is left of the pools without a queue. *)
Lemma pool_ok_removed p qs q qs' : pool_ok p (qs ++ q :: qs') -> pool_ok p (qs ++ qs').
Proof.
  intros [H1 H2 H3 H4]. rewrite concat_app in H2, H4. cbn [concat] in H2, H4. split; rewrite ?concat_app; [done | | done |].
  - rewrite (Permutation_app_comm q), (app_assoc (concat qs)), app_assoc in H2. by apply NoDup_app in H2 as [H2 _].
  - intros m Hm. apply H4. set_solver.
Qed.

Lemma pool_reach ms lost p qs : reach ms lost p qs -> NoDup ms /\ pool_ok p qs /\ messages p qs ++ lost ≡ₚ ms.
Proof.
  induction 1 as [p Hnd Hlen E | lost p qs i q t d l r p' q' _ (Hd & Hp & Hm) Hq Ht Hf E | lost p qs i q m r p' q' _ (Hd & Hp & Hm) Hq Hin E
    | lost p qs i q p' q' _ (Hd & Hp & Hm) Hq E | lost p qs _ (Hd & Hp & Hm) | lost p qs q qs' _ (Hd & Hp & Hm)]; (split; [done |]).
  - destruct (pool_init ms Hnd Hlen) as (p' & E' & Hp & Hm). rewrite E' in E. injection E as <-. by rewrite app_nil_r.
  - destruct (load_ok p qs i q t d l Hp Hq Ht Hf) as [[_ E'] | (m & p1 & x & E' & _ & Hp1 & Hm1 & _)]; rewrite E' in E; injection E as <- <- <-.
    + by rewrite list_insert_id.
    + split; [done | by rewrite Hm1].
  - destruct (free_ok p qs i q m Hp Hq Hin) as (p1 & E' & Hp1 & Hm1 & _). rewrite E' in E. injection E as <- <- <-. split; [done | by rewrite Hm1].
  - destruct (clearup_ok q p qs i Hp Hq) as (p1 & E' & Hp1 & Hm1 & _). rewrite E' in E. injection E as <- <-. split; [done | by rewrite Hm1].
  - assert (E : concat qs = concat (qs ++ [[]])) by (rewrite concat_app; cbn; by rewrite app_nil_r).
    split; [by apply (pool_ok_concat p qs) | unfold messages; by rewrite <- E].
  - split; [by eapply pool_ok_removed |]. rewrite <- Hm. unfold messages. rewrite !concat_app. cbn [concat]. solve_Permutation.
Qed.

(** C23: The messages of the access point are conserved.  In every state reached
    by loading, freeing and clearing up, with nodes coming and going, each of the
    46 messages allocated is in exactly one place: in one of the six pools, in the
    queue of one node, or among those lost because a node was removed with them in
    its queue.  Loading a frame that fits never fails but for an empty pool; it then
    appends one message with the tag, the length and the bytes given.  Every message
    of a node's queue can be freed, which puts it back into the pool it was
    allocated for, so that the next frame of that kind fits again; and clearing up
    a queue empties it. *)
Theorem ap_msg_conserved ms lost p qs i q :
  reach ms lost p qs -> qs !! i = Some q ->
  NoDup (messages p qs ++ lost) /\ messages p qs ++ lost ≡ₚ ms /\
  (forall t d l, 0 <= t < 6 -> fits t d l ->
     (ap_msg_free p !! Z.to_nat t = Some [] /\ wf_ap_msg_load p q t d l = Ret (-1, p, q)) \/
     exists m p' x, wf_ap_msg_load p q t d l = Ret (0, p', q ++ [m]) /\ (m ∉ concat qs) /\ store p !! m = Some x /\
       store p' !! m = Some (mk_msg t l (loaded d l (mgmt x)))) /\
  (forall m, m ∈ q -> exists x p' fq, store p !! m = Some x /\ wf_ap_msg_free p q m = Ret (0, p', without m q) /\
     ap_msg_free p' !! Z.to_nat (tag x) = Some (m :: fq) /\ length (mgmt x) = cap (tag x)) /\
  exists p', ap_msg_que_clearup (S (length q)) p q = Ret (p', []).
Proof.
  intros Hr Hq. destruct (pool_reach _ _ _ _ Hr) as (Hd & Hp & Hm). split; [by rewrite Hm |]. split; [done |]. split; [| split].
  - intros t d l Ht Hf. destruct (load_ok p qs i q t d l Hp Hq Ht Hf) as [H | (m & p1 & x & E & Hx & _ & _ & Hn & Hst & _)]; [by left |].
    right. exists m, p1, x. split_and!; try done. by rewrite Hst, lookup_insert_eq.
  - intros m Hin. destruct (pk_load _ _ Hp m (in_que _ _ _ _ Hq Hin)) as (x & Hx & Ht & Hcap).
    destruct (free_lookup p qs (tag x) Hp Ht) as [fq Hf]. eexists x, _, fq. split; [done |]. unfold wf_ap_msg_free.
    destruct q as [| y q]; [by apply elem_of_nil in Hin |]. rewrite bool_decide_eq_true_2 by done. unfold msg_at, free_que.
    rewrite Hx. cbn [of_option cbind]. rewrite Hf. cbn [of_option cbind]. split; [done |]. split; [| done]. cbn.
    apply list_lookup_insert_eq. rewrite (pk_len _ _ Hp). lia.
  - destruct (clearup_ok q p qs i Hp Hq) as (p' & E & _). by exists p'.
Qed.

(** An access point with one station, whose first frame has arrived. *)
Definition ex_ms : list Z := seqZ 1 46.
Definition ex_pool : pool := snd (ap_msg_que_init (Some <$> ex_ms)).
Definition ex_loaded : pool * list Z :=
  match wf_ap_msg_load ex_pool [] WF_AP_MSG_TAG_AUTH_FRAME (Some (replicate 30 7)) 30 with
  | Ret (_, p, q) => (p, q)
  | _ => (ex_pool, [])
  end.

Lemma ex_reach : reach ex_ms [] (fst ex_loaded) [snd ex_loaded].
Proof.
  eapply (reach_load ex_ms [] ex_pool [[]] 0 [] WF_AP_MSG_TAG_AUTH_FRAME (Some (replicate 30 7)) 30); [| done | done | | by vm_compute].
  - apply (reach_new ex_ms [] ex_pool []). apply reach_init; [apply NoDup_seqZ | done | by vm_compute].
  - split; [lia |]. vm_compute. by split.
Qed.

(** The same, with another node that was removed with a message in its queue. *)
Definition ex_lost : pool * list Z :=
  match wf_ap_msg_load (fst ex_loaded) [] WF_AP_MSG_TAG_DEAUTH_FRAME None 0 with
  | Ret (_, p, q) => (p, q)
  | _ => (ex_pool, [])
  end.

Lemma ex_lost_reach : reach ex_ms [20] (fst ex_lost) [snd ex_loaded].
Proof.
  apply (reach_remove ex_ms [] (fst ex_lost) [snd ex_loaded] [20] []).
  eapply (reach_load ex_ms [] (fst ex_loaded) [snd ex_loaded; []] 1 [] WF_AP_MSG_TAG_DEAUTH_FRAME None 0); [| done | done | done | by vm_compute].
  apply (reach_new ex_ms [] (fst ex_loaded) [snd ex_loaded]). apply ex_reach.
Qed.

Lemma ap_msg_conserved_witness :
  snd ex_loaded = [15] /\ messages (fst ex_lost) [[15]] ++ [20] ≡ₚ ex_ms /\ exists p', ap_msg_que_clearup 2 (fst ex_lost) [15] = Ret (p', []).
Proof.
  destruct (ap_msg_conserved ex_ms [20] (fst ex_lost) [snd ex_loaded] 0 (snd ex_loaded) ex_lost_reach eq_refl) as (_ & H1 & _ & _ & H2).
  split; [by vm_compute |]. split; [exact H1 | exact H2].
Defined.

End ApMsg.
