(* ===== verification/AuthAp.v ===== *)
(** * Authentication at the access point ([nic/auth.c])

    The protothread that authenticates a station on the access point's side, on
    the messages of [ApMsg]; what is received for it; and the exchange of the
    shared-key frames between this thread and the one of [Auth]. *)
From S2P Require Import Prelude Cipher Arc4 SecTypes Crc32 Wep WdnTypes Ies Timer Io Mgmt Msg Request Auth ApMsg.

Module AuthAp.
Import Io Crc32 Auth.

(** The node of a station: the part of [Wi.wdn_net_info_st], the fields only the
    access point uses ([wdn.h], lines 172-183), the pools of the network and the
    tables of the CRC code. *)
Module An.
Record ap_node : Type := mk {
  node : Wi.wdn_net_info_st;
  state : Z;
  ap_msg : list Z;
  ap_timer : Timer.wf_timer_t;
  rx_idle_timeout : Z;
  rx_pkt_stat : Z;
  rx_pkt_stat_last : Z;
  net : ApMsg.pool;
  crc : crc_globals;
}.

Definition set_node (v : Wi.wdn_net_info_st) (r : ap_node) : ap_node :=
  mk v (state r) (ap_msg r) (ap_timer r) (rx_idle_timeout r) (rx_pkt_stat r) (rx_pkt_stat_last r) (net r) (crc r).
Definition set_state (v : Z) (r : ap_node) : ap_node :=
  mk (node r) v (ap_msg r) (ap_timer r) (rx_idle_timeout r) (rx_pkt_stat r) (rx_pkt_stat_last r) (net r) (crc r).
Definition set_ap_msg (v : list Z) (r : ap_node) : ap_node :=
  mk (node r) (state r) v (ap_timer r) (rx_idle_timeout r) (rx_pkt_stat r) (rx_pkt_stat_last r) (net r) (crc r).
Definition set_ap_timer (v : Timer.wf_timer_t) (r : ap_node) : ap_node :=
  mk (node r) (state r) (ap_msg r) v (rx_idle_timeout r) (rx_pkt_stat r) (rx_pkt_stat_last r) (net r) (crc r).
Definition set_rx_idle_timeout (v : Z) (r : ap_node) : ap_node :=
  mk (node r) (state r) (ap_msg r) (ap_timer r) v (rx_pkt_stat r) (rx_pkt_stat_last r) (net r) (crc r).
Definition set_rx_pkt_stat (v : Z) (r : ap_node) : ap_node :=
  mk (node r) (state r) (ap_msg r) (ap_timer r) (rx_idle_timeout r) v (rx_pkt_stat_last r) (net r) (crc r).
Definition set_rx_pkt_stat_last (v : Z) (r : ap_node) : ap_node :=
  mk (node r) (state r) (ap_msg r) (ap_timer r) (rx_idle_timeout r) (rx_pkt_stat r) v (net r) (crc r).
Definition set_net (v : ApMsg.pool) (r : ap_node) : ap_node :=
  mk (node r) (state r) (ap_msg r) (ap_timer r) (rx_idle_timeout r) (rx_pkt_stat r) (rx_pkt_stat_last r) v (crc r).
Definition set_crc (v : crc_globals) (r : ap_node) : ap_node :=
  mk (node r) (state r) (ap_msg r) (ap_timer r) (rx_idle_timeout r) (rx_pkt_stat r) (rx_pkt_stat_last r) (net r) v.
End An.
Import An.

Definition dot11AuthAlgrthm_Auto : Z := 3.
Definition WF_80211_STATUS_UNKNOWN_AUTH_TRANSACTION : Z := 14.
Definition WF_80211_STATUS_CHALLENGE_FAIL : Z := 15.
Definition WF_80211_STATUS_AUTH_TIMEOUT : Z := 16.
Definition WF_80211_REASON_DEAUTH_LEAVING : Z := 3.
Definition E_WDN_AP_STATE_AUTH : Z := 0.
Definition AP_TIMEOUT : Z := 5 * 1000.
Definition WLANHDR_OFFSET : Z := 64.
Definition WIFI_DEAUTH : Z := 0xC0.

Inductive label : Type := PBegin | PWait1 | PSend2 | PWait2 | PWait3 | PSend4 | PWait4.

(** The one local variable that matters across blocks, [PT_YIELD_FLAG]: false
    once the call has come to a [PT_YIELD_UNTIL]. *)
Definition step : Type := next label * bool * ap_node.

Section Thread.
Context {SC : StreamCipher} (cfg : config) (cur_bssid : list Z).

Definition msg_free (m : Z) (s : ap_node) : C ap_node :=
  letc (_, p, q) := ApMsg.wf_ap_msg_free (net s) (ap_msg s) m in
  Ret (set_net p (set_ap_msg q s)).

Definition msg_of (m : Z) (s : ap_node) : C ApMsg.wf_ap_msg_t := ApMsg.msg_at (net s) m.

(** [wf_deauth_xmit_frame] to the station of the node. *)
Definition wf_deauth_xmit_frame (reason_code : Z) (s : ap_node) : io ev Z :=
  let! found := call FindWdn in
  if negb (nz found) then iret (-1)
  else
    let! b := call ExtbufNew in
    if negb (nz b) then iret (-1)
    else
      let! buf := lift (Mgmt.write_hdr (pbuf cfg) WLANHDR_OFFSET WIFI_DEAUTH (Wi.mac (node s)) (local_addr cfg) cur_bssid) in
      let! buf := lift (blit buf 24 (le_bytes 2 reason_code)) in
      let! frame := lift (slice buf 0 26) in
      do! call (MgmtXmit frame) in
      iret 0.

(** [auth_send] with the sequence number [seq]; the callers ignore its result. *)
Definition send_seq (seq status : Z) (s : ap_node) : io ev ap_node :=
  let s := set_node (Wi.set_auth_seq seq (node s)) s in
  let! (_, w, g) := auth_send cfg (node s) (crc s) status in
  iret (set_crc g (set_node w s)).

Definition status_error (pmsg : option Z) (status_code : Z) (s : ap_node) : io ev ap_node :=
  let! s := lift (match pmsg with Some m => msg_free m s | None => Ret s end) in
  send_seq WF_80211_AUTH_SEQ_2 status_code s.

(** [generate_challenge_text]: the index is incremented twice per round. *)
Fixpoint generate_challenge_text (fuel : nat) (i : Z) (txt : list Z) : io ev (list Z) :=
  match fuel with
  | O => ifault
  | S fuel =>
      if i <? WF_80211_AUTH_CHALLENGE_LEN / 4 then
        let! r := call Rand32 in
        let! txt := lift (blit txt (4 * i) (le_bytes 4 (u32 r))) in
        generate_challenge_text fuel (u8 (u8 (i + 1) + 1)) txt
      else iret txt
  end.

Definition set_ap_time (s : ap_node) : io ev ap_node :=
  let! now := call Clock in
  iret (set_ap_timer (Timer.wf_timer_set (msecs_to_timestamp cfg) now AP_TIMEOUT (ap_timer s)) s).

Definition exited (s : ap_node) : step := (Return PT_EXITED PBegin, true, s).

Definition fail (pmsg : option Z) (status : Z) (s : ap_node) : io ev step :=
  let! s := status_error pmsg status s in
  iret (exited s).

(** Which algorithm the access point wants. *)
Definition wanted_algo (frame_algo : Z) : Z :=
  let a := dot11AuthAlgrthm (sec_info cfg) in
  let p := dot11PrivacyAlgrthm (sec_info cfg) in
  if (a =? dot11AuthAlgrthm_Auto) && ((p =? _WEP40_) || (p =? _WEP104_)) then frame_algo
  else if a =? dot11AuthAlgrthm_8021X then dot11AuthAlgrthm_Open else a.

Definition at_wait1 (l : bool) (s : ap_node) : io ev step :=
  match ApMsg.wf_ap_msg_get (ap_msg s) with
  | None => iret (Return PT_WAITING PWait1, l, s)
  | Some m =>
      let! x := lift (msg_of m s) in
      if negb (ApMsg.tag x =? ApMsg.WF_AP_MSG_TAG_AUTH_FRAME) then
        let! s := lift (msg_free m s) in
        do! wf_deauth_xmit_frame WF_80211_REASON_DEAUTH_LEAVING s in
        iret (exited s)
      else
        let s := set_state E_WDN_AP_STATE_AUTH s in
        let! frame_seq := lift (Mgmt.get16 (ApMsg.mgmt x) 26) in
        let! frame_algo := lift (Mgmt.get16 (ApMsg.mgmt x) 24) in
        if negb (frame_seq =? WF_80211_AUTH_SEQ_1) then fail (Some m) WF_80211_STATUS_UNKNOWN_AUTH_TRANSACTION s
        else
          let s := set_node (Wi.set_auth_algo (wanted_algo frame_algo) (node s)) s in
          if (dot11AuthAlgrthm_Shared <? frame_algo) || negb (frame_algo =? Wi.auth_algo (node s)) then
            fail (Some m) WF_80211_STATUS_NOT_SUPPORTED_AUTH_ALG s
          else
            let! s := lift (msg_free m s) in
            if Wi.auth_algo (node s) =? dot11AuthAlgrthm_Open then
              let! s := set_ap_time s in
              iret (Goto PSend2, l, s)
            else
              let! txt := generate_challenge_text 17 0 (Wi.chlg_txt (node s)) in
              let s := set_node (Wi.set_chlg_txt txt (node s)) s in
              let! s := send_seq WF_80211_AUTH_SEQ_2 WF_80211_STATUS_SUCCESS s in
              let! s := set_ap_time s in
              iret (Goto PWait3, false, s)
  end.

(** [PT_YIELD_UNTIL] for a message or the timer, and the branch of the timeout. *)
Definition yield_until (here : label) (on_msg : Z -> io ev step) (l : bool) (s : ap_node) : io ev step :=
  if negb l then iret (Return PT_YIELDED here, l, s)
  else
    match ApMsg.wf_ap_msg_get (ap_msg s) with
    | None =>
        let! now := call Clock in
        if Timer.wf_timer_expired now (ap_timer s) then fail None WF_80211_STATUS_AUTH_TIMEOUT s
        else iret (Return PT_YIELDED here, l, s)
    | Some m => on_msg m
    end.

(** A wait that sends again for every authentication frame. *)
Definition at_resend (here send : label) (l : bool) (s : ap_node) : io ev step :=
  yield_until here (fun m =>
    let! x := lift (msg_of m s) in
    if ApMsg.tag x =? ApMsg.WF_AP_MSG_TAG_AUTH_FRAME then
      let! s := lift (msg_free m s) in
      iret (Goto send, l, s)
    else iret (Return PT_ENDED PBegin, l, s)) l s.

(** The checks on the third frame: the status to refuse it with, or [None]; the
    frame is decrypted in its message. *)
Definition check3 (g : crc_globals) (w : Wi.wdn_net_info_st) (x : ApMsg.wf_ap_msg_t) : C (option Z * crc_globals * list Z) :=
  letc fc := Mgmt.frame_control (ApMsg.mgmt x) in
  if negb (Mgmt.wf_80211_get_protected fc) then Ret (Some WF_80211_STATUS_CHALLENGE_FAIL, g, ApMsg.mgmt x)
  else
    letc (r, g, buf) := Wep.wf_wep_decrypt_auth g (sec_info cfg) (ApMsg.mgmt x) (ApMsg.len x) in
    if nz r then Ret (Some WF_80211_STATUS_CHALLENGE_FAIL, g, buf)
    else
      letc frame_seq := Mgmt.get16 buf 30 in
      if negb (frame_seq =? WF_80211_AUTH_SEQ_3) then Ret (Some WF_80211_STATUS_UNKNOWN_AUTH_TRANSACTION, g, buf)
      else
        letc frame_algo := Mgmt.get16 buf 28 in
        if negb (frame_algo =? Wi.auth_algo w) then Ret (Some WF_80211_STATUS_NOT_SUPPORTED_AUTH_ALG, g, buf)
        else
          letc data := slice buf 36 WF_80211_AUTH_CHALLENGE_LEN in
          letc txt := slice (Wi.chlg_txt w) 0 WF_80211_AUTH_CHALLENGE_LEN in
          Ret (if bytes_eqb txt data then None else Some WF_80211_STATUS_CHALLENGE_FAIL, g, buf).

Definition on_seq3 (l : bool) (s : ap_node) (m : Z) : io ev step :=
  let! x := lift (msg_of m s) in
  if negb (ApMsg.tag x =? ApMsg.WF_AP_MSG_TAG_AUTH_FRAME) then fail (Some m) WF_80211_STATUS_AUTH_TIMEOUT s
  else
    let! (r, g, buf) := lift (check3 (crc s) (node s) x) in
    let p := ApMsg.mk_pool (ApMsg.ap_msg_free (net s)) (<[m := ApMsg.mk_msg (ApMsg.tag x) (ApMsg.len x) buf]> (ApMsg.store (net s))) in
    let s := set_net p (set_crc g s) in
    match r with
    | Some status => fail (Some m) status s
    | None =>
        let! s := set_ap_time s in
        iret (Goto PSend4, l, s)
    end.

Definition block (b : label) (l : bool) (s : ap_node) : io ev step :=
  match b with
  | PBegin => iret (Goto PWait1, l, s)
  | PWait1 => at_wait1 l s
  | PSend2 =>
      let! s := send_seq WF_80211_AUTH_SEQ_2 WF_80211_STATUS_SUCCESS s in
      iret (Goto PWait2, false, s)
  | PWait2 => at_resend PWait2 PSend2 l s
  | PWait3 => yield_until PWait3 (on_seq3 l s) l s
  | PSend4 =>
      let! s := send_seq WF_80211_AUTH_SEQ_4 WF_80211_STATUS_SUCCESS s in
      iret (Goto PWait4, false, s)
  | PWait4 => at_resend PWait4 PSend4 l s
  end.

Definition wf_auth_ap_thrd (fuel : nat) (b : label) (s : ap_node) : io ev (pt_ret * label * unit * ap_node) :=
  blocks block (fun _ => tt) fuel b true s.

(** ** What is received *)

Definition WF_80211_MGMT_AUTH_SIZE_MAX : Z := 180.
Definition WF_80211_MGMT_DEAUTH_SIZE_MAX : Z := 26.
Definition WF_MASTER_MODE : Z := 3.

(** A message for the thread of the node. *)
Definition load (t : Z) (frame : list Z) (s : ap_node) : C (Z * ap_node) :=
  letc (r, p, q) := ApMsg.wf_ap_msg_load (net s) (ap_msg s) t (Some frame) (Z.of_nat (length frame)) in
  Ret (r, set_net p (set_ap_msg q s)).

(** [wdn_info_update]; the thread also starts at its beginning. *)
Definition wdn_info_update (s : ap_node) : ap_node :=
  let w := Wi.set_aid (u16 (Wi.wdn_id (node s) + 1)) (node s) in
  let w := Wi.set_bssid (local_addr cfg) w in
  let s := set_rx_pkt_stat 0 (set_ap_msg [] s) in
  set_node (Wi.set_ieee8021x_blocked 1 (Wi.set_mode WF_MASTER_MODE w)) s.

(** [auth_ap_recv]: the frame of a station whose node [s] exists ([known]), or
    whose node is the one [wf_wdn_add] answers with, if any. *)
Definition auth_ap_recv (known : bool) (added : option ap_node) (frame : list Z) (s : ap_node) : C (Z * ap_node) :=
  if WF_80211_MGMT_AUTH_SIZE_MAX <? Z.of_nat (length frame) then Ret (-1, s)
  else
    letc fc := Mgmt.frame_control frame in
    if negb (Mgmt.wf_80211_get_frame_type fc =? Mgmt.WF_80211_FRM_AUTH) then Ret (-2, s)
    else
      let deliver s :=
        letc (r, s) := load ApMsg.WF_AP_MSG_TAG_AUTH_FRAME frame s in
        Ret (if nz r then -5 else 0, s) in
      if known then if negb (Wi.mode (node s) =? WF_MASTER_MODE) then Ret (-4, s) else deliver s
      else match added with None => Ret (-3, s) | Some s => deliver (wdn_info_update s) end.

Definition deauth_work_ap (frame : list Z) (s : ap_node) : C (Z * ap_node) :=
  if negb (Wi.mode (node s) =? WF_MASTER_MODE) then Ret (-2, s)
  else if WF_80211_MGMT_DEAUTH_SIZE_MAX <? Z.of_nat (length frame) then Ret (-3, s)
  else
    letc fc := Mgmt.frame_control frame in
    if negb (Mgmt.wf_80211_get_frame_type fc =? Mgmt.WF_80211_FRM_DEAUTH) then Ret (-4, s)
    else
      letc (r, s) := load ApMsg.WF_AP_MSG_TAG_DEAUTH_FRAME frame s in
      Ret (if nz r then -5 else 0, s).
End Thread.

(** ** The third frame *)

Section Challenge.
Context {SC : StreamCipher} (cfg : config).
Hypothesis Hc : cfg_ok cfg.

Lemma key_of iv : length iv = 4%nat -> bytes_ok iv -> Wep.key_ok (sec_info cfg) iv.
Proof.
  intros Hl Hb. pose proof (cf_sec cfg Hc) as Hs. split; [done |]. split; [done |]. split; [done |].
  apply (nthZ_Forall (fun n => 0 <= n <= 13)); [apply Hc |].
  destruct Hs as (_ & -> & _). change 3 with (Z.ones 2). rewrite Z.land_ones by lia. by apply Z.mod_pos_bound.
Qed.

(** The checks on a message whose frame has [body] behind the IV. *)
Lemma check3_eq g w t pre body post : globals_ok g -> length pre = 28%nat -> bytes_ok pre -> (4 <= length body)%nat -> bytes_ok body ->
  28 + Z.of_nat (length body) < 65536 ->
  exists ctx g' fc, sc_ok ctx /\ Wep.wep_stream (sec_info cfg) (Wep.iv_at pre 24) = Ret ctx /\ globals_ok g' /\ Mgmt.frame_control pre = Ret fc /\
    let plain := (sc_crypt ctx body).2 in
    let buf := pre ++ plain ++ post in
    check3 cfg g w (ApMsg.mk_msg t (28 + Z.of_nat (length body)) (pre ++ body ++ post)) =
    if negb (Mgmt.wf_80211_get_protected fc) then Ret (Some WF_80211_STATUS_CHALLENGE_FAIL, g, pre ++ body ++ post)
    else if negb (bytes_eqb (Wep.icv_of (take (length body - 4) plain)) (drop (length body - 4) plain))
    then Ret (Some WF_80211_STATUS_CHALLENGE_FAIL, g', buf)
    else
      letc frame_seq := Mgmt.get16 buf 30 in
      if negb (frame_seq =? WF_80211_AUTH_SEQ_3) then Ret (Some WF_80211_STATUS_UNKNOWN_AUTH_TRANSACTION, g', buf)
      else
        letc frame_algo := Mgmt.get16 buf 28 in
        if negb (frame_algo =? Wi.auth_algo w) then Ret (Some WF_80211_STATUS_NOT_SUPPORTED_AUTH_ALG, g', buf)
        else
          letc data := slice buf 36 WF_80211_AUTH_CHALLENGE_LEN in
          letc txt := slice (Wi.chlg_txt w) 0 WF_80211_AUTH_CHALLENGE_LEN in
          Ret (if bytes_eqb txt data then None else Some WF_80211_STATUS_CHALLENGE_FAIL, g', buf).
Proof.
  intros Hg Hpre Hpb Hbl Hbb Hlen.
  assert (Hiv : length (Wep.iv_at pre 24) = 4%nat /\ bytes_ok (Wep.iv_at pre 24)).
  { unfold Wep.iv_at. split; [rewrite length_take, length_drop; lia | by apply Forall_take, Forall_drop]. }
  destruct (Wep.wep_stream_ret _ _ (key_of _ (proj1 Hiv) (proj2 Hiv))) as (ctx & Hctx & Hok).
  destruct (Wep.decrypt_auth_frame g (sec_info cfg) ctx Hg Hok pre body post Hpre Hbl Hbb Hlen Hctx) as (g' & Hg' & Hd).
  destruct (Mgmt.get16_Ret pre 0) as [fc Hfc]; [lia | lia |]. exists ctx, g', fc.
  split; [done |]. split; [done |]. split; [done |]. split; [done |]. cbn zeta.
  unfold check3. cbn [ApMsg.mgmt ApMsg.len]. unfold Mgmt.frame_control. rewrite Mgmt.get16_app by lia. rewrite Hfc. cbn [cbind].
  destruct (Mgmt.wf_80211_get_protected fc); cbn [negb]; [| done]. rewrite Hd. cbn [cbind].
  destruct (bytes_eqb _ _); done.
Qed.

(** What an accepted frame is the encryption of: algorithm and transaction
    number, four bytes for status and element header, and the challenge. *)
Definition response (w : Wi.wdn_net_info_st) (mid : list Z) : list Z :=
  le_bytes 2 (Wi.auth_algo w) ++ le_bytes 2 WF_80211_AUTH_SEQ_3 ++ mid ++ Wi.chlg_txt w.

Lemma length_response w mid : length (Wi.chlg_txt w) = 128%nat -> length mid = 4%nat -> length (response w mid) = 136%nat.
Proof. intros H1 H2. unfold response. rewrite !length_app, !length_le_bytes. lia. Qed.

Lemma take_le2 (l : list Z) v : bytes_ok l -> (2 <= length l)%nat -> 0 <= v < 65536 -> le_word (take 2 l) = v <-> take 2 l = le_bytes 2 v.
Proof.
  intros Hb Hl Hv. split.
  - intros <-. assert (E : length (take 2 l) = 2%nat) by (rewrite length_take; lia).
    rewrite <- E at 2. symmetry. apply le_bytes_word. by apply Forall_take.
  - intros ->. rewrite le_word_bytes. by apply Z.mod_small.
Qed.

(** The plain text as the access point reads it. *)
Lemma response_iff w plain : node_ok w -> 0 <= Wi.auth_algo w < 65536 -> bytes_ok plain -> length plain = 140%nat ->
  (Wep.icv_of (take 136 plain) = drop 136 plain /\ le_word (take 2 (drop 2 plain)) = 3 /\ le_word (take 2 plain) = Wi.auth_algo w /\
   Wi.chlg_txt w = take 128 (drop 8 plain)) <->
  exists mid, length mid = 4%nat /\ plain = response w mid ++ Wep.icv_of (response w mid).
Proof.
  intros Hw Ha Hb Hl. pose proof (nd_len w Hw) as Ht.
  rewrite (take_le2 plain) by (done || lia). rewrite (take_le2 (drop 2 plain)) by (first [by apply Forall_drop | rewrite length_drop; lia | lia]).
  split.
  - intros (H1 & H2 & H3 & H4). exists (take 4 (drop 4 plain)). split; [rewrite length_take, length_drop; lia |].
    assert (E : response w (take 4 (drop 4 plain)) = take 136 plain).
    { unfold response. change WF_80211_AUTH_SEQ_3 with 3. rewrite <- H2, <- H3, H4.
      rewrite <- (take_drop 2 (take 136 plain)), take_take, skipn_firstn_comm. f_equal. cbn [Nat.sub].
      rewrite <- (take_drop 2 (take 134 (drop 2 plain))), take_take, skipn_firstn_comm, drop_drop. f_equal. cbn [Nat.sub Nat.add].
      rewrite <- (take_drop 4 (take 132 (drop 4 plain))), take_take, skipn_firstn_comm, drop_drop. done. }
    by rewrite E, H1, take_drop.
  - intros (mid & Hm & ->). pose proof (length_response w mid Ht Hm) as Hr.
    rewrite take_app_length', drop_app_length' by (by rewrite Hr). split; [done |].
    unfold response. rewrite <- !app_assoc. split; [| split].
    + rewrite drop_app_length' by (by rewrite length_le_bytes). by rewrite take_app_length' by (by rewrite length_le_bytes).
    + by rewrite take_app_length' by (by rewrite length_le_bytes).
    + rewrite !app_assoc, <- (app_assoc _ (Wi.chlg_txt w)). rewrite drop_app_length' by (rewrite !length_app, !length_le_bytes; lia).
      by rewrite take_app_length' by (by rewrite Ht).
Qed.

Lemma slice_mid (pre plain post : list Z) i n : length pre = 28%nat -> 28 <= i -> 0 <= n -> i + n <= 28 + Z.of_nat (length plain) ->
  slice (pre ++ plain ++ post) i n = Ret (take (Z.to_nat n) (drop (Z.to_nat (i - 28)) plain)).
Proof.
  intros Hp Hi Hn Hl. rewrite slice_Ret by (rewrite ?length_app; lia).
  rewrite drop_app_ge by lia. rewrite Hp. rewrite drop_app_le by lia. rewrite take_app_le by (rewrite length_drop; lia).
  do 3 f_equal. lia.
Qed.

(** The result of the checks on every protected or unprotected frame that is long
    enough, or, protected or not, short. *)
Lemma check3_total g w x : globals_ok g -> node_ok w -> length (ApMsg.mgmt x) = 180%nat -> bytes_ok (ApMsg.mgmt x) -> ApMsg.len x <= 180 ->
  (forall fc, Mgmt.frame_control (ApMsg.mgmt x) = Ret fc -> Mgmt.wf_80211_get_protected fc = true -> 32 <= ApMsg.len x) ->
  exists r g' buf, check3 cfg g w x = Ret (r, g', buf) /\ globals_ok g' /\ length buf = 180%nat /\ bytes_ok buf /\
    Mgmt.frame_control buf = Mgmt.frame_control (ApMsg.mgmt x).
Proof.
  intros Hg Hw Hl Hb Hlen Hprot. destruct (Mgmt.get16_Ret (ApMsg.mgmt x) 0) as [fc Hfc]; [lia | lia |].
  destruct (Mgmt.wf_80211_get_protected fc) eqn:Ep.
  2: { exists (Some WF_80211_STATUS_CHALLENGE_FAIL), g, (ApMsg.mgmt x). unfold check3. unfold Mgmt.frame_control. rewrite Hfc. cbn [cbind].
       rewrite Ep. done. }
  specialize (Hprot fc Hfc Ep). destruct x as [t l buf]. cbn [ApMsg.mgmt ApMsg.len] in *.
  set (n := (Z.to_nat l - 28)%nat). set (pre := take 28 buf). set (body := take n (drop 28 buf)). set (post := drop n (drop 28 buf)).
  assert (Hpre : length pre = 28%nat) by (unfold pre; rewrite length_take; lia).
  assert (Hbody : length body = n) by (unfold body; rewrite length_take, length_drop; lia).
  assert (E : buf = pre ++ body ++ post) by (unfold pre, body, post; by rewrite !take_drop).
  assert (Hpb : bytes_ok pre /\ bytes_ok body /\ bytes_ok post)
    by (unfold pre, body, post; split_and!; by repeat first [apply Forall_take | apply Forall_drop]).
  destruct Hpb as (Hb1 & Hb2 & Hb3).
  destruct (check3_eq g w t pre body post Hg Hpre Hb1) as (ctx & g' & fc' & Hok & _ & Hg' & Hfc' & Hch); [lia | done | lia |].
  cbn zeta in Hch. rewrite <- E in Hch. replace (28 + Z.of_nat (length body)) with l in Hch by lia. rewrite Hch.
  assert (Hplain : length (sc_crypt ctx body).2 = n) by (rewrite sc_crypt_length; lia).
  set (out := pre ++ (sc_crypt ctx body).2 ++ post).
  assert (Hout : length out = 180%nat).
  { unfold out. rewrite E in Hl. rewrite !length_app in *. lia. }
  assert (Hbo : bytes_ok out) by (unfold out; rewrite !bytes_ok_app; split_and!; [done | by apply sc_crypt_bytes | done]).
  assert (Hfo : Mgmt.frame_control out = Mgmt.frame_control buf).
  { unfold out, Mgmt.frame_control. rewrite Mgmt.get16_app by lia. rewrite E, Mgmt.get16_app by lia. done. }
  assert (Hdone : forall r : option Z, exists r' g0 buf', Ret (r, g', out) = Ret (r', g0, buf') /\ globals_ok g0 /\ length buf' = 180%nat /\
            bytes_ok buf' /\ Mgmt.frame_control buf' = Mgmt.frame_control buf) by (intros r; by exists r, g', out).
  destruct (Mgmt.wf_80211_get_protected fc'); cbn [negb].
  2: { exists (Some WF_80211_STATUS_CHALLENGE_FAIL), g, buf. done. }
  destruct (bytes_eqb _ _); cbn [negb]; [| apply Hdone].
  destruct (Mgmt.get16_Ret out 30) as [v1 ->]; [lia | lia |]. cbn [cbind]. destruct (v1 =? _); cbn [negb]; [| apply Hdone].
  destruct (Mgmt.get16_Ret out 28) as [v2 ->]; [lia | lia |]. cbn [cbind]. destruct (v2 =? _); cbn [negb]; [| apply Hdone].
  rewrite slice_Ret by (rewrite ?Hout; unfold WF_80211_AUTH_CHALLENGE_LEN; lia). cbn [cbind].
  rewrite slice_Ret by (rewrite ?(nd_len w Hw); unfold WF_80211_AUTH_CHALLENGE_LEN; lia). cbn [cbind]. apply Hdone.
Qed.

(** The verdict on a third frame of full length with the plain text [plain]. *)
Definition refusal (w : Wi.wdn_net_info_st) (fc : Z) (plain : list Z) : option Z :=
  if negb (Mgmt.wf_80211_get_protected fc) then Some WF_80211_STATUS_CHALLENGE_FAIL
  else if negb (bytes_eqb (Wep.icv_of (take 136 plain)) (drop 136 plain)) then Some WF_80211_STATUS_CHALLENGE_FAIL
  else if negb (le_word (take 2 (drop 2 plain)) =? WF_80211_AUTH_SEQ_3) then Some WF_80211_STATUS_UNKNOWN_AUTH_TRANSACTION
  else if negb (le_word (take 2 plain) =? Wi.auth_algo w) then Some WF_80211_STATUS_NOT_SUPPORTED_AUTH_ALG
  else if bytes_eqb (Wi.chlg_txt w) (take 128 (drop 8 plain)) then None else Some WF_80211_STATUS_CHALLENGE_FAIL.

Lemma refusal_None w fc plain : refusal w fc plain = None <->
  Mgmt.wf_80211_get_protected fc = true /\
  (Wep.icv_of (take 136 plain) = drop 136 plain /\ le_word (take 2 (drop 2 plain)) = 3 /\ le_word (take 2 plain) = Wi.auth_algo w /\
   Wi.chlg_txt w = take 128 (drop 8 plain)).
Proof.
  unfold refusal, bytes_eqb. destruct (Mgmt.wf_80211_get_protected fc); cbn [negb]; [| split; [done | by intros [? _]]].
  case_bool_decide; cbn [negb]; [| split; [done | by intros (_ & ? & _)]].
  destruct (Z.eqb_spec (le_word (take 2 (drop 2 plain))) WF_80211_AUTH_SEQ_3); cbn [negb]; [| split; [done | by intros (_ & _ & ? & _)]].
  destruct (Z.eqb_spec (le_word (take 2 plain)) (Wi.auth_algo w)); cbn [negb]; [| split; [done | by intros (_ & _ & _ & ? & _)]].
  case_bool_decide; split; first [done | by intros (_ & _ & _ & _ & ?)].
Qed.

Lemma check3_full g w t pre body post : globals_ok g -> node_ok w ->
  length pre = 28%nat -> bytes_ok pre -> length body = 140%nat -> bytes_ok body ->
  exists ctx g' buf fc, sc_ok ctx /\ globals_ok g' /\ Mgmt.frame_control pre = Ret fc /\
    Wep.wep_stream (sec_info cfg) (Wep.iv_at pre 24) = Ret ctx /\
    check3 cfg g w (ApMsg.mk_msg t AUTH_SEQ3_LEN (pre ++ body ++ post)) = Ret (refusal w fc (sc_crypt ctx body).2, g', buf).
Proof.
  intros Hg Hw Hpre Hpb Hl Hb.
  destruct (check3_eq g w t pre body post Hg Hpre Hpb) as (ctx & g' & fc & Hok & Hst & Hg' & Hfc & Hch); [lia | done | lia |].
  cbn zeta in Hch. rewrite Hl in Hch. change (28 + Z.of_nat 140) with AUTH_SEQ3_LEN in Hch. change (140 - 4)%nat with 136%nat in Hch.
  set (plain := (sc_crypt ctx body).2) in *. assert (Hpl : length plain = 140%nat) by (unfold plain; by rewrite sc_crypt_length).
  unfold Mgmt.get16 in Hch. rewrite !slice_mid in Hch by (first [done | lia | rewrite Hpl; lia | rewrite Hpl; unfold WF_80211_AUTH_CHALLENGE_LEN; lia]).
  rewrite slice_Ret in Hch by (rewrite ?(nd_len w Hw); unfold WF_80211_AUTH_CHALLENGE_LEN; lia).
  change (Z.to_nat WF_80211_AUTH_CHALLENGE_LEN) with 128%nat in Hch. change (Z.to_nat (36 - 28)) with 8%nat in Hch.
  change (Z.to_nat (30 - 28)) with 2%nat in Hch. change (Z.to_nat (28 - 28)) with 0%nat in Hch. change (Z.to_nat 2) with 2%nat in Hch.
  change (Z.to_nat 0) with 0%nat in Hch. rewrite !drop_0 in Hch. rewrite (take_ge (Wi.chlg_txt w)) in Hch by (rewrite (nd_len w Hw); lia).
  cbn [cbind] in Hch. rewrite Hch. exists ctx.
  assert (H : exists g0 buf, globals_ok g0 /\ check3 cfg g w (ApMsg.mk_msg t AUTH_SEQ3_LEN (pre ++ body ++ post)) = Ret (refusal w fc plain, g0, buf)).
  { rewrite Hch. unfold refusal. repeat match goal with |- context [if ?b then Ret _ else _] => destruct b end; (eexists _, _; split; [| reflexivity]; done). }
  destruct H as (g0 & buf & Hg0 & E). rewrite Hch in E. by exists g0, buf, fc.
Qed.

(** The length of the third frame is not checked, and what is compared with the
    challenge are the bytes of the message's buffer, whether the frame has them or
    an earlier one left them there: a shorter frame with a valid checksum passes
    when the rest of the challenge is still in the buffer. *)
Theorem short_answer_accepted g w t pre body post fc ctx :
  globals_ok g -> length pre = 28%nat -> bytes_ok pre -> (4 <= length body)%nat -> bytes_ok body -> 28 + Z.of_nat (length body) < 65536 ->
  length (Wi.chlg_txt w) = 128%nat -> Mgmt.frame_control pre = Ret fc -> Mgmt.wf_80211_get_protected fc = true ->
  Wep.wep_stream (sec_info cfg) (Wep.iv_at pre 24) = Ret ctx ->
  let plain := (sc_crypt ctx body).2 in
  let buf := pre ++ plain ++ post in
  Wep.icv_of (take (length body - 4) plain) = drop (length body - 4) plain ->
  Mgmt.get16 buf 30 = Ret 3 -> Mgmt.get16 buf 28 = Ret (Wi.auth_algo w) -> slice buf 36 128 = Ret (Wi.chlg_txt w) ->
  exists g', check3 cfg g w (ApMsg.mk_msg t (28 + Z.of_nat (length body)) (pre ++ body ++ post)) = Ret (None, g', buf).
Proof.
  intros Hg Hpre Hpb Hl Hb Hlen Ht Hfc Hp Hst plain buf Hicv H3 Ha Hd.
  destruct (check3_eq g w t pre body post Hg Hpre Hpb Hl Hb Hlen) as (ctx' & g' & fc' & _ & Hst' & _ & Hfc' & E).
  rewrite Hst in Hst'. injection Hst' as <-. rewrite Hfc in Hfc'. injection Hfc' as <-. exists g'. cbn zeta in E. fold plain in E. fold buf in E.
  rewrite E, Hp, Hicv, bytes_eqb_refl. cbn [negb]. rewrite H3, Ha. cbn [cbind]. rewrite !Z.eqb_refl. cbn [negb].
  change WF_80211_AUTH_CHALLENGE_LEN with 128. rewrite Hd, slice_Ret by lia. cbn [cbind]. rewrite drop_0, take_ge by lia. by rewrite bytes_eqb_refl.
Qed.

(** C22: The access point accepts exactly the right answers among the third frames
    of 168 bytes, the length the frame of the exchange has; the length itself is
    not checked (see [short_answer_accepted]).  Such a frame passes the checks of
    the thread if and only if it is protected and what is behind its IV is the
    encryption, under the key the IV selects, of the algorithm, transaction number
    3, any status and element header, the challenge sent, and their checksum.  So
    whoever passes with such a frame has enciphered the challenge. *)
Theorem challenge_accepted_iff g w t pre body post :
  globals_ok g -> node_ok w -> 0 <= Wi.auth_algo w < 65536 ->
  length pre = 28%nat -> bytes_ok pre -> length body = 140%nat -> bytes_ok body ->
  exists r g' buf fc ctx,
    check3 cfg g w (ApMsg.mk_msg t AUTH_SEQ3_LEN (pre ++ body ++ post)) = Ret (r, g', buf) /\
    Mgmt.frame_control pre = Ret fc /\ Wep.wep_stream (sec_info cfg) (Wep.iv_at pre 24) = Ret ctx /\
    (r = None <-> Mgmt.wf_80211_get_protected fc = true /\
       exists mid, length mid = 4%nat /\ body = (sc_crypt ctx (response w mid ++ Wep.icv_of (response w mid))).2).
Proof.
  intros Hg Hw Ha Hpre Hpb Hl Hb.
  destruct (check3_full g w t pre body post Hg Hw Hpre Hpb Hl Hb) as (ctx & g' & buf & fc & Hok & _ & Hfc & Hst & E).
  exists (refusal w fc (sc_crypt ctx body).2), g', buf, fc, ctx. split; [done |]. split; [done |]. split; [done |].
  assert (Hinv : forall l, body = (sc_crypt ctx l).2 <-> (sc_crypt ctx body).2 = l)
    by (intros l; split; [intros -> | intros <-]; by rewrite sc_crypt_involutive).
  rewrite refusal_None, (response_iff w) by (first [done | by apply sc_crypt_bytes | by rewrite sc_crypt_length]).
  split; intros [? (mid & ? & H)]; (split; [done |]); exists mid; (split; [done |]); by apply Hinv.
Qed.
End Challenge.

(** ** Invariant of the thread *)

(** A message as the receive path leaves it: a protected authentication frame has
    at least the 32 bytes up to its encrypted part. *)
Record msg_ok (x : ApMsg.wf_ap_msg_t) : Prop := {
  mo_bytes : bytes_ok (ApMsg.mgmt x);
  mo_auth : ApMsg.tag x = ApMsg.WF_AP_MSG_TAG_AUTH_FRAME -> 0 <= ApMsg.len x <= 180 /\
    forall fc, Mgmt.frame_control (ApMsg.mgmt x) = Ret fc -> Mgmt.wf_80211_get_protected fc = true -> 32 <= ApMsg.len x;
}.

(** [others] are the queues of the other nodes and [all] the messages there are. *)
Record ghost : Type := mk_ghost {
  others : list (list Z);
  all : list Z;
}.

Record base (g : ghost) (s : ap_node) : Prop := {
  ba_pool : ApMsg.pool_ok (net s) (ap_msg s :: others g);
  ba_all : ApMsg.messages (net s) (ap_msg s :: others g) ≡ₚ all g;
  ba_msgs : forall m x, ApMsg.store (net s) !! m = Some x -> msg_ok x;
  ba_crc : globals_ok (crc s);
  ba_node : node_ok (node s);
}.

Definition inv (b : label) (l : bool) (s : ap_node) (g : ghost) : Prop :=
  base g s /\
  match b with
  | PBegin | PWait1 => True
  | PSend2 | PWait2 => Wi.auth_algo (node s) = dot11AuthAlgrthm_Open
  | PWait3 | PSend4 | PWait4 => Wi.auth_algo (node s) = dot11AuthAlgrthm_Shared
  end.

Definition weight (b : label) : Z :=
  match b with PWait2 | PWait4 => 1 | PSend2 | PSend4 => 2 | PWait3 => 3 | PWait1 => 4 | PBegin => 5 end.
Definition measure (b : label) (s : ap_node) : Z := weight b + 2 * Z.of_nat (length (ap_msg s)).

(** A call that does not come further has yielded, or found no message and its
    timer, if it has one, running. *)
Definition blocked (b : label) (s s' : ap_node) (tr : list (ev * Z)) : Prop :=
  match b with
  | PWait1 => ap_msg s = []
  | PWait2 | PWait3 | PWait4 =>
      tr = [] \/ ap_msg s = [] /\ exists now, tr = [(Clock, now)] /\ Timer.wf_timer_expired now (ap_timer s) = false
  | _ => False
  end.

(** The thread ends, rather than exits, with the message that begins the
    association waiting. *)
Definition fin (r : pt_ret) (b : label) (_ : unit) (s : ap_node) (g : ghost) : Prop :=
  b = PBegin /\ base g s /\
  (r = PT_ENDED -> exists m x, ApMsg.wf_ap_msg_get (ap_msg s) = Some m /\ ApMsg.store (net s) !! m = Some x /\
     ApMsg.tag x <> ApMsg.WF_AP_MSG_TAG_AUTH_FRAME).

Abbreviation keeps := (Io.post (fun _ : bool => tt) (fun g (_ : ev * Z) => g) inv measure true fin blocked).

(** Nothing is tracked of the calls. *)
Lemma after_id (tr : list (ev * Z)) (g : ghost) : Io.after (fun g (_ : ev * Z) => g) tr g = g.
Proof. unfold Io.after. by induction tr as [| e tr IH]. Qed.

Section Blocks.
Context {SC : StreamCipher} (cfg : config) (cur_bssid : list Z).
Hypothesis Hc : cfg_ok cfg.
Hypothesis Hbss : Mgmt.addr_ok cur_bssid.

(** ** Sending *)

(** The frame [auth_send] builds, for the numbers the access point uses. *)
Definition ap_frame (w : Wi.wdn_net_info_st) (status : Z) : list Z :=
  if (Wi.auth_seq w =? 2) && (status =? 0) && (Wi.auth_algo w =? dot11AuthAlgrthm_Shared) then challenge_frame cfg w
  else plain_frame cfg w status.

(** The calls of one attempt to send [frame]. *)
Definition sends (frame : list Z) (tr : list (ev * Z)) : Prop :=
  (exists b, nz b = false /\ tr = [(ExtbufNew, b)]) \/ exists b r, nz b = true /\ tr = [(ExtbufNew, b); (MgmtXmit frame, r)].

Lemma send_seq_ok seq status s : seq = 2 \/ seq = 4 -> globals_ok (crc s) -> node_ok (node s) ->
  let s' := set_node (Wi.set_auth_seq seq (node s)) s in
  wp (send_seq cfg seq status s) (fun tr r => r = s' /\ sends (ap_frame (node s') status) tr).
Proof.
  intros Hseq Hg Hw s'. unfold send_seq. fold s'. assert (Hw' : node_ok (node s')) by (by destruct Hw).
  assert (Hs : Wi.auth_seq (node s') = seq) by done.
  assert (E : auth_frame cfg (head cfg (node s') 0xB0 ++ drop 24 (pbuf cfg)) (node s') (crc s') status =
              Ret (inr (ap_frame (node s') status, node s', crc s'))).
  { unfold ap_frame. rewrite Hs. destruct ((seq =? 2) && (status =? 0) && (Wi.auth_algo (node s') =? dot11AuthAlgrthm_Shared)) eqn:Eb.
    - apply andb_prop in Eb as [Eb Ea%Z.eqb_eq]. apply andb_prop in Eb as [E1%Z.eqb_eq E2%Z.eqb_eq]. rewrite E2.
      apply frame_challenge; [done | done | by rewrite Hs | done].
    - apply frame_plain; [done | done |]. rewrite Hs. destruct Hseq as [-> | ->]; [right; right | by right; left]. done. }
  unfold auth_send. cbn [call ibind wp]. intros b. destruct (nz b) eqn:Eb; cbn [negb ibind wp].
  - rewrite header_written by done. cbn [lift ibind]. rewrite E. cbn [lift ibind call wp]. intros r. split; [by destruct s |].
    right. by exists b, r.
  - split; [by destruct s |]. left. by exists b.
Qed.

Lemma deauth_ok reason s : node_ok (node s) -> wp (wf_deauth_xmit_frame cfg cur_bssid reason s) (fun _ _ => True).
Proof.
  intros Hw. unfold wf_deauth_xmit_frame. cbn [call ibind wp]. intros f. destruct (negb (nz f)); cbn [wp]; [done |].
  intros b. destruct (negb (nz b)); cbn [wp]; [done |]. pose proof (cf_buf cfg Hc).
  rewrite Mgmt.write_hdr_eq; [| unfold WLANHDR_OFFSET; lia | unfold WIFI_DEAUTH; lia | apply Hw | apply Hc | done].
  cbn [lift ibind]. set (h := Mgmt.hdr _ _ _ _). assert (Hh : length h = 24%nat) by (apply Mgmt.length_hdr; [apply Hw | apply Hc | done]).
  change (replicate (Z.to_nat WLANHDR_OFFSET - 24) 0) with ([0; 0] ++ replicate 38 0). rewrite <- app_assoc.
  rewrite blit_app_mid by (rewrite ?Hh, ?length_le_bytes; done). cbn [lift ibind].
  rewrite app_assoc, Mgmt.slice_app_head by (rewrite length_app, Hh, length_le_bytes; done). cbn [lift ibind call wp]. done.
Qed.

(** The challenge is 128 bytes, whatever the random numbers are. *)
Lemma generate_ok n : forall i txt, i = 32 - 2 * Z.of_nat n -> (n <= 16)%nat -> length txt = 128%nat -> bytes_ok txt ->
  wp (generate_challenge_text (S n) i txt) (fun tr r => length r = 128%nat /\ bytes_ok r /\ Forall (fun e => fst e = Rand32) tr).
Proof.
  induction n as [| n IH]; intros i txt Hi Hn Hl Hb.
  { cbn [generate_challenge_text]. rewrite Hi. cbn. done. }
  cbn [generate_challenge_text]. destruct (Z.ltb_spec i (WF_80211_AUTH_CHALLENGE_LEN / 4)) as [_ | H]; [| change (WF_80211_AUTH_CHALLENGE_LEN / 4) with 32 in H; lia].
  cbn [call ibind wp]. intros r. pose (k := Z.to_nat (4 * i)).
  assert (E : txt = take k txt ++ take 4 (drop k txt) ++ drop (k + 4) txt) by (rewrite <- drop_drop, !take_drop; done).
  rewrite E at 1. rewrite blit_app_mid by (rewrite ?length_le_bytes, ?length_take, ?length_drop; lia). cbn [lift ibind].
  eapply wp_mono, IH.
  - intros tr out (H1 & H2 & H3). split_and!; [done | done | by constructor].
  - unfold u8. rewrite !Z.mod_small; [lia | lia | rewrite Z.mod_small; lia].
  - lia.
  - rewrite !length_app, length_le_bytes, length_take, length_drop. lia.
  - rewrite !bytes_ok_app. split_and!; [by apply Forall_take | apply le_bytes_ok | by apply Forall_drop].
Qed.

(** The first message, and the queue without it. *)
Lemma first_msg g s : base g s ->
  ApMsg.wf_ap_msg_get (ap_msg s) = None /\ ap_msg s = [] \/
  exists m q x s', ApMsg.wf_ap_msg_get (ap_msg s) = Some m /\ ap_msg s = m :: q /\ ApMsg.store (net s) !! m = Some x /\
    msg_of m s = Ret x /\ msg_ok x /\ (ApMsg.tag x = ApMsg.WF_AP_MSG_TAG_AUTH_FRAME -> length (ApMsg.mgmt x) = 180%nat) /\
    msg_free m s = Ret s' /\ base g s' /\ ap_msg s' = q /\ node s' = node s /\ s' = set_net (net s') (set_ap_msg q s).
Proof using.
  clear Hc Hbss. intros [Hp Hall Hm Hg Hw]. destruct (ap_msg s) as [| m q] eqn:Eq; [by left | right].
  destruct (ApMsg.pk_load _ _ Hp m) as (x & Hx & Ht & Hcap); [cbn; set_solver |].
  destruct (ApMsg.free_ok (net s) ((m :: q) :: others g) 0 (m :: q) m Hp eq_refl) as (p' & E & Hp' & Hperm & Hst); [constructor |].
  pose proof (ApMsg.que_nodup _ _ 0 (m :: q) Hp eq_refl) as Hnd. apply NoDup_cons in Hnd as [Hmq _].
  rewrite (ApMsg.without_hd m q Hmq) in E, Hp', Hperm.
  exists m, q, x, (set_net p' (set_ap_msg q s)). split; [done |]. split; [done |]. split; [done |].
  split; [unfold msg_of, ApMsg.msg_at; by rewrite Hx |]. split; [by apply (Hm m) |].
  split; [intros E'; by rewrite Hcap, E' |]. split; [unfold msg_free; by rewrite Eq, E |].
  split; [| done]. split; [done | | | done | done]; cbn; [by rewrite <- Hall, <- Hperm | rewrite Hst; exact Hm].
Qed.

Lemma base_node g s w : base g s -> node_ok w -> base g (set_node w s).
Proof. intros [? ? ? ? ?] Hw. by split. Qed.
Lemma base_timer g s t : base g s -> base g (set_ap_timer t s).
Proof. intros [? ? ? ? ?]. by split. Qed.
Lemma base_state g s v : base g s -> base g (set_state v s).
Proof. intros [? ? ? ? ?]. by split. Qed.

Lemma exited_keeps b s0 g tr s : base g s -> keeps b s0 g tr (exited s).
Proof. intros Hb. cbn. rewrite after_id. split; [done |]. by split. Qed.

Lemma fail_ok pmsg status s s1 b g s0 pre :
  match pmsg with Some m => msg_free m s = Ret s1 | None => s1 = s end -> base g s1 ->
  wp (fail cfg pmsg status s) (fun tr => keeps b s0 g (pre ++ tr)).
Proof.
  intros Hf Hb. unfold fail, status_error.
  assert (E : match pmsg with Some m => msg_free m s | None => Ret s end = Ret s1) by (destruct pmsg; [done | by subst]).
  rewrite E. cbn [lift ibind]. apply wp_bind. eapply wp_mono, send_seq_ok; [| by left | apply Hb | apply Hb].
  intros tr r [-> _]. cbn [wp]. apply exited_keeps, base_node; [done |]. destruct Hb as [_ _ _ _ []]. by split.
Qed.

Lemma set_time_ok s Q : (forall tr t, Q tr (set_ap_timer t s)) -> wp (set_ap_time cfg s) Q.
Proof. intros H. unfold set_ap_time. cbn [call ibind wp]. intros now. apply H. Qed.

Lemma seq_node seq w : node_ok w -> node_ok (Wi.set_auth_seq seq w).
Proof. by intros []. Qed.

Lemma ap_begin_post l s g : inv PBegin l s g -> wp (block cfg cur_bssid PBegin l s) (keeps PBegin s g).
Proof. intros H. cbn. split; [exact H |]. unfold measure. cbn. lia. Qed.

Lemma send2_post l s g : inv PSend2 l s g -> wp (block cfg cur_bssid PSend2 l s) (keeps PSend2 s g).
Proof.
  intros [Hb Ha]. cbn [block]. apply wp_bind. eapply wp_mono, send_seq_ok; [| by left | apply Hb | apply Hb].
  intros tr r [-> _]. cbn. rewrite after_id. split; [| unfold measure; cbn; lia]. split; [| done].
  apply base_node; [done | apply seq_node, Hb].
Qed.

Lemma send4_post l s g : inv PSend4 l s g -> wp (block cfg cur_bssid PSend4 l s) (keeps PSend4 s g).
Proof.
  intros [Hb Ha]. cbn [block]. apply wp_bind. eapply wp_mono, send_seq_ok; [| by right | apply Hb | apply Hb].
  intros tr r [-> _]. cbn. rewrite after_id. split; [| unfold measure; cbn; lia]. split; [| done].
  apply base_node; [done | apply seq_node, Hb].
Qed.

(** The wait, for what is done with a message. *)
Lemma yield_post b on_msg l s g : b = PWait2 \/ b = PWait3 \/ b = PWait4 -> inv b l s g ->
  (forall m q, ap_msg s = m :: q -> wp (on_msg m) (keeps b s g)) -> wp (yield_until cfg b on_msg l s) (keeps b s g).
Proof.
  intros Hbl Hi Hmsg. unfold yield_until. destruct l; cbn [negb].
  - destruct (first_msg g s (proj1 Hi)) as [[-> Hq] | (m & q & x & s' & -> & Hq & _)]; [| by eapply Hmsg].
    cbn [call ibind wp]. intros now. destruct (Timer.wf_timer_expired now (ap_timer s)) eqn:Et.
    + apply (fail_ok None _ s s b g s [(Clock, now)]); [done | apply Hi].
    + cbn. split; [done |]. split; [done |]. split; [lia |].
      destruct Hbl as [-> | [-> | ->]]; right; (split; [done |]); by exists now.
  - cbn. split; [done |]. split; [destruct Hbl as [-> | [-> | ->]]; by destruct Hi |]. split; [lia |].
    destruct Hbl as [-> | [-> | ->]]; by left.
Qed.

Lemma resend_post b send l s g : b = PWait2 /\ send = PSend2 \/ b = PWait4 /\ send = PSend4 -> inv b l s g ->
  wp (at_resend cfg b send l s) (keeps b s g).
Proof.
  intros Hbs Hi. apply yield_post; [by destruct Hbs as [[-> _] | [-> _]]; auto | done |]. intros m q Hq.
  destruct (first_msg g s (proj1 Hi)) as [[_ E] | (m' & q' & x & s' & Hget & Hq' & Hx & Hof & _ & _ & Hfr & Hb' & Hs' & Hn & _)]; [congruence |].
  rewrite Hq in Hq'. injection Hq' as <- <-. rewrite Hof. cbn [lift ibind]. destruct (Z.eqb_spec (ApMsg.tag x) ApMsg.WF_AP_MSG_TAG_AUTH_FRAME).
  - rewrite Hfr. cbn [lift ibind wp post]. split; [split; [done |] |].
    + rewrite Hn. destruct Hbs as [[-> ->] | [-> ->]]; apply Hi.
    + unfold measure. rewrite Hs', Hq. cbn [length]. destruct Hbs as [[-> ->] | [-> ->]]; cbn [weight]; lia.
  - cbn. split; [done |]. split; [apply Hi |]. intros _. by exists m, x.
Qed.

Lemma wait1_post l s g : inv PWait1 l s g -> wp (block cfg cur_bssid PWait1 l s) (keeps PWait1 s g).
Proof.
  intros [Hb _]. cbn [block]. unfold at_wait1.
  destruct (first_msg g s Hb) as [[-> Hq] | (m & q & x & s' & -> & Hq & Hx & -> & Hmx & Hlen & Hfree & Hb' & Hs' & Hn & Es)].
  { cbn. split; [done |]. split; [done |]. split; [lia | done]. }
  cbn [lift ibind]. destruct (Z.eqb_spec (ApMsg.tag x) ApMsg.WF_AP_MSG_TAG_AUTH_FRAME) as [Et | Et]; cbn [negb].
  2: { rewrite Hfree. cbn [lift ibind]. apply wp_bind. eapply wp_mono, deauth_ok; [| rewrite Hn; apply Hb].
       intros tr _ _. cbn. rewrite after_id. split; [done |]. by split. }
  specialize (Hlen Et). destruct (Mgmt.get16_Ret (ApMsg.mgmt x) 26) as [sq ->]; [lia | lia |]. cbn [lift ibind].
  destruct (Mgmt.get16_Ret (ApMsg.mgmt x) 24) as [al Hal]; [lia | lia |]. rewrite Hal. cbn [lift ibind].
  assert (Hfree' : forall w, msg_free m (set_node w (set_state E_WDN_AP_STATE_AUTH s)) = Ret (set_node w (set_state E_WDN_AP_STATE_AUTH s'))).
  { intros w. unfold msg_free in Hfree |- *. cbn. destruct (ApMsg.wf_ap_msg_free (net s) (ap_msg s) m) as [[[r p] q'] | |]; cbn [cbind] in Hfree |- *; try done.
    by injection Hfree as <-. }
  destruct (negb (sq =? _)).
  { apply (fail_ok _ _ _ (set_state E_WDN_AP_STATE_AUTH s') _ _ _ []); [| by apply base_state].
    replace (set_state E_WDN_AP_STATE_AUTH s) with (set_node (node s) (set_state E_WDN_AP_STATE_AUTH s)) by (by destruct s).
    rewrite Hfree'. f_equal. rewrite <- Hn. by destruct s'. }
  set (w := Wi.set_auth_algo (wanted_algo cfg al) (node (set_state E_WDN_AP_STATE_AUTH s))).
  assert (Hw : node_ok w) by (destruct (ba_node _ _ Hb); by split).
  set (s1 := set_node w (set_state E_WDN_AP_STATE_AUTH s)). set (s2 := set_node w (set_state E_WDN_AP_STATE_AUTH s')).
  assert (Hb2 : base g s2) by (by apply base_node; [apply base_state |]).
  specialize (Hfree' w). fold s1 s2 in Hfree'.
  destruct ((dot11AuthAlgrthm_Shared <? al) || negb (al =? Wi.auth_algo (node s1))) eqn:Eal.
  { by apply (fail_ok _ _ _ s2 _ _ _ []). }
  rewrite Hfree'. cbn [lift ibind]. apply orb_false_elim in Eal as [E1%Z.ltb_ge E2%negb_false_iff%Z.eqb_eq].
  change (Wi.auth_algo (node s1)) with (Wi.auth_algo w) in E2.
  assert (Hm2 : ap_msg s2 = q) by done.
  destruct (Z.eqb_spec (Wi.auth_algo (node s2)) dot11AuthAlgrthm_Open) as [Eo | Eo].
  - apply wp_bind, set_time_ok. intros tr t. cbn. rewrite after_id. split; [split; [by apply base_timer | done] |].
    unfold measure. cbn. rewrite Hs', Hq. cbn [length]. lia.
  - change (S 16) with 17%nat. apply wp_bind. eapply wp_mono, (generate_ok 16); [| done | done | apply Hw | apply Hw].
    intros tr txt (Htl & Htb & _). set (s3 := set_node (Wi.set_chlg_txt txt (node s2)) s2).
    assert (Hw3 : node_ok (Wi.set_chlg_txt txt (node s2))) by (destruct Hw; by split).
    apply wp_bind. eapply wp_mono, (send_seq_ok 2 _ s3); [| by left | apply Hb2 | done].
    intros tr' r [-> _]. apply wp_bind, set_time_ok. intros tr'' t. cbn. rewrite after_id. split; [split |].
    + apply base_timer, base_node; [| by apply seq_node]. by apply base_node.
    + change (Wi.auth_algo (node s2)) with (Wi.auth_algo w) in Eo.
      assert (0 <= al). { unfold Mgmt.get16 in Hal. rewrite slice_Ret in Hal by lia. injection Hal as <-.
        apply le_word_range. apply Forall_take, Forall_drop, Hmx. }
      change (Wi.auth_algo w = dot11AuthAlgrthm_Shared). revert E1 E2 Eo. generalize (Wi.auth_algo w).
      unfold dot11AuthAlgrthm_Open, dot11AuthAlgrthm_Shared. lia.
    + unfold measure. cbn. rewrite Hs', Hq. cbn [length]. lia.
Qed.

(** The message rewritten in place. *)
Lemma base_decrypted g s m q x buf c : base g s -> ap_msg s = m :: q -> ApMsg.store (net s) !! m = Some x -> msg_ok x ->
  length buf = length (ApMsg.mgmt x) -> bytes_ok buf -> Mgmt.frame_control buf = Mgmt.frame_control (ApMsg.mgmt x) -> globals_ok c ->
  base g (set_net (ApMsg.mk_pool (ApMsg.ap_msg_free (net s)) (<[m := ApMsg.mk_msg (ApMsg.tag x) (ApMsg.len x) buf]> (ApMsg.store (net s))))
            (set_crc c s)).
Proof.
  intros [[P1 P2 P3 P4] Hall Hm Hg Hw] Hq Hx [Hxb Hxa] Hl Hb Hfc Hc'. split; [split | done | | done | done]; cbn in *; try done.
  - intros t fq m' Ht Hm'. destruct (P3 t fq m' Ht Hm') as (y & Hy & Hcap). destruct (decide (m' = m)) as [-> | Hne].
    + rewrite lookup_insert_eq. eexists. split; [done |]. cbn. rewrite Hl. rewrite Hx in Hy. by injection Hy as <-.
    + rewrite lookup_insert_ne by done. by exists y.
  - intros m' Hm'. destruct (P4 m' Hm') as (y & Hy & Ht & Hcap). destruct (decide (m' = m)) as [-> | Hne].
    + rewrite lookup_insert_eq. eexists. split; [done |]. rewrite Hx in Hy. injection Hy as <-. cbn. by rewrite Hl.
    + rewrite lookup_insert_ne by done. by exists y.
  - intros m' y Hy. apply lookup_insert_Some in Hy as [[<- <-] | [_ Hy]]; [| by apply (Hm m')].
    split; cbn; [done |]. rewrite Hfc. exact Hxa.
Qed.

Lemma wait3_post l s g : inv PWait3 l s g -> wp (block cfg cur_bssid PWait3 l s) (keeps PWait3 s g).
Proof.
  intros Hi. cbn [block]. apply yield_post; [auto | done |]. intros m q Hq. unfold on_seq3. destruct Hi as [Hb Ha].
  destruct (first_msg g s Hb) as [[_ E] | (m' & q' & x & s' & Hget & Hq' & Hx & Hof & Hmx & Hlen & Hfr & Hb' & _)]; [congruence |].
  rewrite Hq in Hq'. injection Hq' as <- <-. rewrite Hof. cbn [lift ibind].
  destruct (Z.eqb_spec (ApMsg.tag x) ApMsg.WF_AP_MSG_TAG_AUTH_FRAME) as [Et | Et]; cbn [negb].
  2: { by apply (fail_ok _ _ _ s' _ _ _ []). }
  specialize (Hlen Et). destruct (mo_auth _ Hmx Et) as [Hl Hprot].
  destruct (check3_total cfg Hc (crc s) (node s) x) as (r & c & buf & -> & Hc' & Hbl & Hbb & Hfc); [apply Hb | apply Hb | done | apply Hmx | lia | done |].
  cbn [lift ibind]. set (s1 := set_net _ (set_crc c s)).
  assert (Hb1 : base g s1) by (apply (base_decrypted g s m q); try done; lia).
  destruct r as [status |].
  - destruct (first_msg g s1 Hb1) as [[_ E] | (m1 & q1 & x1 & s2 & _ & Hq1 & _ & _ & _ & _ & Hfr1 & Hb2 & _)]; [cbn in E; congruence |].
    assert (E : ap_msg s1 = m :: q) by done. rewrite E in Hq1. injection Hq1 as <- <-. by apply (fail_ok _ _ _ s2 _ _ _ []).
  - apply wp_bind, set_time_ok. intros tr t. cbn. rewrite after_id. split; [| unfold measure; cbn; lia]. split; [by apply base_timer | done].
Qed.

Lemma ap_block_post b l s g : inv b l s g -> wp (block cfg cur_bssid b l s) (keeps b s g).
Proof.
  destruct b; [apply ap_begin_post | apply wait1_post | apply send2_post | | apply wait3_post | apply send4_post |];
    intros Hi; apply resend_post; auto.
Qed.

Lemma measure_bound b s : 0 <= measure b s <= 5 + 2 * Z.of_nat (length (ap_msg s)).
Proof. unfold measure. destruct b; cbn [weight]; lia. Qed.

Lemma ap_call_called fuel b s g : inv b true s g -> 5 + 2 * Z.of_nat (length (ap_msg s)) < Z.of_nat fuel ->
  wp (wf_auth_ap_thrd cfg cur_bssid fuel b s) (Io.called (fun g (_ : ev * Z) => g) inv measure true fin blocked b s g).
Proof.
  intros Hi Hf. pose proof (measure_bound b s).
  apply (blocks_called (block cfg cur_bssid) (fun _ : bool => tt) (fun g (_ : ev * Z) => g) inv measure true fin blocked);
    [intros; apply measure_bound | by apply ap_block_post | done | lia].
Qed.

(** ** The component in use *)

(** A frame as it is received for a node. *)
Definition frame_ok (frame : list Z) : Prop :=
  bytes_ok frame /\ (2 <= length frame)%nat /\
  forall fc, Mgmt.frame_control frame = Ret fc -> Mgmt.wf_80211_get_protected fc = true -> 32 <= Z.of_nat (length frame).

Lemma recv_load t frame s g : base g s -> frame_ok frame -> 0 <= t < 6 -> (length frame <= ApMsg.cap t)%nat ->
  exists r s', load t frame s = Ret (r, s') /\ base g s' /\ node s' = node s /\ crc s' = crc s.
Proof.
  intros Hb Hf Ht Hl. pose proof (ba_pool _ _ Hb) as Hp. unfold load. destruct Hf as (Hfb & Hf2 & Hprot).
  destruct (ApMsg.load_ok (net s) (ap_msg s :: others g) 0 (ap_msg s) t (Some frame) (Z.of_nat (length frame)) Hp eq_refl Ht)
    as [[_ ->] | (m & p & x & -> & Hx & Hp' & Hperm & _ & Hst & fq & Hfree & _)].
  - split; [lia |]. split; [lia |]. by apply inj_le.
  - cbn [cbind]. exists (-1), s. split; [by destruct s |]. done.
  - cbn [cbind]. eexists 0, _. split; [done |]. split; [| done].
    destruct (ApMsg.pk_free _ _ Hp _ _ m Hfree) as (y & Hy & Hcap); [constructor |]. rewrite Hx in Hy. injection Hy as <-.
    rewrite Z2Nat.id in Hcap by lia. pose proof (mo_bytes _ (ba_msgs _ _ Hb m x Hx)) as Hxb.
    split; cbn; [done | by rewrite Hperm, <- (ba_all _ _ Hb) | | apply Hb | apply Hb].
    intros m' y. rewrite Hst. intros [[<- <-] | [_ Hy]]%lookup_insert_Some; [| by apply (ba_msgs _ _ Hb m')].
    unfold ApMsg.loaded. rewrite Nat2Z.id, take_ge by lia. split; cbn.
    + apply bytes_ok_app. split; [done | by apply Forall_drop].
    + intros ->. change (ApMsg.cap ApMsg.WF_AP_MSG_TAG_AUTH_FRAME) with 180%nat in Hl. split; [lia |].
      unfold Mgmt.frame_control. rewrite Mgmt.get16_app by lia. exact Hprot.
Qed.

(** Calls of the thread of a node with any answers; between them authentication
    and deauthentication frames of its station and what other nodes do with the
    pools. *)
Inductive reach : label -> ap_node -> ghost -> Prop :=
  | reach_new s g : base g s -> reach PBegin s g
  | reach_call fuel b s g tr r b' s' :
      reach b s g -> runs (wf_auth_ap_thrd cfg cur_bssid fuel b s) tr (r, b', tt, s') ->
      5 + 2 * Z.of_nat (length (ap_msg s)) < Z.of_nat fuel -> reach b' s' g
  | reach_recv b s g frame r s' :
      reach b s g -> frame_ok frame -> auth_ap_recv cfg true None frame s = Ret (r, s') -> reach b s' g
  | reach_deauth b s g frame r s' :
      reach b s g -> frame_ok frame -> deauth_work_ap frame s = Ret (r, s') -> reach b s' g
  | reach_others b s g p g' :
      reach b s g -> base g' (set_net p s) -> reach b (set_net p s) g'.

Lemma ap_reach_inv b s g : reach b s g -> inv b true s g.
Proof.
  assert (Hsame : forall b s s' g g', inv b true s g -> base g' s' -> node s' = node s -> inv b true s' g')
    by (intros b0 s0 s1 g0 g1 [_ Hi] Hb Hn; split; [done | by destruct b0; rewrite ?Hn]).
  induction 1 as [s g Hb | fuel b s g tr r b' s' _ IH Hr Hf | b s g frame r s' _ IH Hf E | b s g frame r s' _ IH Hf E | b s g p g' _ IH Hb].
  - done.
  - pose proof (wp_runs _ _ _ _ (ap_call_called fuel b s g IH Hf) Hr) as H. unfold Io.called in H. rewrite after_id in H.
    destruct (done_with r); [by destruct H as (-> & Hb & _) | apply H].
  - unfold auth_ap_recv in E. destruct (Z.ltb_spec WF_80211_MGMT_AUTH_SIZE_MAX (Z.of_nat (length frame))); [by injection E as _ <- |].
    destruct (Mgmt.frame_control frame) as [fc | |]; cbn [cbind] in E; try done. destruct (negb _); [by injection E as _ <- |].
    destruct (negb _); [by injection E as _ <- |].
    destruct (recv_load ApMsg.WF_AP_MSG_TAG_AUTH_FRAME frame s g) as (r1 & s1 & E1 & Hb & Hn & _); [apply IH | done | done | |].
    { change (ApMsg.cap ApMsg.WF_AP_MSG_TAG_AUTH_FRAME) with 180%nat. unfold WF_80211_MGMT_AUTH_SIZE_MAX in *. lia. }
    rewrite E1 in E. cbn [cbind] in E. injection E as _ <-. by apply (Hsame b s s1 g).
  - unfold deauth_work_ap in E. destruct (negb _); [by injection E as _ <- |].
    destruct (Z.ltb_spec WF_80211_MGMT_DEAUTH_SIZE_MAX (Z.of_nat (length frame))); [by injection E as _ <- |].
    destruct (Mgmt.frame_control frame) as [fc | |]; cbn [cbind] in E; try done. destruct (negb _); [by injection E as _ <- |].
    destruct (recv_load ApMsg.WF_AP_MSG_TAG_DEAUTH_FRAME frame s g) as (r1 & s1 & E1 & Hb & Hn & _); [apply IH | done | done | |].
    { change (ApMsg.cap ApMsg.WF_AP_MSG_TAG_DEAUTH_FRAME) with 26%nat. unfold WF_80211_MGMT_DEAUTH_SIZE_MAX in *. lia. }
    rewrite E1 in E. cbn [cbind] in E. injection E as _ <-. by apply (Hsame b s s1 g).
  - by apply (Hsame b s _ g).
Qed.

(** Every call of the access point's authentication thread returns and
    conserves the messages.  Whatever it is answered, whatever frames arrive and
    whatever other nodes do, it passes at most five blocks and two per waiting
    message; every message there is stays in exactly one queue.  A call that does
    not end the thread comes strictly further, or has yielded, or found no
    message and its timer running.  It ends successfully only with a message
    waiting that is not an authentication frame. *)
Theorem ap_auth_call fuel b s g :
  reach b s g -> 5 + 2 * Z.of_nat (length (ap_msg s)) < Z.of_nat fuel ->
  wp (wf_auth_ap_thrd cfg cur_bssid fuel b s) (fun tr '(r, b', _, s') =>
    ApMsg.pool_ok (net s') (ap_msg s' :: others g) /\ ApMsg.messages (net s') (ap_msg s' :: others g) ≡ₚ all g /\
    if done_with r then
      r = PT_ENDED -> exists m x, ApMsg.wf_ap_msg_get (ap_msg s') = Some m /\ ApMsg.store (net s') !! m = Some x /\
        ApMsg.tag x <> ApMsg.WF_AP_MSG_TAG_AUTH_FRAME
    else 0 <= measure b' s' < measure b s \/ b' = b /\ measure b' s' <= measure b s /\ blocked b s s' tr).
Proof.
  intros Hr Hf. pose proof (ap_reach_inv b s g Hr) as Hi.
  eapply wp_mono, (ap_call_called fuel b s g Hi Hf). intros tr [[[r b'] p] s'] H. unfold Io.called in H. rewrite after_id in H.
  destruct (done_with r).
  - destruct H as (_ & Hb & Hend). split; [apply Hb |]. split; [apply Hb | done].
  - destruct H as ([Hb _] & _ & H). split; [apply Hb |]. split; [apply Hb |].
    pose proof (measure_bound b' s'). destruct H as [H | H]; [left; lia | by right].
Qed.

(** The state in which the third frame has been checked. *)
Lemma check3_base g s m q x r c buf : base g s -> ap_msg s = m :: q -> ApMsg.store (net s) !! m = Some x ->
  ApMsg.tag x = ApMsg.WF_AP_MSG_TAG_AUTH_FRAME -> check3 cfg (crc s) (node s) x = Ret (r, c, buf) ->
  let s1 := set_net (ApMsg.mk_pool (ApMsg.ap_msg_free (net s))
                       (<[m := ApMsg.mk_msg (ApMsg.tag x) (ApMsg.len x) buf]> (ApMsg.store (net s)))) (set_crc c s) in
  base g s1 /\ ApMsg.store (net s1) !! m = Some (ApMsg.mk_msg (ApMsg.tag x) (ApMsg.len x) buf).
Proof.
  intros Hb Hq Hx Ht Hch s1. split; [| apply lookup_insert_eq].
  destruct (first_msg g s Hb) as [[_ E] | (m' & q' & x' & s' & _ & Hq' & Hx' & _ & Hmx & Hlen & _)]; [congruence |].
  rewrite Hq in Hq'. injection Hq' as <- <-. rewrite Hx in Hx'. injection Hx' as <-.
  destruct (mo_auth _ Hmx Ht) as [Hl Hprot].
  destruct (check3_total cfg Hc (crc s) (node s) x) as (r' & c' & buf' & E & Hc' & Hbl & Hbb & Hfc);
    [apply Hb | apply Hb | by apply Hlen | apply Hmx | lia | done |].
  rewrite Hch in E. injection E as <- <- <-. apply (base_decrypted g s m q); try done. by rewrite Hbl, Hlen.
Qed.

(** The fourth frame is sent twice.  When the third frame passes its checks
    the thread sends the fourth and yields, but the message of the third frame is
    still in the queue; the next call takes it for a repetition and sends the
    fourth frame again, although nothing has been received. *)
Theorem seq4_sent_twice fuel s g m q x c buf :
  reach PWait3 s g -> ap_msg s = m :: q -> ApMsg.store (net s) !! m = Some x ->
  ApMsg.tag x = ApMsg.WF_AP_MSG_TAG_AUTH_FRAME -> check3 cfg (crc s) (node s) x = Ret (None, c, buf) ->
  let frame4 := ap_frame (Wi.set_auth_seq 4 (node s)) 0 in
  wp (wf_auth_ap_thrd cfg cur_bssid (S (S (S fuel))) PWait3 s) (fun tr '(r, b, _, s') =>
    r = PT_YIELDED /\ b = PWait4 /\ ap_msg s' = m :: q /\ sends frame4 (tail tr) /\
    wp (wf_auth_ap_thrd cfg cur_bssid (S (S (S fuel))) PWait4 s') (fun tr' '(r', b', _, s'') =>
      r' = PT_YIELDED /\ b' = PWait4 /\ ap_msg s'' = q /\ sends frame4 tr')).
Proof.
  intros Hr Hq Hx Ht Hch frame4. destruct (ap_reach_inv _ _ _ Hr) as [Hb Ha].
  destruct (check3_base g s m q x None c buf Hb Hq Hx Ht Hch) as (Hb1 & Hat).
  unfold wf_auth_ap_thrd at 1. cbn [blocks block]. unfold yield_until. cbn [negb]. rewrite Hq. cbn [ApMsg.wf_ap_msg_get list.head].
  unfold on_seq3, msg_of, ApMsg.msg_at. rewrite Hx. cbn [of_option lift ibind]. rewrite Ht at 1.
  change (negb (ApMsg.WF_AP_MSG_TAG_AUTH_FRAME =? ApMsg.WF_AP_MSG_TAG_AUTH_FRAME)) with false. cbn iota.
  rewrite Hch. cbn [lift ibind]. set (s1 := set_net _ (set_crc c s)) in *. unfold set_ap_time. cbn [call ibind wp]. intros now.
  set (s2 := set_ap_timer _ s1). assert (Hb2 : base g s2) by (by apply base_timer).
  apply wp_bind, wp_bind. eapply wp_mono, (send_seq_ok 4 0 s2); [| by right | apply Hb2 | apply Hb2].
  intros tr r [-> Hs]. cbn [wp ibind blocks block]. unfold at_resend, yield_until. cbn [negb ibind wp]. rewrite !app_nil_r.
  split; [done |]. split; [done |]. split; [exact Hq |]. split; [exact Hs |].
  set (s3 := set_node _ s2). assert (Hb3 : base g s3) by (apply base_node; [done | apply seq_node, Hb2]).
  destruct (first_msg g s3 Hb3) as [[_ E] | (m' & q' & x' & s4 & Hget & Hq' & Hx' & Hof & _ & _ & Hfr & Hb4 & Hs4 & Hn4 & _)]; [cbn in E; congruence |].
  assert (E : ap_msg s3 = m :: q) by exact Hq. rewrite E in Hq'. injection Hq' as <- <-.
  assert (Ex : x' = ApMsg.mk_msg (ApMsg.tag x) (ApMsg.len x) buf) by (change (net s3) with (net s1) in Hx'; congruence).
  unfold wf_auth_ap_thrd. cbn [blocks block]. unfold at_resend, yield_until. cbn [negb]. rewrite Hget, Hof. cbn [lift ibind].
  rewrite Ex. cbn [ApMsg.tag]. rewrite Ht.
  change (ApMsg.WF_AP_MSG_TAG_AUTH_FRAME =? ApMsg.WF_AP_MSG_TAG_AUTH_FRAME) with true. cbn iota. rewrite Hfr. cbn [lift ibind].
  apply wp_bind, wp_bind. eapply wp_mono, (send_seq_ok 4 0 s4); [| by right | apply Hb4 | apply Hb4].
  intros tr' r [-> Hs']. cbn [wp ibind blocks block]. unfold at_resend, yield_until. cbn [negb ibind wp]. rewrite !app_nil_r.
  split; [done |]. split; [done |]. split; [exact Hs4 |]. rewrite Hn4 in Hs'. exact Hs'.
Qed.
End Blocks.

(** ** The exchange of both sides *)

Section Exchange.
Context {SC : StreamCipher} (cfgA cfgS : config) (wa ws : Wi.wdn_net_info_st).
Hypothesis HcA : cfg_ok cfgA.
Hypothesis HcS : cfg_ok cfgS.
Hypothesis Hwa : node_ok wa.
Hypothesis Hws : node_ok ws.
Hypothesis Hkey : dot11DefKey (sec_info cfgS) = dot11DefKey (sec_info cfgA).
Hypothesis Hkeylen : dot11DefKeylen (sec_info cfgS) = dot11DefKeylen (sec_info cfgA).

Lemma same_stream iv : Wep.wep_stream (sec_info cfgS) iv = Wep.wep_stream (sec_info cfgA) iv.
Proof using Hkey Hkeylen. unfold Wep.wep_stream, Wep.wep_key. by rewrite Hkey, Hkeylen. Qed.

Lemma header_fc fc rest : 0 <= fc < 65536 -> Mgmt.frame_control (head cfgA wa fc ++ rest) = Ret fc.
Proof.
  intros Hfc. unfold Mgmt.frame_control, Mgmt.get16, head, Mgmt.hdr. rewrite <- !app_assoc.
  rewrite (Mgmt.slice_app_head (le_bytes 2 fc)) by done. cbn [cbind]. rewrite le_word_bytes. do 2 f_equal. by apply Z.mod_small.
Qed.

(** How a station reads the fields of the access point's frames. *)
Lemma answer_fields alg seq status rest : 0 <= seq < 65536 -> 0 <= status < 65536 ->
  answer ((head cfgA wa 0xB0 ++ auth_fields alg seq status) ++ rest) = Ret (seq, status).
Proof using HcA Hwa.
  intros Hs Hst. pose proof (length_header cfgA wa HcA Hwa 0xB0) as Hh. unfold answer, auth_ofs. rewrite <- app_assoc, header_fc by lia. cbn [cbind].
  change (Mgmt.wf_80211_has_order 0xB0) with false. cbn iota. change (24 + 0) with 24.
  unfold auth_fields. rewrite <- !app_assoc. unfold Mgmt.get16. rewrite (app_assoc (head cfgA wa 176) (le_bytes 2 alg)).
  rewrite slice_app_mid by (rewrite ?length_app, ?Hh, ?length_le_bytes; done). cbn [cbind].
  rewrite (app_assoc _ (le_bytes 2 seq)). rewrite slice_app_mid by (rewrite ?length_app, ?Hh, ?length_le_bytes; done). cbn [cbind].
  rewrite !le_word_bytes. by rewrite !Z.mod_small by lia.
Qed.

(** The station takes the challenge out of the second frame. *)
Lemma challenge_taken hs l s x stale : Auth.base (pmsg l :: hs) s -> (pmsg l ∉ hs) -> Ai.retry_cnt s < 3 ->
  Msg.store (Ai.msg_que s) !! pmsg l = Some x -> Msg.value x = challenge_frame cfgA wa ++ stale -> Msg.len x = 160 ->
  exists s', at_check2 l s = Ret (Goto ASend3, l, s') /\
    Ai.node s' = Wi.set_auth_seq 3 (Wi.set_chlg_txt (Wi.chlg_txt wa) (Ai.node s)) /\ Ai.retry_cnt s' = 0 /\ Ai.crc s' = Ai.crc s.
Proof using HcA Hwa.
  intros Hb Hn Hr Hx Hv Hlen. unfold at_check2. destruct (Z.eqb_spec (Ai.retry_cnt s) AUTH_REQ_RESEND_TIMES) as [E |]; [unfold AUTH_REQ_RESEND_TIMES in E; lia |].
  unfold Msg.msg_at. rewrite Hx. cbn [of_option cbind]. rewrite Hv, Hlen.
  pose proof (length_header cfgA wa HcA Hwa 0xB0) as Hh. pose proof (nd_len wa Hwa) as Htl.
  unfold challenge_frame. unfold auth_ofs. rewrite <- !app_assoc, header_fc by lia. cbn [cbind].
  change (Mgmt.wf_80211_has_order 0xB0) with false. cbn iota. change (Z.to_nat (24 + 0 + 6)) with 30%nat.
  rewrite (app_assoc (head cfgA wa 176)), drop_app_length' by (rewrite length_app, Hh, length_fields; done).
  set (ies := [(WF_80211_MGMT_EID_CHALLENGE, Wi.chlg_txt wa)]).
  assert (Hel : Z.of_nat (length (Ies.enc ies)) = 130).
  { unfold ies, Ies.enc. cbn [fmap list_fmap concat]. rewrite app_nil_r, Ies.length_enc_ie. cbn [snd]. by rewrite Htl. }
  change (u16 (160 - (24 + 0 + 6))) with 130. rewrite <- Hel, Ies.search_enc by (first [done | lia]).
  change (Ies.find_ie (fun e => fst e =? WF_80211_MGMT_EID_CHALLENGE) ies 0) with (Some (0, (WF_80211_MGMT_EID_CHALLENGE, Wi.chlg_txt wa))).
  cbn [fmap option_fmap option_map fst cbind]. 
  replace (Ies.enc ies ++ stale) with ([] ++ Ies.enc_ie (WF_80211_MGMT_EID_CHALLENGE, Wi.chlg_txt wa) ++ stale)
    by (unfold ies, Ies.enc; cbn [fmap list_fmap concat]; by rewrite app_nil_r).
  destruct (Ies.rd_header [] (WF_80211_MGMT_EID_CHALLENGE, Wi.chlg_txt wa) stale 0) as [_ ->]; [done |]. cbn [cbind snd]. rewrite Htl.
  change (WF_80211_AUTH_CHALLENGE_LEN <? Z.of_nat 128) with false. cbn iota.
  rewrite Ies.rd_data by (cbn [snd]; rewrite ?Htl; cbn; lia). cbn [cbind snd]. rewrite Nat2Z.id, take_ge by lia.
  pose proof (nd_len _ (Auth.ba_node _ _ Hb)) as Htl'.
  rewrite <- (app_nil_r (Wi.chlg_txt (Ai.node s))), Mgmt.blit_app_head by (by rewrite Htl, Htl'). cbn [cbind]. rewrite app_nil_r.
  destruct (Msg.use_del _ _ (pmsg l) (Auth.ba_inv _ _ Hb) ltac:(constructor)) as (que & Hdel & _).
  rewrite (Auth.msg_del_eq _ _ que) by done. cbn [cbind]. eexists. split; [done |]. by split.
Qed.

(** The third frame of a station that has the challenge and the keys. *)
Lemma answer_accepted gA gS t stale : globals_ok gA -> globals_ok gS -> Wi.auth_algo wa = dot11AuthAlgrthm_Shared ->
  Wi.auth_algo ws = dot11AuthAlgrthm_Shared -> Wi.auth_seq ws = 3 -> Wi.chlg_txt ws = Wi.chlg_txt wa ->
  exists frame ws' gS' gA' buf,
    auth_frame cfgS (head cfgS ws 0xB0 ++ drop 24 (pbuf cfgS)) ws gS 0 = Ret (inr (frame, ws', gS')) /\ length frame = 168%nat /\
    check3 cfgA gA wa (ApMsg.mk_msg t AUTH_SEQ3_LEN (frame ++ stale)) = Ret (None, gA', buf).
Proof using All.
  intros HgA HgS Ha Hs Hseq Htxt.
  destruct (frame_seq3 cfgS ws gS HcS Hws HgS Hseq Hs) as (ctx & gS' & Hok & _ & Hst & Hf).
  set (pre := seq3_pre cfgS ws) in *. set (pl := seq3_payload ws) in *. set (body := (sc_crypt ctx (pl ++ Wep.icv_of pl)).2) in *.
  assert (Hpre : length pre = 28%nat) by (by apply length_pre). assert (Hpl : length pl = 136%nat) by (by apply length_payload).
  assert (Hbody : length body = 140%nat) by (unfold body; rewrite sc_crypt_length, length_app, Wep.icv_of_length; lia).
  assert (Hpb : bytes_ok pre).
  { unfold pre, seq3_pre, head, Mgmt.hdr. rewrite !bytes_ok_app.
    split_and!; first [apply le_bytes_ok | by apply bytes_okb_ok | apply Hws | apply HcS]. }
  assert (Hbb : bytes_ok body).
  { apply sc_crypt_bytes; [done |]. apply bytes_ok_app. split; [by apply payload_bytes | apply le_bytes_ok]. }
  destruct (check3_full cfgA HcA gA wa t pre body stale HgA Hwa Hpre Hpb Hbody Hbb) as (ctx' & gA' & buf & fc & Hok' & _ & Hfc & Hst' & Hch).
  rewrite same_stream, Hst' in Hst. injection Hst as ->.
  assert (Hfc' : fc = 0x40B0).
  { unfold pre, seq3_pre, head, Mgmt.hdr, Mgmt.frame_control, Mgmt.get16 in Hfc. rewrite <- !app_assoc in Hfc.
    rewrite (Mgmt.slice_app_head (le_bytes 2 16560)) in Hfc by done. cbn [cbind] in Hfc. injection Hfc as <-. done. }
  assert (Hresp : pl = response wa (le_bytes 2 0 ++ [16; 128])).
  { unfold pl, seq3_payload, response, auth_fields, Ies.enc_ie. cbn [fst snd]. rewrite Ha, (nd_len ws Hws), Htxt, <- !app_assoc. done. }
  assert (Hnone : refusal wa fc (sc_crypt ctx body).2 = None).
  { unfold body. rewrite sc_crypt_involutive. apply refusal_None. split; [by rewrite Hfc' |].
    apply (response_iff wa); [done | by rewrite Ha | | by rewrite length_app, Wep.icv_of_length, Hpl |].
    - apply bytes_ok_app. split; [by apply payload_bytes | apply le_bytes_ok].
    - exists (le_bytes 2 0 ++ [16; 128]). by rewrite <- Hresp. }
  rewrite Hnone in Hch. exists (pre ++ body), (seq3_node cfgS ws), gS', gA', buf. split; [exact Hf |].
  split; [rewrite length_app; lia |]. by rewrite <- app_assoc.
Qed.

(** How an access point that wants shared keys takes the first frame of a station:
    it refuses the open algorithm, and sends a challenge for the other. *)
Lemma first_frame_met cur_bssid g sA m q x stale lb : dot11AuthAlgrthm (sec_info cfgA) = dot11AuthAlgrthm_Shared ->
  Wi.auth_seq ws = 1 -> Wi.auth_algo ws = dot11AuthAlgrthm_Open \/ Wi.auth_algo ws = dot11AuthAlgrthm_Shared ->
  base g sA -> ap_msg sA = m :: q -> ApMsg.store (net sA) !! m = Some x -> ApMsg.tag x = ApMsg.WF_AP_MSG_TAG_AUTH_FRAME ->
  ApMsg.mgmt x = plain_frame cfgS ws 0 ++ stale ->
  wp (at_wait1 cfgA cur_bssid lb sA) (fun tr '(nxt, _, sA') =>
    node_ok (node sA') /\ Wi.auth_algo (node sA') = dot11AuthAlgrthm_Shared /\ Wi.auth_seq (node sA') = 2 /\ ap_msg sA' = q /\
    if Wi.auth_algo ws =? dot11AuthAlgrthm_Open
    then nxt = Return PT_EXITED PBegin /\ sends (ap_frame cfgA (node sA') WF_80211_STATUS_NOT_SUPPORTED_AUTH_ALG) tr
    else nxt = Goto PWait3 /\ exists tr0 tr1 now, tr = tr0 ++ tr1 ++ [(Clock, now)] /\ Forall (fun e => fst e = Rand32) tr0 /\
           sends (ap_frame cfgA (node sA') WF_80211_STATUS_SUCCESS) tr1).
Proof using HcA HcS Hws.
  intros Hmode Hseq Halg Hb Hq Hx Ht Hm. unfold at_wait1.
  destruct (first_msg g sA Hb) as [[_ E] | (m' & q' & x' & s' & -> & Hq' & Hx' & -> & _ & _ & Hfree & Hb' & Hs' & Hn & Es)]; [by rewrite Hq in E |].
  rewrite Hq in Hq'. injection Hq' as <- <-. rewrite Hx in Hx'. injection Hx' as <-. cbn [lift ibind]. rewrite Ht.
  rewrite Z.eqb_refl. cbn [negb].
  pose proof (length_header cfgS ws HcS Hws 0xB0) as Hh.
  assert (Hf : Mgmt.get16 (ApMsg.mgmt x) 26 = Ret 1 /\ Mgmt.get16 (ApMsg.mgmt x) 24 = Ret (Wi.auth_algo ws)).
  { rewrite Hm. unfold plain_frame, auth_fields, Mgmt.get16. rewrite Hseq, <- !app_assoc. split.
    - rewrite (app_assoc (head cfgS ws 176)). rewrite slice_app_mid by (rewrite ?length_app, ?Hh, ?length_le_bytes; done). done.
    - rewrite slice_app_mid by (rewrite ?Hh, ?length_le_bytes; done). cbn [cbind]. destruct Halg as [-> | ->]; done. }
  destruct Hf as [-> ->]. cbn [lift ibind]. change (negb (1 =? WF_80211_AUTH_SEQ_1)) with false. cbn iota.
  assert (Hwant : forall a, wanted_algo cfgA a = dot11AuthAlgrthm_Shared) by (intros a; unfold wanted_algo; by rewrite Hmode).
  rewrite Hwant. set (w := Wi.set_auth_algo dot11AuthAlgrthm_Shared _). set (s1 := set_node w _). set (s2 := set_node w (set_state E_WDN_AP_STATE_AUTH s')).
  assert (Hw : node_ok w) by (destruct (ba_node _ _ Hb); by split).
  assert (Hfree' : msg_free m s1 = Ret s2).
  { unfold msg_free in Hfree |- *. cbn. destruct (ApMsg.wf_ap_msg_free (net sA) (ap_msg sA) m) as [[[r p] q'] | |]; cbn [cbind] in Hfree |- *; try done.
    by injection Hfree as <-. }
  assert (Hb2 : base g s2) by (by apply base_node; [apply base_state |]).
  destruct Halg as [-> | ->].
  - change ((dot11AuthAlgrthm_Shared <? dot11AuthAlgrthm_Open) || negb (dot11AuthAlgrthm_Open =? Wi.auth_algo (node s1))) with true. cbn iota.
    unfold fail, status_error. rewrite Hfree'. cbn [lift ibind]. apply wp_bind. eapply wp_mono, (send_seq_ok cfgA HcA); [| by left | apply Hb2 | done].
    intros tr r [-> Hsend]. cbn [wp]. rewrite app_nil_r. split_and!; try done. by apply seq_node.
  - change ((dot11AuthAlgrthm_Shared <? dot11AuthAlgrthm_Shared) || negb (dot11AuthAlgrthm_Shared =? Wi.auth_algo (node s1))) with false. cbn iota.
    rewrite Hfree'. cbn [lift ibind]. change (Wi.auth_algo (node s2) =? dot11AuthAlgrthm_Open) with false. cbn iota.
    apply wp_bind. eapply wp_mono, (generate_ok 16); [| done | done | apply Hw | apply Hw].
    intros tr txt (Htl & Htb & Hr). set (s3 := set_node (Wi.set_chlg_txt txt (node s2)) s2).
    assert (Hw3 : node_ok (Wi.set_chlg_txt txt (node s2))) by (destruct Hw; by split).
    apply wp_bind. eapply wp_mono, (send_seq_ok cfgA HcA 2 _ s3); [| by left | apply Hb2 | done].
    intros tr' r [-> Hsend]. unfold set_ap_time. cbn [call ibind wp]. intros now. split_and!; try done.
    { by apply seq_node. }
    split; [done |]. exists tr, tr', now. by split_and!.
Qed.
End Exchange.

(** What a station makes of an answer to the first frame. *)
Lemma answer_refused hs m l s x : Auth.base (m :: hs) s -> (m ∉ hs) -> Msg.store (Ai.msg_que s) !! m = Some x ->
  answer (Msg.value x) = Ret (2, WF_80211_STATUS_NOT_SUPPORTED_AUTH_ALG) -> Wi.auth_algo (Ai.node s) = dot11AuthAlgrthm_Open ->
  exists s', on_answer2 m l s = Ret (again ASend1 l s') /\ Ai.node s' = Wi.set_auth_algo dot11AuthAlgrthm_Shared (Ai.node s) /\ Auth.base hs s'.
Proof.
  intros Hb Hn Hx Ha Ho. unfold on_answer2, Msg.msg_at. rewrite Hx. cbn [of_option cbind]. rewrite Ha. cbn [cbind].
  change (2 =? WF_80211_AUTH_SEQ_2) with true. rewrite Z.eqb_refl, Ho. change (dot11AuthAlgrthm_Open =? dot11AuthAlgrthm_Shared) with false. cbn iota.
  set (s1 := Ai.set_node _ s). destruct (Msg.use_del _ _ m (Auth.ba_inv _ _ Hb) ltac:(constructor)) as (que & Hdel & Hq & Hs & Hp & Hf).
  rewrite (Auth.msg_del_eq m s1 que) by done. cbn [cbind]. eexists. split; [done |]. split; [done |].
  rewrite Msg.without_head in Hq by done. destruct (Auth.ba_node _ _ Hb).
  split; [| exact Hq | apply Hb | by split]. apply (Request.que_ok_same (Ai.msg_que s)); [done | | by apply Hb].
  intros y Hy. cbn. rewrite Hf. apply elem_of_app. by left.
Qed.

(** C21: The shared-key exchange between two devices running this driver, frame by
    frame, the access point being set to shared keys and both having the same WEP
    keys.  A station begins with the open algorithm: the access point refuses that
    first frame with status 13 in a frame of number 2, ends its thread, and the
    station, which reads just that, turns to shared keys and sends its first frame
    again.  For a first frame that asks for shared keys the access point generates
    a challenge, sends it in a frame of number 2 and waits for the third.  The
    station reads number 2 and success from that frame, turns to the challenge and
    takes exactly it; the third frame it then builds passes the access point's
    checks; and it reads number 4 and success from the frame the access point then
    sends.  What earlier frames left in the message buffers ([stale]) does not
    matter. *)
Theorem shared_key_handshake {SC : StreamCipher} (cfgA cfgS : config) wa hs l s x gA t stale2 stale3 stale4 :
  cfg_ok cfgA -> cfg_ok cfgS -> node_ok wa -> globals_ok gA -> Wi.auth_algo wa = dot11AuthAlgrthm_Shared ->
  dot11AuthAlgrthm (sec_info cfgA) = dot11AuthAlgrthm_Shared ->
  dot11DefKey (sec_info cfgS) = dot11DefKey (sec_info cfgA) -> dot11DefKeylen (sec_info cfgS) = dot11DefKeylen (sec_info cfgA) ->
  Auth.base (pmsg l :: hs) s -> (pmsg l ∉ hs) -> Ai.retry_cnt s < 3 -> Wi.auth_algo (Ai.node s) = dot11AuthAlgrthm_Shared ->
  Msg.store (Ai.msg_que s) !! pmsg l = Some x ->
  let wa2 := Wi.set_auth_seq 2 wa in
  let wa4 := Wi.set_auth_seq 4 wa in
  Msg.value x = ap_frame cfgA wa2 0 ++ stale2 -> Msg.len x = Z.of_nat (length (ap_frame cfgA wa2 0)) ->
  (forall cur_bssid g sA m q x1 stale1 lb ws, node_ok ws -> Wi.auth_seq ws = 1 ->
     Wi.auth_algo ws = dot11AuthAlgrthm_Open \/ Wi.auth_algo ws = dot11AuthAlgrthm_Shared ->
     base g sA -> ap_msg sA = m :: q -> ApMsg.store (net sA) !! m = Some x1 -> ApMsg.tag x1 = ApMsg.WF_AP_MSG_TAG_AUTH_FRAME ->
     ApMsg.mgmt x1 = plain_frame cfgS ws 0 ++ stale1 ->
     wp (at_wait1 cfgA cur_bssid lb sA) (fun tr '(nxt, _, sA') =>
       node_ok (node sA') /\ Wi.auth_algo (node sA') = dot11AuthAlgrthm_Shared /\ Wi.auth_seq (node sA') = 2 /\ ap_msg sA' = q /\
       if Wi.auth_algo ws =? dot11AuthAlgrthm_Open
       then nxt = Return PT_EXITED PBegin /\ sends (ap_frame cfgA (node sA') WF_80211_STATUS_NOT_SUPPORTED_AUTH_ALG) tr
       else nxt = Goto PWait3 /\ exists tr0 tr1 now, tr = tr0 ++ tr1 ++ [(Clock, now)] /\ Forall (fun e => fst e = Rand32) tr0 /\
              sends (ap_frame cfgA (node sA') WF_80211_STATUS_SUCCESS) tr1)) /\
  (forall s1 m1 x1 stale1, Auth.base (m1 :: hs) s1 -> (m1 ∉ hs) -> Msg.store (Ai.msg_que s1) !! m1 = Some x1 ->
     Msg.value x1 = ap_frame cfgA wa2 WF_80211_STATUS_NOT_SUPPORTED_AUTH_ALG ++ stale1 -> Wi.auth_algo (Ai.node s1) = dot11AuthAlgrthm_Open ->
     exists s', on_answer2 m1 l s1 = Ret (again ASend1 l s') /\ Ai.node s' = Wi.set_auth_algo dot11AuthAlgrthm_Shared (Ai.node s1) /\ Auth.base hs s') /\
  answer (Msg.value x) = Ret (2, 0) /\ on_answer2 (pmsg l) l s = Ret (Goto ACheck2, l, s) /\
  (exists s' frame3 w' gS' gA' buf,
     at_check2 l s = Ret (Goto ASend3, l, s') /\
     auth_frame cfgS (head cfgS (Ai.node s') 0xB0 ++ drop 24 (pbuf cfgS)) (Ai.node s') (Ai.crc s') 0 = Ret (inr (frame3, w', gS')) /\
     check3 cfgA gA wa2 (ApMsg.mk_msg t (Z.of_nat (length frame3)) (frame3 ++ stale3)) = Ret (None, gA', buf)) /\
  answer (ap_frame cfgA wa4 0 ++ stale4) = Ret (4, 0).
Proof.
  intros HcA HcS Hwa HgA Ha Hmode Hkey Hkl Hb Hn Hr Hs Hx wa2 wa4 Hv Hlen.
  assert (Hw2 : node_ok wa2) by (by apply seq_node). assert (Hw4 : node_ok wa4) by (by apply seq_node).
  assert (E2 : ap_frame cfgA wa2 0 = challenge_frame cfgA wa2) by (unfold ap_frame; cbn; by rewrite Ha).
  assert (E4 : ap_frame cfgA wa4 0 = plain_frame cfgA wa4 0) by done.
  assert (Hl : length (challenge_frame cfgA wa2) = 160%nat).
  { unfold challenge_frame, Ies.enc. cbn [fmap list_fmap concat].
    rewrite app_nil_r, !length_app, length_header, length_fields, Ies.length_enc_ie by done. cbn [snd]. by rewrite (nd_len wa2 Hw2). }
  rewrite E2 in Hv, Hlen. rewrite Hl in Hlen.
  assert (Hans : answer (Msg.value x) = Ret (2, 0)).
  { rewrite Hv. unfold challenge_frame. rewrite app_assoc, <- app_assoc. by apply (answer_fields cfgA wa2). }
  split; [| split; [| split; [done | split; [| split]]]].
  - intros. by eapply (first_frame_met cfgA cfgS).
  - intros s1 m1 x1 stale1 Hb1 Hn1 Hx1 Hv1 Ho1. apply (answer_refused hs m1 l s1 x1); try done.
    rewrite Hv1. by apply (answer_fields cfgA wa2).
  - unfold on_answer2, Msg.msg_at. rewrite Hx. cbn [of_option cbind]. rewrite Hans, Hs. by destruct l.
  - destruct (challenge_taken cfgA wa2 HcA Hw2 hs l s x stale2 Hb Hn Hr Hx Hv Hlen) as (s' & Hck & Hn' & _ & Hcr).
    assert (Hws : node_ok (Ai.node s')).
    { rewrite Hn'. apply seq_node. destruct (Auth.ba_node _ _ Hb). split; cbn; [done | done | apply Hw2 | apply Hw2]. }
    assert (Hcrc : globals_ok (Ai.crc s')).
    { rewrite Hcr. apply Hb. }
    destruct (answer_accepted cfgA cfgS wa2 (Ai.node s') HcA HcS Hw2 Hws Hkey Hkl gA (Ai.crc s') t stale3)
      as (frame & w' & gS' & gA' & buf & H1 & H2 & H3); try done; try (by rewrite Hn').
    exists s', frame, w', gS', gA', buf. split; [done |]. split; [done |]. rewrite H2. exact H3.
  - rewrite E4. by apply (answer_fields cfgA wa4).
Qed.

(** ** Examples *)

Module Examples.
#[local] Existing Instance Arc4.arc4_cipher.
Import Auth.Examples.

Definition ap_cfg : config := mk_config ex_bss Wep.wit_sec 0 (replicate 168 0) (fun ms => ms).
Definition sta_node : Wi.wdn_net_info_st := Wi.set_mode WF_MASTER_MODE (Wi.set_mac ex_addr (Wi.set_bssid ex_bss Wi.zero)).
Definition ap_new : ap_node := An.mk sta_node 0 [] (Timer.mk_timer 0 0 0) 0 0 0 ApMsg.ex_pool crc_globals0.
Definition ap_ghost : ghost := mk_ghost [] ApMsg.ex_ms.

Lemma ap_cfg_ok : cfg_ok ap_cfg.
Proof. split; [split; [done | by apply bytes_okb_ok] | apply Wep.wit_sec_ok | | cbn; lia]. repeat constructor; lia. Qed.
Lemma sta_node_ok : node_ok sta_node.
Proof. split; first [done | by apply bytes_okb_ok | split; [done | by apply bytes_okb_ok]]. Qed.
Lemma ap_bss_ok : Mgmt.addr_ok ex_bss.
Proof. split; [done | by apply bytes_okb_ok]. Qed.

(** Messages that are all zero. *)
Definition is_zero (x : ApMsg.wf_ap_msg_t) : bool := (ApMsg.len x =? 0) && forallb (Z.eqb 0) (ApMsg.mgmt x).

Lemma zero_ok x : is_zero x = true -> msg_ok x.
Proof.
  unfold is_zero. intros [Hl%Z.eqb_eq Hz]%andb_prop. rewrite forallb_forall in Hz.
  assert (H0 : forall v, v ∈ ApMsg.mgmt x -> v = 0) by (intros v Hv%list_elem_of_In; specialize (Hz v Hv); lia).
  split.
  - apply list.Forall_forall. intros v Hv. rewrite (H0 v Hv). by vm_compute.
  - intros _. split; [lia |]. intros fc. destruct (ApMsg.mgmt x) as [| a [| b r]]; [done | done |].
    unfold Mgmt.frame_control, Mgmt.get16. rewrite slice_Ret by (cbn; lia). rewrite (H0 a), (H0 b) by set_solver.
    intros [= <-]. by vm_compute.
Qed.

Lemma ap_new_base : base ap_ghost ap_new.
Proof.
  assert (Hr : ApMsg.reach ApMsg.ex_ms [] ApMsg.ex_pool [[]]).
  { apply (ApMsg.reach_new ApMsg.ex_ms [] ApMsg.ex_pool []). apply ApMsg.reach_init; [apply NoDup_seqZ | done | by vm_compute]. }
  destruct (ApMsg.pool_reach _ _ _ _ Hr) as (_ & Hp & Hm). rewrite app_nil_r in Hm. split; [exact Hp | exact Hm | | by left | apply sta_node_ok].
  assert (Hz : map_Forall (fun _ x => is_zero x = true) (ApMsg.store ApMsg.ex_pool)) by (apply (bool_decide_unpack _); by vm_compute).
  intros m x Hx. apply zero_ok. exact (Hz m x Hx).
Qed.

(** A running access point. *)
Definition sys : Type := label * ap_node.
Definition bl (x : sys) : label := fst x.
Definition st (x : sys) : ap_node := snd x.
Definition ok (x : sys) : Prop := reach ap_cfg ex_bss (bl x) (st x) ap_ghost.
Definition fuel : nat := 20.
Definition run_of (x : sys) (ans : list Z) : option (list (ev * Z) * (pt_ret * label * unit * ap_node)) :=
  exec (wf_auth_ap_thrd ap_cfg ex_bss fuel (bl x) (st x)) ans.
Definition result (x : sys) (ans : list Z) : list (ev * Z) * (pt_ret * label * unit * ap_node) :=
  default ([], (PT_WAITING, PBegin, tt, st x)) (run_of x ans).
Definition go (ans : list Z) (x : sys) : sys := let '(_, (_, b, _, s)) := result x ans in (b, s).
Definition got (frame : list Z) (x : sys) : sys :=
  match auth_ap_recv ap_cfg true None frame (st x) with Ret (_, s) => (bl x, s) | _ => x end.

Lemma ap_go_ok ans x : ok x -> bool_decide (is_Some (run_of x ans)) = true -> (length (ap_msg (st x)) <=? 5)%nat = true -> ok (go ans x).
Proof.
  intros Hx Hs%bool_decide_eq_true Hl%Nat.leb_le. unfold ok, go, result. destruct (run_of x ans) as [[tr [[[r b] []] s]] |] eqn:E; [| by destruct Hs].
  cbn. eapply (reach_call ap_cfg ex_bss fuel (bl x) (st x) ap_ghost tr r); [exact Hx | by apply (exec_runs _ ans) | unfold fuel; lia].
Qed.

Lemma ap_got_ok frame x : ok x -> frame_ok frame -> ok (got frame x).
Proof.
  intros Hx Hf. unfold ok, got. destruct (auth_ap_recv ap_cfg true None frame (st x)) as [[r s] | |] eqn:E; [| done | done].
  by apply (reach_recv ap_cfg ex_bss (bl x) (st x) ap_ghost frame r).
Qed.

(** The frames of the station: the first, and the third, for the challenge the
    access point made. *)
Definition frame1 : list Z := head ex_cfg ex_node 0xB0 ++ auth_fields 1 1 0.
Definition ap1 : sys := Eval vm_compute in got frame1 (PBegin, ap_new).
Definition ap2 : sys := Eval vm_compute in go (seqZ 1000 20) ap1.
Definition asked : Wi.wdn_net_info_st :=
  Wi.set_auth_seq 3 (Wi.set_auth_algo 1 (Wi.set_chlg_txt (Wi.chlg_txt (node (st ap2))) ex_node)).
Definition frame3 : list Z := Eval vm_compute in
  match auth_frame ex_cfg (head ex_cfg asked 0xB0 ++ drop 24 (pbuf ex_cfg)) asked crc_globals0 0 with
  | Ret (inr (frame, _, _)) => frame
  | _ => []
  end.
Definition ap3 : sys := Eval vm_compute in got frame3 ap2.

Lemma checked_frame frame : bytes_okb frame = true -> (32 <=? length frame)%nat = true -> frame_ok frame.
Proof. intros Hb Hl%Nat.leb_le. split; [by apply bytes_okb_ok |]. split; [lia |]. intros. lia. Qed.

Lemma ap1_ok : ok ap1.
Proof.
  apply (ap_got_ok frame1 (PBegin, ap_new)); [by apply (reach_new ap_cfg ex_bss ap_new ap_ghost), ap_new_base |].
  split; [by apply bytes_okb_ok |]. split; [by vm_compute; lia |]. intros fc. vm_compute. by intros [= <-].
Qed.
Lemma ap2_ok : ok ap2.
Proof. apply (ap_go_ok (seqZ 1000 20) ap1); [exact ap1_ok | by vm_compute | by vm_compute]. Qed.
Lemma ap3_ok : ok ap3.
Proof. apply (ap_got_ok frame3 ap2); [exact ap2_ok | by apply checked_frame]. Qed.

Lemma challenge_accepted_iff_witness :
  exists ctx mid, Wep.wep_stream (sec_info ap_cfg) (Wep.iv_at (take 28 frame3) 24) = Ret ctx /\ length mid = 4%nat /\
    drop 28 frame3 = (sc_crypt ctx (response (node (st ap3)) mid ++ Wep.icv_of (response (node (st ap3)) mid))).2.
Proof.
  destruct (challenge_accepted_iff ap_cfg ap_cfg_ok crc_globals0 (node (st ap3)) 0 (take 28 frame3) (drop 28 frame3) [])
    as (r & g' & buf & fc & ctx & H & _ & Hctx & Hiff); [by left | | by vm_compute | done | by apply bytes_okb_ok | done | by apply bytes_okb_ok |].
  { split; first [by vm_compute | by apply bytes_okb_ok | split; [done | by apply bytes_okb_ok]]. }
  assert (Hr : r = None) by (vm_compute in H; by injection H as <- _ _).
  apply Hiff in Hr as (_ & mid & Hm & Hb). exists ctx, mid. split; [exact Hctx |]. split; [exact Hm | exact Hb].
Defined.

Lemma ap_on_run x ans tr r b p s (Q : list (ev * Z) -> pt_ret * label * unit * ap_node -> Prop) :
  wp (wf_auth_ap_thrd ap_cfg ex_bss fuel (bl x) (st x)) Q -> run_of x ans = Some (tr, (r, b, p, s)) -> Q tr (r, b, p, s).
Proof. intros Hw He. apply (wp_runs _ _ _ _ Hw). by apply (exec_runs _ ans). Qed.

Definition how (o : option (list (ev * Z) * (pt_ret * label * unit * ap_node))) : option (pt_ret * label) :=
  option_map (fun x => (fst (fst (fst (snd x))), snd (fst (fst (snd x))))) o.

Lemma ap_auth_call_witness :
  exists tr r b' p s', run_of ap1 (seqZ 1000 20) = Some (tr, (r, b', p, s')) /\ Some (r, b') = Some (PT_YIELDED, PWait3) /\
    ApMsg.messages (net s') [ap_msg s'] ≡ₚ ApMsg.ex_ms.
Proof.
  pose proof (ap_auth_call ap_cfg ex_bss ap_cfg_ok ap_bss_ok fuel (bl ap1) (st ap1) ap_ghost ap1_ok ltac:(by vm_compute)) as Hw.
  assert (H : how (run_of ap1 (seqZ 1000 20)) = Some (PT_YIELDED, PWait3)) by (by vm_compute).
  destruct (run_of ap1 (seqZ 1000 20)) as [[tr [[[r b'] p] s']] |] eqn:E; [| discriminate H].
  exists tr, r, b', p, s'. split; [reflexivity |]. split; [exact H |].
  destruct (ap_on_run ap1 (seqZ 1000 20) tr r b' p s' _ Hw E) as (_ & Hm & _). exact Hm.
Defined.

Definition msg3 : ApMsg.wf_ap_msg_t := Eval vm_compute in
  default (ApMsg.zeros 0) (ApMsg.store (net (st ap3)) !! hd 0 (ap_msg (st ap3))).
Lemma seq4_sent_twice_witness :
  exists m q, ap_msg (st ap3) = m :: q /\
    wp (wf_auth_ap_thrd ap_cfg ex_bss 3 PWait3 (st ap3)) (fun tr '(r, b, _, s') =>
      r = PT_YIELDED /\ ap_msg s' = m :: q /\ sends (ap_frame ap_cfg (Wi.set_auth_seq 4 (node (st ap3))) 0) (tail tr)).
Proof.
  exists (hd 0 (ap_msg (st ap3))), (tail (ap_msg (st ap3))). split; [by vm_compute |].
  assert (H : match check3 ap_cfg (crc (st ap3)) (node (st ap3)) msg3 with Ret (r, _, _) => r | _ => Some 0 end = None) by (by vm_compute).
  destruct (check3 ap_cfg (crc (st ap3)) (node (st ap3)) msg3) as [[[r c] buf] | |] eqn:E; [| discriminate H | discriminate H].
  rewrite H in E.
  eapply wp_mono, (seq4_sent_twice ap_cfg ex_bss ap_cfg_ok ap_bss_ok 0 (st ap3) ap_ghost (hd 0 (ap_msg (st ap3))) (tail (ap_msg (st ap3))) msg3 c buf ap3_ok);
    [| by vm_compute | by vm_compute | done | exact E].
  intros tr [[[r' b'] p] s'] (H1 & _ & H2 & H3 & _). split; [exact H1 |]. split; [exact H2 | exact H3].
Defined.

(** A station that has received the second frame of the access point. *)
Definition challenge : list (Z * list Z) := [(16, Wi.chlg_txt (node (st ap2)))].
Definition sta_got : Auth.Examples.sys := Eval vm_compute in Auth.Examples.ex_sys (Auth.Examples.got 1 2 0 challenge ex3).
Lemma sta_got_ok : Auth.Examples.ok sta_got.
Proof. apply (Auth.Examples.got_ok 1 2 0 challenge ex3); [exact ex3_ok | by apply ex_frame_ok | by vm_compute]. Qed.

Definition sta_msg : Msg.wf_msg_t (list Z) := Eval vm_compute in
  default (Msg.mk_msg None 0 0 0 []) (Msg.store (Ai.msg_que (Auth.Examples.st sta_got)) !! hd 0 (Msg.pend (Ai.msg_que (Auth.Examples.st sta_got)))).

Lemma shared_key_handshake_witness :
  exists f3 gA' buf, check3 ap_cfg crc_globals0 (Wi.set_auth_seq 2 (node (st ap2))) (ApMsg.mk_msg 0 (Z.of_nat (length f3)) (f3 ++ [])) = Ret (None, gA', buf).
Proof.
  destruct (first_answer ex_cfg sta_ex_cfg_ok AWait2 (Auth.Examples.st sta_got) (Auth.Examples.en sta_got)
              (hd 0 (Msg.pend (Ai.msg_que (Auth.Examples.st sta_got)))) [] sta_msg sta_got_ok ltac:(by vm_compute) ltac:(by vm_compute))
    as (que & que' & x' & Hpo & Hx' & _ & Hv & Hl).
  set (m := hd 0 (Msg.pend (Ai.msg_que (Auth.Examples.st sta_got)))) in *.
  assert (Hw : node_ok (node (st ap2))).
  { split; first [by vm_compute | by apply bytes_okb_ok | split; [done | by apply bytes_okb_ok]]. }
  destruct (shared_key_handshake ap_cfg ex_cfg (node (st ap2)) [] (set_pmsg m locals0) (Ai.set_msg_que que (Auth.Examples.st sta_got)) x'
              crc_globals0 0 (drop 160 (Msg.value sta_msg)) [] [] ap_cfg_ok sta_ex_cfg_ok Hw ltac:(by left) eq_refl eq_refl eq_refl eq_refl)
    as (_ & _ & _ & _ & (s' & f3 & w' & gS' & gA' & buf & _ & _ & H) & _);
    [exact (po_held _ _ _ _ _ _ Hpo) | exact (po_new _ _ _ _ _ _ Hpo) | by vm_compute | by vm_compute | exact Hx'
      | rewrite Hv; by vm_compute | rewrite Hl; by vm_compute |].
  exists f3, gA', buf. exact H.
Defined.

End Examples.
End AuthAp.
