(* ===== verification/Assoc.v ===== *)
(** * Association of a station ([nic/assoc.c])

    The association request and the protothread that associates a station, on
    the request queue through which it is started, stopped and given the
    answers received. *)
From S2P Require Import Prelude WdnTypes Ies Timer Msg Io Mgmt Request.

Module Assoc.
Import Io.

Definition WF_ASSOC_TAG_RSP : Z := Msg.WF_MSG_TAG_SET 0 0 0.
Definition WF_ASSOC_TAG_ABORT : Z := Msg.WF_MSG_TAG_SET 0 1 0.
Definition WF_ASSOC_TAG_START : Z := Msg.WF_MSG_TAG_SET 0 2 0.
Definition WF_ASSOC_TAG_DONE : Z := WF_ASSOC_TAG_START + 1.
Definition ASSOC_REQ_RESEND_TIMES : Z := 3.
Definition ASSOC_RSP_TIMEOUT : Z := 50.
Definition WLANHDR_OFFSET : Z := 64.
Definition WIFI_ASSOCREQ : Z := 0.
Definition WF_80211_MGMT_EID_SSID : Z := 0.
Definition WF_80211_MGMT_EID_SUPP_RATES : Z := 1.
Definition WF_80211_MGMT_EID_HT_CAPABILITY : Z := 45.
Definition WF_80211_MGMT_EID_RSN : Z := 48.
Definition WF_80211_MGMT_EID_EXT_SUPP_RATES : Z := 50.
Definition WF_80211_MGMT_EID_VENDOR_SPECIFIC : Z := 221.
Definition WMM_IE : list Z := [0x00; 0x50; 0xf2; 0x02; 0x00; 0x01; 0x00].
Definition MLME_STATE_ASSOC : Z := 3.
(** [WF_80211_IES_SIZE_MAX], [sizeof(assoc_rsp_t)] and the offsets of
    [assoc_req.listen_interval] and [assoc_resp.variable]. *)
Definition WF_80211_IES_SIZE_MAX : Z := 768.
Definition ASSOC_RSP_SIZE : Z := 796.
Definition LISTEN_OFS : Z := 26.
Definition VARIABLE_OFS : Z := 30.

Inductive ev : Type :=
  | ExtbufNew
  | FindWdn
  | MgmtXmit (frame : list Z)
  | HwTrylock | HwUnlock | Clock.

(** What is read of other structures: the own address, the switches and the
    element of [sec_info], the radio's 802.11n support, the last seven bytes of
    [ht_cap], what [wf_p2p_fill_assoc_req] appends (nothing without a
    peer-to-peer interface) and what a transmit buffer holds behind its
    descriptor. *)
Record config : Type := mk_config {
  local_addr : list Z;
  wpa_enable : bool;
  rsn_enable : bool;
  supplicant_ie : list Z;
  dot80211n_support : bool;
  ht_cap_tail : list Z;
  p2p_ies : list Z;
  pbuf : list Z;
  msecs_to_timestamp : Z -> Z;
}.

(** The fields of [cur_network] and [assoc_info_t], with the node of the current
    network. *)
Module As.
Record assoc_info_t : Type := mk {
  node : Wi.wdn_net_info_st;
  aid : Z;
  req_ie : list Z;
  req_len : Z;
  resp_ie : list Z;
  resp_len : Z;
  retry_cnt : Z;
  timer : Timer.wf_timer_t;
  brun : bool;
  msg_que : Msg.wf_msg_que_t (list Z);
}.

Definition set_node (v : Wi.wdn_net_info_st) (r : assoc_info_t) : assoc_info_t :=
  mk v (aid r) (req_ie r) (req_len r) (resp_ie r) (resp_len r) (retry_cnt r) (timer r) (brun r) (msg_que r).
Definition set_req (ie : list Z) (n : Z) (r : assoc_info_t) : assoc_info_t :=
  mk (node r) (aid r) ie n (resp_ie r) (resp_len r) (retry_cnt r) (timer r) (brun r) (msg_que r).
Definition set_resp (a : Z) (ie : list Z) (n : Z) (r : assoc_info_t) : assoc_info_t :=
  mk (node r) a (req_ie r) (req_len r) ie n (retry_cnt r) (timer r) (brun r) (msg_que r).
Definition set_retry_cnt (v : Z) (r : assoc_info_t) : assoc_info_t :=
  mk (node r) (aid r) (req_ie r) (req_len r) (resp_ie r) (resp_len r) v (timer r) (brun r) (msg_que r).
Definition set_timer (v : Timer.wf_timer_t) (r : assoc_info_t) : assoc_info_t :=
  mk (node r) (aid r) (req_ie r) (req_len r) (resp_ie r) (resp_len r) (retry_cnt r) v (brun r) (msg_que r).
Definition set_brun (v : bool) (r : assoc_info_t) : assoc_info_t :=
  mk (node r) (aid r) (req_ie r) (req_len r) (resp_ie r) (resp_len r) (retry_cnt r) (timer r) v (msg_que r).
Definition set_msg_que (v : Msg.wf_msg_que_t (list Z)) (r : assoc_info_t) : assoc_info_t :=
  mk (node r) (aid r) (req_ie r) (req_len r) (resp_ie r) (resp_len r) (retry_cnt r) (timer r) (brun r) v.
End As.
Import As.

(** ** The request *)

(** The bytes of [ht_cap]. *)
Definition ht_cap_bytes (cfg : config) (w : Wi.wdn_net_info_st) : list Z :=
  let c := Wi.ht_cap w in
  le_bytes 2 (HtCap.cap_info c) ++ [HtCap.ampdu_params_info c] ++ HtCap.supp_mcs_set c ++ ht_cap_tail cfg.

(** One call of [set_ie], if its condition holds: identifier, length, source. *)
Definition put_call : Type := bool * (Z * Z * list Z).

Definition elements (cfg : config) (w : Wi.wdn_net_info_st) (pie_len : Z) : list put_call :=
  let pie_data := drop 2 (supplicant_ie cfg) in
  [(true, (WF_80211_MGMT_EID_SSID, Wi.ssid_len w, Wi.ssid w));
   (true, (WF_80211_MGMT_EID_SUPP_RATES, Wi.datarate_len w, Wi.datarate w));
   (0 <? Wi.ext_datarate_len w, (WF_80211_MGMT_EID_EXT_SUPP_RATES, Wi.ext_datarate_len w, Wi.ext_datarate w));
   (wpa_enable cfg, (WF_80211_MGMT_EID_VENDOR_SPECIFIC, pie_len, pie_data));
   (negb (wpa_enable cfg) && rsn_enable cfg, (WF_80211_MGMT_EID_RSN, pie_len, pie_data));
   (nz (Wi.wmm_enable w), (WF_80211_MGMT_EID_VENDOR_SPECIFIC, 7, WMM_IE));
   (nz (Wi.ht_enable w) && dot80211n_support cfg, (WF_80211_MGMT_EID_HT_CAPABILITY, 26, ht_cap_bytes cfg w))].

(** [buf], [pframe] and [pkt_len] after the calls. *)
Fixpoint put_elements (buf : list Z) (pos frlen : Z) (l : list put_call) : C (list Z * Z * Z) :=
  match l with
  | [] => Ret (buf, pos, frlen)
  | (true, (id, len, src)) :: l =>
      letc (buf, pos, frlen) := Ies.set_ie buf pos id len src frlen in
      put_elements buf pos frlen l
  | (false, _) :: l => put_elements buf pos frlen l
  end.

(** The frame built in [buf], and its length. *)
Definition associate_frame (cfg : config) (buf : list Z) (w : Wi.wdn_net_info_st) : C (list Z * Z) :=
  letc buf := Mgmt.write_hdr buf WLANHDR_OFFSET WIFI_ASSOCREQ (Wi.mac w) (local_addr cfg) (Wi.bssid w) in
  letc buf := blit buf 24 (le_bytes 2 (Wi.cap_info w)) in
  letc buf := blit buf 26 (le_bytes 2 (Wi.listen_interval w)) in
  letc pie_len := rd (supplicant_ie cfg) 1 in
  letc (buf, pos, pkt_len) := put_elements buf 28 28 (elements cfg w pie_len) in
  letc buf := blit buf pos (p2p_ies cfg) in
  Ret (buf, u32 (pkt_len + Z.of_nat (length (p2p_ies cfg)))).

(** [associate_xmit_frame]; the result of the transmission is not looked at, and
    the elements are kept in [cur_network] from the buffer handed over. *)
Definition associate_xmit_frame (cfg : config) (s : assoc_info_t) : io ev (Z * assoc_info_t) :=
  let! b := call ExtbufNew in
  if negb (nz b) then iret (-1, s)
  else
    let! found := call FindWdn in
    if negb (nz found) then iret (-2, s)
    else
      let! (buf, pkt_len) := lift (associate_frame cfg (pbuf cfg) (node s)) in
      let! frame := lift (slice buf 0 (u16 pkt_len)) in
      do! call (MgmtXmit frame) in
      let ie_len := u32 (pkt_len - LISTEN_OFS) in
      let! src := lift (slice buf LISTEN_OFS ie_len) in
      let! ie := lift (blit (req_ie s) 0 src) in
      iret (0, set_req ie ie_len s).

(** ** The thread *)

Inductive label : Type := SBegin | SLock | SStart | SSend | SWait | SExit.

Record locals : Type := mk_locals { reason : Z; prsn : option Z }.
Definition locals0 : locals := mk_locals WF_ASSOC_TAG_DONE None.
Definition set_reason (v : Z) (l : locals) : locals := mk_locals v (prsn l).
Definition set_prsn (v : Z) (l : locals) : locals := mk_locals (reason l) (Some v).

Definition step : Type := next label * locals * assoc_info_t.

Section Thread.
Context (cfg : config).

Definition msg_del (m : Z) (s : assoc_info_t) : C assoc_info_t :=
  letc (_, q) := Msg.wf_msg_del (msg_que s) m in
  Ret (set_msg_que q s).

Definition again (l : locals) (s : assoc_info_t) : step :=
  (Goto SSend, l, set_retry_cnt (u8 (retry_cnt s + 1)) s).

Definition at_start (l : locals) (s : assoc_info_t) : io ev step :=
  let! (_, pmsg, q) := lift (Msg.wf_msg_pop (msg_que s)) in
  let s := set_msg_que q s in
  match pmsg with
  | None =>
      do! call HwUnlock in
      iret (Return PT_EXITED SBegin, set_prsn (-1) l, s)
  | Some m =>
      let tag := Msg.tag_of q m in
      let! s := lift (msg_del m s) in
      if negb (tag =? WF_ASSOC_TAG_START) then iret (Return PT_YIELDED SStart, l, s)
      else iret (Goto SSend, l, set_retry_cnt 0 (set_brun true s))
  end.

Definition at_send (l : locals) (s : assoc_info_t) : io ev step :=
  if retry_cnt s <? ASSOC_REQ_RESEND_TIMES then
    let! (rst, s) := associate_xmit_frame cfg s in
    if nz rst then iret (Goto SExit, set_reason (-2) l, s)
    else
      let! now := call Clock in
      iret (Goto SWait, l, set_timer (Timer.wf_timer_set (msecs_to_timestamp cfg) now ASSOC_RSP_TIMEOUT (timer s)) s)
  else iret (Goto SExit, l, s).

(** An answer: if it accepts, its identifier and elements are kept. *)
Definition on_answer (m : Z) (l : locals) (s : assoc_info_t) : C step :=
  letc x := Msg.msg_at (msg_que s) m in
  let mgmt_len := u16 (Msg.len x) in
  letc status := Mgmt.get16 (Msg.value x) 26 in
  if negb (nz status) then
    letc a := Mgmt.get16 (Msg.value x) 28 in
    let ie_len := u32 (mgmt_len - VARIABLE_OFS) in
    letc src := slice (Msg.value x) VARIABLE_OFS ie_len in
    letc ie := blit (resp_ie s) 0 src in
    letc s := msg_del m (set_resp a ie ie_len s) in
    Ret (Goto SExit, set_reason WF_ASSOC_TAG_DONE l, s)
  else
    letc s := msg_del m s in
    Ret (again l s).

Definition at_wait (l : locals) (s : assoc_info_t) : io ev step :=
  let! (_, pmsg, q) := lift (Msg.wf_msg_pop (msg_que s)) in
  let s := set_msg_que q s in
  match pmsg with
  | None =>
      let! now := call Clock in
      iret (if Timer.wf_timer_expired now (timer s) then again l s else (Return PT_WAITING SWait, l, s))
  | Some m =>
      let tag := Msg.tag_of q m in
      if tag =? WF_ASSOC_TAG_ABORT then
        let! s := lift (msg_del m s) in
        iret (Goto SExit, set_reason WF_ASSOC_TAG_ABORT l, s)
      else if tag =? WF_ASSOC_TAG_RSP then lift (on_answer m l s)
      else
        let! s := lift (msg_del m s) in
        iret (Goto SWait, l, s)
  end.

Definition at_exit (l : locals) (s : assoc_info_t) : io ev step :=
  let l := if retry_cnt s =? ASSOC_REQ_RESEND_TIMES then set_reason (-3) l else l in
  let s := set_brun false s in
  do! call HwUnlock in
  iret (Return (if nz (reason l) then PT_EXITED else PT_ENDED) SBegin, set_prsn (reason l) l, s).

Definition block (b : label) (l : locals) (s : assoc_info_t) : io ev step :=
  match b with
  | SBegin => iret (Goto SLock, l, s)
  | SLock =>
      let! busy := call HwTrylock in
      iret (if nz busy then Return PT_WAITING SLock else Goto SStart, l, s)
  | SStart => at_start l s
  | SSend => at_send l s
  | SWait => at_wait l s
  | SExit => at_exit l s
  end.

Definition wf_assoc_sta_thrd (fuel : nat) (b : label) (s : assoc_info_t)
    : io ev (pt_ret * label * option Z * assoc_info_t) := blocks block prsn fuel b locals0 s.

(** ** Requests from outside *)

Definition request (back : bool) (tag enew epush : Z) (s : assoc_info_t) : C (Z * assoc_info_t) :=
  letc (r, q) := Request.request back tag enew epush (msg_que s) in
  Ret (r, set_msg_que q s).

Definition wf_assoc_start (can_run is_up : bool) (s : assoc_info_t) : C (Z * assoc_info_t) :=
  if negb can_run then Ret (-1, s)
  else if negb is_up then Ret (-2, s)
  else request false WF_ASSOC_TAG_START (-3) (-4) s.

Definition wf_assoc_stop (can_run is_up : bool) (s : assoc_info_t) : C (Z * assoc_info_t) :=
  if negb can_run then Ret (-1, s)
  else if negb is_up then Ret (-2, s)
  else if negb (brun s) then Ret (-3, s)
  else request true WF_ASSOC_TAG_ABORT (-4) (-5) s.

(** [wf_assoc_frame_parse] of a frame from the node [w]; [state] is the one of
    the management thread and [cur_bssid] the current network. *)
Definition wf_assoc_frame_parse (state : Z) (cur_bssid : list Z) (w : option Wi.wdn_net_info_st) (frame : list Z)
    (s : assoc_info_t) : C (Z * assoc_info_t) :=
  let mgmt_len := Z.of_nat (length frame) in
  if mgmt_len =? 0 then Ret (-1, s)
  else if negb (state =? MLME_STATE_ASSOC) then Ret (-2, s)
  else
    match w with
    | None => Ret (-3, s)
    | Some w =>
        letc d := Mgmt.da frame in
        if negb (bytes_eqb d (local_addr cfg)) || negb (bytes_eqb (Wi.bssid w) cur_bssid) then Ret (-4, s)
        else if ASSOC_RSP_SIZE <? mgmt_len then Ret (-5, s)
        else
          letc (r, q) := Request.deliver WF_ASSOC_TAG_RSP frame (msg_que s) in
          Ret (r, set_msg_que q s)
    end.

(** [wf_assoc_init] *)
Definition wf_assoc_init (a : list (option Z)) (b c : option Z) (s : assoc_info_t) : C (Z * assoc_info_t) :=
  letc (r, q) := Request.msg_init WF_ASSOC_TAG_RSP ASSOC_RSP_SIZE WF_ASSOC_TAG_ABORT WF_ASSOC_TAG_START a b c in
  Ret (if nz r then -3 else 0, set_msg_que q (set_brun false s)).
End Thread.

(** ** The frame *)

Definition prefix_ok (len : Z) (l : list Z) : Prop := 0 <= len <= Z.of_nat (length l) /\ bytes_ok l.

Record cfg_ok (cfg : config) : Prop := {
  cf_local : Mgmt.addr_ok (local_addr cfg);
  cf_ie : (2 <= length (supplicant_ie cfg) <= 256)%nat;
  cf_ie_bytes : bytes_ok (supplicant_ie cfg);
  cf_ie_len : nthZ (supplicant_ie cfg) 1 <= Z.of_nat (length (supplicant_ie cfg)) - 2;
  cf_tail : length (ht_cap_tail cfg) = 7%nat;
  cf_tail_bytes : bytes_ok (ht_cap_tail cfg);
  cf_p2p : (length (p2p_ies cfg) <= 449)%nat;
  cf_buf : (820 <= length (pbuf cfg))%nat;
}.

Record node_ok (w : Wi.wdn_net_info_st) : Prop := {
  nd_mac : Mgmt.addr_ok (Wi.mac w);
  nd_bssid : Mgmt.addr_ok (Wi.bssid w);
  nd_ssid : prefix_ok (Wi.ssid_len w) (Wi.ssid w) /\ (length (Wi.ssid w) <= 32)%nat;
  nd_rate : prefix_ok (Wi.datarate_len w) (Wi.datarate w) /\ (length (Wi.datarate w) <= 8)%nat;
  nd_ext : prefix_ok (Wi.ext_datarate_len w) (Wi.ext_datarate w) /\ (length (Wi.ext_datarate w) <= 4)%nat;
  nd_mcs : length (HtCap.supp_mcs_set (Wi.ht_cap w)) = 16%nat;
  nd_mcs_bytes : bytes_ok (HtCap.supp_mcs_set (Wi.ht_cap w));
  nd_ampdu : is_u8 (HtCap.ampdu_params_info (Wi.ht_cap w));
}.

(** The elements the calls write. *)
Definition call_ok (c : put_call) : Prop :=
  let '(_, (id, len, src)) := c in is_u8 id /\ 0 <= len < 256 /\ prefix_ok len src.

Definition written (l : list put_call) : list Ies.ie :=
  flat_map (fun '(b, (id, len, src)) => if b : bool then [(id, take (Z.to_nat len) src)] else []) l.

Lemma set_ie_prefix buf pos id len src n : prefix_ok len src ->
  Ies.set_ie buf pos id len src n = Ies.set_ie buf pos id len (take (Z.to_nat len) src) n.
Proof.
  intros [Hl _]. unfold Ies.set_ie. destruct (wr buf pos id) as [b | |]; cbn [cbind]; try done.
  destruct (wr b (pos + 1) len) as [b' | |]; cbn [cbind]; try done. destruct (0 <? len); [| done].
  rewrite !slice_Ret by (rewrite ?length_take; lia). change (Z.to_nat 0) with 0%nat. rewrite !drop_0. by rewrite take_take, Nat.min_id.
Qed.

Lemma put_elements_eq l : Forall call_ok l -> forall a rest,
  (length (Ies.enc (written l)) <= length rest)%nat -> Z.of_nat (length a) + Z.of_nat (length (Ies.enc (written l))) < 65536 ->
  put_elements (a ++ rest) (Z.of_nat (length a)) (Z.of_nat (length a)) l =
    let a' := a ++ Ies.enc (written l) in
    Ret (a' ++ drop (length (Ies.enc (written l))) rest, Z.of_nat (length a'), Z.of_nat (length a')).
Proof.
  induction 1 as [| [b [[id len] src]] l Hc _ IH]; intros a rest Hr Hm.
  { cbn. by rewrite app_nil_r. }
  destruct b; [| by apply IH]. destruct Hc as (Hid & Hlen & Hp). pose proof Hp as [Hl Hb].
  change (written ((true, (id, len, src)) :: l)) with ((id, take (Z.to_nat len) src) :: written l) in *.
  set (e := (id, take (Z.to_nat len) src)). fold e in Hr, Hm. cbn [put_elements]. rewrite set_ie_prefix by done.
  assert (Hle : length (snd e) = Z.to_nat len) by (cbn [e snd]; rewrite length_take; lia).
  rewrite Ies.enc_cons, length_app, Ies.length_enc_ie, Hle in Hr, Hm.
  change id with (fst e). replace len with (Z.of_nat (length (snd e))) at 1 by lia. change (take (Z.to_nat len) src) with (snd e).
  rewrite Ies.set_ie_append; [| | done | lia | lia | lia].
  2: { split; [done |]. rewrite Hle. split; [lia |]. by apply Forall_take. }
  cbn [cbind]. replace (Z.of_nat (length a) + _) with (Z.of_nat (length (a ++ Ies.enc_ie e))) by (rewrite length_app; lia).
  rewrite app_assoc, IH; rewrite ?length_drop, ?length_app, ?Ies.length_enc_ie, ?Hle; [| lia | lia].
  cbn zeta. rewrite Ies.enc_cons, drop_drop, !length_app, Ies.length_enc_ie, Hle, <- !app_assoc.
  apply f_equal, (f_equal2 pair); [apply (f_equal2 pair) |]; first [done | lia].
Qed.
(** The request as a sequence of bytes. *)
Definition pie_len (cfg : config) : Z := nthZ (supplicant_ie cfg) 1.

Definition fixed (cfg : config) (w : Wi.wdn_net_info_st) : list Z :=
  Mgmt.hdr WIFI_ASSOCREQ (Wi.mac w) (local_addr cfg) (Wi.bssid w) ++ le_bytes 2 (Wi.cap_info w) ++ le_bytes 2 (Wi.listen_interval w).

Definition associate_bytes (cfg : config) (w : Wi.wdn_net_info_st) : list Z :=
  fixed cfg w ++ Ies.enc (written (elements cfg w (pie_len cfg))) ++ p2p_ies cfg.

Section Frame.
Context (cfg : config) (w : Wi.wdn_net_info_st).
Hypothesis Hc : cfg_ok cfg.
Hypothesis Hw : node_ok w.

Lemma length_fixed : length (fixed cfg w) = 28%nat.
Proof. unfold fixed. rewrite !length_app, !length_le_bytes, Mgmt.length_hdr; [done | apply Hw | apply Hc | apply Hw]. Qed.

Lemma length_ht_cap : length (ht_cap_bytes cfg w) = 26%nat.
Proof. unfold ht_cap_bytes. rewrite !length_app, length_le_bytes, (nd_mcs _ Hw), (cf_tail _ Hc). done. Qed.

Lemma ht_cap_bytes_ok : bytes_ok (ht_cap_bytes cfg w).
Proof.
  unfold ht_cap_bytes. rewrite !bytes_ok_app. split_and!; [apply le_bytes_ok | | apply Hw | apply Hc].
  constructor; [apply Hw | constructor].
Qed.

Lemma pie_len_range : 0 <= pie_len cfg < 256 /\ prefix_ok (pie_len cfg) (drop 2 (supplicant_ie cfg)).
Proof.
  pose proof (cf_ie cfg Hc) as Hl. pose proof (cf_ie_len cfg Hc) as Hp.
  destruct (nthZ_Forall is_u8 (supplicant_ie cfg) 1 (cf_ie_bytes cfg Hc) ltac:(lia)) as [H0 H1]. fold (pie_len cfg) in Hp, H0, H1.
  split; [lia |]. split; [rewrite length_drop; lia | apply Forall_drop, Hc].
Qed.

Lemma elements_ok : Forall call_ok (elements cfg w (pie_len cfg)).
Proof.
  destruct pie_len_range as [Hp1 Hp2]. pose proof length_ht_cap as Hh. pose proof ht_cap_bytes_ok.
  destruct Hw as [_ _ [[Hs1 Hs2] Hs3] [[Hd1 Hd2] Hd3] [[He1 He2] He3] _ _ _].
  unfold elements. repeat (apply Forall_cons_2; [split; [by vm_compute |]; split; [try lia |] |]); [.. | constructor]; try done.
  - split; [cbn; lia |]. by apply bytes_okb_ok.
  - split; [rewrite Hh; lia | done].
Qed.

(** The room the calls need. *)
Fixpoint room_of (l : list put_call) : nat :=
  match l with
  | [] => 0
  | (b, (_, len, _)) :: l => (if b : bool then 2 + Z.to_nat len else 0) + room_of l
  end.

Lemma length_written l : (length (Ies.enc (written l)) <= room_of l)%nat.
Proof.
  induction l as [| [[] [[id len] src]] l IH]; [done | | exact IH].
  change (written ((true, (id, len, src)) :: l)) with ((id, take (Z.to_nat len) src) :: written l).
  rewrite Ies.enc_cons, length_app, Ies.length_enc_ie. cbn [snd room_of]. rewrite length_take. lia.
Qed.

Lemma length_elements : (length (Ies.enc (written (elements cfg w (pie_len cfg)))) <= 343)%nat.
Proof.
  etransitivity; [apply length_written |].
  destruct pie_len_range as [Hp1 [Hp2 _]]. pose proof (cf_ie cfg Hc). rewrite length_drop in Hp2.
  destruct Hw as [_ _ [[Hs1 _] Hs3] [[Hd1 _] Hd3] [[He1 _] He3] _ _ _].
  unfold elements. cbn [room_of]. change (Z.to_nat 7) with 7%nat. change (Z.to_nat 26) with 26%nat.
  destruct (wpa_enable cfg), (rsn_enable cfg), (0 <? Wi.ext_datarate_len w), (nz (Wi.wmm_enable w)), (nz (Wi.ht_enable w) && dot80211n_support cfg);
    cbn [negb andb]; lia.
Qed.

Lemma length_associate : (length (associate_bytes cfg w) <= 820)%nat /\ (28 <= length (associate_bytes cfg w))%nat.
Proof.
  unfold associate_bytes. rewrite !length_app, length_fixed. pose proof length_elements. pose proof (cf_p2p cfg Hc). lia.
Qed.

Lemma associate_frame_eq :
  exists rest, associate_frame cfg (pbuf cfg) w = Ret (associate_bytes cfg w ++ rest, Z.of_nat (length (associate_bytes cfg w))).
Proof.
  pose proof (cf_buf cfg Hc) as Hb. pose proof (cf_ie cfg Hc). pose proof length_elements as Hel. pose proof (cf_p2p cfg Hc) as Hp2.
  pose proof (Mgmt.length_hdr WIFI_ASSOCREQ (Wi.mac w) (local_addr cfg) (Wi.bssid w)) as Hh.
  specialize (Hh (nd_mac _ Hw) (cf_local _ Hc) (nd_bssid _ Hw)). unfold associate_frame.
  rewrite Mgmt.write_hdr_eq; [| unfold WLANHDR_OFFSET; lia | by vm_compute | apply Hw | apply Hc | apply Hw]. cbn [cbind].
  change (Z.to_nat WLANHDR_OFFSET) with 64%nat. change (replicate (64 - 24) 0) with ([0; 0] ++ [0; 0] ++ replicate 36 0).
  rewrite <- !app_assoc, blit_app_mid by (rewrite ?Hh, ?length_le_bytes; done). cbn [cbind].
  rewrite (app_assoc (Mgmt.hdr _ _ _ _)), blit_app_mid by (rewrite ?length_app, ?Hh, ?length_le_bytes; done). cbn [cbind].
  rewrite <- app_assoc, (app_assoc (Mgmt.hdr _ _ _ _)), (app_assoc _ (le_bytes 2 (Wi.listen_interval w))).
  rewrite <- (app_assoc _ (le_bytes 2 (Wi.cap_info w))). fold (fixed cfg w).
  rewrite rd_nthZ by lia. cbn [cbind]. fold (pie_len cfg).
  set (rest := replicate 36 0 ++ drop 64 (pbuf cfg)).
  assert (Hrest : (792 <= length rest)%nat) by (unfold rest; rewrite length_app, length_replicate, length_drop; lia).
  change 28 with (Z.of_nat 28). rewrite <- length_fixed.
  rewrite put_elements_eq; [| apply elements_ok | lia | rewrite length_fixed; lia]. cbn zeta. cbn [cbind].
  set (es := Ies.enc _) in *. destruct (Mgmt.split_rest (length (p2p_ies cfg)) (drop (length es) rest)) as [E L]; [rewrite length_drop; lia |].
  rewrite E, blit_app_mid by (rewrite ?L; done). cbn [cbind]. exists (drop (length (p2p_ies cfg)) (drop (length es) rest)).
  assert (Ha : associate_bytes cfg w = (fixed cfg w ++ es) ++ p2p_ies cfg) by (unfold associate_bytes; by rewrite <- app_assoc).
  rewrite Ha, !length_app, length_fixed, <- !app_assoc. rewrite u32_id by (unfold is_u32; lia). 
  apply f_equal, (f_equal2 pair); [done | lia].
Qed.
End Frame.

(** ** Invariant of the thread

    [env] follows the calls: whether the hardware lock is held and how many
    frames were handed over. *)
Record env : Type := mk_env { hw_locked : bool; sent : Z }.
Definition env0 : env := mk_env false 0.

Definition env_step (g : env) (er : ev * Z) : env :=
  let '(mk_env hw n) := g in
  match fst er with
  | HwTrylock => mk_env (hw || negb (nz (snd er))) n
  | HwUnlock => mk_env false n
  | MgmtXmit _ => mk_env hw (n + 1)
  | _ => g
  end.

(** An answer that holds its fixed fields. *)
Definition rsp_ok (frame : list Z) : Prop := bytes_ok frame /\ VARIABLE_OFS <= Z.of_nat (length frame) <= ASSOC_RSP_SIZE.

#[export] Instance assoc_reply : Request.Reply := {|
  Request.RSP := WF_ASSOC_TAG_RSP;
  Request.ABORT := WF_ASSOC_TAG_ABORT;
  Request.START := WF_ASSOC_TAG_START;
  Request.rsp_size := ASSOC_RSP_SIZE;
  Request.rsp_ok := rsp_ok;
  Request.tags_u16 := ltac:(split_and!; by vm_compute);
  Request.tags_ne := ltac:(split_and!; by vm_compute);
  Request.rsp_bytes frame H := proj1 H;
|}.

Record base (s : assoc_info_t) : Prop := {
  ba_que : Request.que_ok (msg_que s);
  ba_inv : Msg.qinv (msg_que s) [];
  ba_node : node_ok (node s);
  ba_req : length (req_ie s) = 794%nat;
  ba_resp : length (resp_ie s) = 768%nat;
}.

(** The last message given back is an answer that accepts, and the identifier
    and the elements of the network are the ones of this answer. *)
Definition accepted (s : assoc_info_t) : Prop :=
  exists m x frame stale,
    last (Msg.free (msg_que s)) = Some m /\ Msg.store (msg_que s) !! m = Some x /\ Msg.tag x = WF_ASSOC_TAG_RSP /\
    Msg.value x = frame ++ stale /\ Msg.len x = Z.of_nat (length frame) /\ rsp_ok frame /\
    Mgmt.get16 frame 26 = Ret 0 /\ Mgmt.get16 frame 28 = Ret (aid s) /\
    resp_len s = Z.of_nat (length frame) - VARIABLE_OFS /\ take (Z.to_nat (resp_len s)) (resp_ie s) = drop 30 frame.

Definition working (s : assoc_info_t) (g : env) (n : Z) : Prop := brun s = true /\ hw_locked g = true /\ 0 <= sent g <= n.

Definition inv (b : label) (l : locals) (s : assoc_info_t) (g : env) : Prop :=
  base s /\
  match b with
  | SBegin | SLock => brun s = false /\ g = env0 /\ l = locals0
  | SStart => brun s = false /\ g = mk_env true 0 /\ l = locals0
  | SSend => working s g (retry_cnt s) /\ 0 <= retry_cnt s <= 3 /\ l = locals0
  | SWait => working s g (retry_cnt s + 1) /\ 0 <= retry_cnt s < 3 /\ l = locals0
  | SExit =>
      hw_locked g = true /\ 0 <= sent g <= 3 /\
      (retry_cnt s = 3 \/ reason l = -2 \/ reason l = WF_ASSOC_TAG_ABORT \/ reason l = WF_ASSOC_TAG_DONE /\ accepted s)
  end.

Definition weight (b : label) (s : assoc_info_t) : Z :=
  match b with
  | SExit => 1
  | SWait => 1 + 2 * (3 - retry_cnt s)
  | SSend => 2 + 2 * (3 - retry_cnt s)
  | SStart => 9
  | SLock => 10
  | SBegin => 11
  end.
Definition measure (b : label) (s : assoc_info_t) : Z := weight b s + Z.of_nat (length (Msg.pend (msg_que s))).

Definition blocked (b : label) (s s' : assoc_info_t) (tr : list (ev * Z)) : Prop :=
  match b with
  | SLock => exists r, tr = [(HwTrylock, r)] /\ nz r = true
  | SStart => (length (Msg.pend (msg_que s')) < length (Msg.pend (msg_que s)))%nat
  | SWait => exists now, tr = [(Clock, now)] /\ Timer.wf_timer_expired now (timer s) = false
  | _ => False
  end.

(** When the thread is done: the verdict, and all messages given back. *)
Definition fin (r : pt_ret) (b : label) (p : option Z) (s : assoc_info_t) (g : env) : Prop :=
  base s /\ b = SBegin /\ brun s = false /\ hw_locked g = false /\ 0 <= sent g <= 3 /\ r = PT_EXITED /\
  exists v, p = Some v /\ (v = -1 \/ v = -2 \/ v = -3 \/ v = WF_ASSOC_TAG_ABORT \/ v = WF_ASSOC_TAG_DONE) /\
    (v = WF_ASSOC_TAG_DONE -> accepted s).

Abbreviation after := (Io.after env_step).
Abbreviation keeps := (Io.post prsn env_step inv measure locals0 fin blocked).

(** ** Sending *)

(** The request is handed over and its elements are kept, whatever the transmit
    path answers. *)
Definition sent_request (cfg : config) (s : assoc_info_t) (tr : list (ev * Z)) (res : Z * assoc_info_t) : Prop :=
  (exists b, tr = [(ExtbufNew, b)] /\ nz b = false /\ res = (-1, s)) \/
  (exists b f, tr = [(ExtbufNew, b); (FindWdn, f)] /\ nz b = true /\ nz f = false /\ res = (-2, s)) \/
  (exists b f r ie, let frame := associate_bytes cfg (node s) in
    tr = [(ExtbufNew, b); (FindWdn, f); (MgmtXmit frame, r)] /\
    res = (0, set_req ie (Z.of_nat (length frame) - LISTEN_OFS) s) /\ length ie = length (req_ie s) /\
    take (length frame - 26) ie = drop 26 frame).

Lemma send_request cfg s : cfg_ok cfg -> node_ok (node s) -> length (req_ie s) = 794%nat ->
  wp (associate_xmit_frame cfg s) (sent_request cfg s).
Proof.
  intros Hc Hw Hr. unfold associate_xmit_frame, sent_request. cbn [call ibind wp]. intros b.
  destruct (nz b) eqn:Eb; cbn [negb wp]; [| left; by exists b]. intros f.
  destruct (nz f) eqn:Ef; cbn [negb wp]; [| right; left; by exists b, f].
  destruct (associate_frame_eq cfg (node s) Hc Hw) as [rest ->]. cbn [lift ibind].
  destruct (length_associate cfg (node s) Hc Hw) as [Hl1 Hl2]. set (frame := associate_bytes cfg (node s)) in *.
  unfold u16. rewrite Z.mod_small by lia. rewrite Mgmt.slice_app_head by done. cbn [lift ibind call wp]. intros r.
  rewrite u32_id by (unfold is_u32, LISTEN_OFS; lia).
  rewrite slice_Ret by (rewrite ?length_app; unfold LISTEN_OFS; lia). cbn [lift ibind].
  assert (Et : take (Z.to_nat (Z.of_nat (length frame) - LISTEN_OFS)) (drop (Z.to_nat LISTEN_OFS) (frame ++ rest)) = drop 26 frame).
  { change (Z.to_nat LISTEN_OFS) with 26%nat. rewrite drop_app_le by lia. rewrite take_app_le by (rewrite length_drop; unfold LISTEN_OFS; lia).
    rewrite take_ge by (rewrite length_drop; unfold LISTEN_OFS; lia). done. }
  rewrite Et. destruct (Mgmt.split_rest (length frame - 26) (req_ie s)) as [E L]; [lia |].
  rewrite E at 1. rewrite Mgmt.blit_app_head by (rewrite L, length_drop; lia). cbn [lift ibind wp].
  right. right. eexists b, f, r, _. split; [done |]. split; [done |]. rewrite length_app, !length_drop.
  split; [lia |]. rewrite take_app_le by (rewrite length_drop; lia). apply take_ge. rewrite length_drop. lia.
Qed.
(** ** The blocks *)

Lemma asc_del_eq m s q : Msg.wf_msg_del (msg_que s) m = Ret (0, q) -> msg_del m s = Ret (set_msg_que q s).
Proof. intros H. unfold msg_del. by rewrite H. Qed.

(** The queue replaced. *)
Lemma base_que s q : base s -> Request.que_ok q -> Msg.qinv q [] -> base (set_msg_que q s).
Proof. intros []. by split. Qed.

Lemma base_fields s s' : base s -> msg_que s' = msg_que s -> node s' = node s -> length (req_ie s') = 794%nat ->
  length (resp_ie s') = 768%nat -> base s'.
Proof. intros [] H1 H2 H3 H4. by split; rewrite ?H1, ?H2. Qed.

Section Blocks.
Context (cfg : config).
Hypothesis Hc : cfg_ok cfg.

Lemma asc_begin_post l s g : inv SBegin l s g -> wp (block cfg SBegin l s) (keeps SBegin s g).
Proof. intros H. cbn. split; [exact H |]. unfold measure. cbn [weight]. lia. Qed.

Lemma asc_lock_post l s g : inv SLock l s g -> wp (block cfg SLock l s) (keeps SLock s g).
Proof.
  intros (Hb & Hn & Hg & ->). cbn [block call ibind wp]. intros r. rewrite Hg. destruct (nz r) eqn:Er; cbn; rewrite ?Er; cbn.
  - split; [done |]. split; [done |]. split; [lia |]. by exists r.
  - split; [done |]. unfold measure. cbn [weight]. lia.
Qed.

Lemma asc_start_post l s g : inv SStart l s g -> wp (block cfg SStart l s) (keeps SStart s g).
Proof.
  intros (Hb & Hn & Hg & ->). cbn [block]. unfold at_start.
  destruct (Request.pop_facts [] (msg_que s) (ba_que _ Hb) (ba_inv _ Hb)) as [[Hp [r ->]] | (m & q1 & q2 & x & H)].
  - cbn [lift ibind call wp]. intros r'. rewrite Hg. cbn. split; [by apply base_que; [| apply Hb..] |]. split_and!; try done.
    exists (-1). split_and!; try done. by left.
  - rewrite (Request.po_pop _ _ _ _ _ _ H). cbn [lift ibind]. rewrite (asc_del_eq m _ q2) by apply H. cbn [lift ibind].
    pose proof (base_que s q2 Hb (Request.po_ok2 _ _ _ _ _ _ H) (Request.po_inv2 _ _ _ _ _ _ H)) as Hb2.
    pose proof (Request.po_pend _ _ _ _ _ _ H) as Hp. pose proof (Request.po_pend2 _ _ _ _ _ _ H) as Hp2.
    destruct (negb _); cbn [wp].
    + cbn. rewrite Hg. split; [done |]. split; [done |]. unfold measure. cbn. rewrite Hp2, Hp. cbn [length]. split; lia.
    + cbn. rewrite Hg. unfold measure, inv, working. cbn. rewrite Hp2, Hp. cbn [length]. split; [| lia].
      split; [by apply (base_fields (set_msg_que q2 s)); [| | | apply Hb..] |]. split_and!; first [done | lia].
Qed.

Lemma asc_send_post l s g : inv SSend l s g -> wp (block cfg SSend l s) (keeps SSend s g).
Proof.
  intros (Hb & (H1 & H2 & H3) & Hr & ->). cbn [block]. unfold at_send.
  destruct (Z.ltb_spec (retry_cnt s) ASSOC_REQ_RESEND_TIMES) as [Hlt | Hge]; unfold ASSOC_REQ_RESEND_TIMES in *.
  2: { cbn. unfold measure. cbn [weight]. split; [| lia]. split; [done |]. split; [done |]. split; [lia |]. left. lia. }
  apply wp_bind. eapply wp_mono, (send_request cfg s Hc); [| apply Hb | apply Hb].
  assert (Hf : forall s', msg_que s' = msg_que s -> node s' = node s -> length (req_ie s') = 794%nat -> resp_ie s' = resp_ie s -> base s').
  { intros s' E1 E2 E3 E4. apply (base_fields s); try done. rewrite E4. apply Hb. }
  intros tr [rst s'] [(b & -> & Eb & [= -> ->]) | [(b & f & -> & Eb & Ef & [= -> ->]) | (b & f & r & ie & -> & [= -> ->] & Hie & _)]];
    change (nz (-1)) with true; change (nz (-2)) with true; change (nz 0) with false; cbn iota; destruct g as [hw n].
  - cbn. unfold measure. cbn. split; [| lia]. split; [done |]. split_and!; try first [done | lia]. auto.
  - cbn. unfold measure. cbn. split; [| lia]. split; [done |]. split_and!; try first [done | lia]. auto.
  - cbn [call ibind wp]. intros now. unfold Io.post. cbn [Io.after fold_left app env_step fst snd]. unfold measure. cbn [weight set_timer set_req retry_cnt msg_que].
    cbn in H2, H3. split; [| lia]. split; [apply Hf; try done; cbn; rewrite Hie; apply Hb |]. unfold working. cbn. split_and!; first [done | lia].
Qed.

Lemma again_ok l s g s1 : inv SWait l s g -> base s1 -> brun s1 = brun s -> retry_cnt s1 = retry_cnt s ->
  (length (Msg.pend (msg_que s1)) <= length (Msg.pend (msg_que s)))%nat ->
  let '(_, l', s') := again l s1 in inv SSend l' s' g /\ measure SSend s' < measure SWait s.
Proof.
  intros (_ & (H1 & H2 & H3) & Hr & ->) Hb E1 E2 Hp. cbn [again]. unfold measure, inv, working. cbn.
  unfold u8. rewrite E1, E2, Z.mod_small by lia. split; [| lia].
  split; [by apply (base_fields s1); [| | | apply Hb..] |]. split_and!; first [done | lia].
Qed.

(** What an answer leads to: its fields are inside the message, and an answer
    that accepts is kept. *)
Lemma answer_ok l s g m q1 q2 x : inv SWait l s g -> Request.popped [] (msg_que s) m q1 q2 x -> Msg.tag x = WF_ASSOC_TAG_RSP ->
  exists st, on_answer m l (set_msg_que q1 s) = Ret st /\ keeps SWait s g [] st.
Proof.
  intros Hi H Ht. destruct (Request.po_rsp _ _ _ _ _ _ H Ht) as [[Hlen _] (frame & stale & Hv & Hl & Hr)].
  pose proof (Request.po_pend _ _ _ _ _ _ H) as Hp. pose proof (Request.po_pend2 _ _ _ _ _ _ H) as Hp2.
  pose proof Hi as (Hb & (H1 & H2 & H3) & Hrt & ->). pose proof Hr as [_ Hfl]. unfold VARIABLE_OFS, ASSOC_RSP_SIZE in Hfl.
  pose proof (base_que s q2 Hb (Request.po_ok2 _ _ _ _ _ _ H) (Request.po_inv2 _ _ _ _ _ _ H)) as Hb2.
  unfold on_answer. cbn [set_msg_que msg_que]. unfold Msg.msg_at. rewrite (Request.po_at _ _ _ _ _ _ H). cbn [cbind of_option].
  rewrite Hv, Hl, !Mgmt.get16_app by lia. destruct (Mgmt.get16_Ret frame 26) as [status Est]; [lia | lia |].
  destruct (Mgmt.get16_Ret frame 28) as [a Ea]; [lia | lia |]. rewrite Est, Ea. cbn [cbind].
  destruct (nz status) eqn:Es; cbn [negb].
  { rewrite (asc_del_eq m _ q2) by apply H. eexists. split; [done |].
    pose proof (again_ok locals0 s g (set_msg_que q2 s) Hi Hb2 eq_refl eq_refl) as Ha. cbn in Ha. rewrite Hp2, Hp in Ha.
    apply Ha. cbn [length]. lia. }
  unfold u16. rewrite Z.mod_small by lia. rewrite u32_id by (unfold is_u32, VARIABLE_OFS; lia).
  rewrite slice_app_l by (unfold VARIABLE_OFS; lia). cbn [cbind].
  change (Z.to_nat VARIABLE_OFS) with 30%nat. rewrite take_ge by (rewrite length_drop; unfold VARIABLE_OFS; lia).
  destruct (Mgmt.split_rest (length frame - 30) (resp_ie s)) as [E L]; [rewrite (ba_resp _ Hb); lia |].
  assert (Hbl : blit (resp_ie s) 0 (drop 30 frame) = Ret (drop 30 frame ++ drop (length frame - 30) (resp_ie s)))
    by (rewrite E at 1; apply Mgmt.blit_app_head; rewrite L, length_drop; lia).
  cbn [set_msg_que resp_ie]. rewrite Hbl. cbn [cbind].
  rewrite (asc_del_eq m _ q2) by apply H. eexists. split; [done |]. set (ie := drop 30 frame ++ _).
  assert (Hie : length ie = 768%nat) by (unfold ie; rewrite length_app, !length_drop, (ba_resp _ Hb); lia).
  cbn. unfold measure. cbn. rewrite Hp2, Hp. cbn [length]. split; [| lia].
  split; [by apply (base_fields (set_msg_que q2 s)); [| | | apply Hb |] |]. split; [done |]. split; [lia |].
  right. right. right. split; [done |]. destruct (Request.po_back _ _ _ _ _ _ H) as (x' & Hx' & [= _ E1 E2 E3]).
  exists m, x', frame, stale. cbn. rewrite E1, E2, E3. split_and!; try done.
  - apply H.
  - rewrite Est. unfold nz in Es. by apply negb_false_iff, Z.eqb_eq in Es as ->.
  - unfold VARIABLE_OFS. replace (Z.to_nat _) with (length (drop 30 frame)) by (rewrite length_drop; lia). apply take_app_length.
Qed.

Lemma asc_wait_post l s g : inv SWait l s g -> wp (block cfg SWait l s) (keeps SWait s g).
Proof.
  intros Hi. pose proof Hi as (Hb & (H1 & H2 & H3) & Hr & ->). cbn [block]. unfold at_wait.
  destruct (Request.pop_facts [] (msg_que s) (ba_que _ Hb) (ba_inv _ Hb)) as [[Hp [r ->]] | (m & q1 & q2 & x & H)].
  - assert (Es : set_msg_que (msg_que s) s = s) by (by destruct s). cbn [lift ibind call wp]. rewrite Es. intros now.
    destruct (Timer.wf_timer_expired now (timer s)) eqn:Et.
    + pose proof (again_ok locals0 s g s Hi Hb eq_refl eq_refl ltac:(done)) as Ha. destruct g as [hw n]. exact Ha.
    + destruct g as [hw n]. cbn. split; [done |]. split; [exact Hi |]. split; [lia |]. by exists now.
  - rewrite (Request.po_pop _ _ _ _ _ _ H). cbn [lift ibind].
    pose proof (base_que s q2 Hb (Request.po_ok2 _ _ _ _ _ _ H) (Request.po_inv2 _ _ _ _ _ _ H)) as Hb2.
    pose proof (Request.po_pend _ _ _ _ _ _ H) as Hp. pose proof (Request.po_pend2 _ _ _ _ _ _ H) as Hp2.
    rewrite (Request.tag_stored q1 m x) by apply H.
    destruct (Msg.tag x =? WF_ASSOC_TAG_ABORT); [| destruct (Z.eqb_spec (Msg.tag x) WF_ASSOC_TAG_RSP) as [Er |]].
    + rewrite (asc_del_eq m _ q2) by apply H. cbn. unfold measure. cbn. rewrite Hp2, Hp. cbn [length]. split; [| lia].
      split; [done |]. split_and!; try first [done | lia]. auto.
    + destruct (answer_ok locals0 s g m q1 q2 x Hi H Er) as (st & -> & Hst). exact Hst.
    + rewrite (asc_del_eq m _ q2) by apply H. cbn. unfold measure. cbn. rewrite Hp2, Hp. cbn [length]. split; [| lia].
      split; [done |]. unfold working. cbn. split_and!; first [done | lia].
Qed.

Lemma asc_exit_post l s g : inv SExit l s g -> wp (block cfg SExit l s) (keeps SExit s g).
Proof.
  intros (Hb & H1 & H2 & Hv). cbn [block]. unfold at_exit. cbn [call ibind wp]. intros r. destruct g as [hw n].
  set (v := reason (if retry_cnt s =? ASSOC_REQ_RESEND_TIMES then set_reason (-3) l else l)).
  assert (Hd : (v = -1 \/ v = -2 \/ v = -3 \/ v = WF_ASSOC_TAG_ABORT \/ v = WF_ASSOC_TAG_DONE) /\ (v = WF_ASSOC_TAG_DONE -> accepted s)).
  { unfold v. destruct (Z.eqb_spec (retry_cnt s) ASSOC_REQ_RESEND_TIMES) as [E | E]; [cbn; split; [by auto | done] |].
    destruct Hv as [Hv | [-> | [-> | [-> Ha]]]]; [by unfold ASSOC_REQ_RESEND_TIMES in E | | |]; (split; [by auto 7 | done]). }
  assert (Hnz : nz v = true) by (by destruct Hd as [[-> | [-> | [-> | [-> | ->]]]] _]).
  unfold Io.post. rewrite Hnz. cbn [done_with]. unfold fin. cbn. cbn in H2. destruct Hd as [Hd Ha].
  split; [by apply (base_fields s); [| | | apply Hb..] |]. split_and!; try first [done | lia]. by exists v.
Qed.

Lemma asc_block_post b l s g : inv b l s g -> wp (block cfg b l s) (keeps b s g).
Proof.
  destruct b; [apply asc_begin_post | apply asc_lock_post | apply asc_start_post | apply asc_send_post | apply asc_wait_post
    | apply asc_exit_post].
Qed.

Lemma asc_inv_measure b l s g : inv b l s g -> 0 <= measure b s <= 11 + Z.of_nat (length (Msg.pend (msg_que s))).
Proof.
  intros [_ Hi]. unfold measure. assert (0 <= weight b s <= 11); [| lia]. destruct b; cbn [weight]; try lia; destruct Hi as (_ & Hr & _); lia.
Qed.

Lemma asc_call_called fuel b s g : inv b locals0 s g -> 11 + Msg.wf_msg_count (msg_que s) < Z.of_nat fuel ->
  wp (wf_assoc_sta_thrd cfg fuel b s) (Io.called env_step inv measure locals0 fin blocked b s g).
Proof.
  intros Hi Hf. pose proof (asc_inv_measure b locals0 s g Hi). unfold Msg.wf_msg_count in Hf.
  apply (blocks_called (block cfg) prsn env_step inv measure locals0 fin blocked); [| by apply asc_block_post | done | lia].
  intros b' l' s' g' Hi'. apply (asc_inv_measure b' l' s' g' Hi').
Qed.
(** ** The component in use

    Calls of the thread with any answers of what it calls; between them requests,
    received answers (of at least the fixed fields) and changes of the node. *)

(** Where a call can resume. *)
Definition resumes (b : label) : bool := match b with SBegin | SLock | SStart | SWait => true | _ => false end.

Inductive reach : label -> assoc_info_t -> env -> Prop :=
  | reach_init a1 a2 b c s0 s :
      NoDup [a1; a2; b; c] -> node_ok (node s0) -> length (req_ie s0) = 794%nat -> length (resp_ie s0) = 768%nat ->
      wf_assoc_init [Some a1; Some a2] (Some b) (Some c) s0 = Ret (0, s) -> reach SBegin s env0
  | reach_call fuel b s g tr r b' p s' :
      reach b s g -> runs (wf_assoc_sta_thrd cfg fuel b s) tr (r, b', p, s') ->
      11 + Msg.wf_msg_count (msg_que s) < Z.of_nat fuel ->
      reach b' s' (if done_with r then env0 else after tr g)
  | reach_start b s g is_up r s' : reach b s g -> wf_assoc_start true is_up s = Ret (r, s') -> reach b s' g
  | reach_stop b s g is_up r s' : reach b s g -> wf_assoc_stop true is_up s = Ret (r, s') -> reach b s' g
  | reach_recv b s g state bss w frame r s' :
      reach b s g -> rsp_ok frame -> wf_assoc_frame_parse cfg state bss w frame s = Ret (r, s') -> reach b s' g
  | reach_node b s g w : reach b s g -> node_ok w -> reach b (set_node w s) g.

Lemma asc_inv_que b l s g q : inv b l s g -> resumes b = true -> Request.que_ok q -> Msg.qinv q [] -> inv b l (set_msg_que q s) g.
Proof. intros [Hb Hi] Hr H1 H2. split; [by apply base_que |]. by destruct b. Qed.

Lemma init_inv a1 a2 b c s0 s : NoDup [a1; a2; b; c] -> node_ok (node s0) -> length (req_ie s0) = 794%nat ->
  length (resp_ie s0) = 768%nat -> wf_assoc_init [Some a1; Some a2] (Some b) (Some c) s0 = Ret (0, s) -> inv SBegin locals0 s env0.
Proof.
  intros Hnd Hw H1 H2 E. destruct (Request.msg_init_ok a1 a2 b c Hnd) as (q & Eq & Hq & Hi).
  pose proof (f_equal (fun x => letc (r, q) := x in Ret (if nz r then -3 else 0, set_msg_que q (set_brun false s0))) Eq) as E1.
  change (wf_assoc_init [Some a1; Some a2] (Some b) (Some c) s0 = Ret (0, set_msg_que q (set_brun false s0))) in E1.
  rewrite E1 in E. injection E as <-. split; [by split | done].
Qed.

Lemma recv_inv b s g state bss w frame r s' : resumes b = true -> inv b locals0 s g -> rsp_ok frame ->
  wf_assoc_frame_parse cfg state bss w frame s = Ret (r, s') -> inv b locals0 s' g.
Proof.
  intros Hr Hi Hf. unfold wf_assoc_frame_parse. destruct (_ =? 0); [by intros [= _ <-] |].
  destruct (negb (state =? MLME_STATE_ASSOC)); [by intros [= _ <-] |]. destruct w as [w |]; [| by intros [= _ <-]].
  destruct (Mgmt.da frame) as [d | |]; cbn [cbind]; try done.
  destruct (_ || _); [by intros [= _ <-] |]. destruct (ASSOC_RSP_SIZE <? _); [by intros [= _ <-] |].
  destruct (Request.deliver_ok [] (msg_que s) frame) as (r1 & q & E & H1 & H2); [apply Hi | apply Hi | done | apply Hf |].
  change (Request.deliver WF_ASSOC_TAG_RSP) with (Request.deliver Request.RSP). rewrite E. intros [= _ <-]. by apply asc_inv_que.
Qed.

Lemma request_inv b s g back t e1 e2 r s' : resumes b = true -> inv b locals0 s g -> t = WF_ASSOC_TAG_ABORT \/ t = WF_ASSOC_TAG_START ->
  request back t e1 e2 s = Ret (r, s') -> inv b locals0 s' g.
Proof.
  intros Hr Hi Ht. unfold request.
  destruct (Request.request_ok back [] (msg_que s) t e1 e2) as (r1 & q & -> & H1 & H2); [apply Hi | apply Hi | done |].
  intros [= _ <-]. by apply asc_inv_que.
Qed.

Lemma asc_reach_inv b s g : reach b s g -> resumes b = true /\ inv b locals0 s g.
Proof.
  induction 1 as [a1 a2 b c s0 s Hnd Hw H1 H2 E | fuel b s g tr r b' p s' _ [Hr IH] Hrun Hf | b s g up r s' _ [Hr IH] E | b s g up r s' _ [Hr IH] E
    | b s g state bss w frame r s' _ [Hr IH] Hrsp E | b s g w _ [Hr IH] Hw].
  - split; [done |]. by apply (init_inv a1 a2 b c s0).
  - pose proof (wp_runs _ _ _ _ (asc_call_called fuel b s g IH Hf) Hrun) as H. unfold Io.called in H. destruct (done_with r).
    + destruct H as (Hb & -> & Hn & _). by split_and!.
    + destruct H as (Hi & (s0 & tr0 & Hbl) & _). split; [by destruct b' | done].
  - split; [done |]. unfold wf_assoc_start in E. cbn [negb] in E. destruct up; cbn [negb] in E; [| by injection E as _ <-].
    eapply request_inv; [done | done | by right | done].
  - split; [done |]. unfold wf_assoc_stop in E. cbn [negb] in E. destruct up; cbn [negb] in E; [| by injection E as _ <-].
    destruct (brun s); cbn [negb] in E; [| by injection E as _ <-]. eapply request_inv; [done | done | by left | done].
  - split; [done |]. by eapply recv_inv.
  - split; [done |]. destruct IH as [[] Hi]. split; [by split |]. by destruct b.
Qed.

(** A truncated answer is copied out of bounds.  An answer of 28 or 29 bytes
    with status 0, short of its last fixed field, is accepted into the queue of
    a waiting thread that has no message pending; the length of its elements
    then wraps to almost 2^32, and the next call of the thread copies that many
    bytes out of the message into the 768 bytes of the current network. *)
Theorem assoc_short_answer fuel s g bss w frame s1 :
  reach SWait s g -> Msg.pend (msg_que s) = [] ->
  wf_assoc_frame_parse cfg MLME_STATE_ASSOC bss (Some w) frame s = Ret (0, s1) ->
  28 <= Z.of_nat (length frame) < 30 -> Mgmt.get16 frame 26 = Ret 0 ->
  wf_assoc_sta_thrd cfg (S fuel) SWait s1 = ifault.
Proof.
  intros Hr Hp Hparse Hl Hst. destruct (asc_reach_inv _ _ _ Hr) as [_ [[Hq Hi _ _ _] _]]. revert Hparse. unfold wf_assoc_frame_parse.
  destruct (_ =? 0); [done |]. change (negb (MLME_STATE_ASSOC =? MLME_STATE_ASSOC)) with false. cbn iota.
  destruct (Mgmt.da frame) as [d | |]; cbn [cbind]; try done. destruct (_ || _); [done |]. destruct (ASSOC_RSP_SIZE <? _); [done |].
  destruct (Request.deliver WF_ASSOC_TAG_RSP frame (msg_que s)) as [[r q] | |] eqn:E; cbn [cbind]; try done. intros [= -> <-].
  destruct (Request.deliver_only [] (msg_que s) frame q Hq Hi) as (Hi' & m & x & stale & Hp' & Hx & Ht & Hv & Hlen & Hroom); [change Request.rsp_size with 796; lia | done | done |].
  change (Z.to_nat Request.rsp_size) with (Z.to_nat 796) in Hroom.
  unfold wf_assoc_sta_thrd. cbn [blocks block]. unfold at_wait. cbn [set_msg_que msg_que].
  destruct (Msg.use_pop_del _ _ Hi') as [[E0 _] | (m' & q1 & q2 & -> & _ & Hs & _ & _ & _ & _ & Hp1 & _)]; [by rewrite Hp' in E0 |].
  rewrite Hp' in Hp1. injection Hp1 as <- _. cbn [lift ibind].
  specialize (Hs m). rewrite Hx in Hs. destruct (Msg.store q1 !! m) as [y |] eqn:Ey; [| done]. apply (inj Some) in Hs.
  injection Hs as _ E1 E2 E3. rewrite (Request.tag_stored q1 m y Ey), E1, Ht.
  change (Request.RSP =? WF_ASSOC_TAG_ABORT) with false. change (Request.RSP =? WF_ASSOC_TAG_RSP) with true. cbn iota.
  unfold on_answer. cbn [set_msg_que msg_que]. unfold Msg.msg_at. rewrite Ey. cbn [cbind of_option]. rewrite E3, Hv, E2, Hlen.
  rewrite Mgmt.get16_app by lia. rewrite Hst. cbn [cbind]. change (nz 0) with false. cbn [negb].
  destruct (Mgmt.get16_Ret (frame ++ stale) 28) as [a ->]; [lia | rewrite Hroom; lia |]. cbn [cbind].
  unfold u16. rewrite Z.mod_small by lia.
  assert (Hu : 4294967294 <= u32 (Z.of_nat (length frame) - VARIABLE_OFS)).
  { unfold VARIABLE_OFS. destruct (Z.eq_dec (Z.of_nat (length frame)) 28) as [-> |]; [by vm_compute |].
    replace (Z.of_nat (length frame)) with 29 by lia. by vm_compute. }
  unfold slice. destruct (Z.leb_spec (VARIABLE_OFS + u32 (Z.of_nat (length frame) - VARIABLE_OFS)) (Z.of_nat (length (frame ++ stale)))) as [Hle |];
    [| by rewrite andb_false_r].
  rewrite Hroom in Hle. unfold VARIABLE_OFS at 1 in Hle. lia.
Qed.
(** C12: The association thread comes to a sound verdict, when every answer in its
    queue has at least the 30 bytes up to its elements.  Whatever it is
    answered and whatever else is put into its queue between its calls, a call stays
    inside its buffers and returns after at most 11 blocks and one per pending
    message; a call that does not end the thread comes strictly further or has
    found what it waits for still missing (the lock, the end of its timer, a
    request to start).  A thread that ends has released the lock, cleared its
    running flag, given back every message and handed over at most three
    requests.  It reports a failure, an abort or success, and success only
    after an answer with status 0, whose identifier and elements are then the
    ones of the current network.  The length of an answer is not checked by the
    receive path: one of 28 or 29 bytes with status 0, let in while the thread
    waits, makes its next call copy outside of its buffers. *)
Theorem assoc_verdict fuel b s g :
  reach b s g -> 11 + Msg.wf_msg_count (msg_que s) < Z.of_nat fuel ->
  0 <= measure b s <= 11 + Msg.wf_msg_count (msg_que s) /\
  wp (wf_assoc_sta_thrd cfg fuel b s) (fun tr '(r, b', p, s') =>
    let g' := after tr g in
    if done_with r then
      b' = SBegin /\ brun s' = false /\ hw_locked g' = false /\ sent g' <= 3 /\ (forall m, ~ Msg.held (msg_que s') m) /\
      exists v, p = Some v /\ (v = -1 \/ v = -2 \/ v = -3 \/ v = WF_ASSOC_TAG_ABORT \/ v = WF_ASSOC_TAG_DONE) /\
        (v = WF_ASSOC_TAG_DONE -> accepted s')
    else 0 <= measure b' s' < measure b s \/ b' = b /\ measure b' s' <= measure b s /\ blocked b s s' tr) /\
  (b = SWait -> Msg.pend (msg_que s) = [] -> forall bss w frame s1,
     wf_assoc_frame_parse cfg MLME_STATE_ASSOC bss (Some w) frame s = Ret (0, s1) ->
     28 <= Z.of_nat (length frame) < 30 -> Mgmt.get16 frame 26 = Ret 0 -> wf_assoc_sta_thrd cfg fuel SWait s1 = ifault).
Proof.
  intros Hr Hf. destruct (asc_reach_inv b s g Hr) as [_ Hi]. split; [apply (asc_inv_measure b locals0 s g Hi) |]. split.
  - eapply wp_mono, (asc_call_called fuel b s g Hi Hf). intros tr [[[r b'] p] s'] H. unfold Io.called in H. cbn zeta.
    destruct (done_with r).
    + destruct H as (Hb & -> & Hn & Hl & Hs & _ & Hv). split_and!; try first [done | lia].
      intros m Hm. apply (Msg.qi_held _ _ (ba_inv _ Hb)) in Hm. by apply elem_of_nil in Hm.
    + destruct H as (Hi' & _ & H). pose proof (asc_inv_measure b' locals0 s' _ Hi'). destruct H as [H | H]; [left; lia | by right].
  - intros -> Hp bss w frame s1 H1 H2 H3. unfold Msg.wf_msg_count in Hf. destruct fuel as [| fuel]; [lia |]. by eapply assoc_short_answer.
Qed.

(** C25: The association request.  It is handed over once there is a buffer and a
    node, else the result is -1 or -2: the header with the addresses of the
    access point and the station, capability and listen interval, then in this
    order the network name, the rates, the extended rates if there are any, the
    WPA or else the RSN element the supplicant gave if one is enabled, the WMM
    element if the access point has WMM and the HT capability if both sides have
    it.  The listen interval and the elements are kept as the request of the
    current network; the result is 0 even if the transmission fails. *)
Theorem assoc_request_frame s :
  node_ok (node s) -> length (req_ie s) = 794%nat ->
  wp (associate_xmit_frame cfg s) (fun tr '(rst, s') =>
    (rst = -1 /\ s' = s /\ exists b, tr = [(ExtbufNew, b)]) \/
    (rst = -2 /\ s' = s /\ exists b f, tr = [(ExtbufNew, b); (FindWdn, f)]) \/
    (rst = 0 /\ exists b f r, let w := node s in
       let frame := Mgmt.hdr WIFI_ASSOCREQ (Wi.mac w) (local_addr cfg) (Wi.bssid w) ++
         le_bytes 2 (Wi.cap_info w) ++ le_bytes 2 (Wi.listen_interval w) ++
         Ies.enc ([(WF_80211_MGMT_EID_SSID, take (Z.to_nat (Wi.ssid_len w)) (Wi.ssid w));
                   (WF_80211_MGMT_EID_SUPP_RATES, take (Z.to_nat (Wi.datarate_len w)) (Wi.datarate w))] ++
           (if 0 <? Wi.ext_datarate_len w
            then [(WF_80211_MGMT_EID_EXT_SUPP_RATES, take (Z.to_nat (Wi.ext_datarate_len w)) (Wi.ext_datarate w))] else []) ++
           (let ie := take (Z.to_nat (pie_len cfg)) (drop 2 (supplicant_ie cfg)) in
            if wpa_enable cfg then [(WF_80211_MGMT_EID_VENDOR_SPECIFIC, ie)]
            else if rsn_enable cfg then [(WF_80211_MGMT_EID_RSN, ie)] else []) ++
           (if nz (Wi.wmm_enable w) then [(WF_80211_MGMT_EID_VENDOR_SPECIFIC, WMM_IE)] else []) ++
           (if nz (Wi.ht_enable w) && dot80211n_support cfg
            then [(WF_80211_MGMT_EID_HT_CAPABILITY, ht_cap_bytes cfg w)] else [])) ++ p2p_ies cfg in
       tr = [(ExtbufNew, b); (FindWdn, f); (MgmtXmit frame, r)] /\
       req_len s' = Z.of_nat (length frame) - 26 /\ take (Z.to_nat (req_len s')) (req_ie s') = drop 26 frame)).
Proof.
  intros Hw Hl. eapply wp_mono, (send_request cfg s Hc Hw Hl).
  intros tr [rst s'] [(b & -> & _ & [= -> ->]) | [(b & f & -> & _ & _ & [= -> ->]) | (b & f & r & ie & -> & (-> & ->)%pair_equal_spec & _ & E)]].
  - left. split_and!; try done. by exists b.
  - right. left. split_and!; try done. by exists b, f.
  - right. right. split; [done |]. exists b, f, r. cbn zeta.
    match goal with |- context [drop 26 ?F] => assert (Ef : F = associate_bytes cfg (node s)) end.
    { unfold associate_bytes, fixed. rewrite <- !app_assoc. do 4 f_equal. unfold written, elements. cbn [flat_map].
      rewrite (take_ge (ht_cap_bytes cfg (node s))) by (rewrite length_ht_cap by done; done).
      destruct (wpa_enable cfg), (rsn_enable cfg), (0 <? Wi.ext_datarate_len (node s)), (nz (Wi.wmm_enable (node s))),
        (nz (Wi.ht_enable (node s)) && dot80211n_support cfg); done. }
    rewrite Ef. destruct (length_associate cfg (node s) Hc Hw) as [_ H28]. split; [done |]. split; [done |].
    cbn [set_req req_len req_ie]. unfold LISTEN_OFS.
    replace (Z.to_nat (Z.of_nat (length (associate_bytes cfg (node s))) - 26)) with (length (associate_bytes cfg (node s)) - 26)%nat by lia.
    exact E.
Qed.

End Blocks.

(** ** Examples *)

Module Examples.

Definition ex_addr : list Z := [2; 0; 0; 0; 0; 1].
Definition ex_bss : list Z := [2; 0; 0; 0; 0; 2].
Definition ex_cfg : config :=
  mk_config ex_addr false true [48; 4; 1; 0; 0; 15] true (replicate 7 0) [] (replicate 820 0) (fun ms => ms).
Definition ex_node : Wi.wdn_net_info_st :=
  Wi.set_ssid [97; 98] (Wi.set_ssid_len 2 (Wi.set_datarate [2; 4; 11; 22] (Wi.set_datarate_len 4 (Wi.set_mac ex_bss (Wi.set_bssid ex_bss Wi.zero))))).

Lemma asc_ex_cfg_ok : cfg_ok ex_cfg.
Proof. split; first [by apply bytes_okb_ok | cbn; lia | by vm_compute | split; [done | by apply bytes_okb_ok] | done]. Qed.
Lemma asc_ex_node_ok : node_ok ex_node.
Proof.
  split; first [by apply bytes_okb_ok | done | split; [done | by apply bytes_okb_ok]
    | split; [split; [cbn; lia | by apply bytes_okb_ok] | cbn; lia]].
Qed.

Definition ex_blank : assoc_info_t :=
  As.mk ex_node 0 (replicate 794 0) 0 (replicate 768 0) 0 0 (Timer.mk_timer 0 0 0) false Msg.wf_msg_init.
Definition ex_init : assoc_info_t :=
  match wf_assoc_init [Some 100; Some 200] (Some 300) (Some 400) ex_blank with Ret (_, s) => s | _ => ex_blank end.

(** A running system: the next label, the state and the calls so far. *)
Definition sys : Type := label * assoc_info_t * env.
Definition bl (x : sys) : label := fst (fst x).
Definition st (x : sys) : assoc_info_t := snd (fst x).
Definition en (x : sys) : env := snd x.
Definition ok (x : sys) : Prop := reach ex_cfg (bl x) (st x) (en x).
Definition fuel : nat := 20.

Definition run_of (x : sys) (ans : list Z) : option (list (ev * Z) * (pt_ret * label * option Z * assoc_info_t)) :=
  exec (wf_assoc_sta_thrd ex_cfg fuel (bl x) (st x)) ans.

Definition go (ans : list Z) (x : sys) : option sys :=
  '(tr, (r, b', _, s')) ← run_of x ans;
  if Msg.wf_msg_count (msg_que (st x)) <? 5 then Some (b', s', if done_with r then env0 else after tr (en x)) else None.

(** An answer with a status, an identifier and elements. *)
Definition ex_frame (status id : Z) (ies : list (Z * list Z)) : list Z :=
  [0x10; 0; 0; 0] ++ ex_addr ++ ex_bss ++ ex_bss ++ [0; 0] ++ [1; 4] ++ le_bytes 2 status ++ le_bytes 2 id ++ Ies.enc ies.
Definition got (frame : list Z) (x : sys) : option sys :=
  match wf_assoc_frame_parse ex_cfg MLME_STATE_ASSOC ex_bss (Some ex_node) frame (st x) with
  | Ret (r, s') => Some (bl x, s', en x)
  | _ => None
  end.

Lemma asc_go_ok ans x x' : ok x -> go ans x = Some x' -> ok x'.
Proof.
  unfold ok, go, run_of. intros Hx. destruct (exec _ ans) as [[tr [[[r b'] p] s']] |] eqn:E; [| done]. cbn [mbind option_bind].
  destruct (Z.ltb_spec (Msg.wf_msg_count (msg_que (st x))) 5); [| done]. intros [= <-]. cbn [bl st en fst snd].
  eapply (reach_call ex_cfg fuel (bl x) (st x) (en x) tr r b' p s'); [done | by apply (exec_runs _ ans) | unfold fuel; lia].
Qed.

Lemma asc_got_ok frame x x' : ok x -> rsp_ok frame -> got frame x = Some x' -> ok x'.
Proof.
  unfold ok, got. intros Hx Hf. destruct (wf_assoc_frame_parse _ _ _ _ _ _) as [[r s'] | |] eqn:E; [| done | done]. intros [= <-].
  by apply (reach_recv ex_cfg (bl x) (st x) (en x) MLME_STATE_ASSOC ex_bss (Some ex_node) frame r).
Qed.

Definition ex_sys (o : option sys) : sys := default (SBegin, ex_init, env0) o.

(** Asked to start; the request sent; an answer that accepts. *)
Definition ex0 : sys := Eval vm_compute in
  (SBegin, match wf_assoc_start true true ex_init with Ret (_, s) => s | _ => ex_init end, env0).
Definition ex1 : sys := Eval vm_compute in ex_sys (go [0; 1; 1; 0; 0; 0] ex0).
Definition ex_answer : list Z := Eval vm_compute in ex_frame 0 0xC001 [(1, [2; 4])].
Definition ex2 : sys := Eval vm_compute in ex_sys (got ex_answer ex1).

Lemma asc_ex1_ok : ok ex1.
Proof.
  apply (asc_go_ok [0; 1; 1; 0; 0; 0] ex0); [| by vm_compute].
  eapply (reach_start ex_cfg SBegin ex_init env0 true 0 (st ex0)); [| by vm_compute].
  apply (reach_init ex_cfg 100 200 300 400 ex_blank); [by apply (bool_decide_unpack _) | apply asc_ex_node_ok | done | done | by vm_compute].
Qed.
Lemma asc_ex2_ok : ok ex2.
Proof.
  apply (asc_got_ok ex_answer ex1); [exact asc_ex1_ok | | by vm_compute].
  split; [by apply bytes_okb_ok | cbn; unfold VARIABLE_OFS, ASSOC_RSP_SIZE; lia].
Qed.

(** What the call does on given answers, for a property of every run. *)
Lemma asc_on_run x ans tr r b p s (Q : list (ev * Z) -> pt_ret * label * option Z * assoc_info_t -> Prop) :
  wp (wf_assoc_sta_thrd ex_cfg fuel (bl x) (st x)) Q -> run_of x ans = Some (tr, (r, b, p, s)) -> Q tr (r, b, p, s).
Proof. intros Hw He. apply (wp_runs _ _ _ _ Hw). by apply (exec_runs _ ans). Qed.

Definition accepted_run := Eval vm_compute in default ([], (PT_WAITING, SBegin, None, st ex2)) (run_of ex2 [0]).
Lemma assoc_verdict_witness :
  run_of ex2 [0] = Some accepted_run /\
  let '(tr, (r, _, p, s')) := accepted_run in
  p = Some WF_ASSOC_TAG_DONE /\ hw_locked (after tr (en ex2)) = false /\ accepted s' /\ aid s' = 0xC001.
Proof.
  assert (E : run_of ex2 [0] = Some accepted_run) by (by vm_compute).
  destruct (assoc_verdict ex_cfg asc_ex_cfg_ok fuel SWait (st ex2) (en ex2) asc_ex2_ok ltac:(by vm_compute)) as (_ & Hw & _).
  destruct (asc_on_run ex2 _ _ _ _ _ _ _ Hw E) as (_ & _ & Hl & _ & _ & v & Hv & _ & Ha). injection Hv as <-.
  split; [done |]. split; [done |]. split; [exact Hl |]. split; [by apply Ha | by vm_compute].
Defined.

Definition sent_tr : list (ev * Z) :=
  [(ExtbufNew, 1); (FindWdn, 1);
   (MgmtXmit ([0; 0; 0; 0] ++ ex_bss ++ ex_addr ++ ex_bss ++ [0; 0] ++ [0; 0] ++ [0; 0] ++
     Ies.enc [(0, [97; 98]); (1, [2; 4; 11; 22]); (48, [1; 0; 0; 15])]), 0)].
Definition sent_st : assoc_info_t := Eval vm_compute in
  match exec (associate_xmit_frame ex_cfg ex_blank) [1; 1; 0] with Some (_, (_, s)) => s | None => ex_blank end.
Lemma assoc_request_frame_witness :
  runs (associate_xmit_frame ex_cfg ex_blank) sent_tr (0, sent_st) /\
  exists frame r, last sent_tr = Some (MgmtXmit frame, r) /\ take (Z.to_nat (req_len sent_st)) (req_ie sent_st) = drop 26 frame.
Proof.
  pose proof (assoc_request_frame ex_cfg asc_ex_cfg_ok ex_blank asc_ex_node_ok eq_refl) as Hw.
  assert (E : runs (associate_xmit_frame ex_cfg ex_blank) sent_tr (0, sent_st)) by (apply (exec_runs _ [1; 1; 0]); by vm_compute).
  split; [exact E |]. apply (wp_runs _ _ _ _ Hw) in E. clear Hw.
  destruct E as [(Hx & _) | [(Hx & _) | (_ & b & f & r & Htr & _ & Hie)]]; [discriminate Hx | discriminate Hx |].
  eexists _, r. split; [| exact Hie]. exact (f_equal last Htr).
Defined.

(** An answer of 28 bytes. *)
Definition ex_short : list Z := Eval vm_compute in take 28 ex_answer.
Definition ex3 : assoc_info_t := Eval vm_compute in st (ex_sys (got ex_short ex1)).
Lemma assoc_short_answer_witness :
  wf_assoc_frame_parse ex_cfg MLME_STATE_ASSOC ex_bss (Some ex_node) ex_short (st ex1) = Ret (0, ex3) /\
  wf_assoc_sta_thrd ex_cfg 20 SWait ex3 = ifault.
Proof.
  assert (E : wf_assoc_frame_parse ex_cfg MLME_STATE_ASSOC ex_bss (Some ex_node) ex_short (st ex1) = Ret (0, ex3)) by (by vm_compute).
  split; [exact E |]. apply (assoc_short_answer ex_cfg asc_ex_cfg_ok 19 (st ex1) (en ex1) ex_bss ex_node ex_short ex3 asc_ex1_ok); try exact E; by vm_compute.
Defined.
End Examples.
End Assoc.
