(* ===== verification/Mlme.v ===== *)
(** * The station's management thread ([nic/mlme.c])

    The thread that carries out the requests of the operating system: scans,
    and connections, for which it runs the scan, authentication and association
    threads in turn and then keeps the connection until it breaks.  This file
    holds the model of the thread with its nested protothreads, and of the
    requests and received frames put into its queue; [MlmeConn] the proofs
    about the thread.

    The scan, authentication and association threads, the chip, the transmit
    path and the operating system are calls.  [ScanThrd], [AuthThrd] and
    [AssocThrd] call the thread of that name and answer whether it goes on;
    when it has ended, [ScanResult] and so on is the reason it stored. *)
From S2P Require Import Prelude WdnTypes Wdn Ies Timer Msg Io Mgmt Action Scan.

Module Mlme.
Import Io.

(** ** Constants *)

Definition WF_MLME_TAG_SCAN_ABORT : Z := Msg.WF_MSG_TAG_SET 0 0 0.
Definition WF_MLME_TAG_SCAN_RSP : Z := WF_MLME_TAG_SCAN_ABORT + 1.
Definition WF_MLME_TAG_IBSS_LEAVE : Z := WF_MLME_TAG_SCAN_ABORT + 2.
Definition WF_MLME_TAG_IBSS_BEACON_FRAME : Z := WF_MLME_TAG_SCAN_ABORT + 3.
Definition WF_MLME_TAG_CONN_ABORT : Z := WF_MLME_TAG_SCAN_ABORT + 4.
Definition WF_MLME_TAG_DEAUTH : Z := WF_MLME_TAG_SCAN_ABORT + 5.
Definition WF_MLME_TAG_DEASSOC : Z := WF_MLME_TAG_SCAN_ABORT + 6.
Definition WF_MLME_TAG_P2P : Z := WF_MLME_TAG_SCAN_ABORT + 7.
Definition WF_MLME_TAG_SCAN : Z := Msg.WF_MSG_TAG_SET 0 1 0.
Definition WF_MLME_TAG_CONN : Z := WF_MLME_TAG_SCAN + 1.
Definition WF_MLME_TAG_CONN_IBSS : Z := WF_MLME_TAG_SCAN + 2.
Definition WF_MLME_TAG_ADD_BA_REQ : Z := Msg.WF_MSG_TAG_SET 0 2 0.
Definition WF_MLME_TAG_ADD_BA_RSP : Z := WF_MLME_TAG_ADD_BA_REQ + 1.
Definition WF_MLME_TAG_KEEPALIVE : Z := WF_MLME_TAG_ADD_BA_REQ + 2.

Definition MLME_STATE_SCAN : Z := 0.
Definition MLME_STATE_CONN_SCAN : Z := 1.
Definition MLME_STATE_AUTH : Z := 2.
Definition MLME_STATE_ASSOC : Z := 3.
Definition MLME_STATE_DEAUTH : Z := 4.
Definition MLME_STATE_ADD_BA_RESP : Z := 6.
Definition MLME_STATE_ADD_BA_REQ : Z := 7.
Definition MLME_STATE_IBSS_CONN_SCAN : Z := 8.
Definition MLME_STATE_IDLE : Z := 9.

Definition WF_ADHOC_MODE : Z := 1.
Definition WF_INFRA_MODE : Z := 2.
Definition WF_80211_REASON_UNSPECIFIED : Z := 1.
Definition WF_80211_REASON_DEAUTH_LEAVING : Z := 3.
(** [WF_AUTH_TAG_DONE] and [WF_ASSOC_TAG_DONE] *)
Definition TAG_DONE : Z := Msg.WF_MSG_TAG_SET 0 2 0 + 1.
Definition WF_80211_IES_SIZE_MAX : Z := 768.
(** [sizeof(mlme_scan_rsp_t)] and [sizeof(beacon_frame_t)] *)
Definition PROBERSP_SIZE : Z := 804.
(** [offsetof(struct beacon_ie, variable)] and [offsetof(wf_80211_mgmt_t, probe_resp.variable)] *)
Definition BEACON_IE_VARIABLE : Z := 12.
Definition VARIABLE_OFS : Z := 36.
Definition WF_80211_MGMT_CAPAB_ESS : Z := 1.
Definition WF_80211_MGMT_CAPAB_IBSS : Z := 2.
Definition WF_80211_MGMT_CAPAB_PRIVACY : Z := 16.

(** ** State *)

(** The value of a message: nothing, [wf_mlme_conn_res_t], [mlme_scan_t],
    [mlme_conn_t], [mlme_conn_ibss_t], a frame, [wf_add_ba_parm_st], or
    [p2p_msg_param_st]. *)
Inductive value : Type :=
  | VNone
  | VRes (local_disconn : bool) (reason_code : Z)
  | VScan (framework type : Z) (ssids : list Scan.wf_wlan_ssid_t) (chs : list Z)
  | VConn (indicate_en : bool) (framework : Z) (bssid : list Z) (ssid : Scan.wf_wlan_ssid_t)
  | VIbss (framework : Z) (ssid : Scan.wf_wlan_ssid_t) (ch : Z)
  | VFrame (buf : list Z)
  | VBa (p : Action.wf_add_ba_parm_st)
  | VP2p (param : list Z).

(** The arguments of [wf_scan_start]. *)
Record scan_args : Type := mk_args {
  sa_type : Z;
  sa_bssid : option (list Z);
  sa_ssids : list Scan.wf_wlan_ssid_t;
  sa_chs : list Z;
}.

(** The fields of [cur_network] set here. *)
Record network : Type := mk_net {
  mac_addr : list Z;
  bssid : list Z;
  ssid : Scan.wf_wlan_ssid_t;
  channel : Z;
  timestamp : Z;
  bcn_interval : Z;
  cap_info : Z;
  ies : list Z;
  ies_length : Z;
}.

(** The node of the connection: [ba_ctl] is whether the pointer is set, and
    [ba_on] the [enable] and [wait_timeout] of the entries it points to. *)
Record node_t : Type := mk_node {
  wdn : Wi.wdn_net_info_st;
  rx_pkt_stat : Z;
  rx_pkt_stat_last : Z;
  ba_ctl : bool;
  ba_on : list (bool * Z);
  ba_started_flag : list bool;
}.
Definition set_last (v : Z) (n : node_t) : node_t := mk_node (wdn n) (rx_pkt_stat n) v (ba_ctl n) (ba_on n) (ba_started_flag n).
Definition set_ba_ctl (v : bool) (n : node_t) : node_t :=
  mk_node (wdn n) (rx_pkt_stat n) (rx_pkt_stat_last n) v (ba_on n) (ba_started_flag n).
Definition set_ba_on (v : list (bool * Z)) (n : node_t) : node_t :=
  mk_node (wdn n) (rx_pkt_stat n) (rx_pkt_stat_last n) (ba_ctl n) v (ba_started_flag n).
Definition set_started (v : list bool) (n : node_t) : node_t :=
  mk_node (wdn n) (rx_pkt_stat n) (rx_pkt_stat_last n) (ba_ctl n) (ba_on n) v.

(** Where the threads of a connection wait: [core_conn_maintain_keepalive_thrd]
    and [core_conn_maintain_msg_thrd] with the threads it spawns. *)
Inductive klabel : Type := KBegin | KWait1 | KWait2.
Inductive mlabel : Type := MBegin | MPop | MScan | MScanStop | MProbe | MProbeStop | MDeauth | MBaReq | MBaRsp.

(** [mlme_info_t], with [cur_network] and the node. *)
Module Mi.
Record mlme_info_t : Type := mk {
  state : Z;
  connect : bool;
  busy_traffic : bool;
  num_rx_ok : Z;
  num_tx_ok : Z;
  barsp_parm : Action.wf_add_ba_parm_st;
  bareq_parm : Action.wf_add_ba_parm_st;
  pt_keepalive : klabel;
  pt_msg : mlabel;
  msg_que : Msg.wf_msg_que_t value;
  traffic_timer : Timer.wf_timer_t;
  keep_alive_timer : Timer.wf_timer_t;
  pwdn_info : bool;
  node : node_t;
  try_cnt : Z;
  pconn_msg : option Z;
  pscan_msg : option Z;
  pba_rsp_msg : option Z;
  pp2p_msg : option Z;
  conn_res : bool * Z;
  babort_thrd : bool;
  abort_thrd_finished : bool;
  net : network;
}.

Definition set_state (v : Z) (r : mlme_info_t) : mlme_info_t :=
  mk v (connect r) (busy_traffic r) (num_rx_ok r) (num_tx_ok r) (barsp_parm r) (bareq_parm r) (pt_keepalive r) (pt_msg
    r) (msg_que r) (traffic_timer r) (keep_alive_timer r) (pwdn_info r) (node r) (try_cnt r) (pconn_msg r) (pscan_msg
    r) (pba_rsp_msg r) (pp2p_msg r) (conn_res r) (babort_thrd r) (abort_thrd_finished r) (net r).
Definition set_connect (v : bool) (r : mlme_info_t) : mlme_info_t :=
  mk (state r) v (busy_traffic r) (num_rx_ok r) (num_tx_ok r) (barsp_parm r) (bareq_parm r) (pt_keepalive r) (pt_msg r)
    (msg_que r) (traffic_timer r) (keep_alive_timer r) (pwdn_info r) (node r) (try_cnt r) (pconn_msg r) (pscan_msg r)
    (pba_rsp_msg r) (pp2p_msg r) (conn_res r) (babort_thrd r) (abort_thrd_finished r) (net r).
Definition set_busy_traffic (v : bool) (r : mlme_info_t) : mlme_info_t :=
  mk (state r) (connect r) v (num_rx_ok r) (num_tx_ok r) (barsp_parm r) (bareq_parm r) (pt_keepalive r) (pt_msg r)
    (msg_que r) (traffic_timer r) (keep_alive_timer r) (pwdn_info r) (node r) (try_cnt r) (pconn_msg r) (pscan_msg r)
    (pba_rsp_msg r) (pp2p_msg r) (conn_res r) (babort_thrd r) (abort_thrd_finished r) (net r).
Definition set_num_rx_ok (v : Z) (r : mlme_info_t) : mlme_info_t :=
  mk (state r) (connect r) (busy_traffic r) v (num_tx_ok r) (barsp_parm r) (bareq_parm r) (pt_keepalive r) (pt_msg r)
    (msg_que r) (traffic_timer r) (keep_alive_timer r) (pwdn_info r) (node r) (try_cnt r) (pconn_msg r) (pscan_msg r)
    (pba_rsp_msg r) (pp2p_msg r) (conn_res r) (babort_thrd r) (abort_thrd_finished r) (net r).
Definition set_num_tx_ok (v : Z) (r : mlme_info_t) : mlme_info_t :=
  mk (state r) (connect r) (busy_traffic r) (num_rx_ok r) v (barsp_parm r) (bareq_parm r) (pt_keepalive r) (pt_msg r)
    (msg_que r) (traffic_timer r) (keep_alive_timer r) (pwdn_info r) (node r) (try_cnt r) (pconn_msg r) (pscan_msg r)
    (pba_rsp_msg r) (pp2p_msg r) (conn_res r) (babort_thrd r) (abort_thrd_finished r) (net r).
Definition set_barsp_parm (v : Action.wf_add_ba_parm_st) (r : mlme_info_t) : mlme_info_t :=
  mk (state r) (connect r) (busy_traffic r) (num_rx_ok r) (num_tx_ok r) v (bareq_parm r) (pt_keepalive r) (pt_msg r)
    (msg_que r) (traffic_timer r) (keep_alive_timer r) (pwdn_info r) (node r) (try_cnt r) (pconn_msg r) (pscan_msg r)
    (pba_rsp_msg r) (pp2p_msg r) (conn_res r) (babort_thrd r) (abort_thrd_finished r) (net r).
Definition set_bareq_parm (v : Action.wf_add_ba_parm_st) (r : mlme_info_t) : mlme_info_t :=
  mk (state r) (connect r) (busy_traffic r) (num_rx_ok r) (num_tx_ok r) (barsp_parm r) v (pt_keepalive r) (pt_msg r)
    (msg_que r) (traffic_timer r) (keep_alive_timer r) (pwdn_info r) (node r) (try_cnt r) (pconn_msg r) (pscan_msg r)
    (pba_rsp_msg r) (pp2p_msg r) (conn_res r) (babort_thrd r) (abort_thrd_finished r) (net r).
Definition set_pt_keepalive (v : klabel) (r : mlme_info_t) : mlme_info_t :=
  mk (state r) (connect r) (busy_traffic r) (num_rx_ok r) (num_tx_ok r) (barsp_parm r) (bareq_parm r) v (pt_msg r)
    (msg_que r) (traffic_timer r) (keep_alive_timer r) (pwdn_info r) (node r) (try_cnt r) (pconn_msg r) (pscan_msg r)
    (pba_rsp_msg r) (pp2p_msg r) (conn_res r) (babort_thrd r) (abort_thrd_finished r) (net r).
Definition set_pt_msg (v : mlabel) (r : mlme_info_t) : mlme_info_t :=
  mk (state r) (connect r) (busy_traffic r) (num_rx_ok r) (num_tx_ok r) (barsp_parm r) (bareq_parm r) (pt_keepalive r) v
    (msg_que r) (traffic_timer r) (keep_alive_timer r) (pwdn_info r) (node r) (try_cnt r) (pconn_msg r) (pscan_msg r)
    (pba_rsp_msg r) (pp2p_msg r) (conn_res r) (babort_thrd r) (abort_thrd_finished r) (net r).
Definition set_msg_que (v : Msg.wf_msg_que_t value) (r : mlme_info_t) : mlme_info_t :=
  mk (state r) (connect r) (busy_traffic r) (num_rx_ok r) (num_tx_ok r) (barsp_parm r) (bareq_parm r) (pt_keepalive r)
    (pt_msg r) v (traffic_timer r) (keep_alive_timer r) (pwdn_info r) (node r) (try_cnt r) (pconn_msg r) (pscan_msg r)
    (pba_rsp_msg r) (pp2p_msg r) (conn_res r) (babort_thrd r) (abort_thrd_finished r) (net r).
Definition set_traffic_timer (v : Timer.wf_timer_t) (r : mlme_info_t) : mlme_info_t :=
  mk (state r) (connect r) (busy_traffic r) (num_rx_ok r) (num_tx_ok r) (barsp_parm r) (bareq_parm r) (pt_keepalive r)
    (pt_msg r) (msg_que r) v (keep_alive_timer r) (pwdn_info r) (node r) (try_cnt r) (pconn_msg r) (pscan_msg r)
    (pba_rsp_msg r) (pp2p_msg r) (conn_res r) (babort_thrd r) (abort_thrd_finished r) (net r).
Definition set_keep_alive_timer (v : Timer.wf_timer_t) (r : mlme_info_t) : mlme_info_t :=
  mk (state r) (connect r) (busy_traffic r) (num_rx_ok r) (num_tx_ok r) (barsp_parm r) (bareq_parm r) (pt_keepalive r)
    (pt_msg r) (msg_que r) (traffic_timer r) v (pwdn_info r) (node r) (try_cnt r) (pconn_msg r) (pscan_msg r)
    (pba_rsp_msg r) (pp2p_msg r) (conn_res r) (babort_thrd r) (abort_thrd_finished r) (net r).
Definition set_pwdn_info (v : bool) (r : mlme_info_t) : mlme_info_t :=
  mk (state r) (connect r) (busy_traffic r) (num_rx_ok r) (num_tx_ok r) (barsp_parm r) (bareq_parm r) (pt_keepalive r)
    (pt_msg r) (msg_que r) (traffic_timer r) (keep_alive_timer r) v (node r) (try_cnt r) (pconn_msg r) (pscan_msg r)
    (pba_rsp_msg r) (pp2p_msg r) (conn_res r) (babort_thrd r) (abort_thrd_finished r) (net r).
Definition set_node (v : node_t) (r : mlme_info_t) : mlme_info_t :=
  mk (state r) (connect r) (busy_traffic r) (num_rx_ok r) (num_tx_ok r) (barsp_parm r) (bareq_parm r) (pt_keepalive r)
    (pt_msg r) (msg_que r) (traffic_timer r) (keep_alive_timer r) (pwdn_info r) v (try_cnt r) (pconn_msg r) (pscan_msg
    r) (pba_rsp_msg r) (pp2p_msg r) (conn_res r) (babort_thrd r) (abort_thrd_finished r) (net r).
Definition set_try_cnt (v : Z) (r : mlme_info_t) : mlme_info_t :=
  mk (state r) (connect r) (busy_traffic r) (num_rx_ok r) (num_tx_ok r) (barsp_parm r) (bareq_parm r) (pt_keepalive r)
    (pt_msg r) (msg_que r) (traffic_timer r) (keep_alive_timer r) (pwdn_info r) (node r) v (pconn_msg r) (pscan_msg r)
    (pba_rsp_msg r) (pp2p_msg r) (conn_res r) (babort_thrd r) (abort_thrd_finished r) (net r).
Definition set_pconn_msg (v : option Z) (r : mlme_info_t) : mlme_info_t :=
  mk (state r) (connect r) (busy_traffic r) (num_rx_ok r) (num_tx_ok r) (barsp_parm r) (bareq_parm r) (pt_keepalive r)
    (pt_msg r) (msg_que r) (traffic_timer r) (keep_alive_timer r) (pwdn_info r) (node r) (try_cnt r) v (pscan_msg r)
    (pba_rsp_msg r) (pp2p_msg r) (conn_res r) (babort_thrd r) (abort_thrd_finished r) (net r).
Definition set_pscan_msg (v : option Z) (r : mlme_info_t) : mlme_info_t :=
  mk (state r) (connect r) (busy_traffic r) (num_rx_ok r) (num_tx_ok r) (barsp_parm r) (bareq_parm r) (pt_keepalive r)
    (pt_msg r) (msg_que r) (traffic_timer r) (keep_alive_timer r) (pwdn_info r) (node r) (try_cnt r) (pconn_msg r) v
    (pba_rsp_msg r) (pp2p_msg r) (conn_res r) (babort_thrd r) (abort_thrd_finished r) (net r).
Definition set_pba_rsp_msg (v : option Z) (r : mlme_info_t) : mlme_info_t :=
  mk (state r) (connect r) (busy_traffic r) (num_rx_ok r) (num_tx_ok r) (barsp_parm r) (bareq_parm r) (pt_keepalive r)
    (pt_msg r) (msg_que r) (traffic_timer r) (keep_alive_timer r) (pwdn_info r) (node r) (try_cnt r) (pconn_msg r)
    (pscan_msg r) v (pp2p_msg r) (conn_res r) (babort_thrd r) (abort_thrd_finished r) (net r).
Definition set_pp2p_msg (v : option Z) (r : mlme_info_t) : mlme_info_t :=
  mk (state r) (connect r) (busy_traffic r) (num_rx_ok r) (num_tx_ok r) (barsp_parm r) (bareq_parm r) (pt_keepalive r)
    (pt_msg r) (msg_que r) (traffic_timer r) (keep_alive_timer r) (pwdn_info r) (node r) (try_cnt r) (pconn_msg r)
    (pscan_msg r) (pba_rsp_msg r) v (conn_res r) (babort_thrd r) (abort_thrd_finished r) (net r).
Definition set_conn_res (v : bool * Z) (r : mlme_info_t) : mlme_info_t :=
  mk (state r) (connect r) (busy_traffic r) (num_rx_ok r) (num_tx_ok r) (barsp_parm r) (bareq_parm r) (pt_keepalive r)
    (pt_msg r) (msg_que r) (traffic_timer r) (keep_alive_timer r) (pwdn_info r) (node r) (try_cnt r) (pconn_msg r)
    (pscan_msg r) (pba_rsp_msg r) (pp2p_msg r) v (babort_thrd r) (abort_thrd_finished r) (net r).
Definition set_babort_thrd (v : bool) (r : mlme_info_t) : mlme_info_t :=
  mk (state r) (connect r) (busy_traffic r) (num_rx_ok r) (num_tx_ok r) (barsp_parm r) (bareq_parm r) (pt_keepalive r)
    (pt_msg r) (msg_que r) (traffic_timer r) (keep_alive_timer r) (pwdn_info r) (node r) (try_cnt r) (pconn_msg r)
    (pscan_msg r) (pba_rsp_msg r) (pp2p_msg r) (conn_res r) v (abort_thrd_finished r) (net r).
Definition set_abort_thrd_finished (v : bool) (r : mlme_info_t) : mlme_info_t :=
  mk (state r) (connect r) (busy_traffic r) (num_rx_ok r) (num_tx_ok r) (barsp_parm r) (bareq_parm r) (pt_keepalive r)
    (pt_msg r) (msg_que r) (traffic_timer r) (keep_alive_timer r) (pwdn_info r) (node r) (try_cnt r) (pconn_msg r)
    (pscan_msg r) (pba_rsp_msg r) (pp2p_msg r) (conn_res r) (babort_thrd r) v (net r).
Definition set_net (v : network) (r : mlme_info_t) : mlme_info_t :=
  mk (state r) (connect r) (busy_traffic r) (num_rx_ok r) (num_tx_ok r) (barsp_parm r) (bareq_parm r) (pt_keepalive r)
    (pt_msg r) (msg_que r) (traffic_timer r) (keep_alive_timer r) (pwdn_info r) (node r) (try_cnt r) (pconn_msg r)
    (pscan_msg r) (pba_rsp_msg r) (pp2p_msg r) (conn_res r) (babort_thrd r) (abort_thrd_finished r) v.
End Mi.
Import Mi.

(** What one call of the thread sees of other structures: one time, the flags of
    the device, the work mode, and what [wf_wdn_add] and [wf_wdn_data_update]
    make of the node; the rest does not change. *)
Record ctx : Type := mk_ctx {
  now : Z;
  is_up : bool;
  work_mode : Z;
  is_surprise_removed : bool;
  is_driver_stopped : bool;
  new_node : node_t;
  hw_ba_enable : bool;
  buddy_master : bool;
  msecs_to_timestamp : Z -> Z;
  junk : list Z;
}.

(** Commands to the chip. *)
Inductive mcu : Type :=
  | Preamble (p : Z) | SlotTime (t : Z) | WmmPara (en : bool) | CorrectTsf (t : Z) | Sifs (v : Z) | MacidWakeup (id : Z)
  | MaxAmpduLen (n : Z) | MinAmpduSpace (n : Z) | BasicRate (cfg : Z) | ChannelBw (ch bw ofs : Z)
  | MlmeJoin (type : Z) | UserInfo (en : bool) | RateTable.

Inductive ev : Type :=
  | ScanStart (a : scan_args) | ScanStop | ScanThrd | ScanResult
  | AuthStart | AuthStop | AuthThrd | AuthResult
  | AssocStart | AssocStop | AssocThrd | AssocResult
  | P2pThrd (param : option Z)
  | HwTrylock | HwUnlock | Mcu (c : mcu)
  | WdnAdd (mac : list Z) | WdnUpdate | WdnRemove (mac : list Z) | WdnFind (mac : list Z)
  | DelBaRequest | BaIssue (action : Z) | DeauthXmit (mac : list Z) (reason : Z) | BaAllReinit
  | EnableAllDataQueue | ResendBcn (ch : Z) | TxPendingClear | TxHifEmpty
  | IndScanDone (aborted : bool) (framework : Z) | IndConnect (framework : Z) | IndDisconnect (framework : Z)
  | AdhocJoin (framework reason : Z) | AdhocTimer | AdhocKeepalive | AdhocUpdate | AdhocPrcBcn | AdhocCount | AdhocFramework
  | Indeterminate.

(** ** The current network *)

(** [set_cur_network] of the frame in [buf], of [mgmt_len] bytes; [junk] is what
    the local variable [ssid.data] held before. *)
Definition set_cur_network (junk buf : list Z) (mgmt_len : Z) (n : network) : C (Z * network) :=
  let pies := drop (Z.to_nat VARIABLE_OFS) buf in
  let ies_len := u16 (mgmt_len - BEACON_IE_VARIABLE) in
  letc o := Ies.wf_80211_mgmt_ies_search (Some pies) ies_len Scan.WF_80211_MGMT_EID_DS_PARAMS in
  match o with
  | None => Ret (-1, n)
  | Some o =>
      letc bss_ch := rd pies (o + 2) in
      letc sa := Mgmt.sa buf in
      letc bss := Mgmt.bssid buf in
      let n := mk_net sa bss (ssid n) bss_ch (timestamp n) (bcn_interval n) (cap_info n) (ies n) (ies_length n) in
      letc o := Ies.wf_80211_mgmt_ies_search (Some pies) ies_len Scan.WF_80211_MGMT_EID_SSID in
      match o with
      | None => Ret (-2, n)
      | Some o =>
          letc len := rd pies (o + 1) in
          letc name := slice pies (o + 2) len in
          letc data := blit junk 0 name in
          letc data := wr data len 0 in
          letc t := slice buf 24 8 in
          letc intv := Mgmt.get16 buf 32 in
          letc capab := Mgmt.get16 buf 34 in
          let n := mk_net sa bss (Scan.mk_ssid len data) bss_ch (le_word t) intv capab (ies n) (ies_length n) in
          let var_len := u16 (mgmt_len - VARIABLE_OFS) in
          if WF_80211_IES_SIZE_MAX <? var_len then Ret (-2, n)
          else
            letc v := slice buf VARIABLE_OFS var_len in
            letc v := blit (ies n) 0 v in
            Ret (0, mk_net sa bss (ssid n) bss_ch (le_word t) intv capab v var_len)
      end
  end.

(** ** Messages *)

Definition pop (s : mlme_info_t) : C (option Z * mlme_info_t) :=
  letc (_, m, q) := Msg.wf_msg_pop (msg_que s) in
  Ret (m, set_msg_que q s).

Definition peek (s : mlme_info_t) : C (option Z) :=
  letc (_, m, _) := Msg.wf_msg_get (msg_que s) in
  Ret m.

Definition del (m : Z) (s : mlme_info_t) : C mlme_info_t :=
  letc (_, q) := Msg.wf_msg_del (msg_que s) m in
  Ret (set_msg_que q s).

(** [wf_msg_del] of the message a field points to. *)
Definition del_ptr (p : option Z) (s : mlme_info_t) : C mlme_info_t :=
  letc m := of_option p in
  del m s.

Definition tag (m : Z) (s : mlme_info_t) : Z := Msg.tag_of (msg_que s) m.

Definition value_at (m : Z) (s : mlme_info_t) : C value :=
  letc x := Msg.msg_at (msg_que s) m in
  Ret (Msg.value x).

Definition res_at (m : Z) (s : mlme_info_t) : C (bool * Z) :=
  letc v := value_at m s in
  match v with VRes l r => Ret (l, r) | _ => Fault end.

Definition frame_at (m : Z) (s : mlme_info_t) : C (list Z * Z) :=
  letc x := Msg.msg_at (msg_que s) m in
  match Msg.value x with VFrame b => Ret (b, u16 (Msg.len x)) | _ => Fault end.

Definition conn_at (p : option Z) (s : mlme_info_t) : C (bool * Z * list Z * Scan.wf_wlan_ssid_t) :=
  letc m := of_option p in
  letc v := value_at m s in
  match v with VConn i f b n => Ret (i, f, b, n) | _ => Fault end.

Definition scan_at (p : option Z) (s : mlme_info_t) : C (Z * Z * list Scan.wf_wlan_ssid_t * list Z) :=
  letc m := of_option p in
  letc v := value_at m s in
  match v with VScan f t n c => Ret (f, t, n, c) | _ => Fault end.

Definition ibss_at (p : option Z) (s : mlme_info_t) : C (Z * Scan.wf_wlan_ssid_t * Z) :=
  letc m := of_option p in
  letc v := value_at m s in
  match v with VIbss f n c => Ret (f, n, c) | _ => Fault end.

(** A new message: its value written, with its length if [l] is given. *)
Definition post_msg (t : Z) (l : option Z) (v : option value) (enew epush : Z) (s : mlme_info_t) : C (Z * mlme_info_t) :=
  letc (_, pmsg, q) := Msg.wf_msg_new (msg_que s) t in
  match pmsg with
  | None => Ret (enew, set_msg_que q s)
  | Some m =>
      letc x := Msg.msg_at q m in
      let q := Msg.msg_write m (default (Msg.len x) l) (default (Msg.value x) v) q in
      letc (r, q) := Msg.wf_msg_push q m in
      if nz r then letc (_, q) := Msg.wf_msg_del q m in Ret (epush, set_msg_que q s)
      else Ret (0, set_msg_que q s)
  end.

(** [mlme_msg_send] *)
Definition mlme_msg_send (t : Z) (v : option (Z * value)) (s : mlme_info_t) : C (Z * mlme_info_t) :=
  post_msg t (fst <$> v) (snd <$> v) (-3) (-4) s.

Section Requests.
Context (c : ctx).

(** [sizeof(wf_mlme_conn_res_t)] *)
Definition RES_SIZE : Z := 8.

Definition wf_mlme_conn_abort (local_gen : bool) (reason : Z) (s : mlme_info_t) : C (Z * mlme_info_t) :=
  if negb (work_mode c =? WF_INFRA_MODE) then Ret (-2, s)
  else
    match pconn_msg s with
    | Some m =>
        if tag m s =? WF_MLME_TAG_CONN then
          letc (r, s) := mlme_msg_send WF_MLME_TAG_CONN_ABORT (Some (RES_SIZE, VRes local_gen reason)) s in
          Ret (if nz r then -4 else 0, s)
        else Ret (-3, s)
    | None => Ret (-3, s)
    end.

Definition wf_mlme_scan_abort (s : mlme_info_t) : C (Z * mlme_info_t) :=
  if negb (work_mode c =? WF_INFRA_MODE) then Ret (-2, s)
  else
    match pscan_msg s with
    | Some m =>
        if tag m s =? WF_MLME_TAG_SCAN then
          letc (r, s) := mlme_msg_send WF_MLME_TAG_SCAN_ABORT None s in
          Ret (if nz r then -4 else 0, s)
        else Ret (-3, s)
    | None => Ret (-3, s)
    end.

(** [wf_mlme_deauth] and [wf_mlme_deassoc]; [t] is the tag. *)
Definition wf_mlme_disconn (t : Z) (local_gen : bool) (reason : Z) (s : mlme_info_t) : C (Z * mlme_info_t) :=
  if negb (is_up c) then Ret (-2, s)
  else if negb (work_mode c =? WF_INFRA_MODE) then Ret (-3, s)
  else
    letc (r, s) := mlme_msg_send t (Some (RES_SIZE, VRes local_gen reason)) s in
    Ret (if nz r then -4 else 0, s).

Definition wf_mlme_deauth := wf_mlme_disconn WF_MLME_TAG_DEAUTH.
Definition wf_mlme_deassoc := wf_mlme_disconn WF_MLME_TAG_DEASSOC.

Definition wf_mlme_add_ba_req (s : mlme_info_t) : C (Z * mlme_info_t) :=
  if negb (is_up c) then Ret (-2, s)
  else
    letc (r, s) := mlme_msg_send WF_MLME_TAG_ADD_BA_REQ None s in
    Ret (if nz r then -3 else 0, s).

(** [sizeof(wf_add_ba_parm_st)] *)
Definition BA_SIZE : Z := 24.
Definition wf_mlme_add_ba_rsp (p : Action.wf_add_ba_parm_st) (s : mlme_info_t) : C (Z * mlme_info_t) :=
  if negb (is_up c) then Ret (-2, s)
  else
    letc (r, s) := mlme_msg_send WF_MLME_TAG_ADD_BA_RSP (Some (BA_SIZE, VBa p)) s in
    Ret (if nz r then -3 else 0, s).

(** The names and channels are copied into arrays of these sizes, unchecked. *)
Definition WF_SCAN_REQ_SSID_NUM : Z := 9.
Definition WF_SCAN_REQ_CHANNEL_NUM : Z := 51.
Definition wf_mlme_scan_start (type : Z) (ssids : list Scan.wf_wlan_ssid_t) (chs : list Z) (frm_work : Z) (s : mlme_info_t)
    : C (Z * mlme_info_t) :=
  if negb (is_up c) then Ret (-2, s)
  else if (WF_SCAN_REQ_SSID_NUM <? Z.of_nat (length ssids)) || (WF_SCAN_REQ_CHANNEL_NUM <? Z.of_nat (length chs)) then Fault
  else post_msg WF_MLME_TAG_SCAN None (Some (VScan frm_work type ssids chs)) (-4) (-5) s.

(** [scanning] is the answer of [wf_is_scanning]. *)
Definition wf_mlme_conn_scan_rsp (scanning : bool) (frame : list Z) (s : mlme_info_t) : C (Z * mlme_info_t) :=
  if negb (is_up c) then Ret (-2, s)
  else if negb scanning then Ret (-3, s)
  else
    letc (_, pmsg, q) := Msg.wf_msg_new (msg_que s) WF_MLME_TAG_SCAN_RSP in
    match pmsg with
    | None => Ret (-4, set_msg_que q s)
    | Some m =>
        letc x := Msg.msg_at q m in
        letc b := match Msg.value x with VFrame b => Ret b | _ => Fault end in
        letc b := blit b 0 frame in
        letc (r, q) := Msg.wf_msg_push (Msg.msg_write m (Z.of_nat (length frame)) (VFrame b) q) m in
        if nz r then letc (_, q) := Msg.wf_msg_del q m in Ret (-5, set_msg_que q s)
        else Ret (0, set_msg_que q s)
    end.

(** [wf_mlme_conn_start] with a [bssid] (zero if none was given) and a name; the
    data of an empty name is not looked at. *)
Definition wf_mlme_conn_start (bss : list Z) (name : Scan.wf_wlan_ssid_t) (frm_work : Z) (indicate_en : bool) (s : mlme_info_t)
    : C (Z * mlme_info_t) :=
  if negb (is_up c) then Ret (-2, s)
  else
    letc (_, s) := match pconn_msg s with
                   | Some _ => wf_mlme_conn_abort true WF_80211_REASON_UNSPECIFIED s
                   | None => Ret (0, s)
                   end in
    letc m := peek s in
    letc s := match m with
              | Some m => if tag m s =? WF_MLME_TAG_CONN then del m s else Ret s
              | None => Ret s
              end in
    letc name := (if nz (Scan.ssid_length name) then
                    letc d := wr (Scan.ssid_data name) (Scan.ssid_length name) 0 in
                    Ret (Scan.mk_ssid (Scan.ssid_length name) d)
                  else Ret (Scan.mk_ssid 0 [])) in
    post_msg WF_MLME_TAG_CONN None (Some (VConn indicate_en frm_work bss name)) (-3) (-4) s.

Definition wf_mlme_scan_ibss_start (name : Scan.wf_wlan_ssid_t) (ch frm_work : Z) (s : mlme_info_t) : C (Z * mlme_info_t) :=
  if negb (is_up c) then Ret (-2, s)
  else post_msg WF_MLME_TAG_CONN_IBSS None (Some (VIbss frm_work name ch)) (-5) (-5) s.

(** [wf_mlme_p2p_msg] *)
Definition wf_mlme_p2p_msg (param : list Z) (s : mlme_info_t) : C (Z * mlme_info_t) :=
  post_msg WF_MLME_TAG_P2P None (Some (VP2p param)) (-4) (-5) s.

(** [wf_mlme_abort] up to its loop, and the loop: it waits for a flag that the
    management thread sets, so it never ends in that thread itself. *)
Definition abort_request (s : mlme_info_t) : C mlme_info_t :=
  letc s := (if negb (work_mode c =? WF_ADHOC_MODE) then
               letc (_, s) := wf_mlme_conn_abort true WF_80211_REASON_UNSPECIFIED s in
               letc (_, s) := wf_mlme_scan_abort s in
               Ret s
             else Ret s) in
  Ret (set_babort_thrd true s).
Definition abort_in_thread (s : mlme_info_t) : C mlme_info_t :=
  letc s := abort_request s in
  if abort_thrd_finished s then Ret s else Stuck.
End Requests.

(** ** The thread

    One label per place where a call can end or a loop begins.  A call starts
    with its local [pmsg] null; all other local variables are assigned in the
    call that uses them. *)
Inductive label : Type :=
  | LTop | LIdle
  | ScLoop | ScStop
  | CsStart | CsLoop | CsAbort | CsBad | CsOk
  | AuBegin | AuLoop | AuStop
  | AsBegin | AsLoop | AsStop
  | PreLock | CTick | CMsg
  | Brk | ClrWait
  | P2p
  | IbLoop | IbStop | IbMaint0 | IbMaint.

Definition step : Type := next label * option Z * mlme_info_t.

Section Thread.
Context (c : ctx).

Definition goto (b : label) (s : mlme_info_t) : step := (Goto b, None, s).
Definition wait (b : label) (s : mlme_info_t) : step := (Return PT_WAITING b, None, s).
Definition yield (b : label) (s : mlme_info_t) : step := (Return PT_YIELDED b, None, s).

Definition timer_set (ms : Z) (t : Timer.wf_timer_t) : Timer.wf_timer_t := Timer.wf_timer_set (msecs_to_timestamp c) (now c) ms t.
Definition expired (t : Timer.wf_timer_t) : bool := Timer.wf_timer_expired (now c) t.

(** [PT_WAIT_THREAD] of a thread called by [e], waiting at [b]. *)
Definition wait_thread (e : ev) (b : label) (s : mlme_info_t) (k : io ev step) : io ev step :=
  let! run := call e in
  if nz run then iret (wait b s) else k.

(** *** Scanning: [core_scan_thrd] *)

Definition end_scan (s : mlme_info_t) : io ev step :=
  let! s := lift (del_ptr (pscan_msg s) s) in
  iret (goto LIdle (set_pscan_msg None s)).

Definition report_scan (s : mlme_info_t) : io ev step :=
  let! rst := call ScanResult in
  if is_up c then
    let! (frm, _, _, _) := lift (scan_at (pscan_msg s) s) in
    do! call (IndScanDone (rst =? Scan.WF_SCAN_TAG_ABORT) frm) in
    end_scan s
  else end_scan s.

Definition start_scan (s : mlme_info_t) : io ev step :=
  let! (_, type, names, chs) := lift (scan_at (pscan_msg s) s) in
  let! rst := call (ScanStart (mk_args type None names chs)) in
  if nz rst then end_scan s else iret (goto ScLoop s).

Definition at_scan (s : mlme_info_t) : io ev step :=
  let! run := call ScanThrd in
  if negb (nz run) then report_scan s
  else
    let! m := lift (peek s) in
    match m with
    | Some m =>
        if tag m s =? WF_MLME_TAG_SCAN_ABORT then
          let! s := lift (del m s) in
          do! call ScanStop in
          iret (goto ScStop s)
        else iret (yield ScLoop s)
    | None => iret (yield ScLoop s)
    end.

(** *** The connection: [core_conn_scan_thrd] *)

Definition at_conn_start (s : mlme_info_t) : io ev step :=
  let! (_, _, bss, name) := lift (conn_at (pconn_msg s) s) in
  let! rst := call (ScanStart (mk_args Scan.SCAN_TYPE_ACTIVE (Some bss) (if nz (Scan.ssid_length name) then [name] else []) [])) in
  iret (goto (if nz rst then Brk else CsLoop) s).

(** A message while the network is looked for. *)
Definition on_conn_msg (m : Z) (s : mlme_info_t) : io ev step :=
  let t := tag m s in
  if (t =? WF_MLME_TAG_CONN_ABORT) || (t =? WF_MLME_TAG_SCAN_ABORT) then
    let! res := lift (if t =? WF_MLME_TAG_CONN_ABORT then res_at m s else Ret (true, WF_80211_REASON_UNSPECIFIED)) in
    let! s := lift (del m (set_conn_res res s)) in
    do! call ScanStop in
    iret (goto CsAbort s)
  else if t =? WF_MLME_TAG_SCAN_RSP then
    let! (buf, len) := lift (frame_at m s) in
    let! (rst, n) := lift (set_cur_network (junk c) buf len (net s)) in
    let! s := lift (del m (set_net n s)) in
    if nz rst then
      let s := set_conn_res (true, WF_80211_REASON_UNSPECIFIED) s in
      do! call ScanStop in
      iret (goto CsBad s)
    else
      do! call ScanStop in
      iret (goto CsOk s)
  else
    let! s := lift (del m s) in
    iret (yield CsLoop s).

Definition at_conn_scan (s : mlme_info_t) : io ev step :=
  let! run := call ScanThrd in
  if negb (nz run) then
    let! rst := call ScanResult in
    if rst =? Scan.WF_SCAN_TAG_DONE then
      let s := set_try_cnt (u8 (try_cnt s - 1)) s in
      iret (goto (if nz (try_cnt s) then CsStart else Brk) s)
    else iret (goto Brk s)
  else
    let! (m, s) := lift (pop s) in
    match m with
    | None => iret (yield CsLoop s)
    | Some m => on_conn_msg m s
    end.

(** [hw_cfg] *)
Definition hw_cmds (w : Wi.wdn_net_info_st) : list mcu :=
  let rates l n := take (Z.to_nat n) l in
  let basic := Wdn.get_bratecfg_by_support_dates (rates (Wi.ext_datarate w) (Wi.ext_datarate_len w))
                 (Wdn.get_bratecfg_by_support_dates (rates (Wi.datarate w) (Wi.datarate_len w)) 0) in
  [Preamble (if nz (Wi.short_preamble w) then 3 else 1); SlotTime (if nz (Wi.short_slot w) then 9 else 20);
   WmmPara (nz (Wi.wmm_enable w)); CorrectTsf (Wi.tsf w); Sifs 0x0a0a0808; MacidWakeup (Wi.wdn_id w);
   MaxAmpduLen (HtPriv.rx_ampdu_maxlen (Wi.htpriv w)); MinAmpduSpace (HtPriv.rx_ampdu_min_spacing (Wi.htpriv w));
   BasicRate basic; ChannelBw (Wi.channel w) (Wi.bw_mode w) (Wi.channle_offset w)].
Fixpoint run_cmds (l : list mcu) (ret : Z) : io ev Z :=
  match l with
  | [] => iret ret
  | x :: l => let! r := call (Mcu x) in run_cmds l (Z.lor ret r)
  end.
Definition hw_cfg (w : Wi.wdn_net_info_st) : io ev Z := run_cmds (hw_cmds w) 0.

Definition build_wdn (s : mlme_info_t) : io ev (Z * mlme_info_t) :=
  let! found := call (WdnAdd (bssid (net s))) in
  let s := set_pwdn_info (nz found) s in
  if negb (nz found) then iret (-1, s)
  else
    let! r := call WdnUpdate in
    let s := set_node (new_node c) s in
    if nz r then iret (-2, s)
    else
      let! r := hw_cfg (wdn (node s)) in
      iret (if nz r then -3 else 0, s).

Definition at_found (s : mlme_info_t) : io ev step :=
  let! (r, s) := build_wdn s in
  iret (if nz r then goto Brk s else goto AuBegin (set_state MLME_STATE_AUTH s)).

(** [core_conn_auth_thrd] and [core_conn_assoc_thrd]: thread and stop call, the
    label of the wait, and what follows its end. *)
Definition at_join (thrd stop : ev) (here stopping : label) (k : mlme_info_t -> io ev step) (s : mlme_info_t) : io ev step :=
  let! run := call thrd in
  if negb (nz run) then k s
  else
    let! (m, s) := lift (pop s) in
    match m with
    | None => iret (yield here s)
    | Some m =>
        let t := tag m s in
        if (t =? WF_MLME_TAG_CONN_ABORT) || (t =? WF_MLME_TAG_DEAUTH) then
          let! res := lift (res_at m s) in
          let! s := lift (del m (set_conn_res res s)) in
          do! call stop in
          iret (goto stopping s)
        else
          let! s := lift (del m s) in
          iret (yield here s)
    end.

Definition auth_ended (s : mlme_info_t) : io ev step :=
  let! rst := call AuthResult in
  iret (if rst =? TAG_DONE then goto AsBegin (set_state MLME_STATE_ASSOC s) else goto Brk s).

Definition assoc_ended (s : mlme_info_t) : io ev step :=
  let! rst := call AssocResult in
  if rst =? TAG_DONE then
    iret (goto PreLock (if hw_ba_enable c then set_node (set_ba_ctl true (node s)) s else s))
  else
    do! call (DeauthXmit (bssid (net s)) WF_80211_REASON_DEAUTH_LEAVING) in
    iret (goto Brk s).

(** [core_conn_preconnect], and the entry of [core_conn_maintain]. *)
Definition at_preconnect (s : mlme_info_t) : io ev step :=
  let! busy := call HwTrylock in
  if nz busy then iret (wait PreLock s)
  else
    let! r := call (Mcu RateTable) in
    if nz r then
      do! call HwUnlock in
      iret (goto Brk s)
    else
      do! call DelBaRequest in
      do! call (Mcu (MlmeJoin 2)) in
      do! call (Mcu (UserInfo true)) in
      do! call EnableAllDataQueue in
      let! (_, frm, _, _) := lift (conn_at (pconn_msg s) s) in
      do! call (IndConnect frm) in
      let! _ := (if buddy_master c then call (ResendBcn (Wi.channel (wdn (node s)))) else iret 0) in
      do! call HwUnlock in
      do! call BaAllReinit in
      let s := set_pt_msg MBegin (set_pt_keepalive KBegin (set_connect true s)) in
      iret (goto CTick (set_traffic_timer (timer_set 1000 (traffic_timer s)) s)).

(** *** Keeping the connection *)

(** [core_conn_maintain_traffic] *)
Definition core_conn_maintain_traffic (s : mlme_info_t) : mlme_info_t :=
  if negb (expired (traffic_timer s)) then s
  else
    let s := set_traffic_timer (Timer.wf_timer_reset (traffic_timer s)) s in
    let threshold := if busy_traffic s then 75 else 100 in
    let s := set_busy_traffic ((threshold <? num_rx_ok s) || (threshold <? num_tx_ok s)) s in
    set_num_tx_ok 0 (set_num_rx_ok 0 s).

(** [core_conn_maintain_keepalive_thrd] from the beginning of its loop: it waits
    while there is traffic, then starts the timer.  The timer has just been
    started when it is first looked at, so the thread waits. *)
Definition keepalive_begin (s : mlme_info_t) : mlme_info_t :=
  if busy_traffic s then set_pt_keepalive KBegin s
  else
    let s := set_node (set_last (rx_pkt_stat (node s)) (node s)) s in
    set_pt_keepalive KWait1 (set_keep_alive_timer (timer_set 10000 (keep_alive_timer s)) s).

Definition core_conn_maintain_keepalive_thrd (s : mlme_info_t) : C mlme_info_t :=
  let heard := negb (rx_pkt_stat_last (node s) =? rx_pkt_stat (node s)) in
  match pt_keepalive s with
  | KBegin => Ret (keepalive_begin s)
  | KWait1 =>
      if negb (expired (keep_alive_timer s)) then Ret s
      else if heard then Ret (keepalive_begin s)
      else
        letc (rst, s) := mlme_msg_send WF_MLME_TAG_KEEPALIVE None s in
        if nz rst then Ret (keepalive_begin s)
        else Ret (set_pt_keepalive KWait2 (set_keep_alive_timer (timer_set 10000 (keep_alive_timer s)) s))
  | KWait2 =>
      if negb (expired (keep_alive_timer s)) then Ret s
      else if heard then Ret (keepalive_begin s)
      else
        letc (rst, s) := wf_mlme_deauth c true WF_80211_REASON_DEAUTH_LEAVING s in
        Ret (if nz rst then keepalive_begin s else set_pt_keepalive KBegin s)
  end.

Definition at_tick (s : mlme_info_t) : io ev step :=
  let! s := lift (core_conn_maintain_keepalive_thrd (core_conn_maintain_traffic s)) in
  iret (yield CMsg s).

(** [core_conn_maintain_msg_thrd]: it waits at [m], or goes on at [m]. *)
Definition msg_waits (m : mlabel) (s : mlme_info_t) : io ev step := iret (goto CTick (set_pt_msg m s)).
Definition msg_goes (m : mlabel) (s : mlme_info_t) : io ev step := iret (goto CMsg (set_pt_msg m s)).

Definition msg_begin (s : mlme_info_t) : io ev step := msg_waits MPop (set_state MLME_STATE_IDLE s).

(** A message that ends the connection. *)
Definition is_disconn (t : Z) : bool :=
  (t =? WF_MLME_TAG_DEAUTH) || (t =? WF_MLME_TAG_DEASSOC) || (t =? WF_MLME_TAG_CONN_ABORT).

(** The scans of a connection: the thread is stopped by messages of the tags
    [taken], which are deleted, and by those that end the connection, which are
    left in the queue. *)
Definition msg_scanning (taken : Z -> bool) (here stopping : mlabel) (k : mlme_info_t -> io ev step) (s : mlme_info_t) : io ev step :=
  let! run := call ScanThrd in
  if negb (nz run) then k s
  else
    let! m := lift (peek s) in
    match m with
    | None => msg_waits here s
    | Some m =>
        let t := tag m s in
        if taken t then
          let! s := lift (del m s) in
          do! call ScanStop in
          msg_goes stopping s
        else if is_disconn t then
          do! call ScanStop in
          msg_goes stopping s
        else msg_waits here s
    end.

Definition end_msg_scan (s : mlme_info_t) : io ev step :=
  let! s := lift (del_ptr (pscan_msg s) s) in
  msg_begin (set_pscan_msg None s).

Definition report_msg_scan (s : mlme_info_t) : io ev step :=
  let! rst := call ScanResult in
  if is_up c then
    let! (frm, _, _, _) := lift (scan_at (pscan_msg s) s) in
    do! call (IndScanDone (rst =? Scan.WF_SCAN_TAG_ABORT) frm) in
    end_msg_scan s
  else end_msg_scan s.

Definition all_args : scan_args := mk_args Scan.SCAN_TYPE_ACTIVE None [] [].

(** [core_conn_maintain_probe_thrd]: the length of the name is not assigned. *)
Definition start_probe (s : mlme_info_t) : io ev step :=
  if negb (pwdn_info s) then msg_begin s
  else
    let w := wdn (node s) in
    let! name := lift (letc d := slice (Wi.ssid w) 0 32 in blit (junk c) 0 d) in
    let! n := call Indeterminate in
    let! rst := call (ScanStart (mk_args Scan.SCAN_TYPE_ACTIVE (Some (Wi.bssid w)) [Scan.mk_ssid n name] [Wi.channel w])) in
    if nz rst then msg_begin s else msg_goes MProbe s.

Definition on_msg (m : Z) (s : mlme_info_t) : io ev step :=
  let t := tag m s in
  if t =? WF_MLME_TAG_SCAN then
    let s := set_state MLME_STATE_SCAN (set_pscan_msg (Some m) s) in
    let! rst := call (ScanStart all_args) in
    if nz rst then end_msg_scan s else msg_goes MScan s
  else if t =? WF_MLME_TAG_KEEPALIVE then
    let! s := lift (del m s) in
    start_probe (set_state MLME_STATE_SCAN s)
  else if is_disconn t then
    let! res := lift (res_at m s) in
    let! s := lift (del m (set_conn_res res s)) in
    msg_goes MDeauth (set_state MLME_STATE_DEAUTH s)
  else if t =? WF_MLME_TAG_ADD_BA_REQ then
    let! s := lift (del m s) in
    msg_goes MBaReq (set_state MLME_STATE_ADD_BA_REQ s)
  else if t =? WF_MLME_TAG_ADD_BA_RSP then
    msg_goes MBaRsp (set_state MLME_STATE_ADD_BA_RESP (set_pba_rsp_msg (Some m) s))
  else
    let! s := lift (del m s) in
    msg_begin s.

(** [core_conn_maintain_deauth_thrd] *)
Definition msg_deauth (s : mlme_info_t) : io ev step :=
  let! busy := call HwTrylock in
  if nz busy then msg_waits MDeauth s
  else
    do! call (Mcu (UserInfo false)) in
    do! call DelBaRequest in
    let! _ := (if fst (conn_res s) then call (DeauthXmit (bssid (net s)) WF_80211_REASON_DEAUTH_LEAVING) else iret 0) in
    let! s := (if hw_ba_enable c then
                 if pwdn_info s then iret (set_node (set_ba_ctl false (node s)) s) else ifault
               else iret s) in
    do! call HwUnlock in
    iret (goto Brk s).

(** [core_conn_maintain_ba_req_thrd] and [core_conn_maintain_ba_rsp_thrd]; they
    end with the lock held when there is no node. *)
Definition set_nth {A} (l : list A) (i : Z) (v : A) : C (list A) :=
  if (0 <=? i) && (i <? Z.of_nat (length l)) then Ret (<[Z.to_nat i := v]> l) else Fault.

Definition msg_ba_req (s : mlme_info_t) : io ev step :=
  let! busy := call HwTrylock in
  if nz busy then msg_waits MBaReq s
  else if negb (pwdn_info s) then msg_begin s
  else
    let! s := (if hw_ba_enable c then
                 do! call (BaIssue Action.WF_WLAN_ACTION_ADDBA_REQ) in
                 let! l := lift (set_nth (ba_started_flag (node s)) (Action.tid (bareq_parm s)) true) in
                 iret (set_node (set_started l (node s)) s)
               else iret s) in
    do! call HwUnlock in
    msg_begin s.

Definition end_ba_rsp (s : mlme_info_t) : io ev step :=
  let! s := lift (del_ptr (pba_rsp_msg s) s) in
  msg_begin s.

Definition ba_at (p : option Z) (s : mlme_info_t) : C Action.wf_add_ba_parm_st :=
  letc m := of_option p in
  letc v := value_at m s in
  match v with VBa p => Ret p | _ => Fault end.

Definition msg_ba_rsp (s : mlme_info_t) : io ev step :=
  let! busy := call HwTrylock in
  if nz busy then msg_waits MBaRsp s
  else if negb (pwdn_info s) then end_ba_rsp s
  else
    let! s := (if hw_ba_enable c then
                 let! p := lift (ba_at (pba_rsp_msg s) s) in
                 let s := set_barsp_parm p s in
                 let! r := call (BaIssue Action.WF_WLAN_ACTION_ADDBA_RESP) in
                 let i := Action.tid (barsp_parm s) in
                 let n := node s in
                 let! l := lift (if ba_ctl n then
                                   set_nth (ba_on n) i
                                     (if r <? 0 then (false, snd (nth (Z.to_nat i) (ba_on n) (false, 0)))
                                      else (true, Action.timeout (bareq_parm s)))
                                 else Fault) in
                 iret (set_node (set_ba_on l n) s)
               else iret s) in
    do! call HwUnlock in
    end_ba_rsp s.

Definition at_msg (s : mlme_info_t) : io ev step :=
  match pt_msg s with
  | MBegin => msg_begin s
  | MPop =>
      let! (m, s) := lift (pop s) in
      match m with None => msg_waits MPop s | Some m => on_msg m s end
  | MScan => msg_scanning (fun t => t =? WF_MLME_TAG_SCAN_ABORT) MScan MScanStop report_msg_scan s
  | MScanStop => let! run := call ScanThrd in if nz run then msg_waits MScanStop s else report_msg_scan s
  | MProbe =>
      msg_scanning (fun t => (t =? WF_MLME_TAG_SCAN_ABORT) || (t =? WF_MLME_TAG_SCAN_RSP)) MProbe MProbeStop msg_begin s
  | MProbeStop => let! run := call ScanThrd in if nz run then msg_waits MProbeStop s else msg_begin s
  | MDeauth => msg_deauth s
  | MBaReq => msg_ba_req s
  | MBaRsp => msg_ba_rsp s
  end.

(** *** The end of a connection *)

(** [conn_break] and [mlme_conn_clearup] *)
Definition at_break (s : mlme_info_t) : io ev step :=
  let! (indicate, frm, _, _) := lift (conn_at (pconn_msg s) s) in
  let! s := (if indicate then do! call (IndDisconnect frm) in iret (set_connect false s) else iret s) in
  let s := set_num_tx_ok 0 (set_num_rx_ok 0 (set_busy_traffic false s)) in
  let! s := (if pwdn_info s then do! call (WdnRemove (bssid (net s))) in iret (set_pwdn_info false s) else iret s) in
  let n := net s in
  let s := set_net (mk_net (replicate 6 0) (replicate 6 0) (ssid n) (channel n) (timestamp n) (bcn_interval n) (cap_info n)
                      (ies n) (ies_length n)) s in
  do! call TxPendingClear in
  iret (goto ClrWait (set_keep_alive_timer (timer_set 5000 (keep_alive_timer s)) s)).

Definition at_clear (s : mlme_info_t) : io ev step :=
  let! empty := call TxHifEmpty in
  if nz empty || expired (keep_alive_timer s) then
    let! s := lift (del_ptr (pconn_msg s) s) in
    iret (goto LIdle (set_pconn_msg None s))
  else iret (wait ClrWait s).

(** *** Ad-hoc networks: [core_conn_scan_ibss_thrd], [adhoc_conn_maintain_msg] *)

Definition ibss_join (reason : Z) (s : mlme_info_t) : io ev step :=
  let! (frm, _, _) := lift (ibss_at (pscan_msg s) s) in
  let! r := call (AdhocJoin frm reason) in
  let! s := lift (del_ptr (pscan_msg s) s) in
  if nz r then iret (goto LIdle s)
  else
    do! call AdhocTimer in
    iret (yield IbMaint0 s).

Definition ibss_start (s : mlme_info_t) : io ev step :=
  let! (_, name, ch) := lift (ibss_at (pscan_msg s) s) in
  let! rst := call (ScanStart (mk_args Scan.SCAN_TYPE_ACTIVE None [name] [ch])) in
  if nz rst then ibss_join (-2) s else iret (goto IbLoop s).

Definition at_ibss_scan (s : mlme_info_t) : io ev step :=
  let! run := call ScanThrd in
  if negb (nz run) then ibss_join (-3) s
  else if is_surprise_removed c then ibss_join (-1) s
  else
    let! (m, s) := lift (pop s) in
    match m with
    | None => iret (yield IbLoop s)
    | Some m =>
        let drop_msg s := let! s := lift (del m s) in iret (yield IbLoop s) in
        if tag m s =? WF_MLME_TAG_SCAN_RSP then
          let! (buf, len) := lift (frame_at m s) in
          let! capab := lift (Mgmt.get16 buf 34) in
          let ibss := negb (nz (Z.land capab WF_80211_MGMT_CAPAB_ESS)) && nz (Z.land capab WF_80211_MGMT_CAPAB_IBSS) in
          if ibss && negb (nz (Z.land capab WF_80211_MGMT_CAPAB_PRIVACY)) then
            let! (rst, n) := lift (set_cur_network (junk c) buf len (net s)) in
            let s := set_net n s in
            if nz rst then drop_msg s
            else
              let! s := lift (del m s) in
              do! call ScanStop in
              iret (goto IbStop s)
          else drop_msg s
        else drop_msg s
    end.

(** A beacon of the ad-hoc network in the message [m]. *)
Definition on_beacon (m : Z) (s : mlme_info_t) : io ev unit :=
  let! (buf, _) := lift (frame_at m s) in
  let! sa := lift (Mgmt.sa buf) in
  let! found := call (WdnFind sa) in
  if nz found then iret tt
  else
    let! added := call (WdnAdd sa) in
    if negb (nz added) then iret tt
    else
      do! call AdhocUpdate in
      let! r := call AdhocPrcBcn in
      let! _ := (if nz r then call (WdnRemove sa) else iret 0) in
      let! n := call AdhocCount in
      if n =? 2 then
        let! frm := call AdhocFramework in
        do! call (IndConnect frm) in
        iret tt
      else iret tt.

Definition at_ibss (first : bool) (s : mlme_info_t) : io ev step :=
  if is_surprise_removed c || is_driver_stopped c then iret (Return PT_EXITED LTop, None, s)
  else
    do! call AdhocKeepalive in
    if first then iret (yield IbMaint s)
    else
      let! (m, s) := lift (pop s) in
      match m with
      | None => iret (yield IbMaint s)
      | Some m =>
          if tag m s =? WF_MLME_TAG_IBSS_LEAVE then
            let! s := lift (del m s) in
            let! s := lift (abort_in_thread c s) in
            iret (goto LIdle s)
          else
            let! _ := (if tag m s =? WF_MLME_TAG_IBSS_BEACON_FRAME then on_beacon m s else iret tt) in
            let! s := lift (del m s) in
            iret (yield IbMaint s)
      end.

(** *** The top *)

Definition at_top (s : mlme_info_t) : io ev step :=
  if babort_thrd s then iret (Return PT_EXITED LTop, None, set_abort_thrd_finished true s)
  else
    let! (m, s) := lift (pop s) in
    match m with
    | None => iret (yield LTop s)
    | Some m =>
        let t := tag m s in
        if t =? WF_MLME_TAG_SCAN then start_scan (set_pscan_msg (Some m) (set_state MLME_STATE_SCAN s))
        else if t =? WF_MLME_TAG_CONN then
          iret (goto CsStart (set_try_cnt 3 (set_pconn_msg (Some m) (set_state MLME_STATE_CONN_SCAN s))))
        else if t =? WF_MLME_TAG_CONN_IBSS then
          ibss_start (set_pscan_msg (Some m) (set_state MLME_STATE_IBSS_CONN_SCAN s))
        else if t =? WF_MLME_TAG_P2P then iret (Goto P2p, Some m, set_pp2p_msg (Some m) s)
        else
          let! s := lift (del m s) in
          iret (goto LIdle s)
    end.

(** [wf_p2p_core_thrd] is called with the value of the local [pmsg]. *)
Definition at_p2p (pmsg : option Z) (s : mlme_info_t) : io ev step :=
  wait_thread (P2pThrd pmsg) P2p s
    (let! s := lift (del_ptr (pp2p_msg s) s) in
     iret (goto LIdle (set_pp2p_msg None s))).

Definition block (b : label) (pmsg : option Z) (s : mlme_info_t) : io ev step :=
  match b with
  | LTop => at_top s
  | LIdle => iret (wait LTop (set_state MLME_STATE_IDLE s))
  | ScLoop => at_scan s
  | ScStop => wait_thread ScanThrd ScStop s (report_scan s)
  | CsStart => at_conn_start s
  | CsLoop => at_conn_scan s
  | CsAbort => wait_thread ScanThrd CsAbort s (iret (goto Brk s))
  | CsBad => wait_thread ScanThrd CsBad s (iret (goto Brk s))
  | CsOk => wait_thread ScanThrd CsOk s (at_found s)
  | AuBegin => let! rst := call AuthStart in iret (goto (if nz rst then Brk else AuLoop) s)
  | AuLoop => at_join AuthThrd AuthStop AuLoop AuStop auth_ended s
  | AuStop => wait_thread AuthThrd AuStop s (iret (goto Brk s))
  | AsBegin => let! rst := call AssocStart in iret (goto (if nz rst then Brk else AsLoop) s)
  | AsLoop => at_join AssocThrd AssocStop AsLoop AsStop assoc_ended s
  | AsStop => wait_thread AssocThrd AsStop s (iret (goto Brk s))
  | PreLock => at_preconnect s
  | CTick => at_tick s
  | CMsg => at_msg s
  | Brk => at_break s
  | ClrWait => at_clear s
  | P2p => at_p2p pmsg s
  | IbLoop => at_ibss_scan s
  | IbStop => wait_thread ScanThrd IbStop s (ibss_join 0 s)
  | IbMaint0 => at_ibss true s
  | IbMaint => at_ibss false s
  end.

(** One call of [mlme_core_thrd]. *)
Definition mlme_core_thrd (fuel : nat) (b : label) (s : mlme_info_t) : io ev (pt_ret * label * unit * mlme_info_t) :=
  blocks block (fun _ => tt) fuel b None s.
End Thread.

(** ** Initialisation *)

(** [mlme_msg_init]: the messages of each tag with their zeroed values; [size]
    gives the sizes of the structures.  [ids] are the results of the
    allocations. *)
Definition zero_ssid : Scan.wf_wlan_ssid_t := Scan.mk_ssid 0 (replicate 33 0).
Definition zero_ba : Action.wf_add_ba_parm_st := Action.mk_parm 0 0 0 0 0 0 0 0.
Definition zero_frame : value := VFrame (replicate (Z.to_nat PROBERSP_SIZE) 0).
Definition msg_classes : list (Z * value * nat) :=
  [(WF_MLME_TAG_SCAN_ABORT, VNone, 2%nat); (WF_MLME_TAG_CONN_ABORT, VRes false 0, 2%nat); (WF_MLME_TAG_DEAUTH, VRes false 0, 1%nat);
   (WF_MLME_TAG_DEASSOC, VRes false 0, 1%nat); (WF_MLME_TAG_P2P, VP2p [], 4%nat); (WF_MLME_TAG_SCAN, VScan 0 0 [] [], 2%nat);
   (WF_MLME_TAG_SCAN_RSP, zero_frame, 2%nat); (WF_MLME_TAG_CONN, VConn false 0 (replicate 6 0) zero_ssid, 2%nat);
   (WF_MLME_TAG_ADD_BA_REQ, VNone, 16%nat); (WF_MLME_TAG_ADD_BA_RSP, VBa zero_ba, 16%nat); (WF_MLME_TAG_CONN_IBSS, VIbss 0 zero_ssid 0, 1%nat);
   (WF_MLME_TAG_IBSS_LEAVE, VNone, 1%nat); (WF_MLME_TAG_IBSS_BEACON_FRAME, zero_frame, 1%nat); (WF_MLME_TAG_KEEPALIVE, VNone, 1%nat)].

Fixpoint alloc_all (size : Z -> Z) (l : list (Z * value * nat)) (ids : list (option Z)) (q : Msg.wf_msg_que_t value)
    : C (Z * Msg.wf_msg_que_t value) :=
  match l with
  | [] => Ret (0, q)
  | (t, zero, n) :: l =>
      letc (r, q) := Msg.wf_msg_alloc q t (size t) zero (take n ids) in
      if nz r then Ret (-1, q) else alloc_all size l (drop n ids) q
  end.
Definition mlme_msg_init (size : Z -> Z) (ids : list (option Z)) : C (Z * Msg.wf_msg_que_t value) :=
  alloc_all size msg_classes ids Msg.wf_msg_init.

(** [wf_mlme_init], of a zeroed structure; [n] and [nd] are what [cur_network]
    and the memory of the nodes hold, [tid] whether the thread is created. *)
Definition zero_info (n : network) (nd : node_t) : mlme_info_t :=
  mk MLME_STATE_SCAN false false 0 0 zero_ba zero_ba KBegin MBegin Msg.wf_msg_init (Timer.mk_timer 0 0 0) (Timer.mk_timer 0 0 0) false nd 0
    None None None None (false, 0) false false n.
Definition wf_mlme_init (size : Z -> Z) (ids : list (option Z)) (tid : bool) (n : network) (nd : node_t) : C (Z * mlme_info_t) :=
  let s := set_state MLME_STATE_IDLE (set_babort_thrd false (set_connect false (zero_info n nd))) in
  letc (r, q) := mlme_msg_init size ids in
  let s := set_msg_que q s in
  if nz r then Ret (-2, s) else if negb tid then Ret (-3, s) else Ret (0, s).

(** ** Leaving an ad-hoc network *)

(** A station of an ad-hoc network never leaves it: the thread that takes
    the request waits, in the same call, for a flag that only it sets later. *)
Theorem ibss_leave_hangs (c : ctx) (fuel : nat) (s : mlme_info_t) (hs : list Z) (m : Z) (l : list Z) :
  is_surprise_removed c = false -> is_driver_stopped c = false -> work_mode c = WF_ADHOC_MODE ->
  Msg.qinv (msg_que s) hs -> Msg.pend (msg_que s) = m :: l -> Msg.tag_of (msg_que s) m = WF_MLME_TAG_IBSS_LEAVE ->
  abort_thrd_finished s = false -> forall tr res, ~ runs (mlme_core_thrd c fuel IbMaint s) tr res.
Proof.
  intros H1 H2 H3 Hq Hp Ht Hf tr res Hr. unfold mlme_core_thrd in Hr. destruct fuel as [| fuel]; [done |].
  cbn [blocks block] in Hr. unfold at_ibss, pop in Hr. rewrite H1, H2 in Hr. cbn [orb ibind call] in Hr.
  destruct (Msg.use_pop_del _ _ Hq) as [[E _] | (m' & q1 & q2 & Epop & Edel & Hd1 & _ & _ & _ & _ & Hp1 & _)]; [by rewrite E in Hp |].
  rewrite Hp in Hp1. injection Hp1 as -> _. rewrite Epop in Hr. cbn [cbind lift ibind] in Hr.
  unfold tag in Hr. cbn [msg_que set_msg_que] in Hr. rewrite (Msg.same_data_tag _ q1 m' Hd1), Ht, Z.eqb_refl in Hr.
  unfold del in Hr. cbn [msg_que set_msg_que] in Hr. rewrite Edel in Hr. cbn [cbind lift ibind] in Hr.
  unfold abort_in_thread, abort_request in Hr. rewrite H3, Z.eqb_refl in Hr.
  cbn [negb cbind lift ibind abort_thrd_finished set_babort_thrd set_msg_que] in Hr. rewrite Hf in Hr. cbn [lift ibind] in Hr.
  destruct tr as [| [e r] tr]; [done |]. by destruct Hr as [_ Hr].
Qed.
End Mlme.
