(* ===== verification/MlmeNet.v ===== *)
(** * The network a connection is made to

    What [set_cur_network] of [nic/mlme.c] stores of the frame that answers the
    scan of a connection, for every frame it can be given. *)
From S2P Require Import Prelude Ies Mgmt Scan Mlme.

Module MlmeNet.
Import Mlme.

Definition is_eid (id : Z) (e : Ies.ie) : bool := fst e =? id.
Definition EID_SSID : Z := Scan.WF_80211_MGMT_EID_SSID.
Definition EID_DS : Z := Scan.WF_80211_MGMT_EID_DS_PARAMS.

(** An answer: elements that end with the frame, among them a name. *)
Record answer (frame : list Z) (ies : list Ies.ie) (name : list Z) : Prop := {
  an_bytes : bytes_ok frame;
  an_len : (36 <= length frame <= 778)%nat;
  an_ies : drop 36 frame = Ies.enc ies;
  an_name : exists o e, Ies.find_ie (is_eid EID_SSID) ies 0 = Some (o, e) /\ snd e = name;
}.

(** The search of a buffer that begins with an encoding, for an element of it,
    whatever follows. *)
Lemma search_prefix id ies : forall fuel pre post var_len o e, (length ies <= fuel)%nat ->
  Ies.find_ie (is_eid id) ies (Z.of_nat (length pre)) = Some (o, e) ->
  Z.of_nat (length pre + length (Ies.enc ies)) <= var_len < 65536 ->
  Ies.ies_search_from fuel (pre ++ Ies.enc ies ++ post) var_len id (Z.of_nat (length pre)) = Ret (Some o).
Proof.
  induction ies as [| x ies IH]; intros fuel pre post var_len o e Hf Hx Hv; [done |].
  destruct fuel as [| fuel]; [cbn in Hf; lia |]. cbn [Ies.find_ie] in Hx. cbn [Ies.ies_search_from].
  rewrite Ies.enc_cons, <- app_assoc. rewrite Ies.enc_cons, length_app, Ies.length_enc_ie in Hv.
  destruct (Ies.rd_header pre x (Ies.enc ies ++ post) _ eq_refl) as [E1 E2]. rewrite E1. cbn [cbind].
  unfold is_eid in Hx at 1. destruct (fst x =? id); [by injection Hx as -> ->|]. rewrite E2. cbn [cbind].
  assert (Hne : (2 <= length (Ies.enc ies))%nat).
  { destruct ies as [| y ies]; [done |]. rewrite Ies.enc_cons, length_app, Ies.length_enc_ie. lia. }
  rewrite u16_id by (unfold is_u16; lia). destruct (Z.leb_spec var_len (Z.of_nat (length pre) + (2 + Z.of_nat (length (snd x))))); [lia |].
  replace (Z.of_nat (length pre) + (2 + Z.of_nat (length (snd x)))) with (Z.of_nat (length (pre ++ Ies.enc_ie x)))
    by (rewrite length_app, Ies.length_enc_ie; lia).
  rewrite app_assoc. cbn in Hf. apply (IH _ _ _ _ _ e); [lia | | rewrite length_app, Ies.length_enc_ie; lia].
  rewrite <- Hx. f_equal. rewrite length_app, Ies.length_enc_ie. lia.
Qed.

Section Answer.
Context (frame stale junk name : list Z) (ies0 : list Ies.ie) (n : network).
Context (Ha : answer frame ies0 name) (Hbuf : length (frame ++ stale) = Z.to_nat PROBERSP_SIZE) (Hstale : bytes_ok stale).
Context (Hjunk : length junk = 33%nat) (Hies : length (ies n) = Z.to_nat WF_80211_IES_SIZE_MAX).

Definition mgmt_len : Z := Z.of_nat (length frame).
Definition area : list Z := Ies.enc ies0 ++ stale.

Lemma area_eq : drop (Z.to_nat VARIABLE_OFS) (frame ++ stale) = area.
Proof using All. unfold area. pose proof (an_len _ _ _ Ha). change (Z.to_nat VARIABLE_OFS) with 36%nat. rewrite drop_app_le by lia. by rewrite <- (an_ies _ _ _ Ha). Qed.

Lemma length_enc0 : Z.of_nat (length (Ies.enc ies0)) = mgmt_len - 36.
Proof using All. unfold mgmt_len. rewrite <- (an_ies _ _ _ Ha), length_drop. pose proof (an_len _ _ _ Ha). lia. Qed.

Lemma length_area : length area = 768%nat.
Proof using All. rewrite <- area_eq, length_drop, Hbuf. done. Qed.

Lemma area_bytes : bytes_ok area.
Proof using All.
  unfold area. apply bytes_ok_app. split; [| done]. rewrite <- (an_ies _ _ _ Ha). apply Forall_drop, (an_bytes _ _ _ Ha).
Qed.

(** The length of the area that is searched. *)
Lemma ies_len_eq : u16 (mgmt_len - BEACON_IE_VARIABLE) = mgmt_len - 12.
Proof using All. unfold mgmt_len. pose proof (an_len _ _ _ Ha). apply u16_id. unfold is_u16, BEACON_IE_VARIABLE. lia. Qed.

Lemma search_found id o e : Ies.find_ie (is_eid id) ies0 0 = Some (o, e) ->
  Ies.wf_80211_mgmt_ies_search (Some area) (mgmt_len - 12) id = Ret (Some o).
Proof using All.
  intros Hx. unfold Ies.wf_80211_mgmt_ies_search. pose proof (an_len _ _ _ Ha). pose proof length_enc0 as Hl.
  pose proof (Ies.length_enc_ge ies0). unfold mgmt_len in *.
  apply (search_prefix id ies0 Ies.ies_fuel [] stale _ o e); [unfold Ies.ies_fuel; lia | done | cbn [length]; lia].
Qed.

Lemma ds_search : exists r, Ies.wf_80211_mgmt_ies_search (Some area) (mgmt_len - 12) EID_DS = Ret r /\
  forall o, r = Some o -> 0 <= o < 766.
Proof using All.
  pose proof (an_len _ _ _ Ha). unfold mgmt_len.
  destruct (Ies.search_from_safe Ies.ies_fuel area (Z.of_nat (length frame) - 12) EID_DS 0) as (r & E & Hr).
  - apply area_bytes.
  - lia.
  - by left.
  - lia.
  - rewrite length_area. lia.
  - unfold Ies.ies_fuel. lia.
  - unfold Ies.ies_fuel. lia.
  - exists r. split; [done |]. intros o Ho. destruct (Hr o Ho). lia.
Qed.

(** What is stored of a frame with the channel [ch]. *)
Definition network_of (ch : Z) : network :=
  let part i k := take (Z.to_nat k) (drop (Z.to_nat i) frame) in
  mk_net (part 10 6) (part 16 6) (Scan.mk_ssid (Z.of_nat (length name)) (name ++ 0 :: drop (S (length name)) junk)) ch
    (le_word (part 24 8)) (le_word (part 32 2)) (le_word (part 34 2)) (Ies.enc ies0 ++ drop (length (Ies.enc ies0)) (ies n)) (mgmt_len - 36).

Lemma part_eq i k : 0 <= i -> 0 <= k -> i + k <= mgmt_len ->
  slice (frame ++ stale) i k = Ret (take (Z.to_nat k) (drop (Z.to_nat i) frame)).
Proof using All. intros Hi Hk Hl. by apply slice_app_l. Qed.
Lemma part16_eq i : 0 <= i -> i + 2 <= mgmt_len ->
  Mgmt.get16 (frame ++ stale) i = Ret (le_word (take (Z.to_nat 2) (drop (Z.to_nat i) frame))).
Proof using All. intros Hi Hl. unfold Mgmt.get16. by rewrite part_eq. Qed.
Lemma rest_eq : slice (frame ++ stale) VARIABLE_OFS (mgmt_len - 36) = Ret (Ies.enc ies0).
Proof using All.
  pose proof (an_len _ _ _ Ha). unfold mgmt_len. rewrite slice_app_l by (unfold VARIABLE_OFS; lia). change (Z.to_nat VARIABLE_OFS) with 36%nat.
  rewrite (an_ies _ _ _ Ha), take_ge; [done |]. pose proof length_enc0. unfold mgmt_len in *. lia.
Qed.

(** The name in the area. *)
Lemma name_at : exists o, Ies.wf_80211_mgmt_ies_search (Some area) (mgmt_len - 12) EID_SSID = Ret (Some o) /\
  rd area (o + 1) = Ret (Z.of_nat (length name)) /\ slice area (o + 2) (Z.of_nat (length name)) = Ret name.
Proof using All.
  destruct (an_name _ _ _ Ha) as (o & e & Hx & En). exists o. split; [by eapply search_found |]. rewrite <- En.
  destruct (Ies.find_ie_at _ _ _ _ _ Hx) as (a & b & E & -> & _). unfold area.
  rewrite E, Ies.enc_app, Ies.enc_cons, <- !app_assoc, Z.add_0_l.
  destruct (Ies.rd_header (Ies.enc a) e (Ies.enc b ++ stale) _ eq_refl) as [_ E2]. split; [done |].
  rewrite Ies.rd_data by lia. by rewrite Nat2Z.id, take_ge.
Qed.

(** The local variable the name is copied into. *)
Lemma name_copied : (length name <= 32)%nat ->
  (letc data := blit junk 0 name in wr data (Z.of_nat (length name)) 0) = Ret (name ++ 0 :: drop (S (length name)) junk).
Proof using All.
  intros Hn. destruct (Mgmt.split_rest (length name) junk ltac:(lia)) as [E El]. rewrite E at 1.
  rewrite Mgmt.blit_app_head by done. cbn [cbind].
  destruct (drop (length name) junk) as [| x l] eqn:Ed; [apply (f_equal length) in Ed; rewrite length_drop in Ed; cbn in Ed; lia |].
  rewrite wr_app_mid by done. do 3 f_equal. rewrite <- Nat.add_1_r, <- drop_drop, Ed. done.
Qed.
Lemma name_overflows : (32 < length name)%nat ->
  (letc data := blit junk 0 name in wr data (Z.of_nat (length name)) 0) = Fault.
Proof using All.
  intros Hn. unfold blit. rewrite Hjunk. destruct (Z.leb_spec (0 + Z.of_nat (length name)) (Z.of_nat 33)) as [Hl |]; [| done].
  change (0 <=? 0) with true. cbn [andb cbind]. unfold wr. rewrite !length_app, length_drop, Hjunk. change (take (Z.to_nat 0) junk) with (@nil Z).
  change (Z.to_nat 0) with 0%nat. cbn [length Nat.add].
  destruct (Z.ltb_spec (Z.of_nat (length name)) (Z.of_nat (length name + (33 - length name)))); [lia |]. by rewrite andb_false_r.
Qed.

(** The search for the channel decides. *)
Lemma set_cur_network_eq r : Ies.wf_80211_mgmt_ies_search (Some area) (mgmt_len - 12) EID_DS = Ret r ->
  (forall o, r = Some o -> 0 <= o < 766) ->
  set_cur_network junk (frame ++ stale) mgmt_len n =
    match r with
    | None => Ret (-1, n)
    | Some o => if (length name <=? 32)%nat then Ret (0, network_of (nthZ area (o + 2))) else Fault
    end.
Proof using All.
  intros Er Hr. unfold set_cur_network. rewrite area_eq, ies_len_eq. fold EID_DS EID_SSID. rewrite Er. cbn [cbind].
  destruct r as [o |]; [| done]. specialize (Hr o eq_refl). pose proof length_area as Hla. pose proof (an_len _ _ _ Ha) as Hlen.
  rewrite rd_nthZ by (rewrite Hla; lia). cbn [cbind]. set (ch := nthZ area (o + 2)).
  unfold Mgmt.sa, Mgmt.bssid. rewrite (part_eq 10 6), (part_eq 16 6) by (unfold mgmt_len; lia). cbn [cbind].
  destruct name_at as (o2 & E1 & E2 & E3). rewrite E1. cbn [cbind]. rewrite E2. cbn [cbind]. rewrite E3. cbn [cbind].
  destruct (Nat.leb_spec (length name) 32) as [Hn | Hn].
  - pose proof (name_copied Hn) as E. destruct (blit junk 0 name) as [d | |]; cbn [cbind] in E |- *; try done. rewrite E. cbn [cbind].
    rewrite (part_eq 24 8), (part16_eq 32), (part16_eq 34) by (unfold mgmt_len; lia). cbn [cbind].
    assert (Ev : u16 (mgmt_len - VARIABLE_OFS) = mgmt_len - 36) by (apply u16_id; unfold is_u16, mgmt_len, VARIABLE_OFS; lia).
    rewrite Ev. destruct (Z.ltb_spec WF_80211_IES_SIZE_MAX (mgmt_len - 36)); [unfold WF_80211_IES_SIZE_MAX, mgmt_len in *; lia |].
    rewrite rest_eq. cbn [cbind]. pose proof length_enc0 as Hl0. cbn [Mlme.ies].
    rewrite <- (take_drop (length (Ies.enc ies0)) (ies n)) at 1.
    rewrite Mgmt.blit_app_head by (rewrite length_take, Hies; unfold mgmt_len, WF_80211_IES_SIZE_MAX in *; lia). done.
  - pose proof (name_overflows Hn) as E. destruct (blit junk 0 name) as [d | |]; cbn [cbind] in E |- *; try done. by rewrite E.
Qed.

(** A frame of any answer is taken without a fault if the name fits. *)
Lemma set_cur_network_safe : (length name <= 32)%nat ->
  exists r n', set_cur_network junk (frame ++ stale) mgmt_len n = Ret (r, n') /\ length (ies n') = Z.to_nat WF_80211_IES_SIZE_MAX.
Proof using All.
  intros Hn. destruct ds_search as (r & E & Hr). rewrite (set_cur_network_eq r E Hr). destruct r as [o |]; [| by eexists _, _].
  rewrite (proj2 (Nat.leb_le _ _) Hn). eexists _, _. split; [done |]. cbn [network_of Mlme.ies].
  pose proof length_enc0. pose proof (an_len _ _ _ Ha). unfold mgmt_len in *.
  rewrite length_app, length_drop, Hies. unfold WF_80211_IES_SIZE_MAX. lia.
Qed.
End Answer.

(** C5: a frame that answers the scan of a connection, of 36 to 778 bytes that
    end with complete elements, among them a name and a channel element that is
    not empty, is stored as the current network, with the addresses, the name,
    the channel, the times and capabilities and all elements of the frame,
    whatever an earlier frame left behind it in the message; if the name has more
    than 32 bytes, the local variable it is copied into is overrun. *)
Theorem network_stored (frame stale junk name : list Z) (ies0 : list Ies.ie) (n : network) (o ch : Z) (l : list Z) :
  answer frame ies0 name -> length (frame ++ stale) = Z.to_nat PROBERSP_SIZE -> bytes_ok stale ->
  length junk = 33%nat -> length (ies n) = Z.to_nat WF_80211_IES_SIZE_MAX ->
  Ies.find_ie (is_eid EID_DS) ies0 0 = Some (o, (EID_DS, ch :: l)) ->
  set_cur_network junk (frame ++ stale) (Z.of_nat (length frame)) n =
    (if (length name <=? 32)%nat then Ret (0, network_of frame junk name ies0 n ch) else Fault) /\
  take (Z.to_nat (ies_length (network_of frame junk name ies0 n ch))) (ies (network_of frame junk name ies0 n ch)) = Ies.enc ies0.
Proof.
  intros Ha Hbuf Hs Hj Hi Hx. pose proof (an_len _ _ _ Ha) as Hl. split.
  - destruct (Ies.find_ie_at _ _ _ _ _ Hx) as (a & b & E & Eo & _).
    pose proof (length_enc0 frame stale junk name ies0 n Ha Hbuf Hs Hj Hi) as Hl0. unfold mgmt_len in Hl0.
    assert (Ho : 0 <= o < 766).
    { rewrite E, Ies.enc_app, Ies.enc_cons, !length_app, Ies.length_enc_ie in Hl0. cbn [snd length] in Hl0. lia. }
    fold (mgmt_len frame). rewrite (set_cur_network_eq frame stale junk name ies0 n Ha Hbuf Hs Hj Hi (Some o)); [| | by intros ? [= <-]].
    + assert (Ec : nthZ (area stale ies0) (o + 2) = ch); [| by rewrite Ec].
      unfold area. subst o. rewrite E, Ies.enc_app, Ies.enc_cons, <- !app_assoc.
      pose proof (rd_app_mid (Ies.enc a ++ [EID_DS; Z.of_nat (length (ch :: l))]) ch (l ++ Ies.enc b ++ stale) _ eq_refl) as Er.
      rewrite length_app in Er. cbn [length] in Er. rewrite <- app_assoc in Er.
      change ([_; _] ++ ch :: l ++ Ies.enc b ++ stale) with (Ies.enc_ie (EID_DS, ch :: l) ++ Ies.enc b ++ stale) in Er.
      rewrite rd_nthZ in Er by (rewrite !length_app, Ies.length_enc_ie; cbn [snd length]; lia). injection Er as Er.
      rewrite <- Er at 2. apply f_equal. lia.
    + eapply (search_found frame stale junk name ies0 n Ha Hbuf Hs Hj Hi), Hx.
  - cbn [network_of ies_length ies]. rewrite <- (length_enc0 frame stale junk name ies0 n Ha Hbuf Hs Hj Hi), Nat2Z.id. apply take_app_length.
Qed.

(** A frame without a name, which a connection asked for by address lets
    through: when the bytes behind it do not look like one either, the call
    fails with the addresses and the channel already replaced and the name, the
    times and the elements those of the network before. *)
Theorem nameless_half_stored (frame stale junk : list Z) (ies0 : list Ies.ie) (n : network) (o ch : Z) (l : list Z) :
  (36 <= length frame <= 778)%nat -> drop 36 frame = Ies.enc ies0 -> length (frame ++ stale) = Z.to_nat PROBERSP_SIZE ->
  Ies.find_ie (is_eid EID_DS) ies0 0 = Some (o, (EID_DS, ch :: l)) ->
  Ies.wf_80211_mgmt_ies_search (Some (Ies.enc ies0 ++ stale)) (Z.of_nat (length frame) - 12) EID_SSID = Ret None ->
  set_cur_network junk (frame ++ stale) (Z.of_nat (length frame)) n =
    Ret (-2, mk_net (take 6 (drop 10 frame)) (take 6 (drop 16 frame)) (ssid n) ch (timestamp n) (bcn_interval n) (cap_info n)
               (ies n) (ies_length n)).
Proof.
  intros Hl He Hbuf Hx Hno. assert (Hle : length (Ies.enc ies0) = (length frame - 36)%nat) by (by rewrite <- He, length_drop).
  unfold set_cur_network. change (Z.to_nat VARIABLE_OFS) with 36%nat. rewrite drop_app_le, He by lia.
  rewrite (u16_id (Z.of_nat (length frame) - BEACON_IE_VARIABLE)) by (unfold is_u16, BEACON_IE_VARIABLE; lia). fold EID_DS EID_SSID.
  unfold BEACON_IE_VARIABLE. rewrite Hno.
  pose proof (Ies.length_enc_ge ies0) as Hge. unfold Ies.wf_80211_mgmt_ies_search at 1.
  pose proof (search_prefix EID_DS ies0 Ies.ies_fuel [] stale (Z.of_nat (length frame) - 12) o _ ltac:(unfold Ies.ies_fuel; lia) Hx
    ltac:(cbn [length]; lia)) as Es. cbn [length app] in Es. change (Z.of_nat 0) with 0 in Es. rewrite Es. cbn [cbind].
  destruct (Ies.find_ie_at _ _ _ _ _ Hx) as (a & b & E & Eo & _).
  assert (Er : rd (Ies.enc ies0 ++ stale) (o + 2) = Ret ch).
  { rewrite E, Ies.enc_app, Ies.enc_cons, <- !app_assoc. unfold Ies.enc_ie. cbn [fst snd app].
    change (EID_DS :: ?n :: ch :: ?r) with ([EID_DS; n] ++ ch :: r). rewrite app_assoc. apply rd_app_mid.
    rewrite length_app. cbn [length]. lia. }
  rewrite Er. cbn [cbind]. unfold Mgmt.sa, Mgmt.bssid. rewrite !slice_app_l by lia. done.
Qed.

(** ** A concrete answer *)
Module Examples.
Definition ex_ies : list Ies.ie := [(0, [110; 101; 116]); (3, [11])].
Definition ex_frame : list Z := replicate 10 0 ++ [2; 2; 2; 2; 2; 2] ++ [2; 2; 2; 2; 2; 2] ++ replicate 2 0 ++ replicate 8 1 ++ [100; 0; 1; 0] ++ Ies.enc ex_ies.
Definition ex_net : network := mk_net [] [] zero_ssid 0 0 0 0 (replicate 768 0) 0.
Definition ex_junk : list Z := replicate 33 170.
Definition ex_stale : list Z := replicate (804 - length ex_frame) 0.

Lemma ex_answer : answer ex_frame ex_ies [110; 101; 116].
Proof. split; [by apply bytes_okb_ok | cbn; lia | done |]. by eexists _, _. Qed.

Lemma network_stored_witness :
  channel (network_of ex_frame ex_junk [110; 101; 116] ex_ies ex_net 11) = 11 /\
  set_cur_network ex_junk (ex_frame ++ ex_stale) (Z.of_nat (length ex_frame)) ex_net =
    Ret (0, network_of ex_frame ex_junk [110; 101; 116] ex_ies ex_net 11).
Proof.
  split; [done |].
  refine (proj1 (network_stored ex_frame ex_stale ex_junk [110; 101; 116] ex_ies ex_net 5 11 [] ex_answer _ _ _ _ _)).
  - by vm_compute.
  - apply bytes_okb_ok. by vm_compute.
  - by vm_compute.
  - by vm_compute.
  - by vm_compute.
Defined.
End Examples.
End MlmeNet.
