(* ===== verification/MlmeConn.v ===== *)
(** * The management thread keeps to the protocol of a connection

    What is proved about every run of the thread of [Mlme], for a station of an
    infrastructure network.  [world] follows, from the calls the thread makes and
    their answers, what a bystander can tell: which of the scan, authentication
    and association threads runs, whether the chip is locked, and how far the
    connection has come; [allowed] says which calls are in order then.  [phase]
    gives for each label of the thread what it must find there. *)
From S2P Require Import Prelude WdnTypes Ies Timer Msg Typed Io Mgmt Action Scan Mlme MlmeNet.

Module MlmeConn.
Import Mlme Mi Io.

(** ** The messages *)

(** The contents the queued messages have. *)
Record promised (x : Msg.wf_msg_t value) : Prop := {
  pr_res : is_disconn (Msg.tag x) = true -> exists l r, Msg.value x = VRes l r;
  pr_scan : Msg.tag x = WF_MLME_TAG_SCAN -> exists f t n c, Msg.value x = VScan f t n c;
  pr_conn : Msg.tag x = WF_MLME_TAG_CONN -> exists f b n, Msg.value x = VConn true f b n;
  pr_rsp : Msg.tag x = WF_MLME_TAG_SCAN_RSP -> exists frame stale ies name,
    Msg.value x = VFrame (frame ++ stale) /\ Msg.len x = Z.of_nat (length frame) /\ length (frame ++ stale) = Z.to_nat PROBERSP_SIZE /\
    bytes_ok stale /\ MlmeNet.answer frame ies name /\ (length name <= 32)%nat;
  pr_ba : Msg.tag x = WF_MLME_TAG_ADD_BA_RSP -> exists p, Msg.value x = VBa p /\ 0 <= Action.tid p < 16;
  pr_ibss : Msg.tag x <> WF_MLME_TAG_CONN_IBSS;
}.

Definition room (x : Msg.wf_msg_t value) : Prop :=
  Msg.tag x = WF_MLME_TAG_SCAN_RSP ->
  exists b, Msg.value x = VFrame b /\ length b = Z.to_nat PROBERSP_SIZE /\ bytes_ok b.

#[export] Program Instance mlme_kinds : Typed.Kinds value := { kind := room; ready := promised }.
Next Obligation. intros x y [= _ E1 _ E2] H. unfold room. by rewrite <- E1, <- E2. Qed.
Next Obligation. intros x y [= _ E1 E2 E3] [H1 H2 H3 H4 H5 H6]. split; rewrite <- ?E1, <- ?E2, <- ?E3; assumption. Qed.

(** The tags of the messages in [hs] are those of before. *)
Definition tags_kept (q q' : Msg.wf_msg_que_t value) (hs : list Z) : Prop := forall m, m ∈ hs -> Msg.tag_of q' m = Msg.tag_of q m.

Lemma tags_same q q' hs : Msg.same_data q q' -> tags_kept q q' hs.
Proof. intros H m _. by apply Msg.same_data_tag. Qed.

Lemma tags_trans q q1 q2 hs : tags_kept q q1 hs -> tags_kept q1 q2 hs -> tags_kept q q2 hs.
Proof. intros H1 H2 m Hm. by rewrite H2, H1. Qed.

Definition que_is (q : Msg.wf_msg_que_t value) (hs : list Z) : Prop := Typed.que_ok q /\ Msg.qinv q hs.

Lemma pop_s s hs : que_is (msg_que s) hs ->
  (Msg.pend (msg_que s) = [] /\ pop s = Ret (None, set_msg_que (msg_que s) s)) \/
  exists m q x, pop s = Ret (Some m, set_msg_que q s) /\ que_is q (m :: hs) /\ (m ∉ hs) /\ tags_kept (msg_que s) q hs /\
    Msg.store q !! m = Some x /\ promised x /\ Msg.tag_of q m = Msg.tag x /\ Msg.pend (msg_que s) = m :: Msg.pend q.
Proof.
  intros [Hq Hi]. unfold pop.
  destruct (Typed.pop_ok _ _ Hq Hi) as [[Hp ->] | (m & q & -> & Hq' & Hi' & Hn & Hd & Hp & _)]; [by left | right].
  destruct (Typed.ready_at q (m :: hs) m Hq' Hi') as (x & Hx & _ & Hr & Ht); [left; constructor |].
  exists m, q, x. split_and!; try done. by apply tags_same.
Qed.

Lemma peek_s s hs : que_is (msg_que s) hs ->
  peek s = Ret None \/ exists m x, peek s = Ret (Some m) /\ m ∈ Msg.pend (msg_que s) /\ Msg.store (msg_que s) !! m = Some x /\ promised x /\
    tag m s = Msg.tag x.
Proof.
  intros [Hq Hi]. unfold peek. destruct (Typed.get_ok (msg_que s)) as [[Hp ->] | (m & l & Hp & ->)]; [by left | right].
  assert (Hm : m ∈ Msg.pend (msg_que s)) by (rewrite Hp; constructor).
  destruct (Typed.ready_at _ hs m Hq Hi) as (x & Hx & _ & Hr & Ht); [by right |]. by exists m, x.
Qed.

Lemma del_s m s hs : que_is (msg_que s) hs -> m ∈ hs \/ m ∈ Msg.pend (msg_que s) ->
  exists q, del m s = Ret (set_msg_que q s) /\ que_is q (Msg.without m hs) /\ tags_kept (msg_que s) q hs /\
    Msg.pend q = Msg.without m (Msg.pend (msg_que s)).
Proof.
  intros [Hq Hi] Hm. unfold del. destruct (Typed.del_ok _ _ m Hq Hi Hm) as (q & -> & Hq' & Hi' & Hd & Hp & _).
  exists q. split_and!; try done. by apply tags_same.
Qed.

(** The message just taken. *)
Lemma del_head m s hs : que_is (msg_que s) (m :: hs) -> m ∉ hs ->
  exists q, del m s = Ret (set_msg_que q s) /\ que_is q hs /\ tags_kept (msg_que s) q hs /\ Msg.pend q = Msg.without m (Msg.pend (msg_que s)).
Proof.
  intros H Hn. destruct (del_s m s (m :: hs) H) as (q & E & Hq & Ht & Hp); [left; constructor |].
  rewrite Msg.without_head in Hq by done. exists q. split_and!; try done. intros z Hz. apply Ht. by constructor.
Qed.

(** A message that is still pending. *)
Lemma del_pending m s hs : que_is (msg_que s) hs -> m ∈ Msg.pend (msg_que s) ->
  exists q, del m s = Ret (set_msg_que q s) /\ que_is q hs /\ tags_kept (msg_que s) q hs.
Proof.
  intros H Hm. destruct (del_s m s hs H) as (q & E & Hq & Ht & _); [by right |]. exists q. split_and!; try done.
  rewrite Msg.without_id in Hq; [done |]. intros Hh. destruct H as [_ Hi]. apply (Msg.qi_held _ _ Hi) in Hh.
  unfold Msg.held in Hh. apply (Msg.ok_pque _ (Msg.qi_ok _ _ Hi) Msg.Pend) in Hm. congruence.
Qed.

Lemma held_not_free q hs m : que_is q hs -> m ∈ hs -> m ∉ Msg.free q.
Proof. intros [_ Hi] Hm. eapply Typed.not_free; [done | by left]. Qed.

(** A message queued by the driver: there is none left of its tag, or it is
    pending after the call, and the rest is as before. *)
Lemma post_s t l v e1 e2 s hs : que_is (msg_que s) hs -> t <> WF_MLME_TAG_SCAN_RSP ->
  (forall x, Msg.tag x = t -> (forall w, v = Some w -> Msg.value x = w) -> promised x) ->
  (post_msg t l v e1 e2 s = Ret (e1, set_msg_que (msg_que s) s) /\ forall m, m ∈ Msg.free (msg_que s) -> Msg.tag_of (msg_que s) m <> t) \/
  exists q m, post_msg t l v e1 e2 s = Ret (0, set_msg_que q s) /\ que_is q hs /\ tags_kept (msg_que s) q hs /\
    (exists a b, Msg.pend (msg_que s) = a ++ b /\ Msg.pend q = a ++ m :: b) /\ Msg.tag_of q m = t /\
    forall w, v = Some w -> Msg.value <$> Msg.store q !! m = Some w.
Proof.
  intros [Hq Hi] Ht Hv. unfold post_msg.
  destruct (Typed.new_ok _ hs t Hq Hi) as [(r & E & Hf) | (m & q1 & x & E & Ex & Hk & Hx & Hfree & Hw)]; rewrite E; cbn [cbind]; [by left | right].
  rewrite Ex. cbn [cbind].
  destruct (Hw (default (Msg.len x) l) (default (Msg.value x) v)) as (q2 & a & b & Ep & Hq2 & Hi2 & Hab & Hab' & Hf2 & Ho & Hm).
  rewrite Ep. cbn [cbind]. change (nz 0) with false. cbn iota. exists q2, m. split_and!; [done | split; [| done] | | by exists a, b | |].
  - apply Hq2; [intros Hx'; cbn in Hx'; done |]. apply Hv; [done |]. intros w ->. done.
  - intros z Hz. assert (Hzm : z <> m) by (intros ->; by eapply (held_not_free (msg_que s) hs)).
      specialize (Ho z Hzm). unfold Msg.tag_of. destruct (Msg.store q2 !! z), (Msg.store (msg_que s) !! z); try done. injection Ho as _ Et _ _. exact Et.
  - unfold Msg.tag_of. destruct (Msg.store q2 !! m) as [y |]; [| done]. injection Hm as _ E2 _ _. exact E2.
  - intros w ->. destruct (Msg.store q2 !! m) as [y |]; [| done]. injection Hm as _ _ _ E4. cbn. by rewrite E4.
Qed.

(** ** The protocol *)

Record world : Type := mk_w {
  w_ok : bool;
  w_lock : bool;
  w_scan : bool;
  w_auth : bool;
  w_assoc : bool;
  w_authed : bool;
  w_assoced : bool;
  w_node : bool;
  w_conn : bool;
}.

(** The calls in order: a thread is started when none of its kind runs, called
    and stopped while it runs, asked for its result when it has ended; the lock
    is taken and given back in turn, and the peer's parameters are set under it;
    the operating system is told of a connection when the peer has a node and
    has authenticated and associated the station. *)
Definition allowed (g : world) (e : ev) : bool :=
  match e with
  | ScanStart _ => negb (w_scan g) && negb (w_auth g) && negb (w_assoc g)
  | ScanStop | ScanThrd => w_scan g
  | ScanResult | IndScanDone _ _ => negb (w_scan g)
  | AuthStart => w_node g && negb (w_scan g) && negb (w_auth g) && negb (w_assoc g)
  | AuthStop | AuthThrd => w_auth g
  | AuthResult => negb (w_auth g)
  | AssocStart => w_authed g && negb (w_scan g) && negb (w_auth g) && negb (w_assoc g)
  | AssocStop | AssocThrd => w_assoc g
  | AssocResult => negb (w_assoc g)
  | HwTrylock => negb (w_lock g)
  | HwUnlock | DelBaRequest | Mcu RateTable | Mcu (MlmeJoin _) | Mcu (UserInfo _) => w_lock g
  | Mcu _ | WdnUpdate | WdnRemove _ => w_node g
  | WdnAdd _ => negb (w_node g)
  | BaIssue _ => w_lock g && w_node g && w_conn g
  | IndConnect _ => w_lock g && w_node g && w_authed g && w_assoced g && negb (w_conn g)
  | IndDisconnect _ => negb (w_lock g) && negb (w_scan g) && negb (w_auth g) && negb (w_assoc g)
  | AdhocJoin _ _ | AdhocTimer | AdhocKeepalive | AdhocUpdate | AdhocPrcBcn | AdhocCount | AdhocFramework | WdnFind _ => false
  | _ => true
  end.

Definition track (g : world) (x : ev * Z) : world :=
  let '(e, r) := x in
  let ok := w_ok g && allowed g e in
  let z := r =? 0 in
  let 'mk_w _ lock scan auth assoc authed assoced node conn := g in
  match e with
  | ScanStart _ => mk_w ok lock (scan || z) auth assoc authed assoced node conn
  | ScanThrd => mk_w ok lock (scan && negb z) auth assoc authed assoced node conn
  | AuthStart => mk_w ok lock scan (auth || z) assoc authed assoced node conn
  | AuthThrd => mk_w ok lock scan (auth && negb z) assoc authed assoced node conn
  | AuthResult => mk_w ok lock scan auth assoc (r =? TAG_DONE) assoced node conn
  | AssocStart => mk_w ok lock scan auth (assoc || z) authed assoced node conn
  | AssocThrd => mk_w ok lock scan auth (assoc && negb z) authed assoced node conn
  | AssocResult => mk_w ok lock scan auth assoc authed (r =? TAG_DONE) node conn
  | HwTrylock => mk_w ok (lock || z) scan auth assoc authed assoced node conn
  | HwUnlock => mk_w ok false scan auth assoc authed assoced node conn
  | WdnAdd _ => mk_w ok lock scan auth assoc false false (negb z) conn
  | WdnRemove _ => mk_w ok lock scan auth assoc false false false conn
  | IndConnect _ => mk_w ok lock scan auth assoc authed assoced node true
  | IndDisconnect _ => mk_w ok lock scan auth assoc authed assoced node false
  | _ => mk_w ok lock scan auth assoc authed assoced node conn
  end.

(** ** The phases *)

(** The messages the thread has taken out of the queue. *)
Inductive hold : Type := HNone | HScan | HConn | HConnScan | HConnBa | HP2p.

(** What the thread finds at a label; [None] is anything. *)
Record phase : Type := mk_ph {
  ph_hold : hold;
  ph_scan : bool;
  ph_auth : bool;
  ph_assoc : bool;
  ph_authed : bool;
  ph_assoced : bool;
  ph_node : option bool;
  ph_conn : option bool;
  ph_state : option Z;
}.

Definition msg_phase (m : mlabel) : hold * bool * option Z :=
  match m with
  | MBegin => (HConn, false, None)
  | MPop => (HConn, false, Some MLME_STATE_IDLE)
  | MScan | MScanStop => (HConnScan, true, Some MLME_STATE_SCAN)
  | MProbe | MProbeStop => (HConn, true, Some MLME_STATE_SCAN)
  | MDeauth => (HConn, false, Some MLME_STATE_DEAUTH)
  | MBaReq => (HConn, false, Some MLME_STATE_ADD_BA_REQ)
  | MBaRsp => (HConnBa, false, Some MLME_STATE_ADD_BA_RESP)
  end.

Definition phase_of (b : label) (m : mlabel) : option phase :=
  let no := Some false in
  let yes := Some true in
  match b with
  | LTop => Some (mk_ph HNone false false false false false no no (Some MLME_STATE_IDLE))
  | LIdle => Some (mk_ph HNone false false false false false no no None)
  | P2p => Some (mk_ph HP2p false false false false false no no (Some MLME_STATE_IDLE))
  | ScLoop | ScStop => Some (mk_ph HScan true false false false false no no (Some MLME_STATE_SCAN))
  | CsStart => Some (mk_ph HConn false false false false false no no (Some MLME_STATE_CONN_SCAN))
  | CsLoop | CsAbort | CsBad | CsOk => Some (mk_ph HConn true false false false false no no (Some MLME_STATE_CONN_SCAN))
  | AuBegin => Some (mk_ph HConn false false false false false yes no (Some MLME_STATE_AUTH))
  | AuLoop | AuStop => Some (mk_ph HConn false true false false false yes no (Some MLME_STATE_AUTH))
  | AsBegin => Some (mk_ph HConn false false false true false yes no (Some MLME_STATE_ASSOC))
  | AsLoop | AsStop => Some (mk_ph HConn false false true true false yes no (Some MLME_STATE_ASSOC))
  | PreLock => Some (mk_ph HConn false false false true true yes no (Some MLME_STATE_ASSOC))
  | CTick | CMsg => let '(h, sc, st) := msg_phase m in Some (mk_ph h sc false false true true yes yes st)
  | Brk => Some (mk_ph HConn false false false false false None None None)
  | ClrWait => Some (mk_ph HConn false false false false false no no None)
  | IbLoop | IbStop | IbMaint0 | IbMaint => None
  end.

Definition owns (h : hold) (s : mlme_info_t) (hs : list Z) : Prop :=
  match h with
  | HNone => hs = [] /\ pconn_msg s = None /\ pscan_msg s = None
  | HP2p => pconn_msg s = None /\ pscan_msg s = None /\ exists m, hs = [m] /\ pp2p_msg s = Some m
  | HScan => pconn_msg s = None /\ exists m, hs = [m] /\ pscan_msg s = Some m /\ tag m s = WF_MLME_TAG_SCAN
  | HConn => pscan_msg s = None /\ exists m, hs = [m] /\ pconn_msg s = Some m /\ tag m s = WF_MLME_TAG_CONN
  | HConnScan => exists m k, hs = [k; m] /\ pconn_msg s = Some m /\ tag m s = WF_MLME_TAG_CONN /\
      pscan_msg s = Some k /\ tag k s = WF_MLME_TAG_SCAN
  | HConnBa => pscan_msg s = None /\ exists m k, hs = [k; m] /\ pconn_msg s = Some m /\ tag m s = WF_MLME_TAG_CONN /\
      pba_rsp_msg s = Some k /\ tag k s = WF_MLME_TAG_ADD_BA_RSP
  end.

Definition is_now {A} (o : option A) (v : A) : Prop := match o with Some x => v = x | None => True end.

(** The node's arrays. *)
Record node_ok (n : node_t) : Prop := {
  no_on : length (ba_on n) = 16%nat;
  no_started : length (ba_started_flag n) = 16%nat;
  no_ssid : (32 <= length (Wi.ssid (wdn n)))%nat;
}.

Section Proof.
(** Whether block acknowledgments are enabled, for the whole time. *)
Context (hw_ba : bool).

Record ctx_ok (c : ctx) : Prop := {
  cx_junk : length (junk c) = 33%nat;
  cx_node : node_ok (new_node c);
  cx_ba : hw_ba_enable c = hw_ba;
}.

Record base (s : mlme_info_t) : Prop := {
  bs_net : length (ies (net s)) = Z.to_nat WF_80211_IES_SIZE_MAX;
  bs_req : 0 <= Action.tid (bareq_parm s) < 16;
  bs_node : pwdn_info s = true -> node_ok (node s);
}.

Definition world_at (p : phase) (s : mlme_info_t) (authed assoced : bool) : world :=
  mk_w true false (ph_scan p) (ph_auth p) (ph_assoc p) authed assoced (pwdn_info s) (connect s).

Definition when (b : bool) (P : Prop) : Prop := if b then P else True.

Record fits (p : phase) (s : mlme_info_t) (g : world) : Prop := {
  ft_que : exists hs, owns (ph_hold p) s hs /\ que_is (msg_que s) hs;
  ft_world : exists a1 a2, g = world_at p s a1 a2 /\ when (ph_authed p) (a1 = true) /\ when (ph_assoced p) (a2 = true);
  ft_ba : when (ph_assoced p) (hw_ba = true -> ba_ctl (node s) = true);
  ft_node : is_now (ph_node p) (pwdn_info s);
  ft_conn : is_now (ph_conn p) (connect s);
  ft_state : is_now (ph_state p) (state s);
  ft_base : base s;
}.

Definition fits_at (o : option phase) (s : mlme_info_t) (g : world) : Prop :=
  match o with Some p => fits p s g | None => False end.

Definition inv (b : label) (_ : option Z) (s : mlme_info_t) (g : world) : Prop :=
  fits_at (phase_of b (pt_msg s)) s g /\ (b = CsStart \/ b = CsLoop -> 1 <= try_cnt s <= 3).

(** The number of steps left. *)
Definition measure (b : label) (s : mlme_info_t) : Z :=
  match b with
  | LTop => 18
  | LIdle | CTick => 1
  | ScLoop => 3
  | ScStop | P2p | ClrWait => 2
  | CsStart => 11 + 2 * try_cnt s
  | CsLoop => 10 + 2 * try_cnt s
  | CsAbort | CsBad | AuStop | AsStop | PreLock => 4
  | CsOk => 9
  | AuBegin => 8
  | AuLoop => 7
  | AsBegin => 6
  | AsLoop => 5
  | CMsg => match pt_msg s with MPop => 5 | MDeauth => 4 | MScan | MProbe => 3 | _ => 2 end
  | Brk => 3
  | _ => 0
  end.

(** The labels at which a call begins. *)
Definition resumes (b : label) : bool :=
  match b with LIdle | CsStart | AuBegin | AsBegin | CTick | Brk => false | _ => true end.

Definition ends (_ : pt_ret) (b : label) (s : mlme_info_t) (g : world) : Prop := resumes b = true /\ inv b None s g.

Context (c : ctx).
Hypothesis Hc : ctx_ok c.

Abbreviation keeps b s g := (forall l, wp (block c b l s) (moves track inv measure ends b s g)).

(** What the thread owns when the queue or other fields change. *)
Lemma owns_kept h s hs s' : owns h s hs -> tags_kept (msg_que s) (msg_que s') hs -> pconn_msg s' = pconn_msg s -> pscan_msg s' = pscan_msg s ->
  pba_rsp_msg s' = pba_rsp_msg s -> pp2p_msg s' = pp2p_msg s -> owns h s' hs.
Proof.
  intros Ho Ht E1 E2 E3 E4. destruct h; cbn [owns] in *; rewrite E1, E2, ?E3, ?E4; unfold tag in *.
  - done.
  - destruct Ho as (? & m & -> & ? & ?). split; [done |]. exists m. rewrite Ht by constructor. done.
  - destruct Ho as (? & m & -> & ? & ?). split; [done |]. exists m. rewrite Ht by constructor. done.
  - destruct Ho as (m & k & -> & ? & ? & ? & ?). exists m, k. rewrite !Ht by (repeat constructor). done.
  - destruct Ho as (? & m & k & -> & ? & ? & ? & ?). split; [done |]. exists m, k. rewrite !Ht by (repeat constructor). done.
  - done.
Qed.

Lemma inv_close b l s p a1 a2 nd cn hs : phase_of b (pt_msg s) = Some p -> owns (ph_hold p) s hs -> que_is (msg_que s) hs ->
  when (ph_authed p) (a1 = true) -> when (ph_assoced p) (a2 = true) -> when (ph_assoced p) (hw_ba = true -> ba_ctl (node s) = true) ->
  pwdn_info s = nd -> is_now (ph_node p) nd -> connect s = cn -> is_now (ph_conn p) cn -> is_now (ph_state p) (state s) -> base s ->
  (b = CsStart \/ b = CsLoop -> 1 <= try_cnt s <= 3) ->
  inv b l s (mk_w true false (ph_scan p) (ph_auth p) (ph_assoc p) a1 a2 nd cn).
Proof.
  intros Ep Ho Hq H1 H2 H3 <- H4 <- H5 H6 H7 H8. split; [| done]. rewrite Ep. split; try done; [by exists hs | by exists a1, a2].
Qed.

(** The changes that leave [base] as it is. *)
Lemma base_kept s s' : base s -> net s' = net s -> bareq_parm s' = bareq_parm s -> (pwdn_info s' = true -> pwdn_info s = true) ->
  (pwdn_info s = true -> node_ok (node s) -> node_ok (node s')) -> base s'.
Proof. intros [H1 H2 H3] E1 E2 E3 E4. split; rewrite ?E1, ?E2; [done | done |]. intros Hp. apply E4; [by apply E3 | by apply H3, E3]. Qed.

#[local] Ltac enter :=
  intros [[(hs & Ho & Hq) (a1 & a2 & -> & A1 & A2) Hba Hnd Hcn Hst Hb] Htry] l;
  try specialize (Htry (or_introl eq_refl)); try specialize (Htry (or_intror eq_refl));
  cbn [phase_of msg_phase ph_hold ph_scan ph_auth ph_assoc ph_authed ph_assoced ph_node ph_conn ph_state when is_now] in Ho, A1, A2, Hba, Hnd, Hcn, Hst;
  unfold world_at; cbn [phase_of msg_phase ph_scan ph_auth ph_assoc]; rewrite ?Hnd, ?Hcn.
(** A call is part of what has happened. *)
Lemma wp_call b s g e k : (forall r, wp (k r) (moves track inv measure ends b s (track g (e, r)))) ->
  wp (ibind (call e) k) (moves track inv measure ends b s g).
Proof. intros H r. eapply wp_mono, (H r). by intros tr [[[] ?] ?]. Qed.

Lemma wp_icall b s g e k : (forall r, wp (k r) (moves track inv measure ends b s (track g (e, r)))) ->
  wp (icall e k) (moves track inv measure ends b s g).
Proof. exact (wp_call b s g e k). Qed.

Lemma wp_then {A} b s g (m : io ev A) k : wp m (fun tr a => wp (k a) (moves track inv measure ends b s (after track tr g))) ->
  wp (ibind m k) (moves track inv measure ends b s g).
Proof.
  intros H. apply wp_bind. eapply wp_mono, H. intros tr a Ha. eapply wp_mono, Ha. unfold moves, after.
  intros tr' [[[] ?] ?]; by rewrite fold_left_app.
Qed.

#[local] Ltac world := cbn [track allowed w_ok w_lock w_scan w_auth w_assoc w_authed w_assoced w_node w_conn andb orb negb].
(** A call, its answer zero or not. *)
#[local] Ltac ask :=
  cbn [ibind lift]; first [apply wp_call | cbn [ibind call]; apply wp_icall]; intros ?; unfold nz; world;
  try (match goal with |- context [?r =? 0] => destruct (r =? 0) eqn:? end); cbn [negb andb orb].
#[local] Ltac same := solve [eapply base_kept; [eassumption | ..]; try done; intros _ [? ? ?]; by split].
#[local] Ltac here hs :=
  match goal with |- inv ?b ?l ?s (mk_w _ _ _ _ _ ?a1 ?a2 ?nd ?cn) =>
    refine (inv_close b l s _ a1 a2 nd cn hs eq_refl _ _ _ _ _ _ _ _ _ _ _ _); try first [done | same | by intros [|] | by intros _ | solve [cbn [when ph_assoced]; intros; congruence]]
  end.
#[local] Ltac stops hs := cbn [ibind lift wp moves wait yield after fold_left]; split; [done | here hs].
#[local] Ltac goes hs :=
  cbn [ibind lift wp moves goto after fold_left]; split;
  [here hs | cbn [measure pt_msg set_pt_msg try_cnt]; try match goal with E : pt_msg _ = _ |- _ => rewrite ?E end; try lia].

#[local] Ltac kept Ho := by (refine (owns_kept _ _ _ _ Ho _ _ _ _ _)).

(** *** Scanning *)

Lemma end_scan_post m s b s0 a1 a2 : owns HScan s [m] -> que_is (msg_que s) [m] -> base s -> 1 < measure b s0 ->
  pwdn_info s = false -> connect s = false ->
  wp (end_scan s) (moves track inv measure ends b s0 (mk_w true false false false false a1 a2 false false)).
Proof.
  intros (Hc' & m' & [= <-] & Hp & Ht) Hq Hb Hm Hnd Hcn. unfold end_scan. rewrite Hp. cbn [del_ptr of_option cbind].
  destruct (del_head m s [] Hq (not_elem_of_nil m)) as (q & -> & Hq' & _). goes (@nil Z).
Qed.

Lemma scan_value m s hs : que_is (msg_que s) hs -> m ∈ hs -> tag m s = WF_MLME_TAG_SCAN -> exists v, scan_at (Some m) s = Ret v.
Proof.
  intros [Hq Hi] Hm Ht. destruct (Typed.ready_at _ hs m Hq Hi (or_introl Hm)) as (x & Hx & _ & Hr & Et).
  destruct (pr_scan x Hr) as (f & t & n & ch & Ev); [by rewrite <- Et |]. exists (f, t, n, ch).
  unfold scan_at, value_at, Msg.msg_at. cbn [of_option cbind]. rewrite Hx. cbn [of_option cbind]. by rewrite Ev.
Qed.

Lemma conn_value m s hs : que_is (msg_que s) hs -> m ∈ hs -> tag m s = WF_MLME_TAG_CONN ->
  exists f b n, conn_at (Some m) s = Ret (true, f, b, n).
Proof.
  intros [Hq Hi] Hm Ht. destruct (Typed.ready_at _ hs m Hq Hi (or_introl Hm)) as (x & Hx & _ & Hr & Et).
  destruct (pr_conn x Hr) as (f & b & n & Ev); [by rewrite <- Et |]. exists f, b, n.
  unfold conn_at, value_at, Msg.msg_at. cbn [of_option cbind]. rewrite Hx. cbn [of_option cbind]. by rewrite Ev.
Qed.

Lemma report_scan_post m s b s0 a1 a2 : owns HScan s [m] -> que_is (msg_que s) [m] -> base s -> 1 < measure b s0 ->
  pwdn_info s = false -> connect s = false ->
  wp (report_scan c s) (moves track inv measure ends b s0 (mk_w true false false false false a1 a2 false false)).
Proof.
  intros Ho Hq Hb Hm Hnd Hcn. unfold report_scan. ask; destruct (is_up c); try by eapply end_scan_post.
  all: pose proof Ho as (_ & m' & [= <-] & Hp & Ht); rewrite Hp.
  all: destruct (scan_value m s [m] Hq ltac:(constructor) Ht) as [[[[f t] n] ch] ->].
  all: ask; by eapply end_scan_post.
Qed.

Lemma sc_stop_post s g : inv ScStop None s g -> keeps ScStop s g.
Proof.
  enter. pose proof Ho as (_ & m & -> & _). cbn [block]. unfold wait_thread. ask.
  - by eapply report_scan_post.
  - stops [m].
Qed.

Lemma sc_loop_post s g : inv ScLoop None s g -> keeps ScLoop s g.
Proof.
  enter. pose proof Ho as (Hn & m & -> & Hp & Ht). cbn [block]. unfold at_scan. ask.
  - by eapply report_scan_post.
  - destruct (peek_s s [m] Hq) as [-> | (k & x & -> & Hk & Hx & Hr & Et)]; [stops [m] |]. cbn [lift ibind].
    destruct (tag k s =? WF_MLME_TAG_SCAN_ABORT); [| stops [m]].
    destruct (del_pending k s [m] Hq Hk) as (q & -> & Hq' & Hk'). ask; goes [m]; kept Ho.
Qed.

(** *** The top *)

Lemma start_scan_post m s b s0 a1 a2 : owns HScan s [m] -> que_is (msg_que s) [m] -> base s -> 3 < measure b s0 ->
  pwdn_info s = false -> connect s = false -> state s = MLME_STATE_SCAN ->
  wp (start_scan s) (moves track inv measure ends b s0 (mk_w true false false false false a1 a2 false false)).
Proof.
  intros Ho Hq Hb Hm Hnd Hcn Hst. pose proof Ho as (_ & m' & [= <-] & Hp & Ht). unfold start_scan. rewrite Hp.
  destruct (scan_value m s [m] Hq ltac:(constructor) Ht) as [[[[f t] n] ch] ->]. ask.
  - goes [m].
  - eapply end_scan_post; try done. lia.
Qed.

Lemma idle_post s g : inv LIdle None s g -> keeps LIdle s g.
Proof. enter. cbn [block]. pose proof Ho as (-> & _). stops (@nil Z). Qed.

Lemma top_post s g : inv LTop None s g -> keeps LTop s g.
Proof.
  enter. cbn [block]. unfold at_top. pose proof Ho as (-> & Hn1 & Hn2). destruct (babort_thrd s); [stops (@nil Z) |].
  destruct (pop_s s [] Hq) as [[_ ->] | (m & q & x & -> & Hq1 & Hn & _ & Hx & Hr & Et & _)]; [stops (@nil Z) |].
  cbn [lift ibind]. change (tag m (set_msg_que q s)) with (Msg.tag_of q m).
  destruct (Z.eqb_spec (Msg.tag_of q m) WF_MLME_TAG_SCAN) as [E1 | E1].
  { eapply (start_scan_post m); try done; [split; [done | by exists m] | same]. }
  destruct (Z.eqb_spec (Msg.tag_of q m) WF_MLME_TAG_CONN) as [E2 | E2]; [goes [m]; split; [done | by exists m] |].
  destruct (Z.eqb_spec (Msg.tag_of q m) WF_MLME_TAG_CONN_IBSS) as [E3 | E3]; [by destruct (pr_ibss x Hr); rewrite <- Et |].
  destruct (Z.eqb_spec (Msg.tag_of q m) WF_MLME_TAG_P2P) as [E4 | E4]; [goes [m]; split_and!; try done; by exists m |].
  destruct (del_head m (set_msg_que q s) [] Hq1 (not_elem_of_nil m)) as (q2 & -> & Hq2 & _). goes (@nil Z).
Qed.

Lemma p2p_post s g : inv P2p None s g -> keeps P2p s g.
Proof.
  enter. cbn [block]. pose proof Ho as (Hn1 & Hn2 & m & -> & Hp). unfold at_p2p, wait_thread. ask.
  - rewrite Hp. cbn [del_ptr of_option cbind]. destruct (del_head m s [] Hq (not_elem_of_nil m)) as (q & -> & Hq' & _). goes (@nil Z).
  - stops [m].
Qed.

(** *** Looking for the network *)

Lemma cs_start_post s g : inv CsStart None s g -> keeps CsStart s g.
Proof.
  enter. cbn [block]. unfold at_conn_start. pose proof Ho as (Hn & m & -> & Hp & Ht). rewrite Hp.
  destruct (conn_value m s [m] Hq ltac:(constructor) Ht) as (f & b & n & ->). ask; goes [m].
Qed.

Lemma res_value m s x : Msg.store (msg_que s) !! m = Some x -> promised x -> is_disconn (Msg.tag x) = true ->
  exists res, res_at m s = Ret res.
Proof.
  intros Hx Hr Ht. destruct (pr_res x Hr Ht) as (l & r & Ev). exists (l, r). unfold res_at, value_at, Msg.msg_at. rewrite Hx.
  cbn [of_option cbind]. by rewrite Ev.
Qed.

(** The answer in a message becomes the current network. *)
Lemma rsp_value m s x : Msg.store (msg_que s) !! m = Some x -> promised x -> Msg.tag x = WF_MLME_TAG_SCAN_RSP -> base s ->
  exists buf len r n, frame_at m s = Ret (buf, len) /\ set_cur_network (junk c) buf len (net s) = Ret (r, n) /\ base (set_net n s).
Proof.
  intros Hx Hr Ht [B1 B2 B3]. destruct (pr_rsp x Hr Ht) as (frame & stale & ies & name & Ev & El & Hl & Hs & Ha & Hn).
  destruct (MlmeNet.set_cur_network_safe frame stale (junk c) name ies (net s) Ha Hl Hs (cx_junk c Hc) B1 Hn) as (r & n & E & Hi).
  exists (frame ++ stale), (Z.of_nat (length frame)), r, n. split; [| split; [exact E | by split]].
  unfold frame_at, Msg.msg_at. rewrite Hx. cbn [of_option cbind]. rewrite Ev, El, u16_id; [done |].
  pose proof (MlmeNet.an_len _ _ _ Ha). unfold is_u16. lia.
Qed.

Lemma on_conn_msg_post k s m x b s0 a1 a2 : owns HConn s [m] -> que_is (msg_que s) [k; m] -> k ∉ [m] -> base s -> 9 < measure b s0 ->
  Msg.store (msg_que s) !! k = Some x -> promised x -> Msg.tag_of (msg_que s) k = Msg.tag x ->
  pwdn_info s = false -> connect s = false -> state s = MLME_STATE_CONN_SCAN -> 1 <= try_cnt s <= 3 ->
  wp (on_conn_msg c k s) (moves track inv measure ends b s0 (mk_w true false true false false a1 a2 false false)).
Proof.
  intros Ho Hq Hn Hb Hm Hx Hr Et Hnd Hcn Hst Htry. unfold on_conn_msg, tag. rewrite Et.
  destruct ((Msg.tag x =? WF_MLME_TAG_CONN_ABORT) || _) eqn:E1.
  { assert (Hres : exists res, (if Msg.tag x =? WF_MLME_TAG_CONN_ABORT then res_at k s else Ret (true, WF_80211_REASON_UNSPECIFIED)) = Ret res).
    { destruct (Z.eqb_spec (Msg.tag x) WF_MLME_TAG_CONN_ABORT) as [E | E]; [| by eexists].
      eapply res_value; [done | done |]. by rewrite E. }
    destruct Hres as [res ->]. cbn [lift ibind].
    destruct (del_head k (set_conn_res res s) [m] Hq Hn) as (q & -> & Hq' & Hk & _). ask; goes [m]; kept Ho. }
  destruct (Z.eqb_spec (Msg.tag x) WF_MLME_TAG_SCAN_RSP) as [E2 | E2].
  - destruct (rsp_value k s x Hx Hr E2 Hb) as (buf & len & r & n & -> & E & Hb'). cbn [lift ibind]. rewrite E. cbn [lift ibind].
    destruct (del_head k (set_net n s) [m] Hq Hn) as (q & -> & Hq' & Hk & _). cbn [lift ibind].
    destruct (nz r); ask; goes [m]; kept Ho.
  - destruct (del_head k s [m] Hq Hn) as (q & -> & Hq' & Hk & _). stops [m]; kept Ho.
Qed.

Lemma cs_loop_post s g : inv CsLoop None s g -> keeps CsLoop s g.
Proof.
  enter. cbn [block]. unfold at_conn_scan. pose proof Ho as (Hn & m & -> & Hp & Ht).
  assert (Eu : u8 (try_cnt s - 1) = try_cnt s - 1) by (apply u8_id; unfold is_u8; lia). ask.
  - ask; (destruct (_ =? Scan.WF_SCAN_TAG_DONE); [| goes [m]]).
    + goes [m].
    + cbn [try_cnt set_try_cnt] in *. goes [m]; [intros _ |]; cbn [try_cnt set_try_cnt]; lia.
  - destruct (pop_s s [m] Hq) as [[_ ->] | (k & q & x & -> & Hq1 & Hk & Ht1 & Hx & Hr & Et & _)]; [stops [m] |].
    cbn [lift ibind]. eapply on_conn_msg_post; try done; [kept Ho | same | cbn [measure]; lia].
Qed.

Lemma cs_abort_post s g : inv CsAbort None s g -> keeps CsAbort s g.
Proof. enter. cbn [block]. pose proof Ho as (_ & m & -> & _). unfold wait_thread. ask; [goes [m] | stops [m]]. Qed.
Lemma cs_bad_post s g : inv CsBad None s g -> keeps CsBad s g.
Proof. enter. cbn [block]. pose proof Ho as (_ & m & -> & _). unfold wait_thread. ask; [goes [m] | stops [m]]. Qed.

(** *** The node *)

(** The settings of the chip change nothing here. *)
Definition plain (x : mcu) : bool := match x with RateTable | MlmeJoin _ | UserInfo _ => false | _ => true end.

Lemma run_cmds_post l ret a1 a2 : forallb plain l = true ->
  wp (run_cmds l ret) (fun tr _ => after track tr (mk_w true false false false false a1 a2 true false) = mk_w true false false false false a1 a2 true false).
Proof.
  revert ret. induction l as [| x l IH]; intros ret Hl; [done |]. cbn [forallb] in Hl. apply andb_prop in Hl as [Hx Hl].
  intros r. eapply wp_mono, (IH _ Hl). intros tr a E. unfold after in *. cbn [fold_left]. rewrite <- E at 2. f_equal. by destruct x.
Qed.

Lemma build_wdn_post s a1 a2 :
  wp (build_wdn c s) (fun tr '(r, s') => exists v a1' a2', after track tr (mk_w true false false false false a1 a2 false false) =
      mk_w true false false false false a1' a2' v false /\
    (v = false /\ nz r = true /\ s' = set_pwdn_info false s \/ v = true /\ s' = set_node (new_node c) (set_pwdn_info true s))).
Proof.
  unfold build_wdn. cbn [ibind call wp]. intros f.
  assert (Ef : (f =? 0) = negb (nz f)) by (unfold nz; by rewrite negb_involutive). destruct (nz f); cbn [negb] in *; cycle 1.
  { exists false, false, false. unfold after. cbn [fold_left]. world. rewrite Ef. split; [done |]. by left. }
  cbn [ibind call wp]. intros u. destruct (nz u).
  { cbn [wp]. exists true, false, false. unfold after. cbn [fold_left]. world. rewrite Ef. split; [done |]. by right. }
  apply wp_bind. eapply wp_mono, (run_cmds_post _ 0 false false); [| done]. intros tr r E. cbn [wp]. rewrite app_nil_r.
  exists true, false, false. split; [| by right]. unfold after in *. cbn [fold_left]. world. by rewrite Ef.
Qed.

Lemma found_post m s b s0 a1 a2 : owns HConn s [m] -> que_is (msg_que s) [m] -> base s -> 8 < measure b s0 ->
  pwdn_info s = false -> connect s = false ->
  wp (at_found c s) (moves track inv measure ends b s0 (mk_w true false false false false a1 a2 false false)).
Proof.
  intros Ho Hq [B1 B2 B3] Hm Hnd Hcn. unfold at_found. apply wp_then. eapply wp_mono, (build_wdn_post s a1 a2).
  assert (Hb : base (set_node (new_node c) (set_pwdn_info true s))) by (split; [done | done | intros _; apply Hc]).
  intros tr [r s'] (v & a1' & a2' & -> & [(-> & -> & ->) | (-> & ->)]).
  - goes [m]; by split.
  - destruct (nz r); goes [m].
Qed.

Lemma cs_ok_post s g : inv CsOk None s g -> keeps CsOk s g.
Proof.
  enter. cbn [block]. pose proof Ho as (_ & m & -> & _). unfold wait_thread. ask; [| stops [m]]. by eapply (found_post m).
Qed.

(** *** Authentication and association *)

Lemma au_begin_post s g : inv AuBegin None s g -> keeps AuBegin s g.
Proof. enter. cbn [block]. pose proof Ho as (_ & m & -> & _). ask; goes [m]. Qed.
Lemma au_stop_post s g : inv AuStop None s g -> keeps AuStop s g.
Proof. enter. cbn [block]. pose proof Ho as (_ & m & -> & _). unfold wait_thread. ask; [goes [m] | stops [m]]. Qed.
Lemma as_begin_post s g : inv AsBegin None s g -> keeps AsBegin s g.
Proof. enter. cbn [block]. pose proof Ho as (_ & m & -> & _). rewrite A1. ask; goes [m]. Qed.
Lemma as_stop_post s g : inv AsStop None s g -> keeps AsStop s g.
Proof. enter. cbn [block]. pose proof Ho as (_ & m & -> & _). unfold wait_thread. ask; [goes [m] | stops [m]]. Qed.

Lemma abort_disconn t : (t =? WF_MLME_TAG_CONN_ABORT) || (t =? WF_MLME_TAG_DEAUTH) = true -> is_disconn t = true.
Proof. unfold is_disconn. destruct (t =? WF_MLME_TAG_CONN_ABORT), (t =? WF_MLME_TAG_DEAUTH), (t =? WF_MLME_TAG_DEASSOC); done. Qed.

#[local] Ltac moved Ho H1 H2 := refine (owns_kept _ _ _ _ Ho _ _ _ _ _); try done; exact (tags_trans _ _ _ _ H1 H2).

(** A message while the station authenticates or associates. *)
#[local] Ltac joining s m Hq Ho :=
  destruct (pop_s s [m] Hq) as [[_ ->] | (k & q & x & -> & Hq1 & Hk & Ht1 & Hx & Hr & Et & _)]; [stops [m] |];
  cbn [lift ibind]; change (tag k (set_msg_que q s)) with (Msg.tag_of q k); rewrite Et;
  destruct ((Msg.tag x =? WF_MLME_TAG_CONN_ABORT) || (Msg.tag x =? WF_MLME_TAG_DEAUTH)) eqn:E;
  [destruct (res_value k (set_msg_que q s) x Hx Hr (abort_disconn _ E)) as [res ->]; cbn [lift ibind];
   destruct (del_head k (set_conn_res res (set_msg_que q s)) [m] Hq1 Hk) as (q2 & -> & Hq2 & Ht2 & _); ask; goes [m]; moved Ho Ht1 Ht2
  | destruct (del_head k (set_msg_que q s) [m] Hq1 Hk) as (q2 & -> & Hq2 & Ht2 & _); stops [m]; moved Ho Ht1 Ht2].

Lemma au_loop_post s g : inv AuLoop None s g -> keeps AuLoop s g.
Proof.
  enter. cbn [block]. pose proof Ho as (_ & m & -> & _). unfold at_join. ask.
  - unfold auth_ended. ask; (destruct (_ =? TAG_DONE) eqn:Ed; [| goes [m]]); goes [m].
  - joining s m Hq Ho.
Qed.

Lemma as_loop_post s g : inv AsLoop None s g -> keeps AsLoop s g.
Proof.
  enter. cbn [block]. pose proof Ho as (_ & m & -> & _). unfold at_join. ask.
  - unfold assoc_ended. ask; (destruct (_ =? TAG_DONE) eqn:Ed; [| ask; goes [m]]).
    all: rewrite (cx_ba c Hc); destruct hw_ba eqn:Eh; goes [m].
  - joining s m Hq Ho.
Qed.

(** *** The connection is made, and broken *)

Lemma pre_lock_post s g : inv PreLock None s g -> keeps PreLock s g.
Proof.
  enter. cbn [block]. unfold at_preconnect. pose proof Ho as (_ & m & -> & Hp & Ht). rewrite A1, A2. ask; [| stops [m]].
  ask; [| ask; goes [m]]. do 4 ask. rewrite Hp. destruct (conn_value m s [m] Hq ltac:(constructor) Ht) as (f & b & n & ->). ask.
  assert (Hl : forall k : Z -> io ev step, (forall r, wp (k r) (moves track inv measure ends PreLock s (mk_w true true false false false true true true true))) ->
    wp (ibind (if buddy_master c then call (ResendBcn (Wi.channel (wdn (node s)))) else iret 0) k)
      (moves track inv measure ends PreLock s (mk_w true true false false false true true true true))).
  { intros k Hk. destruct (buddy_master c); [apply wp_call; intros ?; apply Hk | apply Hk]. }
  apply Hl. intros _. ask. ask. goes [m].
Qed.

Lemma break_post s g : inv Brk None s g -> keeps Brk s g.
Proof.
  enter. cbn [block]. unfold at_break. pose proof Ho as (_ & m & -> & Hp & Ht). rewrite Hp.
  destruct (conn_value m s [m] Hq ltac:(constructor) Ht) as (f & b & n & ->). destruct Hb as [B1 B2 B3]. ask.
  cbn [ibind]. cbn [pwdn_info set_num_tx_ok set_num_rx_ok set_busy_traffic set_connect]. destruct (pwdn_info s) eqn:En.
  - ask. ask. goes [m].
  - ask. goes [m]. split; [done | done |]. cbn. by rewrite En.
Qed.

Lemma clear_post s g : inv ClrWait None s g -> keeps ClrWait s g.
Proof.
  enter. cbn [block]. unfold at_clear. pose proof Ho as (Hn & m & -> & Hp & Ht). rewrite Hp. cbn [del_ptr of_option cbind].
  destruct (del_head m s [] Hq (not_elem_of_nil m)) as (q & -> & Hq' & _). ask; [destruct (expired c _) |].
  - goes (@nil Z).
  - stops [m].
  - goes (@nil Z).
Qed.

(** *** What happens beside the thread

    [aside hs s s']: the queue has other messages pending, and only fields differ
    that the phases do not speak of. *)
Record aside (hs : list Z) (s s' : mlme_info_t) : Prop := {
  as_que : que_is (msg_que s') hs /\ tags_kept (msg_que s) (msg_que s') hs;
  as_ptr : pconn_msg s' = pconn_msg s /\ pscan_msg s' = pscan_msg s /\ pba_rsp_msg s' = pba_rsp_msg s /\ pp2p_msg s' = pp2p_msg s;
  as_flags : pwdn_info s' = pwdn_info s /\ connect s' = connect s /\ state s' = state s /\ pt_msg s' = pt_msg s /\ try_cnt s' = try_cnt s;
  as_net : net s' = net s;
  as_req : 0 <= Action.tid (bareq_parm s) < 16 -> 0 <= Action.tid (bareq_parm s') < 16;
  as_node : ba_ctl (node s') = ba_ctl (node s) /\ (node_ok (node s) -> node_ok (node s'));
}.

Lemma aside_trans hs s1 s2 s3 : aside hs s1 s2 -> aside hs s2 s3 -> aside hs s1 s3.
Proof.
  intros [[A1 A2] (A3 & A4 & A5 & A6) (A7 & A8 & A9 & A10 & A11) A12 A13 [A14 A15]].
  intros [[B1 B2] (B3 & B4 & B5 & B6) (B7 & B8 & B9 & B10 & B11) B12 B13 [B14 B15]].
  split; [split; [done | by eapply tags_trans] | split_and!; congruence | split_and!; congruence | congruence | tauto |].
  split; [congruence | tauto].
Qed.

Lemma fits_aside p s s' g : fits p s g -> (forall hs, que_is (msg_que s) hs -> aside hs s s') -> fits p s' g.
Proof.
  intros [(hs & Ho & Hq) (a1 & a2 & -> & A1 & A2) Hba Hnd Hcn Hst [B1 B2 B3]] H.
  destruct (H hs Hq) as [[Q1 Q2] (P1 & P2 & P3 & P4) (F1 & F2 & F3 & F4 & F5) E1 E2 [N1 N2]].
  split; rewrite ?F1, ?F2, ?F3, ?N1; try done.
  - exists hs. split; [by eapply owns_kept | done].
  - exists a1, a2. unfold world_at. by rewrite F1, F2.
  - split; rewrite ?E1, ?F1; [done | by apply E2 | intros Hp; by apply N2, B3].
Qed.

Lemma inv_aside b l s s' g : inv b l s g -> (forall hs, que_is (msg_que s) hs -> aside hs s s') -> inv b l s' g.
Proof.
  intros [H Ht] Ha. assert (Hf : exists hs, que_is (msg_que s) hs).
  { destruct (phase_of b (pt_msg s)) as [p |]; [| done]. destruct H as [(hs & _ & Hq) _ _ _ _ _ _]. by exists hs. }
  destruct Hf as [hs Hq]. destruct (Ha hs Hq) as [_ _ (_ & _ & _ & E1 & E2) _ _ _].
  split; rewrite ?E1, ?E2; [| done]. destruct (phase_of b (pt_msg s)) as [p |]; [| done]. by eapply fits_aside.
Qed.

(** The fields beside are those of [s]. *)
Lemma aside_que hs s q : que_is q hs -> tags_kept (msg_que s) q hs -> aside hs s (set_msg_que q s).
Proof. intros H1 H2. by split. Qed.

Lemma aside_refl hs s : que_is (msg_que s) hs -> aside hs s s.
Proof. intros H. by split. Qed.

(** The messages that carry nothing. *)
Definition bare (t : Z) : bool :=
  (t =? WF_MLME_TAG_SCAN_ABORT) || (t =? WF_MLME_TAG_KEEPALIVE) || (t =? WF_MLME_TAG_ADD_BA_REQ) || (t =? WF_MLME_TAG_P2P).

Lemma promise_bare x : bare (Msg.tag x) = true -> promised x.
Proof.
  unfold bare. intros H. repeat (apply orb_prop in H as [H | H]); apply Z.eqb_eq in H.
  all: split; rewrite H; try (intros E; vm_compute in E; discriminate E).
Qed.

Lemma promise_res x l r : is_disconn (Msg.tag x) = true -> Msg.value x = VRes l r -> promised x.
Proof.
  unfold is_disconn. intros H Hv. split; [intros _; by exists l, r | ..];
    repeat (apply orb_prop in H as [H | H]); apply Z.eqb_eq in H; rewrite H; intros E; vm_compute in E; discriminate E.
Qed.

Lemma promise_scan x f t n ch : Msg.tag x = WF_MLME_TAG_SCAN -> Msg.value x = VScan f t n ch -> promised x.
Proof. intros Ht Hv. split; rewrite Ht; try (intros E; vm_compute in E; discriminate E). intros _. by exists f, t, n, ch. Qed.

Lemma promise_conn x f b n : Msg.tag x = WF_MLME_TAG_CONN -> Msg.value x = VConn true f b n -> promised x.
Proof. intros Ht Hv. split; rewrite Ht; try (intros E; vm_compute in E; discriminate E). intros _. by exists f, b, n. Qed.

Lemma promise_ba x p : Msg.tag x = WF_MLME_TAG_ADD_BA_RSP -> Msg.value x = VBa p -> 0 <= Action.tid p < 16 -> promised x.
Proof. intros Ht Hv Hp. split; rewrite Ht; try (intros E; vm_compute in E; discriminate E). intros _. by exists p. Qed.

Lemma post_aside t l v e1 e2 s hs : que_is (msg_que s) hs -> t <> WF_MLME_TAG_SCAN_RSP ->
  (forall x, Msg.tag x = t -> (forall w, v = Some w -> Msg.value x = w) -> promised x) ->
  exists r s', post_msg t l v e1 e2 s = Ret (r, s') /\ aside hs s s'.
Proof.
  intros Hq Ht Hv. destruct (post_s t l v e1 e2 s hs Hq Ht Hv) as [[E _] | (q & m & E & Hq' & Hk & _)]; rewrite E; eexists _, _.
  - split; [done |]. by apply aside_que.
  - split; [done |]. by apply aside_que.
Qed.

Lemma send_bare t s hs : que_is (msg_que s) hs -> bare t = true -> exists r s', mlme_msg_send t None s = Ret (r, s') /\ aside hs s s'.
Proof.
  intros Hq Hb. apply post_aside; [done | intros -> | intros x Ht _; apply promise_bare; by rewrite Ht].
  vm_compute in Hb. discriminate Hb.
Qed.

Lemma send_res t l r s hs : que_is (msg_que s) hs -> is_disconn t = true ->
  exists z s', mlme_msg_send t (Some (RES_SIZE, VRes l r)) s = Ret (z, s') /\ aside hs s s'.
Proof.
  intros Hq Hd. apply post_aside; [done | intros -> | intros x Ht Hv; eapply promise_res; [by rewrite Ht | by apply Hv]].
  vm_compute in Hd. discriminate Hd.
Qed.

Lemma disconn_aside t l r s hs : que_is (msg_que s) hs -> is_disconn t = true -> exists z s', wf_mlme_disconn c t l r s = Ret (z, s') /\ aside hs s s'.
Proof.
  intros Hq Hd. pose proof (aside_refl hs s Hq). unfold wf_mlme_disconn. destruct (negb (is_up c)); [by eexists _, _ |].
  destruct (negb _); [by eexists _, _ |]. destruct (send_res t l r s hs Hq Hd) as (z & s' & -> & Ha). cbn [cbind]. by eexists _, _.
Qed.

(** *** Keeping the connection *)

Lemma keepalive_begin_aside s hs : que_is (msg_que s) hs -> aside hs s (keepalive_begin c s).
Proof.
  intros Hq. unfold keepalive_begin. destruct (busy_traffic s); split; try done. split; [done |]. by intros [? ? ?].
Qed.

Lemma traffic_aside s hs : que_is (msg_que s) hs -> aside hs s (core_conn_maintain_traffic c s).
Proof. intros Hq. unfold core_conn_maintain_traffic. by destruct (negb _); split. Qed.

Lemma keepalive_aside s hs : que_is (msg_que s) hs -> exists s', core_conn_maintain_keepalive_thrd c s = Ret s' /\ aside hs s s'.
Proof.
  intros Hq. pose proof (keepalive_begin_aside s hs Hq) as Hk. pose proof (aside_refl hs s Hq). unfold core_conn_maintain_keepalive_thrd.
  destruct (pt_keepalive s); [by eexists | |]; (destruct (negb (expired c _)); [by eexists |]); (destruct (negb _); [by eexists |]).
  - destruct (send_bare WF_MLME_TAG_KEEPALIVE s hs Hq eq_refl) as (r & s' & -> & Ha). cbn [cbind].
    destruct (nz r); (eexists; split; [done |]); (eapply aside_trans; [exact Ha |]).
    + apply keepalive_begin_aside, Ha.
    + split; try done. by split; [apply Ha |].
  - unfold wf_mlme_deauth. destruct (disconn_aside WF_MLME_TAG_DEAUTH true WF_80211_REASON_DEAUTH_LEAVING s hs Hq eq_refl) as (r & s' & -> & Ha).
    cbn [cbind]. eexists. split; [done |]. eapply aside_trans; [exact Ha |]. destruct (nz r); [apply keepalive_begin_aside, Ha |].
    split; try done. by split; [apply Ha |].
Qed.

Lemma tick_post s g : inv CTick None s g -> keeps CTick s g.
Proof.
  intros Hi l. cbn [block]. unfold at_tick. assert (Ha : forall hs, que_is (msg_que s) hs ->
    exists s', core_conn_maintain_keepalive_thrd c (core_conn_maintain_traffic c s) = Ret s' /\ aside hs s s').
  { intros hs Hq. pose proof (traffic_aside s hs Hq) as H1. destruct (keepalive_aside _ hs (proj1 (as_que _ _ _ H1))) as (s' & E & H2).
    exists s'. split; [done | by eapply aside_trans]. }
  destruct (core_conn_maintain_keepalive_thrd c _) as [s' | |] eqn:E.
  2, 3: destruct Hi as [H _]; cbn [phase_of] in H; destruct (msg_phase (pt_msg s)) as [[h sc] st]; destruct H as [(hs & _ & Hq) _ _ _ _ _ _];
    by destruct (Ha hs Hq) as (? & ? & _).
  cbn [ibind lift wp moves yield after fold_left]. split; [done |].
  assert (Hi' : inv CMsg None s g) by (destruct Hi as [H _]; split; [exact H | by intros [|]]). apply (inv_aside CMsg None s s' g Hi').
  intros hs Hq. destruct (Ha hs Hq) as (s'' & [= <-] & H). done.
Qed.

(** *** Messages of a connection *)

(** The connection is up; [hs] are the messages held. *)
Record linked (h : hold) (hs : list Z) (s : mlme_info_t) : Prop := {
  lk_own : owns h s hs;
  lk_que : que_is (msg_que s) hs;
  lk_base : base s;
  lk_ba : hw_ba = true -> ba_ctl (node s) = true;
  lk_node : pwdn_info s = true;
  lk_conn : connect s = true;
}.

Abbreviation linked_post b s0 sc := (moves track inv measure ends b s0 (mk_w true false sc false false true true true true)).

#[local] Ltac enter_msg :=
  intros Em [H Htry] l; rewrite Em in H; destruct H as [(hs & Ho & Hq) (a1 & a2 & -> & A1 & A2) Hba Hnd Hcn Hst Hb];
  cbn [phase_of msg_phase ph_hold ph_scan ph_auth ph_assoc ph_authed ph_assoced ph_node ph_conn ph_state when is_now] in Ho, A1, A2, Hba, Hnd, Hcn, Hst;
  unfold world_at; cbn [phase_of msg_phase ph_scan ph_auth ph_assoc]; rewrite ?Hnd, ?Hcn, ?A1, ?A2; cbn [block]; unfold at_msg; rewrite Em.

Lemma msg_begin_post m s b s0 : linked HConn [m] s -> 1 < measure b s0 -> wp (msg_begin s) (linked_post b s0 false).
Proof. intros [Ho Hq Hb Hba Hnd Hcn] Hm. unfold msg_begin, msg_waits. goes [m]. Qed.

Lemma msg_begin0_post s g : pt_msg s = MBegin -> inv CMsg None s g -> keeps CMsg s g.
Proof.
  enter_msg. pose proof Ho as (_ & m & -> & _). apply (msg_begin_post m); [by split |]. cbn [measure]. rewrite Em. lia.
Qed.

(** A message of another tag is another message. *)
Lemma other_tag k m s t t' : tag k s = t -> tag m s = t' -> (t =? t') = false -> k ∉ [m].
Proof. intros H1 H2 Ht Hk%list_elem_of_singleton. subst. by rewrite Z.eqb_refl in Ht. Qed.

Lemma end_msg_scan_post k m s b s0 : linked HConnScan [k; m] s -> 1 < measure b s0 -> wp (end_msg_scan s) (linked_post b s0 false).
Proof.
  intros [Ho Hq Hb Hba Hnd Hcn] Hm. pose proof Ho as (m' & k' & [= <- <-] & Hp & Ht & Hs & Hk). unfold end_msg_scan. rewrite Hs.
  cbn [del_ptr of_option cbind]. destruct (del_head k s [m] Hq (other_tag k m s _ _ Hk Ht eq_refl)) as (q & -> & Hq' & Hkeep & _).
  cbn [lift ibind]. apply (msg_begin_post m); [| done]. split; try done; [| same]. split; [done |]. exists m. split_and!; try done.
  unfold tag. cbn. by rewrite Hkeep by constructor.
Qed.

Lemma report_msg_scan_post k m s b s0 : linked HConnScan [k; m] s -> 1 < measure b s0 -> wp (report_msg_scan c s) (linked_post b s0 false).
Proof.
  intros Hl Hm. unfold report_msg_scan. ask. destruct (is_up c); [| by eapply (end_msg_scan_post k m)].
  pose proof (lk_own _ _ _ Hl) as (m' & k' & [= <- <-] & Hp & Ht & Hs & Hk). rewrite Hs.
  destruct (scan_value k s [k; m] (lk_que _ _ _ Hl) ltac:(constructor) Hk) as [[[[f t] n] ch] ->]. ask. by eapply (end_msg_scan_post k m).
Qed.

(** A scan while connected, that answers the messages [taken]. *)
#[local] Ltac scanning s hs Hq Ho :=
  unfold msg_waits, msg_goes;
  destruct (peek_s s hs Hq) as [-> | (z & x & -> & Hz & Hx & Hr & Et)]; [goes hs; kept Ho |]; cbn [lift ibind];
  match goal with |- wp (if ?b then _ else _) _ => destruct b end;
  [destruct (del_pending z s hs Hq Hz) as (q & -> & Hq' & Hk'); cbn [lift ibind]; ask; goes hs; kept Ho |];
  destruct (is_disconn _); [ask; goes hs; kept Ho | goes hs; kept Ho].

Lemma msg_scan_post s g : pt_msg s = MScan -> inv CMsg None s g -> keeps CMsg s g.
Proof.
  enter_msg. pose proof Ho as (m & k & -> & _). unfold msg_scanning. ask.
  - apply (report_msg_scan_post k m); [by split |]. cbn [measure]. rewrite Em. lia.
  - scanning s [k; m] Hq Ho.
Qed.

Lemma msg_scan_stop_post s g : pt_msg s = MScanStop -> inv CMsg None s g -> keeps CMsg s g.
Proof.
  enter_msg. pose proof Ho as (m & k & -> & _). ask.
  - apply (report_msg_scan_post k m); [by split |]. cbn [measure]. rewrite Em. lia.
  - unfold msg_waits. goes [k; m].
Qed.

Lemma msg_probe_post s g : pt_msg s = MProbe -> inv CMsg None s g -> keeps CMsg s g.
Proof.
  enter_msg. pose proof Ho as (_ & m & -> & _). unfold msg_scanning. ask.
  - apply (msg_begin_post m); [by split |]. cbn [measure]. rewrite Em. lia.
  - scanning s [m] Hq Ho.
Qed.

Lemma msg_probe_stop_post s g : pt_msg s = MProbeStop -> inv CMsg None s g -> keeps CMsg s g.
Proof.
  enter_msg. pose proof Ho as (_ & m & -> & _). ask.
  - apply (msg_begin_post m); [by split |]. cbn [measure]. rewrite Em. lia.
  - unfold msg_waits. goes [m].
Qed.

(** *** Breaking off, and block acknowledgments *)

Lemma msg_deauth_post s g : pt_msg s = MDeauth -> inv CMsg None s g -> keeps CMsg s g.
Proof.
  enter_msg. pose proof Ho as (_ & m & -> & _). unfold msg_deauth. ask; [| unfold msg_waits; goes [m]]. ask. ask.
  assert (Hl : forall k : Z -> io ev step, (forall r, wp (k r) (moves track inv measure ends CMsg s (mk_w true true false false false true true true true))) ->
    wp (ibind (if fst (conn_res s) then call (DeauthXmit (bssid (net s)) WF_80211_REASON_DEAUTH_LEAVING) else iret 0) k)
      (moves track inv measure ends CMsg s (mk_w true true false false false true true true true))).
  { intros k Hk. destruct (fst (conn_res s)); [apply wp_call; intros ?; apply Hk | apply Hk]. }
  apply Hl. intros _. rewrite Hnd. destruct (hw_ba_enable c); cbn [ibind]; ask; goes [m].
Qed.

Lemma set_nth_ok {A} (l : list A) i v : length l = 16%nat -> 0 <= i < 16 -> exists l', set_nth l i v = Ret l' /\ length l' = 16%nat.
Proof.
  intros Hl Hi. unfold set_nth. rewrite Hl. change (Z.of_nat 16) with 16. destruct (Z.leb_spec 0 i); [| lia].
  destruct (Z.ltb_spec i 16); [| lia]. eexists. split; [done |]. by rewrite length_insert.
Qed.

Lemma msg_ba_req_post s g : pt_msg s = MBaReq -> inv CMsg None s g -> keeps CMsg s g.
Proof.
  enter_msg. pose proof Ho as (_ & m & -> & _). unfold msg_ba_req. ask; [| unfold msg_waits; goes [m]]. rewrite Hnd. cbn [negb].
  pose proof Hb as [B1 B2 B3]. destruct (B3 Hnd) as [N1 N2 N3].
  destruct (hw_ba_enable c); cbn [ibind]; ask.
  - destruct (set_nth_ok (ba_started_flag (node s)) (Action.tid (bareq_parm s)) true N2 B2) as (l' & -> & Hl'). ask.
    apply (msg_begin_post m); [| cbn [measure]; rewrite Em; lia]. by split.
  - apply (msg_begin_post m); [by split | cbn [measure]; rewrite Em; lia].
Qed.

Lemma end_ba_rsp_post k m s b s0 : linked HConnBa [k; m] s -> 1 < measure b s0 -> wp (end_ba_rsp s) (linked_post b s0 false).
Proof.
  intros [Ho Hq Hb Hba Hnd Hcn] Hm. pose proof Ho as (Hs & m' & k' & [= <- <-] & Hp & Ht & Hk & Hkt). unfold end_ba_rsp. rewrite Hk.
  cbn [del_ptr of_option cbind]. destruct (del_head k s [m] Hq (other_tag k m s _ _ Hkt Ht eq_refl)) as (q & -> & Hq' & Hkeep & _).
  cbn [lift ibind]. apply (msg_begin_post m); [| done]. split; try done; [| same]. split; [done |]. exists m. split_and!; try done.
  unfold tag. cbn. by rewrite Hkeep by constructor.
Qed.

Lemma ba_value k s hs : que_is (msg_que s) hs -> k ∈ hs -> tag k s = WF_MLME_TAG_ADD_BA_RSP ->
  exists p, ba_at (Some k) s = Ret p /\ 0 <= Action.tid p < 16.
Proof.
  intros [Hq Hi] Hm Ht. destruct (Typed.ready_at _ hs k Hq Hi (or_introl Hm)) as (x & Hx & _ & Hr & Et).
  destruct (pr_ba x Hr) as (p & Ev & Hp); [by rewrite <- Et |]. exists p. split; [| done].
  unfold ba_at, value_at, Msg.msg_at. cbn [of_option cbind]. rewrite Hx. cbn [of_option cbind]. by rewrite Ev.
Qed.

Lemma msg_ba_rsp_post s g : pt_msg s = MBaRsp -> inv CMsg None s g -> keeps CMsg s g.
Proof.
  enter_msg. pose proof Ho as (Hs & m & k & -> & Hp & Ht & Hk & Hkt). unfold msg_ba_rsp. ask; [| unfold msg_waits; goes [k; m]].
  rewrite Hnd. cbn [negb]. pose proof Hb as [B1 B2 B3]. destruct (B3 Hnd) as [N1 N2 N3].
  rewrite (cx_ba c Hc). destruct hw_ba eqn:Eh; cbn [ibind].
  - rewrite Hk. destruct (ba_value k s [k; m] Hq ltac:(constructor) Hkt) as (p & -> & Htid). cbn [lift ibind]. ask.
    all: cbn [set_barsp_parm node]; rewrite (Hba eq_refl); cbn [barsp_parm set_barsp_parm].
    all: match goal with |- context [set_nth ?l ?i ?v] => destruct (set_nth_ok l i v N1 Htid) as (l' & E & Hl') end.
    all: cbn [barsp_parm set_barsp_parm] in *; cbn [ibind lift]; rewrite ?E; ask; (apply (end_ba_rsp_post k m); [| cbn [measure]; rewrite Em; lia]); split; try done; intros _; by apply Hba.
  - ask. apply (end_ba_rsp_post k m); [| cbn [measure]; rewrite Em; lia]. split; try done. congruence.
Qed.

(** The name of the network probed for. *)
Lemma probe_name s : base s -> pwdn_info s = true ->
  exists d, (letc d := slice (Wi.ssid (wdn (node s))) 0 32 in blit (junk c) 0 d) = Ret d.
Proof.
  intros [_ _ B3] Hp. destruct (B3 Hp) as [_ _ Hs]. rewrite slice_Ret by lia. cbn [cbind]. unfold blit.
  rewrite (cx_junk c Hc), length_take, length_drop. change (0 <=? 0) with true.
  destruct (Z.leb_spec (0 + Z.of_nat (Z.to_nat 32 `min` (length (Wi.ssid (wdn (node s))) - Z.to_nat 0))) (Z.of_nat 33)); [by eexists | lia].
Qed.

Lemma start_probe_post m s b s0 : linked HConn [m] s -> state s = MLME_STATE_SCAN -> 4 < measure b s0 ->
  wp (start_probe c s) (linked_post b s0 false).
Proof.
  intros Hl Hst Hm. pose proof Hl as [Ho Hq Hb Hba Hnd Hcn]. unfold start_probe. rewrite Hnd. cbn [negb].
  destruct (probe_name s Hb Hnd) as [d ->]. ask; ask; unfold msg_goes; first [goes [m] | apply (msg_begin_post m); [done | lia]].
Qed.

(** A message taken while connected. *)
Lemma on_msg_post k m s x b s0 : owns HConn s [m] -> que_is (msg_que s) [k; m] -> k ∉ [m] -> 4 < measure b s0 ->
  base s -> (hw_ba = true -> ba_ctl (node s) = true) -> pwdn_info s = true -> connect s = true ->
  Msg.store (msg_que s) !! k = Some x -> promised x -> Msg.tag_of (msg_que s) k = Msg.tag x ->
  wp (on_msg c k s) (linked_post b s0 false).
Proof.
  intros Ho Hq Hn Hm Hb Hba Hnd Hcn Hx Hr Et. unfold on_msg, tag. rewrite Et. pose proof Ho as (Hs & m' & [= <-] & Hp & Ht).
  destruct (Z.eqb_spec (Msg.tag x) WF_MLME_TAG_SCAN) as [E1 | E1].
  { assert (Hl : linked HConnScan [k; m] (set_state MLME_STATE_SCAN (set_pscan_msg (Some k) s))).
    { split; try done; [| same]. exists m, k. split_and!; try done. by rewrite <- E1, <- Et. }
    ask; [destruct Hl; unfold msg_goes; goes [k; m] | apply (end_msg_scan_post k m); [done | lia]]. }
  destruct (Z.eqb_spec (Msg.tag x) WF_MLME_TAG_KEEPALIVE) as [E2 | E2].
  { destruct (del_head k s [m] Hq Hn) as (q & -> & Hq' & Hk & _). cbn [lift ibind]. apply (start_probe_post m); [| done | done].
    split; try done; [kept Ho | same]. }
  destruct (is_disconn (Msg.tag x)) eqn:E3.
  { destruct (res_value k s x Hx Hr E3) as [res ->]. cbn [lift ibind].
    destruct (del_head k (set_conn_res res s) [m] Hq Hn) as (q & -> & Hq' & Hk & _). unfold msg_goes. goes [m]. kept Ho. }
  destruct (Z.eqb_spec (Msg.tag x) WF_MLME_TAG_ADD_BA_REQ) as [E4 | E4].
  { destruct (del_head k s [m] Hq Hn) as (q & -> & Hq' & Hk & _). unfold msg_goes. goes [m]. kept Ho. }
  destruct (Z.eqb_spec (Msg.tag x) WF_MLME_TAG_ADD_BA_RSP) as [E5 | E5].
  { unfold msg_goes. goes [k; m]. split; [done |]. exists m, k. split_and!; try done. by rewrite <- E5, <- Et. }
  destruct (del_head k s [m] Hq Hn) as (q & -> & Hq' & Hk & _). cbn [lift ibind]. apply (msg_begin_post m); [| lia].
  split; try done; [kept Ho | same].
Qed.

Lemma msg_pop_post s g : pt_msg s = MPop -> inv CMsg None s g -> keeps CMsg s g.
Proof.
  enter_msg. pose proof Ho as (_ & m & -> & _).
  destruct (pop_s s [m] Hq) as [[_ ->] | (k & q & x & -> & Hq1 & Hk & Ht1 & Hx & Hr & Et & _)]; [unfold msg_waits; goes [m] |].
  cbn [lift ibind]. eapply (on_msg_post k m); try done; [kept Ho | cbn [measure]; rewrite Em; lia | same].
Qed.

Lemma msg_post s g : inv CMsg None s g -> keeps CMsg s g.
Proof.
  intros Hi. destruct (pt_msg s) eqn:Em; [by apply msg_begin0_post | by apply msg_pop_post | by apply msg_scan_post |
    by apply msg_scan_stop_post | by apply msg_probe_post | by apply msg_probe_stop_post | by apply msg_deauth_post |
    by apply msg_ba_req_post | by apply msg_ba_rsp_post].
Qed.

(** *** A call *)

Lemma block_moves b l s g : inv b l s g -> wp (block c b l s) (moves track inv measure ends b s g).
Proof.
  intros Hi. change (inv b None s g) in Hi. destruct b;
    [by apply top_post | by apply idle_post | by apply sc_loop_post | by apply sc_stop_post | by apply cs_start_post | by apply cs_loop_post |
     by apply cs_abort_post | by apply cs_bad_post | by apply cs_ok_post | by apply au_begin_post | by apply au_loop_post | by apply au_stop_post |
     by apply as_begin_post | by apply as_loop_post | by apply as_stop_post | by apply pre_lock_post | by apply tick_post | by apply msg_post |
     by apply break_post | by apply clear_post | by apply p2p_post | ..]; by destruct Hi.
Qed.

Lemma measure_range b l s g : inv b l s g -> 0 <= measure b s <= 18.
Proof.
  intros [_ Ht]. destruct b; cbn [measure]; try lia; [| | by destruct (pt_msg s); lia].
  - specialize (Ht (or_introl eq_refl)). lia.
  - specialize (Ht (or_intror eq_refl)). lia.
Qed.

Lemma call_ends fuel b s g : inv b None s g -> (18 < fuel)%nat ->
  wp (mlme_core_thrd c fuel b s) (fun tr '(r, b', _, s') => ends r b' s' (after track tr g)).
Proof.
  intros Hi Hf. pose proof (measure_range b None s g Hi). unfold mlme_core_thrd.
  apply (blocks_ends (block c) (fun _ => tt) track inv measure ends); [| exact block_moves | done | lia].
  intros b' l' s' g' Hi'. by apply (measure_range b' l' s' g').
Qed.

End Proof.
End MlmeConn.
