(* ===== verification/MlmeReach.v ===== *)
(** * The management thread from its initialisation on

    The states the thread of [Mlme] can be in: it is initialised, called again
    and again, and between calls the operating system makes requests, frames
    arrive and traffic is counted.  The theorems say what holds of every call. *)
From S2P Require Import Prelude WdnTypes Ies Timer Msg Typed Io Mgmt Action Scan Mlme MlmeNet MlmeConn.

Module MlmeReach.
Import Mlme Mi Io MlmeConn.

Section Requests.
Context (c : ctx).

(** ** Requests from outside *)

Lemma send_value t l v e1 e2 s hs : que_is (msg_que s) hs -> t <> WF_MLME_TAG_SCAN_RSP -> (forall x, Msg.tag x = t -> Msg.value x = v -> promised x) ->
  exists r s', post_msg t l (Some v) e1 e2 s = Ret (r, s') /\ aside hs s s'.
Proof. intros Hq Ht Hv. apply post_aside; [done | done |]. intros x Hx Hw. by apply Hv; [| apply Hw]. Qed.

(** What a caller may ask for. *)
Definition scan_fits (n : list Scan.wf_wlan_ssid_t) (ch : list Z) : Prop :=
  Z.of_nat (length n) <= WF_SCAN_REQ_SSID_NUM /\ Z.of_nat (length ch) <= WF_SCAN_REQ_CHANNEL_NUM.
Definition name_fits (n : Scan.wf_wlan_ssid_t) : Prop := 0 <= Scan.ssid_length n <= 32 /\ length (Scan.ssid_data n) = 33%nat.

Lemma scan_start_aside t n ch f s hs : scan_fits n ch -> que_is (msg_que s) hs ->
  exists r s', wf_mlme_scan_start c t n ch f s = Ret (r, s') /\ aside hs s s'.
Proof.
  intros [H1 H2] Hq. unfold wf_mlme_scan_start. destruct (negb (is_up c)); [eexists _, _; split; [done | by apply aside_refl] |].
  rewrite (proj2 (Z.ltb_ge _ _) H1), (proj2 (Z.ltb_ge _ _) H2). cbn [orb].
  apply send_value; [done | done |]. intros x. apply promise_scan.
Qed.

Lemma scan_abort_aside s hs : que_is (msg_que s) hs -> exists r s', wf_mlme_scan_abort c s = Ret (r, s') /\ aside hs s s'.
Proof.
  intros Hq. pose proof (aside_refl hs s Hq). unfold wf_mlme_scan_abort. destruct (negb _); [by eexists _, _ |].
  destruct (pscan_msg s) as [m |]; [| by eexists _, _]. destruct (tag m s =? _); [| by eexists _, _].
  destruct (send_bare WF_MLME_TAG_SCAN_ABORT s hs Hq eq_refl) as (r & s' & -> & Ha). cbn [cbind]. by eexists _, _.
Qed.

Lemma conn_abort_aside l r s hs : que_is (msg_que s) hs -> exists z s', wf_mlme_conn_abort c l r s = Ret (z, s') /\ aside hs s s'.
Proof.
  intros Hq. pose proof (aside_refl hs s Hq). unfold wf_mlme_conn_abort. destruct (negb _); [by eexists _, _ |].
  destruct (pconn_msg s) as [m |]; [| by eexists _, _]. destruct (tag m s =? _); [| by eexists _, _].
  destruct (send_res WF_MLME_TAG_CONN_ABORT l r s hs Hq eq_refl) as (z & s' & -> & Ha). cbn [cbind]. by eexists _, _.
Qed.

(** A request for a connection that is still pending is dropped. *)
Lemma drop_pending s hs : que_is (msg_que s) hs ->
  exists s', (letc m := peek s in match m with Some m => if tag m s =? WF_MLME_TAG_CONN then del m s else Ret s | None => Ret s end) = Ret s' /\ aside hs s s'.
Proof.
  intros Hq. pose proof (aside_refl hs s Hq). destruct (peek_s s hs Hq) as [-> | (m & x & -> & Hm & _)]; cbn [cbind]; [by exists s |].
  destruct (tag m s =? _); [| by exists s]. destruct (del_pending m s hs Hq Hm) as (q & -> & Hq' & Ht).
  eexists. split; [done | by apply aside_que].
Qed.

Lemma conn_start_aside b n f s hs : name_fits n -> que_is (msg_que s) hs ->
  exists r s', wf_mlme_conn_start c b n f true s = Ret (r, s') /\ aside hs s s'.
Proof.
  intros [N1 N2] Hq. unfold wf_mlme_conn_start. destruct (negb (is_up c)); [eexists _, _; split; [done | by apply aside_refl] |].
  assert (H1 : exists z s1, match pconn_msg s with Some _ => wf_mlme_conn_abort c true WF_80211_REASON_UNSPECIFIED s | None => Ret (0, s) end = Ret (z, s1) /\ aside hs s s1).
  { destruct (pconn_msg s); [by apply conn_abort_aside | eexists _, _; split; [done | by apply aside_refl]]. }
  destruct H1 as (z & s1 & -> & A1). cbn [cbind]. destruct (drop_pending s1 hs (proj1 (as_que _ _ _ A1))) as (s2 & E & A2).
  destruct (peek s1) as [m | |]; cbn [cbind] in E |- *; try done. rewrite E. cbn [cbind].
  assert (Hn : exists n', (if nz (Scan.ssid_length n) then letc d := wr (Scan.ssid_data n) (Scan.ssid_length n) 0 in
                             Ret (Scan.mk_ssid (Scan.ssid_length n) d) else Ret (Scan.mk_ssid 0 [])) = Ret n').
  { destruct (nz _); [| by eexists]. rewrite wr_setZ by lia. by eexists. }
  destruct Hn as [n' ->]. cbn [cbind].
  destruct (send_value WF_MLME_TAG_CONN None (VConn true f b n') (-3) (-4) s2 hs (proj1 (as_que _ _ _ A2))) as (r & s3 & E3 & A3).
  - done.
  - intros x. apply promise_conn.
  - exists r, s3. split; [done |]. by eapply aside_trans, aside_trans.
Qed.

Lemma ba_req_aside s hs : que_is (msg_que s) hs -> exists r s', wf_mlme_add_ba_req c s = Ret (r, s') /\ aside hs s s'.
Proof.
  intros Hq. unfold wf_mlme_add_ba_req. destruct (negb (is_up c)); [eexists _, _; split; [done | by apply aside_refl] |].
  destruct (send_bare WF_MLME_TAG_ADD_BA_REQ s hs Hq eq_refl) as (r & s' & -> & Ha). cbn [cbind]. by eexists _, _.
Qed.

Lemma ba_rsp_aside p s hs : que_is (msg_que s) hs -> 0 <= Action.tid p < 16 -> exists r s', wf_mlme_add_ba_rsp c p s = Ret (r, s') /\ aside hs s s'.
Proof.
  intros Hq Hp. unfold wf_mlme_add_ba_rsp. destruct (negb (is_up c)); [eexists _, _; split; [done | by apply aside_refl] |].
  destruct (send_value WF_MLME_TAG_ADD_BA_RSP (Some BA_SIZE) (VBa p) (-3) (-4) s hs Hq) as (r & s' & E & Ha); [done | |].
  { intros x Ht Hv. by eapply promise_ba. }
  unfold mlme_msg_send. cbn [fmap option_fmap option_map fst snd]. rewrite E. cbn [cbind]. by eexists _, _.
Qed.

Lemma p2p_aside p s hs : que_is (msg_que s) hs -> exists r s', wf_mlme_p2p_msg p s = Ret (r, s') /\ aside hs s s'.
Proof. intros Hq. apply send_value; [done | done |]. intros x Ht _. apply promise_bare. by rewrite Ht. Qed.

Lemma abort_aside s hs : que_is (msg_que s) hs -> exists s', abort_request c s = Ret s' /\ aside hs s s'.
Proof.
  intros Hq. unfold abort_request. assert (H1 : exists s1, (if negb (work_mode c =? WF_ADHOC_MODE)
      then letc (_, s) := wf_mlme_conn_abort c true WF_80211_REASON_UNSPECIFIED s in letc (_, s) := wf_mlme_scan_abort c s in Ret s else Ret s) = Ret s1 /\ aside hs s s1).
  { destruct (negb _); [| eexists; split; [done | by apply aside_refl]].
    destruct (conn_abort_aside true WF_80211_REASON_UNSPECIFIED s hs Hq) as (z & s1 & -> & A1). cbn [cbind].
    destruct (scan_abort_aside s1 hs (proj1 (as_que _ _ _ A1))) as (z' & s2 & -> & A2). cbn [cbind]. exists s2. split; [done | by eapply aside_trans]. }
  destruct H1 as (s1 & -> & A1). cbn [cbind]. eexists. split; [done |]. eapply aside_trans; [exact A1 |].
  pose proof (proj1 (as_que _ _ _ A1)). by split.
Qed.

(** An answer is put into a message. *)
Lemma scan_rsp_aside frame ies name sc s hs : que_is (msg_que s) hs -> MlmeNet.answer frame ies name -> (length name <= 32)%nat ->
  exists r s', wf_mlme_conn_scan_rsp c sc frame s = Ret (r, s') /\ aside hs s s'.
Proof.
  intros Hq Ha Hn. pose proof (aside_refl hs s Hq). unfold wf_mlme_conn_scan_rsp. destruct (negb (is_up c)); [by eexists _, _ |].
  destruct (negb sc); [by eexists _, _ |]. pose proof (MlmeNet.an_len _ _ _ Ha) as Hl. pose proof Hq as [Hk Hi].
  destruct (Typed.new_ok _ hs WF_MLME_TAG_SCAN_RSP Hk Hi) as [(r & E & _) | (m & q1 & x & E & Ex & Hkx & Hx & Hfree & Hw)]; rewrite E; cbn [cbind].
  { eexists _, _. split; [done |]. by apply aside_que. }
  rewrite Ex. cbn [cbind]. destruct (Hkx Hx) as (b & Ev & Hb & Hbytes). rewrite Ev. cbn [cbind].
  change (Z.to_nat PROBERSP_SIZE) with 804%nat in Hb. set (v := frame ++ drop (length frame) b).
  assert (Hblit : blit b 0 frame = Ret v).
  { rewrite <- (take_drop (length frame) b) at 1. apply Mgmt.blit_app_head. rewrite length_take. lia. }
  assert (Hv : length v = Z.to_nat PROBERSP_SIZE) by (unfold v; rewrite length_app, length_drop; change (Z.to_nat PROBERSP_SIZE) with 804%nat; lia).
  assert (Hs : bytes_ok (drop (length frame) b)) by by apply Forall_drop.
  rewrite Hblit. cbn [cbind].
  destruct (Hw (Z.of_nat (length frame)) (VFrame v)) as (q2 & a & b' & -> & Hq2 & Hi2 & _ & _ & _ & Ho & _). cbn [cbind].
  eexists _, _. split; [done |]. apply aside_que; [split; [apply Hq2 | done] |].
  - intros _. exists v. split_and!; try done. apply bytes_ok_app. split; [apply Ha | done].
  - split; try (intros E'; vm_compute in E'; discriminate E'). intros _. by exists frame, (drop (length frame) b), ies, name.
  - intros z Hz. assert (Hzm : z <> m) by (intros ->; by eapply (held_not_free (msg_que s) hs)). specialize (Ho z Hzm). unfold Msg.tag_of.
    destruct (Msg.store q2 !! z), (Msg.store (msg_que s) !! z); try done. injection Ho as _ Et _ _. exact Et.
Qed.
End Requests.

(** ** Initialisation *)

Definition class_ok (x : Z * value * nat) : Prop := let '(t, zero, _) := x in is_u16 t /\ forall size, room (Msg.mk_msg None size t 0 zero).

Lemma alloc_all_ok size l : Forall class_ok l -> forall ids q ms, Typed.filling q ms -> NoDup (ids ++ ms) ->
  length ids = list_sum (map snd l) -> exists q' ms', alloc_all size l (map Some ids) q = Ret (0, q') /\ Typed.filling q' ms'.
Proof.
  induction 1 as [| [[t zero] n] l [Hu Hk] Hl IH]; intros ids q ms Hf Hnd Hlen; [by exists q, ms |]. cbn [map snd list_sum foldr] in Hlen.
  cbn [alloc_all]. rewrite <- (take_drop n ids) in Hnd. rewrite <- app_assoc in Hnd.
  assert (Hnd1 : NoDup (take n ids ++ ms)).
  { rewrite Permutation_app_comm, <- app_assoc in Hnd. apply NoDup_app in Hnd as (_ & _ & Hnd). by rewrite Permutation_app_comm. }
  destruct (Typed.alloc_ok (K := mlme_kinds) t (size t) zero (take n ids) Hu (Hk _) q ms Hf Hnd1) as (q1 & E1 & Hf1).
  rewrite <- firstn_map in E1. rewrite E1. cbn [cbind]. change (nz 0) with false. cbn iota. rewrite skipn_map.
  apply (IH (drop n ids) q1 _ Hf1).
  - rewrite (Permutation_app_comm (take n ids)), app_assoc, Permutation_app_comm. done.
  - rewrite length_drop. unfold list_sum in Hlen. cbn in Hlen. unfold list_sum. lia.
Qed.

Lemma msg_classes_ok : Forall class_ok msg_classes.
Proof.
  repeat (apply Forall_cons_2; [split; [by vm_compute | intros size E; try (vm_compute in E; discriminate E)] |]); [| constructor].
  eexists. split; [done |]. split; [by rewrite length_replicate | apply Forall_replicate; unfold is_u8; lia].
Qed.

(** ** Reachable states *)

(** The counters the transmit and receive paths keep. *)
Definition count_traffic (rx tx stat : Z) (s : mlme_info_t) : mlme_info_t :=
  let n := node s in
  set_num_rx_ok rx (set_num_tx_ok tx (set_node (mk_node (wdn n) stat (rx_pkt_stat_last n) (ba_ctl n) (ba_on n) (ba_started_flag n)) s)).

(** What happens beside the thread, with the results of the calls dropped;
    [h_restart] is [mlme_core], which runs the thread again after it exited. *)
Inductive happens (c : ctx) (s s' : mlme_info_t) : Prop :=
  | h_scan_start t n ch f r : scan_fits n ch -> wf_mlme_scan_start c t n ch f s = Ret (r, s') -> happens c s s'
  | h_scan_abort r : wf_mlme_scan_abort c s = Ret (r, s') -> happens c s s'
  | h_conn_start b n f r : name_fits n -> wf_mlme_conn_start c b n f true s = Ret (r, s') -> happens c s s'
  | h_conn_abort l z r : wf_mlme_conn_abort c l z s = Ret (r, s') -> happens c s s'
  | h_deauth l z r : wf_mlme_deauth c l z s = Ret (r, s') -> happens c s s'
  | h_deassoc l z r : wf_mlme_deassoc c l z s = Ret (r, s') -> happens c s s'
  | h_ba_req r : wf_mlme_add_ba_req c s = Ret (r, s') -> happens c s s'
  | h_ba_rsp p r : 0 <= Action.tid p < 16 -> wf_mlme_add_ba_rsp c p s = Ret (r, s') -> happens c s s'
  | h_scan_rsp frame ies name sc r : MlmeNet.answer frame ies name -> (length name <= 32)%nat ->
      wf_mlme_conn_scan_rsp c sc frame s = Ret (r, s') -> happens c s s'
  | h_p2p p r : wf_mlme_p2p_msg p s = Ret (r, s') -> happens c s s'
  | h_abort : abort_request c s = Ret s' -> happens c s s'
  | h_restart : s' = set_babort_thrd false s -> happens c s s'
  | h_bareq p : 0 <= Action.tid p < 16 -> s' = set_bareq_parm p s -> happens c s s'
  | h_traffic rx tx stat : s' = count_traffic rx tx stat s -> happens c s s'.

Lemma happens_aside c s s' hs : happens c s s' -> que_is (msg_que s) hs -> aside hs s s'.
Proof.
  intros H Hq. destruct H as [t n ch f r Hf E | r E | b n f r Hf E | l z r E | l z r E | l z r E | r E | p r Hp E | frame ies name sc r Ha Hn E | p r E | E | -> | p Hp -> | rx tx stat ->].
  - destruct (scan_start_aside c t n ch f s hs Hf Hq) as (? & ? & E' & H). rewrite E in E'. by injection E' as <- <-.
  - destruct (scan_abort_aside c s hs Hq) as (? & ? & E' & H). rewrite E in E'. by injection E' as <- <-.
  - destruct (conn_start_aside c b n f s hs Hf Hq) as (? & ? & E' & H). rewrite E in E'. by injection E' as <- <-.
  - destruct (conn_abort_aside c l z s hs Hq) as (? & ? & E' & H). rewrite E in E'. by injection E' as <- <-.
  - destruct (disconn_aside c WF_MLME_TAG_DEAUTH l z s hs Hq eq_refl) as (? & ? & E' & H). unfold wf_mlme_deauth in E. rewrite E in E'. by injection E' as <- <-.
  - destruct (disconn_aside c WF_MLME_TAG_DEASSOC l z s hs Hq eq_refl) as (? & ? & E' & H). unfold wf_mlme_deassoc in E. rewrite E in E'. by injection E' as <- <-.
  - destruct (ba_req_aside c s hs Hq) as (? & ? & E' & H). rewrite E in E'. by injection E' as <- <-.
  - destruct (ba_rsp_aside c p s hs Hq Hp) as (? & ? & E' & H). rewrite E in E'. by injection E' as <- <-.
  - destruct (scan_rsp_aside c frame ies name sc s hs Hq Ha Hn) as (? & ? & E' & H). rewrite E in E'. by injection E' as <- <-.
  - destruct (p2p_aside p s hs Hq) as (? & ? & E' & H). rewrite E in E'. by injection E' as <- <-.
  - destruct (abort_aside c s hs Hq) as (? & E' & H). rewrite E in E'. by injection E' as <-.
  - by split.
  - by split.
  - split; try done. split; [done |]. by intros [? ? ?].
Qed.

Section Reach.
Context (hw_ba : bool).

Definition world0 : world := mk_w true false false false false false false false false.

Inductive reach : label -> mlme_info_t -> world -> Prop :=
  | r_init size ids n nd s : NoDup ids -> length ids = 52%nat -> length (ies n) = Z.to_nat WF_80211_IES_SIZE_MAX ->
      wf_mlme_init size (map Some ids) true n nd = Ret (0, s) -> reach LTop s world0
  | r_call c fuel b s g tr r b' u s' : reach b s g -> ctx_ok hw_ba c -> (18 < fuel)%nat ->
      runs (mlme_core_thrd c fuel b s) tr (r, b', u, s') -> reach b' s' (after track tr g)
  | r_happens c b s g s' : reach b s g -> happens c s s' -> reach b s' g.

Lemma begin_inv size ids n nd s : NoDup ids -> length ids = 52%nat -> length (ies n) = Z.to_nat WF_80211_IES_SIZE_MAX ->
  wf_mlme_init size (map Some ids) true n nd = Ret (0, s) -> inv hw_ba LTop None s world0.
Proof.
  intros Hnd Hl Hn. unfold wf_mlme_init, mlme_msg_init.
  destruct (alloc_all_ok size msg_classes msg_classes_ok ids Msg.wf_msg_init [] Typed.fresh_filling) as (q & ms & -> & Hf); [by rewrite app_nil_r | done |].
  cbn [cbind]. change (nz 0) with false. cbn iota. intros [= <-]. destruct Hf as [Hi Hq _ _].
  refine (inv_close hw_ba LTop None _ _ false false false false [] eq_refl _ _ _ _ _ _ _ _ _ _ _ _); try first [done | by intros [|]].
Qed.

Lemma reached_inv b s g : reach b s g -> resumes b = true /\ inv hw_ba b None s g.
Proof.
  induction 1 as [size ids n nd s Hnd Hl Hn E | c fuel b s g tr r b' u s' _ [_ IH] Hc Hf Hr | c b s g s' _ [Hb IH] Hh].
  - split; [done | by eapply begin_inv].
  - exact (wp_runs _ _ _ _ (call_ends hw_ba c Hc fuel b s g IH Hf) Hr).
  - split; [done |]. eapply inv_aside; [done |]. intros hs. by apply happens_aside with c.
Qed.




End Reach.


(** ** A peer that falls silent *)

Section Silent.
Context (c : ctx).

Lemma traffic_fields s : let s' := core_conn_maintain_traffic c s in
  pt_keepalive s' = pt_keepalive s /\ keep_alive_timer s' = keep_alive_timer s /\ node s' = node s /\ msg_que s' = msg_que s.
Proof. cbn zeta. unfold core_conn_maintain_traffic. by destruct (negb _). Qed.

(** The second wait has passed: the connection is to be ended. *)
Lemma silent_send s hs m0 : que_is (msg_que s) hs -> Msg.pend (msg_que s) = [] -> m0 ∈ Msg.free (msg_que s) ->
  Msg.tag_of (msg_que s) m0 = WF_MLME_TAG_DEAUTH -> is_up c = true -> work_mode c = WF_INFRA_MODE ->
  pt_keepalive s = KWait2 -> expired c (keep_alive_timer s) = true -> rx_pkt_stat_last (node s) = rx_pkt_stat (node s) ->
  exists q m, core_conn_maintain_keepalive_thrd c (core_conn_maintain_traffic c s) =
      Ret (set_pt_keepalive KBegin (set_msg_que q (core_conn_maintain_traffic c s))) /\
    que_is q hs /\ tags_kept (msg_que s) q hs /\ Msg.pend q = [m] /\ Msg.tag_of q m = WF_MLME_TAG_DEAUTH /\
    Msg.value <$> Msg.store q !! m = Some (VRes true WF_80211_REASON_DEAUTH_LEAVING).
Proof.
  intros Hq Hp Hf Ht Hu Hw Hk He Hs. destruct (traffic_fields s) as (E1 & E2 & E3 & E4).
  set (s1 := core_conn_maintain_traffic c s) in *. unfold core_conn_maintain_keepalive_thrd. rewrite E1, E2, E3, Hk, He, Hs, Z.eqb_refl.
  cbn [negb]. unfold wf_mlme_deauth, wf_mlme_disconn. rewrite Hu, Hw, Z.eqb_refl. cbn [negb]. unfold mlme_msg_send. cbn [fmap option_fmap option_map fst snd].
  rewrite <- E4 in Hq, Hp, Hf, Ht.
  destruct (post_s WF_MLME_TAG_DEAUTH (Some RES_SIZE) (Some (VRes true WF_80211_REASON_DEAUTH_LEAVING)) (-3) (-4) s1 hs Hq) as
    [[_ Hno] | (q & m & E & Hq' & Hkeep & (a & b & Ha & Hb) & Htag & Hv)].
  - done.
  - intros x Hx Hv. eapply promise_res; [by rewrite Hx | by apply Hv].
  - by destruct (Hno m0 Hf).
  - rewrite E. cbn [cbind]. exists q, m. rewrite Hp in Ha. symmetry in Ha. apply app_eq_nil in Ha as [-> ->].
    rewrite E4 in Hkeep. split_and!; try done. by apply Hv.
Qed.

Abbreviation thread := (blocks (block c) (fun _ => tt)).
Abbreviation left_post := (fun (tr : list (ev * Z)) '(_, b', _, s') =>
  (exists frm z, (IndDisconnect frm, z) ∈ tr) /\ connect s' = false /\ pwdn_info s' = false /\ (b' = ClrWait \/ b' = LTop)).

(** A block, then the rest of the call. *)
Lemma thread_step fuel b l s Q : wp (block c b l s) (fun tr st =>
    match st with
    | (Goto b', l', s') => wp (thread fuel b' l' s') (fun tr' => Q (tr ++ tr'))
    | (Return r b', _, s') => Q tr (r, b', tt, s')
    end) -> wp (thread (S fuel) b l s) Q.
Proof.
  intros H. cbn [blocks]. apply wp_bind. eapply wp_mono, H. intros tr [[[b' | r b'] l'] s'] HQ; [done |]. cbn [wp]. by rewrite app_nil_r.
Qed.

(** From [conn_break] on. *)
Lemma break_leaves fuel m s : owns HConn s [m] -> que_is (msg_que s) [m] -> wp (thread (3 + fuel) Brk None s) left_post.
Proof.
  intros (_ & m' & [= <-] & Hp & Ht) Hq. apply thread_step. cbn [block]. unfold at_break. rewrite Hp.
  destruct (conn_value m s [m] Hq ltac:(constructor) Ht) as (f & bss & n & ->). cbn [lift ibind call wp]. intros r.
  assert (Hclr : forall s1, msg_que s1 = msg_que s -> pconn_msg s1 = Some m -> connect s1 = false -> pwdn_info s1 = false ->
            wp (thread (2 + fuel) ClrWait None s1) (fun _ '(_, b', _, s') => connect s' = false /\ pwdn_info s' = false /\ (b' = ClrWait \/ b' = LTop))).
  { intros s1 E1 E2 E3 E4. apply thread_step. cbn [block]. unfold at_clear. cbn [ibind call wp]. intros e. rewrite E2. cbn [del_ptr of_option cbind].
    rewrite <- E1 in Hq. destruct (del_head m s1 [] Hq (not_elem_of_nil m)) as (q & -> & _). destruct (nz e || expired c _); cbn [ibind lift wp goto wait].
    - split_and!; try done. by right.
    - split_and!; try done. by left. }
  cbn [pwdn_info set_num_tx_ok set_num_rx_ok set_busy_traffic set_connect]. destruct (pwdn_info s) eqn:En; cbn [ibind call wp goto]; intros;
    (eapply wp_mono; [| by apply Hclr]); intros tr [[[? ?] ?] ?] H; (split; [exists f, r; by left | exact H]).
Qed.

(** The connection and the reason to leave are not touched while the thread waits. *)
Lemma post_res t l v e1 e2 s r s' : post_msg t l v e1 e2 s = Ret (r, s') -> conn_res s' = conn_res s.
Proof.
  unfold post_msg. intros H. cinv H. destruct a as [[? [m |]] q]; [| by injection H as _ <-].
  cinv H. destruct a0 as [r0 q0]. destruct (nz r0); [cinv H; destruct a0 |]; by injection H as _ <-.
Qed.

Lemma keepalive_res s s' : core_conn_maintain_keepalive_thrd c (core_conn_maintain_traffic c s) = Ret s' -> conn_res s' = conn_res s.
Proof.
  assert (Hb : forall s0, conn_res (keepalive_begin c s0) = conn_res s0) by (intros s0; unfold keepalive_begin; by destruct (busy_traffic s0)).
  assert (Ht : conn_res (core_conn_maintain_traffic c s) = conn_res s) by (unfold core_conn_maintain_traffic; by destruct (negb _)).
  rewrite <- Ht. generalize (core_conn_maintain_traffic c s). clear s Ht. intros s. unfold core_conn_maintain_keepalive_thrd.
  destruct (pt_keepalive s); [by intros [= <-] | |]; (destruct (negb (expired c _)); [by intros [= <-] |]);
    (destruct (negb _); [by intros [= <-] |]); intros H; cinv H; destruct a as [r s1].
  - apply post_res in E. destruct (nz r); injection H as <-; [by rewrite Hb | exact E].
  - assert (E1 : conn_res s1 = conn_res s).
    { unfold wf_mlme_deauth, wf_mlme_disconn in E. destruct (negb _); [by injection E as _ <- |]. destruct (negb _); [by injection E as _ <- |].
      cinv E. destruct a as [r2 s2]. apply post_res in E0. by injection E as _ <-. }
    injection H as <-. destruct (nz r); [by rewrite Hb | exact E1].
Qed.

(** While the lock of the chip is refused the thread waits, for [n] more calls;
    the call that gets it tells the peer and leaves it. *)
Fixpoint leaving (n : nat) (mac : list Z) (tr : list (ev * Z)) (res : pt_ret * label * unit * mlme_info_t) : Prop :=
  let '(_, b', _, s') := res in
  match tr with
  | (HwTrylock, r) :: tr =>
      if nz r then
        b' = CMsg /\ pt_msg s' = MDeauth /\
        match n with
        | O => True
        | S n => forall c fuel, (18 < fuel)%nat -> wp (mlme_core_thrd c fuel CMsg s') (leaving n mac)
        end
      else (exists z, (DeauthXmit mac WF_80211_REASON_DEAUTH_LEAVING, z) ∈ tr) /\ (exists frm z, (IndDisconnect frm, z) ∈ tr) /\
        connect s' = false /\ pwdn_info s' = false /\ (b' = ClrWait \/ b' = LTop)
  | _ => False
  end.

Lemma deauth_leaves fuel m s Q : owns HConn s [m] -> que_is (msg_que s) [m] -> pt_msg s = MDeauth -> pwdn_info s = true -> fst (conn_res s) = true ->
  (forall r s', nz r = true -> aside [m] s s' -> conn_res s' = conn_res s -> Q [(HwTrylock, r)] (PT_YIELDED, CMsg, tt, s')) ->
  (forall tr res, leaving 0 (bssid (net s)) tr res -> (exists tr', tr = (HwTrylock, 0) :: tr') -> Q tr res) ->
  wp (thread (4 + fuel) CMsg None s) Q.
Proof.
  intros Ho Hq Em Hnd Hres Hwait Hleft. apply thread_step. cbn [block]. unfold at_msg. rewrite Em. unfold msg_deauth. rewrite Hnd, Hres.
  cbn [ibind call wp]. intros r. destruct (nz r) eqn:Er.
  - cbn [msg_waits goto wp]. apply thread_step. cbn [block]. unfold at_tick. set (s1 := set_pt_msg MDeauth s).
    assert (H0 : aside [m] s s1) by (split; try done; cbn; by rewrite ?Em).
    pose proof (traffic_aside c s1 [m] Hq) as H1. destruct (keepalive_aside c _ [m] (proj1 (as_que _ _ _ H1))) as (s' & E & H2).
    rewrite E. cbn [lift ibind wp yield app]. apply Hwait; [done | | by rewrite (keepalive_res _ _ E)].
    eapply aside_trans; [exact H0 |]. eapply aside_trans; eassumption.
  - assert (r = 0) as -> by (unfold nz in Er; by destruct (Z.eqb_spec r 0)). cbn [ibind call wp]. intros r1 r2 r3.
    assert (Hend : forall s1 r4, msg_que s1 = msg_que s -> pconn_msg s1 = pconn_msg s -> pscan_msg s1 = pscan_msg s ->
      wp (thread (3 + fuel) Brk None s1) (fun tr => Q
        ([(HwTrylock, 0); (Mcu (UserInfo false), r1); (DelBaRequest, r2); (DeauthXmit (bssid (net s)) WF_80211_REASON_DEAUTH_LEAVING, r3); (HwUnlock, r4)] ++ tr))).
    { intros s1 r4 E1 E2 E3. eapply wp_mono, (break_leaves fuel m s1).
      - intros tr [[[r' b'] u] s'] [(frm & z & Hi) H]. apply Hleft; [| by eexists]. cbn [leaving app nz Z.eqb negb]. split_and!; [| | apply H ..].
        + exists r3. do 2 right. by left.
        + exists frm, z. by do 4 right.
      - destruct Ho as (H1 & m' & H2 & H3 & H4). split; [by rewrite E3 |]. exists m'. unfold tag in *. by rewrite E1, E2.
      - by rewrite E1. }
    destruct (hw_ba_enable c); cbn [ibind call wp goto]; intros r4; by apply Hend.
Qed.

End Silent.

Lemma deauth_waits n : forall c fuel m s, owns HConn s [m] -> que_is (msg_que s) [m] -> pt_msg s = MDeauth -> pwdn_info s = true ->
  fst (conn_res s) = true -> wp (mlme_core_thrd c (4 + fuel) CMsg s) (leaving n (bssid (net s))).
Proof.
  induction n as [| n IH]; intros c fuel m s Ho Hq Em Hnd Hres; (apply (deauth_leaves c fuel m s); try done).
  - intros r s' Hr Ha Hc. cbn [leaving]. rewrite Hr. destruct (as_flags _ _ _ Ha) as (_ & _ & _ & E & _). by rewrite E.
  - intros r s' Hr Ha Hc. cbn [leaving]. rewrite Hr. destruct (as_flags _ _ _ Ha) as (F1 & _ & _ & F4 & _).
    destruct (as_ptr _ _ _ Ha) as (P1 & P2 & P3 & P4). split; [done |]. split; [by rewrite F4 |]. intros c' fuel' Hf.
    do 4 (destruct fuel' as [| fuel']; [lia |]). rewrite <- (as_net _ _ _ Ha).
    apply (IH c' fuel' m s'); [| apply (as_que _ _ _ Ha) | by rewrite F4 | by rewrite F1 | by rewrite Hc].
    apply (owns_kept HConn s); try done. apply (as_que _ _ _ Ha).
  - intros tr [[[r b'] u] s'] H [tr' ->]. exact H.
Qed.

(** The next call finds the message. *)
Lemma deauth_taken c fuel m k s n : owns HConn s [m] -> que_is (msg_que s) [m] -> pt_msg s = MPop -> pwdn_info s = true ->
  Msg.pend (msg_que s) = [k] -> Msg.tag_of (msg_que s) k = WF_MLME_TAG_DEAUTH ->
  Msg.value <$> Msg.store (msg_que s) !! k = Some (VRes true WF_80211_REASON_DEAUTH_LEAVING) ->
  wp (mlme_core_thrd c (5 + fuel) CMsg s) (leaving n (bssid (net s))).
Proof.
  intros Ho Hq Em Hnd Hp Ht Hv. unfold mlme_core_thrd. apply thread_step. cbn [block]. unfold at_msg. rewrite Em. pose proof Hq as [Hk Hi]. unfold pop.
  destruct (Typed.pop_ok _ _ Hk Hi) as [[Hp' _] | (k' & q & -> & Hk1 & Hi1 & Hn & Hd & Hp' & _)]; [by rewrite Hp in Hp' |].
  rewrite Hp in Hp'. injection Hp' as -> Hp'. cbn [cbind lift ibind]. unfold on_msg, tag. cbn [msg_que set_msg_que].
  rewrite (Msg.same_data_tag _ q k' Hd), Ht. change (WF_MLME_TAG_DEAUTH =? WF_MLME_TAG_SCAN) with false.
  change (WF_MLME_TAG_DEAUTH =? WF_MLME_TAG_KEEPALIVE) with false. change (is_disconn WF_MLME_TAG_DEAUTH) with true. cbn iota.
  destruct (Msg.store (msg_que s) !! k') as [x |] eqn:Ex; [| done]. injection Hv as Hv.
  destruct (Msg.same_data_lookup _ _ _ _ Hd Ex) as (y & Ey & _ & Evy & _). rewrite Hv in Evy.
  assert (Er : res_at k' (set_msg_que q s) = Ret (true, WF_80211_REASON_DEAUTH_LEAVING)).
  { unfold res_at, value_at, Msg.msg_at. cbn [msg_que set_msg_que]. rewrite Ey. cbn [of_option cbind]. by rewrite Evy. }
  rewrite Er. cbn [lift ibind].
  destruct (del_head k' (set_conn_res (true, WF_80211_REASON_DEAUTH_LEAVING) (set_msg_que q s)) [m] (conj Hk1 Hi1) Hn) as (q2 & -> & Hq2 & Hk2 & _).
  cbn [lift ibind msg_goes goto wp app].
  apply (deauth_waits n c fuel m (set_pt_msg MDeauth (set_state MLME_STATE_DEAUTH
    (set_msg_que q2 (set_conn_res (true, WF_80211_REASON_DEAUTH_LEAVING) (set_msg_que q s)))))); try done.
  apply (owns_kept _ s); try done. eapply tags_trans; [by apply tags_same | exact Hk2].
Qed.

(** C4: a connected peer from which nothing was received during both waits of
    the keep-alive is left.  In every reachable state in which the thread of the
    messages waits for one with none pending, a DEAUTH message is free, and the
    device is up as a station, the call that finds the second wait over and
    nothing received queues the request to leave, and the call after it, with
    nothing queued in between, sends the peer a deauthentication, tells the
    operating system and removes the node if it gets the lock of the chip; if it
    is refused the lock, the calls that follow it without other requests wait,
    for any number [n] of refusals, and the first one that gets it does so. *)
Theorem silent_peer_left (hw_ba : bool) (c1 c2 : ctx) (fuel : nat) (s : mlme_info_t) (g : world) (m0 : Z) (n : nat) :
  reach hw_ba CMsg s g -> (18 < fuel)%nat -> pt_msg s = MPop -> Msg.pend (msg_que s) = [] ->
  m0 ∈ Msg.free (msg_que s) -> Msg.tag_of (msg_que s) m0 = WF_MLME_TAG_DEAUTH -> is_up c1 = true -> work_mode c1 = WF_INFRA_MODE ->
  pt_keepalive s = KWait2 -> expired c1 (keep_alive_timer s) = true -> rx_pkt_stat_last (node s) = rx_pkt_stat (node s) ->
  exists s1, mlme_core_thrd c1 fuel CMsg s = iret (PT_YIELDED, CMsg, tt, s1) /\ wp (mlme_core_thrd c2 fuel CMsg s1) (leaving n (bssid (net s))).
Proof.
  intros Hr Hf Em Hp Hm0 Ht0 Hu Hw Hk He Hs. destruct (reached_inv hw_ba CMsg s g Hr) as [_ [H _]]. rewrite Em in H.
  destruct H as [(hs & Ho & Hq) _ _ Hnd _ _ _]. cbn in Ho, Hnd. pose proof Ho as (_ & m & -> & _).
  set (s0 := set_pt_msg MPop (set_msg_que (msg_que s) s)).
  destruct (silent_send c1 s0 [m] m0 Hq Hp Hm0 Ht0 Hu Hw Hk He Hs) as (q & k & E & Hq' & Hkeep & Hpk & Htk & Hvk).
  destruct fuel as [| [| fuel]]; [lia | lia |]. eexists. split.
  - unfold mlme_core_thrd. cbn [blocks block]. unfold at_msg. rewrite Em. destruct (pop_s s [m] Hq) as [[_ ->] | (z & ? & ? & _ & _ & _ & _ & _ & _ & _ & Hz)]; [| by rewrite Hp in Hz].
    cbn [lift ibind msg_waits goto blocks block]. unfold at_tick. fold s0. rewrite E. cbn [lift ibind yield]. reflexivity.
  - do 3 (destruct fuel as [| fuel]; [lia |]). destruct (as_flags _ _ _ (traffic_aside c1 s0 [m] Hq)) as (F1 & _ & _ & F4 & _).
    destruct (as_ptr _ _ _ (traffic_aside c1 s0 [m] Hq)) as (P1 & P2 & P3 & P4). pose proof (as_net _ _ _ (traffic_aside c1 s0 [m] Hq)) as En.
    set (s1 := set_pt_keepalive KBegin (set_msg_que q (core_conn_maintain_traffic c1 s0))).
    assert (E1 : bssid (net s) = bssid (net s1)) by (unfold s1; cbn [net set_pt_keepalive set_msg_que]; by rewrite En). rewrite E1.
    apply (deauth_taken c2 fuel m k s1 n); unfold s1; cbn [msg_que set_pt_keepalive set_msg_que pt_msg pwdn_info]; try done; [| by rewrite F1].
    by apply (owns_kept HConn s0).
Qed.

(** ** Concrete runs *)
Module Examples.
Definition ex_node : node_t :=
  mk_node (Wi.set_ssid (replicate 32 0) Wi.zero) 0 0 false (replicate 16 (false, 0)) (replicate 16 false).
Definition ex_ctx (t : Z) : ctx := mk_ctx t true WF_INFRA_MODE false false ex_node true false (fun x => x) (replicate 33 170).
Definition ex_ids : list Z := map Z.of_nat (seq 1 52).

Lemma ex_ctx_ok t : ctx_ok true (ex_ctx t).
Proof. split; [done | by split; vm_compute | done]. Qed.

(** A label, the state and what is known. *)
Record point : Type := mk_point { bl : label; st : mlme_info_t; wd : world }.
Definition ok (x : point) : Prop := reach true (bl x) (st x) (wd x).

Definition start_of (ids : list Z) (n : network) (nd : node_t) : option point :=
  match wf_mlme_init (fun _ => 0) (map Some ids) true n nd with
  | Ret (0, s) => Some (mk_point LTop s world0)
  | _ => None
  end.
Definition start : option point := start_of ex_ids MlmeNet.Examples.ex_net ex_node.
Definition go (t : Z) (ans : list Z) (x : point) : option point :=
  match exec (mlme_core_thrd (ex_ctx t) 19 (bl x) (st x)) ans with
  | Some (tr, (_, b, _, s)) => Some (mk_point b s (after track tr (wd x)))
  | None => None
  end.
Definition asked (x : point) : option point :=
  match wf_mlme_conn_start (ex_ctx 0) (replicate 6 0) zero_ssid 0 true (st x) with
  | Ret (_, s) => Some (mk_point (bl x) s (wd x))
  | _ => None
  end.
Definition answered (x : point) : option point :=
  match wf_mlme_conn_scan_rsp (ex_ctx 0) true MlmeNet.Examples.ex_frame (st x) with
  | Ret (_, s) => Some (mk_point (bl x) s (wd x))
  | _ => None
  end.

Lemma start_of_ok ids n nd x : NoDup ids -> length ids = 52%nat -> length (ies n) = Z.to_nat WF_80211_IES_SIZE_MAX ->
  start_of ids n nd = Some x -> ok x.
Proof.
  intros H1 H2 H3. unfold start_of. destruct (wf_mlme_init _ _ _ _ _) as [[[] s] | |] eqn:E; try discriminate. intros [= <-].
  exact (r_init true _ ids _ _ _ H1 H2 H3 E).
Qed.
Lemma start_ok x : start = Some x -> ok x.
Proof. apply start_of_ok; [apply (bool_decide_unpack _); by vm_compute | by vm_compute | by vm_compute]. Qed.
Lemma step_ok t ans x x' : ok x -> go t ans x = Some x' -> ok x'.
Proof.
  unfold go. intros Hx. destruct (exec _ ans) as [[tr [[[r b] u] s]] |] eqn:E; [| done]. intros [= <-].
  eapply (r_call true (ex_ctx t) 19); [exact Hx | apply ex_ctx_ok | lia | exact (exec_runs _ _ _ _ E)].
Qed.
Lemma asked_ok x x' : ok x -> asked x = Some x' -> ok x'.
Proof.
  unfold asked. intros Hx. destruct (wf_mlme_conn_start _ _ _ _ _ _) as [[r s] | |] eqn:E; try discriminate. intros [= <-].
  eapply (r_happens true (ex_ctx 0)); [exact Hx |]. refine (h_conn_start _ _ _ (replicate 6 0) zero_ssid 0 _ _ E). split; [split; by vm_compute | done].
Qed.
Lemma answered_ok x x' : ok x -> answered x = Some x' -> ok x'.
Proof.
  unfold answered. intros Hx. destruct (wf_mlme_conn_scan_rsp _ _ _ _) as [[r s] | |] eqn:E; try discriminate. intros [= <-].
  eapply (r_happens true (ex_ctx 0)); [exact Hx |]. eapply h_scan_rsp; [apply MlmeNet.Examples.ex_answer | cbn; lia | exact E].
Qed.

(** Each step leads from a reachable point to a reachable point. *)
Definition keeps_ok (f : point -> option point) : Prop := forall x x', ok x -> f x = Some x' -> ok x'.
Definition after_all (fs : list (point -> option point)) : option point :=
  fold_left (fun o f => match o with Some x => f x | None => None end) fs start.
Lemma after_all_ok fs x : Forall keeps_ok fs -> after_all fs = Some x -> ok x.
Proof.
  intros Hfs. unfold after_all. assert (Hs : forall x, start = Some x -> ok x) by apply start_ok. revert Hs.
  generalize start. induction Hfs as [| f fs Hf _ IH]; intros o Ho; cbn [fold_left]; [apply Ho |].
  apply IH. intros y Hy. destruct o as [z |]; [| done]. eapply Hf, Hy. by apply Ho.
Qed.

(** The connection is asked for, the network answers, and the station has
    authenticated; then it is associated; then the peer falls silent. *)
Definition to_assoc : list (point -> option point) :=
  [asked; go 0 [0; 1]; answered; go 0 [1; 0; 0; 1; 0; 0; 0; 0; 0; 0; 0; 0; 0; 0; 0; 0; 1]; go 0 [0; TAG_DONE; 0; 1]].
Definition to_silent : list (point -> option point) :=
  to_assoc ++ [go 0 [0; TAG_DONE]; go 1 []; go 10002 []; go 10003 [0; 1]].

Definition blank : point := mk_point LTop (zero_info MlmeNet.Examples.ex_net ex_node) world0.
Definition ex_silent : point := default blank (after_all to_silent).

Lemma steps_ok : Forall keeps_ok to_silent.
Proof.
  unfold to_silent, to_assoc. cbn [app]. repeat (apply Forall_cons_2; [first [exact asked_ok | exact answered_ok | intros x x'; apply step_ok] |]). constructor.
Qed.
Lemma ex_silent_ok : ok ex_silent.
Proof.
  unfold ex_silent. destruct (after_all to_silent) as [x |] eqn:E; [| by vm_compute in E]. exact (after_all_ok to_silent x steps_ok E).
Qed.


Lemma silent_peer_left_witness :
  exists s1, mlme_core_thrd (ex_ctx 20004) 19 CMsg (st ex_silent) = iret (PT_YIELDED, CMsg, tt, s1) /\
    wp (mlme_core_thrd (ex_ctx 20005) 19 CMsg s1) (leaving 100 (bssid (net (st ex_silent)))).
Proof.
  refine (silent_peer_left true (ex_ctx 20004) (ex_ctx 20005) 19 (st ex_silent) (wd ex_silent) 5 100 _ _ _ _ _ _ _ _ _ _ _).
  - assert (E : bl ex_silent = CMsg) by (by vm_compute). rewrite <- E. exact ex_silent_ok.
  - lia.
  - by vm_compute.
  - by vm_compute.
  - assert (E : bool_decide (5 ∈ Msg.free (msg_que (st ex_silent))) = true) by (by vm_compute). exact (bool_decide_eq_true_1 _ E).
  - by vm_compute.
  - done.
  - done.
  - by vm_compute.
  - by vm_compute.
  - by vm_compute.
Defined.

(** A queue in which the request to leave is the only one pending. *)
Definition ex_adhoc (t : Z) : ctx := mk_ctx t true WF_ADHOC_MODE false false ex_node true false (fun x => x) (replicate 33 170).
Definition ex_joined : mlme_info_t := st (default blank start).
Definition ex_leave : mlme_info_t :=
  match mlme_msg_send WF_MLME_TAG_IBSS_LEAVE None ex_joined with Ret (_, s) => s | _ => ex_joined end.

Lemma ex_leave_inv : Msg.qinv (msg_que ex_leave) [].
Proof.
  assert (Hi : ok (default blank start)).
  { destruct start as [x |] eqn:E; [by apply start_ok | by vm_compute in E]. }
  destruct (reached_inv _ _ _ _ Hi) as [_ [H _]]. assert (Eb : bl (default blank start) = LTop) by (by vm_compute). rewrite Eb in H.
  destruct H as [(hs & Ho & Hq) _ _ _ _ _ _]. destruct Ho as (-> & _ & _). fold ex_joined in Hq. unfold ex_leave.
  assert (Hp : forall x, Msg.tag x = WF_MLME_TAG_IBSS_LEAVE -> promised x).
  { intros x Hx. split; rewrite Hx; intros E; vm_compute in E; discriminate E. }
  destruct (post_aside WF_MLME_TAG_IBSS_LEAVE None None (-3) (-4) ex_joined [] Hq) as (r & s' & E & Ha); [done | by intros x Hx _; apply Hp |].
  unfold mlme_msg_send. cbn [fmap option_fmap option_map]. rewrite E. apply (as_que _ _ _ Ha).
Qed.

Lemma ibss_leave_hangs_witness : ~ exists tr res, runs (mlme_core_thrd (ex_adhoc 0) 19 IbMaint ex_leave) tr res.
Proof.
  intros (tr & res & Hr). revert Hr.
  refine (ibss_leave_hangs (ex_adhoc 0) 19 ex_leave [] 50 [] eq_refl eq_refl eq_refl ex_leave_inv _ _ _ tr res).
  - by vm_compute.
  - by vm_compute.
  - by vm_compute.
Defined.
End Examples.
End MlmeReach.
