(* ===== verification/TxTypes.v ===== *)
(** * Frames to transmit ([nic/tx.h], [nic/tx.c])

    [struct xmit_frame] with the fields the default build uses, the part of
    the device's state the transmit code reads, and the constants. *)
From S2P Require Import Prelude SecTypes WdnTypes Wdn.

Module Xf.
(** [struct xmit_frame].  [pwdn] is the address of a node, [pkt] of the packet
    of the operating system, [pxmitbuf] and [buf_addr] of a transmit buffer and
    of its [pbuf], [pwlanhdr] the offset of the header from [buf_addr]. *)
Record xmit_frame : Type := mk_frame {
  ether_type : Z;
  bmcast : bool;
  dhcp_pkt : Z;
  seqnum : Z;
  pkt_hdrlen : Z;
  hdrlen : Z;
  pktlen : Z;
  last_txcmdsz : Z;
  nr_frags : Z;
  encrypt_algo : Z;
  bswenc : bool;
  iv_len : Z;
  icv_len : Z;
  iv : list Z;
  priority : Z;
  qsel : Z;
  ampdu_en : bool;
  vcs_mode : Z;
  key_idx : Z;
  ht_en : Z;
  dot11tkiptxmickey : list Z;
  dot118021x_UncstKey : list Z;
  pwlanhdr : option Z;
  pwdn : option Z;
  pkt : option Z;
  frame_tag : Z;
  buf_addr : option Z;
  pxmitbuf : option Z;
  agg_num : Z;
  pkt_offset : Z;
  frame_id : Z;
}.

Definition set_ether_type (v : Z) (r : xmit_frame) : xmit_frame :=
  mk_frame v (bmcast r) (dhcp_pkt r) (seqnum r) (pkt_hdrlen r) (hdrlen r) (pktlen r)
    (last_txcmdsz r) (nr_frags r) (encrypt_algo r) (bswenc r) (iv_len r) (icv_len r) (iv r)
    (priority r) (qsel r) (ampdu_en r) (vcs_mode r) (key_idx r) (ht_en r)
    (dot11tkiptxmickey r) (dot118021x_UncstKey r) (pwlanhdr r) (pwdn r) (pkt r)
    (frame_tag r) (buf_addr r) (pxmitbuf r) (agg_num r) (pkt_offset r) (frame_id r).
Definition set_bmcast (v : bool) (r : xmit_frame) : xmit_frame :=
  mk_frame (ether_type r) v (dhcp_pkt r) (seqnum r) (pkt_hdrlen r) (hdrlen r) (pktlen r)
    (last_txcmdsz r) (nr_frags r) (encrypt_algo r) (bswenc r) (iv_len r) (icv_len r) (iv r)
    (priority r) (qsel r) (ampdu_en r) (vcs_mode r) (key_idx r) (ht_en r)
    (dot11tkiptxmickey r) (dot118021x_UncstKey r) (pwlanhdr r) (pwdn r) (pkt r)
    (frame_tag r) (buf_addr r) (pxmitbuf r) (agg_num r) (pkt_offset r) (frame_id r).
Definition set_dhcp_pkt (v : Z) (r : xmit_frame) : xmit_frame :=
  mk_frame (ether_type r) (bmcast r) v (seqnum r) (pkt_hdrlen r) (hdrlen r) (pktlen r)
    (last_txcmdsz r) (nr_frags r) (encrypt_algo r) (bswenc r) (iv_len r) (icv_len r) (iv r)
    (priority r) (qsel r) (ampdu_en r) (vcs_mode r) (key_idx r) (ht_en r)
    (dot11tkiptxmickey r) (dot118021x_UncstKey r) (pwlanhdr r) (pwdn r) (pkt r)
    (frame_tag r) (buf_addr r) (pxmitbuf r) (agg_num r) (pkt_offset r) (frame_id r).
Definition set_seqnum (v : Z) (r : xmit_frame) : xmit_frame :=
  mk_frame (ether_type r) (bmcast r) (dhcp_pkt r) v (pkt_hdrlen r) (hdrlen r) (pktlen r)
    (last_txcmdsz r) (nr_frags r) (encrypt_algo r) (bswenc r) (iv_len r) (icv_len r) (iv r)
    (priority r) (qsel r) (ampdu_en r) (vcs_mode r) (key_idx r) (ht_en r)
    (dot11tkiptxmickey r) (dot118021x_UncstKey r) (pwlanhdr r) (pwdn r) (pkt r)
    (frame_tag r) (buf_addr r) (pxmitbuf r) (agg_num r) (pkt_offset r) (frame_id r).
Definition set_pkt_hdrlen (v : Z) (r : xmit_frame) : xmit_frame :=
  mk_frame (ether_type r) (bmcast r) (dhcp_pkt r) (seqnum r) v (hdrlen r) (pktlen r)
    (last_txcmdsz r) (nr_frags r) (encrypt_algo r) (bswenc r) (iv_len r) (icv_len r) (iv r)
    (priority r) (qsel r) (ampdu_en r) (vcs_mode r) (key_idx r) (ht_en r)
    (dot11tkiptxmickey r) (dot118021x_UncstKey r) (pwlanhdr r) (pwdn r) (pkt r)
    (frame_tag r) (buf_addr r) (pxmitbuf r) (agg_num r) (pkt_offset r) (frame_id r).
Definition set_hdrlen (v : Z) (r : xmit_frame) : xmit_frame :=
  mk_frame (ether_type r) (bmcast r) (dhcp_pkt r) (seqnum r) (pkt_hdrlen r) v (pktlen r)
    (last_txcmdsz r) (nr_frags r) (encrypt_algo r) (bswenc r) (iv_len r) (icv_len r) (iv r)
    (priority r) (qsel r) (ampdu_en r) (vcs_mode r) (key_idx r) (ht_en r)
    (dot11tkiptxmickey r) (dot118021x_UncstKey r) (pwlanhdr r) (pwdn r) (pkt r)
    (frame_tag r) (buf_addr r) (pxmitbuf r) (agg_num r) (pkt_offset r) (frame_id r).
Definition set_pktlen (v : Z) (r : xmit_frame) : xmit_frame :=
  mk_frame (ether_type r) (bmcast r) (dhcp_pkt r) (seqnum r) (pkt_hdrlen r) (hdrlen r) v
    (last_txcmdsz r) (nr_frags r) (encrypt_algo r) (bswenc r) (iv_len r) (icv_len r) (iv r)
    (priority r) (qsel r) (ampdu_en r) (vcs_mode r) (key_idx r) (ht_en r)
    (dot11tkiptxmickey r) (dot118021x_UncstKey r) (pwlanhdr r) (pwdn r) (pkt r)
    (frame_tag r) (buf_addr r) (pxmitbuf r) (agg_num r) (pkt_offset r) (frame_id r).
Definition set_last_txcmdsz (v : Z) (r : xmit_frame) : xmit_frame :=
  mk_frame (ether_type r) (bmcast r) (dhcp_pkt r) (seqnum r) (pkt_hdrlen r) (hdrlen r)
    (pktlen r) v (nr_frags r) (encrypt_algo r) (bswenc r) (iv_len r) (icv_len r) (iv r)
    (priority r) (qsel r) (ampdu_en r) (vcs_mode r) (key_idx r) (ht_en r)
    (dot11tkiptxmickey r) (dot118021x_UncstKey r) (pwlanhdr r) (pwdn r) (pkt r)
    (frame_tag r) (buf_addr r) (pxmitbuf r) (agg_num r) (pkt_offset r) (frame_id r).
Definition set_nr_frags (v : Z) (r : xmit_frame) : xmit_frame :=
  mk_frame (ether_type r) (bmcast r) (dhcp_pkt r) (seqnum r) (pkt_hdrlen r) (hdrlen r)
    (pktlen r) (last_txcmdsz r) v (encrypt_algo r) (bswenc r) (iv_len r) (icv_len r) (iv r)
    (priority r) (qsel r) (ampdu_en r) (vcs_mode r) (key_idx r) (ht_en r)
    (dot11tkiptxmickey r) (dot118021x_UncstKey r) (pwlanhdr r) (pwdn r) (pkt r)
    (frame_tag r) (buf_addr r) (pxmitbuf r) (agg_num r) (pkt_offset r) (frame_id r).
Definition set_encrypt_algo (v : Z) (r : xmit_frame) : xmit_frame :=
  mk_frame (ether_type r) (bmcast r) (dhcp_pkt r) (seqnum r) (pkt_hdrlen r) (hdrlen r)
    (pktlen r) (last_txcmdsz r) (nr_frags r) v (bswenc r) (iv_len r) (icv_len r) (iv r)
    (priority r) (qsel r) (ampdu_en r) (vcs_mode r) (key_idx r) (ht_en r)
    (dot11tkiptxmickey r) (dot118021x_UncstKey r) (pwlanhdr r) (pwdn r) (pkt r)
    (frame_tag r) (buf_addr r) (pxmitbuf r) (agg_num r) (pkt_offset r) (frame_id r).
Definition set_bswenc (v : bool) (r : xmit_frame) : xmit_frame :=
  mk_frame (ether_type r) (bmcast r) (dhcp_pkt r) (seqnum r) (pkt_hdrlen r) (hdrlen r)
    (pktlen r) (last_txcmdsz r) (nr_frags r) (encrypt_algo r) v (iv_len r) (icv_len r)
    (iv r) (priority r) (qsel r) (ampdu_en r) (vcs_mode r) (key_idx r) (ht_en r)
    (dot11tkiptxmickey r) (dot118021x_UncstKey r) (pwlanhdr r) (pwdn r) (pkt r)
    (frame_tag r) (buf_addr r) (pxmitbuf r) (agg_num r) (pkt_offset r) (frame_id r).
Definition set_iv_len (v : Z) (r : xmit_frame) : xmit_frame :=
  mk_frame (ether_type r) (bmcast r) (dhcp_pkt r) (seqnum r) (pkt_hdrlen r) (hdrlen r)
    (pktlen r) (last_txcmdsz r) (nr_frags r) (encrypt_algo r) (bswenc r) v (icv_len r)
    (iv r) (priority r) (qsel r) (ampdu_en r) (vcs_mode r) (key_idx r) (ht_en r)
    (dot11tkiptxmickey r) (dot118021x_UncstKey r) (pwlanhdr r) (pwdn r) (pkt r)
    (frame_tag r) (buf_addr r) (pxmitbuf r) (agg_num r) (pkt_offset r) (frame_id r).
Definition set_icv_len (v : Z) (r : xmit_frame) : xmit_frame :=
  mk_frame (ether_type r) (bmcast r) (dhcp_pkt r) (seqnum r) (pkt_hdrlen r) (hdrlen r)
    (pktlen r) (last_txcmdsz r) (nr_frags r) (encrypt_algo r) (bswenc r) (iv_len r) v (iv r)
    (priority r) (qsel r) (ampdu_en r) (vcs_mode r) (key_idx r) (ht_en r)
    (dot11tkiptxmickey r) (dot118021x_UncstKey r) (pwlanhdr r) (pwdn r) (pkt r)
    (frame_tag r) (buf_addr r) (pxmitbuf r) (agg_num r) (pkt_offset r) (frame_id r).
Definition set_iv (v : list Z) (r : xmit_frame) : xmit_frame :=
  mk_frame (ether_type r) (bmcast r) (dhcp_pkt r) (seqnum r) (pkt_hdrlen r) (hdrlen r)
    (pktlen r) (last_txcmdsz r) (nr_frags r) (encrypt_algo r) (bswenc r) (iv_len r)
    (icv_len r) v (priority r) (qsel r) (ampdu_en r) (vcs_mode r) (key_idx r) (ht_en r)
    (dot11tkiptxmickey r) (dot118021x_UncstKey r) (pwlanhdr r) (pwdn r) (pkt r)
    (frame_tag r) (buf_addr r) (pxmitbuf r) (agg_num r) (pkt_offset r) (frame_id r).
Definition set_priority (v : Z) (r : xmit_frame) : xmit_frame :=
  mk_frame (ether_type r) (bmcast r) (dhcp_pkt r) (seqnum r) (pkt_hdrlen r) (hdrlen r)
    (pktlen r) (last_txcmdsz r) (nr_frags r) (encrypt_algo r) (bswenc r) (iv_len r)
    (icv_len r) (iv r) v (qsel r) (ampdu_en r) (vcs_mode r) (key_idx r) (ht_en r)
    (dot11tkiptxmickey r) (dot118021x_UncstKey r) (pwlanhdr r) (pwdn r) (pkt r)
    (frame_tag r) (buf_addr r) (pxmitbuf r) (agg_num r) (pkt_offset r) (frame_id r).
Definition set_qsel (v : Z) (r : xmit_frame) : xmit_frame :=
  mk_frame (ether_type r) (bmcast r) (dhcp_pkt r) (seqnum r) (pkt_hdrlen r) (hdrlen r)
    (pktlen r) (last_txcmdsz r) (nr_frags r) (encrypt_algo r) (bswenc r) (iv_len r)
    (icv_len r) (iv r) (priority r) v (ampdu_en r) (vcs_mode r) (key_idx r) (ht_en r)
    (dot11tkiptxmickey r) (dot118021x_UncstKey r) (pwlanhdr r) (pwdn r) (pkt r)
    (frame_tag r) (buf_addr r) (pxmitbuf r) (agg_num r) (pkt_offset r) (frame_id r).
Definition set_ampdu_en (v : bool) (r : xmit_frame) : xmit_frame :=
  mk_frame (ether_type r) (bmcast r) (dhcp_pkt r) (seqnum r) (pkt_hdrlen r) (hdrlen r)
    (pktlen r) (last_txcmdsz r) (nr_frags r) (encrypt_algo r) (bswenc r) (iv_len r)
    (icv_len r) (iv r) (priority r) (qsel r) v (vcs_mode r) (key_idx r) (ht_en r)
    (dot11tkiptxmickey r) (dot118021x_UncstKey r) (pwlanhdr r) (pwdn r) (pkt r)
    (frame_tag r) (buf_addr r) (pxmitbuf r) (agg_num r) (pkt_offset r) (frame_id r).
Definition set_vcs_mode (v : Z) (r : xmit_frame) : xmit_frame :=
  mk_frame (ether_type r) (bmcast r) (dhcp_pkt r) (seqnum r) (pkt_hdrlen r) (hdrlen r)
    (pktlen r) (last_txcmdsz r) (nr_frags r) (encrypt_algo r) (bswenc r) (iv_len r)
    (icv_len r) (iv r) (priority r) (qsel r) (ampdu_en r) v (key_idx r) (ht_en r)
    (dot11tkiptxmickey r) (dot118021x_UncstKey r) (pwlanhdr r) (pwdn r) (pkt r)
    (frame_tag r) (buf_addr r) (pxmitbuf r) (agg_num r) (pkt_offset r) (frame_id r).
Definition set_key_idx (v : Z) (r : xmit_frame) : xmit_frame :=
  mk_frame (ether_type r) (bmcast r) (dhcp_pkt r) (seqnum r) (pkt_hdrlen r) (hdrlen r)
    (pktlen r) (last_txcmdsz r) (nr_frags r) (encrypt_algo r) (bswenc r) (iv_len r)
    (icv_len r) (iv r) (priority r) (qsel r) (ampdu_en r) (vcs_mode r) v (ht_en r)
    (dot11tkiptxmickey r) (dot118021x_UncstKey r) (pwlanhdr r) (pwdn r) (pkt r)
    (frame_tag r) (buf_addr r) (pxmitbuf r) (agg_num r) (pkt_offset r) (frame_id r).
Definition set_ht_en (v : Z) (r : xmit_frame) : xmit_frame :=
  mk_frame (ether_type r) (bmcast r) (dhcp_pkt r) (seqnum r) (pkt_hdrlen r) (hdrlen r)
    (pktlen r) (last_txcmdsz r) (nr_frags r) (encrypt_algo r) (bswenc r) (iv_len r)
    (icv_len r) (iv r) (priority r) (qsel r) (ampdu_en r) (vcs_mode r) (key_idx r) v
    (dot11tkiptxmickey r) (dot118021x_UncstKey r) (pwlanhdr r) (pwdn r) (pkt r)
    (frame_tag r) (buf_addr r) (pxmitbuf r) (agg_num r) (pkt_offset r) (frame_id r).
Definition set_dot11tkiptxmickey (v : list Z) (r : xmit_frame) : xmit_frame :=
  mk_frame (ether_type r) (bmcast r) (dhcp_pkt r) (seqnum r) (pkt_hdrlen r) (hdrlen r)
    (pktlen r) (last_txcmdsz r) (nr_frags r) (encrypt_algo r) (bswenc r) (iv_len r)
    (icv_len r) (iv r) (priority r) (qsel r) (ampdu_en r) (vcs_mode r) (key_idx r) (ht_en r)
    v (dot118021x_UncstKey r) (pwlanhdr r) (pwdn r) (pkt r) (frame_tag r) (buf_addr r)
    (pxmitbuf r) (agg_num r) (pkt_offset r) (frame_id r).
Definition set_dot118021x_UncstKey (v : list Z) (r : xmit_frame) : xmit_frame :=
  mk_frame (ether_type r) (bmcast r) (dhcp_pkt r) (seqnum r) (pkt_hdrlen r) (hdrlen r)
    (pktlen r) (last_txcmdsz r) (nr_frags r) (encrypt_algo r) (bswenc r) (iv_len r)
    (icv_len r) (iv r) (priority r) (qsel r) (ampdu_en r) (vcs_mode r) (key_idx r) (ht_en r)
    (dot11tkiptxmickey r) v (pwlanhdr r) (pwdn r) (pkt r) (frame_tag r) (buf_addr r)
    (pxmitbuf r) (agg_num r) (pkt_offset r) (frame_id r).
Definition set_pwlanhdr (v : option Z) (r : xmit_frame) : xmit_frame :=
  mk_frame (ether_type r) (bmcast r) (dhcp_pkt r) (seqnum r) (pkt_hdrlen r) (hdrlen r)
    (pktlen r) (last_txcmdsz r) (nr_frags r) (encrypt_algo r) (bswenc r) (iv_len r)
    (icv_len r) (iv r) (priority r) (qsel r) (ampdu_en r) (vcs_mode r) (key_idx r) (ht_en r)
    (dot11tkiptxmickey r) (dot118021x_UncstKey r) v (pwdn r) (pkt r) (frame_tag r)
    (buf_addr r) (pxmitbuf r) (agg_num r) (pkt_offset r) (frame_id r).
Definition set_pwdn (v : option Z) (r : xmit_frame) : xmit_frame :=
  mk_frame (ether_type r) (bmcast r) (dhcp_pkt r) (seqnum r) (pkt_hdrlen r) (hdrlen r)
    (pktlen r) (last_txcmdsz r) (nr_frags r) (encrypt_algo r) (bswenc r) (iv_len r)
    (icv_len r) (iv r) (priority r) (qsel r) (ampdu_en r) (vcs_mode r) (key_idx r) (ht_en r)
    (dot11tkiptxmickey r) (dot118021x_UncstKey r) (pwlanhdr r) v (pkt r) (frame_tag r)
    (buf_addr r) (pxmitbuf r) (agg_num r) (pkt_offset r) (frame_id r).
Definition set_pkt (v : option Z) (r : xmit_frame) : xmit_frame :=
  mk_frame (ether_type r) (bmcast r) (dhcp_pkt r) (seqnum r) (pkt_hdrlen r) (hdrlen r)
    (pktlen r) (last_txcmdsz r) (nr_frags r) (encrypt_algo r) (bswenc r) (iv_len r)
    (icv_len r) (iv r) (priority r) (qsel r) (ampdu_en r) (vcs_mode r) (key_idx r) (ht_en r)
    (dot11tkiptxmickey r) (dot118021x_UncstKey r) (pwlanhdr r) (pwdn r) v (frame_tag r)
    (buf_addr r) (pxmitbuf r) (agg_num r) (pkt_offset r) (frame_id r).
Definition set_frame_tag (v : Z) (r : xmit_frame) : xmit_frame :=
  mk_frame (ether_type r) (bmcast r) (dhcp_pkt r) (seqnum r) (pkt_hdrlen r) (hdrlen r)
    (pktlen r) (last_txcmdsz r) (nr_frags r) (encrypt_algo r) (bswenc r) (iv_len r)
    (icv_len r) (iv r) (priority r) (qsel r) (ampdu_en r) (vcs_mode r) (key_idx r) (ht_en r)
    (dot11tkiptxmickey r) (dot118021x_UncstKey r) (pwlanhdr r) (pwdn r) (pkt r) v
    (buf_addr r) (pxmitbuf r) (agg_num r) (pkt_offset r) (frame_id r).
Definition set_buf_addr (v : option Z) (r : xmit_frame) : xmit_frame :=
  mk_frame (ether_type r) (bmcast r) (dhcp_pkt r) (seqnum r) (pkt_hdrlen r) (hdrlen r)
    (pktlen r) (last_txcmdsz r) (nr_frags r) (encrypt_algo r) (bswenc r) (iv_len r)
    (icv_len r) (iv r) (priority r) (qsel r) (ampdu_en r) (vcs_mode r) (key_idx r) (ht_en r)
    (dot11tkiptxmickey r) (dot118021x_UncstKey r) (pwlanhdr r) (pwdn r) (pkt r)
    (frame_tag r) v (pxmitbuf r) (agg_num r) (pkt_offset r) (frame_id r).
Definition set_pxmitbuf (v : option Z) (r : xmit_frame) : xmit_frame :=
  mk_frame (ether_type r) (bmcast r) (dhcp_pkt r) (seqnum r) (pkt_hdrlen r) (hdrlen r)
    (pktlen r) (last_txcmdsz r) (nr_frags r) (encrypt_algo r) (bswenc r) (iv_len r)
    (icv_len r) (iv r) (priority r) (qsel r) (ampdu_en r) (vcs_mode r) (key_idx r) (ht_en r)
    (dot11tkiptxmickey r) (dot118021x_UncstKey r) (pwlanhdr r) (pwdn r) (pkt r)
    (frame_tag r) (buf_addr r) v (agg_num r) (pkt_offset r) (frame_id r).
Definition set_agg_num (v : Z) (r : xmit_frame) : xmit_frame :=
  mk_frame (ether_type r) (bmcast r) (dhcp_pkt r) (seqnum r) (pkt_hdrlen r) (hdrlen r)
    (pktlen r) (last_txcmdsz r) (nr_frags r) (encrypt_algo r) (bswenc r) (iv_len r)
    (icv_len r) (iv r) (priority r) (qsel r) (ampdu_en r) (vcs_mode r) (key_idx r) (ht_en r)
    (dot11tkiptxmickey r) (dot118021x_UncstKey r) (pwlanhdr r) (pwdn r) (pkt r)
    (frame_tag r) (buf_addr r) (pxmitbuf r) v (pkt_offset r) (frame_id r).
Definition set_pkt_offset (v : Z) (r : xmit_frame) : xmit_frame :=
  mk_frame (ether_type r) (bmcast r) (dhcp_pkt r) (seqnum r) (pkt_hdrlen r) (hdrlen r)
    (pktlen r) (last_txcmdsz r) (nr_frags r) (encrypt_algo r) (bswenc r) (iv_len r)
    (icv_len r) (iv r) (priority r) (qsel r) (ampdu_en r) (vcs_mode r) (key_idx r) (ht_en r)
    (dot11tkiptxmickey r) (dot118021x_UncstKey r) (pwlanhdr r) (pwdn r) (pkt r)
    (frame_tag r) (buf_addr r) (pxmitbuf r) (agg_num r) v (frame_id r).
Definition set_frame_id (v : Z) (r : xmit_frame) : xmit_frame :=
  mk_frame (ether_type r) (bmcast r) (dhcp_pkt r) (seqnum r) (pkt_hdrlen r) (hdrlen r)
    (pktlen r) (last_txcmdsz r) (nr_frags r) (encrypt_algo r) (bswenc r) (iv_len r)
    (icv_len r) (iv r) (priority r) (qsel r) (ampdu_en r) (vcs_mode r) (key_idx r) (ht_en r)
    (dot11tkiptxmickey r) (dot118021x_UncstKey r) (pwlanhdr r) (pwdn r) (pkt r)
    (frame_tag r) (buf_addr r) (pxmitbuf r) (agg_num r) (pkt_offset r) v.

(** The frame after [memset]. *)
Definition zero : xmit_frame :=
  mk_frame 0 false 0 0 0 0 0 0 0 0 false 0 0 (replicate 18 0) 0 0 false 0 0 0
    (replicate 16 0) (replicate 16 0) None None None 0 None None 0 0 0.
End Xf.

(** The view of a frame that the encryption code has; [addr2] is the address
    in the header [pwlanhdr] points to. *)
Definition sec_view (addr2 : list Z) (x : Xf.xmit_frame) : SecTypes.xmit_frame :=
  mk_xmit_frame (Xf.encrypt_algo x) (Xf.hdrlen x) (Xf.iv_len x) (Xf.icv_len x) (Xf.bmcast x)
    (Xf.dot118021x_UncstKey x) addr2.

(** [hw_info_st], the fields the transmit code reads. *)
Record tx_hw : Type := mk_tx_hw {
  dot80211n_support : bool;
  frag_thresh : Z;
  rts_thresh : Z;
  vcs_en : Z;
  vcs_type : Z;
  use_fixRate : bool;
  tx_data_rpt : bool;
}.

(** [nic_info_st] as the transmit code sees it: the work mode, BSSID and
    bandwidth of the current network, the security state with the fields of
    [sec_info_st] that only transmission uses, and [acm_mask] of each node. *)
Record tx_nic : Type := mk_tx_nic {
  work_mode : Z;
  cur_bssid : list Z;
  cur_bw : Z;
  sec_info : sec_info_st;
  dot11PrivacyKeyIndex : Z;
  busetkipkey : bool;
  dot118021XGrptxmickey : list (list Z);
  hw_info : tx_hw;
  acm_mask : Z -> Z;
  p2p_valid : bool;
}.

Definition wf_mlme_check_mode (nic : tx_nic) (mode : Z) : bool := work_mode nic =? mode.

(** ** Nodes by address *)

Definition node_at (w : Wdn.wdn_list) (a : Z) : option Wi.wdn_net_info_st :=
  Wdn.info ∘ snd <$> list_find (fun n => Wdn.addr n = a) (Wdn.head w).

(** Writing through the pointer to a node. *)
Definition set_node (w : Wdn.wdn_list) (a : Z) (i : Wi.wdn_net_info_st) : Wdn.wdn_list :=
  Wdn.mk_wdn_list ((fun n => if Wdn.addr n =? a then Wdn.mk_node a i else n) <$> Wdn.head w)
    (Wdn.free w) (Wdn.cnt w).

(** ** Constants *)

Definition WF_ETH_ALEN : Z := 6.
Definition WF_ETH_HLEN : Z := 14.
Definition WF_ETH_P_IP : Z := 0x0800.
Definition WLAN_HDR_A3_LEN : Z := 24.
Definition WLAN_HDR_A3_QOS_LEN : Z := 26.
Definition WLANHDR_OFFSET : Z := 64.
Definition TXDESC_OFFSET : Z := TXDESC_SIZE + PACKET_OFFSET_SZ.
Definition NULL_FRAMETAG : Z := 0.
Definition DATA_FRAMETAG : Z := 1.
Definition NONE_VCS : Z := 0.
Definition RTS_CTS : Z := 1.
Definition CTS_TO_SELF : Z := 2.
Definition dot11AuthAlgrthm_Auto : Z := 3.
Definition dot11AuthAlgrthm_WAPI : Z := 4.
Definition bc_addr : list Z := replicate 6 0xff.

(** [WF_RND4(x)] *)
Definition WF_RND4 (x : Z) : Z :=
  Z.shiftl (Z.shiftr x 2 + (if nz (Z.land x 3) then 1 else 0)) 2.

Lemma rnd4_spec x : WF_RND4 x = 4 * ((x + 3) / 4).
Proof.
  unfold WF_RND4. rewrite Z.shiftl_mul_pow2, Z.shiftr_div_pow2 by lia.
  change (2 ^ 2) with 4. change 3 with (Z.ones 2) at 1. rewrite Z.land_ones by lia. change (2 ^ 2) with 4. unfold nz.
  destruct (Z.eqb_spec (x mod 4) 0); cbn [negb]; Z.to_euclidean_division_equations; lia.
Qed.

Lemma rnd4_bounds x : x <= WF_RND4 x < x + 4.
Proof. rewrite rnd4_spec. Z.to_euclidean_division_equations. lia. Qed.

Lemma rnd4_add x k : k mod 4 = 0 -> WF_RND4 (x + k) = WF_RND4 x + k.
Proof. intros Hk. rewrite !rnd4_spec. Z.to_euclidean_division_equations. lia. Qed.
