(* ===== verification/TxFrame.v ===== *)
(** * Building frames to transmit ([nic/tx.c], lines 59-689, 691-713, 1249-1282, 2759-2913)

    A packet of the operating system becomes a frame of the air in two steps:
    [wf_xmit_frame_init] classifies it, finds its receiver and its cipher, and
    [wf_tx_msdu_to_mpdu] writes the 802.11 header, the fragments and the MIC
    into a transmit buffer.  A buffer is the bytes from [pbuf] on, which is
    aligned to 512 bytes, so that rounding an address to four rounds the
    offset. *)
From S2P Require Import Prelude SecTypes WdnTypes Wdn Mic Tkip Rx Reorder TxTypes.

Module TxFrame.
Import Reorder.

(** ** Priority *)

(** [do_set_qos]; [tos] is the type of service of the IP header. *)
Definition do_set_qos (tos : Z) (x : Xf.xmit_frame) : Xf.xmit_frame :=
  let user_priority := if Xf.ether_type x =? 0x0800 then Z.shiftr tos 5 else 0 in
  Xf.set_hdrlen WLAN_HDR_A3_QOS_LEN (Xf.set_priority (u8 user_priority) x).

Definition wf_chk_qos (acm_mask priority pad : Z) : Z :=
  if nz pad then
    if (priority =? 0) || (priority =? 3) then if nz (Z.land acm_mask (BIT 1)) then 1 else priority
    else if (priority =? 1) || (priority =? 2) then priority
    else if (priority =? 4) || (priority =? 5) then if nz (Z.land acm_mask (BIT 2)) then 0 else priority
    else if (priority =? 6) || (priority =? 7) then if nz (Z.land acm_mask (BIT 3)) then 5 else priority
    else priority
  else priority.

(** ** Cipher *)

(** [GET_ENCRY_ALGO]; an unknown algorithm leaves the field as it was. *)
Definition GET_ENCRY_ALGO (s : sec_info_st) (wdn : Wi.wdn_net_info_st) (encry_algo : Z) (bmcst : bool) : Z :=
  let a := dot11AuthAlgrthm s in
  if (a =? dot11AuthAlgrthm_Open) || (a =? dot11AuthAlgrthm_Shared) || (a =? dot11AuthAlgrthm_Auto)
  then u8 (dot11PrivacyAlgrthm s)
  else if a =? dot11AuthAlgrthm_8021X then
    if bmcst then u8 (dot118021XGrpPrivacy s) else u8 (Wi.dot118021XPrivacy wdn)
  else if a =? dot11AuthAlgrthm_WAPI then u8 (dot11PrivacyAlgrthm s)
  else encry_algo.

(** Bytes stored at the start of [iv]. *)
Definition iv_put (b iv : list Z) : list Z := b ++ drop (length b) iv.

(** The choice of the algorithm and of the key index; [None] is the refusal of
    a packet while the port is blocked. *)
Definition sec_select (nic : tx_nic) (wdn : Wi.wdn_net_info_st) (x : Xf.xmit_frame)
    : bool * Xf.xmit_frame :=
  let s := sec_info nic in
  if (dot11AuthAlgrthm s =? dot11AuthAlgrthm_8021X) && (Wi.ieee8021x_blocked wdn =? 1) then
    (Xf.ether_type x =? 0x888e, Xf.set_encrypt_algo _NO_PRIVACY_ x)
  else
    let x := Xf.set_encrypt_algo (GET_ENCRY_ALGO s wdn (Xf.encrypt_algo x) (Xf.bmcast x)) x in
    let a := dot11AuthAlgrthm s in
    let key_idx :=
      if (a =? dot11AuthAlgrthm_Open) || (a =? dot11AuthAlgrthm_Shared) || (a =? dot11AuthAlgrthm_Auto)
      then u8 (dot11PrivacyKeyIndex nic)
      else if a =? dot11AuthAlgrthm_8021X then
        if Xf.bmcast x then u8 (dot118021XGrpKeyid s) else 0
      else 0 in
    let x := Xf.set_key_idx key_idx x in
    (true,
     if ((Xf.encrypt_algo x =? _WEP40_) || (Xf.encrypt_algo x =? _WEP104_)) && (Xf.ether_type x =? 0x888e)
     then Xf.set_encrypt_algo _NO_PRIVACY_ x else x).

(** The IV and its packet number; the node's number moves on. *)
Definition sec_iv (nic : tx_nic) (wdn : Wi.wdn_net_info_st) (x : Xf.xmit_frame)
    : bool * Wi.wdn_net_info_st * Xf.xmit_frame :=
  let a := Xf.encrypt_algo x in
  let pn := Wi.dot11txpn wdn in
  let kidx := if Xf.bmcast x then Xf.key_idx x else 0 in
  if (a =? _WEP40_) || (a =? _WEP104_) then
    let '(b, pn) := Tkip.WEP_IV pn (Xf.key_idx x) in
    (true, Wi.set_dot11txpn pn wdn,
     Xf.set_iv (iv_put b (Xf.iv x)) (Xf.set_icv_len 4 (Xf.set_iv_len 4 x)))
  else if a =? _TKIP_ then
    let x := Xf.set_icv_len 4 (Xf.set_iv_len 8 x) in
    if negb (busetkipkey nic) then (false, wdn, x)
    else
      let '(b, pn) := Tkip.TKIP_IV pn kidx in
      (true, Wi.set_dot11txpn pn wdn,
       Xf.set_dot11tkiptxmickey (Wi.dot11tkiptxmickey wdn) (Xf.set_iv (iv_put b (Xf.iv x)) x))
  else if a =? _AES_ then
    let '(b, pn) := Tkip.AES_IV pn kidx in
    (true, Wi.set_dot11txpn pn wdn,
     Xf.set_iv (iv_put b (Xf.iv x)) (Xf.set_icv_len 8 (Xf.set_iv_len 8 x)))
  else (true, wdn, Xf.set_icv_len 0 (Xf.set_iv_len 0 x)).

Definition xmit_frame_sec_init (nic : tx_nic) (wdn : Wi.wdn_net_info_st) (x : Xf.xmit_frame)
    : bool * Wi.wdn_net_info_st * Xf.xmit_frame :=
  let x := Xf.set_dot118021x_UncstKey (replicate 16 0) (Xf.set_dot11tkiptxmickey (replicate 16 0) x) in
  let '(ok, x) := sec_select nic wdn x in
  if negb ok then (false, wdn, x)
  else
    let '(ok, wdn, x) := sec_iv nic wdn x in
    if negb ok then (false, wdn, x)
    else
      let a := Xf.encrypt_algo x in
      let x := if negb (a =? _NO_PRIVACY_) && negb (a =? _WEP40_) && negb (a =? _WEP104_)
               then Xf.set_dot118021x_UncstKey (Wi.dot118021x_UncstKey wdn) x else x in
      (true, wdn, Xf.set_bswenc (negb (a =? _AES_)) x).

(** ** Protection *)

Definition xmit_frame_vcs_init (nic : tx_nic) (wdn : Wi.wdn_net_info_st) (x : Xf.xmit_frame) : Xf.xmit_frame :=
  let hw := hw_info nic in
  let sz := if negb (Xf.nr_frags x =? 1) then frag_thresh hw else Xf.last_txcmdsz x in
  let mode :=
    if Wi.network_type wdn <? Wdn.WIRELESS_11_24N then
      if rts_thresh hw <? sz then RTS_CTS
      else if nz (Wi.rtsen wdn) then RTS_CTS
      else if nz (Wi.cts2self wdn) then CTS_TO_SELF
      else NONE_VCS
    else if nz (Wi.rtsen wdn) then RTS_CTS
    else if nz (Wi.cts2self wdn) then CTS_TO_SELF
    else if nz (Xf.ht_en x) &&
            ((nz (Wi.bw_mode wdn) && ((Wi.HT_protection wdn =? 2) || (Wi.HT_protection wdn =? 3)))
             || (negb (nz (Wi.bw_mode wdn)) && (Wi.HT_protection wdn =? 3)))
    then RTS_CTS
    else if rts_thresh hw <? sz then RTS_CTS
    else if Xf.ampdu_en x then RTS_CTS
    else NONE_VCS in
  Xf.set_vcs_mode (if vcs_en hw =? 1 then vcs_type hw else mode) x.

(** ** Classification *)

(** The part of [wf_xmit_frame_init] that looks into an IP packet: the type
    of service, and whether it is a DHCP packet. *)
Definition ip_classify (msdu : list Z) (pktlen : Z) : C (Z * Z) :=
  letc b0 := rd msdu WF_ETH_HLEN in
  letc proto := rd msdu (WF_ETH_HLEN + 9) in
  letc tos := rd msdu (WF_ETH_HLEN + 1) in
  let pkt_offset := WF_ETH_HLEN + Z.land b0 15 * 4 in
  if proto =? 0x11 then
    letc udp := slice msdu pkt_offset 8 in
    let src := be_word (take 2 udp) in
    let dst := be_word (take 2 (drop 2 udp)) in
    Ret (tos, if (((src =? 68) && (dst =? 67)) || ((src =? 67) && (dst =? 68))) && (282 <? pktlen)
              then 1 else 0)
  else Ret (tos, 0).

(** The receiver's address; [None] in a work mode that cannot transmit. *)
Definition ra_addr (nic : tx_nic) (msdu : list Z) : C (option (list Z)) :=
  if wf_mlme_check_mode nic Rx.WF_ADHOC_MODE then letc d := slice msdu 0 6 in Ret (Some d)
  else if wf_mlme_check_mode nic Rx.WF_INFRA_MODE then Ret (Some (cur_bssid nic))
  else if wf_mlme_check_mode nic Rx.WF_MASTER_MODE then letc d := slice msdu 0 6 in Ret (Some d)
  else Ret None.

(** The fields set once the node is known and the cipher is chosen. *)
Definition frame_fields (nic : tx_nic) (a : Z) (wdn : Wi.wdn_net_info_st) (tos : Z) (x : Xf.xmit_frame)
    : Xf.xmit_frame :=
  let x := Xf.set_hdrlen WLAN_HDR_A3_LEN (Xf.set_pkt_hdrlen WF_ETH_HLEN
             (Xf.set_priority 0 (Xf.set_pwdn (Some a) x))) in
  let x := if nz (Wi.qos_option wdn) then
             let x := do_set_qos tos x in
             if negb (acm_mask nic a =? 0)
             then Xf.set_priority (wf_chk_qos (acm_mask nic a) (Xf.priority x) 1) x else x
           else x in
  let x := Xf.set_qsel (Xf.priority x) x in
  if dot80211n_support (hw_info nic) then Xf.set_ht_en (Wi.ht_enable wdn) (Xf.set_ampdu_en false x) else x.

Definition wf_xmit_frame_init (nic : tx_nic) (w : Wdn.wdn_list) (x : Xf.xmit_frame)
    (msdu : list Z) (msdu_len : Z) : C (bool * Wdn.wdn_list * Xf.xmit_frame) :=
  letc ra := ra_addr nic msdu in
  match ra with
  | None => Ret (false, w, x)
  | Some ra =>
      letc ty := slice msdu 12 2 in
      let x := Xf.set_ether_type (be_word ty) (Xf.set_bmcast (IS_MCAST ra) x) in
      match Wdn.wf_wdn_find_info w (Some (if Xf.bmcast x then bc_addr else ra)) with
      | None => Ret (false, w, x)
      | Some n =>
          let a := Wdn.addr n in
          let x := Xf.set_dhcp_pkt 0 (Xf.set_pktlen (u32 (msdu_len - WF_ETH_HLEN)) x) in
          letc (tos, dhcp) :=
            (if Xf.ether_type x =? WF_ETH_P_IP then ip_classify msdu (Xf.pktlen x) else Ret (0, 0)) in
          let x := Xf.set_dhcp_pkt dhcp x in
          let '(ok, wdn, x) := xmit_frame_sec_init nic (Wdn.info n) x in
          let w := set_node w a wdn in
          if negb ok then Ret (false, w, x)
          else Ret (true, w, frame_fields nic a wdn tos x)
      end
  end.

(** ** Header *)

(** The 16-bit word at offset [i] replaced by [f] of it. *)
Definition upd16 (f : Z -> Z) (buf : list Z) (i : Z) : C (list Z) :=
  letc b := slice buf i 2 in blit buf i (le_bytes 2 (f (le_word b))).

Definition SetFrameSubType (type : Z) : Z -> Z := fun fc => Z.lor (Z.land fc 0xff03) type.
Definition SetToDs : Z -> Z := fun fc => Z.lor fc (BIT 8).
Definition SetFrDs : Z -> Z := fun fc => Z.lor fc (BIT 9).
Definition SetMFrag : Z -> Z := fun fc => Z.lor fc (BIT 10).
Definition ClearMFrag : Z -> Z := fun fc => Z.land fc (65535 - BIT 10).
Definition SetPrivacy : Z -> Z := fun fc => Z.lor fc (BIT 14).
Definition SetSeqNum (num : Z) : Z -> Z := fun sc => Z.lor (Z.land sc 0xf) (Z.land 0xfff0 (Z.shiftl num 4)).
Definition SetPriority (tid : Z) : Z -> Z := fun qc => Z.lor qc (Z.land tid 0xf).
Definition SetEOSP (eosp : Z) : Z -> Z := fun qc => Z.lor qc (Z.shiftl (Z.land eosp 1) 4).
Definition SetAckpolicy (ack : Z) : Z -> Z := fun qc => Z.lor qc (Z.shiftl (Z.land ack 3) 5).

Definition WIFI_DATA_TYPE : Z := BIT 3.
Definition WIFI_QOS_DATA_TYPE : Z := Z.lor (BIT 7) (BIT 3).

(** The three addresses and the direction bit; [None] in a work mode that
    cannot transmit. *)
Definition hdr_addrs (nic : tx_nic) (msdu buf : list Z) (hdr : Z) : C (option (list Z * list Z)) :=
  let bss := cur_bssid nic in
  let put3 := fun buf (a1 a2 a3 : list Z) =>
    letc buf := blit buf (hdr + 16) a3 in
    letc buf := blit buf (hdr + 10) a2 in
    letc buf := blit buf (hdr + 4) a1 in Ret (Some (buf, a1)) in
  if wf_mlme_check_mode nic Rx.WF_INFRA_MODE then
    letc buf := upd16 SetToDs buf hdr in
    letc dest := slice msdu 0 6 in letc src := slice msdu 6 6 in put3 buf bss src dest
  else if wf_mlme_check_mode nic Rx.WF_MASTER_MODE then
    letc buf := upd16 SetFrDs buf hdr in
    letc dest := slice msdu 0 6 in letc src := slice msdu 6 6 in put3 buf dest bss src
  else if wf_mlme_check_mode nic Rx.WF_ADHOC_MODE then
    letc dest := slice msdu 0 6 in letc src := slice msdu 6 6 in put3 buf dest src bss
  else Ret None.

(** The QoS control field. *)
Definition hdr_qos (x : Xf.xmit_frame) (buf : list Z) (hdr : Z) : C (list Z) :=
  let qc := hdr + Xf.hdrlen x - 2 in
  letc buf := (if nz (Xf.priority x) then upd16 (SetPriority (Xf.priority x)) buf qc else Ret buf) in
  letc buf := upd16 (SetEOSP 0) buf qc in
  upd16 (SetAckpolicy 0) buf qc.

(** The A-MPDU decision and the block acknowledgment window of a node. *)
Definition hdr_ampdu (wdn : Wi.wdn_net_info_st) (x : Xf.xmit_frame) : C (Wi.wdn_net_info_st * Xf.xmit_frame) :=
  let x := if nz (Wi.ht_enable wdn) && nz (HtPriv.ampdu_enable (Wi.htpriv wdn)) &&
              nz (Z.land (HtPriv.agg_enable_bitmap (Wi.htpriv wdn)) (BIT (Xf.priority x)))
           then Xf.set_ampdu_en true x else x in
  if Xf.ampdu_en x then
    let i := Z.land (Xf.priority x) 0x0f in
    letc tx_seq := rd (Wi.ba_starting_seqctrl wdn) i in
    if SN_LESS (Xf.seqnum x) tx_seq then Ret (wdn, Xf.set_ampdu_en false x)
    else if SN_EQUAL (Xf.seqnum x) tx_seq then
      letc l := wr (Wi.ba_starting_seqctrl wdn) i (Z.land (tx_seq + 1) 0xfff) in
      Ret (Wi.set_ba_starting_seqctrl l wdn, Xf.set_ampdu_en true x)
    else
      letc l := wr (Wi.ba_starting_seqctrl wdn) i (Z.land (Xf.seqnum x + 1) 0xfff) in
      Ret (Wi.set_ba_starting_seqctrl l wdn, Xf.set_ampdu_en true x)
  else Ret (wdn, x).

Definition tx_mac_hdr_build (nic : tx_nic) (w : Wdn.wdn_list) (x : Xf.xmit_frame) (msdu buf : list Z) (hdr : Z)
    : C (bool * Wdn.wdn_list * Xf.xmit_frame * list Z) :=
  letc buf := blit buf hdr (replicate (Z.to_nat WLANHDR_OFFSET) 0) in
  letc buf := upd16 (SetFrameSubType WIFI_DATA_TYPE) buf hdr in
  letc r := hdr_addrs nic msdu buf hdr in
  match r with
  | None => Ret (false, w, x, buf)
  | Some (buf, addr1) =>
      match Wdn.wf_wdn_find_info w (Some (if IS_MCAST addr1 then bc_addr else addr1)) with
      | None => Ret (false, w, x, buf)
      | Some n =>
          let a := Wdn.addr n in
          let wdn := Wdn.info n in
          if negb (bool_decide (Xf.pwdn x = Some a)) then Ret (false, w, x, buf)
          else
            let qos := nz (Wi.qos_option wdn) in
            letc buf := (if qos then upd16 (SetFrameSubType WIFI_QOS_DATA_TYPE) buf hdr else Ret buf) in
            letc buf := (if nz (Xf.encrypt_algo x) then upd16 SetPrivacy buf hdr else Ret buf) in
            letc buf := (if qos then hdr_qos x buf hdr else Ret buf) in
            letc seq := rd (Wi.txseq_tid wdn) (Xf.priority x) in
            let seq := Z.land (u16 (seq + 1)) 0xFFF in
            letc l := wr (Wi.txseq_tid wdn) (Xf.priority x) seq in
            let wdn := Wi.set_txseq_tid l wdn in
            let x := Xf.set_seqnum seq x in
            letc buf := upd16 (SetSeqNum seq) buf (hdr + 22) in
            letc (wdn, x) := (if dot80211n_support (hw_info nic) then hdr_ampdu wdn x else Ret (wdn, x)) in
            Ret (true, set_node w a wdn, x, buf)
      end
  end.

(** [tx_set_snap]: the eight bytes written. *)
Definition tx_set_snap (h_proto : Z) : list Z :=
  [0xaa; 0xaa; 0x03; 0x00; 0x00; if (h_proto =? 0x8137) || (h_proto =? 0x80f3) then 0xf8 else 0x00;
   u8 (Z.shiftr h_proto 8); u8 h_proto].

(** ** Fragments *)

(** One pass of the loop of [wf_tx_msdu_to_mpdu] up to its end test: the
    buffer, [pframe], [llc_sz], [mem_sz] and the next [msduOffset]. *)
Definition put_fragment (frag_len : Z) (x : Xf.xmit_frame) (msdu : list Z) (msdu_len : Z)
    (buf : list Z) (mem_start frg_inx msduOffset : Z) : C (list Z * Z * Z * Z * Z) :=
  letc buf := upd16 SetMFrag buf mem_start in
  let pframe := mem_start + Xf.hdrlen x in
  let mpdu_len := frag_len - Xf.hdrlen x in
  letc (buf, pframe, mpdu_len) :=
    (if nz (Xf.iv_len x) then
       letc b := slice (Xf.iv x) 0 (Xf.iv_len x) in
       letc buf := blit buf pframe b in
       Ret (buf, pframe + Xf.iv_len x, mpdu_len - Xf.iv_len x)
     else Ret (buf, pframe, mpdu_len)) in
  letc (buf, pframe, mpdu_len, llc_sz) :=
    (if frg_inx =? 0 then
       letc buf := blit buf pframe (tx_set_snap (Xf.ether_type x)) in
       Ret (buf, pframe + 8, mpdu_len - 8, 8)
     else Ret (buf, pframe, mpdu_len, 0)) in
  let trailer := if nz (Xf.icv_len x) && Xf.bswenc x then Xf.icv_len x else 0 in
  let mpdu_len := mpdu_len - trailer in
  letc (buf, mem_sz, msduOffset) :=
    (if Xf.bmcast x then
       letc b := slice msdu msduOffset (msdu_len - msduOffset) in
       letc buf := blit buf pframe b in
       Ret (buf, msdu_len - msduOffset, msduOffset)
     else
       let msduRemainLen := msdu_len - msduOffset in
       let n := if mpdu_len <? msduRemainLen then mpdu_len else msduRemainLen in
       letc b := slice msdu (Xf.pkt_hdrlen x) n in
       letc buf := blit buf pframe b in
       Ret (buf, n, msduOffset + n)) in
  Ret (buf, pframe + mem_sz + trailer, llc_sz, mem_sz, msduOffset).

Fixpoint put_fragments (fuel : nat) (frag_len : Z) (x : Xf.xmit_frame) (msdu : list Z) (msdu_len : Z)
    (buf : list Z) (mem_start frg_inx msduOffset : Z) : C (list Z * Xf.xmit_frame) :=
  match fuel with
  | O => Stuck
  | S fuel =>
      letc (buf, pframe, llc_sz, mem_sz, msduOffset) :=
        put_fragment frag_len x msdu msdu_len buf mem_start frg_inx msduOffset in
      let frg_inx := frg_inx + 1 in
      if Xf.bmcast x || (msduOffset =? msdu_len) then
        let x := Xf.set_last_txcmdsz
          (u32 (Xf.hdrlen x + Xf.iv_len x + llc_sz + mem_sz + (if Xf.bswenc x then Xf.icv_len x else 0)))
          (Xf.set_nr_frags (u8 frg_inx) x) in
        letc buf := upd16 ClearMFrag buf mem_start in
        Ret (buf, x)
      else
        let mem_start := WF_RND4 pframe + TXDESC_OFFSET in
        letc hd := slice buf TXDESC_OFFSET (Xf.hdrlen x) in
        letc buf := blit buf mem_start hd in
        put_fragments fuel frag_len x msdu msdu_len buf mem_start frg_inx msduOffset
  end.

(** ** The MIC *)

(** The loop over the fragments: the state of the MIC and the offset behind
    the payload of the last one. *)
Fixpoint mic_fragments (fuel : nat) (frag_len : Z) (x : Xf.xmit_frame) (buf : list Z)
    (d : Mic.mic_data) (curfragnum payload : Z) : C (Mic.mic_data * Z) :=
  if curfragnum <? Xf.nr_frags x then
    match fuel with
    | O => Stuck
    | S fuel =>
        let payload := WF_RND4 payload + (Xf.hdrlen x + Xf.iv_len x) in
        if curfragnum + 1 =? Xf.nr_frags x then
          let length := s32 (Xf.last_txcmdsz x - Xf.hdrlen x - Xf.iv_len x - Xf.icv_len x) in
          letc b := slice buf payload length in
          mic_fragments fuel frag_len x buf (Mic.wf_sec_mic_append d b) (curfragnum + 1) (payload + length)
        else
          let length := s32 (frag_len - Xf.hdrlen x - Xf.iv_len x - Xf.icv_len x) in
          letc b := slice buf payload length in
          mic_fragments fuel frag_len x buf (Mic.wf_sec_mic_append d b) (curfragnum + 1)
            (payload + length + Xf.icv_len x + TXDESC_OFFSET)
    end
  else Ret (d, payload).

(** The key: the group key of the current index, or the one of the frame. *)
Definition mic_key (nic : tx_nic) (x : Xf.xmit_frame) : C (list Z) :=
  if Xf.bmcast x then
    of_option (dot118021XGrptxmickey nic !! Z.to_nat (dot118021XGrpKeyid (sec_info nic)))
  else Ret (Xf.dot11tkiptxmickey x).

(** Destination and source, by the direction bits of the header. *)
Definition mic_addrs (buf : list Z) (pframe : Z) : C (list Z * list Z) :=
  letc b1 := rd buf (pframe + 1) in
  if nz (Z.land b1 1) then
    letc da := slice buf (pframe + 16) 6 in
    letc sa := slice buf (pframe + (if nz (Z.land b1 2) then 24 else 10)) 6 in Ret (da, sa)
  else
    letc da := slice buf (pframe + 4) 6 in
    letc sa := slice buf (pframe + (if nz (Z.land b1 2) then 16 else 10)) 6 in Ret (da, sa).

Definition frame_txp_addmic (nic : tx_nic) (w : Wdn.wdn_list) (x : Xf.xmit_frame) (buf : list Z)
    : C (bool * Xf.xmit_frame * list Z) :=
  if Xf.encrypt_algo x =? _TKIP_ then
    let pframe := TXDESC_OFFSET in
    letc key := mic_key nic x in
    if bytes_eqb key (replicate 16 0) then Ret (false, x, buf)
    else
      letc d := Mic.wf_sec_mic_set_key key in
      letc (da, sa) := mic_addrs buf pframe in
      let d := Mic.wf_sec_mic_append (Mic.wf_sec_mic_append d da) sa in
      letc a := of_option (Xf.pwdn x) in
      letc wdn := of_option (node_at w a) in
      let pri := if nz (Wi.qos_option wdn) then u8 (Xf.priority x) else 0 in
      let d := Mic.wf_sec_mic_append d [pri; 0; 0; 0] in
      letc (d, payload) :=
        mic_fragments (Z.to_nat (Xf.nr_frags x)) (frag_thresh (hw_info nic)) x buf d 0 pframe in
      letc (_, mic) := Mic.wf_sec_get_mic d in
      letc buf := blit buf payload mic in
      Ret (true, Xf.set_last_txcmdsz (u32 (Xf.last_txcmdsz x + 8)) x, buf)
  else Ret (true, x, buf).

(** ** The frame *)

(** [buf] is the buffer at [buf_addr], [None] for a null pointer.  Every pass
    but the last moves [msduOffset] on by at least one byte when a fragment
    has room, so [msdu_len] passes are enough. *)
Definition wf_tx_msdu_to_mpdu (nic : tx_nic) (w : Wdn.wdn_list) (x : Xf.xmit_frame)
    (buf : option (list Z)) (msdu : list Z) (msdu_len : Z)
    : C (bool * Wdn.wdn_list * Xf.xmit_frame * option (list Z)) :=
  match buf with
  | None => Ret (false, w, x, None)
  | Some buf =>
      let mem_start := TXDESC_OFFSET in
      letc (ok, w, x, buf) := tx_mac_hdr_build nic w x msdu buf mem_start in
      if negb ok then Ret (false, w, x, Some buf)
      else
        let x := Xf.set_pwlanhdr (Some mem_start) x in
        letc (buf, x) := put_fragments (Z.to_nat msdu_len) (frag_thresh (hw_info nic)) x msdu msdu_len buf
                           mem_start 0 WF_ETH_HLEN in
        letc (ok, x, buf) := frame_txp_addmic nic w x buf in
        if negb ok then Ret (false, w, x, Some buf)
        else
          letc x := (if Xf.bmcast x then Ret (Xf.set_vcs_mode NONE_VCS x)
                     else letc a := of_option (Xf.pwdn x) in
                          letc wdn := of_option (node_at w a) in
                          Ret (xmit_frame_vcs_init nic wdn x)) in
          Ret (true, w, x, Some buf)
  end.

Definition wf_get_wlan_pkt_size (x : Xf.xmit_frame) : Z :=
  let len := u32 (Xf.hdrlen x + Xf.iv_len x) in
  let len := u32 (len + 8) in
  let len := u32 (len + Xf.pktlen x) in
  if Xf.encrypt_algo x =? _TKIP_ then u32 (len + 8) else len.


(** ** Buffers *)

(** [src] written into [mid] from position [k] on. *)
Definition put (mid : list Z) (k : nat) (src : list Z) : list Z :=
  take k mid ++ src ++ drop (k + length src) mid.

Lemma put_length mid k src : (k + length src <= length mid)%nat -> length (put mid k src) = length mid.
Proof. intros H. unfold put. rewrite !length_app, length_take, length_drop. lia. Qed.

Lemma blit_in pre mid post i k src :
  i = Z.of_nat (length pre) + Z.of_nat k -> (k + length src <= length mid)%nat ->
  blit (pre ++ mid ++ post) i src = Ret (pre ++ put mid k src ++ post).
Proof.
  intros -> Hl.
  replace (pre ++ mid ++ post) with
    ((pre ++ take k mid) ++ take (length src) (drop k mid) ++ (drop (k + length src) mid ++ post)).
  2: { rewrite <- app_assoc. f_equal. rewrite !app_assoc. f_equal.
       rewrite <- app_assoc, <- drop_drop, take_drop. apply take_drop. }
  rewrite blit_app_mid.
  - unfold put. by rewrite <- !app_assoc.
  - rewrite length_app, length_take. lia.
  - rewrite length_take, length_drop. lia.
Qed.

Lemma slice_in pre mid post i k n :
  i = Z.of_nat (length pre) + Z.of_nat k -> 0 <= n -> (k + Z.to_nat n <= length mid)%nat ->
  slice (pre ++ mid ++ post) i n = Ret (take (Z.to_nat n) (drop k mid)).
Proof.
  intros -> Hn Hl. rewrite slice_Ret by (rewrite ?length_app; lia).
  rewrite drop_app_ge by lia. replace (Z.to_nat _ - length pre)%nat with k by lia.
  rewrite drop_app_le by lia. by rewrite take_app_le by (rewrite length_drop; lia).
Qed.

Lemma upd16_in f pre mid post i k :
  i = Z.of_nat (length pre) + Z.of_nat k -> (k + 2 <= length mid)%nat ->
  upd16 f (pre ++ mid ++ post) i =
    Ret (pre ++ put mid k (le_bytes 2 (f (le_word (take 2 (drop k mid))))) ++ post).
Proof.
  intros Hi Hl. unfold upd16. rewrite (slice_in _ _ _ _ k) by lia. cbn [cbind].
  by rewrite (blit_in _ _ _ _ k) by (rewrite ?length_le_bytes; lia).
Qed.

Lemma upd16_mid f pre v post i : is_u16 v -> i = Z.of_nat (length pre) ->
  upd16 f (pre ++ le_bytes 2 v ++ post) i = Ret (pre ++ le_bytes 2 (f v) ++ post).
Proof.
  intros Hv Hi. unfold upd16. rewrite slice_app_mid by (rewrite ?length_le_bytes; done). cbn [cbind].
  rewrite blit_app_mid by (rewrite ?length_le_bytes; done).
  by rewrite le_word_bytes, Z.mod_small by (unfold is_u16 in Hv; cbn; lia).
Qed.

(** ** The header *)

Definition frame_control_of (mode : Z) (qos priv : bool) : Z :=
  Z.lor (if qos then 0x88 else 0x08)
    (Z.lor (if mode =? Rx.WF_INFRA_MODE then 0x100 else if mode =? Rx.WF_MASTER_MODE then 0x200 else 0)
       (if priv then 0x4000 else 0)).

(** The three addresses of a packet from [src] to [dst]. *)
Definition addrs_of (mode : Z) (bss dst src : list Z) : list Z * list Z * list Z :=
  if mode =? Rx.WF_INFRA_MODE then (bss, src, dst)
  else if mode =? Rx.WF_MASTER_MODE then (dst, bss, src)
  else (dst, src, bss).

(** The header as it goes out: 24 bytes, and two more for QoS. *)
Definition header (fc : Z) (a1 a2 a3 : list Z) (seq : Z) : list Z :=
  le_bytes 2 fc ++ [0; 0] ++ a1 ++ a2 ++ a3 ++ le_bytes 2 (Z.shiftl seq 4).

Lemma six (a : list Z) : length a = 6%nat -> exists b0 b1 b2 b3 b4 b5, a = [b0; b1; b2; b3; b4; b5].
Proof. intros H. do 7 (destruct a as [| ? a]; try discriminate H). eauto 10. Qed.

Definition transmits (mode : Z) : Prop :=
  mode = Rx.WF_INFRA_MODE \/ mode = Rx.WF_MASTER_MODE \/ mode = Rx.WF_ADHOC_MODE.

(** The node a packet goes to. *)
Definition receiver (nic : tx_nic) (w : Wdn.wdn_list) (msdu : list Z) : option Wdn.wdn_node_st :=
  let a1 := (addrs_of (work_mode nic) (cur_bssid nic) (take 6 msdu) (take 6 (drop 6 msdu))).1.1 in
  Wdn.wf_wdn_find_info w (Some (if IS_MCAST a1 then bc_addr else a1)).

Section Header.
Context (nic : tx_nic) (msdu pre post : list Z) (i : Z).
Context (Hmode : transmits (work_mode nic)) (Hbss : length (cur_bssid nic) = 6%nat).
Context (Hmsdu : (14 <= length msdu)%nat).
Let dst := take 6 msdu.
Let src := take 6 (drop 6 msdu).
Let a1 := (addrs_of (work_mode nic) (cur_bssid nic) dst src).1.1.
Let a2 := (addrs_of (work_mode nic) (cur_bssid nic) dst src).1.2.
Let a3 := (addrs_of (work_mode nic) (cur_bssid nic) dst src).2.

Lemma addrs_length : length a1 = 6%nat /\ length a2 = 6%nat /\ length a3 = 6%nat.
Proof using All.
  assert (H1 : length dst = 6%nat) by (unfold dst; rewrite length_take; lia).
  assert (H2 : length src = 6%nat) by (unfold src; rewrite length_take, length_drop; lia).
  unfold a1, a2, a3, addrs_of. by repeat case_match.
Qed.



(** The buffer with frame control [fc], sequence control [sc] and the word
    [qc] behind it. *)
Definition with_header (fc sc qc : Z) : list Z :=
  pre ++ le_bytes 2 fc ++ [0; 0] ++ a1 ++ a2 ++ a3 ++ le_bytes 2 sc ++ le_bytes 2 qc ++ replicate 38 0 ++ post.

Lemma upd_fc f fc sc qc : is_u16 fc -> i = Z.of_nat (length pre) ->
  upd16 f (with_header fc sc qc) i = Ret (with_header (f fc) sc qc).
Proof using All. intros Hf Hi. by apply upd16_mid. Qed.

Lemma upd_sc f fc sc qc : is_u16 sc -> i = Z.of_nat (length pre) ->
  upd16 f (with_header fc sc qc) (i + 22) = Ret (with_header fc (f sc) qc).
Proof using All.
  intros Hf Hi. destruct addrs_length as (L1 & L2 & L3). unfold with_header.
  pose (hd := pre ++ le_bytes 2 fc ++ [0; 0] ++ a1 ++ a2 ++ a3).
  assert (E : forall t, pre ++ le_bytes 2 fc ++ [0; 0] ++ a1 ++ a2 ++ a3 ++ t = hd ++ t)
    by (intros t; unfold hd; by rewrite <- !app_assoc).
  rewrite !E. apply upd16_mid; [done |]. unfold hd.
  rewrite !length_app, L1, L2, L3, length_le_bytes. cbn [length]. lia.
Qed.

Lemma upd_qc f fc sc qc : is_u16 qc -> i = Z.of_nat (length pre) ->
  upd16 f (with_header fc sc qc) (i + 24) = Ret (with_header fc sc (f qc)).
Proof using All.
  intros Hf Hi. destruct addrs_length as (L1 & L2 & L3). unfold with_header.
  pose (hd := pre ++ le_bytes 2 fc ++ [0; 0] ++ a1 ++ a2 ++ a3 ++ le_bytes 2 sc).
  assert (E : forall t, pre ++ le_bytes 2 fc ++ [0; 0] ++ a1 ++ a2 ++ a3 ++ le_bytes 2 sc ++ t = hd ++ t)
    by (intros t; unfold hd; by rewrite <- !app_assoc).
  rewrite !E. apply upd16_mid; [done |]. unfold hd.
  rewrite !length_app, L1, L2, L3, !length_le_bytes. cbn [length]. lia.
Qed.

(** The buffer after the addresses are written. *)
Lemma hdr_addrs_ret : i = Z.of_nat (length pre) ->
  hdr_addrs nic msdu (pre ++ le_bytes 2 8 ++ replicate 62 0 ++ post) i =
    Ret (Some (with_header (frame_control_of (work_mode nic) false false) 0 0, a1)).
Proof using All.
  intros Hi. destruct addrs_length as (L1 & L2 & L3). unfold with_header, a1, a2, a3, addrs_of in *. clear a1 a2 a3.
  unfold hdr_addrs, wf_mlme_check_mode, frame_control_of.
  rewrite !slice_Ret by lia. change (Z.to_nat 0) with 0%nat. change (Z.to_nat 6) with 6%nat. rewrite drop_0.
  fold dst src. cbn [cbind].
  assert (Hput : forall fc x1 x2 x3, length x1 = 6%nat -> length x2 = 6%nat -> length x3 = 6%nat ->
    (letc buf := blit (pre ++ le_bytes 2 fc ++ replicate 62 0 ++ post) (i + 16) x3 in
     letc buf := blit buf (i + 10) x2 in
     letc buf := blit buf (i + 4) x1 in Ret (Some (buf, x1))) =
    Ret (Some (pre ++ le_bytes 2 fc ++ [0; 0] ++ x1 ++ x2 ++ x3 ++ le_bytes 2 0 ++ le_bytes 2 0 ++
                 replicate 38 0 ++ post, x1))).
  { intros fc x1 x2 x3 (? & ? & ? & ? & ? & ? & ->)%six (? & ? & ? & ? & ? & ? & ->)%six
      (? & ? & ? & ? & ? & ? & ->)%six.
    rewrite (app_assoc (le_bytes 2 fc)).
    rewrite (blit_in _ _ _ _ 16) by (cbn [length app le_bytes replicate]; lia).
    cbn [cbind]. rewrite (blit_in _ _ _ _ 10) by (cbn [length app le_bytes replicate put take drop Nat.add]; lia).
    cbn [cbind]. rewrite (blit_in _ _ _ _ 4) by (cbn [length app le_bytes replicate put take drop Nat.add]; lia).
    reflexivity. }
  destruct Hmode as [E | [E | E]]; rewrite E in *; cbn [Z.eqb Pos.eqb Rx.WF_INFRA_MODE Rx.WF_MASTER_MODE Rx.WF_ADHOC_MODE] in *.
  - rewrite upd16_mid by done. by apply (Hput 264).
  - rewrite upd16_mid by done. by apply (Hput 520).
  - by apply (Hput 8).
Qed.

(** The header of a frame for its node: everything but the A-MPDU decision. *)
Lemma hdr_build_ret w x h n :
  receiver nic w msdu = Some n -> Xf.pwdn x = Some (Wdn.addr n) ->
  length h = 64%nat -> i = Z.of_nat (length pre) ->
  length (Wi.txseq_tid (Wdn.info n)) = 16%nat -> 0 <= Xf.priority x < 16 ->
  let qos := nz (Wi.qos_option (Wdn.info n)) in
  (qos = true -> Xf.hdrlen x = 26) ->
  let seq := Z.land (u16 (nthZ (Wi.txseq_tid (Wdn.info n)) (Xf.priority x) + 1)) 0xFFF in
  let wdn := Wi.set_txseq_tid (setZ (Wi.txseq_tid (Wdn.info n)) (Xf.priority x) seq) (Wdn.info n) in
  tx_mac_hdr_build nic w x msdu (pre ++ h ++ post) i =
    letc (wdn', x') := (if dot80211n_support (hw_info nic) then hdr_ampdu wdn (Xf.set_seqnum seq x)
                        else Ret (wdn, Xf.set_seqnum seq x)) in
    Ret (true, set_node w (Wdn.addr n) wdn', x',
         with_header (frame_control_of (work_mode nic) qos (nz (Xf.encrypt_algo x))) (Z.shiftl seq 4)
           (if qos then Xf.priority x else 0)).
Proof using All.
  intros Hn Hp Hh Hi Htid Hpri qos Hlen seq wdn. unfold tx_mac_hdr_build.
  rewrite blit_app_mid by (done || by rewrite length_replicate). cbn [cbind].
  change (replicate (Z.to_nat WLANHDR_OFFSET) 0) with (le_bytes 2 0 ++ replicate 62 0). rewrite <- app_assoc.
  rewrite upd16_mid by done. cbn [cbind]. change (SetFrameSubType WIFI_DATA_TYPE 0) with 8.
  rewrite hdr_addrs_ret by done. cbn [cbind].
  change (Wdn.wf_wdn_find_info w (Some (if IS_MCAST a1 then bc_addr else a1)) = Some n) in Hn. rewrite Hn, Hp.
  rewrite bool_decide_eq_true_2 by done. cbn [negb]. fold qos.
  assert (Hq : (if qos then upd16 (SetFrameSubType WIFI_QOS_DATA_TYPE)
       (with_header (frame_control_of (work_mode nic) false false) 0 0) i
     else Ret (with_header (frame_control_of (work_mode nic) false false) 0 0)) =
     Ret (with_header (frame_control_of (work_mode nic) qos false) 0 0)).
  { destruct qos; [| done]. rewrite upd_fc; [| | done].
    - do 2 f_equal. by destruct Hmode as [-> | [-> | ->]].
    - unfold is_u16. destruct Hmode as [-> | [-> | ->]]; vm_compute; intuition congruence. }
  rewrite Hq. cbn [cbind]. clear Hq.
  assert (Hq : (if nz (Xf.encrypt_algo x) then upd16 SetPrivacy
       (with_header (frame_control_of (work_mode nic) qos false) 0 0) i
     else Ret (with_header (frame_control_of (work_mode nic) qos false) 0 0)) =
     Ret (with_header (frame_control_of (work_mode nic) qos (nz (Xf.encrypt_algo x))) 0 0)).
  { destruct (nz (Xf.encrypt_algo x)); [| done]. rewrite upd_fc; [| | done].
    - do 2 f_equal. by destruct Hmode as [-> | [-> | ->]], qos.
    - unfold is_u16. destruct Hmode as [-> | [-> | ->]], qos; vm_compute; intuition congruence. }
  rewrite Hq. cbn [cbind]. clear Hq.
  set (fc := frame_control_of _ _ _).
  assert (Hq : (if qos then hdr_qos x (with_header fc 0 0) i else Ret (with_header fc 0 0)) =
     Ret (with_header fc 0 (if qos then Xf.priority x else 0))).
  { destruct qos; [| done]. unfold hdr_qos. rewrite Hlen by done. replace (i + 26 - 2) with (i + 24) by lia.
    assert (Hp0 : is_u16 (Xf.priority x)) by (unfold is_u16; lia).
    assert (Hpr : (if nz (Xf.priority x) then upd16 (SetPriority (Xf.priority x)) (with_header fc 0 0) (i + 24)
      else Ret (with_header fc 0 0)) = Ret (with_header fc 0 (Xf.priority x))).
    { unfold nz. destruct (Z.eqb_spec (Xf.priority x) 0) as [-> |]; cbn [negb]; [done |].
      rewrite upd_qc by done. do 2 f_equal. unfold SetPriority. rewrite Z.lor_0_l.
      rewrite (Z.land_ones _ 4) by lia. by apply Z.mod_small. }
    rewrite Hpr. cbn [cbind]. rewrite upd_qc by done. cbn [cbind].
    unfold SetEOSP, SetAckpolicy. cbn [Z.land Z.shiftl Z.lor]. rewrite Z.lor_0_r, upd_qc by done. by rewrite Z.lor_0_r. }
  rewrite Hq. cbn [cbind]. clear Hq.
  rewrite rd_nthZ by lia. cbn [cbind]. fold seq. rewrite wr_setZ by lia. cbn [cbind]. fold wdn.
  rewrite upd_sc by done. cbn [cbind].
  assert (Hs : SetSeqNum seq 0 = Z.shiftl seq 4).
  { unfold SetSeqNum, seq. rewrite Z.land_0_l, Z.lor_0_l. rewrite (Z.land_ones _ 12) by lia.
    set (v := u16 _ mod 2 ^ 12). assert (0 <= v < 2 ^ 12) by (apply Z.mod_pos_bound; lia).
    apply Z.bits_inj'. intros j Hj. rewrite Z.land_spec, Z.shiftl_spec by done.
    destruct (decide (j < 4)).
    - rewrite (Z.testbit_neg_r v) by lia. by rewrite andb_false_r.
    - destruct (decide (j < 16)).
      + replace 0xfff0 with (Z.shiftl (Z.ones 12) 4) by done. rewrite Z.shiftl_spec, Z.ones_spec_low by lia. done.
      + rewrite (testbit_high 12 v) by lia. by rewrite andb_false_r. }
  by rewrite Hs.
Qed.
End Header.

Lemma hdr_ampdu_ret wdn x : length (Wi.ba_starting_seqctrl wdn) = 16%nat -> 0 <= Xf.priority x < 16 ->
  exists l b, length l = 16%nat /\
    hdr_ampdu wdn x = Ret (Wi.set_ba_starting_seqctrl l wdn, Xf.set_ampdu_en b x).
Proof.
  intros Hl Hp. unfold hdr_ampdu.
  match goal with |- context [if ?c then Xf.set_ampdu_en true x else x] =>
    set (x1 := if c then Xf.set_ampdu_en true x else x) end.
  assert (Hx1 : exists b, x1 = Xf.set_ampdu_en b x).
  { unfold x1. destruct (_ && _); [by exists true |]. exists (Xf.ampdu_en x). by destruct x. }
  destruct Hx1 as [b1 ->]. cbn [Xf.ampdu_en Xf.set_ampdu_en Xf.priority Xf.seqnum].
  assert (Hw : forall v, wr (Wi.ba_starting_seqctrl wdn) (Z.land (Xf.priority x) 0x0f) v =
    Ret (setZ (Wi.ba_starting_seqctrl wdn) (Z.land (Xf.priority x) 0x0f) v)).
  { intros v. apply wr_setZ. rewrite (Z.land_ones _ 4) by lia. rewrite Z.mod_small by lia. lia. }
  assert (Hid : wdn = Wi.set_ba_starting_seqctrl (Wi.ba_starting_seqctrl wdn) wdn) by (by destruct wdn).
  destruct b1.
  - rewrite rd_nthZ by (rewrite (Z.land_ones _ 4) by lia; rewrite Z.mod_small by lia; lia). cbn [cbind].
    destruct (SN_LESS _ _); [| destruct (SN_EQUAL _ _)]; rewrite ?Hw; cbn [cbind].
    + exists (Wi.ba_starting_seqctrl wdn), false. by rewrite <- Hid.
    + eexists _, true. split; [| reflexivity]. by rewrite setZ_length.
    + eexists _, true. split; [| reflexivity]. by rewrite setZ_length.
  - exists (Wi.ba_starting_seqctrl wdn), false. by rewrite <- Hid.
Qed.

(** ** One fragment *)

Definition trailer_of (x : Xf.xmit_frame) : Z := if nz (Xf.icv_len x) && Xf.bswenc x then Xf.icv_len x else 0.

(** The bytes a fragment takes before its payload's end: LLC in the first. *)
Definition llc_of (x : Xf.xmit_frame) (frg_inx : Z) : list Z :=
  if frg_inx =? 0 then tx_set_snap (Xf.ether_type x) else [].

(** The payload bytes of the next fragment, and where the code takes them from. *)
Definition room_of (frag_len : Z) (x : Xf.xmit_frame) (frg_inx : Z) : Z :=
  frag_len - Xf.hdrlen x - Xf.iv_len x - Z.of_nat (length (llc_of x frg_inx)) - trailer_of x.
Definition size_of (frag_len : Z) (x : Xf.xmit_frame) (msdu_len frg_inx off : Z) : Z :=
  if Xf.bmcast x then msdu_len - off else Z.min (room_of frag_len x frg_inx) (msdu_len - off).
Definition from_of (x : Xf.xmit_frame) (off : Z) : Z := if Xf.bmcast x then off else Xf.pkt_hdrlen x.

Lemma put_fragment_ret frag_len x msdu msdu_len pre fc H T frg_inx off :
  let n := size_of frag_len x msdu_len frg_inx off in
  let llc := llc_of x frg_inx in
  let ivb := take (Z.to_nat (Xf.iv_len x)) (Xf.iv x) in
  is_u16 fc -> Xf.hdrlen x = 2 + Z.of_nat (length H) ->
  0 <= Xf.iv_len x <= Z.of_nat (length (Xf.iv x)) ->
  0 <= n -> 0 <= from_of x off -> from_of x off + n <= Z.of_nat (length msdu) ->
  Xf.iv_len x + Z.of_nat (length llc) + n <= Z.of_nat (length T) ->
  put_fragment frag_len x msdu msdu_len (pre ++ le_bytes 2 fc ++ H ++ T) (Z.of_nat (length pre)) frg_inx off =
    Ret (pre ++ le_bytes 2 (SetMFrag fc) ++ H ++ ivb ++ llc ++
           take (Z.to_nat n) (drop (Z.to_nat (from_of x off)) msdu) ++
           drop (length ivb + length llc + Z.to_nat n) T,
         Z.of_nat (length pre) + Xf.hdrlen x + Xf.iv_len x + Z.of_nat (length llc) + n + trailer_of x,
         Z.of_nat (length llc), n, if Xf.bmcast x then off else off + n).
Proof.
  intros n llc ivb Hfc Hh Hiv Hn Hf0 Hf Hroom. unfold put_fragment. rewrite upd16_mid by done. cbn [cbind].
  set (P := pre ++ le_bytes 2 (SetMFrag fc) ++ H).
  assert (HP : Z.of_nat (length P) = Z.of_nat (length pre) + Xf.hdrlen x)
    by (unfold P; rewrite !length_app, length_le_bytes; lia).
  assert (EP : forall t, pre ++ le_bytes 2 (SetMFrag fc) ++ H ++ t = P ++ t)
    by (intros t; unfold P; by rewrite <- !app_assoc).
  rewrite !EP.
  assert (Hivl : length ivb = Z.to_nat (Xf.iv_len x)) by (unfold ivb; rewrite length_take; lia).
  assert (Hi : (if nz (Xf.iv_len x) then
       letc b := slice (Xf.iv x) 0 (Xf.iv_len x) in
       letc buf := blit (P ++ T) (Z.of_nat (length pre) + Xf.hdrlen x) b in
       Ret (buf, Z.of_nat (length pre) + Xf.hdrlen x + Xf.iv_len x, frag_len - Xf.hdrlen x - Xf.iv_len x)
     else Ret (P ++ T, Z.of_nat (length pre) + Xf.hdrlen x, frag_len - Xf.hdrlen x)) =
     Ret (P ++ ivb ++ drop (length ivb) T, Z.of_nat (length P) + Xf.iv_len x,
          frag_len - Xf.hdrlen x - Xf.iv_len x)).
  { unfold nz. destruct (Z.eqb_spec (Xf.iv_len x) 0) as [E |]; cbn [negb].
    - destruct ivb; [| cbn in Hivl; lia]. cbn [app length]. rewrite drop_0, E, HP. do 2 f_equal; [f_equal |]; lia.
    - rewrite slice_Ret by lia. cbn [cbind]. change (Z.to_nat 0) with 0%nat. rewrite drop_0. fold ivb.
      rewrite <- (take_drop (length ivb) T) at 1. rewrite blit_app_mid by (rewrite ?length_take; lia).
      cbn [cbind]. by rewrite HP. }
  rewrite Hi. cbn [cbind]. clear Hi.
  assert (Hl : (if frg_inx =? 0 then
       letc buf := blit (P ++ ivb ++ drop (length ivb) T) (Z.of_nat (length P) + Xf.iv_len x)
                     (tx_set_snap (Xf.ether_type x)) in
       Ret (buf, Z.of_nat (length P) + Xf.iv_len x + 8, frag_len - Xf.hdrlen x - Xf.iv_len x - 8, 8)
     else Ret (P ++ ivb ++ drop (length ivb) T, Z.of_nat (length P) + Xf.iv_len x,
               frag_len - Xf.hdrlen x - Xf.iv_len x, 0)) =
     Ret (P ++ ivb ++ llc ++ drop (length ivb + length llc) T,
          Z.of_nat (length P) + Xf.iv_len x + Z.of_nat (length llc),
          frag_len - Xf.hdrlen x - Xf.iv_len x - Z.of_nat (length llc), Z.of_nat (length llc))).
  { unfold llc, llc_of in *. destruct (frg_inx =? 0).
    - change (length (tx_set_snap (Xf.ether_type x))) with 8%nat in *.
      rewrite app_assoc. rewrite <- (take_drop 8 (drop (length ivb) T)) at 1.
      rewrite blit_app_mid by (rewrite ?length_app, ?length_take, ?length_drop;
        change (length (tx_set_snap (Xf.ether_type x))) with 8%nat; lia).
      cbn [cbind]. rewrite drop_drop. rewrite <- !app_assoc. done.
    - cbn [length app]. change (Z.of_nat 0) with 0. by rewrite Nat.add_0_r, Z.add_0_r, Z.sub_0_r. }
  rewrite Hl. cbn [cbind]. clear Hl. fold (trailer_of x).
  set (B := P ++ ivb ++ llc ++ drop (length ivb + length llc) T).
  assert (Hcopy : forall b, length b = Z.to_nat n ->
    blit B (Z.of_nat (length P) + Xf.iv_len x + Z.of_nat (length llc)) b =
    Ret (P ++ ivb ++ llc ++ b ++ drop (length ivb + length llc + Z.to_nat n) T)).
  { intros b Hb. unfold B. rewrite !app_assoc. rewrite <- (take_drop (Z.to_nat n) (drop _ T)) at 1.
    rewrite blit_app_mid by (rewrite ?length_app, ?length_take, ?length_drop; lia).
    rewrite drop_drop. by rewrite <- !app_assoc. }
  assert (Hb : length (take (Z.to_nat n) (drop (Z.to_nat (from_of x off)) msdu)) = Z.to_nat n)
    by (rewrite length_take, length_drop; lia).
  unfold size_of, from_of in *. destruct (Xf.bmcast x).
  - rewrite slice_Ret by lia. cbn [cbind]. rewrite Hcopy by done. cbn [cbind]. by rewrite HP.
  - unfold room_of in n. fold llc in n. fold (trailer_of x) in n.
    replace (if _ <? _ then _ else _) with n.
    2: { unfold n. destruct (Z.ltb_spec (frag_len - Xf.hdrlen x - Xf.iv_len x - Z.of_nat (length llc) - trailer_of x) (msdu_len - off)); lia. }
    rewrite slice_Ret by lia. cbn [cbind]. rewrite Hcopy by done. cbn [cbind]. by rewrite HP.
Qed.


(** ** Nodes *)

Definition node_ok (n : Wdn.wdn_node_st) : Prop :=
  length (Wi.txseq_tid (Wdn.info n)) = 16%nat /\ length (Wi.ba_starting_seqctrl (Wdn.info n)) = 16%nat /\
  length (Wi.dot11tkiptxmickey (Wdn.info n)) = 16%nat /\ bytes_ok (Wi.dot11tkiptxmickey (Wdn.info n)) /\
  length (Wi.dot118021x_UncstKey (Wdn.info n)) = 16%nat.

(** Nodes have distinct addresses and arrays of their declared sizes. *)
Definition nodes_ok (w : Wdn.wdn_list) : Prop :=
  NoDup (Wdn.addr <$> Wdn.head w) /\ Forall node_ok (Wdn.head w).

Lemma find_head w m n : Wdn.wf_wdn_find_info w (Some m) = Some n -> n ∈ Wdn.head w /\ Wi.mac (Wdn.info n) = m.
Proof.
  unfold Wdn.wf_wdn_find_info. destruct (list_find _ _) as [[j n'] |] eqn:E; [| done]. intros [= <-].
  apply list_find_Some in E as (E1 & E2 & _). split; [by eapply list_elem_of_lookup_2 |].
  unfold Wdn.has_mac in E2. apply Is_true_true in E2. by apply bool_decide_eq_true in E2.
Qed.

Lemma node_at_head w n : NoDup (Wdn.addr <$> Wdn.head w) -> n ∈ Wdn.head w ->
  node_at w (Wdn.addr n) = Some (Wdn.info n).
Proof.
  unfold node_at. intros Hnd Hin. induction (Wdn.head w) as [| m l IH]; [by apply not_elem_of_nil in Hin |].
  cbn [fmap list_fmap] in Hnd. apply NoDup_cons in Hnd as [Hm Hnd]. cbn [list_find].
  apply elem_of_cons in Hin as [-> | Hin].
  - by rewrite decide_True.
  - rewrite decide_False.
    2: { intros E. apply Hm. rewrite E. by apply list_elem_of_fmap_2. }
    specialize (IH Hnd Hin). destruct (list_find _ l) as [[j p] |]; [| done]. exact IH.
Qed.

Lemma set_node_addrs w a i : Wdn.addr <$> Wdn.head (set_node w a i) = Wdn.addr <$> Wdn.head w.
Proof.
  cbn [set_node Wdn.head]. rewrite <- list_fmap_compose. apply list_fmap_ext. intros j n _. cbn.
  destruct (Z.eqb_spec (Wdn.addr n) a); by subst.
Qed.

Lemma find_map (P : Wdn.wdn_node_st -> bool) (f : Wdn.wdn_node_st -> Wdn.wdn_node_st) l :
  (forall n, n ∈ l -> P (f n) = P n) ->
  snd <$> list_find P (f <$> l) = f ∘ snd <$> list_find P l.
Proof.
  intros Hf. induction l as [| m l IH]; [done |]. cbn [fmap list_fmap list_find].
  pose proof (Hf m ltac:(left)) as Hm.
  specialize (IH ltac:(intros; apply Hf; by right)).
  destruct (decide (P m)) as [H1 | H1].
  - rewrite decide_True by (by rewrite Hm). done.
  - rewrite decide_False by (by rewrite Hm).
    destruct (list_find P (f <$> l)) as [[? ?] |], (list_find P l) as [[? ?] |]; cbn in *; congruence.
Qed.

(** A change of a node that keeps its MAC address is found in its place. *)
Lemma find_set_node w m n i : NoDup (Wdn.addr <$> Wdn.head w) ->
  Wdn.wf_wdn_find_info w (Some m) = Some n -> Wi.mac i = m ->
  Wdn.wf_wdn_find_info (set_node w (Wdn.addr n) i) (Some m) = Some (Wdn.mk_node (Wdn.addr n) i).
Proof.
  intros Hnd Hf Hm. destruct (find_head _ _ _ Hf) as [Hin Hmac]. revert Hf.
  unfold Wdn.wf_wdn_find_info. cbn [set_node Wdn.head]. rewrite find_map.
  - intros Hf. destruct (list_find _ _) as [[j p] |]; [| done]. cbn in *. injection Hf as ->. by rewrite Z.eqb_refl.
  - intros p Hp. destruct (Z.eqb_spec (Wdn.addr p) (Wdn.addr n)) as [E |]; [| done].
    assert (p = n) as ->.
    { apply list_elem_of_lookup in Hp as [jp Hjp], Hin as [jn Hjn].
      assert (jp = jn) as ->.
      { eapply (NoDup_lookup _ jp jn (Wdn.addr n)); [exact Hnd | |]; rewrite list_lookup_fmap, ?Hjp, ?Hjn; cbn; congruence. }
      congruence. }
    unfold Wdn.has_mac. cbn. by rewrite Hm, Hmac.
Qed.

Lemma nodes_ok_set w n i : nodes_ok w -> node_ok (Wdn.mk_node (Wdn.addr n) i) ->
  nodes_ok (set_node w (Wdn.addr n) i).
Proof.
  intros [Hnd Hall] Hn. split; [by rewrite set_node_addrs |]. cbn [set_node Wdn.head].
  apply Forall_fmap. eapply Forall_impl; [exact Hall |]. intros p Hp. cbn.
  by destruct (Wdn.addr p =? Wdn.addr n).
Qed.

(** ** Prepared frames *)

(** The lengths of IV and ICV and who encrypts, by cipher. *)
Definition sec_lens (x : Xf.xmit_frame) : Prop :=
  let a := Xf.encrypt_algo x in
  (Xf.iv_len x, Xf.icv_len x) =
    (if (a =? _WEP40_) || (a =? _WEP104_) then (4, 4) else if a =? _TKIP_ then (8, 4)
     else if a =? _AES_ then (8, 8) else (0, 0)) /\
  Xf.bswenc x = negb (a =? _AES_).

(** A frame that [wf_xmit_frame_init] has prepared for the packet [msdu] and
    the node [n]. *)
Record prepared (nic : tx_nic) (w : Wdn.wdn_list) (x : Xf.xmit_frame) (msdu : list Z)
    (n : Wdn.wdn_node_st) : Prop := {
  pr_receiver : receiver nic w msdu = Some n;
  pr_pwdn : Xf.pwdn x = Some (Wdn.addr n);
  pr_bmcast : Xf.bmcast x =
    IS_MCAST (addrs_of (work_mode nic) (cur_bssid nic) (take 6 msdu) (take 6 (drop 6 msdu))).1.1;
  pr_type : Xf.ether_type x = be_word (take 2 (drop 12 msdu));
  pr_pkt_hdrlen : Xf.pkt_hdrlen x = 14;
  pr_hdrlen : Xf.hdrlen x = if nz (Wi.qos_option (Wdn.info n)) then 26 else 24;
  pr_priority : 0 <= Xf.priority x < 8;
  pr_iv : length (Xf.iv x) = 18%nat;
  pr_lens : sec_lens x;
}.

Lemma chk_qos_range m p : 0 <= p < 8 -> 0 <= wf_chk_qos m p 1 < 8.
Proof. intros Hp. unfold wf_chk_qos. repeat case_match; lia. Qed.

Lemma sec_init_ok nic wdn x wdn' x' :
  xmit_frame_sec_init nic wdn x = (true, wdn', x') -> length (Xf.iv x) = 18%nat ->
  (exists pn, wdn' = Wi.set_dot11txpn pn wdn) /\ sec_lens x' /\ length (Xf.iv x') = 18%nat /\
  Xf.bmcast x' = Xf.bmcast x /\ Xf.ether_type x' = Xf.ether_type x.
Proof.
  intros Hs Hiv. unfold xmit_frame_sec_init in Hs.
  set (x0 := Xf.set_dot118021x_UncstKey _ _) in Hs.
  destruct (sec_select nic wdn x0) as [ok1 x1] eqn:E1. destruct ok1; [| done]. cbn [negb] in Hs.
  assert (H1 : Xf.iv x1 = Xf.iv x /\ Xf.bmcast x1 = Xf.bmcast x /\ Xf.ether_type x1 = Xf.ether_type x).
  { unfold sec_select in E1. repeat case_match; by simplify_eq. }
  destruct H1 as (H1 & H2 & H3). clear E1.
  destruct (sec_iv nic wdn x1) as [[ok2 wdn2] x2] eqn:E2. destruct ok2; [| done]. cbn [negb] in Hs.
  assert (Hwdn : wdn = Wi.set_dot11txpn (Wi.dot11txpn wdn) wdn) by (by destruct wdn).
  assert (Hput : forall b, (length b <= 18)%nat -> length (iv_put b (Xf.iv x1)) = 18%nat)
    by (intros b Hb; unfold iv_put; rewrite length_app, length_drop, H1; lia).
  assert (Hx2 : (exists pn, wdn2 = Wi.set_dot11txpn pn wdn) /\ length (Xf.iv x2) = 18%nat /\
    Xf.encrypt_algo x2 = Xf.encrypt_algo x1 /\ Xf.bmcast x2 = Xf.bmcast x1 /\
    Xf.ether_type x2 = Xf.ether_type x1 /\
    (Xf.iv_len x2, Xf.icv_len x2) =
      (if (Xf.encrypt_algo x1 =? _WEP40_) || (Xf.encrypt_algo x1 =? _WEP104_) then (4, 4)
       else if Xf.encrypt_algo x1 =? _TKIP_ then (8, 4)
       else if Xf.encrypt_algo x1 =? _AES_ then (8, 8) else (0, 0))).
  { unfold sec_iv, Tkip.WEP_IV, Tkip.TKIP_IV, Tkip.AES_IV in E2.
    destruct ((Xf.encrypt_algo x1 =? _WEP40_) || (Xf.encrypt_algo x1 =? _WEP104_));
      [| destruct (Xf.encrypt_algo x1 =? _TKIP_); [destruct (negb (busetkipkey nic)); [done |] |
         destruct (Xf.encrypt_algo x1 =? _AES_)]];
      injection E2 as <- <-; (split; [by eauto |]); (split; [first [apply Hput; cbn; lia | cbn; by rewrite H1] |]); done. }
  destruct Hx2 as (Hw & Hi & Ha & Hb & Ht & Hl). clear E2. rewrite Ha in Hs.
  injection Hs as <- <-. rewrite <- H2, <- H3, <- Hb, <- Ht. split; [done |].
  unfold sec_lens. destruct (_ && _); cbn; rewrite ?Ha; done.
Qed.

Lemma ra_addr_ret nic msdu : transmits (work_mode nic) -> (14 <= length msdu)%nat ->
  ra_addr nic msdu = Ret (Some (addrs_of (work_mode nic) (cur_bssid nic) (take 6 msdu) (take 6 (drop 6 msdu))).1.1).
Proof.
  intros Hmode Hlen. unfold ra_addr, wf_mlme_check_mode, addrs_of.
  rewrite !slice_Ret by lia. change (Z.to_nat 0) with 0%nat. rewrite drop_0.
  by destruct Hmode as [-> | [-> | ->]].
Qed.

Lemma ip_classify_tos msdu pktlen tos d : bytes_ok msdu -> ip_classify msdu pktlen = Ret (tos, d) -> is_u8 tos.
Proof.
  intros Hb Hc. unfold ip_classify in Hc. cinv Hc.
  assert (Ht : is_u8 a1).
  { unfold rd in E1. destruct (_ <? 0); [done |]. destruct (msdu !! _) eqn:El; [| done]. injection E1 as <-.
    by eapply Forall_lookup_1 in El. }
  destruct (_ =? _); cinv Hc; by injection Hc as <- _.
Qed.

Lemma frame_fields_ok nic a wdn tos x : is_u8 tos -> let x' := frame_fields nic a wdn tos x in
  Xf.pwdn x' = Some a /\ Xf.bmcast x' = Xf.bmcast x /\ Xf.ether_type x' = Xf.ether_type x /\
  Xf.pkt_hdrlen x' = 14 /\ Xf.hdrlen x' = (if nz (Wi.qos_option wdn) then 26 else 24) /\
  0 <= Xf.priority x' < 8 /\ Xf.iv x' = Xf.iv x /\ (sec_lens x -> sec_lens x').
Proof.
  intros Ht x'. unfold is_u8 in Ht.
  assert (Hs : 0 <= u8 (Z.shiftr tos 5) < 8).
  { rewrite Z.shiftr_div_pow2 by lia. change (2 ^ 5) with 32. unfold u8.
    assert (0 <= tos / 32 < 8) by (split; [apply Z.div_pos; lia | apply Z.div_lt_upper_bound; lia]).
    rewrite Z.mod_small; lia. }
  assert (Hq : 0 <= u8 (if Xf.ether_type x =? 0x0800 then Z.shiftr tos 5 else 0) < 8)
    by (destruct (_ =? _); [done | by split]).
  unfold x', frame_fields, do_set_qos. clear x'.
  pose proof (chk_qos_range (acm_mask nic a) _ Hq) as Hc.
  destruct (nz (Wi.qos_option wdn)), (negb (acm_mask nic a =? 0)), (dot80211n_support (hw_info nic));
    (split_and!; first [apply Hq | apply Hc | done]).
Qed.

(** What [wf_xmit_frame_init] leaves when it accepts a packet. *)
Lemma init_prepared nic w x msdu msdu_len w' x' :
  nodes_ok w -> transmits (work_mode nic) -> length (Xf.iv x) = 18%nat -> bytes_ok msdu -> (14 <= length msdu)%nat ->
  wf_xmit_frame_init nic w x msdu msdu_len = Ret (true, w', x') ->
  exists n pn, let n' := Wdn.mk_node (Wdn.addr n) (Wi.set_dot11txpn pn (Wdn.info n)) in
    receiver nic w msdu = Some n /\ w' = set_node w (Wdn.addr n) (Wdn.info n') /\
    nodes_ok w' /\ prepared nic w' x' msdu n'.
Proof.
  intros Hw Hmode Hiv Hmsdu Hlen Hinit. unfold wf_xmit_frame_init in Hinit.
  rewrite ra_addr_ret, slice_Ret in Hinit by (done || lia). cbn [cbind] in Hinit.
  unfold receiver. set (a1 := (addrs_of _ _ _ _).1.1) in *. cbn [Xf.bmcast Xf.set_bmcast Xf.set_ether_type] in Hinit.
  destruct (Wdn.wf_wdn_find_info w _) as [n |] eqn:Hn; [| done].
  set (x1 := Xf.set_dhcp_pkt 0 _) in Hinit. cinv Hinit. destruct a as [tos dhcp].
  assert (Htos : is_u8 tos).
  { destruct (_ =? _); [by eapply ip_classify_tos | injection E as <- <-; unfold is_u8; lia]. }
  destruct (xmit_frame_sec_init _ _ _) as [[ok wdn] x2] eqn:Hs. destruct ok; [| done]. cbn [negb] in Hinit.
  injection Hinit as <- <-. apply sec_init_ok in Hs as ((pn & ->) & Hl & Hi & Hb & Ht); [| done].
  exists n, pn. cbn zeta. cbn [Wdn.info]. destruct (find_head _ _ _ Hn) as [Hin Hmac].
  pose proof (frame_fields_ok nic (Wdn.addr n) (Wi.set_dot11txpn pn (Wdn.info n)) tos x2 Htos) as
    (F1 & F2 & F3 & F4 & F5 & F6 & F7 & F8).
  split; [done |]. split; [done |]. split.
  { apply nodes_ok_set; [done |]. destruct Hw as [_ Hall]. rewrite list.Forall_forall in Hall. exact (Hall n Hin). }
  constructor.
  - unfold receiver. fold a1. by rewrite (find_set_node w _ n) by (done || apply Hw).
  - done.
  - rewrite F2, Hb. done.
  - rewrite F3, Ht. done.
  - done.
  - done.
  - done.
  - by rewrite F7.
  - by apply F8.
Qed.

(** ** A packet in one fragment *)

Definition fits (frag_len : Z) (x : Xf.xmit_frame) (msdu : list Z) : Prop :=
  Xf.bmcast x = true \/
  Xf.hdrlen x + Xf.iv_len x + 8 + (Z.of_nat (length msdu) - 14) + trailer_of x <= frag_len.

Lemma mfrag_cancel fc : is_u16 fc -> Z.testbit fc 10 = false -> ClearMFrag (SetMFrag fc) = fc.
Proof.
  intros Hf Hb. unfold is_u16 in Hf. unfold ClearMFrag, SetMFrag. apply Z.bits_inj'. intros j Hj.
  rewrite Z.land_spec, Z.lor_spec. destruct (decide (j < 16)).
  - assert (Hc : j = 10 \/ (Z.testbit (BIT 10) j = false /\ Z.testbit (65535 - BIT 10) j = true)).
    { destruct (decide (j = 10)); [by left | right].
      assert (Hj16 : j ∈ seqZ 0 16) by (apply elem_of_seqZ; lia).
      revert Hj16. change (seqZ 0 16) with [0;1;2;3;4;5;6;7;8;9;10;11;12;13;14;15].
      rewrite !elem_of_cons, elem_of_nil. intros Hin. naive_solver. }
    destruct Hc as [-> | [-> ->]]; [by rewrite Hb | by rewrite orb_false_r, andb_true_r].
  - rewrite (testbit_high 16 fc) by lia. rewrite (testbit_high 16 (BIT 10)) by (by split || lia).
    done.
Qed.

Lemma put_single fuel frag_len x msdu pre fc H T :
  is_u16 fc -> Z.testbit fc 10 = false -> Xf.hdrlen x = 2 + Z.of_nat (length H) -> Xf.hdrlen x <= 26 ->
  sec_lens x -> length (Xf.iv x) = 18%nat -> Xf.pkt_hdrlen x = 14 ->
  (14 <= length msdu)%nat -> Z.of_nat (length msdu) < 2 ^ 31 -> fits frag_len x msdu ->
  Xf.iv_len x + 8 + (Z.of_nat (length msdu) - 14) <= Z.of_nat (length T) ->
  let ivb := take (Z.to_nat (Xf.iv_len x)) (Xf.iv x) in
  put_fragments (S fuel) frag_len x msdu (Z.of_nat (length msdu)) (pre ++ le_bytes 2 fc ++ H ++ T)
      (Z.of_nat (length pre)) 0 14 =
    Ret (pre ++ le_bytes 2 fc ++ H ++ ivb ++ tx_set_snap (Xf.ether_type x) ++ drop 14 msdu ++
           drop (length ivb + 8 + (length msdu - 14)) T,
         Xf.set_last_txcmdsz (Xf.hdrlen x + Xf.iv_len x + 8 + (Z.of_nat (length msdu) - 14) + trailer_of x)
           (Xf.set_nr_frags 1 x)).
Proof.
  intros Hfc H10 Hh Hh26 Hs Hiv Hpk Hm Hm31 Hfit HT ivb. destruct Hs as [Hs1 Hs2].
  assert (Hivl : 0 <= Xf.iv_len x <= 8 /\ 0 <= Xf.icv_len x <= 8) by (repeat case_match; simplify_eq; lia).
  assert (Hn : size_of frag_len x (Z.of_nat (length msdu)) 0 14 = Z.of_nat (length msdu) - 14).
  { unfold size_of, room_of, llc_of. cbn [Z.eqb]. change (Z.of_nat (length (tx_set_snap _))) with 8.
    destruct Hfit as [-> |]; [done |]. destruct (Xf.bmcast x); lia. }
  assert (Hf : from_of x 14 = 14) by (unfold from_of; destruct (Xf.bmcast x); [done | by rewrite Hpk]).
  assert (Htr : (if Xf.bswenc x then Xf.icv_len x else 0) = trailer_of x).
  { unfold trailer_of, nz. destruct (Xf.bswenc x); [| by rewrite andb_false_r].
    by destruct (Z.eqb_spec (Xf.icv_len x) 0). }
  assert (Ht8 : 0 <= trailer_of x <= 8) by (unfold trailer_of; destruct (_ && _); lia).
  cbn [put_fragments].
  rewrite put_fragment_ret; rewrite ?Hn, ?Hf; try (done || lia).
  cbn [cbind]. fold ivb.
  assert (Hend : Xf.bmcast x || ((if Xf.bmcast x then 14 else 14 + (Z.of_nat (length msdu) - 14)) =? Z.of_nat (length msdu)) = true).
  { destruct (Xf.bmcast x); [done |]. cbn [orb]. apply Z.eqb_eq. lia. }
  rewrite Hend. unfold llc_of. cbn [Z.eqb]. change (length (tx_set_snap _)) with 8%nat.
  rewrite upd16_mid; [| | done].
  2: { unfold is_u16, SetMFrag in *. apply (lor_range 16); [lia | done | by split]. }
  cbn [cbind]. rewrite mfrag_cancel by done. rewrite Htr.
  rewrite u32_id by (unfold is_u32; lia).
  replace (Z.to_nat (Z.of_nat (length msdu) - 14)) with (length msdu - 14)%nat by lia.
  change (Z.to_nat 14) with 14%nat. rewrite (take_ge (drop 14 msdu)) by (rewrite length_drop; lia).
  done.
Qed.

(** ** The MIC of one fragment *)

Lemma slice_skip (pre t : list Z) k n : 0 <= k -> slice (pre ++ t) (Z.of_nat (length pre) + k) n = slice t k n.
Proof.
  intros Hk. unfold slice. rewrite length_app.
  replace (0 <=? Z.of_nat (length pre) + k) with true by (symmetry; apply Z.leb_le; lia).
  replace (0 <=? k) with true by (symmetry; apply Z.leb_le; lia). cbn [andb].
  replace (Z.of_nat (length pre) + k + n <=? Z.of_nat (length pre + length t)) with (k + n <=? Z.of_nat (length t)).
  2: { destruct (Z.leb_spec (k + n) (Z.of_nat (length t))), (Z.leb_spec (Z.of_nat (length pre) + k + n) (Z.of_nat (length pre + length t))); (done || lia). }
  replace (Z.to_nat (Z.of_nat (length pre) + k)) with (length pre + Z.to_nat k)%nat by lia.
  by rewrite drop_app_add.
Qed.

(** The direction bits select the original destination and source. *)
Lemma mic_addrs_ret mode qos priv bss dst src pre rest :
  transmits mode -> length bss = 6%nat -> length dst = 6%nat -> length src = 6%nat ->
  let a := addrs_of mode bss dst src in
  mic_addrs (pre ++ le_bytes 2 (frame_control_of mode qos priv) ++ [0; 0] ++ a.1.1 ++ a.1.2 ++ a.2 ++ rest)
    (Z.of_nat (length pre)) = Ret (dst, src).
Proof.
  intros Hmode Hb Hd Hs a. unfold mic_addrs.
  set (fc := frame_control_of mode qos priv).
  assert (L : length a.1.1 = 6%nat /\ length a.1.2 = 6%nat /\ length a.2 = 6%nat)
    by (unfold a, addrs_of; by repeat case_match).
  destruct L as (L1 & L2 & L3).
  set (buf := pre ++ le_bytes 2 fc ++ [0; 0] ++ a.1.1 ++ a.1.2 ++ a.2 ++ rest).
  assert (E1 : rd buf (Z.of_nat (length pre) + 1) = Ret (fc / 256 mod 256)).
  { unfold buf. change (le_bytes 2 fc ++ ?t) with ([fc mod 256] ++ (fc / 256 mod 256) :: t).
    rewrite app_assoc. apply rd_app_mid. rewrite length_app. cbn [length]. lia. }
  assert (S1 : slice buf (Z.of_nat (length pre) + 4) 6 = Ret a.1.1).
  { unfold buf. rewrite slice_skip by lia. apply (slice_app_mid (le_bytes 2 fc ++ [0; 0])); [done | by rewrite L1]. }
  assert (S2 : slice buf (Z.of_nat (length pre) + 10) 6 = Ret a.1.2).
  { unfold buf. rewrite slice_skip by lia.
    change (le_bytes 2 fc ++ [0; 0] ++ ?t) with ((le_bytes 2 fc ++ [0; 0]) ++ t). rewrite (app_assoc _ a.1.1).
    apply slice_app_mid; [by rewrite length_app, L1 | by rewrite L2]. }
  assert (S3 : slice buf (Z.of_nat (length pre) + 16) 6 = Ret a.2).
  { unfold buf. rewrite slice_skip by lia.
    change (le_bytes 2 fc ++ [0; 0] ++ ?t) with ((le_bytes 2 fc ++ [0; 0]) ++ t).
    rewrite (app_assoc _ a.1.1), (app_assoc _ a.1.2).
    apply slice_app_mid; [by rewrite !length_app, L1, L2 | by rewrite L3]. }
  clearbody buf. rewrite E1. cbn [cbind]. revert S1 S2 S3. unfold fc, a, addrs_of.
  destruct Hmode as [-> | [-> | ->]]; cbn [Z.eqb Pos.eqb Rx.WF_INFRA_MODE Rx.WF_MASTER_MODE Rx.WF_ADHOC_MODE fst snd].
  - intros _ S2 S3. replace (nz _) with true by (by destruct qos, priv). rewrite S3. cbn [cbind].
    replace (nz _) with false by (by destruct qos, priv). by rewrite S2.
  - intros S1 _ S3. replace (nz _) with false by (by destruct qos, priv). rewrite S1. cbn [cbind].
    replace (nz _) with true by (by destruct qos, priv). by rewrite S3.
  - intros S1 S2 _. replace (nz _) with false by (by destruct qos, priv). rewrite S1. cbn [cbind].
    replace (nz _) with false by (by destruct qos, priv). by rewrite S2.
Qed.

Lemma snap_ok t : bytes_ok (tx_set_snap t).
Proof.
  unfold tx_set_snap, bytes_ok. rewrite !Forall_cons. split_and!; try (by apply u8_range); try (unfold is_u8; lia).
  - unfold is_u8. destruct (_ || _); lia.
  - constructor.
Qed.

Lemma michael_length key msg : length (Mic.michael key msg) = 8%nat.
Proof. unfold Mic.michael. destruct (Mic.michael_blocks _ _) as [[l r] ?]. by rewrite length_app, !length_le_bytes. Qed.

Lemma addmic_single nic w x n key da sa pre H body R :
  Xf.encrypt_algo x = _TKIP_ -> mic_key nic x = Ret key -> key <> replicate 16 0 ->
  bytes_ok key -> (8 <= length key)%nat ->
  mic_addrs (pre ++ H ++ body ++ R) 20 = Ret (da, sa) -> bytes_ok da -> bytes_ok sa -> bytes_ok body ->
  Xf.pwdn x = Some (Wdn.addr n) -> node_at w (Wdn.addr n) = Some (Wdn.info n) ->
  length pre = 20%nat -> Z.of_nat (length H) = Xf.hdrlen x + Xf.iv_len x -> (8 <= length R)%nat ->
  Xf.nr_frags x = 1 -> Xf.last_txcmdsz x = Z.of_nat (length H + length body) + Xf.icv_len x ->
  0 <= Xf.icv_len x <= 8 -> Z.of_nat (length H + length body) < 2 ^ 30 -> 0 <= Xf.priority x < 256 ->
  let pri := if nz (Wi.qos_option (Wdn.info n)) then Xf.priority x else 0 in
  frame_txp_addmic nic w x (pre ++ H ++ body ++ R) =
    Ret (true, Xf.set_last_txcmdsz (Xf.last_txcmdsz x + 8) x,
         pre ++ H ++ body ++ Mic.michael key (da ++ sa ++ [pri; 0; 0; 0] ++ body) ++ drop 8 R).
Proof.
  intros Ha Hk Hnz Hkb Hkl Hda Hdb Hsb Hbb Hp Hn Hpre HH HR Hnf Hlast Hicv Hlen Hpri pri.
  unfold frame_txp_addmic. rewrite Ha, Hk. cbn [Z.eqb _TKIP_ Pos.eqb cbind]. unfold bytes_eqb.
  rewrite bool_decide_eq_false_2 by done.
  assert (Hpb : bytes_ok [pri; 0; 0; 0]).
  { unfold bytes_ok, is_u8. rewrite !Forall_cons. split_and!; try lia; [| | constructor];
      unfold pri; destruct (nz _); lia. }
  destruct (Mic.stream_michael key [da; sa; [pri; 0; 0; 0]; body]) as (d & Hd & Hm);
    [done | done | by rewrite !Forall_cons |].
  rewrite Hd. cbn [cbind]. change TXDESC_OFFSET with 20. rewrite Hda. cbn [cbind]. rewrite Hp. cbn [of_option cbind].
  rewrite Hn. cbn [of_option cbind].
  replace (if nz (Wi.qos_option (Wdn.info n)) then u8 (Xf.priority x) else 0) with pri
    by (unfold pri; by rewrite u8_id by (unfold is_u8; lia)).
  rewrite Hnf. change (Z.to_nat 1) with 1%nat. cbn [mic_fragments]. rewrite Hnf. cbn [Z.ltb Z.compare Z.add Z.eqb Pos.eqb].
  change (WF_RND4 20) with 20.
  replace (s32 (Xf.last_txcmdsz x - Xf.hdrlen x - Xf.iv_len x - Xf.icv_len x)) with (Z.of_nat (length body)).
  2: { rewrite Hlast. unfold s32. rewrite Z.mod_small by lia. lia. }
  rewrite (app_assoc pre). rewrite slice_app_mid by (rewrite ?length_app; lia). cbn [cbind].
  change (0 + 1 =? 1) with true. change (0 + 1 <? 1) with false. cbn [cbind].
  cbn [foldl concat] in Hm. rewrite app_nil_r in Hm. rewrite Hm. cbn [cbind].
  assert (Hml : length (Mic.michael key (da ++ sa ++ [pri; 0; 0; 0] ++ body)) = 8%nat)
    by apply michael_length.
  rewrite <- (take_drop 8 R) at 1. rewrite (app_assoc _ body).
  rewrite blit_app_mid by (rewrite ?length_app, ?length_take; lia). cbn [cbind].
  rewrite u32_id by (unfold is_u32; lia). by rewrite <- !app_assoc.
Qed.

(** ** The frame of a packet *)

(** The bytes on the air, before encryption and without the ICV: header, QoS
    control, IV, LLC, payload and, under TKIP, the MIC with [key]. *)
Definition mpdu (nic : tx_nic) (x : Xf.xmit_frame) (qos : bool) (msdu : list Z) (seq : Z) (key : list Z) : list Z :=
  let dst := take 6 msdu in
  let src := take 6 (drop 6 msdu) in
  let a := addrs_of (work_mode nic) (cur_bssid nic) dst src in
  let pri := if qos then Xf.priority x else 0 in
  let body := tx_set_snap (be_word (take 2 (drop 12 msdu))) ++ drop 14 msdu in
  header (frame_control_of (work_mode nic) qos (nz (Xf.encrypt_algo x))) a.1.1 a.1.2 a.2 seq ++
  (if qos then le_bytes 2 pri else []) ++
  take (Z.to_nat (Xf.iv_len x)) (Xf.iv x) ++ body ++
  (if Xf.encrypt_algo x =? _TKIP_ then Mic.michael key (dst ++ src ++ [pri; 0; 0; 0] ++ body) else []).

(** The key of the MIC is one the driver accepts. *)
Definition mic_key_ok (nic : tx_nic) (x : Xf.xmit_frame) (key : list Z) : Prop :=
  Xf.encrypt_algo x = _TKIP_ ->
  mic_key nic x = Ret key /\ key <> replicate 16 0 /\ bytes_ok key /\ length key = 16%nat.

Lemma in_set_node w n i : n ∈ Wdn.head w -> Wdn.mk_node (Wdn.addr n) i ∈ Wdn.head (set_node w (Wdn.addr n) i).
Proof.
  intros Hin. cbn [set_node Wdn.head]. apply list_elem_of_fmap. exists n. by rewrite Z.eqb_refl.
Qed.

Section Build.
Context (nic : tx_nic) (w : Wdn.wdn_list) (x : Xf.xmit_frame) (msdu buf key : list Z) (n : Wdn.wdn_node_st).
Context (Hw : nodes_ok w) (Hmode : transmits (work_mode nic)) (Hbss : length (cur_bssid nic) = 6%nat).
Context (Hmsdu : (14 <= length msdu)%nat) (Hm30 : Z.of_nat (length msdu) < 2 ^ 29) (Hmb : bytes_ok msdu).
Context (Hpr : prepared nic w x msdu n).
Context (Hbuf : (84 <= length buf)%nat) (Hbuf2 : (length msdu + 64 <= length buf)%nat).
Let qos := nz (Wi.qos_option (Wdn.info n)).
Let seq := Z.land (u16 (nthZ (Wi.txseq_tid (Wdn.info n)) (Xf.priority x) + 1)) 0xFFF.
Let m := mpdu nic x qos msdu seq key.

Lemma node_in : n ∈ Wdn.head w /\ node_ok n.
Proof using All.
  destruct (find_head _ _ _ (pr_receiver _ _ _ _ _ Hpr)) as [Hin _]. split; [done |].
  destruct Hw as [_ Hall]. rewrite list.Forall_forall in Hall. by apply Hall.
Qed.

(** What [tx_mac_hdr_build] leaves for the fragments. *)
Lemma header_built : exists wdn' b H T,
  let x' := Xf.set_ampdu_en b (Xf.set_seqnum seq x) in
  tx_mac_hdr_build nic w x msdu buf 20 =
    Ret (true, set_node w (Wdn.addr n) wdn', x',
         take 20 buf ++ le_bytes 2 (frame_control_of (work_mode nic) qos (nz (Xf.encrypt_algo x))) ++ H ++ T) /\
  node_ok (Wdn.mk_node (Wdn.addr n) wdn') /\ Wi.qos_option wdn' = Wi.qos_option (Wdn.info n) /\
  Wi.mac wdn' = Wi.mac (Wdn.info n) /\
  (let a := addrs_of (work_mode nic) (cur_bssid nic) (take 6 msdu) (take 6 (drop 6 msdu)) in
   H = [0; 0] ++ a.1.1 ++ a.1.2 ++ a.2 ++ le_bytes 2 (Z.shiftl seq 4) ++
         (if qos then le_bytes 2 (Xf.priority x) else [])) /\
  Xf.hdrlen x = 2 + Z.of_nat (length H) /\ (2 + length H + length T = length buf - 20)%nat.
Proof using All.
  destruct node_in as [Hin Hok]. pose proof Hpr as [P1 P2 P3 P4 P5 P6 P7 P8 P9].
  assert (Hpri : 0 <= Xf.priority x < 16) by lia.
  pose proof (hdr_build_ret nic msdu (take 20 buf) (drop 84 buf) 20 Hmode Hbss Hmsdu w x (take 64 (drop 20 buf)) n
    P1 P2 ltac:(rewrite length_take, length_drop; lia) ltac:(rewrite length_take; lia) ltac:(apply Hok) Hpri) as Hb.
  cbv zeta in Hb. fold qos seq in Hb. specialize (Hb ltac:(intros Hq; by rewrite P6; fold qos; rewrite Hq)).
  replace (take 20 buf ++ take 64 (drop 20 buf) ++ drop 84 buf) with buf in Hb.
  2: { change 84%nat with (20 + 64)%nat. rewrite <- drop_drop. by rewrite !take_drop. }
  set (wdn1 := Wi.set_txseq_tid _ _) in Hb.
  assert (Ha : exists l b, length l = 16%nat /\
    (if dot80211n_support (hw_info nic) then hdr_ampdu wdn1 (Xf.set_seqnum seq x) else Ret (wdn1, Xf.set_seqnum seq x)) =
      Ret (Wi.set_ba_starting_seqctrl l wdn1, Xf.set_ampdu_en b (Xf.set_seqnum seq x))).
  { destruct (dot80211n_support (hw_info nic)).
    - apply hdr_ampdu_ret; [apply Hok | exact Hpri].
    - exists (Wi.ba_starting_seqctrl wdn1), (Xf.ampdu_en x). split; [apply Hok |]. by destruct x, wdn1. }
  destruct Ha as (l & b & Hl & Ha). rewrite Ha in Hb. cbn [cbind] in Hb.
  assert (HL : length (addrs_of (work_mode nic) (cur_bssid nic) (take 6 msdu) (take 6 (drop 6 msdu))).1.1 = 6%nat /\
    length (addrs_of (work_mode nic) (cur_bssid nic) (take 6 msdu) (take 6 (drop 6 msdu))).1.2 = 6%nat /\
    length (addrs_of (work_mode nic) (cur_bssid nic) (take 6 msdu) (take 6 (drop 6 msdu))).2 = 6%nat).
  { unfold addrs_of. repeat case_match; cbn [fst snd]; rewrite ?length_take, ?length_drop; lia. }
  destruct HL as (L1 & L2 & L3).
  exists (Wi.set_ba_starting_seqctrl l wdn1), b. eexists _, ((if qos then [] else le_bytes 2 0) ++ replicate 38 0 ++ drop 84 buf).
  cbv zeta. split_and!; [rewrite Hb | | | | reflexivity | |]; clear Hb Ha.
  - do 3 f_equal. unfold with_header. destruct qos; rewrite <- !app_assoc; done.
  - unfold node_ok, wdn1. cbn. rewrite setZ_length. by destruct Hok as (? & ? & ? & ? & ?).
  - done.
  - done.
  - rewrite P6. fold qos. rewrite !length_app, L1, L2, L3, length_le_bytes. destruct qos; cbn [length]; rewrite ?length_le_bytes; lia.
  - rewrite !length_app, L1, L2, L3, length_replicate, length_drop, length_le_bytes.
    destruct qos; cbn [length]; rewrite ?length_le_bytes; lia.
Qed.

Context (Hfit : fits (frag_thresh (hw_info nic)) x msdu) (Hkey : mic_key_ok nic x key).

(** The frame control word of a data frame: 16 bits, one fragment. *)
Lemma fc_ok q p : is_u16 (frame_control_of (work_mode nic) q p) /\
  Z.testbit (frame_control_of (work_mode nic) q p) 10 = false.
Proof using Hmode. destruct Hmode as [-> | [-> | ->]], q, p; (split; [by split | done]). Qed.

Lemma mpdu_built : exists w' x' tail,
  wf_tx_msdu_to_mpdu nic w x (Some buf) msdu (Z.of_nat (length msdu)) =
    Ret (true, w', x', Some (take 20 buf ++ m ++ tail)) /\
  length (take 20 buf ++ m ++ tail) = length buf /\
  nodes_ok w' /\
  Xf.seqnum x' = seq /\ Xf.nr_frags x' = 1 /\
  Xf.last_txcmdsz x' = Z.of_nat (length m) + trailer_of x /\
  (Xf.encrypt_algo x', Xf.hdrlen x', Xf.iv_len x', Xf.icv_len x', Xf.bmcast x', Xf.dot118021x_UncstKey x',
   Xf.pwdn x', Xf.frame_tag x') =
    (Xf.encrypt_algo x, Xf.hdrlen x, Xf.iv_len x, Xf.icv_len x, Xf.bmcast x, Xf.dot118021x_UncstKey x,
     Xf.pwdn x, Xf.frame_tag x) /\
  (8 <= length tail)%nat.
Proof using All.
  destruct header_built as (wdn' & b & H & T & Hb & Hnok & Hq & Hmac & HH & Hhl & HT).
  destruct node_in as [Hin Hok]. pose proof Hpr as [P1 P2 P3 P4 P5 P6 P7 P8 P9].
  set (x0 := Xf.set_ampdu_en b (Xf.set_seqnum seq x)) in *.
  destruct (fc_ok qos (nz (Xf.encrypt_algo x))) as [Hfc1 Hfc2].
  set (fc := frame_control_of _ _ _) in *. set (w' := set_node w (Wdn.addr n) wdn') in *.
  assert (Hpre : length (take 20 buf) = 20%nat) by (rewrite length_take; lia).
  pose proof P9 as [Hl1 Hl2].
  assert (Hivl : 0 <= Xf.iv_len x <= 8 /\ 0 <= Xf.icv_len x <= 8) by (repeat case_match; simplify_eq; lia).
  assert (Hh26 : Xf.hdrlen x <= 26) by (rewrite P6; destruct (nz _); lia).
  set (n14 := (length msdu - 14)%nat). set (ivb := take (Z.to_nat (Xf.iv_len x)) (Xf.iv x)).
  assert (Hivb : length ivb = Z.to_nat (Xf.iv_len x)) by (unfold ivb; rewrite length_take; lia).
  assert (HTs : Xf.iv_len x + 8 + (Z.of_nat (length msdu) - 14) <= Z.of_nat (length T)) by lia.
  pose proof (put_single (pred (Z.to_nat (Z.of_nat (length msdu)))) (frag_thresh (hw_info nic))
    (Xf.set_pwlanhdr (Some 20) x0) msdu (take 20 buf) fc H T Hfc1 Hfc2 Hhl Hh26 P9 P8 P5 Hmsdu ltac:(lia) Hfit HTs)
    as Hput. cbv zeta in Hput. fold ivb in Hput.
  rewrite Hpre in Hput. replace (S (pred _)) with (Z.to_nat (Z.of_nat (length msdu))) in Hput by lia.
  cbn [Xf.hdrlen Xf.iv_len Xf.ether_type Xf.set_pwlanhdr Xf.set_ampdu_en Xf.set_seqnum x0 Xf.iv] in Hput.
  change (trailer_of (Xf.set_pwlanhdr (Some 20) x0)) with (trailer_of x) in Hput. fold n14 ivb in Hput.
  set (R := drop (length ivb + 8 + n14) T) in Hput.
  assert (HR : (length R = length T - (length ivb + 8 + n14))%nat) by (unfold R; by rewrite length_drop).
  set (body := tx_set_snap (Xf.ether_type x) ++ drop 14 msdu).
  assert (Hbl : length body = (8 + n14)%nat) by (unfold body; rewrite length_app, length_drop; done).
  set (x1 := Xf.set_last_txcmdsz _ _) in Hput.
  assert (Htr : trailer_of x = Xf.icv_len x \/ (trailer_of x = 0 /\ Xf.encrypt_algo x <> _TKIP_)).
  { unfold trailer_of. rewrite Hl2. unfold nz. destruct (Z.eqb_spec (Xf.icv_len x) 0) as [E |]; [left; cbn; lia |].
    destruct (Z.eqb_spec (Xf.encrypt_algo x) _AES_) as [E |]; [right; rewrite E; done | by left]. }
  assert (Hm0 : le_bytes 2 fc ++ H ++ ivb ++ body ++
      (if Xf.encrypt_algo x =? _TKIP_ then
         Mic.michael key (take 6 msdu ++ take 6 (drop 6 msdu) ++ [if qos then Xf.priority x else 0; 0; 0; 0] ++ body)
       else []) = m).
  { unfold m, mpdu, header. rewrite HH, <- P4. fold body fc ivb. rewrite <- !app_assoc. by destruct qos. }
  assert (Hnw : node_at w' (Wdn.addr n) = Some wdn').
  { apply (node_at_head w' (Wdn.mk_node (Wdn.addr n) wdn')); [unfold w'; rewrite set_node_addrs; apply Hw |].
    by apply in_set_node. }
  set (last := Xf.hdrlen x + Xf.iv_len x + 8 + (Z.of_nat (length msdu) - 14) + trailer_of x) in *.
  assert (Hmic : exists tail, frame_txp_addmic nic w' x1 (take 20 buf ++ le_bytes 2 fc ++ H ++ ivb ++ body ++ R) =
    Ret (true, Xf.set_last_txcmdsz (Z.of_nat (length m) + trailer_of x) x1, take 20 buf ++ m ++ tail) /\
    length (m ++ tail) = length (le_bytes 2 fc ++ H ++ ivb ++ body ++ R) /\ (8 <= length tail)%nat).
  { rewrite <- Hm0. destruct (Z.eqb_spec (Xf.encrypt_algo x) _TKIP_) as [Ha | Ha].
    - destruct (Hkey Ha) as (K1 & K2 & K3 & K4). exists (drop 8 R).
      pose proof (addmic_single nic w' x1 (Wdn.mk_node (Wdn.addr n) wdn') key (take 6 msdu) (take 6 (drop 6 msdu))
        (take 20 buf) (le_bytes 2 fc ++ H ++ ivb) body R Ha K1 K2 K3) as Hmic.
      assert (Hda : mic_addrs (take 20 buf ++ (le_bytes 2 fc ++ H ++ ivb) ++ body ++ R) 20 =
        Ret (take 6 msdu, take 6 (drop 6 msdu))).
      { rewrite HH. rewrite <- !app_assoc. replace 20 with (Z.of_nat (length (take 20 buf))) by lia.
        apply mic_addrs_ret; [done | done | rewrite length_take; lia | rewrite length_take, length_drop; lia]. }
      assert (Hbody : bytes_ok body).
      { unfold body. apply bytes_ok_app. split; [apply snap_ok | by apply Forall_drop]. }
      replace (take 20 buf ++ le_bytes 2 fc ++ H ++ ivb ++ body ++ R) with
        (take 20 buf ++ (le_bytes 2 fc ++ H ++ ivb) ++ body ++ R) by (by rewrite <- !app_assoc).
      rewrite Hmic; clear Hmic.
      2: lia. 2: done. 2: by apply Forall_take. 2: by apply Forall_take, Forall_drop. 2: done. 2: done. 2: done. 2: done.
      2: { rewrite !length_app, length_le_bytes, Hivb. cbn. lia. }
      2: lia. 2: done.
      2: { rewrite !length_app, length_le_bytes, Hivb, Hbl. 
        change (Xf.last_txcmdsz x1) with last. change (Xf.icv_len x1) with (Xf.icv_len x).
        unfold last. destruct Htr as [-> | [_ ?]]; [lia | done]. }
      2: { change (Xf.icv_len x1) with (Xf.icv_len x). lia. }
      2: { rewrite !length_app, length_le_bytes, Hivb, Hbl. lia. }
      2: { change (Xf.priority x1) with (Xf.priority x). lia. }
      cbn [Wdn.info]. rewrite Hq. fold qos. change (Xf.priority x1) with (Xf.priority x).
      set (mc := Mic.michael _ _). assert (Hml : length mc = 8%nat) by (unfold mc; apply michael_length).
      split_and!.
      + do 2 f_equal; [do 2 f_equal |].
        * change (Xf.last_txcmdsz x1) with last. unfold last.
          rewrite !length_app, length_le_bytes, Hivb, Hbl, Hml. lia.
        * by rewrite <- !app_assoc.
      + rewrite !length_app, length_drop, Hml. lia.
      + rewrite length_drop. lia.
    - exists R. unfold frame_txp_addmic. change (Xf.encrypt_algo x1) with (Xf.encrypt_algo x).
      apply Z.eqb_neq in Ha. rewrite Ha, app_nil_r.
      assert (Hlast : Z.of_nat (length (le_bytes 2 fc ++ H ++ ivb ++ body)) + trailer_of x = last)
        by (rewrite !length_app, length_le_bytes, Hivb, Hbl; unfold last; lia).
      rewrite Hlast. split_and!; [by rewrite <- !app_assoc | by rewrite <- !app_assoc | lia]. }
  destruct Hmic as (tail & Hmic & Hlen & Ht8).
  unfold wf_tx_msdu_to_mpdu. change TXDESC_OFFSET with 20. change WF_ETH_HLEN with 14.
  rewrite Hb. cbn [cbind negb]. change (Z.of_nat 20) with 20 in Hput. rewrite Hput. cbn [cbind].
  unfold body in Hmic. rewrite <- app_assoc in Hmic. rewrite Hmic. cbn [cbind negb].
  set (x2 := Xf.set_last_txcmdsz (Z.of_nat (length m) + trailer_of x) x1).
  assert (Hv : exists v, (if Xf.bmcast x2 then Ret (Xf.set_vcs_mode NONE_VCS x2)
      else letc a := of_option (Xf.pwdn x2) in letc wdn := of_option (node_at w' a) in
           Ret (xmit_frame_vcs_init nic wdn x2)) = Ret (Xf.set_vcs_mode v x2)).
  { destruct (Xf.bmcast x2); [by eexists |]. change (Xf.pwdn x2) with (Xf.pwdn x). rewrite P2. cbn [of_option cbind].
    rewrite Hnw. by eexists. }
  destruct Hv as [v Hv]. rewrite Hv. cbn [cbind]. exists w', (Xf.set_vcs_mode v x2), tail.
  split; [done |]. split.
  { rewrite length_app, Hlen, !length_app, length_le_bytes, Hbl, HR, Hpre, Hivb. lia. }
  split; [by apply nodes_ok_set |]. by split_and!.
Qed.
End Build.

(** A packet that was accepted becomes one frame: see [mpdu] for its bytes. *)

(** C11: when [wf_xmit_frame_init] accepts a packet that fits into one
    fragment, [wf_tx_msdu_to_mpdu] accepts it too, whatever the work mode and
    the cipher, and writes behind the descriptor, which it leaves alone: a
    header whose addresses are those of the work mode, the next sequence number
    of the packet's priority and the QoS control field of a QoS peer, then the
    IV, the LLC header with the packet's type, its payload and, under TKIP,
    Michael of destination, source, priority and payload.  The length it
    records is that of the frame with room for the ICV. *)
Theorem packet_framed (nic : tx_nic) (w w1 : Wdn.wdn_list) (x x1 : Xf.xmit_frame) (msdu buf key : list Z) :
  nodes_ok w -> transmits (work_mode nic) -> length (cur_bssid nic) = 6%nat ->
  bytes_ok msdu -> (14 <= length msdu)%nat -> (length msdu + 64 <= length buf)%nat -> (84 <= length buf)%nat ->
  Z.of_nat (length buf) < 2 ^ 29 -> length (Xf.iv x) = 18%nat ->
  wf_xmit_frame_init nic w x msdu (Z.of_nat (length msdu)) = Ret (true, w1, x1) ->
  fits (frag_thresh (hw_info nic)) x1 msdu -> mic_key_ok nic x1 key ->
  exists n w2 x2 tail,
    receiver nic w msdu = Some n /\
    let seq := (nthZ (Wi.txseq_tid (Wdn.info n)) (Xf.priority x1) + 1) mod 4096 in
    let m := mpdu nic x1 (nz (Wi.qos_option (Wdn.info n))) msdu seq key in
    wf_tx_msdu_to_mpdu nic w1 x1 (Some buf) msdu (Z.of_nat (length msdu)) =
      Ret (true, w2, x2, Some (take 20 buf ++ m ++ tail)) /\
    length (take 20 buf ++ m ++ tail) = length buf /\
    Xf.seqnum x2 = seq /\ Xf.nr_frags x2 = 1 /\ Xf.last_txcmdsz x2 = Z.of_nat (length m) + trailer_of x1.
Proof.
  intros Hw Hmode Hbss Hmb Hm Hb1 Hb2 Hb3 Hiv Hinit Hfit Hkey.
  destruct (init_prepared nic w x msdu _ w1 x1 Hw Hmode Hiv Hmb Hm Hinit) as (n & pn & Hn & _ & Hw1 & Hpr).
  destruct (mpdu_built nic w1 x1 msdu buf key _ Hw1 Hmode Hbss Hm ltac:(lia) Hmb Hpr Hb2 Hb1 Hfit Hkey)
    as (w2 & x2 & tail & Hx & Hlen & _ & Hseq & Hnf & Hlast & _).
  exists n, w2, x2, tail. split; [done |]. cbn [Wdn.info] in *.
  assert (E : (nthZ (Wi.txseq_tid (Wdn.info n)) (Xf.priority x1) + 1) mod 4096 =
    Z.land (u16 (nthZ (Wi.txseq_tid (Wi.set_dot11txpn pn (Wdn.info n))) (Xf.priority x1) + 1)) 0xFFF).
  { rewrite land_4095. unfold u16. rewrite Z.mod_mod_divide; [done |]. by exists 16. }
  rewrite E. cbn zeta. by split_and!.
Qed.

Definition wit_ap : list Z := [2; 0; 0; 0; 0; 1].
Definition wit_node : Wdn.wdn_node_st :=
  Wdn.mk_node 7 (Wi.set_txseq_tid (repeat 4095 16) (Wi.set_ba_starting_seqctrl (repeat 0 16)
    (Wi.set_dot11tkiptxmickey (repeat 1 16) (Wi.set_dot118021x_UncstKey (repeat 5 16)
      (Wi.set_dot118021XPrivacy _TKIP_ (Wi.set_qos_option 1 (Wi.set_mac wit_ap Wi.zero))))))).
Definition wit_table : Wdn.wdn_list := Wdn.mk_wdn_list [wit_node] [] 1.
Definition wit_nic (frag : Z) : tx_nic :=
  mk_tx_nic Rx.WF_INFRA_MODE wit_ap 0
    (mk_sec_info dot11AuthAlgrthm_8021X 0 (repeat (repeat 0 16) 4) (repeat 0 4) _TKIP_ 1 (repeat (repeat 0 16) 4) 1)
    0 true (repeat (repeat 0 16) 4) (mk_tx_hw true frag 0 0 RTS_CTS false false) (fun _ => 0) false.
(** An IP packet of type of service 0xa0. *)
Definition wit_msdu : list Z :=
  [2; 0; 0; 0; 0; 9] ++ [2; 0; 0; 0; 0; 3] ++ [8; 0] ++ [0x45; 0xa0] ++ repeat 0 7 ++ [1] ++ repeat 7 20.
Lemma tx_table_ok : nodes_ok wit_table.
Proof.
  split; [apply NoDup_singleton |]. apply Forall_singleton. split_and!; try reflexivity. by apply bytes_okb_ok.
Qed.

Lemma wit_init_ok : exists w1 x1, wf_xmit_frame_init (wit_nic 2346) wit_table Xf.zero wit_msdu (Z.of_nat (length wit_msdu)) =
    Ret (true, w1, x1) /\ fits 2346 x1 wit_msdu /\
  mic_key_ok (wit_nic 2346) x1 (repeat 1 16) /\ Xf.priority x1 = 5.
Proof.
  eexists _, _. split; [vm_compute; reflexivity |]. split; [right; vm_compute; congruence |].
  split; [| reflexivity]. intros _. split_and!; [reflexivity | discriminate | by apply bytes_okb_ok | reflexivity].
Qed.

Lemma packet_framed_witness :
  exists w1 x1 n w2 x2 tail, wf_xmit_frame_init (wit_nic 2346) wit_table Xf.zero wit_msdu (Z.of_nat (length wit_msdu)) =
    Ret (true, w1, x1) /\
    receiver (wit_nic 2346) wit_table wit_msdu = Some n /\
    wf_tx_msdu_to_mpdu (wit_nic 2346) w1 x1 (Some (repeat 9 200)) wit_msdu
        (Z.of_nat (length wit_msdu)) =
      Ret (true, w2, x2, Some (repeat 9 20 ++ mpdu (wit_nic 2346) x1 true wit_msdu 0 (repeat 1 16) ++ tail)) /\
    Xf.seqnum x2 = 0.
Proof.
  destruct wit_init_ok as (w1 & x1 & E & Hf & Hk & Hp).
  destruct (packet_framed (wit_nic 2346) wit_table w1 Xf.zero x1 wit_msdu (repeat 9 200) (repeat 1 16)
    tx_table_ok (or_introl eq_refl) eq_refl ltac:(by apply bytes_okb_ok) ltac:(cbn; lia) ltac:(cbn; lia) ltac:(cbn; lia)
    ltac:(cbn; lia) eq_refl E Hf Hk) as (n & w2 & x2 & tail & Hn & Hx & _ & Hs & _).
  assert (Hw : receiver (wit_nic 2346) wit_table wit_msdu = Some wit_node) by (vm_compute; reflexivity).
  pose proof (eq_trans (eq_sym Hw) Hn) as Hnn. apply (inj Some) in Hnn. subst n.
  assert (Hq : nz (Wi.qos_option (Wdn.info wit_node)) = true) by reflexivity.
  assert (Hsq : (nthZ (Wi.txseq_tid (Wdn.info wit_node)) (Xf.priority x1) + 1) mod 4096 = 0)
    by (rewrite Hp; vm_compute; reflexivity).
  rewrite Hsq in Hx, Hs. rewrite Hq in Hx. exists w1, x1, wit_node, w2, x2, tail.
  split; [exact E |]. split; [exact Hn |]. split; [exact Hx | exact Hs].
Defined.

(** ** Writing behind a point of the buffer *)

(** [b'] has the size of [b] and the same bytes below [lo]. *)
Definition keeps (lo : Z) (b b' : list Z) : Prop :=
  length b' = length b /\ take (Z.to_nat lo) b' = take (Z.to_nat lo) b.

Lemma buf_keeps_refl lo b : keeps lo b b.
Proof. done. Qed.

Lemma buf_keeps_trans lo b b1 b2 : keeps lo b b1 -> keeps lo b1 b2 -> keeps lo b b2.
Proof. intros [L1 T1] [L2 T2]. split; congruence. Qed.

Lemma keeps_le lo lo' b b' : lo' <= lo -> keeps lo b b' -> keeps lo' b b'.
Proof.
  intros Hle [L T]. split; [done |]. replace (Z.to_nat lo') with (Z.to_nat lo' `min` Z.to_nat lo)%nat by lia.
  by rewrite <- !take_take, T.
Qed.

Lemma keeps_slice lo b b' j n : keeps lo b b' -> j + n <= lo -> slice b' j n = slice b j n.
Proof.
  intros [L T] Hjn. unfold slice. rewrite L.
  destruct (Z.leb_spec 0 j), (Z.leb_spec 0 n); cbn [andb]; [| done ..].
  destruct (j + n <=? _); [| done]. f_equal.
  assert (E : forall l : list Z, take (Z.to_nat n) (drop (Z.to_nat j) l) =
    take (Z.to_nat n) (drop (Z.to_nat j) (take (Z.to_nat lo) l))).
  { intros l. rewrite take_drop_commute, (take_drop_commute _ (Z.to_nat n)), take_take. do 2 f_equal. lia. }
  rewrite (E b'), (E b). by rewrite T.
Qed.

Lemma blit_ok b i src lo : 0 <= i -> lo <= i -> i + Z.of_nat (length src) <= Z.of_nat (length b) ->
  exists b', blit b i src = Ret b' /\ keeps lo b b' /\ slice b' i (Z.of_nat (length src)) = Ret src.
Proof.
  intros Hi Hlo Hl.
  set (pre := take (Z.to_nat i) b). set (mid := take (length src) (drop (Z.to_nat i) b)).
  set (post := drop (Z.to_nat i + length src) b).
  assert (Eb : b = pre ++ mid ++ post).
  { unfold pre, mid, post. rewrite <- drop_drop. by rewrite !take_drop. }
  assert (Hpre : length pre = Z.to_nat i) by (unfold pre; rewrite length_take; lia).
  assert (Hmid : length mid = length src) by (unfold mid; rewrite length_take, length_drop; lia).
  exists (pre ++ src ++ post). rewrite Eb. split; [apply blit_app_mid; lia |]. split; [split |].
  - by rewrite !length_app, Hmid.
  - rewrite !take_app_le by lia. done.
  - apply slice_app_mid; lia.
Qed.

Lemma upd16_ok f b i lo : 0 <= i -> lo <= i -> i + 2 <= Z.of_nat (length b) ->
  exists b', upd16 f b i = Ret b' /\ keeps lo b b' /\
    (forall j n, i + 2 <= j -> slice b' j n = slice b j n).
Proof.
  intros Hi Hlo Hl. unfold upd16. rewrite slice_Ret by lia. cbn [cbind].
  set (v := le_bytes 2 _). destruct (blit_ok b i v lo) as (b' & E & K & _); [lia | lia | unfold v; rewrite length_le_bytes; lia |].
  exists b'. split; [done |]. split; [done |]. intros j n Hj. unfold blit in E.
  destruct (_ && _); [| done].
  assert (Hb' : b' = (take (Z.to_nat i) b ++ v) ++ drop (Z.to_nat i + length v) b)
    by (rewrite <- app_assoc; congruence).
  assert (Hv : length v = 2%nat) by apply length_le_bytes. clearbody v.
  destruct K as [L _]. unfold slice. rewrite L. destruct (_ && _ && _); [| done]. do 2 f_equal. rewrite Hb'.
  rewrite drop_app_ge by (rewrite length_app, length_take; lia).
  rewrite drop_drop. f_equal. rewrite length_app, length_take. lia.
Qed.

(** One pass writes inside the buffer and leaves what is before the fragment. *)
Lemma put_fragment_safe frag_len x msdu msdu_len b ms k off :
  let n := size_of frag_len x msdu_len k off in
  let llc := Z.of_nat (length (llc_of x k)) in
  let pos := ms + Xf.hdrlen x + Xf.iv_len x + llc in
  0 <= ms -> 2 <= Xf.hdrlen x -> 0 <= Xf.iv_len x <= Z.of_nat (length (Xf.iv x)) ->
  0 <= n -> 0 <= from_of x off -> from_of x off + n <= Z.of_nat (length msdu) ->
  pos + n <= Z.of_nat (length b) ->
  exists b', put_fragment frag_len x msdu msdu_len b ms k off =
      Ret (b', pos + n + trailer_of x, llc, n, if Xf.bmcast x then off else off + n) /\
    keeps ms b b' /\ slice b' pos n = Ret (take (Z.to_nat n) (drop (Z.to_nat (from_of x off)) msdu)).
Proof.
  intros n llc pos Hms Hh Hiv Hn Hf0 Hf Hpos. unfold put_fragment.
  assert (Hllc : 0 <= llc) by (unfold llc; lia).
  destruct (upd16_ok SetMFrag b ms ms) as (b1 & E1 & K1 & _); [lia | lia | lia |]. rewrite E1. cbn [cbind].
  assert (H2 : exists b2, (if nz (Xf.iv_len x) then
       letc v := slice (Xf.iv x) 0 (Xf.iv_len x) in
       letc buf := blit b1 (ms + Xf.hdrlen x) v in
       Ret (buf, ms + Xf.hdrlen x + Xf.iv_len x, frag_len - Xf.hdrlen x - Xf.iv_len x)
     else Ret (b1, ms + Xf.hdrlen x, frag_len - Xf.hdrlen x)) =
     Ret (b2, ms + Xf.hdrlen x + Xf.iv_len x, frag_len - Xf.hdrlen x - Xf.iv_len x) /\ keeps ms b1 b2).
  { unfold nz. destruct (Z.eqb_spec (Xf.iv_len x) 0) as [Z0 |]; cbn [negb].
    - exists b1. rewrite Z0, Z.add_0_r, Z.sub_0_r. split; [done | apply buf_keeps_refl].
    - rewrite slice_Ret by lia. cbn [cbind].
      destruct (blit_ok b1 (ms + Xf.hdrlen x) (take (Z.to_nat (Xf.iv_len x)) (drop (Z.to_nat 0) (Xf.iv x))) ms)
        as (b2 & E2 & K2 & _); [lia | lia | rewrite length_take, (proj1 K1); lia |].
      rewrite E2. by exists b2. }
  destruct H2 as (b2 & -> & K2). cbn [cbind].
  assert (H3 : exists b3, (if k =? 0 then
       letc buf := blit b2 (ms + Xf.hdrlen x + Xf.iv_len x) (tx_set_snap (Xf.ether_type x)) in
       Ret (buf, ms + Xf.hdrlen x + Xf.iv_len x + 8, frag_len - Xf.hdrlen x - Xf.iv_len x - 8, 8)
     else Ret (b2, ms + Xf.hdrlen x + Xf.iv_len x, frag_len - Xf.hdrlen x - Xf.iv_len x, 0)) =
     Ret (b3, pos, frag_len - Xf.hdrlen x - Xf.iv_len x - llc, llc) /\ keeps ms b2 b3).
  { unfold pos, llc, llc_of in *. destruct (k =? 0).
    - change (length (tx_set_snap (Xf.ether_type x))) with 8%nat in *.
      destruct (blit_ok b2 (ms + Xf.hdrlen x + Xf.iv_len x) (tx_set_snap (Xf.ether_type x)) ms)
        as (b3 & E3 & K3 & _); [lia | lia | |].
      { change (length (tx_set_snap (Xf.ether_type x))) with 8%nat. rewrite (proj1 K2), (proj1 K1). lia. }
      rewrite E3. by exists b3.
    - exists b2. change (Z.of_nat (length (@nil Z))) with 0. rewrite Z.add_0_r, Z.sub_0_r. split; [done | apply buf_keeps_refl]. }
  destruct H3 as (b3 & -> & K3). cbn [cbind]. fold (trailer_of x).
  set (data := take (Z.to_nat n) (drop (Z.to_nat (from_of x off)) msdu)).
  assert (Hd : Z.of_nat (length data) = n) by (unfold data; rewrite length_take, length_drop; lia).
  destruct (blit_ok b3 pos data ms) as (b4 & E4 & K4 & R4);
    [unfold pos; lia | unfold pos; lia | rewrite (proj1 K3), (proj1 K2), (proj1 K1), Hd; lia |].
  rewrite Hd in R4. exists b4. split.
  2: { split; [| done]. eauto using buf_keeps_trans. }
  unfold size_of, from_of in *. destruct (Xf.bmcast x).
  - rewrite slice_Ret by lia. cbn [cbind]. change (Z.to_nat (msdu_len - off)) with (Z.to_nat n). fold data.
    rewrite E4. cbn [cbind]. done.
  - unfold room_of in n. fold llc in n.
    replace (if _ <? _ then _ else _) with n.
    2: { unfold n. destruct (Z.ltb_spec (frag_len - Xf.hdrlen x - Xf.iv_len x - llc - trailer_of x) (msdu_len - off)); lia. }
    rewrite slice_Ret by lia. cbn [cbind]. fold data. rewrite E4. cbn [cbind]. done.
Qed.

(** ** Several fragments *)

Section Loop.
Context (frag_len : Z) (x : Xf.xmit_frame) (msdu : list Z).
Let len := Z.of_nat (length msdu).
Let ov := Xf.hdrlen x + Xf.iv_len x + trailer_of x.
Context (Huni : Xf.bmcast x = false) (Hpk : Xf.pkt_hdrlen x = 14) (Hh : 2 <= Xf.hdrlen x).
Context (Hiv : 0 <= Xf.iv_len x <= Z.of_nat (length (Xf.iv x))) (Htr : 0 <= trailer_of x).
Context (Hroom : ov + 8 < frag_len).

(** Where the fragment after the one at [ms] starts. *)
Definition next_start (ms : Z) : Z := WF_RND4 (ms + frag_len) + 20.

(** What is left to send from fragment [k] on. *)
Definition left_of (k off : Z) : Z := len - off + (if k =? 0 then 8 else 0).


Lemma llc_length k : Z.of_nat (length (llc_of x k)) = if k =? 0 then 8 else 0.
Proof using Type. unfold llc_of. by destruct (k =? 0). Qed.

(** The start of the LLC header in the first fragment, and the payload bytes
    of the [j]-th fragment counted from here. *)
Definition llc_size (k : Z) : Z := if k =? 0 then 8 else 0.
Definition chunk (k off j : Z) : Z :=
  Z.min (frag_len - ov) (left_of k off - j * (frag_len - ov)) - llc_size (k + j).

Lemma put_fragments_safe p : forall fuel b ms k off,
  (1 <= p <= fuel)%nat -> 0 <= k -> 14 <= off <= len -> 20 <= ms -> 20 + Xf.hdrlen x <= Z.of_nat (length b) ->
  left_of k off <= Z.of_nat p * (frag_len - ov) ->
  ms + left_of k off + Z.of_nat p * (ov + 23) <= Z.of_nat (length b) ->
  exists b' q, let rest := left_of k off - Z.of_nat q * (frag_len - ov) in
    let l := Xf.hdrlen x + Xf.iv_len x + rest in
    put_fragments fuel frag_len x msdu len b ms k off =
      Ret (b', Xf.set_last_txcmdsz (u32 (l + (if Xf.bswenc x then Xf.icv_len x else 0)))
                 (Xf.set_nr_frags (u8 (k + Z.of_nat (S q))) x)) /\
    keeps ms b b' /\ (S q <= p)%nat /\ 0 <= rest <= frag_len - ov /\
    (let ms' := Nat.iter q next_start ms in 0 <= ms' /\ ms' + l <= ms + left_of k off + Z.of_nat p * (ov + 23) - 23) /\
    forall j, (j <= q)%nat -> let n := chunk k off (Z.of_nat j) in
      slice b' (Nat.iter j next_start ms + Xf.hdrlen x + Xf.iv_len x + llc_size (k + Z.of_nat j)) n =
        Ret (take (Z.to_nat n) (drop 14 msdu)).
Proof using All.
  induction p as [| p IH]; intros fuel b ms k off Hp Hk Hoff Hms Hb Hleft Hspace; [lia |].
  destruct fuel as [| fuel]; [lia |]. cbn [put_fragments].
  assert (Hsize : size_of frag_len x len k off = Z.min (frag_len - ov - (if k =? 0 then 8 else 0)) (len - off)).
  { unfold size_of, room_of. rewrite Huni, llc_length. unfold ov. f_equal. lia. }
  assert (Hfrom : from_of x off = 14) by (unfold from_of; by rewrite Huni, Hpk).
  unfold left_of in *. set (e := if k =? 0 then 8 else 0) in *.
  assert (He : 0 <= e <= 8) by (unfold e; destruct (k =? 0); lia).
  set (n := Z.min (frag_len - ov - e) (len - off)) in *.
  pose proof (llc_length k) as Hllc. fold e in Hllc.
  assert (Hov : 2 <= ov /\ Xf.hdrlen x + Xf.iv_len x <= ov) by (unfold ov; lia).
  assert (HP : Z.of_nat (S p) * (ov + 23) = Z.of_nat p * (ov + 23) + (ov + 23)) by lia.
  assert (HQ : Z.of_nat (S p) * (frag_len - ov) = Z.of_nat p * (frag_len - ov) + (frag_len - ov)) by lia.
  assert (HP0 : 0 <= Z.of_nat p * (ov + 23)) by nia.
  assert (HQ0 : 0 <= Z.of_nat p * (frag_len - ov)) by nia.
  assert (Hnn : n <= frag_len - ov - e /\ n <= len - off /\ (n = frag_len - ov - e \/ n = len - off)) by (unfold n; lia).
  rewrite HP in *. rewrite HQ in *.
  pose proof (put_fragment_safe frag_len x msdu len b ms k off) as Hput. cbv zeta in Hput.
  rewrite Hsize, Hfrom, Hllc, Huni in Hput.
  destruct Hput as (b1 & E1 & K1 & R1); [lia | lia | lia | lia | lia | unfold len in *; lia | lia |].
  fold len. rewrite E1, Huni. cbn [cbind orb]. change (Z.to_nat 14) with 14%nat in R1.
  destruct (Z.eqb_spec (off + n) len) as [Hend | Hmore].
  - destruct (upd16_ok ClearMFrag b1 ms ms) as (b2 & E2 & K2 & R2); [lia | lia | rewrite (proj1 K1); lia |].
    rewrite E2. cbn [cbind]. exists b2, 0%nat. cbv zeta. change (Z.of_nat 0) with 0. change (Z.of_nat 1) with 1.
    rewrite Z.mul_0_l, Z.sub_0_r. change (Nat.iter 0 next_start ms) with ms.
    split; [by replace (Xf.hdrlen x + Xf.iv_len x + (len - off + e)) with (Xf.hdrlen x + Xf.iv_len x + e + n) by lia |].
    split; [by eapply buf_keeps_trans |]. split; [lia |]. split; [lia |]. split; [lia |].
    intros j Hj. destruct j as [| j]; [| lia]. change (Z.of_nat 0) with 0. change (Nat.iter 0 next_start ms) with ms.
    unfold chunk, left_of, llc_size. rewrite Z.add_0_r. fold e. rewrite Z.mul_0_l, Z.sub_0_r.
    replace (Z.min (frag_len - ov) (len - off + e) - e) with n by (unfold n; lia). rewrite R2 by lia. exact R1.
  - assert (Hn : n = frag_len - ov - e) by lia.
    assert (Hpf : ms + Xf.hdrlen x + Xf.iv_len x + e + n + trailer_of x = ms + frag_len) by (unfold ov in *; lia).
    rewrite Hpf. change TXDESC_OFFSET with 20. fold (next_start ms).
    pose proof (rnd4_bounds (ms + frag_len)) as Hr.
    rewrite slice_Ret by (rewrite ?(proj1 K1); lia). cbn [cbind].
    destruct p as [| p]; [lia |].
    set (hd := take _ (drop _ b1)).
    assert (Hhd : Z.of_nat (length hd) <= Xf.hdrlen x) by (unfold hd; rewrite length_take; lia).
    destruct (blit_ok b1 (next_start ms) hd (ms + frag_len)) as (b2 & E2 & K2 & _);
      [unfold next_start; lia | unfold next_start; lia | rewrite (proj1 K1); unfold next_start; lia |].
    rewrite E2. cbn [cbind].
    assert (Hl1 : len - (off + n) + (if k + 1 =? 0 then 8 else 0) = len - off + e - (frag_len - ov))
      by (destruct (Z.eqb_spec (k + 1) 0); lia).
    destruct (IH fuel b2 (next_start ms) (k + 1) (off + n)) as (b3 & q & E3 & K3 & Hq & Hl & [Hl0 Hl2] & Hc);
      [lia | lia | lia | unfold next_start; lia | rewrite (proj1 K2), (proj1 K1); lia | lia
      | rewrite (proj1 K2), (proj1 K1), Hl1; unfold next_start; lia |].
    rewrite Hl1 in *. assert (Hqs : Z.of_nat (S q) * (frag_len - ov) = Z.of_nat q * (frag_len - ov) + (frag_len - ov)) by lia.
    replace (len - off + e - (frag_len - ov) - Z.of_nat q * (frag_len - ov)) with
      (len - off + e - Z.of_nat (S q) * (frag_len - ov)) in * by lia.
    rewrite E3. exists b3, (S q). cbv zeta.
    split; [by replace (k + Z.of_nat (S (S q))) with (k + 1 + Z.of_nat (S q)) by lia |].
    assert (K3' : keeps (ms + frag_len) b2 b3) by (eapply keeps_le; [| exact K3]; unfold next_start; lia).
    assert (K23 : keeps (ms + frag_len) b1 b3) by (by eapply buf_keeps_trans).
    split; [eapply buf_keeps_trans; [exact K1 |]; eapply keeps_le; [| exact K23]; lia |].
    split; [lia |]. split; [lia |]. split.
    { rewrite Nat.iter_succ_r. split; [done |].
      assert (next_start ms <= ms + frag_len + 23) by (unfold next_start; lia). lia. }
    intros [| j] Hj.
    + change (Nat.iter 0 next_start ms) with ms. unfold chunk, left_of, llc_size. change (Z.of_nat 0) with 0.
      rewrite Z.add_0_r. fold e. rewrite Z.mul_0_l, Z.sub_0_r.
      replace (Z.min (frag_len - ov) (len - off + e) - e) with n by lia.
      rewrite (keeps_slice (ms + frag_len) b1 b3) by (done || lia). exact R1.
    + rewrite Nat.iter_succ_r. specialize (Hc j ltac:(lia)). cbv zeta in Hc.
      replace (k + Z.of_nat (S j)) with (k + 1 + Z.of_nat j) by lia.
      replace (chunk k off (Z.of_nat (S j))) with (chunk (k + 1) (off + n) (Z.of_nat j)); [exact Hc |].
      unfold chunk, left_of. rewrite Hl1. fold e. replace (k + Z.of_nat (S j)) with (k + 1 + Z.of_nat j) by lia.
      replace (Z.of_nat (S j) * (frag_len - ov)) with (Z.of_nat j * (frag_len - ov) + (frag_len - ov)) by lia.
      f_equal. f_equal. lia.
Qed.
End Loop.

Lemma next_start_ge frag_len ms : 0 <= frag_len -> ms + frag_len + 20 <= next_start frag_len ms.
Proof. intros Hf. unfold next_start. pose proof (rnd4_bounds (ms + frag_len)). lia. Qed.

Lemma iter_start_ge frag_len q ms : 0 <= frag_len -> ms <= Nat.iter q (next_start frag_len) ms.
Proof.
  intros Hf. induction q as [| q IH]; [done |]. cbn [Nat.iter nat_rect].
  pose proof (next_start_ge frag_len (Nat.iter q (next_start frag_len) ms) Hf). unfold Nat.iter in *. lia.
Qed.

(** The number of bytes the MIC holds back, whatever the bytes are. *)
Definition counted (d : Mic.mic_data) : Prop := 0 <= Mic.nBytesInM d < 4.

Lemma append_byte_counted d b : counted d ->
  Mic.nBytesInM (Mic.mic_append_byte d b) = if Mic.nBytesInM d =? 3 then 0 else Mic.nBytesInM d + 1.
Proof.
  unfold counted, Mic.mic_append_byte. intros Hd. rewrite u32_id by (unfold is_u32; lia).
  destruct (Z.leb_spec 4 (Mic.nBytesInM d + 1)), (Z.eqb_spec (Mic.nBytesInM d) 3); cbn; lia.
Qed.

Lemma append_counted d src : counted d -> counted (Mic.wf_sec_mic_append d src).
Proof.
  unfold Mic.wf_sec_mic_append. revert d. induction src as [| b src IH]; intros d Hd; [done |]. cbn [foldl].
  apply IH. unfold counted. rewrite append_byte_counted by done. unfold counted in Hd.
  destruct (Z.eqb_spec (Mic.nBytesInM d) 3); lia.
Qed.

Lemma mic_pad_total fuel d : counted d -> 4 - Mic.nBytesInM d <= Z.of_nat fuel -> exists d', Mic.mic_pad fuel d = Ret d'.
Proof.
  revert d. induction fuel as [| fuel IH]; intros d Hd Hf; unfold counted in Hd; [lia |]. cbn [Mic.mic_pad]. unfold nz.
  destruct (Z.eqb_spec (Mic.nBytesInM d) 0) as [E |]; cbn [negb]; [by eexists |].
  pose proof (append_byte_counted d 0 Hd) as Hn. destruct (Z.eqb_spec (Mic.nBytesInM d) 3).
  - exists (Mic.mic_append_byte d 0). destruct fuel; cbn [Mic.mic_pad]; rewrite Hn; done.
  - apply IH; [unfold counted; lia | lia].
Qed.

Lemma get_mic_total d : counted d -> exists d' m, Mic.wf_sec_get_mic d = Ret (d', m) /\ length m = 8%nat.
Proof.
  intros Hd. unfold Mic.wf_sec_get_mic.
  assert (Hs : forall e b, counted e -> counted (Mic.mic_append_byte e b)).
  { intros e b He. apply (append_counted e [b] He). }
  match goal with |- context [Mic.mic_pad 4 ?e] => assert (He : counted e) by (by repeat apply Hs); generalize dependent e end.
  intros e He. destruct (mic_pad_total 4 e He) as [d' ->]; [unfold counted in He; lia |]. cbn [cbind].
  eexists _, _. split; [reflexivity |]. rewrite length_app. generalize (Mic.L d') (Mic.R d'). intros ? ?. reflexivity.
Qed.

(** The loop over the fragments finds them where they were written. *)
Lemma mic_fragments_safe frag_len x b l q : forall fuel d c payload,
  0 <= frag_len < 2 ^ 16 -> 0 <= Xf.icv_len x < 2 ^ 16 -> 0 <= Xf.hdrlen x -> 0 <= Xf.iv_len x ->
  Xf.hdrlen x + Xf.iv_len x + Xf.icv_len x <= frag_len ->
  Xf.hdrlen x + Xf.iv_len x <= l < 2 ^ 16 ->
  Xf.last_txcmdsz x = l + Xf.icv_len x -> Xf.nr_frags x = c + Z.of_nat (S q) -> (S q <= fuel)%nat -> 0 <= payload ->
  let ms := Nat.iter q (next_start frag_len) (WF_RND4 payload) in
  ms + l <= Z.of_nat (length b) ->
  counted d -> exists d', mic_fragments fuel frag_len x b d c payload = Ret (d', ms + l) /\ counted d'.
Proof.
  induction q as [| q IH]; intros fuel d c payload Hfl Hicv Hh Hiv Hov Hl Hlast Hnr Hfuel Hpay ms Hms Hd;
    (destruct fuel as [| fuel]; [lia |]); cbn [mic_fragments];
    pose proof (rnd4_bounds payload) as Hr; (destruct (Z.ltb_spec c (Xf.nr_frags x)); [| lia]).
  - destruct (Z.eqb_spec (c + 1) (Xf.nr_frags x)); [| lia]. change (Nat.iter 0 _ ?y) with y in ms.
    replace (s32 _) with (l - Xf.hdrlen x - Xf.iv_len x).
    2: { rewrite Hlast. unfold s32. rewrite Z.mod_small by lia. lia. }
    rewrite slice_Ret by (unfold ms in *; lia). cbn [cbind]. eexists. split; [| by apply append_counted].
    destruct fuel; cbn [mic_fragments]; (destruct (Z.ltb_spec (c + 1) (Xf.nr_frags x)); [lia |]);
      do 2 f_equal; unfold ms; lia.
  - destruct (Z.eqb_spec (c + 1) (Xf.nr_frags x)); [lia |].
    replace (s32 _) with (frag_len - Xf.hdrlen x - Xf.iv_len x - Xf.icv_len x)
      by (unfold s32; rewrite Z.mod_small by lia; lia).
    pose proof (next_start_ge frag_len (WF_RND4 payload) ltac:(lia)) as Hn.
    assert (Hms' : ms = Nat.iter q (next_start frag_len) (next_start frag_len (WF_RND4 payload)))
      by (unfold ms; by rewrite Nat.iter_succ_r).
    pose proof (iter_start_ge frag_len q (next_start frag_len (WF_RND4 payload)) ltac:(lia)) as Hi. rewrite <- Hms' in Hi.
    rewrite slice_Ret by lia. cbn [cbind].
    set (pay := _ + TXDESC_OFFSET).
    assert (Hp : pay = WF_RND4 payload + frag_len + 20) by (unfold pay; change TXDESC_OFFSET with 20; lia).
    assert (Hpr : WF_RND4 pay = next_start frag_len (WF_RND4 payload)) by (rewrite Hp; by rewrite rnd4_add).
    destruct (IH fuel (Mic.wf_sec_mic_append d (take (Z.to_nat (frag_len - Xf.hdrlen x - Xf.iv_len x - Xf.icv_len x))
      (drop (Z.to_nat (WF_RND4 payload + (Xf.hdrlen x + Xf.iv_len x))) b))) (c + 1) pay) as (d' & Hd' & Hdc);
      [done | done | done | done | done | done | done | lia | lia | lia | rewrite Hpr, <- Hms'; done | by apply append_counted |].
    rewrite Hd', Hpr, <- Hms'. by exists d'.
Qed.

Lemma addmic_safe nic w x b key q l n :
  mic_key nic x = Ret key -> key <> replicate 16 0 -> length key = 16%nat -> Xf.pwdn x = Some (Wdn.addr n) ->
  node_at w (Wdn.addr n) = Some (Wdn.info n) ->
  0 <= frag_thresh (hw_info nic) < 2 ^ 16 -> 0 <= Xf.icv_len x < 2 ^ 16 -> 0 <= Xf.hdrlen x -> 0 <= Xf.iv_len x ->
  Xf.hdrlen x + Xf.iv_len x + Xf.icv_len x <= frag_thresh (hw_info nic) ->
  Xf.hdrlen x + Xf.iv_len x <= l < 2 ^ 16 ->
  Xf.last_txcmdsz x = l + Xf.icv_len x -> Xf.nr_frags x = Z.of_nat (S q) ->
  let ms := Nat.iter q (next_start (frag_thresh (hw_info nic))) 20 in
  ms + l + 8 <= Z.of_nat (length b) -> 50 <= Z.of_nat (length b) ->
  Xf.encrypt_algo x = _TKIP_ ->
  exists b', frame_txp_addmic nic w x b = Ret (true, Xf.set_last_txcmdsz (l + Xf.icv_len x + 8) x, b') /\
    keeps (ms + l) b b'.
Proof.
  intros Hk Hnz Hkl Hp Hn Hfl Hicv Hh Hiv Hov Hl Hlast Hnr ms Hms Hb Ha.
  unfold frame_txp_addmic. rewrite Ha, Hk. cbn [Z.eqb _TKIP_ Pos.eqb cbind]. unfold bytes_eqb.
  rewrite bool_decide_eq_false_2 by done. unfold Mic.wf_sec_mic_set_key. rewrite !slice_Ret by lia. cbn [cbind].
  change TXDESC_OFFSET with 20.
  assert (Haddr : exists da sa, mic_addrs b 20 = Ret (da, sa)).
  { unfold mic_addrs. rewrite rd_nthZ by lia. cbn [cbind].
    destruct (nz (Z.land _ 1)); rewrite slice_Ret by lia; cbn [cbind]; destruct (nz _); rewrite slice_Ret by lia;
      by eexists _, _. }
  destruct Haddr as (da & sa & ->). cbn [cbind]. rewrite Hp. cbn [of_option cbind]. rewrite Hn. cbn [of_option cbind].
  match goal with |- context [mic_fragments _ _ _ _ ?d _ _] => set (d0 := d) end.
  assert (Hd0 : counted d0) by (by unfold d0; repeat apply append_counted).
  destruct (mic_fragments_safe (frag_thresh (hw_info nic)) x b l q (Z.to_nat (Xf.nr_frags x)) d0 0 20)
    as (d1 & E1 & Hc1); [done | done | done | done | done | done | done | lia | lia | lia | |done |].
  { change (WF_RND4 20) with 20. fold ms. lia. }
  rewrite E1. cbn [cbind]. change (WF_RND4 20) with 20. fold ms.
  destruct (get_mic_total d1 Hc1) as (d2 & m & E2 & Hm). rewrite E2. cbn [cbind].
  pose proof (iter_start_ge (frag_thresh (hw_info nic)) q 20 ltac:(lia)) as Hi. fold ms in Hi.
  destruct (blit_ok b (ms + l) m (ms + l)) as (b' & E3 & K3 & _); [lia | lia | lia |].
  rewrite E3. cbn [cbind]. exists b'. split; [| done]. rewrite Hlast, u32_id by (unfold is_u32; lia). done.
Qed.

Section Fragments.
Context (nic : tx_nic) (w : Wdn.wdn_list) (x : Xf.xmit_frame) (msdu buf key : list Z) (n : Wdn.wdn_node_st).
Context (Hw : nodes_ok w) (Hmode : transmits (work_mode nic)) (Hbss : length (cur_bssid nic) = 6%nat).
Context (Hmsdu : (14 <= length msdu <= 1514)%nat) (Hmb : bytes_ok msdu).
Context (Hpr : prepared nic w x msdu n) (Huni : Xf.bmcast x = false).
Context (Hfl : 256 <= frag_thresh (hw_info nic) < 2 ^ 16).
Context (Hbuf : 2048 <= Z.of_nat (length buf) < 2 ^ 29).
Context (Hkey : mic_key_ok nic x key).
Let fl := frag_thresh (hw_info nic).

(** The header, IV and ICV of each fragment, and the payload a fragment holds
    together with the LLC header of the first. *)
Definition frag_overhead : Z := Xf.hdrlen x + Xf.iv_len x + trailer_of x.
Definition frag_room : Z := fl - frag_overhead.
Definition frag_start (j : nat) : Z := Nat.iter j (next_start fl) 20.

Lemma lens_bounds : 24 <= Xf.hdrlen x <= 26 /\ 0 <= Xf.iv_len x <= 8 /\ 0 <= Xf.icv_len x <= 8 /\
  0 <= trailer_of x <= 4 /\ (Xf.encrypt_algo x = _TKIP_ -> trailer_of x = Xf.icv_len x /\ Xf.bswenc x = true).
Proof using Hpr.
  clear -Hpr. pose proof Hpr as [_ _ _ _ _ P6 _ _ [P9 P10]]. unfold trailer_of. rewrite P6, P10. clear P6 P10.
  assert (Hq : 24 <= (if nz (Wi.qos_option (Wdn.info n)) then 26 else 24) <= 26) by (destruct (nz _); lia).
  revert P9. generalize (Xf.encrypt_algo x). intros a P9. split; [exact Hq |]. clear Hq.
  unfold _WEP40_, _WEP104_, _TKIP_, _AES_ in *.
  destruct (Z.eqb_spec a 1), (Z.eqb_spec a 5), (Z.eqb_spec a 2), (Z.eqb_spec a 4); try lia;
    cbn [orb negb] in *; injection P9 as -> ->; cbn; split_and!; first [lia | done].
Qed.

Lemma fragments_built : exists w' x' b' q,
  wf_tx_msdu_to_mpdu nic w x (Some buf) msdu (Z.of_nat (length msdu)) = Ret (true, w', x', Some b') /\
  length b' = length buf /\ take 20 b' = take 20 buf /\ Xf.nr_frags x' = Z.of_nat (S q) /\ (q < 7)%nat /\
  0 <= Z.of_nat (length msdu) - 6 - Z.of_nat q * frag_room <= frag_room /\
  forall j, (j <= q)%nat -> let m := chunk fl x msdu 0 14 (Z.of_nat j) in
    slice b' (frag_start j + Xf.hdrlen x + Xf.iv_len x + llc_size (Z.of_nat j)) m =
      Ret (take (Z.to_nat m) (drop 14 msdu)).
Proof using All.
  destruct lens_bounds as (B1 & B2 & B3 & B4 & B5).
  destruct (header_built nic w x msdu buf key n Hw Hmode Hbss ltac:(lia) ltac:(lia) Hmb Hpr ltac:(lia) ltac:(lia))
    as (wdn' & b & H & T & Hb & Hnok & Hq & Hmac & HH & Hhl & HT).
  destruct (node_in nic w x msdu buf key n Hw Hmode Hbss ltac:(lia) ltac:(lia) Hmb Hpr ltac:(lia) ltac:(lia)) as [Hin _].
  pose proof Hpr as [P1 P2 P3 P4 P5 P6 P7 P8 P9]. cbv zeta in Hb.
  set (seq := Z.land _ _) in Hb. set (x0 := Xf.set_ampdu_en b (Xf.set_seqnum seq x)) in Hb.
  set (x1 := Xf.set_pwlanhdr (Some 20) x0). set (fc := le_bytes 2 _) in Hb. set (b0 := take 20 buf ++ fc ++ H ++ T) in Hb.
  assert (Hfc : length fc = 2%nat) by apply length_le_bytes. clearbody fc.
  assert (Hb0 : length b0 = length buf) by (unfold b0; rewrite !length_app, length_take; lia).
  assert (Ht0 : take 20 b0 = take 20 buf) by (unfold b0; rewrite take_app_le, take_take by (rewrite length_take; lia); done).
  clearbody b0. unfold frag_room, frag_overhead. fold fl in Hfl |- *.
  destruct (put_fragments_safe fl x1 msdu Huni P5 ltac:(cbn; lia) ltac:(cbn; rewrite P8; lia) ltac:(apply B4)
    ltac:(change (Xf.hdrlen x1) with (Xf.hdrlen x); change (Xf.iv_len x1) with (Xf.iv_len x);
          change (trailer_of x1) with (trailer_of x); lia)
    7 (Z.to_nat (Z.of_nat (length msdu))) b0 20 0 14) as (b1 & q & E1 & K1 & Hq7 & Hrest & [Hp0 Hp1] & Hc); try lia.
  { change (Xf.hdrlen x1) with (Xf.hdrlen x). lia. }
  { unfold left_of. change (Xf.hdrlen x1) with (Xf.hdrlen x); change (Xf.iv_len x1) with (Xf.iv_len x);
      change (trailer_of x1) with (trailer_of x). change (0 =? 0) with true. lia. }
  { unfold left_of. change (Xf.hdrlen x1) with (Xf.hdrlen x); change (Xf.iv_len x1) with (Xf.iv_len x);
      change (trailer_of x1) with (trailer_of x). change (0 =? 0) with true. lia. }
  cbv zeta in Hp1, Hc, E1, Hrest.
  change (left_of msdu 0 14) with (Z.of_nat (length msdu) - 14 + 8) in *.
  change (Xf.hdrlen x1) with (Xf.hdrlen x) in *; change (Xf.iv_len x1) with (Xf.iv_len x) in *;
    change (trailer_of x1) with (trailer_of x) in *; change (Xf.bswenc x1) with (Xf.bswenc x) in *;
    change (Xf.icv_len x1) with (Xf.icv_len x) in *.
  replace (Z.of_nat (length msdu) - 14 + 8) with (Z.of_nat (length msdu) - 6) in * by lia.
  set (rest := Z.of_nat (length msdu) - 6 - _) in *. set (l := Xf.hdrlen x + Xf.iv_len x + rest) in *.
  fold (frag_start q) in Hp0, Hp1.
  rewrite (u8_id (0 + Z.of_nat (S q))) in E1 by (unfold is_u8; lia). rewrite Z.add_0_l in E1.
  set (v := u32 _) in E1. set (x2 := Xf.set_last_txcmdsz v (Xf.set_nr_frags (Z.of_nat (S q)) x1)) in E1.
  set (w' := set_node w (Wdn.addr n) wdn') in *.
  assert (Hnw : node_at w' (Wdn.addr n) = Some wdn').
  { apply (node_at_head w' (Wdn.mk_node (Wdn.addr n) wdn')); [unfold w'; rewrite set_node_addrs; apply Hw |].
    by apply in_set_node. }
  assert (Hmic : exists b2 v2, frame_txp_addmic nic w' x2 b1 = Ret (true, Xf.set_last_txcmdsz v2 x2, b2) /\
    keeps (frag_start q + l) b1 b2).
  { destruct (Z.eqb_spec (Xf.encrypt_algo x) _TKIP_) as [Ha | Ha].
    - destruct (Hkey Ha) as (K1' & K2' & K3' & K4'). destruct (B5 Ha) as [B6 B7].
      assert (Hv : v = l + Xf.icv_len x) by (unfold v; rewrite B7; apply u32_id; unfold is_u32; lia).
      destruct (addmic_safe nic w' x2 b1 key q l (Wdn.mk_node (Wdn.addr n) wdn') K1' K2' K4' P2 Hnw)
        as (b2 & E2 & K2); fold fl; change (Xf.icv_len x2) with (Xf.icv_len x); change (Xf.hdrlen x2) with (Xf.hdrlen x);
        change (Xf.iv_len x2) with (Xf.iv_len x); try lia; try done.
      + rewrite (proj1 K1). fold (frag_start q). lia.
      + rewrite (proj1 K1). lia.
      + exists b2. eexists. split; [exact E2 | exact K2].
    - exists b1, v. unfold frame_txp_addmic. change (Xf.encrypt_algo x2) with (Xf.encrypt_algo x).
      apply Z.eqb_neq in Ha. rewrite Ha. split; [done | apply buf_keeps_refl]. }
  destruct Hmic as (b2 & v2 & E2 & K2).
  assert (Hv : exists m, (if Xf.bmcast x2 then Ret (Xf.set_vcs_mode NONE_VCS (Xf.set_last_txcmdsz v2 x2))
      else letc a := of_option (Xf.pwdn x2) in letc wdn := of_option (node_at w' a) in
           Ret (xmit_frame_vcs_init nic wdn (Xf.set_last_txcmdsz v2 x2))) =
      Ret (Xf.set_vcs_mode m (Xf.set_last_txcmdsz v2 x2))).
  { change (Xf.bmcast x2) with (Xf.bmcast x). rewrite Huni. change (Xf.pwdn x2) with (Xf.pwdn x).
    rewrite P2. cbn [of_option cbind]. rewrite Hnw. by eexists. }
  destruct Hv as [m Hv]. exists w', (Xf.set_vcs_mode m (Xf.set_last_txcmdsz v2 x2)), b2, q.
  assert (K12 : keeps 20 b0 b2).
  { eapply buf_keeps_trans; [exact K1 |]. eapply keeps_le; [| exact K2].
    pose proof (iter_start_ge fl q 20 ltac:(lia)) as Hi. fold (frag_start q) in Hi. lia. }
  split.
  { unfold wf_tx_msdu_to_mpdu. change TXDESC_OFFSET with 20. change WF_ETH_HLEN with 14. rewrite Hb. cbn [cbind negb].
    fold x1 fl. rewrite E1. cbn [cbind]. rewrite E2. cbn [cbind negb]. change (Xf.bmcast (Xf.set_last_txcmdsz v2 x2)) with (Xf.bmcast x2).
    change (Xf.pwdn (Xf.set_last_txcmdsz v2 x2)) with (Xf.pwdn x2). rewrite Hv. done. }
  split; [by rewrite (proj1 K12) |]. split; [rewrite <- Ht0; exact (proj2 K12) |]. split; [done |]. split; [lia |].
  split; [lia |].
  intros j Hj. cbv zeta. specialize (Hc j Hj). change (chunk fl x1 msdu) with (chunk fl x msdu) in Hc.
  rewrite (keeps_slice (frag_start q + l) b1 b2); [exact Hc | done |].
  unfold chunk. change (left_of msdu 0 14) with (Z.of_nat (length msdu) - 14 + 8). rewrite Z.add_0_l.
  destruct (decide (j = q)) as [-> | Hne]; [lia |].
  assert (Hmono : frag_start (S j) <= frag_start q).
  { unfold frag_start. replace q with ((q - S j) + S j)%nat by lia. rewrite Nat.iter_add. apply iter_start_ge. lia. }
  pose proof (next_start_ge fl (frag_start j) ltac:(lia)) as Hns. change (next_start fl (frag_start j)) with (frag_start (S j)) in Hns.
  lia.
Qed.
End Fragments.

(** C15: whatever the cipher and the fragmentation threshold, at least the 256
    that can be configured, a packet of at most 1514 bytes that
    [wf_xmit_frame_init] accepts is framed: the loop over the fragments and the
    one over them for the MIC end, no access leaves a transmit buffer of 2048
    bytes, the descriptor in front is not touched, and there are at most seven
    fragments. *)
Theorem fragments_bounded (nic : tx_nic) (w w1 : Wdn.wdn_list) (x x1 : Xf.xmit_frame) (msdu buf key : list Z) :
  nodes_ok w -> transmits (work_mode nic) -> length (cur_bssid nic) = 6%nat ->
  bytes_ok msdu -> (14 <= length msdu <= 1514)%nat -> 2048 <= Z.of_nat (length buf) < 2 ^ 29 ->
  length (Xf.iv x) = 18%nat -> 256 <= frag_thresh (hw_info nic) < 2 ^ 16 ->
  wf_xmit_frame_init nic w x msdu (Z.of_nat (length msdu)) = Ret (true, w1, x1) -> mic_key_ok nic x1 key ->
  exists w2 x2 buf', wf_tx_msdu_to_mpdu nic w1 x1 (Some buf) msdu (Z.of_nat (length msdu)) =
      Ret (true, w2, x2, Some buf') /\
    length buf' = length buf /\ take 20 buf' = take 20 buf /\ 1 <= Xf.nr_frags x2 <= 7.
Proof.
  intros Hw Hmode Hbss Hmb Hm Hb Hiv Hfl Hinit Hkey.
  destruct (init_prepared nic w x msdu _ w1 x1 Hw Hmode Hiv Hmb ltac:(lia) Hinit) as (n & pn & Hn & _ & Hw1 & Hpr).
  destruct (Xf.bmcast x1) eqn:Hbm.
  - destruct (mpdu_built nic w1 x1 msdu buf key _ Hw1 Hmode Hbss ltac:(lia) ltac:(lia) Hmb Hpr ltac:(lia) ltac:(lia)
      (or_introl Hbm) Hkey) as (w2 & x2 & tail & Hx & Hlen & _ & _ & Hnf & _).
    do 3 eexists. split; [exact Hx |]. split; [exact Hlen |]. rewrite Hnf. split; [| lia].
    rewrite take_app_le, take_take by (rewrite length_take; lia). done.
  - destruct (fragments_built nic w1 x1 msdu buf key _ Hw1 Hmode Hbss Hm Hmb Hpr Hbm Hfl Hb Hkey)
      as (w2 & x2 & b' & q & Hx & Hlen & Ht & Hnf & Hq & _).
    exists w2, x2, b'. split; [done |]. split; [done |]. split; [done |]. rewrite Hnf. lia.
Qed.

(** A packet that needs more than one fragment is sent corrupted: every
    fragment takes its payload from the start of the packet, since the code
    copies from [msdu_buf + pkt_hdrlen] and not from [msdu_buf + msduOffset].
    The second fragment repeats the first bytes of the first one, and no
    fragment holds a byte of the payload from [frag_room] on. *)
Theorem fragments_repeat (nic : tx_nic) (w w1 : Wdn.wdn_list) (x x1 : Xf.xmit_frame) (msdu buf key : list Z) :
  nodes_ok w -> transmits (work_mode nic) -> length (cur_bssid nic) = 6%nat ->
  bytes_ok msdu -> (14 <= length msdu <= 1514)%nat -> 2048 <= Z.of_nat (length buf) < 2 ^ 29 ->
  length (Xf.iv x) = 18%nat -> 256 <= frag_thresh (hw_info nic) < 2 ^ 16 ->
  wf_xmit_frame_init nic w x msdu (Z.of_nat (length msdu)) = Ret (true, w1, x1) -> mic_key_ok nic x1 key ->
  Xf.bmcast x1 = false -> frag_room nic x1 < Z.of_nat (length msdu) - 6 ->
  exists w2 x2 buf' q, wf_tx_msdu_to_mpdu nic w1 x1 (Some buf) msdu (Z.of_nat (length msdu)) =
      Ret (true, w2, x2, Some buf') /\ Xf.nr_frags x2 = Z.of_nat (S q) /\ (1 <= q)%nat /\
    forall j, (j <= q)%nat -> exists m, 0 <= m <= frag_room nic x1 /\
      (j = 1%nat -> 0 < m) /\
      slice buf' (frag_start nic j + Xf.hdrlen x1 + Xf.iv_len x1 + (if (j =? 0)%nat then 8 else 0)) m =
        Ret (take (Z.to_nat m) (drop 14 msdu)).
Proof.
  intros Hw Hmode Hbss Hmb Hm Hb Hiv Hfl Hinit Hkey Hbm Hbig.
  destruct (init_prepared nic w x msdu _ w1 x1 Hw Hmode Hiv Hmb ltac:(lia) Hinit) as (n & pn & Hn & _ & Hw1 & Hpr).
  destruct (fragments_built nic w1 x1 msdu buf key _ Hw1 Hmode Hbss Hm Hmb Hpr Hbm Hfl Hb Hkey)
    as (w2 & x2 & b' & q & Hx & _ & _ & Hnf & Hq & Hrest & Hc).
  destruct (lens_bounds nic w1 x1 msdu _ Hpr) as (B1 & B2 & B3 & B4 & _).
  assert (Hroom : 218 <= frag_room nic x1) by (unfold frag_room, frag_overhead; lia).
  assert (Hq1 : (1 <= q)%nat) by (destruct q; lia).
  exists w2, x2, b', q. split; [done |]. split; [done |]. split; [done |].
  intros j Hj. specialize (Hc j Hj). cbv zeta in Hc.
  replace (llc_size (Z.of_nat j)) with (if (j =? 0)%nat then 8 else 0) in Hc by (by destruct j).
  exists (chunk (frag_thresh (hw_info nic)) x1 msdu 0 14 (Z.of_nat j)). split_and!; [| | | exact Hc].
  all: unfold chunk, llc_size; change (left_of msdu 0 14) with (Z.of_nat (length msdu) - 14 + 8);
    fold (frag_overhead x1); fold (frag_room nic x1); rewrite Z.add_0_l; set (fr := frag_room nic x1) in *.
  - destruct j as [| j]; [change (Z.of_nat 0) with 0; change (0 =? 0) with true; lia |]. destruct (Z.eqb_spec (Z.of_nat (S j)) 0); [lia |].
    assert (Z.of_nat (S j) * fr <= Z.of_nat q * fr) by nia. lia.
  - assert (0 <= Z.of_nat j * fr) by nia. destruct (_ =? 0); lia.
  - intros ->. change (Z.of_nat 1) with 1. change (1 =? 0) with false. lia.
Qed.

(** Three fragments of the packet of [packet_framed_witness], made longer. *)
Definition wit_long : list Z := wit_msdu ++ repeat 7 556.

Lemma wit_long_ok : exists w1 x1,
  wf_xmit_frame_init (wit_nic 256) wit_table Xf.zero wit_long (Z.of_nat (length wit_long)) = Ret (true, w1, x1) /\
  mic_key_ok (wit_nic 256) x1 (repeat 1 16) /\ Xf.bmcast x1 = false /\ frag_room (wit_nic 256) x1 = 218.
Proof.
  eexists _, _. split; [vm_compute; reflexivity |]. split; [| by split].
  intros _. split_and!; [reflexivity | discriminate | by apply bytes_okb_ok | reflexivity].
Qed.

Lemma fragments_bounded_witness : exists w1 x1 w2 x2 buf',
  wf_xmit_frame_init (wit_nic 256) wit_table Xf.zero wit_long (Z.of_nat (length wit_long)) = Ret (true, w1, x1) /\
  wf_tx_msdu_to_mpdu (wit_nic 256) w1 x1 (Some (repeat 9 2048)) wit_long (Z.of_nat (length wit_long)) =
    Ret (true, w2, x2, Some buf') /\ 1 <= Xf.nr_frags x2 <= 7.
Proof.
  destruct wit_long_ok as (w1 & x1 & E & Hk & _).
  destruct (fragments_bounded (wit_nic 256) wit_table w1 Xf.zero x1 wit_long (repeat 9 2048) (repeat 1 16)
    tx_table_ok (or_introl eq_refl) eq_refl ltac:(by apply bytes_okb_ok) ltac:(cbn; lia)
    ltac:(rewrite repeat_length; lia) eq_refl ltac:(cbn; lia) E Hk) as (w2 & x2 & b' & Hx & _ & _ & Hn).
  exists w1, x1, w2, x2, b'. split; [exact E |]. split; [exact Hx | exact Hn].
Defined.

Lemma fragments_repeat_witness : exists w1 x1 w2 x2 buf' q m,
  wf_tx_msdu_to_mpdu (wit_nic 256) w1 x1 (Some (repeat 9 2048)) wit_long (Z.of_nat (length wit_long)) =
    Ret (true, w2, x2, Some buf') /\ Xf.nr_frags x2 = Z.of_nat (S q) /\ (1 <= q)%nat /\ 0 < m /\
    slice buf' (frag_start (wit_nic 256) 1 + Xf.hdrlen x1 + Xf.iv_len x1 + 0) m =
      Ret (take (Z.to_nat m) (drop 14 wit_long)).
Proof.
  destruct wit_long_ok as (w1 & x1 & E & Hk & Hb & Hr).
  destruct (fragments_repeat (wit_nic 256) wit_table w1 Xf.zero x1 wit_long (repeat 9 2048) (repeat 1 16)
    tx_table_ok (or_introl eq_refl) eq_refl ltac:(by apply bytes_okb_ok) ltac:(cbn; lia)
    ltac:(rewrite repeat_length; lia) eq_refl ltac:(cbn; lia) E Hk Hb ltac:(rewrite Hr; cbn; lia))
    as (w2 & x2 & b' & q & Hx & Hn & Hq & Hc).
  destruct (Hc 1%nat Hq) as (m & _ & Hm & Hs).
  exists w1, x1, w2, x2, b', q, m. split; [exact Hx |]. split; [exact Hn |]. split; [exact Hq |].
  split; [exact (Hm eq_refl) | exact Hs].
Defined.

End TxFrame.
