(* ===== verification/TxDesc.v ===== *)
(** * Transmit descriptors ([nic/tx.c], lines 743-1187, 1189-1247, 1682-2225, 2608-2757)

    Twenty bytes in front of every frame tell the chip how to send it.  The
    code writes them field by field with [wf_set_bits_to_le_u32]
    ([nic/nic_io.h]); a buffer is the bytes from the descriptor on. *)
From S2P Require Import Prelude SecTypes WdnTypes Wdn TxTypes TxFrame.

Module TxDesc.

(** ** Constants *)

Definition _TKIP_WTMIC_ : Z := 3.
Definition TYPE_DATA : Z := 3.
Definition HT_DATA_SC_DONOT_CARE : Z := 0.
Definition HT_DATA_SC_20_UPPER_OF_40MHZ : Z := 1.
Definition HT_DATA_SC_20_LOWER_OF_40MHZ : Z := 2.
Definition HAL_PRIME_CHNL_OFFSET_LOWER : Z := 1.
Definition HAL_PRIME_CHNL_OFFSET_UPPER : Z := 2.
Definition QSLT_BEACON : Z := 8.
Definition QSLT_HIGH : Z := 9.
Definition QSLT_MGNT : Z := 10.
Definition VO_QUEUE_INX : Z := 0.
Definition VI_QUEUE_INX : Z := 1.
Definition BE_QUEUE_INX : Z := 2.
Definition BK_QUEUE_INX : Z := 3.
Definition BCN_QUEUE_INX : Z := 4.
Definition MGT_QUEUE_INX : Z := 5.
Definition HIGH_QUEUE_INX : Z := 6.
Definition DESC_RATE1M : Z := 0.
Definition DESC_RATE6M : Z := 4.

(** ** Bit fields *)

(** [WF_U32_BIT_LEN_MASK] and [WF_U32_BIT_OFFSET_LEN_MASK] *)
Definition WF_U32_BIT_LEN_MASK (bit_len : Z) : Z := Z.shiftr 0xFFFFFFFF (32 - bit_len).
Definition WF_U32_BIT_OFFSET_LEN_MASK (bit_offset bit_len : Z) : Z :=
  u32 (Z.shiftl (WF_U32_BIT_LEN_MASK bit_len) bit_offset).

(** The word that [wf_set_bits_to_le_u32] writes over [w]. *)
Definition set_field (w bit_offset bit_len value : Z) : Z :=
  if (bit_offset =? 0) && (bit_len =? 32) then u32 value
  else Z.lor (Z.land w (0xFFFFFFFF - WF_U32_BIT_OFFSET_LEN_MASK bit_offset bit_len))
         (u32 (Z.shiftl (Z.land (u32 value) (WF_U32_BIT_LEN_MASK bit_len)) bit_offset)).

(** [wf_set_bits_to_le_u32] at offset [i] of a buffer. *)
Definition wf_set_bits_to_le_u32 (buf : list Z) (i bit_offset bit_len value : Z) : C (list Z) :=
  letc b := slice buf i 4 in
  blit buf i (le_bytes 4 (set_field (le_word b) bit_offset bit_len value)).

(** ** Fields of a data frame *)

Definition sectype_to_hwdesc_get (x : Xf.xmit_frame) : Z :=
  let a := Xf.encrypt_algo x in
  if (0 <? a) && negb (Xf.bswenc x) then
    if (a =? _WEP40_) || (a =? _WEP104_) then 1
    else if (a =? _TKIP_) || (a =? _TKIP_WTMIC_) then 2
    else if a =? _AES_ then 3
    else if a =? _NO_PRIVACY_ then 0
    else 4
  else 0.

Definition txdesc_scmapping_get (nic : tx_nic) (wdn : Wi.wdn_net_info_st) : Z :=
  if cur_bw nic =? Wdn.CHANNEL_WIDTH_40 then
    if Wi.bw_mode wdn =? Wdn.CHANNEL_WIDTH_40 then HT_DATA_SC_DONOT_CARE
    else if Wi.bw_mode wdn =? Wdn.CHANNEL_WIDTH_20 then
      if Wi.channle_offset wdn =? HAL_PRIME_CHNL_OFFSET_UPPER then HT_DATA_SC_20_UPPER_OF_40MHZ
      else if Wi.channle_offset wdn =? HAL_PRIME_CHNL_OFFSET_LOWER then HT_DATA_SC_20_LOWER_OF_40MHZ
      else HT_DATA_SC_DONOT_CARE
    else 0
  else HT_DATA_SC_DONOT_CARE.

Definition txdesc_bwmapping_get (nic : tx_nic) (wdn : Wi.wdn_net_info_st) : Z :=
  if cur_bw nic =? Wdn.CHANNEL_WIDTH_40 then
    if Wi.bw_mode wdn =? Wdn.CHANNEL_WIDTH_40 then 1 else 0
  else 0.

Definition txdesc_vcs_fill (nic : tx_nic) (wdn : Wi.wdn_net_info_st) (x : Xf.xmit_frame) (d : list Z)
    : C (list Z) :=
  letc d := wf_set_bits_to_le_u32 d 8 27 2 0 in
  letc d := (if Xf.vcs_mode x =? RTS_CTS then wf_set_bits_to_le_u32 d 8 27 2 1
             else if Xf.vcs_mode x =? CTS_TO_SELF then wf_set_bits_to_le_u32 d 8 27 2 2
             else Ret d) in
  if nz (Xf.vcs_mode x) then
    letc d := (if Wi.short_preamble wdn =? 1 then wf_set_bits_to_le_u32 d 8 29 1 1 else Ret d) in
    if nz (Xf.ht_en x) then wf_set_bits_to_le_u32 d 8 30 2 (txdesc_scmapping_get nic wdn) else Ret d
  else Ret d.

Definition txdesc_phy_fill (nic : tx_nic) (wdn : Wi.wdn_net_info_st) (x : Xf.xmit_frame) (d : list Z)
    : C (list Z) :=
  if nz (Xf.ht_en x) then
    letc d := wf_set_bits_to_le_u32 d 16 12 1 (txdesc_bwmapping_get nic wdn) in
    wf_set_bits_to_le_u32 d 16 13 2 (txdesc_scmapping_get nic wdn)
  else Ret d.

Definition __graid_table : list Z := [0; 5; 0; 4; 0; 3; 2; 1; 0].

Definition tx_raid_get (raid : Z) : C Z := rd __graid_table raid.

(** [MGN_RATE] and the [DESC_RATE] constants, in the order of the cases. *)
Definition rates : list (Z * Z) :=
  [(0x02, 0x00); (0x04, 0x01); (0x0B, 0x02); (0x16, 0x03); (0x0C, 0x04); (0x12, 0x05); (0x18, 0x06);
   (0x24, 0x07); (0x30, 0x08); (0x48, 0x09); (0x60, 0x0A); (0x6C, 0x0B); (0x80, 0x0C); (0x81, 0x0D);
   (0x82, 0x0E); (0x83, 0x0F); (0x84, 0x10); (0x85, 0x11); (0x86, 0x12); (0x87, 0x13)].

Definition wf_mrate_to_hwrate (rate : Z) : Z :=
  match List.find (fun p => rate =? fst p) rates with Some p => snd p | None => DESC_RATE1M end.

Definition wf_hwrate_to_mrate (rate : Z) : Z :=
  match List.find (fun p => rate =? snd p) rates with Some p => fst p | None => Wdn.MGN_1M end.

(** The rate of a data frame: whether it is one of the frames sent at a basic
    rate, or at the fixed rate of the configuration. *)
Definition fixed_rate (nic : tx_nic) (x : Xf.xmit_frame) : bool :=
  (Xf.ether_type x =? 0x888e) || (Xf.ether_type x =? 0x0806) || (Xf.ether_type x =? 0x88B4)
  || (Xf.dhcp_pkt x =? 1) || use_fixRate (hw_info nic).

Definition txdesc_rate_fill (nic : tx_nic) (wdn : Wi.wdn_net_info_st) (x : Xf.xmit_frame) (d : list Z)
    : C (list Z) :=
  if negb (fixed_rate nic x) then
    letc d := (if Xf.ampdu_en x then wf_set_bits_to_le_u32 d 12 0 1 1
               else wf_set_bits_to_le_u32 d 12 19 1 1) in
    letc d := txdesc_phy_fill nic wdn x d in
    wf_set_bits_to_le_u32 d 8 16 1 0
  else
    letc d := wf_set_bits_to_le_u32 d 12 19 1 1 in
    letc d := wf_set_bits_to_le_u32 d 8 16 1 1 in
    letc d := (if Wi.short_preamble wdn =? 1 then wf_set_bits_to_le_u32 d 8 17 1 1 else Ret d) in
    letc d := wf_set_bits_to_le_u32 d 8 16 1 1 in
    if use_fixRate (hw_info nic)
    then wf_set_bits_to_le_u32 d 8 18 7 (wf_mrate_to_hwrate (Wi.tx_rate wdn))
    else
      letc d := wf_set_bits_to_le_u32 d 8 18 7 DESC_RATE1M in
      if p2p_valid nic then wf_set_bits_to_le_u32 d 8 18 7 DESC_RATE6M else Ret d.

Definition txdesc_fill (nic : tx_nic) (wdn : Wi.wdn_net_info_st) (x : Xf.xmit_frame) (d : list Z)
    (bSendAck : bool) : C (list Z) :=
  if negb (Xf.frame_tag x =? DATA_FRAMETAG) then Ret d
  else
    letc d := wf_set_bits_to_le_u32 d 0 0 2 TYPE_DATA in
    letc d := wf_set_bits_to_le_u32 d 16 0 5 (Wi.wdn_id wdn) in
    letc d := (if Wi.raid wdn <=? 8 then
                 letc d := wf_set_bits_to_le_u32 d 16 5 1 0 in
                 letc r := tx_raid_get (Wi.raid wdn) in
                 wf_set_bits_to_le_u32 d 16 6 3 r
               else
                 letc d := wf_set_bits_to_le_u32 d 16 5 1 1 in
                 letc r := tx_raid_get (Wi.raid wdn) in
                 wf_set_bits_to_le_u32 d 16 9 3 r) in
    letc d := wf_set_bits_to_le_u32 d 12 6 5 (Xf.qsel x) in
    letc d := wf_set_bits_to_le_u32 d 0 19 12 (Xf.seqnum x) in
    letc d := wf_set_bits_to_le_u32 d 12 3 3 (sectype_to_hwdesc_get x) in
    letc d := txdesc_vcs_fill nic wdn x d in
    letc d := txdesc_rate_fill nic wdn x d in
    letc d := (if bSendAck then
                 letc d := wf_set_bits_to_le_u32 d 12 21 1 1 in
                 letc s := rd (Wi.txseq_tid wdn) (Xf.qsel x) in
                 wf_set_bits_to_le_u32 d 4 16 12 s
               else Ret d) in
    letc d := wf_set_bits_to_le_u32 d 8 0 16 (Xf.last_txcmdsz x) in
    letc d := (if Xf.bmcast x then wf_set_bits_to_le_u32 d 12 14 1 1 else Ret d) in
    if negb (nz (Wi.qos_option wdn)) then wf_set_bits_to_le_u32 d 0 18 1 1 else Ret d.

(** The exclusive or of the first [n] half-words of the descriptor. *)
Fixpoint xor_halves (n : nat) (d : list Z) : C Z :=
  match n with
  | O => Ret 0
  | S n =>
      letc c := xor_halves n d in
      letc b := slice d (2 * Z.of_nat n) 2 in
      Ret (Z.lxor c (le_word b))
  end.

Definition wf_txdesc_chksum (d : list Z) : C (list Z) :=
  letc c := xor_halves 9 d in
  wf_set_bits_to_le_u32 d 16 16 16 c.

Definition txdesc_update (nic : tx_nic) (wdn : Wi.wdn_net_info_st) (x : Xf.xmit_frame) (d : list Z)
    : C (list Z) :=
  letc d := txdesc_fill nic wdn x d (tx_data_rpt (hw_info nic)) in
  wf_txdesc_chksum d.

(** [PACKET_OFFSET_SZ] is zero, so the descriptor is never moved and the
    result is false; [dum] says whether it is written. *)
Definition wf_tx_txdesc_init (nic : tx_nic) (wdn : Wi.wdn_net_info_st) (x : Xf.xmit_frame) (mem : list Z)
    (bagg_pkt : bool) (dum : Z) : C (bool * Xf.xmit_frame * list Z) :=
  let moved := negb (PACKET_OFFSET_SZ =? 0) && negb bagg_pkt in
  let i := if moved then PACKET_OFFSET_SZ else 0 in
  let x := if moved then Xf.set_pkt_offset (s8 (Xf.pkt_offset x - 1)) x else x in
  if nz dum then
    letc mem := blit mem i (replicate (Z.to_nat TXDESC_OFFSET) 0) in
    letc d := txdesc_update nic wdn x (drop (Z.to_nat i) mem) in
    Ret (moved, x, take (Z.to_nat i) mem ++ d)
  else Ret (moved, x, mem).

Definition wf_quary_addr (qsel : Z) : Z :=
  if (qsel =? 0) || (qsel =? 3) then BE_QUEUE_INX
  else if (qsel =? 1) || (qsel =? 2) then BK_QUEUE_INX
  else if (qsel =? 4) || (qsel =? 5) then VI_QUEUE_INX
  else if (qsel =? 6) || (qsel =? 7) then VO_QUEUE_INX
  else if qsel =? QSLT_BEACON then BCN_QUEUE_INX
  else if qsel =? QSLT_HIGH then HIGH_QUEUE_INX
  else MGT_QUEUE_INX.

Definition wf_ra_sGI_get (wdn : Wi.wdn_net_info_st) (pad : Z) : Z :=
  let sgi_20m := if nz pad then HtPriv.sgi_20m (Wi.htpriv wdn) else 0 in
  let sgi_40m := if nz pad then HtPriv.sgi_40m (Wi.htpriv wdn) else 0 in
  if Wi.bw_mode wdn =? Wdn.CHANNEL_WIDTH_40 then sgi_40m else sgi_20m.

(** ** Management frames and beacons *)

(** The broadcast bit, from the first address of the frame behind the
    descriptor, and the checksum: the end of the three functions below. *)
Definition desc_finish (buf : list Z) : C (list Z) :=
  letc addr1 := slice buf (TXDESC_OFFSET + 4) 6 in
  letc buf := (if IS_MCAST addr1 then wf_set_bits_to_le_u32 buf 12 14 1 1 else Ret buf) in
  wf_txdesc_chksum buf.

(** The descriptor of [wf_nic_beacon_xmit]. *)
Definition beacon_desc (nic_num : Z) (len : Z) (buf : list Z) : C (list Z) :=
  letc d := blit buf 0 (replicate (Z.to_nat TXDESC_OFFSET) 0) in
  letc d := wf_set_bits_to_le_u32 d 0 0 2 TYPE_DATA in
  letc d := wf_set_bits_to_le_u32 d 0 18 1 1 in
  letc d := wf_set_bits_to_le_u32 d 8 0 16 len in
  letc d := wf_set_bits_to_le_u32 d 8 16 1 1 in
  letc d := wf_set_bits_to_le_u32 d 8 18 7 DESC_RATE1M in
  letc d := wf_set_bits_to_le_u32 d 12 11 3 1 in
  letc d := wf_set_bits_to_le_u32 d 12 6 5 0 in
  let n := if nic_num =? 1 then 1 else 0 in
  letc d := wf_set_bits_to_le_u32 d 12 18 1 n in
  letc d := wf_set_bits_to_le_u32 d 16 0 5 n in
  letc d := wf_set_bits_to_le_u32 d 0 19 12 n in
  letc d := wf_set_bits_to_le_u32 d 12 15 1 1 in
  letc d := wf_set_bits_to_le_u32 d 12 16 2 0 in
  letc d := wf_set_bits_to_le_u32 d 16 5 1 0 in
  letc d := wf_set_bits_to_le_u32 d 16 6 3 0 in
  letc d := wf_set_bits_to_le_u32 d 16 12 1 Wdn.CHANNEL_WIDTH_20 in
  letc d := wf_set_bits_to_le_u32 d 16 13 2 HT_DATA_SC_DONOT_CARE in
  desc_finish d.

(** The secondary channel of a node, as management frames set it. *)
Definition mgmt_sc (wdn : Wi.wdn_net_info_st) : Z :=
  if Wi.channle_offset wdn =? HAL_PRIME_CHNL_OFFSET_UPPER then HT_DATA_SC_20_UPPER_OF_40MHZ
  else if Wi.channle_offset wdn =? HAL_PRIME_CHNL_OFFSET_LOWER then HT_DATA_SC_20_LOWER_OF_40MHZ
  else HT_DATA_SC_DONOT_CARE.

(** [GetSequence] of the frame behind the descriptor. *)
Definition frame_seq (buf : list Z) : C Z :=
  letc b := slice buf (TXDESC_OFFSET + 22) 2 in Ret (Z.shiftr (le_word b) 4).

(** The descriptor of [wf_nic_mgmt_frame_xmit]; [None] when it is given up
    because a 40 MHz network has no node for the frame. *)
Definition mgmt_desc (nic : tx_nic) (wdn : option Wi.wdn_net_info_st) (len : Z) (buf : list Z)
    : C (option (list Z)) :=
  letc d := blit buf 0 (replicate (Z.to_nat TXDESC_OFFSET) 0) in
  letc d := wf_set_bits_to_le_u32 d 0 0 2 TYPE_DATA in
  letc s := frame_seq d in
  letc d := wf_set_bits_to_le_u32 d 0 19 12 s in
  letc d := wf_set_bits_to_le_u32 d 8 0 16 len in
  letc d := wf_set_bits_to_le_u32 d 8 16 1 1 in
  letc d := wf_set_bits_to_le_u32 d 8 18 7 (if p2p_valid nic then DESC_RATE6M else DESC_RATE1M) in
  letc d := wf_set_bits_to_le_u32 d 12 12 1 1 in
  letc d := wf_set_bits_to_le_u32 d 12 6 5 0 in
  letc d := wf_set_bits_to_le_u32 d 12 18 1 0 in
  letc d := wf_set_bits_to_le_u32 d 12 15 1 1 in
  letc d := wf_set_bits_to_le_u32 d 12 16 2 0 in
  letc d := wf_set_bits_to_le_u32 d 16 5 1 0 in
  letc d := wf_set_bits_to_le_u32 d 16 6 3 (if p2p_valid nic then 1 else 0) in
  letc d := wf_set_bits_to_le_u32 d 16 0 5 1 in
  letc d := wf_set_bits_to_le_u32 d 16 12 1 Wdn.CHANNEL_WIDTH_20 in
  if cur_bw nic =? Wdn.CHANNEL_WIDTH_40 then
    match wdn with
    | None => Ret None
    | Some wdn =>
        letc d := wf_set_bits_to_le_u32 d 16 13 2 (mgmt_sc wdn) in
        letc d := desc_finish d in Ret (Some d)
    end
  else
    letc d := wf_set_bits_to_le_u32 d 16 13 2 HT_DATA_SC_DONOT_CARE in
    letc d := desc_finish d in Ret (Some d).

(** The descriptor of [wf_nic_mgmt_frame_xmit_with_ack], and the node with the
    sequence number of its management frames moved on. *)
Definition ack_desc (nic : tx_nic) (wdn : option Wi.wdn_net_info_st) (len : Z) (buf : list Z)
    : C (option Wi.wdn_net_info_st * list Z) :=
  letc d := blit buf 0 (replicate (Z.to_nat TXDESC_OFFSET) 0) in
  letc d := wf_set_bits_to_le_u32 d 0 0 2 TYPE_DATA in
  letc d := wf_set_bits_to_le_u32 d 0 18 1 1 in
  letc d := wf_set_bits_to_le_u32 d 12 12 1 1 in
  letc d := wf_set_bits_to_le_u32 d 12 6 5 0 in
  letc d := wf_set_bits_to_le_u32 d 12 18 1 0 in
  letc d := wf_set_bits_to_le_u32 d 12 15 1 1 in
  letc d := wf_set_bits_to_le_u32 d 12 16 2 0 in
  letc (wdn, d) :=
    match wdn with
    | Some wdn =>
        letc s := rd (Wi.txseq_tid wdn) QSLT_MGNT in
        let s := Z.land (u16 (s + 1)) 0xFFF in
        letc l := wr (Wi.txseq_tid wdn) QSLT_MGNT s in
        let wdn := Wi.set_txseq_tid l wdn in
        letc d := wf_set_bits_to_le_u32 d 0 19 12 s in
        letc d := wf_set_bits_to_le_u32 d 16 0 5 (Wi.wdn_id wdn) in
        letc d := wf_set_bits_to_le_u32 d 16 12 1 (Wi.bw_mode wdn) in
        letc d := wf_set_bits_to_le_u32 d 16 13 2 (mgmt_sc wdn) in
        letc d := wf_set_bits_to_le_u32 d 8 16 1 1 in
        letc d := wf_set_bits_to_le_u32 d 16 5 1 0 in
        letc r := tx_raid_get (Wi.raid wdn) in
        letc d := wf_set_bits_to_le_u32 d 16 6 3 r in
        letc d := wf_set_bits_to_le_u32 d 8 18 7 (wf_mrate_to_hwrate (Wi.tx_rate wdn)) in
        letc d := wf_set_bits_to_le_u32 d 12 21 1 1 in
        letc d := wf_set_bits_to_le_u32 d 4 16 12 s in
        Ret (Some wdn, d)
    | None =>
        letc d := wf_set_bits_to_le_u32 d 0 19 12 0 in
        letc d := wf_set_bits_to_le_u32 d 16 0 5 0 in
        letc d := wf_set_bits_to_le_u32 d 16 12 1 Wdn.CHANNEL_WIDTH_20 in
        letc d := wf_set_bits_to_le_u32 d 16 13 2 HT_DATA_SC_DONOT_CARE in
        letc d := wf_set_bits_to_le_u32 d 8 16 1 1 in
        letc d := wf_set_bits_to_le_u32 d 16 5 1 0 in
        letc d := wf_set_bits_to_le_u32 d 16 6 3 (if p2p_valid nic then 1 else 0) in
        letc d := wf_set_bits_to_le_u32 d 8 18 7 (if p2p_valid nic then DESC_RATE6M else DESC_RATE1M) in
        Ret (None, d)
    end in
  letc d := wf_set_bits_to_le_u32 d 8 0 16 len in
  letc d := desc_finish d in
  Ret (wdn, d).

(** ** Fields of words *)

Lemma len_mask l : 0 <= l <= 32 -> WF_U32_BIT_LEN_MASK l = Z.ones l.
Proof.
  intros Hl. unfold WF_U32_BIT_LEN_MASK. change 0xFFFFFFFF with (Z.ones 32).
  rewrite Z.ones_equiv, Z.shiftr_div_pow2 by lia. rewrite Z.ones_equiv.
  replace (2 ^ 32) with (2 ^ l * 2 ^ (32 - l)) by (rewrite <- Z.pow_add_r by lia; f_equal; lia).
  assert (0 < 2 ^ (32 - l)) by (apply Z.pow_pos_nonneg; lia).
  symmetry. apply Z.div_unique with (2 ^ (32 - l) - 1); nia.
Qed.

Lemma testbit_ones n i : 0 <= n -> 0 <= i -> Z.testbit (Z.ones n) i = (i <? n).
Proof.
  intros Hn Hi. destruct (Z.ltb_spec i n); [by apply Z.ones_spec_low | by apply Z.ones_spec_high].
Qed.

(** A bit of the word written. *)
Lemma set_field_bit w p l v i : 0 <= p -> 0 < l -> p + l <= 32 -> 0 <= i < 32 ->
  Z.testbit (set_field w p l v) i =
    if (p <=? i) && (i <? p + l) then Z.testbit v (i - p) else Z.testbit w i.
Proof.
  intros Hp Hl Hpl Hi. unfold set_field.
  destruct ((p =? 0) && (l =? 32)) eqn:E.
  - apply andb_true_iff in E as [Ep%Z.eqb_eq El%Z.eqb_eq]. subst p l. rewrite testbit_u32 by lia.
    replace ((0 <=? i) && (i <? 0 + 32)) with true by (symmetry; apply andb_true_iff; split; lia).
    f_equal. lia.
  - clear E. unfold WF_U32_BIT_OFFSET_LEN_MASK. rewrite len_mask by lia.
    rewrite Z.lor_spec, Z.land_spec, testbit_u32, Z.shiftl_spec by lia.
    set (m := u32 (Z.shiftl (Z.ones l) p)).
    assert (Hm : forall j, 0 <= j < 32 -> Z.testbit m j = (p <=? j) && (j <? p + l)).
    { intros j Hj. unfold m. rewrite testbit_u32, Z.shiftl_spec by lia.
      destruct (Z.leb_spec p j); cbn [andb]; [| by rewrite Z.testbit_neg_r by lia].
      rewrite testbit_ones by lia. destruct (Z.ltb_spec (j - p) l), (Z.ltb_spec j (p + l)); lia || done. }
    assert (Hsub : 0xFFFFFFFF - m = Z.lxor 0xFFFFFFFF m).
    { rewrite Z.sub_nocarry_ldiff.
      - apply Z.bits_inj'. intros n Hn. rewrite Z.ldiff_spec, Z.lxor_spec. change 0xFFFFFFFF with (Z.ones 32).
        rewrite testbit_ones by lia. destruct (Z.ltb_spec n 32); [done |].
        rewrite (testbit_high 32 m) by (lia || apply u32_range). done.
      - apply Z.bits_inj'. intros n Hn. rewrite Z.ldiff_spec, Z.bits_0. change 0xFFFFFFFF with (Z.ones 32).
        rewrite testbit_ones by lia. destruct (Z.ltb_spec n 32); [by rewrite andb_false_r |].
        by rewrite (testbit_high 32 m) by (lia || apply u32_range). }
    rewrite Hsub, Z.lxor_spec, Hm by lia. change 0xFFFFFFFF with (Z.ones 32). rewrite testbit_ones by lia.
    replace (i <? 32) with true by (symmetry; apply Z.ltb_lt; lia). rewrite xorb_true_l.
    destruct (Z.leb_spec p i); cbn [andb negb].
    + rewrite Z.land_spec, testbit_ones by lia. destruct (Z.ltb_spec i (p + l)); cbn [negb].
      * rewrite andb_false_r, orb_false_l, testbit_u32 by lia.
        by replace (i - p <? l) with true by (symmetry; apply Z.ltb_lt; lia); rewrite andb_true_r.
      * replace (i - p <? l) with false by (symmetry; apply Z.ltb_ge; lia).
        by rewrite andb_false_r, orb_false_r, andb_true_r.
    + rewrite (Z.testbit_neg_r _ (i - p)) by lia. by rewrite orb_false_r, andb_true_r.
Qed.

Lemma set_field_range w p l v : is_u32 w -> is_u32 (set_field w p l v).
Proof.
  intros Hw. unfold set_field. case_match; [apply u32_range |].
  apply lor_u32; [| apply u32_range]. unfold is_u32 in *. change 4294967296 with (2 ^ 32) in *.
  split; [apply Z.land_nonneg; lia |]. apply bits_lt; [lia | apply Z.land_nonneg; lia |].
  intros i Hi. by rewrite Z.land_spec, (testbit_high 32 w).
Qed.

(** ** The descriptor as five words *)

Definition flat (ws t : list Z) : list Z := concat (le_bytes 4 <$> ws) ++ t.

Definition words_ok (ws : list Z) : Prop := length ws = 5%nat /\ Forall is_u32 ws.

(** Writing and reading the field of [l] bits from bit [p] of the word at byte
    offset [i]. *)
Definition sf (ws : list Z) (i p l v : Z) : list Z :=
  alter (fun w => set_field w p l v) (Z.to_nat (i / 4)) ws.
Definition rf (ws : list Z) (i p l : Z) : Z := field (ws !!! Z.to_nat (i / 4)) p l.

Definition fld_ok (i p l : Z) : bool :=
  (0 <=? i) && (i <? 20) && (i mod 4 =? 0) && (0 <=? p) && (0 <? l) && (p + l <=? 32).
Definition apart (i p l i' p' l' : Z) : bool :=
  negb (i =? i') || (p + l <=? p') || (p' + l' <=? p).

Lemma fld_ok_spec i p l : fld_ok i p l = true ->
  0 <= i < 20 /\ i = 4 * (i / 4) /\ 0 <= i / 4 < 5 /\ 0 <= p /\ 0 < l /\ p + l <= 32.
Proof.
  unfold fld_ok. rewrite !andb_true_iff. intros (((((H1 & H2) & H3) & H4) & H5) & H6).
  Z.to_euclidean_division_equations. lia.
Qed.

Lemma sf_ok ws i p l v : words_ok ws -> words_ok (sf ws i p l v).
Proof.
  intros [Hl Hf]. split; [by unfold sf; rewrite length_alter |].
  unfold sf. apply Forall_alter; [done |]. intros w _ Hw. by apply set_field_range.
Qed.

Lemma if_ok (c : bool) ws ws' : words_ok ws -> words_ok ws' -> words_ok (if c then ws else ws').
Proof. by destruct c. Qed.

Lemma word_at ws i : words_ok ws -> 0 <= i / 4 < 5 -> exists w, ws !! Z.to_nat (i / 4) = Some w /\ is_u32 w.
Proof.
  intros [Hl Hf] Hi. destruct (lookup_lt_is_Some_2 ws (Z.to_nat (i / 4)) ltac:(lia)) as [w Hw].
  exists w. split; [done |]. by eapply Forall_lookup_1.
Qed.

Lemma flat_split ws t k w : ws !! k = Some w ->
  flat ws t = concat (le_bytes 4 <$> take k ws) ++ le_bytes 4 w ++ flat (drop (S k) ws) t.
Proof.
  intros Hw. unfold flat. rewrite <- (take_drop_middle ws k w Hw) at 1.
  by rewrite fmap_app, fmap_cons, concat_app, concat_cons, <- !app_assoc.
Qed.

Lemma length_flat_take ws k : (k <= length ws)%nat -> length (concat (le_bytes 4 <$> take k ws)) = (4 * k)%nat.
Proof.
  revert k. induction ws as [| w ws IH]; intros [| k] Hk; cbn [take]; try done; cbn [length] in Hk; [lia |].
  cbn [fmap list_fmap concat]. rewrite length_app, length_le_bytes, IH by lia. lia.
Qed.

(** A field written into a buffer. *)
Lemma set_bits_flat ws t i p l v : words_ok ws -> fld_ok i p l = true ->
  wf_set_bits_to_le_u32 (flat ws t) i p l v = Ret (flat (sf ws i p l v) t).
Proof.
  intros Hok Hf%fld_ok_spec. destruct (word_at ws i Hok ltac:(lia)) as (w & Hw & Hu).
  destruct Hok as [Hl _]. set (k := Z.to_nat (i / 4)) in *.
  unfold wf_set_bits_to_le_u32. rewrite (flat_split _ _ _ _ Hw).
  assert (Hi : i = Z.of_nat (length (concat (le_bytes 4 <$> take k ws)))).
  { rewrite length_flat_take by lia. lia. }
  rewrite slice_app_mid by (rewrite ?length_le_bytes; done). cbn [cbind].
  rewrite blit_app_mid by (rewrite ?length_le_bytes; done). rewrite le_bytes_u32 by done.
  unfold sf. fold k. rewrite (flat_split (alter _ k ws) t k (set_field w p l v)) by (by rewrite list_lookup_alter_eq, Hw).
  rewrite take_alter_ge, drop_alter by lia. by rewrite decide_False by lia.
Qed.

(** Reading a part of the field that was written. *)
Lemma rf_sub ws i p l v q m : words_ok ws -> fld_ok i p l = true -> p <= q -> 0 <= m -> q + m <= p + l ->
  rf (sf ws i p l v) i q m = field v (q - p) m.
Proof.
  intros Hok Hf%fld_ok_spec Hq Hm Hqm. destruct (word_at ws i Hok ltac:(lia)) as (w & Hw & Hu).
  unfold rf, sf. rewrite (list_lookup_total_correct _ _ (set_field w p l v)) by (by rewrite list_lookup_alter_eq, Hw).
  unfold field. apply Z.bits_inj'. intros n Hn. rewrite !Z.land_spec, testbit_ones, !Z.shiftr_spec by lia.
  destruct (Z.ltb_spec n m); [| by rewrite !andb_false_r].
  rewrite set_field_bit by lia.
  replace ((p <=? n + q) && (n + q <? p + l)) with true by (symmetry; apply andb_true_iff; lia).
  do 2 f_equal. lia.
Qed.

Lemma rf_sf ws i p l v : words_ok ws -> fld_ok i p l = true -> rf (sf ws i p l v) i p l = v mod 2 ^ l.
Proof.
  intros Hok Hf. pose proof (fld_ok_spec _ _ _ Hf). rewrite rf_sub by (done || lia).
  unfold field. by rewrite Z.sub_diag, Z.shiftr_0_r, Z.land_ones by lia.
Qed.

Lemma rf_sf_apart ws i p l v i' p' l' : words_ok ws -> fld_ok i p l = true -> fld_ok i' p' l' = true ->
  apart i p l i' p' l' = true -> rf (sf ws i p l v) i' p' l' = rf ws i' p' l'.
Proof.
  intros Hok Hf%fld_ok_spec Hf'%fld_ok_spec Ha. unfold rf, sf.
  destruct (Z.eqb_spec i i') as [E |].
  2: { by rewrite list_lookup_total_alter_ne by lia. }
  subst i'. unfold apart in Ha. rewrite Z.eqb_refl in Ha. cbn [negb orb] in Ha.
  destruct (word_at ws i Hok ltac:(lia)) as (w & Hw & Hu).
  rewrite (list_lookup_total_correct _ _ (set_field w p l v)) by (by rewrite list_lookup_alter_eq, Hw).
  rewrite (list_lookup_total_correct _ _ w) by done.
  unfold field. apply Z.bits_inj'. intros n Hn. rewrite !Z.land_spec, testbit_ones, !Z.shiftr_spec by lia.
  destruct (Z.ltb_spec n l'); [| by rewrite !andb_false_r].
  rewrite set_field_bit by lia. rewrite !andb_true_r.
  replace ((p <=? n + p') && (n + p' <? p + l)) with false; [done |].
  symmetry. apply orb_true_iff in Ha as [Ha%Z.leb_le | Ha%Z.leb_le]; apply andb_false_iff; lia.
Qed.

Lemma rf_if (c : bool) ws ws' i p l : rf (if c then ws else ws') i p l = if c then rf ws i p l else rf ws' i p l.
Proof. by destruct c. Qed.

(** A word from its fields: [ns] are the widths, from bit [o] on. *)
Fixpoint fields_from (w o : Z) (ns : list Z) : list (Z * Z) :=
  match ns with
  | [] => []
  | n :: ns => (n, field w o n) :: fields_from w (o + n) ns
  end.

Lemma pack_fields ns : forall w o, Forall (fun n => 0 <= n) ns -> 0 <= w -> 0 <= o ->
  w / 2 ^ o < 2 ^ foldr Z.add 0 ns -> pack (fields_from w o ns) = w / 2 ^ o.
Proof.
  induction ns as [| n ns IH]; intros w o Hns Hw Ho Hlt; cbn [fields_from pack foldr] in *.
  - change (2 ^ 0) with 1 in Hlt. pose proof (Z.div_pos w (2 ^ o) Hw (Z.pow_pos_nonneg 2 o ltac:(lia) Ho)). lia.
  - apply Forall_cons in Hns as [Hn Hns].
    assert (Hp : 0 < 2 ^ o) by (apply Z.pow_pos_nonneg; lia).
    assert (Hq : 0 < 2 ^ n) by (apply Z.pow_pos_nonneg; lia).
    assert (Hs : 0 <= foldr Z.add 0 ns) by (clear -Hns; induction Hns; cbn [foldr]; lia).
    assert (E : w / 2 ^ (o + n) = w / 2 ^ o / 2 ^ n) by (rewrite Z.pow_add_r, Z.div_div by lia; done).
    rewrite IH; [| done | done | lia |].
    + unfold field. rewrite Z.land_ones, Z.shiftr_div_pow2, E by lia.
      pose proof (Z.div_mod (w / 2 ^ o) (2 ^ n) ltac:(lia)). lia.
    + rewrite E. rewrite Z.pow_add_r in Hlt by lia. apply Z.div_lt_upper_bound; lia.
Qed.

Lemma word_pack ns w : Forall (fun n => 0 <= n) ns -> foldr Z.add 0 ns = 32 -> is_u32 w ->
  w = pack (fields_from w 0 ns).
Proof.
  intros Hn Hs Hw. unfold is_u32 in Hw. assert (E : w / 2 ^ 0 = w) by apply Z.div_1_r.
  rewrite pack_fields by (rewrite ?E, ?Hs; done || lia). done.
Qed.

Lemma flat_zero t : replicate 20 0 ++ t = flat (replicate 5 0) t.
Proof. reflexivity. Qed.

Lemma zero_words_ok : words_ok (replicate 5 0).
Proof. split; [done |]. by repeat constructor. Qed.

Lemma rf_zero i p l : fld_ok i p l = true -> rf (replicate 5 0) i p l = 0.
Proof.
  intros Hf%fld_ok_spec. unfold rf.
  rewrite (list_lookup_total_correct _ _ 0) by (apply lookup_replicate_2; lia).
  unfold field. by rewrite Z.shiftr_0_l, Z.land_0_l.
Qed.

(** Runs the writes of a function on [flat]. *)
Ltac words := repeat first [assumption | apply sf_ok | apply if_ok | apply zero_words_ok].
Ltac put := rewrite set_bits_flat by (words || reflexivity); cbn [cbind].
(** Reads fields back. *)
Ltac get1 :=
  first [ rewrite rf_sf by (words || reflexivity)
        | rewrite rf_sf_apart by (words || reflexivity || (unfold apart in *; lia))
        | rewrite rf_sub by (words || reflexivity || lia)
        | rewrite rf_if | rewrite rf_zero by (assumption || reflexivity) ].
Ltac get := repeat get1.

(** ** Data frames *)

Definition vcs_code (x : Xf.xmit_frame) : Z :=
  if Xf.vcs_mode x =? RTS_CTS then 1 else if Xf.vcs_mode x =? CTS_TO_SELF then 2 else 0.

Lemma sc_range nic wdn : 0 <= txdesc_scmapping_get nic wdn < 4.
Proof. unfold txdesc_scmapping_get. repeat case_match; done. Qed.

Lemma vcs_fill_ret nic wdn x ws t : words_ok ws -> rf ws 8 29 1 = 0 -> rf ws 8 30 2 = 0 ->
  exists ws', txdesc_vcs_fill nic wdn x (flat ws t) = Ret (flat ws' t) /\ words_ok ws' /\
    rf ws' 8 27 2 = vcs_code x /\
    rf ws' 8 29 1 = (if nz (Xf.vcs_mode x) && (Wi.short_preamble wdn =? 1) then 1 else 0) /\
    rf ws' 8 30 2 = (if nz (Xf.vcs_mode x) && nz (Xf.ht_en x) then txdesc_scmapping_get nic wdn else 0) /\
    forall i p l, fld_ok i p l = true -> apart 8 27 5 i p l = true -> rf ws' i p l = rf ws i p l.
Proof.
  intros Hok H1 H2. pose proof (sc_range nic wdn) as Hsc. unfold txdesc_vcs_fill, vcs_code.
  put. set (ws1 := sf ws 8 27 2 0).
  assert (Hok1 : words_ok ws1) by (unfold ws1; words).
  assert (Hv : exists ws2, (if Xf.vcs_mode x =? RTS_CTS then wf_set_bits_to_le_u32 (flat ws1 t) 8 27 2 1
     else if Xf.vcs_mode x =? CTS_TO_SELF then wf_set_bits_to_le_u32 (flat ws1 t) 8 27 2 2 else Ret (flat ws1 t)) =
     Ret (flat ws2 t) /\ words_ok ws2 /\ rf ws2 8 27 2 = vcs_code x /\
     forall i p l, fld_ok i p l = true -> apart 8 27 2 i p l = true -> rf ws2 i p l = rf ws i p l).
  { unfold vcs_code. destruct (Xf.vcs_mode x =? RTS_CTS), (Xf.vcs_mode x =? CTS_TO_SELF);
      try put; eexists; (split; [reflexivity |]); (split; [words |]); unfold ws1;
      (split; [by get |]); intros i p l Hf Ha; by get. }
  destruct Hv as (ws2 & -> & Hok2 & Hc & Hfr). cbn [cbind]. fold (vcs_code x).
  assert (H1' : rf ws2 8 29 1 = 0) by (by rewrite Hfr).
  assert (H2' : rf ws2 8 30 2 = 0) by (by rewrite Hfr).
  destruct (nz (Xf.vcs_mode x)); cbn [andb].
  2: { exists ws2. do 5 (split; [done |]). intros i p l Hf Ha. apply Hfr; [done |]. unfold apart in *. lia. }
  destruct (Wi.short_preamble wdn =? 1), (nz (Xf.ht_en x)); repeat (put || cbn [cbind]);
    eexists; (split; [reflexivity |]); (split; [words |]);
    (split; [by get |]); (split; [by get |]);
    (split; [get; rewrite ?Z.mod_small by done; done |]);
    intros i p l Hf Ha; get; apply Hfr; try done; unfold apart in *; lia.
Qed.

Lemma hwrate_range r : 0 <= wf_mrate_to_hwrate r < 20.
Proof.
  unfold wf_mrate_to_hwrate. destruct (List.find _ rates) as [q |] eqn:E; [| done].
  apply find_some in E as [Hin _]. revert q Hin. apply List.Forall_forall.
  by repeat constructor.
Qed.

(** The rate of the frames that are not left to the rate control. *)
Definition rate_code (nic : tx_nic) (wdn : Wi.wdn_net_info_st) : Z :=
  if use_fixRate (hw_info nic) then wf_mrate_to_hwrate (Wi.tx_rate wdn)
  else if p2p_valid nic then DESC_RATE6M else DESC_RATE1M.

Definition b2z (b : bool) : Z := if b then 1 else 0.

Lemma rate_fill_ret nic wdn x ws t : words_ok ws ->
  rf ws 8 17 1 = 0 -> rf ws 8 18 7 = 0 -> rf ws 12 0 1 = 0 -> rf ws 12 19 1 = 0 ->
  rf ws 16 12 1 = 0 -> rf ws 16 13 2 = 0 ->
  let fixed := fixed_rate nic x in
  exists ws', txdesc_rate_fill nic wdn x (flat ws t) = Ret (flat ws' t) /\ words_ok ws' /\
    rf ws' 8 16 1 = b2z fixed /\
    rf ws' 8 17 1 = b2z (fixed && (Wi.short_preamble wdn =? 1)) /\
    rf ws' 8 18 7 = (if fixed then rate_code nic wdn else 0) /\
    rf ws' 12 0 1 = b2z (negb fixed && Xf.ampdu_en x) /\
    rf ws' 12 19 1 = b2z (fixed || negb (Xf.ampdu_en x)) /\
    rf ws' 16 12 1 = (if negb fixed && nz (Xf.ht_en x) then txdesc_bwmapping_get nic wdn else 0) /\
    rf ws' 16 13 2 = (if negb fixed && nz (Xf.ht_en x) then txdesc_scmapping_get nic wdn else 0) /\
    forall i p l, fld_ok i p l = true -> apart 8 16 9 i p l = true -> apart 12 0 1 i p l = true ->
      apart 12 19 1 i p l = true -> apart 16 12 3 i p l = true -> rf ws' i p l = rf ws i p l.
Proof.
  intros Hok H1 H2 H3 H4 H5 H6 fixed. pose proof (sc_range nic wdn) as Hsc.
  pose proof (hwrate_range (Wi.tx_rate wdn)) as Hr.
  assert (Hbw : 0 <= txdesc_bwmapping_get nic wdn < 2) by (unfold txdesc_bwmapping_get; repeat case_match; done).
  unfold txdesc_rate_fill, rate_code. fold fixed. destruct fixed; cbn [negb andb orb b2z].
  - put. put. destruct (Wi.short_preamble wdn =? 1), (use_fixRate (hw_info nic)), (p2p_valid nic); repeat (put || cbn [cbind]);
      eexists; (split; [reflexivity |]); (split; [words |]); cbn [b2z];
      repeat (split; [get; rewrite ?Z.mod_small by lia; done |]);
      intros i p l Hf Ha1 Ha2 Ha3 Ha4; by get.
  - unfold txdesc_phy_fill. destruct (Xf.ampdu_en x), (nz (Xf.ht_en x)); repeat (put || cbn [cbind]);
      eexists; (split; [reflexivity |]); (split; [words |]); cbn [b2z negb];
      repeat (split; [get; rewrite ?Z.mod_small by lia; done |]);
      intros i p l Hf Ha1 Ha2 Ha3 Ha4; by get.
Qed.

(** The five words of a descriptor without its checksum: type, hardware
    numbering, sequence number; the sequence number to report; length, rate
    and protection; aggregation, cipher, queue, broadcast and report; node,
    rate set, bandwidth. *)
Definition data_words (nic : tx_nic) (wdn : Wi.wdn_net_info_st) (x : Xf.xmit_frame) (chk : Z) : list Z :=
  let fixed := fixed_rate nic x in
  let ack := tx_data_rpt (hw_info nic) in
  let ht := negb fixed && nz (Xf.ht_en x) in
  [pack [(2, TYPE_DATA); (16, 0); (1, b2z (negb (nz (Wi.qos_option wdn)))); (12, Xf.seqnum x mod 4096); (1, 0)];
   pack [(16, 0); (12, if ack then nthZ (Wi.txseq_tid wdn) (Xf.qsel x) mod 4096 else 0); (4, 0)];
   pack [(16, Xf.last_txcmdsz x mod 65536); (1, b2z fixed); (1, b2z (fixed && (Wi.short_preamble wdn =? 1)));
         (7, if fixed then rate_code nic wdn else 0); (2, 0); (2, vcs_code x);
         (1, b2z (nz (Xf.vcs_mode x) && (Wi.short_preamble wdn =? 1)));
         (2, if nz (Xf.vcs_mode x) && nz (Xf.ht_en x) then txdesc_scmapping_get nic wdn else 0)];
   pack [(1, b2z (negb fixed && Xf.ampdu_en x)); (2, 0); (3, sectype_to_hwdesc_get x); (5, Xf.qsel x mod 32);
         (1, 0); (1, 0); (1, 0); (1, b2z (Xf.bmcast x)); (1, 0); (2, 0); (1, 0); (1, b2z (fixed || negb (Xf.ampdu_en x))); (1, 0);
         (1, b2z ack); (10, 0)];
   pack [(5, Wi.wdn_id wdn mod 32); (1, 0); (3, nthZ __graid_table (Wi.raid wdn)); (3, 0);
         (1, if ht then txdesc_bwmapping_get nic wdn else 0);
         (2, if ht then txdesc_scmapping_get nic wdn else 0); (1, 0); (16, chk)]].

(** Words whose fields are known. *)
Lemma words_layout ws : words_ok ws -> ws =
  [pack [(2, rf ws 0 0 2); (16, rf ws 0 2 16); (1, rf ws 0 18 1); (12, rf ws 0 19 12); (1, rf ws 0 31 1)];
   pack [(16, rf ws 4 0 16); (12, rf ws 4 16 12); (4, rf ws 4 28 4)];
   pack [(16, rf ws 8 0 16); (1, rf ws 8 16 1); (1, rf ws 8 17 1); (7, rf ws 8 18 7); (2, rf ws 8 25 2);
         (2, rf ws 8 27 2); (1, rf ws 8 29 1); (2, rf ws 8 30 2)];
   pack [(1, rf ws 12 0 1); (2, rf ws 12 1 2); (3, rf ws 12 3 3); (5, rf ws 12 6 5); (1, rf ws 12 11 1);
         (1, rf ws 12 12 1); (1, rf ws 12 13 1); (1, rf ws 12 14 1); (1, rf ws 12 15 1); (2, rf ws 12 16 2);
         (1, rf ws 12 18 1); (1, rf ws 12 19 1); (1, rf ws 12 20 1); (1, rf ws 12 21 1);
         (10, rf ws 12 22 10)];
   pack [(5, rf ws 16 0 5); (1, rf ws 16 5 1); (3, rf ws 16 6 3); (3, rf ws 16 9 3); (1, rf ws 16 12 1);
         (2, rf ws 16 13 2); (1, rf ws 16 15 1); (16, rf ws 16 16 16)]].
Proof.
  intros [Hl Hf]. do 6 (destruct ws as [| ? ws]; try discriminate Hl). clear Hl.
  repeat (apply Forall_cons in Hf as [? Hf]).
  assert (HP : forall ns, forallb (Z.leb 0) ns = true -> Forall (fun n => 0 <= n) ns).
  { intros ns Hns. apply List.Forall_forall. intros n Hin. rewrite forallb_forall in Hns. apply Hns in Hin. lia. }
  f_equal; [by apply (word_pack [2; 16; 1; 12; 1]); [apply HP | |] |].
  f_equal; [by apply (word_pack [16; 12; 4]); [apply HP | |] |].
  f_equal; [by apply (word_pack [16; 1; 1; 7; 2; 2; 1; 2]); [apply HP | |] |].
  f_equal; [by apply (word_pack [1; 2; 3; 5; 1; 1; 1; 1; 1; 2; 1; 1; 1; 1; 10]); [apply HP | |] |].
  f_equal; by apply (word_pack [5; 1; 3; 3; 1; 2; 1; 16]); [apply HP | |].
Qed.

(** ** The checksum *)

(** The [j]-th half-word of the descriptor. *)
Definition half (ws : list Z) (j : nat) : Z := rf ws (4 * (Z.of_nat j / 2)) (16 * (Z.of_nat j mod 2)) 16.

Fixpoint xor_of (ws : list Z) (n : nat) : Z :=
  match n with
  | O => 0
  | S n => Z.lxor (xor_of ws n) (half ws n)
  end.

Lemma le_word_two w : le_word [w mod 256; w / 256 mod 256] = w mod 65536.
Proof. cbn [le_word]. Z.to_euclidean_division_equations. lia. Qed.

Lemma slice_half ws t j : words_ok ws -> (j < 10)%nat ->
  exists b, slice (flat ws t) (2 * Z.of_nat j) 2 = Ret b /\ le_word b = half ws j.
Proof.
  intros Hok Hj. set (k := (j / 2)%nat). set (r := (j mod 2)%nat).
  assert (Hjk : j = (2 * k + r)%nat) by (apply Nat.div_mod; lia).
  assert (Hr : (r < 2)%nat) by (apply Nat.mod_upper_bound; lia). clearbody k r. subst j.
  assert (E1 : Z.of_nat (2 * k + r) / 2 = Z.of_nat k) by (Z.to_euclidean_division_equations; lia).
  assert (E2 : Z.of_nat (2 * k + r) mod 2 = Z.of_nat r) by (Z.to_euclidean_division_equations; lia).
  unfold half. rewrite E1, E2.
  destruct (word_at ws (4 * Z.of_nat k) Hok ltac:(Z.to_euclidean_division_equations; lia)) as (w & Hw & _).
  unfold rf. rewrite (list_lookup_total_correct _ _ _ Hw).
  replace (Z.to_nat (4 * Z.of_nat k / 4)) with k in Hw by (Z.to_euclidean_division_equations; lia).
  destruct Hok as [Hl _]. rewrite (flat_split _ _ _ _ Hw).
  rewrite (TxFrame.slice_in _ _ _ _ (2 * r)) by
    (rewrite ?length_flat_take, ?length_le_bytes by (apply lookup_lt_Some in Hw; lia); lia).
  eexists. split; [reflexivity |]. unfold field. rewrite Z.land_ones, Z.shiftr_div_pow2 by lia.
  change (Z.to_nat 2) with 2%nat.
  destruct r as [| [| r]]; [| | lia]; cbn [Nat.mul Nat.add le_bytes take drop]; rewrite le_word_two.
  - change (2 ^ (16 * Z.of_nat 0)) with 1. by rewrite Z.div_1_r.
  - change (2 ^ (16 * Z.of_nat 1)) with (256 * 256). by rewrite <- Z.div_div by lia.
Qed.

Lemma half_range ws j : is_u16 (half ws j).
Proof. apply (field_range _ _ 16). lia. Qed.

Lemma xor_of_range ws n : is_u16 (xor_of ws n).
Proof. induction n as [| n IH]; [done |]. apply lxor_u16; [done | apply half_range]. Qed.

Lemma xor_halves_ret ws t n : words_ok ws -> (n <= 10)%nat -> xor_halves n (flat ws t) = Ret (xor_of ws n).
Proof.
  intros Hok. induction n as [| n IH]; intros Hn; [done |]. cbn [xor_halves xor_of].
  rewrite IH by lia. cbn [cbind]. destruct (slice_half ws t n Hok ltac:(lia)) as (b & -> & <-). done.
Qed.

(** The checksum is a field of its own, and makes the exclusive or of the whole
    descriptor zero. *)
Lemma chksum_ret ws t : words_ok ws -> exists c, is_u16 c /\
  wf_txdesc_chksum (flat ws t) = Ret (flat (sf ws 16 16 16 c) t) /\
  xor_halves 10 (flat (sf ws 16 16 16 c) t) = Ret 0.
Proof.
  intros Hok. exists (xor_of ws 9). split; [apply xor_of_range |]. unfold wf_txdesc_chksum.
  rewrite xor_halves_ret by (done || lia). cbn [cbind]. split; [by put |].
  rewrite xor_halves_ret by (words || lia). f_equal. set (c := xor_of ws 9).
  assert (E : forall n, (n <= 9)%nat -> xor_of (sf ws 16 16 16 c) n = xor_of ws n).
  { induction n as [| n IH]; intros Hn; [done |]. cbn [xor_of]. rewrite IH by lia. f_equal.
    unfold half. apply rf_sf_apart; [done | done | |]; unfold fld_ok, apart; Z.to_euclidean_division_equations; lia. }
  change (xor_of (sf ws 16 16 16 c) 10) with (Z.lxor (xor_of (sf ws 16 16 16 c) 9) (rf (sf ws 16 16 16 c) 16 16 16)).
  rewrite E by lia. fold c. rewrite rf_sf by done. pose proof (xor_of_range ws 9) as Hc. fold c in Hc.
  change (2 ^ 16) with 65536. rewrite Z.mod_small by exact Hc. apply Z.lxor_nilpotent.
Qed.

Lemma raid_range r : 0 <= r <= 8 -> tx_raid_get r = Ret (nthZ __graid_table r) /\ 0 <= nthZ __graid_table r < 8.
Proof.
  intros Hr. assert (Hl : 0 <= r < Z.of_nat (length __graid_table)) by (change (length __graid_table) with 9%nat; lia).
  split; [by apply rd_nthZ |]. apply (nthZ_Forall (fun v => 0 <= v < 8)); [by repeat constructor | done].
Qed.

Lemma sectype_range x : 0 <= sectype_to_hwdesc_get x < 8.
Proof. unfold sectype_to_hwdesc_get. repeat case_match; done. Qed.

(** The report of the frame, and its sequence number in the report. *)
Lemma ack_fill_ret (ack : bool) wdn q ws t : words_ok ws -> rf ws 12 21 1 = 0 -> rf ws 4 16 12 = 0 ->
  (ack = true -> 0 <= q < Z.of_nat (length (Wi.txseq_tid wdn))) ->
  exists ws', (if ack then
       letc d := wf_set_bits_to_le_u32 (flat ws t) 12 21 1 1 in
       letc s := rd (Wi.txseq_tid wdn) q in wf_set_bits_to_le_u32 d 4 16 12 s
     else Ret (flat ws t)) = Ret (flat ws' t) /\ words_ok ws' /\
     rf ws' 12 21 1 = b2z ack /\ rf ws' 4 16 12 = (if ack then nthZ (Wi.txseq_tid wdn) q mod 4096 else 0) /\
     forall i p l, fld_ok i p l = true -> apart 12 21 1 i p l = true -> apart 4 16 12 i p l = true ->
       rf ws' i p l = rf ws i p l.
Proof.
  intros Hok H1 H2 Hq. destruct ack; [| by exists ws].
  put. rewrite rd_nthZ by (by apply Hq). cbn [cbind]. put. eexists. split; [reflexivity |]. split; [words |].
  split; [by get |]. split; [by get |]. intros i p l Hf Ha1 Ha2. by get.
Qed.

(** The first half of the fields: what [txdesc_fill] writes before the rate. *)
Definition head_words (wdn : Wi.wdn_net_info_st) (x : Xf.xmit_frame) : list Z :=
  sf (sf (sf (sf (sf (sf (sf (replicate 5 0) 0 0 2 TYPE_DATA) 16 0 5 (Wi.wdn_id wdn)) 16 5 1 0)
    16 6 3 (nthZ __graid_table (Wi.raid wdn))) 12 6 5 (Xf.qsel x)) 0 19 12 (Xf.seqnum x))
    12 3 3 (sectype_to_hwdesc_get x).

(** The last fields. *)
Definition tail_words (wdn : Wi.wdn_net_info_st) (x : Xf.xmit_frame) (ws : list Z) : list Z :=
  let ws := sf ws 8 0 16 (Xf.last_txcmdsz x) in
  let ws := if Xf.bmcast x then sf ws 12 14 1 1 else ws in
  if negb (nz (Wi.qos_option wdn)) then sf ws 0 18 1 1 else ws.

Lemma tail_words_ok wdn x ws : words_ok ws -> words_ok (tail_words wdn x ws).
Proof. intros H. unfold tail_words. words. Qed.

Lemma fill_ret nic wdn x t :
  Xf.frame_tag x = DATA_FRAMETAG -> 0 <= Wi.raid wdn <= 8 ->
  (tx_data_rpt (hw_info nic) = true -> 0 <= Xf.qsel x < Z.of_nat (length (Wi.txseq_tid wdn))) ->
  exists ws1 ws2 ws3, words_ok ws3 /\
    txdesc_vcs_fill nic wdn x (flat (head_words wdn x) t) = Ret (flat ws1 t) /\
    txdesc_rate_fill nic wdn x (flat ws1 t) = Ret (flat ws2 t) /\
    txdesc_fill nic wdn x (flat (replicate 5 0) t) (tx_data_rpt (hw_info nic)) = Ret (flat (tail_words wdn x ws3) t) /\
    forall c, is_u16 c -> sf (tail_words wdn x ws3) 16 16 16 c = data_words nic wdn x c.
Proof.
  intros Htag Hraid Hack. pose proof (sectype_range x) as Hst.
  destruct (raid_range _ Hraid) as [Er Hr].
  assert (Hok1 : words_ok (head_words wdn x)) by (unfold head_words; words).
  destruct (vcs_fill_ret nic wdn x (head_words wdn x) t Hok1) as (ws2 & EV & Hok2 & V1 & V2 & V3 & Vf);
    [unfold head_words; by get .. |].
  destruct (rate_fill_ret nic wdn x ws2 t Hok2) as (ws3 & ER & Hok3 & R1 & R2 & R3 & R4 & R5 & R6 & R7 & Rf);
    [rewrite Vf by done; unfold head_words; by get .. |].
  destruct (ack_fill_ret (tx_data_rpt (hw_info nic)) wdn (Xf.qsel x) ws3 t Hok3) as (ws4 & EA & Hok4 & A1 & A2 & Af);
    [rewrite Rf, Vf by done; unfold head_words; by get .. | done |].
  exists ws2, ws3, ws4. split; [done |]. split; [done |]. split; [done |]. split.
  - unfold txdesc_fill. rewrite Htag. cbn [negb Z.eqb Pos.eqb DATA_FRAMETAG].
    put. put. replace (Wi.raid wdn <=? 8) with true by (symmetry; apply Z.leb_le; lia).
    put. rewrite Er. cbn [cbind]. put. put. put. put. fold (head_words wdn x). rewrite EV. cbn [cbind].
    rewrite ER. cbn [cbind]. rewrite EA. cbn [cbind]. put. unfold tail_words.
    destruct (Xf.bmcast x), (negb (nz (Wi.qos_option wdn))); repeat (put || cbn [cbind]); done.
  - intros c Hc.
    assert (Hfr : forall i p l, fld_ok i p l = true ->
      apart 8 16 9 i p l && apart 8 27 5 i p l && apart 12 0 1 i p l && apart 12 19 1 i p l && apart 16 12 3 i p l &&
      apart 12 21 1 i p l && apart 4 16 12 i p l = true -> rf ws4 i p l = rf (head_words wdn x) i p l).
    { intros i p l Hf Ha. rewrite !andb_true_iff in Ha. destruct Ha as ((((((Ha1 & Ha0) & Ha2) & Ha3) & Ha4) & Ha5) & Ha6).
      by rewrite Af, Rf, Vf. }
    rewrite <- (Rf 8 27 2) in V1 by done. rewrite <- (Rf 8 29 1) in V2 by done. rewrite <- (Rf 8 30 2) in V3 by done.
    rewrite <- Af in V1, V2, V3, R1, R2, R3, R4, R5, R6, R7 by done.
    rewrite (words_layout (sf (tail_words wdn x ws4) 16 16 16 c)) by (apply sf_ok, tail_words_ok; done).
    unfold data_words, tail_words. cbv zeta.
    destruct (Xf.bmcast x), (negb (nz (Wi.qos_option wdn)));
      repeat f_equal; get; rewrite ?Z.mod_small by done; try assumption; try reflexivity;
      rewrite Hfr by reflexivity; unfold head_words; get; rewrite ?Z.mod_small by done; reflexivity.
Qed.

(** ** Management frames *)

(** The words of a management frame or beacon: numbering and sequence number,
    the number to report, length and rate, the three bits of the queue,
    broadcast, device and report, and node, rate set and bandwidth. *)
Definition mgmt_words (hwseq seq rpt len rate q11 q12 bmc mbssid ack id raid bw sc chk : Z) : list Z :=
  [pack [(2, TYPE_DATA); (16, 0); (1, hwseq); (12, seq); (1, 0)];
   pack [(16, 0); (12, rpt); (4, 0)];
   pack [(16, len); (1, 1); (1, 0); (7, rate); (2, 0); (2, 0); (1, 0); (2, 0)];
   pack [(1, 0); (2, 0); (3, 0); (5, 0); (1, q11); (1, q12); (1, 0); (1, bmc); (1, 1); (2, 0); (1, mbssid); (1, 0);
         (1, 0); (1, ack); (10, 0)];
   pack [(5, id); (1, 0); (3, raid); (3, 0); (1, bw); (2, sc); (1, 0); (16, chk)]].

(** [d] is [buf] with the descriptor [ws] in front of its frame. *)
Definition described (buf d : list Z) (ws : Z -> list Z) : Prop :=
  exists c, is_u16 c /\ d = flat (ws c) (drop 20 buf) /\ xor_halves 10 d = Ret 0.

Definition group_addressed (buf : list Z) : Z := b2z (IS_MCAST (take 6 (drop 24 buf))).

Lemma length_flat5 ws t : words_ok ws -> length (flat ws t) = (20 + length t)%nat.
Proof.
  intros [Hl _]. unfold flat. rewrite length_app. f_equal. rewrite <- (take_ge ws 5) by lia.
  by rewrite length_flat_take by lia.
Qed.

Lemma slice_behind ws t i n : words_ok ws -> 0 <= i -> 0 <= n -> i + n <= Z.of_nat (length t) ->
  slice (flat ws t) (20 + i) n = Ret (take (Z.to_nat n) (drop (Z.to_nat i) t)).
Proof.
  intros Hok Hi Hn Hl. rewrite slice_Ret by (rewrite ?length_flat5 by done; lia). do 2 f_equal.
  pose proof (length_flat5 ws [] Hok) as Hc. unfold flat in *. rewrite app_nil_r in Hc. cbn [length] in Hc.
  rewrite drop_app_ge by lia. f_equal. lia.
Qed.

Lemma finish_ret ws buf : words_ok ws -> (30 <= length buf)%nat -> exists d,
  desc_finish (flat ws (drop 20 buf)) = Ret d /\
  described buf d (fun c => sf (if IS_MCAST (take 6 (drop 24 buf)) then sf ws 12 14 1 1 else ws) 16 16 16 c).
Proof.
  intros Hok Hl. unfold desc_finish. change (TXDESC_OFFSET + 4) with (20 + 4).
  rewrite slice_behind by (rewrite ?length_drop; done || lia). cbn [cbind].
  change (Z.to_nat 6) with 6%nat. change (Z.to_nat 4) with 4%nat. rewrite drop_drop. change (20 + 4)%nat with 24%nat.
  set (mc := IS_MCAST _).
  assert (E : (if mc then wf_set_bits_to_le_u32 (flat ws (drop 20 buf)) 12 14 1 1 else Ret (flat ws (drop 20 buf))) =
     Ret (flat (if mc then sf ws 12 14 1 1 else ws) (drop 20 buf))) by (destruct mc; [by put | done]).
  rewrite E. cbn [cbind]. destruct (chksum_ret (if mc then sf ws 12 14 1 1 else ws) (drop 20 buf) ltac:(words))
    as (c & Hc & -> & Hx).
  eexists. split; [reflexivity |]. by exists c.
Qed.

Lemma described_mono buf d ws ws' : (forall c, is_u16 c -> ws c = ws' c) -> described buf d ws -> described buf d ws'.
Proof. intros H (c & Hc & -> & Hx). exists c. rewrite <- (H c Hc). done. Qed.

Lemma blit_zero buf : (20 <= length buf)%nat ->
  blit buf 0 (replicate (Z.to_nat TXDESC_OFFSET) 0) = Ret (flat (replicate 5 0) (drop 20 buf)).
Proof.
  intros Hl. change (replicate (Z.to_nat TXDESC_OFFSET) 0) with (replicate 20 0).
  rewrite <- (take_drop 20 buf) at 1. change (take 20 buf ++ drop 20 buf) with ([] ++ take 20 buf ++ drop 20 buf).
  by rewrite blit_app_mid by (done || rewrite length_take, length_replicate; lia).
Qed.

(** The fields of a management descriptor read back. *)
Ltac mgmt_fields :=
  let c := fresh in let Hc := fresh in intros c Hc; cbv beta;
  rewrite (words_layout (sf _ 16 16 16 c)) by words; unfold mgmt_words, group_addressed, b2z;
  destruct (IS_MCAST _); repeat f_equal; get; rewrite ?Z.mod_small by (done || lia); reflexivity.

Lemma beacon_desc_ret nic_num len buf : (30 <= length buf)%nat -> exists d,
  beacon_desc nic_num len buf = Ret d /\
  let n := b2z (nic_num =? 1) in
  described buf d (mgmt_words 1 n 0 (len mod 65536) DESC_RATE1M 1 0 (group_addressed buf) n 0 n 0 0 0).
Proof.
  intros Hl. unfold beacon_desc. rewrite blit_zero by lia. cbn [cbind]. unfold b2z. cbv zeta.
  set (n := if nic_num =? 1 then 1 else 0). assert (Hn : 0 <= n < 2) by (unfold n; case_match; lia). clearbody n.
  repeat put. edestruct finish_ret as (d & -> & Hd); [| exact Hl |]; [words |].
  eexists. split; [reflexivity |]. eapply described_mono; [| exact Hd]. mgmt_fields.
Qed.

Lemma mgmt_sc_range wdn : 0 <= mgmt_sc wdn < 4.
Proof. unfold mgmt_sc. repeat case_match; done. Qed.

(** The sequence number of the frame behind a descriptor. *)
Definition seq_behind (buf : list Z) : Z := Z.shiftr (le_word (take 2 (drop 42 buf))) 4.

Lemma frame_seq_ret ws buf : words_ok ws -> (44 <= length buf)%nat ->
  frame_seq (flat ws (drop 20 buf)) = Ret (seq_behind buf).
Proof.
  intros Hok Hl. unfold frame_seq. change (TXDESC_OFFSET + 22) with (20 + 22).
  rewrite slice_behind by (rewrite ?length_drop; done || lia). cbn [cbind].
  change (Z.to_nat 2) with 2%nat. change (Z.to_nat 22) with 22%nat. by rewrite drop_drop.
Qed.

Lemma mgmt_desc_ret nic wdn len buf : (44 <= length buf)%nat ->
  (cur_bw nic = Wdn.CHANNEL_WIDTH_40 -> wdn <> None) -> exists d,
  mgmt_desc nic wdn len buf = Ret (Some d) /\
  described buf d (mgmt_words 0 (seq_behind buf mod 4096) 0 (len mod 65536)
    (if p2p_valid nic then DESC_RATE6M else DESC_RATE1M) 0 1 (group_addressed buf) 0 0 1 (b2z (p2p_valid nic)) 0
    (if cur_bw nic =? Wdn.CHANNEL_WIDTH_40 then from_option mgmt_sc 0 wdn else 0)).
Proof.
  intros Hl Hw. unfold mgmt_desc. rewrite blit_zero by lia. cbn [cbind]. put.
  rewrite frame_seq_ret by (words || lia). cbn [cbind]. repeat put.
  destruct (Z.eqb_spec (cur_bw nic) Wdn.CHANNEL_WIDTH_40) as [E |].
  - destruct wdn as [wdn |]; [| by destruct (Hw E)]. pose proof (mgmt_sc_range wdn). put.
    edestruct finish_ret as (d & -> & Hd); [| | eexists; split; [reflexivity |]]; [words | lia |].
    cbn [from_option]. eapply described_mono; [| exact Hd]. destruct (p2p_valid nic); mgmt_fields.
  - try put. edestruct finish_ret as (d & -> & Hd); [| | eexists; split; [reflexivity |]]; [words | lia |].
    eapply described_mono; [| exact Hd]. destruct (p2p_valid nic); mgmt_fields.
Qed.

(** The sequence number a node gives its next management frame. *)
Definition mgmt_seq (wdn : Wi.wdn_net_info_st) : Z := (nthZ (Wi.txseq_tid wdn) QSLT_MGNT + 1) mod 4096.

Lemma ack_desc_node nic wdn len buf : (30 <= length buf)%nat -> length (Wi.txseq_tid wdn) = 16%nat ->
  0 <= Wi.raid wdn <= 8 -> exists d,
  ack_desc nic (Some wdn) len buf =
    Ret (Some (Wi.set_txseq_tid (setZ (Wi.txseq_tid wdn) QSLT_MGNT (mgmt_seq wdn)) wdn), d) /\
  described buf d (mgmt_words 1 (mgmt_seq wdn) (mgmt_seq wdn) (len mod 65536) (wf_mrate_to_hwrate (Wi.tx_rate wdn))
    0 1 (group_addressed buf) 0 1 (Wi.wdn_id wdn mod 32) (nthZ __graid_table (Wi.raid wdn)) (Wi.bw_mode wdn mod 2)
    (mgmt_sc wdn)).
Proof.
  intros Hl Htid Hraid. destruct (raid_range _ Hraid) as [Er Hr]. pose proof (mgmt_sc_range wdn) as Hsc.
  pose proof (hwrate_range (Wi.tx_rate wdn)) as Hrate.
  assert (Hs : Z.land (u16 (nthZ (Wi.txseq_tid wdn) QSLT_MGNT + 1)) 0xFFF = mgmt_seq wdn).
  { rewrite land_4095. unfold mgmt_seq, u16. apply Z.mod_mod_divide. by exists 16. }
  assert (Hms : 0 <= mgmt_seq wdn < 4096) by (by apply Z.mod_pos_bound).
  unfold ack_desc. rewrite blit_zero by lia. cbn [cbind]. repeat put.
  rewrite rd_nthZ by (unfold QSLT_MGNT; lia). cbn [cbind].
  rewrite wr_setZ by (unfold QSLT_MGNT; lia). cbn [cbind]. rewrite Hs.
  change (Wi.raid (Wi.set_txseq_tid _ wdn)) with (Wi.raid wdn).
  change (Wi.wdn_id (Wi.set_txseq_tid _ wdn)) with (Wi.wdn_id wdn).
  change (Wi.bw_mode (Wi.set_txseq_tid _ wdn)) with (Wi.bw_mode wdn).
  change (Wi.tx_rate (Wi.set_txseq_tid _ wdn)) with (Wi.tx_rate wdn).
  change (mgmt_sc (Wi.set_txseq_tid _ wdn)) with (mgmt_sc wdn).
  repeat put. rewrite Er. cbn [cbind]. repeat put.
  edestruct finish_ret as (d & -> & Hd); [| | eexists; split; [reflexivity |]]; [words | lia |].
  eapply described_mono; [| exact Hd]. mgmt_fields.
Qed.

Lemma ack_desc_none nic len buf : (30 <= length buf)%nat -> exists d,
  ack_desc nic None len buf = Ret (None, d) /\
  described buf d (mgmt_words 1 0 0 (len mod 65536) (if p2p_valid nic then DESC_RATE6M else DESC_RATE1M)
    0 1 (group_addressed buf) 0 0 0 (b2z (p2p_valid nic)) 0 0).
Proof.
  intros Hl. unfold ack_desc. rewrite blit_zero by lia. cbn [cbind]. repeat put.
  edestruct finish_ret as (d & -> & Hd); [| | eexists; split; [reflexivity |]]; [words | lia |].
  eapply described_mono; [| exact Hd]. destruct (p2p_valid nic); mgmt_fields.
Qed.

(** ** Rates and rate sets *)

(** The driver's and the chip's names of the twenty rates correspond. *)
Lemma rates_roundtrip : Forall (fun p => wf_mrate_to_hwrate p.1 = p.2 /\ wf_hwrate_to_mrate p.2 = p.1) rates.
Proof. by repeat constructor. Qed.

(** Every kind of network has a rate set in the table. *)
Lemma raid_of_network w : 0 <= fst (Wdn.wf_wdn_get_raid_by_network_type w) <= 8.
Proof. unfold Wdn.wf_wdn_get_raid_by_network_type. repeat case_match; cbn [fst]; vm_compute; intuition congruence. Qed.

(** ** Properties *)

(** C13: the descriptor of a data frame, for every node with a rate set of the
    table and whatever is in the buffer before: each of its five words holds
    exactly the fields of the frame and its node and nothing else, the frame
    behind it is left alone, and the exclusive or of all its half-words is
    zero. *)
Theorem data_descriptor (nic : tx_nic) (wdn : Wi.wdn_net_info_st) (x : Xf.xmit_frame) (mem : list Z) (bagg : bool) :
  (20 <= length mem)%nat -> Xf.frame_tag x = DATA_FRAMETAG -> 0 <= Wi.raid wdn <= 8 ->
  (tx_data_rpt (hw_info nic) = true -> 0 <= Xf.qsel x < Z.of_nat (length (Wi.txseq_tid wdn))) ->
  exists d, wf_tx_txdesc_init nic wdn x mem bagg 1 = Ret (false, x, d) /\ described mem d (data_words nic wdn x).
Proof.
  intros Hl Htag Hraid Hack.
  destruct (fill_ret nic wdn x (drop 20 mem) Htag Hraid Hack) as (_ & _ & ws & Hok & _ & _ & Hf & Hw).
  destruct (chksum_ret (tail_words wdn x ws) (drop 20 mem) (tail_words_ok _ _ _ Hok)) as (c & Hc & Hx & Hxor).
  unfold wf_tx_txdesc_init. change (negb (PACKET_OFFSET_SZ =? 0) && negb bagg) with false. cbn [nz negb Z.eqb].
  rewrite blit_zero by done. cbn [cbind]. change (Z.to_nat 0) with 0%nat. rewrite drop_0, take_0. cbn [app].
  unfold txdesc_update. rewrite Hf. cbn [cbind]. rewrite Hx. cbn [cbind].
  eexists. split; [reflexivity |]. exists c. split; [done |]. rewrite <- Hw by done. done.
Qed.

Lemma data_descriptor_witness : exists d,
  wf_tx_txdesc_init (TxFrame.wit_nic 2346) (Wi.set_raid 7 (Wdn.info TxFrame.wit_node))
    (Xf.set_last_txcmdsz 100 (Xf.set_frame_tag DATA_FRAMETAG Xf.zero)) (replicate 64 7) false 1 =
  Ret (false, Xf.set_last_txcmdsz 100 (Xf.set_frame_tag DATA_FRAMETAG Xf.zero), d) /\
  described (replicate 64 7) d
    (data_words (TxFrame.wit_nic 2346) (Wi.set_raid 7 (Wdn.info TxFrame.wit_node))
       (Xf.set_last_txcmdsz 100 (Xf.set_frame_tag DATA_FRAMETAG Xf.zero))).
Proof.
  apply data_descriptor.
  - rewrite length_replicate. lia.
  - reflexivity.
  - cbn. lia.
  - intros H. discriminate H.
Defined.

(** The descriptors of beacons and management frames: each writes exactly
    the length, sequence number, rate, queue bits, node and report it means to,
    leaves the frame alone and has exclusive or zero; one that asks for an
    acknowledgment moves the sequence number of its node on, modulo 4096. *)
Theorem mgmt_descriptors (nic : tx_nic) (wdn : Wi.wdn_net_info_st) (nic_num len : Z) (buf : list Z) :
  (44 <= length buf)%nat -> length (Wi.txseq_tid wdn) = 16%nat -> 0 <= Wi.raid wdn <= 8 ->
  let n := b2z (nic_num =? 1) in
  let basic := if p2p_valid nic then DESC_RATE6M else DESC_RATE1M in
  exists d1 d2 d3,
    beacon_desc nic_num len buf = Ret d1 /\
    described buf d1 (mgmt_words 1 n 0 (len mod 65536) DESC_RATE1M 1 0 (group_addressed buf) n 0 n 0 0 0) /\
    mgmt_desc nic (Some wdn) len buf = Ret (Some d2) /\
    described buf d2 (mgmt_words 0 (seq_behind buf mod 4096) 0 (len mod 65536) basic 0 1 (group_addressed buf)
      0 0 1 (b2z (p2p_valid nic)) 0 (if cur_bw nic =? Wdn.CHANNEL_WIDTH_40 then mgmt_sc wdn else 0)) /\
    ack_desc nic (Some wdn) len buf =
      Ret (Some (Wi.set_txseq_tid (setZ (Wi.txseq_tid wdn) QSLT_MGNT (mgmt_seq wdn)) wdn), d3) /\
    described buf d3 (mgmt_words 1 (mgmt_seq wdn) (mgmt_seq wdn) (len mod 65536)
      (wf_mrate_to_hwrate (Wi.tx_rate wdn)) 0 1 (group_addressed buf) 0 1 (Wi.wdn_id wdn mod 32)
      (nthZ __graid_table (Wi.raid wdn)) (Wi.bw_mode wdn mod 2) (mgmt_sc wdn)).
Proof.
  intros Hl Htid Hraid n basic.
  destruct (beacon_desc_ret nic_num len buf ltac:(lia)) as (d1 & H1 & D1).
  destruct (mgmt_desc_ret nic (Some wdn) len buf Hl ltac:(done)) as (d2 & H2 & D2).
  destruct (ack_desc_node nic wdn len buf ltac:(lia) Htid Hraid) as (d3 & H3 & D3).
  exists d1, d2, d3. by do 5 (split; [done |]).
Qed.

Lemma mgmt_descriptors_witness : exists d1 d2 d3,
    beacon_desc 0 60 (replicate 80 1) = Ret d1 /\
    described (replicate 80 1) d1 (mgmt_words 1 0 0 60 DESC_RATE1M 1 0 1 0 0 0 0 0 0) /\
    mgmt_desc (TxFrame.wit_nic 2346) (Some (Wdn.info TxFrame.wit_node)) 60 (replicate 80 1) = Ret (Some d2) /\
    described (replicate 80 1) d2 (mgmt_words 0 16 0 60 DESC_RATE1M 0 1 1 0 0 1 0 0 0) /\
    ack_desc (TxFrame.wit_nic 2346) (Some (Wdn.info TxFrame.wit_node)) 60 (replicate 80 1) =
      Ret (Some (Wi.set_txseq_tid (setZ (repeat 4095 16) QSLT_MGNT 0) (Wdn.info TxFrame.wit_node)), d3) /\
    described (replicate 80 1) d3 (mgmt_words 1 0 0 60 DESC_RATE1M 0 1 1 0 1 0 0 0 0).
Proof.
  apply (mgmt_descriptors (TxFrame.wit_nic 2346) (Wdn.info TxFrame.wit_node) 0 60 (replicate 80 1)).
  - rewrite length_replicate. lia.
  - reflexivity.
  - cbn. lia.
Defined.
End TxDesc.
