(* ===== verification/TxQueue.v ===== *)
(** * Transmit pools and queues ([nic/tx.c], [os/linux/tx_linux.c], [os/linux/netdev/ndev_linux.c])

    The frames and buffers of the transmit path, the queue of frames that wait
    to be sent, and what moves them: a packet of the operating system
    ([ndev_start_xmit]), the task that sends ([tx_work_mpdu_xmit]), the
    completion of a transfer, and the management frames.

    Each operation on a queue is one step, as its lock makes it; the handlers
    run one at a time.  Building a frame, the agreement on block
    acknowledgments, the bus and the operating system are calls with any
    answer. *)
From Stdlib Require Import Permutation.
From S2P Require Import Prelude SecTypes WdnTypes Wdn Io Rx TxTypes TxFrame TxDesc.

(** [tx_info_st].  A frame is its index in [pxmit_frame_buf], a buffer its
    [buffer_id]: the eight data buffers, then the eight for management frames;
    [bufs] are their bytes from the aligned [pbuf] on.  Queues are the indexes on
    them, each with the counter the code keeps beside it. *)
Module Tx.
Record tx_info : Type := mk_tx_info {
  frames : list Xf.xmit_frame;
  bufs : list (list Z);
  xmit_frame_queue : list nat;
  free_xmitframe_cnt : Z;
  xmit_buf_queue : list nat;
  free_xmitbuf_cnt : Z;
  xmit_extbuf_queue : list nat;
  free_xmit_extbuf_cnt : Z;
  pending_frame_queue : list nat;
  pending_frame_cnt : Z;
  tx_pend_flag : list Z;
  xmitFrameCtl : Z;
  xmit_stop_flag : Z;
  tx_drop : Z;
  tx_mgnt_pkts : Z;
}.

Definition set_frames (v : list Xf.xmit_frame) (r : tx_info) : tx_info :=
  mk_tx_info v (bufs r) (xmit_frame_queue r) (free_xmitframe_cnt r) (xmit_buf_queue r)
    (free_xmitbuf_cnt r) (xmit_extbuf_queue r) (free_xmit_extbuf_cnt r) (pending_frame_queue r)
    (pending_frame_cnt r) (tx_pend_flag r) (xmitFrameCtl r) (xmit_stop_flag r) (tx_drop r)
    (tx_mgnt_pkts r).
Definition set_bufs (v : list (list Z)) (r : tx_info) : tx_info :=
  mk_tx_info (frames r) v (xmit_frame_queue r) (free_xmitframe_cnt r) (xmit_buf_queue r)
    (free_xmitbuf_cnt r) (xmit_extbuf_queue r) (free_xmit_extbuf_cnt r) (pending_frame_queue r)
    (pending_frame_cnt r) (tx_pend_flag r) (xmitFrameCtl r) (xmit_stop_flag r) (tx_drop r)
    (tx_mgnt_pkts r).
Definition set_xmit_frame_queue (v : list nat) (r : tx_info) : tx_info :=
  mk_tx_info (frames r) (bufs r) v (free_xmitframe_cnt r) (xmit_buf_queue r) (free_xmitbuf_cnt
    r) (xmit_extbuf_queue r) (free_xmit_extbuf_cnt r) (pending_frame_queue r) (pending_frame_cnt
    r) (tx_pend_flag r) (xmitFrameCtl r) (xmit_stop_flag r) (tx_drop r) (tx_mgnt_pkts r).
Definition set_free_xmitframe_cnt (v : Z) (r : tx_info) : tx_info :=
  mk_tx_info (frames r) (bufs r) (xmit_frame_queue r) v (xmit_buf_queue r) (free_xmitbuf_cnt r)
    (xmit_extbuf_queue r) (free_xmit_extbuf_cnt r) (pending_frame_queue r) (pending_frame_cnt r)
    (tx_pend_flag r) (xmitFrameCtl r) (xmit_stop_flag r) (tx_drop r) (tx_mgnt_pkts r).
Definition set_xmit_buf_queue (v : list nat) (r : tx_info) : tx_info :=
  mk_tx_info (frames r) (bufs r) (xmit_frame_queue r) (free_xmitframe_cnt r) v (free_xmitbuf_cnt
    r) (xmit_extbuf_queue r) (free_xmit_extbuf_cnt r) (pending_frame_queue r) (pending_frame_cnt
    r) (tx_pend_flag r) (xmitFrameCtl r) (xmit_stop_flag r) (tx_drop r) (tx_mgnt_pkts r).
Definition set_free_xmitbuf_cnt (v : Z) (r : tx_info) : tx_info :=
  mk_tx_info (frames r) (bufs r) (xmit_frame_queue r) (free_xmitframe_cnt r) (xmit_buf_queue r)
    v (xmit_extbuf_queue r) (free_xmit_extbuf_cnt r) (pending_frame_queue r) (pending_frame_cnt
    r) (tx_pend_flag r) (xmitFrameCtl r) (xmit_stop_flag r) (tx_drop r) (tx_mgnt_pkts r).
Definition set_xmit_extbuf_queue (v : list nat) (r : tx_info) : tx_info :=
  mk_tx_info (frames r) (bufs r) (xmit_frame_queue r) (free_xmitframe_cnt r) (xmit_buf_queue r)
    (free_xmitbuf_cnt r) v (free_xmit_extbuf_cnt r) (pending_frame_queue r) (pending_frame_cnt
    r) (tx_pend_flag r) (xmitFrameCtl r) (xmit_stop_flag r) (tx_drop r) (tx_mgnt_pkts r).
Definition set_free_xmit_extbuf_cnt (v : Z) (r : tx_info) : tx_info :=
  mk_tx_info (frames r) (bufs r) (xmit_frame_queue r) (free_xmitframe_cnt r) (xmit_buf_queue r)
    (free_xmitbuf_cnt r) (xmit_extbuf_queue r) v (pending_frame_queue r) (pending_frame_cnt r)
    (tx_pend_flag r) (xmitFrameCtl r) (xmit_stop_flag r) (tx_drop r) (tx_mgnt_pkts r).
Definition set_pending_frame_queue (v : list nat) (r : tx_info) : tx_info :=
  mk_tx_info (frames r) (bufs r) (xmit_frame_queue r) (free_xmitframe_cnt r) (xmit_buf_queue r)
    (free_xmitbuf_cnt r) (xmit_extbuf_queue r) (free_xmit_extbuf_cnt r) v (pending_frame_cnt r)
    (tx_pend_flag r) (xmitFrameCtl r) (xmit_stop_flag r) (tx_drop r) (tx_mgnt_pkts r).
Definition set_pending_frame_cnt (v : Z) (r : tx_info) : tx_info :=
  mk_tx_info (frames r) (bufs r) (xmit_frame_queue r) (free_xmitframe_cnt r) (xmit_buf_queue r)
    (free_xmitbuf_cnt r) (xmit_extbuf_queue r) (free_xmit_extbuf_cnt r) (pending_frame_queue r)
    v (tx_pend_flag r) (xmitFrameCtl r) (xmit_stop_flag r) (tx_drop r) (tx_mgnt_pkts r).
Definition set_tx_pend_flag (v : list Z) (r : tx_info) : tx_info :=
  mk_tx_info (frames r) (bufs r) (xmit_frame_queue r) (free_xmitframe_cnt r) (xmit_buf_queue r)
    (free_xmitbuf_cnt r) (xmit_extbuf_queue r) (free_xmit_extbuf_cnt r) (pending_frame_queue r)
    (pending_frame_cnt r) v (xmitFrameCtl r) (xmit_stop_flag r) (tx_drop r) (tx_mgnt_pkts r).
Definition set_xmitFrameCtl (v : Z) (r : tx_info) : tx_info :=
  mk_tx_info (frames r) (bufs r) (xmit_frame_queue r) (free_xmitframe_cnt r) (xmit_buf_queue r)
    (free_xmitbuf_cnt r) (xmit_extbuf_queue r) (free_xmit_extbuf_cnt r) (pending_frame_queue r)
    (pending_frame_cnt r) (tx_pend_flag r) v (xmit_stop_flag r) (tx_drop r) (tx_mgnt_pkts r).
Definition set_xmit_stop_flag (v : Z) (r : tx_info) : tx_info :=
  mk_tx_info (frames r) (bufs r) (xmit_frame_queue r) (free_xmitframe_cnt r) (xmit_buf_queue r)
    (free_xmitbuf_cnt r) (xmit_extbuf_queue r) (free_xmit_extbuf_cnt r) (pending_frame_queue r)
    (pending_frame_cnt r) (tx_pend_flag r) (xmitFrameCtl r) v (tx_drop r) (tx_mgnt_pkts r).
Definition set_tx_drop (v : Z) (r : tx_info) : tx_info :=
  mk_tx_info (frames r) (bufs r) (xmit_frame_queue r) (free_xmitframe_cnt r) (xmit_buf_queue r)
    (free_xmitbuf_cnt r) (xmit_extbuf_queue r) (free_xmit_extbuf_cnt r) (pending_frame_queue r)
    (pending_frame_cnt r) (tx_pend_flag r) (xmitFrameCtl r) (xmit_stop_flag r) v (tx_mgnt_pkts
    r).
Definition set_tx_mgnt_pkts (v : Z) (r : tx_info) : tx_info :=
  mk_tx_info (frames r) (bufs r) (xmit_frame_queue r) (free_xmitframe_cnt r) (xmit_buf_queue r)
    (free_xmitbuf_cnt r) (xmit_extbuf_queue r) (free_xmit_extbuf_cnt r) (pending_frame_queue r)
    (pending_frame_cnt r) (tx_pend_flag r) (xmitFrameCtl r) (xmit_stop_flag r) (tx_drop r) v.

(** [wf_kzalloc]: no pools yet. *)
Definition zero : tx_info :=
  mk_tx_info [] [] [] 0 [] 0 [] 0 [] 0 (replicate 16 0) 0 0 0 0.
End Tx.

Module TxQueue.
Import Io.
Open Scope io_scope.

Definition XMIT_DATA_BUFFER_CNT : Z := 8.
Definition XMIT_MGMT_BUFFER_CNT : Z := 8.
Definition NR_XMITFRAME : Z := 256.
Definition MAX_XMITBUF_SZ : Z := 2048.
Definition MAX_XMIT_EXTBUF_SZ : Z := 1536.
Definition WF_RETURN_FAIL : Z := -1.
Definition WF_MONITOR_MODE : Z := 6.

(** ** Pools *)

(** A frame written through its pointer. *)
Definition upd_frame (f : nat) (g : Xf.xmit_frame -> Xf.xmit_frame) (s : Tx.tx_info) : Tx.tx_info :=
  Tx.set_frames (alter g (f) (Tx.frames s)) s.

Definition wf_xmit_frame_new (s : Tx.tx_info) : option nat * Tx.tx_info :=
  match Tx.xmit_frame_queue s with
  | [] => (None, s)
  | f :: q =>
      (Some f,
       upd_frame f (fun x => Xf.set_pkt_offset (PACKET_OFFSET_SZ / 8) (Xf.set_pkt None
         (Xf.set_frame_tag DATA_FRAMETAG (Xf.set_pxmitbuf None (Xf.set_buf_addr None x)))))
         (Tx.set_free_xmitframe_cnt (s32 (Tx.free_xmitframe_cnt s - 1)) (Tx.set_xmit_frame_queue q s)))
  end.

(** [wf_list_delete]: the node leaves the list it is on. *)
Definition unlink (m : nat) (l : list nat) : list nat := List.filter (fun x => negb (Nat.eqb x m)) l.

Definition wf_xmit_frame_enqueue (s : Tx.tx_info) (f : option nat) : bool * Tx.tx_info :=
  match f with
  | None => (false, s)
  | Some f =>
      (true, Tx.set_free_xmitframe_cnt (s32 (Tx.free_xmitframe_cnt s + 1))
               (Tx.set_xmit_frame_queue (Tx.xmit_frame_queue s ++ [f]) s))
  end.

Definition wf_xmit_frame_delete (s : Tx.tx_info) (f : option nat) : bool * Tx.tx_info :=
  match f with
  | None => (false, s)
  | Some g =>
      wf_xmit_frame_enqueue
        (Tx.set_pending_frame_cnt (u32 (Tx.pending_frame_cnt s - 1))
           (Tx.set_pending_frame_queue (unlink g (Tx.pending_frame_queue s)) s)) f
  end.

Definition wf_tx_data_enqueue_tail (s : Tx.tx_info) (f : nat) : Tx.tx_info :=
  Tx.set_pending_frame_cnt (u32 (Tx.pending_frame_cnt s + 1))
    (Tx.set_pending_frame_queue (Tx.pending_frame_queue s ++ [f]) s).

Definition wf_tx_data_enqueue_head (s : Tx.tx_info) (f : nat) : Tx.tx_info :=
  Tx.set_pending_frame_cnt (u32 (Tx.pending_frame_cnt s + 1))
    (Tx.set_pending_frame_queue (f :: Tx.pending_frame_queue s) s).

Definition wf_tx_data_getqueue (s : Tx.tx_info) : option nat := head (Tx.pending_frame_queue s).

Definition wf_tx_data_dequeue (s : Tx.tx_info) : option nat * Tx.tx_info :=
  match Tx.pending_frame_queue s with
  | [] => (None, s)
  | f :: q => (Some f, Tx.set_pending_frame_cnt (u32 (Tx.pending_frame_cnt s - 1)) (Tx.set_pending_frame_queue q s))
  end.

Definition wf_xmit_buf_new (s : Tx.tx_info) : option nat * Tx.tx_info :=
  match Tx.xmit_buf_queue s with
  | [] => (None, s)
  | b :: q => (Some b, Tx.set_free_xmitbuf_cnt (u32 (Tx.free_xmitbuf_cnt s - 1)) (Tx.set_xmit_buf_queue q s))
  end.

Definition wf_xmit_buf_delete (s : Tx.tx_info) (b : option nat) : bool * Tx.tx_info :=
  match b with
  | None => (false, s)
  | Some b =>
      (true, Tx.set_free_xmitbuf_cnt (u32 (Tx.free_xmitbuf_cnt s + 1))
               (Tx.set_xmit_buf_queue (unlink b (Tx.xmit_buf_queue s) ++ [b]) s))
  end.

Definition wf_xmit_extbuf_new (s : Tx.tx_info) : option nat * Tx.tx_info :=
  match Tx.xmit_extbuf_queue s with
  | [] => (None, s)
  | b :: q =>
      (Some b, Tx.set_free_xmit_extbuf_cnt (u32 (Tx.free_xmit_extbuf_cnt s - 1)) (Tx.set_xmit_extbuf_queue q s))
  end.

Definition wf_xmit_extbuf_delete (s : Tx.tx_info) (b : option nat) : bool * Tx.tx_info :=
  match b with
  | None => (false, s)
  | Some b =>
      (true, Tx.set_tx_pend_flag (<[b := 0]> (Tx.tx_pend_flag s))
               (Tx.set_free_xmit_extbuf_cnt (u32 (Tx.free_xmit_extbuf_cnt s + 1))
                  (Tx.set_xmit_extbuf_queue (unlink b (Tx.xmit_extbuf_queue s) ++ [b]) s)))
  end.

(** ** Flow control *)

Definition wf_need_stop_queue (s : Tx.tx_info) : bool * Tx.tx_info :=
  if Tx.free_xmitframe_cnt s <=? 1 then (true, Tx.set_xmitFrameCtl 1 s) else (false, s).

Definition wf_need_wake_queue (s : Tx.tx_info) : bool * Tx.tx_info :=
  if (Tx.xmitFrameCtl s =? 1) && (NR_XMITFRAME - 1 <? Tx.free_xmitframe_cnt s)
  then (true, Tx.set_xmitFrameCtl 0 s) else (false, s).

Definition wf_tx_xmit_stop (s : Tx.tx_info) : Tx.tx_info :=
  Tx.set_xmit_stop_flag (u16 (Tx.xmit_stop_flag s + 1)) s.

(** What the device's state lets through ([wf_tx_data_check]). *)
Record tx_gate : Type := mk_gate {
  is_up : bool;
  mp_mode : bool;
  gate_mode : Z;
  connected : bool;
  ap_status : Z;
}.
Definition WF_AP_STATUS_UNINITILIZED : Z := 0.

Definition wf_tx_data_check (g : tx_gate) (s : Tx.tx_info) : bool * Tx.tx_info :=
  let drop :=
    negb (is_up g) || mp_mode g ||
    (if gate_mode g =? Rx.WF_INFRA_MODE then negb (connected g)
     else if gate_mode g =? Rx.WF_MASTER_MODE then ap_status g =? WF_AP_STATUS_UNINITILIZED
     else false) in
  if drop then (false, Tx.set_tx_drop (u64 (Tx.tx_drop s + 1)) s) else (true, s).

(** ** Calls *)

(** [FrameInit] is [wf_xmit_frame_init], [MsduToMpdu] is [wf_tx_msdu_to_mpdu],
    whose answer is zero or the number of fragments, [Describe] the descriptor
    and encryption of a fragment, [BaDue] the test for a block acknowledgment,
    [AddBa] its request, [IoWrite] and [IoWriteMgmt] are [wf_io_write_data]
    (buffer, fragment and whether it has the callback; queue and bytes),
    [WakeQueue] and [StopQueue] control the packets of the operating system,
    [TxWake] schedules the task, [PendWait] waits until the callback has run
    or 100 ms are over. *)
Inductive ev : Type :=
  | CannotRun
  | FrameInit (f : nat) (skb : Z)
  | MsduToMpdu (f b : nat) (skb : Z)
  | Describe (f : nat) (t : Z)
  | BaDue (f : nat)
  | AddBa (f : nat)
  | IoWrite (b : nat) (t : Z) (last : bool)
  | IoWriteMgmt (b : nat) (q : Z) (bytes : list Z)
  | Stats (f : nat) (t : Z)
  | FreeSkb (skb : Z)
  | StopQueue
  | WakeQueue (pkt : option Z)
  | TxWake
  | PendWait (b : nat).

Definition frame_at (s : Tx.tx_info) (f : nat) : io ev Xf.xmit_frame :=
  lift (of_option (Tx.frames s !! f)).

(** ** Packets of the operating system *)

Definition wf_tx_msdu (s : Tx.tx_info) (skb : Z) : io ev (Z * Tx.tx_info) :=
  match wf_xmit_frame_new s with
  | (None, s) => iret (-1, s)
  | (Some f, s) =>
      let! r := call (FrameInit f skb) in
      if negb (nz r) then iret (-1, snd (wf_xmit_frame_enqueue s (Some f)))
      else iret (0, wf_tx_data_enqueue_tail (upd_frame f (Xf.set_pkt (Some skb)) s) f)
  end.

Definition ndev_start_xmit (g : tx_gate) (s : Tx.tx_info) (skb : option Z) : io ev (Z * Tx.tx_info) :=
  match skb with
  | None => iret (0, s)
  | Some skb =>
      let! cr := call CannotRun in
      if nz cr then iret (0, s)
      else if gate_mode g =? WF_MONITOR_MODE then iret (0, s)
      else
        let '(ok, s) := wf_tx_data_check g s in
        if negb ok then do! call (FreeSkb skb) in iret (0, s)
        else
          let '(stop, s) := wf_need_stop_queue s in
          do! (if stop then call StopQueue else iret 0) in
          let! (r, s) := wf_tx_msdu s skb in
          do! (if negb (r =? 0) then call (FreeSkb skb) else call TxWake) in
          iret (0, s)
  end.

(** ** Sending *)

(** The fragments of a frame from number [t] on, [n] of them; the last one has
    the callback. *)
Fixpoint send_frags (n : nat) (f b : nat) (t : Z) : io ev bool :=
  match n with
  | O => iret true
  | S n =>
      do! call (Describe f t) in
      let! r := call (IoWrite b t (Nat.eqb n 0)) in
      if r =? WF_RETURN_FAIL then iret false
      else do! call (Stats f t) in send_frags n f b (t + 1)
  end.

Definition mpdu_insert_sending_queue (s : Tx.tx_info) (f b : nat) : io ev bool :=
  let! x := frame_at s f in
  send_frags (Z.to_nat (Xf.nr_frags x)) f b 0.

Definition mpdu_send_complete_cb (s : Tx.tx_info) (b : nat) : io ev Tx.tx_info :=
  let '(_, s) := wf_xmit_buf_delete s (Some b) in
  do! call TxWake in iret s.

(** The number of fragments an answer stands for: one to seven. *)
Definition frags_of (r : Z) : Z := Z.max 1 (Z.min r 7).

(** A frame that is given up: packet, buffer and frame go back. *)
Definition sent (s : Tx.tx_info) (f b : nat) (ok : bool) : io ev Tx.tx_info :=
  if ok then
    let! x := frame_at s f in
    let! p := lift (of_option (Xf.pkt x)) in
    do! call (FreeSkb p) in
    iret (snd (wf_xmit_frame_delete (upd_frame f (Xf.set_pkt None) s) (Some f)))
  else iret (snd (wf_xmit_buf_delete s (Some b))).

(** One pass of the loop of [tx_work_mpdu_xmit] for the frame [f] in the buffer
    [b]: what it returns, [None] to go on. *)
Definition xmit_frame_in (s : Tx.tx_info) (f b : nat) : io ev (option Z * Tx.tx_info) :=
  let s := upd_frame f (fun x => Xf.set_buf_addr (Some (Z.of_nat b)) (Xf.set_pxmitbuf (Some (Z.of_nat b)) x)) s in
  let! x := frame_at s f in
  if 15 <? Xf.priority x then
    let s := snd (wf_xmit_frame_delete (snd (wf_xmit_buf_delete s (Some b))) (Some f)) in
    do! match Xf.pkt x with Some p => call (FreeSkb p) | None => iret 0 end in
    iret (Some 0, upd_frame f (Xf.set_pkt None) s)
  else
    let! due := call (BaDue f) in
    let! ba := (if nz due then call (AddBa f) else iret (-1)) in
    if ba =? 0 then iret (Some 0, snd (wf_xmit_buf_delete s (Some b)))
    else
      match Xf.pkt x with
      | Some p =>
          let! r := call (MsduToMpdu f b p) in
          if nz r then
            let s := upd_frame f (Xf.set_nr_frags (frags_of r)) s in
            let! ok := mpdu_insert_sending_queue s f b in
            let! s := sent s f b ok in
            let '(wake, s) := wf_need_wake_queue s in
            let! x := frame_at s f in
            do! (if wake then call (WakeQueue (Xf.pkt x)) else iret 0) in
            iret (None, s)
          else
            do! call (FreeSkb p) in
            let s := upd_frame f (Xf.set_pkt None) s in
            iret (None, snd (wf_xmit_frame_delete (snd (wf_xmit_buf_delete s (Some b))) (Some f)))
      | None => iret (None, snd (wf_xmit_frame_delete (snd (wf_xmit_buf_delete s (Some b))) (Some f)))
      end.

Definition xmit_pass (s : Tx.tx_info) : io ev (option Z * Tx.tx_info) :=
  let! cr := call CannotRun in
  if nz cr then iret (Some (-1), s)
  else if nz (Tx.xmit_stop_flag s) then iret (Some (-1), s)
  else if negb (nz (Z.of_nat (length (Tx.pending_frame_queue s)))) then iret (Some 0, s)
  else
    match wf_xmit_buf_new s with
    | (None, s) => iret (Some 0, s)
    | (Some b, s) =>
        match wf_tx_data_getqueue s with
        | Some f => xmit_frame_in s f b
        | None => iret (Some 0, snd (wf_xmit_buf_delete s (Some b)))
        end
    end.

(** At most [n] passes; [None] when the loop is still running. *)
Fixpoint tx_work_mpdu_xmit (n : nat) (s : Tx.tx_info) : io ev (option Z * Tx.tx_info) :=
  match n with
  | O => iret (None, s)
  | S n =>
      let! (r, s) := xmit_pass s in
      match r with
      | Some r => iret (Some r, s)
      | None => tx_work_mpdu_xmit n s
      end
  end.

(** ** Stopping and clearing *)

Definition wf_tx_xmit_start (s : Tx.tx_info) : io ev Tx.tx_info :=
  let s := if 0 <? Tx.xmit_stop_flag s then Tx.set_xmit_stop_flag (Tx.xmit_stop_flag s - 1) s else s in
  do! call TxWake in iret s.

(** The loop that gives every pending frame and its packet back. *)
Fixpoint clear_pending (n : nat) (s : Tx.tx_info) : io ev Tx.tx_info :=
  match n with
  | O => ifault
  | S n =>
      match wf_tx_data_getqueue s with
      | None => iret s
      | Some f =>
          let s := snd (wf_xmit_frame_delete s (Some f)) in
          let! x := frame_at s f in
          match Xf.pkt x with
          | Some p => do! call (FreeSkb p) in clear_pending n (upd_frame f (Xf.set_pkt None) s)
          | None => clear_pending n s
          end
      end
  end.

(** Each pass takes one frame off, so one more pass than frames is enough. *)
Definition wf_tx_xmit_pending_queue_clear (s : Tx.tx_info) : io ev Tx.tx_info :=
  let s := wf_tx_xmit_stop s in
  let! s := clear_pending (S (length (Tx.pending_frame_queue s))) s in
  wf_tx_xmit_start s.

(** [wf_tx_frame_queue_clear]: dequeues, and frees the packets only. *)
Fixpoint wf_tx_frame_queue_clear (n : nat) (s : Tx.tx_info) : io ev Tx.tx_info :=
  match n with
  | O => ifault
  | S n =>
      match wf_tx_data_dequeue s with
      | (None, s) => iret s
      | (Some f, s) =>
          let! x := frame_at s f in
          do! match Xf.pkt x with Some p => call (FreeSkb p) | None => iret 0 end in
          wf_tx_frame_queue_clear n (upd_frame f (Xf.set_pkt None) s)
      end
  end.

(** ** Management frames *)

Definition buf_at (s : Tx.tx_info) (b : nat) : io ev (list Z) := lift (of_option (Tx.bufs s !! b)).
Definition set_buf (b : nat) (d : list Z) (s : Tx.tx_info) : Tx.tx_info :=
  Tx.set_bufs (<[b := d]> (Tx.bufs s)) s.
Definition to_write (len : Z) (d : list Z) : list Z := take (Z.to_nat (u16 (len + TXDESC_SIZE))) d.

Definition wf_nic_beacon_xmit (nic_num : Z) (s : Tx.tx_info) (b : option nat) (len : Z) : io ev (Z * Tx.tx_info) :=
  match b with
  | None => iret (-1, s)
  | Some b =>
      let! cr := call CannotRun in
      if nz cr then iret (-1, snd (wf_xmit_extbuf_delete s (Some b)))
      else
        let! buf := buf_at s b in
        let! d := lift (TxDesc.beacon_desc nic_num len buf) in
        do! call (IoWriteMgmt b (TxDesc.wf_quary_addr TxDesc.QSLT_BEACON) (to_write len d)) in
        iret (0, set_buf b d s)
  end.

Definition wf_nic_mgmt_frame_xmit (nic : tx_nic) (wdn : option Wi.wdn_net_info_st) (s : Tx.tx_info) (b : option nat)
    (len : Z) : io ev (Z * Tx.tx_info) :=
  match b with
  | None => iret (-1, s)
  | Some b =>
      let! cr := call CannotRun in
      if nz cr then iret (-1, snd (wf_xmit_extbuf_delete s (Some b)))
      else
        let! buf := buf_at s b in
        let! r := lift (TxDesc.mgmt_desc nic wdn len buf) in
        match r with
        | None => iret (-1, snd (wf_xmit_extbuf_delete s (Some b)))
        | Some d =>
            do! call (IoWriteMgmt b (TxDesc.wf_quary_addr TxDesc.QSLT_MGNT) (to_write len d)) in
            iret (0, Tx.set_tx_mgnt_pkts (u64 (Tx.tx_mgnt_pkts s + 1)) (set_buf b d s))
        end
  end.

(** An answer of zero to [PendWait] is that of a callback that has run: it has
    given the buffer back and cleared its flag. *)
Definition wf_nic_mgmt_frame_xmit_with_ack (nic : tx_nic) (wdn : option Wi.wdn_net_info_st) (s : Tx.tx_info)
    (b : option nat) (len : Z) : io ev (Z * option Wi.wdn_net_info_st * Tx.tx_info) :=
  match b with
  | None => iret (-1, wdn, s)
  | Some b =>
      let! cr := call CannotRun in
      if nz cr then iret (-2, wdn, snd (wf_xmit_extbuf_delete s (Some b)))
      else
        let! buf := buf_at s b in
        let! (wdn, d) := lift (TxDesc.ack_desc nic wdn len buf) in
        let s := Tx.set_tx_pend_flag (<[b := 0x55]> (Tx.tx_pend_flag s)) (set_buf b d s) in
        let! ret := call (IoWriteMgmt b (TxDesc.wf_quary_addr TxDesc.QSLT_MGNT) (to_write len d)) in
        let! (ret, s) :=
          (if ret =? 0 then
             let! r := call (PendWait b) in
             if r =? 0 then iret (0, snd (wf_xmit_extbuf_delete s (Some b))) else iret (-3, s)
           else iret (ret, s)) in
        iret (ret, wdn, Tx.set_tx_mgnt_pkts (u64 (Tx.tx_mgnt_pkts s + 1)) s)
  end.

(** ** Initialisation *)

(** The buffers of one pool: [n] of them from number [i] on, of [size] bytes,
    with the answers of the allocator, which is asked once more when [retry];
    the buffers with their numbers, or none after a failure. *)
Fixpoint init_bufs (n i : nat) (size : Z) (retry : bool) (allocs : list bool)
    : option (list nat * list (list Z) * list bool) :=
  match n with
  | O => Some ([], [], allocs)
  | S n =>
      let '(ok, allocs) := (hd true allocs, tl allocs) in
      let '(ok, allocs) := if negb ok && retry then (hd true allocs, tl allocs) else (ok, allocs) in
      if negb ok then None
      else
        '(q, bs, allocs) ← init_bufs n (S i) size retry allocs;
        Some (i :: q, replicate (Z.to_nat size) 0 :: bs, allocs)
  end.

(** A frame as [wf_tx_info_init] leaves it. *)
Definition frame0 (i : nat) : Xf.xmit_frame := Xf.set_frame_id (Z.of_nat i + 1) Xf.zero.

Definition wf_tx_info_init (allocs : list bool) : Z * option Tx.tx_info :=
  let next := fun l : list bool => (hd true l, tl l) in
  let '(ok, allocs) := next allocs in
  if negb ok then (-1, None) else
  let '(ok, allocs) := next allocs in
  if negb ok then (-2, None) else
  let '(ok, allocs) := next allocs in
  if negb ok then (-3, None) else
  match init_bufs (Z.to_nat XMIT_DATA_BUFFER_CNT) 0 MAX_XMITBUF_SZ true allocs with
  | None => (-4, None)
  | Some (q, bs, allocs) =>
      let '(ok, allocs) := next allocs in
      if negb ok then (-3, None) else
      match init_bufs (Z.to_nat XMIT_MGMT_BUFFER_CNT) (Z.to_nat XMIT_DATA_BUFFER_CNT) MAX_XMIT_EXTBUF_SZ false allocs with
      | None => (-4, None)
      | Some (eq, ebs, _) =>
          (0, Some (Tx.mk_tx_info (frame0 <$> seq 0 (Z.to_nat NR_XMITFRAME)) (bs ++ ebs)
                      (seq 0 (Z.to_nat NR_XMITFRAME)) NR_XMITFRAME q XMIT_DATA_BUFFER_CNT eq XMIT_MGMT_BUFFER_CNT
                      [] 0 (replicate 16 0) 0 0 0 0))
      end
  end.

(** ** Invariant

    [held] are frames taken from the pool and not yet queued, [hif] the data
    buffers with the bus, [ext] the management buffers in use. *)
Record tx_ok (s : Tx.tx_info) (held hif ext : list nat) : Prop := {
  ok_frames : length (Tx.frames s) = 256%nat;
  ok_bufs : length (Tx.bufs s) = 16%nat;
  ok_sizes : Forall (fun d => 1536 <= length d)%nat (Tx.bufs s);
  ok_flags : length (Tx.tx_pend_flag s) = 16%nat;
  ok_frame_queue : Tx.xmit_frame_queue s ++ held ++ Tx.pending_frame_queue s ≡ₚ seq 0 256;
  ok_frame_cnt : Tx.free_xmitframe_cnt s = Z.of_nat (length (Tx.xmit_frame_queue s));
  ok_pending_cnt : Tx.pending_frame_cnt s = Z.of_nat (length (Tx.pending_frame_queue s));
  ok_buf_queue : Tx.xmit_buf_queue s ++ hif ≡ₚ seq 0 8;
  ok_buf_cnt : Tx.free_xmitbuf_cnt s = Z.of_nat (length (Tx.xmit_buf_queue s));
  ok_ext_queue : Tx.xmit_extbuf_queue s ++ ext ≡ₚ seq 8 8;
  ok_ext_cnt : Tx.free_xmit_extbuf_cnt s = Z.of_nat (length (Tx.xmit_extbuf_queue s));
}.

(** The packets of the frames on a queue. *)
Definition pk (fr : list Xf.xmit_frame) (f : nat) : option Z := x ← fr !! f; Xf.pkt x.
Definition pkts (s : Tx.tx_info) : list Z := omap (pk (Tx.frames s)) (Tx.pending_frame_queue s).

Lemma unlink_cons m x l : unlink m (x :: l) = if Nat.eqb x m then unlink m l else x :: unlink m l.
Proof. unfold unlink. cbn. by destruct (Nat.eqb x m). Qed.

Lemma unlink_id m l : m ∉ l -> unlink m l = l.
Proof.
  induction l as [| x l IH]; [done |]. intros Hm. apply not_elem_of_cons in Hm as [Hx Hl]. rewrite unlink_cons.
  destruct (Nat.eqb_spec x m) as [-> |]; [done |]. f_equal. by apply IH.
Qed.

Lemma unlink_perm m l : NoDup l -> m ∈ l -> l ≡ₚ m :: unlink m l.
Proof.
  induction l as [| x l IH]; intros Hnd Hm; [by apply not_elem_of_nil in Hm |].
  apply NoDup_cons in Hnd as [Hx Hnd]. rewrite unlink_cons. destruct (Nat.eqb_spec x m) as [-> | Hne].
  - constructor. by rewrite unlink_id.
  - apply elem_of_cons in Hm as [-> | Hm]; [done |]. rewrite (Permutation_swap x m). constructor. by apply IH.
Qed.

Lemma unlink_head m l : NoDup (m :: l) -> unlink m (m :: l) = l.
Proof. intros [Hm _]%NoDup_cons. rewrite unlink_cons, Nat.eqb_refl. by apply unlink_id. Qed.

Lemma perm_seq_length l a n : l ≡ₚ seq a n -> length l = n.
Proof. intros ->%Permutation_length. apply length_seq. Qed.

Lemma omap_same {A B} (g h : A -> option B) (l : list A) : (forall x, x ∈ l -> g x = h x) -> omap g l = omap h l.
Proof.
  induction l as [| x l IH]; intros H; [done |]. cbn. rewrite (H x) by constructor.
  rewrite IH; [done |]. intros y Hy. apply H. by constructor.
Qed.

Lemma pk_alter_notin g f fr (l : list nat) : f ∉ l -> omap (pk (alter g f fr)) l = omap (pk fr) l.
Proof.
  intros Hf. apply omap_same. intros x Hx. unfold pk. rewrite list_lookup_alter_ne; [done |]. by intros ->.
Qed.

(** A write that leaves the packet alone. *)
Lemma pk_alter_same g f fr (l : list nat) : (forall x, Xf.pkt (g x) = Xf.pkt x) -> omap (pk (alter g f fr)) l = omap (pk fr) l.
Proof.
  intros Hg. apply omap_same. intros x _. unfold pk. destruct (decide (f = x)) as [-> |].
  - rewrite list_lookup_alter_eq. destruct (fr !! x); cbn; [apply Hg | done].
  - by rewrite list_lookup_alter_ne.
Qed.

(** The packet of a frame on the queue, and the others. *)
Lemma pk_unlink f fr (l : list nat) : NoDup l -> f ∈ l -> omap (pk fr) l ≡ₚ option_list (pk fr f) ++ omap (pk fr) (unlink f l).
Proof.
  intros Hnd Hf. rewrite (unlink_perm f l Hnd Hf) at 1. cbn. by destruct (pk fr f).
Qed.

Section Ok.
Context {s : Tx.tx_info} {held hif ext : list nat} (Hok : tx_ok s held hif ext).

Lemma ok_nodup : NoDup (Tx.xmit_frame_queue s ++ held ++ Tx.pending_frame_queue s).
Proof using All. rewrite (ok_frame_queue _ _ _ _ Hok). apply NoDup_seq. Qed.

Lemma pending_nodup : NoDup (Tx.pending_frame_queue s).
Proof using All. pose proof ok_nodup as H. apply NoDup_app in H as (_ & _ & H). by apply NoDup_app in H as (_ & _ & H). Qed.

Lemma frame_range f : f ∈ held \/ f ∈ Tx.pending_frame_queue s -> exists x, Tx.frames s !! f = Some x.
Proof using All.
  intros Hf. apply lookup_lt_is_Some_2. rewrite (ok_frames _ _ _ _ Hok).
  assert (H : f ∈ seq 0 256).
  { rewrite <- (ok_frame_queue _ _ _ _ Hok), !elem_of_app. tauto. }
  apply elem_of_seq in H. lia.
Qed.

Lemma frame_counts :
  (length (Tx.xmit_frame_queue s) + length held + length (Tx.pending_frame_queue s) = 256)%nat.
Proof using All. pose proof (perm_seq_length _ _ _ (ok_frame_queue _ _ _ _ Hok)) as H. rewrite !length_app in H. lia. Qed.

Lemma buf_counts : (length (Tx.xmit_buf_queue s) + length hif = 8)%nat.
Proof using All. pose proof (perm_seq_length _ _ _ (ok_buf_queue _ _ _ _ Hok)) as H. rewrite !length_app in H. lia. Qed.

Lemma ext_counts : (length (Tx.xmit_extbuf_queue s) + length ext = 8)%nat.
Proof using All. pose proof (perm_seq_length _ _ _ (ok_ext_queue _ _ _ _ Hok)) as H. rewrite !length_app in H. lia. Qed.
End Ok.

Lemma s32_small x : 0 <= x < 2147483648 -> s32 x = x.
Proof. intros H. unfold s32. rewrite Z.mod_small; lia. Qed.

(** Proves the invariant after an operation from the fields it leaves alone. *)
Ltac tx_ok_step :=
  match goal with H : tx_ok ?s _ _ _ |- tx_ok _ _ _ _ =>
    pose proof (frame_counts H); pose proof (buf_counts H); pose proof (ext_counts H);
    destruct H as [? ? ? ? ? ? ? ? ? ? ?]; split; cbn; try assumption
  end.

Lemma frame_new_ok s hif ext f s' : tx_ok s [] hif ext -> wf_xmit_frame_new s = (Some f, s') ->
  tx_ok s' [f] hif ext /\ pkts s' = pkts s /\ Tx.xmitFrameCtl s' = Tx.xmitFrameCtl s.
Proof.
  intros Hok. pose proof (ok_nodup Hok) as Hnd. unfold wf_xmit_frame_new.
  destruct (Tx.xmit_frame_queue s) as [| g q] eqn:Eq; [done |]. intros [= <- <-].
  assert (Hg : g ∉ Tx.pending_frame_queue s).
  { cbn in Hnd. apply NoDup_cons in Hnd as [Hg _]. intros H. apply Hg, elem_of_app. by right. }
  split; [| split; [| done]].
  - tx_ok_step.
    + by rewrite length_alter.
    + rewrite Eq in *. cbn [app length] in *. cbn. by rewrite <- Permutation_middle.
    + rewrite Eq in *. cbn [length] in *. rewrite s32_small by lia. lia.
  - by apply pk_alter_notin.
Qed.

Lemma enqueue_ok s f hif ext : tx_ok s [f] hif ext ->
  let s' := snd (wf_xmit_frame_enqueue s (Some f)) in tx_ok s' [] hif ext /\ pkts s' = pkts s.
Proof.
  intros Hok s'. split; [| done]. unfold s'. tx_ok_step.
  - by rewrite <- app_assoc.
  - rewrite length_app. cbn [length] in *. rewrite s32_small by lia. lia.
Qed.

Lemma upd_frame_ok s f g held hif ext : tx_ok s held hif ext -> tx_ok (upd_frame f g s) held hif ext.
Proof. intros Hok. tx_ok_step. by rewrite length_alter. Qed.

Lemma tail_ok s f hif ext : tx_ok s [f] hif ext -> tx_ok (wf_tx_data_enqueue_tail s f) [] hif ext.
Proof.
  intros Hok. tx_ok_step.
  - etransitivity; [| eassumption]. apply Permutation_app_head. cbn. by rewrite Permutation_app_comm.
  - rewrite length_app. cbn [length] in *. rewrite u32_id; unfold is_u32; lia.
Qed.

Lemma enqueue_tail_ok s f p hif ext : tx_ok s [f] hif ext ->
  let s' := wf_tx_data_enqueue_tail (upd_frame f (Xf.set_pkt (Some p)) s) f in
  tx_ok s' [] hif ext /\ pkts s' ≡ₚ p :: pkts s.
Proof.
  intros Hok s'. pose proof (ok_nodup Hok) as Hnd.
  destruct (frame_range Hok f ltac:(left; by constructor)) as [x Hx].
  assert (Hf : f ∉ Tx.pending_frame_queue s).
  { apply NoDup_app in Hnd as (_ & _ & Hnd). by apply NoDup_cons in Hnd as [? _]. }
  split.
  - by apply tail_ok, upd_frame_ok.
  - unfold s', pkts. cbn. rewrite omap_app, pk_alter_notin by done. cbn.
    unfold pk at 2. rewrite list_lookup_alter_eq, Hx. cbn. by rewrite Permutation_app_comm.
Qed.

Lemma frame_delete_ok s f hif ext : tx_ok s [] hif ext -> f ∈ Tx.pending_frame_queue s ->
  let s' := snd (wf_xmit_frame_delete s (Some f)) in
  tx_ok s' [] hif ext /\ pkts s ≡ₚ option_list (pk (Tx.frames s) f) ++ pkts s'.
Proof.
  intros Hok Hf s'. pose proof (pending_nodup Hok) as Hnd. pose proof (unlink_perm _ _ Hnd Hf) as Hu.
  pose proof (Permutation_length Hu) as Hl. cbn [length] in Hl.
  split; [| by apply pk_unlink]. unfold s'. tx_ok_step.
  - etransitivity; [| eassumption]. rewrite <- app_assoc. apply Permutation_app_head. symmetry. exact Hu.
  - rewrite length_app. cbn [length] in *. rewrite s32_small by lia. lia.
  - cbn [length] in *. rewrite u32_id; unfold is_u32; lia.
Qed.

Lemma buf_new_ok s hif ext b s' : tx_ok s [] hif ext -> wf_xmit_buf_new s = (Some b, s') ->
  tx_ok s' [] (hif ++ [b]) ext /\ Tx.pending_frame_queue s' = Tx.pending_frame_queue s /\ Tx.frames s' = Tx.frames s.
Proof.
  intros Hok. unfold wf_xmit_buf_new. destruct (Tx.xmit_buf_queue s) as [| c q] eqn:Eq; [done |].
  intros [= <- <-]. split; [| done]. tx_ok_step.
  - rewrite Eq in *. etransitivity; [| eassumption]. rewrite app_assoc, Permutation_app_comm. done.
  - rewrite Eq in *. cbn [length] in *. rewrite u32_id; unfold is_u32; lia.
Qed.

Lemma buf_delete_ok s hif ext b : tx_ok s [] (hif ++ [b]) ext -> tx_ok (snd (wf_xmit_buf_delete s (Some b))) [] hif ext.
Proof.
  intros Hok. assert (Hb : b ∉ Tx.xmit_buf_queue s).
  { assert (H : NoDup (Tx.xmit_buf_queue s ++ (hif ++ [b]))) by (rewrite (ok_buf_queue _ _ _ _ Hok); apply NoDup_seq).
    apply NoDup_app in H as (_ & H & _). intros Hb. apply (H b Hb), elem_of_app. right. by constructor. }
  tx_ok_step; rewrite unlink_id by done.
  - etransitivity; [| eassumption]. rewrite <- app_assoc. apply Permutation_app_head. by rewrite Permutation_app_comm.
  - rewrite length_app in *. cbn [length] in *. rewrite u32_id; unfold is_u32; lia.
Qed.

Lemma hif_perm s held hif hif' ext : hif ≡ₚ hif' -> tx_ok s held hif ext -> tx_ok s held hif' ext.
Proof. intros Hp [? ? ? ? ? ? ? ? ? ? ?]. split; try assumption. by rewrite <- Hp. Qed.

Lemma wake_ok s held hif ext : tx_ok s held hif ext ->
  tx_ok (snd (wf_need_wake_queue s)) held hif ext /\ pkts (snd (wf_need_wake_queue s)) = pkts s /\
  Tx.frames (snd (wf_need_wake_queue s)) = Tx.frames s.
Proof. intros Hok. unfold wf_need_wake_queue. case_match; split; try done. tx_ok_step. Qed.

(** ** What a run hands over

    The buffers a run of a handler left with the bus, and the packets it gave
    back to the operating system. *)
Definition hif_of (tr : list (ev * Z)) : list nat :=
  omap (fun p : ev * Z => match p.1 with
                          | IoWrite b _ true => if p.2 =? WF_RETURN_FAIL then None else Some b
                          | _ => None
                          end) tr.
Definition freed (tr : list (ev * Z)) : list Z :=
  omap (fun p : ev * Z => match p.1 with FreeSkb skb => Some skb | _ => None end) tr.

(** Nothing is lost on the way from [s] to [s']. *)
Definition conserved (s : Tx.tx_info) (hif ext : list nat) (tr : list (ev * Z)) (s' : Tx.tx_info) : Prop :=
  tx_ok s' [] (hif ++ hif_of tr) ext /\ pkts s ≡ₚ freed tr ++ pkts s'.

Lemma unlink_notin f l : f ∉ unlink f l.
Proof.
  unfold unlink. intros Hf. apply list_elem_of_In, filter_In in Hf as [_ Hf]. by rewrite Nat.eqb_refl in Hf.
Qed.

(** A frame whose packet is given back, before or after it leaves the queue. *)
Lemma give_up_ok s f hif ext : tx_ok s [] hif ext -> f ∈ Tx.pending_frame_queue s ->
  tx_ok (snd (wf_xmit_frame_delete (upd_frame f (Xf.set_pkt None) s) (Some f))) [] hif ext /\
  pkts s ≡ₚ option_list (pk (Tx.frames s) f) ++
    pkts (snd (wf_xmit_frame_delete (upd_frame f (Xf.set_pkt None) s) (Some f))).
Proof.
  intros Hok Hf. pose proof (pending_nodup Hok) as Hnd.
  destruct (frame_delete_ok _ f hif ext (upd_frame_ok _ f (Xf.set_pkt None) _ _ _ Hok) Hf) as [Hok' _].
  split; [done |]. unfold pkts at 1. rewrite pk_unlink by done. unfold pkts. cbn.
  by rewrite pk_alter_notin by apply unlink_notin.
Qed.

Lemma send_frags_wp n f b t :
  wp (send_frags (S n) f b t) (fun tr ok => freed tr = [] /\ hif_of tr = if ok then [b] else []).
Proof.
  revert t. induction n as [| n IH]; intros t.
  - intros r1 r2. cbn. destruct (Z.eqb_spec r2 WF_RETURN_FAIL) as [-> | Hr]; [done |]. intros r3. cbn.
    unfold freed, hif_of. cbn. destruct (Z.eqb_spec r2 WF_RETURN_FAIL); done.
  - intros r1 r2. cbn [Nat.eqb]. change (wp (if r2 =? WF_RETURN_FAIL then iret false
      else do! call (Stats f t) in send_frags (S n) f b (t + 1)) (fun tr ok =>
        freed ((Describe f t, r1) :: (IoWrite b t false, r2) :: tr) = [] /\
        hif_of ((Describe f t, r1) :: (IoWrite b t false, r2) :: tr) = if ok then [b] else [])).
    destruct (r2 =? WF_RETURN_FAIL); [done |]. intros r3. specialize (IH (t + 1)).
    eapply wp_mono; [| exact IH]. intros tr ok H. exact H.
Qed.

Lemma frame_at_wp s f x Q : Tx.frames s !! f = Some x -> Q [] x -> wp (frame_at s f) Q.
Proof. intros Hx HQ. unfold frame_at. by rewrite Hx. Qed.

Section Pass.
Context (s : Tx.tx_info) (f b : nat) (hif ext : list nat) (x : Xf.xmit_frame).
Context (Hok : tx_ok s [] (hif ++ [b]) ext) (Hf : f ∈ Tx.pending_frame_queue s) (Hx : Tx.frames s !! f = Some x).

(** The buffer and the frame given back, and the packet by the caller. *)
Lemma drop_frame :
  let s' := snd (wf_xmit_frame_delete (snd (wf_xmit_buf_delete s (Some b))) (Some f)) in
  tx_ok s' [] hif ext /\ pkts s ≡ₚ option_list (Xf.pkt x) ++ pkts s' /\ pkts (upd_frame f (Xf.set_pkt None) s') = pkts s'.
Proof using All.
  intros s'. pose proof (buf_delete_ok _ _ _ _ Hok) as Hok1.
  destruct (frame_delete_ok _ f hif ext Hok1 Hf) as [Hok2 Hp]. split; [done |]. split.
  - unfold pk in Hp. cbn in Hp. rewrite Hx in Hp. exact Hp.
  - unfold pkts, s'. cbn. apply pk_alter_notin, unlink_notin.
Qed.

Lemma sent_wp ok p : Xf.pkt x = Some p ->
  wp (sent s f b ok) (fun tr s' => tx_ok s' [] (hif ++ if ok then [b] else []) ext /\ hif_of tr = [] /\
    pkts s ≡ₚ freed tr ++ pkts s' /\ exists x', Tx.frames s' !! f = Some x').
Proof using All.
  intros Hp. unfold sent. destruct ok.
  - unfold frame_at. rewrite Hx. cbn [lift of_option ibind]. rewrite Hp. intros r.
    destruct (give_up_ok s f (hif ++ [b]) ext Hok Hf) as [Hok' Hk].
    split; [done |]. split; [done |]. split.
    + unfold pk in Hk. rewrite Hx in Hk. cbn in Hk. rewrite Hp in Hk. exact Hk.
    + cbn. rewrite list_lookup_alter_eq, Hx. by eexists.
  - rewrite app_nil_r. split; [by apply buf_delete_ok |]. split; [done |]. split; [done |]. by exists x.
Qed.

End Pass.

Lemma hif_of_app tr tr' : hif_of (tr ++ tr') = hif_of tr ++ hif_of tr'.
Proof. apply omap_app. Qed.
Lemma freed_app tr tr' : freed (tr ++ tr') = freed tr ++ freed tr'.
Proof. apply omap_app. Qed.

(** From a frame that is built to the end of the pass. *)
Lemma send_wp s f b hif ext x p r :
  tx_ok s [] (hif ++ [b]) ext -> f ∈ Tx.pending_frame_queue s -> Tx.frames s !! f = Some x -> Xf.pkt x = Some p ->
  wp (let! ok := mpdu_insert_sending_queue (upd_frame f (Xf.set_nr_frags (frags_of r)) s) f b in
      let! s := sent (upd_frame f (Xf.set_nr_frags (frags_of r)) s) f b ok in
      let '(wake, s) := wf_need_wake_queue s in
      let! x := frame_at s f in
      do! (if wake then call (WakeQueue (Xf.pkt x)) else iret 0) in
      iret (@None Z, s)) (fun tr q => conserved s hif ext tr q.2).
Proof.
  intros Hok Hf Hx Hp. set (s1 := upd_frame f (Xf.set_nr_frags (frags_of r)) s).
  assert (Hx1 : Tx.frames s1 !! f = Some (Xf.set_nr_frags (frags_of r) x)) by (cbn; by rewrite list_lookup_alter_eq, Hx).
  assert (Hn : exists n, Z.to_nat (frags_of r) = S n) by (exists (Z.to_nat (frags_of r - 1)); unfold frags_of; lia).
  assert (Hk : pkts s1 = pkts s) by (by apply pk_alter_same).
  destruct Hn as [n Hn]. apply wp_bind. unfold mpdu_insert_sending_queue, frame_at. rewrite Hx1.
  cbn [lift of_option ibind Xf.nr_frags Xf.set_nr_frags]. rewrite Hn.
  eapply wp_mono; [| apply send_frags_wp]. intros tr1 ok [Hf1 Hh1]. apply wp_bind.
  eapply wp_mono; [| apply (sent_wp s1 f b hif ext _ (upd_frame_ok _ _ _ _ _ _ Hok) Hf Hx1 ok p Hp)].
  intros tr2 s2 (Hok2 & Hh2 & Hp2 & x2 & Hx2).
  destruct (wake_ok s2 _ _ _ Hok2) as (Hok3 & Hk3 & Hfr).
  destruct (wf_need_wake_queue s2) as [wake s3]. cbn [snd] in *. rewrite Hfr, Hx2. cbn [lift of_option ibind].
  assert (Hend : conserved s hif ext (tr1 ++ tr2) s3).
  { split.
    - by rewrite hif_of_app, Hh1, Hh2, app_nil_r.
    - by rewrite freed_app, Hf1, Hk3, <- Hk. }
  destruct wake; cbn; [intros r3 |].
  - unfold conserved in *. rewrite !app_assoc, hif_of_app, freed_app. cbn. by rewrite !app_nil_r.
  - by rewrite app_nil_r.
Qed.

Lemma xmit_frame_in_wp s f b hif ext : tx_ok s [] (hif ++ [b]) ext -> f ∈ Tx.pending_frame_queue s ->
  wp (xmit_frame_in s f b) (fun tr q => conserved s hif ext tr q.2).
Proof.
  intros Hok Hf. destruct (frame_range Hok f (or_intror Hf)) as [x0 Hx0]. unfold xmit_frame_in. cbv zeta.
  set (s0 := upd_frame f _ s). set (x := Xf.set_buf_addr (Some (Z.of_nat b)) (Xf.set_pxmitbuf (Some (Z.of_nat b)) x0)).
  assert (Hx : Tx.frames s0 !! f = Some x) by (cbn; by rewrite list_lookup_alter_eq, Hx0).
  assert (Hok0 : tx_ok s0 [] (hif ++ [b]) ext) by (by apply upd_frame_ok).
  assert (Hk : pkts s0 = pkts s) by (by apply pk_alter_same). clearbody x.
  destruct (drop_frame s0 f b hif ext x Hok0 Hf Hx) as (D1 & D2 & D3).
  assert (Hc : forall tr q, conserved s0 hif ext tr q -> conserved s hif ext tr q) by (unfold conserved; by rewrite Hk).
  assert (HD : forall tr, hif_of tr = [] -> freed tr = option_list (Xf.pkt x) ->
    conserved s hif ext tr (snd (wf_xmit_frame_delete (snd (wf_xmit_buf_delete s0 (Some b))) (Some f)))).
  { intros tr H1 H2. apply Hc. split; [by rewrite H1, app_nil_r | by rewrite H2]. }
  unfold frame_at at 1. rewrite Hx. cbn [lift of_option ibind].
  destruct (15 <? Xf.priority x).
  { assert (HD' : forall tr, hif_of tr = [] -> freed tr = option_list (Xf.pkt x) -> conserved s hif ext tr
      (upd_frame f (Xf.set_pkt None) (snd (wf_xmit_frame_delete (snd (wf_xmit_buf_delete s0 (Some b))) (Some f))))).
    { intros tr H1 H2. destruct (HD tr H1 H2) as [C1 C2]. split; [by apply upd_frame_ok | by rewrite D3]. }
    destruct (Xf.pkt x); [intros r |]; by apply HD'. }
  intros due. cbn [ibind]. apply wp_bind.
  assert (Hba : wp (if nz due then call (AddBa f) else iret (-1)) (fun tr _ => hif_of tr = [] /\ freed tr = []))
    by (destruct (nz due); [by intros r | done]).
  eapply wp_mono; [| exact Hba]. intros tr1 ba [H1 H2].
  assert (Hcut : forall tr2 q, conserved s hif ext tr2 q -> conserved s hif ext ((BaDue f, due) :: tr1 ++ tr2) q).
  { intros tr2 q. unfold conserved. change (hif_of ((BaDue f, due) :: tr1 ++ tr2)) with (hif_of (tr1 ++ tr2)).
    change (freed ((BaDue f, due) :: tr1 ++ tr2)) with (freed (tr1 ++ tr2)). by rewrite hif_of_app, freed_app, H1, H2. }
  eapply (wp_mono _ (fun tr q => conserved s hif ext tr q.2)); [intros tr q; apply Hcut |].
  destruct (ba =? 0).
  { apply Hc. split; [| done]. change (hif_of []) with (@nil nat). rewrite app_nil_r. by apply buf_delete_ok. }
  destruct (Xf.pkt x) as [p |] eqn:Hp; [| by apply HD].
  intros r. cbn [ibind]. destruct (nz r); [| intros r2; cbn [ibind]; apply Hc; split].
  - eapply wp_mono; [| exact (send_wp s0 f b hif ext x p r Hok0 Hf Hx Hp)]. intros tr q. by apply Hc.
  - change (hif_of _) with (@nil nat). rewrite app_nil_r. apply frame_delete_ok; [| done]. apply buf_delete_ok. by apply upd_frame_ok.
  - destruct (give_up_ok (snd (wf_xmit_buf_delete s0 (Some b))) f hif ext (buf_delete_ok _ _ _ _ Hok0) Hf) as [_ Hg].
    unfold pk in Hg. cbn [wf_xmit_buf_delete snd Tx.frames Tx.set_free_xmitbuf_cnt Tx.set_xmit_buf_queue] in Hg.
    rewrite Hx in Hg. cbn in Hg. rewrite Hp in Hg. exact Hg.
Qed.

Lemma xmit_pass_wp s hif ext : tx_ok s [] hif ext -> wp (xmit_pass s) (fun tr q => conserved s hif ext tr q.2).
Proof.
  intros Hok. assert (H0 : conserved s hif ext [] s) by (split; [by rewrite app_nil_r | done]).
  unfold xmit_pass. intros cr. cbn [ibind].
  assert (Hc : forall tr q, conserved s hif ext tr q -> conserved s hif ext ((CannotRun, cr) :: tr) q) by done.
  destruct (nz cr); [by apply Hc |]. destruct (nz (Tx.xmit_stop_flag s)); [by apply Hc |].
  case_match; [by apply Hc |].
  destruct (wf_xmit_buf_new s) as [[b |] s1] eqn:Eb.
  2: { unfold wf_xmit_buf_new in Eb. destruct (Tx.xmit_buf_queue s); [| done]. injection Eb as <-. by apply Hc. }
  destruct (buf_new_ok _ _ _ _ _ Hok Eb) as (Hok1 & Hp1 & Hf1).
  assert (Hk : pkts s1 = pkts s) by (unfold pkts; by rewrite Hp1, Hf1).
  unfold wf_tx_data_getqueue. destruct (Tx.pending_frame_queue s1) as [| f q] eqn:Eq; cbn [head].
  - apply Hc. split; [change (hif_of _) with (@nil nat); rewrite app_nil_r; by apply buf_delete_ok |]. by rewrite <- Hk.
  - eapply wp_mono; [| apply (xmit_frame_in_wp s1 f b hif ext Hok1); rewrite Eq; by constructor].
    intros tr q'. unfold conserved. by rewrite Hk.
Qed.

Lemma conserved_trans s hif ext tr s1 tr' s2 : conserved s hif ext tr s1 -> conserved s1 (hif ++ hif_of tr) ext tr' s2 ->
  conserved s hif ext (tr ++ tr') s2.
Proof.
  intros [H1 P1] [H2 P2]. split.
  - by rewrite hif_of_app, app_assoc.
  - by rewrite freed_app, <- app_assoc, <- P2.
Qed.

(** The sending task: whatever the answers and however many passes. *)
Lemma xmit_wp n s hif ext : tx_ok s [] hif ext ->
  wp (tx_work_mpdu_xmit n s) (fun tr q => conserved s hif ext tr q.2).
Proof.
  revert s hif. induction n as [| n IH]; intros s hif Hok; [split; [by rewrite app_nil_r | done] |].
  cbn [tx_work_mpdu_xmit]. apply wp_bind. eapply wp_mono; [| by apply xmit_pass_wp].
  intros tr [[r |] s1] Hc; cbn [snd] in Hc; [cbn [wp snd]; by rewrite app_nil_r |].
  eapply wp_mono; [| apply (IH s1 _ (proj1 Hc))]. intros tr' q Hq. by eapply conserved_trans.
Qed.

(** ** Packets handed over *)

(** A packet that is neither freed nor queued: the device cannot run, or is a
    monitor. *)
Definition lost_of (g : tx_gate) (tr : list (ev * Z)) (skb : Z) : list Z :=
  if (gate_mode g =? WF_MONITOR_MODE) || match tr with (CannotRun, r) :: _ => nz r | _ => false end
  then [skb] else [].

Lemma tx_msdu_wp s skb hif ext : tx_ok s [] hif ext ->
  wp (wf_tx_msdu s skb) (fun tr q => tx_ok q.2 [] hif ext /\ hif_of tr = [] /\ freed tr = [] /\
    (if q.1 =? 0 then pkts q.2 ≡ₚ skb :: pkts s else pkts q.2 = pkts s)).
Proof.
  intros Hok. unfold wf_tx_msdu. destruct (wf_xmit_frame_new s) as [[f |] s1] eqn:En.
  - destruct (frame_new_ok _ _ _ _ _ Hok En) as (Hok1 & Hk1 & _). intros r. cbn [ibind].
    destruct (nz r); cbn [negb].
    + destruct (enqueue_tail_ok s1 f skb hif ext Hok1) as [H1 H2]. split; [done |]. split; [done |]. split; [done |].
      cbn [fst snd]. rewrite Z.eqb_refl. by rewrite H2, Hk1.
    + destruct (enqueue_ok s1 f hif ext Hok1) as [H1 H2]. split; [done |]. split; [done |]. split; [done |].
      cbn [fst snd]. by rewrite <- Hk1.
  - unfold wf_xmit_frame_new in En. destruct (Tx.xmit_frame_queue s); [| done]. injection En as <-. by split.
Qed.

Lemma start_xmit_wp g s skb hif ext : tx_ok s [] hif ext ->
  wp (ndev_start_xmit g s (Some skb)) (fun tr q => tx_ok q.2 [] hif ext /\ hif_of tr = [] /\
    skb :: pkts s ≡ₚ freed tr ++ lost_of g tr skb ++ pkts q.2).
Proof.
  intros Hok. unfold ndev_start_xmit, lost_of. intros cr. cbn [ibind].
  destruct (gate_mode g =? WF_MONITOR_MODE); cbn [orb]; [by case_match |].
  destruct (nz cr) eqn:Ecr; [by split |].
  assert (Hchk : tx_ok (snd (wf_tx_data_check g s)) [] hif ext /\ pkts (snd (wf_tx_data_check g s)) = pkts s).
  { unfold wf_tx_data_check. case_match; split; try done. tx_ok_step. }
  destruct (wf_tx_data_check g s) as [ok s1]. cbn [snd] in Hchk. destruct Hchk as [Hok1 Hk1].
  destruct ok; cbn [negb]; [| intros r; cbn; by rewrite Hk1].
  assert (Hst : tx_ok (snd (wf_need_stop_queue s1)) [] hif ext /\ pkts (snd (wf_need_stop_queue s1)) = pkts s1).
  { unfold wf_need_stop_queue. case_match; split; try done. tx_ok_step. }
  destruct (wf_need_stop_queue s1) as [stop s2]. cbn [snd] in Hst. destruct Hst as [Hok2 Hk2].
  apply wp_bind.
  assert (Hq : wp (if stop then call StopQueue else iret 0) (fun tr _ => hif_of tr = [] /\ freed tr = []))
    by (destruct stop; [by intros r | done]).
  eapply wp_mono; [| exact Hq]. intros tr1 z [H1 F1]. apply wp_bind.
  eapply wp_mono; [| by apply (tx_msdu_wp s2 skb hif ext)]. intros tr2 [r s3] (Hok3 & H2 & F2 & Hk3).
  cbn [fst snd] in *.
  assert (Hcut : forall e z, hif_of [(e, z)] = [] ->
    hif_of ((CannotRun, cr) :: tr1 ++ tr2 ++ [(e, z)]) = [] /\
    freed ((CannotRun, cr) :: tr1 ++ tr2 ++ [(e, z)]) = freed [(e, z)]).
  { intros e z' He. change (hif_of ((CannotRun, cr) :: tr1 ++ tr2 ++ [(e, z')])) with (hif_of (tr1 ++ tr2 ++ [(e, z')])).
    change (freed ((CannotRun, cr) :: tr1 ++ tr2 ++ [(e, z')])) with (freed (tr1 ++ tr2 ++ [(e, z')])).
    by rewrite !hif_of_app, !freed_app, H1, H2, F1, F2, He. }
  destruct (r =? 0); cbn [negb]; intros r'; cbn [ibind wp snd].
  - destruct (Hcut TxWake r' eq_refl) as [-> ->]. split; [done |]. split; [done |]. cbn. by rewrite Hk3, Hk2, Hk1.
  - destruct (Hcut (FreeSkb skb) r' eq_refl) as [-> ->]. split; [done |]. split; [done |]. cbn. by rewrite Hk3, Hk2, Hk1.
Qed.

Lemma clear_wp n s hif ext : tx_ok s [] hif ext -> (length (Tx.pending_frame_queue s) < n)%nat ->
  wp (clear_pending n s) (fun tr s' => conserved s hif ext tr s' /\ hif_of tr = [] /\ Tx.pending_frame_queue s' = []).
Proof.
  revert s. induction n as [| n IH]; intros s Hok Hl; [lia |]. cbn [clear_pending]. unfold wf_tx_data_getqueue.
  destruct (Tx.pending_frame_queue s) as [| f q] eqn:Eq; cbn [head].
  { split; [| done]. split; [by rewrite app_nil_r | done]. }
  assert (Hf : f ∈ Tx.pending_frame_queue s) by (rewrite Eq; by constructor).
  destruct (frame_range Hok f (or_intror Hf)) as [x Hx].
  destruct (frame_delete_ok s f hif ext Hok Hf) as [Hok1 Hk1]. unfold pk in Hk1. rewrite Hx in Hk1. cbn [mbind option_bind] in Hk1.
  set (s1 := snd (wf_xmit_frame_delete s (Some f))) in *.
  assert (Hq1 : Tx.pending_frame_queue s1 = q).
  { unfold s1. cbn. rewrite Eq. apply unlink_head. rewrite <- Eq. exact (pending_nodup Hok). }
  unfold frame_at. change (Tx.frames s1) with (Tx.frames s). rewrite Hx. cbn [lift of_option ibind].
  cbn [length] in Hl.
  destruct (Xf.pkt x) as [p |].
  - intros r. cbn [ibind]. set (s2 := upd_frame f (Xf.set_pkt None) s1).
    assert (Hk2 : pkts s2 = pkts s1).
    { unfold pkts, s2. cbn. apply pk_alter_notin. apply unlink_notin. }
    eapply wp_mono; [| apply (IH s2); [by apply upd_frame_ok | unfold s2; cbn -[s1]; rewrite Hq1; lia]].
    intros tr s' [[H1 P1] H2]. split; [| exact H2]. split; [exact H1 |].
    change (freed ((FreeSkb p, r) :: tr)) with (p :: freed tr). by rewrite Hk1, <- Hk2, P1.
  - eapply wp_mono; [| apply (IH s1 Hok1); rewrite Hq1; lia].
    intros tr s' [[H1 P1] H2]. split; [| exact H2]. split; [exact H1 |]. by rewrite Hk1.
Qed.

(** ** Management buffers *)

Lemma ext_new_ok s held hif ext b s' : tx_ok s held hif ext -> wf_xmit_extbuf_new s = (Some b, s') ->
  tx_ok s' held hif (ext ++ [b]) /\ pkts s' = pkts s.
Proof.
  intros Hok. unfold wf_xmit_extbuf_new. destruct (Tx.xmit_extbuf_queue s) as [| c q] eqn:Eq; [done |].
  intros [= <- <-]. split; [| done]. tx_ok_step.
  - rewrite Eq in *. etransitivity; [| eassumption]. rewrite app_assoc, Permutation_app_comm. done.
  - rewrite Eq in *. cbn [length] in *. rewrite u32_id; unfold is_u32; lia.
Qed.

Lemma ext_delete_ok s held hif ext b : tx_ok s held hif (ext ++ [b]) ->
  tx_ok (snd (wf_xmit_extbuf_delete s (Some b))) held hif ext.
Proof.
  intros Hok. assert (Hb : b ∉ Tx.xmit_extbuf_queue s).
  { assert (H : NoDup (Tx.xmit_extbuf_queue s ++ (ext ++ [b]))) by (rewrite (ok_ext_queue _ _ _ _ Hok); apply NoDup_seq).
    apply NoDup_app in H as (_ & H & _). intros Hb. apply (H b Hb), elem_of_app. right. by constructor. }
  tx_ok_step; rewrite ?unlink_id by done.
  - by rewrite length_insert.
  - etransitivity; [| eassumption]. rewrite <- app_assoc. apply Permutation_app_head. by rewrite Permutation_app_comm.
  - rewrite length_app in *. cbn [length] in *. rewrite u32_id; unfold is_u32; lia.
Qed.

Lemma ext_perm s held hif ext ext' : ext ≡ₚ ext' -> tx_ok s held hif ext -> tx_ok s held hif ext'.
Proof. intros Hp [? ? ? ? ? ? ? ? ? ? ?]. split; try assumption. by rewrite <- Hp. Qed.

(** Buffers of management frames that a run left with the bus, and those it
    gave to nobody: the bus refused them, and they are not given back. *)
Definition pended (tr : list (ev * Z)) : bool :=
  existsb (fun p : ev * Z => match p.1 with PendWait _ => p.2 =? 0 | _ => false end) tr.
Definition bus_of (tr : list (ev * Z)) : list nat :=
  if pended tr then []
  else omap (fun p : ev * Z => match p.1 with
                               | IoWriteMgmt b _ _ => if p.2 =? WF_RETURN_FAIL then None else Some b
                               | _ => None
                               end) tr.
Definition leak_of (tr : list (ev * Z)) : list nat :=
  omap (fun p : ev * Z => match p.1 with
                          | IoWriteMgmt b _ _ => if p.2 =? WF_RETURN_FAIL then Some b else None
                          | _ => None
                          end) tr.

(** What the callers of the management functions pass. *)
Definition node_given (wdn : option Wi.wdn_net_info_st) : Prop :=
  match wdn with
  | Some w => length (Wi.txseq_tid w) = 16%nat /\ 0 <= Wi.raid w <= 8
  | None => True
  end.

(** The outcome of the three of them. *)
Definition ext_moved (s : Tx.tx_info) (hif ext : list nat) (tr : list (ev * Z)) (s' : Tx.tx_info) : Prop :=
  tx_ok s' [] hif (ext ++ bus_of tr ++ leak_of tr) /\ hif_of tr = [] /\ freed tr = [] /\ pkts s' = pkts s.

Section Mgmt.
Context (s : Tx.tx_info) (b : nat) (hif ext : list nat).
Context (Hok : tx_ok s [] hif (ext ++ [b])).

Lemma ext_buf : exists d, Tx.bufs s !! b = Some d /\ (1536 <= length d)%nat.
Proof using All.
  assert (Hb : b ∈ seq 8 8).
  { rewrite <- (ok_ext_queue _ _ _ _ Hok), !elem_of_app. right. right. by constructor. }
  apply elem_of_seq in Hb.
  destruct (lookup_lt_is_Some_2 (Tx.bufs s) b) as [d Hd]; [rewrite (ok_bufs _ _ _ _ Hok); lia |].
  exists d. split; [done |]. eapply (Forall_lookup_1 _ _ _ _ (ok_sizes _ _ _ _ Hok) Hd).
Qed.

Lemma set_buf_ok d : (1536 <= length d)%nat -> tx_ok (set_buf b d s) [] hif (ext ++ [b]).
Proof using All. intros Hd. tx_ok_step; [by rewrite length_insert | by apply Forall_insert]. Qed.

(** A write with answer [r] leaves the buffer with the bus or with nobody. *)
Lemma written e r : (match e with IoWriteMgmt c _ _ => c = b | _ => False end) ->
  forall cr, bus_of [(CannotRun, cr); (e, r)] ++ leak_of [(CannotRun, cr); (e, r)] = [b].
Proof using All.
  intros He cr. destruct e; try done. subst. unfold bus_of, leak_of, pended. cbn. by destruct (r =? WF_RETURN_FAIL).
Qed.
End Mgmt.

Lemma described_length buf d ws : (forall c, length (ws c) = 5%nat) -> TxDesc.described buf d ws ->
  (20 <= length buf)%nat -> length d = length buf.
Proof.
  intros Hw (c & _ & -> & _) Hl. unfold TxDesc.flat. rewrite length_app, length_drop.
  rewrite <- (take_ge (ws c) 5) by (by rewrite Hw). rewrite TxDesc.length_flat_take by (rewrite Hw; lia). lia.
Qed.

Lemma beacon_wp nic_num s b len hif ext : tx_ok s [] hif (ext ++ [b]) ->
  wp (wf_nic_beacon_xmit nic_num s (Some b) len) (fun tr q => ext_moved s hif ext tr q.2).
Proof.
  intros Hok. intros cr. cbn [ibind]. destruct (nz cr).
  { split; [| done]. rewrite app_nil_r. by apply ext_delete_ok. }
  destruct (ext_buf s b hif ext Hok) as (buf & Hb & Hl). unfold buf_at. rewrite Hb. cbn [lift of_option ibind].
  destruct (TxDesc.beacon_desc_ret nic_num len buf ltac:(lia)) as (d & -> & Hd). cbn [lift ibind]. intros r. cbn [ibind wp snd].
  split; [| done]. rewrite (written s b hif ext Hok) by done.
  apply set_buf_ok; [done |]. erewrite described_length; [| | exact Hd |]; [done | done | lia].
Qed.

Lemma mgnt_cnt_ok s held hif ext n : tx_ok s held hif ext -> tx_ok (Tx.set_tx_mgnt_pkts n s) held hif ext.
Proof. intros Hok. tx_ok_step. Qed.

(** With no node on a 40 MHz network the frame is given up. *)
Lemma mgmt_desc_none nic len buf : (44 <= length buf)%nat -> cur_bw nic = Wdn.CHANNEL_WIDTH_40 ->
  TxDesc.mgmt_desc nic None len buf = Ret None.
Proof.
  intros Hl Hbw. unfold TxDesc.mgmt_desc. rewrite TxDesc.blit_zero by lia. cbn [cbind]. TxDesc.put.
  rewrite TxDesc.frame_seq_ret by (TxDesc.words || lia). cbn [cbind]. repeat TxDesc.put. by rewrite Hbw.
Qed.

Lemma mgmt_wp nic wdn s b len hif ext : tx_ok s [] hif (ext ++ [b]) ->
  wp (wf_nic_mgmt_frame_xmit nic wdn s (Some b) len) (fun tr q => ext_moved s hif ext tr q.2).
Proof.
  intros Hok. intros cr. cbn [ibind].
  assert (Hdel : forall tr, bus_of tr = [] -> leak_of tr = [] -> hif_of tr = [] -> freed tr = [] ->
    ext_moved s hif ext tr (snd (wf_xmit_extbuf_delete s (Some b)))).
  { intros tr E1 E2 E3 E4. split; [| done]. rewrite E1, E2, app_nil_r. by apply ext_delete_ok. }
  destruct (nz cr); [by apply Hdel |].
  destruct (ext_buf s b hif ext Hok) as (buf & Hb & Hl). unfold buf_at. rewrite Hb. cbn [lift of_option ibind].
  destruct (decide (cur_bw nic = Wdn.CHANNEL_WIDTH_40 /\ wdn = None)) as [[Hbw ->] | Hn].
  { rewrite mgmt_desc_none by (done || lia). by apply Hdel. }
  destruct (TxDesc.mgmt_desc_ret nic wdn len buf ltac:(lia)) as (d & -> & Hd); [by intros ? ->; apply Hn |].
  cbn [lift ibind]. intros r. cbn [ibind wp snd]. split; [| done]. rewrite (written s b hif ext Hok) by done.
  apply mgnt_cnt_ok, set_buf_ok; [done |]. erewrite described_length; [| | exact Hd |]; [done | done | lia].
Qed.

Lemma ack_desc_ret nic wdn len buf : (44 <= length buf)%nat -> node_given wdn ->
  exists wdn' d, TxDesc.ack_desc nic wdn len buf = Ret (wdn', d) /\ length d = length buf.
Proof.
  intros Hl Hg. destruct wdn as [w |].
  - destruct Hg as [H1 H2]. destruct (TxDesc.ack_desc_node nic w len buf ltac:(lia) H1 H2) as (d & -> & Hd).
    do 2 eexists. split; [done |]. eapply described_length; [| exact Hd | lia]. done.
  - destruct (TxDesc.ack_desc_none nic len buf ltac:(lia)) as (d & -> & Hd).
    do 2 eexists. split; [done |]. eapply described_length; [| exact Hd | lia]. done.
Qed.

Lemma ack_wp nic wdn s b len hif ext : node_given wdn -> tx_ok s [] hif (ext ++ [b]) ->
  wp (wf_nic_mgmt_frame_xmit_with_ack nic wdn s (Some b) len) (fun tr q => ext_moved s hif ext tr q.2).
Proof.
  intros Hg Hok. intros cr. cbn [ibind]. destruct (nz cr).
  { split; [| done]. rewrite app_nil_r. by apply ext_delete_ok. }
  destruct (ext_buf s b hif ext Hok) as (buf & Hb & Hl). unfold buf_at. rewrite Hb. cbn [lift of_option ibind].
  destruct (ack_desc_ret nic wdn len buf ltac:(lia) Hg) as (wdn' & d & -> & Hd). cbn [lift ibind]. intros r. cbn [ibind].
  set (s1 := Tx.set_tx_pend_flag _ _).
  assert (Hok1 : tx_ok s1 [] hif (ext ++ [b])).
  { pose proof (set_buf_ok s b hif ext Hok d ltac:(lia)) as Hok1. unfold s1. tx_ok_step. by rewrite length_insert. }
  assert (Hk : pkts s1 = pkts s) by done. destruct (Z.eqb_spec r 0) as [-> | Hr].
  - intros r2. cbn [ibind]. destruct (Z.eqb_spec r2 0) as [-> | Hr2].
    + split; [| done]. rewrite app_nil_r. apply mgnt_cnt_ok. by apply ext_delete_ok.
    + cbn [ibind wp snd]. split; [| done]. apply mgnt_cnt_ok.
      replace (bus_of _ ++ leak_of _) with [b]; [done |]. unfold bus_of, leak_of, pended. cbn.
      by destruct (Z.eqb_spec r2 0).
  - cbn [ibind wp snd]. split; [| done]. rewrite (written s b hif ext Hok) by done. by apply mgnt_cnt_ok.
Qed.

(** ** Initialisation *)

Lemma init_bufs_ok n : forall i size retry allocs q bs l, init_bufs n i size retry allocs = Some (q, bs, l) ->
  q = seq i n /\ length bs = n /\ Forall (fun d => length d = Z.to_nat size) bs.
Proof.
  induction n as [| n IH]; intros i size retry allocs q bs l; cbn [init_bufs]; [intros [= <- <- <-]; done |].
  destruct (if negb (hd true allocs) && retry then _ else _) as [ok al]. destruct ok; cbn [negb]; [| done].
  destruct (init_bufs n (S i) size retry al) as [[[q' bs'] l'] |] eqn:E; [| done]. cbn. intros [= <- <- <-].
  destruct (IH _ _ _ _ _ _ _ E) as (-> & Hl & Hf). cbn. split; [done |]. split; [by rewrite Hl |].
  constructor; [by rewrite length_replicate | done].
Qed.

Lemma tx_init_ok allocs s : wf_tx_info_init allocs = (0, Some s) -> tx_ok s [] [] [] /\ pkts s = [].
Proof.
  unfold wf_tx_info_init. destruct (hd true allocs); [| done]. cbn [negb].
  destruct (hd true (tl allocs)); [| done]. cbn [negb]. destruct (hd true (tl (tl allocs))); [| done]. cbn [negb].
  destruct (init_bufs _ 0 _ true _) as [[[q bs] al] |] eqn:E1; [| done]. destruct (hd true al); [| done]. cbn [negb].
  destruct (init_bufs _ (Z.to_nat XMIT_DATA_BUFFER_CNT) _ false _) as [[[eq ebs] al2] |] eqn:E2; [| done].
  intros [= <-].
  destruct (init_bufs_ok _ _ _ _ _ _ _ _ E1) as (-> & L1 & F1). destruct (init_bufs_ok _ _ _ _ _ _ _ _ E2) as (-> & L2 & F2).
  split; [| done]. split; cbn [Tx.frames Tx.bufs Tx.tx_pend_flag Tx.xmit_frame_queue Tx.free_xmitframe_cnt
    Tx.pending_frame_queue Tx.pending_frame_cnt Tx.xmit_buf_queue Tx.free_xmitbuf_cnt Tx.xmit_extbuf_queue
    Tx.free_xmit_extbuf_cnt].
  - vm_compute. reflexivity.
  - by rewrite length_app, L1, L2.
  - apply Forall_app. split; (eapply Forall_impl; [eassumption |]); intros d Hd; cbn beta in Hd; rewrite Hd; vm_compute; lia.
  - done.
  - by rewrite !app_nil_r.
  - vm_compute. reflexivity.
  - done.
  - by rewrite app_nil_r.
  - vm_compute. reflexivity.
  - by rewrite app_nil_r.
  - vm_compute. reflexivity.
Qed.

(** ** Reachable states

    Besides [tx_info], a world has what happened: the data buffers with the
    bus, the management buffers with their users, with the bus and with nobody,
    the packets handed over, freed, and lost. *)
Record world : Type := mk_world {
  tx : Tx.tx_info;
  hif : list nat;
  mine : list nat;
  bus : list nat;
  leaked : list nat;
  given : list Z;
  back : list Z;
  lost : list Z;
}.

Inductive step : world -> world -> Prop :=
  | step_xmit s h m b l gi ba lo g skb tr r s' :
      runs (ndev_start_xmit g s (Some skb)) tr (r, s') ->
      step (mk_world s h m b l gi ba lo) (mk_world s' h m b l (skb :: gi) (ba ++ freed tr) (lo ++ lost_of g tr skb))
  | step_send s h m b l gi ba lo n tr r s' :
      runs (tx_work_mpdu_xmit n s) tr (r, s') ->
      step (mk_world s h m b l gi ba lo) (mk_world s' (h ++ hif_of tr) m b l gi (ba ++ freed tr) lo)
  | step_done s h h' m b l gi ba lo i tr s' :
      h ≡ₚ h' ++ [i] -> runs (mpdu_send_complete_cb s i) tr s' ->
      step (mk_world s h m b l gi ba lo) (mk_world s' h' m b l gi ba lo)
  | step_stop s h m b l gi ba lo :
      step (mk_world s h m b l gi ba lo) (mk_world (wf_tx_xmit_stop s) h m b l gi ba lo)
  | step_start s h m b l gi ba lo tr s' :
      runs (wf_tx_xmit_start s) tr s' ->
      step (mk_world s h m b l gi ba lo) (mk_world s' h m b l gi ba lo)
  | step_clear s h m b l gi ba lo tr s' :
      runs (wf_tx_xmit_pending_queue_clear s) tr s' ->
      step (mk_world s h m b l gi ba lo) (mk_world s' h m b l gi (ba ++ freed tr) lo)
  | step_take s h m b l gi ba lo i s' :
      wf_xmit_extbuf_new s = (Some i, s') ->
      step (mk_world s h m b l gi ba lo) (mk_world s' h (m ++ [i]) b l gi ba lo)
  | step_beacon s h m m' b l gi ba lo i nic_num len tr r s' :
      m ≡ₚ m' ++ [i] -> runs (wf_nic_beacon_xmit nic_num s (Some i) len) tr (r, s') ->
      step (mk_world s h m b l gi ba lo) (mk_world s' h m' (b ++ bus_of tr) (l ++ leak_of tr) gi ba lo)
  | step_mgmt s h m m' b l gi ba lo i nic wdn len tr r s' :
      m ≡ₚ m' ++ [i] -> runs (wf_nic_mgmt_frame_xmit nic wdn s (Some i) len) tr (r, s') ->
      step (mk_world s h m b l gi ba lo) (mk_world s' h m' (b ++ bus_of tr) (l ++ leak_of tr) gi ba lo)
  | step_ack s h m m' b l gi ba lo i nic wdn len tr q :
      m ≡ₚ m' ++ [i] -> node_given wdn ->
      runs (wf_nic_mgmt_frame_xmit_with_ack nic wdn s (Some i) len) tr q ->
      step (mk_world s h m b l gi ba lo) (mk_world q.2 h m' (b ++ bus_of tr) (l ++ leak_of tr) gi ba lo)
  | step_ext_done s h m b b' l gi ba lo i :
      b ≡ₚ b' ++ [i] ->
      step (mk_world s h m b l gi ba lo)
        (mk_world (snd (wf_xmit_extbuf_delete s (Some i))) h m b' l gi ba lo).

Inductive reach : world -> Prop :=
  | reach_init allocs s : wf_tx_info_init allocs = (0, Some s) -> reach (mk_world s [] [] [] [] [] [] [])
  | reach_step w w' : reach w -> step w w' -> reach w'.

Definition world_ok (w : world) : Prop :=
  tx_ok (tx w) [] (hif w) (mine w ++ bus w ++ leaked w) /\ given w ≡ₚ back w ++ lost w ++ pkts (tx w).

(** A run of a management function, in a world. *)
Lemma ext_moved_ok s h m m' b l gi ba lo i tr s' :
  world_ok (mk_world s h m b l gi ba lo) -> m ≡ₚ m' ++ [i] ->
  (tx_ok s [] h ((m' ++ b ++ l) ++ [i]) -> ext_moved s h (m' ++ b ++ l) tr s') ->
  world_ok (mk_world s' h m' (b ++ bus_of tr) (l ++ leak_of tr) gi ba lo).
Proof.
  intros [Hok Hg] Hm Hrun. cbn [tx hif mine bus leaked given back lost] in *.
  assert (Hp : m ++ b ++ l ≡ₚ (m' ++ b ++ l) ++ [i]) by (rewrite Hm, <- !app_assoc; f_equiv; by rewrite Permutation_app_comm, <- app_assoc).
  destruct (Hrun (ext_perm _ _ _ _ _ Hp Hok)) as (Hok' & _ & _ & Hk). split; cbn [tx hif mine bus leaked given back lost].
  - eapply ext_perm; [| exact Hok']. rewrite <- !app_assoc. f_equiv. f_equiv. rewrite !app_assoc. f_equiv.
    by rewrite Permutation_app_comm.
  - by rewrite Hk.
Qed.

Lemma stop_flag_ok s held hif ext n : tx_ok s held hif ext -> tx_ok (Tx.set_xmit_stop_flag n s) held hif ext.
Proof. intros Hok. tx_ok_step. Qed.

Lemma start_wp s hif ext : tx_ok s [] hif ext ->
  wp (wf_tx_xmit_start s) (fun tr s' => tx_ok s' [] hif ext /\ hif_of tr = [] /\ freed tr = [] /\ pkts s' = pkts s /\
    Tx.pending_frame_queue s' = Tx.pending_frame_queue s).
Proof. intros Hok r. cbn [ibind]. case_match; split; try done. by apply stop_flag_ok. Qed.

Lemma queue_clear_wp s hif ext : tx_ok s [] hif ext ->
  wp (wf_tx_xmit_pending_queue_clear s) (fun tr s' => tx_ok s' [] hif ext /\ pkts s ≡ₚ freed tr /\
    Tx.pending_frame_queue s' = []).
Proof.
  intros Hok. unfold wf_tx_xmit_pending_queue_clear. apply wp_bind.
  eapply wp_mono; [| apply (clear_wp _ (wf_tx_xmit_stop s) hif ext); [by apply stop_flag_ok | lia]].
  intros tr1 s1 ([H1 P1] & H2 & H3). rewrite H2, app_nil_r in H1.
  eapply wp_mono; [| by apply (start_wp s1 hif ext)]. intros tr2 s2 (H4 & H5 & H6 & H7 & H8).
  split; [done |]. split; [| by rewrite H8].
  change (pkts (wf_tx_xmit_stop s)) with (pkts s) in P1. rewrite P1, freed_app, H6, app_nil_r.
  unfold pkts. rewrite H3. cbn. by rewrite app_nil_r.
Qed.

Lemma complete_wp s i hif ext : tx_ok s [] (hif ++ [i]) ext ->
  wp (mpdu_send_complete_cb s i) (fun tr s' => tx_ok s' [] hif ext /\ pkts s' = pkts s).
Proof. intros Hok r. cbn [ibind wp]. split; [by apply (buf_delete_ok s hif ext i) | done]. Qed.

Lemma tx_step_ok w w' : world_ok w -> step w w' -> world_ok w'.
Proof.
  intros Hw Hs. destruct Hs as [s h m b l gi ba lo g skb tr r s' Hr | s h m b l gi ba lo n tr r s' Hr
    | s h h' m b l gi ba lo i tr s' Hp Hr | s h m b l gi ba lo | s h m b l gi ba lo tr s' Hr
    | s h m b l gi ba lo tr s' Hr | s h m b l gi ba lo i s' Hn | s h m m' b l gi ba lo i nic_num len tr r s' Hp Hr
    | s h m m' b l gi ba lo i nic wdn len tr r s' Hp Hr | s h m m' b l gi ba lo i nic wdn len tr q Hp Hg Hr
    | s h m b b' l gi ba lo i Hp];
    pose proof Hw as [Hok Hg']; cbn [tx hif mine bus leaked given back lost] in *.
  - destruct (wp_runs _ _ _ _ (start_xmit_wp g s skb _ _ Hok) Hr) as (H1 & H2 & H3).
    split; [done |]. cbn [tx hif mine bus leaked given back lost snd] in *.
    rewrite Hg', !Permutation_middle, H3, <- !app_assoc. f_equiv. by rewrite Permutation_app_swap_app.
  - destruct (wp_runs _ _ _ _ (xmit_wp n s _ _ Hok) Hr) as [H1 H2].
    split; [done |]. cbn [tx hif mine bus leaked given back lost snd] in *.
    rewrite Hg', H2, <- !app_assoc. f_equiv. by rewrite Permutation_app_swap_app.
  - destruct (wp_runs _ _ _ _ (complete_wp s i h' _ (hif_perm _ _ _ _ _ Hp Hok)) Hr) as [H1 H2].
    split; [done |]. cbn [tx hif mine bus leaked given back lost]. by rewrite H2.
  - split; [by apply stop_flag_ok | done].
  - destruct (wp_runs _ _ _ _ (start_wp s _ _ Hok) Hr) as (H1 & _ & _ & H2 & _). split; [done |].
    cbn [tx hif mine bus leaked given back lost]. by rewrite H2.
  - destruct (wp_runs _ _ _ _ (queue_clear_wp s _ _ Hok) Hr) as (H1 & H2 & H3). split; [done |].
    cbn [tx hif mine bus leaked given back lost]. unfold pkts at 1. rewrite H3. cbn [omap list_omap].
    rewrite Hg', H2, app_nil_r, <- app_assoc. f_equiv. by rewrite Permutation_app_comm.
  - destruct (ext_new_ok _ _ _ _ _ _ Hok Hn) as [H1 H2]. split; cbn [tx hif mine bus leaked given back lost].
    + eapply ext_perm; [| exact H1]. rewrite <- !app_assoc. f_equiv. by rewrite app_assoc, Permutation_app_comm.
    + by rewrite H2.
  - apply (ext_moved_ok s h m m' b l gi ba lo i tr s' Hw Hp). intros Hok'.
    exact (wp_runs _ _ _ _ (beacon_wp nic_num s i len h _ Hok') Hr).
  - apply (ext_moved_ok s h m m' b l gi ba lo i tr s' Hw Hp). intros Hok'.
    exact (wp_runs _ _ _ _ (mgmt_wp nic wdn s i len h _ Hok') Hr).
  - apply (ext_moved_ok s h m m' b l gi ba lo i tr q.2 Hw Hp). intros Hok'.
    exact (wp_runs _ _ _ _ (ack_wp nic wdn s i len h _ Hg Hok') Hr).
  - split; [| done]. cbn [tx hif mine bus leaked]. apply ext_delete_ok. eapply ext_perm; [| exact Hok].
    rewrite Hp, <- !app_assoc. f_equiv. f_equiv. by rewrite Permutation_app_comm.
Qed.

Lemma reach_ok w : reach w -> world_ok w.
Proof.
  induction 1 as [allocs s Hi | w w' _ IH Hs]; [| by apply (tx_step_ok w)].
  destruct (tx_init_ok allocs s Hi) as [H1 H2]. split; [done |]. cbn [tx hif mine bus leaked given back lost]. by rewrite H2.
Qed.

(** C8: through any run of packets, sending, completions, management frames,
    stops and clears, whatever the device and the bus answer, every frame is in
    the pool or waiting, every data buffer in the pool or with the bus, every
    management buffer in its pool, with a caller, with the bus or leaked by a
    sender whose write the bus refused, exactly one of these, the counters count,
    and every packet of the operating system was freed exactly once, is waiting,
    or was handed over while the device could not take it.  In such a state any
    number of passes of the sending task is without a fault, whether or not they
    bring it to its end, and the handler of packets returns without a fault. *)
Theorem tx_conserved (w : world) : reach w ->
  tx_ok (tx w) [] (hif w) (mine w ++ bus w ++ leaked w) /\
  given w ≡ₚ back w ++ lost w ++ pkts (tx w) /\
  (forall n, wp (tx_work_mpdu_xmit n (tx w)) (fun _ _ => True)) /\
  (forall g skb, wp (ndev_start_xmit g (tx w) (Some skb)) (fun _ _ => True)).
Proof.
  intros Hr. destruct (reach_ok w Hr) as [Hok Hg]. split; [done |]. split; [done |]. split; intros.
  - eapply wp_mono; [| by apply xmit_wp]. done.
  - eapply wp_mono; [| by apply start_xmit_wp]. done.
Qed.

Module Example.
Definition tx0 : Tx.tx_info := match snd (wf_tx_info_init []) with Some s => s | None => Tx.zero end.
Definition gate : tx_gate := mk_gate true false Rx.WF_INFRA_MODE true 0.
(** A packet handed to a connected station. *)
Definition handed : list (ev * Z) * (Z * Tx.tx_info) :=
  match exec (ndev_start_xmit gate tx0 (Some 77)) [0; 1; 0] with Some q => q | None => ([], (0, Tx.zero)) end.
Definition tr1 : list (ev * Z) := fst handed.
Definition tx1 : Tx.tx_info := snd (snd handed).

Lemma handed_runs : runs (ndev_start_xmit gate tx0 (Some 77)) tr1 (0, tx1).
Proof. apply (exec_runs _ [0; 1; 0]). vm_compute. reflexivity. Qed.

Lemma tx1_reach : reach (mk_world tx1 [] [] [] [] [77] ([] ++ freed tr1) ([] ++ lost_of gate tr1 77)).
Proof.
  eapply reach_step; [apply (reach_init [] tx0); vm_compute; reflexivity |].
  exact (step_xmit tx0 [] [] [] [] [] [] [] gate 77 tr1 0 tx1 handed_runs).
Qed.
End Example.

Lemma tx_conserved_witness :
  tx_ok Example.tx1 [] [] [] /\
  [77] ≡ₚ ([] ++ freed Example.tr1) ++ ([] ++ lost_of Example.gate Example.tr1 77) ++ pkts Example.tx1.
Proof.
  split; [exact (proj1 (tx_conserved _ Example.tx1_reach)) | exact (proj1 (proj2 (tx_conserved _ Example.tx1_reach)))].
Defined.

(** ** Sending *)

(** A frame that waits with its packet and a valid priority. *)
Definition ready (s : Tx.tx_info) (f : nat) : Prop :=
  exists x p, Tx.frames s !! f = Some x /\ Xf.pkt x = Some p /\ Xf.priority x <= 15.

(** Answers under which the device sends: it runs, frames are built, and no
    agreement on block acknowledgments is asked for. *)
Definition runs_well (e : ev * Z) : Prop :=
  match e.1 with
  | CannotRun => e.2 = 0
  | AddBa _ | MsduToMpdu _ _ _ => e.2 <> 0
  | _ => True
  end.
Definition accepts (e : ev * Z) : Prop := match e.1 with IoWrite _ _ _ => e.2 <> WF_RETURN_FAIL | _ => True end.
Definition refuses (e : ev * Z) : Prop := match e.1 with IoWrite _ _ _ => e.2 = WF_RETURN_FAIL | _ => True end.

(** What of a run concerns the bus and the packets, and what the frames were
    built to. *)
Definition shown (tr : list (ev * Z)) : list ev :=
  omap (fun e : ev * Z => match e.1 with MsduToMpdu _ _ _ | IoWrite _ _ _ | FreeSkb _ => Some e.1 | _ => None end) tr.
Definition built (tr : list (ev * Z)) : list Z :=
  omap (fun e : ev * Z => match e.1 with MsduToMpdu _ _ _ => Some e.2 | _ => None end) tr.

(** The writes of [n] fragments of buffer [b], the last one with the callback. *)
Fixpoint writes (n b : nat) (t : Z) : list ev :=
  match n with
  | O => []
  | S n => IoWrite b t (Nat.eqb n 0) :: writes n b (t + 1)
  end.

(** A frame that goes out: it is built in its buffer, all its fragments are
    written, then its packet is freed. *)
Definition goes_out (f b : nat) (p r : Z) : list ev :=
  MsduToMpdu f b p :: writes (Z.to_nat (frags_of r)) b 0 ++ [FreeSkb p].

Fixpoint go_out (s : Tx.tx_info) (fs bs : list nat) (rs : list Z) : list ev :=
  match fs, bs, rs with
  | f :: fs, b :: bs, r :: rs => match pk (Tx.frames s) f with Some p => goes_out f b p r | None => [] end ++ go_out s fs bs rs
  | _, _, _ => []
  end.

Lemma shown_app t1 t2 : shown (t1 ++ t2) = shown t1 ++ shown t2.
Proof. apply omap_app. Qed.
Lemma built_app t1 t2 : built (t1 ++ t2) = built t1 ++ built t2.
Proof. apply omap_app. Qed.

Lemma send_frags_shown n f b t : wp (send_frags n f b t) (fun tr ok => built tr = [] /\ (Forall accepts tr -> shown tr = writes n b t)).
Proof.
  revert t. induction n as [| n IH]; intros t; [done |]. intros r1 r2. cbn [ibind].
  destruct (Z.eqb_spec r2 WF_RETURN_FAIL) as [-> | Hr].
  - split; [done |]. intros Ha. apply Forall_cons in Ha as [_ Ha]. apply Forall_cons in Ha as [Ha _]. by destruct Ha.
  - intros r3. cbn [ibind]. eapply wp_mono; [| apply IH]. intros tr ok [H1 H2]. split; [done |]. intros Ha.
    do 3 (apply Forall_cons in Ha as [_ Ha]). cbn [writes]. rewrite <- (H2 Ha). done.
Qed.

Lemma send_frags_accepted n f b t : wp (send_frags n f b t) (fun tr ok => Forall accepts tr -> ok = true).
Proof.
  revert t. induction n as [| n IH]; intros t; [done |]. intros r1 r2. cbn [ibind].
  destruct (Z.eqb_spec r2 WF_RETURN_FAIL) as [-> | Hr].
  - intros Ha. apply Forall_cons in Ha as [_ Ha]. apply Forall_cons in Ha as [Ha _]. by destruct Ha.
  - intros r3. cbn [ibind]. eapply wp_mono; [| apply IH]. intros tr ok H Ha. apply H.
    by do 3 (apply Forall_cons in Ha as [_ Ha]).
Qed.

Lemma wp_true_send n f b t : wp (send_frags n f b t) (fun _ _ => True).
Proof.
  revert t. induction n as [| n IH]; intros t; [done |]. intros r1 r2. cbn [ibind].
  destruct (r2 =? WF_RETURN_FAIL); [done |]. intros r3. cbn [ibind]. eapply wp_mono; [| apply IH]. done.
Qed.

Lemma send_frags_refused n f b t : wp (send_frags (S n) f b t) (fun tr ok => Forall refuses tr -> ok = false).
Proof.
  intros r1 r2. cbn [ibind]. destruct (Z.eqb_spec r2 WF_RETURN_FAIL) as [-> | Hr]; [done |].
  intros r3. cbn [ibind]. eapply wp_mono; [| apply wp_true_send]. intros tr ok _ Ha.
  apply Forall_cons in Ha as [_ Ha]. by apply Forall_cons in Ha as [Ha _].
Qed.

Lemma wp_and {A} (m : io ev A) P Q : wp m P -> wp m Q -> wp m (fun tr a => P tr a /\ Q tr a).
Proof. revert P Q. induction m as [a | e k IH |]; intros P Q HP HQ; [done | | done]. intros r. by apply IH. Qed.

Lemma send_frags_all n f b t : wp (send_frags (S n) f b t) (fun tr ok =>
  (built tr = [] /\ (Forall accepts tr -> shown tr = writes (S n) b t)) /\
  freed tr = [] /\ (Forall accepts tr -> ok = true) /\ (Forall refuses tr -> ok = false)).
Proof.
  apply wp_and; [apply send_frags_shown |].
  apply wp_and; [eapply wp_mono; [| apply send_frags_wp]; by intros tr ok [? _] |].
  apply wp_and; [apply send_frags_accepted | apply send_frags_refused].
Qed.

(** What a pass does to the frame at the head, for answers under which the device
    sends: it is sent, as [log] says, and its packet freed when the bus accepts
    all of it, and waits on when the bus refuses. *)
Definition advanced (log : list ev -> list Z -> Prop) (s : Tx.tx_info) (f : nat) (q : list nat) (p : Z) (b : nat) (bq : list nat)
    (tr : list (ev * Z)) (r : option Z * Tx.tx_info) : Prop :=
  r.1 = None /\ Tx.xmit_stop_flag r.2 = 0 /\ (forall g, g <> f -> Tx.frames r.2 !! g = Tx.frames s !! g) /\
  (Forall accepts tr -> freed tr = [p] /\ Tx.pending_frame_queue r.2 = q /\ Tx.xmit_buf_queue r.2 = bq /\ log (shown tr) (built tr)) /\
  (Forall refuses tr -> freed tr = [] /\ Tx.pending_frame_queue r.2 = f :: q /\ ready r.2 f /\
    Tx.xmit_buf_queue r.2 = bq ++ [b]).

Lemma wake_frame s : Tx.frames (snd (wf_need_wake_queue s)) = Tx.frames s /\
  Tx.pending_frame_queue (snd (wf_need_wake_queue s)) = Tx.pending_frame_queue s /\
  Tx.xmit_buf_queue (snd (wf_need_wake_queue s)) = Tx.xmit_buf_queue s /\
  Tx.xmit_stop_flag (snd (wf_need_wake_queue s)) = Tx.xmit_stop_flag s.
Proof. unfold wf_need_wake_queue. by case_match. Qed.

Section Advance.
Context (s : Tx.tx_info) (f : nat) (q : list nat) (b : nat) (bq : list nat) (x : Xf.xmit_frame) (p : Z).
Context (Hnd : NoDup (f :: q)) (Hq : Tx.pending_frame_queue s = f :: q) (Hb : b ∉ bq) (Hbq : Tx.xmit_buf_queue s = bq).
Context (Hx : Tx.frames s !! f = Some x) (Hp : Xf.pkt x = Some p) (Hpr : Xf.priority x <= 15).
Context (Hstop : Tx.xmit_stop_flag s = 0).

Lemma sent_advanced ok : wp (sent s f b ok) (fun tr s' => 
  Tx.xmit_stop_flag s' = 0 /\ (forall g, g <> f -> Tx.frames s' !! g = Tx.frames s !! g) /\
  (exists x', Tx.frames s' !! f = Some x') /\
  if ok then tr.*1 = [FreeSkb p] /\ Tx.pending_frame_queue s' = q /\ Tx.xmit_buf_queue s' = bq
  else tr = [] /\ Tx.pending_frame_queue s' = f :: q /\ ready s' f /\ Tx.xmit_buf_queue s' = bq ++ [b]).
Proof using All.
  unfold sent. destruct ok.
  - unfold frame_at. rewrite Hx. cbn [lift of_option ibind]. rewrite Hp. intros r. cbn [ibind wp].
    split; [done |]. split; [intros g Hg; cbn; by rewrite list_lookup_alter_ne |].
    split; [cbn; rewrite list_lookup_alter_eq, Hx; by eexists |].
    split; [done |]. split; [cbn; rewrite Hq; by apply unlink_head | done].
  - split; [done |]. split; [done |]. split; [by exists x |]. split; [done |]. split; [done |]. split; [by exists x, p |].
    cbn. by rewrite Hbq, unlink_id.
Qed.
End Advance.

(** The state in which a frame goes out. *)
Lemma send_advanced s f q b bq x p r :
  NoDup (f :: q) -> Tx.pending_frame_queue s = f :: q -> b ∉ bq -> Tx.xmit_buf_queue s = bq ->
  Tx.frames s !! f = Some x -> Xf.pkt x = Some p -> Xf.priority x <= 15 -> Tx.xmit_stop_flag s = 0 ->
  wp (let! ok := mpdu_insert_sending_queue (upd_frame f (Xf.set_nr_frags (frags_of r)) s) f b in
      let! s := sent (upd_frame f (Xf.set_nr_frags (frags_of r)) s) f b ok in
      let '(wake, s) := wf_need_wake_queue s in
      let! x := frame_at s f in
      do! (if wake then call (WakeQueue (Xf.pkt x)) else iret 0) in
      iret (@None Z, s))
    (advanced (fun l rs => l = writes (Z.to_nat (frags_of r)) b 0 ++ [FreeSkb p] /\ rs = []) s f q p b bq).
Proof.
  intros Hnd Hq Hb Hbq Hx Hp Hpr Hstop. set (s1 := upd_frame f (Xf.set_nr_frags (frags_of r)) s).
  set (x1 := Xf.set_nr_frags (frags_of r) x).
  assert (Hx1 : Tx.frames s1 !! f = Some x1) by (cbn; by rewrite list_lookup_alter_eq, Hx).
  assert (Hn : exists n, Z.to_nat (frags_of r) = S n) by (exists (Z.to_nat (frags_of r - 1)); unfold frags_of; lia).
  assert (Hg1 : forall g, g <> f -> Tx.frames s1 !! g = Tx.frames s !! g) by (intros g Hg; cbn; by rewrite list_lookup_alter_ne).
  destruct Hn as [n Hn]. apply wp_bind. unfold mpdu_insert_sending_queue, frame_at at 1. rewrite Hx1.
  cbn [lift of_option ibind]. change (Xf.nr_frags x1) with (frags_of r). rewrite Hn.
  eapply wp_mono; [| apply send_frags_all]. intros tr1 ok ([B1 S1] & F1 & Hacc & Href). apply wp_bind.
  eapply wp_mono; [| apply (sent_advanced s1 f q b bq x1 p Hnd Hq Hb Hbq Hx1 Hp Hpr Hstop ok)].
  intros tr2 s2 (Hs2 & Hg2 & (x2 & Hx2) & Hcase). destruct (wake_frame s2) as (W1 & W2 & W3 & W4).
  destruct (wf_need_wake_queue s2) as [wake s3]. cbn [snd] in *. unfold frame_at. rewrite W1, Hx2. cbn [lift of_option ibind].
  assert (Hend : forall tr3, freed tr3 = [] -> shown tr3 = [] -> built tr3 = [] -> advanced (fun l rs =>
    l = writes (S n) b 0 ++ [FreeSkb p] /\ rs = []) s f q p b bq (tr1 ++ tr2 ++ tr3) (None, s3)).
  { intros tr3 F3 S3 B3. unfold advanced, ready. cbn [fst snd]. rewrite W1, W2, W3, W4. split; [done |]. split; [done |].
    split; [intros g Hg; rewrite Hg2 by done; by apply Hg1 |]. rewrite !freed_app, F1, F3, app_nil_r. cbn [app].
    split; intros Ha; apply Forall_app in Ha as [Ha _].
    - rewrite (Hacc Ha) in Hcase. destruct Hcase as (H1 & H2 & H3).
      destruct tr2 as [| [e2 z2] [| ? ?]]; try discriminate H1. injection H1 as ->.
      rewrite !shown_app, !built_app, (S1 Ha), B1, S3, B3. done.
    - rewrite (Href Ha) in Hcase. destruct Hcase as (-> & H1 & H2 & H3). done. }
  destruct wake; cbn [wp ibind call]; [intros r3 |]; by apply Hend.
Qed.

Lemma pass_advanced s f q b bq x p :
  NoDup (f :: q) -> Tx.pending_frame_queue s = f :: q -> NoDup (b :: bq) -> Tx.xmit_buf_queue s = b :: bq ->
  Tx.frames s !! f = Some x -> Xf.pkt x = Some p -> Xf.priority x <= 15 -> Tx.xmit_stop_flag s = 0 ->
  wp (xmit_pass s) (fun tr r => Forall runs_well tr ->
    advanced (fun l rs => exists r, l = goes_out f b p r /\ rs = [r]) s f q p b bq tr r).
Proof.
  intros Hnd Hq [Hb _]%NoDup_cons Hbq Hx Hp Hpr Hstop. unfold xmit_pass. intros cr. cbn [ibind].
  destruct (nz cr) eqn:Ecr; [intros [Hr _]%Forall_cons; cbn in Hr; by subst |].
  rewrite Hstop, Hq. cbn [nz negb Z.eqb length Z.of_nat]. unfold wf_xmit_buf_new. rewrite Hbq.
  set (s1 := Tx.set_free_xmitbuf_cnt _ _). unfold wf_tx_data_getqueue. change (Tx.pending_frame_queue s1) with (Tx.pending_frame_queue s).
  rewrite Hq. cbn [head]. unfold xmit_frame_in. set (s2 := upd_frame f _ s1). cbv zeta.
  set (x2 := Xf.set_buf_addr (Some (Z.of_nat b)) (Xf.set_pxmitbuf (Some (Z.of_nat b)) x)).
  assert (Hx2 : Tx.frames s2 !! f = Some x2) by (cbn; by rewrite list_lookup_alter_eq, Hx).
  unfold frame_at at 1. rewrite Hx2. cbn [lift of_option ibind].
  change (Xf.priority x2) with (Xf.priority x). change (Xf.pkt x2) with (Xf.pkt x).
  replace (15 <? Xf.priority x) with false by (symmetry; apply Z.ltb_ge; lia). intros due. cbn [ibind]. rewrite Hp.
  apply wp_bind.
  assert (Hba : wp (if nz due then call (AddBa f) else iret (-1)) (fun tr ba =>
    (freed tr = [] /\ shown tr = [] /\ built tr = []) /\ (Forall runs_well tr -> ba <> 0)))
    by (destruct (nz due); [intros ba; split; [done |]; by intros [H _]%Forall_cons | done]).
  eapply wp_mono; [| exact Hba]. intros tr1 ba [(F1 & S1 & B1) Hne]. destruct (Z.eqb_spec ba 0) as [-> | _].
  { cbn [wp]. rewrite app_nil_r. intros [_ [_ Hr]%Forall_cons]%Forall_cons. by destruct (Hne Hr). }
  intros r. cbn [ibind]. destruct (nz r) eqn:Er.
  2: { intros r2 [_ [_ [_ [Hr _]%Forall_cons]%Forall_app]%Forall_cons]%Forall_cons. cbn in Hr.
       unfold nz in Er. by destruct (Z.eqb_spec r 0). }
  eapply wp_mono; [| apply (send_advanced s2 f q b bq x2 p r Hnd Hq Hb eq_refl Hx2 Hp Hpr Hstop)].
  intros tr a (A1 & A2 & A3 & A4 & A5) _. set (tr' := (CannotRun, cr) :: _).
  assert (Ft : freed tr' = freed tr) by (unfold tr'; change (freed (tr1 ++ (MsduToMpdu f b p, r) :: tr) = freed tr); by rewrite freed_app, F1).
  assert (HF : forall P, Forall P tr' -> Forall P tr) by (intros P [_ [_ [_ [_ H]%Forall_cons]%Forall_app]%Forall_cons]%Forall_cons; done).
  split; [done |]. split; [done |].
  split; [intros g Hg; rewrite A3 by done; cbn; by rewrite list_lookup_alter_ne |]. rewrite Ft.
  split; intros H%HF; [| by apply A5]. destruct (A4 H) as (H1 & H2 & H3 & H4 & H5). split_and!; [done | done | done |].
  exists r. unfold tr'. change (shown (tr1 ++ (MsduToMpdu f b p, r) :: tr) = goes_out f b p r /\
    built (tr1 ++ (MsduToMpdu f b p, r) :: tr) = [r]). rewrite shown_app, built_app, S1, B1. cbn [app].
  split; [unfold goes_out; rewrite <- H4 | rewrite <- H5]; done.
Qed.

#[global] Instance runs_well_dec e : Decision (runs_well e).
Proof. unfold runs_well. destruct e.1; apply _. Defined.
#[global] Instance accepts_dec e : Decision (accepts e).
Proof. unfold accepts. destruct e.1; apply _. Defined.
#[global] Instance refuses_dec e : Decision (refuses e).
Proof. unfold refuses. destruct e.1; apply _. Defined.

Lemma xmit_returns n s hif ext Q : tx_ok s [] hif ext -> (forall tr a, Q tr a) -> wp (tx_work_mpdu_xmit n s) Q.
Proof. intros Hok HQ. eapply wp_mono; [| by apply (xmit_wp n s hif ext)]. intros tr a _. apply HQ. Qed.

Lemma buf_nodup s held hif ext : tx_ok s held hif ext -> NoDup (Tx.xmit_buf_queue s).
Proof.
  intros Hok. assert (H : NoDup (Tx.xmit_buf_queue s ++ hif)) by (rewrite (ok_buf_queue _ _ _ _ Hok); apply NoDup_seq).
  by apply NoDup_app in H as [H _].
Qed.

(** A pass over the head of the queue and what follows it. *)
Lemma xmit_head n s f q b bq x p hif ext Q :
  tx_ok s [] hif ext -> Tx.pending_frame_queue s = f :: q -> Tx.xmit_buf_queue s = b :: bq ->
  Tx.frames s !! f = Some x -> Xf.pkt x = Some p -> Xf.priority x <= 15 -> Tx.xmit_stop_flag s = 0 ->
  (forall tr s1 hif1, advanced (fun l rs => exists r, l = goes_out f b p r /\ rs = [r]) s f q p b bq tr (None, s1) -> tx_ok s1 [] hif1 ext ->
    wp (tx_work_mpdu_xmit n s1) (fun tr' r => Q (tr ++ tr') r)) ->
  (forall tr r, ~ Forall runs_well tr -> Q tr r) ->
  wp (tx_work_mpdu_xmit (S n) s) Q.
Proof.
  intros Hok Hq Hb Hx Hp Hpr Hstop Hnext Hvac. pose proof (pending_nodup Hok) as Hnd. rewrite Hq in Hnd.
  pose proof (buf_nodup _ _ _ _ Hok) as Hbnd. rewrite Hb in Hbnd. cbn [tx_work_mpdu_xmit]. apply wp_bind.
  eapply wp_mono; [| apply wp_and; [apply (pass_advanced s f q b bq x p); done | by apply (xmit_pass_wp s hif ext)]].
  intros tr [r s1] [Hadv [Hok1 _]]. cbn [snd] in *. destruct (decide (Forall runs_well tr)) as [Hr | Hr].
  - specialize (Hadv Hr). pose proof Hadv as [Hn _]. cbn [fst] in Hn. subst r. by eapply Hnext.
  - assert (Hv : forall tr' a, Q (tr ++ tr') a) by (intros tr' a; apply Hvac; by rewrite Forall_app; intros [? _]).
    destruct r; [apply Hv | by eapply xmit_returns].
Qed.

Lemma go_out_same s s' fs : (forall g, g ∈ fs -> pk (Tx.frames s) g = pk (Tx.frames s') g) -> forall bs rs, go_out s fs bs rs = go_out s' fs bs rs.
Proof.
  induction fs as [| f fs IH]; intros H bs rs; [done |]. destruct bs as [| b bs], rs as [| r rs]; try done.
  cbn [go_out]. rewrite (H f) by left. by rewrite IH by (intros g Hg; apply H; by right).
Qed.

Lemma all_sent_aux l : forall s hif ext, tx_ok s [] hif ext -> Tx.pending_frame_queue s = l -> Forall (ready s) l ->
  (length l <= length (Tx.xmit_buf_queue s))%nat -> Tx.xmit_stop_flag s = 0 ->
  wp (tx_work_mpdu_xmit (S (length l)) s) (fun tr r => Forall runs_well tr -> Forall accepts tr ->
    r.1 = Some 0 /\ Tx.pending_frame_queue r.2 = [] /\ freed tr = pkts s /\
    length (built tr) = length l /\ shown tr = go_out s l (Tx.xmit_buf_queue s) (built tr)).
Proof.
  induction l as [| f q IH]; intros s hif ext Hok Hq Hrd Hlen Hstop.
  - intros cr. cbn [ibind]. destruct (nz cr) eqn:Ecr; [intros [Hr _]%Forall_cons; cbn in Hr; by subst |].
    rewrite Hstop, Hq. cbn [nz negb Z.eqb length Z.of_nat ibind wp fst snd]. intros _ _. unfold pkts. rewrite Hq. done.
  - pose proof (pending_nodup Hok) as Hnd. rewrite Hq in Hnd. apply NoDup_cons in Hnd as [Hf Hnd].
    apply Forall_cons in Hrd as [(x & p & Hx & Hp & Hpr) Hrd].
    destruct (Tx.xmit_buf_queue s) as [| b bq] eqn:Eb; [cbn in Hlen; lia |]. cbn [length] in *.
    eapply xmit_head; try eassumption; [| by intros tr r Hr ? _].
    intros tr s1 hif1 (_ & Hs1 & Hg & Hacc & _) Hok1. cbn [fst snd] in *.
    destruct (decide (Forall accepts tr)) as [Ha | Ha].
    2: { eapply xmit_returns; [done |]. intros tr' a _ H. apply Forall_app in H as [H _]. done. }
    destruct (Hacc Ha) as (F1 & Hq1 & Hb1 & br & Sh & Bu).
    assert (Hpk : forall g, g ∈ q -> pk (Tx.frames s1) g = pk (Tx.frames s) g) by (intros g Hgq; unfold pk; rewrite Hg; [done | by intros ->]).
    eapply wp_mono; [| apply (IH s1 hif1 ext Hok1 Hq1); [| rewrite Hb1; lia | done]].
    + intros tr' r H [_ Hr]%Forall_app [_ Ha']%Forall_app. destruct (H Hr Ha') as (E1 & E2 & E3 & E4 & E5).
      assert (Hpf : pk (Tx.frames s) f = Some p) by (unfold pk; rewrite Hx; exact Hp).
      split; [done |]. split; [done |]. rewrite freed_app, shown_app, built_app, F1, E3, Sh, Bu, E5, Hb1.
      cbn [app length go_out]. rewrite Hpf, E4. split; [| split; [done | f_equal; by apply go_out_same]].
      unfold pkts. rewrite Hq, Hq1. cbn. rewrite Hpf. f_equal. by apply omap_same.
    + apply list.Forall_forall. intros g Hgq.
      pose proof (proj1 (list.Forall_forall _ _) Hrd g Hgq) as (y & py & Hy & Hpy & Hyp).
      exists y, py. rewrite Hg by (by intros ->). done.
Qed.

(** C14: the sending task sends what waits.  In every reachable state in which
    sending is not stopped, every waiting frame has its packet and a priority of
    at most 15, and there is a buffer for each: when the device runs, every frame
    can be built, no request for a block acknowledgment agreement goes out and
    the bus accepts every write, then after one pass per frame and one more the
    task returns 0, the queue is empty, and the frames went out in the order they
    waited, each built in the next buffer, all its fragments written to the bus
    from the first on, and only then its packet freed, once. *)
Theorem all_sent (w : world) : reach w ->
  let s := tx w in
  Forall (ready s) (Tx.pending_frame_queue s) -> Tx.xmit_stop_flag s = 0 ->
  (length (Tx.pending_frame_queue s) <= length (Tx.xmit_buf_queue s))%nat ->
  wp (tx_work_mpdu_xmit (S (length (Tx.pending_frame_queue s))) s) (fun tr r =>
    Forall runs_well tr -> Forall accepts tr ->
    r.1 = Some 0 /\ Tx.pending_frame_queue r.2 = [] /\ freed tr = pkts s /\
    length (built tr) = length (Tx.pending_frame_queue s) /\
    shown tr = go_out s (Tx.pending_frame_queue s) (Tx.xmit_buf_queue s) (built tr)).
Proof.
  intros Hr s Hrd Hstop Hlen. destruct (reach_ok w Hr) as [Hok _]. by eapply all_sent_aux.
Qed.

(** The waiting frame of the example. *)
Lemma tx1_ready : Forall (ready Example.tx1) (Tx.pending_frame_queue Example.tx1).
Proof.
  assert (E : Tx.pending_frame_queue Example.tx1 = [0%nat]) by (vm_compute; reflexivity). rewrite E.
  constructor; [| constructor].
  destruct (Tx.frames Example.tx1 !! 0%nat) as [x |] eqn:Ex; [| by vm_compute in Ex].
  exists x, 77. split; [done |].
  assert (H : (Xf.pkt <$> Tx.frames Example.tx1 !! 0%nat) = Some (Some 77) /\
              (Xf.priority <$> Tx.frames Example.tx1 !! 0%nat) = Some 0) by (by vm_compute).
  rewrite Ex in H. cbn in H. destruct H as [[= ->] [= ->]]. done.
Qed.

Lemma all_sent_witness : wp (tx_work_mpdu_xmit 2 Example.tx1) (fun tr r =>
    Forall runs_well tr -> Forall accepts tr ->
    r.1 = Some 0 /\ Tx.pending_frame_queue r.2 = [] /\ freed tr = pkts Example.tx1 /\
    length (built tr) = length (Tx.pending_frame_queue Example.tx1) /\
    shown tr = go_out Example.tx1 (Tx.pending_frame_queue Example.tx1) (Tx.xmit_buf_queue Example.tx1) (built tr)).
Proof.
  refine (all_sent _ Example.tx1_reach tx1_ready _ _).
  - vm_compute. reflexivity.
  - apply Nat.leb_le. vm_compute. reflexivity.
Defined.

(** C37: while the bus refuses frames the sending task does not return: in
    every reachable state with a frame waiting and a buffer free, after any
    number of passes the task is still running, the frame still waits, and
    nothing was freed.  The loop has no test for a refused frame. *)
Theorem refused_forever (w : world) (f : nat) (q : list nat) (n : nat) : reach w ->
  Tx.pending_frame_queue (tx w) = f :: q -> ready (tx w) f -> Tx.xmit_buf_queue (tx w) <> [] ->
  Tx.xmit_stop_flag (tx w) = 0 ->
  wp (tx_work_mpdu_xmit n (tx w)) (fun tr r => Forall runs_well tr -> Forall refuses tr ->
    r.1 = None /\ Tx.pending_frame_queue r.2 = f :: q /\ freed tr = []).
Proof.
  intros Hr. destruct (reach_ok w Hr) as [Hok _]. revert Hok. generalize (tx w), (hif w).
  induction n as [| n IH]; intros s h Hok Hq (x & p & Hx & Hp & Hpr) Hb Hstop; [done |].
  destruct (Tx.xmit_buf_queue s) as [| b bq] eqn:Eb; [done |].
  eapply xmit_head; try eassumption; [| by intros tr r Hn ? _].
  intros tr s1 h1 (_ & Hs1 & _ & _ & Href) Hok1. cbn [fst snd] in *.
  destruct (decide (Forall refuses tr)) as [Ha | Ha].
  2: { eapply xmit_returns; [done |]. intros tr' a _ H. apply Forall_app in H as [H _]. done. }
  destruct (Href Ha) as (F1 & Hq1 & Hrd1 & Hb1).
  eapply wp_mono; [| apply (IH s1 h1 Hok1 Hq1 Hrd1); [rewrite Hb1; by destruct bq | done]].
  intros tr' r H [_ Hw]%Forall_app [_ Ha']%Forall_app. destruct (H Hw Ha') as (E1 & E2 & E3).
  split; [done |]. split; [done |]. by rewrite freed_app, F1, E3.
Qed.

Lemma refused_forever_witness : wp (tx_work_mpdu_xmit 100 Example.tx1) (fun tr r =>
    Forall runs_well tr -> Forall refuses tr ->
    r.1 = None /\ Tx.pending_frame_queue r.2 = [0%nat] /\ freed tr = []).
Proof.
  refine (refused_forever _ 0 [] 100 Example.tx1_reach _ _ _ _).
  - vm_compute. reflexivity.
  - assert (E : Tx.pending_frame_queue Example.tx1 = [0%nat]) by (vm_compute; reflexivity).
    pose proof tx1_ready as H. rewrite E in H. exact (Forall_inv H).
  - assert (E : hd_error (Tx.xmit_buf_queue Example.tx1) = Some 0%nat) by (vm_compute; reflexivity).
    cbn [tx]. intros H. rewrite H in E. discriminate E.
  - vm_compute. reflexivity.
Defined.
End TxQueue.
