(* ===== verification/RxPath.v ===== *)
(** * The receive path ([nic/rx.c], [os/linux/rx_linux.c])

    From the bytes the bus delivers to the packets the operating system gets:
    splitting an aggregate ([rx_work]), the checks and the decryption of a frame
    ([wf_rx_common_process]), fragments ([rx_defrag]), the conversion to an
    Ethernet packet ([wlan_to_eth], [process_amsdu]) and its delivery
    ([upload_skb]).

    Buffers of the operating system, the network stack, the transmit side
    ([wf_tx_msdu]), the reordering ([wf_rx_data_reorder_core]) and the handling
    of management frames are calls with any answer. *)
From Stdlib Require Import Permutation.
From S2P Require Import Prelude Cipher SecTypes Crc32 WdnTypes Wdn Wep Tkip Sec Wlan Io Rx TxTypes TxFrame.
Import Crc32.

(** A packet kept by [rx_defrag]: its copy of [struct rx_pkt], with the
    addresses of the data. *)
Record frag_pkt : Type := mk_frag {
  fg_info : Info.rx_pkt_info;
  fg_len : Z;
  fg_pdata : Z;
  fg_ptail : Z;
  fg_pend : Z;
}.

(** What the receive code keeps in a node: [rx_pkt_stat], [defrag_q] and
    [defrag_flag]. *)
Record node_rx : Type := mk_node_rx {
  rx_pkt_stat : Z;
  defrag_q : list nat;
  defrag_flag : Z;
}.

(** [rx_info_t], the table of nodes and what the receive code keeps in them, and the
    counter of [link_info].  [free_rx_pkt_list] holds indexes of the [MAX_PKT_NUM]
    packets in [store]. *)
Module Rs.
Record rx_info : Type := mk_rx_info {
  wdn : Wdn.wdn_list;
  crc : crc_globals;
  nodes : gmap Z node_rx;
  free_rx_pkt_list : list nat;
  store : list frag_pkt;
  rx_bytes : Z;
  rx_total_pkts : Z;
  rx_pkts : Z;
  rx_drop : Z;
  rx_mgnt_pkt : Z;
  rx_data_pkt : Z;
  num_rx_ok_in_period : Z;
}.

Definition set_wdn (v : Wdn.wdn_list) (r : rx_info) : rx_info :=
  mk_rx_info v (crc r) (nodes r) (free_rx_pkt_list r) (store r) (rx_bytes r) (rx_total_pkts r)
    (rx_pkts r) (rx_drop r) (rx_mgnt_pkt r) (rx_data_pkt r) (num_rx_ok_in_period r).
Definition set_crc (v : crc_globals) (r : rx_info) : rx_info :=
  mk_rx_info (wdn r) v (nodes r) (free_rx_pkt_list r) (store r) (rx_bytes r) (rx_total_pkts r)
    (rx_pkts r) (rx_drop r) (rx_mgnt_pkt r) (rx_data_pkt r) (num_rx_ok_in_period r).
Definition set_nodes (v : gmap Z node_rx) (r : rx_info) : rx_info :=
  mk_rx_info (wdn r) (crc r) v (free_rx_pkt_list r) (store r) (rx_bytes r) (rx_total_pkts r)
    (rx_pkts r) (rx_drop r) (rx_mgnt_pkt r) (rx_data_pkt r) (num_rx_ok_in_period r).
Definition set_free_rx_pkt_list (v : list nat) (r : rx_info) : rx_info :=
  mk_rx_info (wdn r) (crc r) (nodes r) v (store r) (rx_bytes r) (rx_total_pkts r) (rx_pkts r)
    (rx_drop r) (rx_mgnt_pkt r) (rx_data_pkt r) (num_rx_ok_in_period r).
Definition set_store (v : list frag_pkt) (r : rx_info) : rx_info :=
  mk_rx_info (wdn r) (crc r) (nodes r) (free_rx_pkt_list r) v (rx_bytes r) (rx_total_pkts r)
    (rx_pkts r) (rx_drop r) (rx_mgnt_pkt r) (rx_data_pkt r) (num_rx_ok_in_period r).
Definition set_rx_bytes (v : Z) (r : rx_info) : rx_info :=
  mk_rx_info (wdn r) (crc r) (nodes r) (free_rx_pkt_list r) (store r) v (rx_total_pkts r)
    (rx_pkts r) (rx_drop r) (rx_mgnt_pkt r) (rx_data_pkt r) (num_rx_ok_in_period r).
Definition set_rx_total_pkts (v : Z) (r : rx_info) : rx_info :=
  mk_rx_info (wdn r) (crc r) (nodes r) (free_rx_pkt_list r) (store r) (rx_bytes r) v (rx_pkts r)
    (rx_drop r) (rx_mgnt_pkt r) (rx_data_pkt r) (num_rx_ok_in_period r).
Definition set_rx_pkts (v : Z) (r : rx_info) : rx_info :=
  mk_rx_info (wdn r) (crc r) (nodes r) (free_rx_pkt_list r) (store r) (rx_bytes r)
    (rx_total_pkts r) v (rx_drop r) (rx_mgnt_pkt r) (rx_data_pkt r) (num_rx_ok_in_period r).
Definition set_rx_drop (v : Z) (r : rx_info) : rx_info :=
  mk_rx_info (wdn r) (crc r) (nodes r) (free_rx_pkt_list r) (store r) (rx_bytes r)
    (rx_total_pkts r) (rx_pkts r) v (rx_mgnt_pkt r) (rx_data_pkt r) (num_rx_ok_in_period r).
Definition set_rx_mgnt_pkt (v : Z) (r : rx_info) : rx_info :=
  mk_rx_info (wdn r) (crc r) (nodes r) (free_rx_pkt_list r) (store r) (rx_bytes r)
    (rx_total_pkts r) (rx_pkts r) (rx_drop r) v (rx_data_pkt r) (num_rx_ok_in_period r).
Definition set_rx_data_pkt (v : Z) (r : rx_info) : rx_info :=
  mk_rx_info (wdn r) (crc r) (nodes r) (free_rx_pkt_list r) (store r) (rx_bytes r)
    (rx_total_pkts r) (rx_pkts r) (rx_drop r) (rx_mgnt_pkt r) v (num_rx_ok_in_period r).
Definition set_num_rx_ok_in_period (v : Z) (r : rx_info) : rx_info :=
  mk_rx_info (wdn r) (crc r) (nodes r) (free_rx_pkt_list r) (store r) (rx_bytes r)
    (rx_total_pkts r) (rx_pkts r) (rx_drop r) (rx_mgnt_pkt r) (rx_data_pkt r) v.
End Rs.


(** [struct rx_pkt]: the buffer of the operating system, the bytes from [pdata] to the
    end of the frame, [pofs] bytes behind the start of the data, of which [len] count, and bytes pushed in front of them
    ([front]).  Bytes behind the frame are indeterminate: reading them is a
    fault. *)
Module Pk.
Record rx_pkt : Type := mk_pkt {
  pskb : Z;
  pofs : Z;
  pdata : list Z;
  len : Z;
  front : list Z;
  pkt_info : Info.rx_pkt_info;
  bdecrypted : bool;
  eth_type : Z;
  signal : Z * Z;
  wdn_info : option Z;
}.

Definition set_pskb (v : Z) (r : rx_pkt) : rx_pkt :=
  mk_pkt v (pofs r) (pdata r) (len r) (front r) (pkt_info r) (bdecrypted r) (eth_type r) (signal
    r) (wdn_info r).
Definition set_pofs (v : Z) (r : rx_pkt) : rx_pkt :=
  mk_pkt (pskb r) v (pdata r) (len r) (front r) (pkt_info r) (bdecrypted r) (eth_type r) (signal
    r) (wdn_info r).
Definition set_pdata (v : list Z) (r : rx_pkt) : rx_pkt :=
  mk_pkt (pskb r) (pofs r) v (len r) (front r) (pkt_info r) (bdecrypted r) (eth_type r) (signal
    r) (wdn_info r).
Definition set_len (v : Z) (r : rx_pkt) : rx_pkt :=
  mk_pkt (pskb r) (pofs r) (pdata r) v (front r) (pkt_info r) (bdecrypted r) (eth_type r)
    (signal r) (wdn_info r).
Definition set_front (v : list Z) (r : rx_pkt) : rx_pkt :=
  mk_pkt (pskb r) (pofs r) (pdata r) (len r) v (pkt_info r) (bdecrypted r) (eth_type r) (signal
    r) (wdn_info r).
Definition set_pkt_info (v : Info.rx_pkt_info) (r : rx_pkt) : rx_pkt :=
  mk_pkt (pskb r) (pofs r) (pdata r) (len r) (front r) v (bdecrypted r) (eth_type r) (signal r)
    (wdn_info r).
Definition set_bdecrypted (v : bool) (r : rx_pkt) : rx_pkt :=
  mk_pkt (pskb r) (pofs r) (pdata r) (len r) (front r) (pkt_info r) v (eth_type r) (signal r)
    (wdn_info r).
Definition set_eth_type (v : Z) (r : rx_pkt) : rx_pkt :=
  mk_pkt (pskb r) (pofs r) (pdata r) (len r) (front r) (pkt_info r) (bdecrypted r) v (signal r)
    (wdn_info r).
Definition set_signal (v : Z * Z) (r : rx_pkt) : rx_pkt :=
  mk_pkt (pskb r) (pofs r) (pdata r) (len r) (front r) (pkt_info r) (bdecrypted r) (eth_type r)
    v (wdn_info r).
Definition set_wdn_info (v : option Z) (r : rx_pkt) : rx_pkt :=
  mk_pkt (pskb r) (pofs r) (pdata r) (len r) (front r) (pkt_info r) (bdecrypted r) (eth_type r)
    (signal r) v.

(** [wf_memset(&pkt, 0, sizeof(rx_pkt_t))] *)
Definition zero : rx_pkt :=
  mk_pkt 0 0 [] 0 [] Info.zero false 0 (0, 0) None.
End Pk.


Module RxPath.
Import Io.
Open Scope io_scope.

Definition MAX_PKT_NUM : nat := 20.
Definition MAX_SUBFRAME_COUNT : Z := 64.
Definition AMSDU_HDR_LEN : Z := 14.
Definition ETH_HLEN : Z := 14.
Definition WF_MONITOR_MODE : Z := 6.
Definition PHY_STATUS_SIZE : Z := 28.
Definition MAC_FRAME_TYPE_MGT : Z := 0x00.
Definition MAC_FRAME_TYPE_DATA : Z := 0x08.
Definition GET_HDR_Type (pbuf : list Z) : C Z := letc h := Rx.hdr pbuf 0 in Ret (Z.land h 0x0C).
(** On a 16-bit length. *)
Definition WF_RND8 (x : Z) : Z := Z.shiftl (Z.shiftr x 3 + (if nz (Z.land x 7) then 1 else 0)) 3.

(** The part of the device's state that receiving reads: work mode, the address
    frames must carry, the address of the interface, the security state,
    [hw_info->ba_enable], and the channel of the current network. *)
Record rx_nic : Type := mk_rx_nic {
  work_mode : Z;
  local : list Z;
  dev_addr : list Z;
  rx_sec : sec_info_st;
  ba_enable : bool;
  channel : Z;
}.

(** [AllocSkb] is [wf_alloc_skb], whose answer is the buffer or zero, [CloneSkb]
    is [skb_clone], [Headroom] is [skb_headroom], [NetifRx] hands a packet to the
    network stack, [TxMsdu] is [wf_tx_msdu], [BaEnabled] reads
    [ba_ctl[prio].enable] of a node, [ReorderCore] is
    [wf_rx_data_reorder_core], [MgmtRx] is [wf_wlan_mgmt_rx_frame]. *)
Inductive ev : Type :=
  | AllocSkb (n : Z)
  | CloneSkb (skb : Z)
  | Headroom (skb : Z)
  | FreeSkb (skb : Z)
  | NetifRx (skb : Z) (pkt : list Z)
  | TxMsdu (skb : Z) (pkt : list Z)
  | TxWake
  | BaEnabled (node prio : Z)
  | ReorderCore (node prio seq skb : Z) (pkt : list Z)
  | MgmtRx (frame : list Z).

(** ** Packets *)

(** The bytes of the buffer, from its data pointer to its tail. *)
Definition bytes (p : Pk.rx_pkt) : list Z := Pk.front p ++ take (Z.to_nat (Pk.len p)) (Pk.pdata p).

Definition pkt_pull (p : Pk.rx_pkt) (size : Z) : C Pk.rx_pkt :=
  if Pk.len p <? u32 size then Fault
  else Ret (Pk.set_pofs (Pk.pofs p + size)
             (Pk.set_pdata (drop (Z.to_nat size) (Pk.pdata p)) (Pk.set_len (Pk.len p - size) p))).

Definition pkt_trim (p : Pk.rx_pkt) (size : Z) : Pk.rx_pkt :=
  if Pk.len p <? size then p
  else if size =? 0 then p
  else Pk.set_len (Pk.len p - size) p.

(** [None] when there is no buffer. *)
Definition create_skb (p : Pk.rx_pkt) (pbuf : list Z) (pkt_len : Z) : io ev (option Pk.rx_pkt) :=
  let! skb := call (AllocSkb (u32 (pkt_len + 14))) in
  if negb (nz skb) then iret None
  else
    let! d := lift (slice pbuf 0 pkt_len) in
    iret (Some (Pk.set_pskb skb (Pk.set_pdata d (Pk.set_len pkt_len p)))).

(** ** Delivery *)

(** A packet handed to the transmit side, freed when it is refused. *)
Definition forward (skb : Z) (pkt : list Z) : io ev unit :=
  let! r := call (TxMsdu skb pkt) in
  do! (if negb (r =? 0) then call (FreeSkb skb) else call TxWake) in
  iret tt.

Definition upload_skb (nic : rx_nic) (skb : Z) (pkt : list Z) : io ev unit :=
  let mode := work_mode nic in
  if mode =? WF_MONITOR_MODE then do! call (NetifRx skb pkt) in iret tt
  else if (mode =? Rx.WF_INFRA_MODE) || (mode =? Rx.WF_ADHOC_MODE) then
    let! dest := lift (slice pkt 0 6) in
    do! (if bytes_eqb (dev_addr nic) dest || IS_MCAST dest then call (NetifRx skb pkt) else call (FreeSkb skb)) in
    iret tt
  else if mode =? Rx.WF_MASTER_MODE then
    let! dest := lift (slice pkt 0 6) in
    if bytes_eqb (dev_addr nic) dest then do! call (NetifRx skb pkt) in iret tt
    else if negb (IS_MCAST dest) then forward skb pkt
    else
      let! c := call (CloneSkb skb) in
      do! call (NetifRx skb pkt) in
      if nz c then forward c pkt else iret tt
  else do! call (FreeSkb skb) in iret tt.

(** ** Aggregated packets *)

(** [htons] of a 16-bit value, as its two bytes in memory. *)
Definition be16 (x : Z) : list Z := [u8 (Z.shiftr x 8); u8 x].

(** [alloc_msdu]: the buffer and its bytes. *)
Definition alloc_msdu (da sa msdu : list Z) (msdu_len : Z) : io ev (option (Z * list Z)) :=
  let! skb := call (AllocSkb (msdu_len + 14)) in
  if negb (nz skb) then iret None
  else
    let! bsnap := lift (Wlan.is_snap_hdr msdu) in
    if (bsnap : bool) then iret (Some (skb, da ++ sa ++ drop (Z.to_nat Wlan.SNAP_HDR_SIZE) msdu))
    else iret (Some (skb, da ++ sa ++ be16 msdu_len ++ msdu)).

(** The loop over the subframes; [nr] counts them, so it ends by
    [MAX_SUBFRAME_COUNT]. *)
Fixpoint amsdu_split (fuel : nat) (nr pktlen : Z) (pdata : list Z) : io ev (list (Z * list Z)) :=
  match fuel with
  | O => ifault
  | S fuel =>
      let! sz := lift (slice pdata 12 2) in
      let subframeSize := be_word sz in
      if pktlen <? subframeSize + AMSDU_HDR_LEN then iret []
      else
        let! da := lift (slice pdata 0 6) in
        let! sa := lift (slice pdata 6 6) in
        let! msdu := lift (slice pdata ETH_HLEN subframeSize) in
        let! r := alloc_msdu da sa msdu subframeSize in
        match r with
        | None => iret []
        | Some k =>
            let nr := u8 (nr + 1) in
            if MAX_SUBFRAME_COUNT <? nr then iret [k]
            else
              let rest := drop (Z.to_nat (ETH_HLEN + subframeSize)) pdata in
              let pktlen := pktlen - ETH_HLEN - subframeSize in
              let padding_len := (4 - Z.land (subframeSize + ETH_HLEN) 3) mod 4 in
              if nz pktlen && (pktlen <? padding_len) then iret [k]
              else
                let padding_len := if nz pktlen then padding_len else 0 in
                let pktlen := pktlen - padding_len in
                if AMSDU_HDR_LEN <? pktlen then
                  let! ks := amsdu_split fuel nr pktlen (drop (Z.to_nat padding_len) rest) in
                  iret (k :: ks)
                else iret [k]
        end
  end.

Fixpoint upload_all (nic : rx_nic) (ks : list (Z * list Z)) : io ev unit :=
  match ks with
  | [] => iret tt
  | (skb, pkt) :: ks => do! upload_skb nic skb pkt in upload_all nic ks
  end.

Definition process_amsdu (nic : rx_nic) (p : Pk.rx_pkt) : io ev Z :=
  let! t := lift (GET_HDR_Type (Pk.pdata p)) in
  if negb (t =? MAC_FRAME_TYPE_DATA) then iret (-1)
  else
    let ofs := Info.wlan_hdr_len (Pk.pkt_info p) + Info.iv_len (Pk.pkt_info p) in
    let! ks := amsdu_split (Z.to_nat (MAX_SUBFRAME_COUNT + 1)) 0 (Pk.len p - ofs) (drop (Z.to_nat ofs) (Pk.pdata p)) in
    do! upload_all nic ks in iret 0.

(** ** Ethernet packets *)

Definition wlan_to_eth (p : Pk.rx_pkt) : C (Z * Pk.rx_pkt) :=
  let i := Pk.pkt_info p in
  let p := if Pk.bdecrypted p then pkt_trim p (Info.icv_len i) else p in
  if Pk.len p =? Info.wlan_hdr_len i then Ret (-1, p)
  else
    let snap_hdr_offset := u8 (Info.wlan_hdr_len i + Info.iv_len i) in
    letc bsnap := Wlan.is_snap_hdr (drop (Z.to_nat snap_hdr_offset) (Pk.pdata p)) in
    let rmv_len := u8 (snap_hdr_offset + if (bsnap : bool) then Wlan.SNAP_HDR_SIZE else 0) in
    if Pk.len p <? rmv_len then Ret (-1, p)
    else
      let data_len := u16 (Pk.len p - rmv_len) in
      letc t := slice (Pk.pdata p) rmv_len 2 in
      letc p := pkt_pull (Pk.set_eth_type (be_word t) p) (rmv_len - 14 + if bsnap then 2 else 0) in
      letc d := blit (Pk.pdata p) 0 (Info.dst_addr i) in
      letc d := blit d 6 (Info.src_addr i) in
      letc d := (if bsnap then Ret d else blit d 12 (be16 data_len)) in
      Ret (0, Pk.set_pdata d p).

Definition rx_data_upload_process (nic : rx_nic) (p : Pk.rx_pkt) : io ev unit :=
  if nz (Info.amsdu (Pk.pkt_info p)) then
    do! process_amsdu nic p in do! call (FreeSkb (Pk.pskb p)) in iret tt
  else
    let! (ret, p) := lift (wlan_to_eth p) in
    if ret =? 0 then upload_skb nic (Pk.pskb p) (bytes p)
    else do! call (FreeSkb (Pk.pskb p)) in iret tt.

(** The settings of a block acknowledgment that are missing are part of
    [ReorderCore]. *)
Definition rx_data_reorder_process (nic : rx_nic) (p : Pk.rx_pkt) : io ev unit :=
  let prio := Info.qos_pri (Pk.pkt_info p) in
  match Pk.wdn_info p with
  | None => do! call (FreeSkb (Pk.pskb p)) in iret tt
  | Some a =>
      if 15 <? prio then do! call (FreeSkb (Pk.pskb p)) in iret tt
      else
        let! (ret, p) := lift (wlan_to_eth p) in
        if ret <? 0 then do! call (FreeSkb (Pk.pskb p)) in iret tt
        else if Info.qos_flag (Pk.pkt_info p) =? 0 then upload_skb nic (Pk.pskb p) (bytes p)
        else
          let! on := call (BaEnabled a prio) in
          if negb (nz on) then upload_skb nic (Pk.pskb p) (bytes p)
          else do! call (ReorderCore a prio (Info.seq_num (Pk.pkt_info p)) (Pk.pskb p) (bytes p)) in iret tt
  end.

(** ** Fragments *)

Definition node_of (s : Rs.rx_info) (a : Z) : node_rx := default (mk_node_rx 0 [] 0) (Rs.nodes s !! a).
Definition set_node_rx (a : Z) (n : node_rx) (s : Rs.rx_info) : Rs.rx_info := Rs.set_nodes (<[a := n]> (Rs.nodes s)) s.
Definition set_queue (q : list nat) (n : node_rx) : node_rx := mk_node_rx (rx_pkt_stat n) q (defrag_flag n).
Definition set_flag (v : Z) (n : node_rx) : node_rx := mk_node_rx (rx_pkt_stat n) (defrag_q n) v.

Definition free_rx_pkt (e : nat) (s : Rs.rx_info) : Rs.rx_info :=
  Rs.set_free_rx_pkt_list (Rs.free_rx_pkt_list s ++ [e]) s.

Definition free_rx_queue (q : list nat) (s : Rs.rx_info) : Rs.rx_info :=
  Rs.set_free_rx_pkt_list (Rs.free_rx_pkt_list s ++ q) s.

(** [pkt_put]: where the new bytes go. *)
Definition pkt_put (f : frag_pkt) (size : Z) : option (Z * frag_pkt) :=
  if fg_pend f <? fg_ptail f + size then None
  else Some (fg_ptail f, mk_frag (fg_info f) (u32 (fg_len f + size)) (fg_pdata f) (fg_ptail f + size) (fg_pend f)).

(** The loop of [rx_recombination] on the entries [q] behind the first one: the
    result, the entries left, and the copies made (to, from, bytes). *)
Fixpoint recombine (order_num : Z) (first : nat) (q : list nat) (s : Rs.rx_info)
    : C (option nat * list nat * list (Z * Z * Z) * Rs.rx_info) :=
  match q with
  | [] => Ret (Some first, [], [], s)
  | e :: q =>
      let order_num := u8 (order_num + 1) in
      letc f := of_option (Rs.store s !! e) in
      if negb (Info.frag_num (fg_info f) =? order_num) then Ret (None, q, [], free_rx_pkt e s)
      else
        letc f1 := of_option (Rs.store s !! first) in
        match pkt_put f1 (fg_len f) with
        | None => Ret (None, q, [], free_rx_pkt e s)
        | Some (_, f1) =>
            let f1 := mk_frag (Info.set_icv_len (Info.icv_len (fg_info f)) (fg_info f1)) (fg_len f1) (fg_pdata f1)
                        (fg_ptail f1) (fg_pend f1) in
            letc (r, q, cs, s) := recombine order_num first q (free_rx_pkt e (Rs.set_store (<[first := f1]> (Rs.store s)) s)) in
            Ret (r, q, (fg_ptail f1, fg_pdata f, fg_len f) :: cs, s)
        end
  end.

Definition rx_recombination (q : list nat) (s : Rs.rx_info) : C (option nat * list nat * list (Z * Z * Z) * Rs.rx_info) :=
  match q with
  | [] => Ret (None, [], [], s)
  | first :: q =>
      letc f := of_option (Rs.store s !! first) in
      if negb (Info.frag_num (fg_info f) =? 0) then Ret (None, q, [], free_rx_pkt first s)
      else recombine 0 first q s
  end.

(** The copy of the packet that is kept; [pend] is never set. *)
Definition frag_of (p : Pk.rx_pkt) : frag_pkt :=
  mk_frag (Pk.pkt_info p) (Pk.len p) (Pk.pskb p + Pk.pofs p) (Pk.pskb p + Pk.pofs p + Pk.len p) 0.

(** [rx_defrag]: what it returns is not used by its caller, so only the state
    and the copies matter. *)
Definition rx_defrag (a : Z) (p : Pk.rx_pkt) (s : Rs.rx_info) : C (list (Z * Z * Z) * Rs.rx_info) :=
  let n := node_of s a in
  let mfrag := Info.more_frag (Pk.pkt_info p) in
  let frag_num := Info.frag_num (Pk.pkt_info p) in
  match Rs.free_rx_pkt_list s with
  | [] => Ret ([], set_node_rx a (set_queue [] n) (free_rx_queue (defrag_q n) s))
  | e :: fl =>
      let s := Rs.set_store (<[e := frag_of p]> (Rs.store s)) (Rs.set_free_rx_pkt_list fl s) in
      if mfrag =? 0 then
        if frag_num =? 0 then Ret ([], s)
        else if defrag_flag n =? 1 then
          letc (_, q, cs, s) := rx_recombination (defrag_q n ++ [e]) s in
          Ret (cs, set_node_rx a (set_flag 0 (set_queue q n)) s)
        else Ret ([], s)
      else if mfrag =? 1 then
        if frag_num =? 0 then
          Ret ([], set_node_rx a (set_flag 1 (set_queue [e] n)) (free_rx_queue (defrag_q n) s))
        else if defrag_flag n =? 1 then Ret ([], set_node_rx a (set_queue (defrag_q n ++ [e]) n) s)
        else Ret ([], s)
      else Ret ([], s)
  end.

(** ** Frames *)

Section Frames.
Context {SC : StreamCipher}.
Context (nic : rx_nic).

(** The packet as the decryption sees it. *)
Definition sec_view (p : Pk.rx_pkt) : rx_sec_pkt :=
  let i := Pk.pkt_info p in
  mk_rx_sec_pkt (Pk.pdata p) (Pk.len p) (Info.wlan_hdr_len i) (Info.iv_len i) (Info.icv_len i) (Info.rx_addr i)
    (Info.tx_addr i) (Info.encrypt_algo i).

Definition rx_process_data_frame (p : Pk.rx_pkt) (s : Rs.rx_info) : C (Z * Pk.rx_pkt * Rs.rx_info) :=
  letc i := Rx.rx_parse_qos_ctrl_field (Pk.pdata p) (Pk.pkt_info p) in
  letc i := Rx.rx_parse_ht_ctrl_field (Pk.pdata p) i in
  let w := a ← Pk.wdn_info p; node_at (Rs.wdn s) a in
  letc i := Rx.set_encrypt_algo_num (rx_sec nic) w (Pk.pdata p) i in
  let p := Pk.set_pkt_info (Rx.set_iv_icv_len i) p in
  letc prot := Sec.GET_HDR_Protected (Pk.pdata p) in
  letc (ret, p, s) :=
    (if nz prot then
       letc (r, g, d, dec) := Sec.wf_sec_decryptor (Rs.crc s) (rx_sec nic) (Rs.wdn s) (sec_view p) in
       Ret (r, Pk.set_bdecrypted dec (Pk.set_pdata d p), Rs.set_crc g s)
     else Ret (0, p, s)) in
  if ret <? 0 then Ret (-1, p, s)
  else if (Info.more_frag (Pk.pkt_info p) =? 0) && (Info.frag_num (Pk.pkt_info p) =? 0) then Ret (ret, p, s)
  else
    letc a := of_option (Pk.wdn_info p) in
    letc (_, s) := rx_defrag a p s in
    Ret (-1, p, s).

(** The radiotap header.  [tsfl], [crc_err], [sgi], [bw] and [stbc] of the packet
    are never set, so they are zero. *)
Definition data_rate : list Z := [2; 4; 11; 22; 12; 18; 24; 36; 48; 72; 93; 108; 0; 1; 2; 3; 4; 5; 6; 7].

Definition radiotap (i : Info.rx_pkt_info) : list Z :=
  let rate := Info.rx_rate i in
  let mcs := (12 <=? rate) && (rate <? 20) in
  let present :=
    Z.lor (Z.lor (Z.lor (BIT 1) (if rate <? 12 then BIT 2 else 0)) (Z.lor (BIT 3) (BIT 5)))
          (Z.lor (Z.lor (BIT 11) (BIT 14)) (if mcs then BIT 19 else 0)) in
  let flags := Z.lor (Z.lor (if (Info.encrypt_algo i =? 1) || (Info.encrypt_algo i =? 5) then 0x04 else 0)
                            (if nz (Info.frag_num i) then 0x08 else 0)) 0x10 in
  let chan := Z.lor 0x0080 (if rate <? 12 then if rate <? 4 then 0x0020 else 0x0040 else 0x0400) in
  let body :=
    [flags; (if rate <? 12 then nthZ data_rate rate else 0)] ++ le_bytes 2 (Wlan.wf_ch_2_freq (channel nic)) ++
    le_bytes 2 chan ++ [0; 0; 0; 0] ++ (if mcs then [0x27; 0; nthZ data_rate rate] else []) in
  [0; 0] ++ le_bytes 2 (8 + Z.of_nat (length body)) ++ le_bytes 4 present ++ body.

Definition rx_process_monitor_frame (p : Pk.rx_pkt) : io ev (Z * Pk.rx_pkt) :=
  let h := radiotap (Pk.pkt_info p) in
  let! room := call (Headroom (Pk.pskb p)) in
  if u32 room <? Z.of_nat (length h) then iret (-1, p)
  else iret (0, Pk.set_front h p).

Definition wf_rx_common_process (p : Pk.rx_pkt) (s : Rs.rx_info) : io ev (Z * Pk.rx_pkt * Rs.rx_info) :=
  let! ta := lift (Rx.GetAddr2Ptr (Pk.pdata p)) in
  let a := Wdn.addr <$> Wdn.wf_wdn_find_info (Rs.wdn s) (Some ta) in
  let p := Pk.set_wdn_info a p in
  let s := match a with
           | Some a => let n := node_of s a in
                       set_node_rx a (mk_node_rx (u32 (rx_pkt_stat n + 1)) (defrag_q n) (defrag_flag n)) s
           | None => s
           end in
  if work_mode nic =? WF_MONITOR_MODE then
    let! (ret, p) := rx_process_monitor_frame p in iret (ret, p, s)
  else
    let! t := lift (GET_HDR_Type (Pk.pdata p)) in
    if t =? MAC_FRAME_TYPE_DATA then
      let w := a ← a; node_at (Rs.wdn s) a in
      let! (ret, w, i) := lift (Rx.rx_check_data_frame_valid (work_mode nic) (local nic) (Pk.pdata p) w (Pk.pkt_info p)) in
      let p := Pk.set_pkt_info i p in
      let s := match a, w with Some a, Some w => Rs.set_wdn (set_node (Rs.wdn s) a w) s | _, _ => s end in
      if ret <? 0 then iret (ret, p, s)
      else
        let s := Rs.set_rx_data_pkt (u64 (Rs.rx_data_pkt s + 1)) s in
        let! (ret, p, s) := lift (rx_process_data_frame p s) in
        if ret <? 0 then iret (ret, p, Rs.set_rx_drop (u64 (Rs.rx_drop s + 1)) s)
        else iret (ret, p, Rs.set_rx_pkts (u64 (Rs.rx_pkts s + 1))
                             (Rs.set_num_rx_ok_in_period (u32 (Rs.num_rx_ok_in_period s + 1)) s))
    else if t =? MAC_FRAME_TYPE_MGT then
      let! (ret, i) := lift (Rx.rx_check_mngt_frame_valid (work_mode nic) (local nic) (Pk.pdata p) (Pk.pkt_info p)) in
      let p := Pk.set_pkt_info i p in
      if ret <? 0 then iret (ret, p, s)
      else
        let! ret := call (MgmtRx (bytes p)) in
        iret (ret, p, if 0 <? ret then Rs.set_rx_mgnt_pkt (u64 (Rs.rx_mgnt_pkt s + 1)) s else s)
    else iret (0, p, s).

(** [junk] is the indeterminate [pskb] of the packet before it is cleared. *)
Definition mpdu_process (junk : Z) (buf : list Z) (buf_size : Z) (s : Rs.rx_info) : io ev Rs.rx_info :=
  let! t := lift (Rx.wf_rx_data_type buf) in
  if negb (t =? Rx.WF_PKT_TYPE_FRAME) then
    do! (if nz junk then call (FreeSkb junk) else iret 0) in iret s
  else
    let s := Rs.set_rx_bytes (u64 (Rs.rx_bytes s + buf_size)) (Rs.set_rx_total_pkts (u64 (Rs.rx_total_pkts s + 1)) s) in
    let! r := create_skb Pk.zero buf buf_size in
    match r with
    | None => iret s
    | Some p =>
        let! i := lift (Rx.wf_rx_rxd_prase (Pk.pdata p) (Pk.pkt_info p)) in
        let p := Pk.set_pkt_info i p in
        if Pk.len p <? Info.hif_hdr_len i then do! call (FreeSkb (Pk.pskb p)) in iret s
        else
          let! phy := lift (if nz (Info.phy_status i) then slice (Pk.pdata p) Rx.RXD_SIZE PHY_STATUS_SIZE else Ret []) in
          let! p := lift (pkt_pull p (Info.hif_hdr_len i)) in
          let! sg := lift (if nz (Info.phy_status i) then Rx.wf_rx_calc_str_and_qual (Info.rx_rate i) phy else Ret (0, 0)) in
          let! (ret, p, s) := wf_rx_common_process (Pk.set_signal sg p) s in
          if nz ret then do! call (FreeSkb (Pk.pskb p)) in iret s
          else if work_mode nic =? WF_MONITOR_MODE then do! upload_skb nic (Pk.pskb p) (bytes p) in iret s
          else
            let! t := lift (GET_HDR_Type (Pk.pdata p)) in
            if t =? MAC_FRAME_TYPE_DATA then
              do! (if ba_enable nic then rx_data_reorder_process nic p else rx_data_upload_process nic p) in iret s
            else do! call (FreeSkb (Pk.pskb p)) in iret s
    end.

(** The loop of [rx_work] over the rest of the bus's buffer, of which
    [remain_len] bytes are left; each pass has its own [junk].  A pass takes at
    least 64 bytes. *)
Fixpoint rx_loop (fuel : nat) (junk : nat -> Z) (pbuf : list Z) (remain_len : Z) (s : Rs.rx_info) : io ev Rs.rx_info :=
  match fuel with
  | O => ifault
  | S fuel =>
      let! (pkt_len, valid, _) := lift (Rx.wf_rx_get_pkt_len_and_check_valid pbuf (u16 remain_len)) in
      if negb valid then iret s
      else
        let! s := mpdu_process (junk fuel) pbuf pkt_len s in
        let once_len := u16 (WF_RND8 pkt_len) in
        let remain_len := remain_len - once_len in
        if 0 <? remain_len then rx_loop fuel junk (drop (Z.to_nat once_len) pbuf) remain_len s
        else iret s
  end.

(** [ready] is whether the device is up and its parts are there. *)
Definition rx_work (ready : bool) (junk : nat -> Z) (skb : list Z) (s : Rs.rx_info) : io ev (Z * Rs.rx_info) :=
  if negb ready then iret (-1, s)
  else
    let! s := rx_loop (S (length skb / 64)) junk skb (Z.of_nat (length skb)) s in
    iret (0, s).
End Frames.

(** [wf_rx_init]: the pool of packets; the reordering is [Reorder]'s. *)
Definition wf_rx_init (alloc_info alloc_pkts : bool) (s : Rs.rx_info) : Z * Rs.rx_info :=
  if negb alloc_info then (-1, s)
  else if negb alloc_pkts then (-1, s)
  else (0, Rs.mk_rx_info (Rs.wdn s) (Rs.crc s) (Rs.nodes s) (seq 0 MAX_PKT_NUM)
             (replicate MAX_PKT_NUM (mk_frag Info.zero 0 0 0 0)) 0 0 0 0 0 0 (Rs.num_rx_ok_in_period s)).

(** ** The Ethernet packet of a frame *)

(** The two SNAP headers, each with the types it stands for. *)
Definition snap_for (snap type : list Z) : Prop :=
  length type = 2%nat /\
  (snap = Wlan.wl_bridge_tunnel_header \/
   snap = Wlan.wl_rfc1042_header /\ type <> Wlan.SNAP_ETH_TYPE_IPX /\ type <> Wlan.SNAP_ETH_TYPE_APPLETALK_AARP).

Lemma slice_head a b n : n = Z.of_nat (length a) -> slice (a ++ b) 0 n = Ret a.
Proof. intros Hn. by apply (slice_app_mid []). Qed.

Lemma blit_head a b src : length src = length a -> blit (a ++ b) 0 src = Ret (src ++ b).
Proof. intros Hn. by apply (blit_app_mid []). Qed.

Lemma two (l : list Z) : length l = 2%nat -> exists a b, l = [a; b].
Proof. intros H. do 3 (destruct l as [| ? l]; try discriminate H). eauto. Qed.

Lemma type_neq (type : list Z) a b : length type = 2%nat -> type <> [a; b] -> Wlan.array_equal type [a; b] = false.
Proof.
  intros (x & y & ->)%two Hne. unfold Wlan.array_equal. cbn [Wlan.memcmp].
  destruct (Z.eqb_spec x a) as [-> |]; [destruct (Z.eqb_spec y b) as [-> |]; [done |] |]; apply Z.eqb_neq; lia.
Qed.

Lemma snap_found snap type rest : snap_for snap type -> Wlan.is_snap_hdr (snap ++ type ++ rest) = Ret true.
Proof.
  intros [Hl Hs]. unfold Wlan.is_snap_hdr. change Wlan.SNAP_HDR_SIZE with 6.
  assert (Hsl : length snap = 6%nat) by (destruct Hs as [-> | (-> & _)]; done).
  rewrite slice_head by (by rewrite Hsl).
  cbn [cbind]. destruct Hs as [-> | (-> & H1 & H2)].
  - reflexivity.
  - replace (Wlan.array_equal Wlan.wl_rfc1042_header Wlan.wl_rfc1042_header) with true by reflexivity.
    rewrite (slice_app_mid _ type) by (rewrite ?Hl; done). cbn [cbind].
    unfold Wlan.SNAP_ETH_TYPE_IPX, Wlan.SNAP_ETH_TYPE_APPLETALK_AARP in *. by rewrite !type_neq.
Qed.

(** A packet whose data is header, IV, SNAP header, type, payload and, when it
    was decrypted, an ICV. *)
Lemma eth_of_frame (p : Pk.rx_pkt) (h snap type payload icv : list Z) :
  let i := Pk.pkt_info p in
  Pk.pdata p = h ++ snap ++ type ++ payload ++ icv -> Pk.len p = Z.of_nat (length (Pk.pdata p)) -> Pk.len p < 2 ^ 31 ->
  Z.of_nat (length h) = Info.wlan_hdr_len i + Info.iv_len i -> 24 <= Info.wlan_hdr_len i -> 0 <= Info.iv_len i ->
  Info.wlan_hdr_len i + Info.iv_len i < 200 -> snap_for snap type ->
  (if Pk.bdecrypted p then Info.icv_len i = Z.of_nat (length icv) else icv = []) ->
  length (Info.dst_addr i) = 6%nat -> length (Info.src_addr i) = 6%nat -> Pk.front p = [] ->
  exists p', wlan_to_eth p = Ret (0, p') /\ bytes p' = Info.dst_addr i ++ Info.src_addr i ++ type ++ payload /\
    Pk.pskb p' = Pk.pskb p /\ Pk.pkt_info p' = i /\ Pk.wdn_info p' = Pk.wdn_info p.
Proof.
  intros i Hd Hlen H31 Hh Hw Hiv H200 Hs Hicv Hda Hsa Hf. destruct Hs as [Htl Hsn] eqn:Es. clear Es.
  assert (Hsl : length snap = 6%nat) by (destruct Hsn as [-> | (-> & _)]; done).
  set (q := if Pk.bdecrypted p then pkt_trim p (Info.icv_len i) else p).
  set (n := Z.of_nat (length (h ++ snap ++ type ++ payload))).
  assert (Hq : Pk.pdata q = Pk.pdata p /\ Pk.len q = n /\ Pk.pskb q = Pk.pskb p /\ Pk.pkt_info q = i /\
    Pk.wdn_info q = Pk.wdn_info p /\ Pk.front q = [] /\ Pk.pofs q = Pk.pofs p).
  { unfold q, n. rewrite Hlen, Hd, !length_app in *. destruct (Pk.bdecrypted p).
    - unfold pkt_trim. rewrite Hlen, Hicv.
      destruct (Z.ltb_spec (Z.of_nat (length h + (length snap + (length type + (length payload + length icv))))) (Z.of_nat (length icv))); [lia |].
      destruct (Z.eqb_spec (Z.of_nat (length icv)) 0) as [E |]; cbn; rewrite ?Hd, ?Hf, ?Hlen; split_and!; try done; lia.
    - subst icv. cbn [length] in *. rewrite ?Hd, ?Hf. split_and!; try done. lia. }
  destruct Hq as (Q1 & Q2 & Q3 & Q4 & Q5 & Q6 & Q7).
  unfold wlan_to_eth. fold i. fold q. clearbody q.
  rewrite Q2. destruct (Z.eqb_spec n (Info.wlan_hdr_len i)) as [E |]; [unfold n in E; rewrite !length_app in E; lia |].
  rewrite (u8_id (Info.wlan_hdr_len i + Info.iv_len i)) by (unfold is_u8; lia).
  rewrite Q1, Hd. rewrite <- Hh, Nat2Z.id, drop_app_length. rewrite snap_found by done. cbn [cbind].
  unfold Wlan.SNAP_HDR_SIZE. rewrite (u8_id (Z.of_nat (length h) + 6)) by (unfold is_u8; lia).
  assert (Hn : n = Z.of_nat (length h) + 6 + 2 + Z.of_nat (length payload)) by (unfold n; rewrite !length_app; lia).
  destruct (Z.ltb_spec n (Z.of_nat (length h) + 6)); [lia |].
  rewrite (app_assoc h). rewrite slice_app_mid by (rewrite ?length_app; lia). cbn [cbind].
  unfold pkt_pull. cbn [Pk.len Pk.set_eth_type]. rewrite Q2. rewrite u32_id by (unfold is_u32; lia).
  destruct (Z.ltb_spec n (Z.of_nat (length h) + 6 - 14 + 2)); [lia |]. cbn [cbind Pk.pdata Pk.set_pofs Pk.set_pdata Pk.set_len Pk.set_eth_type].
  rewrite Q1, Hd.
  assert (Hdrop : exists e, length e = 12%nat /\
    drop (Z.to_nat (Z.of_nat (length h) + 6 - 14 + 2)) (h ++ snap ++ type ++ payload ++ icv) = e ++ type ++ payload ++ icv).
  { exists (drop (Z.to_nat (Z.of_nat (length h) + 6 - 14 + 2)) (h ++ snap)). split; [rewrite length_drop, length_app; lia |].
    rewrite (app_assoc h), drop_app_le by (rewrite length_app; lia). done. }
  destruct Hdrop as (e & He & ->).
  rewrite <- (take_drop 6 e), <- app_assoc.
  rewrite blit_head by (rewrite length_take; lia). cbn [cbind].
  rewrite blit_app_mid by (rewrite ?length_drop; lia). cbn [cbind].
  eexists. split; [reflexivity |]. unfold bytes.
  cbn [Pk.front Pk.len Pk.pdata Pk.pskb Pk.pkt_info Pk.wdn_info Pk.set_pdata Pk.set_pofs Pk.set_len Pk.set_eth_type].
  rewrite ?Q2, ?Q3, ?Q4, ?Q5, ?Q6. split_and!; try done. cbn [app].
  rewrite (app_assoc type), (app_assoc (Info.src_addr i)), (app_assoc (Info.dst_addr i)).
  rewrite take_app_le by (rewrite !length_app; lia). rewrite take_ge by (rewrite !length_app; lia). done.
Qed.

(** ** A frame that is for this device *)

(** The cipher of a frame: that of the link, group or pairwise, when the frame is
    protected. *)
Definition cipher_of (sec : sec_info_st) (w : Wi.wdn_net_info_st) (ra : list Z) (prot : bool) : Z :=
  if negb prot then _NO_PRIVACY_
  else if dot11AuthAlgrthm sec =? dot11AuthAlgrthm_8021X then
    if IS_MCAST ra then u8 (dot118021XGrpPrivacy sec) else u8 (Wi.dot118021XPrivacy w)
  else u8 (dot11PrivacyAlgrthm sec).

(** The bytes of IV and ICV by cipher. *)
Definition iv_icv (a : Z) : Z * Z :=
  if a =? _NO_PRIVACY_ then (0, 0)
  else if (a =? _WEP40_) || (a =? _WEP104_) then (4, 4)
  else if a =? _TKIP_ then (8, 4)
  else if a =? _AES_ then (8, 0)
  else if a =? _SMS4_ then (18, 16)
  else (0, 0).

Lemma iv_icv_eq i : Rx.set_iv_icv_len i =
  Info.set_icv_len (iv_icv (Info.encrypt_algo i)).2 (Info.set_iv_len (iv_icv (Info.encrypt_algo i)).1 i).
Proof. unfold Rx.set_iv_icv_len, iv_icv. by repeat case_match; simplify_eq. Qed.

Lemma iv_icv_range a : 0 <= (iv_icv a).1 <= 18 /\ 0 <= (iv_icv a).2 <= 16.
Proof. unfold iv_icv. repeat case_match; cbn; lia. Qed.

Section Header.
Context (b0 b1 d0 d1 : Z) (a1 a2 a3 rest : list Z).
Context (Ha1 : length a1 = 6%nat) (Ha2 : length a2 = 6%nat) (Ha3 : length a3 = 6%nat).
Let frame := Rx.frame_bytes b0 b1 d0 d1 a1 a2 a3 rest.
Let fc := Rx.frame_control b0 b1.

Lemma type_frame : GET_HDR_Type frame = Ret (Z.land fc 0x0C).
Proof. unfold GET_HDR_Type, frame. by rewrite Rx.hdr_frame. Qed.

Lemma priv_frame : Rx.GetPrivacy frame = Ret (Z.testbit fc 14).
Proof. unfold Rx.GetPrivacy, frame. rewrite Rx.hdr_frame by done. cbn [cbind]. unfold Rx.PRIVACY. by rewrite land_BIT. Qed.

Lemma prot_frame : exists v, Sec.GET_HDR_Protected frame = Ret v /\ nz v = Z.testbit fc 14.
Proof.
  eexists. split.
  - unfold Sec.GET_HDR_Protected. unfold frame, Rx.frame_bytes.
    change ([b0; b1; d0; d1] ++ ?l) with ([b0; b1] ++ d0 :: d1 :: l). rewrite slice_head by done. reflexivity.
  - unfold Sec.PROTECTED. rewrite land_BIT by lia. f_equal. cbn [le_word]. unfold fc, Rx.frame_control. lia.
Qed.

(** Three addresses and no HT control: 24 bytes, and two more under QoS. *)
Definition parsed (i : Info.rx_pkt_info) (q : Z) : Info.rx_pkt_info :=
  if nz (Info.qos_flag i)
  then Info.set_wlan_hdr_len 26 (Info.set_amsdu (Z.land (Z.shiftr q 7) 1)
         (Info.set_ack_policy (Z.land (Z.shiftr q 5) 3) (Info.set_qos_pri (Z.land q 15) (Info.set_wlan_hdr_len 24 i))))
  else Info.set_amsdu 0 (Info.set_ack_policy 0 (Info.set_qos_pri 0 (Info.set_wlan_hdr_len 24 i))).

Lemma parse_frame i s0 s1 q0 q1 body :
  rest = s0 :: s1 :: q0 :: q1 :: body -> Z.testbit fc 8 && Z.testbit fc 9 = false -> Z.testbit fc 15 = false ->
  (letc i := Rx.rx_parse_qos_ctrl_field frame i in Rx.rx_parse_ht_ctrl_field frame i) = Ret (parsed i (q0 + 256 * q1)).
Proof using Ha1 Ha2 Ha3.
  intros Hrest Hfour Hord. unfold Rx.rx_parse_qos_ctrl_field, Rx.GET_HDR_SubTpye, frame.
  rewrite Rx.ds_frame, Rx.hdr_frame by done. cbn [cbind].
  rewrite Rx.subtype_qos, Rx.ds_four. fold fc. rewrite Hfour.
  assert (Hht : forall j, Rx.rx_parse_ht_ctrl_field (Rx.frame_bytes b0 b1 d0 d1 a1 a2 a3 rest) j = Ret j).
  { intros j. unfold Rx.rx_parse_ht_ctrl_field, Rx.GET_HDR_Order. rewrite Rx.hdr_frame by done. cbn [cbind]. fold fc.
    unfold Rx.ORDER. by rewrite land_BIT, Hord. }
  assert (Hq : Rx.hdr (Rx.frame_bytes b0 b1 d0 d1 a1 a2 a3 rest) 24 = Ret (q0 + 256 * q1)).
  { unfold Rx.hdr, Rx.frame_bytes. rewrite Hrest, !app_assoc.
    match goal with |- context [slice (?p ++ s0 :: s1 :: q0 :: q1 :: body)] =>
      change (p ++ s0 :: s1 :: q0 :: q1 :: body) with (p ++ [s0; s1] ++ [q0; q1] ++ body) end.
    rewrite app_assoc. rewrite slice_app_mid; [| rewrite !length_app; cbn [length]; rewrite Ha1, Ha2, Ha3; done | done].
    cbn [cbind le_word]. do 2 f_equal. lia. }
  unfold parsed. cbn [Info.qos_flag Info.set_wlan_hdr_len]. destruct (nz (Info.qos_flag i)); [rewrite Hq |]; cbn [cbind];
    by rewrite Hht.
Qed.
End Header.

Lemma pk_same p : Pk.set_bdecrypted (Pk.bdecrypted p) (Pk.set_pdata (Pk.pdata p) p) = p.
Proof. by destruct p. Qed.

(** The fields of the packet's description after each step. *)
Lemma cipher_fields c i : let j := Rx.set_iv_icv_len (Info.set_encrypt_algo c i) in
  Info.rx_addr j = Info.rx_addr i /\ Info.tx_addr j = Info.tx_addr i /\ Info.dst_addr j = Info.dst_addr i /\
  Info.src_addr j = Info.src_addr i /\ Info.encrypt_algo j = c /\ Info.iv_len j = (iv_icv c).1 /\
  Info.icv_len j = (iv_icv c).2 /\ Info.wlan_hdr_len j = Info.wlan_hdr_len i /\ Info.qos_flag j = Info.qos_flag i /\
  Info.qos_pri j = Info.qos_pri i /\ Info.seq_num j = Info.seq_num i /\ Info.frag_num j = Info.frag_num i /\
  Info.more_frag j = Info.more_frag i.
Proof. cbn zeta. rewrite iv_icv_eq. destruct i. cbn. by destruct (iv_icv c). Qed.

Lemma parsed_fields i q : let j := parsed i q in
  Info.rx_addr j = Info.rx_addr i /\ Info.tx_addr j = Info.tx_addr i /\ Info.dst_addr j = Info.dst_addr i /\
  Info.src_addr j = Info.src_addr i /\ Info.wlan_hdr_len j = (if nz (Info.qos_flag i) then 26 else 24) /\
  Info.qos_flag j = Info.qos_flag i /\ Info.qos_pri j = (if nz (Info.qos_flag i) then Z.land q 15 else 0) /\
  Info.seq_num j = Info.seq_num i /\ Info.frag_num j = Info.frag_num i /\ Info.more_frag j = Info.more_frag i.
Proof. cbn zeta. unfold parsed. destruct i. cbn. by case_match. Qed.

Lemma addressed_fields a1 a2 a3 mode i : TxFrame.transmits mode -> let j := Rx.addressed a1 a2 a3 mode i in
  Info.rx_addr j = a1 /\ Info.tx_addr j = a2 /\
  (Info.dst_addr j, Info.src_addr j) =
    (if mode =? Rx.WF_INFRA_MODE then (a1, a3) else if mode =? Rx.WF_MASTER_MODE then (a3, a2) else (a1, a2)) /\
  Info.qos_flag j = Info.qos_flag i /\ Info.seq_num j = Info.seq_num i /\ Info.frag_num j = Info.frag_num i /\
  Info.more_frag j = Info.more_frag i.
Proof. intros [-> | [-> | ->]]; destruct i; by cbn. Qed.

Section Accepted.
Context {SC : StreamCipher}.
Context (nic : rx_nic) (b0 b1 d0 d1 s0 s1 q0 q1 : Z) (a1 a2 a3 body : list Z).
Context (Ha1 : length a1 = 6%nat) (Ha2 : length a2 = 6%nat) (Ha3 : length a3 = 6%nat).
Let frame := Rx.frame_bytes b0 b1 d0 d1 a1 a2 a3 (s0 :: s1 :: q0 :: q1 :: body).
Let fc := Rx.frame_control b0 b1.
Let mode := work_mode nic.
Context (tb : Wdn.wdn_list) (n : Wdn.wdn_node_st) (i : Info.rx_pkt_info).

(** A data frame with three addresses and no HT control, from a node in the
    table, that the work mode accepts and that is neither a retry nor a
    fragment. *)
Record accepted : Prop := {
  ac_mode : TxFrame.transmits mode;
  ac_type : Z.land fc 0x0C = MAC_FRAME_TYPE_DATA;
  ac_three : Z.testbit fc 8 && Z.testbit fc 9 = false;
  ac_order : Z.testbit fc 15 = false;
  ac_addrs : NoDup (Wdn.addr <$> Wdn.head tb);
  ac_node : Wdn.wf_wdn_find_info tb (Some a2) = Some n;
  ac_rec : length (Wi.seq_ctrl_recorder (Wdn.info n)) = 16%nat;
  ac_pri : 0 <= Info.qos_pri i <= 15;
  ac_accepts : Rx.accepts b0 b1 a1 a2 a3 mode (local nic) (Wi.bssid (Wdn.info n)) = true;
  ac_retry : Rx.is_retry_of b0 b1 (Wdn.info n) i = false;
  ac_frag : Info.frag_num i = 0 /\ Info.more_frag i = 0;
}.

(** The node, and the table, after the frame. *)
Definition node_after : Wi.wdn_net_info_st :=
  Wi.set_seq_ctrl_recorder (setZ (Wi.seq_ctrl_recorder (Wdn.info n)) (Info.qos_pri i) (Rx.seq_ctrl_of i)) (Wdn.info n).
Definition table_after : Wdn.wdn_list := set_node tb (Wdn.addr n) node_after.

(** What the driver notes of the frame. *)
Definition cipher : Z := cipher_of (rx_sec nic) (Wdn.info n) a1 (Z.testbit fc 14).
Definition noted : Info.rx_pkt_info :=
  Rx.set_iv_icv_len (Info.set_encrypt_algo cipher (parsed (Rx.addressed a1 a2 a3 mode i) (q0 + 256 * q1))).
Definition packet (p : Pk.rx_pkt) : Pk.rx_pkt := Pk.set_pkt_info noted (Pk.set_wdn_info (Some (Wdn.addr n)) p).

Lemma noted_addrs : TxFrame.transmits mode -> Info.rx_addr noted = a1 /\ Info.tx_addr noted = a2 /\
  (Info.dst_addr noted, Info.src_addr noted) =
    (if mode =? Rx.WF_INFRA_MODE then (a1, a3) else if mode =? Rx.WF_MASTER_MODE then (a3, a2) else (a1, a2)).
Proof using Type.
  clear. intros Hm. unfold noted. destruct (cipher_fields cipher (parsed (Rx.addressed a1 a2 a3 mode i) (q0 + 256 * q1)))
    as (-> & -> & -> & -> & _). destruct (parsed_fields (Rx.addressed a1 a2 a3 mode i) (q0 + 256 * q1)) as (-> & -> & -> & -> & _).
  destruct (addressed_fields a1 a2 a3 mode i Hm) as (-> & -> & -> & _). done.
Qed.

Lemma noted_rest : TxFrame.transmits mode ->
  Info.encrypt_algo noted = cipher /\ Info.iv_len noted = (iv_icv cipher).1 /\ Info.icv_len noted = (iv_icv cipher).2 /\
  Info.wlan_hdr_len noted = (if nz (Info.qos_flag i) then 26 else 24) /\ Info.qos_flag noted = Info.qos_flag i /\
  Info.qos_pri noted = (if nz (Info.qos_flag i) then Z.land (q0 + 256 * q1) 15 else 0) /\
  Info.seq_num noted = Info.seq_num i /\ Info.frag_num noted = Info.frag_num i /\ Info.more_frag noted = Info.more_frag i.
Proof using Type.
  clear. intros Hm. unfold noted. destruct (cipher_fields cipher (parsed (Rx.addressed a1 a2 a3 mode i) (q0 + 256 * q1)))
    as (_ & _ & _ & _ & -> & -> & -> & -> & -> & -> & -> & -> & ->).
  destruct (parsed_fields (Rx.addressed a1 a2 a3 mode i) (q0 + 256 * q1)) as (_ & _ & _ & _ & -> & -> & -> & -> & -> & ->).
  destruct (addressed_fields a1 a2 a3 mode i Hm) as (_ & _ & _ & -> & -> & -> & ->). done.
Qed.

Lemma node_table : accepted -> node_at tb (Wdn.addr n) = Some (Wdn.info n) /\
  node_at table_after (Wdn.addr n) = Some node_after /\
  Wdn.wf_wdn_find_info table_after (Some a2) = Some (Wdn.mk_node (Wdn.addr n) node_after).
Proof using Type.
  clear. intros Hac. destruct Hac as [_ _ _ _ Hnd Hf _ _ _ _ _]. destruct (TxFrame.find_head _ _ _ Hf) as [Hin Hmac].
  split; [by apply TxFrame.node_at_head |].
  assert (E : Wdn.wf_wdn_find_info table_after (Some a2) = Some (Wdn.mk_node (Wdn.addr n) node_after))
    by (by apply TxFrame.find_set_node).
  split; [| done]. apply TxFrame.find_head in E as [E _].
  change (Wdn.addr n) with (Wdn.addr (Wdn.mk_node (Wdn.addr n) node_after)) at 1.
  rewrite TxFrame.node_at_head; [done | by unfold table_after; rewrite TxFrame.set_node_addrs | done].
Qed.

(** [rx_process_data_frame] on the frame. *)
Lemma process_accepted (p : Pk.rx_pkt) (st : Rs.rx_info) (g : crc_globals) (plain : list Z) : accepted -> Pk.pkt_info p = i -> Pk.pdata p = frame ->
  Rs.wdn st = table_after ->
  (if Z.testbit fc 14
   then Sec.wf_sec_decryptor (Rs.crc st) (rx_sec nic) table_after (sec_view (packet p)) = Ret (0, g, plain, true)
   else plain = frame) ->
  rx_process_data_frame nic
      (Pk.set_pkt_info (Rx.addressed a1 a2 a3 mode i) (Pk.set_wdn_info (Some (Wdn.addr n)) p)) st =
    Ret (0, Pk.set_bdecrypted (Z.testbit fc 14 || Pk.bdecrypted p) (Pk.set_pdata plain (packet p)),
         if Z.testbit fc 14 then Rs.set_crc g st else st).
Proof using Ha1 Ha2 Ha3.
  intros Hac Hi Hd Hw Hdec. destruct (node_table Hac) as (_ & Hn & _). pose proof (ac_mode Hac) as Hm.
  destruct (noted_rest Hm) as (_ & _ & _ & _ & _ & _ & _ & N1 & N2). destruct (ac_frag Hac) as [F1 F2].
  unfold rx_process_data_frame. cbn [Pk.pdata Pk.pkt_info Pk.set_pkt_info Pk.set_wdn_info Pk.wdn_info]. rewrite Hd.
  pose proof (parse_frame b0 b1 d0 d1 a1 a2 a3 _ Ha1 Ha2 Ha3 (Rx.addressed a1 a2 a3 mode i) s0 s1 q0 q1 body eq_refl
    (ac_three Hac) (ac_order Hac)) as Hp. fold frame in Hp.
  destruct (Rx.rx_parse_qos_ctrl_field _ _) as [j | |]; cbn [cbind] in Hp; try discriminate. cbn [cbind].
  rewrite Hp. cbn [cbind]. rewrite Hw. cbn [mbind option_bind]. rewrite Hn.
  assert (He : Rx.set_encrypt_algo_num (rx_sec nic) (Some node_after) frame
      (parsed (Rx.addressed a1 a2 a3 mode i) (q0 + 256 * q1)) =
    Ret (Info.set_encrypt_algo cipher (parsed (Rx.addressed a1 a2 a3 mode i) (q0 + 256 * q1)))).
  { unfold Rx.set_encrypt_algo_num. unfold frame. rewrite priv_frame by done. cbn [cbind]. fold fc.
    destruct (parsed_fields (Rx.addressed a1 a2 a3 mode i) (q0 + 256 * q1)) as (-> & _).
    destruct (addressed_fields a1 a2 a3 mode i Hm) as (-> & _).
    unfold cipher, cipher_of. destruct (Z.testbit fc 14); cbn [negb]; [| done].
    destruct (dot11AuthAlgrthm (rx_sec nic) =? dot11AuthAlgrthm_8021X); [| done]. by destruct (IS_MCAST a1). }
  fold frame. rewrite He. cbn [cbind]. fold noted.
  change (Pk.set_pkt_info noted (Pk.set_pkt_info ?x ?y)) with (packet p).
  assert (Hpd : Pk.pdata (packet p) = frame) by exact Hd.
  destruct (prot_frame b0 b1 d0 d1 a1 a2 a3 (s0 :: s1 :: q0 :: q1 :: body) Ha1 Ha2 Ha3) as (v & Hv & Hnz). fold frame in Hv.
  rewrite Hv. cbn [cbind]. rewrite Hnz. fold fc.
  destruct (Z.testbit fc 14).
  - rewrite Hdec. cbn [cbind]. change (Pk.pkt_info (Pk.set_bdecrypted _ _)) with noted. by rewrite N1, N2, F1, F2.
  - cbn [cbind]. change (Pk.pkt_info (packet p)) with noted. rewrite N1, N2, F1, F2. cbn [Z.ltb Z.compare Z.eqb andb orb].
    rewrite Hdec, <- Hpd. by rewrite (pk_same (packet p) : Pk.set_bdecrypted (Pk.bdecrypted p) _ = _).
Qed.

(** [wf_rx_common_process] accepts it and counts it. *)
Lemma common_accepted (p : Pk.rx_pkt) (s : Rs.rx_info) (g : crc_globals) (plain : list Z) : accepted -> Rs.wdn s = tb ->
  Pk.pkt_info p = i -> Pk.pdata p = frame ->
  (if Z.testbit fc 14
   then Sec.wf_sec_decryptor (Rs.crc s) (rx_sec nic) table_after (sec_view (packet p)) = Ret (0, g, plain, true)
   else plain = frame) ->
  exists s', wf_rx_common_process nic p s =
    iret (0, Pk.set_bdecrypted (Z.testbit fc 14 || Pk.bdecrypted p) (Pk.set_pdata plain (packet p)), s') /\
    Rs.wdn s' = table_after /\ Rs.crc s' = (if Z.testbit fc 14 then g else Rs.crc s) /\
    Rs.rx_pkts s' = u64 (Rs.rx_pkts s + 1) /\ Rs.rx_drop s' = Rs.rx_drop s.
Proof using Ha1 Ha2 Ha3.
  intros Hac Hw Hi Hd Hdec. pose proof (ac_mode Hac) as Hm. destruct (node_table Hac) as (Hn & _).
  unfold wf_rx_common_process. rewrite Hd. unfold frame at 1. rewrite Rx.addr2_frame by done. cbn [lift ibind].
  rewrite Hw, (ac_node Hac). cbn [fmap option_fmap option_map].
  assert (Hmon : (work_mode nic =? WF_MONITOR_MODE) = false) by (fold mode; by destruct Hm as [-> | [-> | ->]]).
  rewrite Hmon. cbn [Pk.pdata Pk.set_wdn_info]. rewrite Hd. unfold frame at 1. rewrite type_frame by done. cbn [lift ibind].
  fold fc. rewrite (ac_type Hac). cbn [Z.eqb Pos.eqb MAC_FRAME_TYPE_DATA mbind option_bind].
  cbn [Rs.wdn set_node_rx Rs.set_nodes]. rewrite Hw, Hn. cbn [Pk.pkt_info Pk.set_wdn_info]. rewrite Hi.
  destruct (Rx.data_frame_cases b0 b1 d0 d1 a1 a2 a3 (s0 :: s1 :: q0 :: q1 :: body) Ha1 Ha2 Ha3 mode (local nic)
    (Wdn.info n) i (ac_rec Hac) (ac_pri Hac)) as (r & w' & i' & Hv & [_ Hr] & _ & Hok & _).
  rewrite (Hr (conj (ac_accepts Hac) (ac_retry Hac))) in *. destruct (Hok eq_refl) as [-> ->].
  fold frame in Hv. fold mode. rewrite Hv. cbn [lift ibind Z.ltb Z.compare].
  match goal with |- context [rx_process_data_frame nic _ ?st] =>
    rewrite (process_accepted p st g plain Hac Hi Hd eq_refl Hdec) end.
  cbn [lift ibind Z.ltb Z.compare].
  eexists. split; [reflexivity |]. by destruct (Z.testbit fc 14).
Qed.
End Accepted.

(** ** From the bus to the operating system *)

(** What [wf_rx_rxd_prase] notes of a descriptor. *)
Definition info_of (r : Rx.rxd_detail_new) : Info.rx_pkt_info :=
  Info.set_rx_rate (Rx.calc_rx_rate (Rx.rx_rate r)) (Info.set_qos_pri (Rx.tid r)
    (Info.set_hif_hdr_len (u8 (Rx.RXD_SIZE + Rx.drvinfo_size r * 8)) (Info.set_phy_status (Rx.phy_status r)
      (Info.set_usb_agg_pktnum (Rx.usb_agg_pktnum r) (Info.set_encrypt_algo (Rx.encrypt_algo r)
        (Info.set_more_frag (Rx.more_frag r) (Info.set_frag_num (Rx.frag r) (Info.set_more_data (Rx.more_data r)
          (Info.set_qos_flag (Rx.qos r) (Info.set_amsdu (Rx.amsdu r) (Info.set_pkt_len (Rx.pkt_len r)
            (Info.set_seq_num (Rx.seq r) Info.zero)))))))))))).

Lemma prase_info buf r : Rx.rxd_of buf = Ret r -> Rx.wf_rx_rxd_prase buf Info.zero = Ret (info_of r).
Proof. intros H. unfold Rx.wf_rx_rxd_prase. by rewrite H. Qed.

Lemma str_qual_ret rate rps : 14 <= Z.of_nat (length rps) -> exists x, Rx.wf_rx_calc_str_and_qual rate rps = Ret x.
Proof. intros H. unfold Rx.wf_rx_calc_str_and_qual. rewrite !rd_nthZ by lia. cbn [cbind]. case_match; eauto. Qed.

(** The packet when the frame's processing begins. *)
Definition pulled (r : Rx.rxd_detail_new) (skb : Z) (frame : list Z) (sg : Z * Z) : Pk.rx_pkt :=
  Pk.mk_pkt skb 56 frame (Z.of_nat (length frame)) [] (info_of r) false 0 sg None.

(** The counters of a buffer that was taken. *)
Definition counted (n : Z) (s : Rs.rx_info) : Rs.rx_info :=
  Rs.set_rx_bytes (u64 (Rs.rx_bytes s + n)) (Rs.set_rx_total_pkts (u64 (Rs.rx_total_pkts s + 1)) s).

(** What follows [wf_rx_common_process]. *)
Definition finish (nic : rx_nic) (ret : Z) (p : Pk.rx_pkt) (s : Rs.rx_info) : io ev Rs.rx_info :=
  if nz ret then do! call (FreeSkb (Pk.pskb p)) in iret s
  else if work_mode nic =? WF_MONITOR_MODE then do! upload_skb nic (Pk.pskb p) (bytes p) in iret s
  else
    let! t := lift (GET_HDR_Type (Pk.pdata p)) in
    if t =? MAC_FRAME_TYPE_DATA then
      do! (if ba_enable nic then rx_data_reorder_process nic p else rx_data_upload_process nic p) in iret s
    else do! call (FreeSkb (Pk.pskb p)) in iret s.

(** A buffer with a descriptor, 32 bytes of driver information and a frame, in
    front of other buffers. *)
Lemma mpdu_split {SC : StreamCipher} nic junk desc frame post r s n :
  length desc = 56%nat -> Rx.rxd_of (desc ++ frame) = Ret r -> Rx.drvinfo_size r = 4 ->
  Rx.wf_rx_data_type (desc ++ frame ++ post) = Ret Rx.WF_PKT_TYPE_FRAME ->
  n = Z.of_nat (length (desc ++ frame)) -> n < 2 ^ 31 ->
  exists sg k, mpdu_process nic junk (desc ++ frame ++ post) n s = icall (AllocSkb (n + 14)) k /\
    k 0 = iret (counted n s) /\
    forall skb, skb <> 0 -> k skb =
      (let! (ret, p, s) := wf_rx_common_process nic (pulled r skb frame sg) (counted n s) in finish nic ret p s).
Proof.
  intros Hl Hr Hdv Ht -> Hn.
  assert (Hrate : exists sg, (if nz (Info.phy_status (info_of r)) then
      letc phy := slice (desc ++ frame) Rx.RXD_SIZE PHY_STATUS_SIZE in
      Rx.wf_rx_calc_str_and_qual (Info.rx_rate (info_of r)) phy else Ret (0, 0)) = Ret sg).
  { destruct (nz _); [| eauto]. unfold Rx.RXD_SIZE, PHY_STATUS_SIZE.
    rewrite slice_Ret by (rewrite ?length_app; lia). cbn [cbind]. apply str_qual_ret.
    rewrite length_take, length_drop, length_app. lia. }
  destruct Hrate as [sg Hsg]. exists sg. unfold mpdu_process, create_skb. rewrite Ht. cbn [lift ibind].
  change (negb (Rx.WF_PKT_TYPE_FRAME =? Rx.WF_PKT_TYPE_FRAME)) with false. cbn match.
  rewrite u32_id by (unfold is_u32; lia). unfold call. cbn [ibind]. eexists. split; [reflexivity |]. split; [done |].
  intros skb Hskb. unfold nz. apply Z.eqb_neq in Hskb. rewrite Hskb. cbn [negb ibind].
  rewrite app_assoc, slice_head by done. cbn [lift ibind].
  set (p0 := Pk.set_pskb skb _). change (Pk.pdata p0) with (desc ++ frame). change (Pk.pkt_info p0) with Info.zero.
  rewrite (prase_info _ r) by done. cbn [lift ibind]. set (i := info_of r) in *.
  assert (Hh : Info.hif_hdr_len i = 56) by (unfold i, info_of; cbn [Info.hif_hdr_len]; by rewrite Hdv).
  rewrite Hh. change (Pk.len (Pk.set_pkt_info i p0)) with (Z.of_nat (length (desc ++ frame))).
  change (Pk.pdata (Pk.set_pkt_info i p0)) with (desc ++ frame).
  destruct (Z.ltb_spec (Z.of_nat (length (desc ++ frame))) 56); [rewrite length_app in *; lia |].
  assert (Hpull : pkt_pull (Pk.set_pkt_info i p0) 56 = Ret (Pk.mk_pkt skb 56 frame (Z.of_nat (length frame)) [] i false 0 (0, 0) None)).
  { unfold pkt_pull. change (Pk.len (Pk.set_pkt_info i p0)) with (Z.of_nat (length (desc ++ frame))).
    rewrite u32_id by (unfold is_u32; lia). destruct (Z.ltb_spec (Z.of_nat (length (desc ++ frame))) 56); [lia |].
    unfold p0. f_equal. cbn.
    assert (Hdr : drop (Z.to_nat 56) (desc ++ frame) = frame) by (change (Z.to_nat 56) with 56%nat; by rewrite <- Hl, drop_app_length).
    change (drop _ (desc ++ frame)) with (drop (Z.to_nat 56) (desc ++ frame)). rewrite Hdr.
    replace (Z.of_nat (length (desc ++ frame)) - 56) with (Z.of_nat (length frame)) by (rewrite length_app; lia). done. }
  rewrite Hpull. fold (nz (Info.phy_status i)).
  destruct (nz (Info.phy_status i)).
  - destruct (slice (desc ++ frame) Rx.RXD_SIZE PHY_STATUS_SIZE) as [phy | |]; cbn [cbind] in Hsg; try discriminate.
    cbn [lift ibind]. rewrite Hsg. reflexivity.
  - injection Hsg as <-. reflexivity.
Qed.

(** The packets a run hands to the network stack or to the reordering. *)
Definition got (tr : list (ev * Z)) : list (list Z) :=
  omap (fun '(e, _) => match e with NetifRx _ pkt | ReorderCore _ _ _ _ pkt => Some pkt | _ => None end) tr.

(** Whether a packet to [dst] is for this interface. *)
Definition for_me (nic : rx_nic) (dst : list Z) : bool :=
  bytes_eqb (dev_addr nic) dst || (negb (work_mode nic =? Rx.WF_MASTER_MODE) && IS_MCAST dst).

Lemma upload_for_me nic skb dst pkt : TxFrame.transmits (work_mode nic) -> length dst = 6%nat -> for_me nic dst = true ->
  wp (upload_skb nic skb (dst ++ pkt)) (fun tr _ => got tr = [dst ++ pkt]).
Proof.
  intros Hm Hl Hf. unfold upload_skb, for_me in *. rewrite slice_head by (by rewrite Hl). cbn [lift ibind].
  destruct Hm as [E | [E | E]]; rewrite E in *;
    cbn [Z.eqb Pos.eqb Rx.WF_INFRA_MODE Rx.WF_MASTER_MODE Rx.WF_ADHOC_MODE WF_MONITOR_MODE orb negb andb] in *.
  - rewrite Hf. by intros r.
  - rewrite orb_false_r in Hf. rewrite Hf. by intros r.
  - rewrite Hf. by intros r.
Qed.

(** A packet that [wlan_to_eth] makes an Ethernet packet for this interface is
    handed over, at once or through the reordering. *)
Lemma reorder_hands nic p p' dst pkt a : TxFrame.transmits (work_mode nic) ->
  Pk.wdn_info p = Some a -> Info.qos_pri (Pk.pkt_info p) <= 15 ->
  wlan_to_eth p = Ret (0, p') -> bytes p' = dst ++ pkt -> length dst = 6%nat -> for_me nic dst = true ->
  wp (rx_data_reorder_process nic p) (fun tr _ => got tr = [dst ++ pkt]).
Proof.
  intros Hm Hw Hp He Hb Hl Hf. unfold rx_data_reorder_process. rewrite Hw.
  destruct (Z.ltb_spec 15 (Info.qos_pri (Pk.pkt_info p))); [lia |].
  rewrite He. cbn [lift ibind Z.ltb Z.compare]. rewrite Hb.
  pose proof (upload_for_me nic (Pk.pskb p') dst pkt Hm Hl Hf) as Hu.
  destruct (_ =? 0); [done |]. unfold call. cbn [ibind]. intros on. destruct (negb (nz on)); [exact Hu |].
  by intros r.
Qed.

Section Delivered.
Context {SC : StreamCipher}.
Context (nic : rx_nic) (r : Rx.rxd_detail_new) (b0 b1 d0 d1 s0 s1 q0 q1 : Z) (a1 a2 a3 body desc post : list Z).
Context (Ha1 : length a1 = 6%nat) (Ha2 : length a2 = 6%nat) (Ha3 : length a3 = 6%nat).
Let frame := Rx.frame_bytes b0 b1 d0 d1 a1 a2 a3 (s0 :: s1 :: q0 :: q1 :: body).
Let prot := Z.testbit (Rx.frame_control b0 b1) 14.
Let i := info_of r.

(** The buffer from the bus: descriptor, driver information and frame. *)
Record from_bus : Prop := {
  fb_desc : length desc = 56%nat;
  fb_rxd : Rx.rxd_of (desc ++ frame) = Ret r;
  fb_drvinfo : Rx.drvinfo_size r = 4;
  fb_type : Rx.wf_rx_data_type (desc ++ frame ++ post) = Ret Rx.WF_PKT_TYPE_FRAME;
  fb_len : Z.of_nat (length (desc ++ frame)) < 2 ^ 31;
}.

(** The frame as the decryption sees it. *)
Definition frame_view (n : Wdn.wdn_node_st) : rx_sec_pkt :=
  let j := noted nic b0 b1 q0 q1 a1 a2 a3 n i in
  mk_rx_sec_pkt frame (Z.of_nat (length frame)) (Info.wlan_hdr_len j) (Info.iv_len j) (Info.icv_len j) a1 a2
    (Info.encrypt_algo j).

Lemma delivered (s : Rs.rx_info) (junk : Z) (n : Wdn.wdn_node_st) (g : crc_globals) (plain h snap type payload icv : list Z) :
  from_bus -> ba_enable nic = true -> accepted nic b0 b1 a1 a2 a3 (Rs.wdn s) n i ->
  (if prot then Sec.wf_sec_decryptor (Rs.crc s) (rx_sec nic) (table_after (Rs.wdn s) n i) (frame_view n) = Ret (0, g, plain, true)
   else plain = frame) ->
  let j := noted nic b0 b1 q0 q1 a1 a2 a3 n i in
  plain = h ++ snap ++ type ++ payload ++ icv -> length plain = length frame -> snap_for snap type ->
  Z.of_nat (length h) = Info.wlan_hdr_len j + Info.iv_len j ->
  Z.of_nat (length icv) = (if prot then Info.icv_len j else 0) ->
  take 2 plain = [b0; b1] -> for_me nic (Info.dst_addr j) = true ->
  let len := Z.of_nat (length (desc ++ frame)) in
  wp (mpdu_process nic junk (desc ++ frame ++ post) len s) (fun tr s' =>
    exists skb tr', tr = (AllocSkb (len + 14), skb) :: tr' /\
      (skb = 0 -> tr' = [] /\ s' = counted len s) /\
      (skb <> 0 -> got tr' = [Info.dst_addr j ++ Info.src_addr j ++ type ++ payload] /\
         Rs.wdn s' = table_after (Rs.wdn s) n i /\ Rs.crc s' = (if prot then g else Rs.crc s))).
Proof using Ha1 Ha2 Ha3.
  intros [F1 F2 F3 F4 F5] Hba Hac Hdec j Hpl Hpll Hsn Hh Hicv H01 Hme len.
  destruct (mpdu_split nic junk desc frame post r s len F1 F2 F3 F4 eq_refl F5) as (sg & k & -> & Hk0 & Hk).
  intros skb. destruct (decide (skb = 0)) as [-> | Hz].
  { rewrite Hk0. cbn [wp]. exists 0, []. split; [done |]. split; [done | by intros []]. }
  rewrite (Hk skb Hz). set (p0 := pulled r skb frame sg). pose proof (ac_mode _ _ _ _ _ _ _ _ _ Hac) as Hm.
  destruct (noted_addrs nic b0 b1 q0 q1 a1 a2 a3 n i Hm) as (N1 & N2 & N3).
  destruct (noted_rest nic b0 b1 q0 q1 a1 a2 a3 n i Hm) as (N4 & N5 & N6 & N7 & N8 & N9 & _).
  fold j in N1, N2, N3, N4, N5, N6, N7, N8, N9.
  assert (Hv : sec_view (packet nic b0 b1 q0 q1 a1 a2 a3 n i p0) = frame_view n).
  { unfold sec_view, frame_view, packet, p0, pulled. cbn [Pk.pkt_info Pk.pdata Pk.len Pk.set_pkt_info Pk.set_wdn_info].
    fold j. by rewrite N1, N2. }
  destruct (common_accepted nic b0 b1 d0 d1 s0 s1 q0 q1 a1 a2 a3 body Ha1 Ha2 Ha3 (Rs.wdn s) n i p0 (counted len s) g plain
    Hac eq_refl eq_refl eq_refl) as (s' & Hc & Hw & Hg & _).
  { fold prot frame. rewrite Hv. exact Hdec. }
  rewrite Hc. cbn [ibind]. fold prot. set (pf := Pk.set_bdecrypted _ _).
  assert (Hpf : Pk.pdata pf = plain /\ Pk.len pf = Z.of_nat (length frame) /\ Pk.pkt_info pf = j /\ Pk.front pf = [] /\
    Pk.bdecrypted pf = prot /\ Pk.wdn_info pf = Some (Wdn.addr n)) by (unfold pf; split_and!; try done; by destruct prot).
  destruct Hpf as (P1 & P2 & P3 & P4 & P5 & P6). clearbody pf.
  assert (Hlj : length (Info.dst_addr j) = 6%nat /\ length (Info.src_addr j) = 6%nat)
    by (destruct Hm as [E | [E | E]]; rewrite E in N3; cbn in N3; injection N3 as -> ->; done).
  destruct Hlj as [L1 L2].
  destruct (eth_of_frame pf h snap type payload icv) as (p' & He & Hb & _ & _ & _); rewrite ?P1, ?P2, ?P3, ?P5; try done.
  { by rewrite Hpll. }
  { unfold len in *. rewrite length_app in F5. lia. }
  { rewrite N7. destruct (nz (Info.qos_flag i)); lia. }
  { rewrite N5. apply iv_icv_range. }
  { rewrite N7, N5. pose proof (iv_icv_range (cipher nic b0 b1 a1 n)). destruct (nz (Info.qos_flag i)); lia. }
  { destruct prot; [done |]. by destruct icv. }
  rewrite P3 in Hb. unfold finish. change (nz 0) with false. cbn match.
  assert (Hmon : (work_mode nic =? WF_MONITOR_MODE) = false) by (by destruct Hm as [-> | [-> | ->]]).
  rewrite Hmon, P1.
  assert (Ht : GET_HDR_Type plain = Ret MAC_FRAME_TYPE_DATA).
  { rewrite <- (take_drop 2 plain), H01. unfold GET_HDR_Type, Rx.hdr. rewrite slice_head by done. cbn [cbind le_word].
    rewrite <- (ac_type _ _ _ _ _ _ _ _ _ Hac). unfold Rx.frame_control. do 2 f_equal. lia. }
  rewrite Ht. cbn [lift ibind]. change (MAC_FRAME_TYPE_DATA =? MAC_FRAME_TYPE_DATA) with true. rewrite Hba.
  apply wp_bind. eapply wp_mono, (reorder_hands nic pf p' _ _ _ Hm P6); [| | exact He | exact Hb | exact L1 | exact Hme].
  - intros tr a Hgot. cbn [wp]. exists skb, tr. rewrite app_nil_r. split; [done |]. split; [done |]. intros _.
    split; [exact Hgot |]. split; [exact Hw | exact Hg].
  - rewrite P3, N9. destruct (nz (Info.qos_flag i)); [| lia]. change (Z.land ?x 15) with (Z.land x (Z.ones 4)). rewrite Z.land_ones by lia.
    pose proof (Z.mod_pos_bound (q0 + 256 * q1) (2 ^ 4) ltac:(lia)). lia.
Qed.
End Delivered.
End RxPath.
