(* ===== verification/RxAgg.v ===== *)
(** * Aggregates on the receive path ([nic/rx.c], [os/linux/rx_linux.c])

    Buffers of the bus that hold several frames ([rx_work]), frames that hold
    several packets ([process_amsdu]), and packets in several frames
    ([rx_defrag]); the operations are those of [RxPath]. *)
From S2P Require Import Prelude Cipher SecTypes Crc32 Arc4 Wep WdnTypes Wdn Sec Wlan Io Rx TxTypes TxFrame RxPath.

Module RxAgg.
Import Io.
Open Scope io_scope.

Lemma wp_bind_iff {E A B} (m : io E A) (k : A -> io E B) Q :
  wp (ibind m k) Q <-> wp m (fun tr a => wp (k a) (fun tr' => Q (tr ++ tr'))).
Proof.
  revert Q. induction m as [a | e f IH |]; intros Q; [done | | done]. cbn [wp ibind].
  split; intros H r; [exact (proj1 (IH r _) (H r)) | exact (proj2 (IH r (fun tr => Q ((e, r) :: tr))) (H r))].
Qed.

Lemma wp_iff {E A} (m : io E A) P Q : (forall tr a, P tr a <-> Q tr a) -> wp m P <-> wp m Q.
Proof. intros H. split; apply wp_mono; intros tr a; by apply H. Qed.

(** ** Frames in a buffer of the bus *)

(** A descriptor, 32 bytes of driver information, and a frame that the check of
    [wf_rx_get_pkt_len_and_check_valid] lets through. *)
Record valid_buf (b : list Z) : Prop := {
  vb_desc : (56 < length b)%nat;
  vb_max : Z.of_nat (length b) < 2 ^ 15;
  vb_rxd : exists r, Rx.rxd_of b = Ret r /\ Rx.drvinfo_size r = 4 /\ Rx.cmd_index r = 0 /\ Rx.crc32 r <> 1 /\
    Rx.notice r <> 1 /\ Rx.pkt_len r = Z.of_nat (length b) - 56;
}.

(** Each begins at a multiple of eight bytes; what is behind the last one does
    not reach the next such place. *)
Inductive bundle : list (list Z) -> list Z -> Prop :=
  | bundle_last b tail : valid_buf b -> Z.of_nat (length (b ++ tail)) <= RxPath.WF_RND8 (Z.of_nat (length b)) ->
      bundle [b] (b ++ tail)
  | bundle_more b pad bs rest : valid_buf b -> Z.of_nat (length (b ++ pad)) = RxPath.WF_RND8 (Z.of_nat (length b)) ->
      bundle bs rest -> bundle (b :: bs) (b ++ pad ++ rest).

Section Bundle.
Context {SC : StreamCipher}.
Context (nic : RxPath.rx_nic) (junk : nat -> Z).

(** One after the other. *)
Fixpoint each (j : nat) (bs : list (list Z)) (s : Rs.rx_info) : io RxPath.ev Rs.rx_info :=
  match bs with
  | [] => iret s
  | b :: bs =>
      let! s := RxPath.mpdu_process nic (junk j) b (Z.of_nat (length b)) s in
      each (pred j) bs s
  end.

Lemma rnd8 n : 0 <= n -> n <= RxPath.WF_RND8 n < n + 8.
Proof.
  intros H. unfold RxPath.WF_RND8. change 7 with (Z.ones 3). rewrite Z.land_ones, Z.shiftr_div_pow2, Z.shiftl_mul_pow2 by lia.
  change (2 ^ 3) with 8. pose proof (Z.div_mod n 8 ltac:(lia)). pose proof (Z.mod_pos_bound n 8 ltac:(lia)).
  unfold nz. destruct (Z.eqb_spec (n mod 8) 0); cbn [negb]; lia.
Qed.

Lemma rnd8_min n : 57 <= n -> 64 <= RxPath.WF_RND8 n.
Proof.
  intros H. unfold RxPath.WF_RND8. change 7 with (Z.ones 3). rewrite Z.land_ones, Z.shiftr_div_pow2, Z.shiftl_mul_pow2 by lia.
  change (2 ^ 3) with 8. pose proof (Z.div_mod n 8 ltac:(lia)). pose proof (Z.mod_pos_bound n 8 ltac:(lia)).
  unfold nz. destruct (Z.eqb_spec (n mod 8) 0); cbn [negb]; lia.
Qed.

Lemma valid_checked b post n : valid_buf b -> Z.of_nat (length b) <= n ->
  Rx.wf_rx_get_pkt_len_and_check_valid (b ++ post) n = Ret (Z.of_nat (length b), true, Some true).
Proof.
  intros [H1 H2 (r & Hr & Hd & Hc & Hx & Hn & Hp)] Hlen. unfold Rx.wf_rx_get_pkt_len_and_check_valid.
  assert (E : Rx.rxd_of (b ++ post) = Ret r) by (rewrite <- Hr; unfold Rx.rxd_of, Rx.dword; by rewrite !slice_app_l, !slice_Ret by lia).
  rewrite E. cbn [cbind]. rewrite Hd, Hc, Hp. unfold Rx.RXDESC_SIZE.
  replace (24 + 4 * 8 + (Z.of_nat (length b) - 56)) with (Z.of_nat (length b)) by lia.
  rewrite u16_id by (unfold is_u16; lia).
  destruct (Z.eqb_spec (Z.of_nat (length b) - 56) 0); [lia |]. destruct (Z.eqb_spec (Rx.crc32 r) 1); [done |].
  destruct (Z.ltb_spec n (Z.of_nat (length b))); [lia |]. destruct (Z.eqb_spec (Rx.notice r) 1); [done |]. done.
Qed.

(** Only the bytes of the frame's own buffer are read. *)
Lemma mpdu_own j b post s : valid_buf b ->
  RxPath.mpdu_process nic j (b ++ post) (Z.of_nat (length b)) s = RxPath.mpdu_process nic j b (Z.of_nat (length b)) s.
Proof.
  intros [H1 _ _]. unfold RxPath.mpdu_process, RxPath.create_skb.
  assert (Ht : Rx.wf_rx_data_type (b ++ post) = Rx.wf_rx_data_type b) by (destruct b; [cbn in H1; lia | done]).
  rewrite Ht, slice_app_l, slice_Ret by lia. done.
Qed.

Lemma loop_each bs skb : bundle bs skb -> Z.of_nat (length skb) < 65536 -> forall fuel s Q, (length skb / 64 <= fuel)%nat ->
  wp (RxPath.rx_loop nic (S fuel) junk skb (Z.of_nat (length skb)) s) Q <-> wp (each fuel bs s) Q.
Proof.
  induction 1 as [b tail Hb Htl | b pad bs rest Hb Hpad Hr IH]; intros Hmax fuel s Q Hfuel;
    pose proof (vb_desc _ Hb) as H57; pose proof (vb_max _ Hb) as H15;
    pose proof (rnd8 (Z.of_nat (length b)) ltac:(lia)) as Hrnd; pose proof (rnd8_min (Z.of_nat (length b)) ltac:(lia)) as Hmin;
    cbn [RxPath.rx_loop each]; rewrite u16_id by (unfold is_u16; lia);
    rewrite valid_checked by (done || rewrite length_app; lia); cbn [lift ibind negb];
    rewrite mpdu_own by done; rewrite !wp_bind_iff; apply wp_iff; intros tr st; rewrite (u16_id (RxPath.WF_RND8 _)) by (unfold is_u16; lia).
  - destruct (Z.ltb_spec 0 (Z.of_nat (length (b ++ tail)) - RxPath.WF_RND8 (Z.of_nat (length b)))); [lia | done].
  - assert (Hrl : (0 < length rest)%nat) by (inversion Hr as [c ? Hc | c ? ? ? Hc]; pose proof (vb_desc _ Hc); rewrite length_app; lia).
    rewrite app_assoc, length_app, Nat2Z.inj_add, Hpad.
    replace (RxPath.WF_RND8 (Z.of_nat (length b)) + Z.of_nat (length rest) - RxPath.WF_RND8 (Z.of_nat (length b)))
      with (Z.of_nat (length rest)) by lia.
    destruct (Z.ltb_spec 0 (Z.of_nat (length rest))); [| lia].
    rewrite <- Hpad, Nat2Z.id, drop_app_length.
    assert (Hf : (length rest / 64 <= pred fuel /\ fuel = S (pred fuel))%nat).
    { rewrite app_assoc, length_app in Hfuel.
      assert (length rest / 64 + 1 <= (length (b ++ pad) + length rest) / 64)%nat; [| lia].
      rewrite <- Nat.div_add by lia. apply Nat.Div0.div_le_mono. lia. }
    destruct Hf as [Hf1 Hf2]. rewrite Hf2 at 1. apply IH; [rewrite app_assoc, length_app in Hmax; lia | done].
Qed.

(** C10: a buffer of the bus with several frames, each at a multiple of eight
    bytes, is taken apart as it was put together: [rx_work] behaves, in every
    run and whatever the calls answer, like [mpdu_process] on the frames one
    after the other, each in a buffer of its own, and returns 0; bytes behind
    the last frame are not looked at.  The number of passes never runs out. *)
Theorem aggregate_split (bs : list (list Z)) (skb : list Z) (s : Rs.rx_info) (Q : list (RxPath.ev * Z) -> Z * Rs.rx_info -> Prop) :
  bundle bs skb -> Z.of_nat (length skb) < 65536 ->
  wp (RxPath.rx_work nic true junk skb s) Q <->
  wp (each (length skb / 64) bs s) (fun tr s' => Q tr (0, s')).
Proof.
  intros Hb Hmax. unfold RxPath.rx_work. cbn [negb]. rewrite wp_bind_iff.
  rewrite (loop_each bs skb Hb Hmax _ s _ (Nat.le_refl _)). apply wp_iff. intros tr a. cbn [wp]. by rewrite app_nil_r.
Qed.
End Bundle.

(** ** Packets in a frame *)




















(** ** Packets in several frames *)

(** A fragment in a buffer at a positive address. *)
Definition fragment (p : Pk.rx_pkt) (more num : Z) : Prop :=
  Info.more_frag (Pk.pkt_info p) = more /\ Info.frag_num (Pk.pkt_info p) = num /\
  0 < Pk.pskb p /\ 0 <= Pk.pofs p /\ 0 <= Pk.len p.

Lemma set_node_rx_of a n s : RxPath.node_of (RxPath.set_node_rx a n s) a = n.
Proof. unfold RxPath.node_of. cbn [RxPath.set_node_rx Rs.nodes Rs.set_nodes]. by rewrite lookup_insert_eq. Qed.

(** There is never room behind a packet that was kept. *)
Lemma put_fails p n : 0 < Pk.pskb p -> 0 <= Pk.pofs p -> 0 <= Pk.len p -> 0 <= n -> RxPath.pkt_put (RxPath.frag_of p) n = None.
Proof.
  intros. unfold RxPath.pkt_put, RxPath.frag_of. cbn [fg_pend fg_ptail].
  match goal with |- (if ?b then _ else _) = _ => destruct b eqn:E end; [done |]. apply Z.ltb_ge in E. lia.
Qed.

(** C38: a packet in two fragments is lost, and costs an entry of the pool.
    When the first fragment of a packet and then its last one arrive from a
    station while the pool has two entries [e1] and [e2], [rx_defrag] copies no
    byte of either; afterwards the second entry is back in the pool, but the
    first one is neither there nor in the station's queue, and no reassembly is
    under way. *)
Theorem two_fragments_lost (a num : Z) (p1 p2 : Pk.rx_pkt) (s : Rs.rx_info) (e1 e2 : nat) (fl : list nat) :
  fragment p1 1 0 -> fragment p2 0 num -> num <> 0 ->
  Rs.free_rx_pkt_list s = e1 :: e2 :: fl -> e1 <> e2 -> (e1 < length (Rs.store s))%nat -> (e2 < length (Rs.store s))%nat ->
  exists s1 s2, RxPath.rx_defrag a p1 s = Ret ([], s1) /\ RxPath.rx_defrag a p2 s1 = Ret ([], s2) /\
    defrag_q (RxPath.node_of s1 a) = [e1] /\ defrag_flag (RxPath.node_of s1 a) = 1 /\
    Rs.free_rx_pkt_list s2 = fl ++ defrag_q (RxPath.node_of s a) ++ [e2] /\
    defrag_q (RxPath.node_of s2 a) = [] /\ defrag_flag (RxPath.node_of s2 a) = 0.
Proof.
  intros (M1 & N1 & A1 & O1 & L1) (M2 & N2 & A2 & O2 & L2) Hnum Hf Hne H1 H2.
  set (s1 := RxPath.set_node_rx a (mk_node_rx (rx_pkt_stat (RxPath.node_of s a)) [e1] 1)
    (Rs.set_free_rx_pkt_list ((e2 :: fl) ++ defrag_q (RxPath.node_of s a))
       (Rs.set_store (<[e1 := RxPath.frag_of p1]> (Rs.store s)) (Rs.set_free_rx_pkt_list (e2 :: fl) s)))).
  assert (E1 : RxPath.rx_defrag a p1 s = Ret ([], s1)) by (unfold RxPath.rx_defrag; by rewrite Hf, M1, N1).
  assert (Hn : RxPath.node_of s1 a = mk_node_rx (rx_pkt_stat (RxPath.node_of s a)) [e1] 1) by apply set_node_rx_of.
  assert (Hst1 : (<[e2 := RxPath.frag_of p2]> (<[e1 := RxPath.frag_of p1]> (Rs.store s))) !! e1 = Some (RxPath.frag_of p1))
    by (rewrite list_lookup_insert_ne by done; by apply list_lookup_insert_eq).
  assert (Hst2 : (<[e2 := RxPath.frag_of p2]> (<[e1 := RxPath.frag_of p1]> (Rs.store s))) !! e2 = Some (RxPath.frag_of p2))
    by (apply list_lookup_insert_eq; by rewrite length_insert).
  exists s1. unfold RxPath.rx_defrag at 2. rewrite Hn.
  replace (Rs.free_rx_pkt_list s1) with (e2 :: fl ++ defrag_q (RxPath.node_of s a)) by reflexivity.
  rewrite M2, N2. apply Z.eqb_neq in Hnum as Hz. rewrite Hz. cbn [Z.eqb defrag_flag Pos.eqb defrag_q app RxPath.rx_recombination].
  cbn [Rs.store Rs.set_store Rs.set_free_rx_pkt_list RxPath.set_node_rx Rs.set_nodes s1].
  rewrite Hst1. cbn [of_option cbind fg_info RxPath.frag_of]. rewrite N1. cbn [Z.eqb negb RxPath.recombine].
  cbn [Rs.store Rs.set_store Rs.set_free_rx_pkt_list RxPath.set_node_rx Rs.set_nodes s1].
  rewrite Hst1, Hst2. cbn [of_option cbind]. rewrite put_fails by done.
  destruct (negb _); cbn [cbind]; (eexists; split; [exact E1 |]; split; [reflexivity |]);
    rewrite set_node_rx_of; (split_and!; try done); cbn; by rewrite <- app_assoc.
Qed.

(** Two control frames, of 16 and 20 bytes. *)
Definition wit_buf (n : nat) : list Z :=
  le_bytes 4 (3 + Z.shiftl 4 14) ++ le_bytes 4 (Z.of_nat n) ++ repeat 0 48 ++ 4 :: repeat 5 (n - 1).
Definition wit_skb : list Z := wit_buf 17 ++ repeat 9 7 ++ wit_buf 20 ++ [1].

Lemma wit_bundle : bundle [wit_buf 17; wit_buf 20] wit_skb.
Proof.
  assert (V1 : valid_buf (wit_buf 17)).
  { constructor; [vm_compute; lia | vm_compute; reflexivity |]. eexists. split_and!; [reflexivity | done | done | done | done | done]. }
  assert (V2 : valid_buf (wit_buf 20)).
  { constructor; [vm_compute; lia | vm_compute; reflexivity |]. eexists. split_and!; [reflexivity | done | done | done | done | done]. }
  apply bundle_more; [done | reflexivity |]. apply bundle_last; [done |]. vm_compute. congruence.
Qed.

#[local] Existing Instance Arc4.arc4_cipher.

Definition wit_nic : RxPath.rx_nic :=
  RxPath.mk_rx_nic Rx.WF_INFRA_MODE (repeat 2 6) (repeat 2 6) Wep.wit_sec true 1.
Definition wit_state : Rs.rx_info :=
  Rs.mk_rx_info (Wdn.mk_wdn_list [] [] 0) Crc32.crc_globals0 ∅ [] [] 0 0 0 0 0 0 0.

(** Each gets a buffer, which is freed since there is nothing to hand on. *)
Lemma wit_run : option_map fst (exec (RxPath.rx_work wit_nic true (fun _ => 0) wit_skb wit_state) [501; 0; 502; 0]) =
  Some [(RxPath.AllocSkb 87, 501); (RxPath.FreeSkb 501, 0); (RxPath.AllocSkb 90, 502); (RxPath.FreeSkb 502, 0)].
Proof. vm_compute. reflexivity. Qed.

Lemma aggregate_split_witness :
  let Q := fun (tr : list (RxPath.ev * Z)) (res : Z * Rs.rx_info) => res.1 = 0 in
  wp (RxPath.rx_work wit_nic true (fun _ => 0) wit_skb wit_state) Q <->
  wp (each wit_nic (fun _ => 0) 2 [wit_buf 17; wit_buf 20] wit_state) (fun tr s' => Q tr (0, s')).
Proof. exact (aggregate_split wit_nic (fun _ => 0) _ wit_skb wit_state _ wit_bundle ltac:(vm_compute; reflexivity)). Defined.




Definition wit_frag (more num : Z) : Pk.rx_pkt :=
  Pk.mk_pkt 501 56 (repeat 0 40) 40 [] (Info.set_more_frag more (Info.set_frag_num num Info.zero)) false 0 (0, 0) (Some 7).

(** From the state of [wf_rx_init], where entries 0 to 19 are free. *)
Lemma two_fragments_lost_witness : exists s1 s2,
  RxPath.rx_defrag 7 (wit_frag 1 0) (RxPath.wf_rx_init true true wit_state).2 = Ret ([], s1) /\
  RxPath.rx_defrag 7 (wit_frag 0 1) s1 = Ret ([], s2) /\
  Rs.free_rx_pkt_list s2 = seq 2 18 ++ [1%nat] /\ defrag_q (RxPath.node_of s2 7) = [].
Proof.
  destruct (two_fragments_lost 7 1 (wit_frag 1 0) (wit_frag 0 1) (RxPath.wf_rx_init true true wit_state).2 0 1 (seq 2 18))
    as (s1 & s2 & H1 & H2 & _ & _ & H3 & H4 & _); try reflexivity; try done; try (cbn; lia).
  exists s1, s2. split; [exact H1 |]. split; [exact H2 |]. split; [exact H3 | exact H4].
Defined.
End RxAgg.
