(* ===== verification/RxSkb.v ===== *)
(** * Buffers of the operating system on the receive path

    Every buffer that [rx_work] allocates or clones is given away exactly once:
    freed, handed to the network stack or to the reordering, or taken by the
    transmit side.  The operations are those of [RxPath]. *)
From Stdlib Require Import Permutation.
From S2P Require Import Prelude Cipher SecTypes Arc4 Crc32 Wep WdnTypes Wdn Sec Wlan Io Rx TxTypes TxFrame RxPath RxAgg.

Module RxSkb.
Import Io.
Open Scope io_scope.

(** ** Every run that does not fault *)

Section Runs.
Context {E : Type}.

Fixpoint wlp {A} (m : io E A) (Q : list (E * Z) -> A -> Prop) : Prop :=
  match m with
  | iret a => Q [] a
  | icall e k => forall r, wlp (k r) (fun tr => Q ((e, r) :: tr))
  | ifault => True
  end.

Lemma wlp_mono {A} (m : io E A) (P Q : list (E * Z) -> A -> Prop) :
  (forall tr a, P tr a -> Q tr a) -> wlp m P -> wlp m Q.
Proof.
  revert P Q. induction m as [a | e k IH |]; intros P Q HPQ; [apply HPQ | | done].
  intros H r. exact (IH r _ _ (fun tr a => HPQ ((e, r) :: tr) a) (H r)).
Qed.

Lemma wlp_bind {A B} (m : io E A) (k : A -> io E B) Q :
  wlp m (fun tr a => wlp (k a) (fun tr' => Q (tr ++ tr'))) -> wlp (ibind m k) Q.
Proof.
  revert Q. induction m as [a | e f IH |]; intros Q; [done | | done]. intros H r. apply IH. exact (H r).
Qed.

Lemma wlp_runs {A} (m : io E A) Q tr a : wlp m Q -> runs m tr a -> Q tr a.
Proof.
  revert Q tr. induction m as [b | e k IH |]; intros Q tr Hw Hr; [| | done].
  - destruct tr; [by rewrite <- Hr | done].
  - destruct tr as [| [e' r] tr]; [done |]. destruct Hr as [-> Hr]. exact (IH r _ _ (Hw r) Hr).
Qed.

Lemma wp_wlp {A} (m : io E A) (P : A -> Prop) (Q : list (E * Z) -> A -> Prop) :
  wp m (fun _ => P) -> wlp m Q -> wp m (fun tr a => P a /\ Q tr a).
Proof.
  revert Q. induction m as [b | e k IH |]; intros Q Hw Hl; [done | | done]. intros r. exact (IH r _ (Hw r) (Hl r)).
Qed.

Lemma wlp_lift {A B} (m : C A) (k : A -> io E B) Q : (forall a, m = Ret a -> wlp (k a) Q) -> wlp (ibind (lift m) k) Q.
Proof. destruct m; intros H; [by apply H | done | done]. Qed.
End Runs.

(** ** Buffers taken and given away *)

Definition obtained (tr : list (RxPath.ev * Z)) : list Z :=
  omap (fun '(e, r) => match e with
                       | RxPath.AllocSkb _ | RxPath.CloneSkb _ => if r =? 0 then None else Some r
                       | _ => None
                       end) tr.

(** The transmit side keeps what it accepts. *)
Definition given (tr : list (RxPath.ev * Z)) : list Z :=
  omap (fun '(e, r) => match e with
                       | RxPath.FreeSkb skb | RxPath.NetifRx skb _ | RxPath.ReorderCore _ _ _ skb _ => Some skb
                       | RxPath.TxMsdu skb _ => if r =? 0 then Some skb else None
                       | _ => None
                       end) tr.

(** Code that gets the buffers [held] and keeps none. *)
Definition settles (held : list Z) (tr : list (RxPath.ev * Z)) : Prop := held ++ obtained tr ≡ₚ given tr.

Lemma settles_app h1 h2 t1 t2 : settles h1 t1 -> settles h2 t2 -> settles (h1 ++ h2) (t1 ++ t2).
Proof.
  unfold settles, obtained, given. rewrite !omap_app. intros H1 H2. rewrite <- H1, <- H2.
  rewrite <- !app_assoc. f_equiv. rewrite !app_assoc. f_equiv. apply Permutation_app_comm.
Qed.

Lemma settles_later h t1 t2 : settles [] t1 -> settles h t2 -> settles h (t1 ++ t2).
Proof. apply (settles_app [] h). Qed.

Lemma forward_settles skb pkt : wlp (RxPath.forward skb pkt) (fun tr _ => settles [skb] tr).
Proof.
  unfold RxPath.forward, call. intros r. cbn [ibind]. destruct (r =? 0) eqn:E; cbn [negb]; intros r2; cbn [wlp ibind];
    unfold settles; cbn; by rewrite ?E.
Qed.

(** One call that gives the buffer away. *)
Ltac settle := intros ?; cbn [wlp ibind]; unfold settles; cbn; reflexivity.

Lemma upload_settles nic skb pkt : wlp (RxPath.upload_skb nic skb pkt) (fun tr _ => settles [skb] tr).
Proof.
  unfold RxPath.upload_skb. destruct (_ =? RxPath.WF_MONITOR_MODE); [settle |].
  destruct (_ || _); [apply wlp_lift; intros dst _; destruct (_ || _); settle |].
  destruct (_ =? Rx.WF_MASTER_MODE); [| settle]. apply wlp_lift. intros dst _.
  destruct (bytes_eqb _ _); [settle |]. destruct (negb (IS_MCAST dst)); [apply forward_settles |].
  intros c r. unfold nz. destruct (c =? 0) eqn:E; cbn [negb ibind].
  - cbn [wlp]. unfold settles. cbn. by rewrite E.
  - eapply wlp_mono, forward_settles. intros tr ? H. unfold settles in *. cbn in *. by rewrite E, <- H.
Qed.

Lemma upload_all_settles nic ks : wlp (RxPath.upload_all nic ks) (fun tr _ => settles ks.*1 tr).
Proof.
  induction ks as [| [skb pkt] ks IH]; [by cbn; unfold settles; cbn |]. cbn [RxPath.upload_all]. apply wlp_bind. eapply wlp_mono, upload_settles.
  intros tr ? H. eapply wlp_mono, IH. intros tr' ? H'. exact (settles_app [skb] _ _ _ H H').
Qed.

(** The buffers of the subframes are held until they are handed over. *)
Lemma split_obtains fuel : forall nr pktlen pdata,
  wlp (RxPath.amsdu_split fuel nr pktlen pdata) (fun tr ks => obtained tr = ks.*1 /\ given tr = []).
Proof.
  induction fuel as [| fuel IH]; intros nr pktlen pdata; [done |]. cbn [RxPath.amsdu_split wlp].
  apply wlp_lift. intros sz _. destruct (_ <? _); [done |]. do 3 (apply wlp_lift; intros ? _).
  apply wlp_bind. unfold RxPath.alloc_msdu, call. intros r. cbn [ibind]. unfold nz at 1. destruct (r =? 0) eqn:E; cbn [negb].
  { cbn [wlp]. unfold obtained. cbn. by rewrite E. }
  apply wlp_lift. intros bsnap _.
  match goal with |- wlp (if _ then iret (Some ?k1) else iret (Some ?k2)) ?Q =>
    enough (Hk : forall k, k.1 = r -> Q [] (Some k)) by (destruct bsnap; cbn [wlp]; by apply Hk) end.
  intros k Hk. cbn beta iota.
  assert (Hone : wlp (iret (E := RxPath.ev) [k]) (fun tr' ks => obtained (((RxPath.AllocSkb (be_word sz + 14), r) :: []) ++ tr') = ks.*1 /\
    given (((RxPath.AllocSkb (be_word sz + 14), r) :: []) ++ tr') = [])).
  { cbn [wlp]. unfold obtained, given. cbn. by rewrite E, Hk. }
  destruct (_ <? _); [exact Hone |]. destruct (_ && _); [exact Hone |]. destruct (_ <? _); [| exact Hone].
  apply wlp_bind. eapply wlp_mono, IH. intros tr ks [H1 H2]. cbn [wlp]. rewrite app_nil_r.
  unfold obtained, given in *. cbn. by rewrite E, Hk, <- H1.
Qed.

Lemma amsdu_settles nic p : wlp (RxPath.process_amsdu nic p) (fun tr _ => settles [] tr).
Proof.
  unfold RxPath.process_amsdu. apply wlp_lift. intros t _. destruct (negb _); [by cbn; unfold settles; cbn |].
  apply wlp_bind. eapply wlp_mono, split_obtains. intros tr ks [H1 H2].
  apply wlp_bind. eapply wlp_mono, upload_all_settles. intros tr' ? H. cbn [wlp]. rewrite app_nil_r.
  unfold settles, obtained, given in *. rewrite !omap_app, H1, H2. exact H.
Qed.

(** ** The packet keeps its buffer *)

Lemma pull_keeps p n p' : RxPath.pkt_pull p n = Ret p' -> Pk.pskb p' = Pk.pskb p.
Proof. unfold RxPath.pkt_pull. destruct (_ <? _); [done |]. by intros [= <-]. Qed.

Lemma trim_keeps p n : Pk.pskb (RxPath.pkt_trim p n) = Pk.pskb p.
Proof. unfold RxPath.pkt_trim. by repeat case_match. Qed.

Lemma eth_keeps p r p' : RxPath.wlan_to_eth p = Ret (r, p') -> Pk.pskb p' = Pk.pskb p.
Proof.
  unfold RxPath.wlan_to_eth. set (q := if Pk.bdecrypted p then _ else p).
  assert (Hq : Pk.pskb q = Pk.pskb p) by (unfold q; destruct (Pk.bdecrypted p); [apply trim_keeps | done]). rewrite <- Hq. clearbody q.
  intros H. destruct (_ =? _); [by injection H as _ <- |]. cinv H.
  destruct (_ <? _); [by injection H as _ <- |]. cinv H. apply pull_keeps in E1. injection H as _ <-. exact E1.
Qed.

Lemma data_keeps {SC : StreamCipher} nic p s r p' s' :
  RxPath.rx_process_data_frame nic p s = Ret (r, p', s') -> Pk.pskb p' = Pk.pskb p.
Proof.
  unfold RxPath.rx_process_data_frame. intros H. cinv H. destruct a3 as [[ret q] st].
  assert (Hq : Pk.pskb q = Pk.pskb p).
  { destruct (nz a2); [| by injection E3 as _ <- _]. cinv E3. destruct a3 as [[[? ?] ?] ?]. by injection E3 as _ <- _. }
  rewrite <- Hq. destruct (ret <? 0); [by injection H as _ <- _ |]. destruct (_ && _); [by injection H as _ <- _ |].
  cinv H. destruct a4. by injection H as _ <- _.
Qed.

Lemma reorder_settles nic p : wlp (RxPath.rx_data_reorder_process nic p) (fun tr _ => settles [Pk.pskb p] tr).
Proof.
  unfold RxPath.rx_data_reorder_process. destruct (Pk.wdn_info p) as [a |]; [| settle]. destruct (15 <? _); [settle |].
  apply wlp_lift. intros [r q] He. rewrite <- (eth_keeps _ _ _ He). destruct (r <? 0); [settle |].
  destruct (_ =? 0); [apply upload_settles |]. intros on. cbn [ibind call]. destruct (negb (nz on)); [| settle].
  eapply wlp_mono, upload_settles. intros tr ? H. exact H.
Qed.

Lemma data_settles nic p : wlp (RxPath.rx_data_upload_process nic p) (fun tr _ => settles [Pk.pskb p] tr).
Proof.
  unfold RxPath.rx_data_upload_process. destruct (nz _).
  - apply wlp_bind. eapply wlp_mono, amsdu_settles. intros tr ? H r. cbn [wlp]. apply settles_later; [done |]. unfold settles. by cbn.
  - apply wlp_lift. intros [r q] He. rewrite <- (eth_keeps _ _ _ He). destruct (r =? 0); [apply upload_settles | settle].
Qed.

Section Frames.
Context {SC : StreamCipher}.
Context (nic : RxPath.rx_nic).

(** The checks of a frame take and give nothing. *)
Lemma common_quiet p s : wlp (RxPath.wf_rx_common_process nic p s)
  (fun tr '(_, p', _) => settles [] tr /\ Pk.pskb p' = Pk.pskb p).
Proof.
  unfold RxPath.wf_rx_common_process. apply wlp_lift. intros ta _.
  set (p0 := Pk.set_wdn_info _ p). assert (H0 : Pk.pskb p0 = Pk.pskb p) by done. rewrite <- H0. clearbody p0.
  set (s0 := match _ with Some a => _ | None => s end). clearbody s0.
  destruct (_ =? RxPath.WF_MONITOR_MODE).
  { unfold RxPath.rx_process_monitor_frame, call. intros room. cbn [ibind]. destruct (_ <? _); cbn [wlp ibind]; unfold settles; by cbn. }
  apply wlp_lift. intros t _. destruct (t =? RxPath.MAC_FRAME_TYPE_DATA).
  - apply wlp_lift. intros [[ret w] i] _. destruct (ret <? 0); [by cbn; unfold settles; cbn |].
    apply wlp_lift. intros [[r q] st] Hd. apply data_keeps in Hd. destruct (r <? 0); cbn [wlp]; (split; [by unfold settles; cbn | exact Hd]).
  - destruct (t =? RxPath.MAC_FRAME_TYPE_MGT); [| by cbn; unfold settles; cbn].
    apply wlp_lift. intros [ret i] _. destruct (ret <? 0); [by cbn; unfold settles; cbn |]. intros r. cbn [wlp ibind]. unfold settles. by cbn.
Qed.

Lemma finish_settles ret p s : wlp (RxPath.finish nic ret p s) (fun tr _ => settles [Pk.pskb p] tr).
Proof.
  unfold RxPath.finish. destruct (nz ret); [settle |].
  destruct (_ =? RxPath.WF_MONITOR_MODE).
  { apply wlp_bind. eapply wlp_mono, upload_settles. intros tr ? H. cbn [wlp]. by rewrite app_nil_r. }
  apply wlp_lift. intros t _. destruct (t =? _); [| settle]. apply wlp_bind.
  destruct (RxPath.ba_enable nic); (eapply wlp_mono; [| apply reorder_settles || apply data_settles]); intros tr ? H; cbn [wlp];
    by rewrite app_nil_r.
Qed.

(** A packet that is not a frame costs the indeterminate pointer. *)
Lemma mpdu_settles j buf n s : wlp (RxPath.mpdu_process nic j buf n s)
  (fun tr _ => settles [] tr \/ j <> 0 /\ obtained tr = [] /\ given tr = [j]).
Proof.
  unfold RxPath.mpdu_process. apply wlp_lift. intros t _. destruct (negb _).
  { unfold nz. destruct (Z.eqb_spec j 0); cbn [negb ibind call wlp]; [left; unfold settles; by cbn | intros r; cbn [wlp]; by right]. }
  apply (wlp_mono _ (fun tr _ => settles [] tr)); [by left |].
  unfold RxPath.create_skb, call. intros skb. cbn [ibind]. unfold nz at 1. destruct (skb =? 0) eqn:E; cbn [negb ibind].
  { cbn [wlp]. unfold settles. cbn. by rewrite E. }
  assert (Hk : forall tr, settles [skb] tr -> settles [] ((RxPath.AllocSkb (u32 (n + 14)), skb) :: tr))
    by (intros tr; unfold settles; cbn; by rewrite E).
  apply (wlp_mono _ (fun tr _ => settles [skb] tr)); [intros tr ?; apply Hk |]. clear Hk E.
  destruct (slice buf 0 n) as [d | |]; [| done | done]. cbn [lift ibind].
  set (p := Pk.set_pskb skb _). assert (Hp : Pk.pskb p = skb) by done. rewrite <- Hp. clearbody p.
  apply wlp_lift. intros i _. destruct (_ <? _); [settle |]. apply wlp_lift. intros phy _. apply wlp_lift. intros q Hq.
  apply pull_keeps in Hq. apply wlp_lift. intros sg _. apply wlp_bind. eapply wlp_mono, common_quiet.
  intros tr [[ret p'] s'] [H1 H2]. eapply wlp_mono; [| exact (finish_settles ret p' s')].
  intros tr' ? H. rewrite H2 in H. change (Pk.pskb (Pk.set_signal sg q)) with (Pk.pskb q) in H. rewrite Hq in H. by apply settles_later.
Qed.

Context (junk : nat -> Z).

(** What was given away is what was taken and, of some passes below [n], each
    at most once, the indeterminate pointer. *)
Definition conserved (n : nat) (tr : list (RxPath.ev * Z)) : Prop :=
  exists ps, NoDup ps /\ Forall (fun k => (k < n)%nat /\ junk k <> 0) ps /\ given tr ≡ₚ obtained tr ++ (junk <$> ps).

Lemma conserved_later n t1 t2 : settles [] t1 -> conserved n t2 -> conserved (S n) (t1 ++ t2).
Proof.
  intros H1 (ps & Hnd & Hps & H2). exists ps. split; [done |]. split; [eapply Forall_impl; [exact Hps |]; cbn; intros k []; split; [lia | done] |].
  unfold settles, obtained, given in *. rewrite !omap_app, H2, <- H1, app_assoc. done.
Qed.

Lemma conserved_junk n t1 t2 : junk n <> 0 -> obtained t1 = [] -> given t1 = [junk n] -> conserved n t2 -> conserved (S n) (t1 ++ t2).
Proof.
  intros Hj Ho Hg (ps & Hnd & Hps & H2). exists (n :: ps). split_and!.
  - constructor; [| done]. intros Hin. rewrite list.Forall_forall in Hps. destruct (Hps n Hin). lia.
  - constructor; [split; [lia | done] |]. eapply Forall_impl; [exact Hps |]. cbn. intros k []. split; [lia | done].
  - unfold obtained, given in *. rewrite !omap_app, Ho, Hg, H2. cbn. apply Permutation_middle.
Qed.

Lemma conserved_nil n : conserved n [].
Proof. exists []. split_and!; [constructor | constructor | done]. Qed.

Lemma loop_conserved fuel : forall pbuf n s, wlp (RxPath.rx_loop nic fuel junk pbuf n s) (fun tr _ => conserved fuel tr).
Proof.
  induction fuel as [| fuel IH]; intros pbuf n s; [done |]. cbn [RxPath.rx_loop]. apply wlp_lift. intros [[pkt_len valid] nt] _.
  destruct (negb valid); [apply conserved_nil |]. apply wlp_bind. eapply wlp_mono, mpdu_settles. intros tr st H.
  assert (Hk : forall tr', conserved fuel tr' -> conserved (S fuel) (tr ++ tr'))
    by (intros tr'; destruct H as [H | (H1 & H2 & H3)]; [by apply conserved_later | by apply conserved_junk]).
  destruct (0 <? _); [eapply wlp_mono, IH; intros tr' ?; apply Hk | apply Hk, conserved_nil].
Qed.

Lemma work_conserved ready skb s :
  wlp (RxPath.rx_work nic ready junk skb s) (fun tr _ => conserved (S (length skb / 64)) tr).
Proof.
  unfold RxPath.rx_work. destruct (negb ready); [apply conserved_nil |]. apply wlp_bind. eapply wlp_mono, loop_conserved.
  intros tr ? H. cbn [wlp]. by rewrite app_nil_r.
Qed.

(** C9: the receive path neither leaks a buffer of the operating system nor
    gives one away twice.  In every run of [rx_work] that returns, on any bytes
    of the bus, in any state and whatever is answered, the buffers it freed,
    handed to the network stack or to the reordering, or that the transmit side
    accepted are, with multiplicity, those it allocated and cloned, and besides
    only the indeterminate pointers [junk] of passes over packets that are not
    frames, one for a pass.  When the bytes are frames that [mpdu_process]
    handles one after the other without a fault, [rx_work] does return, in every
    run. *)
Theorem buffers_conserved (ready : bool) (skb : list Z) (s : Rs.rx_info) :
  (forall tr res, runs (RxPath.rx_work nic ready junk skb s) tr res -> conserved (S (length skb / 64)) tr) /\
  (forall bs, RxAgg.bundle bs skb -> Z.of_nat (length skb) < 65536 ->
     wp (RxAgg.each nic junk (length skb / 64) bs s) (fun _ _ => True) ->
     wp (RxPath.rx_work nic true junk skb s) (fun tr res => res.1 = 0 /\ conserved (S (length skb / 64)) tr)).
Proof.
  split; [intros tr res Hr; exact (wlp_runs _ _ tr res (work_conserved ready skb s) Hr) |].
  intros bs Hb Hl He. apply wp_wlp; [| exact (work_conserved true skb s)].
  unfold RxPath.rx_work. cbn [negb]. rewrite RxAgg.wp_bind_iff, (RxAgg.loop_each nic junk bs skb Hb Hl _ s _ (Nat.le_refl _)).
  eapply wp_mono, He. done.
Qed.
End Frames.

#[local] Existing Instance Arc4.arc4_cipher.

(** What two frames that are not for the driver leave. *)
Definition wit_after (pkts n : Z) : Rs.rx_info := Rs.set_rx_bytes n (Rs.set_rx_total_pkts pkts RxAgg.wit_state).

Lemma wit_first j :
  wp (RxPath.mpdu_process RxAgg.wit_nic j (RxAgg.wit_buf 17) (Z.of_nat (length (RxAgg.wit_buf 17))) RxAgg.wit_state)
     (fun _ s => s = wit_after 1 73).
Proof. intros r. destruct r; vm_compute; congruence. Qed.

Lemma wit_second j :
  wp (RxPath.mpdu_process RxAgg.wit_nic j (RxAgg.wit_buf 20) (Z.of_nat (length (RxAgg.wit_buf 20))) (wit_after 1 73))
     (fun _ _ => True).
Proof. intros r. destruct r; vm_compute; done. Qed.

Definition wit_junk (k : nat) : Z := 900 + Z.of_nat k.

(** They are handled, here with two buffers that are freed again. *)
Lemma buffers_conserved_witness :
  wp (RxPath.rx_work RxAgg.wit_nic true wit_junk RxAgg.wit_skb RxAgg.wit_state) (fun tr res => res.1 = 0 /\ conserved wit_junk 3 tr) /\
  exists tr res, runs (RxPath.rx_work RxAgg.wit_nic true wit_junk RxAgg.wit_skb RxAgg.wit_state) tr res /\
    obtained tr = [501; 502] /\ conserved wit_junk 3 tr.
Proof.
  destruct (buffers_conserved RxAgg.wit_nic wit_junk true RxAgg.wit_skb RxAgg.wit_state) as [H1 H2]. split.
  - refine (H2 _ RxAgg.wit_bundle _ _); [vm_compute; reflexivity |].
    cbn [RxAgg.each]. apply wp_bind. eapply wp_mono, wit_first. intros tr s ->. apply wp_bind. eapply wp_mono, wit_second. done.
  - assert (Hx : exists tr res, exec (RxPath.rx_work RxAgg.wit_nic true wit_junk RxAgg.wit_skb RxAgg.wit_state) [501; 0; 502; 0] =
      Some (tr, res) /\ obtained tr = [501; 502]) by (eexists _, _; split; [vm_compute; reflexivity | reflexivity]).
    destruct Hx as (tr & res & Hx & Ho). apply exec_runs in Hx. exists tr, res. split; [exact Hx |]. split; [exact Ho |]. exact (H1 tr res Hx).
Defined.
End RxSkb.
