(* ===== verification/NetList.v ===== *)
(** * The table of networks ([nic/wlan_mgmt.c])

    What the thread of [wlan_mgmt.c] keeps of the networks it hears: a pool of
    nodes, a queue of those in use in the order of their signal strength, and a
    lock for readers of other threads.  A beacon or probe response is taken apart
    into a node ([wlan_mgmt_scan_node_info]) and put into its place
    ([wlan_mgmt_scan_que_node_push]); the scan ages the networks of the channels
    it visits ([wlan_mgmt_scan_que_refresh]), and all can be thrown away
    ([wlan_mgmt_scan_que_node_flush]).

    The two queues are the sequences of node numbers they refine ([WfList]), except
    where the loop that throws the networks away leaves them; it is on the links in
    memory.  A beacon needs a pass of the parser's loop per element, and each takes
    two bytes or more of the message. *)
From Stdlib Require Import Sorting.Sorted Permutation.
From S2P Require Import Prelude WfList Mgmt Rx.

(** [wf_wlan_mgmt_scan_que_node_t] without its place in a queue. *)
Module Nn.
Record net_node : Type := mk_node {
  ttl : Z;
  timestamp : Z;
  signal_strength : Z;
  signal_strength_scale : Z;
  signal_qual : Z;
  bssid : list Z;
  ssid_length : Z;
  ssid_data : list Z;
  ssid_type : Z;
  channel : Z;
  spot_rate : list Z;
  opr_mode : Z;
  privacy : bool;
  name : Z;
  ht_spot : bool;
  bw_40mhz : bool;
  short_gi : bool;
  mcs : Z;
  wpa_ie : list Z;
  wps_ie : list Z;
  rsn_ie : list Z;
  frame_type : Z;
  ie_len : Z;
  ies : list Z;
}.

Definition set_ttl (v : Z) (r : net_node) : net_node :=
  mk_node v (timestamp r) (signal_strength r) (signal_strength_scale r) (signal_qual r) (bssid
    r) (ssid_length r) (ssid_data r) (ssid_type r) (channel r) (spot_rate r) (opr_mode r)
    (privacy r) (name r) (ht_spot r) (bw_40mhz r) (short_gi r) (mcs r) (wpa_ie r) (wps_ie r)
    (rsn_ie r) (frame_type r) (ie_len r) (ies r).
Definition set_timestamp (v : Z) (r : net_node) : net_node :=
  mk_node (ttl r) v (signal_strength r) (signal_strength_scale r) (signal_qual r) (bssid r)
    (ssid_length r) (ssid_data r) (ssid_type r) (channel r) (spot_rate r) (opr_mode r) (privacy
    r) (name r) (ht_spot r) (bw_40mhz r) (short_gi r) (mcs r) (wpa_ie r) (wps_ie r) (rsn_ie r)
    (frame_type r) (ie_len r) (ies r).
Definition set_signal_strength (v : Z) (r : net_node) : net_node :=
  mk_node (ttl r) (timestamp r) v (signal_strength_scale r) (signal_qual r) (bssid r)
    (ssid_length r) (ssid_data r) (ssid_type r) (channel r) (spot_rate r) (opr_mode r) (privacy
    r) (name r) (ht_spot r) (bw_40mhz r) (short_gi r) (mcs r) (wpa_ie r) (wps_ie r) (rsn_ie r)
    (frame_type r) (ie_len r) (ies r).
Definition set_signal_strength_scale (v : Z) (r : net_node) : net_node :=
  mk_node (ttl r) (timestamp r) (signal_strength r) v (signal_qual r) (bssid r) (ssid_length r)
    (ssid_data r) (ssid_type r) (channel r) (spot_rate r) (opr_mode r) (privacy r) (name r)
    (ht_spot r) (bw_40mhz r) (short_gi r) (mcs r) (wpa_ie r) (wps_ie r) (rsn_ie r) (frame_type
    r) (ie_len r) (ies r).
Definition set_signal_qual (v : Z) (r : net_node) : net_node :=
  mk_node (ttl r) (timestamp r) (signal_strength r) (signal_strength_scale r) v (bssid r)
    (ssid_length r) (ssid_data r) (ssid_type r) (channel r) (spot_rate r) (opr_mode r) (privacy
    r) (name r) (ht_spot r) (bw_40mhz r) (short_gi r) (mcs r) (wpa_ie r) (wps_ie r) (rsn_ie r)
    (frame_type r) (ie_len r) (ies r).
Definition set_bssid (v : list Z) (r : net_node) : net_node :=
  mk_node (ttl r) (timestamp r) (signal_strength r) (signal_strength_scale r) (signal_qual r) v
    (ssid_length r) (ssid_data r) (ssid_type r) (channel r) (spot_rate r) (opr_mode r) (privacy
    r) (name r) (ht_spot r) (bw_40mhz r) (short_gi r) (mcs r) (wpa_ie r) (wps_ie r) (rsn_ie r)
    (frame_type r) (ie_len r) (ies r).
Definition set_ssid_length (v : Z) (r : net_node) : net_node :=
  mk_node (ttl r) (timestamp r) (signal_strength r) (signal_strength_scale r) (signal_qual r)
    (bssid r) v (ssid_data r) (ssid_type r) (channel r) (spot_rate r) (opr_mode r) (privacy r)
    (name r) (ht_spot r) (bw_40mhz r) (short_gi r) (mcs r) (wpa_ie r) (wps_ie r) (rsn_ie r)
    (frame_type r) (ie_len r) (ies r).
Definition set_ssid_data (v : list Z) (r : net_node) : net_node :=
  mk_node (ttl r) (timestamp r) (signal_strength r) (signal_strength_scale r) (signal_qual r)
    (bssid r) (ssid_length r) v (ssid_type r) (channel r) (spot_rate r) (opr_mode r) (privacy r)
    (name r) (ht_spot r) (bw_40mhz r) (short_gi r) (mcs r) (wpa_ie r) (wps_ie r) (rsn_ie r)
    (frame_type r) (ie_len r) (ies r).
Definition set_ssid_type (v : Z) (r : net_node) : net_node :=
  mk_node (ttl r) (timestamp r) (signal_strength r) (signal_strength_scale r) (signal_qual r)
    (bssid r) (ssid_length r) (ssid_data r) v (channel r) (spot_rate r) (opr_mode r) (privacy r)
    (name r) (ht_spot r) (bw_40mhz r) (short_gi r) (mcs r) (wpa_ie r) (wps_ie r) (rsn_ie r)
    (frame_type r) (ie_len r) (ies r).
Definition set_channel (v : Z) (r : net_node) : net_node :=
  mk_node (ttl r) (timestamp r) (signal_strength r) (signal_strength_scale r) (signal_qual r)
    (bssid r) (ssid_length r) (ssid_data r) (ssid_type r) v (spot_rate r) (opr_mode r) (privacy
    r) (name r) (ht_spot r) (bw_40mhz r) (short_gi r) (mcs r) (wpa_ie r) (wps_ie r) (rsn_ie r)
    (frame_type r) (ie_len r) (ies r).
Definition set_spot_rate (v : list Z) (r : net_node) : net_node :=
  mk_node (ttl r) (timestamp r) (signal_strength r) (signal_strength_scale r) (signal_qual r)
    (bssid r) (ssid_length r) (ssid_data r) (ssid_type r) (channel r) v (opr_mode r) (privacy r)
    (name r) (ht_spot r) (bw_40mhz r) (short_gi r) (mcs r) (wpa_ie r) (wps_ie r) (rsn_ie r)
    (frame_type r) (ie_len r) (ies r).
Definition set_opr_mode (v : Z) (r : net_node) : net_node :=
  mk_node (ttl r) (timestamp r) (signal_strength r) (signal_strength_scale r) (signal_qual r)
    (bssid r) (ssid_length r) (ssid_data r) (ssid_type r) (channel r) (spot_rate r) v (privacy
    r) (name r) (ht_spot r) (bw_40mhz r) (short_gi r) (mcs r) (wpa_ie r) (wps_ie r) (rsn_ie r)
    (frame_type r) (ie_len r) (ies r).
Definition set_privacy (v : bool) (r : net_node) : net_node :=
  mk_node (ttl r) (timestamp r) (signal_strength r) (signal_strength_scale r) (signal_qual r)
    (bssid r) (ssid_length r) (ssid_data r) (ssid_type r) (channel r) (spot_rate r) (opr_mode r)
    v (name r) (ht_spot r) (bw_40mhz r) (short_gi r) (mcs r) (wpa_ie r) (wps_ie r) (rsn_ie r)
    (frame_type r) (ie_len r) (ies r).
Definition set_name (v : Z) (r : net_node) : net_node :=
  mk_node (ttl r) (timestamp r) (signal_strength r) (signal_strength_scale r) (signal_qual r)
    (bssid r) (ssid_length r) (ssid_data r) (ssid_type r) (channel r) (spot_rate r) (opr_mode r)
    (privacy r) v (ht_spot r) (bw_40mhz r) (short_gi r) (mcs r) (wpa_ie r) (wps_ie r) (rsn_ie r)
    (frame_type r) (ie_len r) (ies r).
Definition set_ht_spot (v : bool) (r : net_node) : net_node :=
  mk_node (ttl r) (timestamp r) (signal_strength r) (signal_strength_scale r) (signal_qual r)
    (bssid r) (ssid_length r) (ssid_data r) (ssid_type r) (channel r) (spot_rate r) (opr_mode r)
    (privacy r) (name r) v (bw_40mhz r) (short_gi r) (mcs r) (wpa_ie r) (wps_ie r) (rsn_ie r)
    (frame_type r) (ie_len r) (ies r).
Definition set_bw_40mhz (v : bool) (r : net_node) : net_node :=
  mk_node (ttl r) (timestamp r) (signal_strength r) (signal_strength_scale r) (signal_qual r)
    (bssid r) (ssid_length r) (ssid_data r) (ssid_type r) (channel r) (spot_rate r) (opr_mode r)
    (privacy r) (name r) (ht_spot r) v (short_gi r) (mcs r) (wpa_ie r) (wps_ie r) (rsn_ie r)
    (frame_type r) (ie_len r) (ies r).
Definition set_short_gi (v : bool) (r : net_node) : net_node :=
  mk_node (ttl r) (timestamp r) (signal_strength r) (signal_strength_scale r) (signal_qual r)
    (bssid r) (ssid_length r) (ssid_data r) (ssid_type r) (channel r) (spot_rate r) (opr_mode r)
    (privacy r) (name r) (ht_spot r) (bw_40mhz r) v (mcs r) (wpa_ie r) (wps_ie r) (rsn_ie r)
    (frame_type r) (ie_len r) (ies r).
Definition set_mcs (v : Z) (r : net_node) : net_node :=
  mk_node (ttl r) (timestamp r) (signal_strength r) (signal_strength_scale r) (signal_qual r)
    (bssid r) (ssid_length r) (ssid_data r) (ssid_type r) (channel r) (spot_rate r) (opr_mode r)
    (privacy r) (name r) (ht_spot r) (bw_40mhz r) (short_gi r) v (wpa_ie r) (wps_ie r) (rsn_ie
    r) (frame_type r) (ie_len r) (ies r).
Definition set_wpa_ie (v : list Z) (r : net_node) : net_node :=
  mk_node (ttl r) (timestamp r) (signal_strength r) (signal_strength_scale r) (signal_qual r)
    (bssid r) (ssid_length r) (ssid_data r) (ssid_type r) (channel r) (spot_rate r) (opr_mode r)
    (privacy r) (name r) (ht_spot r) (bw_40mhz r) (short_gi r) (mcs r) v (wps_ie r) (rsn_ie r)
    (frame_type r) (ie_len r) (ies r).
Definition set_wps_ie (v : list Z) (r : net_node) : net_node :=
  mk_node (ttl r) (timestamp r) (signal_strength r) (signal_strength_scale r) (signal_qual r)
    (bssid r) (ssid_length r) (ssid_data r) (ssid_type r) (channel r) (spot_rate r) (opr_mode r)
    (privacy r) (name r) (ht_spot r) (bw_40mhz r) (short_gi r) (mcs r) (wpa_ie r) v (rsn_ie r)
    (frame_type r) (ie_len r) (ies r).
Definition set_rsn_ie (v : list Z) (r : net_node) : net_node :=
  mk_node (ttl r) (timestamp r) (signal_strength r) (signal_strength_scale r) (signal_qual r)
    (bssid r) (ssid_length r) (ssid_data r) (ssid_type r) (channel r) (spot_rate r) (opr_mode r)
    (privacy r) (name r) (ht_spot r) (bw_40mhz r) (short_gi r) (mcs r) (wpa_ie r) (wps_ie r) v
    (frame_type r) (ie_len r) (ies r).
Definition set_frame_type (v : Z) (r : net_node) : net_node :=
  mk_node (ttl r) (timestamp r) (signal_strength r) (signal_strength_scale r) (signal_qual r)
    (bssid r) (ssid_length r) (ssid_data r) (ssid_type r) (channel r) (spot_rate r) (opr_mode r)
    (privacy r) (name r) (ht_spot r) (bw_40mhz r) (short_gi r) (mcs r) (wpa_ie r) (wps_ie r)
    (rsn_ie r) v (ie_len r) (ies r).
Definition set_ie_len (v : Z) (r : net_node) : net_node :=
  mk_node (ttl r) (timestamp r) (signal_strength r) (signal_strength_scale r) (signal_qual r)
    (bssid r) (ssid_length r) (ssid_data r) (ssid_type r) (channel r) (spot_rate r) (opr_mode r)
    (privacy r) (name r) (ht_spot r) (bw_40mhz r) (short_gi r) (mcs r) (wpa_ie r) (wps_ie r)
    (rsn_ie r) (frame_type r) v (ies r).
Definition set_ies (v : list Z) (r : net_node) : net_node :=
  mk_node (ttl r) (timestamp r) (signal_strength r) (signal_strength_scale r) (signal_qual r)
    (bssid r) (ssid_length r) (ssid_data r) (ssid_type r) (channel r) (spot_rate r) (opr_mode r)
    (privacy r) (name r) (ht_spot r) (bw_40mhz r) (short_gi r) (mcs r) (wpa_ie r) (wps_ie r)
    (rsn_ie r) (frame_type r) (ie_len r) v.

(** [memset(scan_node, 0x0, sizeof( *scan_node))] *)
Definition zero : net_node :=
  mk_node 0 0 0 0 0 (replicate 6 0) 0 (replicate 33 0) 0 0 (replicate 16 0) 0 false 0 false
    false false 0 (replicate 64 0) (replicate 64 0) (replicate 64 0) 0 0 (replicate 768 0).
End Nn.

Module NetList.

Definition WF_80211_FRM_BEACON : Z := 0x80.
Definition WF_80211_IES_SIZE_MAX : Z := 768.
Definition BEACON_OFS : Z := 24.
Definition CAPAB_OFS : Z := 34.
Definition VARIABLE_OFS : Z := 36.
Definition WF_80211_CAPAB_IS_MESH_STA_BSS (cap : Z) : bool := Z.land cap (Z.lor (BIT 0) (BIT 1)) =? 0.
Definition WF_80211_MGMT_CAPAB_ESS : Z := BIT 0.
Definition WF_80211_MGMT_CAPAB_PRIVACY : Z := BIT 4.
Definition wpa_oui : list Z := [0x00; 0x50; 0xf2; 0x01].
Definition wps_oui : list Z := [0x00; 0x50; 0xf2; 0x04].

(** [signal_scale_mapping] of [mcu_cmd.c]. *)
Definition signal_scale_mapping (s : Z) : Z :=
  if (51 <=? s) && (s <=? 100) then 100
  else if (41 <=? s) && (s <=? 50) then 80 + (s - 40) * 2
  else if (31 <=? s) && (s <=? 40) then 66 + (s - 30)
  else if (21 <=? s) && (s <=? 30) then 54 + (s - 20)
  else if (10 <=? s) && (s <=? 20) then 42 + Z.quot ((s - 10) * 2) 3
  else if (5 <=? s) && (s <=? 9) then 22 + Z.quot ((s - 5) * 3) 2
  else if (1 <=? s) && (s <=? 4) then 6 + Z.quot ((s - 1) * 3) 2
  else s.

(** [rx_frm_msg_t]: the signal, when there is one, and the bytes from [mgmt_frm] to
    the end of the message's value, of which [mgmt_len] are the frame. *)
Record rx_frm_msg : Type := mk_frm {
  phy_sta : option (Z * Z);
  mgmt_frm : list Z;
  mgmt_len : Z;
}.

(** ** One network *)

(** The name of a network, with the zero behind it. *)
Definition put_ssid (data : list Z) (n : Nn.net_node) : C Nn.net_node :=
  letc d := blit (Nn.ssid_data n) 0 data in
  letc d := wr d (Z.of_nat (length data)) 0 in
  Ret (Nn.set_ssid_data d (Nn.set_ssid_length (Z.of_nat (length data)) n)).

(** The cases of the [switch]: [buf] are the bytes from the element on, [len] its
    length byte, [cnt] is [support_rate_cnt].  A negative result ends the
    parser. *)
Definition element (frame_type id len : Z) (buf : list Z) (cnt : Z) (n : Nn.net_node) : C (Z * Z * Nn.net_node) :=
  if id =? 0 then
    if 33 <=? len then Ret (-3, cnt, n)
    else if frame_type =? Mgmt.WF_80211_FRM_PROBE_RESP then
      if len =? 0 then Ret (-4, cnt, n)
      else
        letc d := slice buf 2 len in
        letc n := put_ssid d (Nn.set_ssid_type 0 n) in Ret (0, cnt, n)
    else if len =? 0 then Ret (0, cnt, Nn.set_ssid_type 1 n)
    else
      letc b := rd buf 2 in
      if b =? 0 then Ret (0, cnt, Nn.set_ssid_type 2 n)
      else
        letc d := slice buf 2 len in
        letc n := put_ssid d (Nn.set_ssid_type 0 n) in Ret (0, cnt, n)
  else if (id =? 1) || (id =? 50) then
    let n := if cnt =? 0 then Nn.set_spot_rate (replicate 16 0) n else n in
    if (len =? 0) || (16 <? len + cnt) then Ret (-4, cnt, n)
    else
      letc d := slice buf 2 len in
      letc r := blit (Nn.spot_rate n) cnt d in
      Ret (0, u8 (cnt + len), Nn.set_spot_rate r n)
  else if (id =? 3) || (id =? 61) then
    letc c := rd buf 2 in Ret (0, cnt, Nn.set_channel c n)
  else if id =? 45 then
    letc mcs := slice buf 5 2 in
    letc cap := slice buf 2 2 in
    let cap := le_word cap in
    Ret (0, cnt, Nn.set_short_gi (nz (Z.land cap (Z.lor 0x20 0x40)))
                   (Nn.set_bw_40mhz (nz (Z.land cap 0x02)) (Nn.set_mcs (le_word mcs) (Nn.set_ht_spot true n))))
  else if id =? 221 then
    letc oui := slice buf 2 4 in
    if bytes_eqb oui wpa_oui then
      if len <=? 64 then
        letc e := slice buf 0 (2 + len) in
        letc w := blit (Nn.wpa_ie n) 0 e in Ret (0, cnt, Nn.set_wpa_ie w n)
      else Ret (0, cnt, n)
    else if bytes_eqb oui wps_oui then
      if len <=? 64 then
        letc e := slice buf 0 (2 + len) in
        letc w := blit (Nn.wps_ie n) 0 e in Ret (0, cnt, Nn.set_wps_ie w n)
      else Ret (0, cnt, n)
    else Ret (0, cnt, n)
  else if id =? 48 then
    if len <=? 64 then
      letc e := slice buf 0 (2 + len) in
      letc w := blit (Nn.rsn_ie n) 0 e in Ret (0, cnt, Nn.set_rsn_ie w n)
    else Ret (0, cnt, n)
  else Ret (0, cnt, n).

(** The loop over the elements; [left] is [pele_end - pele_start].  Each pass
    takes two bytes or more. *)
Fixpoint element_loop (fuel : nat) (frame_type : Z) (buf : list Z) (left cnt : Z) (n : Nn.net_node) : C (Z * Z * Nn.net_node) :=
  match fuel with
  | O => Stuck
  | S fuel =>
      letc id := rd buf 0 in
      letc len := rd buf 1 in
      letc (r, cnt, n) := element frame_type id len buf cnt n in
      if r <? 0 then Ret (r, cnt, n)
      else
        let left := left - (2 + len) in
        if 0 <? left then element_loop fuel frame_type (drop (Z.to_nat (2 + len)) buf) left cnt n
        else Ret (0, cnt, n)
  end.

(** [wf_wlan_bss_name_e] by the rates. *)
Definition is_cck (r : Z) : bool := let r := Z.land r 0x7F in (r =? 2) || (r =? 4) || (r =? 11) || (r =? 22).
Definition name_of (rates : list Z) (ht : bool) : Z :=
  let cck := existsb is_cck rates in
  let ofdm := existsb (fun r => negb (is_cck r)) rates in
  if cck && ofdm then if ht then 7 else 3
  else if cck then if ht then 5 else 1
  else if ht then 6 else 2.

Definition wlan_mgmt_scan_node_info (p2p_valid : bool) (now : Z) (f : rx_frm_msg) (n : Nn.net_node) : C (Z * Nn.net_node) :=
  let buf := mgmt_frm f in
  letc fc := slice buf 0 2 in
  let type := Mgmt.wf_80211_get_frame_type (le_word fc) in
  let n := Nn.set_timestamp now (Nn.set_frame_type type n) in
  let n := match phy_sta f with
           | Some (str, qual) =>
               Nn.set_signal_qual qual (Nn.set_signal_strength_scale (u8 (signal_scale_mapping str)) (Nn.set_signal_strength str n))
           | None => n
           end in
  letc b := slice buf 16 6 in
  let n := Nn.set_bssid b n in
  letc cap := slice buf CAPAB_OFS 2 in
  let cap := le_word cap in
  letc (r, n) :=
    (if negb (WF_80211_CAPAB_IS_MESH_STA_BSS cap) then
       Ret (0, Nn.set_opr_mode (if nz (Z.land cap WF_80211_MGMT_CAPAB_ESS) then 3 else 1) n)
     else if p2p_valid then letc _ := slice buf (VARIABLE_OFS + 2) 7 in Ret (0, n)
     else Ret (-1, n)) in
  if r <? 0 then Ret (r, n)
  else
    let n := Nn.set_privacy (nz (Z.land cap WF_80211_MGMT_CAPAB_PRIVACY)) n in
    let ie_len := u16 (mgmt_len f - BEACON_OFS) in
    let n := Nn.set_ie_len ie_len n in
    if WF_80211_IES_SIZE_MAX <=? ie_len then Ret (-2, n)
    else
      letc d := slice buf BEACON_OFS ie_len in
      letc i := blit (Nn.ies n) 0 d in
      letc i := wr i ie_len 0 in
      letc (r, cnt, n) := element_loop (S (length buf)) type (drop (Z.to_nat VARIABLE_OFS) buf) (mgmt_len f - VARIABLE_OFS) 0 (Nn.set_ies i n) in
      if r <? 0 then Ret (r, n)
      else Ret (0, Nn.set_name (name_of (take (Z.to_nat cnt) (Nn.spot_rate n)) (Nn.ht_spot n)) n).

(** ** The table *)

(** [wf_wlan_mgmt_scan_que_t]; the queues hold numbers of the nodes in [store]. *)
Record scan_que : Type := mk_que {
  free : list nat;
  ready : list nat;
  store : list Nn.net_node;
  read_cnt : Z;
  sema : Z;
}.

(** The time to live of a node, and the network the device is connected to, if
    any. *)
Record net_cfg : Type := mk_cfg {
  scan_que_node_ttl : Z;
  onlink : option (list Z);
}.

Definition set_queues (f r : list nat) (s : scan_que) : scan_que := mk_que f r (store s) (read_cnt s) (sema s).
Definition set_nodes (st : list Nn.net_node) (s : scan_que) : scan_que := mk_que (free s) (ready s) st (read_cnt s) (sema s).
Definition set_sema (v : Z) (s : scan_que) : scan_que := mk_que (free s) (ready s) (store s) (read_cnt s) v.
Definition set_read_cnt (v : Z) (s : scan_que) : scan_que := mk_que (free s) (ready s) (store s) v (sema s).
Definition node (s : scan_que) (e : nat) : C Nn.net_node := of_option (store s !! e).
Definition set_node (e : nat) (n : Nn.net_node) (s : scan_que) : scan_que := set_nodes (<[e := n]> (store s)) s.
Definition unlink (e : nat) (l : list nat) : list nat := List.filter (fun x => negb (Nat.eqb x e)) l.

(** [wf_os_api_sema_try] and [wf_os_api_sema_post]. *)
Definition sema_try (s : scan_que) : bool * scan_que :=
  if sema s =? 0 then (false, s) else (true, set_sema (sema s - 1) s).
Definition sema_post (s : scan_que) : scan_que := set_sema (sema s + 1) s.

Definition wf_wlan_mgmt_scan_que_read_try (s : scan_que) : Z * scan_que :=
  if read_cnt s =? 0xFF then (-2, s)
  else if read_cnt s =? 0 then
    let (ok, s) := sema_try s in
    if negb ok then (-3, s) else (0, set_read_cnt (u8 (read_cnt s + 1)) s)
  else (0, set_read_cnt (u8 (read_cnt s + 1)) s).

Definition wf_wlan_mgmt_scan_que_read_post (s : scan_que) : Z * scan_que :=
  if read_cnt s =? 0 then (-2, s)
  else
    let s := set_read_cnt (u8 (read_cnt s - 1)) s in
    if read_cnt s =? 0 then (0, sema_post s) else (0, s).

(** The loop of the readers, [wf_wlan_mgmt_scan_que_for_begin] to
    [wf_wlan_mgmt_scan_que_for_end]: each node it comes to loses the upper bytes of
    its time to live; [stop] is what the reader's code says of the node, [true]
    where it leaves the loop. *)
Inductive scan_que_for_rst : Type := SCAN_QUE_FOR_RST_FAIL | SCAN_QUE_FOR_RST_END | SCAN_QUE_FOR_RST_BREAK.

Definition mask_ttl (n : Nn.net_node) : Nn.net_node := Nn.set_ttl (Z.land (Nn.ttl n) 0xFF) n.
Definition visit (e : nat) (s : scan_que) : C (Nn.net_node * scan_que) :=
  letc n := node s e in Ret (mask_ttl n, set_node e (mask_ttl n) s).

Fixpoint visit_nodes (stop : Nn.net_node -> bool) (l : list nat) (s : scan_que) : C (option Nn.net_node * scan_que) :=
  match l with
  | [] => Ret (None, s)
  | e :: l => letc (n, s) := visit e s in if stop n then Ret (Some n, s) else visit_nodes stop l s
  end.

Definition wf_wlan_mgmt_scan_que_for (cannot_run : bool) (stop : Nn.net_node -> bool) (s : scan_que) : C (scan_que_for_rst * option Nn.net_node * scan_que) :=
  if cannot_run then Ret (SCAN_QUE_FOR_RST_FAIL, None, s)
  else
    let (r, s) := wf_wlan_mgmt_scan_que_read_try s in
    if nz r then Ret (SCAN_QUE_FOR_RST_FAIL, None, s)
    else
      letc (o, s) := visit_nodes stop (ready s) s in
      let (_, s) := wf_wlan_mgmt_scan_que_read_post s in
      Ret (match o with Some _ => SCAN_QUE_FOR_RST_BREAK | None => SCAN_QUE_FOR_RST_END end, o, s).

(** The quality and the strength of the connected network, where it is found. *)
Definition wf_wlan_get_signal_and_qual (cannot_run : bool) (cur_bssid : list Z) (s : scan_que) : C (scan_que_for_rst * option (Z * Z) * scan_que) :=
  letc (r, o, s) := wf_wlan_mgmt_scan_que_for cannot_run (fun n => bytes_eqb (Nn.bssid n) cur_bssid) s in
  Ret (r, (fun n => (Nn.signal_qual n, Nn.signal_strength n)) <$> o, s).

Definition is_bss_onlink (cfg : net_cfg) (bssid : list Z) : bool :=
  match onlink cfg with Some b => bytes_eqb b bssid | None => false end.

Definition wlan_mgmt_scan_que_node_new (s : scan_que) : option nat * scan_que :=
  match free s with
  | [] => (None, s)
  | e :: f => (Some e, set_node e Nn.zero (set_queues f (ready s) s))
  end.

(** The first node of a queue that satisfies [P]. *)
Fixpoint first_of (P : Nn.net_node -> bool) (s : scan_que) (l : list nat) : C (option nat) :=
  match l with
  | [] => Ret None
  | e :: l => letc n := node s e in if P n then Ret (Some e) else first_of P s l
  end.

Fixpoint insert_prev (e pos : nat) (l : list nat) : list nat :=
  match l with
  | [] => []
  | x :: l => if Nat.eqb x pos then e :: x :: l else x :: insert_prev e pos l
  end.

Definition PRB_HOLD_TIMES : Z := 5.
Definition TTL_PRB_HOLD_TIMES_OFS : Z := 24.
Definition TTL_PRB_HOLD_TIMES_MSK : Z := 0xFF000000.

(** Behind the choice of the node that is replaced: the queues are changed when no
    reader is at work. *)
Definition push_ready (cfg : net_cfg) (new : nat) (swap pos : option nat) (s : scan_que) : C (Z * scan_que) :=
  let (ok, s) := sema_try s in
  if negb ok then Ret (-5, s)
  else
    letc n := node s new in
    let s := set_node new (Nn.set_ttl (Z.lor (scan_que_node_ttl cfg) (Z.shiftl PRB_HOLD_TIMES TTL_PRB_HOLD_TIMES_OFS)) n) s in
    let r := match pos with Some p => insert_prev new p (ready s) | None => ready s ++ [new] end in
    let s := match swap with
             | Some e => set_queues (free s ++ [e]) (unlink e r) s
             | None => set_queues (free s) r s
             end in
    Ret (0, sema_post s).

(** [type] is the type of the frame in the message. *)
Definition wlan_mgmt_scan_que_node_push (cfg : net_cfg) (valid : bool) (type : Z) (new : nat) (s : scan_que) : C (Z * scan_que) :=
  letc nn := node s new in
  letc swap := first_of (fun n => bytes_eqb (Nn.bssid nn) (Nn.bssid n)) s (ready s) in
  letc pos := first_of (fun n => Nn.signal_strength n <? Nn.signal_strength nn) s (ready s) in
  letc hold := (match swap with
                | None => Ret None
                | Some e =>
                    letc n := node s e in
                    Ret (if (Nn.frame_type n =? Mgmt.WF_80211_FRM_PROBE_RESP) && (type =? WF_80211_FRM_BEACON) &&
                            nz (Z.land (Nn.ttl n) TTL_PRB_HOLD_TIMES_MSK)
                         then Some (set_node e (Nn.set_ttl (u32 (Nn.ttl n - BIT TTL_PRB_HOLD_TIMES_OFS)) n) s) else None)
                end) in
  match hold with
  | Some s => Ret (-1, s)
  | None =>
      let full := match free s with [] => true | _ => false end in
      if negb valid && full then Ret (-2, s)
      else if negb valid && (match swap with Some _ => true | None => false end) then Ret (-3, s)
      else
        match swap with
        | Some e => push_ready cfg new (Some e) pos s
        | None =>
            if full then
              letc e := of_option (last (ready s)) in
              letc n := node s e in
              if is_bss_onlink cfg (Nn.bssid n) then Ret (-4, s) else push_ready cfg new (Some e) pos s
            else push_ready cfg new None pos s
        end
  end.

(** The two queues as they are linked in memory, for the loop that leaves the
    sequences: [onlink] is what [is_bss_onlink] says of the node whose place in a
    queue is at an address, [None] where there is no node. *)
Record linked_que : Type := mk_lq {
  lq_heap : WfList.heap;
  lq_free : WfList.wf_que_t;
  lq_ready : WfList.wf_que_t;
}.

Definition flush_body (onlink : Z -> option bool) (pos : Z) (q : linked_que) : C linked_que :=
  letc on := of_option (onlink pos) in
  if on then Ret q
  else
    letc (h, r, _) := WfList.wf_deque (lq_heap q) pos (lq_ready q) in
    letc (h, f) := WfList.wf_enque_tail h pos (lq_free q) in
    Ret (mk_lq h f r).

(** [wf_list_for_each_safe(pos, n, wf_deque_head(&pscan_que->ready))]: the macro
    has its [head] twice, so the node that the end is compared with is another
    one, taken out of the queue, at every turn. *)
Fixpoint flush_loop (fuel : nat) (onlink : Z -> option bool) (pos n : Z) (q : linked_que) : C linked_que :=
  match fuel with
  | O => Stuck
  | S fuel =>
      letc (h, r, x) := WfList.wf_deque_head (lq_heap q) (lq_ready q) in
      let q := mk_lq h (lq_free q) r in
      if bool_decide (x = Some pos) then Ret q
      else
        letc q := flush_body onlink pos q in
        letc n' := WfList.wf_list_next (lq_heap q) n in
        flush_loop fuel onlink n n' q
  end.

Definition wlan_mgmt_scan_que_node_flush (fuel : nat) (onlink : Z -> option bool) (sema : Z) (q : linked_que) : C (Z * Z * linked_que) :=
  letc e := WfList.wf_que_is_empty (lq_heap q) (lq_ready q) in
  if e then Ret (0, sema, q)
  else if sema =? 0 then Ret (-1, sema, q)
  else
    letc (h, r, x) := WfList.wf_deque_head (lq_heap q) (lq_ready q) in
    letc x := of_option x in
    letc pos := WfList.wf_list_next h x in
    letc n := WfList.wf_list_next h pos in
    letc q := flush_loop fuel onlink pos n (mk_lq h (lq_free q) r) in
    Ret (0, sema, q).

Definition refresh_node (ch_map : list Z) (e : nat) (s : scan_que) : C scan_que :=
  letc n := node s e in
  if negb (existsb (Z.eqb (Nn.channel n)) ch_map) then Ret s
  else
    let ttl := if nz (Nn.ttl n) then u32 (Nn.ttl n - 1) else Nn.ttl n in
    let s := set_node e (Nn.set_ttl ttl n) s in
    if negb (ttl =? 0) then Ret s
    else
      let (ok, s) := sema_try s in
      if negb ok then Ret s else Ret (sema_post (set_queues (free s ++ [e]) (unlink e (ready s)) s)).

(** The loop over the nodes of [ready] as it is at the beginning. *)
Fixpoint refresh_nodes (ch_map : list Z) (l : list nat) (s : scan_que) : C scan_que :=
  match l with
  | [] => Ret s
  | e :: l => letc s := refresh_node ch_map e s in refresh_nodes ch_map l s
  end.

Definition wlan_mgmt_scan_que_refresh (ch_map : list Z) (s : scan_que) : C (Z * scan_que) :=
  letc s := refresh_nodes ch_map (ready s) s in Ret (0, s).

(** The case of a beacon or a probe response in [rx_frame_handle]. *)
Definition handle_frame (cfg : net_cfg) (p2p_valid : bool) (now : Z) (f : rx_frm_msg) (s : scan_que) : C (Z * scan_que) :=
  let (new, s) := wlan_mgmt_scan_que_node_new s in
  match new with
  | None => Ret (-1, s)
  | Some e =>
      letc n := node s e in
      letc (r, n) := wlan_mgmt_scan_node_info p2p_valid now f n in
      let s := set_node e n s in
      if nz r then Ret (r, set_queues (e :: free s) (ready s) s)
      else
        letc fc := slice (mgmt_frm f) 0 2 in
        letc (r, s) := wlan_mgmt_scan_que_node_push cfg (match phy_sta f with Some _ => true | None => false end)
                         (Mgmt.wf_80211_get_frame_type (le_word fc)) e s in
        if nz r then Ret (r, set_queues (e :: free s) (ready s) s) else Ret (0, s)
  end.

(** [wlan_mgmt_scan_que_init]: the nodes that could be allocated are in the pool;
    [allocs] says which allocations succeed. *)
Fixpoint alloc_nodes (allocs : list bool) (s : scan_que) : Z * scan_que :=
  match allocs with
  | [] => (0, mk_que (free s) (ready s) (store s) 0 1)
  | ok :: allocs =>
      if negb ok then (-1, s)
      else alloc_nodes allocs (mk_que (length (store s) :: free s) (ready s) (store s ++ [Nn.zero]) (read_cnt s) (sema s))
  end.
Definition wlan_mgmt_scan_que_init (allocs : list bool) : Z * scan_que := alloc_nodes allocs (mk_que [] [] [] 0 0).

(** [wlan_mgmt_scan_que_deinit]: the nodes it frees. *)
Definition wlan_mgmt_scan_que_deinit (s : scan_que) : list nat := free s ++ ready s.

(** ** What the table keeps *)

Definition at_node (s : scan_que) (e : nat) : Nn.net_node := default Nn.zero (store s !! e).

(** Stronger networks come first. *)
Definition stronger (s : scan_que) (a b : nat) : Prop :=
  Nn.signal_strength (at_node s b) <= Nn.signal_strength (at_node s a).

(** The nodes are in one queue each, the networks in the order of their strength,
    each once, and the semaphore is taken exactly while there are readers; [k]
    counts the nodes of the two queues. *)
Record net_ok (k : nat) (s : scan_que) : Prop := {
  no_pool : length (free s ++ ready s) = k;
  no_range : Forall (fun e => (e < length (store s))%nat) (free s ++ ready s);
  no_nodup : NoDup (free s ++ ready s);
  no_sorted : StronglySorted (stronger s) (ready s);
  no_bssid : NoDup ((fun e => Nn.bssid (at_node s e)) <$> ready s);
  no_lock : 0 <= read_cnt s <= 255 /\ sema s = if read_cnt s =? 0 then 1 else 0;
}.

Lemma node_ret s e : (e < length (store s))%nat -> node s e = Ret (at_node s e).
Proof. intros H. unfold node, at_node. apply lookup_lt_is_Some in H as [n ->]. done. Qed.

Lemma at_set_node s e x n : (e < length (store s))%nat -> at_node (set_node e n s) x = if Nat.eqb x e then n else at_node s x.
Proof.
  intros H. unfold at_node. cbn [set_node set_nodes store]. destruct (Nat.eqb_spec x e) as [-> |].
  - by rewrite list_lookup_insert_eq.
  - by rewrite list_lookup_insert_ne.
Qed.

Lemma set_node_length s e n : length (store (set_node e n s)) = length (store s).
Proof. cbn. apply length_insert. Qed.

Lemma first_of_spec P s l : Forall (fun e => (e < length (store s))%nat) l ->
  exists o, first_of P s l = Ret o /\
    match o with
    | Some e => exists l1 l2, l = l1 ++ e :: l2 /\ P (at_node s e) = true /\ Forall (fun x => P (at_node s x) = false) l1
    | None => Forall (fun x => P (at_node s x) = false) l
    end.
Proof.
  induction 1 as [| e l He Hl IH]; [by exists None |]. cbn [first_of]. rewrite node_ret by done. cbn [cbind].
  destruct (P (at_node s e)) eqn:E.
  - exists (Some e). split; [done |]. exists [], l. by split_and!.
  - destruct IH as (o & -> & Ho). exists o. split; [done |]. destruct o as [x |].
    + destruct Ho as (l1 & l2 & -> & Hx & H1). exists (e :: l1), l2. split_and!; [done | done | by constructor].
    + by constructor.
Qed.

Lemma insert_prev_at e p l1 l2 : p ∉ l1 -> insert_prev e p (l1 ++ p :: l2) = l1 ++ e :: p :: l2.
Proof.
  induction l1 as [| x l1 IH]; cbn [insert_prev app]; intros Hp.
  - by rewrite Nat.eqb_refl.
  - apply not_elem_of_cons in Hp as [Hne Hp]. destruct (Nat.eqb_spec x p); [congruence |]. by rewrite IH.
Qed.

Lemma unlink_sublist e l : sublist (unlink e l) l.
Proof. induction l as [| x l IH]; [done |]. cbn. destruct (negb _); by constructor. Qed.

Lemma elem_unlink x e l : x ∈ unlink e l <-> x ∈ l /\ x <> e.
Proof.
  unfold unlink. rewrite !list_elem_of_In, filter_In. rewrite negb_true_iff, Nat.eqb_neq. tauto.
Qed.

Lemma net_unlink_perm e l : NoDup l -> e ∈ l -> l ≡ₚ e :: unlink e l.
Proof.
  intros Hnd. induction Hnd as [| x l Hx Hnd IH]; [by intros ?%not_elem_of_nil |]. cbn.
  destruct (Nat.eqb_spec x e) as [-> |]; cbn.
  - intros _. f_equiv. clear IH Hnd. induction l as [| y l IHl]; [done |]. cbn. apply not_elem_of_cons in Hx as [Hne Hx].
    destruct (Nat.eqb_spec y e); [congruence |]. cbn. f_equiv. by apply IHl.
  - intros [?|Hin]%elem_of_cons; [congruence |]. rewrite (IH Hin) at 1. apply perm_swap.
Qed.

Lemma forall_sub {A} (P : A -> Prop) l k : sublist l k -> Forall P k -> Forall P l.
Proof. induction 1 as [| x l k Hs IH | x l k Hs IH]; intros HF; [done | |]; inversion_clear HF; [constructor |]; auto. Qed.

Lemma sorted_sub {A} (R : A -> A -> Prop) l k : sublist l k -> StronglySorted R k -> StronglySorted R l.
Proof.
  induction 1 as [| x l k Hs IH | x l k Hs IH]; intros H; [done | |].
  - apply StronglySorted_inv in H as [H Hx]. constructor; [by apply IH |]. by eapply forall_sub.
  - apply StronglySorted_inv in H as [H _]. by apply IH.
Qed.

Lemma nodup_sub {A} (l k : list A) : sublist l k -> NoDup k -> NoDup l.
Proof.
  induction 1 as [| x l k Hs IH | x l k Hs IH]; intros H; [done | |]; apply NoDup_cons in H as [Hx H]; [constructor |]; auto.
  intros Hin. apply Hx. revert Hin. rewrite !list_elem_of_In. clear -Hs. induction Hs; cbn; intuition.
Qed.

Lemma sub_fmap {A B} (f : A -> B) l k : sublist l k -> sublist (f <$> l) (f <$> k).
Proof. induction 1; cbn; by constructor. Qed.

Lemma nodup_fmap_inj {A B} (f : A -> B) l x y : NoDup (f <$> l) -> x ∈ l -> y ∈ l -> f x = f y -> x = y.
Proof.
  intros Hn (i & Hi)%list_elem_of_lookup (j & Hj)%list_elem_of_lookup E.
  assert (i = j) by (eapply NoDup_lookup; [exact Hn | by rewrite list_lookup_fmap, Hi | by rewrite list_lookup_fmap, Hj, E]).
  congruence.
Qed.

Lemma sorted_ext {A} (R R' : A -> A -> Prop) l : (forall a b, a ∈ l -> b ∈ l -> R a b -> R' a b) -> StronglySorted R l -> StronglySorted R' l.
Proof.
  intros H Hs. induction Hs as [| x l Hl IH Hx]; constructor.
  - apply IH. intros a b Ha Hb. apply H; by right.
  - rewrite list.Forall_forall in Hx |- *. intros y Hy. apply H; [by left | by right | by apply Hx].
Qed.

(** Where a node goes: behind those at least as strong, in front of the weaker
    ones. *)
Lemma insert_sorted s new l1 l2 : StronglySorted (stronger s) (l1 ++ l2) ->
  Forall (fun x => stronger s x new) l1 -> Forall (fun x => stronger s new x) l2 ->
  StronglySorted (stronger s) (l1 ++ new :: l2).
Proof.
  intros Hs H1 H2. induction l1 as [| x l1 IH]; cbn [app] in *; [by constructor |].
  apply StronglySorted_inv in Hs as [Hs Hx]. inversion_clear H1. constructor; [by apply IH |].
  apply Forall_app in Hx as [Hx1 Hx2]. apply Forall_app. split; [done |]. by constructor.
Qed.

(** The queue with the new node in its place. *)
Definition placed (new : nat) (pos : option nat) (l : list nat) : list nat :=
  match pos with Some p => insert_prev new p l | None => l ++ [new] end.

Lemma placed_spec s new l : Forall (fun e => (e < length (store s))%nat) l -> StronglySorted (stronger s) l ->
  exists pos, first_of (fun n => Nn.signal_strength n <? Nn.signal_strength (at_node s new)) s l = Ret pos /\
    exists l1 l2, l = l1 ++ l2 /\ placed new pos l = l1 ++ new :: l2 /\ StronglySorted (stronger s) (l1 ++ new :: l2).
Proof.
  intros Hr Hs. destruct (first_of_spec (fun n => Nn.signal_strength n <? Nn.signal_strength (at_node s new)) s l Hr) as (o & Hf & Ho).
  exists o. split; [done |]. destruct o as [p |].
  - destruct Ho as (l1 & l2 & -> & Hp & H1). exists l1, (p :: l2). split; [done |].
    assert (Hn : p ∉ l1) by (intros Hin; rewrite list.Forall_forall in H1; specialize (H1 p Hin); congruence).
    split; [by apply insert_prev_at |]. apply insert_sorted; [done | |].
    + eapply Forall_impl; [exact H1 |]. intros x Hx. apply Z.ltb_ge in Hx. exact Hx.
    + apply Z.ltb_lt in Hp. constructor; [unfold stronger; lia |].
      assert (Hpl : StronglySorted (stronger s) (p :: l2)) by (eapply sorted_sub; [apply sublist_inserts_l; reflexivity | exact Hs]).
      apply StronglySorted_inv in Hpl as [_ Hpl]. eapply Forall_impl; [exact Hpl |]. unfold stronger. intros x Hx. lia.
  - exists l, []. rewrite !app_nil_r. split; [done |]. split; [done |]. apply insert_sorted; [by rewrite app_nil_r | | constructor].
    eapply Forall_impl; [exact Ho |]. intros x Hx. apply Z.ltb_ge in Hx. exact Hx.
Qed.

(** What the invariant reads of a node. *)
Definition alike (a b : Nn.net_node) : Prop := Nn.bssid a = Nn.bssid b /\ Nn.signal_strength a = Nn.signal_strength b.

(** The invariant holds of any rearrangement that keeps the order and the
    networks apart. *)
Lemma net_ok_moved k s s' : net_ok k s -> length (store s') = length (store s) ->
  free s' ++ ready s' ≡ₚ free s ++ ready s -> (forall e, e ∈ ready s' -> alike (at_node s' e) (at_node s e)) ->
  StronglySorted (stronger s) (ready s') -> NoDup ((fun e => Nn.bssid (at_node s e)) <$> ready s') ->
  0 <= read_cnt s' <= 255 /\ sema s' = (if read_cnt s' =? 0 then 1 else 0) -> net_ok k s'.
Proof.
  intros H Hlen Hp Ha Hs Hb Hl. constructor.
  - rewrite Hp. apply (no_pool _ _ H).
  - rewrite Hp, Hlen. apply (no_range _ _ H).
  - rewrite Hp. apply (no_nodup _ _ H).
  - eapply sorted_ext, Hs. intros a b H1 H2. unfold stronger. destruct (Ha a H1) as [_ ->], (Ha b H2) as [_ ->]. done.
  - erewrite list_fmap_ext; [exact Hb |]. intros i x Hx. cbn. apply (Ha x). by eapply list_elem_of_lookup_2.
  - done.
Qed.

Lemma net_ok_keep k s s' : net_ok k s -> length (store s') = length (store s) -> free s' = free s -> ready s' = ready s ->
  (forall e, e ∈ ready s -> alike (at_node s' e) (at_node s e)) -> read_cnt s' = read_cnt s -> sema s' = sema s -> net_ok k s'.
Proof.
  intros H Hl Hf Hr Ha Hc Hse. apply (net_ok_moved k s); rewrite ?Hf, ?Hr, ?Hc, ?Hse; try done; apply H.
Qed.

(** The queue without the replaced node. *)
Definition without (swap : option nat) (l : list nat) : list nat := match swap with Some e => unlink e l | None => l end.
Definition given (swap : option nat) : list nat := match swap with Some e => [e] | None => [] end.

Lemma net_without_perm swap l : NoDup l -> (forall e, swap = Some e -> e ∈ l) -> l ≡ₚ given swap ++ without swap l.
Proof. destruct swap as [e |]; cbn; [| done]. intros Hn He. by apply net_unlink_perm, He. Qed.

Lemma without_sub swap l : sublist (without swap l) l.
Proof. destruct swap; [apply unlink_sublist | done]. Qed.

Lemma elem_without x swap l : x ∈ without swap l -> x ∈ l /\ swap <> Some x.
Proof. destruct swap as [e |]; cbn; [| done]. rewrite elem_unlink. intros [? ?]. split; congruence. Qed.

Lemma left_without x swap l : x ∈ l -> swap <> Some x -> x ∈ without swap l.
Proof. destruct swap as [e |]; cbn; [| done]. rewrite elem_unlink. intros ? ?. split; congruence. Qed.

Lemma without_middle swap new l1 l2 : swap <> Some new ->
  without swap (l1 ++ new :: l2) = without swap l1 ++ new :: without swap l2.
Proof.
  destruct swap as [e |]; cbn; [| done]. intros Hne. unfold unlink. rewrite List.filter_app. cbn.
  destruct (Nat.eqb_spec new e) as [-> |]; done.
Qed.

Lemma without_app swap l1 l2 : without swap (l1 ++ l2) = without swap l1 ++ without swap l2.
Proof. destruct swap; cbn; [apply List.filter_app | done]. Qed.

Definition reset_ttl (cfg : net_cfg) (n : Nn.net_node) : Nn.net_node :=
  Nn.set_ttl (Z.lor (scan_que_node_ttl cfg) (Z.shiftl PRB_HOLD_TIMES TTL_PRB_HOLD_TIMES_OFS)) n.

(** What a push leaves: the new node among the networks, or the queues as they
    were. *)
Record pushed (cfg : net_cfg) (k new : nat) (s s' : scan_que) : Prop := {
  pu_ok : net_ok (S k) s';
  pu_new : new ∈ ready s';
  pu_node : at_node s' new = reset_ttl cfg (at_node s new);
  pu_old : forall x, x ∈ ready s' -> x <> new -> x ∈ ready s /\ at_node s' x = at_node s x;
  pu_gone : forall x, x ∈ ready s -> x ∈ ready s' \/ Nn.bssid (at_node s x) = Nn.bssid (at_node s new) \/ free s = [] /\ last (ready s) = Some x;
}.

(** A frame of the type [type] and the network [b] is not recorded: nothing of any
    network changes, but that a beacon takes one from the beacons the network of
    a probe response is held against. *)
Definition held_back (type : Z) (b : list Z) (old new : Nn.net_node) : Prop :=
  type = WF_80211_FRM_BEACON /\ Nn.bssid old = b /\ Nn.frame_type old = Mgmt.WF_80211_FRM_PROBE_RESP /\
  nz (Z.land (Nn.ttl old) TTL_PRB_HOLD_TIMES_MSK) = true /\ new = Nn.set_ttl (u32 (Nn.ttl old - BIT TTL_PRB_HOLD_TIMES_OFS)) old.

Record refused (type : Z) (b : list Z) (k : nat) (s s' : scan_que) : Prop := {
  rf_ok : net_ok k s';
  rf_free : free s' = free s;
  rf_ready : ready s' = ready s;
  rf_store : length (store s') = length (store s);
  rf_same : forall x, at_node s' x = at_node s x \/ held_back type b (at_node s x) (at_node s' x);
}.

Section Push.
Context (cfg : net_cfg) (k new : nat) (s : scan_que) (swap : option nat).
Hypothesis Hok : net_ok k s.
Hypothesis Hnew : new ∉ free s ++ ready s.
Hypothesis Hlt : (new < length (store s))%nat.
Hypothesis Hswap : forall e, swap = Some e -> e ∈ ready s.
Hypothesis Hapart : forall x, x ∈ ready s -> swap <> Some x -> Nn.bssid (at_node s x) <> Nn.bssid (at_node s new).
Hypothesis Hgone : forall e, swap = Some e -> Nn.bssid (at_node s e) = Nn.bssid (at_node s new) \/ free s = [] /\ last (ready s) = Some e.

Lemma swap_not_new : swap <> Some new.
Proof using Hnew Hswap. intros E. apply Hnew, elem_of_app. right. by apply Hswap. Qed.

Lemma apart_new l1 l2 : ready s = l1 ++ l2 ->
  NoDup ((fun e => Nn.bssid (at_node s e)) <$> without swap (l1 ++ new :: l2)).
Proof using Hok Hnew Hswap Hapart.
  intros Hr. rewrite without_middle by apply swap_not_new. rewrite <- Permutation_middle, <- without_app, <- Hr. cbn.
  constructor.
  - intros (x & E & Hx)%list_elem_of_fmap. apply elem_without in Hx as [Hx Hs]. by apply (Hapart x Hx Hs).
  - eapply nodup_sub, (no_bssid _ _ Hok). apply sub_fmap, without_sub.
Qed.

Lemma push_perm l1 l2 : ready s = l1 ++ l2 ->
  (free s ++ given swap) ++ without swap (l1 ++ new :: l2) ≡ₚ new :: free s ++ ready s.
Proof using All.
  intros Hr. rewrite <- app_assoc, <- net_without_perm.
  - rewrite Hr. rewrite <- Permutation_middle. rewrite <- Permutation_middle. done.
  - rewrite <- Permutation_middle, <- Hr. pose proof (no_nodup _ _ Hok) as Hn. apply NoDup_app in Hn as (_ & _ & Hn).
    constructor; [| done]. intros Hin. apply Hnew, elem_of_app. by right.
  - intros e He. apply Hswap in He. rewrite Hr in He. set_solver.
Qed.

Lemma push_ready_spec pos l1 l2 : ready s = l1 ++ l2 -> placed new pos (ready s) = l1 ++ new :: l2 ->
  StronglySorted (stronger s) (l1 ++ new :: l2) ->
  exists r s', push_ready cfg new swap pos s = Ret (r, s') /\
    (r = 0 /\ pushed cfg k new s s' \/ r = -5 /\ read_cnt s <> 0 /\ s' = s).
Proof using All.
  intros Hr Hp Hs. unfold push_ready, sema_try. destruct (no_lock _ _ Hok) as [Hc Hl].
  destruct (read_cnt s =? 0) eqn:E; rewrite Hl; cbn [Z.eqb negb].
  2:{ eexists _, _. split; [done |]. right. apply Z.eqb_neq in E. done. }
  rewrite node_ret by done. cbn [cbind]. eexists _, _. split; [reflexivity |]. left. split; [done |].
  change (at_node (set_sema (1 - 1) s) new) with (at_node s new). fold (reset_ttl cfg (at_node s new)).
  set (s1 := set_node new _ _).
  assert (Hs' : (match swap with Some e => set_queues (free s1 ++ [e]) (unlink e (match pos with Some p => insert_prev new p (ready s1) | None => ready s1 ++ [new] end)) s1
                 | None => set_queues (free s1) (match pos with Some p => insert_prev new p (ready s1) | None => ready s1 ++ [new] end) s1 end)
                = set_queues (free s ++ given swap) (without swap (l1 ++ new :: l2)) s1).
  { change (match pos with Some p => insert_prev new p (ready s1) | None => ready s1 ++ [new] end) with (placed new pos (ready s)).
    rewrite Hp. destruct swap; cbn [given without]; [done |]. by rewrite app_nil_r. }
  rewrite Hs'. set (s2 := sema_post _).
  assert (Hat : forall x, at_node s2 x = if Nat.eqb x new then reset_ttl cfg (at_node s new) else at_node s x).
  { intros x. by apply (at_set_node (set_sema (1 - 1) s)). }
  assert (Hal : forall x, alike (at_node s2 x) (at_node s x)).
  { intros x. rewrite Hat. destruct (Nat.eqb_spec x new) as [-> |]; done. }
  assert (Hlen : length (store s2) = length (store s)) by apply length_insert.
  assert (Hpm : free s2 ++ ready s2 ≡ₚ new :: free s ++ ready s) by exact (push_perm l1 l2 Hr).
  split.
  - constructor.
    + rewrite Hpm. cbn. by rewrite (no_pool _ _ Hok).
    + rewrite Hpm, Hlen. constructor; [done | apply (no_range _ _ Hok)].
    + rewrite Hpm. constructor; [done | apply (no_nodup _ _ Hok)].
    + eapply sorted_ext; [| eapply sorted_sub, Hs; apply without_sub].
      intros a b _ _. unfold stronger. destruct (Hal a) as [_ ->], (Hal b) as [_ ->]. done.
    + erewrite list_fmap_ext; [apply (apart_new l1 l2 Hr) |]. intros i x _. cbn. apply (Hal x).
    + cbn. by rewrite E.
  - cbn. rewrite without_middle by apply swap_not_new. set_solver.
  - by rewrite Hat, Nat.eqb_refl.
  - intros x Hx Hne. rewrite Hat. destruct (Nat.eqb_spec x new); [done |]. split; [| done].
    cbn in Hx. apply elem_without in Hx as [Hx _]. rewrite Hr. set_solver.
  - intros x Hx. destruct (decide (swap = Some x)) as [E' | E']; [right; by apply Hgone |]. left.
    cbn. apply left_without; [| done]. rewrite Hr in Hx. set_solver.
Qed.
End Push.

Lemma ready_range k s : net_ok k s -> Forall (fun e => (e < length (store s))%nat) (ready s).
Proof. intros H. pose proof (no_range _ _ H) as Hr. by apply Forall_app in Hr as [_ Hr]. Qed.

Lemma refused_refl type b k s : net_ok k s -> refused type b k s s.
Proof. constructor; try done. by left. Qed.

(** Why a frame is not recorded. *)
Definition cause (valid : bool) (type : Z) (s : scan_que) : Prop :=
  type = WF_80211_FRM_BEACON \/ valid = false \/ free s = [] \/ read_cnt s <> 0.

(** A push of a frame returns, with the new node among the networks or with the
    queues unchanged, unless no node at all is left beside the new one. *)
Lemma net_push_spec cfg valid type k new s : net_ok (S k) s -> new ∉ free s ++ ready s -> (new < length (store s))%nat ->
  exists r s', wlan_mgmt_scan_que_node_push cfg valid type new s = Ret (r, s') /\
    (r = 0 /\ pushed cfg (S k) new s s' \/ r < 0 /\ refused type (Nn.bssid (at_node s new)) (S k) s s' /\ cause valid type s).
Proof.
  intros Hok Hnew Hlt. pose proof (ready_range _ _ Hok) as Hr. unfold wlan_mgmt_scan_que_node_push.
  rewrite node_ret by done. cbn [cbind].
  destruct (first_of_spec (fun n => bytes_eqb (Nn.bssid (at_node s new)) (Nn.bssid n)) s (ready s) Hr) as (sw & -> & Hsw).
  cbn [cbind]. destruct (placed_spec s new (ready s) Hr (no_sorted _ _ Hok)) as (pos & -> & l1 & l2 & Hl & Hp & Hs).
  cbn [cbind].
  assert (Hdone : forall swap, (forall e, swap = Some e -> e ∈ ready s) ->
            (forall x, x ∈ ready s -> swap <> Some x -> Nn.bssid (at_node s x) <> Nn.bssid (at_node s new)) ->
            (forall e, swap = Some e -> Nn.bssid (at_node s e) = Nn.bssid (at_node s new) \/ free s = [] /\ last (ready s) = Some e) ->
            exists r s', push_ready cfg new swap pos s = Ret (r, s') /\
              (r = 0 /\ pushed cfg (S k) new s s' \/ r < 0 /\ refused type (Nn.bssid (at_node s new)) (S k) s s' /\ cause valid type s)).
  { intros swap H1 H2 H3. destruct (push_ready_spec cfg (S k) new s swap Hok Hnew Hlt H1 H2 H3 pos l1 l2 Hl Hp Hs)
      as (r & s' & -> & [[-> ?] | (-> & Hrc & ->)]); eexists _, _; (split; [done |]); [by left |].
    right. split; [lia |]. split; [by apply refused_refl | by right; right; right]. }
  assert (Hkeep : forall r, r < 0 -> cause valid type s -> exists r' s', Ret (r, s) = Ret (r', s') /\
            (r' = 0 /\ pushed cfg (S k) new s s' \/ r' < 0 /\ refused type (Nn.bssid (at_node s new)) (S k) s s' /\ cause valid type s)).
  { intros r Hneg Hc. exists r, s. split; [done |]. right. split; [done |]. split; [by apply refused_refl | done]. }
  destruct sw as [e |].
  - destruct Hsw as (m1 & m2 & Hm & He & Hm1). apply bool_decide_eq_true in He.
    assert (Hin : e ∈ ready s) by (rewrite Hm; set_solver).
    assert (Hle : (e < length (store s))%nat) by (rewrite list.Forall_forall in Hr; by apply Hr).
    rewrite node_ret by done. cbn [cbind]. destruct (_ && _ && _) eqn:Eh.
    + eexists _, _. split; [done |]. right. split; [lia |].
      rewrite !andb_true_iff, !Z.eqb_eq in Eh. destruct Eh as [[Eh1 Eh2] Eh3]. split; [| by left].
      constructor; [| done | done | apply set_node_length |].
      * eapply net_ok_keep; [exact Hok | apply set_node_length | done | done | | done | done].
        intros x _. rewrite at_set_node by done. destruct (Nat.eqb_spec x e) as [-> |]; done.
      * intros x. rewrite at_set_node by done. destruct (Nat.eqb_spec x e) as [-> |]; [right | by left]. by split_and!.
    + do 2 (destruct (negb valid && _) eqn:Ev; [apply andb_prop in Ev as [Ev _]; apply Hkeep; [lia | right; left; by destruct valid] |]; clear Ev).
      apply Hdone; [by intros ? [= <-] | | intros ? [= <-]; by left]. intros x Hx Hne. rewrite He. intros Eq. apply Hne. f_equal.
      by eapply (nodup_fmap_inj (fun e => Nn.bssid (at_node s e))), eq_sym; [apply (no_bssid _ _ Hok) | ..].
  - assert (Hno : forall x, x ∈ ready s -> Nn.bssid (at_node s x) <> Nn.bssid (at_node s new)).
    { intros x Hx Eq. rewrite list.Forall_forall in Hsw. specialize (Hsw x Hx). cbn in Hsw. rewrite Eq in Hsw.
      by rewrite bytes_eqb_refl in Hsw. }
    cbn [cbind]. destruct (negb valid && _) eqn:Ev; [apply andb_prop in Ev as [Ev _]; apply Hkeep; [lia | right; left; by destruct valid] |]. rewrite andb_false_r. cbn [andb].
    pose proof (no_pool _ _ Hok) as Hpool. destruct (free s) as [| f0 fs] eqn:Ef.
    + destruct (exists_last (l := ready s)) as (ys & y & Ey); [by intros E; rewrite E in Hpool |].
      rewrite Ey, last_snoc in *. cbn [of_option cbind].
      assert (Hyl : (y < length (store s))%nat) by (rewrite list.Forall_forall in Hr; apply Hr; set_solver).
      rewrite node_ret by done. cbn [cbind]. destruct (is_bss_onlink _ _); [apply Hkeep; [lia | by right; right; left] |].
      apply Hdone; [| by intros x Hx _; apply Hno | intros ? [= <-]; by right]. intros ? [= <-]. set_solver.
    + apply Hdone; [done | | done]. intros x Hx _. by apply Hno.
Qed.

(** ** Frames *)

Lemma put_ssid_bssid d n n' : put_ssid d n = Ret n' -> Nn.bssid n' = Nn.bssid n.
Proof. unfold put_ssid. intros H. cinv H. by inversion H. Qed.

Lemma element_bssid ft id len buf cnt n r cnt' n' : element ft id len buf cnt n = Ret (r, cnt', n') -> Nn.bssid n' = Nn.bssid n.
Proof.
  unfold element. intros H.
  repeat first [ progress (cinv H)
               | match type of H with (if ?b then _ else _) = _ => destruct b end
               | match goal with E : put_ssid _ _ = Ret _ |- _ => apply put_ssid_bssid in E end ];
    simplify_eq; try done; cbn; by destruct (_ =? 0).
Qed.

Lemma elements_bssid fuel ft buf left cnt n r cnt' n' :
  element_loop fuel ft buf left cnt n = Ret (r, cnt', n') -> Nn.bssid n' = Nn.bssid n.
Proof.
  revert buf left cnt n. induction fuel as [| fuel IH]; [done |]. intros buf left cnt n H. cbn [element_loop] in H.
  cinv H.
  destruct a1 as [[r1 c1] n1]. apply element_bssid in E1 as <-.
  destruct (r1 <? 0); [by simplify_eq |]. destruct (0 <? _); [by apply IH in H | by simplify_eq].
Qed.

Lemma node_info_bssid p2p now f n n' : wlan_mgmt_scan_node_info p2p now f n = Ret (0, n') -> slice (mgmt_frm f) 16 6 = Ret (Nn.bssid n').
Proof.
  unfold wlan_mgmt_scan_node_info. intros H. cinv H. destruct a2 as [r2 n2].
  assert (Hb : Nn.bssid n2 = a0).
  { destruct (negb _); [by simplify_eq |]. destruct p2p; [cinv E2 |]; by simplify_eq. }
  destruct (r2 <? 0) eqn:Er; [apply Z.ltb_lt in Er; simplify_eq; lia |]. destruct (_ <=? _); [done |].
  cinv H. match goal with E : element_loop _ _ _ _ _ _ = Ret ?a |- _ => destruct a as [[r3 c3] n3]; apply elements_bssid in E as En end.
  destruct (r3 <? 0) eqn:Er3; [apply Z.ltb_lt in Er3; simplify_eq; lia |]. simplify_eq. cbn in *. by rewrite En.
Qed.

Lemma net_taken_ok k s e fs n : net_ok (S k) s -> free s = e :: fs ->
  let s1 := set_node e n (set_queues fs (ready s) s) in
  net_ok k s1 /\ e ∉ (free s1 ++ ready s1) /\ (e < length (store s))%nat.
Proof.
  intros H Hf s1. pose proof (no_pool _ _ H) as Hp. pose proof (no_range _ _ H) as Hr. pose proof (no_nodup _ _ H) as Hn.
  rewrite Hf in *. cbn [app] in *. apply NoDup_cons in Hn as [Hne Hn]. inversion Hr as [| ? ? He Hr']; subst.
  split; [| by split]. assert (Hsame : forall x, x ∈ ready s -> at_node s1 x = at_node s x).
  { intros x Hx. subst s1. rewrite at_set_node by done. destruct (Nat.eqb_spec x e) as [-> |]; [set_solver | done]. }
  constructor.
  - cbn in *. lia.
  - subst s1. by rewrite set_node_length.
  - done.
  - eapply sorted_ext, (no_sorted _ _ H). intros a b Ha Hb. unfold stronger. by rewrite !Hsame.
  - erewrite list_fmap_ext; [apply (no_bssid _ _ H) |]. intros i x Hx. cbn. rewrite Hsame; [done |]. by eapply list_elem_of_lookup_2.
  - apply (no_lock _ _ H).
Qed.

Lemma returned_ok k s e : net_ok k s -> e ∉ free s ++ ready s -> (e < length (store s))%nat ->
  net_ok (S k) (set_queues (e :: free s) (ready s) s).
Proof.
  intros H He Hl. constructor; cbn.
  - f_equal. apply (no_pool _ _ H).
  - constructor; [done | apply (no_range _ _ H)].
  - constructor; [done | apply (no_nodup _ _ H)].
  - apply (no_sorted _ _ H).
  - apply (no_bssid _ _ H).
  - apply (no_lock _ _ H).
Qed.

Lemma set_node_twice e n m s : set_node e n (set_node e m s) = set_node e n s.
Proof. unfold set_node, set_nodes. cbn. by rewrite list_insert_insert_eq. Qed.

(** The frame type in a message. *)
Definition type_of (f : rx_frm_msg) : C Z := letc fc := slice (mgmt_frm f) 0 2 in Ret (Mgmt.wf_80211_get_frame_type (le_word fc)).

Lemma node_info_type p2p now f n x : wlan_mgmt_scan_node_info p2p now f n = Ret x -> exists t, type_of f = Ret t.
Proof. unfold wlan_mgmt_scan_node_info, type_of. intros H. destruct (slice (mgmt_frm f) 0 2); [by eexists | done | done]. Qed.

Definition has_signal (f : rx_frm_msg) : bool := match phy_sta f with Some _ => true | None => false end.

(** What the handler of a frame does, given what the parser makes of the frame. *)
Lemma handle_spec cfg p2p now f k s e fs r0 n t : net_ok (S (S k)) s -> free s = e :: fs ->
  wlan_mgmt_scan_node_info p2p now f Nn.zero = Ret (r0, n) -> type_of f = Ret t ->
  exists r s', handle_frame cfg p2p now f s = Ret (r, s') /\ net_ok (S (S k)) s' /\
    (r = 0 /\ r0 = 0 /\ e ∈ ready s' /\ at_node s' e = reset_ttl cfg n /\
       (forall x, x ∈ ready s' -> x <> e -> x ∈ ready s /\ at_node s' x = at_node s x) /\
       (forall x, x ∈ ready s -> x ∈ ready s' \/ Nn.bssid (at_node s x) = Nn.bssid n \/ fs = [] /\ last (ready s) = Some x) \/
     r <> 0 /\ ready s' = ready s /\ free s' = free s /\
       (forall x, x ∈ ready s -> at_node s' x = at_node s x \/ held_back t (Nn.bssid n) (at_node s x) (at_node s' x)) /\
       (r0 <> 0 \/ t = WF_80211_FRM_BEACON \/ has_signal f = false \/ fs = [] \/ read_cnt s <> 0)).
Proof.
  intros Hok Hf Hi Ht. unfold handle_frame, wlan_mgmt_scan_que_node_new. rewrite Hf.
  destruct (net_taken_ok _ s e fs n Hok Hf) as (Hok1 & Hne & Hl). set (s0 := set_queues fs (ready s) s) in *.
  rewrite node_ret by (by rewrite set_node_length). cbn [cbind]. rewrite (at_set_node s0) by done. rewrite Nat.eqb_refl, Hi. cbn [cbind].
  rewrite set_node_twice. set (s1 := set_node e n s0) in *. assert (Hs1 : length (store s1) = length (store s)) by apply (set_node_length s0).
  assert (Hat1 : forall x, x ∈ ready s -> at_node s1 x = at_node s x).
  { intros x Hx. subst s1. rewrite at_set_node by done. destruct (Nat.eqb_spec x e) as [-> |]; [| done].
    exfalso. apply Hne, elem_of_app. by right. }
  assert (Hate : at_node s1 e = n) by (subst s1; rewrite at_set_node by done; by rewrite Nat.eqb_refl).
  unfold nz at 1. destruct (r0 =? 0) eqn:E0; cbn [negb].
  2:{ eexists _, _. split; [done |]. apply Z.eqb_neq in E0. split; [apply returned_ok; [done | done | lia] |]. right.
      split_and!; [done | done | done | | by left]. intros x Hx. left. by apply Hat1. }
  apply Z.eqb_eq in E0. unfold type_of in Ht. destruct (slice (mgmt_frm f) 0 2) as [fc | |]; [| done | done]. cbn [cbind] in *.
  injection Ht as Ht. rewrite Ht. fold (has_signal f).
  destruct (net_push_spec cfg (has_signal f) t k e s1 Hok1 Hne ltac:(lia)) as (r & s2 & -> & [(-> & Hpu) | (Hr & Hrf & Hc)]); cbn [cbind].
  - eexists _, _. split; [done |]. split; [apply Hpu |]. left.
    split_and!; [done | done | apply Hpu | by rewrite (pu_node _ _ _ _ _ Hpu), Hate | |].
    + intros x Hx Hxe. destruct (pu_old _ _ _ _ _ Hpu x Hx Hxe) as [Hin ->]. split; [done | by apply Hat1].
    + intros x Hx. pose proof (pu_gone _ _ _ _ _ Hpu x Hx) as Hg. by rewrite Hat1, Hate in Hg.
  - unfold nz. destruct (Z.eqb_spec r 0); [lia |]. cbn [negb]. eexists _, _. split; [done |]. split.
    + apply returned_ok; [apply Hrf | by rewrite (rf_free _ _ _ _ _ Hrf), (rf_ready _ _ _ _ _ Hrf) | rewrite (rf_store _ _ _ _ _ Hrf); lia].
    + right. split_and!; [done | apply (rf_ready _ _ _ _ _ Hrf) | cbn; by rewrite (rf_free _ _ _ _ _ Hrf) | | right; exact Hc].
      intros x Hx. destruct (rf_same _ _ _ _ _ Hrf x) as [Hs | Hs]; rewrite Hate, Hat1 in Hs || rewrite Hat1 in Hs; auto.
Qed.

Lemma handle_inv cfg p2p now f s r s' : handle_frame cfg p2p now f s = Ret (r, s') ->
  (free s = [] /\ r = -1 /\ s' = s) \/
  exists e fs r0 n t, free s = e :: fs /\ wlan_mgmt_scan_node_info p2p now f Nn.zero = Ret (r0, n) /\ type_of f = Ret t.
Proof.
  unfold handle_frame, wlan_mgmt_scan_que_node_new. destruct (free s) as [| e fs] eqn:Ef.
  - intros [= <- <-]. by left.
  - intros H. right. exists e, fs. unfold node at 1 in H. cbn [set_node set_nodes store set_queues] in H.
    destruct (decide (e < length (store s))%nat) as [Hl | Hl].
    + rewrite list_lookup_insert_eq in H by done. cbn [of_option cbind] in H.
      destruct (wlan_mgmt_scan_node_info p2p now f Nn.zero) as [[r0 n] | |] eqn:Ei; [| done | done].
      destruct (node_info_type _ _ _ _ _ Ei) as [t Ht]. by exists r0, n, t.
    + rewrite lookup_ge_None_2 in H; [done |]. rewrite length_insert. lia.
Qed.

(** ** The parser stays in its arrays *)

Record arrays_ok (n : Nn.net_node) : Prop := {
  ao_ssid : length (Nn.ssid_data n) = 33%nat;
  ao_rate : length (Nn.spot_rate n) = 16%nat;
  ao_wpa : length (Nn.wpa_ie n) = 64%nat;
  ao_wps : length (Nn.wps_ie n) = 64%nat;
  ao_rsn : length (Nn.rsn_ie n) = 64%nat;
}.

(** An element as it is sent, with the bytes the parser reads of it: the OUI of a
    vendor's, the channel, the capabilities and rates of HT. *)
Definition elem_bytes (x : Z * list Z) : list Z := x.1 :: Z.of_nat (length x.2) :: x.2.
Definition elem_min (id : Z) : nat := if (id =? 3) || (id =? 61) then 1 else if id =? 45 then 5 else if id =? 221 then 4 else 0.
Definition elem_ok (x : Z * list Z) : Prop :=
  (elem_min x.1 <= length x.2 <= 255)%nat /\ (x.1 = 48 \/ x.1 = 221 -> length x.2 <> 63%nat /\ length x.2 <> 64%nat).

Lemma blit_len b i src : 0 <= i -> i + Z.of_nat (length src) <= Z.of_nat (length b) -> exists b', blit b i src = Ret b' /\ length b' = length b.
Proof.
  intros H1 H2. unfold blit. destruct (_ && _) eqn:E; [| lia]. eexists. split; [done |].
  rewrite !length_app, length_take, length_drop. lia.
Qed.

Lemma slice_len b i n : 0 <= i -> 0 <= n -> i + n <= Z.of_nat (length b) -> exists d, slice b i n = Ret d /\ Z.of_nat (length d) = n.
Proof. intros H1 H2 H3. rewrite slice_Ret by done. eexists. split; [done |]. rewrite length_take, length_drop. lia. Qed.

Lemma put_ssid_ok d n : arrays_ok n -> (length d <= 32)%nat -> exists n', put_ssid d n = Ret n' /\ arrays_ok n'.
Proof.
  intros H Hd. unfold put_ssid. pose proof (ao_ssid _ H).
  destruct (blit_len (Nn.ssid_data n) 0 d) as (b & -> & Hb); [lia | lia |]. cbn [cbind].
  rewrite wr_setZ by lia. eexists. split; [done |]. destruct H. constructor; try done. cbn.
  unfold setZ. rewrite length_insert. lia.
Qed.

(** The elements the parser goes past: a name of 32 bytes or less, that is not
    empty in a probe response, and rates that are not empty and fit beside the [cnt]
    that are there already. *)
Definition elem_pass (ft cnt : Z) (x : Z * list Z) : bool :=
  let len := Z.of_nat (length x.2) in
  if x.1 =? 0 then (len <? 33) && negb ((ft =? Mgmt.WF_80211_FRM_PROBE_RESP) && (len =? 0))
  else if (x.1 =? 1) || (x.1 =? 50) then negb (len =? 0) && (len + cnt <=? 16)
  else true.
Definition elem_cnt (cnt : Z) (x : Z * list Z) : Z :=
  if (x.1 =? 1) || (x.1 =? 50) then cnt + Z.of_nat (length x.2) else cnt.
Fixpoint elems_pass (ft cnt : Z) (xs : list (Z * list Z)) : bool :=
  match xs with [] => true | x :: xs => elem_pass ft cnt x && elems_pass ft (elem_cnt cnt x) xs end.

(** A result of the parser on [x], for the state of the node and of the count. *)
Definition elem_result (ft cnt : Z) (x : Z * list Z) (r cnt' : Z) (n' : Nn.net_node) : Prop :=
  arrays_ok n' /\ 0 <= cnt' <= 16 /\ if elem_pass ft cnt x then r = 0 /\ cnt' = elem_cnt cnt x else r < 0.

Lemma element_ret ft x rest cnt n : elem_ok x -> arrays_ok n -> 0 <= cnt <= 16 ->
  exists r cnt' n', element ft x.1 (Z.of_nat (length x.2)) (elem_bytes x ++ rest) cnt n = Ret (r, cnt', n') /\ elem_result ft cnt x r cnt' n'.
Proof.
  destruct x as [id d]. unfold elem_result, elem_pass, elem_cnt, elem_ok, elem_bytes, elem_min. cbn [fst snd]. intros [Hx Hlong] Hn [Hc1 Hc2].
  set (buf := (id :: Z.of_nat (length d) :: d) ++ rest).
  assert (Hlen : (2 + length d <= length buf)%nat) by (unfold buf; rewrite length_app; cbn; lia).
  unfold element. destruct (id =? 0) eqn:E0.
  { assert (E1 : (id =? 1) || (id =? 50) = false) by lia. rewrite E1.
    assert (Hname : forall n', arrays_ok n' -> Z.of_nat (length d) < 33 ->
            exists r c' n2, (letc d := slice buf 2 (Z.of_nat (length d)) in letc n := put_ssid d n' in Ret (0, cnt, n)) = Ret (r, c', n2) /\
              arrays_ok n2 /\ 0 <= c' <= 16 /\ r = 0 /\ c' = cnt).
    { intros n' Hn' Hl. destruct (slice_len buf 2 (Z.of_nat (length d))) as (d2 & -> & Hd2); [lia .. |]. cbn [cbind].
      destruct (put_ssid_ok d2 n' Hn' ltac:(lia)) as (n2 & -> & Hn2). cbn [cbind]. by eexists _, _, _; split_and!. }
    destruct (Z.leb_spec 33 (Z.of_nat (length d))).
    { eexists _, _, _. split; [done |]. destruct (Z.ltb_spec (Z.of_nat (length d)) 33); [lia |]. cbn [andb]. by split_and!. }
    destruct (Z.ltb_spec (Z.of_nat (length d)) 33); [| lia]. cbn [andb]. destruct (ft =? _); cbn [andb negb].
    - destruct (Z.of_nat (length d) =? 0); cbn [negb]; [by eexists _, _, _; split_and! |]. apply Hname; [by destruct Hn | lia].
    - destruct (Z.eqb_spec (Z.of_nat (length d)) 0).
      + eexists _, _, _. split; [done |]. by split_and!; [destruct Hn | ..].
      + rewrite rd_nthZ by lia. cbn [cbind]. destruct (nthZ _ _ =? 0); [| apply Hname; [by destruct Hn | lia]].
        eexists _, _, _. split; [done |]. by split_and!; [destruct Hn | ..]. }
  destruct ((id =? 1) || (id =? 50)).
  { set (n1 := if cnt =? 0 then _ else n). assert (Hn1 : arrays_ok n1) by (subst n1; destruct (cnt =? 0); [by destruct Hn | done]).
    destruct (Z.eqb_spec (Z.of_nat (length d)) 0); cbn [orb negb andb]; [by eexists _, _, _; split_and! |].
    destruct (Z.ltb_spec 16 (Z.of_nat (length d) + cnt)), (Z.leb_spec (Z.of_nat (length d) + cnt) 16); try lia; [by eexists _, _, _; split_and! |].
    destruct (slice_len buf 2 (Z.of_nat (length d))) as (d2 & -> & Hd2); [lia .. |]. cbn [cbind]. pose proof (ao_rate _ Hn1).
    destruct (blit_len (Nn.spot_rate n1) cnt d2) as (b & -> & Hb); [lia .. |]. cbn [cbind]. rewrite u8_id by (unfold is_u8; lia).
    eexists _, _, _. split; [done |]. split_and!; [| lia .. | done | done]. destruct Hn1. constructor; try done. cbn. lia. }
  assert (Hdone : forall n', arrays_ok n' -> exists r c' n2, Ret (0, cnt, n') = Ret (r, c', n2) /\ arrays_ok n2 /\ 0 <= c' <= 16 /\ r = 0 /\ c' = cnt)
    by (intros; by eexists _, _, _; split_and!).
  destruct ((id =? 3) || (id =? 61)) eqn:E3; [rewrite ?E3 in Hx |]; cbn [andb] in Hx.
  { rewrite rd_nthZ by lia. cbn [cbind]. apply Hdone. by destruct Hn. }
  destruct (id =? 45) eqn:E45; [rewrite ?E45 in Hx |].
  { destruct (slice_len buf 5 2) as (m & -> & _); [lia .. |]. cbn [cbind]. destruct (slice_len buf 2 2) as (c & -> & _); [lia .. |]. cbn [cbind].
    apply Hdone. by destruct Hn. }
  destruct (slice_len buf 0 (2 + Z.of_nat (length d))) as (w & Hw & Hwl); [lia .. |].
  assert (Hcopy : (id = 48 \/ id = 221) -> forall (get : Nn.net_node -> list Z) (put : list Z -> Nn.net_node -> Nn.net_node), length (get n) = 64%nat ->
            (forall b, length b = 64%nat -> arrays_ok (put b n)) ->
            exists r c' n2, (if Z.of_nat (length d) <=? 64 then letc e := slice buf 0 (2 + Z.of_nat (length d)) in
               letc w := blit (get n) 0 e in Ret (0, cnt, put w n) else Ret (0, cnt, n)) = Ret (r, c', n2) /\
              arrays_ok n2 /\ 0 <= c' <= 16 /\ r = 0 /\ c' = cnt).
  { intros Hid%Hlong get put Hg Hp. destruct (Z.leb_spec (Z.of_nat (length d)) 64); [| by apply Hdone]. rewrite Hw. cbn [cbind].
    destruct (blit_len (get n) 0 w) as (b & -> & Hb); [lia .. |]. cbn [cbind]. apply Hdone, Hp. lia. }
  destruct (id =? 221) eqn:E221; [rewrite ?E221 in Hx |].
  { destruct (slice_len buf 2 4) as (o & -> & _); [lia .. |]. cbn [cbind]. destruct (bytes_eqb o wpa_oui); [| destruct (bytes_eqb o wps_oui); [| by apply Hdone]].
    - apply (Hcopy ltac:(right; lia) Nn.wpa_ie Nn.set_wpa_ie); [apply Hn |]. intros b Hb. by destruct Hn.
    - apply (Hcopy ltac:(right; lia) Nn.wps_ie Nn.set_wps_ie); [apply Hn |]. intros b Hb. by destruct Hn. }
  destruct (id =? 48) eqn:E48; [| by apply Hdone].
  apply (Hcopy ltac:(left; lia) Nn.rsn_ie Nn.set_rsn_ie); [apply Hn |]. intros b Hb. by destruct Hn.
Qed.

Definition elems_bytes (xs : list (Z * list Z)) : list Z := List.flat_map elem_bytes xs.

(** One turn of the loop on a complete element. *)
Lemma loop_turn fuel ft x rest k cnt n :
  element_loop (S fuel) ft (elem_bytes x ++ rest) (Z.of_nat (length (elem_bytes x)) + k) cnt n =
    (letc (r, cnt, n) := element ft x.1 (Z.of_nat (length x.2)) (elem_bytes x ++ rest) cnt n in
     if r <? 0 then Ret (r, cnt, n) else if 0 <? k then element_loop fuel ft rest k cnt n else Ret (0, cnt, n)).
Proof.
  cbn [element_loop]. change (rd (elem_bytes x ++ rest) 0) with (Ret x.1).
  change (rd (elem_bytes x ++ rest) 1) with (Ret (Z.of_nat (length x.2))). cbn [cbind].
  replace (Z.of_nat (length (elem_bytes x)) + k - (2 + Z.of_nat (length x.2))) with k by (cbn; lia).
  by rewrite drop_app_length' by (cbn; lia).
Qed.

Lemma elems_cons x xs rest : elems_bytes (x :: xs) ++ rest = elem_bytes x ++ elems_bytes xs ++ rest.
Proof. unfold elems_bytes. cbn [List.flat_map]. by rewrite <- app_assoc. Qed.

Lemma elems_length x xs : Z.of_nat (length (elems_bytes (x :: xs))) = Z.of_nat (length (elem_bytes x)) + Z.of_nat (length (elems_bytes xs)).
Proof. unfold elems_bytes. cbn [List.flat_map]. rewrite length_app. lia. Qed.

Lemma flat_length xs : (length xs <= length (elems_bytes xs))%nat.
Proof. induction xs as [| x xs IH]; cbn; [done |]. unfold elems_bytes in *. rewrite length_app. lia. Qed.

(** The loop goes over complete elements it can pass, and on with what is behind
    them. *)
Lemma elements_past fuel ft xs rest k cnt n : Forall elem_ok xs -> arrays_ok n -> 0 <= cnt <= 16 -> elems_pass ft cnt xs = true -> 0 < k ->
  exists cnt' n', arrays_ok n' /\ 0 <= cnt' <= 16 /\
    element_loop (length xs + fuel) ft (elems_bytes xs ++ rest) (Z.of_nat (length (elems_bytes xs)) + k) cnt n = element_loop fuel ft rest k cnt' n'.
Proof.
  intros Hx. revert cnt n. induction Hx as [| x xs Hx Hxs IH]; intros cnt n Hn Hc Hp Hk; [by exists cnt, n |].
  cbn [elems_pass] in Hp. apply andb_prop in Hp as [Hp1 Hp2].
  destruct (element_ret ft x (elems_bytes xs ++ rest) cnt n Hx Hn Hc) as (r & c & n1 & E & Hn1 & Hc1 & Hr). rewrite Hp1 in Hr. destruct Hr as [-> ->].
  destruct (IH _ n1 Hn1 Hc1 Hp2 Hk) as (c2 & n2 & Hn2 & Hc2 & E2). exists c2, n2. split_and!; [done | lia .. |].
  rewrite elems_cons, elems_length, <- Z.add_assoc. cbn [length Nat.add]. rewrite loop_turn, E. cbn [cbind Z.ltb Z.compare].
  destruct (Z.ltb_spec 0 (Z.of_nat (length (elems_bytes xs)) + k)); [done | lia].
Qed.

(** Complete elements need a turn of the loop each, and are accepted when each can
    be passed. *)
Lemma elements_ret fuel ft x xs rest cnt n : (length xs < fuel)%nat -> Forall elem_ok (x :: xs) -> arrays_ok n -> 0 <= cnt <= 16 ->
  exists r cnt' n', element_loop fuel ft (elems_bytes (x :: xs) ++ rest) (Z.of_nat (length (elems_bytes (x :: xs)))) cnt n = Ret (r, cnt', n') /\
    (elems_pass ft cnt (x :: xs) = true /\ r = 0 \/ elems_pass ft cnt (x :: xs) = false /\ r < 0).
Proof.
  revert fuel x cnt n. induction xs as [| y xs IH]; intros fuel x cnt n Hf Hx Hn Hc;
    (destruct fuel as [| fuel]; [lia |]); inversion Hx as [| ? ? Hx1 Hx2]; subst; cbn [elems_pass]; rewrite elems_cons, elems_length, loop_turn;
    match goal with |- context [element ft x.1 _ (_ ++ ?tl) _ _] =>
      destruct (element_ret ft x tl cnt n Hx1 Hn Hc) as (r & c & n' & -> & Hn' & Hc' & Hr) end; cbn [cbind];
    destruct (elem_pass ft cnt x); cbn [andb].
  2, 4: destruct (Z.ltb_spec r 0); [| lia]; eexists _, _, _; split; [done |]; by right.
  - destruct Hr as [-> ->]. eexists _, _, _. split; [done |]. by left.
  - destruct Hr as [-> ->]. cbn [Z.ltb Z.compare].
    destruct (Z.ltb_spec 0 (Z.of_nat (length (elems_bytes (y :: xs))))) as [_ | Hl]; [| cbn in Hl; lia].
    apply IH; [cbn in Hf; lia | done | done | done].
Qed.

Lemma elements_all fuel ft xs rest cnt n : xs <> [] -> (length xs <= fuel)%nat -> Forall elem_ok xs -> arrays_ok n -> 0 <= cnt <= 16 ->
  exists r cnt' n', element_loop fuel ft (elems_bytes xs ++ rest) (Z.of_nat (length (elems_bytes xs))) cnt n = Ret (r, cnt', n') /\
    (elems_pass ft cnt xs = true /\ r = 0 \/ elems_pass ft cnt xs = false /\ r < 0).
Proof. destruct xs as [| x xs]; [done |]. intros _ Hf. apply elements_ret. cbn in Hf. lia. Qed.

(** The array of a security element is two bytes short of what its length check
    lets through: one of RSN, or one of WPA or WPS in a vendor's. *)
Definition long_elem (x : Z * list Z) : Prop :=
  (63 <= length x.2 <= 64)%nat /\ (x.1 = 48 \/ x.1 = 221 /\ (take 4 x.2 = wpa_oui \/ take 4 x.2 = wps_oui)).

Lemma long_overrun ft cnt n x rest : arrays_ok n -> long_elem x ->
  element ft x.1 (Z.of_nat (length x.2)) (elem_bytes x ++ rest) cnt n = Fault.
Proof.
  destruct x as [id d]. intros Hn [Hd Hid]. cbn [fst snd] in *.
  destruct (slice_len (elem_bytes (id, d) ++ rest) 0 (2 + Z.of_nat (length d))) as (w & Hw & Hwl); [lia | lia | rewrite length_app; cbn; lia |].
  assert (Ho : slice (elem_bytes (id, d) ++ rest) 2 4 = Ret (take 4 d)).
  { rewrite slice_Ret by (rewrite ?length_app; cbn; lia). change (drop (Z.to_nat 2) (elem_bytes (id, d) ++ rest)) with (d ++ rest).
    by rewrite take_app_le by (cbn; lia). }
  assert (Hfault : forall a put, length a = 64%nat ->
            (if Z.of_nat (length d) <=? 64 then letc e := slice (elem_bytes (id, d) ++ rest) 0 (2 + Z.of_nat (length d)) in
               letc w := blit a 0 e in Ret (0, cnt, put w n) else Ret (0, cnt, n)) = (Fault : C (Z * Z * Nn.net_node))).
  { intros a put Ha. destruct (Z.leb_spec (Z.of_nat (length d)) 64); [| lia]. rewrite Hw. cbn [cbind].
    unfold blit. destruct (_ && _) eqn:E; [lia | done]. }
  destruct Hn. destruct Hid as [-> | [-> Hoi]]; cbn [element Z.eqb Pos.eqb orb].
  - by apply (Hfault (Nn.rsn_ie n) Nn.set_rsn_ie).
  - rewrite Ho. cbn [cbind]. destruct Hoi as [-> | ->].
    + by apply (Hfault (Nn.wpa_ie n) Nn.set_wpa_ie).
    + by apply (Hfault (Nn.wps_ie n) Nn.set_wps_ie).
Qed.

(** The loop on a frame with such an element. *)
Lemma elements_overrun fuel ft xs x ys rest cnt n : (length xs < fuel)%nat -> Forall elem_ok xs -> elems_pass ft cnt xs = true -> long_elem x ->
  arrays_ok n -> 0 <= cnt <= 16 ->
  element_loop fuel ft (elems_bytes (xs ++ x :: ys) ++ rest) (Z.of_nat (length (elems_bytes (xs ++ x :: ys)))) cnt n = Fault.
Proof.
  intros Hf Hxs Hp Hx Hn Hc. unfold elems_bytes. rewrite List.flat_map_app, length_app, Nat2Z.inj_add, <- app_assoc. fold elems_bytes.
  replace fuel with (length xs + S (fuel - length xs - 1))%nat by lia.
  destruct (elements_past (S (fuel - length xs - 1)) ft xs (elems_bytes (x :: ys) ++ rest) (Z.of_nat (length (elems_bytes (x :: ys)))) cnt n Hxs Hn Hc Hp)
    as (c & n' & Hn' & _ & E); [rewrite elems_length; cbn; lia |].
  etrans; [exact E |]. rewrite elems_cons, elems_length, loop_turn, long_overrun by done. done.
Qed.

(** The header of a frame is passed: it is not of a mesh, or the device listens to
    peers. *)
Definition mesh_capab (hdr : list Z) : bool := WF_80211_CAPAB_IS_MESH_STA_BSS (le_word (take 2 (drop 34 hdr))).
Definition hdr_type (hdr : list Z) : Z := Mgmt.wf_80211_get_frame_type (le_word (take 2 hdr)).

(** What the parser does up to the elements. *)
Lemma node_info_head p2p now sta hdr el rest : length hdr = 36%nat -> (0 < length el)%nat -> 36 + Z.of_nat (length el) < 2 ^ 16 ->
  exists n, arrays_ok n /\
    wlan_mgmt_scan_node_info p2p now (mk_frm sta (hdr ++ el ++ rest) (36 + Z.of_nat (length el))) Nn.zero =
      if mesh_capab hdr && negb p2p then Ret (-1, n)
      else if mesh_capab hdr && (Z.of_nat (length el + length rest) <? 9) then Fault
      else if 756 <=? Z.of_nat (length el) then Ret (-2, n)
      else
        letc (r, cnt, n) := element_loop (S (36 + length el + length rest)) (hdr_type hdr) (el ++ rest) (Z.of_nat (length el)) 0 n in
        if r <? 0 then Ret (r, n)
        else Ret (0, Nn.set_name (name_of (take (Z.to_nat cnt) (Nn.spot_rate n)) (Nn.ht_spot n)) n).
Proof.
  intros Hh Hel Hl. set (buf := hdr ++ el ++ rest).
  assert (Hb : length buf = (36 + length el + length rest)%nat) by (unfold buf; rewrite !length_app; lia).
  unfold wlan_mgmt_scan_node_info, CAPAB_OFS, VARIABLE_OFS, BEACON_OFS, WF_80211_IES_SIZE_MAX. cbn [mgmt_frm mgmt_len phy_sta].
  assert (Hs : forall i k, 0 <= i -> 0 <= k -> i + k <= 36 -> slice buf i k = Ret (take (Z.to_nat k) (drop (Z.to_nat i) hdr))).
  { intros i k H1 H2 H3. rewrite slice_Ret by lia. unfold buf. rewrite drop_app_le by lia. by rewrite take_app_le by (rewrite length_drop; lia). }
  rewrite !Hs by lia. cbn [cbind].
  change (le_word (take (Z.to_nat 2) (drop (Z.to_nat 0) hdr))) with (le_word (take 2 hdr)). fold (hdr_type hdr).
  change (WF_80211_CAPAB_IS_MESH_STA_BSS (le_word (take (Z.to_nat 2) (drop (Z.to_nat 34) hdr)))) with (mesh_capab hdr).
  set (cap := le_word (take (Z.to_nat 2) _)). set (n0 := Nn.set_bssid _ _).
  assert (Hn0 : arrays_ok n0 /\ Nn.ies n0 = replicate 768 0) by (subst n0; destruct sta as [[? ?] |]; by split).
  assert (Hgo : forall n1, arrays_ok n1 /\ Nn.ies n1 = replicate 768 0 -> exists n, arrays_ok n /\
    (let n := Nn.set_ie_len (u16 (36 + Z.of_nat (length el) - 24)) (Nn.set_privacy (nz (Z.land cap WF_80211_MGMT_CAPAB_PRIVACY)) n1) in
     if 768 <=? u16 (36 + Z.of_nat (length el) - 24) then Ret (-2, n)
     else
       letc d := slice buf 24 (u16 (36 + Z.of_nat (length el) - 24)) in
       letc i := blit (Nn.ies n) 0 d in
       letc i := wr i (u16 (36 + Z.of_nat (length el) - 24)) 0 in
       letc (r, cnt, n) := element_loop (S (length buf)) (hdr_type hdr) (drop (Z.to_nat 36) buf) (36 + Z.of_nat (length el) - 36) 0 (Nn.set_ies i n) in
       if r <? 0 then Ret (r, n)
       else Ret (0, Nn.set_name (name_of (take (Z.to_nat cnt) (Nn.spot_rate n)) (Nn.ht_spot n)) n)) =
    if 756 <=? Z.of_nat (length el) then Ret (-2, n)
    else
      letc (r, cnt, n) := element_loop (S (36 + length el + length rest)) (hdr_type hdr) (el ++ rest) (Z.of_nat (length el)) 0 n in
      if r <? 0 then Ret (r, n)
      else Ret (0, Nn.set_name (name_of (take (Z.to_nat cnt) (Nn.spot_rate n)) (Nn.ht_spot n)) n)).
  { intros n1 [Hn1 Hi1]. rewrite u16_id by (unfold is_u16; lia).
    destruct (Z.leb_spec 768 (36 + Z.of_nat (length el) - 24)), (Z.leb_spec 756 (Z.of_nat (length el))); try lia.
    { eexists. split; [| done]. by destruct Hn1. }
    destruct (slice_len buf 24 (36 + Z.of_nat (length el) - 24)) as (d & -> & Hd); [lia .. |]. cbn [cbind].
    change (Nn.ies (Nn.set_ie_len ?v (Nn.set_privacy ?w n1))) with (Nn.ies n1). rewrite Hi1.
    destruct (blit_len (replicate 768 0) 0 d) as (i & -> & Hil); [lia | rewrite length_replicate; lia |]. cbn [cbind]. rewrite length_replicate in Hil.
    rewrite wr_setZ by lia. cbn [cbind]. replace (drop (Z.to_nat 36) buf) with (el ++ rest) by (unfold buf; by rewrite drop_app_length').
    replace (36 + Z.of_nat (length el) - 36) with (Z.of_nat (length el)) by lia. rewrite Hb.
    eexists. split; [| done]. by destruct Hn1. }
  destruct (mesh_capab hdr); cbn [negb andb].
  - destruct p2p; cbn [negb].
    + destruct (Z.ltb_spec (Z.of_nat (length el + length rest)) 9).
      * exists n0. split; [apply Hn0 |]. unfold slice. destruct (_ && _) eqn:E; [lia | done].
      * destruct (slice_len buf (36 + 2) 7) as (w & -> & _); [lia .. |]. cbn [cbind Z.ltb Z.compare]. by apply Hgo.
    + exists n0. by split; [apply Hn0 |].
  - cbn [cbind Z.ltb Z.compare]. apply Hgo. destruct Hn0 as [Hn0 ?]. split; [by destruct Hn0 | done].
Qed.

(** ** Ageing *)

(** The queues without a node that is given back. *)
Lemma removed_ok k s e : net_ok k s -> e ∈ ready s -> net_ok k (set_queues (free s ++ [e]) (unlink e (ready s)) s).
Proof.
  intros H He. pose proof (no_nodup _ _ H) as Hn. apply NoDup_app in Hn as (_ & _ & Hn). apply (net_ok_moved k s); try done; cbn.
  - rewrite (net_unlink_perm e (ready s)) at 2 by done. by rewrite <- app_assoc.
  - eapply sorted_sub, (no_sorted _ _ H). apply unlink_sublist.
  - eapply nodup_sub, (no_bssid _ _ H). apply sub_fmap, unlink_sublist.
  - apply (no_lock _ _ H).
Qed.

(** One less, but not below zero. *)
Definition aged_ttl (v : Z) : Z := if nz v then u32 (v - 1) else v.

(** What a refresh of the channels [ch_map] makes of the network at [e]: nothing
    when it is on another channel; otherwise it is one older, and it is gone when
    its time is over and no reader is at work. *)
Definition refreshed (ch_map : list Z) (s s' : scan_que) (e : nat) : Prop :=
  let n := at_node s e in
  if existsb (Z.eqb (Nn.channel n)) ch_map then
    at_node s' e = Nn.set_ttl (aged_ttl (Nn.ttl n)) n /\ (e ∈ ready s' <-> aged_ttl (Nn.ttl n) <> 0 \/ read_cnt s <> 0)
  else at_node s' e = n /\ e ∈ ready s'.

Lemma refresh_node_spec ch_map k s e : net_ok k s -> e ∈ ready s ->
  exists s', refresh_node ch_map e s = Ret s' /\ net_ok k s' /\ read_cnt s' = read_cnt s /\ refreshed ch_map s s' e /\
    (forall x, x <> e -> at_node s' x = at_node s x /\ (x ∈ ready s' <-> x ∈ ready s)).
Proof.
  intros H He. pose proof (ready_range _ _ H) as Hr. rewrite list.Forall_forall in Hr. specialize (Hr e He).
  unfold refresh_node, refreshed. rewrite node_ret by done. cbn [cbind]. destruct (existsb _ _); cbn [negb].
  2:{ exists s. by split_and!. }
  fold (aged_ttl (Nn.ttl (at_node s e))). set (ttl := aged_ttl _). set (s1 := set_node e (Nn.set_ttl ttl (at_node s e)) s).
  assert (Hat : forall x, at_node s1 x = if Nat.eqb x e then Nn.set_ttl ttl (at_node s e) else at_node s x) by (intros; by apply at_set_node).
  assert (Hne : forall x, x <> e -> at_node s1 x = at_node s x) by (intros x Hx; rewrite Hat; by destruct (Nat.eqb_spec x e)).
  assert (H1 : net_ok k s1).
  { eapply net_ok_keep; [exact H | apply set_node_length | done | done | | done | done].
    intros x _. rewrite Hat. by destruct (Nat.eqb_spec x e) as [-> |]. }
  destruct (Z.eqb_spec ttl 0) as [E | E]; cbn [negb].
  2:{ exists s1. rewrite Hat, Nat.eqb_refl. split_and!; try done; [split; [by left | done] |]. intros x Hx. by rewrite Hne. }
  unfold sema_try. destruct (no_lock _ _ H) as [Hc Hl]. change (sema s1) with (sema s). rewrite Hl.
  destruct (Z.eqb_spec (read_cnt s) 0) as [Er | Er]; cbn [Z.eqb negb].
  2:{ exists s1. rewrite Hat, Nat.eqb_refl. split_and!; try done; [split; [by right | done] |]. intros x Hx. by rewrite Hne. }
  eexists. split; [done |].
  match goal with |- net_ok k ?x /\ _ => change (at_node x) with (at_node s1) end.
  rewrite Hat, Nat.eqb_refl. split_and!.
  - pose proof (removed_ok k s1 e H1 He) as H2. constructor; try apply H2.
    split; [exact Hc |]. cbn. by rewrite Er.
  - done.
  - done.
  - etrans; [apply elem_unlink |]. split; [intros [_ ?]; done | intros [? | ?]; done].
  - intros x Hx. split; [by apply Hne |]. etrans; [apply elem_unlink |]. split; [by intros [? _] | done].
Qed.

Lemma refresh_nodes_spec ch_map k l s : net_ok k s -> NoDup l -> (forall x, x ∈ l -> x ∈ ready s) ->
  exists s', refresh_nodes ch_map l s = Ret s' /\ net_ok k s' /\ read_cnt s' = read_cnt s /\
    (forall x, x ∈ l -> refreshed ch_map s s' x) /\
    (forall x, x ∉ l -> at_node s' x = at_node s x /\ (x ∈ ready s' <-> x ∈ ready s)).
Proof.
  intros Hok Hn. revert s Hok. induction Hn as [| e l He Hn IH]; intros s Hok Hin; cbn [refresh_nodes].
  { exists s. split_and!; try done. by intros x ?%not_elem_of_nil. }
  destruct (refresh_node_spec ch_map k s e Hok) as (s1 & -> & Hok1 & Hrc1 & Hs1 & Ho1); [apply Hin; set_solver |]. cbn [cbind].
  destruct (IH s1 Hok1) as (s2 & -> & Hok2 & Hrc2 & Hs2 & Ho2).
  { intros x Hx. apply Ho1; [by intros -> | apply Hin; by right]. }
  exists s2. split_and!; [done | done | congruence | |].
  - intros x [-> | Hx]%elem_of_cons.
    + destruct (Ho2 e He) as [Ha Hb]. unfold refreshed in *. rewrite Ha. destruct (existsb _ _); by rewrite Hb.
    + assert (Hne : x <> e) by (by intros ->). destruct (Ho1 x Hne) as [Ha Hb]. specialize (Hs2 x Hx).
      unfold refreshed in *. by rewrite Ha, Hrc1 in Hs2.
  - intros x [Hx1 Hx2]%not_elem_of_cons. destruct (Ho1 x Hx1) as [Ha Hb], (Ho2 x Hx2) as [-> ->]. done.
Qed.

Lemma refresh_spec ch_map k s : net_ok k s ->
  exists s', wlan_mgmt_scan_que_refresh ch_map s = Ret (0, s') /\ net_ok k s' /\ read_cnt s' = read_cnt s /\
    (forall x, x ∈ ready s -> refreshed ch_map s s' x) /\ (forall x, x ∈ ready s' -> x ∈ ready s).
Proof.
  intros H. pose proof (no_nodup _ _ H) as Hn. apply NoDup_app in Hn as (_ & _ & Hn).
  destruct (refresh_nodes_spec ch_map k (ready s) s H Hn) as (s' & E & H' & Hrc & Ha & Ho); [done |].
  exists s'. unfold wlan_mgmt_scan_que_refresh. rewrite E. split_and!; try done.
  intros x Hx. destruct (decide (x ∈ ready s)) as [? | Hx']; [done |]. by apply (Ho x Hx').
Qed.




(** ** Readers and the start *)

Lemma read_try_ok k s : net_ok k s -> net_ok k (wf_wlan_mgmt_scan_que_read_try s).2.
Proof.
  intros H. destruct (no_lock _ _ H) as [Hc Hl]. unfold wf_wlan_mgmt_scan_que_read_try, sema_try.
  destruct (Z.eqb_spec (read_cnt s) 255); [done |]. destruct (Z.eqb_spec (read_cnt s) 0) as [E |]; rewrite ?Hl; cbn [Z.eqb negb snd].
  - constructor; try apply H. cbn. by rewrite E.
  - constructor; try apply H. cbn [read_cnt sema set_read_cnt]. rewrite u8_id by (unfold is_u8; lia).
    rewrite Hl. split; [lia |]. destruct (Z.eqb_spec (read_cnt s + 1) 0); [lia | done].
Qed.

Lemma read_post_ok k s : net_ok k s -> net_ok k (wf_wlan_mgmt_scan_que_read_post s).2.
Proof.
  intros H. destruct (no_lock _ _ H) as [Hc Hl]. unfold wf_wlan_mgmt_scan_que_read_post.
  destruct (Z.eqb_spec (read_cnt s) 0); [done |]. cbn [read_cnt set_read_cnt]. rewrite u8_id by (unfold is_u8; lia).
  destruct (Z.eqb_spec (read_cnt s - 1) 0) as [E |]; cbn [snd]; (constructor; try apply H); cbn [read_cnt sema set_read_cnt sema_post set_sema].
  - rewrite Hl, E. cbn. lia.
  - rewrite Hl. split; [lia |]. by destruct (Z.eqb_spec (read_cnt s - 1) 0).
Qed.

Lemma visit_spec k s e : net_ok k s -> e ∈ ready s ->
  exists s', visit e s = Ret (mask_ttl (at_node s e), s') /\ net_ok k s' /\ free s' = free s /\ ready s' = ready s /\ read_cnt s' = read_cnt s /\
    forall x, at_node s' x = if Nat.eqb x e then mask_ttl (at_node s e) else at_node s x.
Proof.
  intros H He. pose proof (ready_range _ _ H) as Hr. rewrite list.Forall_forall in Hr. specialize (Hr e He).
  unfold visit. rewrite node_ret by done. cbn [cbind]. eexists. split; [done |].
  assert (Hat : forall x, at_node (set_node e (mask_ttl (at_node s e)) s) x = if Nat.eqb x e then mask_ttl (at_node s e) else at_node s x)
    by (intros; by apply at_set_node).
  split_and!; try done. eapply net_ok_keep; [exact H | apply set_node_length | done | done | | done | done].
  intros x _. rewrite Hat. by destruct (Nat.eqb_spec x e) as [-> |].
Qed.



Lemma net_alloc_ok n s : ready s = [] -> free s = rev (seq 0 (length (store s))) ->
  exists s', alloc_nodes (replicate n true) s = (0, s') /\ ready s' = [] /\ length (store s') = (n + length (store s))%nat /\
    free s' = rev (seq 0 (length (store s'))) /\ read_cnt s' = 0 /\ sema s' = 1.
Proof.
  revert s. induction n as [| n IH]; intros s Hr Hf; cbn [replicate alloc_nodes negb].
  - eexists. split; [done |]. by split_and!.
  - destruct (IH (mk_que (length (store s) :: free s) (ready s) (store s ++ [Nn.zero]) (read_cnt s) (sema s))) as (s' & -> & H1 & H2 & H3);
      cbn; [done | rewrite length_app, Nat.add_1_r, seq_S, rev_app_distr, Hf; done |].
    exists s'. split_and!; try done; [| apply H3 ..]. rewrite H2. cbn. rewrite length_app. cbn. lia.
Qed.

Lemma net_init_ok n : exists s, wlan_mgmt_scan_que_init (replicate n true) = (0, s) /\ net_ok n s.
Proof.
  destruct (net_alloc_ok n (mk_que [] [] [] 0 0)) as (s & E & Hr & Hl & Hf & Hc & Hse); [done | done |]. exists s. split; [exact E |].
  cbn in Hl. rewrite Nat.add_0_r in Hl. rewrite Hl in Hf.
  assert (Hp : free s ++ ready s ≡ₚ seq 0 n) by (rewrite Hr, app_nil_r, Hf; symmetry; apply Permutation_rev).
  constructor.
  - rewrite Hp. apply length_seq.
  - rewrite Hp, Hl, list.Forall_forall. intros x Hx%elem_of_seq. lia.
  - rewrite Hp. apply NoDup_seq.
  - rewrite Hr. constructor.
  - rewrite Hr. constructor.
  - by rewrite Hc, Hse.
Qed.

(** The states of the table of [n] nodes: made by the start, by frames and by
    refreshes of the thread, and by readers of other threads between them, who take
    the lock, go over nodes and give the lock back. *)
Inductive table (n : nat) : scan_que -> Prop :=
| T_init s : wlan_mgmt_scan_que_init (replicate n true) = (0, s) -> table n s
| T_frame cfg p2p now f s r s' : table n s -> handle_frame cfg p2p now f s = Ret (r, s') -> table n s'
| T_refresh m s r s' : table n s -> wlan_mgmt_scan_que_refresh m s = Ret (r, s') -> table n s'
| T_read s : table n s -> table n (wf_wlan_mgmt_scan_que_read_try s).2
| T_visit s e x s' : table n s -> read_cnt s <> 0 -> e ∈ ready s -> visit e s = Ret (x, s') -> table n s'
| T_done s : table n s -> table n (wf_wlan_mgmt_scan_que_read_post s).2.

Lemma table_ok k s : table (S (S k)) s -> net_ok (S (S k)) s.
Proof.
  induction 1 as [s E | cfg p2p now f s r s' H IH E | m s r s' H IH E | s H IH | s e x s' H IH Hrc He E | s H IH].
  - destruct (net_init_ok (S (S k))) as (s' & E' & Hs). congruence.
  - destruct (handle_inv _ _ _ _ _ _ _ E) as [(_ & _ & ->) | (e & fs & r0 & n & t & Hf & Hi & Ht)]; [done |].
    destruct (handle_spec cfg p2p now f k s e fs r0 n t IH Hf Hi Ht) as (r' & s2 & E' & Hs & _). congruence.
  - destruct (refresh_spec m _ s IH) as (s2 & E' & Hs & _). congruence.
  - by apply read_try_ok.
  - destruct (visit_spec _ s e IH He) as (s2 & E' & Hs & _). congruence.
  - by apply read_post_ok.
Qed.

(** ** Throwing the networks away *)

Section Flush.
Context (onlink : Z -> option bool) (hr hf e : Z).

(** The node [e] linked to itself, the queues of the heads [hr] and [hf] beside
    it. *)
Definition apart (xs ys : list Z) : Prop := NoDup (e :: hr :: hf :: xs ++ ys).

Lemma head_out h q xs : WfList.ring h (WfList.head q) xs ->
  exists h' q', WfList.wf_deque_head h q = Ret (h', q', hd_error xs) /\ WfList.head q' = WfList.head q /\
    WfList.ring h' (WfList.head q) (tl xs) /\ WfList.only h h' (WfList.head q :: xs) /\
    forall x, hd_error xs = Some x -> WfList.ring h' x [].
Proof using All.
  intros Hr. unfold WfList.wf_deque_head. rewrite (WfList.is_empty_ring _ _ _ Hr). cbn [cbind].
  destruct xs as [| x xs]; [rewrite bool_decide_eq_true_2 by done | rewrite bool_decide_eq_false_2 by done].
  - exists h, q. by split_and!.
  - destruct (WfList.delete_ring h _ [] xs x Hr) as (h' & Hd & H1 & H2 & H3).
    destruct Hr as [_ [[Hn _] _]]. unfold WfList.wf_list_next. rewrite Hn. cbn [of_option cbind]. rewrite Hd. cbn [cbind].
    eexists _, _. split; [done |]. split_and!; [done | done | done |]. by intros ? [= <-].
Qed.

Lemma ring_next h x xs : WfList.ring h x xs -> WfList.wf_list_next h x = Ret (hd x xs).
Proof using All. intros [_ Hc]. unfold WfList.wf_list_next. destruct xs; cbn in Hc; [destruct Hc as [-> _] | destruct Hc as [[-> _] _]]; done. Qed.

Lemma self_delete h : WfList.ring h e [] -> exists h', WfList.wf_list_delete h e = Ret h' /\ WfList.ring h' e [] /\ WfList.only h h' [e].
Proof using All.
  intros [Hn [H1 H2]]. eexists. split; [by apply WfList.list_delete_ret |]. split; [split; [done |] |].
  - split; cbn; by rewrite lookup_insert_eq.
  - split; [intros x [? ?]; split; cbn; by repeat apply WfList.is_Some_insert |].
    intros x Hx. cbn. rewrite !lookup_insert_ne; [done | set_solver ..].
Qed.

Lemma tail_in h q ys : WfList.ring h (WfList.head q) ys -> WfList.node h e -> e ∉ WfList.head q :: ys ->
  exists h' q', WfList.wf_enque_tail h e q = Ret (h', q') /\ WfList.head q' = WfList.head q /\
    WfList.ring h' (WfList.head q) (ys ++ [e]) /\ WfList.only h h' (e :: WfList.head q :: ys).
Proof using All.
  intros Hr Hn He. rewrite <- (app_nil_r ys) in Hr.
  destruct (WfList.insert_next_ring h _ ys [] e Hr Hn ltac:(by rewrite app_nil_r)) as (h' & Hi & H1 & H2).
  destruct (WfList.chain_cut _ _ _ _ _ (proj2 Hr)) as [_ Hp]. cbn [hd] in Hp.
  unfold WfList.wf_enque_tail, WfList.wf_enque_prev, WfList.wf_list_prev. rewrite Hp. cbn [of_option cbind]. rewrite Hi. cbn [cbind].
  eexists _, _. split; [done |]. rewrite app_nil_r in H2. by split_and!.
Qed.

(** The first turn of the loop puts the node into the pool. *)
Lemma flush_body_self q xs ys : WfList.head (lq_ready q) = hr -> WfList.head (lq_free q) = hf -> apart xs ys -> onlink e = Some false ->
  WfList.ring (lq_heap q) hr xs -> WfList.ring (lq_heap q) hf ys -> WfList.ring (lq_heap q) e [] ->
  exists q', flush_body onlink e q = Ret q' /\ WfList.head (lq_ready q') = hr /\ WfList.head (lq_free q') = hf /\
    WfList.ring (lq_heap q') hr xs /\ WfList.ring (lq_heap q') hf (ys ++ [e]).
Proof using All.
  intros Er Ef Ha Hon Hr Hf He. unfold flush_body. rewrite Hon. cbn [of_option cbind]. unfold WfList.wf_deque.
  rewrite Er, (WfList.is_empty_ring _ _ _ Hr). cbn [cbind]. unfold apart in Ha. rewrite !NoDup_cons, NoDup_app in Ha.
  assert (Hgo : forall h r, WfList.head r = hr -> WfList.ring h hr xs -> WfList.ring h hf ys -> WfList.ring h e [] ->
            exists q', (letc (h, f) := WfList.wf_enque_tail h e (lq_free q) in Ret (mk_lq h f r)) = Ret q' /\
              WfList.head (lq_ready q') = hr /\ WfList.head (lq_free q') = hf /\
              WfList.ring (lq_heap q') hr xs /\ WfList.ring (lq_heap q') hf (ys ++ [e])).
  { intros h r Hh H1 H2 [_ [H3 H4]]. rewrite <- Ef in H2 |- *.
    destruct (tail_in h (lq_free q) ys H2) as (h' & f & -> & Hf' & H5 & H6); [split; by eexists | set_solver |].
    eexists. split; [done |]. cbn. split_and!; [done | done | | done].
    eapply WfList.ring_only; [exact H6 | | done]. intros x Hx. rewrite Ef. set_solver. }
  destruct (bool_decide (xs = [])); [by apply Hgo |].
  destruct (self_delete _ He) as (h' & -> & H1 & H2). cbn [cbind]. apply Hgo; [by cbn | | | done];
    (eapply WfList.ring_only; [exact H2 | | done]; set_solver).
Qed.

(** The second turn leaves the queue of the networks a queue. *)
Lemma flush_body_again q xs ys : WfList.head (lq_ready q) = hr -> WfList.head (lq_free q) = hf -> apart xs ys -> onlink e = Some false ->
  WfList.ring (lq_heap q) hr xs -> WfList.ring (lq_heap q) hf (ys ++ [e]) ->
  exists q', flush_body onlink e q = Ret q' /\ WfList.head (lq_ready q') = hr /\ WfList.ring (lq_heap q') hr xs.
Proof using All.
  intros Er Ef Ha Hon Hr Hf. unfold flush_body. rewrite Hon. cbn [of_option cbind]. unfold WfList.wf_deque.
  rewrite Er, (WfList.is_empty_ring _ _ _ Hr). cbn [cbind]. unfold apart in Ha. rewrite !NoDup_cons, NoDup_app in Ha.
  destruct (bool_decide (xs = [])) eqn:Ex; cbn [cbind].
  - apply bool_decide_eq_true in Ex as ->. destruct (WfList.chain_cut _ _ (ys ++ [e]) [] _ ltac:(rewrite app_nil_r; exact (proj2 Hf))) as [H1 H2].
    rewrite last_last in *. cbn [hd] in *. unfold WfList.wf_enque_tail, WfList.wf_enque_prev, WfList.wf_list_prev. rewrite Ef, H2. cbn [of_option cbind].
    unfold WfList.wf_list_insert_next, WfList.wf_list_next. rewrite H1. cbn [of_option cbind].
    assert (Hp : is_Some (WfList.prev (lq_heap q) !! e)).
    { pose proof (proj2 Hf) as Hc. apply WfList.chain_cut in Hc as [_ Hc]. by eexists. }
    rewrite WfList.list_insert_ret; [| by rewrite H2 | split; [by rewrite H1 | done] | by rewrite H1]. cbn [cbind].
    eexists. split; [done |]. cbn. split; [done |]. destruct Hr as [Hn [Hr1 Hr2]]. split; [done |].
    split; cbn; rewrite !lookup_insert_ne; (done || set_solver).
  - destruct (WfList.delete_ring _ _ ys [] e Hf) as (h' & -> & H1 & H2 & H3). cbn [cbind]. rewrite app_nil_r in H1.
    rewrite <- Ef in H1. destruct (tail_in h' (lq_free q) ys H1) as (h2 & f & -> & Hf' & H5 & H6); [destruct H2 as [_ [? ?]]; split; by eexists | rewrite Ef; set_solver |].
    cbn [cbind]. eexists. split; [done |]. cbn. split; [done |]. eapply WfList.ring_only; [exact H6 | rewrite Ef; set_solver |].
    eapply WfList.ring_only; [exact H3 | set_solver | done].
Qed.

Lemma hd_not (x : Z) xs : x ∉ xs -> hd_error xs <> Some x.
Proof using All. destruct xs; [done |]. intros Hx [= ->]. set_solver. Qed.

Lemma apart_tl xs ys : apart xs ys -> apart (tl xs) ys.
Proof using All. destruct xs; [done |]. unfold apart. rewrite !NoDup_cons. cbn. rewrite NoDup_cons. set_solver. Qed.

(** A turn whose node is not the one just taken out of the queue goes on. *)
Lemma flush_turn fuel pos n q xs ys : WfList.head (lq_ready q) = hr -> apart xs ys -> pos ∉ xs -> WfList.ring (lq_heap q) hr xs ->
  exists h r, WfList.head r = hr /\ WfList.ring h hr (tl xs) /\ WfList.only (lq_heap q) h (hr :: xs) /\
    flush_loop (S fuel) onlink pos n q =
      (letc q := flush_body onlink pos (mk_lq h (lq_free q) r) in
       letc n' := WfList.wf_list_next (lq_heap q) n in flush_loop fuel onlink n n' q).
Proof using All.
  intros Er Ha Hp Hr. rewrite <- Er in Hr. destruct (head_out _ _ _ Hr) as (h & r & E & Hh & H1 & H2 & _).
  exists h, r. rewrite Er in *. split_and!; [done | done | done |]. cbn [flush_loop]. rewrite E. cbn [cbind].
  rewrite bool_decide_eq_false_2; [done | by apply hd_not].
Qed.

Lemma flush_onlink fuel q xs ys q' : WfList.head (lq_ready q) = hr -> apart xs ys -> onlink e = Some true ->
  WfList.ring (lq_heap q) hr xs -> WfList.ring (lq_heap q) e [] -> flush_loop fuel onlink e e q <> Ret q'.
Proof using All.
  revert q xs. induction fuel as [| fuel IH]; intros q xs Er Ha Hon Hr He; [done |].
  destruct (flush_turn fuel e e q xs ys Er Ha) as (h & r & Hh & H1 & H2 & ->); [| done |].
  { unfold apart in Ha. rewrite !NoDup_cons in Ha. set_solver. }
  assert (He' : WfList.ring h e []).
  { eapply WfList.ring_only; [exact H2 | | done]. unfold apart in Ha. rewrite !NoDup_cons in Ha. set_solver. }
  unfold flush_body. rewrite Hon. cbn [of_option cbind lq_heap]. rewrite (ring_next _ _ _ He'). cbn [cbind hd].
  apply (IH _ (tl xs)); [done | by apply apart_tl | done | done | done].
Qed.

Lemma flush_offlink fuel q xs ys q' : WfList.head (lq_ready q) = hr -> WfList.head (lq_free q) = hf -> apart xs ys ->
  onlink e = Some false -> onlink hf = None ->
  WfList.ring (lq_heap q) hr xs -> WfList.ring (lq_heap q) hf ys -> WfList.ring (lq_heap q) e [] ->
  flush_loop fuel onlink e e q <> Ret q'.
Proof using All.
  intros Er Ef Ha Hon Hno Hr Hf He. pose proof (apart_tl _ _ Ha) as Ha1. pose proof (apart_tl _ _ Ha1) as Ha2.
  assert (Hin : forall xs, apart xs ys -> (e ∉ xs) /\ (hf ∉ xs) /\ (e ∉ (hr :: xs)) /\ (forall x, x ∈ hf :: ys -> x ∉ hr :: xs)).
  { intros zs Hz. unfold apart in Hz. rewrite !NoDup_cons, NoDup_app in Hz. set_solver. }
  destruct fuel as [| fuel]; [done |].
  destruct (flush_turn fuel e e q xs ys Er Ha) as (h & r & Hh & H1 & H2 & ->); [by apply Hin | done |].
  destruct (flush_body_self (mk_lq h (lq_free q) r) (tl xs) ys) as (q1 & -> & Er1 & Ef1 & Hr1 & Hf1); [done | done | done | done | done | | |].
  { eapply WfList.ring_only; [exact H2 | apply (Hin _ Ha) | done]. }
  { eapply WfList.ring_only; [exact H2 | | done]. intros x ->%list_elem_of_singleton. by destruct (Hin _ Ha) as (? & ? & ? & ?). }
  cbn [cbind]. assert (Hn : WfList.wf_list_next (lq_heap q1) e = Ret hf).
  { destruct (WfList.chain_cut _ _ (ys ++ [e]) [] _ ltac:(rewrite app_nil_r; exact (proj2 Hf1))) as [Hn _].
    rewrite last_last in Hn. unfold WfList.wf_list_next. by rewrite Hn. }
  rewrite Hn. cbn [cbind]. destruct fuel as [| fuel]; [done |].
  destruct (flush_turn fuel e hf q1 (tl xs) ys Er1 Ha1) as (h2 & r2 & Hh2 & H3 & H4 & ->); [by apply Hin | done |].
  destruct (flush_body_again (mk_lq h2 (lq_free q1) r2) (tl (tl xs)) ys) as (q2 & -> & Er2 & Hr2); [done | done | done | done | done | |].
  { eapply WfList.ring_only; [exact H4 | | done]. intros x Hx. apply elem_of_cons in Hx as [-> | Hx]; [by apply (Hin _ Ha1); left |].
    apply elem_of_app in Hx as [Hx | ->%list_elem_of_singleton]; [by apply (Hin _ Ha1); right | by destruct (Hin _ Ha1) as (? & ? & ? & ?)]. }
  cbn [cbind]. destruct (WfList.wf_list_next (lq_heap q2) hf) as [n' | |]; [| done | done]. cbn [cbind].
  destruct fuel as [| fuel]; [done |].
  destruct (flush_turn fuel hf n' q2 (tl (tl xs)) ys Er2 Ha2) as (h3 & r3 & _ & _ & _ & ->); [by apply Hin | done |].
  unfold flush_body. by rewrite Hno.
Qed.
End Flush.

(** ** The theorems *)

(** C6: whatever frames are heard, however the table is aged and whenever other
    threads read it, each of the nodes it was given at the start is in exactly
    one of its two queues, the networks are in the order of their signal
    strength, no BSSID is there twice, and the semaphore is taken exactly while
    there are readers. *)
Theorem net_table_ok (n : nat) (s : scan_que) : (2 <= n)%nat -> table n s ->
  length (free s ++ ready s) = n /\ NoDup (free s ++ ready s) /\ StronglySorted (stronger s) (ready s) /\
  NoDup ((fun e => Nn.bssid (at_node s e)) <$> ready s) /\
  (sema s = 0 <-> read_cnt s <> 0).
Proof.
  intros Hn. destruct n as [| [| k]]; [lia | lia |]. intros H%table_ok.
  split_and!; [apply H | apply H | apply H | apply H |]. destruct (no_lock _ _ H) as [_ ->].
  destruct (Z.eqb_spec (read_cnt s) 0); split; done || lia.
Qed.

(** C7: a frame that the parser accepts is handled.  When it is recorded, the
    table has one network with the BSSID of the frame, at its node what the parser
    made of the frame; every other network of the table was there before, with the
    same content, and none of those before is gone but the older entry of the BSSID
    and, when the pool had no other node, the last.  When it is not, the table has
    the networks it had, in the same order and with the same content, but that a
    beacon takes one off the count of beacons that the entry of its BSSID, when that
    is of a probe response, is held against.  A probe response with a signal is
    recorded whenever no reader is at work and the pool has two nodes. *)
Theorem network_recorded (cfg : net_cfg) (p2p : bool) (now : Z) (f : rx_frm_msg) (n : nat) (s : scan_que) (t : Z) (nn : Nn.net_node) :
  (2 <= n)%nat -> table n s -> free s <> [] -> type_of f = Ret t ->
  wlan_mgmt_scan_node_info p2p now f Nn.zero = Ret (0, nn) ->
  exists r s', handle_frame cfg p2p now f s = Ret (r, s') /\
    (r = 0 -> exists e, e ∈ ready s' /\ at_node s' e = reset_ttl cfg nn /\ slice (mgmt_frm f) 16 6 = Ret (Nn.bssid nn) /\
                (forall x, x ∈ ready s' -> Nn.bssid (at_node s' x) = Nn.bssid nn -> x = e) /\
                (forall x, x ∈ ready s' -> x <> e -> x ∈ ready s /\ at_node s' x = at_node s x) /\
                (forall x, x ∈ ready s -> x ∈ ready s' \/ Nn.bssid (at_node s x) = Nn.bssid nn \/
                                         length (free s) = 1%nat /\ last (ready s) = Some x)) /\
    (r <> 0 -> ready s' = ready s /\ free s' = free s /\
       forall x, x ∈ ready s -> at_node s' x = at_node s x \/ held_back t (Nn.bssid nn) (at_node s x) (at_node s' x)) /\
    (t = Mgmt.WF_80211_FRM_PROBE_RESP -> has_signal f = true -> read_cnt s = 0 -> (2 <= length (free s))%nat -> r = 0).
Proof.
  intros Hn Htab Hfree Ht Hi. destruct n as [| [| k]]; [lia | lia |]. apply table_ok in Htab as Hok.
  destruct (free s) as [| e fs] eqn:Hf; [done |].
  destruct (handle_spec cfg p2p now f k s e fs 0 nn t Hok Hf Hi Ht) as (r & s' & E & Hok' & Hcase). exists r, s'. split; [done |].
  destruct Hcase as [(-> & _ & Hin & Hat & Hold & Hgone) | (Hr & Hre & Hfr & Hsame & Hc)].
  - split_and!; [| done | done]. intros _. exists e. split_and!; [done | done | by eapply node_info_bssid | | done |].
    + intros x Hx Hb. eapply (nodup_fmap_inj (fun e => Nn.bssid (at_node s' e))); [apply (no_bssid _ _ Hok') | done | done |].
      cbn. by rewrite Hb, Hat.
    + intros x Hx. destruct (Hgone x Hx) as [? | [? | [-> ?]]]; auto.
  - split_and!; [done | intros _; by rewrite Hfr |]. intros -> Hs Hrd Hl. exfalso. destruct Hc as [? | [? | [? | [-> | ?]]]]; [done | done | congruence | cbn in Hl; lia | done].
Qed.

(** C39: the parser on a beacon or probe response with complete elements, each at
    least as long as what the parser reads of it.  When none is a security element of 63 or 64 bytes it returns, without an access
    outside of the message or of the arrays of the node, and it accepts the frame
    exactly when it is not of a mesh or the device is a peer of others, its elements
    are shorter than 756 bytes, no name is longer than 32 bytes or, in a probe
    response, empty, no element of rates is empty and there are 16 rates at most.
    There are two exceptions.  As a peer it compares 7 bytes of a mesh's beacon
    whether they are there or not, so that the message must go 9 bytes beyond the
    header.  And a security element of 63 or 64 bytes - of RSN, WPA or WPS - behind
    elements that are accepted, which the check of its length lets through, is
    copied with its header over the end of its array. *)
Theorem beacon_parsed (p2p : bool) (now : Z) (sta : option (Z * Z)) (hdr : list Z) (xs : list (Z * list Z)) (x : Z * list Z) (ys : list (Z * list Z)) (rest : list Z) :
  let el := elems_bytes (xs ++ x :: ys) in
  let parse := wlan_mgmt_scan_node_info p2p now (mk_frm sta (hdr ++ el ++ rest) (36 + Z.of_nat (length el))) Nn.zero in
  length hdr = 36%nat -> Forall elem_ok xs -> 36 + Z.of_nat (length el) < 2 ^ 16 ->
  (mesh_capab hdr = true -> p2p = true -> Z.of_nat (length el + length rest) < 9 -> parse = Fault) /\
  ((mesh_capab hdr = true -> p2p = true -> 9 <= Z.of_nat (length el + length rest)) -> Forall elem_ok (x :: ys) ->
     exists r n, parse = Ret (r, n) /\
       (r = 0 <-> (mesh_capab hdr = true -> p2p = true) /\ Z.of_nat (length el) < 756 /\ elems_pass (hdr_type hdr) 0 (xs ++ x :: ys) = true)) /\
  ((mesh_capab hdr = true -> p2p = true) -> Z.of_nat (length el) < 756 -> elems_pass (hdr_type hdr) 0 xs = true -> long_elem x -> parse = Fault).
Proof.
  intros el parse Hh Hxs Hl.
  assert (Hel : (2 + length x.2 <= length el)%nat).
  { unfold el, elems_bytes. rewrite List.flat_map_app, length_app. cbn [List.flat_map]. rewrite length_app. cbn. lia. }
  destruct (node_info_head p2p now sta hdr el rest Hh ltac:(lia) Hl) as (n & Hn & E). subst parse. rewrite E. clear E.
  split_and!.
  - intros -> -> H9. cbn [negb andb]. destruct (Z.ltb_spec (Z.of_nat (length el + length rest)) 9); [done | lia].
  - intros H9 Hok. destruct (mesh_capab hdr), p2p; cbn [negb andb];
      [specialize (H9 eq_refl eq_refl); destruct (Z.ltb_spec (Z.of_nat (length el + length rest)) 9) as [? | _]; [lia |] | | |].
    2: { eexists _, _. split; [done |]. split; [done |]. intros [Hc _]. by specialize (Hc eq_refl). }
    all: destruct (Z.leb_spec 756 (Z.of_nat (length el))); [eexists _, _; split; [done |]; split; [done | lia] |].
    all: destruct (elements_all (S (36 + length el + length rest)) (hdr_type hdr) (xs ++ x :: ys) rest 0 n) as (r & c & n' & El & Hr);
      [by destruct xs | pose proof (flat_length (xs ++ x :: ys)) as Hfl; fold el in Hfl; lia | by apply Forall_app | done | lia |]; fold el in El; rewrite El; cbn [cbind].
    all: destruct Hr as [[Hp ->] | [Hp Hr]]; rewrite Hp.
    all: try (destruct (Z.ltb_spec r 0); [| lia]); eexists _, _; (split; [done |]); split; first [done | lia | by intros (_ & _ & ?)].
  - intros Hm Hs Hp Hlong. assert (Hm' : mesh_capab hdr && negb p2p = false) by (destruct (mesh_capab hdr), p2p; try done; by specialize (Hm eq_refl)). rewrite Hm'.
    pose proof (proj1 Hlong) as Hlen. destruct (Z.ltb_spec (Z.of_nat (length el + length rest)) 9); [lia |]. rewrite andb_false_r.
    destruct (Z.leb_spec 756 (Z.of_nat (length el))); [lia |].
    assert (Ef : element_loop (S (36 + length el + length rest)) (hdr_type hdr) (el ++ rest) (Z.of_nat (length el)) 0 n = Fault); [| by rewrite Ef].
    apply elements_overrun; [| done | done | done | done | lia].
    pose proof (flat_length (xs ++ x :: ys)) as Hfl. fold el in Hfl. rewrite length_app in Hfl. lia.
Qed.


(** The request to throw the networks away never comes back when there are
    any and no reader is at work: the loop's macro takes the first node out of the
    queue of networks and another one at every turn to compare with, so that it
    turns around the first node for ever if that is the connected network, and
    otherwise follows it into the pool and takes the pool's head for a node. *)
Theorem flush_never_returns (fuel : nat) (onlink : Z -> option bool) (sema e : Z) (xs ys : list Z) (on : bool) (q : linked_que)
    (res : Z * Z * linked_que) :
  WfList.ring (lq_heap q) (WfList.head (lq_ready q)) (e :: xs) -> WfList.ring (lq_heap q) (WfList.head (lq_free q)) ys ->
  NoDup (e :: WfList.head (lq_ready q) :: WfList.head (lq_free q) :: xs ++ ys) ->
  onlink e = Some on -> onlink (WfList.head (lq_free q)) = None -> sema <> 0 ->
  wlan_mgmt_scan_que_node_flush fuel onlink sema q <> Ret res.
Proof.
  intros Hr Hf Ha Hon Hno Hs. set (hr := WfList.head (lq_ready q)) in *. set (hf := WfList.head (lq_free q)) in *.
  unfold wlan_mgmt_scan_que_node_flush, WfList.wf_que_is_empty. fold hr. rewrite (WfList.is_empty_ring _ _ _ Hr). cbn [cbind].
  rewrite bool_decide_eq_false_2 by done. destruct (Z.eqb_spec sema 0); [done |].
  destruct (head_out onlink hr hf e _ _ _ Hr) as (h & r & -> & Hh & H1 & H2 & H3). cbn [hd_error tl cbind of_option] in *.
  specialize (H3 e eq_refl). rewrite (ring_next onlink hr hf e _ _ _ H3). cbn [cbind hd]. rewrite (ring_next onlink hr hf e _ _ _ H3). cbn [cbind hd].
  assert (Hf' : WfList.ring h hf ys).
  { eapply WfList.ring_only; [exact H2 | | exact Hf]. fold hr. rewrite !NoDup_cons, NoDup_app in Ha. set_solver. }
  destruct (flush_loop _ _ _ _ _) as [q' | |] eqn:El; [| done | done]. exfalso. revert El. destruct on.
  - by apply (flush_onlink onlink hr hf e fuel _ xs ys).
  - by apply (flush_offlink onlink hr hf e fuel _ xs ys).
Qed.

(** ** Concrete tables *)

(** A probe response of the network 66:55:44:33:22:11 with the name "ab" on
    channel 6. *)
Definition wit_frame : rx_frm_msg :=
  let bytes := [0x50; 0; 0; 0] ++ [2; 0; 0; 0; 0; 1] ++ [0x66; 0x55; 0x44; 0x33; 0x22; 0x11] ++ [0x66; 0x55; 0x44; 0x33; 0x22; 0x11] ++
               [0; 0] ++ replicate 8 0 ++ [100; 0] ++ [0x11; 0] ++
               [0; 2; 0x61; 0x62] ++ [1; 4; 0x82; 0x84; 0x8B; 0x96] ++ [3; 1; 6] in
  mk_frm (Some (60, 80)) bytes (Z.of_nat (length bytes)).
Definition wit_cfg : net_cfg := mk_cfg 10 None.
Definition wit_start : scan_que := (wlan_mgmt_scan_que_init (replicate 3 true)).2.
Definition ret_or {A} (d : A) (m : C A) : A := match m with Ret x => x | _ => d end.
Definition wit_table : scan_que := (ret_or (0, wit_start) (handle_frame wit_cfg false 5 wit_frame wit_start)).2.
Definition wit_node : Nn.net_node := (ret_or (0, Nn.zero) (wlan_mgmt_scan_node_info false 5 wit_frame Nn.zero)).2.

Lemma wit_start_table : table 3 wit_start.
Proof. by apply T_init. Qed.

Lemma net_table_ok_witness : length (free wit_table ++ ready wit_table) = 3%nat /\ ready wit_table = [2%nat].
Proof.
  split; [| vm_compute; reflexivity]. apply (net_table_ok 3 wit_table); [lia |].
  apply (T_frame 3 wit_cfg false 5 wit_frame wit_start 0); [apply wit_start_table | vm_compute; reflexivity].
Defined.

Lemma network_recorded_witness : exists r s', handle_frame wit_cfg false 5 wit_frame wit_start = Ret (r, s') /\ r = 0 /\
  Nn.channel wit_node = 6 /\ Nn.ssid_length wit_node = 2.
Proof.
  destruct (network_recorded wit_cfg false 5 wit_frame 3 wit_start 0x50 wit_node) as (r & s' & E & _ & _ & H);
    [lia | apply wit_start_table | vm_compute; discriminate | vm_compute; reflexivity | vm_compute; reflexivity |].
  exists r, s'. split; [exact E |]. split; [apply H; vm_compute; (reflexivity || lia) | split; vm_compute; reflexivity].
Defined.


(** A beacon with a name and a channel, and one with a long element of RSN
    between them. *)
Definition wit_hdr : list Z := replicate 34 0 ++ [1; 0].
Definition wit_beacon (xs : list (Z * list Z)) : rx_frm_msg :=
  mk_frm None (wit_hdr ++ elems_bytes xs ++ [1; 2]) (36 + Z.of_nat (length (elems_bytes xs))).

Lemma beacon_parsed_witness :
  (exists r n, wlan_mgmt_scan_node_info false 7 (wit_beacon [(0, [97; 98]); (3, [11])]) Nn.zero = Ret (r, n) /\ r = 0) /\
  wlan_mgmt_scan_node_info false 7 (wit_beacon [(0, [97; 98]); (48, replicate 64 1); (3, [11])]) Nn.zero = Fault.
Proof.
  split.
  - destruct (beacon_parsed false 7 None wit_hdr [(0, [97; 98])] (3, [11]) [] [1; 2]) as (_ & H & _);
      [done | repeat constructor; cbn; lia | cbn; lia |].
    destruct H as (r & n & E & Hr); [done | repeat constructor; cbn; lia |]. exists r, n. split; [exact E |]. apply Hr. by vm_compute.
  - destruct (beacon_parsed false 7 None wit_hdr [(0, [97; 98])] (48, replicate 64 1) [(3, [11])] [1; 2]) as (_ & _ & H);
      [done | repeat constructor; cbn; lia | cbn; lia |].
    apply H; [done | cbn; lia | done | split; [cbn; lia | by left]].
Defined.

(** A queue of networks 1 with the node 3, and an empty pool 2. *)
Definition wit_linked : linked_que :=
  mk_lq (WfList.mk_heap (list_to_map [(1, 3); (3, 1); (2, 2)]) (list_to_map [(1, 3); (3, 1); (2, 2)])) (WfList.mk_que 2 0) (WfList.mk_que 1 1).
Definition wit_onlink (p : Z) : option bool := if p =? 3 then Some false else None.

Lemma flush_never_returns_witness : wlan_mgmt_scan_que_node_flush 100 wit_onlink 1 wit_linked <> Ret (0, 1, wit_linked).
Proof.
  apply (flush_never_returns 100 wit_onlink 1 3 [] [] false wit_linked (0, 1, wit_linked)); try done; cbn.
  - split; [repeat constructor; set_solver | by vm_compute].
  - split; [repeat constructor; set_solver | by vm_compute].
  - repeat constructor; set_solver.
Defined.
End NetList.
