(* ===== verification/Air.v ===== *)
(** * From one driver to another

    A packet that the transmit side of one driver ([Transmit frames], [Security
    dispatch]) puts on the air and the receive side of another one ([Receive
    path]) takes from there. *)
From S2P Require Import Prelude Cipher SecTypes Crc32 Arc4 WdnTypes Wdn Wep Mic Tkip Sec Wlan Io Rx TxTypes TxFrame RxPath.
Import Crc32.

Module Air.
Import Io.

(** ** The bytes of a frame *)

Lemma snap_of_type type : length type = 2%nat -> bytes_ok type ->
  exists snap, TxFrame.tx_set_snap (be_word type) = snap ++ type /\ RxPath.snap_for snap type.
Proof.
  intros (a & b & ->)%RxPath.two Hb. apply Forall_cons in Hb as [Ha Hb]. apply Forall_cons in Hb as [Hb _].
  unfold is_u8 in *.
  assert (Hw : be_word [a; b] = b + 256 * a) by (cbn; lia).
  assert (H1 : u8 (Z.shiftr (b + 256 * a) 8) = a).
  { rewrite Z.shiftr_div_pow2 by lia. change (2 ^ 8) with 256.
    replace ((b + 256 * a) / 256) with a by (apply (Z.div_unique _ _ _ b); lia). by apply u8_id. }
  assert (H2 : u8 (b + 256 * a) = b) by (unfold u8; symmetry; apply (Z.mod_unique _ _ a); lia).
  unfold TxFrame.tx_set_snap. rewrite Hw, H1, H2.
  destruct (Z.eqb_spec (b + 256 * a) 0x8137); [| destruct (Z.eqb_spec (b + 256 * a) 0x80f3)]; cbn [orb].
  1, 2: exists Wlan.wl_bridge_tunnel_header; split; [done |]; by split; [| left].
  exists Wlan.wl_rfc1042_header. split; [done |]. split; [done |]. right. split; [done |].
  unfold Wlan.SNAP_ETH_TYPE_IPX, Wlan.SNAP_ETH_TYPE_APPLETALK_AARP. split; intros [= -> ->]; lia.
Qed.

Lemma four (l : list Z) : (4 <= length l)%nat -> exists c0 c1 c2 c3 l', l = c0 :: c1 :: c2 :: c3 :: l'.
Proof. intros H. do 4 (destruct l as [| ? l]; [cbn in H; lia |]). eauto 10. Qed.

Lemma same_body (d h a b t t' : list Z) (g g' : crc_globals) :
  Ret (0, g, Some (d ++ h ++ a ++ t)) = Ret (0, g', Some (d ++ h ++ b ++ t')) -> length a = length b -> a = b.
Proof. intros [= _ E] Hl. do 2 apply app_inv_head in E. by apply app_inj_1 in E as [E _]. Qed.

(** A packet from its parts. *)
Lemma msdu_joined (msdu l : list Z) :
  take 6 msdu ++ take 6 (drop 6 msdu) ++ take 2 (drop 12 msdu) ++ drop 14 msdu ++ l = msdu ++ l.
Proof.
  change 14%nat with (12 + 2)%nat. rewrite <- drop_drop, (app_assoc (take 2 _)), take_drop.
  change 12%nat with (6 + 6)%nat. rewrite <- drop_drop, (app_assoc (take 6 (drop 6 _))), take_drop.
  by rewrite (app_assoc (take 6 msdu)), take_drop.
Qed.

(** A descriptor lies in the first 20 bytes. *)
Lemma rxd_front desc l : (20 <= length desc)%nat -> Rx.rxd_of (desc ++ l) = Rx.rxd_of desc.
Proof. intros H. unfold Rx.rxd_of, Rx.dword. by rewrite !slice_app_l, !slice_Ret by lia. Qed.

Lemma type_front desc l : (1 <= length desc)%nat -> Rx.wf_rx_data_type (desc ++ l) = Rx.wf_rx_data_type desc.
Proof. destruct desc; [cbn [length]; lia | done]. Qed.

Lemma rxd_tid desc r : Rx.rxd_of desc = Ret r -> 0 <= Rx.tid r <= 15.
Proof.
  unfold Rx.rxd_of. intros H.
  do 5 (match type of H with context [Rx.dword desc ?k] => destruct (Rx.dword desc k); try discriminate end; cbn [cbind] in H).
  injection H as <-. cbn [Rx.tid]. match goal with |- context [field ?w ?a 4] => pose proof (field_range w a 4 ltac:(lia)) end. lia.
Qed.

Lemma michael_bytes key msg : bytes_ok (Mic.michael key msg).
Proof. unfold Mic.michael. case_match. case_match. apply bytes_ok_app. split; apply le_bytes_ok. Qed.

(** ** Encryption, the air and decryption *)

(** The ciphers the driver encrypts with, or none. *)
Definition soft_cipher (a : Z) : Prop := a = _NO_PRIVACY_ \/ a = _WEP40_ \/ a = _WEP104_ \/ a = _TKIP_.

Section Secured.
Context {SC : StreamCipher}.
Context (s s' : sec_info_st) (w : Wdn.wdn_list) (xf : SecTypes.xmit_frame) (p : rx_sec_pkt) (hdr payload : list Z).
Let a := xf_encrypt_algo xf.

(** The receiver has the keys of the sender. *)
Definition shared_keys : Prop :=
  (a = _WEP40_ \/ a = _WEP104_ ->
     Wep.key_ok s (Wep.iv_at hdr (xf_hdrlen xf)) /\
     Wep.wep_key s' (Wep.iv_at hdr (xf_hdrlen xf)) = Wep.wep_key s (Wep.iv_at hdr (xf_hdrlen xf))) /\
  (a = _TKIP_ -> exists tk, Tkip.keys_match s s' w xf p hdr tk).

(** The lengths both sides use. *)
Record same_lengths : Prop := {
  sl_cipher : soft_cipher a;
  sl_iv : xf_iv_len xf = (RxPath.iv_icv a).1;
  sl_icv : xf_icv_len xf = (RxPath.iv_icv a).2;
  sl_hdr : 24 <= xf_hdrlen xf <= 26;
  sl_hdr_iv : Z.of_nat (length hdr) = xf_hdrlen xf + xf_iv_len xf;
  sl_rx_algo : rxp_encrypt_algo p = a;
  sl_rx_hdr : rxp_wlan_hdr_len p = xf_hdrlen xf;
  sl_rx_iv : rxp_iv_len p = xf_iv_len xf;
  sl_rx_icv : rxp_icv_len p = xf_icv_len xf;
  sl_rx_len : rxp_len p = Z.of_nat (length hdr) + Z.of_nat (length payload) + xf_icv_len xf;
  sl_prot : forall l, exists v, Sec.GET_HDR_Protected (hdr ++ l) = Ret v /\ nz v = nz a;
}.

(** A frame of [hdr] and [payload] in a transmit buffer, with [tail] behind it. *)
Lemma secured (g : crc_globals) (d tail : list Z) :
  globals_ok g -> length d = 20%nat -> (4 <= length tail)%nat -> bytes_ok payload ->
  same_lengths -> shared_keys -> rxp_len p < 2 ^ 30 ->
  exists g1 body icv tail',
    Sec.wf_sec_encrypt g s (Some xf) (Some (d ++ hdr ++ payload ++ tail)) (20 + rxp_len p) =
      Ret (0, g1, Some (d ++ hdr ++ body ++ tail')) /\
    Z.of_nat (length body) = Z.of_nat (length payload) + xf_icv_len xf /\
    Z.of_nat (length icv) = xf_icv_len xf /\
    forall gr, globals_ok gr -> exists g2, globals_ok g2 /\
      if nz a then Sec.wf_sec_decryptor gr s' w (set_rxp_data p (hdr ++ body)) = Ret (0, g2, hdr ++ payload ++ icv, true)
      else body = payload /\ icv = [].
Proof.
  intros Hg Hd Ht Hp [L1 L2 L3 L4 L5 L6 L7 L8 L9 L10 L11] [Kw Kt] Hlen.
  pose proof (RxPath.iv_icv_range a) as Hrng.
  unfold Sec.wf_sec_encrypt. destruct (Z.eqb_spec (20 + rxp_len p) 0); [lia |]. fold a.
  rewrite <- (take_drop 4 tail). set (slot := take 4 tail). set (post := drop 4 tail).
  assert (Hslot : length slot = 4%nat) by (unfold slot; rewrite length_take; lia).
  assert (Hn : xf_icv_len xf = 4 -> Z.of_nat (length (d ++ hdr ++ payload ++ slot)) = 20 + rxp_len p)
    by (intros E; rewrite !length_app; lia).
  assert (Hn' : xf_icv_len xf = 4 -> rxp_len p = Z.of_nat (length (hdr ++ payload ++ slot)))
    by (intros E; rewrite !length_app; lia).
  unfold Sec.wf_sec_decryptor. cbn [rxp_data set_rxp_data rxp_encrypt_algo].
  assert (Hsplit : a = _NO_PRIVACY_ \/ (a = _WEP40_ \/ a = _WEP104_) \/ a = _TKIP_) by (unfold soft_cipher in L1; tauto).
  destruct Hsplit as [E | [E | E]].
  - rewrite E in *. exists g, payload, [], (slot ++ post). cbn in L3. cbn. rewrite L3. split; [done |].
    split; [lia |]. split; [done |]. intros gr Hgr. by exists gr.
  - destruct (Kw E) as [K1 K2].
    assert (Hiv : RxPath.iv_icv a = (4, 4)) by (by destruct E as [-> | ->]).
    rewrite Hiv in L2, L3. cbn [fst snd] in L2, L3.
    assert (K3 : Wep.wep_stream s' (Wep.iv_at hdr (xf_hdrlen xf)) = Wep.wep_stream s (Wep.iv_at hdr (xf_hdrlen xf)))
      by (unfold Wep.wep_stream; by rewrite K2).
    destruct (Wep.wep_air g s s' xf p d hdr payload slot post Hg E ltac:(lia) ltac:(lia) L3 L7 L8 ltac:(lia)
      ltac:(unfold TXDESC_SIZE; lia) L5 Hslot Hp K1 K3 (Hn' L3) ltac:(rewrite (Hn L3); lia)) as (g1 & enc & _ & Hel & _ & He & Hdc).
    rewrite (Hn L3) in He. rewrite He.
    exists g1, enc, (Wep.icv_of payload), post.
    split; [by destruct E as [-> | ->] |]. split; [lia |]. split; [rewrite Wep.icv_of_length; lia |].
    intros gr Hgr. destruct (Hdc gr Hgr) as (g2 & Hg2 & Hdd). exists g2. split; [done |].
    destruct (L11 enc) as (v & -> & Hv). cbn [cbind]. rewrite Hv, L6, Hdd.
    by destruct E as [-> | ->].
  - destruct (Kt E) as [tk Hk].
    assert (Hiv : RxPath.iv_icv a = (8, 4)) by (by rewrite E).
    rewrite Hiv in L2, L3. cbn [fst snd] in L2, L3.
    destruct (Tkip.tkip_air g s s' w xf p d hdr payload slot post tk Hg ltac:(lia) ltac:(lia) L3 L7 L8 ltac:(lia)
      ltac:(unfold TXDESC_SIZE; lia) L5 Hslot Hp Hk (Hn' L3) ltac:(rewrite (Hn L3); lia)) as (g1 & enc & _ & Hel & _ & He & Hdc).
    rewrite (Hn L3) in He. rewrite He.
    exists g1, enc, (Wep.icv_of payload), post.
    split; [by rewrite E |]. split; [lia |]. split; [rewrite Wep.icv_of_length; lia |].
    intros gr Hgr. destruct (Hdc gr Hgr) as (g2 & Hg2 & Hdd). exists g2. split; [done |].
    destruct (L11 enc) as (v & -> & Hv). cbn [cbind]. rewrite Hv, L6, Hdd, E. done.
Qed.
End Secured.

(** ** Two devices *)

(** The work modes of a sender and a receiver that talk to each other. *)
Definition faces (t r : Z) : Prop :=
  t = Rx.WF_INFRA_MODE /\ r = Rx.WF_MASTER_MODE \/ t = Rx.WF_MASTER_MODE /\ r = Rx.WF_INFRA_MODE \/
  t = Rx.WF_ADHOC_MODE /\ r = Rx.WF_ADHOC_MODE.

(** The addresses a receiver listens to. *)
Definition hears (mode : Z) (local bss a1 a2 a3 : list Z) : bool :=
  if mode =? Rx.WF_INFRA_MODE then Rx.is_bcast_addr a1 || (bytes_eqb a2 bss && bytes_eqb a1 local)
  else if mode =? Rx.WF_MASTER_MODE then bytes_eqb a1 local
  else Rx.is_bcast_addr a1 || (bytes_eqb a3 bss && bytes_eqb a1 local).

(** The frame control word of a data frame, as the receiver reads it. *)
Lemma control_read t r q p : faces t r -> let fc := TxFrame.frame_control_of t q p in
  exists b0 b1, le_bytes 2 fc = [b0; b1] /\ Rx.frame_control b0 b1 = fc /\
    Z.land fc 0x0C = RxPath.MAC_FRAME_TYPE_DATA /\ Z.testbit fc 8 && Z.testbit fc 9 = false /\
    Z.testbit fc 15 = false /\ Z.testbit fc 11 = false /\ Z.testbit fc 14 = p /\
    forall a1 a2 a3 local bss, Rx.accepts b0 b1 a1 a2 a3 r local bss = hears r local bss a1 a2 a3.
Proof.
  intros Hf fc. exists (nthZ (le_bytes 2 fc) 0), (nthZ (le_bytes 2 fc) 1). unfold fc.
  destruct Hf as [[-> ->] | [[-> ->] | [-> ->]]], q, p; split_and!; reflexivity.
Qed.

(** The receiver finds destination and source where the sender put them. *)
Lemma addrs_back t r bss dst src : faces t r -> let a := TxFrame.addrs_of t bss dst src in
  (if r =? Rx.WF_INFRA_MODE then (a.1.1, a.2) else if r =? Rx.WF_MASTER_MODE then (a.2, a.1.2) else (a.1.1, a.1.2)) = (dst, src).
Proof. by intros [[-> ->] | [[-> ->] | [-> ->]]]. Qed.

Section Roundtrip.
Context {SC : StreamCipher}.
Context (nic : tx_nic) (x : Xf.xmit_frame) (msdu : list Z).
Context (rx : RxPath.rx_nic) (s : Rs.rx_info) (n : Wdn.wdn_node_st).
Let addrs := TxFrame.addrs_of (work_mode nic) (cur_bssid nic) (take 6 msdu) (take 6 (drop 6 msdu)).
Let a1 := addrs.1.1.
Let a2 := addrs.1.2.
Let a3 := addrs.2.
Let algo := Xf.encrypt_algo x.

(** A receiver [rx] in state [s] that knows the sender as the node [n], listens
    to the frame [x] of the packet [msdu] and has the sender's keys. *)
Record listens : Prop := {
  ls_faces : faces (work_mode nic) (RxPath.work_mode rx);
  ls_ba : RxPath.ba_enable rx = true;
  ls_addrs : NoDup (Wdn.addr <$> Wdn.head (Rs.wdn s));
  ls_node : Wdn.wf_wdn_find_info (Rs.wdn s) (Some a2) = Some n;
  ls_rec : length (Wi.seq_ctrl_recorder (Wdn.info n)) = 16%nat;
  ls_hears : hears (RxPath.work_mode rx) (RxPath.local rx) (Wi.bssid (Wdn.info n)) a1 a2 a3 = true;
  ls_me : RxPath.for_me rx (take 6 msdu) = true;
  ls_globals : globals_ok (Rs.crc s);
  ls_cipher : RxPath.cipher_of (RxPath.rx_sec rx) (Wdn.info n) a1 (nz algo) = algo;
  ls_wep : algo = _WEP40_ \/ algo = _WEP104_ ->
    Wep.key_ok (sec_info nic) (take 4 (Xf.iv x)) /\
    Wep.wep_key (RxPath.rx_sec rx) (take 4 (Xf.iv x)) = Wep.wep_key (sec_info nic) (take 4 (Xf.iv x));
  ls_tkip : algo = _TKIP_ ->
    if Xf.bmcast x then
      binstallGrpkey (RxPath.rx_sec rx) <> 0 /\
      exists tk, dot118021XGrpKey (sec_info nic) !! Z.to_nat (dot118021XGrpKeyid (sec_info nic)) = Some tk /\
        dot118021XGrpKey (RxPath.rx_sec rx) !! Z.to_nat (Z.land (Z.shiftr (nthZ (Xf.iv x) 3) 6) 3) = Some tk
    else Xf.dot118021x_UncstKey x = Wi.dot118021x_UncstKey (Wdn.info n);
}.

(** A receive descriptor with 32 bytes of driver information, of a frame that is
    no fragment. *)
Record describes (desc : list Z) (r : Rx.rxd_detail_new) (qos : bool) : Prop := {
  ds_desc : length desc = 56%nat;
  ds_rxd : Rx.rxd_of desc = Ret r;
  ds_drvinfo : Rx.drvinfo_size r = 4;
  ds_type : Rx.wf_rx_data_type desc = Ret Rx.WF_PKT_TYPE_FRAME;
  ds_qos : nz (Rx.qos r) = qos;
  ds_frag : Rx.frag r = 0 /\ Rx.more_frag r = 0;
}.

Section Sent.
Context (w : Wdn.wdn_list) (nt : Wdn.wdn_node_st) (key : list Z) (seq : Z).
Context (Hpr : TxFrame.prepared nic w x msdu nt) (Hmode : TxFrame.transmits (work_mode nic)).
Context (Hbss : length (cur_bssid nic) = 6%nat) (Hmsdu : (14 <= length msdu)%nat) (Hb : bytes_ok msdu).
Context (Hsoft : soft_cipher algo) (Hls : listens).
Let qos := nz (Wi.qos_option (Wdn.info nt)).
Let pri := if qos then Xf.priority x else 0.
Let fc := TxFrame.frame_control_of (work_mode nic) qos (nz algo).
Let body := TxFrame.tx_set_snap (be_word (take 2 (drop 12 msdu))) ++ drop 14 msdu.
Let front := TxFrame.header fc a1 a2 a3 seq ++ if qos then le_bytes 2 pri else [].
Let iv := take (Z.to_nat (Xf.iv_len x)) (Xf.iv x).

(** What the receiver leaves behind the packet: Michael's code under TKIP. *)
Definition appended : list Z :=
  if algo =? _TKIP_ then Mic.michael key (take 6 msdu ++ take 6 (drop 6 msdu) ++ [pri; 0; 0; 0] ++ body) else [].

Lemma mpdu_parts : TxFrame.mpdu nic x qos msdu seq key = (front ++ iv) ++ body ++ appended.
Proof using All. unfold TxFrame.mpdu, front, iv, appended. by rewrite <- !app_assoc. Qed.

Lemma air_addrs : length a1 = 6%nat /\ length a2 = 6%nat /\ length a3 = 6%nat.
Proof using All. by apply TxFrame.addrs_length. Qed.

Lemma front_length : Z.of_nat (length front) = Xf.hdrlen x.
Proof using All.
  destruct air_addrs as (L1 & L2 & L3). rewrite (TxFrame.pr_hdrlen _ _ _ _ _ Hpr). fold qos. unfold front, TxFrame.header.
  rewrite !length_app, !length_le_bytes, L1, L2, L3. destruct qos; cbn [length]; rewrite ?length_le_bytes; lia.
Qed.

Lemma cipher_lens : Xf.iv_len x = (RxPath.iv_icv algo).1 /\ Xf.icv_len x = (RxPath.iv_icv algo).2 /\
  TxFrame.trailer_of x = Xf.icv_len x /\ length iv = Z.to_nat (Xf.iv_len x) /\ 0 <= Xf.iv_len x <= 8.
Proof using All.
  destruct (TxFrame.pr_lens _ _ _ _ _ Hpr) as [H1 H2]. unfold TxFrame.trailer_of. rewrite H2.
  pose proof (TxFrame.pr_iv _ _ _ _ _ Hpr) as H3. fold algo in H1 |- *.
  unfold iv. rewrite length_take, H3.
  destruct Hsoft as [E | [E | [E | E]]]; rewrite E in *; cbn in H1; injection H1 as H4 H5; rewrite H4, H5; cbn; lia.
Qed.

(** The view of the sender's frame and of the received one agree. *)
Definition tx_view : SecTypes.xmit_frame := sec_view a2 x.
Definition rx_view : rx_sec_pkt :=
  mk_rx_sec_pkt [] (Z.of_nat (length (front ++ iv)) + Z.of_nat (length (body ++ appended)) + Xf.icv_len x)
    (Xf.hdrlen x) (Xf.iv_len x) (Xf.icv_len x) a1 a2 algo.

Lemma front_control : exists b0 b1 rest, front = [b0; b1; 0; 0] ++ a1 ++ a2 ++ a3 ++ rest /\ (2 <= length rest)%nat /\
  le_bytes 2 fc = [b0; b1] /\ Rx.frame_control b0 b1 = fc.
Proof using All.
  destruct (control_read _ _ qos (nz algo) (ls_faces Hls)) as (b0 & b1 & H1 & H2 & _).
  exists b0, b1, (le_bytes 2 (Z.shiftl seq 4) ++ if qos then le_bytes 2 pri else []).
  unfold front, TxFrame.header. fold fc in H1, H2. rewrite H1. split; [by rewrite <- !app_assoc |]. split; [| done].
  rewrite length_app, length_le_bytes. lia.
Qed.

Lemma lengths_agree : same_lengths tx_view rx_view (front ++ iv) (body ++ appended).
Proof using All.
  destruct cipher_lens as (C1 & C2 & _ & C3 & C4). pose proof front_length as Hf. destruct air_addrs as (L1 & L2 & L3).
  constructor; try done.
  - cbn [tx_view sec_view xf_hdrlen]. rewrite (TxFrame.pr_hdrlen _ _ _ _ _ Hpr). destruct (nz _); lia.
  - cbn [tx_view sec_view xf_hdrlen xf_iv_len]. rewrite length_app, C3. lia.
  - intros l. destruct front_control as (b0 & b1 & rest & -> & _ & _ & Hc).
    destruct (RxPath.prot_frame b0 b1 0 0 a1 a2 a3 (rest ++ iv ++ l) L1 L2 L3) as (v & Hv & Hz).
    exists v. rewrite <- !app_assoc. split; [exact Hv |]. rewrite Hz, Hc.
    destruct (control_read _ _ qos (nz algo) (ls_faces Hls)) as (? & ? & _ & _ & _ & _ & _ & _ & Hp & _). exact Hp.
Qed.

Lemma keys_shared tb n' : Wdn.wf_wdn_find_info tb (Some a2) = Some n' ->
  Wi.dot118021x_UncstKey (Wdn.info n') = Wi.dot118021x_UncstKey (Wdn.info n) ->
  shared_keys (sec_info nic) (RxPath.rx_sec rx) tb tx_view rx_view (front ++ iv).
Proof using All.
  intros Hn Hk. destruct cipher_lens as (C1 & C2 & _ & C3 & C4). pose proof front_length as Hf.
  assert (Hdrop : drop (Z.to_nat (Xf.hdrlen x)) (front ++ iv) = iv).
  { rewrite <- Hf, Nat2Z.id. by rewrite drop_app_length. }
  split; cbn [tx_view sec_view xf_encrypt_algo xf_hdrlen].
  - intros E. unfold Wep.iv_at. rewrite Hdrop. unfold iv.
    assert (Hv : Xf.iv_len x = 4) by (rewrite C1; fold algo in E; by destruct E as [-> | ->]).
    rewrite Hv, take_take. change (Z.to_nat 4 `min` Z.to_nat 4)%nat with 4%nat. by apply (ls_wep Hls).
  - intros E. pose proof (ls_tkip Hls E) as K. pose proof (TxFrame.pr_bmcast _ _ _ _ _ Hpr) as Hbm.
    fold addrs a1 in Hbm.
    assert (Hv : Xf.iv_len x = 8) by (rewrite C1; fold algo in E; by rewrite E).
    assert (H3 : nthZ (front ++ iv) (Xf.hdrlen x + 3) = nthZ (Xf.iv x) 3).
    { unfold nthZ. rewrite lookup_total_app_r by lia. unfold iv. rewrite Hv.
      replace (Z.to_nat (Xf.hdrlen x + 3) - length front)%nat with 3%nat by lia.
      rewrite !list_lookup_total_alt, lookup_take. done. }
    unfold Tkip.keys_match. cbn [rx_view tx_view sec_view rxp_tx_addr xf_addr2 xf_bmcast rxp_rx_addr xf_hdrlen xf_UncstKey].
    rewrite H3. destruct (Xf.bmcast x).
    + destruct K as (K1 & tk & K2 & K3). exists tk. by split_and!.
    + exists (Xf.dot118021x_UncstKey x). split; [done |]. split; [done |]. split; [done |]. exists n'. split; [done |]. by rewrite Hk, K.
Qed.

(** The receiver accepts the frame. *)
Lemma frame_accepted b0 b1 desc r : le_bytes 2 fc = [b0; b1] -> describes desc r qos ->
  RxPath.accepted rx b0 b1 a1 a2 a3 (Rs.wdn s) n (RxPath.info_of r).
Proof using All.
  intros Hfc Hds. destruct (control_read _ _ qos (nz algo) (ls_faces Hls)) as (c0 & c1 & H1 & H2 & H3 & H4 & H5 & H6 & H7 & H8).
  fold fc in H1, H2, H3, H4, H5, H6, H7. assert (c0 = b0 /\ c1 = b1) as [-> ->] by (rewrite Hfc in H1; by injection H1).
  constructor; rewrite ?H2; try done.
  - destruct (ls_faces Hls) as [[_ ->] | [[_ ->] | [_ ->]]]; unfold TxFrame.transmits; tauto.
  - apply (ls_addrs Hls).
  - apply (ls_node Hls).
  - apply (ls_rec Hls).
  - exact (rxd_tid _ _ (ds_rxd _ _ _ Hds)).
  - rewrite H8. apply (ls_hears Hls).
  - unfold Rx.is_retry_of. rewrite H2, H6. by rewrite andb_false_r.
  - exact (ds_frag _ _ _ Hds).
Qed.

(** What the receiver makes of the bytes on the air, when they decrypt to the
    frame. *)
Lemma handed eb icv g2 desc r post junk : describes desc r qos -> rxp_len rx_view < 2 ^ 30 ->
  Z.of_nat (length eb) = Z.of_nat (length (body ++ appended)) + Xf.icv_len x -> Z.of_nat (length icv) = Xf.icv_len x ->
  (if nz algo
   then Sec.wf_sec_decryptor (Rs.crc s) (RxPath.rx_sec rx) (RxPath.table_after (Rs.wdn s) n (RxPath.info_of r))
          (set_rxp_data rx_view ((front ++ iv) ++ eb)) = Ret (0, g2, (front ++ iv) ++ (body ++ appended) ++ icv, true)
   else eb = body ++ appended /\ icv = []) ->
  let air := (front ++ iv) ++ eb in
  let len := 56 + Z.of_nat (length air) in
  wp (RxPath.mpdu_process rx junk (desc ++ air ++ post) len s) (fun tr _ =>
    exists skb tr', tr = (RxPath.AllocSkb (len + 14), skb) :: tr' /\
      (skb = 0 -> tr' = []) /\ (skb <> 0 -> RxPath.got tr' = [msdu ++ appended])).
Proof using All.
  intros Hds Hl30 Hel Hicv Hd2 air len. destruct cipher_lens as (C1 & C2 & C3 & C4 & C5).
  destruct front_control as (b0 & b1 & rest & Hfr & Hrl & Hfc & Hctl).
  pose proof (frame_accepted b0 b1 desc r Hfc Hds) as Hac.
  assert (Htype : length (take 2 (drop 12 msdu)) = 2%nat) by (rewrite length_take, length_drop; lia).
  assert (Hal : Z.of_nat (length air) = rxp_len rx_view)
    by (unfold air, rx_view; cbn [rxp_len]; rewrite (length_app (front ++ iv)); lia).
  destruct (four (rest ++ iv ++ eb)) as (s0 & s1 & q0 & q1 & bd & Hrest).
  { rewrite !length_app. assert (length body = 8 + length (drop 14 msdu))%nat by (unfold body; by rewrite length_app).
    rewrite length_app in Hel. pose proof (RxPath.iv_icv_range algo). lia. }
  assert (Hair : air = Rx.frame_bytes b0 b1 0 0 a1 a2 a3 (s0 :: s1 :: q0 :: q1 :: bd)).
  { unfold air, Rx.frame_bytes. rewrite <- Hrest, Hfr, <- !app_assoc. done. }
  destruct (control_read _ _ qos (nz algo) (ls_faces Hls)) as (? & ? & _ & _ & _ & _ & _ & _ & Hprot & _).
  fold fc in Hprot. rewrite <- Hctl in Hprot.
  destruct air_addrs as (L1 & L2 & L3). pose proof (RxPath.ac_mode _ _ _ _ _ _ _ _ _ Hac) as Hrm.
  set (i := RxPath.info_of r) in *. set (j := RxPath.noted rx b0 b1 q0 q1 a1 a2 a3 n i).
  destruct (RxPath.noted_addrs rx b0 b1 q0 q1 a1 a2 a3 n i Hrm) as (N1 & N2 & N3).
  destruct (RxPath.noted_rest rx b0 b1 q0 q1 a1 a2 a3 n i Hrm) as (N4 & N5 & N6 & N7 & _).
  assert (Hc : RxPath.cipher rx b0 b1 a1 n = algo) by (unfold RxPath.cipher; rewrite Hprot; apply (ls_cipher Hls)).
  rewrite Hc in N4, N5, N6. rewrite <- C1 in N5. rewrite <- C2 in N6. fold j in N1, N2, N3, N4, N5, N6, N7.
  assert (Hq : Info.wlan_hdr_len j = Xf.hdrlen x).
  { rewrite N7, (TxFrame.pr_hdrlen _ _ _ _ _ Hpr). fold qos. rewrite <- (ds_qos _ _ _ Hds). done. }
  assert (Hda : (Info.dst_addr j, Info.src_addr j) = (take 6 msdu, take 6 (drop 6 msdu)))
    by (rewrite N3; exact (addrs_back _ _ _ _ _ (ls_faces Hls))).
  injection Hda as Hda Hsa.
  destruct (snap_of_type _ Htype ltac:(by apply Forall_take, Forall_drop)) as (snap & Hsnap & Hsf).
  pose proof (RxPath.delivered rx r b0 b1 0 0 s0 s1 q0 q1 a1 a2 a3 bd desc post L1 L2 L3 s junk n g2
    ((front ++ iv) ++ (body ++ appended) ++ icv) (front ++ iv) snap (take 2 (drop 12 msdu)) (drop 14 msdu ++ appended) icv) as Hdel.
  fold i in Hdel. rewrite Hprot in Hdel. cbv zeta in Hdel. fold j in Hdel. rewrite <- Hair in Hdel.
  assert (Hlen : Z.of_nat (length (desc ++ air)) = len)
    by (unfold len; rewrite length_app, (ds_desc _ _ _ Hds); lia).
  rewrite Hlen in Hdel. eapply wp_mono, Hdel; clear Hdel.
  - intros tr st (skb & tr' & -> & H0 & H1). exists skb, tr'. split; [done |]. split; [by intros E; destruct (H0 E) |].
    intros E. destruct (H1 E) as [-> _]. rewrite Hda, Hsa. by rewrite msdu_joined.
  - constructor; rewrite <- ?Hair.
    + exact (ds_desc _ _ _ Hds).
    + rewrite rxd_front by (rewrite (ds_desc _ _ _ Hds); lia). exact (ds_rxd _ _ _ Hds).
    + exact (ds_drvinfo _ _ _ Hds).
    + rewrite type_front by (rewrite (ds_desc _ _ _ Hds); lia). exact (ds_type _ _ _ Hds).
    + rewrite Hlen. unfold len. lia.
  - apply (ls_ba Hls).
  - exact Hac.
  - assert (Hv : RxPath.frame_view rx r b0 b1 0 0 s0 s1 q0 q1 a1 a2 a3 bd n = set_rxp_data rx_view air).
    { unfold RxPath.frame_view, set_rxp_data, rx_view. fold i j. rewrite <- Hair, Hal, N4, N5, N6, Hq. done. }
    rewrite Hv. revert Hd2. generalize (nz algo) as bb. intros [] Hd2; [exact Hd2 |]. destruct Hd2 as [-> ->].
    by rewrite app_nil_r.
  - unfold body. by rewrite Hsnap, <- !app_assoc.
  - unfold air. rewrite !(length_app (front ++ iv)), (length_app (body ++ appended)). lia.
  - exact Hsf.
  - rewrite length_app, Hq, N5. pose proof front_length. lia.
  - rewrite N6. revert Hicv Hd2. generalize (nz algo) as bb. intros [] Hi Hd2; [exact Hi |]. by destruct Hd2 as [_ ->].
  - by rewrite Hfr.
  - rewrite Hda. apply (ls_me Hls).
Qed.

(** The frame that was encrypted, and what the receiver hands on. *)
Lemma heard g d tail : let m := TxFrame.mpdu nic x qos msdu seq key in
  globals_ok g -> length d = 20%nat -> (8 <= length tail)%nat -> Z.of_nat (length m) < 2 ^ 29 ->
  exists g1 air tail',
    Sec.wf_sec_encrypt g (sec_info nic) (Some tx_view) (Some (d ++ m ++ tail)) (20 + (Z.of_nat (length m) + TxFrame.trailer_of x)) =
      Ret (0, g1, Some (d ++ air ++ tail')) /\
    Z.of_nat (length air) = Z.of_nat (length m) + TxFrame.trailer_of x /\
    forall desc r post junk, describes desc r qos ->
      let len := 56 + Z.of_nat (length air) in
      wp (RxPath.mpdu_process rx junk (desc ++ air ++ post) len s) (fun tr _ =>
        exists skb tr', tr = (RxPath.AllocSkb (len + 14), skb) :: tr' /\
          (skb = 0 -> tr' = []) /\ (skb <> 0 -> RxPath.got tr' = [msdu ++ appended])).
Proof using All.
  intros m Hg Hd Ht Hm. destruct cipher_lens as (C1 & C2 & C3 & C4 & C5). pose proof (RxPath.iv_icv_range algo) as Hrng.
  assert (Hmp : m = (front ++ iv) ++ body ++ appended) by apply mpdu_parts.
  assert (Hpb : bytes_ok (body ++ appended)).
  { apply bytes_ok_app. split.
    - apply bytes_ok_app. split; [apply TxFrame.snap_ok | by apply Forall_drop].
    - unfold appended. destruct (_ =? _); [apply michael_bytes | constructor]. }
  assert (Hlen : Z.of_nat (length m) + TxFrame.trailer_of x = rxp_len rx_view)
    by (unfold rx_view; cbn [rxp_len]; rewrite C3, Hmp; rewrite (length_app (front ++ iv)); lia).
  assert (Hl30 : rxp_len rx_view < 2 ^ 30) by lia.
  pose proof (fun tb n' H1 H2 => secured (sec_info nic) (RxPath.rx_sec rx) tb tx_view rx_view (front ++ iv) (body ++ appended)
    g d tail Hg Hd ltac:(lia) Hpb lengths_agree (keys_shared tb n' H1 H2) Hl30) as Hsec.
  cbn [tx_view sec_view xf_icv_len xf_encrypt_algo] in Hsec. fold algo in Hsec.
  destruct (Hsec _ _ (ls_node Hls) eq_refl) as (g1 & eb & icv0 & tail' & He & Hel & _ & _).
  exists g1, ((front ++ iv) ++ eb), tail'. rewrite Hlen, Hmp. rewrite <- (app_assoc (front ++ iv)), He.
  split; [by rewrite <- (app_assoc (front ++ iv)) |].
  split; [unfold rx_view; cbn [rxp_len]; rewrite (length_app (front ++ iv)); lia |]. intros desc r post junk Hds.
  destruct front_control as (b0 & b1 & rest & _ & _ & Hfc & _).
  destruct (RxPath.node_table _ _ _ _ _ _ _ _ _ (frame_accepted b0 b1 desc r Hfc Hds)) as (_ & _ & Hfind).
  destruct (Hsec _ _ Hfind eq_refl) as (g1' & eb' & icv & tl' & He' & Hel' & Hicv & Hdec).
  assert (eb' = eb) as -> by (rewrite He in He'; symmetry; eapply same_body; [exact He' | lia]).
  destruct (Hdec (Rs.crc s) (ls_globals Hls)) as (g2 & _ & Hd2). by apply (handed eb icv g2 desc r).
Qed.
End Sent.
End Roundtrip.

(** C1: a packet that [wf_xmit_frame_init] accepts and that fits into one
    fragment reaches the other side: [wf_tx_msdu_to_mpdu] builds its frame,
    [wf_sec_encrypt] encrypts it behind whatever descriptor was written in front
    of it, and a receiver in the matching work mode that knows the sender, has
    its keys and listens to the address hands, in [mpdu_process], exactly that
    packet to the network stack or to the reordering, whenever a buffer can be
    allocated; without one it does nothing.  This holds for station to access
    point, access point to station and ad-hoc, with and without QoS, for WEP,
    TKIP (group and pairwise keys) and no encryption.  Under TKIP the packet is
    followed by the eight bytes of Michael's code, which the receiver leaves
    there. *)
Theorem air_roundtrip {SC : StreamCipher} (nic : tx_nic) (w w1 : Wdn.wdn_list) (x x1 : Xf.xmit_frame)
    (msdu buf key : list Z) (rx : RxPath.rx_nic) (s : Rs.rx_info) (n : Wdn.wdn_node_st) :
  TxFrame.nodes_ok w -> TxFrame.transmits (work_mode nic) -> length (cur_bssid nic) = 6%nat ->
  bytes_ok msdu -> (14 <= length msdu)%nat -> (length msdu + 64 <= length buf)%nat -> (84 <= length buf)%nat ->
  Z.of_nat (length buf) < 2 ^ 29 -> length (Xf.iv x) = 18%nat ->
  TxFrame.wf_xmit_frame_init nic w x msdu (Z.of_nat (length msdu)) = Ret (true, w1, x1) ->
  TxFrame.fits (frag_thresh (hw_info nic)) x1 msdu -> TxFrame.mic_key_ok nic x1 key ->
  soft_cipher (Xf.encrypt_algo x1) -> listens nic x1 msdu rx s n ->
  exists nt w2 x2 frame,
    TxFrame.receiver nic w msdu = Some nt /\
    TxFrame.wf_tx_msdu_to_mpdu nic w1 x1 (Some buf) msdu (Z.of_nat (length msdu)) =
      Ret (true, w2, x2, Some (take 20 buf ++ frame)) /\ Xf.nr_frags x2 = 1 /\
    let a2 := (TxFrame.addrs_of (work_mode nic) (cur_bssid nic) (take 6 msdu) (take 6 (drop 6 msdu))).1.2 in
    forall g d, globals_ok g -> length d = 20%nat ->
    exists g1 air rest,
      Sec.wf_sec_encrypt g (sec_info nic) (Some (sec_view a2 x2)) (Some (d ++ frame)) (TXDESC_SIZE + Xf.last_txcmdsz x2) =
        Ret (0, g1, Some (d ++ air ++ rest)) /\
      Z.of_nat (length air) = Xf.last_txcmdsz x2 /\
      forall desc r post junk, describes desc r (nz (Wi.qos_option (Wdn.info nt))) ->
        let len := 56 + Z.of_nat (length air) in
        wp (RxPath.mpdu_process rx junk (desc ++ air ++ post) len s) (fun tr _ =>
          exists skb tr', tr = (RxPath.AllocSkb (len + 14), skb) :: tr' /\
            (skb = 0 -> tr' = []) /\
            (skb <> 0 -> RxPath.got tr' = [msdu ++ appended x1 msdu nt key])).
Proof.
  intros Hw Hmode Hbss Hmb Hm Hb1 Hb2 Hb3 Hiv Hinit Hfit Hkey Hsoft Hls.
  destruct (TxFrame.init_prepared nic w x msdu _ w1 x1 Hw Hmode Hiv Hmb Hm Hinit) as (nt & pn & Hn & _ & Hw1 & Hpr).
  destruct (TxFrame.mpdu_built nic w1 x1 msdu buf key _ Hw1 Hmode Hbss Hm ltac:(lia) Hmb Hpr Hb2 Hb1 Hfit Hkey)
    as (w2 & x2 & tail & Hx & Hlen & _ & _ & Hnf & Hlast & Hsame & Htail).
  set (seq := Z.land _ _) in *. set (nt' := Wdn.mk_node _ _) in *.
  exists nt, w2, x2, (TxFrame.mpdu nic x1 (nz (Wi.qos_option (Wdn.info nt'))) msdu seq key ++ tail).
  split; [done |]. split; [exact Hx |]. split; [done |]. intros a2 g d Hg Hd.
  injection Hsame as S1 S2 S3 S4 S5 S6 _ _.
  assert (Hv : sec_view a2 x2 = sec_view a2 x1) by (unfold sec_view; by rewrite S1, S2, S3, S4, S5, S6).
  rewrite Hv, Hlast. rewrite !length_app in Hlen.
  apply (heard nic x1 msdu rx s n w1 nt' key seq Hpr Hmode Hbss Hm Hmb Hsoft Hls g d tail Hg Hd Htail). lia.
Qed.

#[local] Existing Instance Arc4.arc4_cipher.

Definition wit_sta : list Z := [2; 0; 0; 0; 0; 3].
(** An IP packet of type of service 0xa0 from a station to its access point. *)
Definition wit_msdu : list Z :=
  TxFrame.wit_ap ++ wit_sta ++ [8; 0] ++ [0x45; 0xa0] ++ repeat 0 7 ++ [1] ++ repeat 7 20.
Definition wit_peer : Wdn.wdn_node_st :=
  Wdn.mk_node 3 (Wi.set_seq_ctrl_recorder (repeat 0 16) (Wi.set_dot118021x_UncstKey (repeat 5 16)
    (Wi.set_dot118021XPrivacy _TKIP_ (Wi.set_mac wit_sta Wi.zero)))).
Definition wit_rx : RxPath.rx_nic :=
  RxPath.mk_rx_nic Rx.WF_MASTER_MODE TxFrame.wit_ap TxFrame.wit_ap (sec_info (TxFrame.wit_nic 2346)) true 1.
Definition wit_state : Rs.rx_info :=
  Rs.mk_rx_info (Wdn.mk_wdn_list [wit_peer] [] 1) crc_globals0 ∅ (seq 0 20)
    (replicate 20 (mk_frag Info.zero 0 0 0 0)) 0 0 0 0 0 0 0.
Definition wit_desc : list Z :=
  le_bytes 4 (3 + Z.shiftl 4 14) ++ le_bytes 4 (Z.shiftl 1 27 + Z.shiftl 5 28) ++ repeat 0 48.

Lemma wit_listens w1 x1 :
  TxFrame.wf_xmit_frame_init (TxFrame.wit_nic 2346) TxFrame.wit_table Xf.zero wit_msdu (Z.of_nat (length wit_msdu)) = Ret (true, w1, x1) ->
  Xf.encrypt_algo x1 = _TKIP_ /\ TxFrame.fits 2346 x1 wit_msdu /\ TxFrame.mic_key_ok (TxFrame.wit_nic 2346) x1 (repeat 1 16) /\
  listens (TxFrame.wit_nic 2346) x1 wit_msdu wit_rx wit_state wit_peer.
Proof.
  intros E. vm_compute in E. injection E as _ <-. split; [reflexivity |]. split; [right; vm_compute; congruence |]. split.
  - intros _. split_and!; [reflexivity | discriminate | by apply bytes_okb_ok | reflexivity].
  - constructor; first [reflexivity | apply NoDup_singleton | apply globals0_ok | by intros [] | by left].
Qed.

Lemma wit_describes : exists r, describes wit_desc r true.
Proof. eexists. constructor; try reflexivity. by split. Qed.

Lemma air_roundtrip_witness :
  exists w1 x1 w2 x2 frame g1 air rest mic,
    TxFrame.wf_xmit_frame_init (TxFrame.wit_nic 2346) TxFrame.wit_table Xf.zero wit_msdu (Z.of_nat (length wit_msdu)) =
      Ret (true, w1, x1) /\
    TxFrame.wf_tx_msdu_to_mpdu (TxFrame.wit_nic 2346) w1 x1 (Some (repeat 9 200)) wit_msdu (Z.of_nat (length wit_msdu)) =
      Ret (true, w2, x2, Some (repeat 9 20 ++ frame)) /\
    Sec.wf_sec_encrypt crc_globals0 (sec_info (TxFrame.wit_nic 2346)) (Some (sec_view wit_sta x2)) (Some (repeat 1 20 ++ frame))
      (TXDESC_SIZE + Xf.last_txcmdsz x2) = Ret (0, g1, Some (repeat 1 20 ++ air ++ rest)) /\
    wp (RxPath.mpdu_process wit_rx 0 (wit_desc ++ air ++ [7; 7]) (56 + Z.of_nat (length air)) wit_state) (fun tr _ =>
      exists skb tr', tr = (RxPath.AllocSkb (56 + Z.of_nat (length air) + 14), skb) :: tr' /\
        (skb = 0 -> tr' = []) /\ (skb <> 0 -> RxPath.got tr' = [wit_msdu ++ mic])).
Proof.
  assert (Hi : exists w1 x1, TxFrame.wf_xmit_frame_init (TxFrame.wit_nic 2346) TxFrame.wit_table Xf.zero wit_msdu
    (Z.of_nat (length wit_msdu)) = Ret (true, w1, x1)) by (eexists _, _; vm_compute; reflexivity).
  destruct Hi as (w1 & x1 & E). destruct (wit_listens w1 x1 E) as (Ha & Hf & Hk & Hl).
  destruct wit_describes as [r Hd].
  destruct (air_roundtrip (TxFrame.wit_nic 2346) TxFrame.wit_table w1 Xf.zero x1 wit_msdu (repeat 9 200) (repeat 1 16)
    wit_rx wit_state wit_peer TxFrame.tx_table_ok (or_introl eq_refl) eq_refl ltac:(by apply bytes_okb_ok) ltac:(cbn; lia)
    ltac:(cbn; lia) ltac:(cbn; lia) ltac:(cbn; lia) eq_refl E Hf Hk (or_intror (or_intror (or_intror Ha))) Hl)
    as (nt & w2 & x2 & frame & Hn & Hx & _ & H).
  assert (Hw : TxFrame.receiver (TxFrame.wit_nic 2346) TxFrame.wit_table wit_msdu = Some TxFrame.wit_node) by (vm_compute; reflexivity).
  pose proof (eq_trans (eq_sym Hw) Hn) as Hnn. apply (inj Some) in Hnn. subst nt.
  destruct (H crc_globals0 (repeat 1 20) globals0_ok eq_refl) as (g1 & air & rest & He & _ & Hr).
  exists w1, x1, w2, x2, frame, g1, air, rest, (appended x1 wit_msdu TxFrame.wit_node (repeat 1 16)).
  split; [exact E |]. split; [exact Hx |]. split; [exact He |]. exact (Hr wit_desc r [7; 7] 0 Hd).
Defined.
End Air.
